(* ===== verification/_CoqProject ===== *)
-Q . S2P
Prelude.v
NfsConst.v
Layers.v
Scapy.v
Xdr.v
Rpc.v
NfsState.v
NfsHandler.v
NfsWalk.v
Json.v
PyText.v
Tasks.v
JsonLayout.v
NfsSensor.v
Bridge.v
BridgeTasks.v
Http.v
Actuation.v
WrapperConfig.v
Wrapper.v
Protocol.v
WrapperProtocol.v
WrapperRun.v
Deployed.v
ConfigLoader.v
Installer.v
InstallerSpec.v
Ctypes.v
NtStructs.v
NtEvents.v
NtFltMgr.v
WinVirtue.v
WinThreads.v
Wvucmd.v
CommandSensors.v
LsofSensor.v
DemoSensors.v
WinService.v
Tools.v
KernelRelay.v
BccSensor.v
BccThreads.v
CertTool.v
NtQuerySys.v
ProcessList.v
HandleList.v
ServiceThreads.v
Pipeline.v
