(* ===== verification/Prelude.v ===== *)
(** * A verification library for the VirtUE sensing framework

    VirtUE sensing watches virtual machines ("virtues") with small Python
    programs, the sensors.  A sensor observes something, wraps each observation
    in a JSON message and sends it to Kafka; a common wrapper obtains its keys
    from the Sensing API, registers it and lets the API reconfigure it over
    HTTPS.  This library models the Python code of the repository, on Linux and
    on Windows, and proves what makes it correct.

    ** The parts and their files

    The NFS sensor, [targets/nfs-sensor-target/sensor/], follows file activity
    in captured network traffic.
    - [NfsConst] is [nfs_const.py]: every table of names and values.
    - [Layers] is the data of [nfs.py]: each packet class with its fields and
      its [guess_payload_class], and the call and reply dispatch tables.
    - [Scapy] is the interface to scapy, a git submodule that is not in the
      repository: the class [Scapy] of two operations, the class [ScapyLaws] of
      the documented behaviour of the field classes [nfs.py] uses, and
      [RefScapy], an executable instance of both.
    - [Xdr] states the RFC 1813 layout of the data types on its own and proves
      that the packet classes read it (round trips), and where they do not.
    - [Rpc] is the behaviour of [nfs.py]: [pre_dissect] and [post_dissection]
      of the RPC classes over the tables of open transactions.
    - [NfsState] is [nfs_state_monitor.py]: the maps between handles, names and
      mounts.
    - [NfsHandler] is [nfs_packet_handler.py]: one report handler for each
      procedure and [_handler_core], which reports and then updates [NfsState].
    - [NfsWalk] follows a client from the mount to a file through both.
    - [NfsSensor] is [sensor_nfs.py] and the standalone taps: captures to
      messages.

    The desktop bridge, [targets/desktop-bridge-target/sensor/bridge.py], is
    [Bridge]: documents from local connections to messages.  [BridgeTasks] is the
    same with several connections at once, on the tasks of [Tasks].

    The wrapper, [sensors/wrapper/sensor_wrapper.py]:
    - [Http] is the HTTP side: [send_json], [http_handler], [wait_for_json] and
      the [route_] handlers.  The [routes] package is the class [Routes], whose
      documented laws are [RoutesLaws]; [RefRoutes] is an instance of both.
    - [Actuation] is the running wrapper while requests reconfigure it: the message
      queue, the log drains and the sensing methods as a step relation.
    - [WrapperConfig] is the options, [check_identification] and helpers.
    - [Wrapper] is the life cycle: the requests to the Sensing API, [main],
      [start], the synchronisation, the log drain and the sensing tasks.  The
      API, clock, file system, RSA and TLS are the class [World], oracles over
      the history of events.
    - [Protocol] is the contract of a life cycle: an automaton over the events,
      with the class [Trust] for what a client does about the keys, and what
      the automaton rules out whoever follows it.
    - [WrapperProtocol] proves that [start] follows it.
    - [WrapperRun] is a complete run against an API that keeps its promises,
      and a concrete [World].
    - [Deployed] is the older wrapper that is shipped with three targets
      ([targets/*/common_libraries/], [targets/demo-target/sensor_libraries/]),
      where it differs from [Wrapper].
    - [LsofSensor] is [sensors/dummy/lsof_sensor.py], the program the wrapper
      was made from, which follows the same contract with another [Trust].

    The sensors on Linux, whose messages the wrapper sends:
    - [CommandSensors] is [sensors/sensor_ps/], [sensor_kernel_ps/],
      [sensor_netstat/], [sensor_lsof/], [sensor_tcpdump/] and
      [sensor_tasklist/] (Windows): the parsers of a command's output.
    - [KernelRelay] is [sensors/sensor_linux_kernel/sensor_kernel.py], and in
      its Module [Kernel] the texts which the kernel module writes for it
      ([control/kernel/]).
    - [DemoSensors] is [targets/demo-target/sensors/], the older ps, netstat,
      lsof and tcpdump sensors.
    - [BccSensor] is [sensors/sensor_bcc/sensor_bcc.py], and [BccThreads] its two
      threads with the lock between them, which refine the tasks of [Tasks].

    The sensors on Windows, fed by a file system filter driver:
    - [Ctypes] is what they use of Python's [ctypes].
    - [NtStructs] is the data of [sensors/ntfltmgr/ntfltmgr.py]: enumerations,
      structures and the [build] method of each.
    - [NtEvents] is the driver's side of that data, after the header file
      [control/win-kernel/inc/WVUKernelUserComms.h]: the packets it lays out.
    - [NtFltMgr] is the port of [ntfltmgr.py]: events, commands, enumerations.
      Windows is the class [FltLib].
    - [WinVirtue] is [sensor_winvirtue.py] of
      [targets/win-target/sensor_service/WinVirtUE/]: one wrapper and one queue
      for each sensor of the driver.  [WinThreads] is its threads: the turns of the
      pump, the consumers and [stop] in any order.
    - [Wvucmd] is [sensors/wvucmd/wvucmd.py], a command line for the driver.
    - [WinService] is what surrounds the service: its installation
      ([install_sensor_service] and [install_ntfltmgr] of
      [bin/install_sensors.py]), the configuration it writes and how
      [service_winvirtue.py] and the sensors read it, and
      [sensors/sensor_kernelprobe/].
    - [ServiceThreads] is the sensors that are services while they run: [start],
      [stop] and the tasks in any order, and [WinVirtUE_service] around its thread.

    Other sensors on Windows:
    - [NtQuerySys] is [sensors/ntquerysys/ntquerysys.py]: the processes,
      threads and handles of the system.  Windows is the class [NtSys].
    - [ProcessList] is [sensors/sensor_processlist/], on those queries.
    - [HandleList] is [sensors/sensor_handlelist/], which cuts the output of
      the command [handle.exe].

    The tools:
    - [ConfigLoader] is [bin/load_sensor_configurations.py]: finding,
      installing and listing sensor configurations.  The Sensing API is the
      class [ConfigApi] with the laws [ApiLaws], which say what it takes and what
      it refuses as its source does, and [RefApi] is an instance.
    - [Installer] is [bin/install_sensors.py]: finding sensors, kernel modules
      and targets and installing into each target what it asks for;
      [InstallerSpec] is what an installation leaves behind.
    - [CertTool] is [tools/certificates/get_certificates.py], with the class
      [Cfssl] for the certificate service.
    - [Tools] is the small programs: [control/kernel/KernelSensor-standalone.py],
      [control/kernel/kill_proc.py] and [bin/clear_network.py].

    [Pipeline] composes the sensing methods of both systems with the running
    wrapper: what the wrapper needs of a method is the class [Source], which ten
    kinds of them implement.

    [Json] is what all of these use of Python's [json] module and of UTF-8, with
    the theorems the clients need: [loads_dumps], and [loads_prefix] (a proper
    prefix of a document does not parse).  [JsonLayout] adds documents in any
    white-space layout and [PyText] Python's text methods.  This file holds the
    exceptions, the result and state monads, Hoare triples over them, ordered
    dictionaries, bytes, strings, and the tactics and hint databases.

    ** How state and effects are modelled

    Fallible code returns [res] (a value or a Python exception).  Stateful code
    is a computation of [M S], a function from the state to a result and a
    state: the writes before an exception stay, as in Python.  A module's
    globals, queues and attributes are the record [S].  What code does to the
    outside (responses, tasks, files, requests) is an event appended to a trace
    in the state, so that theorems speak of the order of effects.

    Where tasks or threads share state, each of them is cut into the steps between
    which others may run, and a schedule is a sequence of such steps.  [Tasks] has
    the step relation of producers that share a queue with one consumer, with what
    holds of every schedule: order, completeness, termination.

    What is not in the repository is a class whose operations the definitions
    take and whose laws, where a theorem needs them, are named hypotheses.
    Some modelling choices are worth knowing:
    - a ctypes pointer into a packet reads memory, and [beyond] is what lies
      behind the packet; the layout is the natural one of x64 Windows;
    - a disk is a map of absolute paths, resolved lexically, without links; its
      listing order is the map's;
    - the kernel module's socket is a sequence of arrivals and silences, the
      output of a command a list of lines;
    - a configuration file of the Windows sensor is the parameters read from it.

    ** What the theorems show

    - NFS parsing: record markers are those of the RFC up to 64 KiB; replies
      meet their calls across other traffic; attributes, settable attributes
      and LOOKUP replies are read as the RFC lays them out.
    - NFS paths: after a mount and a descent by LOOKUPs, among other traffic, what
      is done to the file is reported under its full path.
    - NFS state: a looked-up handle resolves to its path and back, the two maps
      stay inverse along fresh mappings, unmounting forgets what is below, and
      reports agree with the state and never write it.  Deletions are not
      tracked, and the theorem says why.
    - Messages: what reaches a queue decodes to the stub, the time, the level
      and the observation.
    - From observation to Kafka: of any methods that implement [Source], in any
      interleaving and under any reconfiguration, the values sent decode to the
      documents of their observations, of each method in its order, one for each,
      and to all that were put once the queue is empty.
    - Bridge: documents are queued and forwarded once and in order, however
      they are cut into lines between visible characters, up to the first that is
      false in Python, and reading ends.
    - Schedules: connections of the bridge and tools of the bcc sensor do not
      disturb each other, nothing is lost or doubled and no schedule goes on
      forever; the bcc consumer never waits while it holds the lock; a failing tool
      ends all.  Requests one at a time take effect; two at the same time can
      leave a log drain behind.
    - HTTP: responses are framed, bodies are reassembled from any pieces, every
      request is answered at most once, actuation does its steps in order.
    - Life cycle: whatever the outside does, [start] follows the protocol; keys
      are stored only after an answer signed for the pinned certificate and
      with no server up, tasks are spawned only after registration, waiting
      ends (if the clock is not set back meanwhile), and an honest API leads to a registered sensor.  The older wrapper
      and the stand-alone lsof sensor follow the same protocol; they differ in
      whom they trust with their keys, which [Trust] says.
    - Linux sensors: the records of netstat, ps and lsof are those of the
      lines, with the lines that are misread; the relay forwards every record
      of the kernel module with plain texts, once and in order, and ends at a line
      it cannot parse; the records of the bcc tools reach the queue under their levels.
    - Windows sensors: an event decodes to what the driver laid out and no byte
      behind a packet is read, events are received and answered one by one, the
      driver's sensors are enumerated in full, and each event up to the first that
      cannot be decoded is put on the queue of its own sensor and sent when its
      level is asked for.  The
      installation gives each sensor a configuration with a port of its own;
      the command line for the driver never connects to it.
    - Windows system: structures are read as Windows lays them out, each process
      is reported once with its threads, each block of [handle.exe] once, and
      in both cases the last one not at all.
    - Windows services: in any order of the threads a loop puts what whole rounds
      put, which is what the theorems on the sensors speak of; after a stop no
      round begins and the service rests within a bounded number of steps, returned
      if its wrapper waits for the event that the stop sets.
    - Loader: an installation merges what the API finds valid of a document into
      its tables and nothing else, and installing what is there changes nothing.
    - Installer: an installation writes below the target's directory only,
      places every file that is asked for with what its source holds and lists
      them, the build script comes
      back to the directory it started from, and definitions that do not check
      install nothing.
    - Certificates: the service reads the request it is sent, files are written
      only after every answer was accepted, and an honest service leads to
      all of them.
    - Divergences: theorems also state where the code does not do what it
      means to (a body cut short, a stop signal, the pin on deregistration,
      columns that are misread, directories that are not checked).

    ** Fuel

    [RefScapy] takes fuel for packet classes within packet classes, and
    [Scapy] proves that the depth of the class is enough for every input.  The
    readers of [Bridge] and [Http] take one round more than the stream has
    bytes, and [Bridge] proves that more changes nothing.  [Json.loads] takes
    one more than the length of the text, and so do the block-wise digest and
    the reader of hexadecimal digits of what they read.  The loops without a
    bound ([wait_for_json], [wait_loop], [sync_loop], [start_loop], the polling
    of the sensors and the port's wait for a message) run for a number of
    rounds, and their results say when they are still running:
    [Wrapper] gives the number of rounds after which [wait_loop] has ended, [NtQuerySys] that the loop over processes ends within one more round
    than there are bytes, and [NtFltMgr] proves that a message which arrives ends the wait
    after any number of looks that reaches it.

    ** What is not modelled

    Logging; argparse; the sockets and TLS below the streams; failures inside
    the tasks [main] does not join; cancellation at arbitrary points; the
    barrier of the Windows sensor, which nothing waits at; what the queues of
    [curio] do inside.  Of Python:
    - of [sensors/ntquerysys/] the objects behind handles, whose names are read
      through a released buffer;
    - of [service_winvirtue.py] the log handlers, the installation as a service and
      the branch for a thread that cannot be started;
    - of the older wrapper what it has in common with [Wrapper], and the second
      and third copy of it, which are the same text; the other copies of
      [get_certificates.py], the same program up to a line of the log;
    - of [ntfltmgr.py] the test functions at its end, and the [build] methods of
      [COMMAND_MESSAGE] and [RESPONSE_MESSAGE], which nothing calls;
    - of [bridge.py] the variants on [asyncio], which nothing calls;
    - the interactive loop of [wvucmd.py], which is Python's module [cmd].
    The controller (Elixir), the kernel drivers beyond the structures above (C,
    C++) and the container files are other languages. *)


From Stdlib Require Export ZArith Lia Ascii.
From Stdlib Require String Strings.Byte.
From stdpp Require Export gmap strings pretty countable.
From stdpp Require Export list prelude.

#[global] Set Default Goal Selector "!".
#[global] Open Scope Z_scope.

(** * Python exceptions and results *)

(** The exceptions the modelled code raises or lets through. *)
Inductive exn :=
  | KeyError | AttributeError | TypeError | ValueError | NameError
  | RuntimeError | AssertionError | StructError | UnicodeDecodeError
  | ConnectionError | TaskError | CancelledError | OSError | JSONDecodeError
  | IndexError | SystemExit.

#[global] Instance exn_eq_dec : EqDecision exn.
Proof. solve_decision. Defined.

(** The value of a Python expression: a result or a raised exception. *)
Inductive res (A : Type) :=
  | Ok (a : A)
  | Raise (e : exn).
Arguments Ok {A} _.
Arguments Raise {A} _.

Definition res_bind {A B} (m : res A) (f : A -> res B) : res B :=
  match m with
  | Ok a => f a
  | Raise e => Raise e
  end.

Definition res_map {A B} (f : A -> B) (m : res A) : res B :=
  res_bind m (fun a => Ok (f a)).

Definition is_ok {A} (m : res A) : bool :=
  match m with Ok _ => true | Raise _ => false end.

(** Lifts an option, [None] raising [e]. *)
Definition opt_res {A} (e : exn) (o : option A) : res A :=
  match o with Some a => Ok a | None => Raise e end.

Declare Scope py_scope.
Delimit Scope py_scope with py.

Notation "'let?' x ':=' m 'in' k" := (res_bind m (fun x => k))
  (at level 10, x pattern, m at level 100, k at level 200,
   format "'[v' 'let?'  x  ':='  m  'in' '/' k ']'") : py_scope.

#[global] Open Scope py_scope.

Fixpoint res_mapM {A B} (f : A -> res B) (l : list A) : res (list B) :=
  match l with
  | [] => Ok []
  | a :: l =>
      let? b := f a in
      let? bs := res_mapM f l in
      Ok (b :: bs)
  end.

(** * Computations on a global state *)

(** Python code that reads and writes module globals and may raise: the
    writes made before an exception stay. *)
Definition M (S A : Type) : Type := S -> res A * S.

Definition ret {S A} (a : A) : M S A := fun s => (Ok a, s).
Definition throw {S A} (e : exn) : M S A := fun s => (Raise e, s).
Definition bind {S A B} (m : M S A) (f : A -> M S B) : M S B :=
  fun s => match m s with
           | (Ok a, s') => f a s'
           | (Raise e, s') => (Raise e, s')
           end.
Definition get {S} : M S S := fun s => (Ok s, s).
Definition gets {S A} (f : S -> A) : M S A := fun s => (Ok (f s), s).
Definition modify {S} (f : S -> S) : M S unit := fun s => (Ok tt, f s).
Definition lift {S A} (m : res A) : M S A := fun s => (m, s).
(** [try: m except e: h]. *)
Definition catch {S A} (m : M S A) (h : exn -> M S A) : M S A :=
  fun s => match m s with
           | (Ok a, s') => (Ok a, s')
           | (Raise e, s') => h e s'
           end.

Notation "'do' x '<-' m ';' k" := (bind m (fun x => k))
  (at level 10, x pattern, m at level 100, k at level 200,
   format "'[v' 'do'  x  '<-'  m ';' '/' k ']'") : py_scope.
Notation "'do_' m ';' k" := (bind m (fun _ => k))
  (at level 10, m at level 100, k at level 200,
   format "'[v' 'do_'  m ';' '/' k ']'") : py_scope.

(** [for x in l: f(x)]. *)
Fixpoint for_each {S A} (f : A -> M S unit) (l : list A) : M S unit :=
  match l with
  | [] => ret tt
  | a :: l => do_ f a ; for_each f l
  end.

Lemma Ok_inj {A} (a b : A) : Ok a = Ok b -> a = b.
Proof. congruence. Qed.

Lemma res_bind_Ok {A B} (m : res A) (f : A -> res B) b :
  res_bind m f = Ok b <-> exists a, m = Ok a /\ f a = Ok b.
Proof. destruct m; simpl; split; [eauto | | discriminate |]; naive_solver. Qed.

Lemma bind_Ok {S A B} (m : M S A) (f : A -> M S B) s b s' :
  bind m f s = (Ok b, s') <-> exists a s1, m s = (Ok a, s1) /\ f a s1 = (Ok b, s').
Proof. unfold bind. destruct (m s) as [[a|e] s1]; split; naive_solver. Qed.

Lemma lift_Ok {S A} (r : res A) (s s' : S) a : lift r s = (Ok a, s') <-> r = Ok a /\ s' = s.
Proof. unfold lift. naive_solver. Qed.

Lemma opt_res_Ok {A} e (o : option A) a : opt_res e o = Ok a <-> o = Some a.
Proof. destruct o; naive_solver. Qed.

Lemma bind_step {S A B} (m : M S A) (f : A -> M S B) s a s' :
  m s = (Ok a, s') -> bind m f s = f a s'.
Proof. intros H. unfold bind. by rewrite H. Qed.

Lemma bind_ret {S A B} (a : A) (f : A -> M S B) s : bind (ret a) f s = f a s.
Proof. reflexivity. Qed.

Lemma bind_lift {S A B} (m : res A) (f : A -> M S B) s a :
  m = Ok a -> bind (lift m) f s = f a s.
Proof. by intros ->. Qed.

Lemma bind_modify {S B} (g : S -> S) (f : unit -> M S B) s :
  bind (modify g) f s = f tt (g s).
Proof. reflexivity. Qed.

Lemma bind_gets {S A B} (g : S -> A) (f : A -> M S B) s : bind (gets g) f s = f (g s) s.
Proof. reflexivity. Qed.

(** A property of states that every step of a loop keeps, the loop keeps. *)
Lemma for_each_invariant {S A} (P : S -> Prop) (f : A -> M S unit) (l : list A) :
  (forall a s, a ∈ l -> P s -> P (snd (f a s))) ->
  forall s, P s -> P (snd (for_each f l s)).
Proof.
  induction l as [|a l IH]; intros Hf s Hs; [done|]. simpl. unfold bind.
  specialize (Hf a s) as Hfa.
  destruct (f a s) as [[u|e] s1] eqn:E; simpl in *.
  - apply IH; [|apply Hfa; [left|done]].
    intros b s2 Hb. apply Hf. by right.
  - apply Hfa; [left|done].
Qed.

(** ** Computations that only read *)

Definition read_only {S A} (m : M S A) : Prop := forall s, (m s).2 = s.

Lemma read_only_ret {S A} (a : A) : read_only (S := S) (ret a).
Proof. done. Qed.
Lemma read_only_throw {S A} e : read_only (S := S) (A := A) (throw e).
Proof. done. Qed.
Lemma read_only_lift {S A} (m : res A) : read_only (S := S) (lift m).
Proof. done. Qed.
Lemma read_only_gets {S A} (f : S -> A) : read_only (gets f).
Proof. done. Qed.
Lemma read_only_bind {S A B} (m : M S A) (f : A -> M S B) :
  read_only m -> (forall a, read_only (f a)) -> read_only (bind m f).
Proof.
  intros Hm Hf s. unfold bind. specialize (Hm s). destruct (m s) as [[a|e] s']; simpl in *.
  - subst. apply Hf.
  - done.
Qed.

(** ** Hoare triples

    [triple P m Q E]: from a state of [P], [m] returns with a value and state
    of [Q], or raises with an exception and state of [E]. *)

Definition triple {S A} (P : S -> Prop) (m : M S A) (Q : A -> S -> Prop) (E : exn -> S -> Prop)
    : Prop :=
  forall s, P s -> match m s with (Ok a, s') => Q a s' | (Raise e, s') => E e s' end.

Section Triple.
Context {S : Type}.
Implicit Types (P : S -> Prop) (E : exn -> S -> Prop).

Lemma triple_conseq {A} P P' (m : M S A) Q Q' E E' :
  triple P' m Q' E' -> (forall s, P s -> P' s) -> (forall a s, Q' a s -> Q a s) ->
  (forall e s, E' e s -> E e s) -> triple P m Q E.
Proof. intros Hm HP HQ HE s Hs. specialize (Hm s (HP s Hs)). destruct (m s) as [[]]; auto. Qed.

Lemma triple_ret {A} P (a : A) Q E : (forall s, P s -> Q a s) -> triple P (ret a) Q E.
Proof. intros H s Hs. by apply H. Qed.

Lemma triple_throw {A} P e (Q : A -> S -> Prop) E : (forall s, P s -> E e s) -> triple P (throw e) Q E.
Proof. intros H s Hs. by apply H. Qed.

Lemma triple_bind {A B} P (m : M S A) (f : A -> M S B) R Q E :
  triple P m R E -> (forall a, triple (R a) (f a) Q E) -> triple P (bind m f) Q E.
Proof.
  intros Hm Hf s Hs. unfold bind. specialize (Hm s Hs). destruct (m s) as [[a|e] s']; [|done].
  by apply Hf.
Qed.

Lemma triple_catch {A} P (m : M S A) h Q E E' :
  triple P m Q E' -> (forall e, triple (E' e) (h e) Q E) -> triple P (catch m h) Q E.
Proof.
  intros Hm Hh s Hs. unfold catch. specialize (Hm s Hs). destruct (m s) as [[a|e] s']; [done|].
  by apply Hh.
Qed.

Lemma triple_lift {A} P (r : res A) Q E :
  (forall a s, r = Ok a -> P s -> Q a s) -> (forall e s, r = Raise e -> P s -> E e s) ->
  triple P (lift r) Q E.
Proof. intros HQ HE s Hs. unfold lift. destruct r; auto. Qed.

Lemma triple_get P Q E : (forall s, P s -> Q s s) -> triple P get Q E.
Proof. intros H s Hs. by apply H. Qed.

Lemma triple_modify P (f : S -> S) Q E : (forall s, P s -> Q tt (f s)) -> triple P (modify f) Q E.
Proof. intros H s Hs. by apply H. Qed.

(** Adding to the precondition what is known outside of the state. *)
Lemma triple_pure {A} (X : Prop) P (m : M S A) Q E :
  (X -> triple P m Q E) -> triple (fun s => X /\ P s) m Q E.
Proof. intros H s [HX Hs]. by apply H. Qed.
End Triple.

(** * Tactics *)

(** Inverts the monadic equations of the context, step by step. *)
Ltac inv_res :=
  repeat match goal with
  | H : res_bind _ _ = Ok _ |- _ => apply res_bind_Ok in H as (? & ? & ?)
  | H : bind _ _ _ = (Ok _, _) |- _ => apply bind_Ok in H as (? & ? & ? & ?)
  | H : Ok _ = Ok _ |- _ => injection H as H; subst
  | H : Ok _ = Raise _ |- _ => discriminate H
  | H : Raise _ = Ok _ |- _ => discriminate H
  | H : (_, _) = (_, _) |- _ => injection H as ? ?; subst
  | H : ret _ _ = (_, _) |- _ => unfold ret in H
  end.

(** Runs the first action of a computation, by an equation of the context. *)
Ltac mstep :=
  first [ rewrite bind_modify | rewrite bind_gets | rewrite bind_ret
        | erewrite bind_lift by eassumption | erewrite bind_step by eassumption ].

(** Case analysis on every [match] and [if] of the goal, with equations. *)
Ltac case_all :=
  repeat (case_match; simplify_eq/=; try done).

(** Every value a computation returns satisfies [P]. *)
Definition yields {S A} (P : A -> Prop) (m : M S A) : Prop :=
  forall s a s', m s = (Ok a, s') -> P a.

Lemma yields_ret {S A} (P : A -> Prop) a : P a -> yields (S := S) P (ret a).
Proof. intros Ha s b s' Hb. by inv_res. Qed.
Lemma yields_throw {S A} (P : A -> Prop) e : yields (S := S) P (throw e).
Proof. intros s b s' Hb. discriminate Hb. Qed.
Lemma yields_bind {S A B} (P : B -> Prop) (m : M S A) (f : A -> M S B) :
  (forall a, yields P (f a)) -> yields P (bind m f).
Proof. intros Hf s b s' Hb. inv_res. by eapply Hf. Qed.

(** Solves [yields P m] down to [P] of the values returned. *)
Ltac yields :=
  repeat first [ progress intros | solve [auto with pydb] | apply yields_bind
               | apply yields_throw | apply yields_ret
               | lazymatch goal with |- yields _ _ => case_match end ].

Create HintDb pydb discriminated.
Create Rewrite HintDb pydb.

#[export] Hint Resolve @read_only_ret @read_only_throw @read_only_lift @read_only_gets : pydb.

(** Solves [read_only m] for a computation made of reading steps. *)
Ltac read_only :=
  repeat first [ progress intros | solve [auto with pydb] | apply read_only_bind
               | lazymatch goal with |- read_only _ => case_match end ].

(** * Ordered dictionaries

    A Python [dict]: an association list in insertion order, keys unique when
    it is built by [dict_set] from the empty dictionary. *)

Section Dict.
Context {K : Type} `{EqDecision K} {V : Type}.
Implicit Types (d : list (K * V)) (k : K) (v : V).

(** [d.get(k)] *)
Fixpoint dict_get k d : option V :=
  match d with
  | [] => None
  | (k', v) :: d => if decide (k = k') then Some v else dict_get k d
  end.

(** [d[k] = v]: in place when the key is present, at the end otherwise. *)
Fixpoint dict_set k v d : list (K * V) :=
  match d with
  | [] => [(k, v)]
  | (k', v') :: d =>
      if decide (k = k') then (k', v) :: d else (k', v') :: dict_set k v d
  end.

(** [del d[k]] for a present key, no change for an absent one. *)
Fixpoint dict_del k d : list (K * V) :=
  match d with
  | [] => []
  | (k', v) :: d => if decide (k = k') then dict_del k d else (k', v) :: dict_del k d
  end.

(** [k in d] *)
Definition dict_has k d : bool :=
  match dict_get k d with Some _ => true | None => false end.

(** [d.keys()] *)
Definition dict_keys d : list K := map fst d.

(** [d.update(e)] *)
Definition dict_update d e : list (K * V) :=
  fold_left (fun d kv => dict_set kv.1 kv.2 d) e d.

Lemma dict_set_fresh k v d : dict_has k d = false -> dict_set k v d = d ++ [(k, v)].
Proof.
  unfold dict_has. induction d as [|[k' v'] d IH]; simpl; [done|].
  case_decide; [done|]. intros Hd. by rewrite IH.
Qed.

Lemma dict_get_set k k' v d :
  dict_get k (dict_set k' v d) = if decide (k = k') then Some v else dict_get k d.
Proof.
  induction d as [|[k1 v1] d IH]; simpl; repeat case_decide; simplify_eq/=;
    repeat case_decide; simplify_eq/=; auto.
Qed.

Lemma dict_get_set_eq k v d : dict_get k (dict_set k v d) = Some v.
Proof. rewrite dict_get_set. by case_decide. Qed.

Lemma dict_get_set_ne k k' v d :
  k <> k' -> dict_get k (dict_set k' v d) = dict_get k d.
Proof. intros. rewrite dict_get_set. by case_decide. Qed.

Lemma dict_get_del k k' d :
  dict_get k (dict_del k' d) = if decide (k = k') then None else dict_get k d.
Proof.
  induction d as [|[k1 v1] d IH]; simpl; repeat case_decide; simplify_eq/=;
    repeat case_decide; simplify_eq/=; auto.
Qed.

Lemma dict_get_del_eq k d : dict_get k (dict_del k d) = None.
Proof. rewrite dict_get_del. by case_decide. Qed.

Lemma dict_get_del_ne k k' d :
  k <> k' -> dict_get k (dict_del k' d) = dict_get k d.
Proof. intros. rewrite dict_get_del. by case_decide. Qed.

Lemma dict_keys_get k d : k ∈ dict_keys d <-> is_Some (dict_get k d).
Proof.
  unfold dict_keys. induction d as [|[k1 v1] d IH]; simpl.
  - split; [intros []%not_elem_of_nil | intros [? [=]]].
  - rewrite elem_of_cons. case_decide; naive_solver.
Qed.

Lemma dict_get_elem k v d : dict_get k d = Some v -> (k, v) ∈ d.
Proof.
  induction d as [|[k1 v1] d IH]; simpl; [done|]. rewrite elem_of_cons.
  case_decide; naive_solver.
Qed.

Lemma dict_has_get k d : dict_has k d = true <-> is_Some (dict_get k d).
Proof.
  unfold dict_has. destruct (dict_get k d); naive_solver.
Qed.

Lemma dict_has_set_ne k k' v d :
  k' <> k -> dict_has k (dict_set k' v d) = dict_has k d.
Proof. intros. unfold dict_has. by rewrite dict_get_set_ne. Qed.

Lemma dict_keys_set k v d :
  dict_keys (dict_set k v d) = if dict_has k d then dict_keys d else dict_keys d ++ [k].
Proof.
  unfold dict_keys, dict_has. induction d as [|[k1 v1] d IH]; simpl; [done|].
  case_decide; simpl; [by subst|]. rewrite IH. by destruct (dict_get k d).
Qed.

Lemma dict_set_nodup k v d : NoDup (dict_keys d) -> NoDup (dict_keys (dict_set k v d)).
Proof.
  intros Hd. rewrite dict_keys_set. destruct (dict_has k d) eqn:E; [done|].
  apply NoDup_app. split_and!; [done | | apply NoDup_singleton].
  intros x Hx ->%list_elem_of_singleton.
  apply dict_keys_get, dict_has_get in Hx. congruence.
Qed.

Lemma dict_update_nodup d e : NoDup (dict_keys d) -> NoDup (dict_keys (dict_update d e)).
Proof.
  unfold dict_update. revert d. induction e as [|[k v] e IH]; intros d Hd; simpl; [done|].
  by apply IH, dict_set_nodup.
Qed.

Lemma dict_set_Forall (P : K * V -> Prop) k v d :
  P (k, v) -> Forall P d -> Forall P (dict_set k v d).
Proof.
  intros Hkv. induction 1 as [|[k' v'] d Hd Hall IH]; simpl; [by constructor|].
  case_decide as E; [rewrite <-E|]; by constructor.
Qed.

Lemma dict_update_Forall (P : K * V -> Prop) d e :
  Forall P d -> Forall P e -> Forall P (dict_update d e).
Proof.
  intros Hd He. unfold dict_update. revert d Hd.
  induction He as [|[k v] e Hkv _ IH]; intros d Hd; simpl; [done|].
  apply IH. by apply dict_set_Forall.
Qed.

Lemma dict_update_fresh d e : NoDup (dict_keys (d ++ e)) -> dict_update d e = d ++ e.
Proof.
  unfold dict_update. revert d. induction e as [|[k v] e IH]; intros d Hnd; simpl.
  - by rewrite app_nil_r.
  - unfold dict_keys in Hnd. rewrite map_app in Hnd. cbn [map fst] in Hnd.
    assert (dict_set k v d = d ++ [(k, v)]) as ->.
    { apply dict_set_fresh. destruct (dict_has k d) eqn:E; [|done].
      apply dict_has_get, dict_keys_get in E. apply NoDup_app in Hnd as (_ & Hd & _).
      destruct (Hd k E). left. }
    rewrite IH; rewrite <-(assoc_L (++)); [done|].
    unfold dict_keys. by rewrite map_app.
Qed.

Lemma dict_get_nodup d k v : NoDup (dict_keys d) -> (k, v) ∈ d -> dict_get k d = Some v.
Proof.
  induction d as [|[k' v'] d IH]; simpl; [by intros _ ?%not_elem_of_nil|].
  intros [Hk Hd]%NoDup_cons [[= -> ->]|Hin]%elem_of_cons.
  - by rewrite decide_True.
  - case_decide; [subst|by apply IH]. destruct Hk. apply list_elem_of_fmap. by exists (k', v).
Qed.

Lemma dict_update_get d e k :
  NoDup (dict_keys e) ->
  dict_get k (dict_update d e) =
    match dict_get k e with Some v => Some v | None => dict_get k d end.
Proof.
  unfold dict_update. revert d. induction e as [|[k1 v1] e IH]; intros d; simpl; [done|].
  intros [Hk1 He]%NoDup_cons. rewrite IH by done. rewrite dict_get_set.
  case_decide as Hk; [subst|done].
  destruct (dict_get k1 e) eqn:E; [|done].
  destruct Hk1. apply dict_keys_get. eauto.
Qed.
End Dict.

#[export] Hint Rewrite @dict_get_set_eq @dict_get_del_eq : pydb.
#[export] Hint Rewrite @dict_get_set_ne @dict_get_del_ne using congruence : pydb.

(** * Bytes and big-endian words *)

Abbreviation byte := Byte.byte.
Abbreviation bytes := (list byte).

Definition byte_val (b : byte) : Z := Z.of_N (Byte.to_N b).

(** The byte of an integer, its low 8 bits. *)
Definition byte_of (z : Z) : byte :=
  match Byte.of_N (Z.to_N (z mod 256)) with Some b => b | None => Byte.x00 end.

#[global] Instance byte_eq_dec : EqDecision byte := Byte.byte_eq_dec.

#[global] Program Instance byte_countable : Countable byte :=
  inj_countable Byte.to_N Byte.of_N _.
Next Obligation. exact Byte.of_to_N. Qed.

Lemma byte_val_range b : 0 <= byte_val b < 256.
Proof. unfold byte_val. pose proof (Byte.to_N_bounded b). lia. Qed.

Lemma byte_val_of z : byte_val (byte_of z) = z mod 256.
Proof.
  unfold byte_val, byte_of. pose proof (Z.mod_pos_bound z 256 ltac:(lia)).
  destruct (Byte.of_N (Z.to_N (z mod 256))) as [b|] eqn:E.
  - apply Byte.to_of_N in E. rewrite E. lia.
  - apply Byte.of_N_None_iff in E. lia.
Qed.

(** [struct.unpack("!I", ...)] and its 2, 3 and 8 byte forms: the big-endian
    value of a byte string. *)
Definition be_val (bs : bytes) : Z :=
  fold_left (fun a b => a * 256 + byte_val b) bs 0.

(** The [n]-byte big-endian encoding. *)
Fixpoint be_enc (n : nat) (z : Z) : bytes :=
  match n with
  | O => []
  | S n => be_enc n (z / 256) ++ [byte_of z]
  end.

Lemma length_be_enc n z : length (be_enc n z) = n.
Proof.
  revert z. induction n as [|n IH]; intros z; simpl; [done|].
  rewrite length_app, IH. simpl. lia.
Qed.

Lemma be_val_snoc bs b : be_val (bs ++ [b]) = be_val bs * 256 + byte_val b.
Proof. unfold be_val. by rewrite fold_left_app. Qed.

Lemma be_val_enc n z : be_val (be_enc n z) = z mod 256 ^ Z.of_nat n.
Proof.
  revert z. induction n as [|n IH]; intros z.
  - simpl. by rewrite Z.mod_1_r.
  - cbn [be_enc]. rewrite be_val_snoc, IH, byte_val_of.
    rewrite Nat2Z.inj_succ, Z.pow_succ_r by lia.
    rewrite Z.rem_mul_r by lia. lia.
Qed.

Lemma be_val_enc_small n z : 0 <= z < 256 ^ Z.of_nat n -> be_val (be_enc n z) = z.
Proof. intros. rewrite be_val_enc. by apply Z.mod_small. Qed.

Lemma be_val_range bs : 0 <= be_val bs < 256 ^ Z.of_nat (length bs).
Proof.
  induction bs as [|b bs IH] using rev_ind; [done|].
  rewrite be_val_snoc, length_app. simpl.
  rewrite Nat2Z.inj_add, Z.pow_add_r by lia.
  pose proof (byte_val_range b). change (256 ^ Z.of_nat 1) with 256. lia.
Qed.

(** [bs[:n]] and [bs[n:]] when at least [n] bytes are there. *)
Definition split_at (n : nat) (bs : bytes) : option (bytes * bytes) :=
  if decide (n <= length bs)%nat then Some (take n bs, drop n bs) else None.

Lemma split_at_app n bs rest : length bs = n -> split_at n (bs ++ rest) = Some (bs, rest).
Proof.
  intros <-. unfold split_at. rewrite length_app.
  rewrite decide_True by lia. by rewrite take_app_length, drop_app_length.
Qed.

(** ** Reading lines *)

Definition newline : Z := 10.

(** [stream.readline()]: up to and including the next newline, or what is
    left; empty at the end of the stream. *)
Fixpoint readline (s : bytes) : bytes * bytes :=
  match s with
  | [] => ([], [])
  | b :: s' =>
      if byte_val b =? newline then ([b], s')
      else let (l, r) := readline s' in (b :: l, r)
  end.

Lemma readline_split s : forall l r, readline s = (l, r) -> s = l ++ r.
Proof.
  induction s as [|b s IH]; intros l r; cbn [readline]; [by intros [= <- <-]|].
  destruct (byte_val b =? newline); [by intros [= <- <-]|].
  destruct (readline s) as [l' r'] eqn:E. intros [= <- <-]. cbn. f_equal. by apply IH.
Qed.

(** * Strings

    A Python [str] of code points below 256 is a [string] of [ascii]
    characters: the strings of the modelled code come from [chr] of bytes or
    are ASCII literals. *)

(** [a.startswith(b)] *)
Fixpoint startswith (s p : string) {struct p} : bool :=
  match p, s with
  | "", _ => true
  | String.String c p, String.String d s => if Ascii.eqb c d then startswith s p else false
  | String.String _ _, "" => false
  end.

Fixpoint str_chars (s : string) : list ascii :=
  match s with
  | "" => []
  | String.String c s => c :: str_chars s
  end.

Fixpoint str_of (l : list ascii) : string :=
  match l with
  | [] => ""
  | c :: l => String.String c (str_of l)
  end.

(** [a.endswith(c)] for a one-character [c]. *)
Definition endswith_char (s : string) (c : ascii) : bool :=
  match last (str_chars s) with
  | Some d => Ascii.eqb c d
  | None => false
  end.

(** [c in s] for a one-character [c]. *)
Definition has_char (c : ascii) (s : string) : bool :=
  existsb (Ascii.eqb c) (str_chars s).

Definition slash : ascii := "/"%char.

(** [os.path.join(a, b)] on POSIX. *)
Definition path_join (a b : string) : string :=
  if startswith b "/" then b
  else if decide (a = "") then b
  else if endswith_char a slash then a +:+ b
  else a +:+ "/" +:+ b.

(** [sep.join(l)] *)
Fixpoint str_join (sep : string) (l : list string) : string :=
  match l with
  | [] => ""
  | [s] => s
  | s :: l => s +:+ sep +:+ str_join sep l
  end.

(** [s.split(c)] for a one-character separator: always at least one piece. *)
Fixpoint split_chars (c : ascii) (l : list ascii) : list (list ascii) :=
  match l with
  | [] => [[]]
  | d :: l =>
      if Ascii.eqb c d then [] :: split_chars c l
      else match split_chars c l with
           | [] => [[d]]
           | w :: ws => (d :: w) :: ws
           end
  end.

Definition str_split (c : ascii) (s : string) : list string :=
  map str_of (split_chars c (str_chars s)).

(** The characters [str.strip] removes, among the code points below 256. *)
Definition is_space (c : ascii) : bool :=
  let n := nat_of_ascii c in
  (Nat.leb 9 n && Nat.leb n 13) || (Nat.leb 28 n && Nat.leb n 32)
  || Nat.eqb n 133 || Nat.eqb n 160.

Fixpoint drop_spaces (l : list ascii) : list ascii :=
  match l with
  | c :: l' => if is_space c then drop_spaces l' else l
  | [] => []
  end.

(** [s.strip()] *)
Definition strip (s : string) : string :=
  str_of (reverse (drop_spaces (reverse (drop_spaces (str_chars s))))).

(** [str(n)] and ["%d" % n] *)
Definition str_int (z : Z) : string := pretty z.

Definition hex_digit (z : Z) : ascii :=
  ascii_of_N (Z.to_N (if z <? 10 then 48 + z else 87 + z)).

(** ["%02x" % b] *)
Definition hex2 (b : byte) : string :=
  str_of [hex_digit (byte_val b / 16); hex_digit (byte_val b mod 16)].

Fixpoint hex_go (fuel : nat) (z : Z) (acc : list ascii) : list ascii :=
  match fuel with
  | O => acc
  | S fuel =>
      let acc := hex_digit (z mod 16) :: acc in
      if z / 16 =? 0 then acc else hex_go fuel (z / 16) acc
  end.

(** ["{:x}".format(z)] for a non-negative [z]; [Z.log2 z + 1] digits are
    enough. *)
Definition str_hex (z : Z) : string := str_of (hex_go (S (Z.to_nat (Z.log2 z))) z []).

Lemma str_of_chars s : str_of (str_chars s) = s.
Proof. induction s as [|c s IH]; simpl; [done|by rewrite IH]. Qed.

Lemma str_chars_of l : str_chars (str_of l) = l.
Proof. induction l; simpl; congruence. Qed.

Lemma str_chars_app s t : str_chars (s +:+ t) = str_chars s ++ str_chars t.
Proof. induction s as [|c s IH]; simpl; [done|by rewrite IH]. Qed.

#[global] Instance str_chars_inj : Inj (=) (=) str_chars.
Proof. intros s t H. by rewrite <-(str_of_chars s), H, str_of_chars. Qed.

Lemma str_app_assoc (s t u : string) : s +:+ t +:+ u = (s +:+ t) +:+ u.
Proof. apply str_chars_inj. by rewrite !str_chars_app, (assoc_L (++)). Qed.

#[global] Instance str_app_inj_l (s : string) : Inj (=) (=) (String.append s).
Proof.
  intros t u H. apply (f_equal str_chars) in H. rewrite !str_chars_app in H.
  by simplify_list_eq.
Qed.

Lemma startswith_spec s p : startswith s p = true <-> exists t, s = p +:+ t.
Proof.
  revert s. induction p as [|c p IH]; intros s; simpl.
  { split; [by exists s | done]. }
  destruct s as [|d s]; [split; [done | by intros [??]]|].
  destruct (Ascii.eqb_spec c d) as [->|Hne].
  - rewrite IH. split; intros [t Ht]; exists t.
    + by rewrite Ht.
    + change (String.String d s = String.String d (p +:+ t)) in Ht. congruence.
  - split; [done|]. intros [t Ht].
    change (String.String d s = String.String c (p +:+ t)) in Ht. congruence.
Qed.

Lemma startswith_refl s : startswith s s = true.
Proof. apply startswith_spec. exists "". apply str_chars_inj.
  rewrite str_chars_app. simpl. by rewrite app_nil_r. Qed.

Lemma str_app_cons_ne_nil s c t : s +:+ String.String c t <> "".
Proof. by destruct s. Qed.

(** A join with a relative name under a directory is never empty and starts
    with the directory. *)
Lemma path_join_relative a b :
  startswith b "/" = false -> startswith (path_join a b) a = true.
Proof.
  intros Hb. unfold path_join. rewrite Hb.
  case_decide; [by subst; destruct b|].
  case_match; apply startswith_spec; eauto.
Qed.

Lemma split_chars_nonempty c l : split_chars c l <> [].
Proof. destruct l as [|d l]; simpl; [done|]. repeat case_match; done. Qed.

Lemma str_join_cons_chars sep (w : string) ws :
  str_chars (str_join sep (w :: ws)) =
    match ws with [] => str_chars w
    | _ => str_chars w ++ str_chars sep ++ str_chars (str_join sep ws) end.
Proof. destruct ws; [done|]. cbn [str_join]. by rewrite !str_chars_app. Qed.

(** Joining what a split gave restores the string. *)
Lemma str_join_split c s : str_join (str_of [c]) (str_split c s) = s.
Proof.
  apply str_chars_inj. unfold str_split. generalize (str_chars s) as l. intros l.
  induction l as [|d l IH]; [done|]. simpl split_chars.
  pose proof (split_chars_nonempty c l) as Hne.
  destruct (split_chars c l) as [|w ws]; [done|].
  destruct (Ascii.eqb_spec c d) as [->|Hcd]; cbn [map] in *.
  - rewrite str_join_cons_chars, IH. done.
  - rewrite str_join_cons_chars in *. destruct (map str_of ws).
    + simpl. by rewrite IH.
    + simpl. by f_equal.
Qed.

(** ** Splitting and joining *)

Lemma split_chars_none c l : existsb (Ascii.eqb c) l = false -> split_chars c l = [l].
Proof.
  induction l as [|d l IH]; [done|]. cbn [existsb split_chars].
  intros [-> Hl]%orb_false_iff. by rewrite IH.
Qed.

Lemma split_chars_app c a b :
  existsb (Ascii.eqb c) a = false -> split_chars c (a ++ c :: b) = a :: split_chars c b.
Proof.
  induction a as [|d a IH]; cbn [existsb app split_chars].
  - intros _. by rewrite Ascii.eqb_refl.
  - intros [-> Ha]%orb_false_iff. by rewrite IH.
Qed.

Lemma str_split_app c a b :
  has_char c a = false -> str_split c (a +:+ String.String c b) = a :: str_split c b.
Proof.
  intros Ha. unfold str_split. rewrite str_chars_app. cbn [str_chars].
  rewrite split_chars_app by done. cbn [map]. by rewrite str_of_chars.
Qed.

Lemma str_split_none c s : has_char c s = false -> str_split c s = [s].
Proof.
  intros H. unfold str_split. rewrite split_chars_none by done. cbn. by rewrite str_of_chars.
Qed.

Lemma str_split_join c l :
  l <> [] -> Forall (fun s => has_char c s = false) l ->
  str_split c (str_join (str_of [c]) l) = l.
Proof.
  intros Hne Hl. induction Hl as [|s l Hs Hl IH]; [done|].
  destruct l as [|s' l]; [by apply str_split_none|].
  change (str_join (str_of [c]) (s :: s' :: l))
    with (s +:+ String.String c (str_join (str_of [c]) (s' :: l))).
  rewrite str_split_app by done. by rewrite IH.
Qed.

#[export] Hint Rewrite str_of_chars str_chars_of str_chars_app startswith_refl : pydb.
