(* ===== verification/NfsConst.v ===== *)
(** The NFS and RPC constants of [targets/nfs-sensor-target/sensor/nfs_const.py]
    (RFC 1831, RFC 1813), as the ordered dictionaries the module builds: every
    [XxxValMap] or [ValXxxMap] literal, and the inverse map each dictionary
    comprehension derives from it. *)

From S2P Require Import Prelude.

(** [{v: k for k, v in m.items()}]: a later item with the same value wins. *)
Definition invert {A B} `{EqDecision B} (m : list (A * B)) : list (B * A) :=
  fold_left (fun d kv => dict_set kv.2 kv.1 d) m [].

(** [m[k]] for a constant the module itself defines; the module is loaded
    only if the key is there, which [consts_present] checks. *)
Definition sub_const (m : list (string * Z)) (k : string) : Z :=
  default (-1) (dict_get k m).

Definition MsgTypeValMap : list (string * Z) :=
  [ ("CALL", 0);
    ("REPLY", 1) ].

Definition ValMsgTypeMap := invert MsgTypeValMap.

Definition ReplyStateValMap : list (string * Z) :=
  [ ("MSG_ACCEPTED", 0);
    ("MSG_DENIED", 1) ].

Definition ValReplyStateMap := invert ReplyStateValMap.

Definition ValAcceptStatMap : list (Z * string) :=
  [ (0, "SUCCESS");
    (1, "PROG_UNAVAIL");
    (2, "PROG_MISMATCH");
    (3, "PROC_UNAVAIL");
    (4, "GARBAGE_ARGS");
    (5, "SYSTEM_ERR") ].

Definition AcceptStatValMap := invert ValAcceptStatMap.

Definition RPC_ACCEPT_SUCCESS : Z := sub_const AcceptStatValMap "SUCCESS".

Definition ValAuthMap : list (Z * string) :=
  [ (0, "AUTH_NULL");
    (1, "AUTH_UNIX") ].

Definition AuthValMap := invert ValAuthMap.

Definition ValRejectMap : list (Z * string) :=
  [ (0, "RPC_MISMATCH");
    (1, "AUTH_ERROR") ].

Definition RejectValMap := invert ValRejectMap.

Definition ValAuthFailMap : list (Z * string) :=
  [ (0, "AUTH_OK");
    (1, "AUTH_BADCRED");
    (2, "AUTH_REJECTEDCRED");
    (3, "AUTH_BADVERF");
    (4, "AUTH_REJECTEDVERF");
    (5, "AUTH_TOOWEAK");
    (6, "AUTH_INVALIDRESP");
    (7, "AUTH_FAILED") ].

Definition AuthFailValMap := invert ValAuthFailMap.

Definition ValPortMapperMap : list (Z * string) :=
  [ (0, "PMAPPROC_NULL");
    (1, "PMAPPROC_SET");
    (2, "PMAPPROC_UNSET");
    (3, "PMAPPROC_GETPORT");
    (4, "PMAPPROC_DUMP");
    (5, "PMAPPROC_CALLIT") ].

Definition PortMapperValMap := invert ValPortMapperMap.

Definition ProtoValMap : list (string * Z) :=
  [ ("TCP", 6);
    ("UDP", 17) ].

Definition ValProtoMap := invert ProtoValMap.

Definition ValProgramMap : list (Z * string) :=
  [ (100000, "portmapper");
    (100001, "rstat_svc");
    (100002, "rusersd");
    (100003, "nfs");
    (100004, "ypserv");
    (100005, "mountd");
    (100006, "Remote");
    (100007, "ypbind");
    (100008, "walld");
    (100009, "yppasswd");
    (100010, "etherstatd");
    (100011, "rquotad");
    (100012, "sprayd");
    (100013, "3270_mapper");
    (100014, "rje_mapper");
    (100015, "selection_svc");
    (100016, "database_svc");
    (100017, "rexd");
    (100018, "alis");
    (100019, "sched");
    (100020, "llockmgr");
    (100021, "nlockmgr");
    (100022, "x25.inr");
    (100023, "statmon");
    (100024, "status");
    (100025, "Select_Lib");
    (100026, "bootparam");
    (100027, "Mazewars");
    (100028, "ypupdated");
    (100029, "Key_Server");
    (100030, "SecureLogin");
    (100031, "NFS_FwdInit");
    (100032, "NFS_FwdTrns");
    (100033, "SunLink_MAP");
    (100034, "Net_Monitor");
    (100035, "DataBase");
    (100036, "Passwd_Auth");
    (100037, "TFS_Service");
    (100038, "NSE_Service");
    (100039, "NSE_Daemon");
    (100069, "ypxfrd");
    (150001, "pcnfsd");
    (200000, "PyramidLock");
    (200001, "PyramidSys5");
    (200002, "CADDS_Image");
    (300001, "ADTFileLock") ].

Definition ProgramValMap := invert ValProgramMap.

Definition NFS3_FHSIZE : Z := 64.

Definition NFS3_COOKIEVERFSIZE : Z := 8.

Definition NFS3_CREATEVERFSIZE : Z := 8.

Definition NFS3_WRITEVERFSIZE : Z := 8.

Definition Nfs3_ValProcedureMap : list (Z * string) :=
  [ (0, "NFSPROC3_NULL");
    (1, "NFSPROC3_GETATTR");
    (2, "NFSPROC3_SETATTR");
    (3, "NFSPROC3_LOOKUP");
    (4, "NFSPROC3_ACCESS");
    (5, "NFSPROC3_READLINK");
    (6, "NFSPROC3_READ");
    (7, "NFSPROC3_WRITE");
    (8, "NFSPROC3_CREATE");
    (9, "NFSPROC3_MKDIR");
    (10, "NFSPROC3_SYMLINK");
    (11, "NFSPROC3_MKNOD");
    (12, "NFSPROC3_REMOVE");
    (13, "NFSPROC3_RMDIR");
    (14, "NFSPROC3_RENAME");
    (15, "NFSPROC3_LINK");
    (16, "NFSPROC3_READDIR");
    (17, "NFSPROC3_READDIRPLUS");
    (18, "NFSPROC3_FSSTAT");
    (19, "NFSPROC3_FSINFO");
    (20, "NFSPROC3_PATHCONF");
    (21, "NFSPROC3_COMMIT") ].

Definition Nfs3_ProcedureValMap := invert Nfs3_ValProcedureMap.

Definition Nfs3_AccessValMap : list (string * Z) :=
  [ ("ACCESS_READ", 1);
    ("ACCESS_LOOKUP", 2);
    ("ACCESS_MODIFY", 4);
    ("ACCESS_EXTEND", 8);
    ("ACCESS_DELETE", 16);
    ("ACCESS_EXECUTE", 32) ].

Definition Nfs3_ValAccessMap := invert Nfs3_AccessValMap.

Definition Nfs3_StableValMap : list (string * Z) :=
  [ ("UNSTABLE", 0);
    ("DATA_SYNC", 1);
    ("FILE_SYNC", 2) ].

Definition Nfs3_ValStableMap := invert Nfs3_StableValMap.

Definition Nfs3_CreateModeValMap : list (string * Z) :=
  [ ("UNCHECKED", 0);
    ("GUARDED", 1);
    ("EXCLUSIVE", 2) ].

Definition Nfs3_ValCreateModeMap := invert Nfs3_CreateModeValMap.

Definition Nfs3_FtypeValMap : list (string * Z) :=
  [ ("NF3REG", 1);
    ("NF3DIR", 2);
    ("NF3BLK", 3);
    ("NF3CHR", 4);
    ("NF3LNK", 5);
    ("NF3SOCK", 6);
    ("NF3FIFO", 7) ].

Definition Nfs3_ValFtypeMap := invert Nfs3_FtypeValMap.

Definition Nfs3_ValModeMap : list (Z * string) :=
  [ (2048, "SETUID");
    (1024, "SETGID");
    (512, "STSAVE");
    (256, "OWNER_R");
    (128, "OWNER_W");
    (64, "OWNER_X");
    (32, "GROUP_R");
    (16, "GROUP_W");
    (8, "GROUP_X");
    (4, "OTHER_R");
    (2, "OTHER_W");
    (1, "OTHER_X") ].

Definition Nfs3_ModeValMap := invert Nfs3_ValModeMap.

Definition Nfs3_FsinfoValMap : list (string * Z) :=
  [ ("FSF_LINK", 1);
    ("FSF_SYMLINK", 2);
    ("FSF_HOMOGENEOUS", 8);
    ("FSF_CANSETTIME", 16) ].

Definition Nfs3_ValFsinfoMap := invert Nfs3_FsinfoValMap.

Definition Nfs3_StatValMap : list (string * Z) :=
  [ ("NFS3_OK", 0);
    ("NFS3ERR_PERM", 1);
    ("NFS3ERR_NOENT", 2);
    ("NFS3ERR_IO", 5);
    ("NFS3ERR_NXIO", 6);
    ("NFS3ERR_ACCES", 13);
    ("NFS3ERR_EXIST", 17);
    ("NFS3ERR_XDEV", 18);
    ("NFS3ERR_NODEV", 19);
    ("NFS3ERR_NOTDIR", 20);
    ("NFS3ERR_ISDIR", 21);
    ("NFS3ERR_INVAL", 22);
    ("NFS3ERR_FBIG", 27);
    ("NFS3ERR_NOSPC", 28);
    ("NFS3ERR_ROFS", 30);
    ("NFS3ERR_MLINK", 31);
    ("NFS3ERR_NAMETOOLONG", 63);
    ("NFS3ERR_NOTEMPTY", 66);
    ("NFS3ERR_DQUOT", 69);
    ("NFS3ERR_STALE", 70);
    ("NFS3ERR_REMOTE", 71);
    ("NFS3ERR_BADHANDLE", 10001);
    ("NFS3ERR_NOT_SYNC", 10002);
    ("NFS3ERR_BAD_COOKIE", 10003);
    ("NFS3ERR_NOTSUPP", 10004);
    ("NFS3ERR_TOOSMALL", 10005);
    ("NFS3ERR_SERVERFAULT", 10006);
    ("NFS3ERR_BADTYPE", 10007);
    ("NFS3ERR_JUKEBOX", 10008) ].

Definition Nfs3_ValStatMap := invert Nfs3_StatValMap.

Definition NFS3_OK : Z := sub_const Nfs3_StatValMap "NFS3_OK".

Definition Mount3_ProcedureValMap : list (string * Z) :=
  [ ("MOUNTPROC3_NULL", 0);
    ("MOUNTPROC3_MNT", 1);
    ("MOUNTPROC3_DUMP", 2);
    ("MOUNTPROC3_UMNT", 3);
    ("MOUNTPROC3_UMNTALL", 4);
    ("MOUNTPROC3_EXPORT", 5) ].

Definition Mount3_ValProcedureMap := invert Mount3_ProcedureValMap.

Definition Mount3_StatValMap : list (string * Z) :=
  [ ("MNT3_OK", 0);
    ("MNT3ERR_PERM", 1);
    ("MNT3ERR_NOENT", 2);
    ("MNT3ERR_IO", 5);
    ("MNT3ERR_ACCES", 13);
    ("MNT3ERR_NOTDIR", 20);
    ("MNT3ERR_INVAL", 22);
    ("MNT3ERR_NAMETOOLONG", 63);
    ("MNT3ERR_NOTSUPP", 10004);
    ("MNT3ERR_SERVERFAULT", 10006) ].

Definition Mount3_ValStatMap := invert Mount3_StatValMap.

Definition MOUNT3_OK : Z := sub_const Mount3_StatValMap "MNT3_OK".

(** [ProgramValMap['nfs']] and the other subscripts of constant keys the
    rest of the sensor writes. *)
Definition prog_portmapper : Z := sub_const ProgramValMap "portmapper".
Definition prog_mountd : Z := sub_const ProgramValMap "mountd".
Definition prog_nfs : Z := sub_const ProgramValMap "nfs".

(** * Inverse tables *)

Section Invert.
Context {A B : Type} `{EqDecision A} `{EqDecision B}.

Lemma invert_get_aux (m : list (A * B)) (d : list (B * A)) b :
  NoDup (map snd m) ->
  dict_get b (fold_left (fun d kv => dict_set kv.2 kv.1 d) m d) =
    match find (fun kv => bool_decide (kv.2 = b)) m with
    | Some kv => Some kv.1
    | None => dict_get b d
    end.
Proof.
  revert d. induction m as [|[a b'] m IH]; intros d; simpl; [done|].
  intros [Hb Hm]%NoDup_cons. rewrite IH by done.
  rewrite dict_get_set. case_bool_decide as Hbb; simpl in *; subst.
  - rewrite decide_True by done.
    destruct (find _ m) as [[a2 b2]|] eqn:E; [|done].
    apply find_some in E as [E1 E2%bool_decide_eq_true]. simpl in E2. subst.
    destruct Hb. apply (in_map snd) in E1. by apply list_elem_of_In.
  - by rewrite decide_False by done.
Qed.

(** Keys and values both distinct: the inverse table reads back. *)
Lemma invert_spec (m : list (A * B)) a b :
  NoDup (map fst m) -> NoDup (map snd m) ->
  dict_get b (invert m) = Some a <-> dict_get a m = Some b.
Proof.
  intros H1 H2. unfold invert. rewrite invert_get_aux by done. simpl.
  induction m as [|[a' b'] m IH]; simpl in *; [naive_solver|].
  apply NoDup_cons in H1 as [Ha H1], H2 as [Hb H2].
  specialize (IH H1 H2).
  case_bool_decide; case_decide; simplify_eq/=; try naive_solver.
  - split; [naive_solver|]. intros Hg. destruct Hb.
    apply dict_get_elem in Hg. by apply (list_elem_of_fmap_2 snd) in Hg.
  - split; [|naive_solver]. intros Hg. apply IH in Hg. destruct Ha.
    apply dict_keys_get. eauto.
Qed.
End Invert.

(** A table with distinct names and distinct values, decided by evaluation. *)
Definition bijective_table {A B} `{EqDecision A} `{EqDecision B} (m : list (A * B)) : bool :=
  bool_decide (NoDup (map fst m)) && bool_decide (NoDup (map snd m)).

Lemma invert_bijective {A B} `{EqDecision A} `{EqDecision B} (m : list (A * B)) :
  bijective_table m = true ->
  forall a b, dict_get b (invert m) = Some a <-> dict_get a m = Some b.
Proof.
  unfold bijective_table. intros [H1%bool_decide_eq_true H2%bool_decide_eq_true]%andb_true_iff.
  intros a b. by apply invert_spec.
Qed.

(** Every inverse table the module derives reads back its table: a program,
    NFS procedure, NFS status, mount procedure or mount status number has the
    name [s] exactly when the name [s] has that number, so encoding a name and
    decoding the number agrees in both directions. *)
Theorem const_tables_invert :
  (forall n s, dict_get s ProgramValMap = Some n <-> dict_get n ValProgramMap = Some s) /\
  (forall n s, dict_get s Nfs3_ProcedureValMap = Some n <-> dict_get n Nfs3_ValProcedureMap = Some s) /\
  (forall n s, dict_get n Nfs3_ValStatMap = Some s <-> dict_get s Nfs3_StatValMap = Some n) /\
  (forall n s, dict_get n Mount3_ValProcedureMap = Some s <-> dict_get s Mount3_ProcedureValMap = Some n) /\
  (forall n s, dict_get n Mount3_ValStatMap = Some s <-> dict_get s Mount3_StatValMap = Some n) /\
  (forall n s, dict_get s PortMapperValMap = Some n <-> dict_get n ValPortMapperMap = Some s) /\
  (forall n s, dict_get s AcceptStatValMap = Some n <-> dict_get n ValAcceptStatMap = Some s).
Proof.
  split_and!; intros n s; apply invert_bijective; vm_compute; reflexivity.
Qed.
