(* ===== verification/Layers.v ===== *)
(** The packet classes of [targets/nfs-sensor-target/sensor/nfs.py]: one
    [class_def] per scapy [Packet] subclass, with its base class, its [name]
    attribute, its [fields_desc] and its [guess_payload_class], and the lookup
    tables from procedure numbers to classes.  A field is a constructor named
    after the scapy field class the source instantiates, its callbacks are
    functions of the fields dissected so far.  What scapy does with a
    [fields_desc] is not defined here: [Scapy.v] states it as an interface. *)

From S2P Require Import Prelude NfsConst.

(** * Classes, objects and fields *)

Inductive cls :=
  | cNFS3_fname
  | cNFS3_path
  | cNFS3_fileid
  | cNFS3_cookie
  | cNFS3_cookieverf
  | cNFS3_createverf
  | cNFS3_writeverf
  | cNFS3_uid
  | cNFS3_gid
  | cNFS3_size
  | cNFS3_offset
  | cNFS3_mode
  | cNFS3_count
  | cNFS3_ftype
  | cRPC_verifier
  | cNFS3_specdata
  | cNFS3_time
  | cNFS3_fhandle
  | cNFS3_fattr
  | cNFS3_sattr
  | cNFS3_post_op_attr
  | cNFS3_post_op_fh
  | cNFS3_wcc_attr
  | cNFS3_pre_op_attr
  | cNFS3_wcc_data
  | cNFS3_dir_op_args
  | cNFS3_sattrguard
  | cNFS3_symlink_data
  | cNFS3_status
  | cNFS3_NULL_Call
  | cNFS3_NULL_Reply
  | cNFS3_GETATTR_Call
  | cNFS3_GETATTR_ReplyOk
  | cNFS3_GETATTR_Reply
  | cNFS3_SETATTR_Call
  | cNFS3_SETATTR_Reply
  | cNFS3_LOOKUP_Call
  | cNFS3_LOOKUP_ReplyOk
  | cNFS3_LOOKUP_ReplyFail
  | cNFS3_LOOKUP_Reply
  | cNFS3_ACCESS_Call
  | cNFS3_ACCESS_ReplyOk
  | cNFS3_ACCESS_ReplyFail
  | cNFS3_ACCESS_Reply
  | cNFS3_READLINK_Call
  | cNFS3_READLINK_ReplyOk
  | cNFS3_READLINK_ReplyFail
  | cNFS3_READLINK_Reply
  | cNFS3_READ_Call
  | cNFS3_READ_ReplyOk
  | cNFS3_READ_ReplyFail
  | cNFS3_READ_Reply
  | cNFS3_WRITE_Call
  | cNFS3_WRITE_ReplyOk
  | cNFS3_WRITE_ReplyFail
  | cNFS3_WRITE_Reply
  | cNFS3_CREATE_Call
  | cNFS3_CREATE_ReplyOk
  | cNFS3_CREATE_ReplyFail
  | cNFS3_CREATE_Reply
  | cNFS3_MKDIR_Call
  | cNFS3_MKDIR_ReplyOk
  | cNFS3_MKDIR_ReplyFail
  | cNFS3_MKDIR_Reply
  | cNFS3_SYMLINK_Call
  | cNFS3_SYMLINK_ReplyOk
  | cNFS3_SYMLINK_ReplyFail
  | cNFS3_SYMLINK_Reply
  | cNFS3_MKNOD_Call
  | cNFS3_MKNOD_Reply
  | cNFS3_REMOVE_Call
  | cNFS3_REMOVE_Reply
  | cNFS3_RMDIR_Call
  | cNFS3_RMDIR_Reply
  | cNFS3_RENAME_Call
  | cNFS3_RENAME_Reply
  | cNFS3_LINK_Call
  | cNFS3_LINK_Reply
  | cNFS3_READDIR_Call
  | cNFS3_READDIR_entry
  | cNFS3_READDIR_ReplyOk
  | cNFS3_READDIR_ReplyFail
  | cNFS3_READDIR_Reply
  | cNFS3_READDIRPLUS_Call
  | cNFS3_READDIRPLUS_entry
  | cNFS3_READDIRPLUS_ReplyOk
  | cNFS3_READDIRPLUS_ReplyFail
  | cNFS3_READDIRPLUS_Reply
  | cNFS3_FSSTAT_Call
  | cNFS3_FSSTAT_ReplyOk
  | cNFS3_FSSTAT_ReplyFail
  | cNFS3_FSSTAT_Reply
  | cNFS3_FSINFO_Call
  | cNFS3_FSINFO_ReplyFail
  | cNFS3_FSINFO_ReplyOk
  | cNFS3_FSINFO_Reply
  | cNFS3_PATHCONF_Call
  | cNFS3_PATHCONF_ReplyOk
  | cNFS3_PATHCONF_ReplyFail
  | cNFS3_PATHCONF_Reply
  | cNFS3_COMMIT_Call
  | cNFS3_COMMIT_ReplyOk
  | cNFS3_COMMIT_ReplyFail
  | cNFS3_COMMIT_Reply
  | cMOUNT3_NULL_Call
  | cMOUNT3_NULL_Reply
  | cMOUNT3_MNT_Call
  | cMOUNT3_MNT_ReplyOk
  | cMOUNT3_MNT_Reply
  | cMOUNT3_UMNT_Call
  | cMOUNT3_UMNT_Reply
  | cMOUNT3_UMNTALL_Call
  | cMOUNT3_UMNTALL_Reply
  | cMOUNT3_EXPORT_Call
  | cMOUNT3_EXPORT_Reply
  | cPORTMAP_NULL_Call
  | cPORTMAP_NULL_Reply
  | cPORTMAP_GETPORT_Call
  | cPORTMAP_GETPORT_Reply
  | cRPC_status
  | cRPC_Header
  | cRPC_RecordMarker
  | cRPC_AuthNull
  | cRPC_AuthSys
  | cRPC_Call
  | cRPC_ReplySuccess
  | cRPC_ReplyMismatch
  | cRPC_Reply.

(** [cls.__name__] *)
Definition cls_name (c : cls) : string :=
  match c with
  | cNFS3_fname => "NFS3_fname"
  | cNFS3_path => "NFS3_path"
  | cNFS3_fileid => "NFS3_fileid"
  | cNFS3_cookie => "NFS3_cookie"
  | cNFS3_cookieverf => "NFS3_cookieverf"
  | cNFS3_createverf => "NFS3_createverf"
  | cNFS3_writeverf => "NFS3_writeverf"
  | cNFS3_uid => "NFS3_uid"
  | cNFS3_gid => "NFS3_gid"
  | cNFS3_size => "NFS3_size"
  | cNFS3_offset => "NFS3_offset"
  | cNFS3_mode => "NFS3_mode"
  | cNFS3_count => "NFS3_count"
  | cNFS3_ftype => "NFS3_ftype"
  | cRPC_verifier => "RPC_verifier"
  | cNFS3_specdata => "NFS3_specdata"
  | cNFS3_time => "NFS3_time"
  | cNFS3_fhandle => "NFS3_fhandle"
  | cNFS3_fattr => "NFS3_fattr"
  | cNFS3_sattr => "NFS3_sattr"
  | cNFS3_post_op_attr => "NFS3_post_op_attr"
  | cNFS3_post_op_fh => "NFS3_post_op_fh"
  | cNFS3_wcc_attr => "NFS3_wcc_attr"
  | cNFS3_pre_op_attr => "NFS3_pre_op_attr"
  | cNFS3_wcc_data => "NFS3_wcc_data"
  | cNFS3_dir_op_args => "NFS3_dir_op_args"
  | cNFS3_sattrguard => "NFS3_sattrguard"
  | cNFS3_symlink_data => "NFS3_symlink_data"
  | cNFS3_status => "NFS3_status"
  | cNFS3_NULL_Call => "NFS3_NULL_Call"
  | cNFS3_NULL_Reply => "NFS3_NULL_Reply"
  | cNFS3_GETATTR_Call => "NFS3_GETATTR_Call"
  | cNFS3_GETATTR_ReplyOk => "NFS3_GETATTR_ReplyOk"
  | cNFS3_GETATTR_Reply => "NFS3_GETATTR_Reply"
  | cNFS3_SETATTR_Call => "NFS3_SETATTR_Call"
  | cNFS3_SETATTR_Reply => "NFS3_SETATTR_Reply"
  | cNFS3_LOOKUP_Call => "NFS3_LOOKUP_Call"
  | cNFS3_LOOKUP_ReplyOk => "NFS3_LOOKUP_ReplyOk"
  | cNFS3_LOOKUP_ReplyFail => "NFS3_LOOKUP_ReplyFail"
  | cNFS3_LOOKUP_Reply => "NFS3_LOOKUP_Reply"
  | cNFS3_ACCESS_Call => "NFS3_ACCESS_Call"
  | cNFS3_ACCESS_ReplyOk => "NFS3_ACCESS_ReplyOk"
  | cNFS3_ACCESS_ReplyFail => "NFS3_ACCESS_ReplyFail"
  | cNFS3_ACCESS_Reply => "NFS3_ACCESS_Reply"
  | cNFS3_READLINK_Call => "NFS3_READLINK_Call"
  | cNFS3_READLINK_ReplyOk => "NFS3_READLINK_ReplyOk"
  | cNFS3_READLINK_ReplyFail => "NFS3_READLINK_ReplyFail"
  | cNFS3_READLINK_Reply => "NFS3_READLINK_Reply"
  | cNFS3_READ_Call => "NFS3_READ_Call"
  | cNFS3_READ_ReplyOk => "NFS3_READ_ReplyOk"
  | cNFS3_READ_ReplyFail => "NFS3_READ_ReplyFail"
  | cNFS3_READ_Reply => "NFS3_READ_Reply"
  | cNFS3_WRITE_Call => "NFS3_WRITE_Call"
  | cNFS3_WRITE_ReplyOk => "NFS3_WRITE_ReplyOk"
  | cNFS3_WRITE_ReplyFail => "NFS3_WRITE_ReplyFail"
  | cNFS3_WRITE_Reply => "NFS3_WRITE_Reply"
  | cNFS3_CREATE_Call => "NFS3_CREATE_Call"
  | cNFS3_CREATE_ReplyOk => "NFS3_CREATE_ReplyOk"
  | cNFS3_CREATE_ReplyFail => "NFS3_CREATE_ReplyFail"
  | cNFS3_CREATE_Reply => "NFS3_CREATE_Reply"
  | cNFS3_MKDIR_Call => "NFS3_MKDIR_Call"
  | cNFS3_MKDIR_ReplyOk => "NFS3_MKDIR_ReplyOk"
  | cNFS3_MKDIR_ReplyFail => "NFS3_MKDIR_ReplyFail"
  | cNFS3_MKDIR_Reply => "NFS3_MKDIR_Reply"
  | cNFS3_SYMLINK_Call => "NFS3_SYMLINK_Call"
  | cNFS3_SYMLINK_ReplyOk => "NFS3_SYMLINK_ReplyOk"
  | cNFS3_SYMLINK_ReplyFail => "NFS3_SYMLINK_ReplyFail"
  | cNFS3_SYMLINK_Reply => "NFS3_SYMLINK_Reply"
  | cNFS3_MKNOD_Call => "NFS3_MKNOD_Call"
  | cNFS3_MKNOD_Reply => "NFS3_MKNOD_Reply"
  | cNFS3_REMOVE_Call => "NFS3_REMOVE_Call"
  | cNFS3_REMOVE_Reply => "NFS3_REMOVE_Reply"
  | cNFS3_RMDIR_Call => "NFS3_RMDIR_Call"
  | cNFS3_RMDIR_Reply => "NFS3_RMDIR_Reply"
  | cNFS3_RENAME_Call => "NFS3_RENAME_Call"
  | cNFS3_RENAME_Reply => "NFS3_RENAME_Reply"
  | cNFS3_LINK_Call => "NFS3_LINK_Call"
  | cNFS3_LINK_Reply => "NFS3_LINK_Reply"
  | cNFS3_READDIR_Call => "NFS3_READDIR_Call"
  | cNFS3_READDIR_entry => "NFS3_READDIR_entry"
  | cNFS3_READDIR_ReplyOk => "NFS3_READDIR_ReplyOk"
  | cNFS3_READDIR_ReplyFail => "NFS3_READDIR_ReplyFail"
  | cNFS3_READDIR_Reply => "NFS3_READDIR_Reply"
  | cNFS3_READDIRPLUS_Call => "NFS3_READDIRPLUS_Call"
  | cNFS3_READDIRPLUS_entry => "NFS3_READDIRPLUS_entry"
  | cNFS3_READDIRPLUS_ReplyOk => "NFS3_READDIRPLUS_ReplyOk"
  | cNFS3_READDIRPLUS_ReplyFail => "NFS3_READDIRPLUS_ReplyFail"
  | cNFS3_READDIRPLUS_Reply => "NFS3_READDIRPLUS_Reply"
  | cNFS3_FSSTAT_Call => "NFS3_FSSTAT_Call"
  | cNFS3_FSSTAT_ReplyOk => "NFS3_FSSTAT_ReplyOk"
  | cNFS3_FSSTAT_ReplyFail => "NFS3_FSSTAT_ReplyFail"
  | cNFS3_FSSTAT_Reply => "NFS3_FSSTAT_Reply"
  | cNFS3_FSINFO_Call => "NFS3_FSINFO_Call"
  | cNFS3_FSINFO_ReplyFail => "NFS3_FSINFO_ReplyFail"
  | cNFS3_FSINFO_ReplyOk => "NFS3_FSINFO_ReplyOk"
  | cNFS3_FSINFO_Reply => "NFS3_FSINFO_Reply"
  | cNFS3_PATHCONF_Call => "NFS3_PATHCONF_Call"
  | cNFS3_PATHCONF_ReplyOk => "NFS3_PATHCONF_ReplyOk"
  | cNFS3_PATHCONF_ReplyFail => "NFS3_PATHCONF_ReplyFail"
  | cNFS3_PATHCONF_Reply => "NFS3_PATHCONF_Reply"
  | cNFS3_COMMIT_Call => "NFS3_COMMIT_Call"
  | cNFS3_COMMIT_ReplyOk => "NFS3_COMMIT_ReplyOk"
  | cNFS3_COMMIT_ReplyFail => "NFS3_COMMIT_ReplyFail"
  | cNFS3_COMMIT_Reply => "NFS3_COMMIT_Reply"
  | cMOUNT3_NULL_Call => "MOUNT3_NULL_Call"
  | cMOUNT3_NULL_Reply => "MOUNT3_NULL_Reply"
  | cMOUNT3_MNT_Call => "MOUNT3_MNT_Call"
  | cMOUNT3_MNT_ReplyOk => "MOUNT3_MNT_ReplyOk"
  | cMOUNT3_MNT_Reply => "MOUNT3_MNT_Reply"
  | cMOUNT3_UMNT_Call => "MOUNT3_UMNT_Call"
  | cMOUNT3_UMNT_Reply => "MOUNT3_UMNT_Reply"
  | cMOUNT3_UMNTALL_Call => "MOUNT3_UMNTALL_Call"
  | cMOUNT3_UMNTALL_Reply => "MOUNT3_UMNTALL_Reply"
  | cMOUNT3_EXPORT_Call => "MOUNT3_EXPORT_Call"
  | cMOUNT3_EXPORT_Reply => "MOUNT3_EXPORT_Reply"
  | cPORTMAP_NULL_Call => "PORTMAP_NULL_Call"
  | cPORTMAP_NULL_Reply => "PORTMAP_NULL_Reply"
  | cPORTMAP_GETPORT_Call => "PORTMAP_GETPORT_Call"
  | cPORTMAP_GETPORT_Reply => "PORTMAP_GETPORT_Reply"
  | cRPC_status => "RPC_status"
  | cRPC_Header => "RPC_Header"
  | cRPC_RecordMarker => "RPC_RecordMarker"
  | cRPC_AuthNull => "RPC_AuthNull"
  | cRPC_AuthSys => "RPC_AuthSys"
  | cRPC_Call => "RPC_Call"
  | cRPC_ReplySuccess => "RPC_ReplySuccess"
  | cRPC_ReplyMismatch => "RPC_ReplyMismatch"
  | cRPC_Reply => "RPC_Reply"
  end.

Definition all_classes : list cls :=
  [ cNFS3_fname;
    cNFS3_path;
    cNFS3_fileid;
    cNFS3_cookie;
    cNFS3_cookieverf;
    cNFS3_createverf;
    cNFS3_writeverf;
    cNFS3_uid;
    cNFS3_gid;
    cNFS3_size;
    cNFS3_offset;
    cNFS3_mode;
    cNFS3_count;
    cNFS3_ftype;
    cRPC_verifier;
    cNFS3_specdata;
    cNFS3_time;
    cNFS3_fhandle;
    cNFS3_fattr;
    cNFS3_sattr;
    cNFS3_post_op_attr;
    cNFS3_post_op_fh;
    cNFS3_wcc_attr;
    cNFS3_pre_op_attr;
    cNFS3_wcc_data;
    cNFS3_dir_op_args;
    cNFS3_sattrguard;
    cNFS3_symlink_data;
    cNFS3_status;
    cNFS3_NULL_Call;
    cNFS3_NULL_Reply;
    cNFS3_GETATTR_Call;
    cNFS3_GETATTR_ReplyOk;
    cNFS3_GETATTR_Reply;
    cNFS3_SETATTR_Call;
    cNFS3_SETATTR_Reply;
    cNFS3_LOOKUP_Call;
    cNFS3_LOOKUP_ReplyOk;
    cNFS3_LOOKUP_ReplyFail;
    cNFS3_LOOKUP_Reply;
    cNFS3_ACCESS_Call;
    cNFS3_ACCESS_ReplyOk;
    cNFS3_ACCESS_ReplyFail;
    cNFS3_ACCESS_Reply;
    cNFS3_READLINK_Call;
    cNFS3_READLINK_ReplyOk;
    cNFS3_READLINK_ReplyFail;
    cNFS3_READLINK_Reply;
    cNFS3_READ_Call;
    cNFS3_READ_ReplyOk;
    cNFS3_READ_ReplyFail;
    cNFS3_READ_Reply;
    cNFS3_WRITE_Call;
    cNFS3_WRITE_ReplyOk;
    cNFS3_WRITE_ReplyFail;
    cNFS3_WRITE_Reply;
    cNFS3_CREATE_Call;
    cNFS3_CREATE_ReplyOk;
    cNFS3_CREATE_ReplyFail;
    cNFS3_CREATE_Reply;
    cNFS3_MKDIR_Call;
    cNFS3_MKDIR_ReplyOk;
    cNFS3_MKDIR_ReplyFail;
    cNFS3_MKDIR_Reply;
    cNFS3_SYMLINK_Call;
    cNFS3_SYMLINK_ReplyOk;
    cNFS3_SYMLINK_ReplyFail;
    cNFS3_SYMLINK_Reply;
    cNFS3_MKNOD_Call;
    cNFS3_MKNOD_Reply;
    cNFS3_REMOVE_Call;
    cNFS3_REMOVE_Reply;
    cNFS3_RMDIR_Call;
    cNFS3_RMDIR_Reply;
    cNFS3_RENAME_Call;
    cNFS3_RENAME_Reply;
    cNFS3_LINK_Call;
    cNFS3_LINK_Reply;
    cNFS3_READDIR_Call;
    cNFS3_READDIR_entry;
    cNFS3_READDIR_ReplyOk;
    cNFS3_READDIR_ReplyFail;
    cNFS3_READDIR_Reply;
    cNFS3_READDIRPLUS_Call;
    cNFS3_READDIRPLUS_entry;
    cNFS3_READDIRPLUS_ReplyOk;
    cNFS3_READDIRPLUS_ReplyFail;
    cNFS3_READDIRPLUS_Reply;
    cNFS3_FSSTAT_Call;
    cNFS3_FSSTAT_ReplyOk;
    cNFS3_FSSTAT_ReplyFail;
    cNFS3_FSSTAT_Reply;
    cNFS3_FSINFO_Call;
    cNFS3_FSINFO_ReplyFail;
    cNFS3_FSINFO_ReplyOk;
    cNFS3_FSINFO_Reply;
    cNFS3_PATHCONF_Call;
    cNFS3_PATHCONF_ReplyOk;
    cNFS3_PATHCONF_ReplyFail;
    cNFS3_PATHCONF_Reply;
    cNFS3_COMMIT_Call;
    cNFS3_COMMIT_ReplyOk;
    cNFS3_COMMIT_ReplyFail;
    cNFS3_COMMIT_Reply;
    cMOUNT3_NULL_Call;
    cMOUNT3_NULL_Reply;
    cMOUNT3_MNT_Call;
    cMOUNT3_MNT_ReplyOk;
    cMOUNT3_MNT_Reply;
    cMOUNT3_UMNT_Call;
    cMOUNT3_UMNT_Reply;
    cMOUNT3_UMNTALL_Call;
    cMOUNT3_UMNTALL_Reply;
    cMOUNT3_EXPORT_Call;
    cMOUNT3_EXPORT_Reply;
    cPORTMAP_NULL_Call;
    cPORTMAP_NULL_Reply;
    cPORTMAP_GETPORT_Call;
    cPORTMAP_GETPORT_Reply;
    cRPC_status;
    cRPC_Header;
    cRPC_RecordMarker;
    cRPC_AuthNull;
    cRPC_AuthSys;
    cRPC_Call;
    cRPC_ReplySuccess;
    cRPC_ReplyMismatch;
    cRPC_Reply ].

(** [PacketNoPad.extract_padding] hands all the bytes after the fields back to
    the enclosing packet, [Packet.extract_padding] keeps them as payload. *)
Inductive base := Packet | PacketNoPad.

(** A Python object held in a packet field: an integer, a byte string, a
    string, a list or a dissected packet with its fields. *)
Inductive value :=
  | VNone
  | VInt (z : Z)
  | VBytes (b : bytes)
  | VStr (s : string)
  | VList (l : list value)
  | VPkt (c : cls) (fs : list (string * value)).

(** The fields of the packet under dissection, the [pkt] of the callbacks. *)
Abbreviation env := (list (string * value)).

(** [pkt.n] where field [n] holds an integer. *)
Definition int_attr (pkt : env) (n : string) : Z :=
  match dict_get n pkt with Some (VInt z) => z | _ => 0 end.

(** The truth value of an integer. *)
Definition truthy (z : Z) : bool := negb (z =? 0).

Inductive field :=
  | IntField (n : string) (d : value)
  | XIntField (n : string) (d : value)
  | XLongField (n : string) (d : value)
  | IntEnumField (n : string) (d : value) (enum : list (Z * string))
  | BitField (n : string) (d : value) (size : Z)
  | FieldLenField (n : string) (d : value) (length_of : string) (fmt : option string)
  | StrField (n : string) (d : value)
  | StrLenField (n : string) (d : value) (length_from : env -> Z)
  | StrFixedLenField (n : string) (d : value) (length_from : env -> Z)
  | XStrFixedLenField (n : string) (d : value) (length_from : env -> Z)
  | PadField (f : field) (align : Z)
  | PacketField (n : string) (d : value) (c : cls)
  | PacketLenField (n : string) (d : value) (c : cls) (length_from : env -> Z)
  | ConditionalField (f : field) (cond : env -> bool)
  | FieldListField (n : string) (d : value) (f : field) (count_from : env -> Z)
  | PacketListField (n : string) (d : value) (c : cls) (next_cls_cb : option env -> option cls).

(** The answer of a [guess_payload_class]: a class, the inherited method's
    answer, [None], or a class that depends on the XID tables ([RPC_Reply],
    see [RpcDissect.v]). *)
Inductive guess := GuessClass (c : cls) | GuessDefault | GuessNone | GuessByXid.

Record class_def := ClassDef {
  cd_base : base;
  cd_name : option string;
  cd_fields : list field;
  cd_guess : env -> res guess;
}.

Definition default_guess (self : env) : res guess := Ok GuessDefault.

(** [x.success()]: a method of [NFS3_status] and [RPC_status] only. *)
Definition success (x : value) : res bool :=
  match x with
  | VPkt cNFS3_status fs | VPkt cRPC_status fs =>
      Ok (match dict_get "v" fs with Some (VInt z) => 0 =? z | _ => false end)
  | _ => Raise AttributeError
  end.

(** [self.nfs_status.success()] choosing between two payload classes. *)
Definition status_guess (ok : cls) (fail : guess) (self : env) : res guess :=
  let? b := success (default VNone (dict_get "nfs_status" self)) in
  Ok (if b then GuessClass ok else fail).

(** * Basic data types (RFC 1813) *)

Definition NFS3_fname : class_def :=
  ClassDef PacketNoPad (Some "fname")
    [ FieldLenField "l" (VInt 0) "v" (Some "I");
      StrLenField "v" (VStr "") (fun pkt => int_attr pkt "l");
      XStrFixedLenField "p" (VStr "") (fun pkt => (- (int_attr pkt "l")) mod 4) ]
    default_guess.

Definition NFS3_path : class_def :=
  ClassDef PacketNoPad (Some "path")
    [ FieldLenField "l" (VInt 0) "v" (Some "I");
      StrLenField "v" (VStr "") (fun pkt => int_attr pkt "l");
      XStrFixedLenField "p" (VStr "") (fun pkt => (- (int_attr pkt "l")) mod 4) ]
    default_guess.

Definition NFS3_fileid : class_def :=
  ClassDef PacketNoPad (Some "fileid")
    [ XLongField "v" (VInt 0) ]
    default_guess.

Definition NFS3_cookie : class_def :=
  ClassDef PacketNoPad (Some "cookie")
    [ XLongField "v" (VInt 0) ]
    default_guess.

Definition NFS3_cookieverf : class_def :=
  ClassDef PacketNoPad (Some "cookieverf")
    [ XLongField "v" (VInt 0) ]
    default_guess.

Definition NFS3_createverf : class_def :=
  ClassDef PacketNoPad (Some "createverf")
    [ XLongField "v" (VInt 0) ]
    default_guess.

Definition NFS3_writeverf : class_def :=
  ClassDef PacketNoPad (Some "writeverf")
    [ XLongField "v" (VInt 0) ]
    default_guess.

Definition NFS3_uid : class_def :=
  ClassDef PacketNoPad (Some "uid")
    [ XIntField "v" (VInt 0) ]
    default_guess.

Definition NFS3_gid : class_def :=
  ClassDef PacketNoPad (Some "gid")
    [ XIntField "v" (VInt 0) ]
    default_guess.

Definition NFS3_size : class_def :=
  ClassDef PacketNoPad (Some "size")
    [ XLongField "v" (VInt 0) ]
    default_guess.

Definition NFS3_offset : class_def :=
  ClassDef PacketNoPad (Some "offset")
    [ XLongField "v" (VInt 0) ]
    default_guess.

Definition NFS3_mode : class_def :=
  ClassDef PacketNoPad (Some "mode")
    [ XIntField "v" (VInt 0) ]
    default_guess.

Definition NFS3_count : class_def :=
  ClassDef PacketNoPad (Some "count")
    [ XIntField "v" (VInt 0) ]
    default_guess.

Definition NFS3_ftype : class_def :=
  ClassDef PacketNoPad (Some "ftype")
    [ IntEnumField "v" (VInt 0) Nfs3_ValFtypeMap ]
    default_guess.

Definition RPC_verifier : class_def :=
  ClassDef PacketNoPad (Some "NFS Verifier")
    [ IntField "flavor" (VInt 0);
      FieldLenField "l" VNone "d" (Some "I");
      StrLenField "d" (VStr "") (fun pkt => int_attr pkt "l") ]
    default_guess.

Definition NFS3_specdata : class_def :=
  ClassDef PacketNoPad (Some "specdata")
    [ XIntField "specdata1" (VInt 0);
      XIntField "specdata2" (VInt 0) ]
    default_guess.

Definition NFS3_time : class_def :=
  ClassDef PacketNoPad (Some "time")
    [ XIntField "sec" (VInt 0);
      XIntField "nsec" (VInt 0) ]
    default_guess.

Definition NFS3_fhandle : class_def :=
  ClassDef PacketNoPad (Some "fhandle")
    [ FieldLenField "l" (VInt 0) "v" (Some "I");
      StrLenField "v" (VBytes []) (fun pkt => int_attr pkt "l") ]
    default_guess.

Definition NFS3_fattr : class_def :=
  ClassDef PacketNoPad (Some "NFS fattr")
    [ PacketField "ftype" VNone cNFS3_ftype;
      PacketField "mode" VNone cNFS3_mode;
      PacketField "nlink" VNone cNFS3_count;
      PacketField "uid" VNone cNFS3_uid;
      PacketField "gid" VNone cNFS3_gid;
      PacketField "size" VNone cNFS3_size;
      PacketField "used" VNone cNFS3_size;
      PacketField "specdata" VNone cNFS3_specdata;
      XLongField "fsid" (VInt 0);
      PacketField "fileid" VNone cNFS3_fileid;
      PacketField "atime" VNone cNFS3_time;
      PacketField "mtime" VNone cNFS3_time;
      PacketField "ctime" VNone cNFS3_time ]
    default_guess.

Definition NFS3_sattr : class_def :=
  ClassDef PacketNoPad (Some "NFS sattr")
    [ IntField "set_mode" (VInt 0);
      ConditionalField (PacketField "mode" VNone cNFS3_mode)
        (fun pkt => negb ((int_attr pkt "set_mode") =? 0));
      IntField "set_uid" (VInt 0);
      ConditionalField (PacketField "uid" VNone cNFS3_uid) (fun pkt => negb ((int_attr pkt "set_uid") =? 0));
      IntField "set_gid" (VInt 0);
      ConditionalField (PacketField "gid" VNone cNFS3_gid) (fun pkt => negb ((int_attr pkt "set_gid") =? 0));
      IntField "set_size" (VInt 0);
      ConditionalField (PacketField "size" VNone cNFS3_size)
        (fun pkt => negb ((int_attr pkt "set_size") =? 0));
      IntField "set_atime" (VInt 0);
      ConditionalField (PacketField "atime" VNone cNFS3_time)
        (fun pkt => negb ((int_attr pkt "set_atime") =? 0));
      IntField "set_mtime" (VInt 0);
      ConditionalField (PacketField "mtime" VNone cNFS3_time)
        (fun pkt => negb ((int_attr pkt "set_mtime") =? 0)) ]
    default_guess.

Definition NFS3_post_op_attr : class_def :=
  ClassDef PacketNoPad (Some "NFS post_op_attr")
    [ IntField "attribs_follow" (VInt 0);
      ConditionalField (PacketField "fattr" VNone cNFS3_fattr)
        (fun pkt => negb ((int_attr pkt "attribs_follow") =? 0)) ]
    default_guess.

Definition NFS3_post_op_fh : class_def :=
  ClassDef PacketNoPad (Some "post_op_fh")
    [ IntField "handle_follows" (VInt 0);
      ConditionalField (PacketField "handle" VNone cNFS3_fhandle)
        (fun pkt => negb ((int_attr pkt "handle_follows") =? 0)) ]
    default_guess.

Definition NFS3_wcc_attr : class_def :=
  ClassDef PacketNoPad (Some "wcc_attr")
    [ PacketField "size" (VInt 0) cNFS3_size;
      PacketField "mtime" VNone cNFS3_time;
      PacketField "ctime" VNone cNFS3_time ]
    default_guess.

Definition NFS3_pre_op_attr : class_def :=
  ClassDef PacketNoPad (Some "pre_op_attr")
    [ IntField "attribs_follow" (VInt 0);
      PacketField "attr" VNone cNFS3_wcc_attr ]
    default_guess.

Definition NFS3_wcc_data : class_def :=
  ClassDef PacketNoPad (Some "wcc_data")
    [ PacketField "before" VNone cNFS3_pre_op_attr;
      PacketField "after" VNone cNFS3_post_op_attr ]
    default_guess.

Definition NFS3_dir_op_args : class_def :=
  ClassDef PacketNoPad (Some "dir_op_args")
    [ PacketField "handle" VNone cNFS3_fhandle;
      PacketField "fname" VNone cNFS3_fname ]
    default_guess.

Definition NFS3_sattrguard : class_def :=
  ClassDef PacketNoPad None
    [ IntField "check" (VInt 0);
      ConditionalField (PacketField "obj_ctime" VNone cNFS3_time)
        (fun pkt => negb ((int_attr pkt "check") =? 0)) ]
    default_guess.

Definition NFS3_symlink_data : class_def :=
  ClassDef PacketNoPad (Some "symlink_data")
    [ PacketField "attr" VNone cNFS3_sattr;
      PacketField "path" VNone cNFS3_path ]
    default_guess.

Definition NFS3_status : class_def :=
  ClassDef PacketNoPad (Some "nfs_status")
    [ IntEnumField "v" VNone Nfs3_ValStatMap ]
    default_guess.

(** * NFS procedures *)

Definition NFS3_NULL_Call : class_def :=
  ClassDef Packet (Some "NFS NULL call")
    []
    default_guess.

Definition NFS3_NULL_Reply : class_def :=
  ClassDef Packet (Some "NFS NULL response")
    []
    default_guess.

Definition NFS3_GETATTR_Call : class_def :=
  ClassDef Packet (Some "NFS GETATTR call")
    [ PacketField "handle" VNone cNFS3_fhandle ]
    default_guess.

Definition NFS3_GETATTR_ReplyOk : class_def :=
  ClassDef Packet (Some "NFS GETATTR Reply OK")
    [ PacketField "fattr" VNone cNFS3_fattr ]
    default_guess.

Definition NFS3_GETATTR_Reply : class_def :=
  ClassDef Packet (Some "NFS GETATTR reply")
    [ PacketField "nfs_status" (VInt 0) cNFS3_status ]
    (status_guess cNFS3_GETATTR_ReplyOk GuessDefault).

Definition NFS3_SETATTR_Call : class_def :=
  ClassDef Packet (Some "NFS SETATTR call")
    [ PacketField "handle" VNone cNFS3_fhandle;
      PacketField "new_attr" VNone cNFS3_sattr;
      PacketField "guard" VNone cNFS3_sattrguard ]
    default_guess.

Definition NFS3_SETATTR_Reply : class_def :=
  ClassDef Packet (Some "NFS SETATTR reply")
    [ IntEnumField "nfs_status" (VInt 0) Nfs3_ValStatMap;
      PacketField "obj_wcc" VNone cNFS3_wcc_data ]
    default_guess.

Definition NFS3_LOOKUP_Call : class_def :=
  ClassDef Packet (Some "NFS LOOKUP call")
    [ PacketField "args" VNone cNFS3_dir_op_args ]
    default_guess.

Definition NFS3_LOOKUP_ReplyOk : class_def :=
  ClassDef PacketNoPad (Some "NFS LOOKUP reply OK")
    [ PacketField "handle" VNone cNFS3_fhandle;
      PacketField "obj" VNone cNFS3_post_op_attr;
      PacketField "dir" VNone cNFS3_post_op_attr ]
    default_guess.

Definition NFS3_LOOKUP_ReplyFail : class_def :=
  ClassDef Packet (Some "NFS LOOKUP reply Fail")
    [ PacketField "dir" VNone cNFS3_post_op_attr ]
    default_guess.

Definition NFS3_LOOKUP_Reply : class_def :=
  ClassDef Packet (Some "NFS LOOKUP reply")
    [ PacketField "nfs_status" (VInt 0) cNFS3_status ]
    (status_guess cNFS3_LOOKUP_ReplyOk (GuessClass cNFS3_LOOKUP_ReplyFail)).

Definition NFS3_ACCESS_Call : class_def :=
  ClassDef PacketNoPad (Some "NFS ACCESS call")
    [ PacketField "handle" VNone cNFS3_fhandle;
      XIntField "check_access" (VInt 0) ]
    default_guess.

Definition NFS3_ACCESS_ReplyOk : class_def :=
  ClassDef Packet (Some "NFS ACCESS reply OK")
    [ PacketField "obj" VNone cNFS3_post_op_attr;
      XIntField "access" (VInt 0) ]
    default_guess.

Definition NFS3_ACCESS_ReplyFail : class_def :=
  ClassDef Packet (Some "NFS ACCESS reply fail")
    [ PacketField "obj" VNone cNFS3_post_op_attr ]
    default_guess.

Definition NFS3_ACCESS_Reply : class_def :=
  ClassDef Packet (Some "NFS ACCESS reply")
    [ PacketField "nfs_status" (VInt 0) cNFS3_status ]
    (status_guess cNFS3_ACCESS_ReplyOk (GuessClass cNFS3_ACCESS_ReplyFail)).

Definition NFS3_READLINK_Call : class_def :=
  ClassDef Packet (Some "NFS READLINK call")
    [ PacketField "handle" VNone cNFS3_fhandle ]
    default_guess.

Definition NFS3_READLINK_ReplyOk : class_def :=
  ClassDef Packet (Some "NFS READLINK reply OK")
    [ PacketField "link" VNone cNFS3_post_op_attr;
      PacketField "path" VNone cNFS3_path ]
    default_guess.

Definition NFS3_READLINK_ReplyFail : class_def :=
  ClassDef Packet (Some "NFS READLINK reply Fail")
    [ PacketField "link" VNone cNFS3_post_op_attr ]
    default_guess.

Definition NFS3_READLINK_Reply : class_def :=
  ClassDef Packet (Some "NFS READLINK reply")
    [ PacketField "nfs_status" (VInt 0) cNFS3_status ]
    (status_guess cNFS3_READLINK_ReplyOk (GuessClass cNFS3_READLINK_ReplyFail)).

Definition NFS3_READ_Call : class_def :=
  ClassDef Packet (Some "NFS READ call")
    [ PacketField "handle" VNone cNFS3_fhandle;
      PacketField "offset" VNone cNFS3_offset;
      PacketField "count" VNone cNFS3_count ]
    default_guess.

Definition NFS3_READ_ReplyOk : class_def :=
  ClassDef PacketNoPad (Some "NFS READ reply OK")
    [ PacketField "file" VNone cNFS3_post_op_attr;
      FieldLenField "count" (VInt 0) "data" (Some "I");
      IntField "eof" (VInt 0);
      IntField "data_len" (VInt 0);
      StrLenField "data" (VInt 0) (fun pkt => int_attr pkt "count");
      PadField (StrLenField "p" (VStr "") (fun pkt => int_attr pkt "count")) 4 ]
    default_guess.

Definition NFS3_READ_ReplyFail : class_def :=
  ClassDef Packet (Some "NFS READ reply Fail")
    [ PacketField "file" VNone cNFS3_post_op_attr ]
    default_guess.

Definition NFS3_READ_Reply : class_def :=
  ClassDef Packet (Some "NFS READ reply")
    [ PacketField "nfs_status" (VInt 0) cNFS3_status ]
    (status_guess cNFS3_READ_ReplyOk (GuessClass cNFS3_READ_ReplyFail)).

Definition NFS3_WRITE_Call : class_def :=
  ClassDef Packet (Some "NFS WRITE call")
    [ PacketField "handle" VNone cNFS3_fhandle;
      PacketField "offset" VNone cNFS3_offset;
      PacketField "count" VNone cNFS3_count;
      IntEnumField "stable" (VInt 0) Nfs3_ValStableMap;
      IntField "data_len" (VInt 0);
      StrField "data" (VStr "") ]
    default_guess.

Definition NFS3_WRITE_ReplyOk : class_def :=
  ClassDef Packet (Some "NFS WRITE reply OK")
    [ PacketField "wcc" VNone cNFS3_wcc_data;
      XIntField "count" (VInt 0);
      IntEnumField "committed" (VInt 0) Nfs3_ValStableMap;
      PacketField "writeverf" VNone cNFS3_writeverf ]
    default_guess.

Definition NFS3_WRITE_ReplyFail : class_def :=
  ClassDef Packet (Some "NFS WRITE reply fail")
    [ PacketField "wcc" VNone cNFS3_wcc_data ]
    default_guess.

Definition NFS3_WRITE_Reply : class_def :=
  ClassDef Packet (Some "NFS WRITE reply")
    [ PacketField "nfs_status" (VInt 0) cNFS3_status ]
    (status_guess cNFS3_WRITE_ReplyOk (GuessClass cNFS3_WRITE_ReplyFail)).

Definition NFS3_CREATE_Call : class_def :=
  ClassDef Packet (Some "NFS CREATE call")
    [ PacketField "args" VNone cNFS3_dir_op_args;
      IntEnumField "mode" (VInt 0) Nfs3_ValCreateModeMap;
      ConditionalField (PacketField "attr" VNone cNFS3_sattr)
        (fun pkt => existsb (Z.eqb (int_attr pkt "mode")) [sub_const Nfs3_CreateModeValMap "UNCHECKED"; sub_const Nfs3_CreateModeValMap "GUARDED"]);
      ConditionalField (PacketField "how" VNone cNFS3_createverf)
        (fun pkt => existsb (Z.eqb (int_attr pkt "mode")) [sub_const Nfs3_CreateModeValMap "EXCLUSIVE"]) ]
    default_guess.

Definition NFS3_CREATE_ReplyOk : class_def :=
  ClassDef Packet (Some "NFS CREATE reply OK")
    [ PacketField "handle" VNone cNFS3_post_op_fh;
      PacketField "attr" VNone cNFS3_post_op_attr;
      PacketField "wcc" VNone cNFS3_wcc_data ]
    default_guess.

Definition NFS3_CREATE_ReplyFail : class_def :=
  ClassDef Packet (Some "NFS CREATE reply fail")
    [ PacketField "wcc" VNone cNFS3_wcc_data ]
    default_guess.

Definition NFS3_CREATE_Reply : class_def :=
  ClassDef Packet (Some "NFS CREATE reply")
    [ PacketField "nfs_status" (VInt 0) cNFS3_status ]
    (status_guess cNFS3_CREATE_ReplyOk (GuessClass cNFS3_CREATE_ReplyFail)).

Definition NFS3_MKDIR_Call : class_def :=
  ClassDef Packet (Some "NFS MKDIR call")
    [ PacketField "args" VNone cNFS3_dir_op_args;
      PacketField "attr" VNone cNFS3_sattr ]
    default_guess.

Definition NFS3_MKDIR_ReplyOk : class_def :=
  ClassDef Packet (Some "NFS MKDIR reply OK")
    [ PacketField "handle" VNone cNFS3_post_op_fh;
      PacketField "attr" VNone cNFS3_post_op_attr;
      PacketField "wcc" VNone cNFS3_wcc_data ]
    default_guess.

Definition NFS3_MKDIR_ReplyFail : class_def :=
  ClassDef Packet (Some "NFS MKDIR reply fail")
    [ PacketField "wcc" VNone cNFS3_wcc_data ]
    default_guess.

Definition NFS3_MKDIR_Reply : class_def :=
  ClassDef Packet (Some "NFS MKDIR reply")
    [ PacketField "nfs_status" (VInt 0) cNFS3_status ]
    (status_guess cNFS3_MKDIR_ReplyOk (GuessClass cNFS3_MKDIR_ReplyFail)).

Definition NFS3_SYMLINK_Call : class_def :=
  ClassDef Packet (Some "NFS SYMLINK call")
    [ PacketField "where" VNone cNFS3_dir_op_args;
      PacketField "symlink" VNone cNFS3_symlink_data ]
    default_guess.

Definition NFS3_SYMLINK_ReplyOk : class_def :=
  ClassDef Packet (Some "NFS SYMLINK reply OK")
    [ PacketField "handle" VNone cNFS3_post_op_fh;
      PacketField "attr" VNone cNFS3_post_op_attr;
      PacketField "wcc" VNone cNFS3_wcc_data ]
    default_guess.

Definition NFS3_SYMLINK_ReplyFail : class_def :=
  ClassDef Packet (Some "NFS SYMLINK reply fail")
    [ PacketField "wcc" VNone cNFS3_wcc_data ]
    default_guess.

Definition NFS3_SYMLINK_Reply : class_def :=
  ClassDef Packet (Some "NFS SYMLINK reply")
    [ PacketField "nfs_status" (VInt 0) cNFS3_status ]
    (status_guess cNFS3_SYMLINK_ReplyOk (GuessClass cNFS3_SYMLINK_ReplyFail)).

Definition NFS3_MKNOD_Call : class_def :=
  ClassDef Packet (Some "NFS MKNOD call")
    []
    default_guess.

Definition NFS3_MKNOD_Reply : class_def :=
  ClassDef Packet (Some "NFS MKNOD reply")
    []
    default_guess.

Definition NFS3_REMOVE_Call : class_def :=
  ClassDef Packet (Some "NFS REMOVE call")
    [ PacketField "args" VNone cNFS3_dir_op_args ]
    default_guess.

Definition NFS3_REMOVE_Reply : class_def :=
  ClassDef Packet (Some "NFS REMOVE reply")
    [ IntEnumField "nfs_status" (VInt 0) Nfs3_ValStatMap;
      PacketField "wcc" VNone cNFS3_wcc_data ]
    default_guess.

Definition NFS3_RMDIR_Call : class_def :=
  ClassDef Packet (Some "NFS RMDIR call")
    [ PacketField "args" VNone cNFS3_dir_op_args ]
    default_guess.

Definition NFS3_RMDIR_Reply : class_def :=
  ClassDef Packet (Some "NFS RMDIR reply")
    [ IntEnumField "nfs_status" (VInt 0) Nfs3_ValStatMap;
      PacketField "wcc" VNone cNFS3_wcc_data ]
    default_guess.

Definition NFS3_RENAME_Call : class_def :=
  ClassDef Packet (Some "NFS RENAME call")
    [ PacketField "ffrom" VNone cNFS3_dir_op_args;
      PacketField "fto" VNone cNFS3_dir_op_args ]
    default_guess.

Definition NFS3_RENAME_Reply : class_def :=
  ClassDef Packet (Some "NFS RENAME reply")
    [ IntEnumField "nfs_status" (VInt 0) Nfs3_ValStatMap;
      PacketField "ffrom" VNone cNFS3_wcc_data;
      PacketField "fto" VNone cNFS3_wcc_data ]
    default_guess.

Definition NFS3_LINK_Call : class_def :=
  ClassDef Packet (Some "NFS LINK call")
    [ PacketField "handle" VNone cNFS3_fhandle;
      PacketField "link" VNone cNFS3_dir_op_args ]
    default_guess.

Definition NFS3_LINK_Reply : class_def :=
  ClassDef Packet (Some "NFS LINK reply")
    [ PacketField "file" VNone cNFS3_post_op_fh;
      PacketField "linkdir" VNone cNFS3_wcc_data ]
    default_guess.

Definition NFS3_READDIR_Call : class_def :=
  ClassDef Packet (Some "NFS READDIR call")
    [ PacketField "handle" VNone cNFS3_fhandle;
      PacketField "cookie" VNone cNFS3_cookie;
      PacketField "cookieverf" VNone cNFS3_cookieverf;
      PacketField "count" VNone cNFS3_count ]
    default_guess.

(** [next_entry]: another entry while the previous one says so. *)
Definition NFS3_READDIR_entry_next_entry (curr : option env) : option cls :=
  match curr with
  | None => Some cNFS3_READDIR_entry
  | Some e => if truthy (int_attr e "entry_follows") then Some cNFS3_READDIR_entry else None
  end.

Definition NFS3_READDIR_entry : class_def :=
  ClassDef Packet (Some "NFS READDIR entry")
    [ PacketField "fileid" VNone cNFS3_fileid;
      PacketField "fname" VNone cNFS3_fname;
      PacketField "cookie" VNone cNFS3_cookie;
      IntField "entry_follows" (VInt 0) ]
    default_guess.

Definition NFS3_READDIR_ReplyOk : class_def :=
  ClassDef Packet (Some "NFS READDIR reply ok")
    [ PacketField "dir" VNone cNFS3_post_op_attr;
      PacketField "cookieverf" VNone cNFS3_cookieverf;
      IntField "entry_follows" (VInt 0);
      ConditionalField (PacketListField "entries" VNone cNFS3_READDIR_entry NFS3_READDIR_entry_next_entry)
        (fun pkt => truthy (int_attr pkt "entry_follows"));
      IntField "eof" (VInt 0) ]
    default_guess.

Definition NFS3_READDIR_ReplyFail : class_def :=
  ClassDef Packet (Some "NFS READDIR reply fail")
    [ PacketField "dir" VNone cNFS3_post_op_attr ]
    default_guess.

Definition NFS3_READDIR_Reply : class_def :=
  ClassDef Packet (Some "NFS READDIR reply")
    [ PacketField "nfs_status" (VInt 0) cNFS3_status ]
    (status_guess cNFS3_READDIR_ReplyOk (GuessClass cNFS3_READDIR_ReplyFail)).

Definition NFS3_READDIRPLUS_Call : class_def :=
  ClassDef Packet (Some "NFS READDIRPLUS call")
    [ PacketField "handle" VNone cNFS3_fhandle;
      PacketField "cookie" VNone cNFS3_cookie;
      PacketField "cookieverf" VNone cNFS3_cookieverf;
      PacketField "dircount" VNone cNFS3_count;
      PacketField "maxcount" VNone cNFS3_count ]
    default_guess.

Definition NFS3_READDIRPLUS_entry_next_entry (curr : option env) : option cls :=
  match curr with
  | None => Some cNFS3_READDIRPLUS_entry
  | Some e => if truthy (int_attr e "entry_follows") then Some cNFS3_READDIRPLUS_entry else None
  end.

Definition NFS3_READDIRPLUS_entry : class_def :=
  ClassDef PacketNoPad (Some "NFS READDIRPLUS entry")
    [ PacketField "fileid" VNone cNFS3_fileid;
      PacketField "fname" VNone cNFS3_fname;
      PacketField "cookie" VNone cNFS3_cookie;
      PacketField "name_attr" VNone cNFS3_post_op_attr;
      PacketField "file" VNone cNFS3_post_op_fh;
      IntField "entry_follows" (VInt 0) ]
    default_guess.

Definition NFS3_READDIRPLUS_ReplyOk : class_def :=
  ClassDef PacketNoPad (Some "NFS READDIRPLUS reply ok")
    [ PacketField "dir" VNone cNFS3_post_op_attr;
      PacketField "cookieverf" VNone cNFS3_cookieverf;
      IntField "entry_follows" (VInt 0);
      ConditionalField (PacketListField "entries" VNone cNFS3_READDIRPLUS_entry
        NFS3_READDIRPLUS_entry_next_entry)
        (fun pkt => truthy (int_attr pkt "entry_follows"));
      IntField "eof" (VInt 0) ]
    default_guess.

Definition NFS3_READDIRPLUS_ReplyFail : class_def :=
  ClassDef Packet (Some "NFS READDIRPLUS reply fail")
    [ PacketField "dir" VNone cNFS3_post_op_attr ]
    default_guess.

Definition NFS3_READDIRPLUS_Reply : class_def :=
  ClassDef Packet (Some "NFS READDIRPLUS reply")
    [ PacketField "nfs_status" (VInt 0) cNFS3_status ]
    (status_guess cNFS3_READDIRPLUS_ReplyOk (GuessClass cNFS3_READDIRPLUS_ReplyFail)).

Definition NFS3_FSSTAT_Call : class_def :=
  ClassDef Packet (Some "NFS FSSTAT call")
    [ PacketField "root" VNone cNFS3_fhandle ]
    default_guess.

Definition NFS3_FSSTAT_ReplyOk : class_def :=
  ClassDef Packet (Some "NFS FSSTAT reply OK")
    [ PacketField "dir" VNone cNFS3_post_op_attr;
      PacketField "tbytes" VNone cNFS3_size;
      PacketField "fbytes" VNone cNFS3_size;
      PacketField "abytes" VNone cNFS3_size;
      PacketField "tfiles" VNone cNFS3_size;
      PacketField "ffiles" VNone cNFS3_size;
      PacketField "afiles" VNone cNFS3_size;
      IntField "invarsec" (VInt 0) ]
    default_guess.

Definition NFS3_FSSTAT_ReplyFail : class_def :=
  ClassDef Packet (Some "NFS FSSTAT reply fail")
    [ PacketField "fs" VNone cNFS3_post_op_attr ]
    default_guess.

Definition NFS3_FSSTAT_Reply : class_def :=
  ClassDef Packet (Some "NFS FSSTAT reply")
    [ PacketField "nfs_status" (VInt 0) cNFS3_status ]
    (status_guess cNFS3_FSSTAT_ReplyOk (GuessClass cNFS3_FSSTAT_ReplyFail)).

Definition NFS3_FSINFO_Call : class_def :=
  ClassDef Packet (Some "NFS FSINFO call")
    [ PacketField "root" VNone cNFS3_fhandle ]
    default_guess.

Definition NFS3_FSINFO_ReplyFail : class_def :=
  ClassDef Packet (Some "NFS FSINFO reply fail")
    [ PacketField "fs" VNone cNFS3_post_op_attr ]
    default_guess.

Definition NFS3_FSINFO_ReplyOk : class_def :=
  ClassDef PacketNoPad (Some "NFS FSINFO reply OK")
    [ PacketField "fs" VNone cNFS3_post_op_attr;
      XIntField "rtmax" (VInt 0);
      XIntField "rtpref" (VInt 0);
      XIntField "rtmult" (VInt 0);
      XIntField "wtmax" (VInt 0);
      XIntField "wtpref" (VInt 0);
      XIntField "wtmult" (VInt 0);
      XIntField "dtmult" (VInt 0);
      PacketField "maxfilesize" VNone cNFS3_size;
      PacketField "time_delta" VNone cNFS3_time;
      XIntField "properties" (VInt 0) ]
    default_guess.

Definition NFS3_FSINFO_Reply : class_def :=
  ClassDef Packet (Some "NFS FSINFO reply")
    [ PacketField "nfs_status" (VInt 0) cNFS3_status ]
    (status_guess cNFS3_FSINFO_ReplyOk (GuessClass cNFS3_FSINFO_ReplyFail)).

Definition NFS3_PATHCONF_Call : class_def :=
  ClassDef Packet (Some "NFS PATHCONF call")
    [ PacketField "path" VNone cNFS3_fhandle ]
    default_guess.

Definition NFS3_PATHCONF_ReplyOk : class_def :=
  ClassDef Packet (Some "NFS PATHCONF reply OK")
    [ PacketField "dir" VNone cNFS3_post_op_attr;
      XIntField "linkmax" (VInt 0);
      XIntField "name_max" (VInt 0);
      XIntField "notrunc" (VInt 0);
      XIntField "chown_restricted" (VInt 0);
      XIntField "case_insensitive" (VInt 0);
      XIntField "case_preserving" (VInt 0) ]
    default_guess.

Definition NFS3_PATHCONF_ReplyFail : class_def :=
  ClassDef Packet (Some "NFS PATHCONF reply fail")
    [ PacketField "pathconf" VNone cNFS3_post_op_attr ]
    default_guess.

Definition NFS3_PATHCONF_Reply : class_def :=
  ClassDef Packet (Some "NFS PATHCONF reply")
    [ PacketField "nfs_status" (VInt 0) cNFS3_status ]
    (status_guess cNFS3_PATHCONF_ReplyOk (GuessClass cNFS3_PATHCONF_ReplyFail)).

Definition NFS3_COMMIT_Call : class_def :=
  ClassDef Packet (Some "NFS COMMIT call")
    [ PacketField "root" VNone cNFS3_fhandle;
      PacketField "offset" VNone cNFS3_offset;
      PacketField "count" VNone cNFS3_count ]
    default_guess.

Definition NFS3_COMMIT_ReplyOk : class_def :=
  ClassDef Packet (Some "NFS COMMIT reply OK")
    [ PacketField "wcc" VNone cNFS3_wcc_data;
      PacketField "writeverf" VNone cNFS3_writeverf ]
    default_guess.

Definition NFS3_COMMIT_ReplyFail : class_def :=
  ClassDef Packet (Some "NFS COMMIT reply fail")
    [ PacketField "wcc" VNone cNFS3_wcc_data ]
    default_guess.

Definition NFS3_COMMIT_Reply : class_def :=
  ClassDef Packet (Some "NFS COMMIT reply")
    [ PacketField "nfs_status" (VInt 0) cNFS3_status ]
    (status_guess cNFS3_COMMIT_ReplyOk (GuessClass cNFS3_COMMIT_ReplyFail)).

Definition MOUNT3_NULL_Call : class_def :=
  ClassDef Packet (Some "MOUNT3 NULL call")
    []
    default_guess.

Definition MOUNT3_NULL_Reply : class_def :=
  ClassDef Packet (Some "MOUNT3 NULL reply")
    []
    default_guess.

Definition MOUNT3_MNT_Call : class_def :=
  ClassDef PacketNoPad (Some "MOUNT3 MNT call")
    [ PacketField "path" VNone cNFS3_path ]
    default_guess.

Definition MOUNT3_MNT_ReplyOk : class_def :=
  ClassDef Packet (Some "NFS MNT reply OK")
    [ PacketField "handle" VNone cNFS3_fhandle;
      FieldLenField "auth_flavor_ct" (VInt 0) "auth_flavors" (Some "I");
      FieldListField "auth_flavors" (VInt 0) (IntEnumField "flavor" (VInt 0) ValAuthMap)
        (fun pkt => int_attr pkt "auth_flavor_ct") ]
    default_guess.

Definition MOUNT3_MNT_Reply_guess (self : env) : res guess :=
  Ok (if int_attr self "status" =? MOUNT3_OK then GuessClass cMOUNT3_MNT_ReplyOk
      else GuessNone).

Definition MOUNT3_MNT_Reply : class_def :=
  ClassDef Packet (Some "NFS MNT reply")
    [ IntField "status" (VInt 0) ]
    MOUNT3_MNT_Reply_guess.

Definition MOUNT3_UMNT_Call : class_def :=
  ClassDef PacketNoPad (Some "MOUNT3 UMNT call")
    [ PacketField "path" VNone cNFS3_path ]
    default_guess.

Definition MOUNT3_UMNT_Reply : class_def :=
  ClassDef Packet (Some "NFS UMNT reply")
    []
    default_guess.

Definition MOUNT3_UMNTALL_Call : class_def :=
  ClassDef PacketNoPad (Some "MOUNT3 UMNTALL call")
    []
    default_guess.

Definition MOUNT3_UMNTALL_Reply : class_def :=
  ClassDef Packet (Some "NFS UMNTALL reply")
    []
    default_guess.

Definition MOUNT3_EXPORT_Call : class_def :=
  ClassDef PacketNoPad (Some "MOUNT3 EXPORT call")
    []
    default_guess.

Definition MOUNT3_EXPORT_Reply : class_def :=
  ClassDef Packet (Some "NFS EXPORT reply")
    []
    default_guess.

Definition PORTMAP_NULL_Call : class_def :=
  ClassDef Packet (Some "PORTMAP NULL call")
    []
    default_guess.

Definition PORTMAP_NULL_Reply : class_def :=
  ClassDef Packet (Some "PORTMAP NULL reply")
    []
    default_guess.

Definition PORTMAP_GETPORT_Call : class_def :=
  ClassDef Packet (Some "PORTMAP GETPORT call")
    [ IntEnumField "program" (VInt 0) ValProgramMap;
      IntField "version" (VInt 0);
      IntField "proto" (VInt 0);
      IntField "port" (VInt 0) ]
    default_guess.

Definition PORTMAP_GETPORT_Reply : class_def :=
  ClassDef Packet (Some "PORTMAP GETPORT reply")
    [ IntField "port" (VInt 0) ]
    default_guess.

(** * Lookup tables: procedure number to class *)

Definition nfs3_call_lookup : list (Z * option cls) :=
  [ (sub_const Nfs3_ProcedureValMap "NFSPROC3_NULL", Some cNFS3_NULL_Call);
    (sub_const Nfs3_ProcedureValMap "NFSPROC3_GETATTR", Some cNFS3_GETATTR_Call);
    (sub_const Nfs3_ProcedureValMap "NFSPROC3_SETATTR", Some cNFS3_SETATTR_Call);
    (sub_const Nfs3_ProcedureValMap "NFSPROC3_LOOKUP", Some cNFS3_LOOKUP_Call);
    (sub_const Nfs3_ProcedureValMap "NFSPROC3_ACCESS", Some cNFS3_ACCESS_Call);
    (sub_const Nfs3_ProcedureValMap "NFSPROC3_READLINK", Some cNFS3_READLINK_Call);
    (sub_const Nfs3_ProcedureValMap "NFSPROC3_READ", Some cNFS3_READ_Call);
    (sub_const Nfs3_ProcedureValMap "NFSPROC3_WRITE", Some cNFS3_WRITE_Call);
    (sub_const Nfs3_ProcedureValMap "NFSPROC3_CREATE", Some cNFS3_CREATE_Call);
    (sub_const Nfs3_ProcedureValMap "NFSPROC3_MKDIR", Some cNFS3_MKDIR_Call);
    (sub_const Nfs3_ProcedureValMap "NFSPROC3_SYMLINK", Some cNFS3_SYMLINK_Call);
    (sub_const Nfs3_ProcedureValMap "NFSPROC3_MKNOD", Some cNFS3_MKNOD_Call);
    (sub_const Nfs3_ProcedureValMap "NFSPROC3_REMOVE", Some cNFS3_REMOVE_Call);
    (sub_const Nfs3_ProcedureValMap "NFSPROC3_RMDIR", Some cNFS3_RMDIR_Call);
    (sub_const Nfs3_ProcedureValMap "NFSPROC3_RENAME", Some cNFS3_RENAME_Call);
    (sub_const Nfs3_ProcedureValMap "NFSPROC3_LINK", Some cNFS3_LINK_Call);
    (sub_const Nfs3_ProcedureValMap "NFSPROC3_READDIR", Some cNFS3_READDIR_Call);
    (sub_const Nfs3_ProcedureValMap "NFSPROC3_READDIRPLUS", Some cNFS3_READDIRPLUS_Call);
    (sub_const Nfs3_ProcedureValMap "NFSPROC3_FSSTAT", Some cNFS3_FSSTAT_Call);
    (sub_const Nfs3_ProcedureValMap "NFSPROC3_FSINFO", Some cNFS3_FSINFO_Call);
    (sub_const Nfs3_ProcedureValMap "NFSPROC3_PATHCONF", Some cNFS3_PATHCONF_Call);
    (sub_const Nfs3_ProcedureValMap "NFSPROC3_COMMIT", Some cNFS3_COMMIT_Call) ].

Definition nfs3_reply_lookup : list (Z * option cls) :=
  [ (sub_const Nfs3_ProcedureValMap "NFSPROC3_NULL", Some cNFS3_NULL_Reply);
    (sub_const Nfs3_ProcedureValMap "NFSPROC3_GETATTR", Some cNFS3_GETATTR_Reply);
    (sub_const Nfs3_ProcedureValMap "NFSPROC3_SETATTR", Some cNFS3_SETATTR_Reply);
    (sub_const Nfs3_ProcedureValMap "NFSPROC3_LOOKUP", Some cNFS3_LOOKUP_Reply);
    (sub_const Nfs3_ProcedureValMap "NFSPROC3_ACCESS", Some cNFS3_ACCESS_Reply);
    (sub_const Nfs3_ProcedureValMap "NFSPROC3_READLINK", Some cNFS3_READLINK_Reply);
    (sub_const Nfs3_ProcedureValMap "NFSPROC3_READ", Some cNFS3_READ_Reply);
    (sub_const Nfs3_ProcedureValMap "NFSPROC3_WRITE", Some cNFS3_WRITE_Reply);
    (sub_const Nfs3_ProcedureValMap "NFSPROC3_CREATE", Some cNFS3_CREATE_Reply);
    (sub_const Nfs3_ProcedureValMap "NFSPROC3_MKDIR", Some cNFS3_MKDIR_Reply);
    (sub_const Nfs3_ProcedureValMap "NFSPROC3_SYMLINK", Some cNFS3_SYMLINK_Reply);
    (sub_const Nfs3_ProcedureValMap "NFSPROC3_MKNOD", Some cNFS3_MKNOD_Reply);
    (sub_const Nfs3_ProcedureValMap "NFSPROC3_REMOVE", Some cNFS3_REMOVE_Reply);
    (sub_const Nfs3_ProcedureValMap "NFSPROC3_RMDIR", Some cNFS3_RMDIR_Reply);
    (sub_const Nfs3_ProcedureValMap "NFSPROC3_RENAME", Some cNFS3_RENAME_Reply);
    (sub_const Nfs3_ProcedureValMap "NFSPROC3_LINK", Some cNFS3_LINK_Reply);
    (sub_const Nfs3_ProcedureValMap "NFSPROC3_READDIR", Some cNFS3_READDIR_Reply);
    (sub_const Nfs3_ProcedureValMap "NFSPROC3_READDIRPLUS", Some cNFS3_READDIRPLUS_Reply);
    (sub_const Nfs3_ProcedureValMap "NFSPROC3_FSSTAT", Some cNFS3_FSSTAT_Reply);
    (sub_const Nfs3_ProcedureValMap "NFSPROC3_FSINFO", Some cNFS3_FSINFO_Reply);
    (sub_const Nfs3_ProcedureValMap "NFSPROC3_PATHCONF", Some cNFS3_PATHCONF_Reply);
    (sub_const Nfs3_ProcedureValMap "NFSPROC3_COMMIT", Some cNFS3_COMMIT_Reply) ].

Definition mount3_call_lookup : list (Z * option cls) :=
  [ (sub_const Mount3_ProcedureValMap "MOUNTPROC3_NULL", Some cMOUNT3_NULL_Call);
    (sub_const Mount3_ProcedureValMap "MOUNTPROC3_MNT", Some cMOUNT3_MNT_Call);
    (sub_const Mount3_ProcedureValMap "MOUNTPROC3_DUMP", None);
    (sub_const Mount3_ProcedureValMap "MOUNTPROC3_UMNT", Some cMOUNT3_UMNT_Call);
    (sub_const Mount3_ProcedureValMap "MOUNTPROC3_UMNTALL", Some cMOUNT3_UMNTALL_Call);
    (sub_const Mount3_ProcedureValMap "MOUNTPROC3_EXPORT", Some cMOUNT3_EXPORT_Call) ].

Definition mount3_reply_lookup : list (Z * option cls) :=
  [ (sub_const Mount3_ProcedureValMap "MOUNTPROC3_NULL", Some cMOUNT3_NULL_Reply);
    (sub_const Mount3_ProcedureValMap "MOUNTPROC3_MNT", Some cMOUNT3_MNT_Reply);
    (sub_const Mount3_ProcedureValMap "MOUNTPROC3_DUMP", None);
    (sub_const Mount3_ProcedureValMap "MOUNTPROC3_UMNT", Some cMOUNT3_UMNT_Reply);
    (sub_const Mount3_ProcedureValMap "MOUNTPROC3_UMNTALL", Some cMOUNT3_UMNTALL_Reply);
    (sub_const Mount3_ProcedureValMap "MOUNTPROC3_EXPORT", Some cMOUNT3_EXPORT_Reply) ].

Definition portmap_call_lookup : list (Z * option cls) :=
  [ (sub_const PortMapperValMap "PMAPPROC_NULL", Some cPORTMAP_NULL_Call);
    (sub_const PortMapperValMap "PMAPPROC_SET", None);
    (sub_const PortMapperValMap "PMAPPROC_UNSET", None);
    (sub_const PortMapperValMap "PMAPPROC_GETPORT", Some cPORTMAP_GETPORT_Call);
    (sub_const PortMapperValMap "PMAPPROC_DUMP", None);
    (sub_const PortMapperValMap "PMAPPROC_CALLIT", None) ].

Definition portmap_reply_lookup : list (Z * option cls) :=
  [ (sub_const PortMapperValMap "PMAPPROC_NULL", Some cPORTMAP_NULL_Reply);
    (sub_const PortMapperValMap "PMAPPROC_SET", None);
    (sub_const PortMapperValMap "PMAPPROC_UNSET", None);
    (sub_const PortMapperValMap "PMAPPROC_GETPORT", Some cPORTMAP_GETPORT_Reply);
    (sub_const PortMapperValMap "PMAPPROC_DUMP", None);
    (sub_const PortMapperValMap "PMAPPROC_CALLIT", None) ].

(** * The RPC layer *)

Definition RPC_Header_guess (self : env) : res guess :=
  let direction := int_attr self "direction" in
  Ok (if direction =? sub_const MsgTypeValMap "CALL" then GuessClass cRPC_Call
      else if direction =? sub_const MsgTypeValMap "REPLY" then GuessClass cRPC_Reply
      else GuessNone).

Definition RPC_RecordMarker_guess (self : env) : res guess :=
  Ok (GuessClass cRPC_Header).

(** [assert proc in lookup; lookup[proc]], then the inherited answer when the
    table holds [None]. *)
Definition lookup_guess (tbl : list (Z * option cls)) (proc : Z) : res guess :=
  match dict_get proc tbl with
  | None => Raise AssertionError
  | Some None => Ok GuessDefault
  | Some (Some c) => Ok (GuessClass c)
  end.

Definition RPC_Call_guess (self : env) : res guess :=
  let prog := int_attr self "prog" in
  let proc := int_attr self "proc" in
  if prog =? prog_portmapper then lookup_guess portmap_call_lookup proc
  else if prog =? prog_mountd then lookup_guess mount3_call_lookup proc
  else if prog =? prog_nfs then lookup_guess nfs3_call_lookup proc
  else Ok GuessDefault.

Definition RPC_Reply_guess (self : env) : res guess := Ok GuessByXid.

Definition RPC_status : class_def :=
  ClassDef PacketNoPad (Some "rpc_status")
    [ IntEnumField "v" (VInt 0) ValAcceptStatMap ]
    default_guess.

Definition RPC_Header : class_def :=
  ClassDef Packet (Some "RPC Header (NF)")
    [ XIntField "xid" VNone;
      IntEnumField "direction" VNone ValMsgTypeMap ]
    RPC_Header_guess.

Definition RPC_RecordMarker : class_def :=
  ClassDef Packet (Some "RPC Header (F)")
    [ BitField "last" (VInt 0) 8;
      BitField "len" (VInt 0) 24 ]
    RPC_RecordMarker_guess.

Definition RPC_AuthNull : class_def :=
  ClassDef PacketNoPad (Some "RPC Authorization NULL")
    []
    default_guess.

Definition RPC_AuthSys : class_def :=
  ClassDef PacketNoPad (Some "RPC Authorization Sys")
    [ XIntField "stamp" (VInt 0);
      FieldLenField "name_len" (VInt 0) "machine_name" (Some "I");
      StrLenField "machine_name" (VInt 0) (fun pkt => int_attr pkt "name_len");
      StrFixedLenField "pad" (VStr "") (fun pkt => (- (int_attr pkt "name_len")) mod 4);
      PacketField "uid" (VInt 0) cNFS3_uid;
      PacketField "gid" (VInt 0) cNFS3_gid;
      FieldLenField "aux_gid_ct" (VInt 0) "aux_gids" (Some "I");
      FieldListField "aux_gids" (VInt 0) (IntField "GID" (VInt 0)) (fun pkt => int_attr pkt "aux_gid_ct") ]
    default_guess.

Definition RPC_Call : class_def :=
  ClassDef Packet (Some "RPC call")
    [ IntField "rpc_version" (VInt 0);
      IntEnumField "prog" (VInt 0) ValProgramMap;
      IntField "prog_version" (VInt 0);
      IntField "proc" (VInt 0);
      IntEnumField "cred_flav" (VInt 0) ValAuthMap;
      IntField "cred_len" (VInt 0);
      ConditionalField (PacketLenField "auth_sys" VNone cRPC_AuthSys
        (fun pkt => int_attr pkt "cred_len"))
        (fun pkt => ((int_attr pkt "cred_len") >? 0) && ((int_attr pkt "cred_flav") =? sub_const AuthValMap "AUTH_UNIX"));
      ConditionalField (PacketLenField "auth_null" VNone cRPC_AuthNull
        (fun pkt => int_attr pkt "cred_len"))
        (fun pkt => (int_attr pkt "cred_flav") =? sub_const AuthValMap "AUTH_NULL");
      PacketField "verifier" VNone cRPC_verifier ]
    RPC_Call_guess.

Definition RPC_ReplySuccess : class_def :=
  ClassDef PacketNoPad (Some "RPC success")
    [ FieldLenField "data_len" (VInt 0) "data" None;
      StrLenField "data" (VStr "") (fun pkt => int_attr pkt "data_len") ]
    default_guess.

Definition RPC_ReplyMismatch : class_def :=
  ClassDef Packet (Some "RPC mismatch")
    [ IntField "low" (VInt 0);
      IntField "high" (VInt 0) ]
    default_guess.

Definition RPC_Reply : class_def :=
  ClassDef Packet (Some "RPC reply")
    [ IntField "state" (VInt 0);
      PacketField "verify" VNone cRPC_verifier;
      PacketField "accept_state" VNone cRPC_status ]
    RPC_Reply_guess.

Definition class_of (c : cls) : class_def :=
  match c with
  | cNFS3_fname => NFS3_fname
  | cNFS3_path => NFS3_path
  | cNFS3_fileid => NFS3_fileid
  | cNFS3_cookie => NFS3_cookie
  | cNFS3_cookieverf => NFS3_cookieverf
  | cNFS3_createverf => NFS3_createverf
  | cNFS3_writeverf => NFS3_writeverf
  | cNFS3_uid => NFS3_uid
  | cNFS3_gid => NFS3_gid
  | cNFS3_size => NFS3_size
  | cNFS3_offset => NFS3_offset
  | cNFS3_mode => NFS3_mode
  | cNFS3_count => NFS3_count
  | cNFS3_ftype => NFS3_ftype
  | cRPC_verifier => RPC_verifier
  | cNFS3_specdata => NFS3_specdata
  | cNFS3_time => NFS3_time
  | cNFS3_fhandle => NFS3_fhandle
  | cNFS3_fattr => NFS3_fattr
  | cNFS3_sattr => NFS3_sattr
  | cNFS3_post_op_attr => NFS3_post_op_attr
  | cNFS3_post_op_fh => NFS3_post_op_fh
  | cNFS3_wcc_attr => NFS3_wcc_attr
  | cNFS3_pre_op_attr => NFS3_pre_op_attr
  | cNFS3_wcc_data => NFS3_wcc_data
  | cNFS3_dir_op_args => NFS3_dir_op_args
  | cNFS3_sattrguard => NFS3_sattrguard
  | cNFS3_symlink_data => NFS3_symlink_data
  | cNFS3_status => NFS3_status
  | cNFS3_NULL_Call => NFS3_NULL_Call
  | cNFS3_NULL_Reply => NFS3_NULL_Reply
  | cNFS3_GETATTR_Call => NFS3_GETATTR_Call
  | cNFS3_GETATTR_ReplyOk => NFS3_GETATTR_ReplyOk
  | cNFS3_GETATTR_Reply => NFS3_GETATTR_Reply
  | cNFS3_SETATTR_Call => NFS3_SETATTR_Call
  | cNFS3_SETATTR_Reply => NFS3_SETATTR_Reply
  | cNFS3_LOOKUP_Call => NFS3_LOOKUP_Call
  | cNFS3_LOOKUP_ReplyOk => NFS3_LOOKUP_ReplyOk
  | cNFS3_LOOKUP_ReplyFail => NFS3_LOOKUP_ReplyFail
  | cNFS3_LOOKUP_Reply => NFS3_LOOKUP_Reply
  | cNFS3_ACCESS_Call => NFS3_ACCESS_Call
  | cNFS3_ACCESS_ReplyOk => NFS3_ACCESS_ReplyOk
  | cNFS3_ACCESS_ReplyFail => NFS3_ACCESS_ReplyFail
  | cNFS3_ACCESS_Reply => NFS3_ACCESS_Reply
  | cNFS3_READLINK_Call => NFS3_READLINK_Call
  | cNFS3_READLINK_ReplyOk => NFS3_READLINK_ReplyOk
  | cNFS3_READLINK_ReplyFail => NFS3_READLINK_ReplyFail
  | cNFS3_READLINK_Reply => NFS3_READLINK_Reply
  | cNFS3_READ_Call => NFS3_READ_Call
  | cNFS3_READ_ReplyOk => NFS3_READ_ReplyOk
  | cNFS3_READ_ReplyFail => NFS3_READ_ReplyFail
  | cNFS3_READ_Reply => NFS3_READ_Reply
  | cNFS3_WRITE_Call => NFS3_WRITE_Call
  | cNFS3_WRITE_ReplyOk => NFS3_WRITE_ReplyOk
  | cNFS3_WRITE_ReplyFail => NFS3_WRITE_ReplyFail
  | cNFS3_WRITE_Reply => NFS3_WRITE_Reply
  | cNFS3_CREATE_Call => NFS3_CREATE_Call
  | cNFS3_CREATE_ReplyOk => NFS3_CREATE_ReplyOk
  | cNFS3_CREATE_ReplyFail => NFS3_CREATE_ReplyFail
  | cNFS3_CREATE_Reply => NFS3_CREATE_Reply
  | cNFS3_MKDIR_Call => NFS3_MKDIR_Call
  | cNFS3_MKDIR_ReplyOk => NFS3_MKDIR_ReplyOk
  | cNFS3_MKDIR_ReplyFail => NFS3_MKDIR_ReplyFail
  | cNFS3_MKDIR_Reply => NFS3_MKDIR_Reply
  | cNFS3_SYMLINK_Call => NFS3_SYMLINK_Call
  | cNFS3_SYMLINK_ReplyOk => NFS3_SYMLINK_ReplyOk
  | cNFS3_SYMLINK_ReplyFail => NFS3_SYMLINK_ReplyFail
  | cNFS3_SYMLINK_Reply => NFS3_SYMLINK_Reply
  | cNFS3_MKNOD_Call => NFS3_MKNOD_Call
  | cNFS3_MKNOD_Reply => NFS3_MKNOD_Reply
  | cNFS3_REMOVE_Call => NFS3_REMOVE_Call
  | cNFS3_REMOVE_Reply => NFS3_REMOVE_Reply
  | cNFS3_RMDIR_Call => NFS3_RMDIR_Call
  | cNFS3_RMDIR_Reply => NFS3_RMDIR_Reply
  | cNFS3_RENAME_Call => NFS3_RENAME_Call
  | cNFS3_RENAME_Reply => NFS3_RENAME_Reply
  | cNFS3_LINK_Call => NFS3_LINK_Call
  | cNFS3_LINK_Reply => NFS3_LINK_Reply
  | cNFS3_READDIR_Call => NFS3_READDIR_Call
  | cNFS3_READDIR_entry => NFS3_READDIR_entry
  | cNFS3_READDIR_ReplyOk => NFS3_READDIR_ReplyOk
  | cNFS3_READDIR_ReplyFail => NFS3_READDIR_ReplyFail
  | cNFS3_READDIR_Reply => NFS3_READDIR_Reply
  | cNFS3_READDIRPLUS_Call => NFS3_READDIRPLUS_Call
  | cNFS3_READDIRPLUS_entry => NFS3_READDIRPLUS_entry
  | cNFS3_READDIRPLUS_ReplyOk => NFS3_READDIRPLUS_ReplyOk
  | cNFS3_READDIRPLUS_ReplyFail => NFS3_READDIRPLUS_ReplyFail
  | cNFS3_READDIRPLUS_Reply => NFS3_READDIRPLUS_Reply
  | cNFS3_FSSTAT_Call => NFS3_FSSTAT_Call
  | cNFS3_FSSTAT_ReplyOk => NFS3_FSSTAT_ReplyOk
  | cNFS3_FSSTAT_ReplyFail => NFS3_FSSTAT_ReplyFail
  | cNFS3_FSSTAT_Reply => NFS3_FSSTAT_Reply
  | cNFS3_FSINFO_Call => NFS3_FSINFO_Call
  | cNFS3_FSINFO_ReplyFail => NFS3_FSINFO_ReplyFail
  | cNFS3_FSINFO_ReplyOk => NFS3_FSINFO_ReplyOk
  | cNFS3_FSINFO_Reply => NFS3_FSINFO_Reply
  | cNFS3_PATHCONF_Call => NFS3_PATHCONF_Call
  | cNFS3_PATHCONF_ReplyOk => NFS3_PATHCONF_ReplyOk
  | cNFS3_PATHCONF_ReplyFail => NFS3_PATHCONF_ReplyFail
  | cNFS3_PATHCONF_Reply => NFS3_PATHCONF_Reply
  | cNFS3_COMMIT_Call => NFS3_COMMIT_Call
  | cNFS3_COMMIT_ReplyOk => NFS3_COMMIT_ReplyOk
  | cNFS3_COMMIT_ReplyFail => NFS3_COMMIT_ReplyFail
  | cNFS3_COMMIT_Reply => NFS3_COMMIT_Reply
  | cMOUNT3_NULL_Call => MOUNT3_NULL_Call
  | cMOUNT3_NULL_Reply => MOUNT3_NULL_Reply
  | cMOUNT3_MNT_Call => MOUNT3_MNT_Call
  | cMOUNT3_MNT_ReplyOk => MOUNT3_MNT_ReplyOk
  | cMOUNT3_MNT_Reply => MOUNT3_MNT_Reply
  | cMOUNT3_UMNT_Call => MOUNT3_UMNT_Call
  | cMOUNT3_UMNT_Reply => MOUNT3_UMNT_Reply
  | cMOUNT3_UMNTALL_Call => MOUNT3_UMNTALL_Call
  | cMOUNT3_UMNTALL_Reply => MOUNT3_UMNTALL_Reply
  | cMOUNT3_EXPORT_Call => MOUNT3_EXPORT_Call
  | cMOUNT3_EXPORT_Reply => MOUNT3_EXPORT_Reply
  | cPORTMAP_NULL_Call => PORTMAP_NULL_Call
  | cPORTMAP_NULL_Reply => PORTMAP_NULL_Reply
  | cPORTMAP_GETPORT_Call => PORTMAP_GETPORT_Call
  | cPORTMAP_GETPORT_Reply => PORTMAP_GETPORT_Reply
  | cRPC_status => RPC_status
  | cRPC_Header => RPC_Header
  | cRPC_RecordMarker => RPC_RecordMarker
  | cRPC_AuthNull => RPC_AuthNull
  | cRPC_AuthSys => RPC_AuthSys
  | cRPC_Call => RPC_Call
  | cRPC_ReplySuccess => RPC_ReplySuccess
  | cRPC_ReplyMismatch => RPC_ReplyMismatch
  | cRPC_Reply => RPC_Reply
  end.

(** [self.name] of a packet: the class attribute, the class name without one. *)
Definition class_name_attr (c : cls) : string :=
  default (cls_name c) (cd_name (class_of c)).

(** * Decidable equality of classes *)

Definition cls_of_name (s : string) : option cls :=
  find (fun c => bool_decide (cls_name c = s)) all_classes.

Lemma cls_of_to_name c : cls_of_name (cls_name c) = Some c.
Proof. destruct c; vm_compute; reflexivity. Qed.

#[global] Instance cls_name_inj : Inj (=) (=) cls_name.
Proof.
  intros c1 c2 H. apply (f_equal cls_of_name) in H. rewrite !cls_of_to_name in H.
  congruence.
Qed.

#[global] Instance cls_eq_dec : EqDecision cls :=
  fun c1 c2 => match decide (cls_name c1 = cls_name c2) with
               | left H => left (cls_name_inj c1 c2 H)
               | right H => right (fun E => H (f_equal cls_name E))
               end.

#[global] Instance cls_countable : Countable cls :=
  inj_countable cls_name cls_of_name cls_of_to_name.
