(* ===== verification/Scapy.v ===== *)
(** What the packet classes of [Layers.v] rely on in scapy, as an interface.

    Scapy is a git submodule of the repository and its directory is empty, so
    its dissector is not defined here: it is the class [Scapy] of two
    operations, [getfield] (one field) and [dissect] (the fields of a class),
    and the class [ScapyLaws] of the documented behaviour of the field classes
    the sensor instantiates.  Theorems about the byte layout of NFS packets
    are proved against the interface; [RefScapy] is an executable
    implementation of the laws, which shows they can hold and on which
    witnesses are computed. *)

From S2P Require Import Prelude NfsConst Layers.

Definition field_name (f : field) : string :=
  (fix go f := match f with
  | IntField n _ | XIntField n _ | XLongField n _ | IntEnumField n _ _
  | BitField n _ _ | FieldLenField n _ _ _ | StrField n _ | StrLenField n _ _
  | StrFixedLenField n _ _ | XStrFixedLenField n _ _ | PacketField n _ _
  | PacketLenField n _ _ _ | FieldListField n _ _ _ | PacketListField n _ _ _ => n
  | PadField f _ | ConditionalField f _ => go f
  end) f.

Class Scapy := {
  (** [f.getfield(pkt, s)]: the value and the remaining bytes. *)
  getfield : field -> env -> bytes -> res (value * bytes);
  (** The fields of [cls(s)] and the bytes after them. *)
  dissect : cls -> bytes -> res (env * bytes);
}.

(** An [n]-byte big-endian integer: [struct.error] when bytes are missing. *)
Definition get_int (n : nat) (s : bytes) : res (value * bytes) :=
  match split_at n s with
  | Some (a, r) => Ok (VInt (be_val a), r)
  | None => Raise StructError
  end.

(** A byte string of [n] bytes: slicing never fails. *)
Definition get_str (n : Z) (s : bytes) : res (value * bytes) :=
  Ok (VBytes (take (Z.to_nat n) s), drop (Z.to_nat n) s).

(** The loop over [fields_desc]: it stops when no bytes are left. *)
Fixpoint run_fields (gf : field -> env -> bytes -> res (value * bytes))
    (fl : list field) (pkt : env) (s : bytes) : res (env * bytes) :=
  match fl, s with
  | [], _ => Ok (pkt, s)
  | _, [] => Ok (pkt, [])
  | f :: fl, _ =>
      let? (v, s) := gf f pkt s in
      run_fields gf fl (dict_set (field_name f) v pkt) s
  end.

(** [n] elements of a [FieldListField]. *)
Fixpoint run_list (gf : bytes -> res (value * bytes)) (n : nat) (s : bytes) : res (list value * bytes) :=
  match n with
  | O => Ok ([], s)
  | S n =>
      let? (v, s) := gf s in
      let? (vs, s) := run_list gf n s in
      Ok (v :: vs, s)
  end.

(** The elements of a [PacketListField]: one while bytes remain and the
    callback names a class.  The callback's classes consume bytes, so as many
    rounds as there are bytes are enough. *)
Fixpoint run_packets (ds : cls -> bytes -> res (env * bytes))
    (cb : option env -> option cls) (fuel : nat) (curr : option env) (s : bytes)
    : res (list value * bytes) :=
  match fuel, s with
  | _, [] => Ok ([], [])
  | O, _ => Raise RuntimeError
  | S fuel, _ =>
      match cb curr with
      | None => Ok ([], s)
      | Some c =>
          let? (e, s) := ds c s in
          let? (vs, s) := run_packets ds cb fuel (Some e) s in
          Ok (VPkt c e :: vs, s)
      end
  end.

Definition no_pad (c : cls) : bool :=
  match cd_base (class_of c) with PacketNoPad => true | Packet => false end.

(** The width [FieldLenField] reads: format ["H"] unless the source says
    ["I"]. *)
Definition len_width (fmt : option string) : nat :=
  match fmt with Some _ => 4 | None => 2 end.

Class ScapyLaws (S : Scapy) : Prop := {
  dissect_fields c s : dissect c s = run_fields getfield (cd_fields (class_of c)) [] s;
  get_IntField n d pkt s : getfield (IntField n d) pkt s = get_int 4 s;
  get_XIntField n d pkt s : getfield (XIntField n d) pkt s = get_int 4 s;
  get_IntEnumField n d t pkt s : getfield (IntEnumField n d t) pkt s = get_int 4 s;
  get_XLongField n d pkt s : getfield (XLongField n d) pkt s = get_int 8 s;
  get_BitField n d k pkt s : getfield (BitField n d (8 * Z.of_nat k)) pkt s = get_int k s;
  get_FieldLenField n d o f pkt s :
    getfield (FieldLenField n d o f) pkt s = get_int (len_width f) s;
  get_StrField n d pkt s : getfield (StrField n d) pkt s = Ok (VBytes s, []);
  get_StrLenField n d l pkt s : getfield (StrLenField n d l) pkt s = get_str (l pkt) s;
  get_StrFixedLenField n d l pkt s :
    getfield (StrFixedLenField n d l) pkt s = get_str (l pkt) s;
  get_XStrFixedLenField n d l pkt s :
    getfield (XStrFixedLenField n d l) pkt s = get_str (l pkt) s;
  get_PadField f a pkt s :
    getfield (PadField f a) pkt s =
      (let? (v, r) := getfield f pkt s in
       Ok (v, drop (Z.to_nat ((- Z.of_nat (length s - length r)) mod a)) r));
  (** Only for classes that give their padding back. *)
  get_PacketField n d c pkt s : no_pad c = true ->
    getfield (PacketField n d c) pkt s =
      (let? (e, r) := dissect c s in Ok (VPkt c e, r));
  get_PacketLenField n d c l pkt s :
    getfield (PacketLenField n d c l) pkt s =
      (let? (e, _) := dissect c (take (Z.to_nat (l pkt)) s) in
       Ok (VPkt c e, drop (Z.to_nat (l pkt)) s));
  get_ConditionalField f b pkt s :
    getfield (ConditionalField f b) pkt s =
      if b pkt then getfield f pkt s else Ok (VNone, s);
  get_FieldListField n d f k pkt s :
    getfield (FieldListField n d f k) pkt s =
      (let? (vs, r) := run_list (getfield f pkt) (Z.to_nat (k pkt)) s in
       Ok (VList vs, r));
  get_PacketListField n d c cb pkt s : no_pad c = true ->
    getfield (PacketListField n d c cb) pkt s =
      (let? (vs, r) := run_packets dissect cb (length s) None s in
       Ok (VList vs, r));
}.

#[export] Hint Rewrite @get_IntField @get_XIntField @get_IntEnumField @get_XLongField
  @get_FieldLenField @get_StrField @get_StrLenField @get_StrFixedLenField
  @get_XStrFixedLenField @get_ConditionalField @get_FieldListField
  using typeclasses eauto : pydb.

(** * The reference implementation *)

Section Ref.
(** [dissect] one level down. *)
Context (ds : cls -> bytes -> res (env * bytes)).

Fixpoint ref_getfield (f : field) (pkt : env) (s : bytes) : res (value * bytes) :=
  match f with
  | IntField _ _ | XIntField _ _ | IntEnumField _ _ _ => get_int 4 s
  | XLongField _ _ => get_int 8 s
  | BitField _ _ k => get_int (Z.to_nat (k / 8)) s
  | FieldLenField _ _ _ f => get_int (len_width f) s
  | StrField _ _ => Ok (VBytes s, [])
  | StrLenField _ _ l | StrFixedLenField _ _ l | XStrFixedLenField _ _ l =>
      get_str (l pkt) s
  | PadField f a =>
      let? (v, r) := ref_getfield f pkt s in
      Ok (v, drop (Z.to_nat ((- Z.of_nat (length s - length r)) mod a)) r)
  | PacketField _ _ c =>
      let? (e, r) := ds c s in Ok (VPkt c e, r)
  | PacketLenField _ _ c l =>
      let? (e, _) := ds c (take (Z.to_nat (l pkt)) s) in
      Ok (VPkt c e, drop (Z.to_nat (l pkt)) s)
  | ConditionalField f b => if b pkt then ref_getfield f pkt s else Ok (VNone, s)
  | FieldListField _ _ f k =>
      let? (vs, r) := run_list (ref_getfield f pkt) (Z.to_nat (k pkt)) s in
      Ok (VList vs, r)
  | PacketListField _ _ c cb =>
      let? (vs, r) := run_packets ds cb (length s) None s in
      Ok (VList vs, r)
  end.
End Ref.

Fixpoint ref_dissect (fuel : nat) (c : cls) (s : bytes) : res (env * bytes) :=
  match fuel with
  | O => Raise RuntimeError
  | S fuel => run_fields (ref_getfield (ref_dissect fuel)) (cd_fields (class_of c)) [] s
  end.

(** The classes a field may dissect all satisfy [P]. *)
Fixpoint field_ok (P : cls -> Prop) (f : field) : Prop :=
  match f with
  | PacketField _ _ c | PacketLenField _ _ c _ => P c
  | PacketListField _ _ _ cb => forall curr c, cb curr = Some c -> P c
  | PadField f _ | ConditionalField f _ | FieldListField _ _ f _ => field_ok P f
  | _ => True
  end.

(** Nesting depth of the classes of [nfs.py]: leaves, structures of leaves,
    and so on up to [NFS3_wcc_data] and the reply bodies. *)
Definition rank (c : cls) : nat :=
  match c with
  | cNFS3_fname | cNFS3_path | cNFS3_fileid | cNFS3_cookie | cNFS3_cookieverf
  | cNFS3_createverf | cNFS3_writeverf | cNFS3_uid | cNFS3_gid | cNFS3_size
  | cNFS3_offset | cNFS3_mode | cNFS3_count | cNFS3_ftype | cRPC_verifier
  | cNFS3_specdata | cNFS3_time | cNFS3_fhandle | cNFS3_status | cRPC_status
  | cRPC_AuthNull => 0
  | cNFS3_fattr | cNFS3_sattr | cNFS3_post_op_fh | cNFS3_wcc_attr
  | cNFS3_dir_op_args | cNFS3_sattrguard | cRPC_AuthSys => 1
  | cNFS3_post_op_attr | cNFS3_pre_op_attr | cNFS3_symlink_data => 2
  | cNFS3_wcc_data | cNFS3_READDIR_entry | cNFS3_READDIRPLUS_entry => 3
  | _ => 4
  end.

Lemma rank_nested c :
  Forall (field_ok (fun c' => (rank c' < rank c)%nat)) (cd_fields (class_of c)).
Proof.
  destruct c; repeat first [apply Forall_nil_2 | apply Forall_cons_2];
    first [exact I | cbn [field_ok rank]; lia | cbn [field_ok rank]];
    intros [e|] c'; cbn; try case_match; intros; simplify_eq; cbn; lia.
Qed.

Section Congruence.
Context (ds1 ds2 : cls -> bytes -> res (env * bytes)).

Lemma run_list_ext gf1 gf2 n s :
  (forall s, gf1 s = gf2 s) -> run_list gf1 n s = run_list gf2 n s.
Proof.
  intros Hg. revert s. induction n as [|n IH]; intros s; simpl; [done|].
  rewrite Hg. destruct (gf2 s) as [[v r]|]; simpl; [|done]. by rewrite IH.
Qed.

Lemma run_packets_ext cb fuel curr s :
  (forall curr c s, cb curr = Some c -> ds1 c s = ds2 c s) ->
  run_packets ds1 cb fuel curr s = run_packets ds2 cb fuel curr s.
Proof.
  intros Hd. revert curr s. induction fuel as [|fuel IH]; intros curr s; [done|].
  simpl. destruct s as [|b s]; [done|]. destruct (cb curr) as [c|] eqn:E; [|done].
  rewrite (Hd curr c) by done. destruct (ds2 c (b :: s)) as [[e r]|]; simpl; [|done].
  by rewrite IH.
Qed.

Lemma ref_getfield_ext f pkt s :
  field_ok (fun c => forall s, ds1 c s = ds2 c s) f ->
  ref_getfield ds1 f pkt s = ref_getfield ds2 f pkt s.
Proof.
  revert s. induction f; intros s Hf; simpl in *; try done.
  - by rewrite IHf.
  - by rewrite Hf.
  - by rewrite Hf.
  - case_match; [by apply IHf | done].
  - erewrite run_list_ext; [done|]. intros s'. by apply IHf.
  - erewrite run_packets_ext; [done|]. eauto.
Qed.

Lemma run_fields_ext fl pkt s :
  Forall (field_ok (fun c => forall s, ds1 c s = ds2 c s)) fl ->
  run_fields (ref_getfield ds1) fl pkt s = run_fields (ref_getfield ds2) fl pkt s.
Proof.
  intros Hfl. revert pkt s. induction Hfl as [|f fl Hf Hfl IH]; intros pkt s; simpl; [done|].
  destruct s as [|b s]; [done|]. rewrite (ref_getfield_ext f) by done.
  destruct (ref_getfield ds2 f pkt (b :: s)) as [[v r]|]; simpl; [|done]. apply IH.
Qed.
End Congruence.

Lemma field_ok_mono (P Q : cls -> Prop) f :
  (forall c, P c -> Q c) -> field_ok P f -> field_ok Q f.
Proof. intros HPQ. induction f; simpl; eauto. Qed.

(** Enough fuel for the depth of a class gives a result that more fuel does
    not change. *)
Lemma ref_dissect_fuel n m c s :
  (rank c < n)%nat -> (rank c < m)%nat -> ref_dissect n c s = ref_dissect m c s.
Proof.
  revert m c s. induction n as [|n IH]; intros m c s Hn Hm; [lia|].
  destruct m as [|m]; [lia|]. simpl. apply run_fields_ext.
  eapply Forall_impl; [apply rank_nested|]. intros f. apply field_ok_mono.
  intros c' Hc' s'. apply IH; lia.
Qed.

#[global] Instance RefScapy : Scapy := {
  getfield := ref_getfield (ref_dissect 6);
  dissect := ref_dissect 6;
}.

Lemma rank_bound c : (rank c < 5)%nat.
Proof. destruct c; simpl; lia. Qed.

Lemma ref_dissect_5_6 c s : ref_dissect 5 c s = ref_dissect 6 c s.
Proof. pose proof (rank_bound c). apply ref_dissect_fuel; lia. Qed.

Lemma field_ok_any (P : cls -> Prop) f : (forall c, P c) -> field_ok P f.
Proof. intros HP. induction f; simpl; eauto. Qed.

#[global] Instance RefScapy_laws : ScapyLaws RefScapy.
Proof.
  constructor; intros; try reflexivity; cbn [getfield dissect RefScapy ref_getfield].
  - cbn [ref_dissect]. apply (run_fields_ext (ref_dissect 5)).
    apply Forall_true. intros f. apply (field_ok_any _ f ref_dissect_5_6).
  - f_equal. rewrite Z.mul_comm, Z.div_mul by lia. lia.
Qed.
