(* ===== verification/Xdr.v ===== *)
(** The XDR layout of RFC 1813 against the [fields_desc] lists of [nfs.py].

    [enc_*] are the encodings the RFC gives the structures the source quotes in
    its comments; the theorems say that dissecting an encoding with the
    sensor's packet class gives back the encoded values and the bytes that
    follow, or that it does not, where the class departs from the RFC. *)

From S2P Require Import Prelude NfsConst Layers Scapy.

(** * Encodings *)

Definition u32 (z : Z) : Prop := 0 <= z < 2 ^ 32.
Definition u64 (z : Z) : Prop := 0 <= z < 2 ^ 64.

Definition enc_u32 (z : Z) : bytes := be_enc 4 z.
Definition enc_u64 (z : Z) : bytes := be_enc 8 z.

(** [opaque<>] and [string<>]: length, contents, zeros up to a word. *)
Definition pad_len (n : Z) : Z := (- n) mod 4.
Definition zeros (n : Z) : bytes := replicate (Z.to_nat n) Byte.x00.
Definition blen (b : bytes) : Z := Z.of_nat (length b).
Definition enc_opaque (b : bytes) : bytes :=
  enc_u32 (blen b) ++ b ++ zeros (pad_len (blen b)).

(** A packet with the single integer field [v]. *)
Definition leaf (c : cls) (z : Z) : value := VPkt c [("v", VInt z)].

Record nfstime3 := { t_sec : Z; t_nsec : Z }.
Definition enc_time (t : nfstime3) : bytes := enc_u32 (t_sec t) ++ enc_u32 (t_nsec t).
Definition time_env (t : nfstime3) : env := [("sec", VInt (t_sec t)); ("nsec", VInt (t_nsec t))].
Definition time_ok (t : nfstime3) : Prop := u32 (t_sec t) /\ u32 (t_nsec t).

(** [struct fattr3], page 22. *)
Record fattr3 := {
  fa_type : Z; fa_mode : Z; fa_nlink : Z; fa_uid : Z; fa_gid : Z; fa_size : Z;
  fa_used : Z; fa_rdev1 : Z; fa_rdev2 : Z; fa_fsid : Z; fa_fileid : Z;
  fa_atime : nfstime3; fa_mtime : nfstime3; fa_ctime : nfstime3;
}.

Definition enc_fattr (a : fattr3) : bytes :=
  enc_u32 (fa_type a) ++ enc_u32 (fa_mode a) ++ enc_u32 (fa_nlink a) ++
  enc_u32 (fa_uid a) ++ enc_u32 (fa_gid a) ++ enc_u64 (fa_size a) ++
  enc_u64 (fa_used a) ++ (enc_u32 (fa_rdev1 a) ++ enc_u32 (fa_rdev2 a)) ++
  enc_u64 (fa_fsid a) ++ enc_u64 (fa_fileid a) ++
  enc_time (fa_atime a) ++ enc_time (fa_mtime a) ++ enc_time (fa_ctime a).

Definition fattr_ok (a : fattr3) : Prop :=
  u32 (fa_type a) /\ u32 (fa_mode a) /\ u32 (fa_nlink a) /\ u32 (fa_uid a) /\
  u32 (fa_gid a) /\ u64 (fa_size a) /\ u64 (fa_used a) /\ u32 (fa_rdev1 a) /\
  u32 (fa_rdev2 a) /\ u64 (fa_fsid a) /\ u64 (fa_fileid a) /\
  time_ok (fa_atime a) /\ time_ok (fa_mtime a) /\ time_ok (fa_ctime a).

(** The fields the sensor's class should hold for it. *)
Definition fattr_env (a : fattr3) : env :=
  [ ("ftype", leaf cNFS3_ftype (fa_type a));
    ("mode", leaf cNFS3_mode (fa_mode a));
    ("nlink", leaf cNFS3_count (fa_nlink a));
    ("uid", leaf cNFS3_uid (fa_uid a));
    ("gid", leaf cNFS3_gid (fa_gid a));
    ("size", leaf cNFS3_size (fa_size a));
    ("used", leaf cNFS3_size (fa_used a));
    ("specdata", VPkt cNFS3_specdata
       [("specdata1", VInt (fa_rdev1 a)); ("specdata2", VInt (fa_rdev2 a))]);
    ("fsid", VInt (fa_fsid a));
    ("fileid", leaf cNFS3_fileid (fa_fileid a));
    ("atime", VPkt cNFS3_time (time_env (fa_atime a)));
    ("mtime", VPkt cNFS3_time (time_env (fa_mtime a)));
    ("ctime", VPkt cNFS3_time (time_env (fa_ctime a))) ].

(** * Parsing lemmas *)

Section Parse.
Context `{S : Scapy} `{L : !ScapyLaws S}.

(** The class parses the encoding whatever follows it. *)
Definition parses (c : cls) (bs : bytes) (e : env) : Prop :=
  bs <> [] /\ forall rest, dissect c (bs ++ rest) = Ok (e, rest).

(** The same when something follows: a class that ends in an optional field
    leaves it unset at the very end of a packet. *)
Definition parses_more (c : cls) (bs : bytes) (e : env) : Prop :=
  bs <> [] /\ forall rest, rest <> [] -> dissect c (bs ++ rest) = Ok (e, rest).

Lemma parses_parses_more c bs e : parses c bs e -> parses_more c bs e.
Proof. intros [Hne Hp]. split; auto. Qed.

Lemma run_step f fl pkt a v s :
  a ++ s <> [] -> dict_has (field_name f) pkt = false ->
  getfield f pkt (a ++ s) = Ok (v, s) ->
  run_fields getfield (f :: fl) pkt (a ++ s) =
    run_fields getfield fl (pkt ++ [(field_name f, v)]) s.
Proof.
  intros Ha Hf Hg. destruct (a ++ s) as [|x y] eqn:E; [done|]. cbn [run_fields].
  rewrite Hg. cbn [res_bind]. by rewrite dict_set_fresh.
Qed.

Lemma run_skip f b fl pkt s :
  s <> [] -> dict_has (field_name f) pkt = false -> b pkt = false ->
  run_fields getfield (ConditionalField f b :: fl) pkt s =
    run_fields getfield fl (pkt ++ [(field_name f, VNone)]) s.
Proof.
  intros Hs Hf Hb. destruct s as [|x s]; [done|]. cbn [run_fields].
  rewrite get_ConditionalField, Hb. cbn [res_bind].
  change (field_name (ConditionalField f b)) with (field_name f).
  by rewrite dict_set_fresh.
Qed.

Lemma get_int_enc n z s :
  0 <= z < 256 ^ Z.of_nat n -> get_int n (be_enc n z ++ s) = Ok (VInt z, s).
Proof.
  intros Hz. unfold get_int. rewrite split_at_app by apply length_be_enc.
  by rewrite be_val_enc_small.
Qed.

Lemma get_u32 z s : u32 z -> get_int 4 (enc_u32 z ++ s) = Ok (VInt z, s).
Proof. intros Hz. apply (get_int_enc 4). exact Hz. Qed.

Lemma get_u64 z s : u64 z -> get_int 8 (enc_u64 z ++ s) = Ok (VInt z, s).
Proof. intros Hz. apply (get_int_enc 8). exact Hz. Qed.

Lemma get_str_app b s : get_str (blen b) (b ++ s) = Ok (VBytes b, s).
Proof.
  unfold get_str, blen. rewrite Nat2Z.id.
  by rewrite take_app_length, drop_app_length.
Qed.

Lemma get_str_zeros n s : 0 <= n -> get_str n (zeros n ++ s) = Ok (VBytes (zeros n), s).
Proof.
  intros Hn. pose proof (get_str_app (zeros n) s) as H. unfold blen, zeros in *.
  rewrite length_replicate, Z2Nat.id in H by done. done.
Qed.

Lemma get_packet n d c pkt bs e s :
  no_pad c = true -> dissect c (bs ++ s) = Ok (e, s) ->
  getfield (PacketField n d c) pkt (bs ++ s) = Ok (VPkt c e, s).
Proof. intros Hc He. rewrite get_PacketField by done. by rewrite He. Qed.
End Parse.

Lemma be_enc_ne n z : be_enc (Datatypes.S n) z <> [].
Proof. cbn [be_enc]. by destruct (be_enc n (z / 256)). Qed.

Lemma enc_u32_ne z : enc_u32 z <> [].
Proof. apply be_enc_ne. Qed.

Lemma enc_u64_ne z : enc_u64 z <> [].
Proof. apply be_enc_ne. Qed.

Lemma app_ne_l {A} (a b : list A) : a <> [] -> a ++ b <> [].
Proof. by destruct a. Qed.

Lemma app_ne_r {A} (a b : list A) : b <> [] -> a ++ b <> [].
Proof. by destruct a, b. Qed.

Lemma pad_len_nonneg n : 0 <= pad_len n.
Proof. apply Z.mod_pos_bound. lia. Qed.

Create HintDb xdr discriminated.
#[export] Hint Resolve enc_u32_ne enc_u64_ne app_ne_l app_ne_r pad_len_nonneg : xdr.
#[export] Hint Extern 1 (no_pad _ = true) => reflexivity : xdr.

(** One integer field at the head of the run. *)
Ltac step_int :=
  erewrite run_step;
  [| solve [auto with xdr] | reflexivity
   | autorewrite with pydb; first [apply get_u32 | apply get_u64]; assumption ];
  cbn [app field_name].

(** One nested packet at the head of the run, its own parsing a hint. *)
Ltac step_pkt :=
  erewrite run_step;
  [| solve [auto with xdr] | reflexivity
   | apply get_packet; [reflexivity | solve [eauto with xdr]] ];
  cbn [app field_name].

(** * Basic data types *)

Section Types.
Context `{S : Scapy} `{L : !ScapyLaws S}.

Lemma dissect_leaf32 c d z s :
  cd_fields (class_of c) = [XIntField "v" d] -> u32 z ->
  dissect c (enc_u32 z ++ s) = Ok ([("v", VInt z)], s).
Proof. intros Hc Hz. rewrite dissect_fields, Hc. step_int. by destruct s. Qed.

Lemma dissect_leaf64 c d z s :
  cd_fields (class_of c) = [XLongField "v" d] -> u64 z ->
  dissect c (enc_u64 z ++ s) = Ok ([("v", VInt z)], s).
Proof. intros Hc Hz. rewrite dissect_fields, Hc. step_int. by destruct s. Qed.

Lemma dissect_enum c d t z s :
  cd_fields (class_of c) = [IntEnumField "v" d t] -> u32 z ->
  dissect c (enc_u32 z ++ s) = Ok ([("v", VInt z)], s).
Proof. intros Hc Hz. rewrite dissect_fields, Hc. step_int. by destruct s. Qed.

Lemma dissect_time t s :
  time_ok t -> dissect cNFS3_time (enc_time t ++ s) = Ok (time_env t, s).
Proof.
  intros [Hs Hn]. rewrite dissect_fields. cbn [class_of cd_fields NFS3_time].
  unfold enc_time. rewrite <-(assoc_L (++)). step_int. step_int. by destruct s.
Qed.

Lemma dissect_specdata a b s :
  u32 a -> u32 b ->
  dissect cNFS3_specdata ((enc_u32 a ++ enc_u32 b) ++ s) =
    Ok ([("specdata1", VInt a); ("specdata2", VInt b)], s).
Proof.
  intros Ha Hb. rewrite dissect_fields. cbn [class_of cd_fields NFS3_specdata].
  rewrite <-(assoc_L (++)). step_int. step_int. by destruct s.
Qed.

(** Variable-length data whose padding is the last field: [NFS3_fname] and
    [NFS3_path]. *)
Lemma dissect_padded c d1 d2 d3 b s :
  cd_fields (class_of c) =
    [ FieldLenField "l" d1 "v" (Some "I");
      StrLenField "v" d2 (fun pkt => int_attr pkt "l");
      XStrFixedLenField "p" d3 (fun pkt => (- (int_attr pkt "l")) mod 4) ] ->
  u32 (blen b) -> s <> [] ->
  dissect c (enc_opaque b ++ s) =
    Ok ([("l", VInt (blen b)); ("v", VBytes b); ("p", VBytes (zeros (pad_len (blen b))))], s).
Proof.
  intros Hc Hb Hs. rewrite dissect_fields, Hc. unfold enc_opaque.
  rewrite <-!(assoc_L (++)). step_int.
  erewrite run_step; [|auto with xdr|reflexivity|].
  2: { rewrite get_StrLenField. apply (get_str_app b). }
  cbn [app field_name]. erewrite run_step; [|auto with xdr|reflexivity|].
  2: { rewrite get_XStrFixedLenField. apply (get_str_zeros (pad_len (blen b))). auto with xdr. }
  by destruct s.
Qed.

Lemma dissect_fhandle b s :
  u32 (blen b) -> s <> [] ->
  dissect cNFS3_fhandle ((enc_u32 (blen b) ++ b) ++ s) =
    Ok ([("l", VInt (blen b)); ("v", VBytes b)], s).
Proof.
  intros Hb Hs. rewrite dissect_fields. cbn [class_of cd_fields NFS3_fhandle].
  rewrite <-(assoc_L (++)). step_int.
  erewrite run_step; [|auto with xdr|reflexivity|].
  2: { rewrite get_StrLenField. apply (get_str_app b). }
  by destruct s.
Qed.
End Types.

#[export] Hint Extern 2 (dissect _ (enc_u32 _ ++ _) = Ok _) =>
  first [ eapply dissect_leaf32; [reflexivity|] | eapply dissect_enum; [reflexivity|] ] : xdr.
#[export] Hint Extern 2 (dissect _ (enc_u64 _ ++ _) = Ok _) =>
  eapply dissect_leaf64; [reflexivity|] : xdr.
#[export] Hint Resolve dissect_time dissect_specdata : xdr.

(** * Structures *)

(** [union ... switch (bool) { TRUE: T; FALSE: void }]. *)
Definition enc_opt {A} (enc : A -> bytes) (o : option A) : bytes :=
  match o with Some a => enc_u32 1 ++ enc a | None => enc_u32 0 end.

Definition opt_ok {A} (P : A -> Prop) (o : option A) : Prop :=
  match o with Some a => P a | None => True end.

(** A flag field followed by an optional one; at the very end of a packet
    the absent field stays unset. *)
Definition opt_env {A} (flag name : string) (v : A -> value) (o : option A) (rest : bytes) : env :=
  match o, rest with
  | Some a, _ => [(flag, VInt 1); (name, v a)]
  | None, [] => [(flag, VInt 0)]
  | None, _ => [(flag, VInt 0); (name, VNone)]
  end.

Definition post_op_env (o : option fattr3) (rest : bytes) : env :=
  opt_env "attribs_follow" "fattr" (fun a => VPkt cNFS3_fattr (fattr_env a)) o rest.

(** [struct sattr3], page 26, and its [time_how] discriminant. *)
Inductive set_time := DontChange | ServerTime | ClientTime (t : nfstime3).

Record sattr3 := {
  sa_mode : option Z; sa_uid : option Z; sa_gid : option Z; sa_size : option Z;
  sa_atime : set_time; sa_mtime : set_time;
}.

Definition enc_set_time (s : set_time) : bytes :=
  match s with
  | DontChange => enc_u32 0
  | ServerTime => enc_u32 1
  | ClientTime t => enc_u32 2 ++ enc_time t
  end.

Definition enc_sattr (a : sattr3) : bytes :=
  enc_opt enc_u32 (sa_mode a) ++ enc_opt enc_u32 (sa_uid a) ++
  enc_opt enc_u32 (sa_gid a) ++ enc_opt enc_u64 (sa_size a) ++
  enc_set_time (sa_atime a) ++ enc_set_time (sa_mtime a).

Definition set_time_ok (s : set_time) : Prop :=
  match s with DontChange => True | ServerTime => False | ClientTime t => time_ok t end.

Definition sattr_ok (a : sattr3) : Prop :=
  opt_ok u32 (sa_mode a) /\ opt_ok u32 (sa_uid a) /\ opt_ok u32 (sa_gid a) /\
  opt_ok u64 (sa_size a) /\ set_time_ok (sa_atime a) /\ set_time_ok (sa_mtime a).

Definition set_env (flag name : string) (c : cls) (o : option Z) : env :=
  match o with
  | Some z => [(flag, VInt 1); (name, leaf c z)]
  | None => [(flag, VInt 0); (name, VNone)]
  end.

Definition set_time_env (flag name : string) (s : set_time) : env :=
  match s with
  | ClientTime t => [(flag, VInt 2); (name, VPkt cNFS3_time (time_env t))]
  | _ => [(flag, VInt 0); (name, VNone)]
  end.

Definition sattr_env (a : sattr3) : env :=
  set_env "set_mode" "mode" cNFS3_mode (sa_mode a) ++
  set_env "set_uid" "uid" cNFS3_uid (sa_uid a) ++
  set_env "set_gid" "gid" cNFS3_gid (sa_gid a) ++
  set_env "set_size" "size" cNFS3_size (sa_size a) ++
  set_time_env "set_atime" "atime" (sa_atime a) ++
  set_time_env "set_mtime" "mtime" (sa_mtime a).

(** [struct wcc_attr] and [struct wcc_data] of the RFC. *)
Record wcc_attr3 := { wa_size : Z; wa_mtime : nfstime3; wa_ctime : nfstime3 }.
Definition enc_wcc_attr (w : wcc_attr3) : bytes :=
  enc_u64 (wa_size w) ++ enc_time (wa_mtime w) ++ enc_time (wa_ctime w).
Definition wcc_attr_ok (w : wcc_attr3) : Prop :=
  u64 (wa_size w) /\ time_ok (wa_mtime w) /\ time_ok (wa_ctime w).
Definition wcc_attr_env (w : wcc_attr3) : env :=
  [ ("size", leaf cNFS3_size (wa_size w));
    ("mtime", VPkt cNFS3_time (time_env (wa_mtime w)));
    ("ctime", VPkt cNFS3_time (time_env (wa_ctime w))) ].
Definition enc_wcc_data (before : option wcc_attr3) (after : option fattr3) : bytes :=
  enc_opt enc_wcc_attr before ++ enc_opt enc_fattr after.
Definition wcc_data_env (before : Z * wcc_attr3) (after : option fattr3) (rest : bytes) : env :=
  [ ("before", VPkt cNFS3_pre_op_attr
       [("attribs_follow", VInt before.1); ("attr", VPkt cNFS3_wcc_attr (wcc_attr_env before.2))]);
    ("after", VPkt cNFS3_post_op_attr (post_op_env after rest)) ].

Definition enc_fh (b : bytes) : bytes := enc_u32 (blen b) ++ b.
Definition fh_env (b : bytes) : env := [("l", VInt (blen b)); ("v", VBytes b)].

Lemma be_enc_app n m z :
  be_enc (n + m) z = be_enc n (z / 256 ^ Z.of_nat m) ++ be_enc m z.
Proof.
  revert n z. induction m as [|m IH]; intros n z.
  - simpl. by rewrite Z.div_1_r, Nat.add_0_r, app_nil_r.
  - rewrite Nat.add_succ_r. cbn [be_enc]. rewrite IH, (assoc_L (++)).
    rewrite Nat2Z.inj_succ, Z.pow_succ_r, Z.div_div by lia. done.
Qed.

Lemma be_enc_mod n z k : be_enc n (z + k * 256 ^ Z.of_nat n) = be_enc n z.
Proof.
  revert z. induction n as [|n IH]; intros z; [done|]. cbn [be_enc].
  rewrite Nat2Z.inj_succ, Z.pow_succ_r by lia.
  replace (z + k * (256 * 256 ^ Z.of_nat n)) with (z + k * 256 ^ Z.of_nat n * 256) by lia.
  rewrite Z.div_add by lia. rewrite IH. f_equal. unfold byte_of.
  by rewrite Z.mod_add.
Qed.

(** Two words read as one long. *)
Lemma enc_u64_words a b :
  u32 b -> enc_u32 a ++ enc_u32 b = enc_u64 (a * 2 ^ 32 + b).
Proof.
  intros Hb. unfold enc_u64. change 8%nat with (4 + 4)%nat. rewrite be_enc_app.
  change (256 ^ Z.of_nat 4) with (2 ^ 32).
  rewrite Z.div_add_l, (Z.div_small b) by (unfold u32 in Hb; lia). rewrite Z.add_0_r.
  f_equal. unfold enc_u32. rewrite Z.add_comm.
  symmetry. apply (be_enc_mod 4 b a).
Qed.

(** An absent optional field. *)
Ltac step_skip :=
  erewrite run_skip; [| solve [auto with xdr] | reflexivity | reflexivity ];
  cbn [app field_name].

(** A present optional packet. *)
Ltac step_cond :=
  erewrite run_step;
  [| solve [auto with xdr] | reflexivity
   | rewrite get_ConditionalField;
     lazymatch goal with |- (if ?b then _ else _) = _ => change b with true end;
     apply get_packet; [reflexivity | solve [eauto with xdr]] ];
  cbn [app field_name].


Section Structs.
Context `{S : Scapy} `{L : !ScapyLaws S}.

Lemma dissect_fattr a rest :
  fattr_ok a -> dissect cNFS3_fattr (enc_fattr a ++ rest) = Ok (fattr_env a, rest).
Proof.
  intros (?&?&?&?&?&?&?&?&?&?&?&?&?&?).
  rewrite dissect_fields. cbn [class_of cd_fields NFS3_fattr].
  unfold enc_fattr. rewrite <-!(assoc_L (++) _ _ rest).
  repeat first [step_pkt | step_int]. by destruct rest.
Qed.
#[local] Hint Resolve dissect_fattr : xdr.

Lemma u32_0 : u32 0. Proof. done. Qed.
Lemma u32_1 : u32 1. Proof. done. Qed.
Lemma u32_2 : u32 2. Proof. done. Qed.
#[local] Hint Resolve u32_0 u32_1 u32_2 : xdr.

Lemma enc_fattr_ne a : enc_fattr a <> [].
Proof. unfold enc_fattr. auto with xdr. Qed.
Lemma enc_opt_ne {A} (enc : A -> bytes) o : enc_opt enc o <> [].
Proof. destruct o; simpl; auto with xdr. Qed.
Lemma enc_time_ne t : enc_time t <> [].
Proof. unfold enc_time. auto with xdr. Qed.
#[local] Hint Resolve enc_fattr_ne enc_opt_ne enc_time_ne : xdr.

Lemma dissect_post_op o rest :
  opt_ok fattr_ok o ->
  dissect cNFS3_post_op_attr (enc_opt enc_fattr o ++ rest) = Ok (post_op_env o rest, rest).
Proof.
  intros Ho. rewrite dissect_fields. cbn [class_of cd_fields NFS3_post_op_attr].
  destruct o as [a|]; cbn [enc_opt opt_ok] in *; rewrite <-?(assoc_L (++)).
  - assert (u32 1) by done. step_int. step_cond. by destruct rest.
  - assert (u32 0) by done. step_int. destruct rest as [|b rest]; [done|].
    by step_skip.
Qed.

Lemma dissect_wcc_attr w rest :
  wcc_attr_ok w ->
  dissect cNFS3_wcc_attr (enc_wcc_attr w ++ rest) = Ok (wcc_attr_env w, rest).
Proof.
  intros (?&?&?). rewrite dissect_fields. cbn [class_of cd_fields NFS3_wcc_attr].
  unfold enc_wcc_attr. rewrite <-!(assoc_L (++) _ _ rest).
  repeat step_pkt. by destruct rest.
Qed.
#[local] Hint Resolve dissect_post_op dissect_wcc_attr : xdr.

(** [NFS3_pre_op_attr] reads the attributes whatever the flag says. *)
Lemma dissect_pre_op f w rest :
  u32 f -> wcc_attr_ok w ->
  dissect cNFS3_pre_op_attr ((enc_u32 f ++ enc_wcc_attr w) ++ rest) =
    Ok ([("attribs_follow", VInt f); ("attr", VPkt cNFS3_wcc_attr (wcc_attr_env w))], rest).
Proof.
  intros Hf Hw. rewrite dissect_fields. cbn [class_of cd_fields NFS3_pre_op_attr].
  rewrite <-(assoc_L (++)). step_int.
  assert (enc_wcc_attr w <> []) by (unfold enc_wcc_attr; auto with xdr).
  step_pkt. by destruct rest.
Qed.
#[local] Hint Resolve dissect_pre_op : xdr.

Lemma dissect_wcc_data f w o rest :
  u32 f -> wcc_attr_ok w -> opt_ok fattr_ok o ->
  dissect cNFS3_wcc_data (((enc_u32 f ++ enc_wcc_attr w) ++ enc_opt enc_fattr o) ++ rest) =
    Ok (wcc_data_env (f, w) o rest, rest).
Proof.
  intros Hf Hw Ho. rewrite dissect_fields. cbn [class_of cd_fields NFS3_wcc_data].
  rewrite <-(assoc_L (++) _ _ rest). step_pkt. step_pkt. by destruct rest.
Qed.

(** C30: file attributes. Dissecting the 84-byte RFC 1813 encoding of a
    [fattr3] with [NFS3_fattr] gives every attribute under its field name
    and leaves exactly the bytes that follow, whatever they are. *)
Theorem fattr_roundtrip a rest :
  fattr_ok a ->
  length (enc_fattr a) = 84%nat /\
  dissect cNFS3_fattr (enc_fattr a ++ rest) = Ok (fattr_env a, rest).
Proof.
  intros Ha. split.
  { unfold enc_fattr, enc_time. rewrite !length_app. unfold enc_u32, enc_u64.
    by rewrite !length_be_enc. }
  by apply dissect_fattr.
Qed.

(** Weak cache consistency data that carries pre-operation attributes
    round-trips through [NFS3_wcc_data], with or without post-operation
    attributes. *)
Theorem wcc_data_roundtrip w o rest :
  wcc_attr_ok w -> opt_ok fattr_ok o ->
  dissect cNFS3_wcc_data (enc_wcc_data (Some w) o ++ rest) =
    Ok (wcc_data_env (1, w) o rest, rest).
Proof. intros Hw Ho. by apply (dissect_wcc_data 1 w o rest). Qed.

(** A server that sends no pre-operation attributes (flag FALSE, the
    usual reply) is misread: [NFS3_pre_op_attr] takes the post-operation
    flag and the first attributes of the file for the missing
    pre-operation size and times, takes the high word of the file size
    (zero for a file below 4 GiB) for the post-operation flag, and hands 60
    bytes of attributes to whatever field comes next. *)
Theorem wcc_data_without_pre_op_misread a rest :
  fattr_ok a -> fa_size a < 2 ^ 32 ->
  exists skipped,
    length skipped = 60%nat /\
    dissect cNFS3_wcc_data (enc_wcc_data None (Some a) ++ rest) =
      Ok (wcc_data_env
            (0, {| wa_size := 1 * 2 ^ 32 + fa_type a;
                   wa_mtime := {| t_sec := fa_mode a; t_nsec := fa_nlink a |};
                   wa_ctime := {| t_sec := fa_uid a; t_nsec := fa_gid a |} |})
            None (skipped ++ rest),
          skipped ++ rest).
Proof.
  intros (?&?&?&?&?&Hs&?&?&?&?&?&?&?&?) Hsize.
  set (skipped := enc_u32 (fa_size a) ++ enc_u64 (fa_used a) ++
    (enc_u32 (fa_rdev1 a) ++ enc_u32 (fa_rdev2 a)) ++
    enc_u64 (fa_fsid a) ++ enc_u64 (fa_fileid a) ++
    enc_time (fa_atime a) ++ enc_time (fa_mtime a) ++ enc_time (fa_ctime a)).
  exists skipped. split.
  { unfold skipped, enc_time. rewrite !length_app. unfold enc_u32, enc_u64.
    by rewrite !length_be_enc. }
  match goal with |- _ = Ok (wcc_data_env (0, ?w) _ _, _) => set (w0 := w) end.
  rewrite <-(dissect_wcc_data 0 w0 None (skipped ++ rest)); [|done| |done].
  - f_equal. unfold enc_wcc_data, enc_wcc_attr, enc_opt, enc_fattr, enc_time, skipped, w0.
    cbn [wa_size wa_mtime wa_ctime t_sec t_nsec].
    rewrite <-(enc_u64_words 1 (fa_type a)) by done.
    replace (enc_u64 (fa_size a)) with (enc_u32 0 ++ enc_u32 (fa_size a)).
    2: { rewrite enc_u64_words; [done|]. unfold u32, u64 in *. lia. }
    by rewrite <-!(assoc_L (++)).
  - unfold w0, wcc_attr_ok, time_ok, u64, u32 in *. simpl. lia.
Qed.

(** The optional attribute at the head of a [NFS3_sattr] run. *)
Lemma run_set flag name c d1 d2 o fl pkt s :
  no_pad c = true -> opt_ok (fun z => forall r,
    dissect c ((if decide (c = cNFS3_size) then enc_u64 else enc_u32) z ++ r) =
      Ok ([("v", VInt z)], r)) o ->
  dict_has flag pkt = false -> dict_has name pkt = false -> flag <> name ->
  s <> [] ->
  run_fields getfield
    (IntField flag d1
     :: ConditionalField (PacketField name d2 c) (fun pkt => negb (int_attr pkt flag =? 0))
     :: fl) pkt
    (enc_opt (if decide (c = cNFS3_size) then enc_u64 else enc_u32) o ++ s) =
  run_fields getfield fl (pkt ++ set_env flag name c o) s.
Proof.
  intros Hc Ho Hflag Hname Hne Hs.
  assert (forall v, dict_has name (pkt ++ [(flag, v)]) = false) as Hname'.
  { intros v. by rewrite <-dict_set_fresh, dict_has_set_ne. }
  assert (forall z, int_attr (pkt ++ [(flag, VInt z)]) flag = z) as Hget.
  { intros z. unfold int_attr. rewrite <-dict_set_fresh by done.
    by rewrite dict_get_set_eq. }
  destruct o as [z|]; cbn [enc_opt opt_ok set_env] in *.
  - rewrite <-(assoc_L (++)).
    erewrite run_step; [|auto with xdr|done|rewrite get_IntField; by apply get_u32].
    cbn [field_name].
    erewrite run_step; [|auto with xdr|apply Hname'|].
    2: { rewrite get_ConditionalField, Hget. cbn [Z.eqb negb].
         apply get_packet; [done|apply Ho]. }
    cbn [field_name]. by rewrite <-(assoc_L (++)).
  - erewrite run_step; [|auto with xdr|done|rewrite get_IntField; by apply get_u32].
    cbn [field_name].
    erewrite run_skip; [|done|apply Hname'|by rewrite Hget].
    cbn [field_name]. by rewrite <-(assoc_L (++)).
Qed.

Lemma run_set_time flag name d1 d2 t fl pkt s :
  set_time_ok t ->
  dict_has flag pkt = false -> dict_has name pkt = false -> flag <> name ->
  s <> [] ->
  run_fields getfield
    (IntField flag d1
     :: ConditionalField (PacketField name d2 cNFS3_time)
          (fun pkt => negb (int_attr pkt flag =? 0))
     :: fl) pkt (enc_set_time t ++ s) =
  run_fields getfield fl (pkt ++ set_time_env flag name t) s.
Proof.
  intros Ht Hflag Hname Hne Hs.
  assert (forall v, dict_has name (pkt ++ [(flag, v)]) = false) as Hname'.
  { intros v. by rewrite <-dict_set_fresh, dict_has_set_ne. }
  assert (forall z, int_attr (pkt ++ [(flag, VInt z)]) flag = z) as Hget.
  { intros z. unfold int_attr. rewrite <-dict_set_fresh by done.
    by rewrite dict_get_set_eq. }
  destruct t as [| |t]; cbn [enc_set_time set_time_ok set_time_env] in *; [|done|].
  - erewrite run_step; [|auto with xdr|done|rewrite get_IntField; by apply get_u32].
    cbn [field_name].
    erewrite run_skip; [|done|apply Hname'|by rewrite Hget].
    cbn [field_name]. by rewrite <-(assoc_L (++)).
  - rewrite <-(assoc_L (++)).
    erewrite run_step; [|auto with xdr|done|rewrite get_IntField; by apply get_u32].
    cbn [field_name].
    erewrite run_step; [|auto with xdr|apply Hname'|].
    2: { rewrite get_ConditionalField, Hget. cbn [Z.eqb negb].
         apply get_packet; [done|by apply dissect_time]. }
    cbn [field_name]. by rewrite <-(assoc_L (++)).
Qed.

Lemma enc_set_time_ne t : enc_set_time t <> [].
Proof. destruct t; simpl; auto with xdr. Qed.
#[local] Hint Resolve enc_set_time_ne : xdr.

(** Settable attributes. Any combination of present and absent mode,
    owner, group, size and client-supplied times round-trips through
    [NFS3_sattr]. *)
Theorem sattr_roundtrip a rest :
  sattr_ok a -> rest <> [] ->
  dissect cNFS3_sattr (enc_sattr a ++ rest) = Ok (sattr_env a, rest).
Proof.
  intros (Hm & Hu & Hg & Hz & Ha & Ht) Hr. rewrite dissect_fields.
  cbn [class_of cd_fields NFS3_sattr]. unfold enc_sattr, sattr_env.
  rewrite <-!(assoc_L (++) _ _ rest).
  assert (forall o : option Z, opt_ok u32 o -> forall c d,
    cd_fields (class_of c) = [XIntField "v" d] -> c <> cNFS3_size ->
    opt_ok (fun z => forall r, dissect c
      ((if decide (c = cNFS3_size) then enc_u64 else enc_u32) z ++ r) =
        Ok ([("v", VInt z)], r)) o) as H32.
  { intros [z|] Ho c d Hc Hne; simpl in *; [|done]. intros r.
    rewrite decide_False by done. by eapply dissect_leaf32. }
  erewrite (run_set "set_mode" "mode" cNFS3_mode);
    [|done|by eapply H32|done|done|done|auto with xdr].
  erewrite (run_set "set_uid" "uid" cNFS3_uid);
    [|done|by eapply H32|by destruct (sa_mode a)|by destruct (sa_mode a)|done|auto with xdr].
  erewrite (run_set "set_gid" "gid" cNFS3_gid);
    [|done|by eapply H32
     |by destruct (sa_mode a), (sa_uid a)|by destruct (sa_mode a), (sa_uid a)|done|auto with xdr].
  erewrite (run_set "set_size" "size" cNFS3_size);
    [|done| |by destruct (sa_mode a), (sa_uid a), (sa_gid a)
     |by destruct (sa_mode a), (sa_uid a), (sa_gid a)|done|auto with xdr].
  2: { destruct (sa_size a) as [z|]; simpl in *; [|done]. intros r. by eapply dissect_leaf64. }
  rewrite run_set_time; [|done|by destruct (sa_mode a), (sa_uid a), (sa_gid a), (sa_size a)
    |by destruct (sa_mode a), (sa_uid a), (sa_gid a), (sa_size a)|done|auto with xdr].
  rewrite run_set_time; [|done
    |by destruct (sa_mode a), (sa_uid a), (sa_gid a), (sa_size a), (sa_atime a)
    |by destruct (sa_mode a), (sa_uid a), (sa_gid a), (sa_size a), (sa_atime a)|done|done].
  rewrite <-!(assoc_L (++)). by destruct rest.
Qed.

(** A client that asks for the server's clock (discriminant
    SET_TO_SERVER_TIME, no time follows) is misread: [NFS3_sattr] tests the
    discriminant for being non-zero, so the access time it reports is made
    of the modification discriminant and the word after the structure, and
    the modification discriminant is read from the word after that (here 0,
    so that the run ends). *)
Theorem sattr_server_time_misread x rest :
  u32 x -> rest <> [] ->
  dissect cNFS3_sattr
    (enc_sattr {| sa_mode := None; sa_uid := None; sa_gid := None; sa_size := None;
                  sa_atime := ServerTime; sa_mtime := DontChange |}
     ++ enc_u32 x ++ enc_u32 0 ++ rest) =
  Ok ([("set_mode", VInt 0); ("mode", VNone); ("set_uid", VInt 0); ("uid", VNone);
       ("set_gid", VInt 0); ("gid", VNone); ("set_size", VInt 0); ("size", VNone);
       ("set_atime", VInt 1);
       ("atime", VPkt cNFS3_time [("sec", VInt 0); ("nsec", VInt x)]);
       ("set_mtime", VInt 0); ("mtime", VNone)], rest).
Proof.
  intros Hx Hr. rewrite dissect_fields. cbn [class_of cd_fields NFS3_sattr].
  unfold enc_sattr.
  cbn [sa_mode sa_uid sa_gid sa_size sa_atime sa_mtime enc_opt enc_set_time].
  rewrite <-!(assoc_L (++)).
  assert (u32 0) by done. assert (u32 1) by done.
  do 4 (step_int; step_skip). step_int.
  rewrite (assoc_L (++) (enc_u32 0) (enc_u32 x)).
  erewrite run_step; [|auto with xdr|done|].
  2: { rewrite get_ConditionalField.
       lazymatch goal with |- (if ?b then _ else _) = _ => change b with true end.
       apply get_packet; [done|].
       by apply (dissect_time {| t_sec := 0; t_nsec := x |}). }
  cbn [app field_name]. step_int. step_skip. by destruct rest.
Qed.

(** Names. Dissecting the XDR string of a file name with [NFS3_fname]
    gives its length, its bytes and its zero padding, up to the next word
    boundary. *)
Theorem fname_roundtrip b rest :
  u32 (blen b) -> rest <> [] ->
  (length (enc_opaque b) mod 4 = 0)%nat /\
  dissect cNFS3_fname (enc_opaque b ++ rest) =
    Ok ([("l", VInt (blen b)); ("v", VBytes b); ("p", VBytes (zeros (pad_len (blen b))))],
        rest).
Proof.
  intros Hb Hr. split; [|by eapply dissect_padded].
  unfold enc_opaque, enc_u32, zeros, pad_len, blen.
  rewrite !length_app, length_be_enc, length_replicate.
  apply Nat2Z.inj. rewrite Nat2Z.inj_mod, !Nat2Z.inj_add, Z2Nat.id by (apply Z.mod_pos_bound; lia).
  pose proof (Z.mod_pos_bound (- Z.of_nat (length b)) 4 ltac:(lia)).
  pose proof (Z.div_mod (- Z.of_nat (length b)) 4 ltac:(lia)).
  apply Z.mod_divide; [lia|]. exists (1 - - Z.of_nat (length b) / 4). lia.
Qed.

(** LOOKUP replies. The body of a successful LOOKUP reply parses into
    the handle of the object and the optional attributes of the object and
    of its directory, also at the very end of a packet. *)
Theorem lookup_reply_roundtrip h o d rest :
  u32 (blen h) -> opt_ok fattr_ok o -> opt_ok fattr_ok d ->
  dissect cNFS3_LOOKUP_ReplyOk
    (enc_fh h ++ enc_opt enc_fattr o ++ enc_opt enc_fattr d ++ rest) =
  Ok ([("handle", VPkt cNFS3_fhandle (fh_env h));
       ("obj", VPkt cNFS3_post_op_attr (post_op_env o (enc_opt enc_fattr d ++ rest)));
       ("dir", VPkt cNFS3_post_op_attr (post_op_env d rest))], rest).
Proof.
  intros Hh Ho Hd. rewrite dissect_fields. cbn [class_of cd_fields NFS3_LOOKUP_ReplyOk].
  erewrite run_step; [|unfold enc_fh; auto with xdr|done|].
  2: { apply get_packet; [done|]. apply dissect_fhandle; [done|]. auto with xdr. }
  cbn [app field_name]. step_pkt. step_pkt. by destruct rest.
Qed.
End Structs.

(** * Witnesses *)

(** A file of 4096 bytes and the bytes of a handle and a name. *)
Definition ex_time : nfstime3 := {| t_sec := 1533081600; t_nsec := 7 |}.
Definition ex_fattr : fattr3 := {|
  fa_type := 1; fa_mode := 420; fa_nlink := 1; fa_uid := 1000; fa_gid := 1000;
  fa_size := 4096; fa_used := 4096; fa_rdev1 := 0; fa_rdev2 := 0; fa_fsid := 64769;
  fa_fileid := 2 ^ 40 + 5; fa_atime := ex_time; fa_mtime := ex_time; fa_ctime := ex_time |}.
Definition ex_wcc : wcc_attr3 := {| wa_size := 12; wa_mtime := ex_time; wa_ctime := ex_time |}.
Definition ex_sattr : sattr3 := {|
  sa_mode := Some 420; sa_uid := None; sa_gid := Some 5; sa_size := Some (2 ^ 33);
  sa_atime := DontChange; sa_mtime := ClientTime ex_time |}.
Definition ex_bytes : bytes := [Byte.x61; Byte.x2e; Byte.x63].

Lemma ex_fattr_ok : fattr_ok ex_fattr.
Proof. unfold fattr_ok, time_ok, u32, u64. cbn. lia. Qed.

Lemma fattr_roundtrip_witness :
  fattr_ok ex_fattr /\
  length (enc_fattr ex_fattr) = 84%nat /\
  dissect cNFS3_fattr (enc_fattr ex_fattr ++ ex_bytes) = Ok (fattr_env ex_fattr, ex_bytes).
Proof. split; [exact ex_fattr_ok|]. apply (fattr_roundtrip ex_fattr ex_bytes ex_fattr_ok). Defined.

Lemma wcc_data_roundtrip_witness :
  dissect cNFS3_wcc_data (enc_wcc_data (Some ex_wcc) None ++ []) =
    Ok (wcc_data_env (1, ex_wcc) None [], []).
Proof.
  apply (wcc_data_roundtrip ex_wcc None []); [|done].
  unfold wcc_attr_ok, time_ok, u32, u64. cbn. lia.
Defined.

Lemma wcc_data_without_pre_op_misread_witness :
  exists skipped, length skipped = 60%nat /\
    dissect cNFS3_wcc_data (enc_wcc_data None (Some ex_fattr) ++ ex_bytes) =
      Ok (wcc_data_env
            (0, {| wa_size := 1 * 2 ^ 32 + 1;
                   wa_mtime := {| t_sec := 420; t_nsec := 1 |};
                   wa_ctime := {| t_sec := 1000; t_nsec := 1000 |} |})
            None (skipped ++ ex_bytes), skipped ++ ex_bytes).
Proof.
  apply (wcc_data_without_pre_op_misread ex_fattr ex_bytes ex_fattr_ok). cbn. lia.
Defined.

Lemma sattr_roundtrip_witness :
  dissect cNFS3_sattr (enc_sattr ex_sattr ++ ex_bytes) = Ok (sattr_env ex_sattr, ex_bytes).
Proof.
  apply (sattr_roundtrip ex_sattr ex_bytes); [|done].
  unfold sattr_ok, opt_ok, set_time_ok, time_ok, u32, u64. cbn. lia.
Defined.

Lemma sattr_server_time_misread_witness :
  dissect cNFS3_sattr
    (enc_sattr {| sa_mode := None; sa_uid := None; sa_gid := None; sa_size := None;
                  sa_atime := ServerTime; sa_mtime := DontChange |}
     ++ enc_u32 9 ++ enc_u32 0 ++ ex_bytes) =
  Ok ([("set_mode", VInt 0); ("mode", VNone); ("set_uid", VInt 0); ("uid", VNone);
       ("set_gid", VInt 0); ("gid", VNone); ("set_size", VInt 0); ("size", VNone);
       ("set_atime", VInt 1);
       ("atime", VPkt cNFS3_time [("sec", VInt 0); ("nsec", VInt 9)]);
       ("set_mtime", VInt 0); ("mtime", VNone)], ex_bytes).
Proof. apply (sattr_server_time_misread 9 ex_bytes); [unfold u32; lia|done]. Defined.

Lemma fname_roundtrip_witness :
  (length (enc_opaque ex_bytes) mod 4 = 0)%nat /\
  dissect cNFS3_fname (enc_opaque ex_bytes ++ ex_bytes) =
    Ok ([("l", VInt 3); ("v", VBytes ex_bytes); ("p", VBytes (zeros 1))], ex_bytes).
Proof. apply (fname_roundtrip ex_bytes ex_bytes); [unfold u32; change (blen ex_bytes) with 3; lia|done]. Defined.

Lemma lookup_reply_roundtrip_witness :
  dissect cNFS3_LOOKUP_ReplyOk
    (enc_fh ex_bytes ++ enc_opt enc_fattr (Some ex_fattr) ++ enc_opt enc_fattr None ++ []) =
  Ok ([("handle", VPkt cNFS3_fhandle (fh_env ex_bytes));
       ("obj", VPkt cNFS3_post_op_attr
          (post_op_env (Some ex_fattr) (enc_opt enc_fattr None ++ [])));
       ("dir", VPkt cNFS3_post_op_attr (post_op_env None []))], []).
Proof.
  apply (lookup_reply_roundtrip ex_bytes (Some ex_fattr) None []);
    [unfold u32; change (blen ex_bytes) with 3; lia|exact ex_fattr_ok|done].
Defined.
