(* ===== verification/Rpc.v ===== *)
(** The RPC layer of [targets/nfs-sensor-target/sensor/nfs.py]: validation of
    record markers and RPC headers, the transaction tables [xid_call_map] and
    [xid_reply_map] that tie a reply to its call, and the ports bound to RPC.

    Scapy drives the callbacks: for one packet it calls [pre_dissect] and
    [guess_payload_class] layer by layer while it dissects, and then
    [post_dissection] layer by layer, outermost first.  [process_call] and
    [process_reply] compose the callbacks of a call and of a reply packet in
    that order; each callback is a definition of its own. *)

From S2P Require Import Prelude NfsConst Layers Scapy.

(** * Packets *)

(** A dissected RPC packet: the [RPC_Header] and its payloads, outermost
    first. *)
Abbreviation chain := (list (cls * env)).

(** The default of a field, by name. *)
Fixpoint field_default (f : field) : value :=
  match f with
  | IntField _ d | XIntField _ d | XLongField _ d | IntEnumField _ d _
  | BitField _ d _ | FieldLenField _ d _ _ | StrField _ d | StrLenField _ d _
  | StrFixedLenField _ d _ | XStrFixedLenField _ d _ | PacketField _ d _
  | PacketLenField _ d _ _ | FieldListField _ d _ _ | PacketListField _ d _ _ => d
  | PadField f _ | ConditionalField f _ => field_default f
  end.

Definition class_default (c : cls) (n : string) : option value :=
  field_default <$> find (fun f => bool_decide (field_name f = n)) (cd_fields (class_of c)).

(** A field of one layer: dissected, or its default. *)
Definition layer_attr (l : cls * env) (n : string) : option value :=
  match dict_get n l.2 with
  | Some v => Some v
  | None => class_default l.1 n
  end.

(** [pkt.n]: the class attribute [name], then the fields of the layer and of
    the payloads under it. *)
Definition attr (p : chain) (n : string) : res value :=
  match p with
  | (c, _) :: _ =>
      if decide (n = "name") then Ok (VStr (class_name_attr c))
      else opt_res AttributeError (head (omap (fun l => layer_attr l n) p))
  | [] => Raise AttributeError
  end.

(** [v.n] for a value: only packets have attributes. *)
Definition vattr (v : value) (n : string) : res value :=
  match v with
  | VPkt c fs => attr [(c, fs)] n
  | _ => Raise AttributeError
  end.

(** An [RPC_Header] packet with its [rpc_call] slot. *)
Record rpc_pkt := RpcPkt {
  rp_chain : chain;
  rpc_call : option chain;
}.

(** * Record marker *)

(** [2**16]: the largest record the sensor accepts. *)
Definition maxsize : Z := 2 ^ 16.

Definition RPC_RecordMarker_pre_dissect (pay : bytes) : res bytes :=
  match split_at 4 pay with
  | None => Raise StructError
  | Some (b, _) =>
      let field := be_val b in
      let last := Z.shiftr field 20 in
      let size := Z.land field (2 ^ 20 - 1) in
      if negb (Z.land last 2047 =? 0) || (size >? maxsize)
      then Raise RuntimeError
      else Ok pay
  end.

(** The 8-bit [last] and the 24-bit [len] fixed up in place. *)
Definition RPC_RecordMarker_post_dissection (self : env) : env :=
  let last := int_attr self "last" in
  let len := Z.lor (Z.shiftl (Z.land last 127) 24) (int_attr self "len") in
  let self := dict_set "len" (VInt len) self in
  if truthy last then dict_set "last" (VInt 1) self
  else dict_set "last" (VInt 0) self.

(** RFC 1831 section 10: the top bit marks the last fragment, the other 31
    bits are the length. *)
Definition rfc_last (w : Z) : bool := Z.testbit w 31.
Definition rfc_len (w : Z) : Z := w mod 2 ^ 31.

(** * Transaction tables and bindings *)

Inductive transport := UDP | TCP.

(** [bind_layers(UDP, RPC_Header, sport=port)] and the like. *)
Record binding := Binding {
  b_lower : transport;
  b_upper : cls;
  b_field : string;
  b_port : Z;
}.

Record rpc_state := RpcState {
  xid_reply_map : list (Z * cls);
  xid_call_map : list (Z * chain);
  bindings : list binding;
  header_ct : Z;
}.

Definition rpc_init : rpc_state := RpcState [] [] [] 0.

Definition set_reply_map f (s : rpc_state) : rpc_state :=
  RpcState (f (xid_reply_map s)) (xid_call_map s) (bindings s) (header_ct s).
Definition set_call_map f (s : rpc_state) : rpc_state :=
  RpcState (xid_reply_map s) (f (xid_call_map s)) (bindings s) (header_ct s).
Definition add_bindings l (s : rpc_state) : rpc_state :=
  RpcState (xid_reply_map s) (xid_call_map s) (bindings s ++ l) (header_ct s).
Definition count_header (s : rpc_state) : rpc_state :=
  RpcState (xid_reply_map s) (xid_call_map s) (bindings s) (header_ct s + 1).

Definition bind_port_to_rpc (port : Z) (bind_udp bind_tcp : bool) : M rpc_state unit :=
  do_ (if bind_udp : bool
       then modify (add_bindings [ Binding UDP cRPC_Header "sport" port;
                                   Binding UDP cRPC_Header "dport" port ])
       else ret tt);
  if bind_tcp
  then modify (add_bindings [ Binding TCP cRPC_RecordMarker "sport" port;
                              Binding TCP cRPC_RecordMarker "dport" port ])
  else ret tt.

(** [nfs.init] *)
Definition init : M rpc_state unit :=
  for_each (fun p => bind_port_to_rpc p true true) [111; 955; 2049].

(** * RPC header *)

(** Counts the packet, then rejects a zero XID and an unknown direction. *)
Definition RPC_Header_pre_dissect (pay : bytes) : M rpc_state bytes :=
  do_ modify count_header;
  match split_at 4 pay with
  | Some (x, r) =>
      match split_at 4 r with
      | Some (d, _) =>
          if (be_val x =? 0) || negb (dict_has (be_val d) ValMsgTypeMap)
          then throw RuntimeError
          else ret pay
      | None => throw StructError
      end
  | None => throw StructError
  end.

(** [post_dissection] of a header with the payloads under it.  [under] is
    [Some last] when the enclosing layer is a [RPC_RecordMarker].  The
    result is the value of the [rpc_call] slot; an unknown direction leaves
    the slot unset. *)
Definition RPC_Header_post_dissection (under : option Z) (self : chain) : M rpc_state (option (option chain)) :=
  do v <- lift (attr self "xid");
  do d <- lift (attr self "direction");
  match v, d with
  | VInt xid, VInt direction =>
      if direction =? sub_const MsgTypeValMap "CALL" then
        do_ modify (set_call_map (dict_set xid self));
        ret (Some None)
      else if direction =? sub_const MsgTypeValMap "REPLY" then
        do calls <- gets xid_call_map;
        match dict_get xid calls with
        | None => ret (Some None)
        | Some call =>
            if match under with Some last => negb (truthy last) | None => false end
            then ret (Some (Some call))
            else do_ modify (set_call_map (dict_del xid));
                 ret (Some (Some call))
        end
      else ret None
  | _, _ => ret None
  end.

(** * Calls and replies *)

(** [lookup[proc]], raising for an unknown procedure. *)
Definition reply_class (prog proc : Z) : res (option cls) :=
  if prog =? prog_portmapper then opt_res KeyError (dict_get proc portmap_reply_lookup)
  else if prog =? prog_mountd then opt_res KeyError (dict_get proc mount3_reply_lookup)
  else if prog =? prog_nfs then opt_res KeyError (dict_get proc nfs3_reply_lookup)
  else Ok None.

(** Records the class that will parse the reply. *)
Definition RPC_Call_post_dissection (xid : Z) (self : env) : M rpc_state unit :=
  do cls <- lift (reply_class (int_attr self "prog") (int_attr self "proc"));
  match cls with
  | Some c => modify (set_reply_map (dict_set xid c))
  | None => ret tt
  end.

(** The class of the reply's payload, by XID; the entry is used up. *)
Definition RPC_Reply_guess_payload_class (xid : Z) (self : env) : M rpc_state guess :=
  do classes <- gets xid_reply_map;
  match dict_get xid classes with
  | None => ret GuessDefault
  | Some c =>
      do_ modify (set_reply_map (dict_del xid));
      let st := default VNone (dict_get "accept_state" self) in
      do b <- lift (success st);
      do v <- lift (vattr st "v");
      if b : bool then ret (GuessClass c)
      else if match v with
              | VInt z => z =? sub_const AcceptStatValMap "PROG_MISMATCH"
              | _ => false
              end
      then ret (GuessClass cRPC_ReplyMismatch)
      else ret GuessDefault
  end.

(** [PORTMAP_GETPORT_Reply.post_dissection]: binds the port the portmapper
    announced, under the transport the request named. *)
Definition PORTMAP_GETPORT_Reply_post_dissection (rpc_call : option chain) (port : Z) : M rpc_state unit :=
  match rpc_call with
  | None => throw AttributeError
  | Some request =>
      do program <- lift (attr request "program");
      do proto <- lift (attr request "proto");
      match program, proto with
      | VInt program, VInt proto =>
          do _ <- lift (opt_res KeyError (dict_get program ValProgramMap));
          bind_port_to_rpc port
            (proto =? sub_const ProtoValMap "UDP") (proto =? sub_const ProtoValMap "TCP")
      | _, _ => throw KeyError
      end
  end.

(** * Packets of the two directions *)

(** What scapy runs for a call, once its layers are dissected. *)
Definition process_call (under : option Z) (self : chain) : M rpc_state rpc_pkt :=
  do slot <- RPC_Header_post_dissection under self;
  do_ match self with
      | (cRPC_Header, h) :: (cRPC_Call, e) :: _ => RPC_Call_post_dissection (int_attr h "xid") e
      | _ => ret tt
      end;
  ret (RpcPkt self (mjoin slot)).

(** What scapy runs for a reply: the payload class is chosen while the packet
    is dissected, [body] is the payload scapy dissects with it, and the
    header's slot is filled afterwards. *)
Definition process_reply (under : option Z) (h e : env) (body : guess -> chain) : M rpc_state rpc_pkt :=
  do g <- RPC_Reply_guess_payload_class (int_attr h "xid") e;
  let self := (cRPC_Header, h) :: (cRPC_Reply, e) :: body g in
  do slot <- RPC_Header_post_dissection under self;
  do_ match body g with
      | (cPORTMAP_GETPORT_Reply, b) :: _ => PORTMAP_GETPORT_Reply_post_dissection (mjoin slot) (int_attr b "port")
      | _ => ret tt
      end;
  ret (RpcPkt self (mjoin slot)).

(** A captured packet; an exception drops it and keeps the tables as they
    are at that point. *)
Inductive event :=
  | ECall (under : option Z) (self : chain)
  | EReply (under : option Z) (h e : env) (body : guess -> chain).

Definition event_xid (ev : event) : Z :=
  match ev with
  | ECall _ ((_, h) :: _) | EReply _ h _ _ => int_attr h "xid"
  | ECall _ [] => 0
  end.

Definition exec (s : rpc_state) (ev : event) : rpc_state :=
  match ev with
  | ECall under self => (process_call under self s).2
  | EReply under h e body => (process_reply under h e body s).2
  end.

(** The headers of a captured call or reply: an integer XID and the right
    direction. *)
Definition header_env (xid direction : Z) : env :=
  [("xid", VInt xid); ("direction", VInt direction)].

Definition well_formed (ev : event) : Prop :=
  match ev with
  | ECall _ self => exists xid e body, self = (cRPC_Header, header_env xid 0) :: (cRPC_Call, e) :: body
  | EReply _ h e _ => (exists xid, h = header_env xid 1) /\
      exists z fs, dict_get "accept_state" e = Some (VPkt cRPC_status (("v", VInt z) :: fs))
  end.

(** * Record markers *)

Lemma land_low w n : 0 <= n -> Z.land w (2 ^ n - 1) = w mod 2 ^ n.
Proof. intros. rewrite <-Z.land_ones by done. by rewrite Z.ones_equiv, Z.sub_1_r. Qed.

Lemma marker_words w :
  0 <= w < 2 ^ 32 ->
  w mod 2 ^ 31 = (Z.land (Z.shiftr w 20) 2047) * 2 ^ 20 + Z.land w (2 ^ 20 - 1).
Proof.
  intros Hw. change 2047 with (2 ^ 11 - 1). rewrite !land_low, Z.shiftr_div_pow2 by lia.
  change (2 ^ 31) with (2 ^ 20 * 2 ^ 11). rewrite Z.rem_mul_r by lia. lia.
Qed.

Lemma first_word_range pay b r : split_at 4 pay = Some (b, r) -> 0 <= be_val b < 2 ^ 32.
Proof.
  intros Hp. pose proof (be_val_range b) as Hb. unfold split_at in Hp.
  case_decide; simplify_eq. by rewrite length_take_le in Hb by lia.
Qed.

Lemma marker_accepts pay b r :
  split_at 4 pay = Some (b, r) ->
  RPC_RecordMarker_pre_dissect pay =
    if rfc_len (be_val b) >? maxsize then Raise RuntimeError else Ok pay.
Proof.
  intros Hp. unfold RPC_RecordMarker_pre_dissect, rfc_len. rewrite Hp.
  pose proof (first_word_range _ _ _ Hp) as Hw.
  rewrite marker_words by done.
  set (last := Z.land (Z.shiftr (be_val b) 20) 2047). set (size := Z.land _ (2 ^ 20 - 1)).
  assert (0 <= size < 2 ^ 20) by (unfold size; rewrite land_low by lia; apply Z.mod_pos_bound; lia).
  assert (0 <= last) by (apply Z.land_nonneg; right; lia).
  unfold maxsize. clearbody last size.
  destruct (Z.eqb_spec last 0) as [->|Hne]; cbn [negb orb]; [by rewrite Z.add_0_l|].
  destruct (Z.gtb_spec (last * 2 ^ 20 + size) (2 ^ 16)); [done|lia].
Qed.

Lemma lor_shift_mod a y n : 0 <= n -> Z.lor (Z.shiftl a n) (y mod 2 ^ n) = a * 2 ^ n + y mod 2 ^ n.
Proof.
  intros Hn. rewrite <-Z.shiftl_mul_pow2 by done. symmetry. apply Z.add_nocarry_lor.
  apply Z.bits_inj'. intros i Hi. rewrite Z.land_spec, Z.bits_0.
  destruct (Z.lt_ge_cases i n).
  - by rewrite Z.shiftl_spec_low.
  - rewrite Z.mod_pow2_bits_high by lia. apply andb_false_r.
Qed.

Lemma marker_len w :
  Z.lor (Z.shiftl (Z.land (w / 2 ^ 24) 127) 24) (w mod 2 ^ 24) = w mod 2 ^ 31.
Proof.
  rewrite lor_shift_mod by lia. change 127 with (2 ^ 7 - 1). rewrite land_low by lia.
  change (2 ^ 31) with (2 ^ 24 * 2 ^ 7). rewrite (Z.rem_mul_r w) by lia. lia.
Qed.

Lemma marker_last w : 0 <= w < 2 ^ 32 -> w mod 2 ^ 31 <= 2 ^ 16 ->
  truthy (w / 2 ^ 24) = Z.testbit w 31.
Proof.
  intros Hw Hlen. unfold truthy.
  assert (Z.testbit w 31 = (2 ^ 31 <=? w)) as ->.
  { destruct (Z.leb_spec (2 ^ 31) w).
    - apply Z.testbit_true; [lia|]. replace (w / 2 ^ 31) with 1; [done|].
      apply Z.div_unique with (w - 2 ^ 31); lia.
    - apply Z.testbit_false; [lia|]. by rewrite Z.div_small by lia. }
  destruct (Z.leb_spec (2 ^ 31) w) as [H|H].
  - assert (2 ^ 7 <= w / 2 ^ 24) by (apply Z.div_le_lower_bound; lia).
    by destruct (Z.eqb_spec (w / 2 ^ 24) 0); [lia|].
  - rewrite Z.mod_small in Hlen by lia. by rewrite Z.div_small by lia.
Qed.

(** C13: record markers. For the big-endian word [w] at the start of a TCP
    payload, [pre_dissect] accepts exactly when the RFC length of the record
    is at most 64 KiB, and for every accepted word the byte-wise [last] and
    [len] fields, once fixed up by [post_dissection], are the RFC's
    last-fragment flag and 31-bit length. *)
Theorem record_marker_refines_rfc pay b r :
  split_at 4 pay = Some (b, r) ->
  let w := be_val b in
  let self := RPC_RecordMarker_post_dissection
    [("last", VInt (w / 2 ^ 24)); ("len", VInt (w mod 2 ^ 24))] in
  (RPC_RecordMarker_pre_dissect pay = Ok pay <-> rfc_len w <= maxsize) /\
  (RPC_RecordMarker_pre_dissect pay = Ok pay ->
   int_attr self "len" = rfc_len w /\
   int_attr self "last" = Z.b2z (rfc_last w)).
Proof.
  intros Hp w self. rewrite (marker_accepts _ _ _ Hp). fold w.
  pose proof (first_word_range _ _ _ Hp) as Hw. fold w in Hw.
  assert (int_attr self "len" = rfc_len w /\
          int_attr self "last" = Z.b2z (truthy (w / 2 ^ 24))) as [-> ->].
  { unfold self, RPC_RecordMarker_post_dissection. unfold rfc_len.
    rewrite <-marker_len.
    change (int_attr [("last", VInt (w / 2 ^ 24)); ("len", VInt (w mod 2 ^ 24))] "last")
      with (w / 2 ^ 24).
    change (int_attr [("last", VInt (w / 2 ^ 24)); ("len", VInt (w mod 2 ^ 24))] "len")
      with (w mod 2 ^ 24).
    by destruct (truthy (w / 2 ^ 24)). }
  unfold rfc_len, rfc_last, maxsize.
  destruct (Z.gtb_spec (w mod 2 ^ 31) (2 ^ 16)); split.
  - split; [done|lia].
  - done.
  - split; [lia|done].
  - intros _. split; [done|]. by rewrite marker_last by lia.
Qed.

(** * RPC headers *)

(** Header validation. A payload is dissected as RPC exactly when its
    first eight bytes are there, the XID is not zero and the direction is CALL
    or REPLY; every attempt is counted, accepted or not, and the transaction
    tables are left alone. *)
Theorem header_pre_dissect_spec pay s :
  let ok := match split_at 4 pay with
            | Some (x, r) =>
                match split_at 4 r with
                | Some (d, _) => negb (be_val x =? 0) && ((be_val d =? 0) || (be_val d =? 1))
                | None => false
                end
            | None => false
            end in
  (RPC_Header_pre_dissect pay s).2 = count_header s /\
  ((RPC_Header_pre_dissect pay s).1 = Ok pay <-> ok = true).
Proof.
  unfold RPC_Header_pre_dissect, bind, modify.
  destruct (split_at 4 pay) as [[x r]|]; [|done].
  destruct (split_at 4 r) as [[d ?]|]; [|done].
  assert (dict_has (be_val d) ValMsgTypeMap = (be_val d =? 0) || (be_val d =? 1)) as ->.
  { change ValMsgTypeMap with [(0, "CALL"); (1, "REPLY")]. unfold dict_has. simpl.
    destruct (Z.eqb_spec (be_val d) 0), (Z.eqb_spec (be_val d) 1);
      repeat case_decide; done. }
  destruct (be_val x =? 0); simpl; [done|].
  destruct (_ || _); simpl; done.
Qed.

(** * Transaction tables *)

Lemma header_attrs xid d body :
  attr ((cRPC_Header, header_env xid d) :: body) "xid" = Ok (VInt xid) /\
  attr ((cRPC_Header, header_env xid d) :: body) "direction" = Ok (VInt d).
Proof. done. Qed.

Lemma header_post_call under xid body s :
  let self := (cRPC_Header, header_env xid 0) :: body in
  RPC_Header_post_dissection under self s =
    (Ok (Some None), set_call_map (dict_set xid self) s).
Proof. done. Qed.

Definition keeps_call (under : option Z) : bool :=
  match under with Some last => negb (truthy last) | None => false end.

Lemma header_post_reply under xid body s :
  let self := (cRPC_Header, header_env xid 1) :: body in
  RPC_Header_post_dissection under self s =
    match dict_get xid (xid_call_map s) with
    | None => (Ok (Some None), s)
    | Some call =>
        (Ok (Some (Some call)),
         if keeps_call under then s else set_call_map (dict_del xid) s)
    end.
Proof.
  intros self. unfold RPC_Header_post_dissection, bind, lift. subst self.
  destruct (header_attrs xid 1 body) as [-> ->]. cbn [keeps_call].
  change (1 =? sub_const MsgTypeValMap "CALL") with false.
  change (1 =? sub_const MsgTypeValMap "REPLY") with true.
  unfold gets, keeps_call. destruct (dict_get xid (xid_call_map s)); [|done].
  by destruct under as [last|]; [destruct (truthy last)|].
Qed.

(** The callbacks after the header change no table but the bindings. *)
Definition same_tables (s s' : rpc_state) : Prop :=
  xid_reply_map s' = xid_reply_map s /\ xid_call_map s' = xid_call_map s.

Lemma bind_port_tables port u t s : same_tables s (bind_port_to_rpc port u t s).2.
Proof. by destruct u, t. Qed.

Lemma getport_tables call port s : same_tables s (PORTMAP_GETPORT_Reply_post_dissection call port s).2.
Proof.
  unfold PORTMAP_GETPORT_Reply_post_dissection. destruct call as [request|]; [|done].
  unfold bind, lift.
  destruct (attr request "program") as [v|]; [|done].
  destruct (attr request "proto") as [v'|]; [|done].
  destruct v; try done. destruct v'; try done.
  destruct (dict_get z ValProgramMap); [|done]. apply bind_port_tables.
Qed.

(** [guess_payload_class] of a reply with accept status [z]. *)
Lemma reply_guess_spec xid e s z fs :
  dict_get "accept_state" e = Some (VPkt cRPC_status (("v", VInt z) :: fs)) ->
  RPC_Reply_guess_payload_class xid e s =
    match dict_get xid (xid_reply_map s) with
    | None => (Ok GuessDefault, s)
    | Some c =>
        (Ok (if 0 =? z then GuessClass c
             else if z =? sub_const AcceptStatValMap "PROG_MISMATCH"
             then GuessClass cRPC_ReplyMismatch else GuessDefault),
         set_reply_map (dict_del xid) s)
    end.
Proof.
  intros He. unfold RPC_Reply_guess_payload_class, bind, gets, modify, lift.
  destruct (dict_get xid (xid_reply_map s)) as [c|]; [|done].
  rewrite He. change (default VNone (Some ?v)) with v.
  change (success _) with (Ok (0 =? z)).
  change (vattr _ "v") with (Ok (VInt z)). cbv beta iota.
  destruct (0 =? z); [done|]. by destruct (z =? _).
Qed.

Lemma reply_guess_state xid e s z fs :
  dict_get "accept_state" e = Some (VPkt cRPC_status (("v", VInt z) :: fs)) ->
  exists g, RPC_Reply_guess_payload_class xid e s =
    (Ok g, if dict_has xid (xid_reply_map s) then set_reply_map (dict_del xid) s else s).
Proof.
  intros He. rewrite (reply_guess_spec _ _ _ _ _ He). unfold dict_has.
  destruct (dict_get xid (xid_reply_map s)); eauto.
Qed.

Lemma exec_call s under xid e body :
  let self := (cRPC_Header, header_env xid 0) :: (cRPC_Call, e) :: body in
  exec s (ECall under self) =
    match reply_class (int_attr e "prog") (int_attr e "proc") with
    | Ok (Some c) => set_reply_map (dict_set xid c) (set_call_map (dict_set xid self) s)
    | _ => set_call_map (dict_set xid self) s
    end.
Proof.
  cbn -[header_env reply_class dict_set]. unfold process_call, bind.
  rewrite header_post_call. cbn -[reply_class dict_set header_env].
  unfold RPC_Call_post_dissection, bind, lift.
  by destruct (reply_class _ _) as [[c|]|].
Qed.

Lemma payload_post_tables (slot : option chain) (b self : chain) s :
  same_tables s
    ((do_ match b with
          | (cPORTMAP_GETPORT_Reply, b) :: _ => PORTMAP_GETPORT_Reply_post_dissection slot (int_attr b "port")
          | _ => ret tt
          end;
      ret (RpcPkt self slot)) s).2.
Proof.
  unfold bind. destruct b as [|[c b] ?]; [done|]. destruct c; try done.
  pose proof (getport_tables slot (int_attr b "port") s) as Ht.
  by destruct (PORTMAP_GETPORT_Reply_post_dissection _ _ s) as [[]].
Qed.

Lemma exec_reply s under xid e body z fs :
  dict_get "accept_state" e = Some (VPkt cRPC_status (("v", VInt z) :: fs)) ->
  let s1 := if dict_has xid (xid_reply_map s) then set_reply_map (dict_del xid) s else s in
  same_tables
    (if dict_has xid (xid_call_map s) && negb (keeps_call under)
     then set_call_map (dict_del xid) s1 else s1)
    (exec s (EReply under (header_env xid 1) e body)).
Proof.
  intros He s1. unfold exec, process_reply.
  change (int_attr (header_env xid 1) "xid") with xid.
  destruct (reply_guess_state xid e s z fs He) as [g Hg].
  rewrite (bind_step _ _ _ _ _ Hg). fold s1.
  assert (xid_call_map s1 = xid_call_map s) as Hs1 by (unfold s1; by case_match).
  pose proof (header_post_reply under xid ((cRPC_Reply, e) :: body g) s1) as Hp.
  rewrite Hs1 in Hp. cbn beta zeta in Hp. unfold dict_has at 1.
  destruct (dict_get xid (xid_call_map s)) as [call|]; rewrite (bind_step _ _ _ _ _ Hp).
  - cbn [mjoin option_join andb]. destruct (keeps_call under); apply payload_post_tables.
  - apply payload_post_tables.
Qed.

(** A packet of another transaction leaves the entries of [x] alone. *)
Lemma exec_other s ev x :
  well_formed ev -> event_xid ev <> x ->
  dict_get x (xid_reply_map (exec s ev)) = dict_get x (xid_reply_map s) /\
  dict_get x (xid_call_map (exec s ev)) = dict_get x (xid_call_map s).
Proof.
  destruct ev as [under self|under h e body]; cbn [well_formed].
  - intros (xid & e & body & ->) Hx. change (xid <> x) in Hx. rewrite exec_call.
    repeat case_match; cbn; by rewrite ?dict_get_set_ne by congruence.
  - intros ([xid ->] & z & fs & He) Hx. change (xid <> x) in Hx.
    destruct (exec_reply s under xid e body z fs He) as [-> ->].
    repeat case_match; cbn; by rewrite ?dict_get_del_ne by congruence.
Qed.

Lemma exec_others evs s x :
  Forall well_formed evs -> Forall (fun ev => event_xid ev <> x) evs ->
  dict_get x (xid_reply_map (fold_left exec evs s)) = dict_get x (xid_reply_map s) /\
  dict_get x (xid_call_map (fold_left exec evs s)) = dict_get x (xid_call_map s).
Proof.
  revert s. induction evs as [|ev evs IH]; intros s; [done|]. simpl.
  intros [Hw Hws]%Forall_cons [Hx Hxs]%Forall_cons.
  destruct (IH (exec s ev)) as [-> ->]; [done..|]. by apply exec_other.
Qed.

(** ** The theorems *)

(** The payload class that a reply of accept status [z] to a call with reply class
    [c] is dissected with: [c] when the call succeeded. *)
Definition payload_guess (z : Z) (c : cls) : guess :=
  if 0 =? z then GuessClass c
  else if z =? sub_const AcceptStatValMap "PROG_MISMATCH" then GuessClass cRPC_ReplyMismatch
  else GuessDefault.

(** Dissection follows the guess: a payload, with whatever layers below it, begins
    with the class that was guessed; an empty payload has no layer. *)
Definition follows_guess (body : guess -> chain) : Prop :=
  forall g c e below, body g = (c, e) :: below ->
    match g with GuessClass c' => c = c' | _ => c <> cPORTMAP_GETPORT_Reply end.

Lemma payload_post_skips (slot : option chain) (b self : chain) s :
  (forall e below, b <> (cPORTMAP_GETPORT_Reply, e) :: below) ->
  (do_ match b with
       | (cPORTMAP_GETPORT_Reply, b) :: _ => PORTMAP_GETPORT_Reply_post_dissection slot (int_attr b "port")
       | _ => ret tt
       end;
   ret (RpcPkt self slot)) s = (Ok (RpcPkt self slot), s).
Proof. intros Hb. destruct b as [|[c e] below]; [done|]. destruct c; first [done|by edestruct Hb]. Qed.


(** No reply is tied to two calls, and no stale call is reused. A reply
    whose XID has no outstanding call gets an empty [rpc_call] slot and leaves
    the call table as it is. *)
Theorem unmatched_reply_has_no_call s under xid re body z fs :
  dict_get xid (xid_call_map s) = None ->
  dict_get "accept_state" re = Some (VPkt cRPC_status (("v", VInt z) :: fs)) ->
  xid_call_map (exec s (EReply under (header_env xid 1) re body)) = xid_call_map s /\
  forall p s', process_reply under (header_env xid 1) re body s = (Ok p, s') -> rpc_call p = None.
Proof.
  intros Hcall Hre. split.
  - destruct (exec_reply s under xid re body z fs Hre) as [_ ->].
    unfold dict_has at 1. rewrite Hcall. simpl. by case_match.
  - intros p s' Hrun. unfold process_reply in Hrun.
    change (int_attr (header_env xid 1) "xid") with xid in Hrun.
    destruct (reply_guess_state xid re s z fs Hre) as [g Hg].
    rewrite (bind_step _ _ _ _ _ Hg) in Hrun.
    set (s1 := if dict_has xid (xid_reply_map s) then _ else s) in Hrun.
    pose proof (header_post_reply under xid ((cRPC_Reply, re) :: body g) s1) as Hp.
    cbn beta zeta in Hp.
    assert (xid_call_map s1 = xid_call_map s) as Hs1 by (unfold s1; by destruct (dict_has _ _)).
    rewrite Hs1, Hcall in Hp. rewrite (bind_step _ _ _ _ _ Hp) in Hrun.
    apply bind_Ok in Hrun as (? & ? & ? & Hrun). by injection Hrun as <- ?.
Qed.

(** The transactions that await a class of reply. *)
Definition tables_ok (s : rpc_state) : Prop :=
  forall x, is_Some (dict_get x (xid_reply_map s)) -> is_Some (dict_get x (xid_call_map s)).

Lemma exec_tables_ok s ev : well_formed ev -> tables_ok s -> tables_ok (exec s ev).
Proof.
  intros Hev Hs x. destruct (decide (event_xid ev = x)) as [<-|Hx].
  2: { destruct (exec_other s ev x Hev Hx) as [-> ->]. apply Hs. }
  destruct ev as [under self|under h e body]; cbn [well_formed] in Hev.
  - destruct Hev as (xid & e & body & ->). change (event_xid _) with xid. rewrite exec_call.
    intros _. repeat case_match; cbn; rewrite dict_get_set_eq; eauto.
  - destruct Hev as ([xid ->] & z & fs & He). change (event_xid _) with xid.
    destruct (exec_reply s under xid e body z fs He) as [-> _].
    repeat case_match; cbn; rewrite ?dict_get_del_eq; try by intros [].
    all: unfold dict_has in *; intros [? Hr]; rewrite Hr in *; done.
Qed.

(** Every transaction that still awaits a reply class has its call on
    record, after any sequence of captured calls and replies, so a reply that
    is parsed as a procedure's reply always finds the call it answers. *)
Theorem reply_class_has_call evs :
  Forall well_formed evs -> tables_ok (fold_left exec evs rpc_init).
Proof.
  intros Hw. assert (tables_ok rpc_init) as H0 by (intros x []%is_Some_None).
  revert H0. generalize rpc_init. induction Hw as [|ev evs Hev _ IH]; intros s Hs; [done|].
  simpl. by apply IH, exec_tables_ok.
Qed.

(** The name of a class without its [_Call] or [_Reply] suffix. *)
Definition procedure_of (suffix : string) (c : cls) : option string :=
  let n := str_chars (cls_name c) in
  let k := (length n - length (str_chars suffix))%nat in
  if decide (drop k n = str_chars suffix) then Some (str_of (take k n)) else None.

Definition tables_agree (calls replies : list (Z * option cls)) : bool :=
  bool_decide (map fst calls = map fst replies) &&
  forallb (fun kv => match kv.2.1, kv.2.2 with
                     | Some c, Some r =>
                         bool_decide (is_Some (procedure_of "_Call" c)) &&
                         bool_decide (procedure_of "_Call" c = procedure_of "_Reply" r)
                     | None, None => true
                     | _, _ => false
                     end)
    (zip (map fst calls) (zip (map snd calls) (map snd replies))).

(** The call and reply tables agree. For NFS, MOUNT and PORTMAP the two
    lookup tables have the same procedure numbers, and the call and reply
    classes of a procedure are those of one procedure ([X_Call] with
    [X_Reply]) or both absent; NFS procedures are exactly 0 to 21. *)
Theorem lookup_tables_agree :
  tables_agree nfs3_call_lookup nfs3_reply_lookup = true /\
  tables_agree mount3_call_lookup mount3_reply_lookup = true /\
  tables_agree portmap_call_lookup portmap_reply_lookup = true /\
  map fst nfs3_call_lookup = seqZ 0 22 /\
  forall proc, (exists c, reply_class prog_nfs proc = Ok (Some c)) <-> 0 <= proc < 22.
Proof.
  do 4 (split; [vm_compute; reflexivity|]). intros proc.
  assert (forall p, is_Some (dict_get p nfs3_reply_lookup) <-> 0 <= p < 22) as Hdom.
  { intros p. rewrite <-dict_keys_get.
    change (dict_keys nfs3_reply_lookup) with (map fst nfs3_reply_lookup).
    replace (map fst nfs3_reply_lookup) with (seqZ 0 22) by (vm_compute; reflexivity).
    apply elem_of_seqZ. }
  assert (forallb (fun kv => match kv.2 with Some _ => true | None => false end)
    nfs3_reply_lookup = true) as Hall by (vm_compute; reflexivity).
  rewrite forallb_forall in Hall.
  change (reply_class prog_nfs proc) with (opt_res KeyError (dict_get proc nfs3_reply_lookup)).
  rewrite <-Hdom. split.
  - intros [c Hc]. destruct (dict_get proc nfs3_reply_lookup); [done|discriminate].
  - intros [o Ho]. rewrite Ho. simpl.
    apply dict_get_elem, list_elem_of_In, Hall in Ho. destruct o as [c|]; [eauto|done].
Qed.

(** * Witnesses *)

(** A GETATTR transaction with XID 7 around a GETATTR call with XID 8. *)
Definition ex_call (proc : Z) : env := [("prog", VInt prog_nfs); ("proc", VInt proc)].
Definition ex_accept (z : Z) : env := [("accept_state", VPkt cRPC_status [("v", VInt z)])].
Definition ex_call_event (xid proc : Z) : event :=
  ECall None [(cRPC_Header, header_env xid 0); (cRPC_Call, ex_call proc)].
Definition ex_body (g : guess) : chain :=
  match g with
  | GuessClass cNFS3_GETATTR_Reply => [(cNFS3_GETATTR_Reply, []); (cNFS3_GETATTR_ReplyOk, [])]
  | _ => []
  end.

Lemma ex_body_follows : follows_guess ex_body.
Proof. intros [c| | |] c' e below; try done. by destruct c; intros [= <- _ _]. Qed.

Lemma ex_call_event_ok xid proc : well_formed (ex_call_event xid proc).
Proof. unfold well_formed, ex_call_event. eauto. Qed.

Lemma record_marker_refines_rfc_witness :
  let pay := [Byte.x80; Byte.x00; Byte.x01; Byte.x00; Byte.x05] in
  RPC_RecordMarker_pre_dissect pay = Ok pay /\ rfc_len 2147483904 = 256.
Proof.
  intros pay. split; [|reflexivity].
  apply (record_marker_refines_rfc pay [Byte.x80; Byte.x00; Byte.x01; Byte.x00] [Byte.x05]).
  - reflexivity.
  - vm_compute. discriminate.
Defined.


Lemma unmatched_reply_has_no_call_witness :
  xid_call_map (exec rpc_init (EReply None (header_env 7 1) (ex_accept 0) ex_body)) = [] /\
  forall p s', process_reply None (header_env 7 1) (ex_accept 0) ex_body rpc_init = (Ok p, s') ->
    rpc_call p = None.
Proof.
  apply (unmatched_reply_has_no_call rpc_init None 7 (ex_accept 0) ex_body 0 []); reflexivity.
Defined.

Lemma reply_class_has_call_witness :
  tables_ok (fold_left exec
    [ex_call_event 7 1; ex_call_event 8 3;
     EReply None (header_env 7 1) (ex_accept 0) ex_body] rpc_init).
Proof.
  apply reply_class_has_call. repeat apply Forall_cons_2; [apply ex_call_event_ok..| |constructor].
  split; [by exists 7|]. by exists 0, [].
Defined.
