(* ===== verification/NfsState.v ===== *)
(** The state monitor of [targets/nfs-sensor-target/sensor/nfs_state_monitor.py]:
    the maps from file handles to path names and back, the active mounts, and
    the update of all of them by one captured reply.  The Python values of the
    packets are the [value]s of [Layers.v]; attribute access, truth, hashing
    and [str] of a value raise where Python raises. *)

From S2P Require Import Prelude NfsConst Layers Scapy Rpc.

(** * Python objects *)

Definition value_eq_dec : forall x y : value, {x = y} + {x <> y}.
Proof.
  refine (fix go (x y : value) {struct x} : {x = y} + {x <> y} := _).
  pose (go' := go : EqDecision value).
  destruct x as [|a|a|a|a|c a], y as [|b|b|b|b|d b]; try (right; congruence).
  - by left.
  - destruct (decide (a = b)); [left|right]; congruence.
  - destruct (decide (a = b)); [left|right]; congruence.
  - destruct (decide (a = b)); [left|right]; congruence.
  - destruct (@list_eq_dec value go' a b); [left|right]; congruence.
  - destruct (decide (c = d)); [|right; congruence].
    destruct (@list_eq_dec (string * value) (@prod_eq_dec string _ value go') a b); [left|right]; congruence.
Defined.
#[global] Instance value_eq_decision : EqDecision value := value_eq_dec.

(** [bool(v)]: packets are always true. *)
Definition truth (v : value) : bool :=
  match v with
  | VNone => false
  | VInt z => truthy z
  | VStr s => negb (bool_decide (s = ""))
  | VBytes b => negb (bool_decide (b = []))
  | VList l => negb (Nat.eqb (length l) 0)
  | VPkt _ _ => true
  end.

(** A dictionary key: of the packet classes only those with a [__hash__]. *)
Definition key_of (v : value) : res value :=
  match v with
  | VList _ => Raise TypeError
  | VPkt cNFS3_fname _ | VPkt cNFS3_path _ | VPkt cNFS3_fhandle _ => Ok v
  | VPkt _ _ => Raise TypeError
  | _ => Ok v
  end.

(** [_bin2str(b)] *)
Definition bin2str (v : value) : res string :=
  match v with
  | VBytes b => Ok (str_of (map Ascii.ascii_of_byte b))
  | VStr "" => Ok ""
  | _ => Raise TypeError
  end.

(** [_bin2hex(b)] *)
Definition bin2hex (v : value) : res string :=
  match v with
  | VBytes b => Ok (fold_right (fun x s => hex2 x +:+ s) "" b)
  | VStr "" => Ok ""
  | _ => Raise TypeError
  end.

(** [v == n] for an integer constant. *)
Definition eq_int (v : value) (n : Z) : bool :=
  match v with VInt z => z =? n | _ => false end.

Section Str.
(** [str] of the objects whose [__str__] is not in the repository: scapy's
    own [Packet.__str__], and [bytes] and [list]. *)
Context (other_str : value -> string).

(** [str] of plain values and of the packets that hold one number. *)
Definition atom_str (v : value) : string :=
  match v with
  | VNone => "None"
  | VInt z => str_int z
  | VStr s => s
  | _ => other_str v
  end.

Definition leaf_str (v : value) : res string :=
  match v with
  | VPkt cNFS3_uid _ | VPkt cNFS3_gid _ | VPkt cNFS3_size _ | VPkt cNFS3_offset _
  | VPkt cNFS3_mode _ | VPkt cNFS3_count _ =>
      let? x := vattr v "v" in Ok (atom_str x)
  | _ => Ok (atom_str v)
  end.

(** [NFS3_sattr.__str__] *)
Definition sattr_item (self : value) (flag name label : string) : res string :=
  let? b := vattr self flag in
  if truth b then
    let? x := vattr self name in
    let? s := leaf_str x in
    Ok (label +:+ ": " +:+ s +:+ " ")
  else Ok "".

Definition sattr_str (self : value) : res string :=
  let? m := vattr self "set_mode" in
  let? mode :=
    if truth m then
      let? md := vattr self "mode" in
      let? x := vattr md "v" in
      match x with
      | VInt z => Ok ("mode: " +:+ str_hex z +:+ " ")
      | _ => Raise ValueError
      end
    else Ok "" in
  let? uid := sattr_item self "set_uid" "uid" "uid" in
  let? gid := sattr_item self "set_gid" "gid" "gid" in
  let? size := sattr_item self "set_size" "size" "size" in
  let? atime := sattr_item self "set_atime" "atime" "atime" in
  let? mtime := sattr_item self "set_mtime" "mtime" "mtime" in
  Ok (mode +:+ uid +:+ gid +:+ size +:+ atime +:+ mtime).

(** [RPC_AuthSys.__str__] *)
Definition gids_str (v : value) : string :=
  match v with
  | VList l => "[" +:+ str_join ", " (map atom_str l) +:+ "]"
  | _ => atom_str v
  end.

Definition auth_sys_str (self : value) : res string :=
  let? name := vattr self "machine_name" in
  let? host := bin2str name in
  let? u := vattr self "uid" in
  let? uid := leaf_str u in
  let? g := vattr self "gid" in
  let? gid := leaf_str g in
  let? gids := vattr self "aux_gids" in
  Ok ("AUTH_UNIX: host " +:+ host +:+ " / uid " +:+ uid +:+ " / gid " +:+ gid +:+
      " / aux_gids " +:+ gids_str gids).

(** [d[self.v]] of the status classes. *)
Definition status_str (d : list (Z * string)) (self : value) : res string :=
  let? x := vattr self "v" in
  match x with
  | VInt z => opt_res KeyError (dict_get z d)
  | _ => Raise KeyError
  end.

(** [str(v)] *)
Definition py_str (v : value) : res string :=
  match v with
  | VPkt cNFS3_fname _ | VPkt cNFS3_path _ => let? b := vattr v "v" in bin2str b
  | VPkt cNFS3_fhandle _ => let? b := vattr v "v" in bin2hex b
  | VPkt cNFS3_status _ => status_str Nfs3_ValStatMap v
  | VPkt cRPC_status _ => status_str ValAcceptStatMap v
  | VPkt cNFS3_sattr _ => sattr_str v
  | VPkt cRPC_AuthSys _ => auth_sys_str v
  | _ => leaf_str v
  end.

(** [os.path.join(a, v)]: the second part must be a string. *)
Definition join_value (a : string) (v : value) : res string :=
  match v with
  | VStr s => Ok (path_join a s)
  | _ => Raise TypeError
  end.

(** [rpc_call.args.handle] and the like. *)
Definition attr2 (p : chain) (n m : string) : res value :=
  let? v := attr p n in vattr v m.

Definition get_auth_str (rpc_call : chain) : res string :=
  let? f := attr rpc_call "cred_flav" in
  if eq_int f (sub_const AuthValMap "AUTH_UNIX") then
    let? a := attr rpc_call "auth_sys" in py_str a
  else if eq_int f (sub_const AuthValMap "AUTH_NULL") then Ok "AUTH_NULL"
  else Ok "AUTH_UNKNOWN".
End Str.

(** * The monitor's state *)

Record mon_state := MonState {
  pkt_ct : Z;
  handle_name_map : list (value * value);
  name_handle_map : list (value * value);
  active_mount_map : list (value * value);
}.

Definition mon_init : mon_state := MonState 1 [] [] [].

Definition set_handles f (s : mon_state) : mon_state :=
  MonState (pkt_ct s) (f (handle_name_map s)) (name_handle_map s) (active_mount_map s).
Definition set_names f (s : mon_state) : mon_state :=
  MonState (pkt_ct s) (handle_name_map s) (f (name_handle_map s)) (active_mount_map s).
Definition set_mounts f (s : mon_state) : mon_state :=
  MonState (pkt_ct s) (handle_name_map s) (name_handle_map s) (f (active_mount_map s)).
Definition set_ct f (s : mon_state) : mon_state :=
  MonState (f (pkt_ct s)) (handle_name_map s) (name_handle_map s) (active_mount_map s).

(** [d[v]] *)
Definition subscript (f : mon_state -> list (value * value)) (v : value) : M mon_state value :=
  do k <- lift (key_of v);
  do d <- gets f;
  lift (opt_res KeyError (dict_get k d)).

Section Monitor.
Context (other_str : value -> string).

Definition _create_handle_mapping (path handle : value) (rpc_call : chain) : M mon_state unit :=
  do h <- lift (key_of handle);
  do_ modify (set_handles (dict_set h path));
  do p <- lift (key_of path);
  do_ modify (set_names (dict_set p handle));
  (* the arguments of the debug message *)
  do _ <- lift (get_auth_str other_str rpc_call);
  do _ <- lift (py_str other_str handle);
  do _ <- lift (py_str other_str path);
  ret tt.

Definition _destroy_handle_mapping (path handle : value) : M mon_state unit :=
  if (truth path && truth handle) || (negb (truth path) && negb (truth handle))
  then throw RuntimeError
  else
    do path <- (if truth path then ret path else subscript handle_name_map handle);
    do handle <- (if truth handle then ret handle else subscript name_handle_map path);
    do _ <- lift (py_str other_str handle);
    do _ <- lift (py_str other_str path);
    do h <- lift (key_of handle);
    do_ modify (set_handles (dict_del h));
    do p <- lift (key_of path);
    modify (set_names (dict_del p)).

Definition _create_mount_mapping (path handle : value) (rpc_call : chain) : M mon_state unit :=
  do p <- lift (key_of path);
  do_ modify (set_mounts (dict_set p handle));
  _create_handle_mapping path handle rpc_call.

(** [str(p).startswith(str(path))] *)
Definition has_prefix (path p : value) : res bool :=
  let? a := py_str other_str p in
  let? b := py_str other_str path in
  Ok (startswith a b).

Fixpoint filter_res {A} (f : A -> res bool) (l : list A) : res (list A) :=
  match l with
  | [] => Ok []
  | a :: l =>
      let? b := f a in
      let? r := filter_res f l in
      Ok (if b then a :: r else r)
  end.

Definition _destroy_mount_mapping (path : value) : M mon_state unit :=
  do names <- gets name_handle_map;
  do ks <- lift (filter_res (has_prefix path) (dict_keys names));
  do_ for_each (fun k => _destroy_handle_mapping k VNone) ks;
  do p <- lift (key_of path);
  modify (set_mounts (dict_del p)).

Definition get_path (handle : value) : M mon_state string :=
  do h <- lift (key_of handle);
  do d <- gets handle_name_map;
  lift (py_str other_str (default (VStr "{unknown}") (dict_get h d))).

(** [get_handle] reads the unbound name [handle]. *)
Definition get_handle (name : value) : M mon_state string := throw NameError.

Definition is_reply_parsable (rpc_reply rpc_call : chain) : res bool :=
  let? prog := attr rpc_call "prog" in
  if eq_int prog prog_mountd then
    let? v := attr2 rpc_reply "accept_state" "v" in
    if negb (eq_int v RPC_ACCEPT_SUCCESS) then Ok false
    else
      let? proc := attr rpc_call "proc" in
      if eq_int proc (sub_const Mount3_ProcedureValMap "MOUNTPROC3_UMNT")
         || eq_int proc (sub_const Mount3_ProcedureValMap "MOUNTPROC3_UMNTALL")
      then Ok true
      else if eq_int proc (sub_const Mount3_ProcedureValMap "MOUNTPROC3_MNT")
      then let? st := attr rpc_reply "status" in Ok (eq_int st MOUNT3_OK)
      else Ok false
  else if eq_int prog prog_nfs then
    (* try: ... except AttributeError: return False *)
    match (let? st := attr rpc_reply "nfs_status" in success st) with
    | Ok b => Ok b
    | Raise AttributeError => Ok false
    | Raise e => Raise e
    end
  else Ok false.

(** ** [update_state] *)

(** [os.path.join(get_path(dir), str(name))] for the directory and name
    fields of the call. *)
Definition joined (call : chain) (args : string) : M mon_state string :=
  do h <- lift (attr2 call args "handle");
  do dir <- get_path h;
  do f <- lift (attr2 call args "fname");
  do name <- lift (py_str other_str f);
  ret (path_join dir name).

(** The same with a field passed to [join] as it is. *)
Definition joined_raw (call : chain) (args field : string) : M mon_state string :=
  do h <- lift (attr2 call args "handle");
  do dir <- get_path h;
  do v <- lift (attr2 call args field);
  lift (join_value dir v).

Definition on_lookup (call reply : chain) : M mon_state unit :=
  do new <- joined call "args";
  do h <- lift (attr reply "handle");
  _create_handle_mapping (VStr new) h call.

(** CREATE and MKDIR with [args], SYMLINK with [where]: a mapping when the
    reply carries a handle. *)
Definition on_create (args : string) (call reply : chain) : M mon_state unit :=
  do follows <- lift (attr2 reply "handle" "handle_follows");
  if truth follows then
    do new <- joined call args;
    do h <- lift (attr2 reply "handle" "handle");
    _create_handle_mapping (VStr new) h call
  else ret tt.

(** [_destroy_handle_mapping(name=...)]: there is no such parameter. *)
Definition destroy_by_name (name : value) : M mon_state unit := throw TypeError.

Definition on_rmdir (call reply : chain) : M mon_state unit :=
  do p <- joined_raw call "args" "name";
  destroy_by_name (VStr p).

Definition on_rename (call reply : chain) : M mon_state unit :=
  do from_name <- joined call "ffrom";
  do to_name <- joined call "fto";
  do_ destroy_by_name (VStr from_name);
  do h <- get_handle (VStr from_name);
  _create_handle_mapping (VStr to_name) (VStr h) call.

Definition on_link (call reply : chain) : M mon_state unit :=
  do follows <- lift (attr2 reply "file" "handle_follows");
  if truth follows then
    do p <- joined_raw call "link" "fname";
    do h <- lift (attr2 reply "file" "handle");
    _create_handle_mapping (VStr p) h call
  else ret tt.

Definition on_remove (call reply : chain) : M mon_state unit :=
  do p <- joined_raw call "args" "name";
  _destroy_handle_mapping (VStr p) VNone.

Definition update_mount (proc : value) (call reply : chain) : M mon_state unit :=
  if eq_int proc (sub_const Mount3_ProcedureValMap "MOUNTPROC3_MNT") then
    do p <- lift (attr call "path");
    do h <- lift (attr reply "handle");
    _create_mount_mapping p h call
  else if eq_int proc (sub_const Mount3_ProcedureValMap "MOUNTPROC3_UMNT") then
    do p <- lift (attr call "path");
    _destroy_mount_mapping p
  else if eq_int proc (sub_const Mount3_ProcedureValMap "MOUNTPROC3_UMNTALL") then
    do mounts <- gets active_mount_map;
    for_each _destroy_mount_mapping (dict_keys mounts)
  else ret tt.

Definition update_nfs (proc : value) (call reply : chain) : M mon_state unit :=
  let at_proc n := eq_int proc (sub_const Nfs3_ProcedureValMap n) in
  if at_proc "NFSPROC3_LOOKUP" then on_lookup call reply
  else if at_proc "NFSPROC3_CREATE" then on_create "args" call reply
  else if at_proc "NFSPROC3_MKDIR" then on_create "args" call reply
  else if at_proc "NFSPROC3_SYMLINK" then on_create "where" call reply
  else if at_proc "NFSPROC3_RMDIR" then on_rmdir call reply
  else if at_proc "NFSPROC3_RENAME" then on_rename call reply
  else if at_proc "NFSPROC3_LINK" then on_link call reply
  else if at_proc "NFSPROC3_REMOVE" then on_remove call reply
  else ret tt.

(** [update_state(pkt)], [pkt] being its RPC layer if it has one. *)
Definition update_state (pkt : option rpc_pkt) : M mon_state unit :=
  do_ modify (set_ct (Z.add 1));
  match pkt with
  | None => ret tt
  | Some rpc_reply =>
      match rpc_call rpc_reply with
      | None => ret tt
      | Some call =>
          let reply := rp_chain rpc_reply in
          do parsable <- lift (is_reply_parsable reply call);
          if negb parsable then ret tt
          else
            do prog <- lift (attr call "prog");
            do proc <- lift (attr call "proc");
            if eq_int prog prog_mountd then update_mount proc call reply
            else if eq_int prog prog_nfs then update_nfs proc call reply
            else ret tt
      end
  end.
End Monitor.

(** * Lemmas *)

Lemma key_of_Ok v k : key_of v = Ok k -> k = v.
Proof. destruct v as [| | | | |c fs]; simpl; try congruence. destruct c; congruence. Qed.

(** The state [_create_handle_mapping] leaves, even when its debug message
    cannot be formatted. *)
Definition mapped (path handle : value) (s : mon_state) : mon_state :=
  set_names (dict_set path handle) (set_handles (dict_set handle path) s).

(** The state after one name and its handle are gone. *)
Definition forgotten (s : mon_state) (path : value) : mon_state :=
  match dict_get path (name_handle_map s) with
  | Some h => set_names (dict_del path) (set_handles (dict_del h) s)
  | None => s
  end.

(** The two maps are inverse to each other. *)
Definition consistent (s : mon_state) : Prop :=
  forall h p, dict_get h (handle_name_map s) = Some p <-> dict_get p (name_handle_map s) = Some h.

Lemma consistent_init : consistent mon_init.
Proof. done. Qed.

Lemma consistent_forgotten s p : consistent s -> consistent (forgotten s p).
Proof.
  intros Hs. unfold forgotten. destruct (dict_get p (name_handle_map s)) as [h|] eqn:E; [|done].
  intros h' p'. cbn. rewrite !dict_get_del. pose proof (proj2 (Hs h p) E) as E'.
  repeat case_decide; simplify_eq/=.
  - done.
  - split; [done|]. intros H'. apply Hs in H'. congruence.
  - split; [|done]. intros H'. apply Hs in H'. congruence.
  - apply Hs.
Qed.

(** A mapping neither side of which was taken by something else. *)
Definition fresh_mapping (path handle : value) (s : mon_state) : Prop :=
  (forall h, dict_get path (name_handle_map s) = Some h -> h = handle) /\
  (forall p, dict_get handle (handle_name_map s) = Some p -> p = path).

Lemma consistent_mapped s path handle :
  consistent s -> fresh_mapping path handle s -> consistent (mapped path handle s).
Proof.
  intros Hs [Hp Hh] h p. cbn. rewrite !dict_get_set. repeat case_decide; simplify_eq/=.
  - done.
  - split; [congruence|]. intros H'. apply Hs, Hh in H'. congruence.
  - split; [|congruence]. intros H'. apply Hs, Hp in H'. congruence.
  - apply Hs.
Qed.

Lemma names_forgotten s p q :
  dict_get q (name_handle_map (forgotten s p)) =
    if decide (q = p) then None else dict_get q (name_handle_map s).
Proof.
  unfold forgotten. destruct (dict_get p (name_handle_map s)) eqn:E; cbn.
  - apply dict_get_del.
  - case_decide; congruence.
Qed.

Lemma forgotten_other s p :
  pkt_ct (forgotten s p) = pkt_ct s /\ active_mount_map (forgotten s p) = active_mount_map s.
Proof. unfold forgotten. by case_match. Qed.

Lemma names_forgotten_all ks s q :
  dict_get q (name_handle_map (fold_left forgotten ks s)) =
    if decide (q ∈ ks) then None else dict_get q (name_handle_map s).
Proof.
  revert s. induction ks as [|k ks IH]; intros s; [done|]. cbn [fold_left].
  rewrite IH, names_forgotten. repeat case_decide; set_solver.
Qed.

Lemma fold_forgotten_other ks s :
  pkt_ct (fold_left forgotten ks s) = pkt_ct s /\
  active_mount_map (fold_left forgotten ks s) = active_mount_map s.
Proof.
  revert s. induction ks as [|k ks IH]; intros s; [done|]. cbn [fold_left].
  destruct (IH (forgotten s k)) as [-> ->]. apply forgotten_other.
Qed.

Section MonitorLemmas.
Context (other_str : value -> string).

(** A value that can be a key, is true and prints. *)
Definition good (v : value) : Prop :=
  key_of v = Ok v /\ truth v = true /\ exists s, py_str other_str v = Ok s.

Lemma create_state path handle call s :
  key_of path = Ok path -> key_of handle = Ok handle ->
  (_create_handle_mapping other_str path handle call s).2 = mapped path handle s.
Proof.
  intros Hp Hh. unfold _create_handle_mapping, bind, lift, modify. rewrite Hh, Hp.
  destruct (get_auth_str other_str call); [|done].
  destruct (py_str other_str handle); [|done].
  by destruct (py_str other_str path).
Qed.

Lemma destroy_path s path handle :
  good path -> good handle -> dict_get path (name_handle_map s) = Some handle ->
  _destroy_handle_mapping other_str path VNone s = (Ok tt, forgotten s path).
Proof.
  intros (Hpk & Hpt & [ps Hps]) (Hhk & Hht & [hs Hhs]) Hget.
  unfold _destroy_handle_mapping, forgotten. rewrite Hpt, Hget.
  cbn [truth andb orb negb]. unfold bind, ret, subscript, bind, lift, gets, modify.
  rewrite Hpk, Hget. cbn [opt_res]. by rewrite Hhs, Hps, Hhk.
Qed.

(** ** Unmounting *)

(** Every name and handle of the state is a proper key. *)
Definition names_ok (s : mon_state) : Prop :=
  Forall (fun kv => good kv.1 /\ good kv.2) (name_handle_map s) /\
  NoDup (dict_keys (name_handle_map s)).

(** The string a name prints as. *)
Definition name_str (v : value) : string :=
  match py_str other_str v with Ok s => s | Raise _ => "" end.

Definition under (path p : value) : bool := startswith (name_str p) (name_str path).

Lemma has_prefix_good path p :
  good path -> good p -> has_prefix other_str path p = Ok (under path p).
Proof.
  intros (_ & _ & [a Ha]) (_ & _ & [b Hb]). unfold has_prefix, under, name_str.
  by rewrite Ha, Hb.
Qed.

Lemma filter_res_filter {A} (f : A -> res bool) (g : A -> bool) l :
  Forall (fun a => f a = Ok (g a)) l -> filter_res f l = Ok (List.filter g l).
Proof.
  induction 1 as [|a l Ha _ IH]; simpl; [done|]. rewrite Ha, IH. cbn. by destruct (g a).
Qed.

(** The loop over the names of a mount. *)
Lemma destroy_all ks s :
  NoDup ks ->
  (forall k, k ∈ ks -> good k /\ exists h, good h /\ dict_get k (name_handle_map s) = Some h) ->
  for_each (fun k => _destroy_handle_mapping other_str k VNone) ks s =
    (Ok tt, fold_left forgotten ks s).
Proof.
  intros Hnd. revert s. induction Hnd as [|k ks Hk _ IH]; intros s Hks; [done|].
  destruct (Hks k) as (Hgk & h & Hgh & Hget); [left|].
  cbn [for_each fold_left].
  rewrite (bind_step _ _ _ _ _ (destroy_path s k h Hgk Hgh Hget)). apply IH.
  intros k' Hk'. destruct (Hks k') as (Hgk' & h' & Hgh' & Hget'); [by right|].
  split; [done|]. exists h'. split; [done|].
  rewrite names_forgotten, decide_False; [done|]. by intros ->.
Qed.

(** The names a mount's path is a prefix of, in the map's order. *)
Definition names_under (path : value) (s : mon_state) : list value :=
  List.filter (under path) (dict_keys (name_handle_map s)).

Lemma destroy_mount_run path s :
  good path -> names_ok s ->
  _destroy_mount_mapping other_str path s =
    (Ok tt, set_mounts (dict_del path) (fold_left forgotten (names_under path s) s)).
Proof.
  intros Hpath [Hgood Hnd]. unfold _destroy_mount_mapping.
  assert (forall k, k ∈ dict_keys (name_handle_map s) ->
    good k /\ exists h, good h /\ dict_get k (name_handle_map s) = Some h) as Hkeys.
  { intros k [h Hh]%dict_keys_get. rewrite Forall_forall in Hgood.
    destruct (Hgood _ (dict_get_elem _ _ _ Hh)). eauto. }
  assert (filter_res (has_prefix other_str path) (dict_keys (name_handle_map s)) =
    Ok (names_under path s)) as Hf.
  { apply filter_res_filter, Forall_forall. intros k Hk.
    apply has_prefix_good; [done|]. by apply Hkeys. }
  assert (for_each (fun k => _destroy_handle_mapping other_str k VNone) (names_under path s) s =
    (Ok tt, fold_left forgotten (names_under path s) s)) as Hrun.
  { apply destroy_all.
    - apply NoDup_ListNoDup, List.NoDup_filter, NoDup_ListNoDup. done.
    - intros k Hk. apply Hkeys. apply list_elem_of_In, filter_In in Hk as [Hk _].
      by apply list_elem_of_In. }
  destruct Hpath as (Hpk & _).
  unfold bind, gets, lift. rewrite Hf, Hrun, Hpk. done.
Qed.
End MonitorLemmas.

(** ** Theorems *)

Section MonitorTheorems.
Context (other_str : value -> string).

(** A successful reply to an NFS call. *)
Definition nfs_reply (reply call : chain) (proc : string) : Prop :=
  attr call "prog" = Ok (VInt prog_nfs) /\
  attr call "proc" = Ok (VInt (sub_const Nfs3_ProcedureValMap proc)) /\
  exists st, attr reply "nfs_status" = Ok st /\ success st = Ok true.

Lemma update_nfs_reply reply call proc s :
  nfs_reply reply call proc ->
  update_state other_str (Some (RpcPkt reply (Some call))) s =
    update_nfs other_str (VInt (sub_const Nfs3_ProcedureValMap proc)) call reply
      (set_ct (Z.add 1) s).
Proof.
  intros (Hprog & Hproc & st & Hst & Hok). unfold update_state.
  cbn [rpc_call rp_chain].
  assert (is_reply_parsable reply call = Ok true) as Hp.
  { unfold is_reply_parsable. rewrite Hprog. cbn [res_bind].
    change (eq_int (VInt prog_nfs) prog_mountd) with false.
    change (eq_int (VInt prog_nfs) prog_nfs) with true. cbv iota.
    rewrite Hst. cbn [res_bind]. by rewrite Hok. }
  do 2 mstep. cbn [negb]. by do 2 mstep.
Qed.

Lemma get_path_value h s : key_of h = Ok h ->
  get_path other_str h s =
    (py_str other_str (default (VStr "{unknown}") (dict_get h (handle_name_map s))), s).
Proof. intros Hk. unfold get_path, bind, lift, gets. by rewrite Hk. Qed.

(** Counting packets does not change what a handle resolves to. *)
Lemma get_path_ct h f s d :
  get_path other_str h s = (Ok d, s) -> get_path other_str h (set_ct f s) = (Ok d, set_ct f s).
Proof. unfold get_path, bind, lift, gets. destruct (key_of h); [|discriminate].
  cbn. congruence. Qed.

(** The state after a successful LOOKUP reply. *)
Lemma lookup_state reply call h dh dir nm fname s :
  nfs_reply reply call "NFSPROC3_LOOKUP" ->
  attr2 call "args" "handle" = Ok dh -> key_of dh = Ok dh ->
  get_path other_str dh s = (Ok dir, s) ->
  attr2 call "args" "fname" = Ok nm -> py_str other_str nm = Ok fname ->
  attr reply "handle" = Ok h -> key_of h = Ok h ->
  (update_state other_str (Some (RpcPkt reply (Some call))) s).2 =
    mapped (VStr (path_join dir fname)) h (set_ct (Z.add 1) s).
Proof.
  intros Hr Hdh Hdk Hdir Hnm Hstr Hh Hhk. rewrite (update_nfs_reply _ _ _ _ Hr).
  change (update_nfs _ _ call reply) with (on_lookup other_str call reply).
  set (s0 := set_ct (Z.add 1) s).
  assert (get_path other_str dh s0 = (Ok dir, s0)) as Hdir0.
  { by apply get_path_ct. }
  assert (joined other_str call "args" s0 = (Ok (path_join dir fname), s0)) as Hj.
  { unfold joined. by do 4 mstep. }
  unfold on_lookup. do 2 mstep. by apply create_state.
Qed.

(** C5: path resolution. After a successful LOOKUP the handle in the reply
    resolves to the directory's path joined with the looked-up name, that
    path maps back to the handle, and every other handle resolves as
    before. *)
Theorem lookup_resolves reply call h dh dir nm fname s :
  nfs_reply reply call "NFSPROC3_LOOKUP" ->
  attr2 call "args" "handle" = Ok dh -> key_of dh = Ok dh ->
  get_path other_str dh s = (Ok dir, s) ->
  attr2 call "args" "fname" = Ok nm -> py_str other_str nm = Ok fname ->
  attr reply "handle" = Ok h -> key_of h = Ok h ->
  let s' := (update_state other_str (Some (RpcPkt reply (Some call))) s).2 in
  get_path other_str h s' = (Ok (path_join dir fname), s') /\
  dict_get (VStr (path_join dir fname)) (name_handle_map s') = Some h /\
  (forall h', h' <> h -> (get_path other_str h' s').1 = (get_path other_str h' s).1).
Proof.
  intros Hr Hdh Hdk Hdir Hnm Hstr Hh Hhk s'.
  assert (s' = mapped (VStr (path_join dir fname)) h (set_ct (Z.add 1) s)) as ->
    by (by eapply lookup_state).
  unfold get_path, bind, lift, gets, mapped. split_and!.
  - rewrite Hhk. cbn. by rewrite dict_get_set_eq.
  - cbn. by rewrite dict_get_set_eq.
  - intros h' Hne. destruct (key_of h') as [k|] eqn:E; [|done].
    apply key_of_Ok in E. subst k. cbn. by rewrite dict_get_set_ne.
Qed.

(** C11: unmounting. UMNT of a mounted path forgets exactly the names whose
    string starts with the path's string and the mount itself; every other
    name keeps its handle, and nothing raises. *)
Theorem unmount_forgets_prefix path s :
  good other_str path -> names_ok other_str s ->
  exists s', _destroy_mount_mapping other_str path s = (Ok tt, s') /\
    (forall p, dict_get p (name_handle_map s') =
       if under other_str path p then None else dict_get p (name_handle_map s)) /\
    (forall p, dict_get p (active_mount_map s') =
       if decide (p = path) then None else dict_get p (active_mount_map s)).
Proof.
  intros Hpath Hs. eexists. split; [by apply destroy_mount_run|]. split.
  - intros p. cbn. rewrite names_forgotten_all. unfold names_under.
    case_decide as Hin; rewrite list_elem_of_In, filter_In, <-list_elem_of_In in Hin.
    + destruct Hin as [_ ->]. done.
    + destruct (under other_str path p); [|done].
      destruct (dict_get p (name_handle_map s)) eqn:E; [|done].
      destruct Hin. split; [|done]. apply dict_keys_get. eauto.
  - intros p. cbn. rewrite dict_get_del.
    by destruct (fold_forgotten_other (names_under other_str path s) s) as [_ ->].
Qed.

(** A history of the monitor in which no handle or name is ever mapped to
    two things at a time. *)
Inductive history : mon_state -> Prop :=
  | history_init : history mon_init
  | history_map s path handle call :
      history s -> key_of path = Ok path -> key_of handle = Ok handle ->
      fresh_mapping path handle s ->
      history (_create_handle_mapping other_str path handle call s).2
  | history_destroy s path handle :
      history s -> good other_str path -> good other_str handle ->
      dict_get path (name_handle_map s) = Some handle ->
      history (_destroy_handle_mapping other_str path VNone s).2
  | history_unmount s path :
      history s -> good other_str path -> names_ok other_str s ->
      history (_destroy_mount_mapping other_str path s).2.

(** C12: the two maps stay inverse to each other. Along any history of
    mappings of fresh names and handles, removals and unmounts, a handle
    resolves to a path exactly when the path maps to that handle. *)
Theorem maps_stay_inverse s : history s -> consistent s.
Proof.
  induction 1 as [|s path handle call _ IH Hp Hh Hf|s path handle _ IH Hp Hh Hg|s path _ IH Hp Hs].
  - apply consistent_init.
  - rewrite create_state by done. by apply consistent_mapped.
  - rewrite (destroy_path _ _ _ handle) by done. by apply consistent_forgotten.
  - rewrite destroy_mount_run by done.
    assert (forall ks s, consistent s -> consistent (fold_left forgotten ks s)) as Hfold.
    { induction ks as [|k ks IHks]; intros s' Hs'; [done|]. simpl.
      by apply IHks, consistent_forgotten. }
    exact (Hfold _ _ IH).
Qed.

(** Without that freshness the inverse is lost. Looking up a second
    name of a file (a hard link) leaves the first name mapped to a handle
    that resolves to the second, and removing the first name then makes the
    handle unknown although the second name still maps to it. *)
Theorem hard_link_breaks_inverse p1 p2 h call s :
  good other_str p1 -> good other_str p2 -> good other_str h -> p1 <> p2 ->
  let s1 := (_create_handle_mapping other_str p1 h call s).2 in
  let s2 := (_create_handle_mapping other_str p2 h call s1).2 in
  let s3 := (_destroy_handle_mapping other_str p1 VNone s2).2 in
  (dict_get p1 (name_handle_map s2) = Some h /\ dict_get h (handle_name_map s2) = Some p2) /\
  (dict_get p2 (name_handle_map s3) = Some h /\ dict_get h (handle_name_map s3) = None).
Proof.
  intros H1 H2 Hh Hne s1 s2 s3.
  assert (s2 = mapped p2 h (mapped p1 h s)) as E2.
  { unfold s2, s1. destruct H1 as (? & _), H2 as (? & _), Hh as (? & _).
    by rewrite !create_state. }
  assert (dict_get p1 (name_handle_map s2) = Some h) as Hg.
  { rewrite E2. cbn. rewrite dict_get_set_ne by done. by rewrite dict_get_set_eq. }
  split.
  - split; [done|]. rewrite E2. cbn. by rewrite dict_get_set_eq.
  - unfold s3. rewrite (destroy_path _ _ _ h) by done. unfold forgotten. rewrite Hg. cbn.
    rewrite dict_get_del_eq, dict_get_del_ne by done. split; [|done].
    rewrite E2. cbn. by rewrite dict_get_set_eq.
Qed.

(** The reply classes whose status is not a [NFS3_status] packet, and the
    one that has no status field. *)
Definition status_not_packet (reply : chain) : Prop :=
  (exists z, attr reply "nfs_status" = Ok (VInt z)) \/
  attr reply "nfs_status" = Raise AttributeError.

Lemma unparsable_state reply call s :
  attr call "prog" = Ok (VInt prog_nfs) ->
  status_not_packet reply \/
    (exists st, attr reply "nfs_status" = Ok st /\ success st = Ok false) ->
  update_state other_str (Some (RpcPkt reply (Some call))) s =
    (Ok tt, set_ct (Z.add 1) s).
Proof.
  intros Hprog Hst. unfold update_state. cbn [rpc_call rp_chain].
  assert (is_reply_parsable reply call = Ok false) as Hp.
  { unfold is_reply_parsable. rewrite Hprog. cbn [res_bind].
    change (eq_int (VInt prog_nfs) prog_mountd) with false.
    change (eq_int (VInt prog_nfs) prog_nfs) with true. cbv iota.
    destruct Hst as [[[z ->]| ->]|(st & -> & Hs)]; cbn [res_bind]; [done..|].
    by rewrite Hs. }
  do 2 mstep. done.
Qed.

(** Failed or unusable replies change nothing. When the status of an
    NFS reply is an error, is a plain integer (REMOVE, RMDIR, RENAME,
    SETATTR) or is not there (LINK), the monitor counts the packet and keeps
    its three maps, and does not raise. *)
Theorem unparsable_reply_ignored reply call s :
  attr call "prog" = Ok (VInt prog_nfs) ->
  status_not_packet reply \/
    (exists st, attr reply "nfs_status" = Ok st /\ success st = Ok false) ->
  update_state other_str (Some (RpcPkt reply (Some call))) s =
    (Ok tt, set_ct (Z.add 1) s).
Proof. apply unparsable_state. Qed.

(** The status field of the classes as [nfs.py] declares them. *)
Definition reply_chain (h e : env) (c : cls) (fs : env) : chain :=
  [(cRPC_Header, h); (cRPC_Reply, e); (c, fs)].

(** Deletions are never seen. For the replies to REMOVE, RMDIR and
    RENAME, whose classes declare the status as an integer field, and to
    LINK, which declares none, [update_state] never reaches the code that
    removes or renames a mapping: the file's handle still resolves to its
    old path. *)
Theorem deletions_not_tracked call s xid e c z fs :
  attr call "prog" = Ok (VInt prog_nfs) ->
  dict_get "nfs_status" e = None ->
  (c ∈ [cNFS3_REMOVE_Reply; cNFS3_RMDIR_Reply; cNFS3_RENAME_Reply] /\
     dict_get "nfs_status" fs = Some (VInt z)) \/
  (c = cNFS3_LINK_Reply /\ dict_get "nfs_status" fs = None) ->
  let s' := (update_state other_str
               (Some (RpcPkt (reply_chain (header_env xid 1) e c fs) (Some call))) s).2 in
  s' = set_ct (Z.add 1) s /\
  forall h, (get_path other_str h s').1 = (get_path other_str h s).1.
Proof.
  intros Hprog He Hc s'.
  assert (s' = set_ct (Z.add 1) s) as ->.
  { unfold s'. rewrite unparsable_state; [done|done|]. left.
    unfold status_not_packet, attr, reply_chain.
    rewrite decide_False by discriminate.
    destruct Hc as [[Hin Hz]|[-> Hz]].
    - left. exists z. cbn [omap list_omap]. unfold layer_attr. cbn [fst snd].
      rewrite He, Hz.
      repeat (apply elem_of_cons in Hin as [->|Hin]; [reflexivity|]).
      by apply not_elem_of_nil in Hin.
    - right. cbn [omap list_omap]. unfold layer_attr. cbn [fst snd].
      rewrite He, Hz. reflexivity. }
  split; [done|]. intros h. unfold get_path, bind, lift, gets.
  by destruct (key_of h).
Qed.
End MonitorTheorems.

(** * Witnesses *)

(** The export ["/srv"] with handle [1], a file ["a.c"] in it with handle [2],
    and another name for that file. *)
Definition no_str (v : value) : string := "?".
Definition ex_handle (b : byte) : value :=
  VPkt cNFS3_fhandle [("l", VInt 1); ("v", VBytes [b])].
Definition ex_name : value :=
  VPkt cNFS3_fname [("l", VInt 3); ("v", VBytes [Byte.x61; Byte.x2e; Byte.x63])].
Definition ex_dir_op (args : string) : string * value :=
  (args, VPkt cNFS3_dir_op_args [("handle", ex_handle Byte.x01); ("fname", ex_name)]).
Definition ex_nfs_call (proc : string) (fs : env) : chain :=
  [ (cRPC_Header, header_env 7 0);
    (cRPC_Call, [ ("prog", VInt prog_nfs); ("proc", VInt (sub_const Nfs3_ProcedureValMap proc));
                  ("cred_flav", VInt 0) ] ++ fs) ].
Definition ex_status : value := VPkt cNFS3_status [("v", VInt 0)].
Definition ex_lookup_reply : chain :=
  [ (cRPC_Header, header_env 7 1); (cRPC_Reply, []);
    (cNFS3_LOOKUP_Reply, [("nfs_status", ex_status)]);
    (cNFS3_LOOKUP_ReplyOk, [("handle", ex_handle Byte.x02)]) ].
Definition ex_mon : mon_state :=
  MonState 4 [(ex_handle Byte.x01, VStr "/srv")] [(VStr "/srv", ex_handle Byte.x01)]
    [(VStr "/srv", ex_handle Byte.x01)].

Lemma good_str s : s <> "" -> good no_str (VStr s).
Proof. intros Hs. split_and!; [done| |by exists s]. simpl. by rewrite bool_decide_false. Qed.
Lemma good_handle b : good no_str (ex_handle b).
Proof. split_and!; [done..|]. eexists. reflexivity. Qed.

Lemma ex_lookup_ok :
  nfs_reply ex_lookup_reply (ex_nfs_call "NFSPROC3_LOOKUP" [ex_dir_op "args"]) "NFSPROC3_LOOKUP".
Proof. split_and!; [done..|]. by exists ex_status. Qed.

Lemma ex_mon_names_ok : names_ok no_str ex_mon.
Proof.
  split; [|by apply NoDup_singleton].
  apply Forall_singleton. split; [by apply good_str|apply good_handle].
Qed.

Lemma lookup_resolves_witness :
  let s' := (update_state no_str (Some (RpcPkt ex_lookup_reply
    (Some (ex_nfs_call "NFSPROC3_LOOKUP" [ex_dir_op "args"])))) ex_mon).2 in
  get_path no_str (ex_handle Byte.x02) s' = (Ok "/srv/a.c", s').
Proof.
  apply (lookup_resolves no_str ex_lookup_reply _ (ex_handle Byte.x02) (ex_handle Byte.x01)
    "/srv" ex_name "a.c" ex_mon ex_lookup_ok); reflexivity.
Defined.

Lemma unmount_forgets_prefix_witness :
  exists s', _destroy_mount_mapping no_str (VStr "/srv") ex_mon = (Ok tt, s') /\
    (forall p, dict_get p (name_handle_map s') =
       if under no_str (VStr "/srv") p then None else dict_get p (name_handle_map ex_mon)) /\
    (forall p, dict_get p (active_mount_map s') =
       if decide (p = VStr "/srv") then None else dict_get p (active_mount_map ex_mon)).
Proof.
  apply (unmount_forgets_prefix no_str (VStr "/srv") ex_mon);
    [by apply good_str|apply ex_mon_names_ok].
Defined.

Lemma maps_stay_inverse_witness :
  consistent (_destroy_handle_mapping no_str (VStr "/srv") VNone
    (_create_handle_mapping no_str (VStr "/srv") (ex_handle Byte.x01) [] mon_init).2).2.
Proof.
  apply (maps_stay_inverse no_str).
  apply (history_destroy no_str _ (VStr "/srv") (ex_handle Byte.x01)).
  - apply history_map; [constructor|done|done|split; done].
  - by apply good_str.
  - apply good_handle.
  - vm_compute. reflexivity.
Defined.

Lemma hard_link_breaks_inverse_witness :
  let s1 := (_create_handle_mapping no_str (VStr "/srv/a") (ex_handle Byte.x02) [] ex_mon).2 in
  let s2 := (_create_handle_mapping no_str (VStr "/srv/b") (ex_handle Byte.x02) [] s1).2 in
  let s3 := (_destroy_handle_mapping no_str (VStr "/srv/a") VNone s2).2 in
  dict_get (VStr "/srv/b") (name_handle_map s3) = Some (ex_handle Byte.x02) /\
  dict_get (ex_handle Byte.x02) (handle_name_map s3) = None.
Proof.
  apply (hard_link_breaks_inverse no_str (VStr "/srv/a") (VStr "/srv/b") (ex_handle Byte.x02)
    [] ex_mon); [by apply good_str..|apply good_handle|done].
Defined.

Lemma unparsable_reply_ignored_witness :
  update_state no_str (Some (RpcPkt
    [(cRPC_Header, header_env 7 1); (cRPC_Reply, []); (cNFS3_REMOVE_Reply, [("nfs_status", VInt 0)])]
    (Some (ex_nfs_call "NFSPROC3_REMOVE" [ex_dir_op "args"])))) ex_mon
  = (Ok tt, set_ct (Z.add 1) ex_mon).
Proof.
  apply (unparsable_reply_ignored no_str); [done|]. left. left. by exists 0.
Defined.

Lemma deletions_not_tracked_witness :
  let s' := (update_state no_str (Some (RpcPkt
    (reply_chain (header_env 7 1) [] cNFS3_RMDIR_Reply [("nfs_status", VInt 0)])
    (Some (ex_nfs_call "NFSPROC3_RMDIR" [ex_dir_op "args"])))) ex_mon).2 in
  s' = set_ct (Z.add 1) ex_mon.
Proof.
  apply (deletions_not_tracked no_str _ ex_mon 7 [] cNFS3_RMDIR_Reply 0 [("nfs_status", VInt 0)]);
    [done|done|].
  left. split; [|done]. right. left.
Defined.
