(* ===== verification/NfsHandler.v ===== *)
(** The packet handler of
    [targets/nfs-sensor-target/sensor/nfs_packet_handler.py]: one handler per
    NFS and MOUNT procedure that turns a (call, reply) pair into a log level
    and an action dictionary, the two dispatch tables, and [_handler_core],
    which dispatches a packet and then updates the monitor. *)

From S2P Require Import Prelude NfsConst Layers Scapy Rpc NfsState.

Definition debug_level : string := "debug".
Definition info_level : string := "info".

(** The dictionary a handler reports, and what a handler returns. *)
Abbreviation action := (list (string * value)).
Abbreviation handler := (chain -> chain -> M mon_state (option (string * action))).

Section Handlers.
Context (other_str : value -> string).

(** [str(rpc_reply.nfs_status)] *)
Definition status_string (rpc_reply : chain) : res string :=
  let? st := attr rpc_reply "nfs_status" in py_str other_str st.

(** [state.get_path(rpc_call.f)] *)
Definition handle_path (rpc_call : chain) (f : string) : M mon_state string :=
  do h <- lift (attr rpc_call f);
  get_path other_str h.

(** The dictionary most handlers return: the path, who asked and the NFS
    status, then the items [extra]. *)
Definition report (level command : string) (path : value) (rpc_call rpc_reply : chain)
    (extra : action) : M mon_state (option (string * action)) :=
  do who <- lift (get_auth_str other_str rpc_call);
  do status <- lift (status_string rpc_reply);
  ret (Some (level,
    [ ("proto", VStr "nfs"); ("command", VStr command); ("path", path);
      ("who", VStr who); ("status", VStr status) ] ++ extra)).

Definition _handle_nop : handler := fun rpc_call rpc_reply =>
  do _ <- lift (attr rpc_call "prog");
  do _ <- lift (attr rpc_call "proc");
  ret None.

Definition _handle_nfs3_null : handler := fun rpc_call rpc_reply =>
  ret (Some (debug_level,
    [ ("proto", VStr "nfs"); ("command", VStr "NULL"); ("path", VNone);
      ("who", VNone); ("status", VNone) ])).

Definition _handle_nfs3_getattr : handler := fun rpc_call rpc_reply =>
  do path <- handle_path rpc_call "handle";
  do who <- lift (get_auth_str other_str rpc_call);
  do status <- lift (status_string rpc_reply);
  ret (Some (info_level,
    [ ("proto", VStr "nfs"); ("command", VStr "getattr"); ("who", VStr who);
      ("path", VStr path); ("status", VStr status) ])).

Definition _handle_nfs3_setattr : handler := fun rpc_call rpc_reply =>
  do path <- handle_path rpc_call "handle";
  do a <- lift (attr rpc_call "new_attr");
  do new_attr <- lift (py_str other_str a);
  report info_level "setattr" (VStr path) rpc_call rpc_reply [("new_attr", VStr new_attr)].

Definition _handle_nfs3_lookup : handler := fun rpc_call rpc_reply =>
  do newpath <- joined other_str rpc_call "args";
  report info_level "lookup" (VStr newpath) rpc_call rpc_reply [].

(** [rpc_reply.f] if the call succeeded, [None] otherwise. *)
Definition on_success (rpc_reply : chain) (f : string) : res value :=
  let? st := attr rpc_reply "nfs_status" in
  let? b := success st in
  if b : bool then attr rpc_reply f else Ok VNone.

Definition _handle_nfs3_access : handler := fun rpc_call rpc_reply =>
  do path <- handle_path rpc_call "handle";
  do check <- lift (attr rpc_call "check_access");
  do access <- lift (on_success rpc_reply "access");
  report info_level "access" (VStr path) rpc_call rpc_reply [("access", access)].

Definition _handle_nfs3_readlink : handler := fun rpc_call rpc_reply =>
  do path <- handle_path rpc_call "handle";
  do target <- lift (on_success rpc_reply "path");
  report info_level "readlink" (VStr path) rpc_call rpc_reply [("target", target)].

Definition _handle_nfs3_read : handler := fun rpc_call rpc_reply =>
  do path <- handle_path rpc_call "handle";
  report info_level "read" (VStr path) rpc_call rpc_reply [].

Definition _handle_nfs3_write : handler := fun rpc_call rpc_reply =>
  do path <- handle_path rpc_call "handle";
  report info_level "write" (VStr path) rpc_call rpc_reply [].

Definition _handle_nfs3_create : handler := fun rpc_call rpc_reply =>
  do path <- joined other_str rpc_call "args";
  report info_level "create" (VStr path) rpc_call rpc_reply [].

Definition _handle_nfs3_mkdir : handler := fun rpc_call rpc_reply =>
  do path <- joined other_str rpc_call "args";
  report info_level "mkdir" (VStr path) rpc_call rpc_reply [].

Definition _handle_nfs3_symlink : handler := fun rpc_call rpc_reply =>
  do target <- joined other_str rpc_call "where";
  do p <- lift (attr2 rpc_call "symlink" "path");
  do source <- lift (py_str other_str p);
  report info_level "symlink" (VStr source) rpc_call rpc_reply [("target", VStr target)].

Definition _handle_nfs3_mknod : handler := fun rpc_call rpc_reply =>
  report info_level "mknod" VNone rpc_call rpc_reply [].

Definition _handle_nfs3_remove : handler := fun rpc_call rpc_reply =>
  do path <- joined_raw other_str rpc_call "args" "name";
  report info_level "remove" (VStr path) rpc_call rpc_reply [].

Definition _handle_nfs3_rmdir : handler := fun rpc_call rpc_reply =>
  do path <- joined_raw other_str rpc_call "args" "name";
  report info_level "rmdir" (VStr path) rpc_call rpc_reply [].

Definition _handle_nfs3_rename : handler := fun rpc_call rpc_reply =>
  do from_name <- joined other_str rpc_call "ffrom";
  do to_name <- joined other_str rpc_call "fto";
  report info_level "rename" (VStr from_name) rpc_call rpc_reply [("target", VStr to_name)].

Definition _handle_nfs3_link : handler := fun rpc_call rpc_reply =>
  do source <- handle_path rpc_call "handle";
  do dest <- joined_raw other_str rpc_call "link" "fname";
  report info_level "link" (VStr source) rpc_call rpc_reply [("target", VStr dest)].

Definition _handle_nfs3_readdir : handler := fun rpc_call rpc_reply =>
  do path <- handle_path rpc_call "handle";
  report info_level "readdir" (VStr path) rpc_call rpc_reply [].

Definition _handle_nfs3_readdirplus : handler := fun rpc_call rpc_reply =>
  do path <- handle_path rpc_call "handle";
  report info_level "readdirplus" (VStr path) rpc_call rpc_reply [].

Definition _handle_nfs3_fsstat : handler := fun rpc_call rpc_reply =>
  do path <- handle_path rpc_call "root";
  report info_level "fsstat" (VStr path) rpc_call rpc_reply [].

Definition _handle_nfs3_fsinfo : handler := fun rpc_call rpc_reply =>
  do path <- handle_path rpc_call "root";
  report info_level "fsinfo" (VStr path) rpc_call rpc_reply [].

Definition _handle_nfs3_pathconf : handler := fun rpc_call rpc_reply =>
  do path <- handle_path rpc_call "path";
  report info_level "pathconf" (VStr path) rpc_call rpc_reply [].

Definition _handle_nfs3_commit : handler := fun rpc_call rpc_reply =>
  do path <- handle_path rpc_call "root";
  report info_level "commit" (VStr path) rpc_call rpc_reply [].

Definition nfs3_handler_lookup : list (Z * handler) :=
  [ (sub_const Nfs3_ProcedureValMap "NFSPROC3_NULL", _handle_nfs3_null);
    (sub_const Nfs3_ProcedureValMap "NFSPROC3_GETATTR", _handle_nfs3_getattr);
    (sub_const Nfs3_ProcedureValMap "NFSPROC3_SETATTR", _handle_nfs3_setattr);
    (sub_const Nfs3_ProcedureValMap "NFSPROC3_LOOKUP", _handle_nfs3_lookup);
    (sub_const Nfs3_ProcedureValMap "NFSPROC3_ACCESS", _handle_nfs3_access);
    (sub_const Nfs3_ProcedureValMap "NFSPROC3_READLINK", _handle_nfs3_readlink);
    (sub_const Nfs3_ProcedureValMap "NFSPROC3_READ", _handle_nfs3_read);
    (sub_const Nfs3_ProcedureValMap "NFSPROC3_WRITE", _handle_nfs3_write);
    (sub_const Nfs3_ProcedureValMap "NFSPROC3_CREATE", _handle_nfs3_create);
    (sub_const Nfs3_ProcedureValMap "NFSPROC3_MKDIR", _handle_nfs3_mkdir);
    (sub_const Nfs3_ProcedureValMap "NFSPROC3_SYMLINK", _handle_nfs3_symlink);
    (sub_const Nfs3_ProcedureValMap "NFSPROC3_MKNOD", _handle_nfs3_mknod);
    (sub_const Nfs3_ProcedureValMap "NFSPROC3_REMOVE", _handle_nfs3_remove);
    (sub_const Nfs3_ProcedureValMap "NFSPROC3_RMDIR", _handle_nfs3_rmdir);
    (sub_const Nfs3_ProcedureValMap "NFSPROC3_RENAME", _handle_nfs3_rename);
    (sub_const Nfs3_ProcedureValMap "NFSPROC3_LINK", _handle_nfs3_link);
    (sub_const Nfs3_ProcedureValMap "NFSPROC3_READDIR", _handle_nfs3_readdir);
    (sub_const Nfs3_ProcedureValMap "NFSPROC3_READDIRPLUS", _handle_nfs3_readdirplus);
    (sub_const Nfs3_ProcedureValMap "NFSPROC3_FSSTAT", _handle_nfs3_fsstat);
    (sub_const Nfs3_ProcedureValMap "NFSPROC3_FSINFO", _handle_nfs3_fsinfo);
    (sub_const Nfs3_ProcedureValMap "NFSPROC3_PATHCONF", _handle_nfs3_pathconf);
    (sub_const Nfs3_ProcedureValMap "NFSPROC3_COMMIT", _handle_nfs3_commit) ].

(** The MOUNT status by name, or else the RPC accept status. *)
Definition _get_rpc_status (rpc_call rpc_reply : chain) : res value :=
  let? prog := attr rpc_call "prog" in
  let? status :=
    if eq_int prog prog_mountd then
      match attr rpc_reply "status" with
      | Ok (VInt v) => let? s := opt_res KeyError (dict_get v Mount3_ValStatMap) in Ok (VStr s)
      | Ok _ => Raise KeyError
      | Raise AttributeError => Ok VNone
      | Raise e => Raise e
      end
    else Ok VNone in
  if truth status then Ok status else attr2 rpc_reply "accept_state" "v".

Definition report_mount (proto command : string) (path : value) (rpc_call rpc_reply : chain)
    : M mon_state (option (string * action)) :=
  do who <- lift (get_auth_str other_str rpc_call);
  do status <- lift (_get_rpc_status rpc_call rpc_reply);
  ret (Some (info_level,
    [ ("proto", VStr proto); ("command", VStr command); ("path", path);
      ("who", VStr who); ("status", status) ])).

Definition _handle_mount3_mnt : handler := fun rpc_call rpc_reply =>
  do p <- lift (attr rpc_call "path");
  do path <- lift (py_str other_str p);
  report_mount "mount" "mnt" (VStr path) rpc_call rpc_reply.

Definition _handle_mount3_umnt : handler := fun rpc_call rpc_reply =>
  do p <- lift (attr rpc_call "path");
  do path <- lift (py_str other_str p);
  report_mount "mount" "umnt" (VStr path) rpc_call rpc_reply.

Definition _handle_mount3_umnt_all : handler := fun rpc_call rpc_reply =>
  report_mount "nfs" "umnt_all" VNone rpc_call rpc_reply.

Definition mount3_handler_lookup : list (Z * handler) :=
  [ (sub_const Mount3_ProcedureValMap "MOUNTPROC3_NULL", _handle_nop);
    (sub_const Mount3_ProcedureValMap "MOUNTPROC3_MNT", _handle_mount3_mnt);
    (sub_const Mount3_ProcedureValMap "MOUNTPROC3_DUMP", _handle_nop);
    (sub_const Mount3_ProcedureValMap "MOUNTPROC3_UMNT", _handle_mount3_umnt);
    (sub_const Mount3_ProcedureValMap "MOUNTPROC3_UMNTALL", _handle_mount3_umnt_all);
    (sub_const Mount3_ProcedureValMap "MOUNTPROC3_EXPORT", _handle_nop) ].

(** [table[proc](rpc_call, rpc)] *)
Definition dispatch (table : list (Z * handler)) (proc : value) (rpc_call rpc : chain)
    : M mon_state (option (string * action)) :=
  match proc with
  | VInt p =>
      match dict_get p table with
      | Some h => h rpc_call rpc
      | None => throw KeyError
      end
  | _ => throw KeyError
  end.

(** The part of [_handler_core] before the update. *)
Definition handle (pkt : option rpc_pkt) : M mon_state (option (string * action)) :=
  match pkt with
  | Some (RpcPkt rpc (Some call)) =>
      do prog <- lift (attr call "prog");
      do proc <- lift (attr call "proc");
      if eq_int prog prog_mountd then dispatch mount3_handler_lookup proc call rpc
      else if eq_int prog prog_nfs then dispatch nfs3_handler_lookup proc call rpc
      else ret None
  | _ => ret None
  end.

Definition _handler_core (pkt : option rpc_pkt) : M mon_state (option (string * action)) :=
  do r <- handle pkt;
  do_ update_state other_str pkt;
  ret r.

Definition pkt_handler_null (pkt : option rpc_pkt) : M mon_state unit := ret tt.

Definition pkt_handler_raw_print (pkt : option rpc_pkt) : M mon_state unit :=
  update_state other_str pkt.

Definition pkt_handler_standard (pkt : option rpc_pkt) : M mon_state (option (string * action)) :=
  _handler_core pkt.
End Handlers.

(** * Theorems *)

Section HandlerTheorems.
Context (other_str : value -> string).

Lemma read_only_get_path h : read_only (get_path other_str h).
Proof. unfold get_path. read_only. Qed.
Lemma read_only_handle_path c f : read_only (handle_path other_str c f).
Proof. unfold handle_path. read_only. Qed.
Lemma read_only_joined c f : read_only (joined other_str c f).
Proof. unfold joined. read_only. Qed.
Lemma read_only_joined_raw c f g : read_only (joined_raw other_str c f g).
Proof. unfold joined_raw. read_only. Qed.
Lemma read_only_report l c p call reply x :
  read_only (report other_str l c p call reply x).
Proof. unfold report. read_only. Qed.
Lemma read_only_report_mount pr c p call reply :
  read_only (report_mount other_str pr c p call reply).
Proof. unfold report_mount. read_only. Qed.
#[local] Hint Resolve read_only_handle_path read_only_joined read_only_joined_raw
  read_only_report read_only_report_mount : pydb.

Definition handler_ok (h : handler) : Prop := forall call reply, read_only (h call reply).

Lemma nfs3_handlers_read_only :
  Forall (fun kv => handler_ok kv.2) (nfs3_handler_lookup other_str).
Proof.
  unfold nfs3_handler_lookup.
  repeat constructor; intros call reply; cbn [snd];
    lazymatch goal with |- read_only (?h _ _ _) => unfold h end; read_only.
Qed.

Lemma mount3_handlers_read_only :
  Forall (fun kv => handler_ok kv.2) (mount3_handler_lookup other_str).
Proof.
  unfold mount3_handler_lookup.
  repeat constructor; intros call reply; cbn [snd];
    lazymatch goal with |- read_only (?h _ _ _) => unfold h | |- read_only (?h _ _) => unfold h end;
    read_only.
Qed.

Lemma dispatch_read_only table proc call reply :
  Forall (fun kv => handler_ok kv.2) table ->
  read_only (dispatch table proc call reply).
Proof.
  intros Ht. unfold dispatch. destruct proc as [|p| | | |]; try apply read_only_throw.
  destruct (dict_get p table) as [h|] eqn:E; [|apply read_only_throw].
  rewrite Forall_forall in Ht. apply (Ht (p, h)). by apply dict_get_elem.
Qed.

Lemma handle_read_only pkt : read_only (handle other_str pkt).
Proof.
  pose proof nfs3_handlers_read_only. pose proof mount3_handlers_read_only.
  unfold handle. destruct pkt as [[rpc [call|]]|]; [|apply read_only_ret..].
  repeat (apply read_only_bind; [apply read_only_lift|intros ?]).
  case_match; [by apply dispatch_read_only|].
  case_match; [by apply dispatch_read_only|apply read_only_ret].
Qed.

Lemma handler_core_run pkt s :
  _handler_core other_str pkt s =
    match (handle other_str pkt s).1 with
    | Ok r => (do_ update_state other_str pkt; ret r) s
    | Raise e => (Raise e, s)
    end.
Proof.
  unfold _handler_core, bind at 1. pose proof (handle_read_only pkt s) as Hs.
  destruct (handle other_str pkt s) as [[r|e] s']; simpl in *; by subst.
Qed.

(** C29: reporting never disturbs tracking. No handler of the two tables
    writes the monitor's state: when [_handler_core] reports, the state it
    leaves is the one [update_state] alone leaves; when it raises, either
    the state is untouched (the handler raised, the packet is not tracked
    at all) or it is what the failing [update_state] left. *)
Theorem reporting_keeps_state pkt s :
  match _handler_core other_str pkt s with
  | (Ok _, s') => update_state other_str pkt s = (Ok tt, s')
  | (Raise e, s') => s' = s \/ update_state other_str pkt s = (Raise e, s')
  end.
Proof.
  rewrite handler_core_run. destruct (handle other_str pkt s).1 as [r|e]; [|by left].
  unfold bind. destruct (update_state other_str pkt s) as [[[]|e] s']; simpl; [done|by right].
Qed.

(** What the log database relies on: a known level, the five common keys,
    no key twice, and one of the two protocols. *)
Definition action_ok (r : option (string * action)) : Prop :=
  match r with
  | None => True
  | Some (level, act) =>
      (level = debug_level \/ level = info_level) /\
      NoDup (dict_keys act) /\
      (forall k, k ∈ ["proto"; "command"; "path"; "who"; "status"] -> dict_has k act = true) /\
      (dict_get "proto" act = Some (VStr "nfs") \/ dict_get "proto" act = Some (VStr "mount"))
  end.

Definition schema_ok (h : handler) : Prop :=
  forall call reply, yields action_ok (h call reply).

(** The extra items of a report: at most one, under a new key. *)
Definition extra_ok (x : action) : Prop :=
  x = [] \/ exists k v, x = [(k, v)] /\ k ∉ ["proto"; "command"; "path"; "who"; "status"].

Lemma yields_report c p call reply x :
  extra_ok x -> yields action_ok (report other_str info_level c p call reply x).
Proof.
  intros Hx. unfold report. yields. split_and!; [by right| | |by left].
  - destruct Hx as [->|(k & v & -> & Hk)]; cbn; [by apply (bool_decide_unpack _)|].
    rewrite !elem_of_cons in Hk. repeat (apply NoDup_cons_2; [set_solver|]). constructor.
  - intros k Hk. repeat (apply elem_of_cons in Hk as [->|Hk]; [reflexivity|]).
    by apply not_elem_of_nil in Hk.
Qed.

Lemma yields_report_mount pr c p call reply :
  pr = "mount" \/ pr = "nfs" ->
  yields action_ok (report_mount other_str pr c p call reply).
Proof.
  intros Hpr. unfold report_mount. yields. split_and!.
  - by right.
  - by apply (bool_decide_unpack _).
  - intros k Hk. repeat (apply elem_of_cons in Hk as [->|Hk]; [reflexivity|]).
    by apply not_elem_of_nil in Hk.
  - destruct Hpr as [->| ->]; [by right|by left].
Qed.

Lemma extra_nil : extra_ok [].
Proof. by left. Qed.
Lemma extra_one k v :
  bool_decide (k ∉ ["proto"; "command"; "path"; "who"; "status"]) = true -> extra_ok [(k, v)].
Proof. intros H%bool_decide_eq_true. right. eauto. Qed.
#[local] Hint Resolve yields_report yields_report_mount extra_nil : pydb.
#[local] Hint Extern 1 (extra_ok _) => apply extra_one; reflexivity : pydb.

Lemma nfs3_handlers_schema : Forall (fun kv => schema_ok kv.2) (nfs3_handler_lookup other_str).
Proof.
  unfold nfs3_handler_lookup.
  repeat constructor; intros call reply; cbn [snd];
    lazymatch goal with |- yields _ (?h _ _ _) => unfold h | |- yields _ (?h _ _) => unfold h end;
    yields.
  - split_and!; [by left|by apply (bool_decide_unpack _)| |by left].
    intros k Hk. repeat (apply elem_of_cons in Hk as [->|Hk]; [reflexivity|]).
    by apply not_elem_of_nil in Hk.
  - split_and!; [by right|by apply (bool_decide_unpack _)| |by left].
    intros k Hk. repeat (apply elem_of_cons in Hk as [->|Hk]; [reflexivity|]).
    by apply not_elem_of_nil in Hk.
Qed.

Lemma mount3_handlers_schema : Forall (fun kv => schema_ok kv.2) (mount3_handler_lookup other_str).
Proof.
  unfold mount3_handler_lookup.
  repeat constructor; intros call reply; cbn [snd];
    lazymatch goal with |- yields _ (?h _ _ _) => unfold h | |- yields _ (?h _ _) => unfold h end;
    yields; done.
Qed.

Lemma dispatch_schema table proc call reply :
  Forall (fun kv => schema_ok kv.2) table -> yields action_ok (dispatch table proc call reply).
Proof.
  intros Ht. unfold dispatch. destruct proc as [|p| | | |]; try apply yields_throw.
  destruct (dict_get p table) as [h|] eqn:E; [|apply yields_throw].
  rewrite Forall_forall in Ht. apply (Ht (p, h)). by apply dict_get_elem.
Qed.

Lemma handler_core_action_ok pkt s r s' :
  _handler_core other_str pkt s = (Ok r, s') -> action_ok r.
Proof.
  pose proof nfs3_handlers_schema. pose proof mount3_handlers_schema.
  assert (yields action_ok (handle other_str pkt)) as Hy.
  { unfold handle. destruct pkt as [[rpc [call|]]|]; [|by apply yields_ret..].
    repeat (apply yields_bind; intros ?).
    case_match; [by apply dispatch_schema|].
    case_match; [by apply dispatch_schema|by apply yields_ret]. }
  rewrite handler_core_run. destruct (handle other_str pkt s) as [[r'|e] s1] eqn:E; simpl.
  - intros H'. inv_res. by eapply Hy.
  - intros H'. by inv_res.
Qed.

(** C39: the report schema. Whatever the packet and the state, a report has
    one of the two levels, the five keys [proto], [command], [path], [who]
    and [status], no key twice, and protocol [nfs] or [mount]. *)
Theorem report_schema pkt s r s' :
  _handler_core other_str pkt s = (Ok r, s') -> action_ok r.
Proof. apply handler_core_action_ok. Qed.

(** Unknown procedures. A reply to an NFS call whose procedure is not
    one of the 22 of RFC 1813 makes [_handler_core] raise [KeyError], and
    the packet is neither reported nor tracked. *)
Theorem unknown_procedure_dropped reply call p s :
  attr call "prog" = Ok (VInt prog_nfs) -> attr call "proc" = Ok (VInt p) ->
  ~ 0 <= p < 22 ->
  _handler_core other_str (Some (RpcPkt reply (Some call))) s = (Raise KeyError, s).
Proof.
  intros Hprog Hproc Hp. rewrite handler_core_run. unfold handle.
  do 2 mstep. change (eq_int (VInt prog_nfs) prog_mountd) with false.
  change (eq_int (VInt prog_nfs) prog_nfs) with true. cbv iota. unfold dispatch.
  destruct (dict_get p (nfs3_handler_lookup other_str)) eqn:E; [|done].
  destruct Hp. apply elem_of_seqZ with (m := 0) (n := 22).
  change (seqZ 0 22) with (dict_keys (nfs3_handler_lookup other_str)).
  apply dict_keys_get. eauto.
Qed.

Lemma report_run l c p call reply x who st s :
  get_auth_str other_str call = Ok who -> status_string other_str reply = Ok st ->
  report other_str l c p call reply x s =
    (Ok (Some (l, [ ("proto", VStr "nfs"); ("command", VStr c); ("path", p);
      ("who", VStr who); ("status", VStr st) ] ++ x)), s).
Proof. intros Hw Hst. unfold report. by do 2 mstep. Qed.

(** A LOOKUP is reported under the path it resolves. For a successful
    LOOKUP the reported path is the directory's path joined with the name,
    and it is the path the new handle resolves to from then on. *)
Theorem lookup_report_resolves reply call h hs dh dir nm fname who st s :
  nfs_reply reply call "NFSPROC3_LOOKUP" ->
  attr2 call "args" "handle" = Ok dh -> key_of dh = Ok dh ->
  get_path other_str dh s = (Ok dir, s) ->
  attr2 call "args" "fname" = Ok nm -> py_str other_str nm = Ok fname ->
  attr reply "handle" = Ok h -> key_of h = Ok h -> py_str other_str h = Ok hs ->
  get_auth_str other_str call = Ok who -> status_string other_str reply = Ok st ->
  exists s',
    _handler_core other_str (Some (RpcPkt reply (Some call))) s =
      (Ok (Some ("info", [ ("proto", VStr "nfs"); ("command", VStr "lookup");
                           ("path", VStr (path_join dir fname)); ("who", VStr who);
                           ("status", VStr st) ])), s') /\
    get_path other_str h s' = (Ok (path_join dir fname), s').
Proof.
  intros Hr Hdh Hdk Hdir Hnm Hstr Hh Hhk Hhs Hwho Hst.
  assert (joined other_str call "args" s = (Ok (path_join dir fname), s)) as Hj.
  { unfold joined. by do 4 mstep. }
  assert ((handle other_str (Some (RpcPkt reply (Some call))) s).1 =
    Ok (Some ("info", [ ("proto", VStr "nfs"); ("command", VStr "lookup");
      ("path", VStr (path_join dir fname)); ("who", VStr who); ("status", VStr st) ]))) as Hrep.
  { destruct Hr as (Hprog & Hproc & _). unfold handle. do 2 mstep.
    change (dispatch (nfs3_handler_lookup other_str)
      (VInt (sub_const Nfs3_ProcedureValMap "NFSPROC3_LOOKUP")) call reply)
      with (_handle_nfs3_lookup other_str call reply).
    cbn [eq_int]. change (prog_nfs =? prog_mountd) with false.
    change (prog_nfs =? prog_nfs) with true. cbv iota.
    unfold _handle_nfs3_lookup. mstep. by erewrite report_run. }
  assert (update_state other_str (Some (RpcPkt reply (Some call))) s =
    (Ok tt, mapped (VStr (path_join dir fname)) h (set_ct (Z.add 1) s))) as Hup.
  { rewrite (surjective_pairing (update_state _ _ _)). erewrite lookup_state by eassumption.
    f_equal. rewrite (update_nfs_reply _ _ _ _ _ Hr).
    change (update_nfs _ _ call reply) with (on_lookup other_str call reply).
    assert (joined other_str call "args" (set_ct (Z.add 1) s) =
      (Ok (path_join dir fname), set_ct (Z.add 1) s)) as Hj'.
    { apply (get_path_ct _ _ (Z.add 1)) in Hdir. unfold joined. by do 4 mstep. }
    unfold on_lookup. do 2 mstep. unfold _create_handle_mapping, bind, lift, modify.
    rewrite Hhk, Hwho, Hhs. done. }
  eexists. split.
  - rewrite handler_core_run, Hrep. by erewrite bind_step.
  - rewrite get_path_value by done. cbn. by rewrite dict_get_set_eq.
Qed.

(** The argument of REMOVE and RMDIR calls. *)
Definition dir_args (call : chain) (dh : value) : Prop :=
  exists fs, attr call "args" = Ok (VPkt cNFS3_dir_op_args fs) /\
    dict_get "handle" fs = Some dh.

(** Deletions are reported under a wrong path. [rpc_call.args.name] is
    the name of the packet class, so the report of every REMOVE and RMDIR
    gives the directory's path joined with ["dir_op_args"], whatever file
    was removed. *)
Theorem deletion_report_path h reply call dh dir who st s :
  h = _handle_nfs3_remove other_str \/ h = _handle_nfs3_rmdir other_str ->
  dir_args call dh -> get_path other_str dh s = (Ok dir, s) ->
  get_auth_str other_str call = Ok who -> status_string other_str reply = Ok st ->
  exists act, h call reply s = (Ok (Some (info_level, act)), s) /\
    dict_get "path" act = Some (VStr (path_join dir "dir_op_args")).
Proof.
  intros Hh (fs & Hargs & Hdh) Hdir Hwho Hst.
  assert (joined_raw other_str call "args" "name" s = (Ok (path_join dir "dir_op_args"), s)) as Hj.
  { unfold joined_raw.
    erewrite bind_lift. 2: { unfold attr2. rewrite Hargs. cbn [res_bind vattr]. unfold attr.
      rewrite decide_False by done. cbn [omap list_omap]. unfold layer_attr. cbn [fst snd].
      by rewrite Hdh. }
    mstep. erewrite bind_lift; [|unfold attr2; by rewrite Hargs].
    reflexivity. }
  destruct Hh as [->| ->];
    [unfold _handle_nfs3_remove|unfold _handle_nfs3_rmdir]; mstep;
    erewrite report_run by done; eauto.
Qed.

(** LINK calls are never reported. The second argument of the join is
    a [NFS3_fname] packet, so the handler raises [TypeError] whatever the
    reply says, and the packet is not tracked either. *)
Theorem link_not_reported reply call sh src dh dir fs gs s :
  attr call "prog" = Ok (VInt prog_nfs) ->
  attr call "proc" = Ok (VInt (sub_const Nfs3_ProcedureValMap "NFSPROC3_LINK")) ->
  attr call "handle" = Ok sh -> get_path other_str sh s = (Ok src, s) ->
  attr call "link" = Ok (VPkt cNFS3_dir_op_args fs) ->
  dict_get "handle" fs = Some dh -> get_path other_str dh s = (Ok dir, s) ->
  dict_get "fname" fs = Some (VPkt cNFS3_fname gs) ->
  _handler_core other_str (Some (RpcPkt reply (Some call))) s = (Raise TypeError, s).
Proof.
  intros Hprog Hproc Hsh Hsrc Hlink Hdh Hdir Hname.
  assert (forall n v, n <> "name" -> dict_get n fs = Some v -> attr2 call "link" n = Ok v) as Hattr.
  { intros n v Hn Hv. unfold attr2. rewrite Hlink. cbn [res_bind vattr]. unfold attr.
    rewrite decide_False by done. cbn [omap list_omap]. unfold layer_attr. cbn [fst snd].
    by rewrite Hv. }
  rewrite handler_core_run. unfold handle. do 2 mstep.
  change (dispatch (nfs3_handler_lookup other_str)
    (VInt (sub_const Nfs3_ProcedureValMap "NFSPROC3_LINK")) call reply)
    with (_handle_nfs3_link other_str call reply).
  cbn [eq_int]. change (prog_nfs =? prog_mountd) with false.
  change (prog_nfs =? prog_nfs) with true. cbv iota.
  assert (handle_path other_str call "handle" s = (Ok src, s)) as Hp.
  { unfold handle_path. by mstep. }
  assert (joined_raw other_str call "link" "fname" s = (Raise TypeError, s)) as Hj.
  { unfold joined_raw.
    erewrite bind_lift by (by apply Hattr). mstep. by erewrite bind_lift by (by apply Hattr). }
  unfold _handle_nfs3_link. mstep. unfold bind at 1. by rewrite Hj.
Qed.
End HandlerTheorems.

(** * Witnesses *)

Definition ex_lookup_report : action :=
  [ ("proto", VStr "nfs"); ("command", VStr "lookup"); ("path", VStr "/srv/a.c");
    ("who", VStr "AUTH_NULL"); ("status", VStr "NFS3_OK") ].

Lemma report_schema_witness : action_ok (Some (info_level, ex_lookup_report)).
Proof.
  apply (report_schema no_str (Some (RpcPkt ex_lookup_reply
    (Some (ex_nfs_call "NFSPROC3_LOOKUP" [ex_dir_op "args"])))) ex_mon _
    (_handler_core no_str (Some (RpcPkt ex_lookup_reply
    (Some (ex_nfs_call "NFSPROC3_LOOKUP" [ex_dir_op "args"])))) ex_mon).2).
  vm_compute. reflexivity.
Defined.

Definition ex_unknown_call : chain :=
  [(cRPC_Header, header_env 7 0); (cRPC_Call, [("prog", VInt prog_nfs); ("proc", VInt 22)])].

Lemma unknown_procedure_dropped_witness :
  _handler_core no_str (Some (RpcPkt ex_lookup_reply (Some ex_unknown_call))) ex_mon
  = (Raise KeyError, ex_mon).
Proof. apply (unknown_procedure_dropped no_str _ _ 22); [reflexivity..|lia]. Defined.

Lemma lookup_report_resolves_witness :
  exists s',
    _handler_core no_str (Some (RpcPkt ex_lookup_reply
      (Some (ex_nfs_call "NFSPROC3_LOOKUP" [ex_dir_op "args"])))) ex_mon =
      (Ok (Some ("info", ex_lookup_report)), s') /\
    get_path no_str (ex_handle Byte.x02) s' = (Ok "/srv/a.c", s').
Proof.
  apply (lookup_report_resolves no_str ex_lookup_reply _ (ex_handle Byte.x02) "02"
    (ex_handle Byte.x01) "/srv" ex_name "a.c" "AUTH_NULL" "NFS3_OK" ex_mon ex_lookup_ok);
    reflexivity.
Defined.

Lemma deletion_report_path_witness :
  exists act,
    _handle_nfs3_remove no_str (ex_nfs_call "NFSPROC3_REMOVE" [ex_dir_op "args"])
      [(cRPC_Header, header_env 7 1); (cRPC_Reply, []); (cNFS3_REMOVE_Reply, [("nfs_status", VInt 0)])]
      ex_mon = (Ok (Some (info_level, act)), ex_mon) /\
    dict_get "path" act = Some (VStr "/srv/dir_op_args").
Proof.
  apply (deletion_report_path no_str _ _ _ (ex_handle Byte.x01) "/srv" "AUTH_NULL" "0");
    [by left| |reflexivity..].
  eexists. split; reflexivity.
Defined.

Lemma link_not_reported_witness :
  _handler_core no_str (Some (RpcPkt
    [(cRPC_Header, header_env 7 1); (cRPC_Reply, []); (cNFS3_LINK_Reply, [])]
    (Some (ex_nfs_call "NFSPROC3_LINK" [("handle", ex_handle Byte.x02); ex_dir_op "link"]))))
    ex_mon = (Raise TypeError, ex_mon).
Proof.
  eapply (link_not_reported no_str _ _ (ex_handle Byte.x02) "{unknown}" (ex_handle Byte.x01)
    "/srv"); reflexivity.
Defined.
