(* ===== verification/NfsWalk.v ===== *)
(** What a client does to a file, from the mount to the file: the packets of one
    descent, with any other traffic in between, through [_handler_core] of
    [targets/nfs-sensor-target/sensor/nfs_packet_handler.py] and the monitor it
    updates.  The descent goes from handle to handle; other packets may do anything
    that leaves the path of the current handle alone. *)

From S2P Require Import Prelude NfsConst Layers Scapy Rpc NfsState NfsHandler.

Section Walk.
Context (other_str : value -> string).

(** The monitor after a packet, and after several. *)
Definition track (s : mon_state) (pkt : option rpc_pkt) : mon_state := (_handler_core other_str pkt s).2.
Definition track_all (s : mon_state) (pkts : list (option rpc_pkt)) : mon_state := fold_left track pkts s.

(** The monitor resolves a handle to a path. *)
Definition resolves (h : value) (path : string) (s : mon_state) : Prop :=
  key_of h = Ok h /\ get_path other_str h s = (Ok path, s).

(** A successful LOOKUP of [name] under [dh] that gives [h], by a requester and
    with a status that can be written. *)
Definition looks_up (dh : value) (name : string) (h : value) (pkt : option rpc_pkt) : Prop :=
  exists call reply nm hs who st, pkt = Some (RpcPkt reply (Some call)) /\
    nfs_reply reply call "NFSPROC3_LOOKUP" /\
    attr2 call "args" "handle" = Ok dh /\ attr2 call "args" "fname" = Ok nm /\
    py_str other_str nm = Ok name /\ attr reply "handle" = Ok h /\ key_of h = Ok h /\
    py_str other_str h = Ok hs /\ get_auth_str other_str call = Ok who /\
    status_string other_str reply = Ok st.

(** A successful MNT of [path] that gives [h]. *)
Definition mounts (path : string) (h : value) (pkt : option rpc_pkt) : Prop :=
  exists call reply pv hs who st, pkt = Some (RpcPkt reply (Some call)) /\
    attr call "prog" = Ok (VInt prog_mountd) /\
    attr call "proc" = Ok (VInt (sub_const Mount3_ProcedureValMap "MOUNTPROC3_MNT")) /\
    attr2 reply "accept_state" "v" = Ok (VInt RPC_ACCEPT_SUCCESS) /\
    attr reply "status" = Ok (VInt MOUNT3_OK) /\
    attr call "path" = Ok pv /\ key_of pv = Ok pv /\ py_str other_str pv = Ok path /\
    attr reply "handle" = Ok h /\ key_of h = Ok h /\ py_str other_str h = Ok hs /\
    get_auth_str other_str call = Ok who /\ _get_rpc_status call reply = Ok st.

(** The procedures that name a file by its handle alone, with what the sensor
    calls them. *)
Definition handle_procs : list (string * string) :=
  [("NFSPROC3_GETATTR", "getattr"); ("NFSPROC3_READ", "read"); ("NFSPROC3_WRITE", "write");
   ("NFSPROC3_READDIR", "readdir"); ("NFSPROC3_READDIRPLUS", "readdirplus")].

(** A reply to one of them, successful or not. *)
Definition uses (h : value) (proc : string) (pkt : option rpc_pkt) : Prop :=
  exists call reply who st, pkt = Some (RpcPkt reply (Some call)) /\
    attr call "prog" = Ok (VInt prog_nfs) /\
    attr call "proc" = Ok (VInt (sub_const Nfs3_ProcedureValMap proc)) /\
    attr call "handle" = Ok h /\
    get_auth_str other_str call = Ok who /\ status_string other_str reply = Ok st /\
    exists v b, attr reply "nfs_status" = Ok v /\ success v = Ok b.

(** A packet after which the handle resolves as before. *)
Definition spares (h : value) (pkt : option rpc_pkt) : Prop :=
  forall s path, resolves h path s -> resolves h path (track s pkt).

(** A descent from a handle by names to another, with other packets between. *)
Inductive descent : value -> list string -> list (option rpc_pkt) -> value -> Prop :=
  | descent_here h : descent h [] [] h
  | descent_lookup dh name h names pkt pkts file :
      looks_up dh name h pkt -> descent h names pkts file ->
      descent dh (name :: names) (pkt :: pkts) file
  | descent_other h names pkt pkts file :
      spares h pkt -> descent h names pkts file -> descent h names (pkt :: pkts) file.

(** * Lemmas *)

Lemma resolves_iff h path s : key_of h = Ok h ->
  resolves h path s <-> py_str other_str (default (VStr "{unknown}") (dict_get h (handle_name_map s))) = Ok path.
Proof.
  intros Hk. unfold resolves. rewrite (get_path_value other_str h s Hk). split.
  - intros [_ H]. by injection H.
  - intros ->. done.
Qed.

Lemma looks_up_tracked dh dir name h pkt s : looks_up dh name h pkt -> resolves dh dir s ->
  resolves h (path_join dir name) (track s pkt).
Proof.
  intros (call & reply & nm & hs & who & st & -> & Hn & Hd & Hf & Hstr & Hh & Hk & Hhs & Hw & Hst) [Hdk Hdir].
  destruct (lookup_report_resolves other_str reply call h hs dh dir nm name who st s) as (s' & Hrun & Hres);
    [done..|]. unfold track. rewrite Hrun. by split.
Qed.

Lemma mounts_tracked path h pkt s : mounts path h pkt -> resolves h path (track s pkt).
Proof.
  intros (call & reply & pv & hs & who & st & -> & Hprog & Hproc & Hacc & Hs & Hp & Hpk & Hps & Hh & Hk &
    Hhs & Hw & Hst).
  apply resolves_iff; [done|]. unfold track. rewrite handler_core_run.
  assert ((handle other_str (Some (RpcPkt reply (Some call))) s).1 =
    Ok (Some (info_level, [("proto", VStr "mount"); ("command", VStr "mnt"); ("path", VStr path);
      ("who", VStr who); ("status", st)]))) as ->.
  { unfold handle. do 2 mstep. cbn [eq_int]. change (prog_mountd =? prog_mountd) with true. cbv iota.
    change (dispatch (mount3_handler_lookup other_str) _ call reply) with (_handle_mount3_mnt other_str call reply).
    unfold _handle_mount3_mnt, report_mount. by do 4 mstep. }
  assert ((update_state other_str (Some (RpcPkt reply (Some call))) s).2 =
    mapped pv h (set_mounts (dict_set pv h) (set_ct (Z.add 1) s))) as Hup.
  { unfold update_state. cbn [rpc_call rp_chain]. mstep.
    assert (is_reply_parsable reply call = Ok true) as Hpar.
    { unfold is_reply_parsable. rewrite Hprog. cbn [res_bind].
      change (eq_int (VInt prog_mountd) prog_mountd) with true. cbv iota. rewrite Hacc. cbn [res_bind].
      rewrite Hproc. cbn [res_bind negb]. by rewrite Hs. }
    mstep. cbn [negb]. do 2 mstep. cbn [eq_int]. change (prog_mountd =? prog_mountd) with true. cbv iota.
    change (update_mount other_str _ call reply) with
      (do p <- lift (attr call "path"); do h <- lift (attr reply "handle"); _create_mount_mapping other_str p h call).
    do 2 mstep. unfold _create_mount_mapping. mstep. mstep. by apply create_state. }
  unfold bind. destruct (update_state other_str _ s) as [[[]|e] s'] eqn:E; cbn in Hup; subst s'; cbn;
    by rewrite dict_get_set_eq.
Qed.

Lemma uses_reported h proc command pkt path s :
  (proc, command) ∈ handle_procs -> uses h proc pkt -> resolves h path s ->
  exists act, (handle other_str pkt s).1 = Ok (Some (info_level, act)) /\
    dict_get "path" act = Some (VStr path) /\ dict_get "command" act = Some (VStr command).
Proof.
  intros Hin (call & reply & who & st & -> & Hprog & Hproc & Hh & Hw & Hst & _) [Hk Hpath].
  assert (handle_path other_str call "handle" s = (Ok path, s)) as Hhp by (unfold handle_path; by mstep).
  unfold handle. do 2 mstep. cbn [eq_int]. change (prog_nfs =? prog_mountd) with false.
  change (prog_nfs =? prog_nfs) with true. cbv iota.
  unfold handle_procs in Hin. rewrite !elem_of_cons in Hin.
  destruct Hin as [[= -> ->]|[[= -> ->]|[[= -> ->]|[[= -> ->]|[[= -> ->]|Hin]]]]]; [..|by apply not_elem_of_nil in Hin].
  - change (dispatch _ _ call reply) with (_handle_nfs3_getattr other_str call reply).
    unfold _handle_nfs3_getattr. do 3 mstep. eexists. split_and!; done.
  - change (dispatch _ _ call reply) with (_handle_nfs3_read other_str call reply).
    unfold _handle_nfs3_read. mstep. erewrite report_run by done. eexists. split_and!; done.
  - change (dispatch _ _ call reply) with (_handle_nfs3_write other_str call reply).
    unfold _handle_nfs3_write. mstep. erewrite report_run by done. eexists. split_and!; done.
  - change (dispatch _ _ call reply) with (_handle_nfs3_readdir other_str call reply).
    unfold _handle_nfs3_readdir. mstep. erewrite report_run by done. eexists. split_and!; done.
  - change (dispatch _ _ call reply) with (_handle_nfs3_readdirplus other_str call reply).
    unfold _handle_nfs3_readdirplus. mstep. erewrite report_run by done. eexists. split_and!; done.
Qed.

Lemma descent_resolves h names pkts file : descent h names pkts file ->
  forall s dir, resolves h dir s -> resolves file (fold_left path_join names dir) (track_all s pkts).
Proof.
  induction 1 as [h|dh name h names pkt pkts file Hl _ IH|h names pkt pkts file Hs _ IH]; intros s dir Hr; cbn.
  - done.
  - apply IH. by apply (looks_up_tracked dh).
  - apply IH. by apply Hs.
Qed.

(** ** Packets that spare a handle *)

Lemma resolves_ct h path f s : resolves h path s -> resolves h path (set_ct f s).
Proof. intros [Hk Hp]. split; [done|]. by apply get_path_ct. Qed.

Lemma track_cases s pkt : track s pkt = s \/ track s pkt = (update_state other_str pkt s).2.
Proof.
  unfold track. rewrite handler_core_run. destruct (handle other_str pkt s).1; [right|by left].
  unfold bind. by destruct (update_state other_str pkt s) as [[[]|e] s'].
Qed.

Lemma spares_update h pkt :
  (forall s path, resolves h path s -> resolves h path (update_state other_str pkt s).2) -> spares h pkt.
Proof. intros H s path Hr. destruct (track_cases s pkt) as [-> | ->]; [done|by apply H]. Qed.

(** A packet that is no reply, or whose call was not captured. *)
Lemma spares_no_call h pkt :
  match pkt with Some p => rpc_call p = None | None => True end -> spares h pkt.
Proof.
  intros Hp. apply spares_update. intros s path Hr. unfold update_state. rewrite bind_modify.
  destruct pkt as [p|]; [rewrite Hp|]; by apply resolves_ct.
Qed.

(** The procedures whose replies [update_state] looks at. *)
Definition mapping_procs : list string :=
  ["NFSPROC3_LOOKUP"; "NFSPROC3_CREATE"; "NFSPROC3_MKDIR"; "NFSPROC3_SYMLINK"; "NFSPROC3_RMDIR";
   "NFSPROC3_RENAME"; "NFSPROC3_LINK"; "NFSPROC3_REMOVE"].

(** A reply to any other NFS procedure, or one that reports an error. *)
Lemma update_other call reply proc s v b :
  attr call "prog" = Ok (VInt prog_nfs) -> attr call "proc" = Ok (VInt proc) ->
  attr reply "nfs_status" = Ok v -> success v = Ok b ->
  b = false \/ proc ∉ map (sub_const Nfs3_ProcedureValMap) mapping_procs ->
  update_state other_str (Some (RpcPkt reply (Some call))) s = (Ok tt, set_ct (Z.add 1) s).
Proof.
  intros Hprog Hproc Hv Hb Hor. destruct b.
  - destruct Hor as [?|Hni]; [done|]. unfold update_state. cbn [rpc_call rp_chain]. mstep.
    assert (is_reply_parsable reply call = Ok true) as Hp.
    { unfold is_reply_parsable. rewrite Hprog. cbn [res_bind].
      change (eq_int (VInt prog_nfs) prog_mountd) with false.
      change (eq_int (VInt prog_nfs) prog_nfs) with true. cbv iota. rewrite Hv. cbn [res_bind]. by rewrite Hb. }
    mstep. cbn [negb]. do 2 mstep. change (eq_int (VInt prog_nfs) prog_mountd) with false.
    change (eq_int (VInt prog_nfs) prog_nfs) with true. cbv iota. unfold update_nfs. cbn [eq_int].
    cbn [map mapping_procs] in Hni. rewrite !not_elem_of_cons in Hni.
    destruct Hni as (H1 & H2 & H3 & H4 & H5 & H6 & H7 & H8 & _).
    by rewrite !(proj2 (Z.eqb_neq _ _)).
  - apply unparsable_state; [done|]. right. by exists v.
Qed.

Lemma handle_proc_other proc command : (proc, command) ∈ handle_procs ->
  sub_const Nfs3_ProcedureValMap proc ∉ map (sub_const Nfs3_ProcedureValMap) mapping_procs.
Proof.
  intros Hin. assert (forallb (fun e => bool_decide (sub_const Nfs3_ProcedureValMap e.1 ∉
    map (sub_const Nfs3_ProcedureValMap) mapping_procs)) handle_procs = true) as H by (vm_compute; reflexivity).
  rewrite forallb_forall in H. apply list_elem_of_In, H in Hin. by apply bool_decide_eq_true in Hin.
Qed.

(** Using a file by its handle. *)
Lemma spares_uses h h' proc command pkt : (proc, command) ∈ handle_procs -> uses h' proc pkt -> spares h pkt.
Proof.
  intros Hin (call & reply & who & st & -> & Hprog & Hproc & _ & _ & _ & v & b & Hv & Hb).
  apply spares_update. intros s path Hr. erewrite (update_other call reply) by (eauto using handle_proc_other).
  by apply resolves_ct.
Qed.

(** A LOOKUP, in a known directory, that finds another handle. *)
Lemma looks_up_spares h path dh dir name h' pkt s : looks_up dh name h' pkt -> h <> h' ->
  resolves dh dir s -> resolves h path s -> resolves h path (track s pkt).
Proof.
  intros (call & reply & nm & hs & who & st & -> & Hn & Hd & Hf & Hstr & Hh & Hk & Hhs & Hw & Hst) Hne.
  intros [Hdk Hdir] [Hk' Hr]. destruct (track_cases s (Some (RpcPkt reply (Some call)))) as [-> | ->]; [done|].
  erewrite lookup_state by eassumption. apply resolves_iff; [done|]. cbn. rewrite dict_get_set_ne by done.
  by apply (proj1 (resolves_iff h path s Hk')).
Qed.

(** * Theorems *)

(** C2: functional.  What is done to a file is reported under its full path.  After a
    mount, and a descent from its handle by any number of names, with any other
    traffic in between that leaves the current handle alone, the report of a
    procedure that only names the file's handle gives the mounted path joined with
    all the names, and so does every later one. *)
Theorem access_reported_under_full_path root h0 mnt names pkts file proc command access s :
  mounts root h0 mnt -> descent h0 names pkts file ->
  (proc, command) ∈ handle_procs -> uses file proc access ->
  exists act s', _handler_core other_str access (track_all s (mnt :: pkts)) = (Ok (Some (info_level, act)), s') /\
    dict_get "path" act = Some (VStr (fold_left path_join names root)) /\
    dict_get "command" act = Some (VStr command) /\
    resolves file (fold_left path_join names root) s'.
Proof.
  intros Hm Hd Hin Hu. pose proof (mounts_tracked root h0 mnt s Hm) as Hr.
  apply (descent_resolves _ _ _ _ Hd) in Hr. change (fold_left track pkts (track s mnt)) with
    (track_all s (mnt :: pkts)) in Hr. unfold track_all at 1 in Hr.
  change (fold_left track pkts (track s mnt)) with (track_all s (mnt :: pkts)) in Hr.
  destruct (uses_reported file proc command access _ _ Hin Hu Hr) as (act & Hrep & Hpath & Hcmd).
  exists act, (track (track_all s (mnt :: pkts)) access). split_and!; [|done|done|].
  - unfold track. rewrite handler_core_run, Hrep.
    destruct Hu as (call & reply & who & st & -> & Hprog & Hproc & _ & _ & _ & v & b & Hv & Hb).
    erewrite bind_step by (eapply (update_other call reply); eauto using handle_proc_other). done.
  - by eapply spares_uses.
Qed.
End Walk.

(** * A descent *)

Definition ex_bytes (s : string) : bytes := map (fun c => byte_of (Z.of_nat (nat_of_ascii c))) (str_chars s).
Definition ex_mnt : option rpc_pkt := Some (RpcPkt
  [ (cRPC_Header, header_env 5 1); (cRPC_Reply, [("accept_state", VPkt cRPC_status [("v", VInt 0)])]);
    (cMOUNT3_MNT_Reply, [("status", VInt 0)]); (cMOUNT3_MNT_ReplyOk, [("handle", ex_handle Byte.x01)]) ]
  (Some [ (cRPC_Header, header_env 5 0);
          (cRPC_Call, [ ("prog", VInt prog_mountd);
                        ("proc", VInt (sub_const Mount3_ProcedureValMap "MOUNTPROC3_MNT"));
                        ("cred_flav", VInt 0);
                        ("path", VPkt cNFS3_path [("l", VInt 4); ("v", VBytes (ex_bytes "/srv"))]) ]) ])).
Definition ex_lookup : option rpc_pkt :=
  Some (RpcPkt ex_lookup_reply (Some (ex_nfs_call "NFSPROC3_LOOKUP" [ex_dir_op "args"]))).
Definition ex_read : option rpc_pkt := Some (RpcPkt
  [(cRPC_Header, header_env 9 1); (cRPC_Reply, []); (cNFS3_READ_Reply, [("nfs_status", ex_status)])]
  (Some (ex_nfs_call "NFSPROC3_READ" [("handle", ex_handle Byte.x02)]))).

Lemma ex_descent : descent no_str (ex_handle Byte.x01) ["a.c"] [None; ex_lookup; ex_read] (ex_handle Byte.x02).
Proof.
  apply descent_other; [by apply spares_no_call|].
  apply (descent_lookup _ _ _ (ex_handle Byte.x02)).
  { exists (ex_nfs_call "NFSPROC3_LOOKUP" [ex_dir_op "args"]), ex_lookup_reply, ex_name, "02", "AUTH_NULL", "NFS3_OK".
    split_and!; try reflexivity. exact ex_lookup_ok. }
  apply descent_other; [|apply descent_here].
  apply (spares_uses _ _ (ex_handle Byte.x02) "NFSPROC3_READ" "read"); [right; by left|].
  do 4 eexists. split_and!; try reflexivity. by exists ex_status, true.
Qed.

Lemma access_reported_under_full_path_witness :
  exists act s', _handler_core no_str ex_read (track_all no_str mon_init [ex_mnt; None; ex_lookup; ex_read]) =
      (Ok (Some (info_level, act)), s') /\ dict_get "path" act = Some (VStr "/srv/a.c").
Proof.
  destruct (access_reported_under_full_path no_str "/srv" (ex_handle Byte.x01) ex_mnt ["a.c"]
    [None; ex_lookup; ex_read] (ex_handle Byte.x02) "NFSPROC3_READ" "read" ex_read mon_init)
    as (act & s' & H1 & H2 & _).
  - do 6 eexists. split_and!; try reflexivity.
  - apply ex_descent.
  - right. by left.
  - do 4 eexists. split_and!; try reflexivity. by exists ex_status, true.
  - exists act, s'. split; [exact H1|exact H2].
Defined.
