(* ===== verification/Json.v ===== *)
(** What the sources use of Python's [json] module and of UTF-8: [json.dumps]
    with its default options, [json.loads], and strict [bytes.decode].

    A Python [str] is here a list of code points ([ustr]).  A JSON number with
    a fraction or an exponent is kept as its literal text.  The parser follows
    [json.decoder] branch by branch; it takes fuel, and one more than the
    length of the text is enough for every text (each call of [scan] consumes
    a character). *)

From S2P Require Import Prelude.

Abbreviation ustr := (list Z).

(** A string literal of the sources as code points. *)
Definition u (s : string) : ustr := map (fun c => Z.of_N (N_of_ascii c)) (str_chars s).

Inductive json :=
  | JNull
  | JBool (b : bool)
  | JInt (z : Z)
  | JFloat (literal : ustr)
  | JStr (s : ustr)
  | JList (l : list json)
  | JObj (d : list (ustr * json)).

(** Whether a float literal is not zero: it is [NaN], infinite, or has a
    non-zero digit before the exponent. *)
Fixpoint mantissa_truth (l : ustr) : bool :=
  match l with
  | c :: l =>
      if (c =? 101) || (c =? 69) then false
      else (49 <=? c) && (c <=? 57) || (c =? 73) || (c =? 78) || mantissa_truth l
  | [] => false
  end.

(** [bool(v)] of a decoded document. *)
Definition json_truth (j : json) : bool :=
  match j with
  | JNull => false
  | JBool b => b
  | JInt z => negb (z =? 0)
  | JFloat l => mantissa_truth l
  | JStr s => negb (Nat.eqb (length s) 0)
  | JList l => negb (Nat.eqb (length l) 0)
  | JObj d => negb (Nat.eqb (length d) 0)
  end.

(** [body[k]] *)
Definition json_item (j : json) (k : string) : res json :=
  match j with
  | JObj d => opt_res KeyError (dict_get (u k) d)
  | _ => Raise TypeError
  end.

(** * [json.dumps] *)

Definition hexd (d : Z) : Z := if d <? 10 then 48 + d else 87 + d.

(** ["\\u{0:04x}".format(n)] *)
Definition u_escape (n : Z) : ustr :=
  [92; 117; hexd (n / 4096 mod 16); hexd (n / 256 mod 16); hexd (n / 16 mod 16); hexd (n mod 16)].

Definition escape (c : Z) : ustr :=
  if c =? 34 then [92; 34]
  else if c =? 92 then [92; 92]
  else if c =? 10 then [92; 110]
  else if c =? 13 then [92; 114]
  else if c =? 9 then [92; 116]
  else if c =? 12 then [92; 102]
  else if c =? 8 then [92; 98]
  else if (32 <=? c) && (c <=? 126) then [c]
  else if c <? 65536 then u_escape c
  else u_escape (55296 + (c - 65536) / 1024) ++ u_escape (56320 + (c - 65536) mod 1024).

Definition quote (s : ustr) : ustr := [34] ++ flat_map escape s ++ [34].

Fixpoint digits_go (fuel : nat) (z : Z) (acc : ustr) : ustr :=
  match fuel with
  | O => acc
  | S fuel =>
      let acc := (48 + z mod 10) :: acc in
      if z / 10 =? 0 then acc else digits_go fuel (z / 10) acc
  end.

(** The decimal digits of a non-negative integer. *)
Definition digits (z : Z) : ustr := digits_go (S (Z.to_nat (Z.log2 z))) z [].

Definition int_text (z : Z) : ustr := if z <? 0 then 45 :: digits (- z) else digits z.

Fixpoint ujoin (sep : ustr) (l : list ustr) : ustr :=
  match l with
  | [] => []
  | [s] => s
  | s :: l => s ++ sep ++ ujoin sep l
  end.

Fixpoint dumps (j : json) : ustr :=
  match j with
  | JNull => u "null"
  | JBool true => u "true"
  | JBool false => u "false"
  | JInt z => int_text z
  | JFloat l => l
  | JStr s => quote s
  | JList l => [91] ++ ujoin [44; 32] (map dumps l) ++ [93]
  | JObj d => [123] ++ ujoin [44; 32] (map (fun kv => quote kv.1 ++ [58; 32] ++ dumps kv.2) d) ++ [125]
  end.

(** * [json.loads] *)

Definition is_ws (c : Z) : bool := (c =? 32) || (c =? 9) || (c =? 10) || (c =? 13).

Fixpoint skip_ws (s : ustr) : ustr :=
  match s with
  | c :: s' => if is_ws c then skip_ws s' else s
  | [] => []
  end.

Definition unhex (c : Z) : option Z :=
  if (48 <=? c) && (c <=? 57) then Some (c - 48)
  else if (97 <=? c) && (c <=? 102) then Some (c - 87)
  else if (65 <=? c) && (c <=? 70) then Some (c - 55)
  else None.

Definition unhex4 (a b c d : Z) : option Z :=
  match unhex a, unhex b, unhex c, unhex d with
  | Some a, Some b, Some c, Some d => Some (a * 4096 + b * 256 + c * 16 + d)
  | _, _, _, _ => None
  end.

Definition high_surrogate (z : Z) : bool := (55296 <=? z) && (z <=? 56319).
Definition low_surrogate (z : Z) : bool := (56320 <=? z) && (z <=? 57343).

(** The one-character escapes. *)
Definition unescape (c : Z) : option Z :=
  if c =? 34 then Some 34
  else if c =? 92 then Some 92
  else if c =? 47 then Some 47
  else if c =? 98 then Some 8
  else if c =? 102 then Some 12
  else if c =? 110 then Some 10
  else if c =? 114 then Some 13
  else if c =? 116 then Some 9
  else None.

Definition ucons (c : Z) (o : option (ustr * ustr)) : option (ustr * ustr) :=
  match o with Some (s, r) => Some (c :: s, r) | None => None end.

(** The low half of a surrogate pair at the head of a text. *)
Definition low_half (s : ustr) : option Z :=
  match s with
  | x :: y :: a :: b :: c :: d :: _ =>
      if (x =? 92) && (y =? 117) then
        match unhex4 a b c d with
        | Some z => if low_surrogate z then Some z else None
        | None => None
        end
      else None
  | _ => None
  end.

(** A string after its opening quote: its value and the text after the
    closing quote. *)
Fixpoint scanstring (s : ustr) : option (ustr * ustr) :=
  match s with
  | [] => None
  | c :: s1 =>
      if c =? 34 then Some ([], s1)
      else if c =? 92 then
        match s1 with
        | [] => None
        | e :: s2 =>
            if e =? 117 then
              match s2 with
              | h1 :: h2 :: h3 :: h4 :: s3 =>
                  match unhex4 h1 h2 h3 h4 with
                  | None => None
                  | Some z =>
                      match (if high_surrogate z then low_half s3 else None), s3 with
                      | Some z2, _ :: _ :: _ :: _ :: _ :: _ :: s4 =>
                          ucons (65536 + (z - 55296) * 1024 + (z2 - 56320)) (scanstring s4)
                      | _, _ => ucons z (scanstring s3)
                      end
                  end
              | _ => None
              end
            else match unescape e with
                 | Some x => ucons x (scanstring s2)
                 | None => None
                 end
        end
      else if c <? 32 then None
      else ucons c (scanstring s1)
  end.

Definition is_digit (c : Z) : bool := (48 <=? c) && (c <=? 57).

Fixpoint span_digits (s : ustr) : ustr * ustr :=
  match s with
  | c :: s' => if is_digit c then (c :: (span_digits s').1, (span_digits s').2) else ([], s)
  | [] => ([], [])
  end.

Definition digits_val (ds : ustr) : Z := fold_left (fun a d => a * 10 + (d - 48)) ds 0.

(** [(0|[1-9]\d* )] *)
Definition int_part (s : ustr) : option (ustr * ustr) :=
  match s with
  | c :: s' =>
      if c =? 48 then Some ([48], s')
      else if is_digit c then Some (span_digits s)
      else None
  | [] => None
  end.

(** [(\.\d+)?] *)
Definition frac_part (s : ustr) : ustr * ustr :=
  match s with
  | c :: s' =>
      if c =? 46 then
        match span_digits s' with
        | ([], _) => ([], s)
        | (ds, r) => (46 :: ds, r)
        end
      else ([], s)
  | [] => ([], [])
  end.

(** [([eE][-+]?\d+)?] *)
Definition exp_part (s : ustr) : ustr * ustr :=
  match s with
  | c :: s' =>
      if (c =? 101) || (c =? 69) then
        let sign := match s' with
                    | d :: _ => if (d =? 43) || (d =? 45) then [d] else []
                    | [] => []
                    end in
        match span_digits (drop (length sign) s') with
        | ([], _) => ([], s)
        | (ds, r) => (c :: sign ++ ds, r)
        end
      else ([], s)
  | [] => ([], [])
  end.

Definition scan_number (s : ustr) : option (json * ustr) :=
  let neg := match s with c :: _ => c =? 45 | [] => false end in
  match int_part (if neg then drop 1 s else s) with
  | None => None
  | Some (ds, r) =>
      let (f, r1) := frac_part r in
      let (e, r2) := exp_part r1 in
      match f, e with
      | [], [] => Some (JInt (if neg then - digits_val ds else digits_val ds), r2)
      | _, _ => Some (JFloat ((if neg then [45] else []) ++ ds ++ f ++ e), r2)
      end
  end.

(** [s] without the prefix [p]. *)
Fixpoint strip_prefix (p s : ustr) : option ustr :=
  match p, s with
  | [], _ => Some s
  | a :: p, b :: s => if a =? b then strip_prefix p s else None
  | _ :: _, [] => None
  end.

Fixpoint has_sub (p s : ustr) : bool :=
  match strip_prefix p s with
  | Some _ => true
  | None => match s with [] => false | _ :: s => has_sub p s end
  end.

(** [k in d] *)
Definition has_item (j : json) (k : string) : res bool :=
  match j with
  | JObj d => Ok (dict_has (u k) d)
  | JList l => Ok (existsb (fun x => match x with JStr s => bool_decide (s = u k) | _ => false end) l)
  | JStr s => Ok (has_sub (u k) s)
  | _ => Raise TypeError
  end.

(** [for msg in v: log msg] *)
Definition iterate (v : json) : res unit :=
  match v with JObj _ | JList _ | JStr _ => Ok tt | _ => Raise TypeError end.

Definition scan_word (w : ustr) (v : json) (s : ustr) : option (json * ustr) :=
  match strip_prefix w s with Some r => Some (v, r) | None => None end.

(** The elements of an array after its opening bracket, at least one. *)
Fixpoint elements (sc : ustr -> option (json * ustr)) (n : nat) (s : ustr)
    : option (list json * ustr) :=
  match n with
  | O => None
  | S n =>
      match sc s with
      | None => None
      | Some (v, r) =>
          match skip_ws r with
          | c :: r' =>
              if c =? 44 then
                match elements sc n (skip_ws r') with
                | Some (vs, r'') => Some (v :: vs, r'')
                | None => None
                end
              else if c =? 93 then Some ([v], r')
              else None
          | [] => None
          end
      end
  end.

(** The members of an object after its opening brace, at least one. *)
Fixpoint members (sc : ustr -> option (json * ustr)) (n : nat) (s : ustr)
    : option (list (ustr * json) * ustr) :=
  match n, s with
  | S n, q :: s =>
      if q =? 34 then
        match scanstring s with
        | None => None
        | Some (k, r) =>
            match skip_ws r with
            | c :: r' =>
                if c =? 58 then
                  match sc (skip_ws r') with
                  | None => None
                  | Some (v, r1) =>
                      match skip_ws r1 with
                      | d :: r2 =>
                          if d =? 44 then
                            match members sc n (skip_ws r2) with
                            | Some (kvs, r3) => Some ((k, v) :: kvs, r3)
                            | None => None
                            end
                          else if d =? 125 then Some ([(k, v)], r2)
                          else None
                      | [] => None
                      end
                  end
                else None
            | [] => None
            end
        end
      else None
  | _, _ => None
  end.

(** [scan_once]: one value at the head of a text. *)
Fixpoint scan (n : nat) (s : ustr) : option (json * ustr) :=
  match n, s with
  | O, _ | _, [] => None
  | S n, c :: s1 =>
      if c =? 34 then
        match scanstring s1 with Some (x, r) => Some (JStr x, r) | None => None end
      else if c =? 123 then
        match skip_ws s1 with
        | d :: r =>
            if d =? 125 then Some (JObj [], r)
            else match members (scan n) n (d :: r) with
                 | Some (kvs, r') => Some (JObj (dict_update [] kvs), r')
                 | None => None
                 end
        | [] => None
        end
      else if c =? 91 then
        match skip_ws s1 with
        | d :: r =>
            if d =? 93 then Some (JList [], r)
            else match elements (scan n) n (d :: r) with
                 | Some (vs, r') => Some (JList vs, r')
                 | None => None
                 end
        | [] => None
        end
      else if c =? 110 then scan_word (u "null") JNull s
      else if c =? 116 then scan_word (u "true") (JBool true) s
      else if c =? 102 then scan_word (u "false") (JBool false) s
      else match scan_number s with
           | Some x => Some x
           | None =>
               if c =? 78 then scan_word (u "NaN") (JFloat (u "NaN")) s
               else if c =? 73 then scan_word (u "Infinity") (JFloat (u "Infinity")) s
               else if c =? 45 then scan_word (u "-Infinity") (JFloat (u "-Infinity")) s
               else None
           end
  end.

Definition loads (s : ustr) : res json :=
  if (match s with c :: _ => c =? 65279 | [] => false end) then Raise JSONDecodeError
  else
    match scan (S (length s)) (skip_ws s) with
    | Some (v, r) => if Nat.eqb (length (skip_ws r)) 0 then Ok v else Raise JSONDecodeError
    | None => Raise JSONDecodeError
    end.

(** * UTF-8 *)

(** [s.encode()] for code points that have an encoding. *)
Definition utf8_char (c : Z) : list Z :=
  if c <? 128 then [c]
  else if c <? 2048 then [192 + c / 64; 128 + c mod 64]
  else if c <? 65536 then [224 + c / 4096; 128 + c / 64 mod 64; 128 + c mod 64]
  else [240 + c / 262144; 128 + c / 4096 mod 64; 128 + c / 64 mod 64; 128 + c mod 64].

Definition utf8_encode (s : ustr) : bytes := map byte_of (flat_map utf8_char s).

Definition cont (b : Z) : bool := (128 <=? b) && (b <=? 191).

(** [b.decode("utf-8")]: overlong forms, surrogates and truncated sequences
    raise. *)
Fixpoint utf8_decode_z (b : list Z) : option ustr :=
  match b with
  | [] => Some []
  | c :: b1 =>
      if c <? 128 then (cons c) <$> utf8_decode_z b1
      else match b1 with
      | [] => None
      | c1 :: b2 =>
          if (194 <=? c) && (c <=? 223) && cont c1 then
            (cons ((c - 192) * 64 + (c1 - 128))) <$> utf8_decode_z b2
          else match b2 with
          | [] => None
          | c2 :: b3 =>
              if (224 <=? c) && (c <=? 239) && cont c1 && cont c2
                 && ((225 <=? c) || (160 <=? c1)) && (negb (c =? 237) || (c1 <=? 159)) then
                (cons ((c - 224) * 4096 + (c1 - 128) * 64 + (c2 - 128))) <$> utf8_decode_z b3
              else match b3 with
              | [] => None
              | c3 :: b4 =>
                  if (240 <=? c) && (c <=? 244) && cont c1 && cont c2 && cont c3
                     && ((241 <=? c) || (144 <=? c1)) && (negb (c =? 244) || (c1 <=? 143)) then
                    (cons ((c - 240) * 262144 + (c1 - 128) * 4096 + (c2 - 128) * 64 + (c3 - 128)))
                      <$> utf8_decode_z b4
                  else None
              end
          end
      end
  end.

Definition utf8_decode (b : bytes) : res ustr :=
  opt_res UnicodeDecodeError (utf8_decode_z (map byte_val b)).

(** * Lemmas *)

(** ** Strings *)

(** A Unicode scalar value. *)
Definition scalar (c : Z) : Prop := 0 <= c < 55296 \/ 57344 <= c < 1114112.

Lemma unhex_hexd d : 0 <= d < 16 -> unhex (hexd d) = Some d.
Proof.
  intros Hd. unfold unhex, hexd.
  destruct (Z.ltb_spec d 10);
    repeat (case_match; rewrite ?andb_true_iff, ?andb_false_iff, ?Z.leb_le, ?Z.leb_gt in *);
    first [f_equal; lia | lia].
Qed.

Lemma unhex4_escape z : 0 <= z < 65536 ->
  unhex4 (hexd (z / 4096 mod 16)) (hexd (z / 256 mod 16)) (hexd (z / 16 mod 16)) (hexd (z mod 16))
  = Some z.
Proof.
  intros Hz. unfold unhex4. rewrite !unhex_hexd by (apply Z.mod_pos_bound; lia).
  f_equal. Z.to_euclidean_division_equations. lia.
Qed.

Lemma low_half_escape z t : 56320 <= z <= 57343 -> low_half (u_escape z ++ t) = Some z.
Proof.
  intros Hz. unfold low_half, u_escape. cbn [app]. rewrite unhex4_escape by lia.
  unfold low_surrogate. rewrite (proj2 (Z.leb_le _ _)), (proj2 (Z.leb_le _ _)) by lia. done.
Qed.

Lemma scanstring_u_escape z t : 0 <= z < 65536 ->
  scanstring (u_escape z ++ t) =
    match (if high_surrogate z then low_half t else None), t with
    | Some z2, _ :: _ :: _ :: _ :: _ :: _ :: s4 =>
        ucons (65536 + (z - 55296) * 1024 + (z2 - 56320)) (scanstring s4)
    | _, _ => ucons z (scanstring t)
    end.
Proof. intros Hz. unfold u_escape. cbn [app scanstring Z.eqb Pos.eqb]. by rewrite unhex4_escape. Qed.

Lemma scanstring_escape c t : scalar c -> scanstring (escape c ++ t) = ucons c (scanstring t).
Proof.
  intros Hc. unfold scalar in Hc. unfold escape.
  repeat match goal with
  | |- context [if c =? ?n then _ else _] =>
      destruct (Z.eqb_spec c n) as [->|?]; [reflexivity|]
  end.
  destruct ((32 <=? c) && (c <=? 126)) eqn:E.
  { apply andb_true_iff in E as [E1%Z.leb_le E2%Z.leb_le]. cbn [app scanstring].
    by rewrite !(proj2 (Z.eqb_neq _ _)), (proj2 (Z.ltb_ge _ _)) by lia. }
  destruct (Z.ltb_spec c 65536).
  { rewrite scanstring_u_escape by lia. unfold high_surrogate.
    destruct (Z.leb_spec 55296 c), (Z.leb_spec c 56319); try lia; cbn [andb]; done. }
  rewrite <-(assoc_L (++)).
  assert (0 <= (c - 65536) / 1024 < 1024) by (Z.to_euclidean_division_equations; lia).
  assert (0 <= (c - 65536) mod 1024 < 1024) by (apply Z.mod_pos_bound; lia).
  rewrite scanstring_u_escape by lia. unfold high_surrogate.
  rewrite (proj2 (Z.leb_le _ _)), (proj2 (Z.leb_le _ _)) by lia. cbn [andb].
  rewrite low_half_escape by lia. unfold u_escape at 1. cbn [app]. f_equal.
  Z.to_euclidean_division_equations. lia.
Qed.

Lemma scanstring_quoted s r :
  Forall scalar s -> scanstring (flat_map escape s ++ 34 :: r) = Some (s, r).
Proof.
  induction 1 as [|c s Hc _ IH]; [done|]. cbn [flat_map].
  rewrite <-(assoc_L (++)), scanstring_escape, IH by done. done.
Qed.

Lemma quote_app s r : quote s ++ r = 34 :: flat_map escape s ++ 34 :: r.
Proof. unfold quote. cbn [app]. by rewrite <-(assoc_L (++)). Qed.

(** ** Numbers *)

(** The text after a number cannot continue it. *)
Definition num_stop (r : ustr) : Prop :=
  match r with
  | c :: _ => is_digit c = false /\ c <> 46 /\ c <> 101 /\ c <> 69
  | [] => True
  end.

(** Weaker conditions: the text cannot continue the fraction, the integer. *)
Definition frac_stop (r : ustr) : Prop :=
  match r with c :: _ => is_digit c = false /\ c <> 46 | [] => True end.
Definition int_stop (r : ustr) : Prop :=
  match r with c :: _ => is_digit c = false | [] => True end.

Lemma num_frac_stop r : num_stop r -> frac_stop r.
Proof. destruct r; [done|]. by intros (? & ? & _). Qed.
Lemma frac_int_stop r : frac_stop r -> int_stop r.
Proof. destruct r; [done|]. by intros []. Qed.
#[local] Hint Resolve num_frac_stop frac_int_stop : pydb.

Lemma digits_go_app fuel z acc : digits_go fuel z acc = digits_go fuel z [] ++ acc.
Proof.
  revert z acc. induction fuel as [|fuel IH]; intros z acc; [done|]. cbn [digits_go].
  case_match; [done|]. rewrite IH, (IH _ [_]), <-(assoc_L (++)). done.
Qed.

Lemma digits_go_digit fuel z : 0 <= z -> Forall (fun c => is_digit c = true) (digits_go fuel z []).
Proof.
  revert z. induction fuel as [|fuel IH]; intros z Hz; [constructor|]. cbn [digits_go].
  assert (is_digit (48 + z mod 10) = true) as Hd.
  { pose proof (Z.mod_pos_bound z 10 ltac:(lia)). unfold is_digit.
    by rewrite !(proj2 (Z.leb_le _ _)) by lia. }
  case_match; [by repeat constructor|].
  rewrite digits_go_app. apply Forall_app. split; [|by repeat constructor].
  apply IH. apply Z.div_pos; lia.
Qed.

Lemma digits_val_app a b : digits_val (a ++ b) =
  fold_left (fun a d => a * 10 + (d - 48)) b (digits_val a).
Proof. unfold digits_val. by rewrite fold_left_app. Qed.

Lemma digits_go_val fuel z : 0 <= z < 2 ^ Z.of_nat fuel -> digits_val (digits_go fuel z []) = z.
Proof.
  revert z. induction fuel as [|fuel IH]; intros z Hz.
  { change (2 ^ Z.of_nat 0) with 1 in Hz. cbn. lia. }
  cbn [digits_go]. rewrite Nat2Z.inj_succ, Z.pow_succ_r in Hz by lia.
  destruct (Z.eqb_spec (z / 10) 0) as [E|E].
  - cbn. Z.to_euclidean_division_equations. lia.
  - rewrite digits_go_app, digits_val_app, IH by (Z.to_euclidean_division_equations; lia).
    cbn. Z.to_euclidean_division_equations. lia.
Qed.

Lemma digits_fuel z : 0 <= z -> 0 <= z < 2 ^ Z.of_nat (S (Z.to_nat (Z.log2 z))).
Proof.
  intros Hz. rewrite Nat2Z.inj_succ, Z2Nat.id by apply Z.log2_nonneg.
  destruct (Z.eq_dec z 0) as [->|]; [done|]. pose proof (Z.log2_spec z). lia.
Qed.

Lemma digits_spec z : 0 <= z ->
  Forall (fun c => is_digit c = true) (digits z) /\ digits_val (digits z) = z.
Proof.
  intros Hz. split; [by apply digits_go_digit|]. by apply digits_go_val, digits_fuel.
Qed.

(** No leading zero. *)
Lemma digits_go_head fuel z : 0 < z < 2 ^ Z.of_nat fuel ->
  exists c s, digits_go fuel z [] = c :: s /\ c <> 48.
Proof.
  revert z. induction fuel as [|fuel IH]; intros z Hz.
  { change (2 ^ Z.of_nat 0) with 1 in Hz. lia. }
  cbn [digits_go]. rewrite Nat2Z.inj_succ, Z.pow_succ_r in Hz by lia.
  destruct (Z.eqb_spec (z / 10) 0) as [E|E].
  - eexists _, _. split; [done|]. Z.to_euclidean_division_equations. lia.
  - rewrite digits_go_app. destruct (IH (z / 10)) as (c & s & -> & Hc).
    { Z.to_euclidean_division_equations. lia. }
    eexists _, _. split; [reflexivity|done].
Qed.

Lemma span_digits_app ds r :
  Forall (fun c => is_digit c = true) ds ->
  int_stop r ->
  span_digits (ds ++ r) = (ds, r).
Proof.
  intros Hds Hr. induction Hds as [|c ds Hc _ IH]; cbn [app span_digits].
  - destruct r as [|c r]; [done|]. cbn. by rewrite Hr.
  - by rewrite Hc, IH.
Qed.

Lemma int_part_digits z r : 0 <= z ->
  int_stop r ->
  int_part (digits z ++ r) = Some (digits z, r).
Proof.
  intros Hz Hr. destruct (Z.eq_dec z 0) as [->|Hne]; [by destruct r|].
  destruct (digits_spec z Hz) as [Hd _].
  destruct (digits_go_head (S (Z.to_nat (Z.log2 z))) z) as (c & s & E & Hc).
  { pose proof (digits_fuel z Hz). lia. }
  fold (digits z) in E.
  rewrite E in *. cbn [app int_part]. rewrite (proj2 (Z.eqb_neq _ _)) by done.
  rewrite (Forall_inv Hd). f_equal. by apply (span_digits_app (c :: s)).
Qed.

Lemma frac_part_stop r : frac_stop r -> frac_part r = ([], r).
Proof.
  destruct r as [|c r]; [done|]. intros (_ & Hc). cbn.
  by rewrite (proj2 (Z.eqb_neq _ _)).
Qed.

Lemma exp_part_stop r : num_stop r -> exp_part r = ([], r).
Proof.
  destruct r as [|c r]; [done|]. intros (_ & _ & H1 & H2). cbn.
  by rewrite !(proj2 (Z.eqb_neq _ _)).
Qed.

Lemma digit_not c n : is_digit c = true -> (n < 48 \/ 57 < n) -> c <> n.
Proof. unfold is_digit. rewrite andb_true_iff, !Z.leb_le. lia. Qed.

Lemma scan_number_int z r : num_stop r -> scan_number (int_text z ++ r) = Some (JInt z, r).
Proof.
  intros Hr. unfold int_text. destruct (Z.ltb_spec z 0).
  - cbn [app]. unfold scan_number. cbn [Z.eqb Pos.eqb skipn]. rewrite drop_0.
    rewrite int_part_digits by (lia || auto with pydb).
    rewrite frac_part_stop, exp_part_stop by auto with pydb.
    destruct (digits_spec (- z)) as [_ ->]; [lia|]. by rewrite Z.opp_involutive.
  - destruct (digits_spec z) as [Hd Hv]; [lia|].
    unfold scan_number.
    assert ((match digits z ++ r with c :: _ => c =? 45 | [] => false end) = false) as ->.
    { destruct (digits z) as [|c s] eqn:E.
      - destruct r as [|c r]; [done|]. exfalso.
        unfold digits in E. cbn [digits_go] in E. case_match; [discriminate|].
        rewrite digits_go_app in E. by apply app_nil in E as [_ ?].
      - cbn. apply Z.eqb_neq, digit_not; [exact (Forall_inv Hd)|lia]. }
    rewrite int_part_digits by (lia || auto with pydb).
    by rewrite frac_part_stop, exp_part_stop, Hv by auto with pydb.
Qed.

(** ** Extending the text *)

Lemma skip_ws_app s c r t : skip_ws s = c :: r -> skip_ws (s ++ t) = c :: r ++ t.
Proof.
  induction s as [|d s IH]; [done|]. cbn. case_match; [done|]. by intros [= -> ->].
Qed.

Lemma skip_ws_head s c r : skip_ws s = c :: r -> is_ws c = false.
Proof. induction s as [|d s IH]; [done|]. cbn. case_match; [done|]. congruence. Qed.

Lemma skip_ws_length s : (length (skip_ws s) <= length s)%nat.
Proof. induction s as [|c s IH]; [done|]. cbn. case_match; cbn; lia. Qed.

Lemma span_digits_ext s t ds r :
  span_digits s = (ds, r) ->
  int_stop (r ++ t) ->
  span_digits (s ++ t) = (ds, r ++ t).
Proof.
  revert ds r. induction s as [|c s IH]; intros ds r; cbn [span_digits].
  - intros [= <- <-] Hr. destruct t as [|c t]; [done|]. cbn in *. by rewrite Hr.
  - destruct (is_digit c) eqn:E.
    + destruct (span_digits s) as [ds' r'] eqn:E'. intros [= <- <-] Hr.
      cbn [app span_digits]. rewrite E. by rewrite (IH ds' r').
    + intros [= <- <-] _. cbn. by rewrite E.
Qed.

Lemma frac_part_ext s t f r :
  frac_part s = (f, r) -> frac_stop (r ++ t) -> frac_part (s ++ t) = (f, r ++ t).
Proof.
  destruct s as [|c s]; cbn [frac_part app].
  { intros [= <- <-] Hr. exact (frac_part_stop _ Hr). }
  destruct (Z.eqb_spec c 46) as [->|].
  - destruct (span_digits s) as [[|d ds] r'] eqn:E; intros [= <- <-] Hr.
    + by destruct Hr as (_ & ?).
    + apply frac_int_stop in Hr. by rewrite (span_digits_ext s t _ _ E Hr).
  - intros [= <- <-] _. done.
Qed.

Lemma exp_part_ext s t e r :
  exp_part s = (e, r) -> num_stop (r ++ t) -> exp_part (s ++ t) = (e, r ++ t).
Proof.
  destruct s as [|c s]; cbn [exp_part app].
  { intros [= <- <-] Hr. exact (exp_part_stop _ Hr). }
  destruct ((c =? 101) || (c =? 69)) eqn:Ec.
  - intros H Hr. assert (num_stop (c :: (s ++ t)) -> False) as Hno.
    { intros (_ & _ & ? & ?). apply orb_true_iff in Ec as [?%Z.eqb_eq|?%Z.eqb_eq]; done. }
    destruct s as [|d s].
    { cbn in H. injection H as <- <-. by destruct (Hno Hr). }
    cbn [app].
    set (sign := if (d =? 43) || (d =? 45) then [d] else []) in *.
    assert (drop (length sign) ((d :: s) ++ t) = drop (length sign) (d :: s) ++ t) as Hdrop.
    { unfold sign. by destruct ((d =? 43) || (d =? 45)). }
    cbn [app] in Hdrop. rewrite Hdrop.
    destruct (span_digits (drop (length sign) (d :: s))) as [[|d' ds] r'] eqn:E;
      injection H as <- <-.
    + by destruct (Hno Hr).
    + apply num_frac_stop, frac_int_stop in Hr. by rewrite (span_digits_ext _ t _ _ E Hr).
  - intros [= <- <-] _. done.
Qed.

Lemma int_part_ext s t ds r :
  int_part s = Some (ds, r) -> int_stop (r ++ t) -> int_part (s ++ t) = Some (ds, r ++ t).
Proof.
  destruct s as [|c s]; [done|]. cbn [app int_part].
  destruct (c =? 48); [congruence|]. destruct (is_digit c) eqn:E; [|done].
  intros [= H] Hr. f_equal. by apply (span_digits_ext (c :: s)).
Qed.

(** Before an exponent or a fraction the text cannot continue either. *)
Lemma exp_part_before s t e r :
  exp_part s = (e, r) -> num_stop (r ++ t) -> frac_stop (s ++ t).
Proof.
  destruct s as [|c s]; cbn [exp_part].
  { intros [= <- <-]. apply num_frac_stop. }
  destruct ((c =? 101) || (c =? 69)) eqn:Ec.
  - intros _ _. cbn. apply orb_true_iff in Ec as [->%Z.eqb_eq| ->%Z.eqb_eq]; done.
  - intros [= <- <-]. apply num_frac_stop.
Qed.

Lemma frac_part_before s t f r :
  frac_part s = (f, r) -> frac_stop (r ++ t) -> int_stop (s ++ t).
Proof.
  destruct s as [|c s]; cbn [frac_part].
  { intros [= <- <-]. apply frac_int_stop. }
  destruct (Z.eqb_spec c 46) as [->|].
  - done.
  - intros [= <- <-]. apply frac_int_stop.
Qed.

Lemma scan_number_ext s t v r :
  scan_number s = Some (v, r) -> num_stop (r ++ t) -> scan_number (s ++ t) = Some (v, r ++ t).
Proof.
  unfold scan_number. destruct s as [|c s]; [done|]. cbn [app].
  set (neg := c =? 45). set (s1 := if neg then drop 1 (c :: s) else c :: s).
  assert ((if neg then drop 1 (c :: s ++ t) else c :: s ++ t) = s1 ++ t) as ->.
  { unfold s1. by destruct neg. }
  destruct (int_part s1) as [[ds r0]|] eqn:Ei; [|done].
  destruct (frac_part r0) as [f r1] eqn:Ef. destruct (exp_part r1) as [e r2] eqn:Ee.
  intros Hv Hr. assert (r2 = r) as -> by (destruct f, e; congruence).
  pose proof (exp_part_before _ _ _ _ Ee Hr) as Hr1.
  pose proof (frac_part_before _ _ _ _ Ef Hr1) as Hr0.
  rewrite (int_part_ext _ _ _ _ Ei Hr0), (frac_part_ext _ _ _ _ Ef Hr1),
    (exp_part_ext _ _ _ _ Ee Hr).
  destruct f, e; congruence.
Qed.

Lemma scanstring_low_half s t x : scanstring s = Some x -> low_half (s ++ t) = low_half s.
Proof.
  destruct s as [|a [|b [|c [|d [|e [|f s]]]]]]; cbn [scanstring low_half app];
    try done; repeat case_match; try done; lia.
Qed.

Lemma scanstring_ext s t x r : scanstring s = Some (x, r) -> scanstring (s ++ t) = Some (x, r ++ t).
Proof.
  remember (length s) as n eqn:Hn. revert s Hn x.
  induction (lt_wf n) as [n _ IH]. intros s -> x.
  assert (forall s' x', (length s' < length s)%nat -> scanstring s' = Some (x', r) ->
    scanstring (s' ++ t) = Some (x', r ++ t)) as IH'.
  { intros s' x' Hl. by eapply IH. }
  assert (forall c s' x', (length s' < length s)%nat -> ucons c (scanstring s') = Some (x', r) ->
    ucons c (scanstring (s' ++ t)) = Some (x', r ++ t)) as IHc.
  { intros c s' x' Hl Hs. destruct (scanstring s') as [[y r']|] eqn:E; [|done].
    cbn in Hs. injection Hs as <- ->. by rewrite (IH' s' y). }
  clear IH. destruct s as [|c s1]; [done|]. cbn [scanstring app].
  destruct (c =? 34); [congruence|]. destruct (c =? 92).
  - destruct s1 as [|e s2]; [done|]. cbn [app]. destruct (e =? 117).
    + destruct s2 as [|h1 [|h2 [|h3 [|h4 s3]]]]; try done. cbn [app].
      destruct (unhex4 h1 h2 h3 h4) as [z|]; [|done].
      destruct (if high_surrogate z then low_half s3 else None) as [z2|] eqn:El.
      * destruct s3 as [|a1 [|a2 [|a3 [|a4 [|a5 [|a6 s4]]]]]];
          try (by destruct (high_surrogate z)).
        change (low_half ((a1 :: a2 :: a3 :: a4 :: a5 :: a6 :: s4) ++ t))
          with (low_half (a1 :: a2 :: a3 :: a4 :: a5 :: a6 :: s4)).
        rewrite El. apply IHc. cbn. lia.
      * intros Hs. assert ((if high_surrogate z then low_half (s3 ++ t) else None) = None) as ->.
        { destruct (high_surrogate z); [|done].
          destruct (scanstring s3) as [y|] eqn:Es; [|done].
          by rewrite (scanstring_low_half _ _ _ Es). }
        revert Hs. apply IHc. cbn. lia.
    + destruct (unescape e); [|done]. apply IHc. cbn. lia.
  - destruct (c <? 32); [done|]. apply IHc. cbn. lia.
Qed.

(** ** Values *)

(** One value can be told from the text after it: always for a value that
    ends in a delimiter, and for a number when the text cannot continue it. *)
Definition delimited (c : Z) : bool := (c =? 34) || (c =? 123) || (c =? 91).

Definition ends_before (s r : ustr) : Prop :=
  match s with c :: _ => delimited c = true | [] => False end \/ num_stop r.

Lemma ws_stop c r : is_ws c = true -> num_stop (c :: r).
Proof. unfold is_ws, num_stop, is_digit. intros H. split_and!; lia. Qed.

(** Before a comma or a closing bracket, maybe after spaces, a number ends. *)
Lemma skip_ws_stop r c r' t :
  skip_ws r = c :: r' -> c = 44 \/ c = 93 \/ c = 125 -> num_stop (r ++ t).
Proof.
  destruct r as [|d r]; [done|]. cbn [skip_ws]. destruct (is_ws d) eqn:E.
  - intros _ _. by apply ws_stop.
  - intros [= -> ->] [->|[->| ->]]; by split_and!.
Qed.

Lemma strip_prefix_ext w s t r : strip_prefix w s = Some r -> strip_prefix w (s ++ t) = Some (r ++ t).
Proof.
  revert s. induction w as [|a w IH]; intros s; cbn.
  - by intros [= ->].
  - destruct s as [|b s]; [done|]. cbn. destruct (a =? b); [apply IH|done].
Qed.

Lemma scan_word_ext w v0 s t v r : scan_word w v0 s = Some (v, r) -> scan_word w v0 (s ++ t) = Some (v, r ++ t).
Proof.
  unfold scan_word. destruct (strip_prefix w s) as [r'|] eqn:E; [|done].
  intros [= <- <-]. by rewrite (strip_prefix_ext _ _ _ _ E).
Qed.

Section Extend.
Context (sc sc' : ustr -> option (json * ustr)) (t : ustr).
Context (Hnil : sc [] = None).
Context (Hsc : forall s v r, sc s = Some (v, r) -> num_stop (r ++ t) -> sc' (s ++ t) = Some (v, r ++ t)).

Lemma elements_nil n : elements sc n [] = None.
Proof. destruct n; [done|]. cbn. by rewrite Hnil. Qed.

Lemma elements_ext n m s vs r :
  (n <= m)%nat ->
  elements sc n s = Some (vs, r) -> elements sc' m (s ++ t) = Some (vs, r ++ t).
Proof.
  revert m s vs r. induction n as [|n IH]; intros m s vs r Hm; [done|].
  destruct m as [|m]; [lia|]. cbn [elements].
  destruct (sc s) as [[v r1]|] eqn:E; [|done].
  destruct (skip_ws r1) as [|c r2] eqn:Ew; [done|].
  destruct (Z.eqb_spec c 44) as [->|].
  - destruct (elements sc n (skip_ws r2)) as [[vs' r3]|] eqn:El; [|done]. intros [= <- <-].
    rewrite (Hsc _ _ _ E) by (eapply skip_ws_stop; eauto). rewrite (skip_ws_app _ _ _ _ Ew).
    cbn [Z.eqb Pos.eqb].
    destruct (skip_ws r2) as [|d r4] eqn:E2; [by rewrite elements_nil in El|].
    rewrite (skip_ws_app _ _ _ _ E2). change (d :: r4 ++ t) with ((d :: r4) ++ t).
    by rewrite (IH m _ _ _ ltac:(lia) El).
  - destruct (Z.eqb_spec c 93) as [->|]; [|done]. intros [= <- <-].
    rewrite (Hsc _ _ _ E) by (eapply skip_ws_stop; eauto). rewrite (skip_ws_app _ _ _ _ Ew).
    done.
Qed.

Lemma members_ext n m s kvs r :
  (n <= m)%nat ->
  members sc n s = Some (kvs, r) -> members sc' m (s ++ t) = Some (kvs, r ++ t).
Proof.
  revert m s kvs r. induction n as [|n IH]; intros m s kvs r Hm; [done|].
  destruct m as [|m]; [lia|]. destruct s as [|q s]; [done|]. cbn [members app].
  destruct (q =? 34); [|done].
  destruct (scanstring s) as [[k r1]|] eqn:Ek; [|done]. rewrite (scanstring_ext _ t _ _ Ek).
  destruct (skip_ws r1) as [|c r2] eqn:Ew; [done|]. rewrite (skip_ws_app _ _ _ _ Ew).
  destruct (c =? 58); [|done].
  destruct (sc (skip_ws r2)) as [[v r3]|] eqn:Ev; [|done].
  destruct (skip_ws r2) as [|d r2'] eqn:Ew2; [by rewrite Hnil in Ev|].
  rewrite (skip_ws_app _ _ _ _ Ew2). change (d :: r2' ++ t) with ((d :: r2') ++ t).
  destruct (skip_ws r3) as [|e r4] eqn:Ew3; [done|].
  destruct (Z.eqb_spec e 44) as [->|].
  - destruct (members sc n (skip_ws r4)) as [[kvs' r5]|] eqn:Em; [|done]. intros [= <- <-].
    rewrite (Hsc _ _ _ Ev) by (eapply skip_ws_stop; eauto). rewrite (skip_ws_app _ _ _ _ Ew3).
    cbn [Z.eqb Pos.eqb].
    destruct (skip_ws r4) as [|f r6] eqn:E6; [by destruct n|].
    rewrite (skip_ws_app _ _ _ _ E6). change (f :: r6 ++ t) with ((f :: r6) ++ t).
    by rewrite (IH m _ _ _ ltac:(lia) Em).
  - destruct (Z.eqb_spec e 125) as [->|]; [|done]. intros [= <- <-].
    rewrite (Hsc _ _ _ Ev) by (eapply skip_ws_stop; eauto). rewrite (skip_ws_app _ _ _ _ Ew3).
    done.
Qed.
End Extend.

(** More text and more fuel do not change a value that has been read, if the
    text cannot continue it. *)
Lemma scan_ext n m s t v r :
  (n <= m)%nat -> scan n s = Some (v, r) -> ends_before s (r ++ t) ->
  scan m (s ++ t) = Some (v, r ++ t).
Proof.
  revert m s t v r. induction n as [|n IH]; intros m s t v r Hm; [done|].
  destruct m as [|m]; [lia|]. destruct s as [|c s1]; [done|].
  assert (forall s v r, scan n s = Some (v, r) -> num_stop (r ++ t) ->
    scan m (s ++ t) = Some (v, r ++ t)) as IH'.
  { intros s v' r' Hs Hr. apply IH; [lia|done|by right]. }
  assert (scan n [] = None) as Hnil by (by destruct n).
  intros Hs Hd. cbn [scan app] in *. unfold ends_before, delimited in Hd.
  destruct (Z.eqb_spec c 34) as [->|].
  { destruct (scanstring s1) as [[x r']|] eqn:E; [|done]. injection Hs as <- <-.
    by rewrite (scanstring_ext _ t _ _ E). }
  destruct (Z.eqb_spec c 123) as [->|].
  { destruct (skip_ws s1) as [|d r'] eqn:E; [done|]. rewrite (skip_ws_app _ _ _ _ E).
    destruct (d =? 125); [congruence|].
    destruct (members (scan n) n (d :: r')) as [[kvs r1]|] eqn:Em; [|done].
    injection Hs as <- <-. change (d :: r' ++ t) with ((d :: r') ++ t).
    by rewrite (members_ext _ (scan m) t Hnil IH' n m _ _ _ ltac:(lia) Em). }
  destruct (Z.eqb_spec c 91) as [->|].
  { destruct (skip_ws s1) as [|d r'] eqn:E; [done|]. rewrite (skip_ws_app _ _ _ _ E).
    destruct (d =? 93); [congruence|].
    destruct (elements (scan n) n (d :: r')) as [[vs r1]|] eqn:Em; [|done].
    injection Hs as <- <-. change (d :: r' ++ t) with ((d :: r') ++ t).
    by rewrite (elements_ext _ (scan m) t Hnil IH' n m _ _ _ ltac:(lia) Em). }
  destruct Hd as [Hd|Hd]; [by destruct c as [|[]|]|].
  change (c :: s1 ++ t) with ((c :: s1) ++ t).
  destruct (c =? 110); [by apply scan_word_ext|].
  destruct (c =? 116); [by apply scan_word_ext|].
  destruct (c =? 102); [by apply scan_word_ext|].
  destruct (scan_number (c :: s1)) as [[v' r']|] eqn:En.
  { injection Hs as <- <-. by rewrite (scan_number_ext _ t _ _ En Hd). }
  destruct (Z.eqb_spec c 78) as [->|]; [by apply (scan_word_ext (u "NaN"))|].
  destruct (Z.eqb_spec c 73) as [->|]; [by apply (scan_word_ext (u "Infinity"))|].
  destruct (Z.eqb_spec c 45) as [->|]; [|done].
  destruct s1 as [|d s1]; [done|].
  destruct (Z.eqb_spec d 73) as [->|Hd'].
  - by apply (scan_word_ext (u "-Infinity")).
  - unfold scan_word in Hs.
    change (strip_prefix (u "-Infinity") (45 :: d :: s1))
      with (if 73 =? d then strip_prefix (u "nfinity") s1 else None) in Hs.
    by rewrite (proj2 (Z.eqb_neq 73 d)) in Hs by congruence.
Qed.

(** ** Round trip *)

(** Documents of scalar strings, number literals and distinct keys. *)
Fixpoint jwf (j : json) : Prop :=
  match j with
  | JNull | JBool _ | JInt _ => True
  | JFloat l => scan_number l = Some (JFloat l, [])
  | JStr s => Forall scalar s
  | JList l => (fix go l := match l with [] => True | j :: l => jwf j /\ go l end) l
  | JObj d =>
      NoDup (map fst d) /\
      (fix go d := match d with
                   | [] => True
                   | (k, j) :: d => (Forall scalar k /\ jwf j) /\ go d
                   end) d
  end.

Lemma jwf_list l : jwf (JList l) <-> Forall jwf l.
Proof. induction l as [|j l IH]; [by split; constructor|]. rewrite Forall_cons, <-IH. done. Qed.

Lemma jwf_obj d : jwf (JObj d) <->
  NoDup (map fst d) /\ Forall (fun kv => Forall scalar kv.1 /\ jwf kv.2) d.
Proof.
  cbn [jwf]. apply and_iff_compat_l. induction d as [|[k j] d IH]; [by split; constructor|].
  by rewrite Forall_cons, <-IH.
Qed.

(** Induction with hypotheses on the elements. *)
Lemma json_ind' (P : json -> Prop) :
  P JNull -> (forall b, P (JBool b)) -> (forall z, P (JInt z)) -> (forall l, P (JFloat l)) ->
  (forall s, P (JStr s)) -> (forall l, Forall P l -> P (JList l)) ->
  (forall d, Forall (fun kv => P kv.2) d -> P (JObj d)) -> forall j, P j.
Proof.
  intros H1 H2 H3 H4 H5 H6 H7. fix go 1. intros [|b|z|l|s|l|d];
    [apply H1|apply H2|apply H3|apply H4|apply H5|apply H6|apply H7].
  - induction l as [|j l IH]; constructor; [apply go|apply IH].
  - induction d as [|[k j] d IH]; constructor; [apply go|apply IH].
Qed.

Lemma is_ws_false c : c <> 32 -> c <> 9 -> c <> 10 -> c <> 13 -> is_ws c = false.
Proof. intros. unfold is_ws. lia. Qed.

(** The first character of a document: never a space or a bracket. *)
Lemma dumps_head j : jwf j -> exists c s, dumps j = c :: s /\ is_ws c = false /\ c <> 93.
Proof.
  destruct j as [|[]|z|l|s|l|d]; intros Hj; try by (eexists _, _; split_and!; reflexivity || done).
  - cbn [dumps]. unfold int_text. destruct (Z.ltb_spec z 0); [by eexists _, _|].
    destruct (digits_spec z) as [Hd _]; [lia|].
    destruct (digits z) as [|c s] eqn:E.
    + unfold digits in E. cbn [digits_go] in E. case_match; [discriminate|].
      rewrite digits_go_app in E. by apply app_nil in E as [_ ?].
    + eexists _, _. split; [done|]. apply Forall_inv in Hd. unfold is_digit in Hd.
      unfold is_ws. split; lia.
  - cbn [dumps]. cbn [jwf] in Hj. destruct l as [|c l]; [done|].
    eexists _, _. split; [done|]. unfold scan_number in Hj. unfold is_ws.
    destruct (Z.eqb_spec c 45) as [->|]; [done|]. cbn [int_part] in Hj.
    destruct (Z.eqb_spec c 48) as [->|]; [done|].
    destruct (is_digit c) eqn:E; [|done]. unfold is_digit in E. lia.
Qed.

Lemma skip_ws_dumps j r : jwf j -> skip_ws (dumps j ++ r) = dumps j ++ r.
Proof. intros Hj. destruct (dumps_head j Hj) as (c & s & -> & Hc & _). cbn. by rewrite Hc. Qed.

Lemma ujoin_cons sep (w : ustr) ws :
  ujoin sep (w :: ws) = match ws with [] => w | _ => w ++ sep ++ ujoin sep ws end.
Proof. by destruct ws. Qed.

(** Reading a document back, with any text that cannot continue it after
    it. *)
Definition reads (j : json) : Prop :=
  forall n r, (length (dumps j) < n)%nat -> num_stop r -> scan n (dumps j ++ r) = Some (j, r).

Lemma elements_reads n m l r :
  Forall (fun j => jwf j /\ reads j) l -> l <> [] ->
  (length (ujoin [44%Z; 32%Z] (map dumps l)) < n)%nat ->
  (length l <= m)%nat ->
  elements (scan n) m (ujoin [44; 32] (map dumps l) ++ 93 :: r) = Some (l, r).
Proof.
  intros Hl. revert m. induction Hl as [|j l [Hj Hread] Hl IH]; intros m Hne Hn Hm; [done|].
  destruct m as [|m]; [cbn in Hm; lia|]. cbn [map] in *. rewrite ujoin_cons in *.
  cbn [elements]. destruct l as [|j' l].
  - cbn [map] in *. rewrite Hread by (done || by split_and!). done.
  - set (rest := ujoin [44; 32] (map dumps (j' :: l))) in *.
    cbn [map] in *. fold rest in Hn |- *. rewrite !length_app in Hn. cbn [length] in Hn.
    rewrite <-!(assoc_L (++)). rewrite Hread by (by split_and! || lia).
    cbn [skip_ws is_ws app Z.eqb Pos.eqb orb].
    assert (skip_ws (rest ++ 93 :: r) = rest ++ 93 :: r) as Hws.
    { unfold rest. cbn [map]. rewrite ujoin_cons. inversion_clear Hl as [|? ? [Hj' _] _].
      destruct (map dumps l); rewrite <-?(assoc_L (++)); by apply skip_ws_dumps. }
    rewrite Hws. unfold rest. by rewrite IH by (done || cbn in *; lia).
Qed.

(** One member of a printed object. *)
Definition member_text (kv : ustr * json) : ustr := quote kv.1 ++ [58; 32] ++ dumps kv.2.

Lemma skip_ws_quote k r : skip_ws (quote k ++ r) = quote k ++ r.
Proof. by rewrite quote_app. Qed.

Lemma members_reads n m d r :
  Forall (fun kv => Forall scalar kv.1 /\ jwf kv.2 /\ reads kv.2) d -> d <> [] ->
  (length (ujoin [44%Z; 32%Z] (map member_text d)) < n)%nat ->
  (length d <= m)%nat ->
  members (scan n) m (ujoin [44; 32] (map member_text d) ++ 125 :: r) = Some (d, r).
Proof.
  intros Hd. revert m. induction Hd as [|[k j] d (Hk & Hj & Hread) Hd IH]; intros m Hne Hn Hm; [done|].
  destruct m as [|m]; [cbn in Hm; lia|]. cbn [map fst snd] in *. rewrite ujoin_cons in *.
  set (tail := match map member_text d with [] => 125 :: r
               | _ => 44 :: 32 :: ujoin [44; 32] (map member_text d) ++ 125 :: r end).
  assert ((match map member_text d with [] => member_text (k, j)
           | _ => member_text (k, j) ++ [44; 32] ++ ujoin [44; 32] (map member_text d) end)
          ++ 125 :: r = quote k ++ 58 :: 32 :: dumps j ++ tail) as ->.
  { unfold tail. change (member_text (k, j)) with (quote k ++ 58 :: 32 :: dumps j).
    destruct (map member_text d); rewrite <-!(assoc_L (++)); [done|].
    cbn [app]. by rewrite <-?(assoc_L (++)). }
  assert (length (dumps j) < n)%nat as Hlen.
  { change (member_text (k, j)) with (quote k ++ 58 :: 32 :: dumps j) in Hn.
    destruct (map member_text d); rewrite ?length_app in Hn; cbn [length] in Hn; lia. }
  assert (num_stop tail) as Hstop by (unfold tail; destruct (map member_text d); by split_and!).
  rewrite quote_app. cbn [members Z.eqb Pos.eqb]. rewrite scanstring_quoted by done.
  cbn [skip_ws is_ws Z.eqb Pos.eqb orb]. rewrite skip_ws_dumps, Hread by done.
  unfold tail. destruct d as [|[k' j'] d]; [done|].
  cbn [map]. cbn [skip_ws is_ws Z.eqb Pos.eqb orb].
  set (rest := ujoin [44; 32] (member_text (k', j') :: map member_text d) ++ 125 :: r).
  assert (skip_ws rest = rest) as ->.
  { unfold rest. rewrite ujoin_cons.
    change (member_text (k', j')) with (quote k' ++ 58 :: 32 :: dumps j').
    destruct (map member_text d); rewrite <-!(assoc_L (++)); apply skip_ws_quote. }
  unfold rest. change (member_text (k', j') :: map member_text d)
    with (map member_text ((k', j') :: d)).
  rewrite IH; [done|done| |cbn in *; lia].
  cbn [map] in Hn. rewrite !length_app in Hn. cbn [map]. lia.
Qed.

Lemma length_ujoin {A} (f : A -> ustr) l :
  (forall a, a ∈ l -> f a <> []) -> (length l <= length (ujoin [44%Z; 32%Z] (map f l)))%nat.
Proof.
  induction l as [|a l IH]; intros Hf; [cbn; lia|]. cbn [map]. rewrite ujoin_cons.
  assert (1 <= length (f a))%nat by (specialize (Hf a ltac:(left)); destruct (f a); cbn; [done|lia]).
  specialize (IH ltac:(intros b Hb; apply Hf; by right)).
  destruct l as [|b l]; cbn [map] in *; rewrite ?length_app; cbn [length] in *; lia.
Qed.

Lemma quote_ne k : quote k <> [].
Proof. done. Qed.

(** Neither a minus sign nor a digit begins anything but a number. *)
Lemma scan_number_case n c s x :
  c = 45 \/ is_digit c = true -> scan_number (c :: s) = Some x -> scan (S n) (c :: s) = Some x.
Proof.
  intros Hcd Hs. cbn [scan]. unfold is_digit in Hcd.
  repeat match goal with
  | |- context [if c =? ?n then _ else _] => destruct (Z.eqb_spec c n); [lia|]
  end.
  by rewrite Hs.
Qed.

Lemma parse_reads_int z : reads (JInt z).
Proof.
  intros n r Hn Hr. destruct n as [|n]; [cbn in Hn; lia|].
  pose proof (scan_number_int z r Hr) as Hs. cbn [dumps] in *.
  destruct (dumps_head (JInt z) I) as (c & s & E & _). cbn [dumps] in E.
  assert (c = 45 \/ is_digit c = true) as Hcd.
  { unfold int_text in E. destruct (z <? 0) eqn:Ez; [left; congruence|right].
    destruct (digits_spec z) as [Hd _]; [lia|]. rewrite E in Hd. exact (Forall_inv Hd). }
  rewrite E in *. by apply scan_number_case.
Qed.

Lemma parse_reads_float l : jwf (JFloat l) -> reads (JFloat l).
Proof.
  intros Hj n r Hn Hr. destruct n as [|n]; [cbn in Hn; lia|].
  cbn [jwf] in Hj. pose proof (scan_number_ext l r _ _ Hj Hr) as Hs. cbn [app] in Hs.
  destruct l as [|c l]; [done|].
  assert (c = 45 \/ is_digit c = true) as Hcd.
  { unfold scan_number in Hj. destruct (Z.eqb_spec c 45) as [->|]; [by left|right].
    cbn [int_part] in Hj. destruct (Z.eqb_spec c 48) as [->|]; [done|].
    by destruct (is_digit c). }
  by apply scan_number_case.
Qed.

Lemma reads_all j : jwf j -> reads j.
Proof.
  induction j as [|b|z|l|s|l IH|d IH] using json_ind'; intros Hj n r Hn Hr;
    (destruct n as [|n]; [cbn in Hn; lia|]).
  - done.
  - by destruct b.
  - by apply (parse_reads_int z (S n)).
  - by apply (parse_reads_float l Hj (S n)).
  - cbn [dumps scan]. rewrite quote_app. cbn [Z.eqb Pos.eqb]. by rewrite scanstring_quoted.
  - apply jwf_list in Hj. cbn [dumps] in *. rewrite !length_app in Hn. cbn [length] in Hn.
    rewrite <-!(assoc_L (++)). cbn [app scan Z.eqb Pos.eqb].
    destruct l as [|j l]; [done|].
    assert (exists c s, ujoin [44; 32] (map dumps (j :: l)) ++ 93 :: r = c :: s /\
      is_ws c = false /\ c <> 93) as (c & s & E & Hws & H93).
    { destruct (dumps_head j) as (c & s & E & Hc); [by apply Forall_inv in Hj|].
      cbn [map]. rewrite ujoin_cons, E. destruct (map dumps l); by eexists _, _. }
    rewrite E. cbn [skip_ws]. rewrite Hws, (proj2 (Z.eqb_neq c 93)) by done. rewrite <-E.
    rewrite elements_reads; [done| |done|lia|].
    + apply Forall_forall. intros j' Hj'. rewrite Forall_forall in Hj, IH. auto.
    + pose proof (length_ujoin dumps (j :: l)). lapply H; [lia|]. intros j' Hj' E'.
      rewrite Forall_forall in Hj. destruct (dumps_head j') as (? & ? & E'' & _); [auto|].
      congruence.
  - apply jwf_obj in Hj as [Hnd Hj]. cbn [dumps] in *.
    change (fun kv => quote kv.1 ++ [58; 32] ++ dumps kv.2) with member_text in *.
    rewrite !length_app in Hn. cbn [length] in Hn.
    rewrite <-!(assoc_L (++)). cbn [app scan Z.eqb Pos.eqb].
    destruct d as [|[k j] d]; [done|].
    assert (exists s, ujoin [44; 32] (map member_text ((k, j) :: d)) ++ 125 :: r = 34 :: s) as [s E].
    { cbn [map]. rewrite ujoin_cons. destruct (map member_text d); eexists; reflexivity. }
    rewrite E. cbn [skip_ws is_ws Z.eqb Pos.eqb orb]. rewrite <-E.
    rewrite members_reads; [by rewrite dict_update_fresh| |done|lia|].
    + apply Forall_forall. intros kv Hkv. rewrite Forall_forall in Hj, IH.
      destruct (Hj kv Hkv). auto.
    + pose proof (length_ujoin member_text ((k, j) :: d)). lapply H; [lia|]. done.
Qed.

(** [json.loads] of what [json.dumps] printed is the document. *)
Lemma loads_dumps j : jwf j -> loads (dumps j) = Ok j.
Proof.
  intros Hj. unfold loads.
  pose proof (skip_ws_dumps j [] Hj) as Hws. rewrite app_nil_r in Hws. rewrite Hws.
  pose proof (reads_all j Hj (S (length (dumps j))) [] ltac:(lia) I) as Hr.
  rewrite app_nil_r in Hr. rewrite Hr.
  destruct (dumps j) as [|c s] eqn:E; [done|]. destruct (Z.eqb_spec c 65279) as [->|]; [|done].
  exfalso. cbn [scan] in Hr. by unfold scan_number in Hr.
Qed.

(** The documents that cannot be cut short: strings, arrays, objects. *)
Definition container (j : json) : bool :=
  match j with JStr _ | JList _ | JObj _ => true | _ => false end.

(** A proper prefix of the text of a container does not parse. *)
Lemma loads_prefix j p t :
  jwf j -> container j = true -> dumps j = p ++ t -> t <> [] -> loads p = Raise JSONDecodeError.
Proof.
  intros Hj Hc Hp Ht. unfold loads. case_match; [done|].
  destruct p as [|c p]; [done|].
  assert (delimited c = true) as Hd.
  { destruct j; try done; cbn [dumps] in Hp; unfold quote in Hp; cbn [app] in Hp;
      injection Hp as <- _; done. }
  assert (skip_ws (c :: p) = c :: p) as ->.
  { cbn. destruct (is_ws c) eqn:E; [|done]. unfold is_ws, delimited in *. lia. }
  destruct (scan (S (length (c :: p))) (c :: p)) as [[v r]|] eqn:E; [|done].
  exfalso.
  assert (scan (S (length (dumps j))) ((c :: p) ++ t) = Some (v, r ++ t)) as Hs.
  { eapply scan_ext; [|exact E|by left]. rewrite Hp, length_app. lia. }
  pose proof (reads_all j Hj (S (length (dumps j))) [] ltac:(lia) I) as Hr.
  rewrite app_nil_r, Hp in Hr. rewrite Hp, Hr in Hs. injection Hs as _ Hrt.
  by destruct r, t.
Qed.

(** ** Printable text *)

Definition printable (c : Z) : Prop := 32 <= c < 127.

Lemma hexd_printable d : 0 <= d < 16 -> printable (hexd d).
Proof. intros. unfold printable, hexd. destruct (Z.ltb_spec d 10); lia. Qed.

Lemma u_escape_printable z : Forall printable (u_escape z).
Proof.
  unfold u_escape. do 2 (constructor; [unfold printable; lia|]).
  repeat (constructor; [apply hexd_printable, Z.mod_pos_bound; lia|]). constructor.
Qed.

Lemma escape_printable c : Forall printable (escape c).
Proof.
  unfold escape.
  repeat match goal with
  | |- context [if c =? ?n then _ else _] =>
      destruct (c =? n); [repeat (constructor; [unfold printable; lia|]); constructor|]
  end.
  destruct ((32 <=? c) && (c <=? 126)) eqn:E; [constructor; [unfold printable; lia|constructor]|].
  destruct (c <? 65536); [|apply Forall_app; split]; apply u_escape_printable.
Qed.

Lemma quote_printable s : Forall printable (quote s).
Proof.
  unfold quote. cbn [app]. constructor; [unfold printable; lia|]. apply Forall_app. split.
  - induction s as [|c s IH]; [constructor|]. apply Forall_app. split; [apply escape_printable|done].
  - constructor; [unfold printable; lia|constructor].
Qed.

Lemma digit_printable ds : Forall (fun c => is_digit c = true) ds -> Forall printable ds.
Proof. intros H. eapply Forall_impl; [exact H|]. intros c. unfold is_digit, printable. lia. Qed.

Lemma span_digits_digits s ds r : span_digits s = (ds, r) -> Forall (fun c => is_digit c = true) ds.
Proof.
  revert ds r. induction s as [|c s IH]; intros ds r; cbn [span_digits]; [by intros [= <- <-]|].
  destruct (is_digit c) eqn:E; [|by intros [= <- <-]].
  destruct (span_digits s) as [ds' r']. intros [= <- <-]. constructor; [done|]. by eapply IH.
Qed.

Lemma scan_number_printable s l r : scan_number s = Some (JFloat l, r) -> Forall printable l.
Proof.
  unfold scan_number. set (neg := match s with c :: _ => c =? 45 | [] => false end).
  destruct (int_part _) as [[ds r0]|] eqn:Ei; [|done].
  destruct (frac_part r0) as [f r1] eqn:Ef. destruct (exp_part r1) as [e r2] eqn:Ee.
  intros H. assert (l = (if neg then [45] else []) ++ ds ++ f ++ e) as -> by (destruct f, e; congruence).
  repeat (apply Forall_app; split).
  - destruct neg; [constructor; [unfold printable; lia|]|]; constructor.
  - destruct (if neg then drop 1 s else s) as [|c s1]; [done|]. cbn [int_part] in Ei.
    destruct (c =? 48); [injection Ei as <- _; constructor; [unfold printable; lia|constructor]|].
    destruct (is_digit c); [|done]. injection Ei as Ei.
    apply digit_printable, (span_digits_digits (c :: s1) _ r0), Ei.
  - unfold frac_part in Ef. destruct r0 as [|c r0]; [injection Ef as <- _; constructor|].
    destruct (c =? 46); [|injection Ef as <- _; constructor].
    destruct (span_digits r0) as [[|d ds'] r'] eqn:E; injection Ef as <- _; [constructor|].
    constructor; [unfold printable; lia|]. by eapply digit_printable, span_digits_digits.
  - unfold exp_part in Ee. destruct r1 as [|c r1]; [injection Ee as <- _; constructor|].
    destruct ((c =? 101) || (c =? 69)) eqn:Ec; [|injection Ee as <- _; constructor].
    match type of Ee with context [span_digits ?x] => destruct (span_digits x) as [[|d ds'] r'] eqn:E end;
      injection Ee as <- _; [constructor|].
    constructor; [unfold printable; lia|]. apply Forall_app. split.
    + destruct r1 as [|x r1]; [constructor|].
      destruct ((x =? 43) || (x =? 45)) eqn:Ex; [|constructor].
      constructor; [unfold printable; lia|constructor].
    + by eapply digit_printable, span_digits_digits.
Qed.

Lemma ujoin_printable l : Forall (Forall printable) l -> Forall printable (ujoin [44; 32] l).
Proof.
  induction 1 as [|w l Hw Hl IH]; [constructor|]. rewrite ujoin_cons.
  destruct l; [done|]. apply Forall_app. split; [done|].
  do 2 (constructor; [unfold printable; lia|]). done.
Qed.

Lemma dumps_printable j : jwf j -> Forall printable (dumps j).
Proof.
  induction j as [|b|z|l|s|l IH|d IH] using json_ind'; intros Hj; cbn [dumps].
  - repeat (constructor; [split; by vm_compute|]). constructor.
  - destruct b; repeat (constructor; [split; by vm_compute|]); constructor.
  - unfold int_text. destruct (Z.ltb_spec z 0).
    + constructor; [unfold printable; lia|]. apply digit_printable, digits_spec. lia.
    + apply digit_printable, digits_spec. lia.
  - by eapply scan_number_printable.
  - apply quote_printable.
  - apply jwf_list in Hj. cbn [app]. constructor; [unfold printable; lia|].
    apply Forall_app. split; [|constructor; [unfold printable; lia|constructor]].
    apply ujoin_printable, Forall_map, Forall_forall. intros j Hin.
    rewrite Forall_forall in IH, Hj. auto.
  - apply jwf_obj in Hj as [_ Hj]. cbn [app]. constructor; [unfold printable; lia|].
    apply Forall_app. split; [|constructor; [unfold printable; lia|constructor]].
    apply ujoin_printable, Forall_map, Forall_forall. intros kv Hin.
    rewrite Forall_forall in IH, Hj. destruct (Hj kv Hin).
    apply Forall_app. split; [apply quote_printable|].
    do 2 (constructor; [unfold printable; lia|]). auto.
Qed.

Definition ascii_text (s : ustr) : Prop := Forall (fun c => 0 <= c < 128) s.

Lemma printable_ascii s : Forall printable s -> ascii_text s.
Proof. intros H. eapply Forall_impl; [exact H|]. intros c. unfold printable. lia. Qed.

(** Code points as single bytes. *)
Definition ascii_bytes (s : ustr) : bytes := map byte_of s.

Lemma byte_val_ascii s : ascii_text s -> map byte_val (ascii_bytes s) = s.
Proof.
  intros H. unfold ascii_bytes. rewrite map_map. induction H as [|c s Hc _ IH]; [done|].
  cbn [map]. rewrite byte_val_of, IH, Z.mod_small by lia. done.
Qed.

Lemma utf8_decode_ascii s : ascii_text s -> utf8_decode (ascii_bytes s) = Ok s.
Proof.
  intros H. unfold utf8_decode. rewrite byte_val_ascii by done.
  induction H as [|c s Hc _ IH]; [done|]. cbn [utf8_decode_z].
  rewrite (proj2 (Z.ltb_lt _ _)) by lia. destruct (utf8_decode_z s); [|done].
  cbn in IH |- *. congruence.
Qed.

Lemma utf8_encode_ascii s : ascii_text s -> utf8_encode s = ascii_bytes s.
Proof.
  intros H. unfold utf8_encode, ascii_bytes. f_equal.
  induction H as [|c s Hc _ IH]; [done|]. cbn [flat_map]. rewrite IH. unfold utf8_char.
  by rewrite (proj2 (Z.ltb_lt _ _)) by lia.
Qed.

(** ** Literals and message stubs *)

Lemma scalar_u s : Forall scalar (u s).
Proof.
  unfold u. apply Forall_map, Forall_forall. intros c _. pose proof (N_ascii_bounded c).
  unfold scalar. lia.
Qed.

#[global] Instance u_inj : Inj (=) (=) u.
Proof.
  intros s t H. apply str_chars_inj. unfold u in H.
  apply (list_fmap_eq_inj (fun c => Z.of_N (N_of_ascii c))); [|done].
  intros c d Hcd. rewrite <-(ascii_N_embedding c), <-(ascii_N_embedding d). f_equal. lia.
Qed.

(** A stub as the wrapper builds it: distinct keys, plain text. *)
Definition stub_ok (stub : list (ustr * json)) : Prop :=
  NoDup (dict_keys stub) /\ Forall (fun kv => Forall scalar kv.1 /\ jwf kv.2) stub.
