(* ===== verification/PyText.v ===== *)
(** What the sensors use of Python's text methods, on texts as lists of code
    points: [strip], [split], [join], [int] and UTF-8, with the lemmas on rows of
    columns that the parsers of command output need. *)

From S2P Require Import Prelude Json.

(** The characters [str.strip] removes. *)
Definition is_strip (c : Z) : bool :=
  (9 <=? c) && (c <=? 13) || (28 <=? c) && (c <=? 32) || (c =? 133) || (c =? 160)
  || (c =? 5760) || (8192 <=? c) && (c <=? 8202) || (c =? 8232) || (c =? 8233)
  || (c =? 8239) || (c =? 8287) || (c =? 12288).

Fixpoint lstrip (s : ustr) : ustr :=
  match s with
  | c :: s' => if is_strip c then lstrip s' else s
  | [] => []
  end.

Definition ustrip (s : ustr) : ustr := reverse (lstrip (reverse (lstrip s))).

(** [s.split(c)] *)
Fixpoint usplit (c : Z) (s : ustr) : list ustr :=
  match s with
  | [] => [[]]
  | d :: s =>
      if d =? c then [] :: usplit c s
      else match usplit c s with
           | w :: ws => (d :: w) :: ws
           | [] => [[d]]
           end
  end.

Definition is_nil {A} (l : list A) : bool := match l with [] => true | _ => false end.

(** [[bit for bit in s.split(c) if bit != '']] *)
Definition words_on (c : Z) (s : ustr) : list ustr := List.filter (fun w => negb (is_nil w)) (usplit c s).

(** [re.sub(r'\s+', ' ', s)] *)
Fixpoint collapse_go (in_space : bool) (s : ustr) : ustr :=
  match s with
  | [] => []
  | c :: s =>
      if is_strip c then (if in_space then [] else [32]) ++ collapse_go true s
      else c :: collapse_go false s
  end.
Definition collapse : ustr -> ustr := collapse_go false.

(** [s.split()] *)
Definition usplit_ws (s : ustr) : list ustr := words_on 32 (collapse s).

(** [int(s)]; the digits are those of ASCII. *)
Fixpoint int_digits (l : ustr) (acc : Z) (after_digit : bool) : option Z :=
  match l with
  | [] => if after_digit then Some acc else None
  | c :: l =>
      if is_digit c then int_digits l (acc * 10 + (c - 48)) true
      else if (c =? 95) && after_digit then int_digits l acc false
      else None
  end.

Definition uint (s : ustr) : res Z :=
  match ustrip s with
  | c :: l =>
      if c =? 45 then opt_res ValueError (Z.opp <$> int_digits l 0 false)
      else if c =? 43 then opt_res ValueError (int_digits l 0 false)
      else opt_res ValueError (int_digits (c :: l) 0 false)
  | [] => Raise ValueError
  end.

(** [l[i]] *)
Definition item {A} (l : list A) (i : nat) : res A := opt_res IndexError (l !! i).

(** [len(v)] *)
Definition json_len (v : json) : res nat :=
  match v with
  | JStr s => Ok (length s)
  | JList l => Ok (length l)
  | JObj d => Ok (length d)
  | _ => Raise TypeError
  end.

(** [v[i]] *)
Definition json_at (v : json) (i : nat) : res json :=
  match v with
  | JList l => item l i
  | JStr s => res_map (fun c => JStr [c]) (item s i)
  | JObj _ => Raise KeyError
  | _ => Raise TypeError
  end.

(** [c in s] *)
Definition has_code (c : Z) (s : ustr) : bool := existsb (Z.eqb c) s.

(** * Lemmas *)

(** ** Stripping *)

(** Text that [strip] leaves alone. *)
Definition stripped (s : ustr) : Prop :=
  match s, last s with
  | c :: _, Some d => is_strip c = false /\ is_strip d = false
  | _, _ => False
  end.

Lemma lstrip_id c s : is_strip c = false -> lstrip (c :: s) = c :: s.
Proof. intros H. cbn. by rewrite H. Qed.

Lemma lstrip_pad t s : Forall (fun c => is_strip c = true) t -> lstrip (t ++ s) = lstrip s.
Proof. induction 1 as [|c t Hc _ IH]; [done|]. cbn. by rewrite Hc. Qed.

Lemma ustrip_pad s t : stripped s -> Forall (fun c => is_strip c = true) t -> ustrip (s ++ t) = s.
Proof.
  unfold stripped. destruct s as [|c s]; [done|].
  destruct (last (c :: s)) as [d|] eqn:E; [|done]. intros [Hc Hd] Ht.
  unfold ustrip. cbn [app]. rewrite lstrip_id by done. change (c :: s ++ t) with ((c :: s) ++ t).
  rewrite reverse_app, lstrip_pad by (by apply Forall_reverse).
  apply last_Some in E as [l' E]. rewrite E, !reverse_snoc, lstrip_id by done.
  by rewrite reverse_cons, reverse_involutive.
Qed.

Lemma ustrip_line s : stripped s -> ustrip (s ++ [newline]) = s.
Proof. intros Hs. apply ustrip_pad; [done|by repeat constructor]. Qed.

Lemma ustrip_id s : stripped s -> ustrip s = s.
Proof. intros Hs. rewrite <-(app_nil_r s) at 1. by apply ustrip_pad. Qed.

Lemma stripped_spec s :
  stripped s <-> exists c l r d, s = c :: l /\ s = r ++ [d] /\ is_strip c = false /\ is_strip d = false.
Proof.
  unfold stripped. split.
  - destruct s as [|c s]; [done|]. destruct (last (c :: s)) as [d|] eqn:E; [|done].
    intros [Hc Hd]. apply last_Some in E as [r E]. by exists c, s, r, d.
  - intros (c & l & r & d & -> & E & Hc & Hd).
    assert (last (c :: l) = Some d) as -> by (rewrite E; apply last_snoc). done.
Qed.

(** A text without white space. *)
Definition solid (s : ustr) : Prop := s <> [] /\ Forall (fun c => is_strip c = false) s.

Lemma solid_stripped s : solid s -> stripped s.
Proof.
  intros [Hne Hs]. apply stripped_spec. destruct (exists_last Hne) as (r & d & E).
  assert (is_strip d = false) as Hd.
  { rewrite E in Hs. apply Forall_app in Hs as [_ Hs]. by inversion Hs. }
  destruct s as [|c l]; [done|]. exists c, l, r, d. apply Forall_cons in Hs as [Hc _]. done.
Qed.

Lemma stripped_between a m z : stripped a -> stripped z -> stripped (a ++ m ++ z).
Proof.
  rewrite !stripped_spec. intros (c & l & _ & _ & -> & _ & Hc & _) (_ & _ & r & d & _ & -> & _ & Hd).
  exists c, (l ++ m ++ r ++ [d]), (c :: l ++ m ++ r), d. split; [done|]. split; [|done].
  cbn. by rewrite <-!app_assoc.
Qed.

(** ** Splitting *)

Lemma usplit_nonempty c s : usplit c s <> [].
Proof. destruct s as [|d s]; cbn; [done|]. destruct (d =? c), (usplit c s); done. Qed.

Lemma usplit_app c a b : has_code c a = false -> usplit c (a ++ c :: b) = a :: usplit c b.
Proof.
  induction a as [|d a IH]; cbn [has_code existsb app usplit].
  - by rewrite Z.eqb_refl.
  - intros [Hd Ha]%orb_false_iff. rewrite Z.eqb_sym in Hd. rewrite Hd. by rewrite (IH Ha).
Qed.

Lemma usplit_none c s : has_code c s = false -> usplit c s = [s].
Proof.
  induction s as [|d s IH]; cbn [has_code existsb usplit]; [done|].
  intros [Hd Hs]%orb_false_iff. rewrite Z.eqb_sym in Hd. rewrite Hd. by rewrite (IH Hs).
Qed.

(** Joining what a split gave restores the text. *)
Lemma ujoin_usplit c s : ujoin [c] (usplit c s) = s.
Proof.
  induction s as [|d s IH]; [done|]. cbn [usplit].
  pose proof (usplit_nonempty c s) as Hne. destruct (usplit c s) as [|w ws]; [done|].
  destruct (d =? c) eqn:E.
  - apply Z.eqb_eq in E as ->. change (c :: ujoin [c] (w :: ws) = c :: s). by rewrite IH.
  - destruct ws; cbn in IH |- *; by rewrite IH.
Qed.

Lemma words_on_sep c s : words_on c (c :: s) = words_on c s.
Proof. unfold words_on. cbn [usplit]. by rewrite Z.eqb_refl. Qed.

Lemma words_on_pad c n s : words_on c (replicate n c ++ s) = words_on c s.
Proof. induction n as [|n IH]; [done|]. cbn [replicate app]. by rewrite words_on_sep. Qed.

Lemma words_on_word c w s :
  w <> [] -> has_code c w = false -> words_on c (w ++ c :: s) = w :: words_on c s.
Proof.
  intros Hne Hw. unfold words_on. rewrite usplit_app by done. by destruct w.
Qed.

Lemma words_on_last c w : w <> [] -> has_code c w = false -> words_on c w = [w].
Proof. intros Hne Hw. unfold words_on. rewrite usplit_none by done. by destruct w. Qed.

(** Columns: words, each with the blanks after it but one. *)
Definition columns (l : list (ustr * nat)) : ustr :=
  flat_map (fun e => e.1 ++ 32 :: replicate e.2 32) l.

Definition word (w : ustr) : Prop := w <> [] /\ has_code 32 w = false.

Lemma words_columns l s : Forall (fun e => word e.1) l ->
  words_on 32 (columns l ++ s) = map fst l ++ words_on 32 s.
Proof.
  induction 1 as [|[w n] l [Hne Hw] _ IH]; [done|]. cbn [columns flat_map map app fst snd].
  rewrite <-!app_assoc. cbn [app]. rewrite words_on_word by done.
  rewrite words_on_pad. f_equal. exact IH.
Qed.

Lemma solid_word w : solid w -> word w.
Proof.
  intros [Hne Hs]. split; [done|]. unfold has_code.
  destruct (existsb (Z.eqb 32) w) eqn:E; [|done]. apply existsb_exists in E as (c & Hin & Hc).
  apply Z.eqb_eq in Hc as <-. rewrite Forall_forall in Hs. apply list_elem_of_In in Hin.
  by specialize (Hs 32 Hin).
Qed.

(** ** Numbers *)

Lemma int_digits_all l : forall acc b, Forall (fun c => is_digit c = true) l -> l <> [] \/ b = true ->
  int_digits l acc b = Some (fold_left (fun a d => a * 10 + (d - 48)) l acc).
Proof.
  induction l as [|c l IH]; intros acc b Hl Hb; cbn [int_digits fold_left].
  - destruct Hb as [|Hb]; [done|by rewrite Hb].
  - apply Forall_cons in Hl as [Hc Hl]. rewrite Hc. apply IH; [done|by right].
Qed.

Lemma digit_solid l : Forall (fun c => is_digit c = true) l -> l <> [] -> solid l.
Proof.
  intros Hl Hne. split; [done|]. eapply Forall_impl; [exact Hl|]. cbn. intros c. unfold is_digit, is_strip. lia.
Qed.

Lemma uint_digits l : Forall (fun c => is_digit c = true) l -> l <> [] -> uint l = Ok (digits_val l).
Proof.
  intros Hl Hne. unfold uint. rewrite ustrip_id by (by apply solid_stripped, digit_solid).
  destruct l as [|c l]; [done|]. pose proof Hl as Hc. apply Forall_cons in Hc as [Hc _].
  destruct (c =? 45) eqn:E; [unfold is_digit in Hc; lia|].
  destruct (c =? 43) eqn:E'; [unfold is_digit in Hc; lia|].
  rewrite int_digits_all by (done || by left). done.
Qed.

Lemma digits_nonempty z : 0 <= z -> digits z <> [].
Proof.
  intros Hz. destruct (Z.eq_dec z 0) as [->|Hne]; [done|]. unfold digits.
  destruct (digits_go_head (S (Z.to_nat (Z.log2 z))) z) as (c & s & -> & _); [|done].
  pose proof (digits_fuel z Hz). lia.
Qed.

(** [int(str(z)) = z] for a number that is not negative. *)
Lemma uint_int_text z : 0 <= z -> uint (int_text z) = Ok z.
Proof.
  intros Hz. unfold int_text. destruct (z <? 0) eqn:E; [lia|].
  destruct (digits_spec z Hz) as [Hd Hv].
  rewrite uint_digits by (done || by apply digits_nonempty). by rewrite Hv.
Qed.

Lemma int_text_solid z : 0 <= z -> solid (int_text z).
Proof.
  intros Hz. unfold int_text. destruct (z <? 0) eqn:E; [lia|].
  apply digit_solid; [by apply digits_spec|by apply digits_nonempty].
Qed.

(** ** UTF-8 *)

(** Goals about the digits of a code point in base 64. *)
Ltac base64 := unfold cont; Z.to_euclidean_division_equations; lia.

Lemma utf8_decode_z_char c s : scalar c ->
  utf8_decode_z (utf8_char c ++ s) = cons c <$> utf8_decode_z s.
Proof.
  intros Hc. unfold utf8_char. unfold scalar in Hc.
  destruct (c <? 128) eqn:E1; [cbn; by rewrite E1|].
  destruct (c <? 2048) eqn:E2; [|destruct (c <? 65536) eqn:E3]; cbn [app utf8_decode_z].
  - assert (192 + c / 64 <? 128 = false) as -> by base64.
    assert ((194 <=? 192 + c / 64) && (192 + c / 64 <=? 223) && cont (128 + c mod 64) = true) as ->
      by base64.
    do 2 f_equal. base64.
  - assert (224 + c / 4096 <? 128 = false) as -> by base64.
    assert ((194 <=? 224 + c / 4096) && (224 + c / 4096 <=? 223) &&
      cont (128 + c / 64 mod 64) = false) as -> by base64.
    assert ((224 <=? 224 + c / 4096) && (224 + c / 4096 <=? 239) && cont (128 + c / 64 mod 64) &&
      cont (128 + c mod 64) && ((225 <=? 224 + c / 4096) || (160 <=? 128 + c / 64 mod 64)) &&
      (negb (224 + c / 4096 =? 237) || (128 + c / 64 mod 64 <=? 159)) = true) as -> by base64.
    do 2 f_equal. base64.
  - assert (240 + c / 262144 <? 128 = false) as -> by base64.
    assert ((194 <=? 240 + c / 262144) && (240 + c / 262144 <=? 223) &&
      cont (128 + c / 4096 mod 64) = false) as -> by base64.
    assert ((224 <=? 240 + c / 262144) && (240 + c / 262144 <=? 239) && cont (128 + c / 4096 mod 64) &&
      cont (128 + c / 64 mod 64) && ((225 <=? 240 + c / 262144) || (160 <=? 128 + c / 4096 mod 64)) &&
      (negb (240 + c / 262144 =? 237) || (128 + c / 4096 mod 64 <=? 159)) = false) as -> by base64.
    assert ((240 <=? 240 + c / 262144) && (240 + c / 262144 <=? 244) && cont (128 + c / 4096 mod 64) &&
      cont (128 + c / 64 mod 64) && cont (128 + c mod 64) &&
      ((241 <=? 240 + c / 262144) || (144 <=? 128 + c / 4096 mod 64)) &&
      (negb (240 + c / 262144 =? 244) || (128 + c / 4096 mod 64 <=? 143)) = true) as -> by base64.
    do 2 f_equal. base64.
Qed.

Lemma utf8_char_range c : scalar c -> Forall (fun b => 0 <= b < 256) (utf8_char c).
Proof.
  intros Hc. unfold scalar in Hc. unfold utf8_char. repeat case_match; repeat constructor; base64.
Qed.

(** [s.encode().decode("utf-8") == s] *)
Lemma utf8_roundtrip s : Forall scalar s -> utf8_decode (utf8_encode s) = Ok s.
Proof.
  intros Hs. unfold utf8_decode, utf8_encode.
  assert (map byte_val (map byte_of (flat_map utf8_char s)) = flat_map utf8_char s) as ->.
  { rewrite map_map. rewrite <-(map_id (flat_map utf8_char s)) at 2. apply map_ext_in.
    intros b Hb. rewrite byte_val_of. apply Z.mod_small.
    apply in_flat_map in Hb as (c & Hc & Hb). rewrite Forall_forall in Hs.
    assert (scalar c) as H by (by apply Hs, list_elem_of_In).
    pose proof (utf8_char_range c H) as Hr. rewrite Forall_forall in Hr. by apply Hr, list_elem_of_In. }
  induction Hs as [|c s Hc _ IH]; [done|]. cbn [flat_map]. rewrite utf8_decode_z_char by done.
  unfold opt_res in *. destruct (utf8_decode_z (flat_map utf8_char s)); [|done].
  injection IH as ->. done.
Qed.

(** Whatever is decoded is text. *)
Lemma utf8_decode_z_scalar n : forall b s,
  (length b <= n)%nat -> Forall (fun c => 0 <= c < 256) b -> utf8_decode_z b = Some s -> Forall scalar s.
Proof.
  induction n as [|n IH]; intros b s Hn Hb H.
  - destruct b; [|cbn in Hn; lia]. injection H as <-. constructor.
  - destruct b as [|c b]; [injection H as <-; constructor|].
    cbn [length utf8_decode_z] in *. inversion_clear Hb as [|? ? Hc Hb'].
    assert (forall x b' s', (length b' <= n)%nat -> Forall (fun c => 0 <= c < 256) b' -> scalar x ->
      cons x <$> utf8_decode_z b' = Some s' -> Forall scalar s') as step.
    { intros x b' s' Hl Hf Hx He. destruct (utf8_decode_z b') as [t|] eqn:E; [|done].
      injection He as <-. constructor; [done|by eapply IH]. }
    destruct (c <? 128) eqn:E1; [eapply step; [..|exact H]; [lia|done|unfold scalar; lia]|].
    destruct b as [|c1 b]; [done|]. inversion_clear Hb' as [|? ? Hc1 Hb1]. cbn [length] in *.
    destruct (_ && _ && _) eqn:E2 in H.
    { eapply step; [..|exact H]; [lia|done|]. unfold cont, scalar in *. lia. }
    destruct b as [|c2 b]; [done|]. inversion_clear Hb1 as [|? ? Hc2 Hb2]. cbn [length] in *.
    destruct (_ && _ && _ && _ && _) eqn:E3 in H.
    { eapply step; [..|exact H]; [lia|done|]. unfold cont, scalar in *. lia. }
    destruct b as [|c3 b]; [done|]. inversion_clear Hb2 as [|? ? Hc3 Hb3]. cbn [length] in *.
    destruct (_ && _) eqn:E4 in H; [|done].
    eapply step; [..|exact H]; [lia|done|]. unfold cont, scalar in *. lia.
Qed.

Lemma utf8_decode_scalar b s : utf8_decode b = Ok s -> Forall scalar s.
Proof.
  intros H. apply opt_res_Ok in H. eapply (utf8_decode_z_scalar _ _ _ (le_n _)); [|exact H].
  apply Forall_fmap, Forall_forall. intros c _. apply byte_val_range.
Qed.

(** ** White space of any kind *)

(** Tokens, each with the white space after it. *)
Definition spaced (l : list (ustr * ustr)) : ustr := flat_map (fun e => e.1 ++ e.2) l.

Definition spaced_ok (e : ustr * ustr) : Prop :=
  solid e.1 /\ e.2 <> [] /\ Forall (fun c => is_strip c = true) e.2.

Lemma collapse_solid w s : Forall (fun c => is_strip c = false) w ->
  collapse_go false (w ++ s) = w ++ collapse_go false s.
Proof. induction 1 as [|c w Hc _ IH]; [done|]. cbn. by rewrite Hc, IH. Qed.

Lemma collapse_blank t s : Forall (fun c => is_strip c = true) t ->
  collapse_go true (t ++ s) = collapse_go true s.
Proof. induction 1 as [|c t Hc _ IH]; [done|]. cbn. by rewrite Hc. Qed.

Lemma collapse_spaced l : Forall spaced_ok l -> forall b,
  collapse_go b (spaced l) = columns (map (fun e => (e.1, 0%nat)) l).
Proof.
  induction 1 as [|[w t] l ([Hne Hw] & Ht & Hb) Hl IH]; intros b; [done|].
  cbn [spaced flat_map map columns fst snd replicate] in *. rewrite <-!app_assoc.
  destruct w as [|c w]; [done|]. apply Forall_cons in Hw as [Hc Hw]. cbn [app collapse_go]. rewrite Hc.
  rewrite collapse_solid by done. destruct t as [|d t]; [done|]. apply Forall_cons in Hb as [Hd Hb].
  cbn [app collapse_go]. rewrite Hd. cbn [app]. rewrite collapse_blank by done.
  fold (spaced l). by rewrite IH.
Qed.

(** [s.split()] *)
Lemma usplit_ws_spaced l : Forall spaced_ok l -> usplit_ws (spaced l) = map fst l.
Proof.
  intros Hl. unfold usplit_ws, collapse. rewrite collapse_spaced by done.
  rewrite <-(app_nil_r (columns _)), words_columns.
  - rewrite map_map. cbn. by rewrite app_nil_r.
  - apply Forall_fmap. eapply Forall_impl; [exact Hl|]. intros e (He & _). by apply solid_word.
Qed.
