(* ===== verification/Tasks.v ===== *)
(** Tasks that share a queue.  Several producers, each in a loop, put items on a
    queue from which one consumer takes them: the connections of the desktop
    bridge, the tools of the bcc sensor.  A schedule is any order of their
    rounds; between two [await]s a task of [curio] runs alone, so a round is one
    step.  What holds of every schedule is proved here once, from what each
    producer puts when it runs on its own. *)

From stdpp Require Import relations.
From S2P Require Import Prelude.

(** One round of a producer's loop: the loop has ended, an exception ends it, or
    it goes on and may have put an item. *)
Inductive outcome (P I : Type) := Ended | Failed | Went (item : option I) (next : P).
Arguments Ended {P I}.
Arguments Failed {P I}.
Arguments Went {P I} item next.

(** What a producer put, of a list of items with their producers. *)
Definition of_producer {K I} `{EqDecision K} (i : K) (l : list (K * I)) : list I :=
  map snd (filter (fun e => e.1 = i) l).

Lemma of_producer_app {K I} `{EqDecision K} i (l1 l2 : list (K * I)) :
  of_producer i (l1 ++ l2) = of_producer i l1 ++ of_producer i l2.
Proof. unfold of_producer. by rewrite filter_app, map_app. Qed.

Lemma of_producer_cons {K I} `{EqDecision K} i (e : K * I) l :
  of_producer i (e :: l) = (if decide (e.1 = i) then [e.2] else []) ++ of_producer i l.
Proof. unfold of_producer. rewrite filter_cons. by case_decide. Qed.

Lemma of_producer_snoc {K I} `{EqDecision K} i l (e : K * I) :
  of_producer i (l ++ [e]) = of_producer i l ++ (if decide (e.1 = i) then [e.2] else []).
Proof. by rewrite of_producer_app, of_producer_cons, app_nil_r. Qed.

#[global] Arguments of_producer : simpl never.

Section Shared.

Context {P I : Type} (round : P -> outcome P I) (cancelled : P).

(** [taken] is what the consumer took so far. *)
Record shared := Shared { producers : list P; queue : list (nat * I); taken : list (nat * I) }.

Definition tagged (i : nat) (o : option I) : list (nat * I) :=
  match o with Some x => [(i, x)] | None => [] end.

(** The producers are the tasks of one [TaskGroup]: when one of them fails, the
    others are cancelled. *)
Inductive step : relation shared :=
  | step_round ps q t i p o p' :
      ps !! i = Some p -> round p = Went o p' ->
      step (Shared ps q t) (Shared (<[i := p']> ps) (q ++ tagged i o) t)
  | step_fails ps q t i p :
      ps !! i = Some p -> round p = Failed ->
      step (Shared ps q t) (Shared (map (fun _ => cancelled) ps) q t)
  | step_takes ps x q t :
      step (Shared ps (x :: q) t) (Shared ps q (t ++ [x])).

Definition start (ps : list P) : shared := Shared ps [] [].

(** [yields p l ok n]: on its own, [p] puts [l] in at most [n] rounds, and then
    ends ([ok]) or fails. *)
Inductive yields : P -> list I -> bool -> nat -> Prop :=
  | yields_end p : round p = Ended -> yields p [] true 0
  | yields_fail p : round p = Failed -> yields p [] false 1
  | yields_round p o p' l ok n :
      round p = Went o p' -> yields p' l ok n ->
      yields p (option_list o ++ l) ok (S n).

Definition seen (i : nat) (s : shared) : list I := of_producer i (taken s ++ queue s).

(** ** Lemmas on origins *)

Lemma of_producer_tagged i o : of_producer i (tagged i o) = option_list o.
Proof. destruct o; [|done]. unfold of_producer. cbn. by rewrite decide_True. Qed.

Lemma of_producer_other i j o : i <> j -> of_producer j (tagged i o) = [].
Proof. intros H. destruct o; [|done]. unfold of_producer. cbn. by rewrite decide_False. Qed.

Lemma yields_ended p l ok n : yields p l ok n -> round p = Ended -> l = [] /\ ok = true.
Proof. destruct 1; intros; first [done|congruence]. Qed.

Lemma yields_failed p l ok n : yields p l ok n -> round p = Failed -> l = [] /\ ok = false /\ (0 < n)%nat.
Proof. destruct 1; intros; first [congruence|split_and!; done || lia]. Qed.

Lemma yields_went p l ok n o p' : yields p l ok n -> round p = Went o p' ->
  exists l' n', yields p' l' ok n' /\ l = option_list o ++ l' /\ n = S n'.
Proof.
  destruct 1 as [p He|p He|p o1 p1 l ok n He Hy]; intros Hr; [congruence..|].
  assert (o1 = o /\ p1 = p') as [-> ->] by (split; congruence). eauto.
Qed.

(** ** The invariant *)

(** What each producer puts on its own. *)
Context (runs : list (list I * bool)).

(** Producer [i] has put a first part of its items and will put the rest. *)
Definition on_course (s : shared) (i : nat) : Prop :=
  forall p, producers s !! i = Some p -> exists l ok n rest,
    runs !! i = Some (l, ok) /\ yields p rest ok n /\ l = seen i s ++ rest.

(** After a failure no producer goes on; the one that failed had put all it
    could, the others a first part. *)
Definition aborted (s : shared) : Prop :=
  Forall (fun p => p = cancelled) (producers s) /\
  (exists j l, runs !! j = Some (l, false) /\ seen j s = l) /\
  forall i l ok, runs !! i = Some (l, ok) -> seen i s `prefix_of` l.

Definition course (s : shared) : Prop :=
  length (producers s) = length runs /\ (aborted s \/ forall i, on_course s i).

Lemma seen_take i ps x q t : seen i (Shared ps q (t ++ [x])) = seen i (Shared ps (x :: q) t).
Proof. unfold seen. cbn [taken queue]. by rewrite <-app_assoc. Qed.

Lemma seen_round i j ps ps' q t o :
  seen j (Shared ps' (q ++ tagged i o) t) =
    seen j (Shared ps q t) ++ (if decide (i = j) then option_list o else []).
Proof.
  unfold seen. cbn [taken queue]. rewrite app_assoc, of_producer_app. f_equal.
  case_decide; [subst; apply of_producer_tagged|by apply of_producer_other].
Qed.

Context (cancelled_ends : round cancelled = Ended).

Lemma round_course ps q t i p o p' :
  ps !! i = Some p -> round p = Went o p' ->
  course (Shared ps q t) -> course (Shared (<[i := p']> ps) (q ++ tagged i o) t).
Proof.
  intros Hi Hr [Hl [(Hc & _)|Hon]].
  - rewrite Forall_lookup in Hc. rewrite (Hc i p) in Hr by done. congruence.
  - split; [cbn in *; by rewrite length_insert|]. right. intros j pj Hj. cbn in Hj.
    rewrite (seen_round i j ps). destruct (decide (i = j)) as [<-|Hne].
    + rewrite list_lookup_insert_eq in Hj by (by eapply lookup_lt_Some). injection Hj as <-.
      destruct (Hon i p Hi) as (l & ok & n & rest & Hrun & Hy & ->).
      destruct (yields_went _ _ _ _ _ _ Hy Hr) as (l' & n' & Hy' & -> & ->).
      exists (seen i (Shared ps q t) ++ option_list o ++ l'), ok, n', l'.
      split_and!; [done..|]. by rewrite app_assoc.
    + rewrite list_lookup_insert_ne in Hj by done. rewrite app_nil_r. by apply Hon.
Qed.

Lemma fail_course ps q t i p :
  ps !! i = Some p -> round p = Failed ->
  course (Shared ps q t) -> course (Shared (map (fun _ => cancelled) ps) q t).
Proof.
  intros Hi Hr [Hl [(Hc & _)|Hon]].
  - rewrite Forall_lookup in Hc. rewrite (Hc i p) in Hr by done. congruence.
  - split; [cbn in *; by rewrite length_map|]. left. split_and!.
    + apply Forall_forall. intros x Hx. by apply list_elem_of_fmap_1 in Hx as (? & -> & _).
    + destruct (Hon i p Hi) as (l & ok & n & rest & Hrun & Hy & ->).
      destruct (yields_failed _ _ _ _ Hy Hr) as (-> & -> & _).
      eexists i, _. split; [exact Hrun|]. by rewrite app_nil_r.
    + intros j l ok Hj. destruct (lookup_lt_is_Some_2 ps j) as [pj Hpj].
      { cbn in Hl. rewrite Hl. by eapply lookup_lt_Some. }
      destruct (Hon j pj Hpj) as (l' & ok' & n & rest & Hrun & _ & E).
      assert (l' = l) as -> by congruence. by exists rest.
Qed.

Lemma step_course s s' : step s s' -> course s -> course s'.
Proof.
  destruct 1; eauto using round_course, fail_course.
  intros [Hl H]. split; [done|]. unfold aborted, on_course in *. cbn [producers] in *.
  by setoid_rewrite seen_take.
Qed.

Lemma steps_course s s' : rtc step s s' -> course s -> course s'.
Proof. induction 1; eauto using step_course. Qed.

(** ** Starting and stopping *)

Definition all_yield (ps : list P) : Prop :=
  Forall2 (fun p r => exists n, yields p r.1 r.2 n) ps runs.

Lemma start_course ps : all_yield ps -> course (start ps).
Proof.
  intros H. split; [by eapply Forall2_length|]. right. intros i p Hp.
  destruct (Forall2_lookup_l _ _ _ _ _ H Hp) as ([l ok] & Hr & n & Hy).
  exists l, ok, n, l. done.
Qed.

(** Of every schedule at every moment: what a producer put, taken or still on the
    queue, is a first part of what it puts on its own, in order. *)
Lemma shared_prefix ps s i l ok :
  all_yield ps -> rtc step (start ps) s -> runs !! i = Some (l, ok) -> seen i s `prefix_of` l.
Proof.
  intros Hy Hs Hi. destruct (steps_course _ _ Hs (start_course _ Hy)) as [Hl [(_ & _ & H)|H]].
  - by eapply H.
  - destruct (lookup_lt_is_Some_2 (producers s) i) as [p Hp].
    { rewrite Hl. by eapply lookup_lt_Some. }
    destruct (H i p Hp) as (l' & ok' & n & rest & Hr & _ & E).
    assert (l' = l) as -> by congruence. by exists rest.
Qed.

Lemma nf_stopped s : nf step s ->
  queue s = [] /\ Forall (fun p => round p = Ended) (producers s).
Proof.
  intros Hn. destruct s as [ps q t]. split.
  - destruct q as [|x q]; [done|]. destruct Hn. eexists. apply step_takes.
  - apply Forall_lookup. intros i p Hp. cbn in Hp.
    destruct (round p) as [| |o p'] eqn:E; [done|destruct Hn..].
    + eexists. by eapply step_fails.
    + eexists. by eapply step_round.
Qed.

(** Where a schedule stops, nothing is left on the queue; if every producer ends
    well, each has been taken in full, and otherwise one has failed. *)
Lemma shared_complete ps s :
  all_yield ps -> rtc step (start ps) s -> nf step s ->
  queue s = [] /\
  if forallb snd runs
  then forall i l ok, runs !! i = Some (l, ok) -> of_producer i (taken s) = l
  else aborted s.
Proof.
  intros Hy Hs Hn. destruct (nf_stopped s Hn) as [Hq He]. split; [done|].
  assert (forall i, seen i s = of_producer i (taken s)) as Hseen.
  { intros i. unfold seen. by rewrite Hq, app_nil_r. }
  destruct (steps_course _ _ Hs (start_course _ Hy)) as [Hl [Ha|Hon]].
  - destruct (forallb snd runs) eqn:E; [|done]. destruct Ha as (_ & (j & l & Hj & _) & _).
    rewrite forallb_forall in E. apply list_elem_of_lookup_2, list_elem_of_In, E in Hj. done.
  - assert (forall i l ok, runs !! i = Some (l, ok) -> ok = true /\ of_producer i (taken s) = l) as Hall.
    { intros i l ok Hi. destruct (lookup_lt_is_Some_2 (producers s) i) as [p Hp].
      { rewrite Hl. by eapply lookup_lt_Some. }
      destruct (Hon i p Hp) as (l' & ok' & n & rest & Hr & Hyi & E).
      rewrite Forall_lookup in He. destruct (yields_ended _ _ _ _ Hyi (He i p Hp)) as [-> ->].
      rewrite app_nil_r, Hseen in E. split; congruence. }
    destruct (forallb snd runs) eqn:E; [intros i l ok Hi; by eapply Hall|].
    exfalso. enough (forallb snd runs = true) by congruence.
    apply forallb_forall. intros [l ok] Hin. apply list_elem_of_In, list_elem_of_lookup_1 in Hin as [i Hi].
    by eapply Hall.
Qed.

(** ** Termination *)

(** Whoever runs when, so many steps are left at most: two for each round that is
    left, its own and the taking of its item, and one for each item queued. *)
Definition steps_left (s : shared) (m : nat) : Prop :=
  exists ns, Forall2 (fun p n => exists l ok, yields p l ok n) (producers s) ns /\
    m = (2 * sum_list ns + length (queue s))%nat.

Lemma sum_insert ns i n n' : ns !! i = Some n ->
  (sum_list (<[i := n']> ns) + n = sum_list ns + n')%nat.
Proof.
  revert i. induction ns as [|k ns IH]; intros [|i] H; [done..| |].
  - injection H as ->. cbn. lia.
  - specialize (IH i H). change (<[S i := n']> (k :: ns)) with (k :: <[i := n']> ns).
    cbn [sum_list_with]. lia.
Qed.

Lemma cancelled_left (ps : list P) :
  Forall2 (fun p n => exists l ok, yields p l ok n) (map (fun _ => cancelled) ps) (map (fun _ => 0%nat) ps) /\
  sum_list (map (fun _ => 0%nat) ps) = 0%nat.
Proof.
  induction ps as [|p ps [IH E]]; [done|]. cbn. split; [|done].
  constructor; [|done]. exists [], true. by constructor.
Qed.

Lemma sum_lookup ns i n : ns !! i = Some n -> (n <= sum_list ns)%nat.
Proof. intros H. pose proof (sum_insert ns i n 0 H). lia. Qed.

Lemma step_left s s' m : step s s' -> steps_left s m -> exists m', steps_left s' m' /\ (m' < m)%nat.
Proof.
  intros Hs (ns & Hns & ->).
  destruct Hs as [ps q t i p o p' Hi Hr|ps q t i p Hi Hr|ps x q t]; cbn in Hns.
  - destruct (Forall2_lookup_l _ _ _ _ _ Hns Hi) as (n & Hn & l & ok & Hy).
    destruct (yields_went _ _ _ _ _ _ Hy Hr) as (l' & n' & Hy' & -> & ->).
    eexists. split; [exists (<[i := n']> ns); split; [|reflexivity]|].
    + apply Forall2_insert; eauto.
    + pose proof (sum_insert ns i (S n') n' Hn). cbn [queue]. rewrite length_app.
      destruct o; cbn [tagged length]; lia.
  - destruct (Forall2_lookup_l _ _ _ _ _ Hns Hi) as (n & Hn & l & ok & Hy).
    destruct (yields_failed _ _ _ _ Hy Hr) as (_ & _ & Hpos). apply sum_lookup in Hn.
    destruct (cancelled_left ps) as [Hc E].
    eexists. split; [eexists; split; [exact Hc|reflexivity]|]. cbn [queue]. lia.
  - eexists. split; [by exists ns|]. cbn [queue length]. lia.
Qed.

Lemma steps_left_bound k s s' m : nsteps step k s s' -> steps_left s m -> (k <= m)%nat.
Proof.
  intros Hs. revert m. induction Hs as [|k s1 s2 s3 H12 _ IH]; intros m Hm; [lia|].
  destruct (step_left _ _ _ H12 Hm) as (m' & Hm' & Hlt). specialize (IH m' Hm'). lia.
Qed.

Lemma start_left ps : all_yield ps -> exists m, steps_left (start ps) m.
Proof.
  intros H. enough (exists ns, Forall2 (fun p n => exists l ok, yields p l ok n) ps ns) as [ns Hns].
  { eexists. by exists ns. }
  induction H as [|p [l ok] ps rs [n Hy] _ [ns IH]]; [by exists []|]. exists (n :: ns). eauto.
Qed.

(** No schedule goes on forever. *)
Lemma shared_terminates ps : all_yield ps ->
  exists m, forall k s, nsteps step k (start ps) s -> (k <= m)%nat.
Proof.
  intros H. destruct (start_left ps H) as [m Hm]. exists m. eauto using steps_left_bound.
Qed.

(** ** Every item once *)

Lemma merge_cons (e : nat * I) l is_ : NoDup is_ -> e.1 ∈ is_ ->
  concat (map (fun i => of_producer i (e :: l)) is_) ≡ₚ e.2 :: concat (map (fun i => of_producer i l) is_).
Proof.
  induction 1 as [|i is_ Hni Hnd IH]; intros Hin; [by apply not_elem_of_nil in Hin|].
  cbn [map concat]. rewrite of_producer_cons. destruct (decide (e.1 = i)) as [E|Hne].
  - cbn [app]. apply perm_skip, Permutation_app_head.
    assert (map (fun i => of_producer i (e :: l)) is_ = map (fun i => of_producer i l) is_) as ->; [|done].
    apply map_ext_in. intros j Hj%list_elem_of_In. rewrite of_producer_cons, decide_False; [done|].
    congruence.
  - cbn [app]. rewrite IH by (apply elem_of_cons in Hin as [?|?]; done). by rewrite <-Permutation_middle.
Qed.

Lemma merged (l : list (nat * I)) n : Forall (fun e => (e.1 < n)%nat) l ->
  map snd l ≡ₚ concat (map (fun i => of_producer i l) (seq 0 n)).
Proof.
  induction 1 as [|e l He _ IH].
  - induction (seq 0 n) as [|i is_ IHs]; done.
  - rewrite merge_cons; [cbn; by rewrite IH|apply NoDup_seq|apply elem_of_seq; lia].
Qed.

Lemma steps_in_range ps s : rtc step (start ps) s ->
  length (producers s) = length ps /\
  Forall (fun e => (e.1 < length ps)%nat) (taken s ++ queue s).
Proof.
  revert s. apply (rtc_ind_r (fun s => length (producers s) = length ps /\
    Forall (fun e => (e.1 < length ps)%nat) (taken s ++ queue s))); [by split|].
  intros s s' _ Hs [Hl Hf].
  destruct Hs as [qs q t i p o p' Hi _|qs q t i p Hi _|qs x q t]; cbn [producers queue taken] in *.
  - rewrite length_insert, app_assoc. split; [done|]. apply Forall_app. split; [done|].
    destruct o; repeat constructor. cbn. rewrite <-Hl. by eapply lookup_lt_Some.
  - by rewrite length_map.
  - by rewrite <-app_assoc.
Qed.

(** Where a schedule stops and every producer ended well, what was taken is a
    merge of what the producers put: each item once, those of one producer in its
    order. *)
Lemma shared_merge ps s : all_yield ps -> forallb snd runs = true ->
  rtc step (start ps) s -> nf step s ->
  (forall i l ok, runs !! i = Some (l, ok) -> of_producer i (taken s) = l) /\
  map snd (taken s) ≡ₚ concat (map fst runs).
Proof.
  intros Hy Hok Hs Hn. destruct (shared_complete ps s Hy Hs Hn) as [Hq H]. rewrite Hok in H.
  split; [done|]. destruct (steps_in_range ps s Hs) as [_ Hf]. rewrite Hq, app_nil_r in Hf.
  rewrite (merged _ _ Hf), (Forall2_length _ _ _ Hy).
  assert (map (fun i => of_producer i (taken s)) (seq 0 (length runs)) = map fst runs) as ->; [|done].
  apply list_eq. intros i. rewrite !list_lookup_fmap.
  destruct (runs !! i) as [[l ok]|] eqn:E.
  - rewrite lookup_seq_lt by (by eapply lookup_lt_Some). cbn. by rewrite (H _ _ _ E).
  - rewrite lookup_seq_ge by (by apply lookup_ge_None). done.
Qed.

(** ** Running a schedule *)

(** A choice is a producer or, with [None], the consumer. *)
Definition run_step (c : option nat) (s : shared) : option shared :=
  match c with
  | None => match queue s with [] => None | x :: q => Some (Shared (producers s) q (taken s ++ [x])) end
  | Some i =>
      match producers s !! i with
      | None => None
      | Some p =>
          match round p with
          | Ended => None
          | Failed => Some (Shared (map (fun _ => cancelled) (producers s)) (queue s) (taken s))
          | Went o p' => Some (Shared (<[i := p']> (producers s)) (queue s ++ tagged i o) (taken s))
          end
      end
  end.

Fixpoint run_schedule (cs : list (option nat)) (s : shared) : option shared :=
  match cs with [] => Some s | c :: cs => match run_step c s with Some s => run_schedule cs s | None => None end end.

Lemma run_step_sound c s s' : run_step c s = Some s' -> step s s'.
Proof.
  destruct s as [ps q t]. destruct c as [i|]; cbn.
  - destruct (ps !! i) as [p|] eqn:Hi; [|done]. destruct (round p) eqn:E; [done|..]; intros [= <-].
    + by eapply step_fails.
    + by eapply step_round.
  - destruct q; [done|]. intros [= <-]. constructor.
Qed.

Lemma run_schedule_sound cs s s' : run_schedule cs s = Some s' -> rtc step s s'.
Proof.
  revert s. induction cs as [|c cs IH]; intros s; cbn; [by intros [= <-]|].
  destruct (run_step c s) as [s1|] eqn:E; [|done]. intros H.
  eapply rtc_l; [by eapply run_step_sound|by apply IH].
Qed.

(** Nothing can run: every producer has ended and the queue is empty. *)
Definition stopped (s : shared) : bool :=
  match queue s with [] => true | _ => false end && forallb (fun p => match round p with Ended => true | _ => false end) (producers s).

Lemma stopped_nf s : stopped s = true -> nf step s.
Proof.
  unfold stopped. intros [Hq Hp]%andb_prop [s' Hs]. rewrite forallb_forall in Hp.
  assert (forall ps i (p : P), ps = producers s -> ps !! i = Some p -> round p = Ended) as He.
  { intros ps i p -> Hi. apply list_elem_of_lookup_2, list_elem_of_In, Hp in Hi. by destruct (round p). }
  destruct Hs as [ps q t i p o p' Hi Hr|ps q t i p Hi Hr|ps x q t]; cbn in *.
  - by rewrite (He ps i p) in Hr.
  - by rewrite (He ps i p) in Hr.
  - done.
Qed.

End Shared.
