(* ===== verification/JsonLayout.v ===== *)
(** Documents in any layout: [json.loads] reads a document whatever white space
    stands between its parts.  [reads_as j s] says that [s] is a text of [j]; its
    lemmas build such texts from the texts of the parts, and [loads_reads_as] is
    their use. *)

From S2P Require Import Prelude Json.

Definition blank (w : ustr) : Prop := Forall (fun c => is_ws c = true) w.

Lemma blank_nil : blank [].
Proof. constructor. Qed.

Lemma blank_spaces n : blank (replicate n 32).
Proof. by apply Forall_replicate. Qed.

#[export] Hint Resolve blank_nil blank_spaces : layout.

Lemma skip_ws_blank w s : blank w -> skip_ws (w ++ s) = skip_ws s.
Proof. induction 1 as [|c w Hc _ IH]; [done|]. cbn. by rewrite Hc. Qed.

(** The text begins with its first part, which closes no array. *)
Definition starts (s : ustr) : Prop := exists c t, s = c :: t /\ is_ws c = false /\ c <> 93.

Definition reads_as (j : json) (s : ustr) : Prop :=
  starts s /\ forall n r, (length s < n)%nat -> num_stop r -> scan n (s ++ r) = Some (j, r).

Lemma reads_as_dumps j : jwf j -> reads_as j (dumps j).
Proof.
  intros Hj. split; [by apply dumps_head|]. intros n r. by apply reads_all.
Qed.

Lemma skip_ws_starts s r : starts s -> skip_ws (s ++ r) = s ++ r.
Proof. intros (c & t & -> & Hc & _). cbn. by rewrite Hc. Qed.

Lemma skip_to w s r : blank w -> starts s -> skip_ws (w ++ s ++ r) = s ++ r.
Proof. intros Hw Hs. rewrite skip_ws_blank by done. by apply skip_ws_starts. Qed.

(** Blanks and a mark cannot continue a number. *)
Lemma blank_stop w c r : blank w -> is_digit c = false /\ c <> 46 /\ c <> 101 /\ c <> 69 ->
  num_stop (w ++ c :: r).
Proof. intros Hw Hc. destruct Hw as [|d w Hd _]; [done|]. by apply ws_stop. Qed.

Lemma skip_to_mark w c r : blank w -> is_ws c = false -> skip_ws (w ++ c :: r) = c :: r.
Proof. intros Hw Hc. rewrite skip_ws_blank by done. cbn. by rewrite Hc. Qed.

(** ** Arrays *)

(** An element: the blanks before it, its value and text, the blanks after. *)
Record element := Element { el_before : ustr; el_value : json; el_text : ustr; el_after : ustr }.

Definition element_text (e : element) : ustr := el_before e ++ el_text e ++ el_after e.

Definition element_ok (e : element) : Prop :=
  blank (el_before e) /\ reads_as (el_value e) (el_text e) /\ blank (el_after e).

(** The text of an array after the blanks before its first element. *)
Definition rest_text (e : element) (es : list element) : ustr :=
  el_text e ++ el_after e ++ flat_map (fun e => 44 :: element_text e) es ++ [93].

Lemma rest_text_nil e : rest_text e [] = el_text e ++ el_after e ++ [93].
Proof. done. Qed.

Lemma rest_text_cons e e' es :
  rest_text e (e' :: es) = el_text e ++ el_after e ++ 44 :: el_before e' ++ rest_text e' es.
Proof. unfold rest_text, element_text. cbn [flat_map app]. by rewrite <-!app_assoc. Qed.

Lemma rest_text_starts e es : element_ok e -> exists s t, rest_text e es = s ++ t /\ starts s.
Proof. intros (_ & [Hs _] & _). eexists _, _. split; [|exact Hs]. done. Qed.

Lemma elements_reads_as n m e es r :
  element_ok e -> Forall element_ok es ->
  (length (rest_text e es) < n)%nat -> (length es < m)%nat ->
  elements (scan n) m (rest_text e es ++ r) = Some (map el_value (e :: es), r).
Proof.
  revert e m. induction es as [|e' es IH]; intros e m (Hb & [Hs Hr] & Ha) Hes Hn Hm;
    (destruct m as [|m]; [lia|]).
  - rewrite rest_text_nil in *. rewrite !length_app in Hn. cbn [elements]. rewrite <-!app_assoc.
    cbn [app]. rewrite Hr by (lia || by apply blank_stop). by rewrite skip_to_mark.
  - rewrite rest_text_cons in *. rewrite !length_app in Hn. cbn [length] in Hn, Hm.
    rewrite length_app in Hn. apply Forall_cons in Hes as [He' Hes]. cbn [elements].
    rewrite <-!app_assoc. cbn [app]. rewrite Hr by (lia || by apply blank_stop).
    rewrite skip_to_mark by done. cbn [Z.eqb Pos.eqb].
    destruct (rest_text_starts e' es He') as (s & t & E & Hst). pose proof He' as (Hb' & _).
    rewrite E, <-!app_assoc, skip_to, app_assoc, <-E by done. by rewrite IH by (done || lia).
Qed.

Definition array_text (e : element) (es : list element) : ustr := 91 :: el_before e ++ rest_text e es.

Lemma length_flat_map_ge {A} (f : A -> ustr) l :
  (forall a, f a <> []) -> (length l <= length (flat_map f l))%nat.
Proof.
  intros Hf. induction l as [|a l IH]; [done|]. cbn [flat_map length]. rewrite length_app.
  specialize (Hf a). destruct (f a); [done|]. cbn [length]. lia.
Qed.

Lemma reads_as_array e es :
  element_ok e -> Forall element_ok es -> reads_as (JList (map el_value (e :: es))) (array_text e es).
Proof.
  intros He Hes. split; [by eexists _, _|]. intros n r Hn Hr. destruct n as [|n]; [lia|].
  unfold array_text in *. cbn [length] in Hn. rewrite length_app in Hn. cbn [app scan Z.eqb Pos.eqb].
  destruct (rest_text_starts e es He) as (s & t & E & Hst). pose proof He as (Hb & _).
  rewrite E, <-!app_assoc, skip_to by done. pose proof Hst as (c & t' & Hs & Hc & H93).
  rewrite Hs at 1. cbn [app]. rewrite (proj2 (Z.eqb_neq c 93)) by done.
  change (c :: t' ++ t ++ r) with ((c :: t') ++ t ++ r). rewrite <-Hs, app_assoc, <-E.
  assert (length es <= length (rest_text e es))%nat as Hlen.
  { unfold rest_text. rewrite !length_app.
    pose proof (length_flat_map_ge (fun e => 44 :: element_text e) es). lapply H; [lia|done]. }
  by rewrite elements_reads_as by (done || lia).
Qed.

(** ** Objects *)

(** A member: the blanks before its key, the key, the blanks around the colon,
    its value and text, the blanks after. *)
Record member := Member { mb_before : ustr; mb_key : ustr; mb_colon1 : ustr; mb_colon2 : ustr;
                          mb_value : json; mb_text : ustr; mb_after : ustr }.

Definition member_body (e : member) : ustr :=
  quote (mb_key e) ++ mb_colon1 e ++ 58 :: mb_colon2 e ++ mb_text e ++ mb_after e.

Definition member_ok (e : member) : Prop :=
  blank (mb_before e) /\ Forall scalar (mb_key e) /\ blank (mb_colon1 e) /\ blank (mb_colon2 e) /\
  reads_as (mb_value e) (mb_text e) /\ blank (mb_after e).

Definition member_item (e : member) : ustr * json := (mb_key e, mb_value e).

Definition members_text (e : member) (es : list member) : ustr :=
  member_body e ++ flat_map (fun e => 44 :: mb_before e ++ member_body e) es ++ [125].

Lemma members_text_cons e e' es :
  members_text e (e' :: es) = member_body e ++ 44 :: mb_before e' ++ members_text e' es.
Proof. unfold members_text. cbn [flat_map app]. by rewrite <-!app_assoc. Qed.

Lemma members_text_starts e es : exists t, members_text e es = 34 :: t.
Proof. unfold members_text, member_body. rewrite <-!app_assoc, quote_app. by eexists. Qed.

Lemma length_quote k : (2 <= length (quote k))%nat.
Proof. unfold quote. cbn. rewrite length_app. cbn. lia. Qed.

(** The head of a member, up to the mark after it. *)
Lemma members_head n m e c r :
  member_ok e -> (length (member_body e) < n)%nat -> c = 44 \/ c = 125 ->
  members (scan n) (S m) (member_body e ++ c :: r) =
    if c =? 44 then
      match members (scan n) m (skip_ws r) with
      | Some (kvs, r') => Some (member_item e :: kvs, r')
      | None => None
      end
    else Some ([member_item e], r).
Proof.
  intros (Hb & Hk & Hc1 & Hc2 & [Hs Hr] & Ha) Hn Hc. unfold member_body in *.
  rewrite !length_app in Hn. cbn [length] in Hn. rewrite !length_app in Hn.
  rewrite <-!app_assoc, quote_app. cbn [members app Z.eqb Pos.eqb].
  rewrite scanstring_quoted by done. rewrite skip_to_mark by done.
  cbn [Z.eqb Pos.eqb app]. rewrite <-!app_assoc, skip_to by done.
  rewrite Hr by (lia || (apply blank_stop; [done|]; by destruct Hc as [-> | ->])).
  rewrite skip_to_mark by (done || by destruct Hc as [-> | ->]). by destruct Hc as [-> | ->].
Qed.

Lemma members_reads_as n m e es r :
  member_ok e -> Forall member_ok es ->
  (length (members_text e es) < n)%nat -> (length es < m)%nat ->
  members (scan n) m (members_text e es ++ r) = Some (map member_item (e :: es), r).
Proof.
  revert e m. induction es as [|e' es IH]; intros e m He Hes Hn Hm; (destruct m as [|m]; [lia|]).
  - unfold members_text in *. cbn [flat_map app] in *. rewrite length_app in Hn.
    rewrite <-app_assoc. cbn [app]. by rewrite members_head by (done || lia || by right).
  - rewrite members_text_cons in *. rewrite length_app in Hn. cbn [length] in Hn, Hm.
    rewrite length_app in Hn. apply Forall_cons in Hes as [He' Hes]. rewrite <-app_assoc. cbn [app].
    rewrite members_head by (done || lia || by left). cbn [Z.eqb Pos.eqb]. rewrite <-app_assoc.
    pose proof He' as (Hb' & _). rewrite skip_ws_blank by done.
    destruct (members_text_starts e' es) as [t E]. rewrite E at 1. cbn [app skip_ws is_ws Z.eqb Pos.eqb orb].
    change (34 :: t ++ r) with ((34 :: t) ++ r). rewrite <-E. by rewrite IH by (done || lia).
Qed.

Definition object_text (e : member) (es : list member) : ustr := 123 :: mb_before e ++ members_text e es.

Lemma reads_as_object e es :
  member_ok e -> Forall member_ok es -> NoDup (map mb_key (e :: es)) ->
  reads_as (JObj (map member_item (e :: es))) (object_text e es).
Proof.
  intros He Hes Hnd. split; [by eexists _, _|]. intros n r Hn Hr. destruct n as [|n]; [lia|].
  unfold object_text in *. cbn [length] in Hn. rewrite length_app in Hn. cbn [app scan Z.eqb Pos.eqb].
  pose proof He as (Hb & _). rewrite <-app_assoc, skip_ws_blank by done.
  destruct (members_text_starts e es) as [t E]. rewrite E at 1. cbn [app skip_ws is_ws Z.eqb Pos.eqb orb].
  change (34 :: t ++ r) with ((34 :: t) ++ r). rewrite <-E.
  assert (length es <= length (members_text e es))%nat as Hlen.
  { unfold members_text. rewrite !length_app.
    pose proof (length_flat_map_ge (fun e => 44 :: mb_before e ++ member_body e) es).
    lapply H; [lia|done]. }
  rewrite members_reads_as by (done || lia). rewrite (dict_update_fresh []); [done|].
  cbn [app]. unfold dict_keys. by rewrite map_map.
Qed.

(** ** Documents *)

Lemma loads_reads_as j w s w' : blank w -> reads_as j s -> blank w' -> loads (w ++ s ++ w') = Ok j.
Proof.
  intros Hw [Hs Hr] Hw'. unfold loads. rewrite skip_to by done.
  assert (match w ++ s ++ w' with c :: _ => c =? 65279 | [] => false end = false) as ->.
  { destruct Hw as [|c w Hc _]; cbn [app].
    - destruct Hs as (c & t & -> & Hc & _). cbn. destruct (Z.eqb_spec c 65279) as [->|]; [|done].
      specialize (Hr (S (length (65279 :: t))) [] ltac:(lia) I). cbn [scan app] in Hr.
      by unfold scan_number in Hr.
    - unfold is_ws in Hc. lia. }
  assert (num_stop w') as Hstop by (destruct Hw' as [|c w' Hc _]; [done|by apply ws_stop]).
  rewrite Hr; [|rewrite !length_app; lia|done].
  rewrite <-(app_nil_r w'), skip_ws_blank by done. done.
Qed.
