(* ===== verification/NfsSensor.v ===== *)
(** The sensor around the NFS parser, [targets/nfs-sensor-target/sensor/]:
    [sensor_nfs.py] (packets to JSON messages on the wrapper's queue, the
    capture loops, the option checks) and the standalone taps
    [standalone_nfs_tap.py] and [standalone_nfs_tap_sync.py], which print the
    same record instead.

    A capture is given as the list of its packets, each the RPC layer of the
    packet if it has one; a live capture as the list of what each
    [select(0)] found ready. *)

From S2P Require Import Prelude Json NfsConst Layers Scapy Rpc NfsState NfsHandler.

(** * State and effects *)

(** The parser's tables, the monitor, the message queue, and what a tap
    printed. *)
Record sensor_state := SensorState {
  ss_rpc : rpc_state;
  ss_mon : mon_state;
  ss_queue : list ustr;
  ss_printed : list (ustr * string * action);
}.

Definition sensor_init : sensor_state := SensorState rpc_init mon_init [] [].

(** A computation on one part of the state. *)
Definition on_mon {A} (m : M mon_state A) : M sensor_state A := fun s =>
  let (r, m') := m (ss_mon s) in (r, SensorState (ss_rpc s) m' (ss_queue s) (ss_printed s)).
Definition on_rpc {A} (m : M rpc_state A) : M sensor_state A := fun s =>
  let (r, m') := m (ss_rpc s) in (r, SensorState m' (ss_mon s) (ss_queue s) (ss_printed s)).
Definition enqueue (msg : ustr) : M sensor_state unit :=
  modify (fun s => SensorState (ss_rpc s) (ss_mon s) (ss_queue s ++ [msg]) (ss_printed s)).
Definition print_record (now : ustr) (level : string) (data : action) : M sensor_state unit :=
  modify (fun s => SensorState (ss_rpc s) (ss_mon s) (ss_queue s)
                     (ss_printed s ++ [(now, level, data)])).

(** What [json.dumps] makes of a report's values: packets and byte strings
    are not serializable. *)
Fixpoint value_json (v : value) : res json :=
  match v with
  | VNone => Ok JNull
  | VInt z => Ok (JInt z)
  | VStr s => Ok (JStr (u s))
  | VBytes _ => Raise TypeError
  | VList l =>
      let? js := (fix go l := match l with
                              | [] => Ok []
                              | v :: l => let? j := value_json v in
                                          let? js := go l in Ok (j :: js)
                              end) l in
      Ok (JList js)
  | VPkt _ _ => Raise TypeError
  end.

Fixpoint action_json (a : action) : res (list (ustr * json)) :=
  match a with
  | [] => Ok []
  | (k, v) :: a =>
      let? j := value_json v in
      let? r := action_json a in
      Ok ((u k, j) :: r)
  end.

(** The record a report becomes. *)
Definition log_record (now : ustr) (level : string) (act : json) : list (ustr * json) :=
  [(u "timestamp", JStr now); (u "level", JStr (u level)); (u "action", act)].

Section Sensor.
Context (other_str : value -> string).

(** ** [sensor_nfs.py] *)

(** [recv_pkt(pkt, message_stub, message_queue)] at time [now]. *)
Definition recv_pkt (now : ustr) (message_stub : list (ustr * json)) (pkt : option rpc_pkt)
    : M sensor_state unit :=
  do r <- on_mon (pkt_handler_standard other_str pkt);
  match r with
  | None => ret tt
  | Some (level, data) =>
      do act <- lift (action_json data);
      let logmsg := dict_update (log_record now level (JObj act)) message_stub in
      enqueue (dumps (JObj logmsg))
  end.

(** [nfs3_process_pkts] on the packets of the capture file, with the clock
    read for each. *)
Definition nfs3_process_pkts (message_stub : list (ustr * json))
    (pkts : list (ustr * option rpc_pkt)) : M sensor_state unit :=
  for_each (fun p => recv_pkt p.1 message_stub p.2) pkts.

(** [config.get('enabled', True)] *)
Definition config_enabled (config : list (ustr * json)) : bool :=
  match dict_get (u "enabled") config with Some j => json_truth j | None => true end.

(** The loop of [nfs3_sniff_iface] while [sniff_sockets] holds: one entry per
    [select(0)], the sockets that were ready in it, and for each what its
    [recv()] gave ([None]: no packet). *)
Definition nfs3_sniff_iface (message_stub config : list (ustr * json))
    (polls : list (list (option (ustr * option rpc_pkt)))) : M sensor_state unit :=
  let enabled := config_enabled config in
  for_each (fun ready =>
    for_each (fun pkt =>
      match pkt with
      | None => ret tt
      | Some (now, p) => if negb enabled then ret tt else recv_pkt now message_stub p
      end) ready) polls.

(** [wrapper.opts.iface] and [wrapper.opts.pcap] *)
Record nfs_opts := NfsOpts { opt_iface : option string; opt_pcap : option string }.

Definition given (o : option string) : bool :=
  match o with Some s => negb (bool_decide (s = "")) | None => false end.

Definition nfs3_sense (opts : nfs_opts) (message_stub config : list (ustr * json))
    (polls : list (list (option (ustr * option rpc_pkt))))
    (pkts : list (ustr * option rpc_pkt)) : M sensor_state unit :=
  if given (opt_iface opts) && given (opt_pcap opts) then throw RuntimeError
  else if negb (given (opt_iface opts)) && negb (given (opt_pcap opts)) then throw RuntimeError
  else
    do_ on_rpc init;
    if given (opt_iface opts)
    then nfs3_sniff_iface message_stub config polls
    else nfs3_process_pkts message_stub pkts.

(** ** The standalone taps *)

(** [print(logmsg)]: a Python record, printed whatever its values are. *)
Definition tap_recv_pkt (now : ustr) (pkt : option rpc_pkt) : M sensor_state unit :=
  do r <- on_mon (pkt_handler_standard other_str pkt);
  match r with
  | None => ret tt
  | Some (level, data) => print_record now level data
  end.

Definition proc_all_pkts (pkts : list (ustr * option rpc_pkt)) : M sensor_state unit :=
  for_each (fun p => tap_recv_pkt p.1 p.2) pkts.

Definition async_sniff (polls : list (list (option (ustr * option rpc_pkt)))) : M sensor_state unit :=
  for_each (fun ready =>
    for_each (fun pkt =>
      match pkt with
      | None => ret tt
      | Some (now, p) => tap_recv_pkt now p
      end) ready) polls.
End Sensor.

(** * Theorems *)

Section SensorTheorems.
Context (other_str : value -> string).

Lemma value_json_wf v j : value_json v = Ok j -> jwf j.
Proof.
  revert v j. fix go 1. intros [|z|s|b|l|c fs] j; cbn [value_json]; try discriminate.
  - by intros [= <-].
  - by intros [= <-].
  - intros [= <-]. apply scalar_u.
  - intros Hj. apply res_bind_Ok in Hj as (js & Hjs & [= <-]). apply jwf_list.
    revert js Hjs. induction l as [|v l IH]; intros js Hjs.
    + injection Hjs as <-. constructor.
    + apply res_bind_Ok in Hjs as (j & Hj & Hjs). apply res_bind_Ok in Hjs as (js' & Hjs & [= <-]).
      constructor; [by eapply go|by apply IH].
Qed.

Lemma action_json_wf a d : NoDup (dict_keys a) -> action_json a = Ok d -> jwf (JObj d).
Proof.
  intros Hnd Hd. apply jwf_obj.
  assert (map fst d = map u (dict_keys a) /\ Forall (fun kv => Forall scalar kv.1 /\ jwf kv.2) d)
    as [-> ?].
  { clear Hnd. revert d Hd. induction a as [|[k v] a IH]; intros d; cbn [action_json].
    - by intros [= <-].
    - intros Hd. apply res_bind_Ok in Hd as (j & Hj & Hd).
      apply res_bind_Ok in Hd as (r & Hr & [= <-]).
      destruct (IH r Hr) as [Hk Hf]. cbn. split; [by rewrite Hk|].
      constructor; [|done]. split; [apply scalar_u|by eapply value_json_wf]. }
  split; [|done]. by apply NoDup_fmap_2; [apply _|].
Qed.

Lemma log_record_wf now level act :
  Forall scalar now -> jwf act -> jwf (JObj (log_record now level act)).
Proof.
  intros Hnow Hact. apply jwf_obj. split; [by apply (bool_decide_unpack _)|].
  repeat (apply Forall_cons_2; [split; [apply scalar_u|]|]); [exact Hnow|apply scalar_u|done|].
  constructor.
Qed.

Lemma message_wf now level act stub :
  Forall scalar now -> jwf act -> stub_ok stub ->
  jwf (JObj (dict_update (log_record now level act) stub)).
Proof.
  intros Hnow Hact [Hnd Hf].
  destruct (proj1 (jwf_obj _) (log_record_wf now level act Hnow Hact)) as [Hnd' Hf'].
  apply jwf_obj. split; [by apply (dict_update_nodup (log_record now level act))|].
  by apply dict_update_Forall.
Qed.

Lemma on_mon_run {A} (m : M mon_state A) s r m' :
  m (ss_mon s) = (r, m') ->
  on_mon m s = (r, SensorState (ss_rpc s) m' (ss_queue s) (ss_printed s)).
Proof. intros H. unfold on_mon. by rewrite H. Qed.

(** What reaches the message queue. A reported packet puts exactly one
    message on the queue, a JSON text that decodes to an object with the
    stub's items and, where the stub does not override them, the time, the
    level and the action of the report. *)
Theorem recv_pkt_message now stub pkt s level data m' act :
  Forall scalar now -> stub_ok stub ->
  pkt_handler_standard other_str pkt (ss_mon s) = (Ok (Some (level, data)), m') ->
  action_json data = Ok act ->
  exists msg d,
    recv_pkt other_str now stub pkt s =
      (Ok tt, SensorState (ss_rpc s) m' (ss_queue s ++ [msg]) (ss_printed s)) /\
    loads msg = Ok (JObj d) /\
    forall k, dict_get k d =
      match dict_get k stub with
      | Some v => Some v
      | None => dict_get k (log_record now level (JObj act))
      end.
Proof.
  intros Hnow Hstub Hh Hact. set (d := dict_update (log_record now level (JObj act)) stub).
  exists (dumps (JObj d)), d. split_and!.
  - unfold recv_pkt. apply on_mon_run in Hh. mstep. cbv beta iota. by mstep.
  - apply loads_dumps, message_wf; [done| |done].
    apply handler_core_action_ok in Hh as (_ & Hnd & _). by eapply action_json_wf.
  - intros k. apply dict_update_get, Hstub.
Qed.

(** A live capture is a capture file. Sniffing the packets of any
    sequence of polls does what processing them in the order they were
    received does; with [enabled] false in the configuration nothing is
    parsed, tracked or sent. *)
Theorem sniff_is_process stub config polls s :
  nfs3_sniff_iface other_str stub config polls s =
    if config_enabled config
    then nfs3_process_pkts other_str stub (omap id (concat polls)) s
    else (Ok tt, s).
Proof.
  unfold nfs3_sniff_iface, nfs3_process_pkts.
  set (f := fun pkt : option (ustr * option rpc_pkt) => _).
  set (g := fun p : ustr * option rpc_pkt => recv_pkt _ _ _ _).
  assert (forall (a b : list (option (ustr * option rpc_pkt))) s,
    for_each f (a ++ b) s = (do_ for_each f a; for_each f b) s) as Happ.
  { intros a b. induction a as [|x a IH]; intros s'; [done|]. cbn [for_each app].
    unfold bind in *. destruct (f x s') as [[[]|e] s1]; [apply IH|done]. }
  assert (forall polls s, for_each (fun ready => for_each f ready) polls s =
    for_each f (concat polls) s) as ->.
  { intros l. induction l as [|r l IH]; intros s'; [done|]. cbn [for_each concat].
    rewrite Happ. unfold bind. destruct (for_each f r s') as [[[]|e] s1]; [apply IH|done]. }
  generalize (concat polls) as l. intros l. revert s.
  induction l as [|[[now p]|] l IH]; intros s; cbn [for_each omap list_omap].
  - by destruct (config_enabled config).
  - unfold bind at 1. unfold f at 1. destruct (config_enabled config) eqn:E; cbn [negb].
    + cbn [id for_each]. unfold bind, g at 1. cbn [fst snd].
      destruct (recv_pkt other_str now stub p s) as [[[]|e] s1]; [|done]. by rewrite IH, ?E.
    + cbn. by rewrite IH, ?E.
  - apply IH.
Qed.

(** READLINK replies never reach the queue. The handler reports a
    successful READLINK with the target as a packet, which [json.dumps]
    refuses: [recv_pkt] raises [TypeError] and sends nothing. *)
Theorem readlink_not_sent now stub reply call s h path who st fs :
  attr call "prog" = Ok (VInt prog_nfs) ->
  attr call "proc" = Ok (VInt (sub_const Nfs3_ProcedureValMap "NFSPROC3_READLINK")) ->
  attr call "handle" = Ok h -> get_path other_str h (ss_mon s) = (Ok path, ss_mon s) ->
  on_success reply "path" = Ok (VPkt cNFS3_path fs) ->
  get_auth_str other_str call = Ok who -> status_string other_str reply = Ok st ->
  (recv_pkt other_str now stub (Some (RpcPkt reply (Some call))) s).1 = Raise TypeError /\
  ss_queue (recv_pkt other_str now stub (Some (RpcPkt reply (Some call))) s).2 = ss_queue s.
Proof.
  intros Hprog Hproc Hh Hpath Htarget Hwho Hst.
  set (pkt := Some (RpcPkt reply (Some call))).
  assert (handle_path other_str call "handle" (ss_mon s) = (Ok path, ss_mon s)) as Hp.
  { unfold handle_path. by mstep. }
  assert ((handle other_str pkt (ss_mon s)).1 = Ok (Some (info_level,
    [ ("proto", VStr "nfs"); ("command", VStr "readlink"); ("path", VStr path);
      ("who", VStr who); ("status", VStr st); ("target", VPkt cNFS3_path fs) ]))) as Hrep.
  { unfold handle, pkt. do 2 mstep.
    change (dispatch (nfs3_handler_lookup other_str)
      (VInt (sub_const Nfs3_ProcedureValMap "NFSPROC3_READLINK")) call reply)
      with (_handle_nfs3_readlink other_str call reply).
    cbn [eq_int]. change (prog_nfs =? prog_mountd) with false.
    change (prog_nfs =? prog_nfs) with true. cbv iota.
    unfold _handle_nfs3_readlink. do 2 mstep. by erewrite report_run. }
  assert (nfs_reply reply call "NFSPROC3_READLINK") as Hr.
  { split_and!; [done..|]. unfold on_success in Htarget.
    apply res_bind_Ok in Htarget as (v & Hv & Htarget).
    apply res_bind_Ok in Htarget as ([] & Hok & Htarget); [by exists v|discriminate]. }
  assert (update_state other_str pkt (ss_mon s) = (Ok tt, set_ct (Z.add 1) (ss_mon s))) as Hup.
  { unfold pkt. by rewrite (update_nfs_reply _ _ _ _ _ Hr). }
  assert (on_mon (pkt_handler_standard other_str pkt) s = (Ok (Some (info_level,
    [ ("proto", VStr "nfs"); ("command", VStr "readlink"); ("path", VStr path);
      ("who", VStr who); ("status", VStr st); ("target", VPkt cNFS3_path fs) ])),
    SensorState (ss_rpc s) (set_ct (Z.add 1) (ss_mon s)) (ss_queue s) (ss_printed s))) as Hrun.
  { apply on_mon_run. unfold pkt_handler_standard.
    rewrite handler_core_run, Hrep. by erewrite bind_step. }
  unfold recv_pkt. by erewrite !bind_step by exact Hrun.
Qed.
End SensorTheorems.

(** * Witnesses *)

Definition ex_stub : list (ustr * json) :=
  [(u "sensor_id", JStr (u "5e1f")); (u "sensor_name", JStr (u "NFS-1.20180801"))].
Definition ex_sensor : sensor_state := SensorState rpc_init ex_mon [] [].
Definition ex_now : ustr := u "2018-08-01T00:00:00".
Definition ex_lookup_pkt : option rpc_pkt :=
  Some (RpcPkt ex_lookup_reply (Some (ex_nfs_call "NFSPROC3_LOOKUP" [ex_dir_op "args"]))).

Lemma ex_stub_ok : stub_ok ex_stub.
Proof.
  split; [by apply (bool_decide_unpack _)|].
  repeat (apply Forall_cons_2; [split; apply scalar_u|]). constructor.
Qed.

Lemma recv_pkt_message_witness :
  exists msg d,
    (exists s', recv_pkt no_str ex_now ex_stub ex_lookup_pkt ex_sensor = (Ok tt, s')) /\
    loads msg = Ok (JObj d) /\
    dict_get (u "sensor_id") d = Some (JStr (u "5e1f")).
Proof.
  destruct (recv_pkt_message no_str ex_now ex_stub ex_lookup_pkt ex_sensor info_level
    ex_lookup_report (_handler_core no_str ex_lookup_pkt ex_mon).2
    (match action_json ex_lookup_report with Ok a => a | Raise _ => [] end))
    as (msg & d & Hrun & Hload & Hd);
    [apply scalar_u|apply ex_stub_ok|vm_compute; reflexivity|vm_compute; reflexivity|].
  exists msg, d. split; [eexists; exact Hrun|]. split; [exact Hload|].
  rewrite Hd. vm_compute. reflexivity.
Defined.

Lemma readlink_not_sent_witness :
  let reply := [ (cRPC_Header, header_env 7 1); (cRPC_Reply, []);
    (cNFS3_READLINK_Reply, [("nfs_status", ex_status)]);
    (cNFS3_READLINK_ReplyOk, [("path", VPkt cNFS3_path [("l", VInt 1); ("v", VBytes [Byte.x61])])]) ] in
  let call := ex_nfs_call "NFSPROC3_READLINK" [("handle", ex_handle Byte.x01)] in
  (recv_pkt no_str ex_now ex_stub (Some (RpcPkt reply (Some call))) ex_sensor).1 = Raise TypeError.
Proof.
  apply (readlink_not_sent no_str ex_now ex_stub _ _ ex_sensor (ex_handle Byte.x01) "/srv"
    "AUTH_NULL" "NFS3_OK" [("l", VInt 1); ("v", VBytes [Byte.x61])]); vm_compute; reflexivity.
Defined.
