(* ===== verification/Bridge.v ===== *)
(** The desktop bridge sensor, [targets/desktop-bridge-target/sensor/bridge.py]:
    newline-separated JSON documents read from local TCP connections are put
    on an internal queue, and [handle_messages] forwards what it takes from
    that queue to the wrapper's queue.

    The bytes a producer sends before it closes its side are a [bytes]; the
    module globals and queues are the record [bridge_state].  [None] on the
    internal queue is the document [JNull], as [json.loads("null")] is
    [None]. *)

From S2P Require Import Prelude Json PyText.

(** * Reading documents *)

(** The longest text that is kept while it does not parse. *)
Definition max_body : Z := 8192.

(** The loop of [read_json_doc]; every round but the last reads at least one
    byte, so one more round than there are bytes is enough. *)
Fixpoint read_json_doc_loop (fuel : nat) (body : ustr) (stream : bytes) : res json * bytes :=
  match fuel with
  | O => (Ok JNull, stream)
  | S fuel =>
      let (line, rest) := readline stream in
      if Nat.eqb (length line) 0 then (Ok JNull, rest)
      else
        match utf8_decode line with
        | Raise e => (Raise e, rest)
        | Ok text =>
            let body := body ++ ustrip text in
            match loads body with
            | Ok decoded => (Ok decoded, rest)
            | Raise JSONDecodeError =>
                read_json_doc_loop fuel
                  (if Z.of_nat (length body) >? max_body then [] else body) rest
            | Raise e => (Raise e, rest)
            end
        end
  end.

Definition read_json_doc (stream : bytes) : res json * bytes :=
  read_json_doc_loop (S (length stream)) [] stream.

(** * Queues and connections *)

Record bridge_state := BridgeState {
  inqueue : list json;
  outqueue : list ustr;
  msg_ct : Z;
}.

Definition bridge_init : bridge_state := BridgeState [] [] 0.

Definition put_in (j : json) (s : bridge_state) : bridge_state :=
  BridgeState (inqueue s ++ [j]) (outqueue s) (msg_ct s).
Definition put_out (m : ustr) (s : bridge_state) : bridge_state :=
  BridgeState (inqueue s) (outqueue s ++ [m]) (msg_ct s).
Definition count_msg (s : bridge_state) : bridge_state :=
  BridgeState (inqueue s) (outqueue s) (msg_ct s + 1).

(** The [while True] of a connection: [Some rest] when the loop broke, with
    what the producer sent after that; every document takes at least one
    byte. *)
Fixpoint connection_loop (fuel : nat) (stream : bytes) : M bridge_state bytes :=
  match fuel with
  | O => ret stream
  | S fuel =>
      let (msg, rest) := read_json_doc stream in
      do msg <- lift msg;
      if json_truth msg then
        do_ modify (put_in msg);
        connection_loop fuel rest
      else ret rest
  end.

(** [handle_connection_curio]: the connection is closed with the returned
    bytes unread. *)
Definition handle_connection_curio (stream : bytes) : M bridge_state bytes :=
  do rest <- connection_loop (S (length stream)) stream;
  do_ modify (put_in JNull);
  ret rest.

(** * Forwarding *)

(** One round of [async for injson in inqueue] at time [now]. *)
Definition forward (standalone : bool) (message_stub : option (list (ustr * json)))
    (now : ustr) (injson : json) : M bridge_state unit :=
  let injson := if json_truth injson then injson
                else JObj [(u "status", JStr (u "no more messages"))] in
  let outdict := [(u "timestamp", JStr now); (u "level", JStr (u "info")); (u "message", injson)] in
  let outdict := match message_stub with
                 | Some stub => dict_update outdict stub
                 | None => outdict
                 end in
  do_ modify count_msg;
  if standalone then ret tt
  else modify (put_out (dumps (JObj outdict) ++ [newline])).

(** [handle_messages] until the queue is empty. *)
Definition handle_messages (standalone : bool) (message_stub : option (list (ustr * json)))
    (now : ustr) : M bridge_state unit :=
  do q <- gets inqueue;
  do_ modify (fun s => BridgeState [] (outqueue s) (msg_ct s));
  for_each (forward standalone message_stub now) q.

(** * Start-up *)

Inductive stop_callback := NoCallback | DummyWait.

(** [production()]: the wrapper's name and stop callback for
    [platform.system().lower()]. *)
Definition production (plat : string) : res (string * stop_callback) :=
  if decide (plat = "linux") then Ok ("desktop" +:+ plat, NoCallback)
  else if decide (plat = "windows") then Ok ("desktop" +:+ plat, DummyWait)
  else Raise RuntimeError.

(** * Lemmas *)

Lemma readline_line l rest :
  Forall (fun c => 0 <= c < 256 /\ c <> newline) l ->
  readline (ascii_bytes (l ++ [newline]) ++ rest) = (ascii_bytes (l ++ [newline]), rest).
Proof.
  induction 1 as [|c l [Hc Hne] _ IH]; [done|]. cbn [ascii_bytes map app readline].
  rewrite byte_val_of, Z.mod_small, (proj2 (Z.eqb_neq _ _)) by (done || lia).
  unfold ascii_bytes in IH. by rewrite IH.
Qed.

Lemma printable_line s : Forall printable s -> Forall (fun c => 0 <= c < 256 /\ c <> newline) s.
Proof. intros H. eapply Forall_impl; [exact H|]. intros c. unfold printable, newline. lia. Qed.

(** Rounds beyond one more than the bytes there are change nothing. *)
Lemma loop_fuel n m body s :
  (length s < n)%nat -> (length s < m)%nat ->
  read_json_doc_loop n body s = read_json_doc_loop m body s.
Proof.
  revert m body s. induction n as [|n IH]; intros m body s Hn Hm; [lia|].
  destruct m as [|m]; [lia|]. cbn [read_json_doc_loop].
  destruct (readline s) as [l r] eqn:E. apply readline_split in E as ->.
  destruct l as [|b l]; [done|]. rewrite length_app in *. cbn [length Nat.eqb] in *.
  destruct (utf8_decode (b :: l)); [|done].
  destruct (loads _) as [|[]]; try done. apply IH; lia.
Qed.

(** A document as its producer sends it: cut into lines anywhere between
    visible characters. *)
Definition doc_bytes (pieces : list ustr) : bytes :=
  flat_map (fun p => ascii_bytes (p ++ [newline])) pieces.

Definition doc_ok (d : json) (pieces : list ustr) : Prop :=
  jwf d /\ container d = true /\ concat pieces = dumps d /\
  Forall stripped pieces /\ Z.of_nat (length (concat (removelast pieces))) <= max_body.

Lemma stripped_ne s : stripped s -> s <> [].
Proof. by destruct s. Qed.

Lemma round_line fuel body p rest :
  Forall printable p -> stripped p ->
  read_json_doc_loop (S fuel) body (ascii_bytes (p ++ [newline]) ++ rest) =
    match loads (body ++ p) with
    | Ok decoded => (Ok decoded, rest)
    | Raise JSONDecodeError =>
        read_json_doc_loop fuel
          (if Z.of_nat (length (body ++ p)) >? max_body then [] else body ++ p) rest
    | Raise e => (Raise e, rest)
    end.
Proof.
  intros Hp Hs. cbn [read_json_doc_loop]. rewrite readline_line by by apply printable_line.
  assert (Nat.eqb (length (ascii_bytes (p ++ [newline]))) 0 = false) as ->.
  { apply Nat.eqb_neq. unfold ascii_bytes. rewrite length_map, length_app. cbn. lia. }
  rewrite utf8_decode_ascii.
  2: { apply Forall_app. split; [by apply printable_ascii|]. by repeat constructor. }
  by rewrite ustrip_line.
Qed.

Lemma loop_pieces d pieces body rest fuel :
  jwf d -> container d = true -> body ++ concat pieces = dumps d ->
  Forall stripped pieces -> pieces <> [] ->
  Z.of_nat (length (body ++ concat (removelast pieces))) <= max_body ->
  (length pieces <= fuel)%nat ->
  read_json_doc_loop fuel body (doc_bytes pieces ++ rest) = (Ok d, rest).
Proof.
  intros Hd Hc. revert body fuel. induction pieces as [|p pieces IH]; intros body fuel Hbody Hs Hne Hmax Hf;
    [done|].
  destruct fuel as [|fuel]; [cbn in Hf; lia|]. apply Forall_cons in Hs as [Hp Hs].
  pose proof (dumps_printable d Hd) as Hpr. rewrite <-Hbody in Hpr. cbn [concat] in Hpr, Hbody.
  rewrite !Forall_app in Hpr. destruct Hpr as (_ & Hpp & _).
  unfold doc_bytes. cbn [flat_map]. rewrite <-(assoc_L (++)), round_line by done.
  fold (doc_bytes pieces). destruct pieces as [|p' pieces].
  - cbn [concat] in Hbody. rewrite app_nil_r in Hbody. by rewrite Hbody, loads_dumps.
  - rewrite (assoc_L (++)) in Hbody.
    rewrite (loads_prefix d (body ++ p) (concat (p' :: pieces))); [|done|done|done|].
    2: { cbn [concat]. pose proof (stripped_ne _ (Forall_inv Hs)). by destruct p'. }
    change (removelast (p :: p' :: pieces)) with (p :: removelast (p' :: pieces)) in Hmax.
    cbn [concat] in Hmax. rewrite (assoc_L (++)) in Hmax.
    destruct (Z.gtb_spec (Z.of_nat (length (body ++ p))) max_body) as [Hlong|_].
    { rewrite length_app in Hmax. lia. }
    apply IH; [done|done|done|done|cbn in *; lia].
Qed.

Lemma length_doc_bytes pieces : (length pieces <= length (doc_bytes pieces))%nat.
Proof.
  induction pieces as [|p pieces IH]; [done|]. unfold doc_bytes in *. cbn [flat_map length].
  rewrite length_app. unfold ascii_bytes at 1. rewrite length_map, length_app. cbn. lia.
Qed.

Lemma doc_pieces_ne d pieces : doc_ok d pieces -> pieces <> [].
Proof.
  intros (Hd & _ & Hc & _) ->. destruct (dumps_head d Hd) as (c & s & E & _). by rewrite E in Hc.
Qed.

Lemma read_doc d pieces rest :
  doc_ok d pieces -> read_json_doc (doc_bytes pieces ++ rest) = (Ok d, rest).
Proof.
  intros Hd. pose proof (doc_pieces_ne _ _ Hd). destruct Hd as (Hw & Hc & Hcat & Hs & Hmax).
  unfold read_json_doc. apply loop_pieces; [done..|].
  rewrite length_app. pose proof (length_doc_bytes pieces). lia.
Qed.

(** A line of more than 8192 characters that is not a document is forgotten:
    reading goes on as if it had not been sent. *)
Definition junk_line (junk : ustr) : Prop :=
  Forall printable junk /\ stripped junk /\ loads junk = Raise JSONDecodeError /\
  max_body < Z.of_nat (length junk).

Lemma long_junk_dropped junk rest : junk_line junk ->
  read_json_doc (ascii_bytes (junk ++ [newline]) ++ rest) = read_json_doc rest.
Proof.
  intros (Hp & Hs & Hj & Hl). unfold read_json_doc. rewrite round_line by done. cbn [app].
  rewrite Hj. destruct (Z.gtb_spec (Z.of_nat (length junk)) max_body); [|lia].
  apply loop_fuel; [|lia]. rewrite length_app. unfold ascii_bytes.
  rewrite length_map, length_app. cbn. lia.
Qed.

(** What a producer sends: documents that are true in Python, and junk between
    them. *)
Inductive sent := Document (d : json) (pieces : list ustr) | Junk (line : ustr).

Definition sent_ok (x : sent) : Prop :=
  match x with
  | Document d pieces => doc_ok d pieces /\ json_truth d = true
  | Junk line => junk_line line
  end.
Definition sent_bytes (x : sent) : bytes :=
  match x with Document _ pieces => doc_bytes pieces | Junk line => ascii_bytes (line ++ [newline]) end.
Definition sent_doc (x : sent) : option json :=
  match x with Document d _ => Some d | Junk _ => None end.

(** How it ends: the producer closes, or it sends a document that is false in
    Python ([{}] or [[]]) and after it anything. *)
Inductive ending := Closes | SendsFalse (d : json) (pieces : list ustr) (rest : bytes).

Definition ending_ok (e : ending) : Prop :=
  match e with
  | Closes => True
  | SendsFalse d pieces _ => doc_ok d pieces /\ json_truth d = false
  end.
Definition ending_bytes (e : ending) : bytes :=
  match e with Closes => [] | SendsFalse _ pieces rest => doc_bytes pieces ++ rest end.
Definition unread (e : ending) : bytes :=
  match e with Closes => [] | SendsFalse _ _ rest => rest end.

Lemma read_ending e : ending_ok e ->
  exists d, read_json_doc (ending_bytes e) = (Ok d, unread e) /\ json_truth d = false.
Proof.
  destruct e as [|d pieces rest]; [by exists JNull|]. intros [Hd Hf]. exists d. split; [by apply read_doc|done].
Qed.

Lemma connection_junk fuel junk rest s : junk_line junk ->
  connection_loop (S fuel) (ascii_bytes (junk ++ [newline]) ++ rest) s = connection_loop (S fuel) rest s.
Proof. intros Hj. cbn [connection_loop]. by rewrite long_junk_dropped. Qed.

Lemma connection_sends items e fuel s :
  Forall sent_ok items -> ending_ok e -> (length (omap sent_doc items) < fuel)%nat ->
  connection_loop fuel (flat_map sent_bytes items ++ ending_bytes e) s =
    (Ok (unread e), BridgeState (inqueue s ++ omap sent_doc items) (outqueue s) (msg_ct s)).
Proof.
  intros Hitems He. revert fuel s.
  induction Hitems as [|x items Hx _ IH]; intros fuel s Hf; (destruct fuel as [|fuel]; [cbn in Hf; lia|]).
  - destruct (read_ending e He) as (d & Hd & Hfalse). cbn [flat_map app connection_loop]. rewrite Hd.
    unfold bind, lift. rewrite Hfalse. cbn [omap list_omap]. rewrite app_nil_r. by destruct s.
  - cbn [flat_map]. rewrite <-(assoc_L (++)). destruct x as [d pieces|junk]; cbn [sent_bytes].
    + destruct Hx as [Hd Ht]. cbn [connection_loop]. rewrite (read_doc d) by done.
      unfold bind at 1, lift. rewrite Ht. rewrite bind_modify, IH by (cbn in Hf; lia).
      cbn. by rewrite <-(assoc_L (++)).
    + rewrite connection_junk by done. by apply IH.
Qed.

Lemma length_sent items : Forall sent_ok items ->
  (length (omap sent_doc items) <= length (flat_map sent_bytes items))%nat.
Proof.
  induction 1 as [|[d p|junk] items Hx _ IH]; [done|..]; cbn [flat_map]; rewrite length_app; cbn.
  - destruct Hx as [Hd _]. pose proof (length_doc_bytes p). pose proof (doc_pieces_ne _ _ Hd).
    destruct p; [done|]. cbn [length] in *. lia.
  - lia.
Qed.

(** ** Forwarding *)

(** What [handle_messages] makes of one entry of the queue. *)
Definition entry_message (injson : json) : json :=
  if json_truth injson then injson else JObj [(u "status", JStr (u "no more messages"))].

Definition out_doc (stub : list (ustr * json)) (now : ustr) (injson : json) : list (ustr * json) :=
  dict_update [(u "timestamp", JStr now); (u "level", JStr (u "info"));
               (u "message", entry_message injson)] stub.

Lemma forward_run stub now j s :
  forward false (Some stub) now j s =
    (Ok tt, BridgeState (inqueue s)
              (outqueue s ++ [dumps (JObj (out_doc stub now j)) ++ [newline]]) (msg_ct s + 1)).
Proof. reflexivity. Qed.

Lemma forward_all stub now q s :
  for_each (forward false (Some stub) now) q s =
    (Ok tt, BridgeState (inqueue s)
              (outqueue s ++ map (fun j => dumps (JObj (out_doc stub now j)) ++ [newline]) q)
              (msg_ct s + Z.of_nat (length q))).
Proof.
  revert s. induction q as [|j q IH]; intros s; cbn [for_each].
  - cbn [map]. rewrite app_nil_r, Z.add_0_r. by destruct s.
  - unfold bind. rewrite forward_run, IH. cbn [inqueue outqueue msg_ct map length].
    rewrite <-(assoc_L (++)). f_equal. f_equal. lia.
Qed.

Lemma entry_message_wf j : jwf j -> jwf (entry_message j).
Proof.
  intros Hj. unfold entry_message. destruct (json_truth j); [done|].
  apply jwf_obj. split; [by apply (bool_decide_unpack _)|].
  repeat (apply Forall_cons_2; [split; apply scalar_u|]). constructor.
Qed.

Lemma out_doc_wf stub now j :
  stub_ok stub -> Forall scalar now -> jwf j -> jwf (JObj (out_doc stub now j)).
Proof.
  intros [Hnd Hf] Hnow Hj. apply jwf_obj. unfold out_doc. split.
  - apply (dict_update_nodup [(u "timestamp", JStr now); (u "level", JStr (u "info"));
      (u "message", entry_message j)]). by apply (bool_decide_unpack _).
  - apply dict_update_Forall; [|done].
    apply Forall_cons_2; [split; [apply scalar_u|exact Hnow]|].
    apply Forall_cons_2; [split; apply scalar_u|].
    apply Forall_cons_2; [split; [apply scalar_u|by apply entry_message_wf]|constructor].
Qed.

(** * Theorems *)

(** The reading loop ends. Beyond one more round than the stream has
    bytes, fuel changes nothing: [read_json_doc] stops by its own exits (a
    document, the end of the stream, or undecodable bytes). *)
Theorem read_json_doc_terminates fuel stream :
  (length stream < fuel)%nat ->
  read_json_doc_loop fuel [] stream = read_json_doc stream.
Proof. intros H. apply loop_fuel; lia. Qed.

(** C14: functional.  What a connection queues.  A producer sends JSON objects and
    arrays as Python prints them, each cut into lines anywhere between visible
    characters, with at most 8192 characters before its last line, and between them
    lines of more than 8192 characters that are no documents.  Then the internal queue
    receives the documents as they were sent, each once and in order, up to the first
    that is false in Python, and one end marker.  When the producer closes, no byte is
    left unread; after an empty object or array nothing the producer sends is read: the
    connection is closed as if it had ended. *)
Theorem connection_queues_documents items e s :
  Forall sent_ok items -> ending_ok e ->
  handle_connection_curio (flat_map sent_bytes items ++ ending_bytes e) s =
    (Ok (unread e),
     BridgeState (inqueue s ++ omap sent_doc items ++ [JNull]) (outqueue s) (msg_ct s)).
Proof.
  intros Hi He. unfold handle_connection_curio. pose proof (length_sent items Hi).
  erewrite bind_step; [|apply connection_sends; [done|done|rewrite length_app; lia]].
  rewrite bind_modify. unfold put_in, ret. cbn. by rewrite <-(assoc_L (++)).
Qed.

(** Forwarding. In production [handle_messages] sends, for every entry
    of the queue in order, one newline-terminated line without another
    newline in it, which decodes to an object with the stub's items and the
    entry under [message] (a fixed status document for an end marker), and
    counts it. *)
Theorem queue_is_forwarded stub now q s :
  stub_ok stub -> Forall scalar now -> Forall jwf q -> inqueue s = q ->
  dict_get (u "message") stub = None ->
  exists msgs,
    handle_messages false (Some stub) now s =
      (Ok tt, BridgeState [] (outqueue s ++ msgs) (msg_ct s + Z.of_nat (length q))) /\
    Forall2 (fun j msg => exists text d,
      msg = text ++ [newline] /\ newline ∉ text /\ loads text = Ok (JObj d) /\
      dict_get (u "message") d = Some (entry_message j) /\
      forall k v, dict_get k stub = Some v -> dict_get k d = Some v) q msgs.
Proof.
  intros Hstub Hnow Hq Hs Hm. eexists. split.
  - unfold handle_messages. rewrite bind_gets, Hs, bind_modify, forward_all. reflexivity.
  - apply Forall2_fmap_r, Forall_Forall2_diag. eapply Forall_impl; [exact Hq|].
    intros j Hj. exists (dumps (JObj (out_doc stub now j))), (out_doc stub now j).
    pose proof (out_doc_wf stub now j Hstub Hnow Hj) as Hw.
    assert (forall k, dict_get k (out_doc stub now j) = match dict_get k stub with
      Some v => Some v | None => dict_get k [(u "timestamp", JStr now);
        (u "level", JStr (u "info")); (u "message", entry_message j)] end) as Hget.
    { intros k. apply dict_update_get, Hstub. }
    split_and!.
    + done.
    + intros Hin. apply dumps_printable in Hw. rewrite Forall_forall in Hw.
      apply Hw in Hin. unfold printable, newline in Hin. lia.
    + by apply loads_dumps.
    + rewrite Hget, Hm. reflexivity.
    + intros k v Hk. by rewrite Hget, Hk.
Qed.


(** * Witnesses *)

(** [{"pid": 42, "cmd": "ls"}] over two lines, and an empty document. *)
Definition ex_doc : json := JObj [(u "pid", JInt 42); (u "cmd", JStr (u "ls"))].
Definition ex_pieces : list ustr := [take 5 (dumps ex_doc); drop 5 (dumps ex_doc)].
Definition ex_junk : ustr := replicate 8193 120.

Lemma ex_doc_ok : doc_ok ex_doc ex_pieces.
Proof.
  split_and!; [|done|vm_compute; reflexivity| |vm_compute; discriminate].
  - apply jwf_obj. split; [by apply (bool_decide_unpack _)|].
    repeat (apply Forall_cons_2; [split; first [apply scalar_u|exact I]|]). constructor.
  - repeat (apply Forall_cons_2; [split; vm_compute; reflexivity|]). constructor.
Qed.

Lemma ex_empty_ok : doc_ok (JObj []) [dumps (JObj [])].
Proof.
  split_and!; [|done|done| |vm_compute; discriminate].
  - apply jwf_obj. by split; constructor.
  - apply Forall_cons_2; [split; vm_compute; reflexivity|constructor].
Qed.

Lemma ex_junk_ok : junk_line ex_junk.
Proof.
  split; [apply Forall_replicate; unfold printable; lia|]. split_and!; [by vm_compute..|].
  by vm_compute.
Qed.

Lemma read_json_doc_terminates_witness :
  read_json_doc_loop 1000 [] (doc_bytes ex_pieces) = read_json_doc (doc_bytes ex_pieces).
Proof. apply read_json_doc_terminates. vm_compute. lia. Defined.

Lemma connection_queues_documents_witness :
  handle_connection_curio
    (flat_map sent_bytes [Junk ex_junk; Document ex_doc ex_pieces] ++
       doc_bytes [dumps (JObj [])] ++ doc_bytes ex_pieces) bridge_init =
    (Ok (doc_bytes ex_pieces), BridgeState [ex_doc; JNull] [] 0).
Proof.
  apply (connection_queues_documents [Junk ex_junk; Document ex_doc ex_pieces]
    (SendsFalse (JObj []) [dumps (JObj [])] (doc_bytes ex_pieces)) bridge_init).
  - apply Forall_cons_2; [exact ex_junk_ok|]. apply Forall_cons_2; [by split; [exact ex_doc_ok|]|constructor].
  - by split; [exact ex_empty_ok|].
Defined.

Lemma queue_is_forwarded_witness :
  exists msgs,
    handle_messages false (Some [(u "sensor_id", JStr (u "5e1f"))]) (u "now")
      (BridgeState [ex_doc; JNull] [] 0) = (Ok tt, BridgeState [] msgs 2) /\ length msgs = 2%nat.
Proof.
  destruct (queue_is_forwarded [(u "sensor_id", JStr (u "5e1f"))] (u "now") [ex_doc; JNull]
    (BridgeState [ex_doc; JNull] [] 0)) as (msgs & Hrun & Hmsgs).
  - split; [by apply (bool_decide_unpack _)|].
    apply Forall_cons_2; [split; apply scalar_u|constructor].
  - apply scalar_u.
  - apply Forall_cons_2; [apply ex_doc_ok|]. by apply Forall_cons_2; [|constructor].
  - reflexivity.
  - vm_compute. reflexivity.
  - exists msgs. split; [exact Hrun|]. by apply Forall2_length in Hmsgs.
Defined.
