(* ===== verification/BridgeTasks.v ===== *)
(** The desktop bridge with several connections at once, on the tasks of [Tasks]:
    each accepted connection is a task of its own that puts its documents on the
    one [inqueue], from which [handle_messages] takes them
    ([targets/desktop-bridge-target/sensor/bridge.py]). *)

From stdpp Require Import relations.
From S2P Require Import Prelude Json PyText Bridge Tasks.

(** * A connection as a task *)

(** The stream that is left to read, or nothing: the task has ended. *)
Inductive connection := Open (stream : bytes) | Closed.

(** One round of the loop of [handle_connection_curio]: a document is put on the
    queue, or the loop breaks, the connection is closed and the end marker put.
    Bytes that are no UTF-8 end the task without a marker; it belongs to no group
    of the bridge, so that the others go on. *)
Definition connection_round (c : connection) : outcome connection json :=
  match c with
  | Closed => Ended
  | Open stream =>
      match read_json_doc stream with
      | (Ok msg, rest) => if json_truth msg then Went (Some msg) (Open rest) else Went (Some JNull) Closed
      | (Raise _, _) => Went None Closed
      end
  end.

(** What one connection on its own leaves on an empty queue. *)
Definition connection_entries (stream : bytes) : list json :=
  inqueue (handle_connection_curio stream bridge_init).2.

(** * Lemmas *)

(** A document that counts takes at least one byte. *)
Lemma loop_progress n body s msg rest :
  read_json_doc_loop n body s = (Ok msg, rest) -> json_truth msg = true ->
  (length rest < length s)%nat.
Proof.
  revert body s. induction n as [|n IH]; intros body s; cbn [read_json_doc_loop].
  { by intros [= <- <-]. }
  destruct (readline s) as [l r] eqn:E. apply readline_split in E as ->. rewrite length_app.
  destruct l as [|b l]; cbn [length Nat.eqb]; [by intros [= <- <-]|].
  destruct (utf8_decode (b :: l)); [|done].
  destruct (loads _) as [d|[]]; try done.
  - intros [= <- <-] _. lia.
  - intros H Ht. specialize (IH _ _ H Ht). lia.
Qed.

(** The connection on its own, round by round. *)
Lemma connection_run n stream : (length stream < n)%nat ->
  exists l k, yields connection_round (Open stream) l true k /\
    forall s, ((do rest <- connection_loop n stream; do_ modify (put_in JNull); ret rest) s).2 =
      BridgeState (inqueue s ++ l) (outqueue s) (msg_ct s).
Proof.
  revert stream. induction n as [|n IH]; intros stream Hn; [lia|]. cbn [connection_loop].
  destruct (read_json_doc stream) as [[msg|e] rest] eqn:E.
  - destruct (json_truth msg) eqn:Ht.
    + destruct (IH rest) as (l & k & Hy & Hrun). { pose proof (loop_progress _ _ _ _ _ E Ht). lia. }
      exists (msg :: l), (S k). split.
      * apply (yields_round _ _ (Some msg) (Open rest)); [|done]. unfold connection_round. by rewrite E, Ht.
      * intros s. specialize (Hrun (put_in msg s)). unfold bind in *. cbn in *. rewrite Ht.
        cbn. rewrite Hrun. by rewrite <-app_assoc.
    + exists [JNull], 1%nat. split.
      * apply (yields_round _ _ (Some JNull) Closed _ true 0); [unfold connection_round; by rewrite E, Ht|by constructor].
      * intros s. unfold bind. cbn. by rewrite Ht.
  - exists [], 1%nat. split.
    + apply (yields_round _ _ None Closed _ true 0); [unfold connection_round; by rewrite E|by constructor].
    + intros s. unfold bind. cbn. rewrite app_nil_r. by destruct s.
Qed.

Lemma connection_yields stream :
  exists n, yields connection_round (Open stream) (connection_entries stream) true n.
Proof.
  destruct (connection_run (S (length stream)) stream) as (l & k & Hy & Hrun); [lia|].
  exists k. unfold connection_entries, handle_connection_curio. by rewrite Hrun.
Qed.

Definition connection_runs (streams : list bytes) : list (list json * bool) :=
  map (fun stream => (connection_entries stream, true)) streams.

Lemma connections_yield streams :
  all_yield connection_round (connection_runs streams) (map Open streams).
Proof.
  unfold all_yield, connection_runs. rewrite Forall2_fmap.
  apply Forall_Forall2_diag, Forall_true. apply connection_yields.
Qed.

Lemma connections_ok streams : forallb snd (connection_runs streams) = true.
Proof. by induction streams. Qed.

(** [handle_messages] on the entries it took, each at its time. *)
Definition forwarded (stub : list (ustr * json)) (l : list (ustr * json)) : bridge_state :=
  (for_each (fun e => forward false (Some stub) e.1 e.2) l bridge_init).2.

Lemma forwarded_lines stub l :
  outqueue (forwarded stub l) = map (fun e => dumps (JObj (out_doc stub e.1 e.2)) ++ [newline]) l.
Proof.
  unfold forwarded. enough (forall s, outqueue (for_each (fun e => forward false (Some stub) e.1 e.2) l s).2 =
    outqueue s ++ map (fun e => dumps (JObj (out_doc stub e.1 e.2)) ++ [newline]) l) as H by apply H.
  induction l as [|e l IH]; intros s; cbn [for_each map]; [by rewrite app_nil_r|].
  erewrite bind_step by apply forward_run. rewrite IH. cbn [outqueue]. by rewrite <-app_assoc.
Qed.

(** * Theorems *)

(** Safety.  Connections do not disturb each other.  Whatever bytes arrive on any
    number of connections, and however their tasks and the forwarder take turns,
    at every moment what came through the shared queue from one connection is a
    first part of what that connection queues when it is the only one. *)
Theorem connections_do_not_mix streams s i stream :
  rtc (step connection_round Closed) (start (map Open streams)) s -> streams !! i = Some stream ->
  of_producer i (taken s ++ queue s) `prefix_of` connection_entries stream.
Proof.
  intros Hs Hi. eapply (shared_prefix connection_round Closed (connection_runs streams) eq_refl); [apply connections_yield|done|].
  unfold connection_runs. by rewrite list_lookup_fmap, Hi.
Qed.

(** C15: liveness.  The bridge with several connections at once.  Whatever bytes arrive
    on them, no schedule of their tasks and the forwarder goes on forever once
    the producers have closed, and where it stops the queue is empty and the
    wrapper was sent one message for each entry, in the order in which they were
    taken: a merge of what the connections queue on their own, each entry once,
    and those of one connection in its order. *)
Theorem connections_forwarded streams stub times :
  (exists m, forall k s, nsteps (step connection_round Closed) k (start (map Open streams)) s -> (k <= m)%nat) /\
  forall s, rtc (step connection_round Closed) (start (map Open streams)) s ->
    nf (step connection_round Closed) s ->
    queue s = [] /\
    (let entries := zip times (map snd (taken s)) in
     outqueue (forwarded stub entries) =
       map (fun e => dumps (JObj (out_doc stub e.1 e.2)) ++ [newline]) entries) /\
    map snd (taken s) ≡ₚ concat (map connection_entries streams) /\
    forall i stream, streams !! i = Some stream -> of_producer i (taken s) = connection_entries stream.
Proof.
  split; [by eapply (shared_terminates connection_round Closed), connections_yield|]. intros s Hs Hn.
  destruct (shared_merge connection_round Closed (connection_runs streams) eq_refl (map Open streams) s) as [Hi Hm];
    [apply connections_yield|apply connections_ok|done..|].
  split_and!.
  - by eapply (nf_stopped connection_round Closed).
  - apply forwarded_lines.
  - rewrite Hm. unfold connection_runs. by rewrite map_map.
  - intros i stream Hst. eapply Hi. unfold connection_runs. rewrite list_lookup_fmap, Hst. done.
Qed.

(** * Two connections *)

(** One sends a document, the other two; the second is served first. *)
Definition two_streams : list bytes :=
  [ascii_bytes (u "[1]" ++ [newline]);
   ascii_bytes (u "[2]" ++ [newline] ++ u "[" ++ [newline] ++ u "3]" ++ [newline])].
Definition two_schedule : list (option nat) :=
  [Some 1; Some 0; None; Some 1; Some 0; None; None; Some 1; None; None]%nat.
Definition two_end : shared :=
  Shared [Closed; Closed] []
    [(1, JList [JInt 2]); (0, JList [JInt 1]); (1, JList [JInt 3]); (0, JNull); (1, JNull)]%nat.

Lemma two_runs : run_schedule connection_round Closed two_schedule (start (map Open two_streams)) = Some two_end.
Proof. vm_compute. reflexivity. Qed.

Lemma connections_do_not_mix_witness :
  of_producer 1%nat (taken two_end ++ queue two_end) `prefix_of` connection_entries (ascii_bytes
    (u "[2]" ++ [newline] ++ u "[" ++ [newline] ++ u "3]" ++ [newline])).
Proof.
  apply (connections_do_not_mix two_streams two_end 1).
  - exact (run_schedule_sound _ _ _ _ _ two_runs).
  - reflexivity.
Defined.

Lemma connections_forwarded_witness :
  outqueue (forwarded [] (zip (replicate 5 (u "now")) (map snd (taken two_end)))) =
    map (fun e => dumps (JObj (out_doc [] e.1 e.2)) ++ [newline])
      (zip (replicate 5 (u "now")) (map snd (taken two_end))).
Proof.
  apply (proj2 (connections_forwarded two_streams [] (replicate 5 (u "now"))) two_end).
  - exact (run_schedule_sound _ _ _ _ _ two_runs).
  - apply stopped_nf. vm_compute. reflexivity.
Defined.
