(* ===== verification/Http.v ===== *)
(** The HTTP side of [sensors/wrapper/sensor_wrapper.py]: [send_json], the
    request reader [http_handler], [wait_for_json], and the route handlers
    the Sensing API calls.

    The URL mapper is the [routes] package, an interface here ([Routes]).
    The parsed request headers are passed to the route handlers, none of which
    reads them, and are left out. *)

From S2P Require Import Prelude Json.

(** * Responses *)

(** [sc_reason] *)
Definition sc_reason : list (Z * string) :=
  [ (200, "ok"); (500, "internal server error"); (400, "bad request");
    (401, "unauthorized"); (404, "not found") ].

Definition crlf : ustr := [13; 10].

(** The lines of a response before its body. *)
Definition response_head (status_code : Z) (reason : string) (content_size : Z) : list ustr :=
  [ u "HTTP/1.1 " ++ int_text status_code ++ u " " ++ u reason;
    u "Content-Type" ++ u ": " ++ u "application/json";
    u "Content-Length" ++ u ": " ++ int_text content_size;
    u "Connection" ++ u ": " ++ u "close" ].

(** [send_json(stream, json_data, status_code)]: the bytes written.  The
    status line is looked up before the first write, so an unknown status
    writes nothing. *)
Definition send_json (json_data : json) (status_code : Z) : res bytes :=
  let raw := utf8_encode (dumps json_data) in
  let? reason := opt_res KeyError (dict_get status_code sc_reason) in
  Ok (utf8_encode (flat_map (fun l => l ++ crlf)
        (response_head status_code reason (Z.of_nat (length raw))))
      ++ utf8_encode crlf ++ raw).

(** * Requests *)

(** [buff] after [async for line in s], broken off at the blank line.  Every
    line has at least one byte. *)
Fixpoint read_head_loop (fuel : nat) (buff stream : bytes) : bytes * bytes :=
  match fuel with
  | O => (buff, stream)
  | S fuel =>
      let (line, rest) := readline stream in
      if Nat.eqb (length line) 0 then (buff, rest)
      else
        let buff := buff ++ line in
        if decide (drop (length buff - 4) buff = map byte_of [13; 10; 13; 10]) then (buff, rest)
        else read_head_loop fuel buff rest
  end.

Definition read_head (stream : bytes) : bytes * bytes :=
  read_head_loop (S (length stream)) [] stream.

(** [s.split('\r\n', 1)] into two pieces. *)
Fixpoint split_crlf (s : string) : option (string * string) :=
  match s with
  | String.String c s' =>
      match s' with
      | String.String d s'' =>
          if (nat_of_ascii c =? 13)%nat && (nat_of_ascii d =? 10)%nat then Some ("", s'')
          else match split_crlf s' with
               | Some (a, b) => Some (String.String c a, b)
               | None => None
               end
      | "" => None
      end
  | "" => None
  end.

Definition latin1 (b : bytes) : string := str_of (map Ascii.ascii_of_byte b).

(** The method, path and version of the request in [buff]. *)
Definition request_line (buff : bytes) : res (string * string * string) :=
  let? (path, headers) := opt_res ValueError (split_crlf (latin1 buff)) in
  match str_split " "%char (strip path) with
  | [r_method; r_path; r_version] => Ok (r_method, r_path, r_version)
  | _ => Raise ValueError
  end.

(** * Routes *)

(** [routes.Mapper]: connected paths with the names of their handlers, and
    the handler and path parameters of a request path. *)
Class Routes := {
  mapper_match : list (string * string) -> string -> option (string * list (string * string));
}.

(** Documented behaviour: a match is one of the connected routes; a path
    without parameters that is connected first for its own text matches. *)
Class RoutesLaws (R : Routes) : Prop := {
  match_connected rs p n ps : mapper_match rs p = Some (n, ps) -> n ∈ map snd rs;
  match_param pre post n rs x :
    has_char "{" pre = false -> has_char slash x = false -> x <> "" ->
    mapper_match ((pre +:+ "{uuid}" +:+ post, n) :: rs) (pre +:+ x +:+ post) =
      Some (n, [("uuid", x)]);
}.

(** * Reading a JSON body *)

(** The state of [wait_for_json] while it runs. *)
Inductive wait_result :=
  | Decoded (j : json) (unread : list bytes)
  | Failed (e : exn)
  | Waiting.

(** [fuel] rounds of [wait_for_json]: what each [stream.read(1024)] returns,
    and empty reads once the client has closed. *)
Fixpoint wait_for_json_loop (fuel : nat) (body : ustr) (reads : list bytes) : wait_result :=
  match fuel with
  | O => Waiting
  | S fuel =>
      let (line, rest) := match reads with [] => ([], []) | l :: r => (l, r) end in
      match utf8_decode line with
      | Raise e => Failed e
      | Ok text =>
          let body := body ++ text in
          match loads body with
          | Ok decoded => Decoded decoded rest
          | Raise JSONDecodeError => wait_for_json_loop fuel body rest
          | Raise e => Failed e
          end
      end
  end.

Definition wait_for_json (fuel : nat) (reads : list bytes) : wait_result :=
  wait_for_json_loop fuel [] reads.

(** * Route handlers *)

(** What handling a request does besides computing: bytes written to the
    client, and changes to the wrapper's tasks. *)
Inductive http_effect :=
  | Write (b : bytes)
  | SpawnSensing (sensor_id : string) (config : json)
  | CancelLogDrain
  | SpawnLogDrain (hosts topic : json).

Abbreviation H := (M (list http_effect)).

Definition emit (e : http_effect) : H unit := modify (fun t => t ++ [e]).

Definition reply_json (j : json) (status_code : Z) : H unit :=
  do b <- lift (send_json j status_code);
  emit (Write b).

Definition obj (l : list (string * json)) : json := JObj (map (fun kv => (u kv.1, kv.2)) l).

(** The attributes of the wrapper the handlers read. *)
Record ident := Ident {
  id_sensor : string;
  id_virtue : string;
  id_user : string;
  (** [self.log_drain_task] is set: the registration is confirmed. *)
  id_draining : bool;
}.

(** [create_challenge_handler(opts, challenge)] *)
Definition challenge_handler (challenge : json) : H unit := reply_json challenge 200.

Definition route_registration_ping (opts : ident) (params : list (string * string)) : H unit :=
  do uuid <- lift (opt_res KeyError (dict_get "uuid" params));
  if decide (id_sensor opts = uuid)
  then reply_json (obj [("error", JBool false); ("msg", JStr (u "ack"))]) 200
  else reply_json (obj [("error", JBool true);
         ("msg", JStr (u "Sensor ID does not match registration ID"))]) 401.

Definition route_sensor_status (opts : ident) : H unit :=
  reply_json (obj [("error", JBool false); ("sensor", JStr (u (id_sensor opts)));
                   ("virtue", JStr (u (id_virtue opts))); ("user", JStr (u (id_user opts)))]) 200.

(** [json.loads(v)] of a decoded value. *)
Definition loads_value (v : json) : res json :=
  match v with JStr s => loads s | _ => Raise TypeError end.

(** [route_sensor_actuate] on the decoded body. *)
Definition actuate (opts : ident) (body : json) : H unit :=
  do actuation <- lift (json_item body "actuation");
  do payload <- lift (json_item body "payload");
  do configuration <- lift (json_item payload "configuration");
  match actuation with
  | JStr a =>
      if decide (a = u "observe") then
        do config <- lift (loads_value configuration);
        do_ emit (SpawnSensing (id_sensor opts) config);
        do_ lift (if id_draining opts then Ok tt else Raise AttributeError);
        do_ emit CancelLogDrain;
        do hosts <- lift (json_item payload "kafka_bootstrap_hosts");
        do topic <- lift (json_item payload "sensor_topic");
        do_ emit (SpawnLogDrain hosts topic);
        reply_json (obj [("error", JBool false)]) 200
      else reply_json (obj [("error", JBool true); ("msg", JStr (u "Unknown actuation"))]) 200
  | _ => reply_json (obj [("error", JBool true); ("msg", JStr (u "Unknown actuation"))]) 200
  end.

(** [route_sensor_actuate]: [false] while it is still waiting for its body
    after [fuel] reads. *)
Definition route_sensor_actuate (opts : ident) (fuel : nat) (reads : list bytes) : H bool :=
  match wait_for_json fuel reads with
  | Decoded body _ => do_ actuate opts body; ret true
  | Failed e => throw e
  | Waiting => ret false
  end.

(** * The request handler *)

(** One entry of the [routes] list of [configure_http_handler]. *)
Record route := Route {
  route_path : string;
  route_name : string;
  route_handler : list (string * string) -> nat -> list bytes -> H bool;
}.

Definition always {A} (h : A -> H unit) : A -> nat -> list bytes -> H bool :=
  fun params _ _ => do_ h params; ret true.

(** The routes of the HTTPS server, and of the challenge server. *)
Definition https_routes (opts : ident) : list route :=
  [ Route "/sensor/{uuid}/registered" "route_registration_ping"
      (always (route_registration_ping opts));
    Route "/sensor/status" "route_sensor_status" (always (fun _ => route_sensor_status opts));
    Route "/actuation" "route_sensor_actuate" (fun _ => route_sensor_actuate opts) ].

Definition challenge_routes (path : string) (challenge : json) : list route :=
  [ Route path "http_01_savior_challenge" (always (fun _ => challenge_handler challenge)) ].

Section Handler.
Context `{R : Routes}.

(** [mapper.connect] and [mapper_funcs[name] = handler] for every route. *)
Definition connected (routes : list route) : list (string * string) :=
  map (fun r => (route_path r, route_name r)) routes.
Definition mapper_funcs (routes : list route) :
    list (string * (list (string * string) -> nat -> list bytes -> H bool)) :=
  dict_update [] (map (fun r => (route_name r, route_handler r)) routes).

(** [http_handler] for a client that sends [stream] and then, to a handler
    that reads a body, the chunks [reads]. *)
Definition http_handler (routes : list route) (fuel : nat) (stream : bytes) (reads : list bytes)
    : H bool :=
  do (r_method, r_path, r_version) <- lift (request_line (read_head stream).1);
  match mapper_match (connected routes) r_path with
  | Some (controller, params) =>
      do handler <- lift (opt_res KeyError (dict_get controller (mapper_funcs routes)));
      handler params fuel reads
  | None =>
      do_ reply_json (obj [("error", JBool true); ("msg", JStr (u "no such route"))]) 404;
      ret true
  end.
End Handler.

(** * Lemmas *)

Lemma obj_wf l :
  NoDup (map fst l) -> Forall (fun kv => jwf kv.2) l -> jwf (obj l).
Proof.
  intros Hnd Hl. apply jwf_obj. rewrite map_map. split.
  - change (NoDup (map (fun kv => u (fst kv)) l)).
    rewrite <-(map_map fst u). apply NoDup_fmap_2; [apply _|done].
  - apply Forall_map. eapply Forall_impl; [exact Hl|]. intros kv Hkv. split; [apply scalar_u|done].
Qed.

Lemma int_text_printable z : Forall printable (int_text z).
Proof. exact (dumps_printable (JInt z) I). Qed.

Lemma ascii_printable s : bool_decide (Forall printable (u s)) = true -> Forall printable (u s).
Proof. apply bool_decide_eq_true. Qed.

#[global] Instance printable_dec c : Decision (printable c).
Proof. unfold printable. apply _. Defined.

Lemma head_printable code reason n :
  dict_get code sc_reason = Some reason -> Forall (Forall printable) (response_head code reason n).
Proof.
  intros Hr. apply dict_get_elem in Hr.
  assert (Forall printable (u reason)) as Hp.
  { unfold sc_reason in Hr.
    repeat (apply elem_of_cons in Hr as [[= -> ->]|Hr]; [by apply (bool_decide_unpack _)|]).
    by apply not_elem_of_nil in Hr. }
  assert (forall s, bool_decide (Forall printable (u s)) = true -> Forall printable (u s)) as Hu.
  { intros s. apply bool_decide_eq_true. }
  repeat (apply Forall_cons_2; [repeat (apply Forall_app; split)|]); try constructor;
    first [done | apply int_text_printable | by apply (bool_decide_unpack _)].
Qed.

Lemma piece_decode p : ascii_text p -> utf8_decode (ascii_bytes p) = Ok p.
Proof. apply utf8_decode_ascii. Qed.

Lemma wait_pieces j pieces body rest fuel :
  jwf j -> container j = true -> body ++ concat pieces = dumps j ->
  Forall (fun p => p <> []) pieces -> pieces <> [] -> (length pieces <= fuel)%nat ->
  wait_for_json_loop fuel body (map ascii_bytes pieces ++ rest) = Decoded j rest.
Proof.
  intros Hj Hc. revert body fuel.
  induction pieces as [|p pieces IH]; intros body fuel Hb Hp Hne Hf; [done|].
  destruct fuel as [|fuel]; [cbn in Hf; lia|]. apply Forall_cons in Hp as [Hp Hps].
  pose proof (printable_ascii _ (dumps_printable j Hj)) as Ha. rewrite <-Hb in Ha.
  cbn [concat] in Ha, Hb. unfold ascii_text in Ha. rewrite !Forall_app in Ha.
  destruct Ha as (_ & Hap & _).
  cbn [map app wait_for_json_loop]. rewrite piece_decode by done.
  destruct pieces as [|p' pieces].
  - cbn [concat] in Hb. rewrite app_nil_r in Hb. by rewrite Hb, loads_dumps.
  - rewrite (assoc_L (++)) in Hb.
    rewrite (loads_prefix j (body ++ p) (concat (p' :: pieces))); [|done|done|done|].
    2: { cbn [concat]. pose proof (Forall_inv Hps). by destruct p'. }
    apply IH; [done|done|done|cbn in *; lia].
Qed.

Lemma wait_truncated j pieces body t fuel :
  jwf j -> container j = true -> body ++ concat pieces ++ t = dumps j -> t <> [] ->
  wait_for_json_loop fuel body (map ascii_bytes pieces) = Waiting.
Proof.
  intros Hj Hc. revert body pieces.
  induction fuel as [|fuel IH]; intros body pieces Hb Ht; [done|].
  cbn [wait_for_json_loop]. destruct pieces as [|p pieces]; cbn [map].
  - cbn. rewrite app_nil_r. rewrite (loads_prefix j body t) by done.
    by apply (IH body []).
  - pose proof (printable_ascii _ (dumps_printable j Hj)) as Ha. rewrite <-Hb in Ha.
    cbn [concat] in Ha, Hb. unfold ascii_text in Ha. rewrite !Forall_app in Ha.
    destruct Ha as (_ & (Hap & _) & _). rewrite piece_decode by done.
    rewrite (loads_prefix j (body ++ p) (concat pieces ++ t)); [|done|done| |].
    + apply IH; [|done]. by rewrite <-Hb, <-!(assoc_L (++)).
    + by rewrite <-Hb, <-!(assoc_L (++)).
    + by destruct (concat pieces), t.
Qed.

Lemma utf8_lead_fails s c : ascii_text s -> 128 <= c -> utf8_decode_z (s ++ [c]) = None.
Proof.
  intros Hs Hc. induction Hs as [|a s Ha _ IH]; cbn [app utf8_decode_z].
  - by rewrite (proj2 (Z.ltb_ge _ _)) by lia.
  - rewrite (proj2 (Z.ltb_lt _ _)) by lia. by rewrite IH.
Qed.

(** ** Answers *)

Definition is_write (e : http_effect) : bool := match e with Write _ => true | _ => false end.

(** A finished computation wrote once, at its end. *)
Definition answers {A} (done : A -> Prop) (m : H A) : Prop :=
  forall t0 a t, m t0 = (Ok a, t) -> done a ->
    exists t' b, t = t0 ++ t' ++ [Write b] /\ Forall (fun e => is_write e = false) t'.

Lemma answers_reply j code : answers (fun _ => True) (reply_json j code).
Proof.
  intros t0 a t Ht _. unfold reply_json in Ht. apply bind_Ok in Ht as (b & t1 & Hb & Ht).
  injection Hb as _ <-. injection Ht as <- <-. exists [], b. by split.
Qed.

Lemma answers_lift {A B} (P : B -> Prop) (r : res A) (f : A -> H B) :
  (forall a, answers P (f a)) -> answers P (bind (lift r) f).
Proof.
  intros Hf t0 b t Ht Hb. apply bind_Ok in Ht as (a & t1 & Ha & Ht). injection Ha as _ <-.
  by eapply Hf.
Qed.

Lemma answers_emit {B} (P : B -> Prop) e (m : H B) :
  is_write e = false -> answers P m -> answers P (do_ emit e; m).
Proof.
  intros He Hm t0 b t Ht Hb. unfold emit in Ht. rewrite bind_modify in Ht.
  destruct (Hm _ _ _ Ht Hb) as (t' & w & -> & Hf). exists (e :: t'), w.
  rewrite <-!(assoc_L (++)). split; [done|by constructor].
Qed.

Lemma answers_ret_after (m : H unit) :
  answers (fun _ => True) m -> answers (fun b => b = true) (do_ m; ret true).
Proof.
  intros Hm t0 b t Ht _. apply bind_Ok in Ht as ([] & t1 & Ha & Ht). injection Ht as _ <-.
  by eapply Hm.
Qed.

Lemma answers_actuate opts body : answers (fun _ => True) (actuate opts body).
Proof.
  unfold actuate. do 3 (apply answers_lift; intros ?).
  case_match; try apply answers_reply. case_decide; [|apply answers_reply].
  apply answers_lift; intros ?. apply answers_emit; [done|]. apply answers_lift; intros ?.
  apply answers_emit; [done|].
  do 2 (apply answers_lift; intros ?). apply answers_emit; [done|]. apply answers_reply.
Qed.

Lemma answers_routes opts name h params fuel reads :
  dict_get name (mapper_funcs (https_routes opts)) = Some h ->
  answers (fun b => b = true) (h params fuel reads).
Proof.
  intros Hh. apply dict_get_elem in Hh.
  change (mapper_funcs (https_routes opts)) with
    [ ("route_registration_ping", always (route_registration_ping opts));
      ("route_sensor_status", always (fun _ => route_sensor_status opts));
      ("route_sensor_actuate", fun _ : list (string * string) => route_sensor_actuate opts) ] in Hh.
  repeat (apply elem_of_cons in Hh as [[= -> ->]|Hh]; [|]); [| | |by apply not_elem_of_nil in Hh].
  - apply answers_ret_after. unfold route_registration_ping. apply answers_lift; intros ?.
    case_decide; apply answers_reply.
  - apply answers_ret_after, answers_reply.
  - unfold route_sensor_actuate. destruct (wait_for_json fuel reads).
    + apply answers_ret_after, answers_actuate.
    + by intros t0 a t Ht.
    + intros t0 a t Ht Ha. injection Ht as <- _. discriminate.
Qed.

(** * Theorems *)

(** Response framing. A response consists of printable header lines, the
    status line first, a blank line and the JSON text; the [Content-Length]
    line gives the length of exactly that text, and the text decodes to the
    document that was sent. *)
Theorem response_framing j code b :
  jwf j -> send_json j code = Ok b ->
  exists reason lines text,
    dict_get code sc_reason = Some reason /\
    b = ascii_bytes (flat_map (fun l => l ++ crlf) lines ++ crlf ++ text) /\
    Forall (Forall printable) lines /\
    head lines = Some (u "HTTP/1.1 " ++ int_text code ++ u " " ++ u reason) /\
    u "Content-Length" ++ u ": " ++ int_text (Z.of_nat (length text)) ∈ lines /\
    loads text = Ok j.
Proof.
  intros Hj Hs. unfold send_json in Hs. apply res_bind_Ok in Hs as (reason & Hr & Hs).
  destruct (dict_get code sc_reason) as [r|] eqn:E; [|discriminate]. injection Hr as ->.
  assert (ascii_text (dumps j)) as Ha by (by apply printable_ascii, dumps_printable).
  rewrite (utf8_encode_ascii (dumps j)) in Hs by done.
  set (n := Z.of_nat (length (ascii_bytes (dumps j)))) in *.
  pose proof (head_printable code reason n E) as Hp.
  exists reason, (response_head code reason n), (dumps j). split_and!; [done| |done|done| |by apply loads_dumps].
  - apply Ok_inj in Hs as <-. rewrite utf8_encode_ascii.
    + unfold ascii_bytes. by rewrite !map_app.
    + apply Forall_flat_map. eapply Forall_impl; [exact Hp|]. intros l Hl. apply Forall_app.
      split; [by apply printable_ascii|]. by repeat constructor.
  - unfold n, ascii_bytes. rewrite length_map. do 2 right. left.
Qed.

(** Bodies in pieces. However the bytes of a JSON document arrive over
    the connection, [wait_for_json] returns that document as soon as its last
    piece is read, reading nothing after it. *)
Theorem chunked_body_decoded j pieces rest fuel :
  jwf j -> container j = true -> concat pieces = dumps j ->
  Forall (fun p => p <> []) pieces -> (length pieces <= fuel)%nat ->
  wait_for_json fuel (map ascii_bytes pieces ++ rest) = Decoded j rest.
Proof.
  intros Hj Hc Hp Hne Hf. apply wait_pieces; [done..| |done].
  intros ->. destruct (dumps_head j Hj) as (c & s & E & _). by rewrite E in Hp.
Qed.

(** A body that is cut short hangs the handler. If the client closes
    after a proper prefix of its document, [wait_for_json] never returns:
    after any number of rounds it is still reading empty strings. *)
Theorem truncated_body_never_returns j pieces t fuel :
  jwf j -> container j = true -> concat pieces ++ t = dumps j -> t <> [] ->
  wait_for_json fuel (map ascii_bytes pieces) = Waiting.
Proof. intros Hj Hc Hp Ht. by eapply wait_truncated. Qed.

(** A character split over two reads. When a read ends in the first byte
    of a multi-byte character, decoding it alone raises, so a document the
    client sent correctly is refused. *)
Theorem split_character_refused s c rest fuel :
  ascii_text s -> 128 <= c < 256 ->
  wait_for_json (S fuel) (ascii_bytes (s ++ [c]) :: rest) = Failed UnicodeDecodeError.
Proof.
  intros Hs Hc. unfold wait_for_json, wait_for_json_loop, utf8_decode.
  assert (map byte_val (ascii_bytes (s ++ [c])) = s ++ [c]) as ->.
  { unfold ascii_bytes. rewrite map_app, map_app. cbn. rewrite byte_val_of, Z.mod_small by lia.
    f_equal. by apply byte_val_ascii. }
  by rewrite utf8_lead_fails by (done || lia).
Qed.

Section HandlerTheorems.
Context `{R : Routes} `{L : !RoutesLaws R}.

(** A handler whose routes all answer, answers. *)
Lemma answers_handler routes fuel stream reads :
  (forall name h params fuel reads, dict_get name (mapper_funcs routes) = Some h ->
     answers (fun b => b = true) (h params fuel reads)) ->
  answers (fun b => b = true) (http_handler routes fuel stream reads).
Proof.
  intros Hr. unfold http_handler. apply answers_lift. intros [[m p] v].
  destruct (mapper_match _ p) as [[controller params]|].
  - intros t1 a t2 Hrun Ha. apply bind_Ok in Hrun as (h & t3 & Hh & Hrun).
    apply lift_Ok in Hh as [Hh%opt_res_Ok ->]. by eapply Hr.
  - apply answers_ret_after, answers_reply.
Qed.

(** C31: every request is answered once. Whatever a client asks the HTTPS
    server, when the handler finishes it has written exactly one response, as
    its last action. *)
Theorem request_answered_once opts fuel stream reads t0 t :
  http_handler (https_routes opts) fuel stream reads t0 = (Ok true, t) ->
  exists t' b, t = t0 ++ t' ++ [Write b] /\ Forall (fun e => is_write e = false) t'.
Proof.
  intros Ht. eapply (answers_handler (https_routes opts)); [|exact Ht|done]. by apply answers_routes.
Qed.

(** Registration challenge. The HTTPS server acknowledges a request for
    [/sensor/<uuid>/registered] exactly when the uuid is its own sensor id,
    and answers 401 otherwise; it does nothing else. *)
Theorem registration_ping_spec opts fuel stream reads method x version t0 :
  request_line (read_head stream).1 = Ok (method, "/sensor/" +:+ x +:+ "/registered", version) ->
  has_char slash x = false -> x <> "" ->
  exists b,
    http_handler (https_routes opts) fuel stream reads t0 = (Ok true, t0 ++ [Write b]) /\
    if decide (id_sensor opts = x)
    then send_json (obj [("error", JBool false); ("msg", JStr (u "ack"))]) 200 = Ok b
    else send_json (obj [("error", JBool true);
           ("msg", JStr (u "Sensor ID does not match registration ID"))]) 401 = Ok b.
Proof.
  intros Hline Hx Hne. unfold http_handler. rewrite (bind_lift _ _ _ _ Hline). cbv beta iota.
  assert (mapper_match (connected (https_routes opts)) ("/sensor/" +:+ x +:+ "/registered") =
    Some ("route_registration_ping", [("uuid", x)])) as Hm.
  { exact (match_param "/sensor/" "/registered" "route_registration_ping"
      [("/sensor/status", "route_sensor_status"); ("/actuation", "route_sensor_actuate")] x
      eq_refl Hx Hne). }
  rewrite Hm.
  assert (dict_get "route_registration_ping" (mapper_funcs (https_routes opts)) =
    Some (always (route_registration_ping opts))) as Hf by reflexivity.
  rewrite Hf. erewrite bind_lift by reflexivity. unfold always, route_registration_ping.
  assert (opt_res KeyError (dict_get "uuid" [("uuid", x)]) = Ok x) as Hu by reflexivity.
  unfold bind at 1 2, lift at 1. rewrite Hu.
  destruct (decide (id_sensor opts = x));
    (eexists; split; [|reflexivity]); reflexivity.
Qed.
End HandlerTheorems.

(** Actuation. An actuation other than [observe] leaves the tasks of the
    wrapper alone and is answered with an error document; [observe] spawns the
    sensing methods with the decoded configuration, then cancels the running
    log drain, then spawns the new one, then answers. *)
Theorem actuation_effects opts body payload action conf config hosts topic t0 :
  json_item body "actuation" = Ok (JStr action) ->
  json_item body "payload" = Ok payload ->
  json_item payload "configuration" = Ok (JStr conf) -> loads conf = Ok config ->
  json_item payload "kafka_bootstrap_hosts" = Ok hosts ->
  json_item payload "sensor_topic" = Ok topic -> id_draining opts = true ->
  exists b,
    actuate opts body t0 =
      (Ok tt, t0 ++ (if decide (action = u "observe")
                     then [SpawnSensing (id_sensor opts) config; CancelLogDrain;
                           SpawnLogDrain hosts topic]
                     else []) ++ [Write b]).
Proof.
  intros Ha Hp Hc Hl Hh Ht Hd. unfold actuate. do 3 mstep.
  destruct (decide (action = u "observe")).
  - erewrite bind_lift by exact Hl. unfold emit. mstep. rewrite Hd, bind_lift with (a := tt) by done.
    do 2 mstep. do 2 mstep.
    unfold reply_json. eexists. erewrite bind_lift; [|reflexivity].
    unfold emit, modify. by rewrite <-!(assoc_L (++)).
  - unfold reply_json. eexists. erewrite bind_lift; [|reflexivity]. reflexivity.
Qed.

(** An incomplete actuation stops the logs. An [observe] request without
    the Kafka hosts raises only after the running log drain was cancelled:
    the new one is never spawned and the client gets no answer. *)
Theorem incomplete_actuation_stops_logs opts body payload conf config t0 :
  json_item body "actuation" = Ok (JStr (u "observe")) ->
  json_item body "payload" = Ok payload ->
  json_item payload "configuration" = Ok (JStr conf) -> loads conf = Ok config ->
  json_item payload "kafka_bootstrap_hosts" = Raise KeyError -> id_draining opts = true ->
  actuate opts body t0 =
    (Raise KeyError, t0 ++ [SpawnSensing (id_sensor opts) config; CancelLogDrain]).
Proof.
  intros Ha Hp Hc Hl Hh Hd. unfold actuate. do 3 mstep.
  rewrite decide_True by done. erewrite bind_lift by exact Hl. unfold emit. mstep.
  rewrite Hd, bind_lift with (a := tt) by done. mstep.
  unfold bind at 1, lift. rewrite Hh. by rewrite <-(assoc_L (++)).
Qed.

(** The HTTPS server answers before the registration is confirmed; an
    [observe] request that comes so early spawns the sensing methods and then
    fails on the missing log drain. *)
Lemma early_actuation_raises opts body payload conf config t0 :
  json_item body "actuation" = Ok (JStr (u "observe")) ->
  json_item body "payload" = Ok payload ->
  json_item payload "configuration" = Ok (JStr conf) -> loads conf = Ok config ->
  id_draining opts = false ->
  actuate opts body t0 = (Raise AttributeError, t0 ++ [SpawnSensing (id_sensor opts) config]).
Proof.
  intros Ha Hp Hc Hl Hd. unfold actuate. do 3 mstep.
  rewrite decide_True by done. erewrite bind_lift by exact Hl. unfold emit. mstep. by rewrite Hd.
Qed.

(** * A mapper *)

(** An executable mapper for paths with at most one [{uuid}]. *)
Definition uuid_chars : list ascii := str_chars "{uuid}".

Fixpoint strip_pre (p l : list ascii) : option (list ascii) :=
  match p, l with
  | [], _ => Some l
  | c :: p, d :: l => if Ascii.eqb c d then strip_pre p l else None
  | _ :: _, [] => None
  end.

Fixpoint find_param (l : list ascii) : option (list ascii * list ascii) :=
  match strip_pre uuid_chars l, l with
  | Some post, _ => Some ([], post)
  | None, c :: l => match find_param l with Some (a, b) => Some (c :: a, b) | None => None end
  | None, [] => None
  end.

Definition match_path (path p : string) : option (list (string * string)) :=
  match find_param (str_chars path) with
  | None => if decide (path = p) then Some [] else None
  | Some (pre, post) =>
      match strip_pre pre (str_chars p) with
      | None => None
      | Some r =>
          let k := (length r - length post)%nat in
          if decide (drop k r = post /\ take k r <> []) then
            if existsb (Ascii.eqb slash) (take k r) then None
            else Some [("uuid", str_of (take k r))]
          else None
      end
  end.

Fixpoint match_first (rs : list (string * string)) (p : string)
    : option (string * list (string * string)) :=
  match rs with
  | [] => None
  | (path, n) :: rs =>
      match match_path path p with Some ps => Some (n, ps) | None => match_first rs p end
  end.

#[global] Instance RefRoutes : Routes := { mapper_match := match_first }.

Lemma strip_pre_app p l : strip_pre p (p ++ l) = Some l.
Proof. induction p as [|c p IH]; [done|]. cbn. by rewrite Ascii.eqb_refl. Qed.

Lemma find_param_app pre post :
  existsb (Ascii.eqb "{"%char) pre = false -> find_param (pre ++ uuid_chars ++ post) = Some (pre, post).
Proof.
  induction pre as [|c pre IH]; intros H.
  - change (find_param (uuid_chars ++ post)) with (Some (@nil ascii, post)). done.
  - cbn [existsb] in H. apply orb_false_iff in H as [Hc Hpre]. cbn [app].
    change (find_param (c :: pre ++ uuid_chars ++ post)) with
      (match strip_pre uuid_chars (c :: pre ++ uuid_chars ++ post) with
       | Some post => Some ([], post)
       | None => match find_param (pre ++ uuid_chars ++ post) with
                 | Some (a, b) => Some (c :: a, b) | None => None end
       end).
    assert (strip_pre uuid_chars (c :: pre ++ uuid_chars ++ post) = None) as ->.
    { change uuid_chars at 1 with ("{"%char :: str_chars "uuid}"). cbn [strip_pre]. by rewrite Hc. }
    by rewrite IH.
Qed.

#[global] Instance RefRoutes_laws : RoutesLaws RefRoutes.
Proof.
  constructor.
  - intros rs p n ps. cbn. induction rs as [|[path m] rs IH]; [done|]. cbn.
    destruct (match_path path p).
    + intros [= -> _]. left.
    + intros H. right. by apply IH.
  - intros pre post n rs x Hpre Hx Hne. cbn [mapper_match RefRoutes match_first].
    assert (match_path (pre +:+ "{uuid}" +:+ post) (pre +:+ x +:+ post) = Some [("uuid", x)]) as ->;
      [|done].
    unfold match_path. rewrite !str_chars_app. fold uuid_chars.
    rewrite find_param_app, strip_pre_app by done. cbv zeta.
    assert (length (str_chars x ++ str_chars post) - length (str_chars post) = length (str_chars x))%nat
      as -> by (rewrite length_app; lia).
    rewrite drop_app_length, take_app_length, decide_True.
    + unfold has_char in Hx. by rewrite Hx, str_of_chars.
    + split; [done|]. by destruct x.
Qed.

(** * Witnesses *)

Definition ex_ident : ident := Ident "5e1f" "virtue-1" "user" true.
Definition ex_status_doc : json := obj [("error", JBool false)].
Definition ex_config : json := obj [("enabled", JBool true)].
Definition ex_payload : json :=
  obj [("configuration", JStr (dumps ex_config)); ("kafka_bootstrap_hosts", JList [JStr (u "k:9555")]);
       ("sensor_topic", JStr (u "t"))].
Definition ex_actuation (a : string) (payload : json) : json :=
  obj [("actuation", JStr (u a)); ("payload", payload)].
Definition ex_ping_request : bytes :=
  ascii_bytes (u "GET /sensor/5e1f/registered HTTP/1.1" ++ crlf ++ u "Host: a" ++ crlf ++ crlf).

Lemma ex_status_wf : jwf ex_status_doc.
Proof.
  apply obj_wf; [by apply (bool_decide_unpack _)|]. apply Forall_cons_2; [exact I|constructor].
Qed.

Lemma response_framing_witness :
  exists b reason lines text,
    send_json ex_status_doc 401 = Ok b /\
    dict_get 401 sc_reason = Some reason /\
    b = ascii_bytes (flat_map (fun l => l ++ crlf) lines ++ crlf ++ text) /\
    loads text = Ok ex_status_doc.
Proof.
  destruct (send_json ex_status_doc 401) as [b|e] eqn:E; [|vm_compute in E; discriminate E].
  destruct (response_framing ex_status_doc 401 b ex_status_wf E)
    as (reason & lines & text & H1 & H2 & _ & _ & _ & H3).
  by exists b, reason, lines, text.
Defined.

Lemma chunked_body_decoded_witness :
  wait_for_json 9 (map ascii_bytes [take 3 (dumps ex_status_doc); drop 3 (dumps ex_status_doc)] ++ [[]])
  = Decoded ex_status_doc [[]].
Proof.
  apply (chunked_body_decoded ex_status_doc _ [[]] 9 ex_status_wf); [done|vm_compute; reflexivity| |cbn; lia].
  repeat (apply Forall_cons_2; [vm_compute; discriminate|]). constructor.
Defined.

Lemma truncated_body_never_returns_witness :
  wait_for_json 1000 (map ascii_bytes [take 5 (dumps ex_status_doc)]) = Waiting.
Proof.
  apply (truncated_body_never_returns ex_status_doc _ (drop 5 (dumps ex_status_doc)) 1000 ex_status_wf);
    [done|vm_compute; reflexivity|vm_compute; discriminate].
Defined.

Lemma split_character_refused_witness :
  wait_for_json 3 [ascii_bytes (u "{ " ++ [195]); ascii_bytes [169]] = Failed UnicodeDecodeError.
Proof.
  apply (split_character_refused (u "{ ") 195 [ascii_bytes [169]] 2); [|lia].
  repeat (apply Forall_cons_2; [vm_compute; split; [discriminate|reflexivity]|]). constructor.
Defined.

Lemma request_answered_once_witness :
  exists t' b,
    (http_handler (https_routes ex_ident) 1 ex_ping_request [] []).2 = [] ++ t' ++ [Write b].
Proof.
  destruct (request_answered_once ex_ident 1 ex_ping_request [] []
    (http_handler (https_routes ex_ident) 1 ex_ping_request [] []).2) as (t' & b & H & _).
  - vm_compute. reflexivity.
  - exists t', b. exact H.
Defined.

Lemma registration_ping_spec_witness :
  exists b, http_handler (https_routes ex_ident) 1 ex_ping_request [] [] = (Ok true, [] ++ [Write b]).
Proof.
  destruct (registration_ping_spec ex_ident 1 ex_ping_request [] "GET" "5e1f" "HTTP/1.1" [])
    as (b & H & _); [vm_compute; reflexivity|reflexivity|discriminate|].
  exists b. exact H.
Defined.

Lemma actuation_effects_witness :
  exists b,
    actuate ex_ident (ex_actuation "observe" ex_payload) [] =
      (Ok tt, [SpawnSensing "5e1f" ex_config; CancelLogDrain;
               SpawnLogDrain (JList [JStr (u "k:9555")]) (JStr (u "t"))] ++ [Write b]).
Proof.
  destruct (actuation_effects ex_ident (ex_actuation "observe" ex_payload) ex_payload (u "observe")
    (dumps ex_config) ex_config (JList [JStr (u "k:9555")]) (JStr (u "t")) []) as [b H];
    [vm_compute; reflexivity..|].
  exists b. exact H.
Defined.

Lemma incomplete_actuation_stops_logs_witness :
  let payload := obj [("configuration", JStr (dumps ex_config))] in
  actuate ex_ident (ex_actuation "observe" payload) [] =
    (Raise KeyError, [SpawnSensing "5e1f" ex_config; CancelLogDrain]).
Proof.
  eapply (incomplete_actuation_stops_logs ex_ident _ _ (dumps ex_config) ex_config []);
    vm_compute; reflexivity.
Defined.
