(* ===== verification/Actuation.v ===== *)
(** The running wrapper ([src/sensors/wrapper/sensor_wrapper.py]) while requests
    of the API reconfigure it: the queue [log_messages] between the sensing methods
    and the log drains, and the tasks that replace either.

    The HTTPS server runs each request as a task of its own.  What such a task does
    to the others is the list of effects of [Http.actuate], of which each is one
    step here; [call_sensing_method] is a task of two steps, as it waits in between
    for the methods that it cancels.  A log drain is cancelled only while it waits
    for a message, so that taking one and sending it is one step.  Tasks do not
    fail here, and the handler of a request starts when its body has been read. *)

From stdpp Require Import relations sorting.
From S2P Require Import Prelude Json Http.

(** * State *)

(** A [log_drain] task and the methods of one [sensing_method_task_group]. *)
Record drain := Drain { dr_topic : json; dr_alive : bool }.
Record group := Group { gr_config : json; gr_alive : bool }.

(** A task that runs [call_sensing_method] with a configuration: before the old
    group is cancelled, and after. *)
Inductive resense := Cancels (config : json) | Spawns (config : json).

(** Who puts a message: a group, by its number, and one of its sensing methods. *)
Definition origin : Type := nat * nat.

Record wrapper := MkWrapper {
  (** every drain and group there has been, and the attributes that hold one *)
  wr_drains : list drain;
  log_drain_task : nat;
  wr_groups : list group;
  sensing_method_task_group : option nat;
  (** what the handlers of requests still have to do, and the other tasks *)
  wr_handlers : list (list http_effect);
  wr_resense : list resense;
  log_messages : list ustr;
  (** every message put so far, with the group and the method it is from, and every
      message sent with its drain *)
  wr_put : list (origin * ustr);
  wr_sent : list (nat * ustr);
}.

Definition stop_drain (d : drain) : drain := Drain (dr_topic d) false.
Definition stop_group (g : group) : group := Group (gr_config g) false.

(** One effect of a handler. *)
Definition perform (e : http_effect) (s : wrapper) : wrapper :=
  let '(MkWrapper ds d gs g hs rs q put sent) := s in
  match e with
  | Write _ => s
  | SpawnSensing _ config => MkWrapper ds d gs g hs (rs ++ [Cancels config]) q put sent
  | CancelLogDrain => MkWrapper (alter stop_drain d ds) d gs g hs rs q put sent
  | SpawnLogDrain _ topic => MkWrapper (ds ++ [Drain topic true]) (length ds) gs g hs rs q put sent
  end.

Definition with_handlers (hs : list (list http_effect)) (s : wrapper) : wrapper :=
  let '(MkWrapper ds d gs g _ rs q put sent) := s in MkWrapper ds d gs g hs rs q put sent.

(** [call_sensing_method], up to the end of [cancel_remaining] and from there. *)
Definition cancel_group (g : option nat) (gs : list group) : list group :=
  match g with Some g => alter stop_group g gs | None => gs end.

Section Running.
Context (opts : ident).

(** The effects of a request with this body. *)
Definition effects_of (body : json) : list http_effect := (actuate opts body []).2.

Definition arrives (body : json) (s : wrapper) : wrapper :=
  with_handlers (wr_handlers s ++ [effects_of body]) s.

(** A step of some task. *)
Inductive task_step : relation wrapper :=
  | step_handles hs1 e es hs2 s :
      wr_handlers s = hs1 ++ (e :: es) :: hs2 ->
      task_step s (perform e (with_handlers (hs1 ++ es :: hs2) s))
  | step_finishes hs1 hs2 s :
      wr_handlers s = hs1 ++ [] :: hs2 ->
      task_step s (with_handlers (hs1 ++ hs2) s)
  | step_cancels ds d gs g hs rs1 config rs2 q put sent :
      task_step (MkWrapper ds d gs g hs (rs1 ++ Cancels config :: rs2) q put sent)
        (MkWrapper ds d (cancel_group g gs) g hs (rs1 ++ Spawns config :: rs2) q put sent)
  | step_spawns ds d gs g hs rs1 config rs2 q put sent :
      task_step (MkWrapper ds d gs g hs (rs1 ++ Spawns config :: rs2) q put sent)
        (MkWrapper ds d (gs ++ [Group config true]) (Some (length gs)) hs (rs1 ++ rs2) q put sent)
  | step_observes ds d gs g hs rs q put sent k config j m :
      gs !! k = Some (Group config true) ->
      task_step (MkWrapper ds d gs g hs rs q put sent)
        (MkWrapper ds d gs g hs rs (q ++ [m]) (put ++ [((k, j), m)]) sent)
  | step_sends ds d gs g hs rs m q put sent k topic :
      ds !! k = Some (Drain topic true) ->
      task_step (MkWrapper ds d gs g hs rs (m :: q) put sent)
        (MkWrapper ds d gs g hs rs q put (sent ++ [(k, m)])).

(** Any number of requests at any time. *)
Definition wrapper_step (s s' : wrapper) : Prop :=
  task_step s s' \/ exists body, s' = arrives body s.

(** What [main] leaves running after the registration. *)
Definition registered (topic default_configuration : json) : wrapper :=
  MkWrapper [Drain topic true] 0 [] None [] [Cancels default_configuration] [] [] [].

(** No request is being handled and the sensing methods are in place. *)
Definition calm (s : wrapper) : Prop := wr_handlers s = [] /\ wr_resense s = [].

(** The effects of a complete [observe] request, and of one that is refused. *)
Definition observes (config topic : json) (es : list http_effect) : Prop :=
  exists sensor_id hosts b,
    es = [SpawnSensing sensor_id config; CancelLogDrain; SpawnLogDrain hosts topic; Write b].
Definition refused (es : list http_effect) : Prop := es = [] \/ exists b, es = [Write b].

(** One request at a time, each of them complete or refused. *)
Definition serial_step (s s' : wrapper) : Prop :=
  task_step s s' \/
  calm s /\ exists body, s' = arrives body s /\
    (refused (effects_of body) \/ exists config topic, observes config topic (effects_of body)).

(** * Messages *)

Lemma perform_messages e s :
  log_messages (perform e s) = log_messages s /\ wr_put (perform e s) = wr_put s /\
  wr_sent (perform e s) = wr_sent s.
Proof. by destruct s, e. Qed.

Lemma with_handlers_messages hs s :
  log_messages (with_handlers hs s) = log_messages s /\ wr_put (with_handlers hs s) = wr_put s /\
  wr_sent (with_handlers hs s) = wr_sent s.
Proof. by destruct s. Qed.

(** All messages, in their order: those sent, then those queued. *)
Definition none_lost (s : wrapper) : Prop :=
  map snd (wr_put s) = map snd (wr_sent s) ++ log_messages s.

Lemma task_step_none_lost s s' : task_step s s' -> none_lost s -> none_lost s'.
Proof.
  unfold none_lost. destruct 1 as [hs1 e es hs2 s _|hs1 hs2 s _| | |ds d gs g hs rs q put sent k config j m _|
    ds d gs g hs rs m q put sent k topic _]; [| | done | done|..].
  - destruct (perform_messages e (with_handlers (hs1 ++ es :: hs2) s)) as (-> & -> & ->).
    by destruct (with_handlers_messages (hs1 ++ es :: hs2) s) as (-> & -> & ->).
  - by destruct (with_handlers_messages (hs1 ++ hs2) s) as (-> & -> & ->).
  - cbn. intros E. by rewrite map_app, E, app_assoc.
  - cbn. intros ->. by rewrite map_app, <-app_assoc.
Qed.

Lemma wrapper_step_none_lost s s' : wrapper_step s s' -> none_lost s -> none_lost s'.
Proof.
  intros [Hs|[body ->]]; [by apply task_step_none_lost|]. unfold none_lost, arrives.
  by destruct (with_handlers_messages (wr_handlers s ++ [effects_of body]) s) as (-> & -> & ->).
Qed.

(** * One request at a time *)

(** The one that is alive in a list of tasks. *)
Definition only_alive (l : list bool) (o : option nat) : Prop :=
  forall k, l !! k = Some true <-> o = Some k.

Lemma only_alive_spawn l : only_alive l None -> only_alive (l ++ [true]) (Some (length l)).
Proof.
  intros H k. rewrite lookup_app_Some, list_lookup_singleton_Some. split.
  - intros [E|(? & ? & _)]; [by apply H in E|f_equal; lia].
  - intros [= <-]. right. split; [lia|]. split; [lia|done].
Qed.

Lemma only_alive_stop l k : only_alive l (Some k) -> only_alive (alter (fun _ => false) k l) None.
Proof.
  intros H j. destruct (decide (j = k)) as [->|Hne].
  - rewrite list_lookup_alter_eq. by destruct (l !! k).
  - rewrite list_lookup_alter_ne by done. split; [|done]. intros E. apply H in E. congruence.
Qed.

(** What a request that is being handled will still bring. *)
Definition pending_topic (hs : list (list http_effect)) : option json :=
  last (omap (fun e => match e with SpawnLogDrain _ t => Some t | _ => None end) (concat hs)).
Definition resense_config (r : resense) : json := match r with Cancels c | Spawns c => c end.
Definition pending_config (hs : list (list http_effect)) (rs : list resense) : option json :=
  match omap (fun e => match e with SpawnSensing _ c => Some c | _ => None end) (concat hs) with
  | c :: _ => Some c
  | [] => resense_config <$> head rs
  end.

(** The old drain is cancelled, the new one not yet spawned. *)
Definition between_drains (hs : list (list http_effect)) : bool :=
  match hs with [SpawnLogDrain _ _ :: _] => true | _ => false end.
Definition between_groups (rs : list resense) : bool :=
  match rs with [Spawns _] => true | _ => false end.

(** How far the request is. *)
Inductive shape : list (list http_effect) -> list resense -> Prop :=
  | shape_none rs : (length rs <= 1)%nat -> shape [] rs
  | shape_whole id config hosts topic b :
      shape [[SpawnSensing id config; CancelLogDrain; SpawnLogDrain hosts topic; Write b]] []
  | shape_cancel hosts topic b rs : (length rs <= 1)%nat ->
      shape [[CancelLogDrain; SpawnLogDrain hosts topic; Write b]] rs
  | shape_spawn hosts topic b rs : (length rs <= 1)%nat ->
      shape [[SpawnLogDrain hosts topic; Write b]] rs
  | shape_write b rs : (length rs <= 1)%nat -> shape [[Write b]] rs
  | shape_end rs : (length rs <= 1)%nat -> shape [[]] rs.

Definition drains_ok (topic : json) (s : wrapper) : Prop :=
  only_alive (map dr_alive (wr_drains s))
    (if between_drains (wr_handlers s) then None else Some (log_drain_task s)) /\
  length (wr_drains s) = S (log_drain_task s) /\
  match pending_topic (wr_handlers s) with
  | Some t => t = topic
  | None => dr_topic <$> wr_drains s !! log_drain_task s = Some topic
  end.

Definition groups_ok (config : json) (s : wrapper) : Prop :=
  only_alive (map gr_alive (wr_groups s))
    (if between_groups (wr_resense s) then None else sensing_method_task_group s) /\
  length (wr_groups s) = match sensing_method_task_group s with Some k => S k | None => 0%nat end /\
  match pending_config (wr_handlers s) (wr_resense s) with
  | Some c => c = config
  | None => gr_config <$> (k ← sensing_method_task_group s; wr_groups s !! k) = Some config
  end.

Definition sent_in_order (s : wrapper) : Prop :=
  StronglySorted le (map fst (wr_sent s)) /\ Forall (fun e => (e.1 <= log_drain_task s)%nat) (wr_sent s).

Definition serial (topic config : json) (s : wrapper) : Prop :=
  shape (wr_handlers s) (wr_resense s) /\ drains_ok topic s /\ groups_ok config s /\ sent_in_order s.

Lemma shape_one hs1 x hs2 rs : shape (hs1 ++ x :: hs2) rs -> hs1 = [] /\ hs2 = [] /\ shape [x] rs.
Proof.
  destruct hs1 as [|y [|z hs1]]; [destruct hs2 as [|z hs2]|..]; intros H; inversion H; subst; done || (by split_and!).
Qed.

Lemma shape_resense hs rs1 x rs2 : shape hs (rs1 ++ x :: rs2) ->
  rs1 = [] /\ rs2 = [] /\ between_drains hs = between_drains hs /\ forall rs, (length rs <= 1)%nat -> shape hs rs.
Proof.
  intros H. assert (length (rs1 ++ x :: rs2) <= 1)%nat as Hl.
  { inversion H as [| ? ? ? ? ? Hh E| | | |]; subst; try done. by destruct rs1. }
  rewrite length_app in Hl. cbn in Hl.
  assert (rs1 = [] /\ rs2 = []) as [-> ->] by (split; apply nil_length_inv; lia).
  split_and!; [done..|]. intros rs Hrs. inversion H; subst; by constructor.
Qed.

Lemma sent_later s d : (log_drain_task s <= d)%nat -> sent_in_order s ->
  StronglySorted le (map fst (wr_sent s)) /\ Forall (fun e => (e.1 <= d)%nat) (wr_sent s).
Proof.
  intros Hd [Hs Hf]. split; [done|]. eapply Forall_impl; [exact Hf|]. cbn. lia.
Qed.

Lemma map_alter_stop d ds : map dr_alive (alter stop_drain d ds) = alter (fun _ => false) d (map dr_alive ds).
Proof. revert d. induction ds as [|x ds IH]; intros [|d]; [done..|]. cbn. f_equal. apply IH. Qed.

Lemma map_alter_group g gs : map gr_alive (alter stop_group g gs) = alter (fun _ => false) g (map gr_alive gs).
Proof. revert g. induction gs as [|x gs IH]; intros [|g]; [done..|]. cbn. f_equal. apply IH. Qed.

Lemma handles_serial topic config hs1 e es hs2 s :
  wr_handlers s = hs1 ++ (e :: es) :: hs2 -> serial topic config s ->
  serial topic config (perform e (with_handlers (hs1 ++ es :: hs2) s)).
Proof.
  destruct s as [ds d gs g hs rs q put sent]. cbn [wr_handlers]. intros ->.
  intros (Hsh & (Hd1 & Hd2 & Hd3) & (Hg1 & Hg2 & Hg3) & Hs).
  cbn [wr_handlers wr_resense wr_drains log_drain_task wr_groups sensing_method_task_group] in *.
  apply shape_one in Hsh as (-> & -> & Hsh). cbn [app] in *.
  inversion Hsh as [|id c hosts t b|hosts t b rs' Hrs|hosts t b rs' Hrs|b rs' Hrs|rs' Hrs]; subst; cbn in *; subst.
  - split_and!; try done. by constructor.
  - split_and!; try done; [by constructor|..]; unfold drains_ok; cbn.
    split_and!; [|by rewrite length_alter|done]. rewrite map_alter_stop. by apply only_alive_stop.
  - split_and!; try done.
    + by constructor.
    + unfold drains_ok; cbn. split_and!.
      * rewrite map_app. apply only_alive_spawn in Hd1. by rewrite length_map in Hd1.
      * rewrite length_app. cbn. lia.
      * by rewrite list_lookup_middle.
    + apply (sent_later _ (length ds)) in Hs; [done|]. cbn. lia.
  - split_and!; try done. by constructor.
Qed.

Lemma finishes_serial topic config hs1 hs2 s :
  wr_handlers s = hs1 ++ [] :: hs2 -> serial topic config s ->
  serial topic config (with_handlers (hs1 ++ hs2) s).
Proof.
  destruct s as [ds d gs g hs rs q put sent]. cbn [wr_handlers]. intros ->.
  intros (Hsh & Hd & Hg & Hs). cbn [wr_handlers wr_resense] in *.
  apply shape_one in Hsh as (-> & -> & Hsh). split_and!; try done. cbn.
  inversion Hsh; subst. by constructor.
Qed.

Lemma pending_resense hs r rs : shape hs [r] -> pending_config hs rs = resense_config <$> head rs.
Proof. intros H. by inversion H; subst. Qed.

Lemma task_step_serial topic config s s' :
  task_step s s' -> serial topic config s -> serial topic config s'.
Proof.
  destruct 1 as [hs1 e es hs2 s Hh|hs1 hs2 s Hh|ds d gs g hs rs1 c rs2 q put sent|
    ds d gs g hs rs1 c rs2 q put sent|ds d gs g hs rs q put sent k c j m Hk|
    ds d gs g hs rs m q put sent k t Hk].
  - by apply handles_serial.
  - by apply finishes_serial.
  - intros (Hsh & Hd & (Hg1 & Hg2 & Hg3) & Hs). cbn in Hsh, Hg1, Hg2, Hg3.
    destruct (shape_resense _ _ _ _ Hsh) as (-> & -> & _ & Hany). cbn [app] in *.
    rewrite (pending_resense _ _ _ Hsh) in Hg3. cbn in Hg3. split_and!; try done; [by apply Hany|].
    unfold groups_ok. cbn. rewrite (pending_resense _ _ _ Hsh). cbn. split_and!; [|by destruct g; cbn; rewrite ?length_alter|done].
    destruct g as [k|]; cbn; [|by destruct gs]. rewrite map_alter_group. by apply only_alive_stop.
  - intros (Hsh & Hd & (Hg1 & Hg2 & Hg3) & Hs). cbn in Hsh, Hg1, Hg2, Hg3.
    destruct (shape_resense _ _ _ _ Hsh) as (-> & -> & _ & Hany). cbn [app] in *.
    rewrite (pending_resense _ _ _ Hsh) in Hg3. cbn in Hg3. split_and!; try done; [apply Hany; cbn; lia|].
    unfold groups_ok. cbn. rewrite (pending_resense _ _ _ Hsh). cbn. split_and!.
    + rewrite map_app. apply only_alive_spawn in Hg1. by rewrite length_map in Hg1.
    + rewrite length_app. cbn. lia.
    + rewrite list_lookup_middle by done. cbn. by subst.
  - intros (Hsh & Hd & Hg & Hs). done.
  - intros (Hsh & (Hd1 & Hd2 & Hd3) & Hg & (Hs1 & Hs2)). split_and!; try done.
    assert (k = d) as ->.
    { cbn in Hd1. assert (map dr_alive ds !! k = Some true) as E by (by rewrite list_lookup_fmap, Hk).
      apply Hd1 in E. by destruct (between_drains hs); simplify_eq. }
    split; cbn in *.
    + rewrite map_app. apply StronglySorted_app_2; [|done|by repeat constructor].
      intros x1 x2 H1 H2. apply list_elem_of_fmap_1 in H1 as (e & -> & He).
      rewrite Forall_forall in Hs2. apply Hs2 in He. apply list_elem_of_singleton in H2 as ->. done.
    + apply Forall_app. split; [done|]. by repeat constructor.
Qed.

Lemma arrives_serial body topic config s : calm s -> serial topic config s ->
  (refused (effects_of body) -> serial topic config (arrives body s)) /\
  forall config' topic', observes config' topic' (effects_of body) -> serial topic' config' (arrives body s).
Proof.
  destruct s as [ds d gs g hs rs q put sent]. intros [E1 E2]. cbn in E1, E2. subst hs rs.
  intros (Hsh & (Hd1 & Hd2 & Hd3) & (Hg1 & Hg2 & Hg3) & Hs). unfold arrives. cbn in *. split.
  - intros [->|[b ->]]; (split; [constructor; cbn; lia|done]).
  - intros config' topic' (id & hosts & b & ->).
    by split; [constructor|].
Qed.

Lemma registered_serial topic config : serial topic config (registered topic config).
Proof.
  split; [by constructor|]. split; [|split].
  - split; [|done]. intros [|[|k]]; cbn; split; by intros [=].
  - split; [|done]. intros k. by split.
  - split; constructor.
Qed.

Lemma task_steps_serial topic config s s' :
  rtc task_step s s' -> serial topic config s -> serial topic config s'.
Proof. induction 1; eauto using task_step_serial. Qed.

Lemma steps_serial topic config s : rtc serial_step (registered topic config) s ->
  exists topic' config', serial topic' config' s.
Proof.
  apply (rtc_ind_r (fun s => exists topic' config', serial topic' config' s)).
  { exists topic, config. apply registered_serial. }
  intros s1 s2 _ [H12|(Hc & body & -> & Hbody)] (t & c & Hs).
  - exists t, c. by eapply task_step_serial.
  - destruct (arrives_serial body t c s1 Hc Hs) as [Hr Ho].
    destruct Hbody as [Hbody|(c' & t' & Hbody)]; eauto.
Qed.

(** Where all is calm the tasks that run are the ones the attributes hold. *)
Lemma serial_calm topic config s : serial topic config s -> calm s ->
  (forall k t, wr_drains s !! k = Some (Drain t true) <-> k = log_drain_task s /\ t = topic) /\
  exists group, sensing_method_task_group s = Some group /\
    forall k c, wr_groups s !! k = Some (Group c true) <-> k = group /\ c = config.
Proof.
  destruct s as [ds d gs g hs rs q put sent]. intros (_ & (Hd1 & _ & Hd3) & (Hg1 & _ & Hg3) & _) [E1 E2].
  cbn in *. subst hs rs. cbn in *. split.
  - intros k t. specialize (Hd1 k). rewrite list_lookup_fmap in Hd1. split.
    + intros Hk. rewrite Hk in Hd1. cbn in Hd1. destruct Hd1 as [Hd1 _]. injection (Hd1 eq_refl) as ->.
      rewrite Hk in Hd3. cbn in Hd3. by injection Hd3 as ->.
    + intros [-> ->]. destruct Hd1 as [_ Hd1]. specialize (Hd1 eq_refl).
      destruct (ds !! d) as [[t' a]|]; [|done]. cbn in *. congruence.
  - destruct g as [g|]; [|done]. exists g. split; [done|]. intros k c. cbn in Hg3.
    specialize (Hg1 k). rewrite list_lookup_fmap in Hg1. split.
    + intros Hk. rewrite Hk in Hg1. cbn in Hg1. destruct Hg1 as [Hg1 _]. injection (Hg1 eq_refl) as ->.
      rewrite Hk in Hg3. by injection Hg3 as ->.
    + intros [-> ->]. destruct Hg1 as [_ Hg1]. specialize (Hg1 eq_refl).
      destruct (gs !! g) as [[c' a]|]; [|done]. cbn in *. congruence.
Qed.

(** * Overlapping requests *)

(** A drain that runs and that the attribute does not hold stays. *)
Definition orphan (k : nat) (topic : json) (s : wrapper) : Prop :=
  wr_drains s !! k = Some (Drain topic true) /\ k <> log_drain_task s.

Lemma perform_orphan k topic e s : orphan k topic s -> orphan k topic (perform e s).
Proof.
  destruct s as [ds d gs g hs rs q put sent]. intros [Hk Hne]. cbn in Hk, Hne.
  destruct e; split; cbn; try done.
  - by rewrite list_lookup_alter_ne.
  - rewrite lookup_app_l; [done|by eapply lookup_lt_Some].
  - apply lookup_lt_Some in Hk. lia.
Qed.

Lemma with_handlers_orphan k topic hs s : orphan k topic s -> orphan k topic (with_handlers hs s).
Proof. by destruct s. Qed.

Lemma wrapper_step_orphan k topic s s' : wrapper_step s s' -> orphan k topic s -> orphan k topic s'.
Proof.
  intros [Hs|[body ->]]; [|apply with_handlers_orphan].
  destruct Hs; try done.
  - intros Ho. by apply perform_orphan, with_handlers_orphan.
  - apply with_handlers_orphan.
Qed.

Lemma steps_orphan k topic s s' : rtc wrapper_step s s' -> orphan k topic s -> orphan k topic s'.
Proof. induction 1; eauto using wrapper_step_orphan. Qed.

Lemma handle_nth hs1 e es hs2 ds d gs g rs q put sent s' :
  rtc task_step (perform e (MkWrapper ds d gs g (hs1 ++ es :: hs2) rs q put sent)) s' ->
  rtc task_step (MkWrapper ds d gs g (hs1 ++ (e :: es) :: hs2) rs q put sent) s'.
Proof.
  apply rtc_l.
  apply (step_handles hs1 e es hs2 (MkWrapper ds d gs g (hs1 ++ (e :: es) :: hs2) rs q put sent) eq_refl).
Qed.

Lemma finish_nth hs1 hs2 ds d gs g rs q put sent s' :
  rtc task_step (MkWrapper ds d gs g (hs1 ++ hs2) rs q put sent) s' ->
  rtc task_step (MkWrapper ds d gs g (hs1 ++ [] :: hs2) rs q put sent) s'.
Proof.
  apply rtc_l.
  apply (step_finishes hs1 hs2 (MkWrapper ds d gs g (hs1 ++ [] :: hs2) rs q put sent) eq_refl).
Qed.

Lemma task_steps s s' : rtc task_step s s' -> rtc wrapper_step s s'.
Proof. apply rtc_subrel. intros s1 s2 Hs. by left. Qed.

(** Two requests, each effect of the first just before the same effect of the
    second. *)
Lemma overlap ds d gs g q put sent body1 body2 c1 t1 c2 t2 :
  observes c1 t1 (effects_of body1) -> observes c2 t2 (effects_of body2) ->
  rtc wrapper_step (MkWrapper ds d gs g [] [] q put sent)
    (MkWrapper (alter stop_drain d (alter stop_drain d ds) ++ [Drain t1 true; Drain t2 true]) (S (length ds))
       (cancel_group g (cancel_group g gs) ++ [Group c1 true; Group c2 true]) (Some (S (length gs)))
       [] [] q put sent).
Proof.
  intros (id1 & h1 & b1 & E1) (id2 & h2 & b2 & E2).
  eapply rtc_l; [right; by exists body1|]. eapply rtc_l; [right; by exists body2|].
  unfold arrives, with_handlers. cbn [wr_handlers app]. rewrite E1, E2. apply task_steps.
  do 3 (apply (handle_nth []); cbn [app perform]; apply (handle_nth [_] _ _ []); cbn [app perform]).
  apply (handle_nth []); cbn [app perform]; apply (handle_nth [_] _ _ []); cbn [app perform].
  do 2 (apply (finish_nth []); cbn [app]).
  eapply rtc_l; [apply (step_cancels _ _ _ _ _ [] c1 [Cancels c2])|]. cbn [app].
  eapply rtc_l; [apply (step_cancels _ _ _ _ _ [Spawns c1] c2 [])|]. cbn [app].
  eapply rtc_l; [apply (step_spawns _ _ _ _ _ [] c1 [Spawns c2])|]. cbn [app].
  eapply rtc_l; [apply (step_spawns _ _ _ _ _ [] c2 [])|]. cbn [app].
  rewrite <-!app_assoc, !length_app. cbn [app length].
  assert (forall g gs, length (cancel_group g gs) = length gs) as Hl.
  { intros [k|] l; [apply length_alter|done]. }
  rewrite !length_alter, !Hl, !Nat.add_1_r. reflexivity.
Qed.

(** The sensing methods replaced, with no request. *)
Lemma resensed ds d gs g c q put sent :
  rtc task_step (MkWrapper ds d gs g [] [Cancels c] q put sent)
    (MkWrapper ds d (cancel_group g gs ++ [Group c true]) (Some (length gs)) [] [] q put sent).
Proof.
  eapply rtc_l; [apply (step_cancels _ _ _ _ _ [] c [])|]. cbn [app].
  eapply rtc_l; [apply (step_spawns _ _ _ _ _ [] c [])|]. cbn [app].
  destruct g; [cbn; by rewrite length_alter|reflexivity].
Qed.

(** One request that is handled with nothing else in between. *)
Lemma handled ds d gs g q put sent body c t : observes c t (effects_of body) ->
  rtc task_step (arrives body (MkWrapper ds d gs g [] [] q put sent))
    (MkWrapper (alter stop_drain d ds ++ [Drain t true]) (length ds)
       (cancel_group g gs ++ [Group c true]) (Some (length gs)) [] [] q put sent).
Proof.
  intros (id & h & b & E). unfold arrives, with_handlers. cbn [wr_handlers app]. rewrite E.
  do 4 (apply (handle_nth [] _ _ []); cbn [app perform]).
  apply (finish_nth [] []). cbn [app]. rewrite length_alter. apply resensed.
Qed.

(** * Theorems *)

(** Whatever requests come, and however their handlers, the sensing methods and the
    drains take turns: a message that was put was sent or is queued. *)
Lemma reached_none_lost topic config s : rtc wrapper_step (registered topic config) s -> none_lost s.
Proof. apply (rtc_ind_r none_lost); [done|]. intros s1 s2 _ H12. by apply wrapper_step_none_lost. Qed.

(** C17: functional.  Requests one at a time take effect.  When they are complete or
    refused and each comes after the last has been dealt with, then after an
    [observe] request exactly one drain runs, on the topic of that request, and
    exactly one group of sensing methods, with its configuration, which are the ones
    the attributes hold; and no message was sent by a drain after one of a later
    drain. *)
Theorem observe_takes_effect topic0 config0 s body topic config s' :
  rtc serial_step (registered topic0 config0) s -> calm s ->
  observes config topic (effects_of body) ->
  rtc task_step (arrives body s) s' -> calm s' ->
  (forall k t, wr_drains s' !! k = Some (Drain t true) <-> k = log_drain_task s' /\ t = topic) /\
  (exists group, sensing_method_task_group s' = Some group /\
     forall k c, wr_groups s' !! k = Some (Group c true) <-> k = group /\ c = config) /\
  StronglySorted le (map fst (wr_sent s')).
Proof.
  intros Hs Hc Ho Hs' Hc'. destruct (steps_serial _ _ _ Hs) as (t & c & Hser).
  apply (arrives_serial body _ _ _ Hc) in Hser as [_ Hser]. specialize (Hser config topic Ho).
  apply (task_steps_serial _ _ _ _ Hs') in Hser.
  destruct (serial_calm _ _ _ Hser Hc') as [H1 H2]. destruct Hser as (_ & _ & _ & H3 & _). auto.
Qed.

(** Error.  Overlapping requests leak a drain.  The handlers of two [observe]
    requests that come at the same time both cancel the drain that was running and
    both spawn a new one: when all is calm again two drains share the queue, so
    that each message goes to either topic, and two groups of sensing methods
    observe everything twice.  The first of the drains is no longer the wrapper's,
    and nothing will ever cancel it. *)
Theorem overlapping_requests_leak topic0 config0 body1 body2 c1 t1 c2 t2 :
  observes c1 t1 (effects_of body1) -> observes c2 t2 (effects_of body2) ->
  exists s, rtc wrapper_step (registered topic0 config0) s /\ calm s /\
    map dr_alive (wr_drains s) = [false; true; true] /\ log_drain_task s = 2%nat /\
    map gr_alive (wr_groups s) = [false; true; true] /\
    forall s', rtc wrapper_step s s' -> wr_drains s' !! 1%nat = Some (Drain t1 true).
Proof.
  intros H1 H2.
  set (s := MkWrapper [Drain topic0 false; Drain t1 true; Drain t2 true] 2
    [Group config0 false; Group c1 true; Group c2 true] (Some 2%nat) [] [] [] [] []).
  exists s. split.
  { etrans; [apply task_steps, resensed|]. exact (overlap _ _ _ _ _ _ _ _ _ _ _ _ _ H1 H2). }
  split_and!; [done..|]. intros s' Hs.
  enough (orphan 1 t1 s') as [Hk _] by done.
  by apply (steps_orphan _ _ _ _ Hs).
Qed.
End Running.

(** * Two requests *)

Definition request (topic conf : string) : json :=
  ex_actuation "observe" (obj [("configuration", JStr (u conf));
    ("kafka_bootstrap_hosts", JList [JStr (u "kafka")]); ("sensor_topic", JStr (u topic))]).

Lemma request_observes topic :
  observes (JObj []) (JStr (u topic)) (effects_of ex_ident (request topic "{}")).
Proof. eexists _, _, _. cbn. reflexivity. Qed.

Definition calm_start : wrapper :=
  MkWrapper [Drain (JStr (u "first")) true] 0 [Group JNull true] (Some 0%nat) [] [] [] [] [].
Definition calm_end : wrapper :=
  MkWrapper [Drain (JStr (u "first")) false; Drain (JStr (u "second")) true] 1
    [Group JNull false; Group (JObj []) true] (Some 1%nat) [] [] [] [] [].

Lemma observe_takes_effect_witness :
  (1%nat = log_drain_task calm_end /\ JStr (u "second") = JStr (u "second")) /\
  (exists group, Some 1%nat = Some group /\
     forall k c, wr_groups calm_end !! k = Some (Group c true) <-> k = group /\ c = JObj []) /\
  StronglySorted le (map fst (wr_sent calm_end)).
Proof.
  destruct (observe_takes_effect ex_ident (JStr (u "first")) JNull calm_start (request "second" "{}")
    (JStr (u "second")) (JObj []) calm_end) as (H1 & H2 & H3).
  - eapply rtc_subrel; [|apply resensed]. intros s1 s2 Hs. by left.
  - by split.
  - apply request_observes.
  - exact (handled ex_ident [Drain (JStr (u "first")) true] 0 [Group JNull true] (Some 0%nat) [] [] []
      _ _ _ (request_observes "second")).
  - by split.
  - split; [by apply H1|done].
Defined.

Lemma overlapping_requests_leak_witness :
  exists s, rtc (wrapper_step ex_ident) (registered (JStr (u "first")) JNull) s /\ calm s /\
    map dr_alive (wr_drains s) = [false; true; true].
Proof.
  destruct (overlapping_requests_leak ex_ident (JStr (u "first")) JNull (request "second" "{}")
    (request "third" "{}") (JObj []) (JStr (u "second")) (JObj []) (JStr (u "third"))) as (s & H1 & H2 & H3 & _).
  - apply request_observes.
  - apply request_observes.
  - by exists s.
Defined.
