(* ===== verification/WrapperConfig.v ===== *)
(** Options and identity of a sensor, from [sensors/wrapper/sensor_wrapper.py]:
    the option table, the conversion of library arguments, the checks and
    defaults of [check_identification], URIs, properties files, the search
    path and key fingerprints.

    [self.opts] is a namespace: a dictionary from attribute names to Python
    values, whose missing attributes raise.  What the code asks the operating
    system is the record [host]. *)

From Stdlib Require Import QArith.
From S2P Require Import Prelude.
#[local] Open Scope Z_scope.

(** * Values and namespaces *)

Inductive pyval :=
  | PNone
  | PBool (b : bool)
  | PInt (z : Z)
  | PFloat (q : Q)
  | PStr (s : string).

Abbreviation namespace := (list (string * pyval)).

(** [opts.name] *)
Definition ns_get (o : namespace) (name : string) : res pyval :=
  opt_res AttributeError (dict_get name o).

Definition is_none (v : pyval) : bool := match v with PNone => true | _ => false end.

(** The digits of an [int(...)] argument: underscores only between digits. *)
Fixpoint py_digits (l : list ascii) (acc : Z) (after_digit : bool) : option Z :=
  match l with
  | [] => if after_digit then Some acc else None
  | c :: l =>
      let n := Z.of_N (N_of_ascii c) in
      if (48 <=? n) && (n <=? 57) then py_digits l (acc * 10 + (n - 48)) true
      else if (n =? 95) && after_digit then py_digits l acc false
      else None
  end.

(** [int(s)] *)
Definition py_int (s : string) : res Z :=
  match str_chars (strip s) with
  | c :: l =>
      if Ascii.eqb c "-" then
        opt_res ValueError (Z.opp <$> py_digits l 0 false)
      else if Ascii.eqb c "+" then opt_res ValueError (py_digits l 0 false)
      else opt_res ValueError (py_digits (c :: l) 0 false)
  | [] => Raise ValueError
  end.

(** [int(v)] *)
Definition int_of (v : pyval) : res Z :=
  match v with
  | PStr s => py_int s
  | PInt z => Ok z
  | PBool b => Ok (Z.b2z b)
  | PFloat q => Ok (Z.quot (Qnum q) (Zpos (Qden q)))
  | PNone => Raise TypeError
  end.

(** * Options *)

(** How the option table converts an argument. *)
Inductive opt_type := TStr | TInt | TFloat | TFlag.

Record opt_spec := OptSpec {
  os_flags : list string;
  os_dest : string;
  os_default : pyval;
  os_type : opt_type;
}.

Definition setup_options : list opt_spec :=
  [ OptSpec ["--public-key-path"] "public_key_path" PNone TStr;
    OptSpec ["--private-key-path"] "private_key_path" PNone TStr;
    OptSpec ["--ca-key-path"] "ca_key_path" (PStr "./cert") TStr;
    OptSpec ["-a"; "--api-host"] "api_host" (PStr "sensing-api.savior.internal") TStr;
    OptSpec ["--api-https-port"] "api_https_port" (PInt 17504) TInt;
    OptSpec ["--api-http-port"] "api_http_port" (PInt 17141) TInt;
    OptSpec ["--api-version"] "api_version" (PStr "v1") TStr;
    OptSpec ["--sensor-id"] "sensor_id" PNone TStr;
    OptSpec ["--virtue-id"] "virtue_id" PNone TStr;
    OptSpec ["--username"] "username" PNone TStr;
    OptSpec ["--sensor-hostname"] "sensor_hostname" PNone TStr;
    OptSpec ["--sensor-port"] "sensor_port" (PInt 11000) TInt;
    OptSpec ["--sensor-advertised-hostname"] "sensor_advertised_hostname" PNone TStr;
    OptSpec ["--sensor-advertised-port"] "sensor_advertised_port" PNone TStr;
    OptSpec ["--delay-start"] "delay_start" (PInt 0) TInt;
    OptSpec ["--api-connect-retry-max"] "api_retry_max" (PFloat 30) TFloat;
    OptSpec ["--api-connect-retry-wait"] "api_retry_wait" (PFloat (1 # 2)) TFloat;
    OptSpec ["--backoff-delay"] "backoff_delay" (PInt 30) TInt;
    OptSpec ["--check-for-long-blocking"] "check_for_long_blocking" (PBool false) TFlag ].

(** The namespace of a command line without arguments. *)
Definition default_opts : namespace := map (fun o => (os_dest o, os_default o)) setup_options.

(** [self.opt_types] *)
Inductive kw_type := KInt | KFloat | KStr | KNone | KBool.

Definition opt_types : list (string * kw_type) :=
  [ ("api_https_port", KInt); ("api_http_port", KInt); ("sensor_port", KInt);
    ("delay_start", KInt); ("api_retry_max", KFloat); ("api_retry_wait", KFloat);
    ("sensor_hostname", KStr); ("sensor_advertised_hostname", KNone);
    ("sensor_advertised_port", KNone); ("backoff_delay", KInt);
    ("check_for_long_blocking", KBool) ].

Section Convert.
(** [float(v)], [str(v)] of a number, and [eval(v)]: conversions between
    texts and floats are left to Python. *)
Context (float_of : pyval -> res Q) (str_of_val : pyval -> string) (eval : pyval -> res pyval).

Definition convert_kw (t : kw_type) (v : pyval) : res pyval :=
  match t with
  | KInt => res_map PInt (int_of v)
  | KFloat => res_map PFloat (float_of v)
  | KStr => Ok (PStr (match v with PStr s => s | _ => str_of_val v end))
  | KNone => Ok PNone
  | KBool => eval v
  end.

(** The loop of [start] over the library arguments. *)
Fixpoint set_kwargs (kwargs : list (string * pyval)) (opts : namespace) : res namespace :=
  match kwargs with
  | [] => Ok opts
  | (key, v) :: kwargs =>
      let? value := match dict_get key opt_types with
                    | Some t => convert_kw t v
                    | None => Ok v
                    end in
      set_kwargs kwargs (dict_set key value opts)
  end.
End Convert.

(** * URIs *)

(** [construct_api_uri(uri_path, secure)] *)
Definition construct_api_uri (opts : namespace) (uri_path : string) (secure : bool) : res string :=
  let? host := ns_get opts "api_host" in
  let? https_port := ns_get opts "api_https_port" in
  let? port := if secure then Ok https_port else ns_get opts "api_http_port" in
  match host with
  | PStr host =>
      let host := if startswith host "http" then host
                  else if secure then "https://" +:+ host else "http://" +:+ host in
      let? version := ns_get opts "api_version" in
      match port, version with
      | PInt p, PStr v => Ok (host +:+ ":" +:+ str_int p +:+ "/api/" +:+ v +:+ uri_path)
      | _, _ => Raise TypeError
      end
  | _ => Raise AttributeError
  end.

(** * Properties files *)

Definition newline_char : ascii := ascii_of_nat 10.

(** One line of [read_properties]. *)
Definition property_line (line : string) : option (string * string) :=
  let line := strip line in
  if bool_decide (line = "") || startswith line "#" || negb (has_char "=" line) then None
  else match str_split "=" line with
       | key :: bits => Some (key, str_join "=" bits)
       | [] => None
       end.

(** [read_properties] on the text of the file. *)
Definition read_properties (raw : string) : list (string * string) :=
  fold_left (fun d line => match property_line line with
                           | Some (k, v) => dict_set k v d
                           | None => d
                           end) (str_split newline_char raw) [].

(** * The search path *)

Section Which.
Context (isfile : string -> bool).

(** [which_file(name)]: the first directory of [PATH] that has the file. *)
Definition which_file (environ : list (string * string)) (name : string) : res (option string) :=
  let? path := opt_res KeyError (dict_get "PATH" environ) in
  Ok (find (fun p => isfile p) (map (fun dir => path_join dir name) (str_split ":" path))).
End Which.

(** * Fingerprints *)

(** [string[i:i + every]] for every [i] of the range. *)
Fixpoint pieces (fuel every : nat) (l : list ascii) : list (list ascii) :=
  match fuel, l with
  | _, [] | O, _ => []
  | S fuel, _ => take every l :: pieces fuel every (drop every l)
  end.

(** [insert_char_every_n_chars(string, char, every)]; a step of zero raises. *)
Definition insert_char_every_n_chars (s char : string) (every : nat) : res string :=
  match every with
  | O => Raise ValueError
  | _ => Ok (str_join char (map str_of (pieces (String.length s) every (str_chars s))))
  end.

(** * Identity *)

(** What the operating system answers. *)
Record host := Host {
  h_windows : bool;
  h_environ : list (string * string);
  (** [pwd.getpwuid(os.getuid())[0]] *)
  h_pwname : res string;
  (** [os.getlogin()] *)
  h_login : res string;
  h_fqdn : string;
  (** [socket.gethostbyname(socket.gethostname())] *)
  h_ip : res string;
  (** The text of [/home/user/ports.properties], if it exists. *)
  h_ports : option string;
}.

(** The options being completed, and fresh UUIDs. *)
Record id_state := IdState { is_opts : namespace; is_uuids : list string }.

Abbreviation I := (M id_state).

Definition getattr (name : string) : I pyval :=
  do s <- get; lift (ns_get (is_opts s) name).
Definition setattr (name : string) (v : pyval) : I unit :=
  modify (fun s => IdState (dict_set name v (is_opts s)) (is_uuids s)).
(** [str(uuid4())] *)
Definition uuid4 : I string := fun s =>
  match is_uuids s with
  | i :: l => (Ok i, IdState (is_opts s) l)
  | [] => (Raise OSError, s)
  end.

(** [if self.opts.name is None: m] *)
Definition when_none (name : string) (m : I unit) : I unit :=
  do v <- getattr name;
  if is_none v then m else ret tt.

Section Identify.
Context (os : host).

Definition check_sensor_id : I unit :=
  when_none "sensor_id" (do i <- uuid4; setattr "sensor_id" (PStr i)).

Definition check_virtue_id : I unit :=
  when_none "virtue_id"
    (match dict_get "VIRTUE_ID" (h_environ os) with
     | Some v => setattr "virtue_id" (PStr v)
     | None => do i <- uuid4; setattr "virtue_id" (PStr i)
     end).

Definition check_username : I unit :=
  when_none "username"
    (do_ (if h_windows os then ret tt
          else do n <- lift (h_pwname os); setattr "username" (PStr n));
     do_ when_none "username"
           (match dict_get "USERNAME" (h_environ os) with
            | Some v => setattr "username" (PStr v)
            | None => ret tt
            end);
     do_ when_none "username" (do n <- lift (h_login os); setattr "username" (PStr n));
     do_ when_none "username" (setattr "username" (PStr ("user@" +:+ h_fqdn os)));
     when_none "username" (throw ValueError)).

Definition check_hostname : I unit :=
  do h <- getattr "sensor_hostname";
  if is_none h || h_windows os then
    do_ (if h_windows os then
           do ip <- lift (h_ip os);
           setattr "sensor_hostname"
             (PStr ("ip-" +:+ str_join "-" (str_split "." ip) +:+ ".ec2.internal"))
         else setattr "sensor_hostname" (PStr (h_fqdn os)));
    when_none "sensor_hostname" (throw ValueError)
  else ret tt.

(** [str(self.opts.sensor_port)]: an integer by the option table and by
    [opt_types]. *)
Definition port_key (port : pyval) : string :=
  match port with
  | PInt p => str_int p
  | PStr s => s
  | PBool true => "True"
  | PBool false => "False"
  | PNone | PFloat _ => "None"
  end.

Definition check_advertised : I unit :=
  match h_ports os with
  | Some raw =>
      let ports_dict := read_properties raw in
      match dict_get "hostname" ports_dict with
      | None => throw ValueError
      | Some hostname =>
          do_ setattr "sensor_advertised_hostname" (PStr hostname);
          do port <- getattr "sensor_port";
          match dict_get (port_key port) ports_dict with
          | None => throw ValueError
          | Some v =>
              do p <- lift (py_int v);
              setattr "sensor_advertised_port" (PInt p)
          end
      end
  | None =>
      do_ when_none "sensor_advertised_hostname"
            (do h <- getattr "sensor_hostname"; setattr "sensor_advertised_hostname" h);
      when_none "sensor_advertised_port"
        (do p <- getattr "sensor_port"; setattr "sensor_advertised_port" p)
  end.

Definition check_identification : I unit :=
  do_ check_sensor_id;
  do_ check_virtue_id;
  do_ check_username;
  do_ check_hostname;
  do_ check_advertised;
  (* the attributes the report reads *)
  for_each (fun name => do _ <- getattr name; ret tt)
    ["api_host"; "api_http_port"; "api_https_port"; "api_version"; "sensor_port"].
End Identify.

(** * Lemmas *)

(** ** Reading what was written *)

(** [key=value] *)
Definition property_text (kv : string * string) : string := kv.1 +:+ "=" +:+ kv.2.

Definition property_ok (kv : string * string) : Prop :=
  strip (property_text kv) = property_text kv /\
  startswith (property_text kv) "#" = false /\
  has_char "=" kv.1 = false /\ has_char newline_char (property_text kv) = false.

Lemma has_char_app c a b : has_char c (a +:+ b) = has_char c a || has_char c b.
Proof. unfold has_char. by rewrite str_chars_app, existsb_app. Qed.

Lemma property_line_text kv : property_ok kv -> property_line (property_text kv) = Some kv.
Proof.
  intros (Hs & Hc & He & _). unfold property_line. rewrite Hs, Hc.
  rewrite bool_decide_false by (unfold property_text; by destruct (kv.1)).
  unfold property_text at 1. rewrite !has_char_app. cbn [orb negb has_char str_chars existsb].
  rewrite orb_true_r. cbn [negb].
  unfold property_text.
  change ("=" +:+ kv.2) with (String.String "="%char kv.2). rewrite str_split_app by done.
  change "=" with (str_of ["="%char]). rewrite str_join_split. by destruct kv.
Qed.

(** Comments and blank lines. *)
Definition ignored_line (line : string) : Prop :=
  property_line line = None /\ has_char newline_char line = false.

(** The lines of a file: properties, and comments or blanks. *)
Definition line_text (l : string + string * string) : string :=
  match l with inl s => s | inr kv => property_text kv end.
Definition line_ok (l : string + string * string) : Prop :=
  match l with inl s => ignored_line s | inr kv => property_ok kv end.
Definition line_props (l : string + string * string) : list (string * string) :=
  match l with inl _ => [] | inr kv => [kv] end.

Lemma read_lines_spec ls d :
  Forall line_ok ls ->
  fold_left (fun d line => match property_line line with
                           | Some (k, v) => dict_set k v d
                           | None => d
                           end) (map line_text ls) d = dict_update d (flat_map line_props ls).
Proof.
  unfold dict_update. intros Hls. revert d.
  induction Hls as [|[s|[k v]] ls Hl _ IH]; intros d; cbn [map fold_left flat_map line_text line_props app];
    [done| |].
  - destruct Hl as [-> _]. apply IH.
  - rewrite property_line_text by done. cbn [fold_left fst snd]. apply IH.
Qed.

Lemma read_properties_lines ls :
  ls <> [] -> Forall line_ok ls ->
  read_properties (str_join (str_of [newline_char]) (map line_text ls)) =
    dict_update [] (flat_map line_props ls).
Proof.
  intros Hne Hls. unfold read_properties. rewrite str_split_join.
  - by apply read_lines_spec.
  - by destruct ls.
  - apply Forall_map. eapply Forall_impl; [exact Hls|].
    intros [s|kv]; [by intros [_ ?]|by intros (_ & _ & _ & ?)].
Qed.

(** ** Setting attributes *)

(** [m] only ever changes the attributes [names]. *)
Definition touches {A} (names : list string) (m : I A) : Prop :=
  forall s r s', m s = (r, s') ->
    forall n, n ∉ names -> dict_get n (is_opts s') = dict_get n (is_opts s).

(** [m], when it succeeds, leaves [name] set to something. *)
Definition sets (name : string) (m : I unit) : Prop :=
  forall s s', m s = (Ok tt, s') -> exists v, dict_get name (is_opts s') = Some v /\ v <> PNone.

Lemma touches_same {A} (m : I A) names :
  (forall s, is_opts (m s).2 = is_opts s) -> touches names m.
Proof. intros Hm s r s' E n _. specialize (Hm s). by rewrite E in Hm; cbn in Hm; rewrite Hm. Qed.

Lemma touches_getattr n names : touches names (getattr n).
Proof. by apply touches_same. Qed.
Lemma touches_uuid4 names : touches names uuid4.
Proof. apply touches_same. intros s. unfold uuid4. by destruct (is_uuids s). Qed.
Lemma touches_lift {A} (r : res A) names : touches names (lift r).
Proof. by apply touches_same. Qed.
Lemma touches_ret {A} (a : A) names : touches names (ret a).
Proof. by apply touches_same. Qed.
Lemma touches_throw {A} e names : touches (A := A) names (throw e).
Proof. by apply touches_same. Qed.
Lemma touches_setattr n v names : n ∈ names -> touches names (setattr n v).
Proof.
  intros Hn s r s' E k Hk. unfold setattr, modify in E. injection E as _ <-. cbn.
  apply dict_get_set_ne. set_solver.
Qed.
Lemma touches_bind {A B} names (m : I A) (f : A -> I B) :
  touches names m -> (forall a, touches names (f a)) -> touches names (bind m f).
Proof.
  intros Hm Hf s r s' E n Hn. unfold bind in E. destruct (m s) as [[a|e] s1] eqn:E1.
  - rewrite (Hf a _ _ _ E n Hn). by eapply Hm.
  - injection E as _ <-. by eapply Hm.
Qed.
Lemma touches_when_none names n m : touches names m -> touches names (when_none n m).
Proof.
  intros Hm. unfold when_none. apply touches_bind; [apply touches_getattr|]. intros v.
  destruct (is_none v); [done|apply touches_ret].
Qed.

#[local] Hint Resolve touches_getattr touches_uuid4 touches_lift touches_ret touches_throw
  touches_when_none : pydb.
#[local] Hint Extern 1 (touches _ (setattr _ _)) => apply touches_setattr; set_solver : pydb.

(** Splits a sequence of steps into the attributes they touch. *)
Ltac touches :=
  repeat first [ progress intros | solve [auto with pydb] | apply touches_bind
               | apply touches_when_none | lazymatch goal with |- touches _ _ => case_match end ].

(** Decides that a name is not in a list of names. *)
Ltac notin := by apply (bool_decide_unpack _).

Section IdentifyLemmas.
Context (os : host).

Lemma touches_sensor_id : touches ["sensor_id"] check_sensor_id.
Proof. unfold check_sensor_id. touches. Qed.
Lemma touches_virtue_id : touches ["virtue_id"] (check_virtue_id os).
Proof. unfold check_virtue_id. touches. Qed.
Lemma touches_username : touches ["username"] (check_username os).
Proof. unfold check_username. touches. Qed.
Lemma touches_hostname : touches ["sensor_hostname"] (check_hostname os).
Proof. unfold check_hostname. touches. Qed.
Lemma touches_advertised :
  touches ["sensor_advertised_hostname"; "sensor_advertised_port"] (check_advertised os).
Proof. unfold check_advertised. touches. Qed.
Lemma touches_report l : touches [] (for_each (fun name => do _ <- getattr name; ret tt) l).
Proof. induction l as [|n l IH]; cbn [for_each]; touches. Qed.

Lemma when_none_run n m s v :
  dict_get n (is_opts s) = Some v -> v <> PNone -> when_none n m s = (Ok tt, s).
Proof.
  intros Hn Hv. unfold when_none, getattr, bind, get, lift, ns_get. rewrite Hn. cbn.
  by destruct v.
Qed.

Lemma when_none_sets n m : sets n m -> sets n (when_none n m).
Proof.
  intros Hm s s'. unfold when_none, getattr, bind, get, lift, ns_get.
  destruct (dict_get n (is_opts s)) as [v|] eqn:E; [|discriminate]. cbn.
  destruct (is_none v) eqn:Ev; [apply Hm|]. intros [= <-]. exists v. split; [done|].
  by intros ->.
Qed.

(** A value that does not depend on the state. *)
Lemma sets_setattr n v : v <> PNone -> sets n (setattr n v).
Proof. intros Hv s s' [= <-]. exists v. cbn. by rewrite dict_get_set_eq. Qed.

Lemma sets_bind {A} n (m : I A) (f : A -> I unit) : (forall a, sets n (f a)) -> sets n (bind m f).
Proof. intros Hf s s' E. apply bind_Ok in E as (a & s1 & _ & E). by eapply Hf. Qed.

Lemma sets_throw n e : sets n (throw e).
Proof. by intros s s' E. Qed.

(** What an earlier step set, later steps that do not touch it keep. *)
Lemma sets_then n (m k : I unit) names :
  sets n m -> touches names k -> n ∉ names -> sets n (do_ m; k).
Proof.
  intros Hm Hk Hn s s' E. apply bind_Ok in E as ([] & s1 & E1 & E).
  destruct (Hm _ _ E1) as (v & Hv & Hne). exists v. by rewrite (Hk _ _ _ E n Hn).
Qed.

(** Attributes a sequence of steps does not touch. *)
Lemma sets_after n (m k : I unit) : sets n k -> sets n (do_ m; k).
Proof. intros Hk. apply sets_bind. by intros []. Qed.

Lemma sets_sensor_id : sets "sensor_id" check_sensor_id.
Proof. apply when_none_sets, sets_bind. intros i. by apply sets_setattr. Qed.

Lemma sets_virtue_id : sets "virtue_id" (check_virtue_id os).
Proof.
  apply when_none_sets. case_match; [by apply sets_setattr|].
  apply sets_bind. intros i. by apply sets_setattr.
Qed.

Lemma sets_username : sets "username" (check_username os).
Proof. apply when_none_sets. do 4 (apply sets_after). apply when_none_sets, sets_throw. Qed.

Lemma sets_hostname : sets "sensor_hostname" (check_hostname os).
Proof.
  intros s s' E. unfold check_hostname in E. apply bind_Ok in E as (h & s1 & Hh & E).
  destruct (is_none h || h_windows os) eqn:Eb.
  - revert E. apply sets_after, when_none_sets, sets_throw.
  - injection E as <-. unfold getattr, bind, get, lift, ns_get in Hh.
    destruct (dict_get "sensor_hostname" (is_opts s)) as [v|] eqn:Ev; [|discriminate].
    injection Hh as <- <-. exists v. split; [done|]. intros ->. discriminate.
Qed.

(** The advertised address: from the properties file, or the sensor's own. *)
Lemma sets_copy n m s s' v :
  dict_get m (is_opts s) = Some v -> v <> PNone -> n <> m ->
  when_none n (do p <- getattr m; setattr n p) s = (Ok tt, s') ->
  exists v', dict_get n (is_opts s') = Some v' /\ v' <> PNone.
Proof.
  intros Hm Hv Hne. unfold when_none, getattr, bind, get, lift, ns_get.
  destruct (dict_get n (is_opts s)) as [w|] eqn:E; [|discriminate]. cbn.
  destruct (is_none w) eqn:Ew.
  - rewrite Hm. cbn. intros [= <-]. exists v. cbn. by rewrite dict_get_set_eq.
  - intros [= <-]. exists w. split; [done|]. by intros ->.
Qed.

Lemma advertised_set s s' p h :
  dict_get "sensor_port" (is_opts s) = Some p -> p <> PNone ->
  dict_get "sensor_hostname" (is_opts s) = Some h -> h <> PNone ->
  check_advertised os s = (Ok tt, s') ->
  forall n, n ∈ ["sensor_advertised_hostname"; "sensor_advertised_port"] ->
  exists v, dict_get n (is_opts s') = Some v /\ v <> PNone.
Proof.
  intros Hp Hpn Hh Hhn E. unfold check_advertised in E. destruct (h_ports os) as [raw|].
  - destruct (dict_get "hostname" (read_properties raw)) as [hn|]; [|discriminate].
    unfold setattr in E at 1. rewrite bind_modify in E.
    apply bind_Ok in E as (port & s1 & Eport & E).
    assert (s1 = IdState (dict_set "sensor_advertised_hostname" (PStr hn) (is_opts s)) (is_uuids s)) as ->.
    { unfold getattr, bind, get, lift in Eport. congruence. }
    destruct (dict_get (port_key port) (read_properties raw)); [|discriminate].
    apply bind_Ok in E as (z & s2 & Ez & E). apply lift_Ok in Ez as [_ ->].
    injection E as <-. cbn [is_opts].
    intros n [->|[->|[]%not_elem_of_nil]%elem_of_cons]%elem_of_cons.
    + exists (PStr hn). rewrite dict_get_set_ne by done. by rewrite dict_get_set_eq.
    + exists (PInt z). by rewrite dict_get_set_eq.
  - apply bind_Ok in E as ([] & s1 & E1 & E).
    assert (touches ["sensor_advertised_hostname"] (when_none "sensor_advertised_hostname"
      (do h <- getattr "sensor_hostname"; setattr "sensor_advertised_hostname" h))) as Ht1 by touches.
    assert (touches ["sensor_advertised_port"] (when_none "sensor_advertised_port"
      (do p <- getattr "sensor_port"; setattr "sensor_advertised_port" p))) as Ht2 by touches.
    intros n [->|[->|[]%not_elem_of_nil]%elem_of_cons]%elem_of_cons.
    + destruct (sets_copy "sensor_advertised_hostname" "sensor_hostname" _ _ _ Hh Hhn ltac:(done) E1) as (v & Hv & Hne).
      exists v. by rewrite (Ht2 _ _ _ E "sensor_advertised_hostname" ltac:(set_solver)).
    + eapply (sets_copy "sensor_advertised_port" "sensor_port"); [|exact Hpn|done|exact E].
      by rewrite (Ht1 _ _ _ E1 "sensor_port" ltac:(set_solver)).
Qed.
End IdentifyLemmas.

(** The steps of a successful check. *)
Lemma identification_steps os s s' :
  check_identification os s = (Ok tt, s') ->
  exists s1 s2 s3 s4 s5,
    check_sensor_id s = (Ok tt, s1) /\ check_virtue_id os s1 = (Ok tt, s2) /\
    check_username os s2 = (Ok tt, s3) /\ check_hostname os s3 = (Ok tt, s4) /\
    check_advertised os s4 = (Ok tt, s5) /\
    for_each (fun name => do _ <- getattr name; ret tt)
      ["api_host"; "api_http_port"; "api_https_port"; "api_version"; "sensor_port"] s5 = (Ok tt, s').
Proof.
  unfold check_identification. intros E.
  apply bind_Ok in E as ([] & s1 & E1 & E). apply bind_Ok in E as ([] & s2 & E2 & E).
  apply bind_Ok in E as ([] & s3 & E3 & E). apply bind_Ok in E as ([] & s4 & E4 & E).
  apply bind_Ok in E as ([] & s5 & E5 & E). by exists s1, s2, s3, s4, s5.
Qed.

(** * Theorems *)

(** The attributes that identify a sensor to the Sensing API. *)
Definition identity : list string :=
  [ "sensor_id"; "virtue_id"; "username"; "sensor_hostname"; "sensor_advertised_hostname";
    "sensor_advertised_port" ].

(** Identification is complete and keeps what was given. When
    [check_identification] returns, every identifying attribute has a value;
    the sensor id, virtue id and user name that were given are unchanged, and
    so is the host name, except on Windows. *)
Theorem identification_complete os s s' p :
  dict_get "sensor_port" (is_opts s) = Some p -> p <> PNone ->
  check_identification os s = (Ok tt, s') ->
  (forall n, n ∈ identity -> exists v, dict_get n (is_opts s') = Some v /\ v <> PNone) /\
  (forall n v, n ∈ ["sensor_id"; "virtue_id"; "username"] \/
               (n = "sensor_hostname" /\ h_windows os = false) ->
     dict_get n (is_opts s) = Some v -> v <> PNone -> dict_get n (is_opts s') = Some v).
Proof.
  intros Hp Hpn E.
  destruct (identification_steps os s s' E) as (s1 & s2 & s3 & s4 & s5 & E1 & E2 & E3 & E4 & E5 & E6).
  pose proof (touches_sensor_id _ _ _ E1) as T1. pose proof (touches_virtue_id os _ _ _ E2) as T2.
  pose proof (touches_username os _ _ _ E3) as T3. pose proof (touches_hostname os _ _ _ E4) as T4.
  pose proof (touches_advertised os _ _ _ E5) as T5. pose proof (touches_report _ _ _ _ E6) as T6.
  assert (dict_get "sensor_port" (is_opts s4) = Some p) as Hp4.
  { by rewrite T4, T3, T2, T1 by notin. }
  destruct (sets_hostname os _ _ E4) as (h & Hh & Hhn).
  split.
  - intros n Hn. rewrite T6 by notin. unfold identity in Hn.
    repeat (apply elem_of_cons in Hn as [->|Hn]); [..|by apply not_elem_of_nil in Hn];
      try (apply (advertised_set os s4 s5 p h); [done..|by apply (bool_decide_unpack _)]).
    + destruct (sets_sensor_id _ _ E1) as (v & Hv & ?). exists v.
      by rewrite T5, T4, T3, T2 by notin.
    + destruct (sets_virtue_id os _ _ E2) as (v & Hv & ?). exists v.
      by rewrite T5, T4, T3 by notin.
    + destruct (sets_username os _ _ E3) as (v & Hv & ?). exists v.
      by rewrite T5, T4 by notin.
    + exists h. by rewrite T5 by notin.
  - intros n v Hn Hv Hne. rewrite T6 by notin.
    assert (forall m k s s', k = when_none n m -> dict_get n (is_opts s) = Some v ->
      k s = (Ok tt, s') -> dict_get n (is_opts s') = Some v) as Hkeep.
    { intros m k t t' -> Ht Hrun. rewrite (when_none_run n m t v Ht Hne) in Hrun. congruence. }
    destruct Hn as [Hn|[-> Hw]]; [|rewrite T5 by notin].
    + repeat (apply elem_of_cons in Hn as [->|Hn]); [..|by apply not_elem_of_nil in Hn];
        rewrite T5, T4 by notin.
      * rewrite T3, T2 by notin. by eapply Hkeep.
      * rewrite T3 by notin. eapply Hkeep; [done| |exact E2]. by rewrite T1 by notin.
      * eapply Hkeep; [done| |exact E3]. by rewrite T2, T1 by notin.
    + assert (dict_get "sensor_hostname" (is_opts s3) = Some v) as Hv3.
      { by rewrite T3, T2, T1 by notin. }
      unfold check_hostname, getattr, bind, get, lift, ns_get in E4. rewrite Hv3, Hw in E4.
      cbn in E4. rewrite orb_false_r in E4. destruct v; try done; by injection E4 as <-.
Qed.

(** Properties files. Reading a file of comments, blank lines and
    [key=value] lines with distinct keys gives exactly the properties, in
    order, values with ["="] in them included. *)
Theorem properties_roundtrip ls :
  ls <> [] -> Forall line_ok ls -> NoDup (dict_keys (flat_map line_props ls)) ->
  read_properties (str_join (str_of [newline_char]) (map line_text ls)) = flat_map line_props ls.
Proof.
  intros Hne Hls Hnd. rewrite read_properties_lines by done. by apply dict_update_fresh.
Qed.

(** The advertised address of a Linux virtue. When the host has a
    properties file, the sensor advertises the file's host name and the port
    it maps the sensor's own port to; a file without one of the two entries
    makes identification fail with [ValueError]. *)
Theorem ports_file_advertises os s p raw :
  h_ports os = Some raw -> dict_get "sensor_port" (is_opts s) = Some (PInt p) ->
  match dict_get "hostname" (read_properties raw), dict_get (str_int p) (read_properties raw) with
  | Some host, Some ext =>
      forall z, py_int ext = Ok z ->
      exists s', check_advertised os s = (Ok tt, s') /\
        dict_get "sensor_advertised_hostname" (is_opts s') = Some (PStr host) /\
        dict_get "sensor_advertised_port" (is_opts s') = Some (PInt z) /\
        dict_get "sensor_port" (is_opts s') = Some (PInt p)
  | _, _ => (check_advertised os s).1 = Raise ValueError
  end.
Proof.
  intros Hraw Hp. unfold check_advertised. rewrite Hraw. cbv zeta.
  destruct (dict_get "hostname" (read_properties raw)) as [hn|]; [|done].
  set (s1 := IdState (dict_set "sensor_advertised_hostname" (PStr hn) (is_opts s)) (is_uuids s)).
  assert (getattr "sensor_port" s1 = (Ok (PInt p), s1)) as Hget.
  { unfold getattr, bind, get, lift, ns_get, s1. cbn [is_opts].
    rewrite dict_get_set_ne by done. by rewrite Hp. }
  unfold setattr at 1. destruct (dict_get (str_int p) (read_properties raw)) as [ext|] eqn:E.
  - intros z Hz. eexists. rewrite bind_modify. split.
    + fold s1. erewrite bind_step by exact Hget. cbv beta. cbn [port_key]. rewrite E.
      erewrite bind_lift by exact Hz. reflexivity.
    + unfold s1. cbn [is_opts]. rewrite dict_get_set_ne by done.
      rewrite dict_get_set_eq, dict_get_set_eq, !dict_get_set_ne by done. done.
  - unfold setattr at 1. rewrite bind_modify. fold s1. erewrite bind_step by exact Hget. cbv beta. cbn [port_key].
    by rewrite E.
Qed.

(** The advertised address cannot be given by a library caller. Started
    as a library (as the Windows service does), whatever value the caller
    passes for the advertised host or port is replaced by [None]. *)
Theorem library_advertised_dropped float_of str_of_val eval kwargs opts opts' n v :
  n ∈ ["sensor_advertised_hostname"; "sensor_advertised_port"] ->
  set_kwargs float_of str_of_val eval kwargs opts = Ok opts' ->
  (n, v) ∈ kwargs -> dict_get n opts' = Some PNone.
Proof.
  intros Hn. assert (dict_get n opt_types = Some KNone) as Ht.
  { repeat (apply elem_of_cons in Hn as [->|Hn]; [reflexivity|]). by apply not_elem_of_nil in Hn. }
  assert (forall l o, dict_get n o = Some PNone ->
    set_kwargs float_of str_of_val eval l o = Ok opts' -> dict_get n opts' = Some PNone) as Hkeep.
  { induction l as [|[k w] l IH]; intros o Ho; cbn [set_kwargs]; [by intros <-%Ok_inj|].
    intros H. apply res_bind_Ok in H as (x & Hx & H). apply IH in H; [done|].
    rewrite dict_get_set. case_decide as Hk; [subst k|done]. rewrite Ht in Hx. by apply Ok_inj in Hx as <-. }
  revert opts. induction kwargs as [|[k w] l IH]; intros o; cbn [set_kwargs].
  - by intros _ ?%not_elem_of_nil.
  - intros H. apply res_bind_Ok in H as (x & Hx & H).
    intros [[= <- <-]|Hin]%elem_of_cons; [|by eapply IH].
    rewrite Ht in Hx. cbn in Hx. injection Hx as <-. eapply Hkeep; [|exact H].
    by rewrite dict_get_set_eq.
Qed.

Lemma pieces_join fuel l k :
  length l = (2 * S k)%nat -> (length l <= fuel)%nat ->
  let r := str_chars (str_join ":" (map str_of (pieces fuel 2 l))) in
  length r = (3 * k + 2)%nat /\
  (existsb (Ascii.eqb ":"%char) l = false ->
   List.filter (fun c => negb (Ascii.eqb ":"%char c)) r = l).
Proof.
  revert fuel l. induction k as [|k IH]; intros fuel l Hl Hf.
  - destruct l as [|a [|b [|c l]]]; try discriminate Hl.
    destruct fuel as [|fuel]; [cbn in Hf; lia|]. cbn [pieces firstn skipn map str_join].
    destruct fuel; cbn; (split; [done|]);
      by intros [-> [-> _]%orb_false_iff]%orb_false_iff.
  - destruct l as [|a [|b l]]; [discriminate Hl|cbn in Hl; lia|].
    destruct fuel as [|fuel]; [cbn in Hf; lia|].
    assert (length l = (2 * S k)%nat) as Hl' by (cbn in Hl; lia).
    destruct (IH fuel l Hl' ltac:(cbn in Hf; lia)) as [Hlen Hflt].
    change (pieces (S fuel) 2 (a :: b :: l)) with ([a; b] :: pieces fuel 2 l). cbn [map].
    assert (map str_of (pieces fuel 2 l) <> []) as Hne.
    { destruct l as [|x l]; [cbn in Hl'; lia|]. destruct fuel; [cbn in Hf; lia|]. done. }
    destruct (map str_of (pieces fuel 2 l)) as [|w ws] eqn:E; [done|].
    change (str_join ":" (str_of [a; b] :: w :: ws)) with (str_of [a; b] +:+ ":" +:+ str_join ":" (w :: ws)).
    cbn zeta in *. rewrite !str_chars_app, str_chars_of. cbn [app str_chars length List.filter existsb].
    rewrite Hlen. split; [lia|].
    intros [Ha [Hb Hrest]%orb_false_iff]%orb_false_iff. rewrite Ha, Hb.
    change (Ascii.eqb ":"%char ":"%char) with true. cbn [negb]. by rewrite (Hflt Hrest).
Qed.

(** Fingerprints. The fingerprint of a digest of [2k] hexadecimal
    characters has [3k - 1] characters (47 for MD5, 59 for SHA-1), and without
    the colons it is the digest. *)
Theorem fingerprint_spec digest k :
  String.length digest = (2 * S k)%nat -> has_char ":" digest = false ->
  exists f, insert_char_every_n_chars digest ":" 2 = Ok f /\
    length (str_chars f) = (3 * S k - 1)%nat /\
    str_of (List.filter (fun c => negb (Ascii.eqb ":"%char c)) (str_chars f)) = digest.
Proof.
  intros Hl Hc. eexists. split; [reflexivity|].
  assert (length (str_chars digest) = String.length digest) as Hlen.
  { clear. induction digest as [|c s IH]; [done|]. cbn. by rewrite IH. }
  rewrite <-Hlen in Hl.
  destruct (pieces_join (String.length digest) (str_chars digest) k Hl) as [H1 H2]; [lia|].
  split; [lia|]. unfold has_char in Hc. by rewrite (H2 Hc), str_of_chars.
Qed.

(** * Witnesses *)

(** A Linux virtue with a properties file, and a host without one. *)
Definition ex_lines : list (string + string * string) :=
  [ inl "# ports"; inr ("hostname", "10.0.0.7"); inl ""; inr ("11000", "42000"); inr ("opt", "a=b") ].
Definition ex_ports : string := str_join (str_of [newline_char]) (map line_text ex_lines).
Definition ex_host (ports : option string) : host :=
  Host false [("VIRTUE_ID", "v-7")] (Ok "user") (Raise OSError) "virtue.local" (Raise OSError) ports.
Definition ex_id_state : id_state := IdState default_opts ["uuid-1"; "uuid-2"].

Lemma ex_lines_ok : Forall line_ok ex_lines.
Proof.
  unfold ex_lines.
  repeat (apply Forall_cons_2; [first [split; reflexivity | split_and!; reflexivity]|]). constructor.
Qed.

Lemma identification_complete_witness :
  exists v, dict_get "username" (is_opts (check_identification (ex_host None) ex_id_state).2) = Some v /\
    v <> PNone.
Proof.
  apply (identification_complete (ex_host None) ex_id_state _ (PInt 11000));
    [reflexivity|discriminate|vm_compute; reflexivity|by apply (bool_decide_unpack _)].
Defined.

Lemma properties_roundtrip_witness :
  read_properties ex_ports = [("hostname", "10.0.0.7"); ("11000", "42000"); ("opt", "a=b")].
Proof.
  apply (properties_roundtrip ex_lines); [discriminate|apply ex_lines_ok|].
  by apply (bool_decide_unpack _).
Defined.

Lemma ports_file_advertises_witness :
  exists s', check_advertised (ex_host (Some ex_ports)) ex_id_state = (Ok tt, s') /\
    dict_get "sensor_advertised_hostname" (is_opts s') = Some (PStr "10.0.0.7") /\
    dict_get "sensor_advertised_port" (is_opts s') = Some (PInt 42000) /\
    dict_get "sensor_port" (is_opts s') = Some (PInt 11000).
Proof.
  apply (ports_file_advertises (ex_host (Some ex_ports)) ex_id_state 11000 ex_ports eq_refl eq_refl 42000).
  vm_compute. reflexivity.
Defined.

Lemma library_advertised_dropped_witness :
  dict_get "sensor_advertised_port"
    (match set_kwargs (fun _ => Ok 1%Q) (fun _ => "") (fun v => Ok v)
       [("sensor_id", PStr "s"); ("sensor_advertised_port", PInt 42000)] [] with
     | Ok o => o | Raise _ => [] end) = Some PNone.
Proof.
  eapply (library_advertised_dropped (fun _ => Ok 1%Q) (fun _ => "") (fun v => Ok v)
    [("sensor_id", PStr "s"); ("sensor_advertised_port", PInt 42000)] [] _ "sensor_advertised_port"
    (PInt 42000)); [by right; left|reflexivity|by right; left].
Defined.

Lemma fingerprint_spec_witness :
  exists f, insert_char_every_n_chars "d41d8cd98f00b204e9800998ecf8427e" ":" 2 = Ok f /\
    length (str_chars f) = 47%nat.
Proof.
  destruct (fingerprint_spec "d41d8cd98f00b204e9800998ecf8427e" 15 eq_refl eq_refl) as (f & H1 & H2 & _).
  by exists f.
Defined.
