(* ===== verification/Wrapper.v ===== *)
(** The life cycle of a sensor, from the class [SensorWrapper] of
    [sensors/wrapper/sensor_wrapper.py]: waiting for the Sensing API, the
    certificate cycle with its challenge server, registration, the running
    sensor with its log drain, deregistration, and the retry loop of [start].

    The Sensing API, the clock, the file system, the RSA library and the TLS
    context are outside the repository.  They are the fields of the class
    [World] and answer from the history of what the sensor did so far.  What
    the sensor does is its trace of events; the tasks that [main] spawns and
    does not join are events of the trace. *)

From Stdlib Require Import QArith Qround Lqa.
From S2P Require Import Prelude Json Http WrapperConfig.
#[local] Open Scope Z_scope.

Definition __VERSION__ : string := "1.20180801".

(** * Requests, answers and events *)

Inductive http_method := GET | PUT.

(** The [json=] and [data=] arguments of a request. *)
Inductive payload := NoPayload | JsonPayload (j : json) | FormPayload (l : list (string * json)).

(** The library that makes the request: [requests] or [curequests]. *)
Inductive http_library := Requests | CuRequests.

Record request := Request {
  rq_library : http_library;
  rq_method : http_method;
  rq_uri : string;
  rq_payload : payload;
  rq_verify : option string;
  rq_cert : option (pyval * pyval);
}.

(** An answer: [json()] may raise.  [rs_sock] is [None] when the connection
    has no TLS socket, and otherwise the peer's certificate, if it has one. *)
Record response := Response {
  status_code : Z;
  rs_json : res json;
  rs_sock : option (option bytes);
}.

(** What [getpeercert] gives: the DER bytes with [binary_form=True], a decoded
    dictionary without. *)
Inductive peercert := BinaryForm (c : option bytes) | DictForm (c : option bytes).

(** [response.peercert] as the two patched [build_response] leave it: missing
    when there was no TLS socket. *)
Definition cu_new_HTTPAdapter_build_response (resp : response) : option peercert :=
  BinaryForm <$> rs_sock resp.
Definition new_HTTPAdapter_build_response (resp : response) : option peercert :=
  DictForm <$> rs_sock resp.

Definition response_peercert (l : http_library) (resp : response) : res peercert :=
  opt_res AttributeError
    (match l with
     | CuRequests => cu_new_HTTPAdapter_build_response resp
     | Requests => new_HTTPAdapter_build_response resp
     end).

Inductive task :=
  | LogDrain (hosts topic : json)
  | CallSensingMethod (config : json)
  | SyncSensor (pub_key : json).

Inductive sensor_event :=
  | Exchanged (r : request) (answer : res response)
  | Slept (seconds : Q)
  | OpenedForWriting (path : string)
  | Wrote (path : string) (content : ustr)
  | Chmod (path : string) (mode : Z)
  | ServerUp (secure : bool) (routes : list (ustr * string))
  | ServerCancelled
  | Spawned (t : task)
  | Notified
  | CancelledAll.

Definition history := list sensor_event.

Record wrapper := Wrapper {
  (** The API's certificate, pinned when the private key was received. *)
  api_public_certificate : option bytes;
  trace : history;
}.

Abbreviation W := (M wrapper).

Definition happen (e : sensor_event) : W unit :=
  modify (fun w => Wrapper (api_public_certificate w) (trace w ++ [e])).
Definition pin (c : option bytes) : W unit :=
  modify (fun w => Wrapper c (trace w)).

(** What is outside the program. *)
Class World := {
  api : history -> request -> res response;
  time : history -> Q;
  open_w : history -> string -> res unit;
  load_cert_chain : history -> res unit;
  (** [hashlib.sha1(RSA.importKey(pem).exportKey("DER", pkcs=8)).hexdigest()] *)
  pkcs8_sha1 : json -> res string;
  abspath : string -> string;
  is_windows : bool;
  (** [str(x)] and the JSON text of a float *)
  float_text : Q -> string;
  (** The stop notification of the constructor, [None] for the default: wait
      for a signal. *)
  stop_notification : option (history -> res unit);
  check_cancellation : history -> bool;
  stop_retrying : history -> bool;
}.

(** What the constructor and [start] set and the rest only reads. *)
Record config := Config {
  opts : namespace;
  sensor_name : string;
  operating_system : string;
}.

(** * Python operations on decoded answers *)

(** [s.encode()]: the surrogates [json.loads] lets through do not encode. *)
Definition encode (v : json) : res bytes :=
  match v with
  | JStr s =>
      if forallb (fun c => negb ((55296 <=? c) && (c <? 57344))) s then Ok (utf8_encode s)
      else Raise ValueError
  | _ => Raise AttributeError
  end.

Definition base64_alphabet : list ascii :=
  str_chars "ABCDEFGHIJKLMNOPQRSTUVWXYZabcdefghijklmnopqrstuvwxyz0123456789-_".
Definition sextet (z : Z) : Z :=
  Z.of_N (N_of_ascii (nth (Z.to_nat (Z.land z 63)) base64_alphabet "A"%char)).

(** [base64.urlsafe_b64encode] as a text. *)
Fixpoint urlsafe_b64encode (b : bytes) : ustr :=
  match b with
  | [] => []
  | [x] =>
      let n := Z.shiftl (byte_val x) 16 in
      [sextet (Z.shiftr n 18); sextet (Z.shiftr n 12); 61; 61]
  | [x; y] =>
      let n := Z.lor (Z.shiftl (byte_val x) 16) (Z.shiftl (byte_val y) 8) in
      [sextet (Z.shiftr n 18); sextet (Z.shiftr n 12); sextet (Z.shiftr n 6); 61]
  | x :: y :: z :: b =>
      let n := Z.lor (Z.lor (Z.shiftl (byte_val x) 16) (Z.shiftl (byte_val y) 8)) (byte_val z) in
      [sextet (Z.shiftr n 18); sextet (Z.shiftr n 12); sextet (Z.shiftr n 6); sextet n]
      ++ urlsafe_b64encode b
  end.

Definition pubkey_b64 (pub_key : json) : res json :=
  res_map (fun b => JStr (urlsafe_b64encode b)) (encode pub_key).

(** ** [urlparse(url).path], as Python 3.6 has it *)

Definition url_letter (c : Z) : bool := (97 <=? c) && (c <=? 122) || (65 <=? c) && (c <=? 90).
Definition scheme_char (c : Z) : bool :=
  url_letter c || is_digit c || (c =? 43) || (c =? 45) || (c =? 46).

(** The text before the first character of [seps], and the rest from it. *)
Fixpoint span_to (seps s : ustr) : ustr * ustr :=
  match s with
  | c :: s' =>
      if bool_decide (c ∈ seps) then ([], s)
      else let (a, b) := span_to seps s' in (c :: a, b)
  | [] => ([], [])
  end.

(** What follows the colon must not look like a port, except after [http]. *)
Definition split_scheme (url : ustr) : ustr * ustr :=
  let (a, b) := span_to [58] url in
  match a, b with
  | _ :: _, _ :: rest =>
      if bool_decide (a = u "http")
         || forallb scheme_char a && (negb (forallb is_digit rest) || Nat.eqb (length rest) 0)
      then (a, rest) else ([], url)
  | _, _ => ([], url)
  end.

(** The schemes with parameters, in lower case. *)
Definition uses_params : list ustr :=
  map u [""; "ftp"; "hdl"; "prospero"; "http"; "https"; "shttp"; "rtsp"; "rtspu";
         "sip"; "sips"; "mms"; "sftp"; "tel"].
Definition lower (s : ustr) : ustr :=
  map (fun c => if (65 <=? c) && (c <=? 90) then c + 32 else c) s.

(** [_splitparams(url)[0]]: the parameters start at the first semicolon of
    the last segment, and with no slash at the first one. *)
Fixpoint drop_params (s : ustr) : ustr :=
  match s with
  | [] => []
  | c :: s' =>
      if (c =? 59) && negb (bool_decide (47 ∈ s')) then [] else c :: drop_params s'
  end.

(** A host with one bracket only is refused. *)
Definition urlparse_path (url : ustr) : res ustr :=
  let (scheme, rest) := split_scheme url in
  let (netloc, rest) := match rest with
                        | 47 :: 47 :: r => span_to [47; 63; 35] r
                        | _ => ([], rest)
                        end in
  if negb (Bool.eqb (bool_decide (91 ∈ netloc)) (bool_decide (93 ∈ netloc))) then Raise ValueError
  else
    let path := (span_to [63] (span_to [35] rest).1).1 in
    Ok (if bool_decide (lower scheme ∈ uses_params) then drop_params path else path).

(** * The wrapper *)

Section Wrapper.
Context {Wd : World} (self : config).

(** [self.opts.name], an option used as a string, one used as a number, and
    its ["%s"] *)
Definition opt (name : string) : res pyval := ns_get (opts self) name.
Definition opt_str (name : string) : res string :=
  let? v := opt name in match v with PStr s => Ok s | _ => Raise TypeError end.
Definition opt_num (name : string) : res Q :=
  let? v := opt name in
  match v with
  | PFloat q => Ok q
  | PInt z => Ok (inject_Z z)
  | PBool b => Ok (inject_Z (Z.b2z b))
  | _ => Raise TypeError
  end.
Definition percent_s (v : pyval) : string :=
  match v with
  | PNone => "None"
  | PBool b => if b then "True" else "False"
  | PInt z => str_int z
  | PFloat q => float_text q
  | PStr s => s
  end.
Definition pyval_json (v : pyval) : json :=
  match v with
  | PNone => JNull
  | PBool b => JBool b
  | PInt z => JInt z
  | PFloat q => JFloat (u (float_text q))
  | PStr s => JStr (u s)
  end.
Definition opt_json (name : string) : res json := res_map pyval_json (opt name).

(** [os.path.join(self.opts.ca_key_path, "ca.pem")] *)
Definition ca_path : res string :=
  res_map (fun p => path_join p "ca.pem") (opt_str "ca_key_path").

(** ["/sensor/%s/<what>" % (self.opts.sensor_id,)] as a URI *)
Definition sensor_uri (what : string) : res string :=
  let? i := opt "sensor_id" in
  construct_api_uri (opts self) ("/sensor/" +:+ percent_s i +:+ what) true.

Definition exchange (r : request) : W response :=
  do w <- get;
  let a := api (trace w) r in
  do_ happen (Exchanged r a);
  lift a.

Definition response_json (resp : response) : W json := lift (rs_json resp).

(** [open(path, "w")] and [write(content)]: the file is emptied before the
    content is looked up. *)
Definition write_file (path : string) (content : res json) : W unit :=
  do w <- get;
  do_ lift (open_w (trace w) path);
  do_ happen (OpenedForWriting path);
  do content <- lift content;
  match content with
  | JStr s => happen (Wrote path s)
  | _ => throw TypeError
  end.

Definition get_root_ca_pubkey : W (bool * json) :=
  do uri <- lift (construct_api_uri (opts self) "/ca/root/public" false);
  do res <- exchange (Request Requests GET uri NoPayload None None);
  if status_code res =? 200 then
    do res_json <- response_json res;
    do error <- lift (json_item res_json "error");
    if negb (json_truth error) then
      do path <- lift ca_path;
      do_ write_file path (json_item res_json "certificate");
      do certificate <- lift (json_item res_json "certificate");
      ret (true, certificate)
    else
      do message <- lift (json_item res_json "message");
      ret (false, message)
  else ret (false, JStr (u "HTTP(" ++ int_text (status_code res) ++ u ")")).

(** The body of the [try] of [wait_for_sensor_api]: whether the API is
    ready. *)
Definition poll_ready (uri : string) : W bool :=
  do res <- exchange (Request Requests GET uri NoPayload None None);
  if status_code res =? 200 then
    do res_json <- response_json res;
    do has <- lift (has_item res_json "ready");
    if has : bool then
      do ready <- lift (json_item res_json "ready");
      ret (json_truth ready)
    else ret false
  else ret false.

Definition now : W Q := do w <- get; ret (time (trace w)).
(** [time.sleep(seconds)] *)
Definition sleep (seconds : Q) : W unit :=
  if Qle_bool 0 seconds then happen (Slept seconds) else throw ValueError.

(** [fuel] rounds of the loop of [wait_for_sensor_api], started at [st];
    [false] when it is still waiting after them. *)
Fixpoint wait_loop (fuel : nat) (uri : string) (st : Q) : W bool :=
  match fuel with
  | O => ret false
  | S fuel =>
      do ready <- catch (poll_ready uri) (fun _ => ret false);
      if ready : bool then ret true
      else
        do t <- now;
        do retry_max <- lift (opt_num "api_retry_max");
        if negb (Qle_bool (t - st) retry_max) then throw ConnectionError
        else
          do wait <- lift (opt_num "api_retry_wait");
          do_ sleep wait;
          wait_loop fuel uri st
  end.

Definition wait_for_sensor_api (fuel : nat) : W bool :=
  do uri <- lift (construct_api_uri (opts self) "/ready" false);
  do st <- now;
  wait_loop fuel uri st.

(** The [else] branches that report an unsuccessful answer. *)
Definition log_messages_of (resp : response) : W unit :=
  do res_json <- response_json resp;
  do has <- lift (has_item res_json "messages");
  if has : bool then
    do messages <- lift (json_item res_json "messages");
    lift (iterate messages)
  else ret tt.

Definition get_private_key_and_csr : W (bool * json * json * json) :=
  do uri <- lift (construct_api_uri (opts self) "/ca/register/private_key/new" true);
  do hostname <- lift (opt_json "sensor_advertised_hostname");
  do port <- lift (opt_json "sensor_advertised_port");
  do ca <- lift ca_path;
  do pki_priv_res <- exchange
    (Request CuRequests PUT uri (JsonPayload (obj [("hostname", hostname); ("port", port)]))
       (Some ca) None);
  if status_code pki_priv_res =? 200 then
    do pki_priv_json <- response_json pki_priv_res;
    do cert <- lift (response_peercert CuRequests pki_priv_res);
    let der := match cert with BinaryForm c | DictForm c => c end in
    do_ pin der;
    (* [len] of the certificate *)
    do_ lift (match der with Some _ => Ok tt | None => Raise TypeError end);
    do private_key <- lift (json_item pki_priv_json "private_key");
    do certificate_request <- lift (json_item pki_priv_json "certificate_request");
    do challenge <- lift (json_item pki_priv_json "challenge");
    ret (true, private_key, certificate_request, challenge)
  else
    do_ log_messages_of pki_priv_res;
    ret (false, JStr [], JStr [], JObj []).

(** [is_pinned_api(response)]: the pinned value is the binary form, or [None]
    before the first private key. *)
Definition is_pinned_api (l : http_library) (resp : response) : W bool :=
  do cert <- lift (response_peercert l resp);
  do w <- get;
  ret (match cert with
       | BinaryForm c => bool_decide (c = api_public_certificate w)
       | DictForm None => bool_decide (None = api_public_certificate w)
       | DictForm (Some _) => false
       end).

Definition get_signed_public_key (csr : json) : W (bool * json) :=
  do uri <- lift (construct_api_uri (opts self) "/ca/register/public_key/signed" true);
  do ca <- lift ca_path;
  do pub_key_res <- exchange
    (Request CuRequests PUT uri (JsonPayload (obj [("certificate_request", csr)])) (Some ca) None);
  if status_code pub_key_res =? 200 then
    do pinned <- is_pinned_api CuRequests pub_key_res;
    if negb pinned then ret (false, JStr [])
    else
      do pub_key_json <- response_json pub_key_res;
      do certificate <- lift (json_item pub_key_json "certificate");
      ret (true, certificate)
  else
    do_ log_messages_of pub_key_res;
    ret (false, JStr []).

Definition register_sensor (pub_key : json) : W json :=
  do uri <- lift (sensor_uri "/register");
  do pubkey <- lift (pubkey_b64 pub_key);
  do sensor <- lift (opt_json "sensor_id");
  do virtue <- lift (opt_json "virtue_id");
  do user <- lift (opt_json "username");
  do hostname <- lift (opt_json "sensor_advertised_hostname");
  do port <- lift (opt_json "sensor_advertised_port");
  let payload := obj
    [ ("sensor", sensor); ("virtue", virtue); ("user", user); ("public_key", pubkey);
      ("hostname", hostname); ("port", port);
      ("name", JStr (u (sensor_name self +:+ "-" +:+ __VERSION__)));
      ("os", JStr (u (operating_system self))) ] in
  do ca <- lift ca_path;
  do public_key_path <- lift (opt_str "public_key_path");
  do private_key_path <- lift (opt_str "private_key_path");
  do reg_res <- exchange
    (Request CuRequests PUT uri (JsonPayload payload) (Some ca)
       (Some (PStr (abspath public_key_path), PStr (abspath private_key_path))));
  if status_code reg_res =? 200 then
    do pinned <- is_pinned_api CuRequests reg_res;
    if negb pinned then throw TaskError
    else response_json reg_res
  else throw TaskError.

Definition deregister_sensor (pub_key : json) : W unit :=
  do uri <- lift (sensor_uri "/deregister");
  do pubkey <- lift (pubkey_b64 pub_key);
  do sensor <- lift (opt_json "sensor_id");
  do ca <- lift ca_path;
  do public_key_path <- lift (opt "public_key_path");
  do private_key_path <- lift (opt "private_key_path");
  do res <- exchange
    (Request Requests PUT uri (FormPayload [("sensor", sensor); ("public_key", pubkey)]) (Some ca)
       (Some (public_key_path, private_key_path)));
  if status_code res =? 200 then
    do _ <- is_pinned_api Requests res;
    ret tt
  else ret tt.

(** [fuel] rounds of [sync_sensor]; [true] when it was cancelled. *)
Fixpoint sync_loop (fuel : nat) (r : request) : W bool :=
  match fuel with
  | O => ret false
  | S fuel =>
      do reg_res <- exchange r;
      do_ (if status_code reg_res =? 200 then
             do pinned <- is_pinned_api CuRequests reg_res;
             if negb pinned then throw TaskError else ret tt
           else do _ <- response_json reg_res; ret tt);
      do_ sleep 120;
      do w <- get;
      if check_cancellation (trace w) then ret true else sync_loop fuel r
  end.

Definition sync_sensor (fuel : nat) (pub_key : json) : W bool :=
  do pubkey <- lift (pubkey_b64 pub_key);
  do uri <- lift (sensor_uri "/sync");
  do sensor <- lift (opt_json "sensor_id");
  do ca <- lift ca_path;
  do public_key_path <- lift (opt "public_key_path");
  do private_key_path <- lift (opt "private_key_path");
  sync_loop fuel
    (Request CuRequests PUT uri (JsonPayload (obj [("sensor", sensor); ("public_key", pubkey)]))
       (Some ca) (Some (public_key_path, private_key_path))).

(** [rsa_private_fingerprint(pem_data)] *)
Definition rsa_private_fingerprint (pem_data : json) : res string :=
  let? sha1digest := pkcs8_sha1 pem_data in
  insert_char_every_n_chars sha1digest ":" 2.

(** ** [main] *)

(** [await (await g.spawn(f)).join()] *)
Definition joined_task {A} (m : W A) : W A := catch m (fun _ => throw TaskError).

(** [async with self.wrapper_task_group]: leaving with an exception cancels
    the group. *)
Definition in_task_group {A} (m : W A) : W A :=
  catch m (fun e => do_ happen CancelledAll; throw e).

(** Writing one of the two keys. *)
Definition store_key (path_option : string) (key : json) : W unit :=
  do path <- lift (opt_str path_option);
  do_ write_file path (Ok key);
  if is_windows then ret tt else happen (Chmod path 1536).

(** [urlparse(challenge_data["url"]).path]; a falsy value that is no text has
    the empty path. *)
Definition challenge_path (challenge_data : json) : res ustr :=
  let? url := json_item challenge_data "url" in
  match url with
  | JStr s => urlparse_path s
  | _ => if json_truth url then Raise AttributeError else Ok []
  end.

(** The certificate cycle: the key of the sensor, signed and stored. *)
Definition certificate_cycle : W json :=
  do (rc_success, _) <- joined_task get_root_ca_pubkey;
  do_ (if negb rc_success then throw TaskError else ret tt);
  do (pki_priv_success, priv_key, csr, challenge_data) <- joined_task get_private_key_and_csr;
  do_ (if negb pki_priv_success then throw TaskError else ret tt);
  do _ <- lift (rsa_private_fingerprint priv_key);
  do _ <- lift (json_item challenge_data "url");
  do _ <- lift (json_item challenge_data "token");
  do path <- lift (challenge_path challenge_data);
  do _ <- lift (opt "sensor_hostname");
  do _ <- lift (opt "sensor_port");
  do_ happen (ServerUp false [(path, "http_01_savior_challenge")]);
  do (pub_key_success, pub_key) <- joined_task (get_signed_public_key csr);
  do_ happen ServerCancelled;
  do_ (if negb pub_key_success then throw TaskError else ret tt);
  do_ store_key "public_key_path" pub_key;
  do_ store_key "private_key_path" priv_key;
  ret pub_key.

(** From the HTTPS server to the running sensor. *)
Definition serve (pub_key : json) : W unit :=
  do w <- get;
  do_ lift (load_cert_chain (trace w));
  do_ happen (ServerUp true
    (map (fun r => (u (route_path r), route_name r)) (https_routes (Ident "" "" "" false))));
  do reg_data <- joined_task (register_sensor pub_key);
  do hosts <- lift (json_item reg_data "kafka_bootstrap_hosts");
  do topic <- lift (json_item reg_data "sensor_topic");
  do_ happen (Spawned (LogDrain hosts topic));
  do default_configuration <- lift (json_item reg_data "default_configuration");
  do configuration <- lift (loads_value default_configuration);
  do_ happen (Spawned (CallSensingMethod configuration));
  happen (Spawned (SyncSensor pub_key)).

(** Waiting for the signal, or for the stop notification. *)
Definition await_stop : W unit :=
  do w <- get;
  do_ (match stop_notification with
       | None => ret tt
       | Some t => joined_task (lift (t (trace w)))
       end);
  happen Notified.

(** [main]; [false] when [fuel] polls did not settle whether the Sensing API
    is ready. *)
Definition main (fuel : nat) : W bool :=
  in_task_group
    (do ready <- joined_task (wait_for_sensor_api fuel);
     if negb ready then ret false
     else
       do pub_key <- certificate_cycle;
       do_ serve pub_key;
       do_ await_stop;
       do_ happen CancelledAll;
       do_ deregister_sensor pub_key;
       ret true).

(** [n] rounds of the loop of [start]: whether it ended. *)
Fixpoint start_loop (n fuel : nat) : W bool :=
  match n with
  | O => ret false
  | S n =>
      do w <- get;
      if stop_retrying (trace w) then ret true
      else
        do_ catch (do _ <- lift (opt "check_for_long_blocking"); do _ <- main fuel; ret tt) (fun e =>
              if decide (e = TaskError) then
                do delay <- lift (opt_num "backoff_delay");
                sleep delay
              else throw e);
        start_loop n fuel
  end.

Definition start (n fuel : nat) : W bool :=
  do delay <- lift (opt_num "delay_start");
  do_ (if negb (Qle_bool delay 0) then sleep delay else ret tt);
  start_loop n fuel.
End Wrapper.

(** * Preparing a start *)

(** The part of [start] before the retry loop, for the arguments of a library
    ([parse_opts] false) or a parsed command line: the options it leaves. *)
Definition prepare (float_of : pyval -> res Q) (str_of_val : pyval -> string)
    (eval : pyval -> res pyval) (parsed : option namespace) (kwargs : list (string * pyval))
    (check_for_long_blocking : bool) (os : host) (uuids : list string) : res namespace :=
  let? o := match parsed with
            | Some o => Ok o
            | None => set_kwargs float_of str_of_val eval kwargs []
            end in
  let (r, st) := check_identification os (IdState o uuids) in
  let? _ := r in
  Ok (if check_for_long_blocking
      then dict_set "check_for_long_blocking" (PBool true) (is_opts st) else is_opts st).

(** * The running sensor *)

(** What the Kafka library is asked to do. *)
Inductive kafka_event :=
  | Producer (bootstrap_servers : json) (ssl_cafile : string) (ssl_certfile ssl_keyfile : pyval)
  | Sent (topic : json) (value : bytes).

(** [",".join(v)] does not raise. *)
Definition joinable (v : json) : bool :=
  match v with
  | JStr _ | JObj _ => true
  | JList l => forallb (fun x => match x with JStr _ => true | _ => false end) l
  | _ => false
  end.

Section Running.
Context (self : config).

(** The loop of [log_drain] over the messages that arrive before it is
    cancelled. *)
Fixpoint drain_loop (kafka_channel : json) (log_messages : list ustr) (msg_count msg_bytes : Z)
    : M (list kafka_event) (Z * Z) :=
  match log_messages with
  | [] => ret (msg_count, msg_bytes)
  | message :: rest =>
      do b <- lift (encode (JStr message));
      do_ modify (fun t => t ++ [Sent kafka_channel b]);
      drain_loop kafka_channel rest (msg_count + 1) (msg_bytes + Z.of_nat (length message))
  end.

(** [log_drain(hosts, channel)]: the counters when it is cancelled.
    [producer] is what constructing the [KafkaProducer] does. *)
Definition log_drain (producer : json -> res unit) (kafka_bootstrap_hosts kafka_channel : json)
    (log_messages : list ustr) : M (list kafka_event) (Z * Z) :=
  do_ lift (if joinable kafka_bootstrap_hosts then Ok tt else Raise TypeError);
  do ca <- lift (ca_path self);
  do certfile <- lift (opt self "public_key_path");
  do keyfile <- lift (opt self "private_key_path");
  do_ modify (fun t => t ++ [Producer kafka_bootstrap_hosts ca certfile keyfile]);
  do_ lift (producer kafka_bootstrap_hosts);
  drain_loop kafka_channel log_messages 0 0.

(** What [call_sensing_method] does to its task groups. *)
Inductive sensing_event :=
  | CancelledStale
  | SpawnedMethod (lm : string) (msg_stub : list (ustr * json)) (config : json).

Definition msg_stub (sensor_id : string) : list (ustr * json) :=
  [ (u "sensor_id", JStr (u sensor_id));
    (u "sensor_name", JStr (u (sensor_name self +:+ "-" +:+ __VERSION__))) ].

(** [call_sensing_method(sensor_id, default_config)]: [group] is whether
    [sensing_method_task_group] is set, [stale] what cancelling it raises. *)
Definition call_sensing_method (sensing_methods : list string) (stale : res unit)
    (sensor_id : string) (default_config : json) : M (bool * list sensing_event) unit :=
  do (group, _) <- get;
  do_ (if group : bool then
         do_ modify (fun s => (s.1, s.2 ++ [CancelledStale]));
         catch (lift stale) (fun e =>
           if decide (e = CancelledError) then modify (fun s => (false, s.2)) else throw e)
       else ret tt);
  do_ modify (fun s => (true, s.2));
  for_each (fun lm =>
      modify (fun s => (s.1, s.2 ++ [SpawnedMethod lm (msg_stub sensor_id) default_config])))
    sensing_methods.
End Running.

(** * Theorems on the running sensor *)

Lemma encode_ascii m : ascii_text m -> encode (JStr m) = Ok (ascii_bytes m).
Proof.
  intros Hm. unfold encode. replace (forallb _ m) with true; [by rewrite utf8_encode_ascii|].
  symmetry. apply forallb_forall. intros c Hc%list_elem_of_In.
  unfold ascii_text in Hm. rewrite Forall_forall in Hm. destruct (Hm c Hc) as [_ Hlt].
  by rewrite (proj2 (Z.leb_gt _ _)) by lia.
Qed.

Lemma drain_loop_spec topic msgs n b t :
  Forall ascii_text msgs ->
  drain_loop topic msgs n b t =
    (Ok (n + Z.of_nat (length msgs), b + Z.of_nat (length (concat msgs))),
     t ++ map (fun m => Sent topic (ascii_bytes m)) msgs).
Proof.
  revert n b t. induction msgs as [|m msgs IH]; intros n b t Hm.
  { cbn. by rewrite !Z.add_0_r, app_nil_r. }
  apply Forall_cons in Hm as [Hm Hms]. cbn [drain_loop].
  erewrite bind_lift by (by apply encode_ascii). rewrite bind_modify, IH by done.
  cbn [length concat map]. rewrite length_app, <-(assoc_L (++)). do 2 f_equal. f_equal; lia.
Qed.

(** The log drain sends every message that arrives before it is
    cancelled, in order and unchanged, to the topic of the registration, over
    one producer with the sensor's certificates, and counts them. *)
Theorem log_drain_sends_all self producer hosts topic msgs ca pub priv :
  joinable hosts = true -> producer hosts = Ok tt ->
  ca_path self = Ok ca -> opt self "public_key_path" = Ok pub ->
  opt self "private_key_path" = Ok priv -> Forall ascii_text msgs ->
  log_drain self producer hosts topic msgs [] =
    (Ok (Z.of_nat (length msgs), Z.of_nat (length (concat msgs))),
     Producer hosts ca pub priv :: map (fun m => Sent topic (ascii_bytes m)) msgs).
Proof.
  intros Hj Hp Hca Hpub Hpriv Hm. unfold log_drain. rewrite Hj. erewrite bind_lift by done.
  do 3 (erewrite bind_lift by eassumption). rewrite bind_modify.
  erewrite bind_lift by eassumption. by rewrite drain_loop_spec.
Qed.

Lemma log_drain_sends_all_witness :
  log_drain (Config [("ca_key_path", PStr "c"); ("public_key_path", PStr "p");
                     ("private_key_path", PStr "k")] "lsof" "linux")
    (fun _ => Ok tt) (JList [JStr (u "kafka")]) (JStr (u "t")) [u "{}"; u "[1]"] [] =
  (Ok (2, 5), [Producer (JList [JStr (u "kafka")]) "c/ca.pem" (PStr "p") (PStr "k");
               Sent (JStr (u "t")) (ascii_bytes (u "{}")); Sent (JStr (u "t")) (ascii_bytes (u "[1]"))]).
Proof.
  apply (log_drain_sends_all _ _ _ _ [u "{}"; u "[1]"] "c/ca.pem" (PStr "p") (PStr "k")); try reflexivity.
  repeat constructor; done.
Defined.

(** * Waiting, restarting and the pin *)

Definition good (f : response -> bool) (a : res response) : bool :=
  match a with
  | Ok resp => (status_code resp =? 200) && f resp
  | Raise _ => false
  end.

Definition json_answer (f : json -> bool) (resp : response) : bool :=
  match rs_json resp with Ok j => f j | Raise _ => false end.

Definition says_ready : response -> bool :=
  json_answer (fun j => match has_item j "ready", json_item j "ready" with
                        | Ok true, Ok v => json_truth v
                        | _, _ => false
                        end).
Section Waiting.
Context {Wd : World} (self : config).

Definition ready_request (uri : string) : request := Request Requests GET uri NoPayload None None.

Definition after (w : wrapper) (l : history) : wrapper :=
  Wrapper (api_public_certificate w) (trace w ++ l).

Lemma after_after w l1 l2 : after (after w l1) l2 = after w (l1 ++ l2).
Proof. unfold after. cbn. by rewrite (assoc_L (++)). Qed.

(** One round of polling asks once, and nothing the answer does goes wrong. *)
Lemma poll_ready_spec uri w :
  let a := api (trace w) (ready_request uri) in
  catch (poll_ready uri) (fun _ => ret false) w =
    (Ok (good says_ready a), after w [Exchanged (ready_request uri) a]).
Proof.
  intros a. unfold poll_ready, exchange, catch, bind, get, happen, modify, lift, response_json, after.
  cbn. fold (ready_request uri). fold a. destruct a as [resp|e]; [|done]. cbn [good].
  destruct (status_code resp =? 200); [|done]. cbn [andb]. unfold says_ready, json_answer.
  destruct (rs_json resp) as [j|]; [|done].
  destruct (has_item j "ready") as [[]|]; [|done..].
  by destruct (json_item j "ready").
Qed.

Lemma wait_loop_S fuel uri st w :
  wait_loop self (S fuel) uri st w =
    (do ready <- catch (poll_ready uri) (fun _ => ret false);
     if ready : bool then ret true
     else
       do t <- now;
       do retry_max <- lift (opt_num self "api_retry_max");
       if negb (Qle_bool (t - st) retry_max) then throw ConnectionError
       else
         do wait <- lift (opt_num self "api_retry_wait");
         do_ sleep wait;
         wait_loop self fuel uri st) w.
Proof. done. Qed.

(** After [k] rounds in which the API is asked, is not ready, and the sensor sleeps;
    and after the next question. *)
Fixpoint waited (uri : string) (wait : Q) (k : nat) (w : wrapper) : wrapper :=
  match k with
  | O => w
  | S k => waited uri wait k
             (after w [Exchanged (ready_request uri) (api (trace w) (ready_request uri)); Slept wait])
  end.

Definition asked_again (uri : string) (wait : Q) (k : nat) (w : wrapper) : wrapper :=
  let w := waited uri wait k w in
  after w [Exchanged (ready_request uri) (api (trace w) (ready_request uri))].

(** The clock when it is looked at after that question. *)
Definition look (uri : string) (wait : Q) (k : nat) (w : wrapper) : Q :=
  time (trace (asked_again uri wait k w)).

(** How the waiting ends after the [k]-th question, from 0. *)
Definition ends_at (uri : string) (wait retry_max st : Q) (w : wrapper) (k : nat) (r : res bool) : Prop :=
  let ready := good says_ready (api (trace (waited uri wait k w)) (ready_request uri)) in
  (r = Ok true /\ ready = true) \/
  (r = Raise ConnectionError /\ ready = false /\ (retry_max < look uri wait k w - st)%Q).

Lemma wait_loop_ends uri retry_max wait st :
  opt_num self "api_retry_max" = Ok retry_max -> opt_num self "api_retry_wait" = Ok wait ->
  (0 < wait)%Q ->
  forall n w, (retry_max < look uri wait n w - st)%Q ->
    exists k r, (k <= n)%nat /\ wait_loop self (S n) uri st w = (r, asked_again uri wait k w) /\
      ends_at uri wait retry_max st w k r.
Proof.
  intros Hmax Hwait Hpos. induction n as [|n IH]; intros w Hn;
    rewrite wait_loop_S; erewrite bind_step by apply poll_ready_spec;
    destruct (good says_ready (api (trace w) (ready_request uri))) eqn:Hr;
    try (exists 0%nat, (Ok true); split; [lia|split; [done|by left]]).
  all: unfold now; erewrite bind_step by reflexivity; erewrite bind_lift by exact Hmax.
  all: change (time (trace (after w _))) with (look uri wait 0 w).
  all: destruct (Qle_bool (look uri wait 0 w - st) retry_max) eqn:E; cbn [negb];
    [apply Qle_bool_iff in E|exists 0%nat, (Raise ConnectionError); split; [lia|split; [done|]];
       right; split_and!; [done..|];
       apply Qnot_le_lt; intros Hle%Qle_bool_iff; congruence].
  - lra.
  - erewrite bind_lift by exact Hwait. cbv beta. unfold sleep.
    rewrite (proj2 (Qle_bool_iff 0 wait)) by lra. unfold happen. rewrite bind_modify.
    change (Wrapper _ _) with (after (after w [Exchanged (ready_request uri) (api (trace w) (ready_request uri))]) [Slept wait]).
    rewrite after_after. destruct (IH _ Hn) as (k & r & Hk & Hrun & Hend).
    exists (S k), r. split; [lia|]. split; [exact Hrun|exact Hend].
Qed.

(** C16: termination.  Let the retry interval be positive, and let the clock show at
    every look at least the time that was slept: [time.time] is the clock of the
    system, which its owner may set back, and then the waiting takes as much longer.
    Then [wait_for_sensor_api] ends, whatever the API answers, after at most two
    questions more than whole intervals fit into the retry limit (the limit has to be
    exceeded, not met): it returns after the first question that finds the API ready,
    or it raises [ConnectionError] after a question that did not, at a time beyond the
    limit. *)
Theorem wait_for_sensor_api_terminates uri retry_max wait w :
  construct_api_uri (opts self) "/ready" false = Ok uri ->
  opt_num self "api_retry_max" = Ok retry_max -> opt_num self "api_retry_wait" = Ok wait ->
  (0 < wait)%Q -> (0 <= retry_max)%Q ->
  let n := Z.to_nat (Qfloor (retry_max / wait)) in
  (forall k, (k <= S n)%nat ->
     (time (trace w) + wait * inject_Z (Z.of_nat k) <= look uri wait k w)%Q) ->
  exists k r, (k <= S n)%nat /\
    wait_for_sensor_api self (2 + n) w = (r, asked_again uri wait k w) /\
    ends_at uri wait retry_max (time (trace w)) w k r.
Proof.
  intros Huri Hmax Hwait Hpos H0 n Hclock. unfold wait_for_sensor_api. rewrite Huri.
  erewrite bind_lift by done. cbv beta. unfold now. erewrite bind_step by reflexivity.
  apply wait_loop_ends; [done..|]. specialize (Hclock (S n) (le_n _)).
  assert (retry_max < wait * inject_Z (Z.of_nat (S n)))%Q as Hb; [|lra].
  assert (0 <= retry_max / wait)%Q as Hd by (apply Qle_shift_div_l; lra).
  unfold n. rewrite Nat2Z.inj_succ, Z2Nat.id by (change 0 with (Qfloor 0); by apply Qfloor_resp_le).
  pose proof (Qlt_floor (retry_max / wait)) as Hf.
  apply (Qmult_lt_l _ _ wait) in Hf; [|done].
  rewrite Qmult_div_r in Hf by (intros E; rewrite E in Hpos; lra). exact Hf.
Qed.

(** A stop signal does not stop the sensor.  Unless [stop_retrying] is
    set, [start] runs [main] again after the graceful end of the one before,
    and never returns. *)
Theorem signal_restarts_main n fuel w w' :
  (forall h, stop_retrying h = false) -> is_ok (opt self "check_for_long_blocking") = true ->
  main self fuel w = (Ok true, w') ->
  start_loop self (S n) fuel w = start_loop self n fuel w' /\
  (start_loop self (S n) fuel w).1 <> Ok true.
Proof.
  intros Hgo Hopt Hmain.
  destruct (opt self "check_for_long_blocking") as [long|] eqn:Hlong; [|done].
  assert (start_loop self (S n) fuel w = start_loop self n fuel w') as Heq.
  { cbn [start_loop]. erewrite bind_step by reflexivity. rewrite Hgo.
    erewrite bind_step; [done|]. unfold catch. rewrite Hlong.
    erewrite bind_lift by done. erewrite bind_step by exact Hmain. done. }
  split; [done|]. rewrite Heq. clear w Hmain Heq. revert w'.
  induction n as [|n IH]; intros w; [done|]. cbn [start_loop].
  erewrite bind_step by reflexivity. rewrite Hgo. unfold bind at 1.
  match goal with |- context [match ?m with _ => _ end] => destruct m as [[[]|e] w1] end;
    [apply IH|done].
Qed.

(** The pin is never met on deregistration.  [requests] keeps the decoded
    certificate and the pinned one is in binary form, so that any certificate,
    also the pinned one, is taken for a mismatch. *)
Theorem deregistration_pin_never_matches resp c w :
  rs_sock resp = Some (Some c) -> is_pinned_api Requests resp w = (Ok false, w).
Proof.
  intros Hs. unfold is_pinned_api, response_peercert, new_HTTPAdapter_build_response.
  by rewrite Hs.
Qed.
End Waiting.
