(* ===== verification/Protocol.v ===== *)
(** The contract of a sensor's life cycle: the provisioning protocol as an
    automaton over the events of [Wrapper], Hoare triples ([Prelude.triple])
    over its phases, and what a run of it entails.

    Whom a sensor trusts is the class [Trust]: the pinned holder of a
    certificate, or anybody. *)

From Stdlib Require Import QArith Lqa.
From S2P Require Import Prelude Json Http WrapperConfig Wrapper.
#[local] Open Scope Z_scope.

(** * The provisioning protocol

    What the Sensing API may rely on, as an automaton over the events of a
    sensor.  Nothing in it mentions how [main] is written. *)

Inductive phase :=
  | Idle                      (* no task and no server *)
  | ApiReady
  | RootKnown
  | KeyIssued (c : bytes)     (* [c]: the certificate to pin *)
  | ChallengeUp (c : bytes)   (* the challenge server answers *)
  | Refused                   (* it still does, no signature came *)
  | SignatureIn (c : bytes)   (* it still does, the signature came *)
  | Storing (c : bytes)       (* no server, the key files are written *)
  | Serving (c : bytes)       (* the HTTPS server answers *)
  | Registered (c : bytes)
  | Leaving
  | Left                      (* everything is cancelled, not deregistered *)
  | Failing.                  (* nothing but cancelling is left to do *)

#[global] Instance phase_eq_dec : EqDecision phase.
Proof. solve_decision. Defined.

Definition says_no_error : response -> bool :=
  json_answer (fun j => match json_item j "error" with
                        | Ok v => negb (json_truth v)
                        | Raise _ => false
                        end).
(** Whom a sensor trusts: the certificate that comes with a private key, and
    whether an answer is from its holder. *)
Class Trust := { issued : res response -> option bytes; from : bytes -> response -> bool }.

Section Protocol.
Context {Wd : World} {T : Trust} (self : config).

Definition asks (uri : res string) (r : request) : bool :=
  match uri with Ok uri => bool_decide (rq_uri r = uri) | Raise _ => false end.
Definition api_uri (path : string) (secure : bool) : res string :=
  construct_api_uri (opts self) path secure.

Definition is_ca_file (path : string) : bool :=
  match ca_path self with Ok p => bool_decide (path = p) | Raise _ => false end.
Definition is_option_file (name path : string) : bool :=
  match opt_str self name with Ok p => bool_decide (path = p) | Raise _ => false end.
Definition is_key_file (path : string) : bool :=
  is_option_file "public_key_path" path || is_option_file "private_key_path" path.

Definition when {A} (b : bool) (a : A) : option A := if b then Some a else None.

Definition protocol_step (ph : phase) (e : sensor_event) : option phase :=
  match ph, e with
  | Leaving, CancelledAll => Some Left
  | _, CancelledAll => Some Idle
  | Idle, Slept _ => Some Idle
  | Idle, Exchanged r a =>
      when (asks (api_uri "/ready" false) r) (if good says_ready a then ApiReady else Idle)
  | ApiReady, Exchanged r a =>
      when (asks (api_uri "/ca/root/public" false) r)
        (if good says_no_error a then RootKnown else Failing)
  | RootKnown, OpenedForWriting path => when (is_ca_file path) RootKnown
  | RootKnown, Wrote path _ => when (is_ca_file path) RootKnown
  | RootKnown, Exchanged r a =>
      when (asks (api_uri "/ca/register/private_key/new" true) r)
        (match issued a with Some c => KeyIssued c | None => Failing end)
  | KeyIssued c, ServerUp false _ => Some (ChallengeUp c)
  | ChallengeUp c, Exchanged r a =>
      when (asks (api_uri "/ca/register/public_key/signed" true) r)
        (if good (from c) a then SignatureIn c else Refused)
  | Refused, ServerCancelled => Some Failing
  | SignatureIn c, ServerCancelled => Some (Storing c)
  | Storing c, OpenedForWriting path => when (is_key_file path) (Storing c)
  | Storing c, Wrote path _ => when (is_key_file path) (Storing c)
  | Storing c, Chmod path _ => when (is_key_file path) (Storing c)
  | Storing c, ServerUp true _ => Some (Serving c)
  | Serving c, Exchanged r a =>
      when (asks (sensor_uri self "/register") r)
        (if good (from c) a then Registered c else Failing)
  | Registered c, Spawned _ => Some (Registered c)
  | Registered c, Notified => Some Leaving
  | Left, Exchanged r _ => when (asks (sensor_uri self "/deregister") r) Idle
  | _, _ => None
  end.

Fixpoint protocol_run (ph : phase) (h : history) : option phase :=
  match h with
  | [] => Some ph
  | e :: h =>
      match protocol_step ph e with
      | Some ph' => protocol_run ph' h
      | None => None
      end
  end.

(** The phase after a history that began in [Idle]. *)
Definition phase_of (h : history) : option phase := protocol_run Idle h.
End Protocol.

(** * Lemmas *)

Section Facts.
Context {Wd : World} {T : Trust} (self : config).

Lemma protocol_run_app ph h1 h2 :
  protocol_run self ph (h1 ++ h2) =
    match protocol_run self ph h1 with Some ph' => protocol_run self ph' h2 | None => None end.
Proof.
  revert ph. induction h1 as [|e h1 IH]; intros ph; [done|]. cbn.
  destruct (protocol_step self ph e); [apply IH|done].
Qed.

(** The wrapper is in phase [ph] and has pinned [pc]. *)
Definition at_phase (ph : phase) (pc : option bytes) (w : wrapper) : Prop :=
  phase_of self (trace w) = Some ph /\ api_public_certificate w = pc.

(** An exception may leave the task group from here. *)
Definition may_fail (_ : exn) (w : wrapper) : Prop :=
  exists ph, phase_of self (trace w) = Some ph /\ ph <> Leaving.

Lemma at_phase_fails ph pc e w : at_phase ph pc w -> ph <> Leaving -> may_fail e w.
Proof. intros [Hp _] Hne. by exists ph. Qed.

Lemma happen_step ph pc e ph' :
  protocol_step self ph e = Some ph' ->
  forall w, at_phase ph pc w ->
    at_phase ph' pc (Wrapper (api_public_certificate w) (trace w ++ [e])).
Proof.
  intros He w [Hp Hc]. split; [|done]. cbn. unfold phase_of in *.
  rewrite protocol_run_app, Hp. cbn. by rewrite He.
Qed.

Lemma t_happen ph pc e ph' (Q : unit -> wrapper -> Prop) :
  protocol_step self ph e = Some ph' -> (forall w, at_phase ph' pc w -> Q tt w) ->
  triple (at_phase ph pc) (happen e) Q may_fail.
Proof. intros He HQ. apply triple_modify. intros w Hw. by apply HQ, (happen_step ph). Qed.

Lemma t_bind_happen {B} ph pc e ph' (f : unit -> W B) Q :
  protocol_step self ph e = Some ph' -> triple (at_phase ph' pc) (f tt) Q may_fail ->
  triple (at_phase ph pc) (bind (happen e) f) Q may_fail.
Proof.
  intros He Hf w Hw. apply Hf. by apply (happen_step ph).
Qed.

Lemma t_bind_lift {A B} ph pc (r : res A) (f : A -> W B) Q :
  ph <> Leaving -> (forall a, r = Ok a -> triple (at_phase ph pc) (f a) Q may_fail) ->
  triple (at_phase ph pc) (bind (lift r) f) Q may_fail.
Proof.
  intros Hne Hf. eapply triple_bind with (R := fun a w => r = Ok a /\ at_phase ph pc w).
  - apply triple_lift; [done|]. intros e w _ Hw. by eapply at_phase_fails.
  - intros a. apply triple_pure, Hf.
Qed.

Lemma t_bind_get {B} ph pc (f : wrapper -> W B) Q :
  (forall w, at_phase ph pc w -> triple (at_phase ph pc) (f w) Q may_fail) ->
  triple (at_phase ph pc) (bind get f) Q may_fail.
Proof.
  intros Hf w Hw. exact (Hf w Hw w Hw).
Qed.

(** After an exchange the phase is the one the answer leads to. *)
Lemma t_bind_exchange {B} ph pc r g (f : response -> W B) Q :
  (forall a, protocol_step self ph (Exchanged r a) = Some (g a)) ->
  (forall e, g (Raise e) <> Leaving) ->
  (forall resp, triple (at_phase (g (Ok resp)) pc) (f resp) Q may_fail) ->
  triple (at_phase ph pc) (bind (exchange r) f) Q may_fail.
Proof.
  intros Hg Hne Hf w Hw. unfold exchange, bind, get, happen, modify, lift. cbn.
  pose proof (happen_step ph pc _ _ (Hg (api (trace w) r)) w Hw) as Hs.
  destruct (api (trace w) r) as [resp|e].
  - by apply Hf in Hs.
  - by eapply at_phase_fails.
Qed.

Lemma t_throw {A} ph pc e (Q : A -> wrapper -> Prop) :
  ph <> Leaving -> triple (at_phase ph pc) (throw e) Q may_fail.
Proof. intros Hne. apply triple_throw. intros w Hw. by eapply at_phase_fails. Qed.

Lemma t_lift {A} ph pc (r : res A) :
  ph <> Leaving -> triple (at_phase ph pc) (lift r) (fun _ => at_phase ph pc) may_fail.
Proof. intros Hne. apply triple_lift; [done|]. intros e w _ Hw. by eapply at_phase_fails. Qed.

Lemma t_joined {A} P (m : W A) Q : triple P m Q may_fail -> triple P (joined_task m) Q may_fail.
Proof. intros Hm. eapply triple_catch; [exact Hm|]. intros e. by apply triple_throw. Qed.

Lemma asks_ok uri r : asks (Ok uri) r = bool_decide (rq_uri r = uri).
Proof. done. Qed.

Lemma t_conseq {A} P (m : W A) Q Q' E :
  triple P m Q E -> (forall a w, Q a w -> Q' a w) -> triple P m Q' E.
Proof. intros Hm HQ. by eapply triple_conseq. Qed.

Lemma t_ret {A} ph pc (a : A) (Q : A -> wrapper -> Prop) E :
  (forall w, at_phase ph pc w -> Q a w) -> triple (at_phase ph pc) (ret a) Q E.
Proof. apply triple_ret. Qed.

Lemma t_bind_throw {A B} ph pc e (f : A -> W B) Q :
  ph <> Leaving -> triple (at_phase ph pc) (bind (throw e) f) Q may_fail.
Proof. intros Hne w Hw. by eapply at_phase_fails. Qed.

Lemma t_bind_ret {A B} P (a : A) (f : A -> W B) Q E :
  triple P (f a) Q E -> triple P (bind (ret a) f) Q E.
Proof. done. Qed.

Lemma t_exists {A B} (P : B -> wrapper -> Prop) (m : W A) Q E :
  (forall b, triple (P b) m Q E) -> triple (fun w => exists b, P b w) m Q E.
Proof. intros Hm w [b Hb]. by apply (Hm b). Qed.

End Facts.

(** Runs through the steps that make no event, and settles what an exchange
    leads to. *)
Ltac lifts := repeat (apply t_bind_lift; [done|]; intros ? ?).
Ltac asked := intros ?; cbn; unfold asks, api_uri; cbn;
  repeat match goal with H : _ = Ok _ |- _ => rewrite H; clear H end;
  rewrite ?bool_decide_eq_true_2 by done; reflexivity.

Section Entailed.
Context {Wd : World} {T : Trust} (self : config).

(** ** What the protocol entails *)

(** Whether a server answers on the sensor's port after a history. *)
Definition server_step (up : bool) (e : sensor_event) : bool :=
  match e with
  | ServerUp _ _ => true
  | ServerCancelled | CancelledAll => false
  | _ => up
  end.
Definition server_up (h : history) : bool := fold_left server_step h false.

Definition no_server (ph : phase) : bool :=
  match ph with
  | Idle | ApiReady | RootKnown | KeyIssued _ | Storing _ | Left => true
  | _ => false
  end.

(** In [h], the API issued a private key and showed [c]. *)
Definition key_issued (c : bytes) (h : history) : Prop :=
  exists h1 r a h2, h = h1 ++ Exchanged r a :: h2 /\
    asks (api_uri self "/ca/register/private_key/new" true) r = true /\ issued a = Some c.
(** After that, the holder of [c] signed the public key. *)
Definition key_signed (c : bytes) (h : history) : Prop :=
  exists h1 r a h2, h = h1 ++ Exchanged r a :: h2 /\ key_issued c h1 /\
    asks (api_uri self "/ca/register/public_key/signed" true) r = true /\ good (from c) a = true.
(** After that, the holder of [c] confirmed the registration. *)
Definition registration_confirmed (c : bytes) (h : history) : Prop :=
  exists h1 r a h2, h = h1 ++ Exchanged r a :: h2 /\ key_signed c h1 /\
    asks (sensor_uri self "/register") r = true /\ good (from c) a = true.

(** What a phase says about the history that led to it. *)
Definition phase_fact (ph : phase) (h : history) : Prop :=
  match ph with
  | KeyIssued c | ChallengeUp c => key_issued c h
  | SignatureIn c | Storing c | Serving c => key_signed c h
  | Registered c => registration_confirmed c h
  | _ => True
  end.

Lemma key_issued_grows c h e : key_issued c h -> key_issued c (h ++ [e]).
Proof. intros (h1 & r & a & h2 & -> & ?). exists h1, r, a, (h2 ++ [e]). by rewrite <-(assoc_L (++)). Qed.
Lemma key_signed_grows c h e : key_signed c h -> key_signed c (h ++ [e]).
Proof. intros (h1 & r & a & h2 & -> & ?). exists h1, r, a, (h2 ++ [e]). by rewrite <-(assoc_L (++)). Qed.
Lemma registration_confirmed_grows c h e :
  registration_confirmed c h -> registration_confirmed c (h ++ [e]).
Proof. intros (h1 & r & a & h2 & -> & ?). exists h1, r, a, (h2 ++ [e]). by rewrite <-(assoc_L (++)). Qed.

Lemma when_Some {A} b (a x : A) : when b a = Some x <-> b = true /\ a = x.
Proof. destruct b; cbn; naive_solver. Qed.

Lemma phase_step_fact ph e ph' h :
  protocol_step self ph e = Some ph' -> phase_fact ph h -> phase_fact ph' (h ++ [e]).
Proof.
  intros Hs Hf.
  destruct ph, e; try destruct secure; cbn in Hs;
    rewrite ?when_Some in Hs; simplify_eq/=; destruct_and?; simplify_eq/=;
    eauto using key_issued_grows, key_signed_grows, registration_confirmed_grows;
    repeat case_match; simplify_eq/=; try done;
    try (by exists h, r, answer, []).
Qed.

Lemma phase_of_snoc h e ph' :
  phase_of self (h ++ [e]) = Some ph' ->
  exists ph, phase_of self h = Some ph /\ protocol_step self ph e = Some ph'.
Proof.
  unfold phase_of. rewrite protocol_run_app. intros Hr.
  destruct (protocol_run self Idle h) as [ph|]; [|done]. exists ph. split; [done|].
  cbn in Hr. by destruct (protocol_step self ph e).
Qed.

Lemma phase_of_fact h : forall ph, phase_of self h = Some ph -> phase_fact ph h.
Proof.
  induction h as [|e h IH] using rev_ind; intros ph Hph; [by injection Hph as <-|].
  apply phase_of_snoc in Hph as (ph0 & Hph0 & Hs). eauto using phase_step_fact.
Qed.

Lemma phase_of_server h : forall ph, phase_of self h = Some ph -> no_server ph = true -> server_up h = false.
Proof.
  induction h as [|e h IH] using rev_ind; intros ph Hph Hns; [done|].
  apply phase_of_snoc in Hph as (ph0 & Hph0 & Hs). unfold server_up in *.
  rewrite fold_left_app. cbn. specialize (IH ph0 Hph0).
  destruct ph0, e; try destruct secure; cbn in Hs; rewrite ?when_Some in Hs;
    simplify_eq/=; destruct_and?; simplify_eq/=; auto;
    repeat case_match; simplify_eq/=; auto.
Qed.

(** The phase in which an event of an accepted history happened. *)
Lemma phase_before h1 e h2 ph :
  phase_of self (h1 ++ e :: h2) = Some ph ->
  exists ph1, phase_of self h1 = Some ph1 /\ is_Some (protocol_step self ph1 e).
Proof.
  unfold phase_of. rewrite protocol_run_app. cbn.
  destruct (protocol_run self Idle h1) as [ph1|]; [|done]. intros Hr. exists ph1.
  split; [done|]. by destruct (protocol_step self ph1 e).
Qed.


(** ** The steps that all sensors share *)

Abbreviation at_phase := (at_phase self).
Abbreviation may_fail := (may_fail self).

Lemma write_file_stays ph pc path content :
  ph <> Leaving ->
  protocol_step self ph (OpenedForWriting path) = Some ph ->
  (forall s, protocol_step self ph (Wrote path s) = Some ph) ->
  triple (at_phase ph pc) (write_file path content) (fun _ => at_phase ph pc) may_fail.
Proof.
  intros Hne Ho Hw. unfold write_file. apply t_bind_get. intros w _. lifts.
  eapply t_bind_happen; [exact Ho|]. lifts.
  match goal with j : json |- _ => destruct j end; first [by eapply t_happen | by apply t_throw].
Qed.

Lemma get_root_phase pc :
  triple (at_phase ApiReady pc) (get_root_ca_pubkey self)
    (fun r => at_phase (if r.1 then RootKnown else Failing) pc) may_fail.
Proof.
  unfold get_root_ca_pubkey. apply t_bind_lift; [done|]. intros uri Huri.
  eapply (t_bind_exchange self _ _ _
    (fun a => if good says_no_error a then RootKnown else Failing)).
  - asked.
  - done.
  - intros resp. unfold good, says_no_error, json_answer, response_json.
    destruct (status_code resp =? 200); cbn [andb]; [|by apply t_ret].
    apply t_bind_lift; [by repeat case_match|]. intros j Hj. rewrite Hj.
    apply t_bind_lift; [by repeat case_match|]. intros v Hv. rewrite Hv. destruct (json_truth v); cbn [negb].
    + lifts. by apply t_ret.
    + apply t_bind_lift; [done|]. intros path Hpath.
      assert (is_ca_file self path = true) as Hca.
      { unfold is_ca_file. rewrite Hpath. by apply bool_decide_eq_true. }
      eapply triple_bind; [apply write_file_stays; cbn; by rewrite ?Hca|].
      intros ?. lifts. by apply t_ret.
Qed.

Lemma log_messages_stays ph pc resp :
  ph <> Leaving ->
  triple (at_phase ph pc) (log_messages_of resp) (fun _ => at_phase ph pc) may_fail.
Proof.
  intros Hne. unfold log_messages_of, response_json. lifts.
  match goal with |- context [if ?b then _ else _] => destruct b end.
  - lifts. by apply t_lift.
  - by apply t_ret.
Qed.

Lemma option_key_file name path :
  name ∈ ["public_key_path"; "private_key_path"] -> opt_str self name = Ok path ->
  is_key_file self path = true.
Proof.
  intros Hname Hpath. unfold is_key_file, is_option_file. apply orb_true_iff.
  repeat (apply elem_of_cons in Hname as [->|Hname]; [rewrite Hpath; auto using bool_decide_eq_true_2|]).
  by apply not_elem_of_nil in Hname.
Qed.

Lemma store_key_phase c name key :
  name ∈ ["public_key_path"; "private_key_path"] ->
  triple (at_phase (Storing c) (Some c)) (store_key self name key)
    (fun _ => at_phase (Storing c) (Some c)) may_fail.
Proof.
  intros Hname. unfold store_key. apply t_bind_lift; [done|]. intros path Hpath.
  assert (is_key_file self path = true) as Hk by (by eapply option_key_file).
  eapply triple_bind; [apply write_file_stays; cbn; by rewrite ?Hk|].
  intros ?. case_match; [by apply t_ret|]. eapply t_happen; [cbn; by rewrite Hk|done].
Qed.

Lemma sleep_phase {B} pc q (f : unit -> W B) Q :
  triple (at_phase Idle pc) (f tt) Q may_fail ->
  triple (at_phase Idle pc) (bind (sleep q) f) Q may_fail.
Proof.
  intros Hf. unfold sleep. case_match; [by eapply t_bind_happen|].
  intros w Hw. by eapply at_phase_fails.
Qed.

Lemma wait_loop_phase fuel uri st pc :
  api_uri self "/ready" false = Ok uri ->
  triple (at_phase Idle pc) (wait_loop self fuel uri st)
    (fun b => at_phase (if b : bool then ApiReady else Idle) pc) may_fail.
Proof.
  intros Huri. induction fuel as [|fuel IH]; [by apply t_ret|]. cbn [wait_loop].
  apply triple_bind with (R := fun b => at_phase (if b : bool then ApiReady else Idle) pc).
  - intros w Hw. rewrite poll_ready_spec. apply (happen_step self Idle pc); [|done]. cbn.
    by rewrite Huri, asks_ok, bool_decide_eq_true_2.
  - intros []; [by apply t_ret|]. unfold now.
    apply triple_bind with (R := fun _ => at_phase Idle pc); [by apply t_bind_get; intros; apply t_ret|].
    intros t. lifts. case_match; [by apply t_throw|]. lifts. by apply sleep_phase.
Qed.

Lemma wait_phase fuel pc :
  triple (at_phase Idle pc) (wait_for_sensor_api self fuel)
    (fun b => at_phase (if b : bool then ApiReady else Idle) pc) may_fail.
Proof.
  unfold wait_for_sensor_api. apply t_bind_lift; [done|]. intros uri Huri. unfold now.
  apply triple_bind with (R := fun _ => at_phase Idle pc); [by apply t_bind_get; intros; apply t_ret|].
  intros st. by apply wait_loop_phase.
Qed.

Definition idle (w : wrapper) : Prop := phase_of self (trace w) = Some Idle.

Lemma at_idle pc w : at_phase Idle pc w -> idle w.
Proof. by intros [Hw _]. Qed.

Lemma sleep_idle q : triple idle (sleep q) (fun _ => idle) (fun _ => idle).
Proof.
  unfold sleep. case_match; [|by apply triple_throw]. apply triple_modify.
  intros w Hw. unfold idle, phase_of in *. cbn. by rewrite protocol_run_app, Hw.
Qed.

(** Whatever happens in a task group, it ends with nothing running. *)
Lemma group_idle {A} (m : W A) :
  (forall pc, triple (at_phase Idle pc) m (fun _ => idle) may_fail) ->
  triple idle (in_task_group m) (fun _ => idle) (fun _ => idle).
Proof.
  intros Hm. unfold in_task_group. apply triple_catch with (E' := may_fail).
  - intros w Hw. by apply (Hm (api_public_certificate w)).
  - intros e w (ph & Hph & Hne). cbn. unfold idle, phase_of in *. cbn.
    rewrite protocol_run_app, Hph. by destruct ph.
Qed.

(** One turn of the loop around [main]. *)
Lemma retry_idle (m : W bool) (next : W bool) :
  triple idle m (fun _ => idle) (fun _ => idle) ->
  triple idle next (fun _ => idle) (fun _ => idle) ->
  triple idle
    (do w <- get;
     if stop_retrying (trace w) then ret true
     else
       do_ catch (do _ <- lift (opt self "check_for_long_blocking"); do _ <- m; ret tt) (fun e =>
             if decide (e = TaskError) then
               do delay <- lift (opt_num self "backoff_delay");
               sleep delay
             else throw e);
       next)
    (fun _ => idle) (fun _ => idle).
Proof.
  intros Hm Hn.
  apply triple_bind with (R := fun _ => idle); [by apply triple_get|]. intros w.
  case_match; [by apply triple_ret|].
  apply triple_bind with (R := fun _ => idle); [|done].
  eapply triple_catch with (E' := fun _ => idle).
  - apply triple_bind with (R := fun _ => idle); [by apply triple_lift|]. intros ?.
    eapply triple_bind; [apply Hm|]. intros ?. by apply triple_ret.
  - intros e. case_decide; [|by apply triple_throw].
    apply triple_bind with (R := fun _ => idle); [by apply triple_lift|].
    intros q. apply sleep_idle.
Qed.

Lemma delayed_idle {A} (m : W A) :
  triple idle m (fun _ => idle) (fun _ => idle) ->
  triple idle
    (do delay <- lift (opt_num self "delay_start");
     do_ (if negb (Qle_bool delay 0) then sleep delay else ret tt);
     m) (fun _ => idle) (fun _ => idle).
Proof.
  intros Hm. apply triple_bind with (R := fun _ => idle); [by apply triple_lift|]. intros q.
  apply triple_bind with (R := fun _ => idle); [|done].
  case_match; [apply sleep_idle|by apply triple_ret].
Qed.

Definition started : wrapper := Wrapper None [].

Lemma idle_run {A} (m : W A) :
  triple idle m (fun _ => idle) (fun _ => idle) -> idle (m started).2.
Proof. intros Hm. specialize (Hm started eq_refl). by destruct (m started) as [[]]. Qed.

(** ** Runs of the protocol *)

Lemma run_opens_key h1 path h2 ph :
  phase_of self (h1 ++ OpenedForWriting path :: h2) = Some ph -> is_ca_file self path = false ->
  is_key_file self path = true /\ server_up h1 = false /\ exists c, key_signed c h1.
Proof.
  intros Hp Hca. apply phase_before in Hp as (ph1 & Hph & [ph' Hs]).
  destruct ph1; cbn in Hs; try done; rewrite ?Hca in Hs; [done|].
  apply when_Some in Hs as [Hk _]. split; [done|]. split.
  - by eapply phase_of_server.
  - exists c. by apply phase_of_fact in Hph.
Qed.

Lemma run_server_alone h1 secure routes h2 ph :
  phase_of self (h1 ++ ServerUp secure routes :: h2) = Some ph -> server_up h1 = false.
Proof.
  intros Hp. apply phase_before in Hp as (ph1 & Hph & [ph' Hs]).
  eapply phase_of_server; [exact Hph|]. by destruct ph1, secure.
Qed.

Lemma run_spawns_registered h1 t h2 ph :
  phase_of self (h1 ++ Spawned t :: h2) = Some ph -> exists c, registration_confirmed c h1.
Proof.
  intros Hp. apply phase_before in Hp as (ph1 & Hph & [ph' Hs]).
  destruct ph1; try done. exists c. by apply phase_of_fact in Hph.
Qed.

End Entailed.
