(* ===== verification/WrapperProtocol.v ===== *)
(** The wrapper's life cycle follows the provisioning protocol of [Protocol]
    whatever the world answers, with the trust in the pinned certificate. *)

From Stdlib Require Import QArith Lqa.
From S2P Require Import Prelude Json Http WrapperConfig Wrapper Protocol.
#[local] Open Scope Z_scope.

(** The answer came from the holder of the certificate [c]. *)
Definition from_holder (c : bytes) (resp : response) : bool :=
  bool_decide (rs_sock resp = Some (Some c)).
Definition certificate_of (a : res response) : option bytes :=
  match a with
  | Ok resp => if status_code resp =? 200 then default None (rs_sock resp) else None
  | Raise _ => None
  end.

(** The wrapper trusts the holder of the certificate that it pinned. *)
#[export] Instance pinned : Trust := {| issued := certificate_of; from := from_holder |}.

Section Facts.
Context {Wd : World} (self : config).

Abbreviation at_phase := (at_phase self).
Abbreviation may_fail := (may_fail self).
Abbreviation idle := (idle self).

Lemma get_private_key_phase pc :
  triple (at_phase RootKnown pc) (get_private_key_and_csr self)
    (fun r w => if r.1.1.1 then exists c, at_phase (KeyIssued c) (Some c) w
                else exists pc, at_phase Failing pc w) may_fail.
Proof.
  unfold get_private_key_and_csr. apply t_bind_lift; [done|]. intros uri Huri. lifts.
  eapply (t_bind_exchange self _ _ _
    (fun a => match certificate_of a with Some c => KeyIssued c | None => Failing end)).
  - asked.
  - done.
  - intros resp. unfold certificate_of, response_json.
    destruct (status_code resp =? 200); cycle 1.
    { eapply triple_bind; [by apply log_messages_stays|]. intros ?. apply t_ret. by exists pc. }
    unfold response_peercert, cu_new_HTTPAdapter_build_response.
    apply t_bind_lift; [by repeat case_match|]. intros j Hj.
    apply t_bind_lift; [by repeat case_match|]. intros cert Hcert.
    destruct (rs_sock resp) as [[c|]|]; simplify_eq/=.
    + apply triple_bind with (R := fun _ => at_phase (KeyIssued c) (Some c)).
      { apply triple_modify. intros w [Hw _]. done. }
      intros ?. lifts. apply t_ret. intros w Hw. by exists c.
    + apply triple_bind with (R := fun _ => at_phase Failing None).
      { apply triple_modify. intros w [Hw _]. done. }
      intros ?. apply t_bind_lift; [done|]. intros ? [=].
Qed.

(** The pin of the binary form is the comparison of the protocol. *)
Lemma is_pinned_phase ph c resp :
  ph <> Leaving ->
  triple (at_phase ph (Some c)) (is_pinned_api CuRequests resp)
    (fun b w => b = from c resp /\ at_phase ph (Some c) w) may_fail.
Proof.
  intros Hne. unfold is_pinned_api. apply t_bind_lift; [done|]. intros cert Hcert.
  apply t_bind_get. intros w [_ Hc]. apply t_ret. intros w' Hw'. split; [|done].
  rewrite Hc. unfold response_peercert, cu_new_HTTPAdapter_build_response in *. change (from c resp) with (from_holder c resp). unfold from_holder.
  destruct (rs_sock resp) as [o|]; simplify_eq/=. by repeat case_bool_decide; simplify_eq.
Qed.

Lemma get_signed_phase c csr :
  triple (at_phase (ChallengeUp c) (Some c)) (get_signed_public_key self csr)
    (fun r => at_phase (if r.1 then SignatureIn c else Refused) (Some c)) may_fail.
Proof.
  unfold get_signed_public_key. apply t_bind_lift; [done|]. intros uri Huri. lifts.
  eapply (t_bind_exchange self _ _ _ (fun a => if good (from c) a then SignatureIn c else Refused)).
  - asked.
  - done.
  - intros resp. unfold good, response_json.
    destruct (status_code resp =? 200); cbn [andb]; cycle 1.
    { eapply triple_bind; [by apply log_messages_stays|]. intros ?. by apply t_ret. }
    eapply triple_bind; [apply is_pinned_phase; by case_match|].
    intros b. apply triple_pure. intros ->. destruct (from c resp); cbn [negb].
    + lifts. by apply t_ret.
    + by apply t_ret.
Qed.

Lemma register_phase c pub_key :
  triple (at_phase (Serving c) (Some c)) (register_sensor self pub_key)
    (fun _ => at_phase (Registered c) (Some c)) may_fail.
Proof.
  unfold register_sensor. apply t_bind_lift; [done|]. intros uri Huri. lifts.
  eapply (t_bind_exchange self _ _ _ (fun a => if good (from c) a then Registered c else Failing)).
  - asked.
  - done.
  - intros resp. unfold good, response_json.
    destruct (status_code resp =? 200); cbn [andb]; [|by apply t_throw].
    eapply triple_bind; [apply is_pinned_phase; by case_match|].
    intros b. apply triple_pure. intros ->. destruct (from c resp); cbn [negb].
    + by apply t_lift.
    + by apply t_throw.
Qed.

Lemma deregister_phase pc pub_key :
  triple (at_phase Left pc) (deregister_sensor self pub_key) (fun _ => at_phase Idle pc) may_fail.
Proof.
  unfold deregister_sensor. apply t_bind_lift; [done|]. intros uri Huri. lifts.
  eapply (t_bind_exchange self _ _ _ (fun _ => Idle)).
  - asked.
  - done.
  - intros resp. unfold is_pinned_api. case_match; [|by apply t_ret].
    apply triple_bind with (R := fun _ => at_phase Idle pc); [|intros ?; by apply t_ret].
    lifts. apply t_bind_get. intros w _. by apply t_ret.
Qed.

Lemma certificate_cycle_phase pc :
  triple (at_phase ApiReady pc) (certificate_cycle self)
    (fun _ w => exists c, at_phase (Storing c) (Some c) w) may_fail.
Proof.
  unfold certificate_cycle. eapply triple_bind; [apply t_joined, get_root_phase|].
  intros [[] rc]; cbn [fst negb]; [|by apply t_bind_throw].
  apply t_bind_ret.
  eapply triple_bind; [apply t_joined, get_private_key_phase|].
  intros [[[[] priv_key] csr] challenge]; cbn [fst negb];
    apply t_exists; intros c; [|by apply t_bind_throw].
  apply t_bind_ret. lifts.
  eapply t_bind_happen; [done|].
  eapply triple_bind; [apply t_joined, get_signed_phase|].
  intros [[] pub_key]; cbn [fst]; (eapply t_bind_happen; [done|]); [|by apply t_bind_throw].
  apply t_bind_ret.
  eapply triple_bind; [by apply store_key_phase; left|]. intros ?.
  eapply triple_bind; [by apply store_key_phase; right; left|]. intros ?.
  apply t_ret. by exists c.
Qed.

Lemma serve_phase c pub_key :
  triple (at_phase (Storing c) (Some c)) (serve self pub_key)
    (fun _ => at_phase (Registered c) (Some c)) may_fail.
Proof.
  unfold serve. apply t_bind_get. intros w _. lifts. eapply t_bind_happen; [done|].
  eapply triple_bind; [apply t_joined, register_phase|]. intros reg. lifts.
  eapply t_bind_happen; [done|]. lifts. eapply t_bind_happen; [done|]. by eapply t_happen.
Qed.

Lemma await_stop_phase c :
  triple (at_phase (Registered c) (Some c)) await_stop (fun _ => at_phase Leaving (Some c)) may_fail.
Proof.
  unfold await_stop. apply t_bind_get. intros w _.
  apply triple_bind with (R := fun _ => at_phase (Registered c) (Some c)).
  - case_match; [by apply t_joined, t_lift|by apply t_ret].
  - intros ?. by eapply t_happen.
Qed.

(** Whatever happens in [main], it ends with nothing running. *)
Lemma main_phase fuel : triple idle (main self fuel) (fun _ => idle) (fun _ => idle).
Proof.
  unfold main. apply group_idle. intros pc.
  eapply triple_bind; [apply t_joined, wait_phase|].
  intros []; cbn [negb]; [|apply t_ret; apply at_idle].
  eapply triple_bind; [apply certificate_cycle_phase|]. intros pub_key.
  apply t_exists. intros c. eapply triple_bind; [apply serve_phase|]. intros ?.
  eapply triple_bind; [apply await_stop_phase|]. intros ?.
  eapply t_bind_happen; [done|]. eapply triple_bind; [apply deregister_phase|].
  intros ?. apply t_ret. apply at_idle.
Qed.

Lemma start_loop_phase n fuel : triple idle (start_loop self n fuel) (fun _ => idle) (fun _ => idle).
Proof.
  induction n as [|n IH]; [by apply triple_ret|]. cbn [start_loop].
  apply retry_idle; [|done]. apply main_phase.
Qed.

Lemma start_phase n fuel : phase_of self (trace (start self n fuel started).2) = Some Idle.
Proof.
  apply idle_run. unfold start. apply delayed_idle, start_loop_phase.
Qed.

(** C4: refinement.  Whatever the Sensing API, the file system and the clock
    do and however often [start] retries, the events of the sensor are a run of
    the provisioning protocol from [Idle] back to [Idle]: ready, root
    certificate, private key, challenge server, signed key, key files, HTTPS
    server, registration, tasks, cancellation, deregistration, or a cancelled
    group at any earlier point. *)
Theorem start_follows_protocol n fuel :
  phase_of self (trace (start self n fuel started).2) = Some Idle.
Proof. apply start_phase. Qed.

(** C7: a file other than the root certificate is only ever opened for
    writing after the API issued the private key and the holder of the same
    certificate signed the public key, and while no server is up. *)
Theorem keys_need_pinned_signature n fuel h1 path h2 :
  trace (start self n fuel started).2 = h1 ++ OpenedForWriting path :: h2 ->
  is_ca_file self path = false ->
  is_key_file self path = true /\ server_up h1 = false /\ exists c, key_signed self c h1.
Proof.
  intros Ht. eapply run_opens_key. rewrite <-Ht. apply start_phase.
Qed.

(** The challenge server and the HTTPS server listen on the same port:
    whenever one is started, in any run, no other is up. *)
Theorem servers_never_overlap n fuel h1 secure routes h2 :
  trace (start self n fuel started).2 = h1 ++ ServerUp secure routes :: h2 ->
  server_up h1 = false.
Proof. intros Ht. eapply run_server_alone. rewrite <-Ht. apply start_phase. Qed.

(** The log drain, the sensing methods and the synchronisation are only
    spawned after the holder of the pinned certificate confirmed the
    registration. *)
Theorem tasks_need_registration n fuel h1 t h2 :
  trace (start self n fuel started).2 = h1 ++ Spawned t :: h2 ->
  exists c, registration_confirmed self c h1.
Proof. intros Ht. eapply run_spawns_registered. rewrite <-Ht. apply start_phase. Qed.

End Facts.
