(* ===== verification/WrapperRun.v ===== *)
(** A run of [Wrapper.main] against a Sensing API that keeps its promises: the
    exact events it leads to, and a concrete world in which the theorems on
    the wrapper are evaluated. *)

From Stdlib Require Import QArith Lqa.
From S2P Require Import Prelude Json Http WrapperConfig Wrapper Protocol WrapperProtocol.
#[local] Open Scope Z_scope.

(** * A well-behaved Sensing API *)

(** The options a run needs, with their types. *)
Record usable (self : config) (ca pub priv : string) : Prop := Usable {
  us_ca : ca_path self = Ok ca;
  us_pub : opt_str self "public_key_path" = Ok pub;
  us_priv : opt_str self "private_key_path" = Ok priv;
  us_uri path secure : exists uri, construct_api_uri (opts self) path secure = Ok uri;
  us_opt name :
    name ∈ ["sensor_id"; "virtue_id"; "username"; "sensor_advertised_hostname";
            "sensor_advertised_port"; "sensor_hostname"; "sensor_port"] ->
    exists v, opt self name = Ok v;
  us_num name : name ∈ ["api_retry_max"; "api_retry_wait"] -> exists q, opt_num self name = Ok q;
}.

Arguments us_ca {self ca pub priv}.
Arguments us_pub {self ca pub priv}.
Arguments us_priv {self ca pub priv}.
Arguments us_uri {self ca pub priv}.
Arguments us_opt {self ca pub priv}.
Arguments us_num {self ca pub priv}.

Lemma asks_inv uri r : asks uri r = true -> uri = Ok (rq_uri r).
Proof.
  unfold asks. destruct uri as [uri|]; [|done].
  intros Hr%bool_decide_eq_true. by rewrite Hr.
Qed.

Section Honest.
Context {Wd : World} (self : config).
Context (ca pub priv : string) (Hopts : usable self ca pub priv).
(** The certificate of the API and what it answers. *)
Context (c : bytes) (root priv_key pub_key : ustr) (csr token hosts topic : json) (url cpath : ustr).
Context (configuration : ustr) (config_value : json).

Definition answer (j : json) : res response := Ok (Response 200 (Ok j) (Some (Some c))).
Definition ready_json : json := obj [("ready", JBool true)].
Definition root_json : json := obj [("error", JBool false); ("certificate", JStr root)].
Definition key_json : json :=
  obj [("private_key", JStr priv_key); ("certificate_request", csr);
       ("challenge", obj [("url", JStr url); ("token", token)])].
Definition signed_json : json := obj [("certificate", JStr pub_key)].
Definition registered_json : json :=
  obj [("kafka_bootstrap_hosts", hosts); ("sensor_topic", topic);
       ("default_configuration", JStr configuration)].

(** Every end point answers with status 200, what it promises, and [c]; the
    rest of the world does not get in the way. *)
Record honest : Prop := Honest {
  hn_ready h r : asks (api_uri self "/ready" false) r = true -> api h r = answer ready_json;
  hn_root h r : asks (api_uri self "/ca/root/public" false) r = true -> api h r = answer root_json;
  hn_key h r :
    asks (api_uri self "/ca/register/private_key/new" true) r = true -> api h r = answer key_json;
  hn_signed h r :
    asks (api_uri self "/ca/register/public_key/signed" true) r = true ->
    api h r = answer signed_json;
  hn_register h r : asks (sensor_uri self "/register") r = true -> api h r = answer registered_json;
  hn_deregister h r : asks (sensor_uri self "/deregister") r = true -> api h r = answer JNull;
  hn_open h p : open_w h p = Ok tt;
  hn_tls h : load_cert_chain h = Ok tt;
  hn_key_text : exists s, pkcs8_sha1 (JStr priv_key) = Ok s;
  hn_url : urlparse_path url = Ok cpath;
  hn_pub : exists b, encode (JStr pub_key) = Ok b;
  hn_config : loads configuration = Ok config_value;
  hn_posix : is_windows = false;
  hn_signal : stop_notification = None;
}.
Context (Hn : honest).

Lemma exchange_answer w r j :
  api (trace w) r = answer j ->
  exchange r w =
    (Ok (Response 200 (Ok j) (Some (Some c))), after w [Exchanged r (answer j)]).
Proof. intros Ha. unfold exchange, bind, get, happen, modify, lift. by rewrite Ha. Qed.

Lemma asks_request path secure uri r :
  construct_api_uri (opts self) path secure = Ok uri -> rq_uri r = uri ->
  asks (api_uri self path secure) r = true.
Proof. intros Hu Hr. unfold api_uri. rewrite Hu, asks_ok. by apply bool_decide_eq_true. Qed.

Ltac runs_lift := erewrite bind_lift by first [eassumption | reflexivity];
  cbv beta; cbn [fst snd json_truth negb].

Lemma write_file_ok w p s :
  write_file p (Ok (JStr s)) w = (Ok tt, after w [OpenedForWriting p; Wrote p s]).
Proof.
  unfold write_file, after. erewrite bind_step by reflexivity.
  erewrite bind_lift by apply (hn_open Hn). unfold happen. rewrite bind_modify.
  runs_lift. unfold modify. cbn. by rewrite <-(assoc_L (++)).
Qed.

Lemma get_root_ok w : exists r,
  get_root_ca_pubkey self w =
    (Ok (true, JStr root),
     after w [Exchanged r (answer root_json); OpenedForWriting ca; Wrote ca root]).
Proof.
  destruct (us_uri Hopts "/ca/root/public" false) as [uri Huri]. pose proof (us_ca Hopts) as Hca.
  eexists. unfold get_root_ca_pubkey, response_json. runs_lift.
  erewrite bind_step
    by (apply exchange_answer, (hn_root Hn); by eapply asks_request).
  cbv beta. cbn [status_code rs_json]. rewrite Z.eqb_refl. runs_lift. runs_lift.
  runs_lift. change (json_item root_json "certificate") with (@Ok json (JStr root)).
  erewrite bind_step by apply write_file_ok. runs_lift. by rewrite after_after.
Qed.
Lemma opt_json_ok name :
  name ∈ ["sensor_id"; "virtue_id"; "username"; "sensor_advertised_hostname";
          "sensor_advertised_port"; "sensor_hostname"; "sensor_port"] ->
  exists j, opt_json self name = Ok j.
Proof. intros [v Hv]%(us_opt Hopts). exists (pyval_json v). unfold opt_json. by rewrite Hv. Qed.

(** Names the values of the options a request needs. *)
Ltac option name :=
  let j := fresh "j" in let Hj := fresh "Hj" in
  destruct (opt_json_ok name) as [j Hj]; [by apply (bool_decide_unpack _)|].

Lemma get_private_key_ok w : exists r,
  get_private_key_and_csr self w =
    (Ok (true, JStr priv_key, csr, obj [("url", JStr url); ("token", token)]),
     Wrapper (Some c) (trace w ++ [Exchanged r (answer key_json)])).
Proof.
  destruct (us_uri Hopts "/ca/register/private_key/new" true) as [uri Huri].
  pose proof (us_ca Hopts) as Hca.
  option "sensor_advertised_hostname". option "sensor_advertised_port".
  eexists. unfold get_private_key_and_csr, response_json. do 4 runs_lift.
  erewrite bind_step
    by (apply exchange_answer, (hn_key Hn); by eapply asks_request).
  cbv beta. cbn [status_code rs_json]. rewrite Z.eqb_refl. do 2 runs_lift.
  unfold pin. rewrite bind_modify. by do 4 runs_lift.
Qed.

(** The pinned answers. *)
Lemma pinned_answer j w :
  api_public_certificate w = Some c ->
  is_pinned_api CuRequests (Response 200 (Ok j) (Some (Some c))) w = (Ok true, w).
Proof.
  intros Hc. unfold is_pinned_api. runs_lift. erewrite bind_step by reflexivity.
  rewrite Hc. by rewrite bool_decide_eq_true_2.
Qed.

Lemma get_signed_ok w :
  api_public_certificate w = Some c -> exists r,
  get_signed_public_key self csr w =
    (Ok (true, JStr pub_key), after w [Exchanged r (answer signed_json)]).
Proof.
  intros Hc. destruct (us_uri Hopts "/ca/register/public_key/signed" true) as [uri Huri].
  pose proof (us_ca Hopts) as Hca. eexists. unfold get_signed_public_key, response_json.
  do 2 runs_lift.
  erewrite bind_step by (apply exchange_answer, (hn_signed Hn); by eapply asks_request).
  cbv beta. cbn [status_code rs_json]. rewrite Z.eqb_refl.
  erewrite bind_step by by apply pinned_answer. cbn [negb]. by do 2 runs_lift.
Qed.

Lemma sensor_uri_ok what : exists uri, sensor_uri self what = Ok uri.
Proof.
  destruct (us_opt Hopts "sensor_id") as [v Hv]; [left|]. unfold sensor_uri. rewrite Hv.
  apply (us_uri Hopts).
Qed.

Lemma register_ok w :
  api_public_certificate w = Some c -> exists r,
  register_sensor self (JStr pub_key) w =
    (Ok registered_json, after w [Exchanged r (answer registered_json)]).
Proof.
  intros Hc. destruct (sensor_uri_ok "/register") as [uri Huri], (hn_pub Hn) as [b Hb].
  pose proof (us_ca Hopts) as Hca. pose proof (us_pub Hopts). pose proof (us_priv Hopts).
  assert (pubkey_b64 (JStr pub_key) = Ok (JStr (urlsafe_b64encode b))) as Hk.
  { unfold pubkey_b64. by rewrite Hb. }
  option "sensor_id". option "virtue_id". option "username".
  option "sensor_advertised_hostname". option "sensor_advertised_port".
  eexists. unfold register_sensor, response_json. do 10 runs_lift.
  erewrite bind_step.
  2: { apply exchange_answer, (hn_register Hn). rewrite Huri. by apply bool_decide_eq_true. }
  cbn [status_code rs_json]. rewrite Z.eqb_refl.
  erewrite bind_step by by apply pinned_answer. done.
Qed.

Lemma opt_of_str name s : opt_str self name = Ok s -> exists v, opt self name = Ok v.
Proof. unfold opt_str. destruct (opt self name) as [v|]; [by exists v|done]. Qed.

Lemma deregister_ok w : exists r,
  deregister_sensor self (JStr pub_key) w = (Ok tt, after w [Exchanged r (answer JNull)]).
Proof.
  destruct (sensor_uri_ok "/deregister") as [uri Huri], (hn_pub Hn) as [b Hb].
  pose proof (us_ca Hopts) as Hca.
  destruct (opt_of_str _ _ (us_pub Hopts)) as [v1 H1], (opt_of_str _ _ (us_priv Hopts)) as [v2 H2].
  assert (pubkey_b64 (JStr pub_key) = Ok (JStr (urlsafe_b64encode b))) as Hk.
  { unfold pubkey_b64. by rewrite Hb. }
  option "sensor_id". eexists. unfold deregister_sensor. do 6 runs_lift.
  erewrite bind_step.
  2: { apply exchange_answer, (hn_deregister Hn). rewrite Huri. by apply bool_decide_eq_true. }
  done.
Qed.
Lemma wait_ok fuel w : exists r,
  wait_for_sensor_api self (S fuel) w = (Ok true, after w [Exchanged r (answer ready_json)]).
Proof.
  destruct (us_uri Hopts "/ready" false) as [uri Huri]. eexists. unfold wait_for_sensor_api.
  runs_lift. unfold now. erewrite bind_step by reflexivity.
  rewrite wait_loop_S. erewrite bind_step by apply poll_ready_spec.
  rewrite (hn_ready Hn); [done|by eapply asks_request].
Qed.

Lemma joined_ok {A} (m : W A) w (a : A) w' : m w = (Ok a, w') -> joined_task m w = (Ok a, w').
Proof. intros Hm. unfold joined_task, catch. by rewrite Hm. Qed.

Definition stored (path : string) (text : ustr) : history :=
  [OpenedForWriting path; Wrote path text; Chmod path 1536].

Lemma store_key_ok name path text w :
  opt_str self name = Ok path -> store_key self name (JStr text) w = (Ok tt, after w (stored path text)).
Proof.
  intros Hp. unfold store_key. runs_lift. erewrite bind_step by apply write_file_ok.
  rewrite (hn_posix Hn). unfold happen, modify, after. cbn. by rewrite <-(assoc_L (++)).
Qed.

Lemma happen_ok e w : happen e w = (Ok tt, after w [e]).
Proof. done. Qed.

Definition cycle_events (r1 r2 r3 : request) : history :=
  [Exchanged r1 (answer root_json); OpenedForWriting ca; Wrote ca root;
   Exchanged r2 (answer key_json);
   ServerUp false [(cpath, "http_01_savior_challenge")];
   Exchanged r3 (answer signed_json); ServerCancelled]
  ++ stored pub pub_key ++ stored priv priv_key.

Lemma certificate_cycle_ok w : exists r1 r2 r3,
  certificate_cycle self w =
    (Ok (JStr pub_key), Wrapper (Some c) (trace w ++ cycle_events r1 r2 r3)).
Proof.
  destruct (get_root_ok w) as [r1 H1].
  destruct (get_private_key_ok
    (after w [Exchanged r1 (answer root_json); OpenedForWriting ca; Wrote ca root])) as [r2 H2].
  destruct (hn_key_text Hn) as [s Hs].
  assert (exists f, rsa_private_fingerprint (JStr priv_key) = Ok f) as [f Hf].
  { unfold rsa_private_fingerprint. rewrite Hs. cbn. eauto. }
  destruct (us_opt Hopts "sensor_hostname") as [vh Hvh]; [by apply (bool_decide_unpack _)|].
  destruct (us_opt Hopts "sensor_port") as [vp Hvp]; [by apply (bool_decide_unpack _)|].
  assert (challenge_path (obj [("url", JStr url); ("token", token)]) = Ok cpath) as Hc.
  { unfold challenge_path. exact (hn_url Hn). }
  match type of H2 with _ = (_, ?x) =>
    destruct (get_signed_ok (after x [ServerUp false [(cpath, "http_01_savior_challenge")]]))
      as [r3 H3]; [done|] end.
  exists r1, r2, r3. unfold certificate_cycle.
  erewrite bind_step by (by apply joined_ok). cbv beta iota; cbn [negb]. rewrite bind_ret.
  erewrite bind_step by (by apply joined_ok). cbv beta iota; cbn [negb]. rewrite bind_ret.
  do 6 runs_lift. erewrite bind_step by apply happen_ok.
  erewrite bind_step by (by apply joined_ok). cbv beta iota; cbn [negb].
  erewrite bind_step by apply happen_ok. rewrite bind_ret.
  erewrite bind_step by (apply store_key_ok; exact (us_pub Hopts)).
  erewrite bind_step by (apply store_key_ok; exact (us_priv Hopts)).
  unfold ret, after, cycle_events. cbn. by rewrite <-!(assoc_L (++)).
Qed.

Definition serve_events (r : request) : history :=
  [ServerUp true (map (fun r => (u (route_path r), route_name r)) (https_routes (Ident "" "" "" false)));
   Exchanged r (answer registered_json); Spawned (LogDrain hosts topic);
   Spawned (CallSensingMethod config_value); Spawned (SyncSensor (JStr pub_key))].

Lemma serve_ok w :
  api_public_certificate w = Some c -> exists r,
  serve self (JStr pub_key) w = (Ok tt, after w (serve_events r)).
Proof.
  intros Hc. unfold serve.
  set (up := ServerUp true _).
  destruct (register_ok (after w [up]) Hc) as [r Hr]. exists r.
  erewrite bind_step by reflexivity. erewrite bind_lift by apply (hn_tls Hn).
  erewrite bind_step by apply happen_ok. erewrite bind_step by by apply joined_ok.
  do 2 runs_lift. erewrite bind_step by apply happen_ok. runs_lift.
  erewrite bind_lift by exact (hn_config Hn).
  erewrite bind_step by apply happen_ok. rewrite happen_ok. rewrite !after_after.
  done.
Qed.

(** C8: liveness.  With a Sensing API that answers every end point as it
    promises, one run of [main] passes through all of its stages: the event
    trace is exactly the one below, for some requests, the API's certificate is
    pinned, and the run ends normally once the signal arrives. *)
Theorem honest_api_registers fuel w :
  exists r0 r1 r2 r3 r4 r5,
    main self (S fuel) w =
      (Ok true,
       Wrapper (Some c)
         (trace w ++ [Exchanged r0 (answer ready_json)] ++ cycle_events r1 r2 r3
          ++ serve_events r4 ++ [Notified; CancelledAll; Exchanged r5 (answer JNull)])).
Proof.
  destruct (wait_ok fuel w) as [r0 H0].
  destruct (certificate_cycle_ok (after w [Exchanged r0 (answer ready_json)])) as (r1 & r2 & r3 & H1).
  match type of H1 with _ = (_, ?w1) => destruct (serve_ok w1 eq_refl) as [r4 H4] end.
  match type of H4 with _ = (_, ?w1) =>
    destruct (deregister_ok (after w1 [Notified; CancelledAll])) as [r5 H5] end.
  exists r0, r1, r2, r3, r4, r5. unfold main, in_task_group, catch.
  erewrite bind_step by by apply joined_ok. cbn [negb].
  erewrite bind_step by exact H1. erewrite bind_step by exact H4.
  unfold await_stop at 1. rewrite (hn_signal Hn).
  erewrite bind_step by (erewrite bind_step by reflexivity; rewrite bind_ret; apply happen_ok).
  erewrite bind_step by apply happen_ok. rewrite (after_after _ [Notified]).
  erewrite bind_step by exact H5.
  unfold ret, after. cbn [trace api_public_certificate]. by rewrite <-!(assoc_L (++)).
Qed.
End Honest.

(** * A concrete run *)

Module Demo.

Definition demo_opts : namespace :=
  [ ("api_host", PStr "sensing-api.savior.internal"); ("api_https_port", PInt 17504);
    ("api_http_port", PInt 17141); ("api_version", PStr "v1"); ("ca_key_path", PStr "./cert");
    ("public_key_path", PStr "./cert/rsa_key.pub"); ("private_key_path", PStr "./cert/rsa_key");
    ("sensor_id", PStr "s1"); ("virtue_id", PStr "v1"); ("username", PStr "root");
    ("sensor_hostname", PStr "host"); ("sensor_port", PInt 11000);
    ("sensor_advertised_hostname", PStr "host"); ("sensor_advertised_port", PInt 11000);
    ("delay_start", PInt 0); ("api_retry_max", PFloat 30); ("api_retry_wait", PFloat (1 # 2));
    ("backoff_delay", PInt 30);
    ("check_for_long_blocking", PBool false) ].
Definition demo : config := Config demo_opts "lsof" "linux".
Definition der : bytes := ascii_bytes (u "DER").

Definition answers : list (string * json) :=
  [ ("http://sensing-api.savior.internal:17141/api/v1/ready", ready_json);
    ("http://sensing-api.savior.internal:17141/api/v1/ca/root/public", root_json (u "ROOT"));
    ("https://sensing-api.savior.internal:17504/api/v1/ca/register/private_key/new",
      key_json (u "PRIVATE") (JStr (u "CSR")) (JStr (u "T")) (u "http://host:11000/path?q"));
    ("https://sensing-api.savior.internal:17504/api/v1/ca/register/public_key/signed",
      signed_json (u "PUBLIC"));
    ("https://sensing-api.savior.internal:17504/api/v1/sensor/s1/register",
      registered_json (JList [JStr (u "kafka")]) (JStr (u "topic")) (u "{}"));
    ("https://sensing-api.savior.internal:17504/api/v1/sensor/s1/deregister", JNull) ].

(** The sensor is told to stop retrying once it has done anything. *)
Definition world : World := {|
  api := fun _ r => match dict_get (rq_uri r) answers with
                    | Some j => answer der j
                    | None => Raise ConnectionError
                    end;
  time := fun h => fold_left (fun t e => match e with Slept s => t + (if Qle_bool 0 s then s else 0) | _ => t end)%Q h 0%Q;
  open_w := fun _ _ => Ok tt;
  load_cert_chain := fun _ => Ok tt;
  pkcs8_sha1 := fun _ => Ok "da39a3ee5e6b4b0d3255bfef95601890afd80709";
  abspath := fun p => p;
  is_windows := false;
  float_text := fun _ => "1.0";
  stop_notification := None;
  check_cancellation := fun _ => true;
  stop_retrying := fun h => negb (Nat.eqb (length h) 0);
|}.

Lemma demo_usable : usable demo "./cert/ca.pem" "./cert/rsa_key.pub" "./cert/rsa_key".
Proof.
  split; try reflexivity.
  - intros path []; eexists; reflexivity.
  - intros name Hn.
    repeat (apply elem_of_cons in Hn as [->|Hn]; [eexists; reflexivity|]).
    by apply not_elem_of_nil in Hn.
  - intros name Hn.
    repeat (apply elem_of_cons in Hn as [->|Hn]; [eexists; reflexivity|]).
    by apply not_elem_of_nil in Hn.
Qed.

Lemma demo_honest :
  honest (Wd := world) demo der (u "ROOT") (u "PRIVATE") (u "PUBLIC") (JStr (u "CSR")) (JStr (u "T"))
    (JList [JStr (u "kafka")]) (JStr (u "topic")) (u "http://host:11000/path?q") (u "/path")
    (u "{}") (JObj []).
Proof.
  split; try reflexivity.
  all: try (intros h [lib meth uri body ver cert] Hr%asks_inv; vm_compute in Hr;
            apply Ok_inj in Hr; subst uri; vm_compute; reflexivity).
  all: eexists; vm_compute; reflexivity.
Qed.

Definition run : history := trace (start (Wd := world) demo 2 1 started).2.

Definition eager : World := {|
  api := api (World := world); time := time (World := world); open_w := open_w (World := world);
  load_cert_chain := fun _ => Ok tt; pkcs8_sha1 := pkcs8_sha1 (World := world);
  abspath := fun p => p; is_windows := false; float_text := fun _ => "1.0";
  stop_notification := None; check_cancellation := fun _ => true; stop_retrying := fun _ => false;
|}.

(** Nobody answers. *)
Definition deaf : World := {|
  api := fun _ _ => Raise ConnectionError; time := time (World := world); open_w := open_w (World := world);
  load_cert_chain := fun _ => Ok tt; pkcs8_sha1 := pkcs8_sha1 (World := world);
  abspath := fun p => p; is_windows := false; float_text := fun _ => "1.0";
  stop_notification := None; check_cancellation := fun _ => true; stop_retrying := fun _ => false;
|}.
Definition hasty : config := Config (dict_set "api_retry_max" (PFloat 1) demo_opts) "lsof" "linux".
Definition ready_uri : string := "http://sensing-api.savior.internal:17141/api/v1/ready".

End Demo.

(** * Witnesses *)

Import Demo.

Lemma keys_need_pinned_signature_witness :
  is_key_file demo "./cert/rsa_key" = true /\ server_up (take 11 run) = false /\
  exists c, key_signed demo c (take 11 run).
Proof.
  apply (keys_need_pinned_signature (Wd := world) demo 2 1 (take 11 run) "./cert/rsa_key" (drop 12 run));
    vm_compute; reflexivity.
Defined.

Lemma servers_never_overlap_witness : server_up (take 14 run) = false.
Proof.
  apply (servers_never_overlap (Wd := world) demo 2 1 (take 14 run) true
    [(u "/sensor/{uuid}/registered", "route_registration_ping");
     (u "/sensor/status", "route_sensor_status"); (u "/actuation", "route_sensor_actuate")]
    (drop 15 run)).
  vm_compute; reflexivity.
Defined.

Lemma tasks_need_registration_witness :
  exists c, registration_confirmed (Wd := world) demo c (take 18 run).
Proof.
  apply (tasks_need_registration (Wd := world) demo 2 1 (take 18 run) (SyncSensor (JStr (u "PUBLIC")))
    (drop 19 run)).
  vm_compute; reflexivity.
Defined.

(** Nobody answers: with a limit of one second and half a second between the
    questions, the fourth is the last. *)
Lemma wait_for_sensor_api_terminates_witness :
  exists k r, (k <= 3)%nat /\
    wait_for_sensor_api (Wd := deaf) hasty 4 started =
      (r, asked_again (Wd := deaf) ready_uri (1 # 2) k started) /\
    ends_at (Wd := deaf) ready_uri (1 # 2) 1 0 started k r.
Proof.
  apply (wait_for_sensor_api_terminates (Wd := deaf) hasty ready_uri 1 (1 # 2) started);
    [reflexivity|reflexivity|reflexivity|by vm_compute|by vm_compute|].
  intros k Hk. change (S _) with 3%nat in Hk.
  destruct k as [|[|[|[|k]]]]; [by vm_compute..|lia].
Defined.

Lemma signal_restarts_main_witness :
  (start_loop (Wd := eager) demo 3 1 started).1 <> Ok true.
Proof.
  refine (proj2 (signal_restarts_main (Wd := eager) demo 2 1 started
    (main (Wd := eager) demo 1 started).2 (fun _ => eq_refl) eq_refl _)).
  vm_compute; reflexivity.
Defined.

Lemma deregistration_pin_never_matches_witness :
  is_pinned_api Requests (Response 200 (Ok JNull) (Some (Some der))) (Wrapper (Some der) []) =
    (Ok false, Wrapper (Some der) []).
Proof. apply (deregistration_pin_never_matches _ der). reflexivity. Defined.

Lemma honest_api_registers_witness :
  exists w, main (Wd := world) demo 1 started = (Ok true, w) /\ api_public_certificate w = Some der.
Proof.
  destruct (honest_api_registers (Wd := world) demo _ _ _ demo_usable _ _ _ _ _ _ _ _ _ _ _ _
    demo_honest 0 started) as (r0 & r1 & r2 & r3 & r4 & r5 & Hm).
  eexists. split; [exact Hm|done].
Defined.
