(* ===== verification/Deployed.v ===== *)
(** The wrapper that the targets carry: the build places an older version of
    [sensor_wrapper.py] beside the sensors of the demonstration, desktop and NFS
    targets ([targets/demo-target/sensor_libraries/sensor_wrapper/] and two
    copies of the same text).

    Here are the methods that differ from [sensors/wrapper/], on top of the
    others from [Wrapper] and [WrapperConfig], and what the differences come to:
    the same protocol, the same runs where all goes well, other identities. *)

From Stdlib Require Import QArith.
From S2P Require Import Prelude Json Http WrapperConfig Wrapper Protocol WrapperProtocol WrapperRun.
#[local] Open Scope Z_scope.

Section Deployed.
Context {Wd : World} (self : config).

(** The certificate cycle: the challenge server is only stopped after a key was
    signed. *)
Definition certificate_cycle : W json :=
  do (rc_success, _) <- joined_task (get_root_ca_pubkey self);
  do_ (if negb rc_success then throw TaskError else ret tt);
  do (pki_priv_success, priv_key, csr, challenge_data) <- joined_task (get_private_key_and_csr self);
  do_ (if negb pki_priv_success then throw TaskError else ret tt);
  do _ <- lift (rsa_private_fingerprint priv_key);
  do _ <- lift (json_item challenge_data "url");
  do _ <- lift (json_item challenge_data "token");
  do path <- lift (challenge_path challenge_data);
  do _ <- lift (opt self "sensor_hostname");
  do _ <- lift (opt self "sensor_port");
  do_ happen (ServerUp false [(path, "http_01_savior_challenge")]);
  do (pub_key_success, pub_key) <- joined_task (get_signed_public_key self csr);
  do_ (if negb pub_key_success then throw TaskError else ret tt);
  do_ happen ServerCancelled;
  do_ store_key self "public_key_path" pub_key;
  do_ store_key self "private_key_path" priv_key;
  ret pub_key.

(** Outside of Windows it waits for the signal, whatever was given to the
    constructor; on Windows for the notification, and without one not at all. *)
Definition await_stop : W unit :=
  if negb is_windows then happen Notified
  else
    match stop_notification with
    | Some t =>
        do w <- get;
        do_ joined_task (lift (t (trace w)));
        happen Notified
    | None => ret tt
    end.

Definition main (fuel : nat) : W bool :=
  in_task_group
    (do ready <- joined_task (wait_for_sensor_api self fuel);
     if negb ready then ret false
     else
       do pub_key <- certificate_cycle;
       do_ serve self pub_key;
       do_ await_stop;
       do_ happen CancelledAll;
       do_ deregister_sensor self pub_key;
       ret true).

Fixpoint start_loop (n fuel : nat) : W bool :=
  match n with
  | O => ret false
  | S n =>
      do w <- get;
      if stop_retrying (trace w) then ret true
      else
        do_ catch (do _ <- lift (opt self "check_for_long_blocking"); do _ <- main fuel; ret tt) (fun e =>
              if decide (e = TaskError) then
                do delay <- lift (opt_num self "backoff_delay");
                sleep delay
              else throw e);
        start_loop n fuel
  end.

Definition start (n fuel : nat) : W bool :=
  do delay <- lift (opt_num self "delay_start");
  do_ (if negb (Qle_bool delay 0) then sleep delay else ret tt);
  start_loop n fuel.

End Deployed.

(** * Identity *)

Section Identify.
Context (os : host).

(** ["VIRTUE_ID" is os.environ] is false: a text is not the environment. *)
Definition check_virtue_id : I unit :=
  when_none "virtue_id" (do i <- uuid4; setattr "virtue_id" (PStr i)).

(** [s.endswith(t)] *)
Definition endswith (s t : string) : bool :=
  bool_decide (drop (length (str_chars s) - length (str_chars t)) (str_chars s) = str_chars t).

Definition check_hostname : I unit :=
  when_none "sensor_hostname"
    (do_ setattr "sensor_hostname" (PStr (h_fqdn os));
     do_ (if h_windows os then
            if endswith (h_fqdn os) "ec2.internal" then
              do ip <- lift (h_ip os);
              setattr "sensor_hostname"
                (PStr ("ip-" +:+ str_join "-" (str_split "." ip) +:+ ".ec2.internal"))
            else ret tt
          else ret tt);
     when_none "sensor_hostname" (throw ValueError)).

Definition check_identification : I unit :=
  do_ check_sensor_id;
  do_ check_virtue_id;
  do_ check_username os;
  do_ check_hostname;
  do_ check_advertised os;
  for_each (fun name => do _ <- getattr name; ret tt)
    ["api_host"; "api_http_port"; "api_https_port"; "api_version"; "sensor_port"].

End Identify.

(** * Lemmas *)

Section Facts.
Context {Wd : World} (self : config).

Abbreviation at_phase := (at_phase self).
Abbreviation may_fail := (may_fail self).
Abbreviation idle := (idle self).

Lemma deployed_certificate_cycle_phase pc :
  triple (at_phase ApiReady pc) (certificate_cycle self)
    (fun _ w => exists c, at_phase (Storing c) (Some c) w) may_fail.
Proof.
  unfold certificate_cycle. eapply triple_bind; [apply t_joined, get_root_phase|].
  intros [[] rc]; cbn [fst negb]; [|by apply t_bind_throw].
  apply t_bind_ret.
  eapply triple_bind; [apply t_joined, get_private_key_phase|].
  intros [[[[] priv_key] csr] challenge]; cbn [fst negb];
    apply t_exists; intros c; [|by apply t_bind_throw].
  apply t_bind_ret. lifts.
  eapply t_bind_happen; [done|].
  eapply triple_bind; [apply t_joined, get_signed_phase|].
  intros [[] pub_key]; cbn [fst negb]; [|by apply t_bind_throw].
  apply t_bind_ret. eapply t_bind_happen; [done|].
  eapply triple_bind; [by apply store_key_phase; left|]. intros ?.
  eapply triple_bind; [by apply store_key_phase; right; left|]. intros ?.
  apply t_ret. by exists c.
Qed.

(** There is a way to wait for the end. *)
Definition can_wait : Prop := is_windows = true -> stop_notification <> None.

Lemma deployed_await_stop_phase c : can_wait ->
  triple (at_phase (Registered c) (Some c)) await_stop (fun _ => at_phase Leaving (Some c)) may_fail.
Proof.
  unfold can_wait, await_stop. intros Hwait.
  destruct is_windows; cbn [negb]; [|by eapply t_happen].
  destruct stop_notification as [t|]; [|by destruct (Hwait eq_refl)].
  apply t_bind_get. intros w _.
  apply triple_bind with (R := fun _ => at_phase (Registered c) (Some c)).
  - by apply t_joined, t_lift.
  - intros ?. by eapply t_happen.
Qed.

Lemma deployed_main_phase fuel : can_wait ->
  triple idle (main self fuel) (fun _ => idle) (fun _ => idle).
Proof.
  intros Hwait. unfold main. apply group_idle. intros pc.
  eapply triple_bind; [apply t_joined, wait_phase|].
  intros []; cbn [negb]; [|apply t_ret; apply at_idle].
  eapply triple_bind; [apply deployed_certificate_cycle_phase|]. intros pub_key.
  apply t_exists. intros c. eapply triple_bind; [apply serve_phase|]. intros ?.
  eapply triple_bind; [by apply deployed_await_stop_phase|]. intros ?.
  eapply t_bind_happen; [done|]. eapply triple_bind; [apply deregister_phase|].
  intros ?. apply t_ret. apply at_idle.
Qed.

Lemma deployed_start_loop_phase n fuel : can_wait ->
  triple idle (start_loop self n fuel) (fun _ => idle) (fun _ => idle).
Proof.
  intros Hwait. induction n as [|n IH]; [by apply triple_ret|]. cbn [start_loop].
  apply retry_idle; [|done]. by apply deployed_main_phase.
Qed.

(** ** Runs that succeed *)

(** [m'] returns what [m] returns, wherever it does. *)
Definition agrees {S A} (m m' : M S A) : Prop :=
  forall s a s', m s = (Ok a, s') -> m' s = (Ok a, s').

Lemma agrees_refl {S A} (m : M S A) : agrees m m.
Proof. by intros s a s' E. Qed.

Lemma agrees_bind {S A B} (m m' : M S A) (f f' : A -> M S B) :
  agrees m m' -> (forall a, agrees (f a) (f' a)) -> agrees (bind m f) (bind m' f').
Proof.
  intros Hm Hf s b s' E. unfold bind in *. destruct (m s) as [[a|e] s1] eqn:E1; [|done].
  rewrite (Hm _ _ _ E1). by apply Hf.
Qed.

(** Handlers that only clean up. *)
Lemma agrees_catch {S A} (m m' : M S A) h h' :
  agrees m m' -> (forall e s a s', h e s <> (Ok a, s')) -> agrees (catch m h) (catch m' h').
Proof.
  intros Hm Hh s a s' E. unfold catch in *. destruct (m s) as [[b|e] s1] eqn:E1.
  - injection E as -> ->. by rewrite (Hm _ _ _ E1).
  - by apply Hh in E.
Qed.

Lemma agrees_certificate_cycle : agrees (Wrapper.certificate_cycle self) (certificate_cycle self).
Proof.
  unfold Wrapper.certificate_cycle, certificate_cycle.
  apply agrees_bind; [apply agrees_refl|]; intros [? ?].
  apply agrees_bind; [apply agrees_refl|]; intros ?.
  apply agrees_bind; [apply agrees_refl|]; intros [[[? ?] ?] ?].
  do 8 (apply agrees_bind; [apply agrees_refl|]; intros ?).
  apply agrees_bind; [apply agrees_refl|]. intros [ok key].
  destruct ok; [apply agrees_refl|].
  intros w x w' E. apply bind_Ok in E as (? & w1 & _ & E). discriminate.
Qed.

(** A notification is given exactly on Windows. *)
Definition as_installed : Prop := is_windows = bool_decide (is_Some stop_notification).

Lemma agrees_await_stop : as_installed -> agrees Wrapper.await_stop await_stop.
Proof.
  unfold as_installed. intros Hi w a w' E. unfold Wrapper.await_stop in E. unfold await_stop.
  rewrite Hi. by destruct stop_notification.
Qed.

Lemma agrees_main fuel : as_installed -> agrees (Wrapper.main self fuel) (main self fuel).
Proof.
  intros Hi. apply agrees_catch; [|by intros].
  apply agrees_bind; [apply agrees_refl|]. intros []; [|apply agrees_refl]. cbn [negb].
  apply agrees_bind; [apply agrees_certificate_cycle|]. intros ?.
  apply agrees_bind; [apply agrees_refl|]. intros ?.
  apply agrees_bind; [by apply agrees_await_stop|]. intros ?. apply agrees_refl.
Qed.

(** Refinement: where there is a way to wait for the end, the wrapper that the
    targets carry follows the same provisioning protocol, in every run. *)
Theorem deployed_follows_protocol n fuel :
  can_wait -> phase_of self (trace (start self n fuel started).2) = Some Idle.
Proof. intros Hwait. apply idle_run, delayed_idle. by apply deployed_start_loop_phase. Qed.

(** C40: equivalence: a run of the current [main] that succeeds is also the run of
    the [main] of the targets, event for event, when a notification is given
    exactly on Windows. *)
Theorem deployed_main_same fuel w b w' :
  as_installed -> Wrapper.main self fuel w = (Ok b, w') -> main self fuel w = (Ok b, w').
Proof. intros Hi. by apply agrees_main. Qed.
End Facts.

(** ** Identity *)

Lemma bind_ext {S A B} (m m' : M S A) (f f' : A -> M S B) :
  (forall s, m s = m' s) -> (forall a s, f a s = f' a s) -> forall s, bind m f s = bind m' f' s.
Proof. intros Hm Hf s. unfold bind. rewrite Hm. destruct (m' s) as [[]]; auto. Qed.

Lemma check_hostname_same os s :
  h_windows os = false -> check_hostname os s = WrapperConfig.check_hostname os s.
Proof.
  intros Hw. unfold check_hostname, WrapperConfig.check_hostname, when_none. rewrite Hw.
  apply bind_ext; [done|]. intros v t. rewrite orb_false_r. by destruct (is_none v).
Qed.

(** Functional: outside of Windows the wrapper of the targets computes the
    identity that the current one computes when [VIRTUE_ID] is not in the
    environment: the variable is ignored. *)
Theorem deployed_ignores_virtue_id os s :
  h_windows os = false ->
  check_identification os s =
    WrapperConfig.check_identification
      (Host false (dict_del "VIRTUE_ID" (h_environ os)) (h_pwname os) (h_login os) (h_fqdn os)
         (h_ip os) (h_ports os)) s.
Proof.
  intros Hw. destruct os as [w env pw login fqdn ip ports]. cbn in Hw. subst w.
  unfold check_identification, WrapperConfig.check_identification.
  apply bind_ext; [done|]. intros ?. apply bind_ext.
  { intros t. unfold check_virtue_id, WrapperConfig.check_virtue_id. cbn [h_environ].
    by rewrite dict_get_del_eq. }
  intros ?. apply bind_ext.
  { intros t. unfold check_username. cbn [h_windows h_environ h_pwname h_login h_fqdn].
    by rewrite dict_get_del_ne. }
  intros ?. apply bind_ext; [|done].
  intros t. by rewrite check_hostname_same.
Qed.

(** * Witnesses *)

Module DeployedDemo.
Import Demo.

(** The demonstration of [WrapperRun] as a Windows service without a
    notification. *)
Definition service : World := {|
  api := api (World := world); time := time (World := world); open_w := open_w (World := world);
  load_cert_chain := fun _ => Ok tt; pkcs8_sha1 := pkcs8_sha1 (World := world);
  abspath := fun p => p; is_windows := true; float_text := fun _ => "1.0";
  stop_notification := None; check_cancellation := fun _ => true;
  stop_retrying := stop_retrying (World := world);
|}.

(** It shuts down right after the registration, which the protocol does not
    allow: the task group is cancelled without a notification. *)
Example service_shuts_down_at_once :
  phase_of (Wd := service) demo (trace (start (Wd := service) demo 2 1 started).2) = None /\
  last (trace (start (Wd := service) demo 2 1 started).2) <> Some CancelledAll.
Proof. split; [by vm_compute|]. by vm_compute. Qed.

Lemma deployed_follows_protocol_witness :
  phase_of (Wd := world) demo (trace (start (Wd := world) demo 2 1 started).2) = Some Idle.
Proof. apply (deployed_follows_protocol (Wd := world) demo 2 1). intros E. vm_compute in E. discriminate E. Defined.

Lemma deployed_main_same_witness :
  (main (Wd := world) demo 1 started).1 = Ok true.
Proof.
  rewrite (deployed_main_same (Wd := world) demo 1 started true
    (Wrapper.main (Wd := world) demo 1 started).2); vm_compute; reflexivity.
Defined.

Lemma deployed_ignores_virtue_id_witness :
  check_identification (Host false [("VIRTUE_ID", "v")] (Ok "root") (Ok "root") "h" (Ok "1.2.3.4") None)
    ex_id_state =
  WrapperConfig.check_identification (Host false [] (Ok "root") (Ok "root") "h" (Ok "1.2.3.4") None)
    ex_id_state.
Proof.
  apply (deployed_ignores_virtue_id
    (Host false [("VIRTUE_ID", "v")] (Ok "root") (Ok "root") "h" (Ok "1.2.3.4") None) ex_id_state).
  reflexivity.
Defined.
End DeployedDemo.
