(* ===== verification/ConfigLoader.v ===== *)
(** The configuration loader, [bin/load_sensor_configurations.py]: finding
    sensor configurations on disk, installing them through the Sensing API, and
    listing what is installed.

    The Sensing API is the class [ConfigApi]: a state and what a GET and a PUT
    do to it.  What it is relied on for is the class [ApiLaws], the checks of
    its source included, against which installation is proved to refine a plain
    table of components and configurations; [RefApi] is an instance.  What the program prints about its
    results is a list of [output]s. *)

From Stdlib Require Import Sorted.
From S2P Require Import Prelude Json.

(** * Finding configurations *)

Section Find.
(** What [open(path).read()] gives or raises. *)
Context (read_file : string -> res ustr).

(** One component of [os.path.normpath] on an absolute path, the components
    so far in reverse. *)
Definition norm_step (acc : list string) (c : string) : list string :=
  if bool_decide (c = "") || bool_decide (c = ".") then acc
  else if bool_decide (c = "..") then tail acc
  else c :: acc.

(** [os.path.abspath(p)] for an absolute path. *)
Definition abspath_abs (p : string) : string :=
  (if startswith p "//" && negb (startswith p "///") then "//" else "/")
  +:+ str_join "/" (reverse (fold_left norm_step (str_split slash p) [])).

(** Text of code points below 256 as a [string]; what lies above has no path
    here and raises like a missing file. *)
Definition path_text (s : ustr) : res string :=
  if forallb (fun c => (0 <=? c) && (c <? 256)) s
  then Ok (str_of (map (fun c => ascii_of_N (Z.to_N c)) s)) else Raise OSError.

(** The body of the loop of [load_configurations]. *)
Definition load_variant (root : string) (variant : json) : res json :=
  match variant with
  | JObj d =>
      let? source := json_item variant "source" in
      match source with
      | JStr s =>
          let? p := path_text s in
          let? content := read_file (abspath_abs (path_join root p)) in
          Ok (JObj (dict_set (u "configuration_content") (JStr content) d))
      | _ => Raise AttributeError
      end
  | _ => Raise TypeError
  end.

(** [for variant in v]: the variants with their contents, which are written
    into the decoded document in place. *)
Definition load_variants (root : string) (v : json) : res json :=
  match v with
  | JList l => res_map JList (res_mapM (load_variant root) l)
  | JStr [] | JObj [] => Ok v
  | _ => Raise TypeError
  end.

Definition load_configurations (root : string) : res json :=
  let? text := read_file (path_join root "sensor_configurations.json") in
  let? conf := loads text in
  let? configurations := json_item conf "configurations" in
  let? loaded := load_variants root configurations in
  match conf with
  | JObj d => Ok (JObj (dict_set (u "configurations") loaded d))
  | _ => Raise TypeError
  end.

(** [find_configuration_collections] on what [os.walk] yields: the directories
    and the files of each. *)
Fixpoint find_configuration_collections (walk : list (string * list string)) : res (list json) :=
  match walk with
  | [] => Ok []
  | (root, files) :: walk =>
      if bool_decide ("sensor_configurations.json" ∈ files) then
        let? c := load_configurations root in
        let? cs := find_configuration_collections walk in
        Ok (c :: cs)
      else find_configuration_collections walk
  end.
End Find.

(** * The Sensing API *)

(** A Python dictionary with literal keys. *)
Abbreviation pydict := (list (string * json)).

Record reply := Reply { reply_status : Z; reply_json : res json }.

Class ConfigApi := {
  server : Type;
  api_get : server -> string -> pydict -> res reply;
  api_put : server -> string -> pydict -> res reply * server;
}.

Record ld_opts := LdOpts {
  api_host : string;
  api_port_https : Z;
  api_port_http : Z;
  api_version : string;
  update : bool;
}.

Definition construct_api_url (opts : ld_opts) (path : string) (secure : bool) : string :=
  let host := api_host opts in
  let host := if negb (startswith host "http") then
                if secure then "https://" +:+ host +:+ ":" +:+ str_int (api_port_https opts)
                else "http://" +:+ host +:+ ":" +:+ str_int (api_port_http opts)
              else host in
  host +:+ "/api/" +:+ api_version opts +:+ path.

(** What is printed besides progress: the result of an installation, and the
    lines of a listing. *)
Inductive output :=
  | Result (res : string)
  | ComponentLine (name os context : json)
  | ConfigurationLine (level version format updated_at : json).

Section Loader.
Context {Api : ConfigApi} (opts : ld_opts).

Record ld_state := LdState { srv : server; out : list output }.
Abbreviation L := (M ld_state).

Definition get_request (path : string) (params : pydict) : L reply :=
  do s <- gets srv; lift (api_get s (construct_api_url opts path false) params).
Definition put_request (path : string) (body : pydict) : L reply := fun s =>
  let (r, srv') := api_put (srv s) (construct_api_url opts path false) body in
  (r, LdState srv' (out s)).
Definition print (o : output) : L unit := modify (fun s => LdState (srv s) (out s ++ [o])).

(** The three entries that name a component. *)
Definition component_key (comp : json) : res pydict :=
  let? name := json_item comp "name" in
  let? os := json_item comp "os" in
  let? context := json_item comp "context" in
  Ok [("name", name); ("os", os); ("context", context)].

(** Whether the API has it already: what both installations begin with.
    [None] for an error of the API. *)
Definition exists_already (path what : string) (params : pydict) : L (option bool) :=
  do res <- get_request path params;
  if negb ((reply_status res =? 200) || (reply_status res =? 400)) then ret None
  else
    do j <- lift (reply_json res);
    do has <- lift (has_item j what);
    ret (Some has).

Definition mode_of (existed : bool) : string := if existed then "update" else "create".

Definition install_component (comp : json) : L string :=
  do component <- lift (component_key comp);
  do existed <- exists_already "/configuration/component" "component" component;
  match existed with
  | None => ret "error"
  | Some existed =>
      if existed && negb (update opts) then ret "exists"
      else
        let mode := mode_of existed in
        do description <- lift (json_item comp "description");
        let component := dict_set "description" description component in
        do res <- put_request ("/configuration/component/" +:+ mode) component;
        if reply_status res =? 200 then ret (mode +:+ "d") else ret "error"
  end.

(** [conf_filter] of [install_configuration]. *)
Definition configuration_key (component configuration : json) : res pydict :=
  let? comp_filter := component_key component in
  let? level := json_item configuration "level" in
  let? version := json_item configuration "version" in
  Ok (dict_update [("level", level); ("version", version)] comp_filter).

Definition install_configuration (component configuration : json) : L string :=
  do conf_filter <- lift (configuration_key component configuration);
  do existed <- exists_already "/configuration/component/configuration" "configuration" conf_filter;
  match existed with
  | None => ret "error"
  | Some existed =>
      if existed && negb (update opts) then ret "exists"
      else
        let mode := mode_of existed in
        do content <- lift (json_item configuration "configuration_content");
        let conf_filter := dict_set "configuration" content conf_filter in
        do description <- lift (json_item configuration "description");
        let conf_filter := dict_set "description" description conf_filter in
        do format <- lift (json_item configuration "format");
        let conf_filter := dict_set "format" format conf_filter in
        do res <- put_request ("/configuration/component/configuration/" +:+ mode) conf_filter;
        if reply_status res =? 200 then ret (mode +:+ "d") else ret "error"
  end.

(** ["...%(k)s..." % d] for every key of [ks]: each entry must be there. *)
Definition interpolates (d : json) (ks : list string) : L unit :=
  for_each (fun k => do _ <- lift (json_item d k); ret tt) ks.

(** [len(v)] and [for x in v] of a decoded value. *)
Definition items_of (v : json) : res (list json) :=
  match v with
  | JList l => Ok l
  | JStr s => Ok (map (fun c => JStr [c]) s)
  | JObj d => Ok (map (fun kv => JStr kv.1) d)
  | _ => Raise TypeError
  end.

Definition install (config : json) : L unit :=
  do_ interpolates config ["os"; "context"; "name"];
  do configurations <- lift (json_item config "configurations");
  do variants <- lift (items_of configurations);
  do res <- install_component config;
  do_ print (Result res);
  for_each (fun configuration =>
    do_ interpolates configuration ["level"; "version"];
    do res <- install_configuration config configuration;
    print (Result res)) variants.

(** ** Listing *)

Definition list_configurations (component : json) : L json :=
  do os <- lift (json_item component "os");
  do context <- lift (json_item component "context");
  do name <- lift (json_item component "name");
  do res <- get_request "/configuration/component/configurations"
              [("os", os); ("context", context); ("name", name)];
  if negb (reply_status res =? 200) then ret (JList [])
  else
    do parsed <- lift (reply_json res);
    do comp <- lift (json_item parsed "component");
    do configurations <- lift (json_item parsed "configurations");
    match comp with
    | JObj d => ret (JObj (dict_set (u "configurations") configurations d))
    | _ => throw TypeError
    end.

Fixpoint list_each (comps : list json) : L (list json) :=
  match comps with
  | [] => ret []
  | c :: comps =>
      do x <- list_configurations c;
      do xs <- list_each comps;
      ret (x :: xs)
  end.

Definition list_components : L (list json) :=
  do res <- get_request "/configuration/components" [];
  if negb (reply_status res =? 200) then ret []
  else
    do j <- lift (reply_json res);
    do v <- lift (json_item j "components");
    do comps <- lift (items_of v);
    list_each comps.

Definition sort_order : list (string * Z) :=
  [("off", 1); ("low", 2); ("default", 3); ("high", 4); ("adversarial", 5)].

(** [sort_order.get(conf["level"], 0)]: a list or a dictionary cannot be
    hashed. *)
Definition sort_key (conf : json) : res Z :=
  let? level := json_item conf "level" in
  match level with
  | JStr s => Ok (default 0 (snd <$> find (fun kv => bool_decide (u kv.1 = s)) sort_order))
  | JList _ | JObj _ => Raise TypeError
  | _ => Ok 0
  end.

(** [sorted]: stable, by the keys computed first. *)
Fixpoint insert_sorted (k : Z) (x : json) (l : list (Z * json)) : list (Z * json) :=
  match l with
  | [] => [(k, x)]
  | (k', y) :: l => if k <=? k' then (k, x) :: (k', y) :: l else (k', y) :: insert_sorted k x l
  end.
Definition sort_keyed (l : list (Z * json)) : list (Z * json) :=
  foldr (fun kx => insert_sorted kx.1 kx.2) [] l.

Definition sorted_configs (configs : list json) : res (list json) :=
  let? ks := res_mapM sort_key configs in
  Ok (map snd (sort_keyed (zip ks configs))).

Definition list_action : L unit :=
  do components <- list_components;
  for_each (fun comp =>
    do name <- lift (json_item comp "name");
    do os <- lift (json_item comp "os");
    do context <- lift (json_item comp "context");
    do_ print (ComponentLine name os context);
    do v <- lift (json_item comp "configurations");
    do l <- lift (items_of v);
    do configs <- lift (sorted_configs l);
    for_each (fun conf =>
      do level <- lift (json_item conf "level");
      do version <- lift (json_item conf "version");
      do format <- lift (json_item conf "format");
      do updated_at <- lift (json_item conf "updated_at");
      print (ConfigurationLine level version format updated_at)) configs) components.

(** [__main__] in the two modes. *)
Inductive ld_mode := ModeInstall (found : res (list json)) | ModeList.

Definition loader_main (mode : ld_mode) : L unit :=
  match mode with
  | ModeInstall found => do configs <- lift found; for_each install configs
  | ModeList => list_action
  end.
End Loader.

(** * What the Sensing API is relied on for *)

(** Name, operating system and context of a component; level and version of a
    configuration, with its component; content, description and format. *)
Definition ckey : Type := json * json * json.
Definition vkey : Type := json * json * ckey.
Definition fields : Type := json * json * json.

Definition comp_params (k : ckey) : pydict :=
  let '(n, o, c) := k in [("name", n); ("os", o); ("context", c)].
Definition conf_params (k : vkey) : pydict :=
  let '(l, v, k) := k in [("level", l); ("version", v)] ++ comp_params k.
Definition field_params (f : fields) : pydict :=
  let '(content, description, format) := f in
  [("configuration", content); ("description", description); ("format", format)].

Definition present {A} (o : option A) : bool := match o with Some _ => true | None => false end.

(** ** What the API takes

    From its source, [control/api_server]: [ApiServer.Component.changeset],
    [ApiServer.Configuration.changeset], [ApiServer.Constants.sensor_os], and
    the migrations, whose text columns hold 255 characters. *)

Definition sensor_os : list string := ["linux"; "windows"; "nt"; "rump"].
Definition sensor_contexts : list string := ["virtue"; "unikernel"; "hypervisor"].
Definition sensor_levels : list string := ["off"; "default"; "low"; "high"; "adversarial"].

(** [validate_inclusion]. *)
Definition one_of (words : list string) (j : json) : bool :=
  match j with JStr s => bool_decide (s ∈ map u words) | _ => false end.

(** [cast] to a text field, and the column that keeps it. *)
Definition fits (j : json) : bool :=
  match j with JStr s => Z.of_nat (length s) <=? 255 | _ => false end.

Definition valid_component (k : ckey) (d : json) : bool :=
  let '(n, o, c) := k in fits n && one_of sensor_os o && one_of sensor_contexts c && fits d.
Definition valid_configuration (k : vkey) (f : fields) : bool :=
  let '(l, v, _) := k in let '(content, description, format) := f in
  one_of sensor_levels l && fits v && fits content && fits description && fits format.

(** What the laws speak of: keys are non-empty texts of visible characters; a
    value is not null, which is stored as nothing, and not the empty text, for
    which the default of its field is stored, and a text is of characters that
    can be sent. *)
Definition plain_text (j : json) : bool :=
  match j with
  | JStr s => negb (bool_decide (s = [])) && forallb (fun c => (33 <=? c) && (c <=? 126)) s
  | _ => false
  end.
Definition sendable (c : Z) : bool :=
  ((1 <=? c) && (c <? 0xD800)) || ((0xE000 <=? c) && (c <? 0x110000)).
Definition plain_value (j : json) : bool :=
  match j with
  | JNull => false
  | JStr s => negb (bool_decide (s = [])) && forallb sendable s
  | _ => true
  end.
Definition plain_ckey (k : ckey) : bool :=
  let '(n, o, c) := k in plain_text n && plain_text o && plain_text c.
Definition plain_vkey (k : vkey) : bool :=
  let '(l, v, k) := k in plain_text l && plain_text v && plain_ckey k.
Definition plain_fields (f : fields) : bool :=
  let '(content, description, format) := f in
  plain_value content && plain_value description && plain_value format.

(** The API answers from two tables.  A PUT in the mode that fits stores what
    is valid, of a configuration with its component in the table, and answers
    200; it refuses the rest with another status and both tables stay. *)
Class ApiLaws (Api : ConfigApi) (opts : ld_opts) := {
  comps : server -> ckey -> option json;
  confs : server -> vkey -> option fields;
  get_component s k : plain_ckey k = true -> exists code j,
    api_get s (construct_api_url opts "/configuration/component" false) (comp_params k) =
      Ok (Reply code (Ok j)) /\ (code = 200 \/ code = 400) /\
    has_item j "component" = Ok (present (comps s k));
  get_configuration s k : plain_vkey k = true -> exists code j,
    api_get s (construct_api_url opts "/configuration/component/configuration" false)
      (conf_params k) = Ok (Reply code (Ok j)) /\ (code = 200 \/ code = 400) /\
    has_item j "configuration" = Ok (present (confs s k));
  put_component s k d : plain_ckey k = true -> plain_value d = true -> exists code j s',
    api_put s (construct_api_url opts
        ("/configuration/component/" +:+ mode_of (present (comps s k))) false)
      (comp_params k ++ [("description", d)]) = (Ok (Reply code j), s') /\
    (code =? 200) = valid_component k d /\
    comps s' k = (if valid_component k d then Some d else comps s k) /\
    (forall k', k' <> k -> comps s' k' = comps s k') /\ (forall k', confs s' k' = confs s k');
  put_configuration s k f : plain_vkey k = true -> plain_fields f = true -> exists code j s',
    api_put s (construct_api_url opts
        ("/configuration/component/configuration/" +:+ mode_of (present (confs s k))) false)
      (conf_params k ++ field_params f) = (Ok (Reply code j), s') /\
    (code =? 200) = present (comps s k.2) && valid_configuration k f /\
    confs s' k = (if present (comps s k.2) && valid_configuration k f then Some f else confs s k) /\
    (forall k', k' <> k -> confs s' k' = confs s k') /\ (forall k', comps s' k' = comps s k');
}.

(** The abstract tables: what is valid takes the place of nothing, and with
    [--update] of what is there. *)
Definition merged {A} (upd ok : bool) (old : option A) (new : A) : option A :=
  if present old && negb upd then old else if ok then Some new else old.
Definition outcome (upd ok existed : bool) : output :=
  Result (if existed && negb upd then "exists"
          else if ok then mode_of existed +:+ "d" else "error").

(** The entries a component document and a configuration document need. *)
Definition names_component (j : json) (k : ckey) : Prop := component_key j = Ok (comp_params k).
Definition describes (j : json) (x : json * json * fields) : Prop :=
  let '(level, version, (content, description, format)) := x in
  json_item j "level" = Ok level /\ json_item j "version" = Ok version /\
  json_item j "configuration_content" = Ok content /\
  json_item j "description" = Ok description /\ json_item j "format" = Ok format.

(** * Lemmas *)

Section Install.
Context {Api : ConfigApi} (opts : ld_opts) {Laws : ApiLaws Api opts}.

Definition key_of (k : ckey) (x : json * json * fields) : vkey := (x.1.1, x.1.2, k).

Lemma exists_component k st :
  plain_ckey k = true ->
  exists_already opts "/configuration/component" "component" (comp_params k) st =
    (Ok (Some (present (comps (srv st) k))), st).
Proof.
  intros Hp. destruct (get_component (srv st) k Hp) as (code & j & Hg & Hc & Hh).
  unfold exists_already, get_request, bind, gets, lift. rewrite Hg. cbn.
  by destruct Hc as [-> | ->]; cbn; rewrite Hh.
Qed.

Lemma exists_configuration k st :
  plain_vkey k = true ->
  exists_already opts "/configuration/component/configuration" "configuration" (conf_params k) st =
    (Ok (Some (present (confs (srv st) k))), st).
Proof.
  intros Hp. destruct (get_configuration (srv st) k Hp) as (code & j & Hg & Hc & Hh).
  unfold exists_already, get_request, bind, gets, lift. rewrite Hg. cbn.
  by destruct Hc as [-> | ->]; cbn; rewrite Hh.
Qed.

(** One of the results as its text. *)
Definition result_text (o : output) : string := match o with Result r => r | _ => "" end.

Lemma install_component_spec comp k d s o :
  names_component comp k -> json_item comp "description" = Ok d ->
  plain_ckey k = true -> plain_value d = true ->
  let ok := valid_component k d in
  exists s',
    install_component opts comp (LdState s o) =
      (Ok (result_text (outcome (update opts) ok (present (comps s k)))), LdState s' o) /\
    comps s' k = merged (update opts) ok (comps s k) d /\
    (forall k', k' <> k -> comps s' k' = comps s k') /\ (forall k', confs s' k' = confs s k') /\
    (present (comps s k) = true -> update opts = false -> s' = s).
Proof.
  intros Hk Hd Hpk Hpd ok. unfold install_component. rewrite Hk. erewrite bind_lift by done.
  erewrite bind_step by (by apply exists_component). cbn [srv]. unfold merged, outcome.
  destruct (present (comps s k) && negb (update opts)) eqn:E.
  - by exists s.
  - rewrite Hd. erewrite bind_lift by done.
    destruct (put_component s k d Hpk Hpd) as (code & j & s' & Hput & H200 & Hn & Ho & Hc). exists s'.
    replace (dict_set "description" d (comp_params k)) with (comp_params k ++ [("description", d)])
      by (destruct k as [[n os] c]; reflexivity).
    erewrite bind_step by (unfold put_request; cbn [srv]; by rewrite Hput).
    cbn [reply_status]. rewrite H200. fold ok. split_and!; try done.
    + by destruct ok.
    + intros Hp Hu. by rewrite Hp, Hu in E.
Qed.

(** A variant is taken where its component is in the table. *)
Definition takes (s : server) (k : ckey) (x : json * json * fields) : bool :=
  present (comps s k) && valid_configuration (key_of k x) x.2.

(** A variant of whose entries the laws speak. *)
Definition plain_variant (k : ckey) (x : json * json * fields) : Prop :=
  plain_vkey (key_of k x) = true /\ plain_fields x.2 = true.

Lemma install_configuration_spec comp k conf x s o :
  names_component comp k -> describes conf x -> plain_variant k x ->
  exists s',
    install_configuration opts comp conf (LdState s o) =
      (Ok (result_text (outcome (update opts) (takes s k x) (present (confs s (key_of k x))))),
       LdState s' o) /\
    confs s' (key_of k x) = merged (update opts) (takes s k x) (confs s (key_of k x)) x.2 /\
    (forall k', k' <> key_of k x -> confs s' k' = confs s k') /\
    (forall k', comps s' k' = comps s k') /\
    (present (confs s (key_of k x)) = true -> update opts = false -> s' = s).
Proof.
  destruct x as [[l v] [[content d] f]]. intros Hk (Hl & Hv & Hct & Hd & Hf) [Hpk Hpf].
  unfold install_configuration, takes.
  assert (configuration_key comp conf = Ok (conf_params (l, v, k))) as ->.
  { unfold configuration_key. rewrite Hk, Hl, Hv. by destruct k as [[]]. }
  unfold key_of in *. cbn [fst snd] in *.
  erewrite bind_lift by done. erewrite bind_step by (by apply exists_configuration). cbn [srv].
  unfold merged, outcome.
  destruct (present (confs s (l, v, k)) && negb (update opts)) eqn:E.
  - by exists s.
  - rewrite Hct, Hd, Hf. do 3 (erewrite bind_lift by done).
    destruct (put_configuration s (l, v, k) (content, d, f) Hpk Hpf)
      as (code & j & s' & Hput & H200 & Hn & Ho & Hc).
    exists s'.
    replace (dict_set "format" f _) with (conf_params (l, v, k) ++ field_params (content, d, f))
      by (destruct k as [[n os] c]; reflexivity).
    erewrite bind_step by (unfold put_request; cbn [srv]; by rewrite Hput).
    cbn [reply_status snd] in *. rewrite H200. split_and!; try done.
    + by destruct (present (comps s k) && _).
    + intros Hq Hu. by rewrite Hq, Hu in E.
Qed.

Lemma interpolates_ok d ks (st : ld_state) :
  Forall (fun k => is_ok (json_item d k) = true) ks -> interpolates d ks st = (Ok tt, st).
Proof.
  unfold interpolates. induction 1 as [|k ks Hk _ IH]; [done|]. cbn [for_each].
  destruct (json_item d k) as [v|]; [|done]. exact IH.
Qed.

(** One round of the loop of [install]. *)
Definition install_variant (config configuration : json) : M ld_state unit :=
  do_ interpolates configuration ["level"; "version"];
  do res <- install_configuration opts config configuration;
  print (Result res).

Definition variant_result (s : server) (k : ckey) (x : json * json * fields) : output :=
  outcome (update opts) (takes s k x) (present (confs s (key_of k x))).

Lemma install_variant_step config k j x s o :
  names_component config k -> describes j x -> plain_variant k x ->
  exists s',
    install_variant config j (LdState s o) = (Ok tt, LdState s' (o ++ [variant_result s k x])) /\
    confs s' (key_of k x) = merged (update opts) (takes s k x) (confs s (key_of k x)) x.2 /\
    (forall k', k' <> key_of k x -> confs s' k' = confs s k') /\
    (forall k', comps s' k' = comps s k') /\
    (present (confs s (key_of k x)) = true -> update opts = false -> s' = s).
Proof.
  intros Hk Hd Hp. destruct (install_configuration_spec config k j x s o Hk Hd Hp)
    as (s' & Hrun & Hrest). exists s'. split; [|exact Hrest].
  unfold install_variant. rewrite bind_step with (a := tt) (s' := LdState s o).
  - by erewrite bind_step by exact Hrun.
  - apply interpolates_ok. destruct x as [[l v] [[content d] f]].
    destruct Hd as (Hl & Hv & _). by rewrite !Forall_cons, Hl, Hv.
Qed.

Lemma install_variants_spec config k js xs : forall s o,
  names_component config k -> Forall2 describes js xs -> Forall (plain_variant k) xs ->
  NoDup (map (key_of k) xs) ->
  exists s',
    for_each (install_variant config) js (LdState s o) =
      (Ok tt, LdState s' (o ++ map (variant_result s k) xs)) /\
    (forall x, x ∈ xs ->
       confs s' (key_of k x) = merged (update opts) (takes s k x) (confs s (key_of k x)) x.2) /\
    (forall k', k' ∉ map (key_of k) xs -> confs s' k' = confs s k') /\
    (forall k', comps s' k' = comps s k') /\
    (Forall (fun x => present (confs s (key_of k x)) = true) xs -> update opts = false -> s' = s).
Proof.
  revert xs. induction js as [|j js IH]; intros xs s o Hk H2 Hpl Hnd.
  { apply Forall2_nil_inv_l in H2 as ->. exists s. cbn. rewrite app_nil_r.
    split_and!; try done. by intros x []%not_elem_of_nil. }
  apply Forall2_cons_inv_l in H2 as (x & xs' & Hd & H2 & ->).
  apply NoDup_cons in Hnd as [Hx Hnd]. apply Forall_cons in Hpl as [Hpx Hpl].
  destruct (install_variant_step config k j x s o Hk Hd Hpx) as (s1 & H1 & Hn1 & Ho1 & Hc1 & Hs1).
  destruct (IH xs' s1 (o ++ [variant_result s k x]) Hk H2 Hpl Hnd)
    as (s2 & Hrun & Hn2 & Ho2 & Hc2 & Hs2).
  assert (forall y, y ∈ xs' -> confs s1 (key_of k y) = confs s (key_of k y)) as Hsame.
  { intros y Hy. apply Ho1. intros E. apply Hx. rewrite <-E. by apply list_elem_of_fmap_2. }
  assert (forall y, takes s1 k y = takes s k y) as Htk.
  { intros y. unfold takes. by rewrite Hc1. }
  exists s2. split_and!.
  - cbn [for_each]. erewrite bind_step by exact H1. rewrite Hrun, <-(assoc_L (++)). cbn [app map].
    do 4 f_equal. apply map_ext_in.
    intros y Hy%list_elem_of_In. unfold variant_result. by rewrite Hsame, Htk.
  - intros y [-> | Hy]%elem_of_cons; [by rewrite Ho2|]. by rewrite Hn2, Hsame, Htk.
  - intros k' [Hne Hni]%not_elem_of_cons. by rewrite Ho2, Ho1.
  - intros k'. by rewrite Hc2.
  - intros [Hpx' Hps]%Forall_cons Hu. rewrite Hs2, Hs1; try done.
    rewrite Hs1 by done. done.
Qed.

(** A configuration document: its component, description, variants, and what
    the variants describe, with values of which the laws speak. *)
Record config_doc (config : json) (k : ckey) (d : json) (js : list json)
    (xs : list (json * json * fields)) : Prop := ConfigDoc {
  cd_key : names_component config k;
  cd_description : json_item config "description" = Ok d;
  cd_variants : json_item config "configurations" = Ok (JList js);
  cd_describes : Forall2 describes js xs;
  cd_distinct : NoDup (map (key_of k) xs);
  cd_plain : plain_ckey k = true /\ plain_value d = true;
  cd_plain_variants : Forall (plain_variant k) xs;
}.

Lemma component_key_items config k :
  names_component config k ->
  Forall (fun n => is_ok (json_item config n) = true) ["os"; "context"; "name"].
Proof.
  unfold names_component, component_key. intros Hk.
  apply res_bind_Ok in Hk as (n & Hn & Hk). apply res_bind_Ok in Hk as (os & Ho & Hk).
  apply res_bind_Ok in Hk as (c & Hc & _). by rewrite !Forall_cons, Hn, Ho, Hc.
Qed.

(** The variants are judged once the component has been: whether it is in the
    table then. *)
Definition housed (s : server) (k : ckey) (d : json) : bool :=
  present (comps s k) || valid_component k d.
Definition accepted (s : server) (k : ckey) (d : json) (x : json * json * fields) : bool :=
  housed s k d && valid_configuration (key_of k x) x.2.

Lemma merged_present {A} upd ok (old : option A) new :
  present (merged upd ok old new) = present old || ok.
Proof. unfold merged. by destruct old, upd, ok. Qed.

Lemma install_spec config k d js xs s o :
  config_doc config k d js xs ->
  exists s',
    install opts config (LdState s o) =
      (Ok tt, LdState s' (o ++
         outcome (update opts) (valid_component k d) (present (comps s k)) ::
         map (fun x => outcome (update opts) (accepted s k d x) (present (confs s (key_of k x)))) xs)) /\
    comps s' k = merged (update opts) (valid_component k d) (comps s k) d /\
    (forall k', k' <> k -> comps s' k' = comps s k') /\
    (forall x, x ∈ xs ->
       confs s' (key_of k x) =
         merged (update opts) (accepted s k d x) (confs s (key_of k x)) x.2) /\
    (forall k', k' ∉ map (key_of k) xs -> confs s' k' = confs s k') /\
    (present (comps s k) = true -> Forall (fun x => present (confs s (key_of k x)) = true) xs ->
     update opts = false -> s' = s).
Proof.
  intros [Hk Hd Hv H2 Hnd [Hpk Hpd] Hpl].
  destruct (install_component_spec config k d s o Hk Hd Hpk Hpd) as (s1 & H1 & Hn1 & Ho1 & Hf1 & Hs1).
  destruct (install_variants_spec config k js xs s1
    (o ++ [outcome (update opts) (valid_component k d) (present (comps s k))]) Hk H2 Hpl Hnd)
    as (s2 & Hrun & Hn2 & Ho2 & Hc2 & Hs2).
  assert (forall x, takes s1 k x = accepted s k d x) as Htk.
  { intros x. unfold takes, accepted, housed. by rewrite Hn1, merged_present. }
  assert (map (variant_result s1 k) xs = map (fun x => outcome (update opts) (accepted s k d x)
    (present (confs s (key_of k x)))) xs) as Hr.
  { apply map_ext. intros x. unfold variant_result. by rewrite Hf1, Htk. }
  exists s2. split_and!.
  - unfold install. erewrite bind_step by (apply interpolates_ok; by eapply component_key_items).
    erewrite bind_lift by exact Hv. erewrite bind_lift by reflexivity.
    erewrite bind_step by exact H1. unfold print at 1. rewrite bind_modify. cbn [srv out].
    fold (install_variant config). rewrite Hr in Hrun.
    rewrite <-(assoc_L (++) o) in Hrun. exact Hrun.
  - by rewrite Hc2.
  - intros k' Hne. by rewrite Hc2, Ho1.
  - intros x Hx. by rewrite Hn2, Hf1, Htk.
  - intros k' Hni. by rewrite Ho2, Hf1.
  - intros Hp Hps Hu. rewrite Hs2, Hs1; try done. by rewrite Hs1.
Qed.

(** C36: refinement.  Installing a configuration document merges it into the
    API's two tables and nothing else.  The component and each variant that the
    API finds valid, a variant when its component is in the table by then, is
    there afterwards, with the document's data if it was new or [--update] is
    given and with its old data otherwise; what the API refuses changes
    nothing and is reported as [error]; every other entry is as before.  The
    results printed are, in order, one for the component and one for each
    variant: [created], [updated], [exists] or [error]. *)
Theorem install_refines_tables config k d js xs s o :
  config_doc config k d js xs ->
  exists s',
    install opts config (LdState s o) =
      (Ok tt, LdState s' (o ++
         outcome (update opts) (valid_component k d) (present (comps s k)) ::
         map (fun x => outcome (update opts) (accepted s k d x) (present (confs s (key_of k x)))) xs)) /\
    comps s' k = merged (update opts) (valid_component k d) (comps s k) d /\
    (forall k', k' <> k -> comps s' k' = comps s k') /\
    (forall x, x ∈ xs ->
       confs s' (key_of k x) =
         merged (update opts) (accepted s k d x) (confs s (key_of k x)) x.2) /\
    (forall k', k' ∉ map (key_of k) xs -> confs s' k' = confs s k').
Proof.
  intros Hdoc. destruct (install_spec config k d js xs s o Hdoc) as (s' & H1 & H2 & H3 & H4 & H5 & _).
  by exists s'.
Qed.

(** Installing a document the API has in full without [--update] sends
    nothing: the API's state is untouched and every result is [exists]. *)
Lemma install_again config k d js xs s o :
  config_doc config k d js xs -> update opts = false -> present (comps s k) = true ->
  Forall (fun x => present (confs s (key_of k x)) = true) xs ->
  install opts config (LdState s o) =
    (Ok tt, LdState s (o ++ replicate (S (length xs)) (Result "exists"))).
Proof.
  intros Hdoc Hu Hp Hps.
  destruct (install_spec config k d js xs s o Hdoc) as (s1 & H1 & _ & _ & _ & _ & Hsame).
  rewrite Hsame in H1 by done. rewrite H1, Hp, Hu. cbn [replicate]. do 4 f_equal.
  clear H1 Hsame Hdoc. induction Hps as [|x xs Hx _ IH]; [done|]. cbn [map length replicate].
  by rewrite Hx, IH.
Qed.
End Install.

(** ** The order of a listing *)

Lemma insert_sorted_perm k x l : insert_sorted k x l ≡ₚ (k, x) :: l.
Proof.
  induction l as [|[k' y] l IH]; [done|]. cbn. case_match; [done|].
  rewrite IH. apply Permutation_swap.
Qed.

Lemma sort_keyed_perm l : sort_keyed l ≡ₚ l.
Proof. induction l as [|[k x] l IH]; [done|]. cbn. by rewrite insert_sorted_perm, IH. Qed.

(** Sorted by key. *)
Definition by_key (a b : Z * json) : Prop := a.1 <= b.1.

Lemma insert_sorted_sorted k x l : StronglySorted by_key l -> StronglySorted by_key (insert_sorted k x l).
Proof.
  induction 1 as [|[k' y] l Hl IH Hf]; cbn; [by repeat constructor|].
  destruct (k <=? k') eqn:E.
  - apply Z.leb_le in E. constructor; [by constructor|]. constructor; [done|].
    eapply Forall_impl; [exact Hf|]. intros [] Hle. unfold by_key in *. cbn in *. lia.
  - apply Z.leb_gt in E. constructor; [done|]. rewrite insert_sorted_perm.
    constructor; [unfold by_key; cbn; lia|done].
Qed.

Lemma sort_keyed_sorted l : StronglySorted by_key (sort_keyed l).
Proof. induction l as [|[k x] l IH]; cbn; [constructor|]. by apply insert_sorted_sorted. Qed.

(** Entries of one key keep their order. *)
Lemma insert_sorted_stable k x l q :
  filter (fun a => a.1 = q) (insert_sorted k x l) = filter (fun a => a.1 = q) ((k, x) :: l).
Proof.
  induction l as [|[k' y] l IH]; [done|]. cbn [insert_sorted].
  destruct (k <=? k') eqn:E; [done|]. apply Z.leb_gt in E.
  rewrite !filter_cons in *. cbn [fst] in *. rewrite IH. repeat case_decide; done || lia.
Qed.

Lemma sort_keyed_stable l q :
  filter (fun a => a.1 = q) (sort_keyed l) = filter (fun a => a.1 = q) l.
Proof.
  induction l as [|[k x] l IH]; [done|]. cbn [sort_keyed foldr fst snd].
  rewrite insert_sorted_stable, !filter_cons. fold (sort_keyed l). by rewrite IH.
Qed.

(** A listing shows every configuration once, by ascending level, equal levels
    in the API's order. *)
Lemma sorted_configs_spec configs l :
  sorted_configs configs = Ok l ->
  exists ks kl, res_mapM sort_key configs = Ok ks /\ l = map snd kl /\
    kl ≡ₚ zip ks configs /\ StronglySorted by_key kl /\
    forall q, filter (fun a => a.1 = q) kl = filter (fun a => a.1 = q) (zip ks configs).
Proof.
  unfold sorted_configs. intros Hs. apply res_bind_Ok in Hs as (ks & Hks & [= <-]).
  exists ks, (sort_keyed (zip ks configs)).
  split_and!; [done|done|apply sort_keyed_perm|apply sort_keyed_sorted|].
  intros q. apply sort_keyed_stable.
Qed.

(** A component whose configurations the API does not give aborts the whole
    listing: the empty list that stands for it has no name. *)
Lemma listing_aborts {Api : ConfigApi} (opts : ld_opts) s o c ks reply_comps code j :
  code <> 200 ->
  api_get s (construct_api_url opts "/configuration/components" false) [] =
    Ok (Reply 200 (Ok reply_comps)) ->
  json_item reply_comps "components" = Ok (JList [c]) -> component_key c = Ok ks ->
  (forall k, api_get s (construct_api_url opts "/configuration/component/configurations" false) k =
     Ok (Reply code j)) ->
  list_action opts (LdState s o) = (Raise TypeError, LdState s o).
Proof.
  intros Hcode Hall Hcs Hk Herr. unfold component_key in Hk.
  apply res_bind_Ok in Hk as (n & Hn & Hk). apply res_bind_Ok in Hk as (os & Ho & Hk).
  apply res_bind_Ok in Hk as (ctx & Hc & _).
  unfold list_action, list_components, list_each, list_configurations, get_request, gets, lift, bind.
  cbn. rewrite Hall. cbn. rewrite Hcs. cbn. rewrite Ho, Hc, Hn, Herr. cbn.
  by rewrite (proj2 (Z.eqb_neq _ _)) by done.
Qed.

(** * An executable API *)

#[global] Instance json_eq_dec : EqDecision json.
Proof.
  refine (fix go a b {struct a} : Decision (a = b) :=
    let _ : EqDecision json := go in
    match a, b with
    | JNull, JNull => left _
    | JBool x, JBool y => cast_if (decide (x = y))
    | JInt x, JInt y => cast_if (decide (x = y))
    | JFloat x, JFloat y => cast_if (decide (x = y))
    | JStr x, JStr y => cast_if (decide (x = y))
    | JList x, JList y => cast_if (decide (x = y))
    | JObj x, JObj y => cast_if (decide (x = y))
    | _, _ => right _
    end); abstract congruence.
Defined.

Definition parse_ckey (p : pydict) : option (ckey * pydict) :=
  match p with
  | (_, n) :: (_, o) :: (_, c) :: rest => Some ((n, o, c), rest)
  | _ => None
  end.
Definition parse_vkey (p : pydict) : option (vkey * pydict) :=
  match p with
  | (_, l) :: (_, v) :: rest => '(k, rest) ← parse_ckey rest; Some ((l, v, k), rest)
  | _ => None
  end.

Definition answer_for (what : string) (found : bool) : res reply :=
  Ok (if found then Reply 200 (Ok (JObj [(u what, JObj [])]))
      else Reply 400 (Ok (JObj [(u "error", JBool true)]))).

Definition bad_request : res reply := Ok (Reply 500 (Ok (JObj []))).

Definition refused : res reply := Ok (Reply 400 (Ok (JObj [(u "error", JBool true)]))).
Definition stored : res reply := Ok (Reply 200 (Ok (JObj [(u "error", JBool false)]))).

(** Two association lists behind the four end points of an installation, with
    the API's checks. *)
Definition RefApi (opts : ld_opts) : ConfigApi := {|
  server := list (ckey * json) * list (vkey * fields);
  api_get := fun s url p =>
    if bool_decide (url = construct_api_url opts "/configuration/component" false) then
      match parse_ckey p with
      | Some (k, _) => answer_for "component" (present (dict_get k s.1))
      | None => bad_request
      end
    else match parse_vkey p with
         | Some (k, _) => answer_for "configuration" (present (dict_get k s.2))
         | None => bad_request
         end;
  api_put := fun s url p =>
    if bool_decide (url = construct_api_url opts "/configuration/component/create" false) ||
       bool_decide (url = construct_api_url opts "/configuration/component/update" false) then
      match parse_ckey p with
      | Some (k, [(_, d)]) =>
          if valid_component k d then (stored, (dict_set k d s.1, s.2)) else (refused, s)
      | _ => (bad_request, s)
      end
    else match parse_vkey p with
         | Some (k, [(_, c); (_, d); (_, f)]) =>
             if present (dict_get k.2 s.1) && valid_configuration k (c, d, f)
             then (stored, (s.1, dict_set k (c, d, f) s.2)) else (refused, s)
         | _ => (bad_request, s)
         end;
|}.

#[global] Instance construct_api_url_inj opts : Inj (=) (=) (fun p => construct_api_url opts p false).
Proof. intros p q H. unfold construct_api_url in H. by do 3 apply (inj _) in H. Qed.

Lemma url_eqb opts p q :
  bool_decide (construct_api_url opts p false = construct_api_url opts q false) = bool_decide (p = q).
Proof.
  apply bool_decide_ext. split; [|by intros ->].
  apply (inj (fun p => construct_api_url opts p false)).
Qed.

#[global] Program Instance RefApi_laws opts : ApiLaws (RefApi opts) opts := {|
  comps := fun (s : @server (RefApi opts)) k => dict_get k s.1;
  confs := fun (s : @server (RefApi opts)) k => dict_get k s.2;
|}.
Next Obligation.
  intros opts s [[n o] c] _. cbn -[construct_api_url has_item]. rewrite url_eqb.
  rewrite bool_decide_eq_true_2 by done.
  match goal with |- context [answer_for _ ?b] => destruct b eqn:E end;
    do 2 eexists; (split_and!; [reflexivity|by auto|first [reflexivity | exact (f_equal Ok (eq_sym E))]]).
Qed.
Next Obligation.
  intros opts s [[l v] [[n o] c]] _. cbn -[construct_api_url has_item]. rewrite url_eqb.
  rewrite bool_decide_eq_false_2 by done.
  match goal with |- context [answer_for _ ?b] => destruct b eqn:E end;
    do 2 eexists; (split_and!; [reflexivity|by auto|first [reflexivity | exact (f_equal Ok (eq_sym E))]]).
Qed.
Next Obligation.
  intros opts s [[n o] c] d _ _.
  cbn -[construct_api_url dict_get dict_set valid_component]. rewrite !url_eqb.
  replace (bool_decide _ || bool_decide _) with true by (by destruct (present _)).
  destruct (valid_component _ _) eqn:E; do 3 eexists;
    (split_and!; [reflexivity|done|cbn [fst]| |]); try done.
  - apply dict_get_set_eq.
  - intros. by apply dict_get_set_ne.
Qed.
Next Obligation.
  intros opts s [[l v] [[n o] c]] [[ct d] f] _ _.
  cbn -[construct_api_url dict_get dict_set valid_configuration present]. rewrite !url_eqb.
  replace (bool_decide _ || bool_decide _) with false by (by destruct (present _)).
  destruct (present _ && valid_configuration _ _) eqn:E; do 3 eexists;
    (split_and!; [reflexivity|done|cbn [snd]| |]); try done.
  - apply dict_get_set_eq.
  - intros. by apply dict_get_set_ne.
Qed.

(** * Witnesses *)

Definition ex_ld_opts : ld_opts := LdOpts "localhost" 17504 17141 "v1" false.
Definition ex_empty : list (ckey * json) * list (vkey * fields) := ([], []).
Definition str (s : string) : json := JStr (u s).
Definition ex_variant (level : string) : json :=
  JObj [(u "level", str level); (u "version", str "latest"); (u "format", str "json");
        (u "description", str "d"); (u "configuration_content", str "{}")].
Definition ex_levels : list string := ["off"; "default"; "loud"].
Definition ex_config_doc : json :=
  JObj [(u "name", str "lsof"); (u "context", str "virtue"); (u "os", str "linux");
        (u "description", str "open files");
        (u "configurations", JList (map ex_variant ex_levels))].
Definition ex_key : ckey := (str "lsof", str "linux", str "virtue").
Definition ex_xs : list (json * json * fields) :=
  map (fun l => (str l, str "latest", (str "{}", str "d", str "json"))) ex_levels.

Lemma ex_config_doc_ok : config_doc ex_config_doc ex_key (str "open files")
    (map ex_variant ex_levels) ex_xs.
Proof.
  split; try reflexivity.
  - repeat constructor.
  - by apply (bool_decide_unpack _).
  - done.
  - repeat constructor.
Qed.

(** A level the API does not know is refused. *)
Lemma install_refines_tables_witness :
  exists s' : list (ckey * json) * list (vkey * fields),
    install (Api := RefApi ex_ld_opts) ex_ld_opts ex_config_doc (LdState (Api := RefApi ex_ld_opts) ex_empty []) =
      (Ok tt, LdState (Api := RefApi ex_ld_opts) s'
         [Result "created"; Result "created"; Result "created"; Result "error"]).
Proof.
  destruct (install_refines_tables (Api := RefApi ex_ld_opts) ex_ld_opts ex_config_doc ex_key _ _ _
    ex_empty [] ex_config_doc_ok) as (s' & H & _).
  exists s'. exact H.
Defined.
