(* ===== verification/Installer.v ===== *)
(** The sensor installer, [src/bin/install_sensors.py], run on a Linux host: it
    finds sensors, kernel modules and targets by their definition files, checks
    them, and installs into every target what it asks for, with the scripts that
    build and start it.

    The disk is a map from absolute paths to files and directories; a path is
    resolved lexically, links are not modelled, and the order in which a
    directory is listed is the map's.  A definition is the JSON document of its
    file; where the program needs a text or a list and finds something else,
    [TypeError] is raised. *)

From stdpp Require Import gmap.
From S2P Require Import Prelude Json ConfigLoader.

(** * The disk *)

Definition path : Type := list string.

Inductive node := File (content : ustr) | Dir.

#[global] Instance node_eq_dec : EqDecision node.
Proof. solve_decision. Defined.

Abbreviation disk := (gmap path node).

(** [os.path.abspath(os.path.join(base, s))], the base an absolute path. *)
Definition join_path (base : path) (s : string) : path :=
  reverse (fold_left norm_step (str_split slash s)
             (if startswith s "/" then [] else reverse base)).

Definition is_dir (d : disk) (p : path) : bool :=
  match p with
  | [] => true
  | _ => match d !! p with Some Dir => true | _ => false end
  end.
Definition is_file (d : disk) (p : path) : bool :=
  match d !! p with Some (File _) => true | _ => false end.
Definition exists_ (d : disk) (p : path) : bool := is_dir d p || is_file d p.

(** The rest of a path below another. *)
Fixpoint below (p q : path) : option path :=
  match p, q with
  | [], _ => Some q
  | a :: p, b :: q => if decide (a = b) then below p q else None
  | _ :: _, [] => None
  end.

Abbreviation I := (M disk).

Definition check (b : bool) : I unit := if b then ret tt else throw OSError.

(** [os.listdir(p)] *)
Definition children (d : disk) (p : path) : list string :=
  omap (fun e => match below p e.1 with Some [name] => Some name | _ => None end) (map_to_list d).
Definition listdir (p : path) : I (list string) :=
  do d <- get;
  do_ check (is_dir d p);
  ret (children d p).

(** [shutil.rmtree(p)] *)
Definition rmtree (p : path) : I unit :=
  do d <- get;
  do_ check (is_dir d p);
  modify (filter (fun e => below p e.1 = None)).

(** The prefixes of a path, the shortest first, without the root. *)
Definition ancestors (p : path) : list path := map (fun n => take n p) (seq 1 (length p)).

Definition add_dir (d : disk) (p : path) : disk :=
  match d !! p with Some _ => d | None => <[p := Dir]> d end.

(** [os.makedirs(p)]: refused where the path exists or a file is on the way. *)
Definition makedirs (p : path) : I unit :=
  do d <- get;
  do_ check (negb (exists_ d p) && forallb (fun q => negb (is_file d q)) (ancestors p));
  modify (fun d => fold_left add_dir (ancestors p) d).

(** Writing a file: [open(p, "w")] and the text. *)
Definition parent (p : path) : path := take (length p - 1) p.
Definition write_text (p : path) (content : ustr) : I unit :=
  do d <- get;
  do_ check (negb (is_dir d p) && is_dir d (parent p));
  modify <[p := File content]>.

(** [shutil.copy(src, dst)] *)
Definition copy (src dst : path) : I unit :=
  do d <- get;
  match d !! src with
  | Some (File content) =>
      let dst := if is_dir d dst then dst ++ drop (length src - 1) src else dst in
      do_ check (negb (bool_decide (src = dst)));
      write_text dst content
  | _ => throw OSError
  end.

(** [shutil.copytree(src, dst)] *)
Definition copytree (src dst : path) : I unit :=
  do d <- get;
  do_ check (is_dir d src);
  do_ makedirs dst;
  modify (fun d' => foldr (fun e d' => match below src e.1 with
                                       | Some [] | None => d'
                                       | Some r => <[dst ++ r := e.2]> d'
                                       end) d' (map_to_list d)).

(** * Definitions *)

(** A sensor, kernel module or target that was found: its directory, its
    document and its name. *)
Record component := Component { c_root : path; c_def : json; c_name : string }.

Definition text (j : json) : res string :=
  match j with JStr s => path_text s | _ => Raise TypeError end.

(** [for x in j] *)
Definition items (j : json) : res (list json) :=
  match j with
  | JList l => Ok l
  | JObj d => Ok (map (fun e => JStr e.1) d)
  | JStr s => Ok (map (fun c => JStr [c]) s)
  | _ => Raise TypeError
  end.

(** [def[key]] as a text, a list, a list of texts. *)
Definition text_at (j : json) (key : string) : res string := let? v := json_item j key in text v.
Definition items_at (j : json) (key : string) : res (list json) :=
  let? v := json_item j key in items v.
Definition texts_at (j : json) (key : string) : res (list string) :=
  let? l := items_at j key in res_mapM text l.

(** The directories that [os.walk(p)] goes through. *)
Definition walk (d : disk) (p : path) : list path :=
  if is_dir d p then
    p :: omap (fun e => match e.2, below p e.1 with
                        | Dir, Some (_ :: _) => Some e.1
                        | _, _ => None
                        end) (map_to_list d)
  else [].

(** [find_kmods], [find_sensors] and [find_targets] differ in the name of the
    definition's file. *)
Fixpoint find_in (d : disk) (file : string) (dirs : list path) : res (list component) :=
  match dirs with
  | [] => Ok []
  | root :: dirs =>
      match d !! (root ++ [file]) with
      | Some (File content) =>
          let? def := loads content in
          let? name := text_at def "name" in
          let? l := find_in d file dirs in
          Ok (Component root def name :: l)
      | _ => find_in d file dirs
      end
  end.

Definition find_components (file : string) (directory : path) : I (list component) :=
  do d <- get; lift (find_in d file (walk d directory)).

Definition find_kmods := find_components "kernel_module.json".
Definition find_sensors := find_components "sensor.json".
Definition find_targets := find_components "target.json".

(** * Validation *)

(** The errors of a list of checks. *)
Definition collect {A} (f : A -> res (list string)) (l : list A) : res (list string) :=
  res_map (@concat string) (res_mapM f l).

Definition missing (j : json) (key error : string) : res (list string) :=
  let? b := has_item j key in Ok (if b then [] else [error]).

Definition is_list (j : json) (key : string) : res bool :=
  let? b := has_item j key in
  if b then let? v := json_item j key in Ok (match v with JList _ => true | _ => false end)
  else Ok false.

Definition validate_kmod (d : disk) (kmod : component) : res (list string) :=
  let def := c_def kmod in
  let? include := texts_at def "include" in
  let e1 := flat_map (fun s =>
    if exists_ d (join_path (c_root kmod) s) then []
    else ["kernel_module.json::include does not point to an existing file or directory"]) include in
  let? install := texts_at def "install" in
  let e2 := flat_map (fun s =>
    if is_file d (join_path (c_root kmod) s) then []
    else ["kernel_module.json::install entry does not point to an existing file"]) install in
  let? e3 := collect (fun k => missing def k ("kernel_module.json::" +:+ k +:+ " is a required key"))
               ["apt-get"; "name"; "version"; "target_folder"] in
  let? l := is_list def "apt-get" in
  Ok (e1 ++ e2 ++ e3 ++ if l then [] else ["kernel_module.json::apt-get needs to be a list"]).

Definition validate_target (target : component) (sensors kmods : list component)
    : res (list string) :=
  let def := c_def target in
  let? has_os := has_item def "os" in
  let? e1 := if has_os then
               let? os := json_item def "os" in
               let linux_or_windows := match os with
                                       | JStr s => bool_decide (s = u "Linux" \/ s = u "Windows")
                                       | _ => false
                                       end in
               Ok (if linux_or_windows then [] else ["Platform is Invalid!"])
             else Ok [] in
  let? req_sensors := texts_at def "sensors" in
  let e2 := flat_map (fun s =>
    if bool_decide (s ∈ map c_name sensors) then []
    else ["required sensor [" +:+ s +:+ "] does not exist"]) req_sensors in
  let? req_kmods := texts_at def "kernel_modules" in
  let e3 := flat_map (fun s =>
    if bool_decide (s ∈ map c_name kmods) then []
    else ["required kernel module [" +:+ s +:+ "] does not exist"]) req_kmods in
  let? e4 := collect (fun k => missing def k
                        ("Required directory definition field missing [" +:+ k +:+ "]"))
               ["os"; "sensors_directory"; "requirements_directory"; "startup_scripts_directory";
                "library_directory"] in
  Ok (e1 ++ e2 ++ e3 ++ e4).

(** The breakpoint in the branch for a key that is not a list is left out. *)
Definition validate_sensor (d : disk) (sensor : component) : res (list string) :=
  let def := c_def sensor in
  let? script := json_item def "startup_script" in
  let? e1 := if json_truth script then
               let? s := text script in
               Ok (if is_file d (join_path (c_root sensor) s) then []
                   else ["sensor.json::startup_script does not point to an existing file"])
             else Ok [] in
  let? reqs := texts_at def "requirements_files" in
  let e2 := flat_map (fun s =>
    if is_file d (join_path (c_root sensor) s) then []
    else ["sensor.json::requirements_file [" +:+ s +:+ "] does not point to an existing file"]) reqs in
  let? files := items_at def "files" in
  let? e3 := collect (fun f =>
    let? s := text_at f "source" in
    Ok (if is_file d (join_path (c_root sensor) s) then []
        else ["sensor.json::files[]::source [" +:+ s +:+ "] does not point to an existing file"]))
    files in
  let? e4 := collect (fun k =>
    let? b := has_item def k in
    if negb b then Ok ["sensor.json::" +:+ k +:+ " required key is missing"]
    else let? l := is_list def k in
         Ok (if l then [] else ["sensor.json::" +:+ k +:+ " must be a list"]))
    ["required_sub_directories"; "apt-get"] in
  let? e5 := collect (fun k => missing def k ("sensor.json::" +:+ k +:+ " required key is missing"))
               ["name"; "version"; "target_folder"] in
  Ok (e1 ++ e2 ++ e3 ++ e4 ++ e5).

(** * Installation *)

(** The directory of a target that a key of its definition names. *)
Definition target_dir (target : component) (key : string) : res path :=
  res_map (join_path (c_root target)) (text_at (c_def target) key).

Definition prep_dir (target : component) (dir_key : string) : I unit :=
  do p <- lift (target_dir target dir_key);
  do d <- get;
  do_ (if exists_ d p then rmtree p else ret tt);
  makedirs p.

Definition dir_keys : list string :=
  ["sensors_directory"; "requirements_directory"; "startup_scripts_directory";
   "library_directory"; "kernel_mod_directory"].

Definition prep_target (target : component) : I unit := for_each (prep_dir target) dir_keys.

Definition install_kernel_module (target kmod : component) : I unit :=
  do kmod_dir <- lift (target_dir target "kernel_mod_directory");
  do _ <- lift (json_item (c_def kmod) "version");
  do folder <- lift (text_at (c_def kmod) "target_folder");
  let kmod_root_dir := join_path kmod_dir folder in
  do include <- lift (texts_at (c_def kmod) "include");
  for_each (fun inc_path => copytree (join_path (c_root kmod) inc_path)
                              (join_path kmod_root_dir inc_path)) include.

Definition install_sensor_wrapper (target : component) (wrapper_dir : path) : I unit :=
  do reqs_dir <- lift (target_dir target "requirements_directory");
  do lib_dir <- lift (target_dir target "library_directory");
  let wrapper_dest_dir := join_path lib_dir "sensor_wrapper" in
  do_ makedirs wrapper_dest_dir;
  do_ for_each (fun f => copy (join_path wrapper_dir f) (join_path wrapper_dest_dir f))
        ["sensor_wrapper.py"; "setup.py"];
  copy (join_path wrapper_dir "sensor_wrapper_requirements.txt")
       (join_path reqs_dir "sensor_wrapper_requirements.txt").

Definition copy_file (src_dir dest_dir : path) (file_def : json) : I unit :=
  do source <- lift (text_at file_def "source");
  do dest <- lift (text_at file_def "dest");
  copy (join_path src_dir source) (join_path dest_dir dest).

Definition make_sub_dir (dest_dir : path) (run_sub_dir : string) : I unit :=
  do_ makedirs (join_path dest_dir run_sub_dir);
  write_text (join_path (join_path dest_dir run_sub_dir) ".empty") [10].

Definition copy_startup (src_dir run_dir : path) (script : json) : I unit :=
  if json_truth script then
    do s <- lift (text script);
    copy (join_path src_dir s) (join_path run_dir s)
  else ret tt.

Definition install_sensor (target sensor : component) : I unit :=
  do sensors_dir <- lift (target_dir target "sensors_directory");
  do reqs_dir <- lift (target_dir target "requirements_directory");
  do run_dir <- lift (target_dir target "startup_scripts_directory");
  do _ <- lift (json_item (c_def sensor) "version");
  do folder <- lift (text_at (c_def sensor) "target_folder");
  let sensor_dest_dir := join_path sensors_dir folder in
  let sensor_src_dir := c_root sensor in
  do_ makedirs sensor_dest_dir;
  do files <- lift (items_at (c_def sensor) "files");
  do_ for_each (copy_file sensor_src_dir sensor_dest_dir) files;
  do sub_dirs <- lift (texts_at (c_def sensor) "required_sub_directories");
  do_ for_each (make_sub_dir sensor_dest_dir) sub_dirs;
  do script <- lift (json_item (c_def sensor) "startup_script");
  do_ copy_startup sensor_src_dir run_dir script;
  do reqs <- lift (texts_at (c_def sensor) "requirements_files");
  for_each (fun s => copy (join_path sensor_src_dir s) (join_path reqs_dir s)) reqs.

(** ** Scripts *)

Definition create_requirements_master (target : component) : I unit :=
  do req_dir <- lift (target_dir target "requirements_directory");
  do files <- listdir req_dir;
  write_text (join_path req_dir "requirements_master.txt")
    (flat_map (fun f => u ("-r " +:+ f) ++ [10]) files).

Definition create_sensor_startup_master (target : component) : I unit :=
  do start_dir <- lift (target_dir target "startup_scripts_directory");
  do scripts <- listdir start_dir;
  write_text (join_path start_dir "run_sensors.sh")
    (u "#!/bin/bash" ++ [10] ++
     flat_map (fun s => u ("/opt/sensor_startup/" +:+ s +:+ " &") ++ [10]) scripts).

(** [os.path.relpath(p, start)] of absolute paths *)
Fixpoint relpath_parts (p start : path) : path :=
  match p, start with
  | a :: p', b :: start' =>
      if decide (a = b) then relpath_parts p' start' else replicate (length start) ".." ++ p
  | _, _ => replicate (length start) ".." ++ p
  end.
Definition relpath (p start : path) : string :=
  match relpath_parts p start with [] => "." | l => str_join "/" l end.

Definition install_script (os : string) : string :=
  if bool_decide (os = "Windows") then "install.ps1" else "install.sh".

Definition create_support_library_install_script (target : component) : I unit :=
  do lib_dir <- lift (target_dir target "library_directory");
  do d <- get;
  let pip_installs := map (fun root => relpath root lib_dir)
                        (filter (fun root => is_file d (root ++ ["setup.py"])) (walk d lib_dir)) in
  do os <- lift (text_at (c_def target) "os");
  write_text (join_path lib_dir (install_script os))
    (flat_map (fun p => u ("pip install ./" +:+ p +:+ " --upgrade") ++ [10]) pip_installs).

(** [kmod_idx[name]]: of several components of a name the last is in the
    dictionary. *)
Definition find_component (name : string) (l : list component) : res component :=
  opt_res KeyError (find (fun c => bool_decide (c_name c = name)) (reverse l)).

(** One step of the build: into the directory of the script, run it, back. *)
Definition build_step (shell : string) (kmod_root_dir mod_dir : path) (inst_file : string) : ustr :=
  let inst := join_path mod_dir inst_file in
  let inst_run_file := default "" (last inst) in
  let inst_rel_dir := relpath (parent inst) kmod_root_dir in
  let up_rel_dir := relpath kmod_root_dir (parent inst) in
  u ("cd " +:+ inst_rel_dir) ++ [10] ++ u (shell +:+ " ./" +:+ inst_run_file) ++ [10] ++
  u ("cd " +:+ up_rel_dir) ++ [10].

Definition build_steps (shell : string) (kmod_root_dir : path) (kmods : list component)
    (req_kmod : string) : res (list ustr) :=
  let? kmod := find_component req_kmod kmods in
  let? folder := text_at (c_def kmod) "target_folder" in
  let mod_dir := join_path kmod_root_dir folder in
  let? install := texts_at (c_def kmod) "install" in
  Ok (map (build_step shell kmod_root_dir mod_dir) install).

Definition shell_of (os : string) : string :=
  if bool_decide (os = "Windows") then "powershell -NoProfile -ExecutionPolicy Bypass"
  else if bool_decide (os = "Linux") then "bash" else "None".

Definition create_kernel_module_install_script (target : component) (kmods : list component) : I unit :=
  do kmod_root_dir <- lift (target_dir target "kernel_mod_directory");
  do os <- lift (text_at (c_def target) "os");
  do req_kmods <- lift (texts_at (c_def target) "kernel_modules");
  do steps <- lift (res_map (@concat ustr)
                      (res_mapM (build_steps (shell_of os) kmod_root_dir kmods) req_kmods));
  write_text (join_path kmod_root_dir (install_script os))
    ((if bool_decide (os = "Linux") then u "#!/bin/bash" ++ [10] else []) ++ concat steps).

(** The packages the target's sensors and modules ask for, each once. *)
Definition apt_of (l : list component) (name : string) : res (list string) :=
  let? c := find_component name l in texts_at (c_def c) "apt-get".

Definition create_apt_get_script (target : component) (sensors kmods : list component) : I unit :=
  do os <- lift (text_at (c_def target) "os");
  if bool_decide (os = "Windows") then ret tt
  else
    do lib_dir <- lift (target_dir target "library_directory");
    do req_sensors <- lift (texts_at (c_def target) "sensors");
    do l1 <- lift (res_mapM (apt_of sensors) req_sensors);
    do req_kmods <- lift (texts_at (c_def target) "kernel_modules");
    do l2 <- lift (res_mapM (apt_of kmods) req_kmods);
    let apt_libs := remove_dups (concat l1 ++ concat l2) in
    write_text (join_path lib_dir "apt_get_install.sh")
      (u "#!/bin/bash" ++ [10] ++
       match apt_libs with
       | [] => []
       | _ => u ("apt-get install -y " +:+ str_join " " apt_libs) ++ [10]
       end).

(** [install_sensors_in_target(target, kmods, sensors, wrapper_dir, ...)] *)
Definition install_sensors_in_target (target : component) (kmods sensors : list component)
    (wrapper_dir : path) : I unit :=
  do req_sensors <- lift (texts_at (c_def target) "sensors");
  do_ prep_target target;
  do req_kmods <- lift (texts_at (c_def target) "kernel_modules");
  do_ for_each (fun name => do k <- lift (find_component name kmods);
                            install_kernel_module target k) req_kmods;
  do_ install_sensor_wrapper target wrapper_dir;
  do_ for_each (fun name => do s <- lift (find_component name sensors);
                            install_sensor target s) req_sensors;
  do_ create_requirements_master target;
  do_ create_support_library_install_script target;
  do_ create_kernel_module_install_script target kmods;
  do_ create_sensor_startup_master target;
  create_apt_get_script target sensors kmods.

(** * The program *)

Record install_opts := InstallOpts {
  io_mode : string; skip_sensors : list string; skip_modules : list string;
  skip_targets : list string }.

(** The components that are not skipped, up to the first with errors: then the
    program exits with 1.  [version] says that every component's version is
    printed first, whether it is skipped or not. *)
Fixpoint included (version : bool) (skip : list string) (check : component -> res (list string))
    (l : list component) : res (option (list component)) :=
  match l with
  | [] => Ok (Some [])
  | c :: l =>
      let? _ := if version then json_item (c_def c) "version" else Ok JNull in
      if bool_decide (c_name c ∈ skip) then included version skip check l
      else
        let? errors := check c in
        match errors with
        | [] => let? r := included version skip check l in
                Ok (match r with Some cs => Some (c :: cs) | None => None end)
        | _ => Ok None
        end
  end.

(** [__main__], the working directory the repository's; the exit status. *)
Definition installer_main (cwd : path) (opts : install_opts) : I Z :=
  do sensors <- find_sensors (join_path cwd "./sensors");
  do d <- get;
  do r <- lift (included true (skip_sensors opts) (validate_sensor d) sensors);
  match r with
  | None => ret 1
  | Some included_sensors =>
      do kmods <- find_kmods cwd;
      do r <- lift (included true (skip_modules opts) (validate_kmod d) kmods);
      match r with
      | None => ret 1
      | Some included_modules =>
          do targets <- find_targets (join_path cwd "./targets");
          do r <- lift (included false (skip_targets opts)
                          (fun t => validate_target t included_sensors included_modules) targets);
          match r with
          | None => ret 1
          | Some included_targets =>
              do_ (if bool_decide (io_mode opts = "install") then
                     for_each (fun t => install_sensors_in_target t included_modules included_sensors
                                          (join_path cwd "./sensors/wrapper")) included_targets
                   else ret tt);
              ret 0
          end
      end
  end.

(** * Paths *)

(** A name of a directory entry. *)
Definition name_ok (c : string) : Prop :=
  c <> "" /\ c <> "." /\ c <> ".." /\ has_char slash c = false.

Lemma join_not_absolute l : Forall (fun c => c <> "" /\ has_char slash c = false) l ->
  startswith (str_join "/" l) "/" = false.
Proof.
  intros Hl. destruct (startswith (str_join "/" l) "/") eqn:E; [|done].
  apply startswith_spec in E as [t E]. destruct Hl as [|c l [Hne Hs] _]; [done|].
  destruct c as [|a c]; [done|]. unfold has_char in Hs.
  cbn [str_chars existsb] in Hs. apply orb_false_iff in Hs as [Ha _].
  assert (exists r, str_join "/" (String.String a c :: l) = String.String a r) as [r Hr]
    by (destruct l; by eexists).
  rewrite Hr in E. cbn in E. injection E as -> _. done.
Qed.

(** A relative path that only goes down. *)
Definition plain (s : string) : Prop :=
  startswith s "/" = false /\ Forall (fun c => c <> "..") (str_split slash s).

Lemma norm_down l acc : Forall (fun c => c <> "..") l ->
  exists r, fold_left norm_step l acc = reverse r ++ acc.
Proof.
  intros Hl. revert acc. induction Hl as [|c l Hc _ IH]; intros acc; [by exists []|].
  cbn [fold_left]. unfold norm_step at 2. rewrite (bool_decide_eq_false_2 _ Hc).
  destruct (bool_decide (c = "") || bool_decide (c = ".")); [apply IH|].
  destruct (IH (c :: acc)) as [r ->]. exists (c :: r). rewrite reverse_cons, <-app_assoc. done.
Qed.

Lemma join_plain base s : plain s -> exists r, join_path base s = base ++ r.
Proof.
  intros [Ha Hl]. unfold join_path. rewrite Ha. destruct (norm_down _ (reverse base) Hl) as [r ->].
  exists r. by rewrite reverse_app, !reverse_involutive.
Qed.

Lemma norm_names l acc : Forall name_ok l -> fold_left norm_step l acc = reverse l ++ acc.
Proof.
  intros Hl. revert acc. induction Hl as [|c l (H1 & H2 & H3 & _) _ IH]; intros acc; [done|].
  cbn [fold_left]. unfold norm_step at 2. rewrite !bool_decide_eq_false_2 by done. cbn [orb].
  rewrite IH, reverse_cons, <-app_assoc. done.
Qed.

Lemma name_ok_plain c : name_ok c -> plain c /\ forall base, join_path base c = base ++ [c].
Proof.
  intros Hc. pose proof Hc as (H1 & H2 & H3 & H4).
  assert (str_split slash c = [c]) as Hsp.
  { by apply str_split_none. }
  assert (startswith c "/" = false) as Ha
    by (apply (join_not_absolute [c]); by repeat constructor).
  split.
  - split; [done|]. rewrite Hsp. by repeat constructor.
  - intros base. unfold join_path. rewrite Hsp, Ha, norm_names by (by repeat constructor).
    cbn [reverse]. rewrite reverse_app, reverse_involutive. done.
Qed.

Lemma norm_up k (pre rest : path) : length rest = k ->
  fold_left norm_step (replicate k "..") (reverse (pre ++ rest)) = reverse pre.
Proof.
  revert rest. induction k as [|k IH]; intros rest Hk.
  - apply length_zero_iff_nil in Hk as ->. by rewrite app_nil_r.
  - destruct rest as [|x rest _] using rev_ind; [done|].
    rewrite length_app in Hk. cbn in Hk. cbn [replicate fold_left].
    rewrite app_assoc, reverse_app. cbn [norm_step]. unfold norm_step at 2.
    rewrite (bool_decide_eq_false_2 (".." = "")), (bool_decide_eq_false_2 (".." = ".")),
      bool_decide_eq_true_2 by done.
    cbn. apply IH. lia.
Qed.

Lemma relpath_norm p : forall start pre,
  Forall name_ok p ->
  fold_left norm_step (relpath_parts p start) (reverse (pre ++ start)) = reverse (pre ++ p).
Proof.
  assert (forall p start pre, Forall name_ok p ->
    fold_left norm_step (replicate (length start) ".." ++ p) (reverse (pre ++ start)) =
    reverse (pre ++ p)) as Hdiv.
  { intros q start pre Hq. rewrite fold_left_app, norm_up by done.
    rewrite norm_names by done. by rewrite reverse_app. }
  induction p as [|a p IH]; intros start pre Hp; [destruct start; by apply Hdiv|].
  destruct start as [|b start]; [by apply Hdiv|]. cbn [relpath_parts].
  case_decide as E; [|by apply Hdiv]. subst.
  apply Forall_cons in Hp as [_ Hp]. specialize (IH start (pre ++ [b]) Hp).
  by rewrite <-!app_assoc in IH.
Qed.

Lemma relpath_parts_names p start :
  Forall name_ok p -> Forall (fun c => c <> "" /\ has_char slash c = false) (relpath_parts p start).
Proof.
  assert (forall n q, Forall name_ok q ->
    Forall (fun c => c <> "" /\ has_char slash c = false) (replicate n ".." ++ q)) as Hd.
  { intros n q Hq. apply Forall_app. split; [by apply Forall_replicate|].
    eapply Forall_impl; [exact Hq|]. by intros c (? & _ & _ & ?). }
  revert start. induction p as [|a p IH]; intros start Hp.
  - destruct start; by apply Hd.
  - destruct start as [|b start]; [by apply Hd|]. cbn [relpath_parts].
    case_decide; [|by apply Hd]. apply IH. by apply Forall_cons in Hp as [_ Hp].
Qed.

(** [os.path.relpath] leads where it says. *)
Lemma join_relpath p start : Forall name_ok p -> join_path start (relpath p start) = p.
Proof.
  intros Hp. pose proof (relpath_parts_names p start Hp) as Hn.
  pose proof (relpath_norm p start [] Hp) as Hf. cbn [app] in Hf. unfold relpath.
  destruct (relpath_parts p start) as [|c l] eqn:E.
  - cbn [fold_left] in Hf. change (reverse (reverse start) = p). by rewrite Hf, reverse_involutive.
  - unfold join_path. rewrite join_not_absolute by done.
    rewrite (str_split_join slash); [|done|eapply Forall_impl; [exact Hn|]; by intros ? []].
    by rewrite Hf, reverse_involutive.
Qed.

(** Roundtrip.  The build script of the kernel modules does not lose its
    way: from the modules' directory, the path of the first [cd] leads to the
    directory of the install file, and from there the path of the last one leads
    back, so that every step starts where the first did. *)
Theorem build_step_returns shell root mod_dir file :
  Forall name_ok root -> Forall name_ok (join_path mod_dir file) ->
  exists rel up run, build_step shell root mod_dir file =
      u ("cd " +:+ rel) ++ [10] ++ u (shell +:+ " ./" +:+ run) ++ [10] ++ u ("cd " +:+ up) ++ [10] /\
    join_path root rel = parent (join_path mod_dir file) /\
    join_path (join_path root rel) up = root.
Proof.
  intros Hr Hf. assert (Forall name_ok (parent (join_path mod_dir file))) as Hp
    by (by apply Forall_take).
  eexists _, _, _. split; [reflexivity|].
  rewrite (join_relpath (parent (join_path mod_dir file)) root) by done.
  split; [done|by apply join_relpath].
Qed.

(** * Reading only *)

Definition reads_only {A} (m : I A) : Prop := forall d, (m d).2 = d.

Lemma reads_only_find file directory : reads_only (find_components file directory).
Proof. done. Qed.

Lemma reads_only_lift {A} (r : res A) : reads_only (lift r).
Proof. done. Qed.

(** Past a computation that only reads, what is shown of the rest is shown of
    the whole: [P] says it of an outcome and the disk after. *)
Lemma reads_only_bind {A B : Type} (P : res B * disk -> Prop) (m : I A) (f : A -> I B) d :
  reads_only m -> (forall a, (m d).1 = Ok a -> P (f a d)) -> (forall e, P (Raise e, d)) ->
  P (bind m f d).
Proof.
  intros Hm Hf Hr. specialize (Hm d). unfold bind. destruct (m d) as [[a|e] d'] eqn:E;
    cbn in Hm; subst; [by apply Hf|apply Hr].
Qed.

(** What a run must satisfy to leave the disk to a checked installation only. *)
Definition spares (opts : install_opts) (d : disk) (o : res Z * disk) : Prop :=
  o.1 = Ok 1 \/ io_mode opts <> "install" -> o.2 = d.

(** Error.  A component that fails its check ends the program with status 1
    and the disk as it was, whatever else was found; and with a mode other than
    [install] the disk is never changed. *)
Theorem failed_check_installs_nothing cwd opts d :
  (installer_main cwd opts d).1 = Ok 1 \/ io_mode opts <> "install" ->
  (installer_main cwd opts d).2 = d.
Proof.
  change (spares opts d (installer_main cwd opts d)). unfold installer_main.
  apply reads_only_bind; [done| |done]. intros sensors _.
  apply reads_only_bind; [done| |done]. intros d1 _.
  apply reads_only_bind; [done| |done]. intros [ss|] _; [|done].
  apply reads_only_bind; [done| |done]. intros kmods _.
  apply reads_only_bind; [done| |done]. intros [ms|] _; [|done].
  apply reads_only_bind; [done| |done]. intros targets _.
  apply reads_only_bind; [done| |done]. intros [ts|] _; [|done].
  unfold spares, bind. case_bool_decide as Hm; [|done].
  destruct (for_each _ ts d) as [[[]|e] d']; cbn; intros [|]; done.
Qed.

(** * What was checked *)

Lemma concat_nil {A} (l : list (list A)) : concat l = [] -> Forall (fun x => x = []) l.
Proof.
  induction l as [|x l IH]; cbn; intros H; [done|]. apply app_eq_nil in H as [-> H].
  constructor; [done|by apply IH].
Qed.

Lemma flat_map_nil {A B : Type} (f : A -> list B) l : flat_map f l = [] -> forall x, x ∈ l -> f x = [].
Proof.
  induction l as [|a l IH]; cbn; intros H x Hx; [by apply elem_of_nil in Hx|].
  apply app_eq_nil in H as [H1 H2]. apply elem_of_cons in Hx as [->|Hx]; [done|by apply IH].
Qed.

Lemma find_component_some name l :
  name ∈ map c_name l -> exists c, find_component name l = Ok c /\ c ∈ l /\ c_name c = name.
Proof.
  intros H. apply list_elem_of_fmap_1 in H as (c & -> & Hc). unfold find_component.
  destruct (find _ (reverse l)) as [c'|] eqn:E.
  - exists c'. split; [done|]. pose proof (find_some _ _ E) as [Hin Hn].
    apply list_elem_of_In in Hin. rewrite elem_of_reverse in Hin.
    split; [done|by apply bool_decide_eq_true in Hn].
  - exfalso. assert (In c (reverse l)) as Hin by (apply list_elem_of_In; by rewrite elem_of_reverse).
    pose proof (find_none _ _ E c Hin) as Hf. by apply bool_decide_eq_false in Hf.
Qed.

(** Safety.  Of a target without errors every sensor and every kernel module
    it asks for is among the included ones, so that no lookup in the index of
    [install_sensors_in_target] raises [KeyError]. *)
Theorem validated_components_found target sensors kmods :
  validate_target target sensors kmods = Ok [] ->
  exists ss ms, texts_at (c_def target) "sensors" = Ok ss /\
    texts_at (c_def target) "kernel_modules" = Ok ms /\
    (forall s, s ∈ ss -> exists c, find_component s sensors = Ok c /\ c ∈ sensors /\ c_name c = s) /\
    (forall m, m ∈ ms -> exists c, find_component m kmods = Ok c /\ c ∈ kmods /\ c_name c = m).
Proof.
  unfold validate_target. intros H. apply res_bind_Ok in H as (b0 & _ & H).
  apply res_bind_Ok in H as (e1 & _ & H). apply res_bind_Ok in H as (ss & Hs & H).
  apply res_bind_Ok in H as (ms & Hm & H). apply res_bind_Ok in H as (e4 & _ & H).
  injection H as H. apply app_eq_nil in H as [_ H]. apply app_eq_nil in H as [H2 H].
  apply app_eq_nil in H as [H3 _]. exists ss, ms. do 2 (split; [done|]).
  pose proof (flat_map_nil _ _ H2) as Hs2. pose proof (flat_map_nil _ _ H3) as Hm2.
  split; [intros c Hc; specialize (Hs2 c Hc); cbv beta in Hs2|intros c Hc; specialize (Hm2 c Hc); cbv beta in Hm2];
    case_bool_decide; try done; by apply find_component_some.
Qed.

(** * On a small repository *)

Definition obj (l : list (string * json)) : json := JObj (map (fun e => (u e.1, e.2)) l).
Definition str (s : string) : json := JStr (u s).
Definition strs (l : list string) : json := JList (map str l).

(** A target in [/t] that asks for the sensor of [/s]; [keys] are the directories
    its definition names. *)
Definition small_target (keys : list string) : component :=
  Component ["t"]
    (obj ([("name", str "demo"); ("os", str "Linux"); ("sensors", strs ["ps"]);
           ("kernel_modules", strs [])] ++ map (fun k => (k, str ("./" +:+ k))) keys)) "demo".

Definition small_sensor (script : string) : component :=
  Component ["s"]
    (obj [("name", str "ps"); ("version", str "1.0"); ("target_folder", str "ps");
          ("files", JList [obj [("source", str "sensor.py"); ("dest", str "sensor.py")]]);
          ("startup_script", str script); ("requirements_files", strs ["reqs.txt"]);
          ("required_sub_directories", strs ["certs"]); ("apt-get", strs [])]) "ps".

Definition small_disk : disk :=
  list_to_map
    [(["t"], Dir); (["t"; "sensors_directory"], Dir); (["t"; "sensors_directory"; "old"], File []);
     (["s"], Dir); (["s"; "sensor.py"], File (u "import time")); (["s"; "run.sh"], File (u "python"));
     (["s"; "reqs.txt"], File (u "curio"));
     (["w"], Dir); (["w"; "sensor_wrapper.py"], File (u "class")); (["w"; "setup.py"], File []);
     (["w"; "sensor_wrapper_requirements.txt"], File (u "pykafka"))].

Definition small_install (keys : list string) : res unit * disk :=
  install_sensors_in_target (small_target keys) [] [small_sensor "run.sh"] ["w"] small_disk.

(** The installation runs to its end and leaves the files where they belong. *)
Example small_install_runs :
  (small_install dir_keys).1 = Ok tt /\
  let d := (small_install dir_keys).2 in
  d !! ["t"; "sensors_directory"; "old"] = None /\
  d !! ["t"; "sensors_directory"; "ps"; "sensor.py"] = Some (File (u "import time")) /\
  d !! ["t"; "sensors_directory"; "ps"; "certs"; ".empty"] = Some (File [10]) /\
  d !! ["t"; "startup_scripts_directory"; "run_sensors.sh"] =
    Some (File (u "#!/bin/bash" ++ [10] ++ u "/opt/sensor_startup/run.sh &" ++ [10])) /\
  d !! ["t"; "library_directory"; "install.sh"] =
    Some (File (u "pip install ./sensor_wrapper --upgrade" ++ [10])).
Proof. by vm_compute. Qed.

(** A target that names no [kernel_mod_directory] passes the check; the
    installation then ends with [KeyError], after the four directories before it
    were emptied. *)
Theorem kernel_directory_not_checked :
  let keys := take 4 dir_keys in
  validate_target (small_target keys) [small_sensor "run.sh"] [] = Ok [] /\
  (small_install keys).1 = Raise KeyError /\
  small_disk !! ["t"; "sensors_directory"; "old"] = Some (File []) /\
  (small_install keys).2 !! ["t"; "sensors_directory"; "old"] = None.
Proof. by vm_compute. Qed.

Lemma validated_components_found_witness :
  exists ss ms, texts_at (c_def (small_target dir_keys)) "sensors" = Ok ss /\
    texts_at (c_def (small_target dir_keys)) "kernel_modules" = Ok ms /\
    (forall s, s ∈ ss -> exists c, find_component s [small_sensor "run.sh"] = Ok c /\
       c ∈ [small_sensor "run.sh"] /\ c_name c = s) /\
    (forall m, m ∈ ms -> exists c, find_component m [] = Ok c /\ c ∈ ([] : list component) /\ c_name c = m).
Proof. by apply (validated_components_found (small_target dir_keys) [small_sensor "run.sh"] []). Defined.

(** The startup script of the sensor is missing: status 1. *)
Definition broken_disk : disk :=
  list_to_map
    [(["sensors"], Dir); (["sensors"; "s"], Dir);
     (["sensors"; "s"; "sensor.json"], File (dumps (c_def (small_sensor "gone.sh"))))].

Lemma failed_check_installs_nothing_witness :
  (installer_main [] (InstallOpts "install" [] [] []) broken_disk).1 = Ok 1 /\
  (installer_main [] (InstallOpts "install" [] [] []) broken_disk).2 = broken_disk.
Proof.
  split; [by vm_compute|].
  apply (failed_check_installs_nothing [] (InstallOpts "install" [] [] []) broken_disk).
  left. by vm_compute.
Defined.

Lemma build_step_returns_witness :
  build_step "bash" ["t"; "kmods"] ["t"; "kmods"; "probe"] "./src/install.sh" =
    u "cd probe/src" ++ [10] ++ u "bash ./install.sh" ++ [10] ++ u "cd ../.." ++ [10] /\
  exists rel up run, build_step "bash" ["t"; "kmods"] ["t"; "kmods"; "probe"] "./src/install.sh" =
      u ("cd " +:+ rel) ++ [10] ++ u ("bash" +:+ " ./" +:+ run) ++ [10] ++ u ("cd " +:+ up) ++ [10] /\
    join_path ["t"; "kmods"] rel = parent (join_path ["t"; "kmods"; "probe"] "./src/install.sh") /\
    join_path (join_path ["t"; "kmods"] rel) up = ["t"; "kmods"].
Proof.
  split; [by vm_compute|].
  apply (build_step_returns "bash" ["t"; "kmods"] ["t"; "kmods"; "probe"] "./src/install.sh").
  - by apply (bool_decide_unpack _).
  - vm_compute. repeat constructor; done.
Defined.
