(* ===== verification/InstallerSpec.v ===== *)
(** What an installation leaves behind: it stays inside of the target's directory,
    and when it ends well every file the definitions ask for is in its place,
    holds what its source held unless a later write may land there, and is
    listed in the master files. *)

From stdpp Require Import gmap.
From S2P Require Import Prelude Json ConfigLoader Installer.

(** * Staying inside of a target *)

Definition strictly_below (R p : path) : Prop := exists x r, p = R ++ x :: r.

Lemma below_some p q r : below p q = Some r <-> q = p ++ r.
Proof.
  revert q. induction p as [|a p IH]; intros q; cbn [below app].
  - split; [by intros [= ->]|by intros ->].
  - destruct q as [|b q]; [done|]. case_decide as E.
    + subst. rewrite IH. split; [by intros ->|intros Hq; by simplify_eq].
    + split; [done|]. intros Hq. by simplify_eq.
Qed.

Lemma below_none p q : below p q = None <-> forall r, q <> p ++ r.
Proof.
  split.
  - intros H r ->. assert (below p (p ++ r) = Some r) by (by apply below_some). congruence.
  - intros H. destruct (below p q) as [r|] eqn:E; [|done]. apply below_some in E. by destruct (H r).
Qed.

Lemma strictly_below_app R p r : strictly_below R p -> strictly_below R (p ++ r).
Proof. intros (x & r' & ->). exists x, (r' ++ r). by rewrite <-app_assoc. Qed.

Lemma ancestors_prefix p q : q ∈ ancestors p -> exists r, p = q ++ r.
Proof.
  unfold ancestors. intros H. apply list_elem_of_fmap_1 in H as (n & -> & _).
  exists (drop n p). by rewrite take_drop.
Qed.

Lemma ancestors_self p : p <> [] -> p ∈ ancestors p.
Proof.
  intros Hp. unfold ancestors. apply list_elem_of_fmap. exists (length p).
  split; [by rewrite firstn_all|]. apply elem_of_seq. destruct p; [done|cbn; lia].
Qed.

(** Two prefixes of a path: one is a prefix of the other. *)
Lemma prefixes_comparable (a b : path) r s : a ++ r = b ++ s ->
  (exists t, a = b ++ t) \/ (exists t, b = a ++ t).
Proof.
  intros E. destruct (app_eq_inv _ _ _ _ E) as [(k & -> & _)|(k & -> & _)]; [left|right]; by exists k.
Qed.

(** ** What a computation preserves *)

(** [m] preserves [P]: it holds after it, whether it ends well or not. *)
Definition preserves {A : Type} (P : disk -> Prop) (m : I A) : Prop := forall d, P d -> P (m d).2.

Section Preserves.

Context (P : disk -> Prop).

Lemma preserves_ret {A : Type} (a : A) : preserves P (ret a).
Proof. by intros d. Qed.
Lemma preserves_throw {A : Type} e : preserves (A := A) P (throw e).
Proof. by intros d. Qed.
Lemma preserves_lift {A : Type} (r : res A) : preserves P (lift r).
Proof. by intros d. Qed.
Lemma preserves_get : preserves P get.
Proof. by intros d. Qed.
Lemma preserves_check b : preserves P (check b).
Proof. unfold check. destruct b; by intros d. Qed.

Lemma preserves_bind {A B : Type} (m : I A) (f : A -> I B) :
  preserves P m -> (forall a d, (m d).1 = Ok a -> preserves P (f a)) -> preserves P (bind m f).
Proof.
  intros Hm Hf d Hd. unfold bind. specialize (Hm d Hd).
  destruct (m d) as [[a|e] d'] eqn:E; [|done]. apply (Hf a d); [by rewrite E|done].
Qed.

(** A step of a computation: the value of a [lift] is remembered. *)
Lemma preserves_lift_bind {A B : Type} (r : res A) (f : A -> I B) :
  (forall a, r = Ok a -> preserves P (f a)) -> preserves P (bind (lift r) f).
Proof.
  intros Hf. apply preserves_bind; [apply preserves_lift|]. intros a d Ha. by apply Hf.
Qed.

Lemma preserves_for_each {A : Type} (f : A -> I unit) l :
  (forall x, x ∈ l -> preserves P (f x)) -> preserves P (for_each f l).
Proof.
  induction l as [|x l IH]; intros Hf; [apply preserves_ret|]. cbn [for_each].
  apply preserves_bind; [apply Hf; by left|]. intros _ _ _. apply IH. intros y Hy. apply Hf. by right.
Qed.

Lemma preserves_modify (f : disk -> disk) :
  (forall d, P d -> P (f d)) -> preserves P (modify f).
Proof. intros Hf d Hd. by apply Hf. Qed.

End Preserves.

#[export] Hint Resolve preserves_ret preserves_throw preserves_lift preserves_get preserves_check
  : preserves.

(** Down the steps of a computation. *)
Ltac preserve :=
  repeat first
    [ apply preserves_lift_bind; intros ? ?
    | solve [auto with preserves]
    | apply preserves_for_each; intros ? ?
    | apply preserves_bind; [|intros ? ? ?] ].

Section Confined.

(** The target's directory, and the disk before. *)
Context (R : path) (d0 : disk).
Hypothesis R_exists : forall q, q ∈ ancestors R -> d0 !! q = Some Dir.

Definition unchanged (d : disk) : Prop := forall p, ~ strictly_below R p -> d !! p = d0 !! p.

(** A computation that writes below [R] only. *)
Abbreviation confined := (preserves unchanged).

Lemma unchanged_insert d p n : strictly_below R p -> unchanged d -> unchanged (<[p := n]> d).
Proof.
  intros Hp Hd q Hq. rewrite lookup_insert_ne by (by intros ->). by apply Hd.
Qed.

Lemma confined_write p content : strictly_below R p -> confined (write_text p content).
Proof.
  intros Hp. apply preserves_bind; [apply preserves_get|]. intros d _ _.
  apply preserves_bind; [apply preserves_check|]. intros _ _ _.
  apply preserves_modify. intros d' Hd'. by apply unchanged_insert.
Qed.

Lemma confined_copy src dst : strictly_below R dst -> confined (copy src dst).
Proof.
  intros Hp. apply preserves_bind; [apply preserves_get|]. intros d _ _.
  destruct (d !! src) as [[content|]|]; try apply preserves_throw.
  apply preserves_bind; [apply preserves_check|]. intros _ _ _. apply confined_write.
  destruct (is_dir d dst); [by apply strictly_below_app|done].
Qed.

Lemma confined_rmtree p : strictly_below R p -> confined (rmtree p).
Proof.
  intros Hp. apply preserves_bind; [apply preserves_get|]. intros d _ _.
  apply preserves_bind; [apply preserves_check|]. intros _ _ _.
  apply preserves_modify. intros d' Hd' q Hq. rewrite <-(Hd' q Hq).
  assert (below p q = None) as Hb.
  { apply below_none. intros r ->. apply Hq. by apply strictly_below_app. }
  destruct (d' !! q) as [n|] eqn:E.
  - by apply map_lookup_filter_Some.
  - apply map_lookup_filter_None. by left.
Qed.

Lemma confined_makedirs p : strictly_below R p -> confined (makedirs p).
Proof.
  intros Hp. apply preserves_bind; [apply preserves_get|]. intros d _ _.
  apply preserves_bind; [apply preserves_check|]. intros _ _ _.
  apply preserves_modify. clear d. assert (forall l, (forall a, a ∈ l -> a ∈ ancestors p) ->
    forall d, unchanged d -> unchanged (fold_left add_dir l d)) as H; [|by apply H].
  induction l as [|a l IH]; intros Hl d Hd; [done|]. cbn [fold_left].
  apply IH; [intros b Hb; apply Hl; by right|].
  assert (a ∈ ancestors p) as Ha by (apply Hl; by left).
  intros q Hq. unfold add_dir. destruct (d !! a) as [n|] eqn:E; [by apply Hd|].
  destruct (decide (q = a)) as [->|Hne]; [|rewrite lookup_insert_ne by done; by apply Hd].
  exfalso. destruct (ancestors_prefix _ _ Ha) as [r Hr]. destruct Hp as (x & s & Hs).
  rewrite Hr in Hs. assert (a <> []) as Hne.
  { intros ->. unfold ancestors in Ha. apply list_elem_of_fmap_1 in Ha as (n & Hn & Hin).
    apply elem_of_seq in Hin. destruct p; [cbn in Hin; lia|]. destruct n; [lia|done]. }
  destruct (prefixes_comparable _ _ _ _ Hs) as [[[|y t] ->]|[t Ht]].
  - rewrite app_nil_r in *. rewrite (Hd R) in E by exact Hq.
    by rewrite (R_exists R) in E by (by apply ancestors_self).
  - apply Hq. by exists y, t.
  - rewrite (Hd a) in E by exact Hq. rewrite (R_exists a) in E; [done|].
    rewrite Ht. unfold ancestors. apply list_elem_of_fmap. exists (length a).
    split; [by rewrite take_app_length|]. apply elem_of_seq. rewrite length_app.
    destruct a; [done|cbn; lia].
Qed.

Lemma confined_copytree src dst : strictly_below R dst -> confined (copytree src dst).
Proof.
  intros Hp. apply preserves_bind; [apply preserves_get|]. intros d _ _.
  apply preserves_bind; [apply preserves_check|]. intros _ _ _.
  apply preserves_bind; [by apply confined_makedirs|]. intros _ _ _.
  apply preserves_modify. intros d' Hd'. induction (map_to_list d) as [|e l IH]; [done|].
  cbn [foldr]. destruct (below src e.1) as [[|x r]|]; [done| |done].
  apply unchanged_insert; [by apply strictly_below_app|done].
Qed.

(** ** The parts of the installation *)

(** A target whose directories lie below its own. *)
Definition target_plain (target : component) : Prop :=
  c_root target = R /\
  forall key s, key ∈ dir_keys -> text_at (c_def target) key = Ok s ->
    plain s /\ join_path R s <> R.

Definition texts_plain (j : json) (key : string) : Prop :=
  forall l, texts_at j key = Ok l -> Forall plain l.

Definition sensor_plain (sensor : component) : Prop :=
  (forall s, text_at (c_def sensor) "target_folder" = Ok s -> plain s) /\
  (forall l, items_at (c_def sensor) "files" = Ok l ->
     Forall (fun f => forall s, text_at f "dest" = Ok s -> plain s) l) /\
  texts_plain (c_def sensor) "required_sub_directories" /\
  (forall s, text_at (c_def sensor) "startup_script" = Ok s -> plain s) /\
  texts_plain (c_def sensor) "requirements_files".

Definition kmod_plain (kmod : component) : Prop :=
  (forall s, text_at (c_def kmod) "target_folder" = Ok s -> plain s) /\
  texts_plain (c_def kmod) "include".

Lemma join_strictly base s : strictly_below R base -> plain s -> strictly_below R (join_path base s).
Proof.
  intros Hb Hs. destruct (join_plain base s Hs) as [r ->]. by apply strictly_below_app.
Qed.

Lemma plain_literal s : name_ok s -> plain s.
Proof. intros Hs. by apply name_ok_plain. Qed.

Context (target : component) (Ht : target_plain target).

Lemma target_dir_below key p :
  key ∈ dir_keys -> target_dir target key = Ok p -> strictly_below R p.
Proof.
  intros Hk Hp. destruct Ht as [HR Hd]. unfold target_dir in Hp.
  destruct (text_at (c_def target) key) as [s|] eqn:E; [|done]. cbn in Hp. injection Hp as <-.
  destruct (Hd key s Hk E) as [Hs Hne]. rewrite HR. destruct (join_plain R s Hs) as [[|x r] Hj].
  - rewrite app_nil_r in Hj. done.
  - rewrite Hj. by exists x, r.
Qed.

Ltac member := by apply (bool_decide_unpack _).

Lemma confined_prep : confined (prep_target target).
Proof.
  apply preserves_for_each. intros key Hk. unfold prep_dir.
  apply preserves_lift_bind. intros p Hp. pose proof (target_dir_below key p Hk Hp) as Hb.
  apply preserves_bind; [apply preserves_get|]. intros d _ _.
  apply preserves_bind; [|intros _ _ _; by apply confined_makedirs].
  destruct (exists_ d p); [by apply confined_rmtree|apply preserves_ret].
Qed.

Lemma confined_kernel_module kmod :
  kmod_plain kmod -> confined (install_kernel_module target kmod).
Proof.
  intros [Hf Hi]. unfold install_kernel_module.
  apply preserves_lift_bind. intros dir Hdir.
  apply target_dir_below in Hdir; [|member].
  do 2 (apply preserves_lift_bind; intros ? ?).
  apply preserves_lift_bind. intros include Hinc. apply preserves_for_each. intros s Hs.
  apply confined_copytree, join_strictly; [by apply join_strictly, Hf|].
  specialize (Hi _ Hinc). rewrite Forall_forall in Hi. by apply Hi.
Qed.

Lemma literal_plain :
  Forall plain ["sensor_wrapper"; "sensor_wrapper.py"; "setup.py"; "sensor_wrapper_requirements.txt";
    ".empty"; "requirements_master.txt"; "run_sensors.sh"; "install.ps1"; "install.sh";
    "apt_get_install.sh"].
Proof. repeat constructor; done. Qed.

Lemma is_literal s :
  s ∈ ["sensor_wrapper"; "sensor_wrapper.py"; "setup.py"; "sensor_wrapper_requirements.txt";
    ".empty"; "requirements_master.txt"; "run_sensors.sh"; "install.ps1"; "install.sh";
    "apt_get_install.sh"] -> plain s.
Proof. apply Forall_forall, literal_plain. Qed.

Lemma confined_wrapper wrapper_dir : confined (install_sensor_wrapper target wrapper_dir).
Proof.
  unfold install_sensor_wrapper.
  apply preserves_lift_bind. intros reqs Hreqs. apply target_dir_below in Hreqs; [|member].
  apply preserves_lift_bind. intros lib Hlib. apply target_dir_below in Hlib; [|member].
  assert (strictly_below R (join_path lib "sensor_wrapper")) as Hw
    by (apply join_strictly; [done|apply is_literal; member]).
  apply preserves_bind; [by apply confined_makedirs|]. intros _ _ _.
  apply preserves_bind; [|intros _ _ _].
  - apply preserves_for_each. intros s Hs. apply confined_copy, join_strictly; [done|].
    apply is_literal. set_solver.
  - apply confined_copy, join_strictly; [done|apply is_literal; member].
Qed.

Lemma confined_sensor sensor : sensor_plain sensor -> confined (install_sensor target sensor).
Proof.
  intros (Hfolder & Hfiles & Hsub & Hscript & Hreq). unfold install_sensor.
  apply preserves_lift_bind. intros sdir Hsdir. apply target_dir_below in Hsdir; [|member].
  apply preserves_lift_bind. intros rdir Hrdir. apply target_dir_below in Hrdir; [|member].
  apply preserves_lift_bind. intros udir Hudir. apply target_dir_below in Hudir; [|member].
  apply preserves_lift_bind. intros _ _.
  apply preserves_lift_bind. intros folder Hf.
  assert (strictly_below R (join_path sdir folder)) as Hdest by (by apply join_strictly, Hfolder).
  apply preserves_bind; [by apply confined_makedirs|]. intros _ _ _.
  apply preserves_lift_bind. intros files Hfl. specialize (Hfiles _ Hfl).
  rewrite Forall_forall in Hfiles.
  apply preserves_bind; [|intros _ _ _].
  { apply preserves_for_each. intros f Hin. unfold copy_file.
    apply preserves_lift_bind. intros src _. apply preserves_lift_bind. intros dst Hd.
    by apply confined_copy, join_strictly, (Hfiles f Hin). }
  apply preserves_lift_bind. intros subs Hs. specialize (Hsub _ Hs). rewrite Forall_forall in Hsub.
  apply preserves_bind; [|intros _ _ _].
  { apply preserves_for_each. intros s Hin. unfold make_sub_dir.
    assert (strictly_below R (join_path (join_path sdir folder) s)) as Hb
      by (by apply join_strictly, Hsub).
    apply preserves_bind; [by apply confined_makedirs|]. intros _ _ _.
    apply confined_write, join_strictly; [done|apply is_literal; member]. }
  apply preserves_lift_bind. intros script Hj.
  apply preserves_bind; [|intros _ _ _].
  { unfold copy_startup. destruct (json_truth script); [|apply preserves_ret].
    apply preserves_lift_bind. intros s Ht'. apply confined_copy, join_strictly; [done|].
    apply Hscript. unfold text_at. by rewrite Hj. }
  apply preserves_lift_bind. intros reqs Hr. specialize (Hreq _ Hr). rewrite Forall_forall in Hreq.
  apply preserves_for_each. intros s Hin. by apply confined_copy, join_strictly, Hreq.
Qed.

Lemma confined_requirements : confined (create_requirements_master target).
Proof.
  apply preserves_lift_bind. intros dir Hd. apply target_dir_below in Hd; [|member].
  apply preserves_bind; [by preserve|]. intros files _ _.
  apply confined_write, join_strictly; [done|apply is_literal; member].
Qed.

Lemma confined_startup : confined (create_sensor_startup_master target).
Proof.
  apply preserves_lift_bind. intros dir Hd. apply target_dir_below in Hd; [|member].
  apply preserves_bind; [by preserve|]. intros files _ _.
  apply confined_write, join_strictly; [done|apply is_literal; member].
Qed.

Lemma install_script_plain os : plain (install_script os).
Proof. unfold install_script. case_bool_decide; apply is_literal; member. Qed.

Lemma confined_support : confined (create_support_library_install_script target).
Proof.
  apply preserves_lift_bind. intros dir Hd. apply target_dir_below in Hd; [|member].
  apply preserves_bind; [apply preserves_get|]. intros d _ _. cbv zeta.
  apply preserves_lift_bind. intros os _.
  apply confined_write, join_strictly; [done|apply install_script_plain].
Qed.

Lemma confined_kernel_script kmods : confined (create_kernel_module_install_script target kmods).
Proof.
  apply preserves_lift_bind. intros dir Hd. apply target_dir_below in Hd; [|member].
  do 3 (apply preserves_lift_bind; intros ? ?).
  apply confined_write, join_strictly; [done|apply install_script_plain].
Qed.

Lemma confined_apt sensors kmods : confined (create_apt_get_script target sensors kmods).
Proof.
  apply preserves_lift_bind. intros os _. case_bool_decide; [apply preserves_ret|].
  apply preserves_lift_bind. intros dir Hd. apply target_dir_below in Hd; [|member].
  do 4 (apply preserves_lift_bind; intros ? ?). cbv zeta.
  apply confined_write, join_strictly; [done|apply is_literal; member].
Qed.

Lemma find_component_in name l c : find_component name l = Ok c -> c ∈ l.
Proof.
  unfold find_component. intros H. apply opt_res_Ok in H. apply find_some in H as [H _].
  apply list_elem_of_In in H. by rewrite elem_of_reverse in H.
Qed.

Lemma install_confined kmods sensors wrapper_dir :
  Forall kmod_plain kmods -> Forall sensor_plain sensors ->
  confined (install_sensors_in_target target kmods sensors wrapper_dir).
Proof.
  intros Hk Hs. rewrite Forall_forall in Hk. rewrite Forall_forall in Hs.
  apply preserves_lift_bind. intros names _.
  apply preserves_bind; [apply confined_prep|]. intros _ _ _.
  apply preserves_lift_bind. intros mods _.
  apply preserves_bind; [|intros _ _ _].
  { apply preserves_for_each. intros n _. apply preserves_lift_bind. intros k Hf.
    by apply confined_kernel_module, Hk, (find_component_in n). }
  apply preserves_bind; [apply confined_wrapper|]. intros _ _ _.
  apply preserves_bind; [|intros _ _ _].
  { apply preserves_for_each. intros n _. apply preserves_lift_bind. intros c Hf.
    by apply confined_sensor, Hs, (find_component_in n). }
  apply preserves_bind; [apply confined_requirements|]. intros _ _ _.
  apply preserves_bind; [apply confined_support|]. intros _ _ _.
  apply preserves_bind; [apply confined_kernel_script|]. intros _ _ _.
  apply preserves_bind; [apply confined_startup|]. intros _ _ _. apply confined_apt.
Qed.

End Confined.

(** C38: safety.  Installing into a target changes only what lies in the target's
    directory, however the installation ends, when the paths of the definitions
    do not lead out of it. *)
Theorem install_stays_in_target R d target kmods sensors wrapper_dir :
  (forall q, q ∈ ancestors R -> d !! q = Some Dir) ->
  target_plain R target -> Forall kmod_plain kmods -> Forall sensor_plain sensors ->
  forall p, ~ strictly_below R p ->
    (install_sensors_in_target target kmods sensors wrapper_dir d).2 !! p = d !! p.
Proof.
  intros HR Ht Hk Hs. by apply (install_confined R d HR target Ht kmods sensors wrapper_dir Hk Hs d).
Qed.

(** * What is installed *)

(** Files stay files and directories stay directories. *)
Definition grows (d d' : disk) : Prop :=
  forall p, (is_file d p = true -> is_file d' p = true) /\ (is_dir d p = true -> is_dir d' p = true).

#[export] Instance grows_preorder : PreOrder grows.
Proof.
  split.
  - by intros d p.
  - intros d1 d2 d3 H12 H23 p. destruct (H12 p), (H23 p). auto.
Qed.

Lemma node_cases (o : option node) :
  (match o with Some Dir => true | _ => false end = true <-> o = Some Dir) /\
  (match o with Some (File _) => true | _ => false end = true <-> exists c, o = Some (File c)).
Proof. destruct o as [[c|]|]; repeat split; try done; (try by exists c); by intros [? ?]. Qed.

Lemma is_dir_lookup d p : is_dir d p = true <-> p = [] \/ d !! p = Some Dir.
Proof.
  destruct p as [|x p]; [by split; [left|]|]. split.
  - intros H. right. by apply node_cases.
  - intros [H|H]; [done|by apply node_cases].
Qed.

Lemma is_file_lookup d p : is_file d p = true <-> exists c, d !! p = Some (File c).
Proof. apply node_cases. Qed.

Lemma grows_insert_file d p c : is_dir d p = false -> grows d (<[p := File c]> d).
Proof.
  intros Hp q. rewrite !is_file_lookup, !is_dir_lookup.
  destruct (decide (q = p)) as [->|Hq]; [|by rewrite lookup_insert_ne].
  rewrite lookup_insert_eq. split; [by eexists|].
  intros H. assert (is_dir d p = true) by (by apply is_dir_lookup). congruence.
Qed.

Lemma grows_add_dir d p : grows d (add_dir d p).
Proof.
  unfold add_dir. destruct (d !! p) as [n|] eqn:E; [done|]. intros q.
  rewrite !is_file_lookup, !is_dir_lookup.
  destruct (decide (q = p)) as [->|Hq]; [|by rewrite lookup_insert_ne].
  rewrite E, lookup_insert_eq. split; [by intros [c ?]|by right].
Qed.

Section Grows.

Context (d0 : disk).
Abbreviation growing := (preserves (grows d0)).

Lemma growing_write p content : growing (write_text p content).
Proof.
  intros d Hd. unfold write_text, bind, get. cbn. unfold check.
  destruct (is_dir d p) eqn:E; cbn; [done|]. destruct (is_dir d (parent p)); cbn; [|done].
  etransitivity; [exact Hd|by apply grows_insert_file].
Qed.

Lemma growing_copy src dst : growing (copy src dst).
Proof.
  apply preserves_bind; [apply preserves_get|]. intros d _ _.
  destruct (d !! src) as [[content|]|]; try apply preserves_throw.
  apply preserves_bind; [apply preserves_check|]. intros _ _ _. apply growing_write.
Qed.

Lemma growing_makedirs p : growing (makedirs p).
Proof.
  apply preserves_bind; [apply preserves_get|]. intros d _ _.
  apply preserves_bind; [apply preserves_check|]. intros _ _ _.
  apply preserves_modify. generalize (ancestors p) as l.
  induction l as [|a l IH]; intros d' Hd; [done|]. cbn [fold_left]. apply IH.
  etransitivity; [exact Hd|apply grows_add_dir].
Qed.

#[local] Hint Resolve growing_write growing_copy growing_makedirs : preserves.

Lemma growing_copy_startup src_dir run_dir script : growing (copy_startup src_dir run_dir script).
Proof. unfold copy_startup. destruct (json_truth script); by preserve. Qed.

#[local] Hint Resolve growing_copy_startup : preserves.

Lemma growing_sensor target sensor : growing (install_sensor target sensor).
Proof. by preserve. Qed.

Lemma growing_requirements target : growing (create_requirements_master target).
Proof. by preserve. Qed.

Lemma growing_startup target : growing (create_sensor_startup_master target).
Proof. by preserve. Qed.

Lemma growing_support target : growing (create_support_library_install_script target).
Proof. by preserve. Qed.

Lemma growing_kernel_script target kmods : growing (create_kernel_module_install_script target kmods).
Proof. by preserve. Qed.

Lemma growing_apt target sensors kmods : growing (create_apt_get_script target sensors kmods).
Proof.
  apply preserves_lift_bind. intros os _. case_bool_decide; [apply preserves_ret|by preserve].
Qed.

End Grows.

#[export] Hint Resolve growing_sensor growing_requirements growing_startup growing_support
  growing_kernel_script growing_apt growing_write growing_copy growing_makedirs
  growing_copy_startup : preserves.

(** A computation that ended well: its steps ended well. *)
Lemma lift_bind_Ok {A B : Type} (r : res A) (f : A -> I B) (d : disk) b d' :
  bind (lift r) f d = (Ok b, d') -> exists a, r = Ok a /\ f a d = (Ok b, d').
Proof.
  intros H. apply bind_Ok in H as (a & d1 & H1 & H2). apply lift_Ok in H1 as [-> ->]. by exists a.
Qed.

Lemma preserves_run {A : Type} (P : disk -> Prop) (m : I A) d r d' :
  preserves P m -> m d = (r, d') -> P d -> P d'.
Proof. intros Hm E Hd. specialize (Hm d Hd). by rewrite E in Hm. Qed.

Lemma growing_run {A : Type} (m : I A) d r d' :
  (forall d0, preserves (grows d0) m) -> m d = (r, d') -> grows d d'.
Proof. intros Hm E. by eapply preserves_run; [apply (Hm d)|exact E|]. Qed.

Lemma for_each_ran {A : Type} (f : A -> I unit) l d u d' :
  (forall x d0, preserves (grows d0) (f x)) -> for_each f l d = (Ok u, d') ->
  forall x, x ∈ l -> exists d1 d2, f x d1 = (Ok tt, d2) /\ grows d2 d'.
Proof.
  intros Hf. revert d. induction l as [|y l IH]; intros d H x Hx; [by apply elem_of_nil in Hx|].
  cbn [for_each] in H. apply bind_Ok in H as ([] & d1 & H1 & H2).
  apply elem_of_cons in Hx as [->|Hx]; [|by eapply IH].
  exists d, d1. split; [done|]. eapply (growing_run (for_each f l)); [|exact H2].
  intros d0. apply preserves_for_each. intros z _. apply Hf.
Qed.

(** A file copied to [dst]: it is there or, where [dst] is a directory, in it. *)
Definition placed (d : disk) (src dst : path) : Prop :=
  is_file d dst = true \/
  is_dir d dst = true /\ is_file d (dst ++ drop (length src - 1) src) = true.

Lemma placed_grows d d' src dst : grows d d' -> placed d src dst -> placed d' src dst.
Proof.
  intros Hg [H|[H1 H2]]; [left; by apply Hg|right; split; by apply Hg].
Qed.

Lemma write_text_Ok p c d u d' :
  write_text p c d = (Ok u, d') -> is_dir d p = false /\ d' = <[p := File c]> d.
Proof.
  unfold write_text, bind, get, check, modify, throw, ret. cbn.
  destruct (is_dir d p); cbn; [done|]. destruct (is_dir d (parent p)); cbn; [|done].
  intros H. by simplify_eq.
Qed.

Lemma copy_placed src dst d u d' : copy src dst d = (Ok u, d') -> placed d' src dst.
Proof.
  intros H. apply bind_Ok in H as (d1 & d2 & Hg & H). injection Hg as <- <-.
  destruct (d !! src) as [[content|]|]; try done.
  apply bind_Ok in H as ([] & d3 & Hc & H).
  assert (d3 = d) as -> by (unfold check, ret, throw in Hc; destruct (negb _) in Hc; by simplify_eq).
  pose proof (growing_run _ _ _ _ (fun d0 => growing_write d0 _ _) H) as Hg.
  apply write_text_Ok in H as [_ E]. destruct (is_dir d dst) eqn:Hdir; [right|left].
  - split; [by apply Hg|]. apply is_file_lookup. exists content. by rewrite E, lookup_insert_eq.
  - apply is_file_lookup. exists content. by rewrite E, lookup_insert_eq.
Qed.

(** There is a file wherever the definition of a sensor asks for one. *)
Definition sensor_files_exist (d : disk) (target sensor : component) : Prop :=
  exists sdir rdir udir folder files subs script reqs,
    target_dir target "sensors_directory" = Ok sdir /\
    target_dir target "requirements_directory" = Ok rdir /\
    target_dir target "startup_scripts_directory" = Ok udir /\
    text_at (c_def sensor) "target_folder" = Ok folder /\
    items_at (c_def sensor) "files" = Ok files /\
    texts_at (c_def sensor) "required_sub_directories" = Ok subs /\
    json_item (c_def sensor) "startup_script" = Ok script /\
    texts_at (c_def sensor) "requirements_files" = Ok reqs /\
    (forall f, f ∈ files -> exists source dest,
       text_at f "source" = Ok source /\ text_at f "dest" = Ok dest /\
       placed d (join_path (c_root sensor) source) (join_path (join_path sdir folder) dest)) /\
    (forall s, s ∈ subs ->
       is_file d (join_path (join_path (join_path sdir folder) s) ".empty") = true) /\
    (json_truth script = true -> exists s, text script = Ok s /\
       placed d (join_path (c_root sensor) s) (join_path udir s)) /\
    (forall r, r ∈ reqs -> placed d (join_path (c_root sensor) r) (join_path rdir r)).

Lemma sensor_files_exist_grows d d' target sensor :
  grows d d' -> sensor_files_exist d target sensor -> sensor_files_exist d' target sensor.
Proof.
  intros Hg (sdir & rdir & udir & folder & files & subs & script & reqs & H1 & H2 & H3 & H4 & H5 &
    H6 & H7 & H8 & Hf & Hs & Hu & Hr).
  exists sdir, rdir, udir, folder, files, subs, script, reqs. do 8 (split; [done|]).
  repeat split.
  - intros f Hin. destruct (Hf f Hin) as (source & dest & ? & ? & Hp).
    exists source, dest. do 2 (split; [done|]). by eapply placed_grows.
  - intros s Hin. by apply Hg, Hs.
  - intros Ht. destruct (Hu Ht) as (s & ? & Hp). exists s. split; [done|]. by eapply placed_grows.
  - intros r Hin. eapply placed_grows; [exact Hg|by apply Hr].
Qed.

Lemma install_sensor_places target sensor d u d' :
  install_sensor target sensor d = (Ok u, d') -> sensor_files_exist d' target sensor.
Proof.
  intros H. unfold install_sensor in H.
  apply lift_bind_Ok in H as (sdir & Hsdir & H). apply lift_bind_Ok in H as (rdir & Hrdir & H).
  apply lift_bind_Ok in H as (udir & Hudir & H). apply lift_bind_Ok in H as (v & _ & H).
  apply lift_bind_Ok in H as (folder & Hfolder & H). apply bind_Ok in H as ([] & d1 & _ & H).
  apply lift_bind_Ok in H as (files & Hfiles & H). apply bind_Ok in H as ([] & d2 & Hcopy & H).
  apply lift_bind_Ok in H as (subs & Hsubs & H). apply bind_Ok in H as ([] & d3 & Hmk & H).
  apply lift_bind_Ok in H as (script & Hscript & H). apply bind_Ok in H as ([] & d4 & Hst & H).
  apply lift_bind_Ok in H as (reqs & Hreqs & H).
  assert (grows d4 d') as G4 by (eapply growing_run; [|exact H]; intros; by preserve).
  assert (grows d3 d') as G3
    by (etransitivity; [eapply growing_run; [|exact Hst]; intros; by preserve|exact G4]).
  assert (grows d2 d') as G2
    by (etransitivity; [eapply growing_run; [|exact Hmk]; intros; by preserve|exact G3]).
  exists sdir, rdir, udir, folder, files, subs, script, reqs. do 8 (split; [done|]).
  repeat split.
  - intros f Hin. eapply for_each_ran in Hcopy as (e1 & e2 & Hf & Hg); [|intros; by preserve|exact Hin].
    unfold copy_file in Hf. apply lift_bind_Ok in Hf as (source & Hsrc & Hf).
    apply lift_bind_Ok in Hf as (dest & Hdest & Hf). exists source, dest. do 2 (split; [done|]).
    eapply placed_grows; [|by eapply copy_placed]. by transitivity d2.
  - intros s Hin. eapply for_each_ran in Hmk as (e1 & e2 & Hf & Hg); [|intros; by preserve|exact Hin].
    apply bind_Ok in Hf as ([] & e3 & _ & Hf). apply write_text_Ok in Hf as [_ E].
    assert (grows e2 d') as G by (by transitivity d3). apply G, is_file_lookup.
    exists [10]. by rewrite E, lookup_insert_eq.
  - intros Ht. unfold copy_startup in Hst. rewrite Ht in Hst.
    apply lift_bind_Ok in Hst as (s & Hs & Hst). exists s. split; [done|].
    eapply placed_grows; [exact G4|by eapply copy_placed].
  - intros r Hin. eapply for_each_ran in H as (e1 & e2 & Hf & Hg); [|intros; by preserve|exact Hin].
    eapply placed_grows; [exact Hg|by eapply copy_placed].
Qed.

(** A listed script or requirements file has its line in the master file. *)
Definition has_line (d : disk) (file : path) (header : ustr) (line : string -> ustr) (name : string) :=
  exists names, name ∈ names /\ d !! file = Some (File (header ++ flat_map line names)).

Lemma children_spec d p x : exists_ d (p ++ [x]) = true -> x ∈ children d p.
Proof.
  intros H. unfold children. apply list_elem_of_omap.
  assert (exists n, d !! (p ++ [x]) = Some n) as [n Hn].
  { apply orb_prop in H as [H|H].
    - apply is_dir_lookup in H as [H|H]; [by destruct p|by exists Dir].
    - apply is_file_lookup in H as [c H]. by exists (File c). }
  exists (p ++ [x], n). split; [by apply elem_of_map_to_list|]. cbn.
  assert (below p (p ++ [x]) = Some [x]) as -> by (by apply below_some). done.
Qed.

Lemma placed_exists d src dst : placed d src dst -> exists_ d dst = true.
Proof. intros [H|[H _]]; unfold exists_; rewrite H; [by rewrite orb_true_r|done]. Qed.

(** The two master files are made alike: the directory is listed, then the file
    written, with a line for every entry. *)
Lemma master_has_line dir file header line name d u d' :
  name_ok file -> name_ok name -> exists_ d (join_path dir name) = true ->
  bind (listdir dir) (fun names => write_text (join_path dir file) (header ++ flat_map line names)) d
    = (Ok u, d') ->
  has_line d' (dir ++ [file]) header line name.
Proof.
  intros Hf Hn Hex H. apply name_ok_plain in Hf as [_ Hf]. apply name_ok_plain in Hn as [_ Hn].
  apply bind_Ok in H as (names & d1 & Hl & H). apply write_text_Ok in H as [_ E].
  apply bind_Ok in Hl as (d2 & d3 & Hg & Hl). injection Hg as <- <-.
  apply bind_Ok in Hl as ([] & d4 & _ & Hr). injection Hr as <- <-.
  exists (children d dir). split; [apply children_spec; by rewrite <-Hn|].
  by rewrite E, Hf, lookup_insert_eq.
Qed.

(** A file of another name is not touched by writing one. *)
Lemma write_keeps dir file p n c :
  last p <> Some file -> name_ok file ->
  preserves (fun d => d !! p = Some n) (write_text (join_path dir file) c).
Proof.
  intros Hl Hf d Hd. unfold write_text, bind, get, check, modify, throw, ret. cbn.
  destruct (is_dir d _); cbn; [done|]. destruct (is_dir d _); cbn; [|done].
  rewrite lookup_insert_ne; [done|]. intros E. apply Hl. rewrite <-E.
  apply name_ok_plain in Hf as [_ ->]. by rewrite last_snoc.
Qed.

Abbreviation masters := ["requirements_master.txt"; "run_sensors.sh"].

Lemma keeps_run {A : Type} (m : I A) d r d' p n :
  preserves (fun d => d !! p = Some n) m -> m d = (r, d') -> d !! p = Some n -> d' !! p = Some n.
Proof. intros Hm E Hd. exact (preserves_run _ m d r d' Hm E Hd). Qed.

Lemma install_script_name os : name_ok (install_script os).
Proof. unfold install_script. by case_bool_decide. Qed.

Lemma install_script_last dir file os :
  file ∈ masters -> last (dir ++ [file]) <> Some (install_script os).
Proof.
  intros Hf. rewrite last_snoc. unfold install_script. intros [= ->].
  case_bool_decide; set_solver.
Qed.

(** The end of an installation: the disk with the sensors in place, and the
    scripts made on it. *)
Lemma install_steps target kmods sensors wrapper_dir d d' :
  install_sensors_in_target target kmods sensors wrapper_dir d = (Ok tt, d') ->
  exists names d1 d2 d3 d4 d5, texts_at (c_def target) "sensors" = Ok names /\
    (forall n, n ∈ names ->
       exists c, find_component n sensors = Ok c /\ sensor_files_exist d1 target c) /\
    create_requirements_master target d1 = (Ok tt, d2) /\
    create_support_library_install_script target d2 = (Ok tt, d3) /\
    create_kernel_module_install_script target kmods d3 = (Ok tt, d4) /\
    create_sensor_startup_master target d4 = (Ok tt, d5) /\
    create_apt_get_script target sensors kmods d5 = (Ok tt, d').
Proof.
  intros H. unfold install_sensors_in_target in H.
  apply lift_bind_Ok in H as (names & Hn & H). apply bind_Ok in H as ([] & e1 & _ & H).
  apply lift_bind_Ok in H as (mods & _ & H). apply bind_Ok in H as ([] & e2 & _ & H).
  apply bind_Ok in H as ([] & e3 & _ & H). apply bind_Ok in H as ([] & d1 & Hs & H).
  apply bind_Ok in H as ([] & d2 & H2 & H). apply bind_Ok in H as ([] & d3 & H3 & H).
  apply bind_Ok in H as ([] & d4 & H4 & H). apply bind_Ok in H as ([] & d5 & H5 & H).
  exists names, d1, d2, d3, d4, d5. split; [done|]. split; [|done].
  intros n Hin. eapply for_each_ran in Hs as (a & b & Hs & Hg); [|intros; by preserve|exact Hin].
  apply lift_bind_Ok in Hs as (c & Hc & Hs). exists c. split; [done|].
  eapply sensor_files_exist_grows; [exact Hg|by eapply install_sensor_places].
Qed.

(** The scripts made after the sensors were installed take nothing away. *)
Lemma scripts_grow target kmods sensors d1 d2 d3 d4 d5 d' :
  create_requirements_master target d1 = (Ok tt, d2) ->
  create_support_library_install_script target d2 = (Ok tt, d3) ->
  create_kernel_module_install_script target kmods d3 = (Ok tt, d4) ->
  create_sensor_startup_master target d4 = (Ok tt, d5) ->
  create_apt_get_script target sensors kmods d5 = (Ok tt, d') ->
  grows d1 d4 /\ grows d4 d'.
Proof.
  intros H1 H2 H3 H4 H5. split.
  - transitivity d2; [|transitivity d3];
      [eapply growing_run; [|exact H1]|eapply growing_run; [|exact H2]|eapply growing_run; [|exact H3]];
      auto with preserves.
  - transitivity d5; [eapply growing_run; [|exact H4]|eapply growing_run; [|exact H5]];
      auto with preserves.
Qed.

(** * What the files hold *)

(** What an installation writes, in order: a file copied, a file of given
    content, a script made from what was installed. *)
Inductive write :=
  | Copied (src dst : path)
  | Wrote (p : path) (content : ustr)
  | Script (p : path).

(** Where it may land: a copy lands in [dst] where that is a directory. *)
Definition spots (w : write) : list path :=
  match w with
  | Copied src dst => [dst; dst ++ drop (length src - 1) src]
  | Wrote p _ | Script p => [p]
  end.
Definition apart (w w' : write) : Prop := Forall (fun p => p ∉ spots w') (spots w).

Definition res_app {A} (r1 r2 : res (list A)) : res (list A) :=
  let? l1 := r1 in let? l2 := r2 in Ok (l1 ++ l2).
Definition writes_of {A} (f : A -> res (list write)) (l : list A) : res (list write) :=
  res_map (@concat write) (res_mapM f l).

(** What the definition of a sensor asks for: its files at their destinations,
    its sub-directories with their [.empty] files, its startup script, its
    requirements files. *)
Definition file_writes (src_dir dest_dir : path) (file_def : json) : res (list write) :=
  let? source := text_at file_def "source" in
  let? dest := text_at file_def "dest" in
  Ok [Copied (join_path src_dir source) (join_path dest_dir dest)].
Definition startup_writes (src_dir run_dir : path) (script : json) : res (list write) :=
  if json_truth script then
    let? s := text script in Ok [Copied (join_path src_dir s) (join_path run_dir s)]
  else Ok [].
Definition sensor_writes (target sensor : component) : res (list write) :=
  let? sensors_dir := target_dir target "sensors_directory" in
  let? reqs_dir := target_dir target "requirements_directory" in
  let? run_dir := target_dir target "startup_scripts_directory" in
  let? _ := json_item (c_def sensor) "version" in
  let? folder := text_at (c_def sensor) "target_folder" in
  let src := c_root sensor in
  let dest := join_path sensors_dir folder in
  let? files := items_at (c_def sensor) "files" in
  res_app (writes_of (file_writes src dest) files)
    (let? sub_dirs := texts_at (c_def sensor) "required_sub_directories" in
     res_app
       (writes_of (fun s => Ok [Wrote (join_path (join_path dest s) ".empty") [10]]) sub_dirs)
       (let? script := json_item (c_def sensor) "startup_script" in
        res_app (startup_writes src run_dir script)
          (let? reqs := texts_at (c_def sensor) "requirements_files" in
           writes_of (fun s => Ok [Copied (join_path src s) (join_path reqs_dir s)]) reqs))).

(** The scripts, in the order in which they are made. *)
Definition script_in (target : component) (key file : string) : res (list write) :=
  let? dir := target_dir target key in Ok [Script (join_path dir file)].
Definition script_for_os (target : component) (key : string) : res (list write) :=
  let? dir := target_dir target key in
  let? os := text_at (c_def target) "os" in
  Ok [Script (join_path dir (install_script os))].
Definition apt_script (target : component) : res (list write) :=
  let? os := text_at (c_def target) "os" in
  if bool_decide (os = "Windows") then Ok []
  else script_in target "library_directory" "apt_get_install.sh".
Definition script_writes (target : component) : res (list write) :=
  res_app (script_in target "requirements_directory" "requirements_master.txt")
    (res_app (script_for_os target "library_directory")
      (res_app (script_for_os target "kernel_mod_directory")
        (res_app (script_in target "startup_scripts_directory" "run_sensors.sh")
          (apt_script target)))).

Definition install_writes (target : component) (sensors : list component) : res (list write) :=
  let? names := texts_at (c_def target) "sensors" in
  res_app (writes_of (fun name => let? s := find_component name sensors in sensor_writes target s) names)
    (script_writes target).

Section Contents.

(** The target's directory, and the disk before. *)
Context (R : path) (d0 : disk).
Hypothesis R_exists : forall q, q ∈ ancestors R -> d0 !! q = Some Dir.

(** The file holds what its source, outside of the target's directory, held at
    the start. *)
Definition in_place (d : disk) (w : write) : Prop :=
  match w with
  | Copied src dst =>
      ~ strictly_below R src ->
      exists c, d0 !! src = Some (File c) /\
        (d !! dst = Some (File c) \/
         is_dir d dst = true /\ d !! (dst ++ drop (length src - 1) src) = Some (File c))
  | Wrote p c => d !! p = Some (File c)
  | Script p => is_file d p = true
  end.

(** Every write is in its place that no later one may land on. *)
Fixpoint lasting (d : disk) (ws : list write) : Prop :=
  match ws with
  | [] => True
  | w :: ws => (Forall (apart w) ws -> in_place d w) /\ lasting d ws
  end.

(** From [d] to [d'] by the writes [ws]: a file where none of them lands stays
    as it is. *)
Definition framed (d d' : disk) (ws : list write) : Prop :=
  grows d d' /\
  forall p c, Forall (fun w => p ∉ spots w) ws -> d !! p = Some (File c) -> d' !! p = Some (File c).

Lemma in_place_framed d d' ws w :
  framed d d' ws -> Forall (apart w) ws -> in_place d w -> in_place d' w.
Proof.
  intros [Hg Hf] Hap Hw.
  assert (forall p c, p ∈ spots w -> d !! p = Some (File c) -> d' !! p = Some (File c)) as Hk.
  { intros p c Hp. apply Hf. eapply Forall_impl; [exact Hap|]. intros w' Hw'.
    by apply (proj1 (Forall_forall _ _) Hw'). }
  destruct w as [src dst|p c|p]; cbn [in_place] in *.
  - intros Hs. destruct (Hw Hs) as (c & Hc & [Hd|[Hdir Hd]]); exists c; (split; [done|]).
    + left. apply Hk; [by left|done].
    + right. split; [by apply Hg|]. apply Hk; [by right; left|done].
  - apply Hk; [by left|done].
  - by apply Hg.
Qed.

Lemma lasting_app d d' ws1 ws2 :
  lasting d ws1 -> framed d d' ws2 -> lasting d' ws2 -> lasting d' (ws1 ++ ws2).
Proof.
  intros H1 Hf H2. induction ws1 as [|w ws1 IH]; [done|]. destruct H1 as [Hw H1].
  split; [|by apply IH]. intros [Ha Hb]%Forall_app. by eapply in_place_framed; [..|apply Hw].
Qed.

Lemma framed_app d d1 d' ws1 ws2 :
  framed d d1 ws1 -> framed d1 d' ws2 -> framed d d' (ws1 ++ ws2).
Proof.
  intros [G1 F1] [G2 F2]. split; [by transitivity d1|].
  intros p c [Ha Hb]%Forall_app Hp. by apply F2, F1.
Qed.

(** [m], when it ends well, writes what [r] says and nothing outside of the
    target's directory. *)
Definition does (m : I unit) (r : res (list write)) : Prop :=
  forall d d', unchanged R d0 d -> m d = (Ok tt, d') ->
    exists ws, r = Ok ws /\ unchanged R d0 d' /\ framed d d' ws /\ lasting d' ws.

Lemma does_bind m k r1 r2 : does m r1 -> does k r2 -> does (bind m (fun _ => k)) (res_app r1 r2).
Proof.
  intros Hm Hk d d' Hd H. apply bind_Ok in H as ([] & d1 & H1 & H2).
  destruct (Hm _ _ Hd H1) as (ws1 & -> & Hd1 & F1 & L1).
  destruct (Hk _ _ Hd1 H2) as (ws2 & -> & Hd2 & F2 & L2).
  exists (ws1 ++ ws2). split_and!; [done|done|by eapply framed_app|by eapply lasting_app].
Qed.

Lemma does_lift {A : Type} (a : res A) f g :
  (forall x, a = Ok x -> does (f x) (g x)) -> does (bind (lift a) f) (res_bind a g).
Proof.
  intros Hf d d' Hd H. apply lift_bind_Ok in H as (x & -> & H). by apply (Hf x).
Qed.

(** A step that leaves files as they are goes before the writes of the rest. *)
Lemma does_first m k r : does m (Ok []) -> does k r -> does (bind m (fun _ => k)) r.
Proof.
  intros Hm Hk d d' Hd H. destruct (does_bind m k (Ok []) r Hm Hk d d' Hd H) as (ws & E & Hrest).
  exists ws. split; [|exact Hrest]. by destruct r.
Qed.

Lemma does_ret : does (ret tt) (Ok []).
Proof. intros d d' Hd H. injection H as <-. by exists []. Qed.

Lemma does_each {A : Type} (f : A -> I unit) (g : A -> res (list write)) l :
  (forall x, x ∈ l -> does (f x) (g x)) -> does (for_each f l) (writes_of g l).
Proof.
  induction l as [|x l IH]; intros Hf; [exact does_ret|]. intros d d' Hd H.
  apply (does_bind (f x) (for_each f l) (g x) (writes_of g l)) in H as (ws & E & Hrest);
    [|apply Hf; by left|apply IH; intros y Hy; apply Hf; by right|done].
  exists ws. split; [|exact Hrest]. rewrite <-E. unfold writes_of. cbn [res_mapM].
  destruct (g x) as [w|]; [|done]. cbn. by destruct (res_mapM g l).
Qed.

(** A step that only looks. *)
Lemma does_look {A : Type} (m : I A) f r :
  (forall d, (m d).2 = d) -> (forall a, does (f a) r) -> does (bind m f) r.
Proof.
  intros Hm Hf d d' Hd H. apply bind_Ok in H as (a & d1 & H1 & H2).
  specialize (Hm d). rewrite H1 in Hm. cbn in Hm. subst d1. by eapply Hf.
Qed.

Lemma listdir_looks p d : (listdir p d).2 = d.
Proof. unfold listdir, bind, get, check, ret, throw. by destruct (is_dir d p). Qed.

Lemma does_write p c w :
  strictly_below R p -> spots w = [p] -> (forall d, in_place (<[p := File c]> d) w) ->
  does (write_text p c) (Ok [w]).
Proof.
  intros Hp Hw Hin d d' Hd H. exists [w].
  pose proof (preserves_run _ _ _ _ _ (confined_write R d0 p c Hp) H Hd) as Hd'.
  pose proof (growing_run _ _ _ _ (fun d1 => growing_write d1 _ _) H) as Hg.
  apply write_text_Ok in H as [_ ->]. split_and!; [done|done| |by split; [intros _; apply Hin|]].
  split; [done|]. intros q c' [Hq _]%Forall_cons Hc'. rewrite Hw in Hq.
  rewrite lookup_insert_ne; [done|]. intros <-. apply Hq. by left.
Qed.

Lemma does_text p c : strictly_below R p -> does (write_text p c) (Ok [Wrote p c]).
Proof. intros Hp. apply does_write; [done|done|]. intros d. apply lookup_insert_eq. Qed.

Lemma does_script p c : strictly_below R p -> does (write_text p c) (Ok [Script p]).
Proof.
  intros Hp. apply does_write; [done|done|]. intros d. apply is_file_lookup. exists c.
  apply lookup_insert_eq.
Qed.

Lemma does_copy src dst : strictly_below R dst -> does (copy src dst) (Ok [Copied src dst]).
Proof.
  intros Hp d d' Hd H. exists [Copied src dst].
  pose proof (preserves_run _ _ _ _ _ (confined_copy R d0 src dst Hp) H Hd) as Hd'.
  pose proof (growing_run _ _ _ _ (fun d1 => growing_copy d1 _ _) H) as Hg.
  apply bind_Ok in H as (d1 & d2 & E & H). injection E as <- <-.
  destruct (d !! src) as [[c|]|] eqn:Hsrc; try done.
  apply bind_Ok in H as ([] & d3 & Hc & H).
  assert (d3 = d) as -> by (unfold check, ret, throw in Hc; destruct (negb _) in Hc; by simplify_eq).
  apply write_text_Ok in H as [_ E]. split_and!; [done|done| |].
  - split; [done|]. intros q c' [Hq _]%Forall_cons Hc'. cbn [spots] in Hq.
    rewrite E, lookup_insert_ne; [done|]. destruct (is_dir d dst); intros <-; set_solver.
  - split; [|done]. intros _ Hs. exists c. split; [by rewrite <-(Hd src Hs)|].
    destruct (is_dir d dst) eqn:Hdir; [right|left].
    + split; [by apply Hg|]. by rewrite E, lookup_insert_eq.
    + by rewrite E, lookup_insert_eq.
Qed.

Lemma does_makedirs p : strictly_below R p -> does (makedirs p) (Ok []).
Proof.
  intros Hp d d' Hd H. exists [].
  pose proof (preserves_run _ _ _ _ _ (confined_makedirs R d0 R_exists p Hp) H Hd) as Hd'.
  pose proof (growing_run _ _ _ _ (fun d1 => growing_makedirs d1 _) H) as Hg.
  split_and!; [done|done| |done]. split; [done|]. intros q c _ Hq.
  eapply (preserves_run (fun d => d !! q = Some (File c))); [|exact H|exact Hq].
  apply preserves_bind; [apply preserves_get|]. intros e _ _.
  apply preserves_bind; [apply preserves_check|]. intros _ _ _.
  apply preserves_modify. generalize (ancestors p) as l.
  induction l as [|a l IH]; intros e' He; [done|]. cbn [fold_left]. apply IH.
  unfold add_dir. destruct (e' !! a) as [n|] eqn:E; [done|].
  rewrite lookup_insert_ne; [done|]. intros ->. congruence.
Qed.

(** ** The parts *)

Context (target : component) (Ht : target_plain R target).

Ltac member := by apply (bool_decide_unpack _).

Lemma dir_below key p : key ∈ dir_keys -> target_dir target key = Ok p -> strictly_below R p.
Proof. by apply target_dir_below. Qed.

Lemma does_sensor sensor :
  sensor_plain sensor -> does (install_sensor target sensor) (sensor_writes target sensor).
Proof.
  intros (Hfolder & Hfiles & Hsub & Hscript & Hreq). unfold install_sensor, sensor_writes.
  apply does_lift. intros sdir Hsdir. apply dir_below in Hsdir; [|member].
  apply does_lift. intros rdir Hrdir. apply dir_below in Hrdir; [|member].
  apply does_lift. intros udir Hudir. apply dir_below in Hudir; [|member].
  apply does_lift. intros _ _. apply does_lift. intros folder Hf. cbv zeta.
  assert (strictly_below R (join_path sdir folder)) as Hdest
    by (apply join_strictly; [done|by apply Hfolder]).
  apply does_first; [by apply does_makedirs|].
  apply does_lift. intros files Hfl. specialize (Hfiles _ Hfl). rewrite Forall_forall in Hfiles.
  apply does_bind.
  { apply does_each. intros f Hin. apply does_lift. intros src _. apply does_lift. intros dst Hd.
    apply does_copy, join_strictly; [done|by apply (Hfiles f Hin)]. }
  apply does_lift. intros subs Hs. specialize (Hsub _ Hs). rewrite Forall_forall in Hsub.
  apply does_bind.
  { apply does_each. intros s Hin.
    assert (strictly_below R (join_path (join_path sdir folder) s)) as Hb
      by (apply join_strictly; [done|by apply Hsub]).
    apply does_first; [by apply does_makedirs|].
    apply does_text, join_strictly; [done|apply is_literal; member]. }
  apply does_lift. intros script Hj. apply does_bind.
  { unfold copy_startup, startup_writes. destruct (json_truth script); [|exact does_ret].
    apply does_lift. intros s Hs'. apply does_copy, join_strictly; [done|].
    apply Hscript. unfold text_at. by rewrite Hj. }
  apply does_lift. intros reqs Hr. specialize (Hreq _ Hr). rewrite Forall_forall in Hreq.
  apply does_each. intros s Hin. apply does_copy, join_strictly; [done|by apply Hreq].
Qed.

Lemma does_master key file c :
  key ∈ dir_keys -> plain file ->
  does (bind (lift (target_dir target key)) (fun dir =>
          bind (listdir dir) (fun names => write_text (join_path dir file) (c names))))
    (script_in target key file).
Proof.
  intros Hk Hf. apply does_lift. intros dir Hd. apply dir_below in Hd; [|done].
  apply does_look; [apply listdir_looks|]. intros names. by apply does_script, join_strictly.
Qed.

Lemma does_support :
  does (create_support_library_install_script target) (script_for_os target "library_directory").
Proof.
  apply does_lift. intros dir Hd. apply dir_below in Hd; [|member].
  apply does_look; [done|]. intros d. cbv zeta. apply does_lift. intros os _.
  apply does_script, join_strictly; [done|apply install_script_plain].
Qed.

Lemma does_kernel_script kmods :
  does (create_kernel_module_install_script target kmods)
    (script_for_os target "kernel_mod_directory").
Proof.
  apply does_lift. intros dir Hd. apply dir_below in Hd; [|member].
  apply does_lift. intros os _. intros d d' Hu H.
  apply lift_bind_Ok in H as (mods & _ & H). apply lift_bind_Ok in H as (steps & _ & H).
  eapply does_script; [|exact Hu|exact H].
  apply join_strictly; [done|apply install_script_plain].
Qed.

Lemma does_apt sensors kmods :
  does (create_apt_get_script target sensors kmods) (apt_script target).
Proof.
  apply does_lift. intros os _. destruct (bool_decide (os = "Windows")); [exact does_ret|].
  apply does_lift. intros dir Hd. apply dir_below in Hd; [|member]. intros d d' Hu H.
  apply lift_bind_Ok in H as (l1 & _ & H). apply lift_bind_Ok in H as (l2 & _ & H).
  apply lift_bind_Ok in H as (l3 & _ & H). apply lift_bind_Ok in H as (l4 & _ & H). cbv zeta in H.
  eapply does_script; [|exact Hu|exact H].
  apply join_strictly; [done|apply is_literal; member].
Qed.

Lemma install_does kmods sensors wrapper_dir d d' :
  Forall kmod_plain kmods -> Forall sensor_plain sensors -> unchanged R d0 d ->
  install_sensors_in_target target kmods sensors wrapper_dir d = (Ok tt, d') ->
  exists ws, install_writes target sensors = Ok ws /\ lasting d' ws.
Proof.
  intros Hk Hs Hd H. rewrite Forall_forall in Hk. rewrite Forall_forall in Hs.
  apply lift_bind_Ok in H as (names & Hn & H). apply bind_Ok in H as ([] & e1 & H1 & H).
  apply (preserves_run _ _ _ _ _ (confined_prep R d0 R_exists target Ht)) in H1; [|done].
  apply lift_bind_Ok in H as (mods & _ & H). apply bind_Ok in H as ([] & e2 & H2 & H).
  eapply (preserves_run (unchanged R d0)) in H2;
    [|apply preserves_for_each; intros n _; apply preserves_lift_bind; intros k Hf;
      by apply (confined_kernel_module R d0 R_exists target Ht), Hk, (find_component_in n)|done].
  apply bind_Ok in H as ([] & e3 & H3 & H).
  apply (preserves_run _ _ _ _ _ (confined_wrapper R d0 R_exists target Ht wrapper_dir)) in H3; [|done].
  eapply (does_bind _ _ (writes_of (fun name => let? s := find_component name sensors in
    sensor_writes target s) names) (script_writes target)) in H as (ws & E & _ & _ & Hl);
    [| | |exact H3].
  - exists ws. split; [|done]. unfold install_writes. by rewrite Hn.
  - apply does_each. intros n _. apply does_lift. intros c Hf.
    by apply does_sensor, Hs, (find_component_in n).
  - apply does_bind; [|apply does_bind; [|apply does_bind; [|apply does_bind]]].
    + apply (does_master "requirements_directory" "requirements_master.txt"
        (flat_map (fun f => u ("-r " +:+ f) ++ [10]))); [member|apply is_literal; member].
    + apply does_support.
    + apply does_kernel_script.
    + apply (does_master "startup_scripts_directory" "run_sensors.sh" (fun scripts =>
        u "#!/bin/bash" ++ [10] ++
        flat_map (fun s => u ("/opt/sensor_startup/" +:+ s +:+ " &") ++ [10]) scripts));
        [member|apply is_literal; member].
    + apply does_apt.
Qed.

End Contents.

(** C37: functional.  An installation that ends well writes, in order, for every
    sensor it asks for, each file of the sensor's definition to its destination,
    each required sub-directory's [.empty] file, the startup script and the
    requirements files, then the scripts; and at the end each of these files
    holds what its source held at the start (an [.empty] file its one line), of
    those on whose place no later one of the writes may land.  The paths of the
    definitions do not lead out of the target's directory, and a file is spoken
    of whose source lies outside of it. *)
Theorem install_places_sensors R d target kmods sensors wrapper_dir d' :
  (forall q, q ∈ ancestors R -> d !! q = Some Dir) ->
  target_plain R target -> Forall kmod_plain kmods -> Forall sensor_plain sensors ->
  install_sensors_in_target target kmods sensors wrapper_dir d = (Ok tt, d') ->
  exists ws, install_writes target sensors = Ok ws /\ lasting R d d' ws.
Proof. intros HR Ht Hk Hs H. by eapply (install_does R d HR target Ht kmods). Qed.

(** What is written into the master files stays there to the end. *)
Lemma support_keeps target dir file n :
  file ∈ masters ->
  preserves (fun d => d !! (dir ++ [file]) = Some n) (create_support_library_install_script target).
Proof.
  intros Hf. apply preserves_lift_bind. intros lib _.
  apply preserves_bind; [apply preserves_get|]. intros d _ _. cbv zeta.
  apply preserves_lift_bind. intros os _. apply write_keeps; [|apply install_script_name].
  by apply install_script_last.
Qed.

Lemma kernel_script_keeps target kmods dir file n :
  file ∈ masters ->
  preserves (fun d => d !! (dir ++ [file]) = Some n) (create_kernel_module_install_script target kmods).
Proof.
  intros Hf. do 4 (apply preserves_lift_bind; intros ? _).
  apply write_keeps; [|apply install_script_name]. by apply install_script_last.
Qed.

Lemma startup_keeps target dir n :
  preserves (fun d => d !! (dir ++ ["requirements_master.txt"]) = Some n)
    (create_sensor_startup_master target).
Proof.
  apply preserves_lift_bind. intros udir _.
  apply preserves_bind; [by preserve|]. intros names _ _.
  apply write_keeps; [by rewrite last_snoc|done].
Qed.

Lemma apt_keeps target sensors kmods dir file n :
  file ∈ masters ->
  preserves (fun d => d !! (dir ++ [file]) = Some n) (create_apt_get_script target sensors kmods).
Proof.
  intros Hf. apply preserves_lift_bind. intros os _. case_bool_decide; [apply preserves_ret|].
  do 5 (apply preserves_lift_bind; intros ? _). cbv zeta.
  apply write_keeps; [|done]. rewrite last_snoc. set_solver.
Qed.

Definition requirements_line (f : string) : ustr := u ("-r " +:+ f) ++ [10].
Definition startup_line (s : string) : ustr := u ("/opt/sensor_startup/" +:+ s +:+ " &") ++ [10].

(** Functional.  After an installation that ended well the requirements
    master has a line for every requirements file of every installed sensor, and
    the startup master one that runs every startup script in the background. *)
Theorem install_lists_files target kmods sensors wrapper_dir d d' :
  install_sensors_in_target target kmods sensors wrapper_dir d = (Ok tt, d') ->
  exists names rdir udir, texts_at (c_def target) "sensors" = Ok names /\
    target_dir target "requirements_directory" = Ok rdir /\
    target_dir target "startup_scripts_directory" = Ok udir /\
    forall n, n ∈ names -> exists c, find_component n sensors = Ok c /\
      (forall reqs r, texts_at (c_def c) "requirements_files" = Ok reqs -> r ∈ reqs -> name_ok r ->
         has_line d' (rdir ++ ["requirements_master.txt"]) [] requirements_line r) /\
      (forall s, text_at (c_def c) "startup_script" = Ok s -> name_ok s ->
         has_line d' (udir ++ ["run_sensors.sh"]) (u "#!/bin/bash" ++ [10]) startup_line s).
Proof.
  intros H. apply install_steps in H as (names & d1 & d2 & d3 & d4 & d5 & Hn & Hp & H1 & H2 & H3 & H4 & H5).
  destruct (scripts_grow _ _ _ _ _ _ _ _ _ H1 H2 H3 H4 H5) as [G1 _].
  assert ("requirements_master.txt" ∈ masters) as Hm by set_solver.
  assert ("run_sensors.sh" ∈ masters) as Hm' by set_solver.
  unfold create_requirements_master in H1. apply lift_bind_Ok in H1 as (rdir & Hrdir & H1).
  pose proof H4 as H4'.
  unfold create_sensor_startup_master in H4. apply lift_bind_Ok in H4 as (udir & Hudir & H4).
  exists names, rdir, udir. do 3 (split; [done|]). intros n Hin. destruct (Hp n Hin) as (c & Hc & Hi).
  exists c. split; [done|].
  destruct Hi as (sdir & rdir' & udir' & folder & files & subs & script & reqs & _ & Hr' & Hu' & _ &
    _ & _ & Hscript & Hreqs & _ & _ & Hu & Hr).
  rewrite Hrdir in Hr'. injection Hr' as <-. rewrite Hudir in Hu'. injection Hu' as <-. split.
  - intros reqs' r Hreqs' Hrin Hname. rewrite Hreqs in Hreqs'. injection Hreqs' as <-.
    eapply (master_has_line _ _ [] requirements_line r) in H1 as (l & Hl & Hd); [|done|exact Hname|by eapply placed_exists, Hr].
    exists l. split; [done|].
    eapply (keeps_run _ _ _ _ _ _ (support_keeps _ _ _ _ Hm) H2) in Hd.
    eapply (keeps_run _ _ _ _ _ _ (kernel_script_keeps _ _ _ _ _ Hm) H3) in Hd.
    eapply (keeps_run _ _ _ _ _ _ (startup_keeps _ _ _) H4') in Hd.
    eapply (keeps_run _ _ _ _ _ _ (apt_keeps _ _ _ _ _ _ Hm) H5) in Hd. exact Hd.
  - intros s Hs Hname. unfold text_at in Hs. rewrite Hscript in Hs. cbn in Hs.
    assert (json_truth script = true) as Ht.
    { destruct script; try done. cbn in Hs. cbn. destruct s0; [|done].
      cbn in Hs. injection Hs as <-. by destruct Hname. }
    destruct (Hu Ht) as (s' & Hs' & Hpl). rewrite Hs in Hs'. injection Hs' as <-.
    eapply (master_has_line _ _ (u "#!/bin/bash" ++ [10]) startup_line s) in H4 as (l & Hl & Hd);
      [|done|exact Hname|by eapply placed_exists, placed_grows].
    exists l. split; [done|].
    eapply (keeps_run _ _ _ _ _ _ (apt_keeps _ _ _ _ _ _ Hm') H5) in Hd. exact Hd.
Qed.

(** * On the small repository *)

Lemma small_target_plain : target_plain ["t"] (small_target dir_keys).
Proof.
  split; [done|]. intros key s Hk Hs.
  assert (forall k, k ∈ dir_keys -> text_at (c_def (small_target dir_keys)) k = Ok ("./" +:+ k) /\
    plain ("./" +:+ k) /\ join_path ["t"] ("./" +:+ k) <> ["t"]) as H.
  { apply Forall_forall. unfold dir_keys. repeat (apply Forall_cons; split); [..|by apply Forall_nil].
    all: split; [by vm_compute|split; [|vm_compute; discriminate]].
    all: split; [done|by apply (bool_decide_unpack _)]. }
  destruct (H key Hk) as (He & Hp & Hj). rewrite He in Hs. by injection Hs as <-.
Qed.

Lemma small_sensor_plain : sensor_plain (small_sensor "run.sh").
Proof.
  split; [|split; [|split; [|split]]]; intros s Hs; vm_compute in Hs; injection Hs as <-.
  1, 4: split; [done|by apply (bool_decide_unpack _)].
  2, 3: constructor; [split; [done|by apply (bool_decide_unpack _)]|constructor].
  constructor; [|constructor]. intros s Hs. vm_compute in Hs. injection Hs as <-.
  split; [done|by apply (bool_decide_unpack _)].
Qed.

Lemma install_stays_in_target_witness :
  ~ strictly_below ["t"] ["s"; "reqs.txt"] /\
  (install_sensors_in_target (small_target dir_keys) [] [small_sensor "run.sh"] ["w"] small_disk).2
    !! ["s"; "reqs.txt"] = small_disk !! ["s"; "reqs.txt"].
Proof.
  assert (~ strictly_below ["t"] ["s"; "reqs.txt"]) as Hp by (intros (x & r & H); discriminate).
  split; [exact Hp|].
  apply (install_stays_in_target ["t"] small_disk (small_target dir_keys) [] [small_sensor "run.sh"] ["w"]).
  - apply Forall_forall. by repeat constructor.
  - exact small_target_plain.
  - constructor.
  - constructor; [exact small_sensor_plain|constructor].
  - exact Hp.
Defined.

Lemma small_install_ends : small_install dir_keys = (Ok tt, (small_install dir_keys).2).
Proof. apply injective_projections; [by vm_compute|done]. Qed.

(** The sensor, its startup script and its requirements, each as its source was
    before. *)
Lemma install_places_sensors_witness :
  let d := (small_install dir_keys).2 in
  d !! ["t"; "sensors_directory"; "ps"; "sensor.py"] = small_disk !! ["s"; "sensor.py"] /\
  d !! ["t"; "startup_scripts_directory"; "run.sh"] = small_disk !! ["s"; "run.sh"] /\
  d !! ["t"; "requirements_directory"; "reqs.txt"] = small_disk !! ["s"; "reqs.txt"].
Proof.
  cbv zeta.
  destruct (install_places_sensors ["t"] small_disk (small_target dir_keys) [] [small_sensor "run.sh"]
    ["w"] (small_install dir_keys).2) as (ws & E & Hl).
  - apply Forall_forall. by repeat constructor.
  - exact small_target_plain.
  - constructor.
  - constructor; [exact small_sensor_plain|constructor].
  - exact small_install_ends.
  - assert (ws = [Copied ["s"; "sensor.py"] ["t"; "sensors_directory"; "ps"; "sensor.py"];
                  Wrote ["t"; "sensors_directory"; "ps"; "certs"; ".empty"] [10];
                  Copied ["s"; "run.sh"] ["t"; "startup_scripts_directory"; "run.sh"];
                  Copied ["s"; "reqs.txt"] ["t"; "requirements_directory"; "reqs.txt"];
                  Script ["t"; "requirements_directory"; "requirements_master.txt"];
                  Script ["t"; "library_directory"; "install.sh"];
                  Script ["t"; "kernel_mod_directory"; "install.sh"];
                  Script ["t"; "startup_scripts_directory"; "run_sensors.sh"];
                  Script ["t"; "library_directory"; "apt_get_install.sh"]]) as ->.
    { assert (forall a b : list write, Ok a = Ok b -> a = b) as Hinj by congruence.
      apply Hinj. rewrite <-E. by vm_compute. }
    destruct Hl as (H1 & _ & H2 & H3 & _).
    split_and!; [destruct H1 as (c & Hc & [Hp|[Hdir _]])|destruct H2 as (c & Hc & [Hp|[Hdir _]])|
                 destruct H3 as (c & Hc & [Hp|[Hdir _]])];
      try exact (eq_trans Hp (eq_sym Hc)); try (by vm_compute in Hdir).
    all: first [by repeat constructor; apply (bool_decide_unpack _) | by intros (x & r & ?)].
Defined.

Lemma install_lists_files_witness :
  exists names rdir udir, texts_at (c_def (small_target dir_keys)) "sensors" = Ok names /\
    target_dir (small_target dir_keys) "requirements_directory" = Ok rdir /\
    target_dir (small_target dir_keys) "startup_scripts_directory" = Ok udir /\
    forall n, n ∈ names -> exists c, find_component n [small_sensor "run.sh"] = Ok c /\
      (forall reqs r, texts_at (c_def c) "requirements_files" = Ok reqs -> r ∈ reqs -> name_ok r ->
         has_line (small_install dir_keys).2 (rdir ++ ["requirements_master.txt"]) []
           requirements_line r) /\
      (forall s, text_at (c_def c) "startup_script" = Ok s -> name_ok s ->
         has_line (small_install dir_keys).2 (udir ++ ["run_sensors.sh"])
           (u "#!/bin/bash" ++ [10]) startup_line s).
Proof.
  apply (install_lists_files (small_target dir_keys) [] [small_sensor "run.sh"] ["w"] small_disk).
  exact small_install_ends.
Defined.
