(* ===== verification/Ctypes.v ===== *)
(** What the Windows sensors use of Python's [ctypes]: types with the natural
    alignment of the x64 Windows ABI, structures laid over a packet
    ([cast(packet, POINTER(cls))]), string buffers and their slices, and the
    texts made of them ([DecodeString], [LongLongToHex], UUIDs).

    A pointer into a packet reads memory, also beyond the packet's end: memory
    is a function from offsets to bytes, [mem_of p beyond], where [beyond] is
    what happens to lie behind.  Theorems say when it does not matter. *)

From S2P Require Import Prelude Json.

(** * Little-endian integers *)

Definition le_val (bs : bytes) : Z := be_val (reverse bs).
Definition le_enc (n : nat) (z : Z) : bytes := reverse (be_enc n z).

(** An [n]-byte pattern read as a two's complement number. *)
Definition to_signed (n : nat) (z : Z) : Z :=
  if z <? 2 ^ (8 * Z.of_nat n - 1) then z else z - 2 ^ (8 * Z.of_nat n).

(** The values of an [n]-byte integer. *)
Definition in_range (signed : bool) (n : nat) (z : Z) : Prop :=
  if signed then - 2 ^ (8 * Z.of_nat n - 1) <= z < 2 ^ (8 * Z.of_nat n - 1)
  else 0 <= z < 2 ^ (8 * Z.of_nat n).

(** * Types and their layout *)

Inductive ctype :=
  | CInt (signed : bool) (size : nat)
  | CArr (elem : ctype) (n : nat)
  | CStruct (fields : list (string * ctype))
  | CUnion (fields : list (string * ctype)).

Definition round_up (n a : Z) : Z := (n + a - 1) / a * a.

Fixpoint calign (t : ctype) : Z :=
  match t with
  | CInt _ n => Z.of_nat n
  | CArr t _ => calign t
  | CStruct fs | CUnion fs =>
      (fix go fs := match fs with [] => 1 | (_, t) :: fs => Z.max (calign t) (go fs) end) fs
  end.

Fixpoint csize (t : ctype) : Z :=
  match t with
  | CInt _ n => Z.of_nat n
  | CArr t n => Z.of_nat n * csize t
  | CStruct fs =>
      round_up
        ((fix go off fs := match fs with
                           | [] => off
                           | (_, t) :: fs => go (round_up off (calign t) + csize t) fs
                           end) 0 fs)
        (calign t)
  | CUnion fs =>
      round_up ((fix go fs := match fs with [] => 0 | (_, t) :: fs => Z.max (csize t) (go fs) end) fs)
        (calign t)
  end.

(** The fields of a structure from offset [off], with their offsets, and the
    offset after the last. *)
Fixpoint fields_from (off : Z) (fs : list (string * ctype)) : list (string * Z * ctype) :=
  match fs with
  | [] => []
  | (name, t) :: fs =>
      let o := round_up off (calign t) in (name, o, t) :: fields_from (o + csize t) fs
  end.
Fixpoint end_from (off : Z) (fs : list (string * ctype)) : Z :=
  match fs with
  | [] => off
  | (_, t) :: fs => end_from (round_up off (calign t) + csize t) fs
  end.

Definition fields_of (t : ctype) : list (string * Z * ctype) :=
  match t with
  | CStruct fs => fields_from 0 fs
  | CUnion fs => map (fun f => (f.1, 0, f.2)) fs
  | _ => []
  end.

(** Where an attribute path leads: [info.contents.a.b] *)
Fixpoint locate (t : ctype) (path : list string) : res (Z * ctype) :=
  match path with
  | [] => Ok (0, t)
  | name :: path =>
      match find (fun f => bool_decide (f.1.1 = name)) (fields_of t) with
      | Some (_, o, t') => let? (o', t'') := locate t' path in Ok (o + o', t'')
      | None => Raise AttributeError
      end
  end.

(** * Memory *)

Definition memory : Type := Z -> byte.

Definition mem_of (p : bytes) (beyond : memory) : memory := fun i =>
  if (0 <=? i) && (i <? Z.of_nat (length p)) then nth (Z.to_nat i) p (byte_of 0) else beyond i.

Definition load (m : memory) (off : Z) (n : nat) : bytes :=
  map (fun i => m (off + Z.of_nat i)) (seq 0 n).

Definition store (m : memory) (off : Z) (bs : bytes) : memory := fun i =>
  if (off <=? i) && (i <? off + Z.of_nat (length bs))
  then nth (Z.to_nat (i - off)) bs (byte_of 0) else m i.

(** An integer attribute of a structure at the start of [m], and the raw bytes
    of an attribute, [bytes(...)] of an array. *)
Definition read_int (m : memory) (off : Z) (signed : bool) (n : nat) : Z :=
  let v := le_val (load m off n) in if signed then to_signed n v else v.

Definition get_attr (m : memory) (t : ctype) (path : list string) : res Z :=
  let? (o, t') := locate t path in
  match t' with
  | CInt signed n => Ok (read_int m o signed n)
  | _ => Raise TypeError
  end.

Definition get_bytes (m : memory) (t : ctype) (path : list string) : res bytes :=
  let? (o, t') := locate t path in
  Ok (load m o (Z.to_nat (csize t'))).

(** * String buffers *)

Definition zeros (n : nat) : bytes := replicate n (byte_of 0).

(** [create_string_buffer(init)] *)
Definition create_string_buffer (init : bytes) : bytes := init ++ [byte_of 0].
(** [create_string_buffer(init, size)] *)
Definition create_string_buffer_sized (init : bytes) (size : Z) : res bytes :=
  if size <? Z.of_nat (length init) then Raise ValueError
  else Ok (init ++ zeros (Z.to_nat size - length init)).

(** [(BYTE * length).from_buffer(memoryview(sb)[offset:length+offset])], for a
    non-negative offset. *)
Definition slice_buffer (sb : bytes) (offset length : Z) : res bytes :=
  if length <? 0 then Raise ValueError
  else
    let s := take (Z.to_nat length) (drop (Z.to_nat offset) sb) in
    if Z.of_nat (List.length s) <? length then Raise ValueError else Ok s.

(** Writing into a buffer through a pointer to its start.  What would lie
    outside of the buffer is lost here. *)
Definition poke (buf : bytes) (off : Z) (bs : bytes) : bytes :=
  load (store (mem_of buf (fun _ => byte_of 0)) off bs) 0 (length buf).

(** * Texts *)

(** [hex(n)] *)
Definition py_hex (n : Z) : string :=
  if n <? 0 then "-0x" +:+ str_hex (- n) else "0x" +:+ str_hex n.

(** [LongLongToHex(num)] *)
Definition LongLongToHex (num : Z) : string := py_hex (18446744073709551616 - Z.abs num).

(** [str(uuid.UUID(bytes=b))] *)
Definition uuid_text (b : bytes) : string :=
  let h := flat_map (fun c => str_chars (hex2 c)) b in
  str_of (take 8 h ++ ["-"%char] ++ take 4 (drop 8 h) ++ ["-"%char] ++ take 4 (drop 12 h)
          ++ ["-"%char] ++ take 4 (drop 16 h) ++ ["-"%char] ++ drop 20 h).

(** The 16-bit units of a byte string, [None] for a trailing odd byte. *)
Fixpoint units (big : bool) (b : bytes) : option (list Z) :=
  match b with
  | [] => Some []
  | [_] => None
  | x :: y :: b =>
      l ← units big b;
      Some ((if big then byte_val x * 256 + byte_val y else byte_val y * 256 + byte_val x) :: l)
  end.

(** Pairs of surrogates are one character, a lone one is an error. *)
Fixpoint join_units (l : list Z) : option ustr :=
  match l with
  | [] => Some []
  | a :: l =>
      if high_surrogate a then
        match l with
        | b :: l' =>
            if low_surrogate b
            then s ← join_units l'; Some (65536 + (a - 55296) * 1024 + (b - 56320) :: s)
            else None
        | [] => None
        end
      else if low_surrogate a then None
      else s ← join_units l; Some (a :: s)
  end.

(** [b.decode('utf-16')] on a little-endian machine. *)
Definition utf16_decode (b : bytes) : res ustr :=
  let '(big, rest) := match map byte_val (take 2 b) with
                      | [x; y] => if (x =? 255) && (y =? 254) then (false, drop 2 b)
                                  else if (x =? 254) && (y =? 255) then (true, drop 2 b)
                                  else (false, b)
                      | _ => (false, b)
                      end in
  opt_res UnicodeDecodeError (units big rest ≫= join_units).

(** [ary[::2]] *)
Fixpoint every_second {A} (l : list A) : list A :=
  match l with
  | [] => []
  | [x] => [x]
  | x :: _ :: l => x :: every_second l
  end.

(** [DecodeString(slc)]; the last attempt cannot fail. *)
Definition DecodeString (slc : bytes) : ustr :=
  match utf16_decode slc with
  | Ok s => s
  | Raise _ =>
      match utf8_decode slc with
      | Ok s => s
      | Raise _ => map byte_val (every_second slc)
      end
  end.

(** [chr(c)] for a [c_byte] *)
Definition chr_signed (b : byte) : res Z :=
  let c := to_signed 1 (byte_val b) in
  if c <? 0 then Raise ValueError else Ok c.

(** ["".join(map(chr, l))] for a list of [c_byte]s *)
Definition chars_signed (l : bytes) : res ustr := res_mapM chr_signed l.

(** * Lemmas *)

(** ** Integers *)

Lemma length_le_enc n z : length (le_enc n z) = n.
Proof. unfold le_enc. by rewrite length_reverse, length_be_enc. Qed.

Lemma le_val_enc n z : le_val (le_enc n z) = z mod 2 ^ (8 * Z.of_nat n).
Proof.
  unfold le_val, le_enc. rewrite reverse_involutive, be_val_enc, Z.pow_mul_r by lia. done.
Qed.

Lemma to_signed_mod n z :
  (0 < n)%nat -> in_range true n z -> to_signed n (z mod 2 ^ (8 * Z.of_nat n)) = z.
Proof.
  unfold in_range, to_signed. intros Hn Hz.
  assert (2 ^ (8 * Z.of_nat n) = 2 * 2 ^ (8 * Z.of_nat n - 1)) as E.
  { rewrite <-Z.pow_succ_r by lia. f_equal. lia. }
  set (h := 2 ^ (8 * Z.of_nat n - 1)) in *. rewrite E.
  destruct (Z.ltb_spec z 0).
  - rewrite <-(Z.mod_add z 1), Z.mod_small by lia.
    rewrite (proj2 (Z.ltb_ge _ _)) by lia. lia.
  - rewrite Z.mod_small by lia. by rewrite (proj2 (Z.ltb_lt _ _)) by lia.
Qed.

Lemma to_signed_range n z :
  (0 < n)%nat -> 0 <= z < 2 ^ (8 * Z.of_nat n) -> in_range true n (to_signed n z).
Proof.
  unfold in_range, to_signed. intros Hn Hz.
  assert (2 ^ (8 * Z.of_nat n) = 2 * 2 ^ (8 * Z.of_nat n - 1)) as E.
  { rewrite <-Z.pow_succ_r by lia. f_equal. lia. }
  destruct (Z.ltb_spec z (2 ^ (8 * Z.of_nat n - 1))); lia.
Qed.

(** ** Memory *)

Lemma length_load m off n : length (load m off n) = n.
Proof. unfold load. by rewrite length_map, length_seq. Qed.

Lemma load_ext m m' off n :
  (forall i, off <= i < off + Z.of_nat n -> m i = m' i) -> load m off n = load m' off n.
Proof.
  intros H. apply map_ext_in. intros i [_ Hi]%in_seq. apply H. lia.
Qed.

Lemma load_store_same m off bs : load (store m off bs) off (length bs) = bs.
Proof.
  apply (nth_ext _ _ (byte_of 0) (byte_of 0)); rewrite length_load; [done|]. intros i Hi.
  unfold load. rewrite (nth_indep _ _ (store m off bs (off + Z.of_nat 0)))
    by (by rewrite length_map, length_seq).
  rewrite (map_nth (fun i => store m off bs (off + Z.of_nat i))), seq_nth by done.
  unfold store. rewrite (proj2 (Z.leb_le _ _)), (proj2 (Z.ltb_lt _ _)) by lia. cbn [andb].
  f_equal. lia.
Qed.

Lemma load_store_other m off bs o n :
  o + Z.of_nat n <= off \/ off + Z.of_nat (length bs) <= o ->
  load (store m off bs) o n = load m o n.
Proof.
  intros Hd. apply load_ext. intros i Hi. unfold store.
  destruct (Z.leb_spec off i), (Z.ltb_spec i (off + Z.of_nat (length bs))); cbn [andb];
    try done. lia.
Qed.

(** Reading inside of a packet is reading the packet. *)
Lemma load_mem_of p beyond off n :
  0 <= off -> off + Z.of_nat n <= Z.of_nat (length p) ->
  load (mem_of p beyond) off n = take n (drop (Z.to_nat off) p).
Proof.
  intros H0 Hn. apply (nth_ext _ _ (byte_of 0) (byte_of 0)).
  { rewrite length_load, length_take, length_drop. lia. }
  rewrite length_load. intros i Hi.
  unfold load. rewrite (nth_indep _ _ (mem_of p beyond (off + Z.of_nat 0)))
    by (by rewrite length_map, length_seq).
  rewrite (map_nth (fun i => mem_of p beyond (off + Z.of_nat i))), seq_nth by done.
  unfold mem_of. rewrite (proj2 (Z.leb_le _ _)), (proj2 (Z.ltb_lt _ _)) by lia. cbn [andb].
  rewrite nth_firstn, (proj2 (Nat.ltb_lt _ _)) by done. rewrite nth_skipn. f_equal. lia.
Qed.

Lemma load_beyond p b1 b2 off n :
  0 <= off -> off + Z.of_nat n <= Z.of_nat (length p) ->
  load (mem_of p b1) off n = load (mem_of p b2) off n.
Proof. intros. by rewrite !load_mem_of. Qed.

Lemma read_int_store_same m off signed n z :
  (0 < n)%nat -> in_range signed n z -> read_int (store m off (le_enc n z)) off signed n = z.
Proof.
  intros Hn Hz. pose proof (load_store_same m off (le_enc n z)) as Hl.
  rewrite length_le_enc in Hl. unfold read_int. rewrite Hl, le_val_enc. destruct signed; [by apply to_signed_mod|].
  by apply Z.mod_small.
Qed.

Lemma read_int_load m m' off signed n :
  load m off n = load m' off n -> read_int m off signed n = read_int m' off signed n.
Proof. unfold read_int. by intros ->. Qed.

(** ** Layout *)

Lemma round_up_le n a : 0 < a -> n <= round_up n a.
Proof.
  intros Ha. unfold round_up. pose proof (Z.div_mod (n + a - 1) a ltac:(lia)).
  pose proof (Z.mod_pos_bound (n + a - 1) a Ha). lia.
Qed.

Lemma round_up_divide n a : (a | round_up n a).
Proof. exists ((n + a - 1) / a). done. Qed.

(** No empty integers. *)
Fixpoint cwf (t : ctype) : Prop :=
  match t with
  | CInt _ n => (0 < n)%nat
  | CArr t _ => cwf t
  | CStruct fs | CUnion fs =>
      (fix go fs := match fs with [] => True | (_, t) :: fs => cwf t /\ go fs end) fs
  end.

Lemma calign_pos t : cwf t -> 0 < calign t.
Proof.
  revert t. fix go 1. intros [s n|t n|fs|fs]; cbn [cwf calign].
  - lia.
  - apply go.
  - induction fs as [|[nm t] fs IH]; [lia|]. intros [Ht Hfs]. specialize (IH Hfs). lia.
  - induction fs as [|[nm t] fs IH]; [lia|]. intros [Ht Hfs]. specialize (IH Hfs). lia.
Qed.

Lemma csize_struct fs : csize (CStruct fs) = round_up (end_from 0 fs) (calign (CStruct fs)).
Proof.
  reflexivity.
Qed.

Lemma csize_nonneg t : cwf t -> 0 <= csize t.
Proof.
  revert t. fix go 1. intros [s n|t n|fs|fs]; cbn [cwf].
  - cbn. lia.
  - intros Ht. cbn [csize]. specialize (go t Ht). nia.
  - intros Hfs. pose proof (calign_pos (CStruct fs) Hfs) as Ha. rewrite csize_struct.
    etransitivity; [|by apply round_up_le].
    assert (forall off, 0 <= off -> 0 <= end_from off fs) as Hend; [|by apply Hend].
    clear Ha. revert Hfs. induction fs as [|[nm t] fs IH]; intros Hfs off Hoff; [done|].
    destruct Hfs as [Ht Hfs]. cbn [end_from]. apply (IH Hfs).
    pose proof (round_up_le off (calign t) (calign_pos t Ht)). specialize (go t Ht). lia.
  - intros Hfs. pose proof (calign_pos (CUnion fs) Hfs) as Ha. cbn [csize].
    etransitivity; [|by apply round_up_le].
    clear Ha Hfs. induction fs as [|[nm t] fs IH]; lia.
Qed.

Lemma cwf_field fs f : cwf (CStruct fs) -> f ∈ fs -> cwf f.2.
Proof.
  induction fs as [|[nm t] fs IH]; intros Hw Hf; [by apply not_elem_of_nil in Hf|].
  destruct Hw as [Ht Hw]. apply elem_of_cons in Hf as [->|Hf]; [done|by apply IH].
Qed.

(** One field lies before another, and both on their alignment. *)
Definition before (f g : string * Z * ctype) : Prop := f.1.2 + csize f.2 <= g.1.2.
Definition placed (lo hi : Z) (f : string * Z * ctype) : Prop :=
  (calign f.2 | f.1.2) /\ lo <= f.1.2 /\ f.1.2 + csize f.2 <= hi.

Lemma end_from_le off fs : cwf (CStruct fs) -> off <= end_from off fs.
Proof.
  revert off. induction fs as [|[nm t] fs IH]; intros off Hw; [done|]. destruct Hw as [Ht Hw].
  cbn [end_from]. specialize (IH (round_up off (calign t) + csize t) Hw).
  pose proof (round_up_le off (calign t) (calign_pos t Ht)). pose proof (csize_nonneg t Ht). lia.
Qed.

Lemma fields_from_placed fs : forall off, cwf (CStruct fs) ->
  Forall (placed off (end_from off fs)) (fields_from off fs).
Proof.
  induction fs as [|[nm t] fs IH]; intros off Hw; [constructor|].
  destruct Hw as [Ht Hw]. cbn [fields_from end_from].
  pose proof (round_up_le off (calign t) (calign_pos t Ht)). pose proof (csize_nonneg t Ht).
  constructor.
  - split_and!; cbn [fst snd]; [apply round_up_divide|lia|by apply end_from_le].
  - eapply Forall_impl; [by apply IH|]. intros f (Hd & Hlo & Hhi). split_and!; [done|lia|done].
Qed.

Lemma fields_from_ordered fs : forall off, cwf (CStruct fs) ->
  forall i j f g, (i < j)%nat -> fields_from off fs !! i = Some f ->
    fields_from off fs !! j = Some g -> before f g.
Proof.
  induction fs as [|[nm t] fs IH]; intros off Hw i j f g Hij Hf Hg; [done|].
  destruct Hw as [Ht Hw]. cbn [fields_from] in Hf, Hg. destruct j as [|j]; [lia|].
  destruct i as [|i]; cbn in Hf, Hg.
  - injection Hf as <-. apply list_elem_of_lookup_2 in Hg.
    pose proof (fields_from_placed fs (round_up off (calign t) + csize t) Hw) as Hp. rewrite Forall_forall in Hp.
    destruct (Hp g Hg) as (_ & Hlo & _). exact Hlo.
  - eapply IH; [exact Hw| |exact Hf|exact Hg]. lia.
Qed.

(** Bounds.  In every structure type the fields lie at multiples of their
    alignment, in order and without overlap, and inside of the structure, whose
    size is a multiple of its own alignment. *)
Theorem struct_layout_sound fs :
  cwf (CStruct fs) ->
  Forall (placed 0 (csize (CStruct fs))) (fields_of (CStruct fs)) /\
  (forall i j f g, (i < j)%nat -> fields_of (CStruct fs) !! i = Some f ->
     fields_of (CStruct fs) !! j = Some g -> before f g) /\
  (calign (CStruct fs) | csize (CStruct fs)).
Proof.
  intros Hw. rewrite csize_struct. split_and!.
  - eapply Forall_impl; [by apply fields_from_placed|].
    intros f (Hd & Hlo & Hhi). split_and!; [done..|].
    pose proof (round_up_le (end_from 0 fs) (calign (CStruct fs)) (calign_pos _ Hw)). lia.
  - by apply fields_from_ordered.
  - apply round_up_divide.
Qed.

(** ** UTF-16 *)

(** The units of a character. *)
Definition utf16_char (c : Z) : list Z :=
  if c <? 65536 then [c] else [55296 + (c - 65536) / 1024; 56320 + (c - 65536) mod 1024].

(** A text as the driver sends it: UTF-16, little-endian. *)
Definition utf16_encode (s : ustr) : bytes := flat_map (le_enc 2) (flat_map utf16_char s).

Lemma le_enc_2 z : le_enc 2 z = [byte_of z; byte_of (z / 256)].
Proof. reflexivity. Qed.

Lemma units_encode l :
  Forall (fun c => 0 <= c < 65536) l -> units false (flat_map (le_enc 2) l) = Some l.
Proof.
  induction 1 as [|c l Hc _ IH]; [done|]. cbv beta in Hc. cbn [flat_map]. rewrite le_enc_2. cbn [app units].
  rewrite IH. cbn [mbind option_bind]. rewrite !byte_val_of. do 2 f_equal.
  rewrite (Z.mod_small (c / 256)) by (split; [apply Z.div_pos|apply Z.div_lt_upper_bound]; lia).
  pose proof (Z.div_mod c 256 ltac:(lia)). lia.
Qed.

Lemma utf16_char_units c : scalar c -> Forall (fun c => 0 <= c < 65536) (utf16_char c).
Proof.
  unfold scalar, utf16_char. intros Hc. destruct (Z.ltb_spec c 65536).
  - repeat constructor; lia.
  - pose proof (Z.div_lt_upper_bound (c - 65536) 1024 1024 ltac:(lia) ltac:(lia)).
    pose proof (Z.div_pos (c - 65536) 1024 ltac:(lia) ltac:(lia)).
    pose proof (Z.mod_pos_bound (c - 65536) 1024 ltac:(lia)).
    repeat constructor; lia.
Qed.

Lemma join_char c l : scalar c -> join_units (utf16_char c ++ l) = s ← join_units l; Some (c :: s).
Proof.
  unfold scalar, utf16_char. intros Hc. destruct (Z.ltb_spec c 65536); cbn [app join_units].
  - assert (high_surrogate c = false) as -> by (unfold high_surrogate; lia).
    by assert (low_surrogate c = false) as -> by (unfold low_surrogate; lia).
  - pose proof (Z.div_lt_upper_bound (c - 65536) 1024 1024 ltac:(lia) ltac:(lia)).
    pose proof (Z.div_pos (c - 65536) 1024 ltac:(lia) ltac:(lia)).
    pose proof (Z.mod_pos_bound (c - 65536) 1024 ltac:(lia)).
    assert (high_surrogate (55296 + (c - 65536) / 1024) = true) as ->
      by (unfold high_surrogate; lia).
    assert (low_surrogate (56320 + (c - 65536) mod 1024) = true) as ->
      by (unfold low_surrogate; lia).
    destruct (join_units l); [|done]. cbn. do 2 f_equal.
    pose proof (Z.div_mod (c - 65536) 1024 ltac:(lia)). lia.
Qed.

Lemma join_encode s : Forall scalar s -> join_units (flat_map utf16_char s) = Some s.
Proof.
  induction 1 as [|c s Hc _ IH]; [done|]. cbn [flat_map]. by rewrite join_char, IH.
Qed.

(** No byte order mark at the start. *)
Definition no_bom (s : ustr) : Prop :=
  match s with c :: _ => c <> 65279 /\ c <> 65534 | [] => True end.

Lemma first_unit c : scalar c -> exists x l, utf16_char c = x :: l /\ 0 <= x < 65536 /\
  (x = c \/ high_surrogate x = true).
Proof.
  intros Hc. pose proof (utf16_char_units c Hc) as Hu. revert Hu. unfold utf16_char.
  unfold scalar in Hc. destruct (Z.ltb_spec c 65536); intros Hu; do 2 eexists; (split; [done|]).
  - split; [by apply Forall_inv in Hu|by left].
  - split; [by apply Forall_inv in Hu|]. right. unfold high_surrogate.
    pose proof (Z.div_lt_upper_bound (c - 65536) 1024 1024 ltac:(lia) ltac:(lia)).
    pose proof (Z.div_pos (c - 65536) 1024 ltac:(lia) ltac:(lia)). lia.
Qed.

Lemma utf16_decode_encode s :
  Forall scalar s -> no_bom s -> utf16_decode (utf16_encode s) = Ok s.
Proof.
  intros Hs Hb.
  assert (units false (utf16_encode s) ≫= join_units = Some s) as Hd.
  { unfold utf16_encode. rewrite units_encode; [by apply join_encode|].
    apply Forall_flat_map. eapply Forall_impl; [exact Hs|]. apply utf16_char_units. }
  unfold utf16_decode. destruct s as [|c s]; [done|].
  apply Forall_cons in Hs as [Hc _]. destruct (first_unit c Hc) as (x & l & E & Hx & Hor).
  assert (x <> 65279 /\ x <> 65534) as [Hne1 Hne2].
  { destruct Hor as [->|Hh]; [exact Hb|]. unfold high_surrogate in Hh. lia. }
  assert (exists r, utf16_encode (c :: s) = byte_of x :: byte_of (x / 256) :: r) as [r Hr].
  { unfold utf16_encode. cbn [flat_map]. rewrite E. cbn [app flat_map]. rewrite le_enc_2. by eexists. }
  rewrite Hr in *. cbn [take map]. rewrite !byte_val_of.
  rewrite (Z.mod_small (x / 256)) by (split; [apply Z.div_pos|apply Z.div_lt_upper_bound]; lia).
  pose proof (Z.div_mod x 256 ltac:(lia)).
  assert (~ (x mod 256 = 255 /\ x / 256 = 254)) as H1 by lia.
  assert (~ (x mod 256 = 254 /\ x / 256 = 255)) as H2 by lia.
  set (a := x mod 256) in *. set (b := x / 256) in *.
  assert ((a =? 255) && (b =? 254) = false) as -> by lia.
  assert ((a =? 254) && (b =? 255) = false) as -> by lia.
  etransitivity; [|exact (f_equal (opt_res UnicodeDecodeError) Hd)]. done.
Qed.

Lemma utf16_encode_app s r : utf16_encode (s ++ r) = utf16_encode s ++ utf16_encode r.
Proof. unfold utf16_encode. by rewrite !flat_map_app. Qed.

Lemma utf16_encode_zeros n : utf16_encode (replicate n 0) = zeros (2 * n).
Proof.
  induction n as [|n IH]; [done|]. change (replicate (S n) 0) with ([0] ++ replicate n 0).
  rewrite utf16_encode_app, IH. replace (2 * S n)%nat with (2 + 2 * n)%nat by lia. done.
Qed.

Lemma utf16_encode_even s : (2 | Z.of_nat (length (utf16_encode s))).
Proof.
  unfold utf16_encode. generalize (flat_map utf16_char s). intros l.
  induction l as [|c l IH]; [by exists 0|]. cbn [flat_map]. rewrite length_app, length_le_enc.
  destruct IH as [k Hk]. exists (k + 1). lia.
Qed.

(** What the driver sends as UTF-16 is what [DecodeString] gives. *)
Lemma DecodeString_encode s :
  Forall scalar s -> no_bom s -> DecodeString (utf16_encode s) = s.
Proof. intros Hs Hb. unfold DecodeString. by rewrite utf16_decode_encode. Qed.

(** ** Attribute paths *)

Fixpoint lookup_field (l : list (string * Z * ctype)) (name : string) : option (string * Z * ctype) :=
  match l with
  | [] => None
  | f :: l => if bool_decide (f.1.1 = name) then Some f else lookup_field l name
  end.

Lemma find_field l name :
  find (fun f : string * Z * ctype => bool_decide (f.1.1 = name)) l = lookup_field l name.
Proof. induction l as [|f l IH]; [done|]. cbn. by rewrite IH. Qed.

Lemma lookup_field_in l name f : lookup_field l name = Some f -> f ∈ l.
Proof.
  induction l as [|g l IH]; cbn; [done|]. case_bool_decide; [intros [= ->]|intros Hf].
  - by left.
  - right. by apply IH.
Qed.

Lemma union_field_size fs f : cwf (CUnion fs) -> f ∈ fs -> csize f.2 <= csize (CUnion fs).
Proof.
  intros Hw Hf. cbn [csize].
  etransitivity; [|apply round_up_le; exact (calign_pos (CUnion fs) Hw)]. clear Hw.
  induction fs as [|[nm t] fs IH]; [by apply not_elem_of_nil in Hf|].
  apply elem_of_cons in Hf as [->|Hf]; cbn [snd]; [lia|]. specialize (IH Hf). lia.
Qed.

Lemma field_inside t f :
  cwf t -> f ∈ fields_of t -> cwf f.2 /\ 0 <= f.1.2 /\ f.1.2 + csize f.2 <= csize t.
Proof.
  destruct t as [s n|t n|fs|fs]; intros Hw Hf; cbn [fields_of] in Hf;
    try by apply not_elem_of_nil in Hf.
  - split.
    + clear -Hw Hf. revert Hf. generalize 0. induction fs as [|[nm t] fs IH]; intros off Hf.
      { by apply not_elem_of_nil in Hf. }
      destruct Hw as [Ht Hw]. cbn [fields_from] in Hf.
      apply elem_of_cons in Hf as [->|Hf]; [done|by eapply IH].
    + pose proof (fields_from_placed fs 0 Hw) as Hp. rewrite Forall_forall in Hp.
      destruct (Hp f Hf) as (_ & Hlo & Hhi). split; [done|]. rewrite csize_struct.
      pose proof (round_up_le (end_from 0 fs) _ (calign_pos _ Hw)). lia.
  - apply list_elem_of_fmap_1 in Hf as (g & -> & Hg). cbn [fst snd].
    pose proof (union_field_size fs g Hw Hg) as Hs. split; [by eapply (cwf_field fs)|lia].
Qed.

(** An attribute lies inside of the structure it belongs to. *)
Lemma locate_inside path : forall t o t',
  cwf t -> locate t path = Ok (o, t') -> cwf t' /\ 0 <= o /\ o + csize t' <= csize t.
Proof.
  induction path as [|name path IH]; intros t o t' Hw Hl; cbn [locate] in Hl.
  { injection Hl as <- <-. split_and!; [done|lia|lia]. }
  rewrite find_field in Hl. destruct (lookup_field (fields_of t) name) as [[[nm o1] t1]|] eqn:Hf; [|done].
  apply lookup_field_in, field_inside in Hf as (Hw1 & H0 & H1); [|done]. cbn [fst snd] in *.
  destruct (locate t1 path) as [[o2 t2]|] eqn:Hl2; [|done]. cbn in Hl. injection Hl as <- <-.
  destruct (IH t1 o2 t2 Hw1 Hl2) as (Hw2 & H2 & H3). split_and!; [done|lia|lia].
Qed.

(** The attributes of a structure that fits the packet do not depend on what
    lies behind the packet. *)
Lemma get_attr_inside p b1 b2 t path :
  cwf t -> csize t <= Z.of_nat (length p) ->
  get_attr (mem_of p b1) t path = get_attr (mem_of p b2) t path.
Proof.
  intros Hw Hp. unfold get_attr. destruct (locate t path) as [[o t']|] eqn:Hl; [|done].
  cbn [res_bind]. destruct (locate_inside _ _ _ _ Hw Hl) as (_ & H0 & H1).
  destruct t' as [s n| | |]; [|done..]. f_equal. apply read_int_load, load_beyond; [done|].
  cbn [csize] in H1. lia.
Qed.

Lemma get_bytes_inside p b1 b2 t path :
  cwf t -> csize t <= Z.of_nat (length p) ->
  get_bytes (mem_of p b1) t path = get_bytes (mem_of p b2) t path.
Proof.
  intros Hw Hp. unfold get_bytes. destruct (locate t path) as [[o t']|] eqn:Hl; [|done].
  cbn [res_bind]. destruct (locate_inside _ _ _ _ Hw Hl) as (Hw' & H0 & H1).
  pose proof (csize_nonneg t' Hw'). f_equal. apply load_beyond; [done|]. lia.
Qed.

(** * Images: what the other side lays out

    The memory of a structure of type [t] whose attributes were written one by
    one, each with its raw bytes; the attributes must not overlap. *)

Definition put (t : ctype) (m : memory) (path : list string) (bs : bytes) : memory :=
  match locate t path with Ok (o, _) => store m o bs | Raise _ => m end.

Fixpoint c_image (t : ctype) (vals : list (list string * bytes)) : memory :=
  match vals with
  | [] => fun _ => byte_of 0
  | (path, bs) :: vals => put t (c_image t vals) path bs
  end.

(** Where the attributes lie. *)
Definition slots (t : ctype) (vals : list (list string * bytes)) : list (Z * Z) :=
  map (fun v => match locate t v.1 with
                | Ok (o, _) => (o, Z.of_nat (length v.2))
                | Raise _ => (-1, 0)
                end) vals.

Definition apart (a b : Z * Z) : bool := (a.1 + a.2 <=? b.1) || (b.1 + b.2 <=? a.1).

Fixpoint all_apart (l : list (Z * Z)) : bool :=
  match l with
  | [] => true
  | a :: l => (0 <=? a.1) && forallb (apart a) l && all_apart l
  end.

Lemma c_image_load t vals : all_apart (slots t vals) = true ->
  forall path bs o t', (path, bs) ∈ vals -> locate t path = Ok (o, t') ->
  load (c_image t vals) o (length bs) = bs.
Proof.
  induction vals as [|[q cs] vals IH]; intros Ha path bs o t' Hin Hl.
  { by apply not_elem_of_nil in Hin. }
  cbn [slots map all_apart fst snd] in Ha. apply andb_prop in Ha as [Ha Hrest].
  apply andb_prop in Ha as [H0 Ha]. cbn [c_image]. unfold put.
  apply elem_of_cons in Hin as [[= -> ->]|Hin].
  - rewrite Hl. apply load_store_same.
  - destruct (locate t q) as [[oq tq]|] eqn:Hq; [|done].
    rewrite load_store_other; [by eapply IH|].
    rewrite forallb_forall in Ha.
    assert (In (o, Z.of_nat (length bs)) (slots t vals)) as Hs.
    { unfold slots. apply in_map_iff. exists (path, bs). split; [cbn; by rewrite Hl|].
      by apply list_elem_of_In. }
    specialize (Ha _ Hs). unfold apart in Ha. cbn [fst snd] in Ha. lia.
Qed.

(** The packet made of an image: its first [n] bytes, then [tail]. *)
Definition image_packet (t : ctype) (vals : list (list string * bytes)) (n : nat) (tail : bytes) : bytes :=
  load (c_image t vals) 0 n ++ tail.

Lemma image_packet_load t vals n tail beyond o k :
  0 <= o -> o + Z.of_nat k <= Z.of_nat n ->
  load (mem_of (image_packet t vals n tail) beyond) o k = load (c_image t vals) o k.
Proof.
  intros H0 Hk. unfold image_packet. apply load_ext. intros i Hi. unfold mem_of.
  rewrite length_app, length_load.
  rewrite (proj2 (Z.leb_le _ _)), (proj2 (Z.ltb_lt _ _)) by lia. cbn [andb].
  rewrite app_nth1 by (rewrite length_load; lia). unfold load.
  rewrite (nth_indep _ _ (c_image t vals (0 + Z.of_nat 0))) by (rewrite length_map, length_seq; lia).
  rewrite (map_nth (fun i => c_image t vals (0 + Z.of_nat i))), seq_nth by lia. f_equal. lia.
Qed.

(** Reading an attribute of the image gives what was written. *)
Lemma image_attr t vals n tail beyond : all_apart (slots t vals) = true ->
  forall path bs o signed, (path, bs) ∈ vals ->
  locate t path = Ok (o, CInt signed (length bs)) -> 0 <= o ->
  o + Z.of_nat (length bs) <= Z.of_nat n ->
  read_int (mem_of (image_packet t vals n tail) beyond) o signed (length bs) =
  if signed then to_signed (length bs) (le_val bs) else le_val bs.
Proof.
  intros Ha path bs o signed Hin Hl H0 Hn. unfold read_int. rewrite image_packet_load by done.
  by rewrite (c_image_load t vals Ha path bs o _ Hin Hl).
Qed.

Lemma int_of_enc signed n z : (0 < n)%nat -> in_range signed n z ->
  (if signed then to_signed n (le_val (le_enc n z)) else le_val (le_enc n z)) = z.
Proof.
  intros Hn Hz. rewrite le_val_enc. destruct signed; [by apply to_signed_mod|by apply Z.mod_small].
Qed.

(** The start of an image packet's tail is what a slice from there gives. *)
Lemma image_packet_slice t vals n tail rest more k :
  k = Z.of_nat (length tail) ->
  slice_buffer (image_packet t vals n (tail ++ rest) ++ more) (Z.of_nat n) k = Ok tail.
Proof.
  intros ->. unfold slice_buffer, image_packet.
  rewrite (proj2 (Z.ltb_ge _ _)) by lia. rewrite !Nat2Z.id, <-!app_assoc.
  rewrite (drop_app_length' (load _ _ _) _ n) by (by rewrite length_load).
  rewrite take_app_length. by rewrite Z.ltb_irrefl.
Qed.

Lemma sized_buffer_exact p : create_string_buffer_sized p (Z.of_nat (length p)) = Ok p.
Proof.
  unfold create_string_buffer_sized. rewrite Z.ltb_irrefl, Nat2Z.id, Nat.sub_diag. cbn.
  by rewrite app_nil_r.
Qed.

(** ** Hexadecimal *)

(** The value of lower-case hexadecimal digits. *)
Definition hexdig_val (c : ascii) : Z :=
  let n := Z.of_N (N_of_ascii c) in if n <? 58 then n - 48 else n - 87.
Definition hex_val (l : list ascii) : Z := fold_left (fun a c => a * 16 + hexdig_val c) l 0.

(** [int(s, 16)] of a lower-case text with its "0x". *)
Definition int_16 (s : string) : option Z :=
  match str_chars s with
  | "0"%char :: "x"%char :: l => Some (hex_val l)
  | _ => None
  end.

Lemma hexdig_val_digit d : 0 <= d < 16 -> hexdig_val (hex_digit d) = d.
Proof.
  intros Hd. assert (d ∈ seqZ 0 16) as Hin by (apply elem_of_seqZ; lia).
  revert d Hd Hin. assert (forallb (fun d => hexdig_val (hex_digit d) =? d) (seqZ 0 16) = true) as H
    by (by vm_compute).
  intros d _ Hin. rewrite forallb_forall in H. apply Z.eqb_eq, H. by apply list_elem_of_In.
Qed.

Lemma hex_go_app fuel z acc : hex_go fuel z acc = hex_go fuel z [] ++ acc.
Proof.
  revert z acc. induction fuel as [|fuel IH]; intros z acc; [done|]. cbn [hex_go].
  destruct (z / 16 =? 0); [done|]. rewrite IH, (IH _ [_]), <-app_assoc. done.
Qed.

Lemma hex_go_val fuel z : 0 <= z < 2 ^ Z.of_nat fuel -> hex_val (hex_go fuel z []) = z.
Proof.
  revert z. induction fuel as [|fuel IH]; intros z Hz.
  { change (2 ^ Z.of_nat 0) with 1 in Hz. cbn. lia. }
  cbn [hex_go]. rewrite Nat2Z.inj_succ, Z.pow_succ_r in Hz by lia.
  assert (0 <= z mod 16 < 16) as Hm by (apply Z.mod_pos_bound; lia).
  destruct (Z.eqb_spec (z / 16) 0) as [E|E].
  - cbn. rewrite hexdig_val_digit by done. Z.to_euclidean_division_equations; lia.
  - rewrite hex_go_app. unfold hex_val. rewrite fold_left_app. fold (hex_val (hex_go fuel (z / 16) [])).
    rewrite IH by (Z.to_euclidean_division_equations; lia). cbn.
    rewrite hexdig_val_digit by done. Z.to_euclidean_division_equations; lia.
Qed.

Lemma int_16_hex z : 0 <= z -> int_16 (py_hex z) = Some z.
Proof.
  intros Hz. unfold py_hex. rewrite (proj2 (Z.ltb_ge _ _)) by done.
  assert (str_chars ("0x" +:+ str_hex z) =
          "0"%char :: "x"%char :: hex_go (S (Z.to_nat (Z.log2 z))) z []) as E.
  { rewrite str_chars_app. unfold str_hex. by rewrite str_chars_of. }
  unfold int_16. rewrite E. f_equal. apply hex_go_val. by apply digits_fuel.
Qed.

(** What was written at offset [o]. *)
Fixpoint read_back (t : ctype) (vals : list (list string * bytes)) (o : Z) : option bytes :=
  match vals with
  | [] => None
  | (path, bs) :: vals =>
      match locate t path with
      | Ok (o', _) => if o' =? o then Some bs else read_back t vals o
      | Raise _ => read_back t vals o
      end
  end.

Lemma read_back_in t vals o bs : read_back t vals o = Some bs ->
  exists path t', (path, bs) ∈ vals /\ locate t path = Ok (o, t').
Proof.
  induction vals as [|[path cs] vals IH]; cbn [read_back]; [done|].
  destruct (locate t path) as [[o' t']|] eqn:Hl.
  - destruct (Z.eqb_spec o' o) as [->|].
    + intros [= ->]. exists path, t'. split; [by left|done].
    + intros Hr. destruct (IH Hr) as (q & tq & Hin & Hq). exists q, tq. split; [by right|done].
  - intros Hr. destruct (IH Hr) as (q & tq & Hin & Hq). exists q, tq. split; [by right|done].
Qed.

(** One side writes an attribute of its structure [t], the other reads the
    attribute at the same offset of its own structure [cls]. *)
Lemma image_get_attr t vals n tail beyond cls path o signed k z :
  all_apart (slots t vals) = true ->
  locate cls path = Ok (o, CInt signed k) -> read_back t vals o = Some (le_enc k z) ->
  (0 < k)%nat -> 0 <= o -> o + Z.of_nat k <= Z.of_nat n -> in_range signed k z ->
  get_attr (mem_of (image_packet t vals n tail) beyond) cls path = Ok z.
Proof.
  intros Ha Hl Hr Hk H0 Hn Hz. unfold get_attr. rewrite Hl. cbn [res_bind]. f_equal.
  destruct (read_back_in _ _ _ _ Hr) as (q & t' & Hin & Hq).
  unfold read_int. rewrite image_packet_load by done.
  pose proof (c_image_load t vals Ha q _ o t' Hin Hq) as Hb. rewrite length_le_enc in Hb. rewrite Hb.
  by apply int_of_enc.
Qed.

Lemma image_get_bytes t vals n tail beyond cls path o t' bs :
  all_apart (slots t vals) = true ->
  locate cls path = Ok (o, t') -> read_back t vals o = Some bs ->
  csize t' = Z.of_nat (length bs) -> 0 <= o -> o + csize t' <= Z.of_nat n ->
  get_bytes (mem_of (image_packet t vals n tail) beyond) cls path = Ok bs.
Proof.
  intros Ha Hl Hr Hs H0 Hn. unfold get_bytes. rewrite Hl. cbn [res_bind]. f_equal.
  destruct (read_back_in _ _ _ _ Hr) as (q & tq & Hin & Hq). rewrite Hs, Nat2Z.id.
  rewrite image_packet_load by lia. by apply (c_image_load t vals Ha q _ o tq).
Qed.

(** Where attributes lie depends on their lengths only. *)
Definition shape (vals : list (list string * bytes)) : list (list string * nat) :=
  map (fun v => (v.1, length v.2)) vals.
Definition slots_of (t : ctype) (l : list (list string * nat)) : list (Z * Z) :=
  map (fun v => match locate t v.1 with
                | Ok (o, _) => (o, Z.of_nat v.2)
                | Raise _ => (-1, 0)
                end) l.
Lemma slots_shape t vals : slots t vals = slots_of t (shape vals).
Proof. unfold slots, slots_of, shape. by rewrite map_map. Qed.

(** The value [LongLongToHex] writes. *)
Lemma LongLongToHex_value num :
  Z.abs num <= 2 ^ 64 -> int_16 (LongLongToHex num) = Some (2 ^ 64 - Z.abs num).
Proof. intros Hn. unfold LongLongToHex. apply int_16_hex. lia. Qed.

(** ** Writing into a buffer *)

Lemma length_poke buf o bs : length (poke buf o bs) = length buf.
Proof. apply length_load. Qed.

Lemma mem_of_poke buf o bs beyond o' n :
  0 <= o' -> o' + Z.of_nat n <= Z.of_nat (length buf) ->
  load (mem_of (poke buf o bs) beyond) o' n = load (store (mem_of buf beyond) o bs) o' n.
Proof.
  intros H0 Hn. rewrite load_mem_of by (rewrite ?length_poke; done). unfold poke.
  apply (nth_ext _ _ (byte_of 0) (byte_of 0)).
  { rewrite length_load, length_take, length_drop, length_load. lia. }
  rewrite length_take, length_drop, length_load. intros i Hi.
  rewrite nth_firstn, (proj2 (Nat.ltb_lt _ _)) by lia. rewrite nth_skipn. unfold load.
  set (f := fun j => store (mem_of buf (fun _ => byte_of 0)) o bs (0 + Z.of_nat j)).
  set (g := fun j => store (mem_of buf beyond) o bs (o' + Z.of_nat j)).
  rewrite (nth_indep _ _ (f 0%nat)) by (rewrite length_map, length_seq; lia).
  rewrite (nth_indep (map g _) _ (g 0%nat)) by (rewrite length_map, length_seq; lia).
  rewrite !map_nth, !seq_nth by lia. subst f g. cbv beta.
  unfold store. replace (0 + Z.of_nat (0 + (Z.to_nat o' + i))) with (o' + Z.of_nat (0 + i)) by lia.
  case_match; [done|]. unfold mem_of.
  by rewrite (proj2 (Z.leb_le _ _)), (proj2 (Z.ltb_lt _ _)) by lia.
Qed.

Lemma peek_poke_same buf o bs beyond n :
  0 <= o -> o + Z.of_nat n <= Z.of_nat (length buf) -> n = length bs ->
  load (mem_of (poke buf o bs) beyond) o n = bs.
Proof. intros H0 Hn ->. rewrite mem_of_poke by done. apply load_store_same. Qed.

Lemma peek_poke_other buf o bs beyond o' n :
  0 <= o' -> o' + Z.of_nat n <= Z.of_nat (length buf) ->
  o' + Z.of_nat n <= o \/ o + Z.of_nat (length bs) <= o' ->
  load (mem_of (poke buf o bs) beyond) o' n = load (mem_of buf beyond) o' n.
Proof. intros H0 Hn Hd. rewrite mem_of_poke by done. by apply load_store_other. Qed.

Lemma peek_zeros k beyond o n :
  0 <= o -> o + Z.of_nat n <= Z.of_nat k -> load (mem_of (zeros k) beyond) o n = zeros n.
Proof.
  intros H0 Hn. unfold zeros. rewrite load_mem_of by (rewrite ?length_replicate; done).
  rewrite drop_replicate, take_replicate. f_equal. lia.
Qed.

Lemma length_zeros n : length (zeros n) = n.
Proof. apply length_replicate. Qed.

(** Bounds.  [LongLongToHex] writes the 64-bit pattern of exactly the
    negative numbers, the addresses of the kernel's half of the address space.
    A user address, a process or thread number and zero come out as the pattern
    of the number's negation, zero with 17 digits. *)
Theorem LongLongToHex_pattern num :
  in_range true 8 num \/ in_range false 8 num ->
  exists v, int_16 (LongLongToHex num) = Some v /\ 0 < v <= 2 ^ 64 /\
    v mod 2 ^ 64 = (- Z.abs num) mod 2 ^ 64 /\
    (v = num mod 2 ^ 64 <-> num < 0 \/ num = 2 ^ 63).
Proof.
  intros Hn. assert (- 2 ^ 63 <= num < 2 ^ 64) as Hr.
  { unfold in_range in Hn. change (8 * Z.of_nat 8) with 64 in Hn. change (64 - 1) with 63 in Hn. lia. }
  exists (2 ^ 64 - Z.abs num). rewrite LongLongToHex_value by lia. split_and!; [done|lia|lia| |].
  - rewrite <-(Z.mod_add (- Z.abs num) 1) by lia. f_equal. lia.
  - destruct (Z.ltb_spec num 0).
    + rewrite <-(Z.mod_add num 1), Z.mod_small by lia. lia.
    + rewrite Z.mod_small by lia. lia.
Qed.

Lemma LongLongToHex_pattern_witness :
  LongLongToHex (-8796093022208) = "0xfffff80000000000" /\
  exists v, int_16 (LongLongToHex 4) = Some v /\ 0 < v <= 2 ^ 64 /\
    v mod 2 ^ 64 = (- Z.abs 4) mod 2 ^ 64 /\ (v = 4 mod 2 ^ 64 <-> 4 < 0 \/ 4 = 2 ^ 63).
Proof. split; [by vm_compute|apply (LongLongToHex_pattern 4); left; unfold in_range; cbn; lia]. Defined.
