(* ===== verification/NtStructs.v ===== *)
(** The driver's data as the Windows side reads it: the enumerations and
    structures of [src/sensors/ntfltmgr/ntfltmgr.py], and the [build] method of
    every structure, which turns a packet into the named tuple that is sent as
    an event.

    A packet is a byte string; a structure cast over it reads memory, so that
    reading past its end gives whatever lies behind ([beyond]).  The first
    group of theorems says when no such byte is read. *)

From S2P Require Import Prelude Json Ctypes.

(** * C types *)

Definition BYTE : ctype := CInt true 1.
Definition BOOLEAN : ctype := CInt true 1.
Definition CHAR : ctype := CInt false 1.
Definition WCHAR : ctype := CInt false 2.
Definition USHORT : ctype := CInt false 2.
Definition UINT : ctype := CInt false 4.
Definition ULONG : ctype := CInt false 4.
Definition DWORD : ctype := CInt false 4.
Definition LONG : ctype := CInt true 4.
Definition NTSTATUS : ctype := DWORD.
Definition LONGLONG : ctype := CInt true 8.
Definition ULONGLONG : ctype := CInt false 8.
Definition SIZE_T : ctype := ULONGLONG.

Definition MAXPKTSZ : Z := 65536.
Definition MAXSENSORNAMESZ : Z := 64.
Definition MAXRSPSZ : Z := 4096.

(** * Enumerations *)

(** An [IntEnum]: its members in the order of the class.  The first name of a
    value is its own, later ones are aliases. *)
Fixpoint enum_name (members : list (string * Z)) (v : Z) : res string :=
  match members with
  | [] => Raise ValueError
  | (name, z) :: members => if z =? v then Ok name else enum_name members v
  end.

(** What a registry query asks for. *)
Definition KeyValueInformationClass : list (string * Z) :=
  [("KeyValueBasicInformation", 0); ("KeyValueFullInformation", 1);
   ("KeyValuePartialInformation", 2); ("KeyValueFullInformationAlign64", 3);
   ("KeyValuePartialInformationAlign64", 4); ("KeyValueLayerInformation", 5);
   ("MaxKeyValueInfoClass", 6)].

(** The registry operations; the first name of a value is its canonical one. *)
Definition RegNotifyClass : list (string * Z) :=
  [("RegNtDeleteKey", 0); ("RegNtPreDeleteKey", 0); ("RegNtSetValueKey", 1);
   ("RegNtPreSetValueKey", 1); ("RegNtDeleteValueKey", 2); ("RegNtPreDeleteValueKey", 2);
   ("RegNtSetInformationKey", 3); ("RegNtPreSetInformationKey", 3); ("RegNtRenameKey", 4);
   ("RegNtPreRenameKey", 4); ("RegNtEnumerateKey", 5); ("RegNtPreEnumerateKey", 5);
   ("RegNtEnumerateValueKey", 6); ("RegNtPreEnumerateValueKey", 6); ("RegNtQueryKey", 7);
   ("RegNtPreQueryKey", 7); ("RegNtQueryValueKey", 8); ("RegNtPreQueryValueKey", 8);
   ("RegNtQueryMultipleValueKey", 9); ("RegNtPreQueryMultipleValueKey", 9);
   ("RegNtPreCreateKey", 10); ("RegNtPostCreateKey", 11); ("RegNtPreOpenKey", 12);
   ("RegNtPostOpenKey", 13); ("RegNtKeyHandleClose", 14); ("RegNtPreKeyHandleClose", 14);
   ("RegNtPostDeleteKey", 15); ("RegNtPostSetValueKey", 16);
   ("RegNtPostDeleteValueKey", 17); ("RegNtPostSetInformationKey", 18);
   ("RegNtPostRenameKey", 19); ("RegNtPostEnumerateKey", 20);
   ("RegNtPostEnumerateValueKey", 21); ("RegNtPostQueryKey", 22);
   ("RegNtPostQueryValueKey", 23); ("RegNtPostQueryMultipleValueKey", 24);
   ("RegNtPostKeyHandleClose", 25); ("RegNtPreCreateKeyEx", 26);
   ("RegNtPostCreateKeyEx", 27); ("RegNtPreOpenKeyEx", 28); ("RegNtPostOpenKeyEx", 29);
   ("RegNtPreFlushKey", 30); ("RegNtPostFlushKey", 31); ("RegNtPreLoadKey", 32);
   ("RegNtPostLoadKey", 33); ("RegNtPreUnLoadKey", 34); ("RegNtPostUnLoadKey", 35);
   ("RegNtPreQueryKeySecurity", 36); ("RegNtPostQueryKeySecurity", 37);
   ("RegNtPreSetKeySecurity", 38); ("RegNtPostSetKeySecurity", 39);
   ("RegNtCallbackObjectContextCleanup", 40); ("RegNtPreRestoreKey", 41);
   ("RegNtPostRestoreKey", 42); ("RegNtPreSaveKey", 43); ("RegNtPostSaveKey", 44);
   ("RegNtPreReplaceKey", 45); ("RegNtPostReplaceKey", 46); ("RegNtPreQueryKeyName", 47);
   ("RegNtPostQueryKeyName", 48); ("MaxRegNtNotifyClass", 49)].

(** Where a registry access comes from. *)
Definition KPROCESSOR_MODE : list (string * Z) :=
  [("KernelMode", 0); ("UserMode", 1)].

(** The types of registry values. *)
Definition RegObjectType : list (string * Z) :=
  [("RegNone", 0); ("RegSz", 1); ("RegExpandSz", 2); ("RegBinary", 3); ("RegDWord", 4);
   ("RegDWordLE", 4); ("RegDWordBE", 5); ("RegLink", 6); ("RegMultiSz", 7);
   ("RegResourceList", 8); ("RegFullResourceDescriptor", 9);
   ("RegResourceRequirementsList", 10); ("RegQWord", 11); ("RegQWordLE", 11)].

(** The kinds of events. *)
Module SensorType.

Inductive t :=
  | NONE | ImageLoad | ProcessCreate | ProcessDestroy | ThreadCreate | ThreadDestroy
  | ProcessListValidationFailed | RegQueryValueKeyInfo | RegCreateKeyInfo | RegSetValueKeyInfo
  | RegOpenKeyInfo | RegDeleteValueKeyInfo | RegRenameKeyInfo | RegPostOperationInfo.

Definition kinds : list (t * string * Z) :=
  [(NONE, "NONE", 0); (ImageLoad, "ImageLoad", 1); (ProcessCreate, "ProcessCreate", 2);
   (ProcessDestroy, "ProcessDestroy", 3); (ThreadCreate, "ThreadCreate", 4);
   (ThreadDestroy, "ThreadDestroy", 5);
   (ProcessListValidationFailed, "ProcessListValidationFailed", 6);
   (RegQueryValueKeyInfo, "RegQueryValueKeyInfo", 7); (RegCreateKeyInfo, "RegCreateKeyInfo", 8);
   (RegSetValueKeyInfo, "RegSetValueKeyInfo", 9); (RegOpenKeyInfo, "RegOpenKeyInfo", 10);
   (RegDeleteValueKeyInfo, "RegDeleteValueKeyInfo", 11);
   (RegRenameKeyInfo, "RegRenameKeyInfo", 12);
   (RegPostOperationInfo, "RegPostOperationInfo", 4097)].

#[global] Instance t_eq_dec : EqDecision t.
Proof. solve_decision. Defined.

(** [SensorType(v)] *)
Definition of_value (v : Z) : res t :=
  match find (fun m => m.2 =? v) kinds with
  | Some (k, _, _) => Ok k
  | None => Raise ValueError
  end.

(** [k.name] *)
Definition name (k : t) : string :=
  match find (fun m => bool_decide (m.1.1 = k)) kinds with
  | Some (_, n, _) => n
  | None => ""
  end.

End SensorType.

(** The attributes of a sensor are a set of flags, 1 is not one of them. *)
Definition SensorAttributeFlags : list (string * Z) :=
  [("NoAttributes", 0); ("RealTime", 2); ("Temporal", 4); ("EnabledAtStart", 8);
   ("DynamicSensor", 16)].

(** [SensorAttributeFlags(v)] and its [str]: a name of its own, or the names of
    its bits, the highest first; other bits raise [ValueError]. *)
Definition flag_names (v : Z) : list (string * Z) :=
  filter (fun f => negb (f.2 =? 0) && (Z.land f.2 v =? f.2)) (rev SensorAttributeFlags).

Definition SensorAttributeFlags_str (v : Z) : res string :=
  match enum_name SensorAttributeFlags v with
  | Ok name => Ok ("SensorAttributeFlags." +:+ name)
  | Raise _ =>
      let ms := flag_names v in
      if fold_left (fun w f => Z.land w (Z.lnot f.2)) ms v =? 0
      then Ok ("SensorAttributeFlags." +:+ str_join "|" (map fst ms))
      else Raise ValueError
  end.

(** The commands to the driver. *)
Definition WVU_COMMAND : list (string * Z) :=
  [("Echo", 0); ("EnableProbe", 1); ("DisableProbe", 2); ("EnableUnload", 3);
   ("DisableUnload", 4); ("EnumerateSensors", 5); ("ConfigureSensor", 6); ("OneShotKill", 7)].

(** Its responses. *)
Definition WVU_RESPONSE : list (string * Z) :=
  [("NORESPONSE", 0); ("WVUSuccess", 1); ("WVUFailure", 2)].

(** * Structures *)

Definition UUID : ctype :=
  CStruct [("Data1", UINT); ("Data2", USHORT); ("Data3", USHORT);
    ("Data4", CArr BYTE 8)].

Definition _UUID : ctype :=
  CUnion [("UUID", UUID); ("Data", CArr BYTE 16)].

Definition LIST_ENTRY : ctype := CStruct [("space", CArr BYTE 16)].

Definition SensorDataHeader : ctype :=
  CStruct [("sensor_id", _UUID); ("sensor_type", USHORT); ("DataSz", USHORT);
    ("CurrentGMT", LONGLONG); ("ListEntry", LIST_ENTRY)].

Definition CLIENT_ID : ctype :=
  CStruct [("UniqueProcess", ULONGLONG); ("UniqueThread", ULONGLONG)].

Definition FILTER_FULL_INFORMATION : ctype :=
  CStruct [("NextEntryOffset", ULONG); ("FrameID", ULONG); ("NumberOfInstances", ULONG);
    ("FilterNameLength", USHORT); ("FilterNameBuffer", WCHAR)].

Definition INSTANCE_FULL_INFORMATION : ctype :=
  CStruct [("NextEntryOffset", ULONG); ("InstanceNameLength", USHORT);
    ("InstanceNameBufferOffset", USHORT); ("AltitudeLength", USHORT);
    ("AltitudeBufferOffset", USHORT); ("VolumeNameLength", USHORT);
    ("VolumeNameBufferOffset", USHORT); ("FilterNameLength", USHORT);
    ("FilterNameBufferOffset", USHORT)].

Definition FILTER_REPLY_HEADER : ctype :=
  CStruct [("Status", NTSTATUS); ("MessageId", ULONGLONG)].

Definition FILTER_MESSAGE_HEADER : ctype :=
  CStruct [("ReplyLength", ULONG); ("MessageId", ULONGLONG)].

Definition RegCreateKeyInfo : ctype :=
  CStruct [("Header", SensorDataHeader); ("ProcessId", LONGLONG);
    ("EProcess", LONGLONG); ("RootObject", LONGLONG); ("Options", ULONG);
    ("SecurityDescriptor", LONGLONG); ("SecurityQualityOfService", LONGLONG);
    ("DesiredAccess", ULONG); ("GrantedAccess", ULONG); ("Version", LONGLONG);
    ("Wow64Flags", ULONG); ("Attributes", ULONG); ("CheckAccessMode", CHAR);
    ("CompleteNameSz", USHORT); ("CompleteName", CArr BYTE 1)].

Definition RegQueryValueKeyInfo : ctype :=
  CStruct [("Header", SensorDataHeader); ("ProcessId", LONGLONG);
    ("EProcess", LONGLONG); ("Class", UINT); ("_blank", UINT);
    ("Object", LONGLONG); ("KeyValueInformationClass", UINT);
    ("ValueNameLength", USHORT); ("ValueName", CArr BYTE 1)].

Definition RegRenameKeyInfo : ctype :=
  CStruct [("Header", SensorDataHeader); ("ProcessId", LONGLONG);
    ("EProcess", LONGLONG); ("Object", LONGLONG); ("NewNameLength", USHORT);
    ("NewName", CArr BYTE 1)].

Definition RegPostOperationInfo : ctype :=
  CStruct [("Header", SensorDataHeader); ("ProcessId", LONGLONG);
    ("EProcess", LONGLONG); ("Object", LONGLONG); ("Status", NTSTATUS);
    ("PreInformation", LONGLONG); ("ReturnStatus", NTSTATUS)].

Definition RegDeleteValueKeyInfo : ctype :=
  CStruct [("Header", SensorDataHeader); ("ProcessId", LONGLONG);
    ("EProcess", LONGLONG); ("Object", LONGLONG); ("ValueNameLength", USHORT);
    ("ValueName", CArr BYTE 1)].

Definition RegSetValueKeyInfo : ctype :=
  CStruct [("Header", SensorDataHeader); ("ProcessId", LONGLONG);
    ("EProcess", LONGLONG); ("Object", LONGLONG); ("Type", UINT);
    ("ValueNameLength", USHORT); ("ValueName", CArr BYTE 1)].

Definition ProcessListValidationFailed : ctype :=
  CStruct [("Header", SensorDataHeader); ("Status", NTSTATUS); ("ProcessId", LONGLONG);
    ("EProcess", LONGLONG)].

Definition ImageLoadInfo : ctype :=
  CStruct [("Header", SensorDataHeader); ("ProcessId", LONGLONG);
    ("EProcess", LONGLONG); ("ImageBase", LONGLONG); ("ImageSize", LONGLONG);
    ("FullImageNameSz", USHORT); ("FullImageName", CArr BYTE 1)].

Definition ThreadCreateInfo : ctype :=
  CStruct [("Header", SensorDataHeader); ("ProcessId", LONGLONG);
    ("ThreadId", LONGLONG); ("Win32StartAddress", LONGLONG);
    ("StartAddress", LONGLONG); ("IsStartAddressValid", BOOLEAN)].

Definition ThreadDestroyInfo : ctype :=
  CStruct [("Header", SensorDataHeader); ("ProcessId", LONGLONG); ("ThreadId", LONGLONG)].

Definition ProcessCreateInfo : ctype :=
  CStruct [("Header", SensorDataHeader); ("ParentProcessId", LONGLONG);
    ("ProcessId", LONGLONG); ("EProcess", LONGLONG);
    ("CreatingThreadId", CLIENT_ID); ("FileObject", LONGLONG);
    ("CreationStatus", NTSTATUS); ("CommandLineSz", USHORT);
    ("CommandLine", CArr BYTE 1)].

Definition ProcessDestroyInfo : ctype :=
  CStruct [("Header", SensorDataHeader); ("ProcessId", LONGLONG); ("EProcess", LONGLONG)].

Definition COMMAND_MESSAGE : ctype :=
  CStruct [("Command", ULONG); ("sensor_id", _UUID); ("DataSz", SIZE_T);
    ("Data", CArr BYTE 1)].

Definition RESPONSE_MESSAGE : ctype :=
  CStruct [("Response", ULONG); ("Status", NTSTATUS); ("DataSz", SIZE_T);
    ("Data", CArr BYTE 1)].

Definition SensorStatusHeader : ctype :=
  CStruct [("NumberOfEntries", DWORD)].

Definition SensorStatus : ctype :=
  CStruct [("sensor_id", _UUID); ("LastRunTime", LONGLONG); ("RunInterval", LONGLONG);
    ("OperationCount", LONG); ("Attributes", USHORT); ("Enabled", BOOLEAN);
    ("SensorName", CArr BYTE 64)].

(** * Events *)

(** A named tuple, as its [_asdict()]. *)
Definition ntuple : Type := list (string * json).

Definition namedtuple (fields : list (string * res json)) : res ntuple :=
  res_mapM (fun f => res_map (fun v => (f.1, v)) f.2) fields.

(** [GetSensorDataHeader] *)
Record pdh := Pdh {
  pdh_sensor_id : string;
  pdh_sensor_type : SensorType.t;
  pdh_DataSz : Z;
  pdh_CurrentGMT : Z;
  pdh_Packet : bytes }.

Section Build.

(** The memory behind the packet. *)
Context (beyond : memory).

(** [SaviorStruct.GetSensorDataHeader(msg_pkt)] *)
Definition GetSensorDataHeader (msg_pkt : bytes) : res pdh :=
  let m := mem_of msg_pkt beyond in
  let? id := get_bytes m SensorDataHeader ["sensor_id"; "Data"] in
  let? v := get_attr m SensorDataHeader ["sensor_type"] in
  let? k := SensorType.of_value v in
  let? sz := get_attr m SensorDataHeader ["DataSz"] in
  let? gmt := get_attr m SensorDataHeader ["CurrentGMT"] in
  Ok (Pdh (uuid_text id) k sz gmt msg_pkt).

(** One attribute of [info.contents], as it is, in hexadecimal, or as the name
    of its value. *)
Definition int_attr (m : memory) (cls : ctype) (path : list string) : res json :=
  res_map JInt (get_attr m cls path).
Definition hex_attr (m : memory) (cls : ctype) (path : list string) : res json :=
  res_map (fun z => JStr (u (LongLongToHex z))) (get_attr m cls path).
Definition enum_attr (members : list (string * Z)) (m : memory) (cls : ctype) (path : list string)
    : res json :=
  let? v := get_attr m cls path in
  let? n := enum_name members v in
  Ok (JStr (u n)).

(** The first three fields of every event. *)
Definition header_fields (m : memory) (cls : ctype) : list (string * res json) :=
  [("sensor_id", res_map (fun b => JStr (u (uuid_text b)))
                   (get_bytes m cls ["Header"; "sensor_id"; "Data"]));
   ("sensor_type", let? v := get_attr m cls ["Header"; "sensor_type"] in
                   let? k := SensorType.of_value v in
                   Ok (JStr (u (SensorType.name k))));
   ("CurrentGMT", int_attr m cls ["Header"; "CurrentGMT"])].

(** The [length] bytes of the buffer [sb] from the offset of [field]. *)
Definition field_slice (cls : ctype) (sb : bytes) (field : string) (length : Z) : res bytes :=
  let? (offset, _) := locate cls [field] in
  slice_buffer sb offset length.

Definition RegCreateKeyInfo_build (h : pdh) : res ntuple :=
  let cls := RegCreateKeyInfo in
  let m := mem_of (pdh_Packet h) beyond in
  let? length := get_attr m cls ["CompleteNameSz"] in
  let? sb := create_string_buffer_sized (pdh_Packet h) (Z.of_nat (List.length (pdh_Packet h))) in
  let? slc := field_slice cls sb "CompleteName" length in
  let CompleteName := DecodeString slc in
  namedtuple (header_fields m cls ++
    [("ProcessId", int_attr m cls ["ProcessId"]);
     ("EProcess", hex_attr m cls ["EProcess"]);
     ("RootObject", hex_attr m cls ["RootObject"]);
     ("Options", int_attr m cls ["Options"]);
     ("SecurityDescriptor", hex_attr m cls ["SecurityDescriptor"]);
     ("SecurityQualityOfService", hex_attr m cls ["SecurityQualityOfService"]);
     ("DesiredAccess", int_attr m cls ["DesiredAccess"]);
     ("GrantedAccess", int_attr m cls ["GrantedAccess"]);
     ("Version", hex_attr m cls ["Version"]);
     ("Wow64Flags", int_attr m cls ["Wow64Flags"]);
     ("Attributes", int_attr m cls ["Attributes"]);
     ("CheckAccessMode", enum_attr KPROCESSOR_MODE m cls ["CheckAccessMode"]);
     ("CompleteName", Ok (JStr CompleteName))]).

Definition RegQueryValueKeyInfo_build (h : pdh) : res ntuple :=
  let cls := RegQueryValueKeyInfo in
  let m := mem_of (pdh_Packet h) beyond in
  let? length := get_attr m cls ["ValueNameLength"] in
  let sb := create_string_buffer (pdh_Packet h) in
  let? slc := field_slice cls sb "ValueName" length in
  let ValueName := DecodeString slc in
  namedtuple (header_fields m cls ++
    [("ProcessId", int_attr m cls ["ProcessId"]);
     ("EProcess", hex_attr m cls ["EProcess"]);
     ("Class", enum_attr RegNotifyClass m cls ["Class"]);
     ("Object", hex_attr m cls ["Object"]);
     ("KeyValueInformationClass",
      enum_attr KeyValueInformationClass m cls ["KeyValueInformationClass"]);
     ("ValueName", Ok (JStr ValueName))]).

Definition RegRenameKeyInfo_build (h : pdh) : res ntuple :=
  let cls := RegRenameKeyInfo in
  let m := mem_of (pdh_Packet h) beyond in
  let? length := get_attr m cls ["NewNameLength"] in
  let sb := create_string_buffer (pdh_Packet h) in
  let? slc := field_slice cls sb "NewName" length in
  let NewName := DecodeString slc in
  namedtuple (header_fields m cls ++
    [("ProcessId", int_attr m cls ["ProcessId"]);
     ("EProcess", hex_attr m cls ["EProcess"]);
     ("Object", hex_attr m cls ["Object"]);
     ("NewName", Ok (JStr NewName))]).

Definition RegPostOperationInfo_build (h : pdh) : res ntuple :=
  let cls := RegPostOperationInfo in
  let m := mem_of (pdh_Packet h) beyond in
  namedtuple (header_fields m cls ++
    [("ProcessId", int_attr m cls ["ProcessId"]);
     ("EProcess", hex_attr m cls ["EProcess"]);
     ("Object", hex_attr m cls ["Object"]);
     ("Status", res_map (fun z => JStr (u (py_hex z))) (get_attr m cls ["Status"]));
     ("PreInformation", hex_attr m cls ["PreInformation"]);
     ("ReturnStatus", res_map (fun z => JStr (u (py_hex z))) (get_attr m cls ["ReturnStatus"]))]).

Definition RegDeleteValueKeyInfo_build (h : pdh) : res ntuple :=
  let cls := RegDeleteValueKeyInfo in
  let m := mem_of (pdh_Packet h) beyond in
  let? length := get_attr m cls ["ValueNameLength"] in
  let sb := create_string_buffer (pdh_Packet h) in
  let? slc := field_slice cls sb "ValueName" length in
  let ValueName := DecodeString slc in
  namedtuple (header_fields m cls ++
    [("ProcessId", int_attr m cls ["ProcessId"]);
     ("EProcess", hex_attr m cls ["EProcess"]);
     ("Object", hex_attr m cls ["Object"]);
     ("ValueName", Ok (JStr ValueName))]).

(** A type of value that [RegObjectType] does not know is sent as the number. *)
Definition RegSetValueKeyInfo_build (h : pdh) : res ntuple :=
  let cls := RegSetValueKeyInfo in
  let m := mem_of (pdh_Packet h) beyond in
  let? length := get_attr m cls ["ValueNameLength"] in
  let sb := create_string_buffer (pdh_Packet h) in
  let? slc := field_slice cls sb "ValueName" length in
  let ValueName := DecodeString slc in
  let? type := get_attr m cls ["Type"] in
  let obj_type_name := match enum_name RegObjectType type with
                       | Ok n => JStr (u n)
                       | Raise _ => JInt type
                       end in
  namedtuple (header_fields m cls ++
    [("ProcessId", int_attr m cls ["ProcessId"]);
     ("EProcess", hex_attr m cls ["EProcess"]);
     ("Object", hex_attr m cls ["Object"]);
     ("Type", Ok obj_type_name);
     ("ValueName", Ok (JStr ValueName))]).

Definition ProcessListValidationFailed_build (h : pdh) : res ntuple :=
  let cls := ProcessListValidationFailed in
  let m := mem_of (pdh_Packet h) beyond in
  namedtuple (header_fields m cls ++
    [("Status", int_attr m cls ["Status"]);
     ("ProcessId", int_attr m cls ["ProcessId"]);
     ("EProcess", hex_attr m cls ["EProcess"])]).

(** The name is made of every second byte, as a signed number. *)
Definition ImageLoadInfo_build (h : pdh) : res ntuple :=
  let cls := ImageLoadInfo in
  let m := mem_of (pdh_Packet h) beyond in
  let? length := get_attr m cls ["FullImageNameSz"] in
  let sb := create_string_buffer (pdh_Packet h) in
  let? slc := field_slice cls sb "FullImageName" length in
  let? ModuleName := chars_signed (every_second slc) in
  namedtuple (header_fields m cls ++
    [("ProcessId", int_attr m cls ["ProcessId"]);
     ("EProcess", hex_attr m cls ["EProcess"]);
     ("ImageBase", hex_attr m cls ["ImageBase"]);
     ("ImageSize", int_attr m cls ["ImageSize"]);
     ("FullImageName", Ok (JStr ModuleName))]).

Definition ThreadCreateInfo_build (h : pdh) : res ntuple :=
  let cls := ThreadCreateInfo in
  let m := mem_of (pdh_Packet h) beyond in
  namedtuple (header_fields m cls ++
    [("ProcessId", int_attr m cls ["ProcessId"]);
     ("ThreadId", int_attr m cls ["ThreadId"]);
     ("Win32StartAddress", hex_attr m cls ["Win32StartAddress"]);
     ("StartAddress", hex_attr m cls ["StartAddress"]);
     ("IsStartAddressValid", int_attr m cls ["IsStartAddressValid"])]).

Definition ThreadDestroyInfo_build (h : pdh) : res ntuple :=
  let cls := ThreadDestroyInfo in
  let m := mem_of (pdh_Packet h) beyond in
  namedtuple (header_fields m cls ++
    [("ProcessId", int_attr m cls ["ProcessId"]);
     ("ThreadId", int_attr m cls ["ThreadId"])]).

(** The command line is what is left of the packet, not [CommandLineSz]
    bytes. *)
Definition ProcessCreateInfo_build (h : pdh) : res ntuple :=
  let cls := ProcessCreateInfo in
  let m := mem_of (pdh_Packet h) beyond in
  let? (offset, _) := locate cls ["CommandLine"] in
  let length := pdh_DataSz h - offset in
  let sb := create_string_buffer (pdh_Packet h) in
  let? slc := slice_buffer sb offset length in
  let CommandLine := DecodeString slc in
  namedtuple (header_fields m cls ++
    [("ParentProcessId", int_attr m cls ["ParentProcessId"]);
     ("ProcessId", int_attr m cls ["ProcessId"]);
     ("EProcess", hex_attr m cls ["EProcess"]);
     ("UniqueProcess", hex_attr m cls ["CreatingThreadId"; "UniqueProcess"]);
     ("UniqueThread", hex_attr m cls ["CreatingThreadId"; "UniqueThread"]);
     ("FileObject", hex_attr m cls ["FileObject"]);
     ("CreationStatus", int_attr m cls ["CreationStatus"]);
     ("CommandLineSz", int_attr m cls ["CommandLineSz"]);
     ("CommandLine", Ok (JStr CommandLine))]).

(** The assignment to [EProcess] writes back what it holds. *)
Definition ProcessDestroyInfo_build (h : pdh) : res ntuple :=
  let cls := ProcessDestroyInfo in
  let m := mem_of (pdh_Packet h) beyond in
  namedtuple (header_fields m cls ++
    [("ProcessId", int_attr m cls ["ProcessId"]);
     ("EProcess", hex_attr m cls ["EProcess"])]).

(** The branches of [_packet_decode_header].  Only [NONE] is left for the
    last. *)
Definition build_event (h : pdh) : res (option ntuple) :=
  match pdh_sensor_type h with
  | SensorType.ImageLoad => res_map Some (ImageLoadInfo_build h)
  | SensorType.ProcessCreate => res_map Some (ProcessCreateInfo_build h)
  | SensorType.ProcessDestroy => res_map Some (ProcessDestroyInfo_build h)
  | SensorType.ProcessListValidationFailed => res_map Some (ProcessListValidationFailed_build h)
  | SensorType.RegQueryValueKeyInfo => res_map Some (RegQueryValueKeyInfo_build h)
  | SensorType.RegCreateKeyInfo => res_map Some (RegCreateKeyInfo_build h)
  | SensorType.RegSetValueKeyInfo => res_map Some (RegSetValueKeyInfo_build h)
  | SensorType.RegOpenKeyInfo => res_map Some (RegCreateKeyInfo_build h)
  | SensorType.RegDeleteValueKeyInfo => res_map Some (RegDeleteValueKeyInfo_build h)
  | SensorType.RegRenameKeyInfo => res_map Some (RegRenameKeyInfo_build h)
  | SensorType.RegPostOperationInfo => res_map Some (RegPostOperationInfo_build h)
  | SensorType.ThreadCreate => res_map Some (ThreadCreateInfo_build h)
  | SensorType.ThreadDestroy => res_map Some (ThreadDestroyInfo_build h)
  | SensorType.NONE => Ok None
  end.

(** [_packet_decode_header(msg_pkt)] *)
Definition packet_decode_header (Remainder : bytes) : res (option ntuple) :=
  let? h := GetSensorDataHeader Remainder in
  build_event h.

(** [GetSensorStatus] *)
Record sensor_status := GetSensorStatus {
  st_sensor_id : bytes;
  st_LastRunTime : Z;
  st_RunInterval : Z;
  st_OperationCount : Z;
  st_Attributes : string;
  st_Enabled : string;
  st_SensorName : ustr }.

Definition saf_name : string := "SensorAttributeFlags.".

(** [SensorStatus.build(msg_pkt)] *)
Definition SensorStatus_build (msg_pkt : bytes) : res sensor_status :=
  let cls := SensorStatus in
  let m := mem_of msg_pkt beyond in
  let sb := create_string_buffer msg_pkt in
  let? slc := field_slice cls sb "SensorName" MAXSENSORNAMESZ in
  let lst := filter (fun ch => negb (byte_val ch =? 0)) slc in
  let? SensorName := chars_signed lst in
  let? sensor_id := get_bytes m cls ["sensor_id"; "Data"] in
  let? attributes := get_attr m cls ["Attributes"] in
  let? attrib_flags := SensorAttributeFlags_str attributes in
  let attrib_flags := if startswith attrib_flags saf_name
                      then str_of (drop (String.length saf_name) (str_chars attrib_flags))
                      else attrib_flags in
  let? last := get_attr m cls ["LastRunTime"] in
  let? interval := get_attr m cls ["RunInterval"] in
  let? count := get_attr m cls ["OperationCount"] in
  let? enabled := get_attr m cls ["Enabled"] in
  Ok (GetSensorStatus sensor_id last interval count attrib_flags
        (if enabled =? 0 then "False" else "True") SensorName).

End Build.

(** * Reading inside of the packet *)

(** The structure that is laid over a packet of each kind. *)
Definition event_class (k : SensorType.t) : ctype :=
  match k with
  | SensorType.NONE => SensorDataHeader
  | SensorType.ImageLoad => ImageLoadInfo
  | SensorType.ProcessCreate => ProcessCreateInfo
  | SensorType.ProcessDestroy => ProcessDestroyInfo
  | SensorType.ThreadCreate => ThreadCreateInfo
  | SensorType.ThreadDestroy => ThreadDestroyInfo
  | SensorType.ProcessListValidationFailed => ProcessListValidationFailed
  | SensorType.RegQueryValueKeyInfo => RegQueryValueKeyInfo
  | SensorType.RegCreateKeyInfo | SensorType.RegOpenKeyInfo => RegCreateKeyInfo
  | SensorType.RegSetValueKeyInfo => RegSetValueKeyInfo
  | SensorType.RegDeleteValueKeyInfo => RegDeleteValueKeyInfo
  | SensorType.RegRenameKeyInfo => RegRenameKeyInfo
  | SensorType.RegPostOperationInfo => RegPostOperationInfo
  end.

Lemma event_class_wf k : cwf (event_class k).
Proof. destruct k; cbn; repeat split; lia. Qed.

(** The kind a packet names. *)
Definition packet_kind (p : bytes) : res SensorType.t :=
  SensorType.of_value (le_val (take 2 (drop 16 p))).

Ltac inside p b1 b2 Hw Hp :=
  repeat (rewrite (get_attr_inside p b1 b2 _ _ Hw Hp) || rewrite (get_bytes_inside p b1 b2 _ _ Hw Hp)).

Section Inside.

Context (p : bytes) (b1 b2 : memory).

Lemma int_attr_inside cls path :
  cwf cls -> csize cls <= Z.of_nat (length p) ->
  int_attr (mem_of p b1) cls path = int_attr (mem_of p b2) cls path.
Proof. intros Hw Hp. unfold int_attr. by inside p b1 b2 Hw Hp. Qed.

Lemma hex_attr_inside cls path :
  cwf cls -> csize cls <= Z.of_nat (length p) ->
  hex_attr (mem_of p b1) cls path = hex_attr (mem_of p b2) cls path.
Proof. intros Hw Hp. unfold hex_attr. by inside p b1 b2 Hw Hp. Qed.

Lemma enum_attr_inside members cls path :
  cwf cls -> csize cls <= Z.of_nat (length p) ->
  enum_attr members (mem_of p b1) cls path = enum_attr members (mem_of p b2) cls path.
Proof. intros Hw Hp. unfold enum_attr. by inside p b1 b2 Hw Hp. Qed.

Lemma header_fields_inside cls :
  cwf cls -> csize cls <= Z.of_nat (length p) ->
  header_fields (mem_of p b1) cls = header_fields (mem_of p b2) cls.
Proof.
  intros Hw Hp. unfold header_fields. rewrite int_attr_inside by done. by inside p b1 b2 Hw Hp.
Qed.

Lemma GetSensorDataHeader_inside :
  csize SensorDataHeader <= Z.of_nat (length p) ->
  GetSensorDataHeader b1 p = GetSensorDataHeader b2 p.
Proof.
  intros Hp. pose proof (event_class_wf SensorType.NONE) as Hw. cbn [event_class] in Hw.
  unfold GetSensorDataHeader. by inside p b1 b2 Hw Hp.
Qed.

End Inside.

Lemma build_event_inside b1 b2 h :
  csize (event_class (pdh_sensor_type h)) <= Z.of_nat (length (pdh_Packet h)) ->
  build_event b1 h = build_event b2 h.
Proof.
  pose proof (event_class_wf (pdh_sensor_type h)) as Hw.
  unfold build_event. destruct (pdh_sensor_type h); cbn [event_class] in Hw |- *; intros Hp; [done|idtac..];
    unfold RegCreateKeyInfo_build, RegQueryValueKeyInfo_build, RegRenameKeyInfo_build,
      RegPostOperationInfo_build, RegDeleteValueKeyInfo_build, RegSetValueKeyInfo_build,
      ProcessListValidationFailed_build, ImageLoadInfo_build, ThreadCreateInfo_build,
      ThreadDestroyInfo_build, ProcessCreateInfo_build, ProcessDestroyInfo_build;
    repeat (rewrite (int_attr_inside (pdh_Packet h) b1 b2 _ _ Hw Hp)
            || rewrite (hex_attr_inside (pdh_Packet h) b1 b2 _ _ Hw Hp)
            || rewrite (enum_attr_inside (pdh_Packet h) b1 b2 _ _ _ Hw Hp)
            || rewrite (header_fields_inside (pdh_Packet h) b1 b2 _ Hw Hp));
    inside (pdh_Packet h) b1 b2 Hw Hp; reflexivity.
Qed.

Lemma GetSensorDataHeader_fields b p h :
  csize SensorDataHeader <= Z.of_nat (length p) ->
  GetSensorDataHeader b p = Ok h ->
  packet_kind p = Ok (pdh_sensor_type h) /\ pdh_Packet h = p.
Proof.
  intros Hp Hh. assert (csize SensorDataHeader = 48) as E by (by vm_compute). rewrite E in Hp.
  unfold GetSensorDataHeader in Hh.
  apply res_bind_Ok in Hh as (id & _ & Hh). apply res_bind_Ok in Hh as (v & Hv & Hh).
  apply res_bind_Ok in Hh as (k & Hk & Hh). apply res_bind_Ok in Hh as (sz & _ & Hh).
  apply res_bind_Ok in Hh as (gmt & _ & Hh). injection Hh as <-. split; [|done].
  change (get_attr (mem_of p b) SensorDataHeader ["sensor_type"])
    with (Ok (le_val (load (mem_of p b) 16 2))) in Hv.
  injection Hv as <-. rewrite load_mem_of in Hk by lia. exact Hk.
Qed.

(** C23: safety.  A packet that holds the header, and the structure of the kind
    its header names, is decoded without reading behind it: the result does not
    depend on what lies there.  In particular this holds of every packet of
    [FilterGetMessage], which are longer than any structure. *)
Theorem decode_reads_inside p :
  csize SensorDataHeader <= Z.of_nat (length p) ->
  (forall k, packet_kind p = Ok k -> csize (event_class k) <= Z.of_nat (length p)) ->
  forall b1 b2, packet_decode_header b1 p = packet_decode_header b2 p.
Proof.
  intros Hp Hk b1 b2. unfold packet_decode_header.
  rewrite (GetSensorDataHeader_inside p b1 b2 Hp).
  destruct (GetSensorDataHeader b2 p) as [h|] eqn:Hh; [|done]. cbn [res_bind].
  destruct (GetSensorDataHeader_fields _ _ _ Hp Hh) as [Hk' Hpk].
  apply build_event_inside. rewrite Hpk. by apply Hk.
Qed.

Lemma event_class_size k : csize (event_class k) <= 136.
Proof. destruct k; vm_compute; done. Qed.

(** A kind the enumeration does not have is an error, before any branch of
    [_packet_decode_header] is chosen. *)
Lemma unknown_kind_raises b p :
  csize SensorDataHeader <= Z.of_nat (length p) ->
  packet_kind p = Raise ValueError -> packet_decode_header b p = Raise ValueError.
Proof.
  intros Hp Hk. assert (csize SensorDataHeader = 48) as E by (by vm_compute). rewrite E in Hp.
  unfold packet_decode_header, GetSensorDataHeader.
  change (get_attr (mem_of p b) SensorDataHeader ["sensor_type"])
    with (Ok (le_val (load (mem_of p b) 16 2))).
  rewrite load_mem_of by lia. unfold packet_kind in Hk. cbn [res_bind].
  change (Z.to_nat 16) with 16%nat. rewrite Hk. done.
Qed.

Lemma decode_reads_inside_witness :
  packet_decode_header (fun _ => byte_of 255) (zeros 136) =
  packet_decode_header (fun _ => byte_of 0) (zeros 136).
Proof.
  apply (decode_reads_inside (zeros 136)).
  - by vm_compute.
  - intros k _. etransitivity; [apply event_class_size|by vm_compute].
Defined.
