(* ===== verification/NtEvents.v ===== *)
(** The driver's side of the events: its structures as
    [src/control/win-kernel/inc/WVUKernelUserComms.h] declares them, the packet
    it lays out for every kind of event, and the theorem that
    [_packet_decode_header] of [ntfltmgr.py] reports what the driver saw. *)

From S2P Require Import Prelude Json Ctypes NtStructs.

(** * The header's structures *)

Module Wvu.

Definition UUID_t : ctype :=
  CStruct [("Data1", ULONG); ("Data2", USHORT); ("Data3", USHORT); ("Data4", CArr CHAR 8)].
Definition pointer : ctype := CInt false 8.
Definition LARGE_INTEGER : ctype := CInt true 8.

Definition PROBE_DATA_HEADER : ctype :=
  CStruct [("probe_id", UUID_t); ("probe_type", USHORT); ("data_sz", USHORT);
    ("current_gmt", LARGE_INTEGER); ("ListEntry", CStruct [("Flink", pointer); ("Blink", pointer)])].

(** A structure after its [ProbeDataHeader]. *)
Definition probe (fields : list (string * ctype)) : ctype :=
  CStruct (("ProbeDataHeader", PROBE_DATA_HEADER) :: fields).

Definition PostOperation : ctype :=
  probe [("ProcessId", pointer); ("EProcess", pointer); ("Object", pointer); ("Status", ULONG);
    ("PreInformation", pointer); ("ReturnStatus", ULONG)].
Definition DeleteValueKey : ctype :=
  probe [("ProcessId", pointer); ("EProcess", pointer); ("Object", pointer);
    ("ValueNameLength", USHORT); ("ValueName", CArr CHAR 0)].
Definition RenameKey : ctype :=
  probe [("ProcessId", pointer); ("EProcess", pointer); ("Object", pointer);
    ("NewNameLength", USHORT); ("NewName", CArr CHAR 0)].
Definition CreateKey : ctype :=
  probe [("ProcessId", pointer); ("EProcess", pointer); ("RootObject", pointer);
    ("Options", ULONG); ("SecurityDescriptor", pointer); ("SecurityQualityOfService", pointer);
    ("DesiredAccess", ULONG); ("GrantedAccess", ULONG); ("Version", pointer);
    ("Wow64Flags", ULONG); ("Attributes", ULONG); ("CheckAccessMode", CHAR);
    ("CompleteNameSz", USHORT); ("CompleteName", CArr CHAR 1)].
Definition SetValueKey : ctype :=
  probe [("ProcessId", pointer); ("EProcess", pointer); ("Object", pointer); ("Type", ULONG);
    ("ValueNameLength", USHORT); ("ValueName", CArr CHAR 0)].
Definition QueryValueKey : ctype :=
  probe [("ProcessId", pointer); ("EProcess", pointer); ("Class", ULONG); ("Object", pointer);
    ("KeyValueInformationClass", ULONG); ("ValueNameLength", USHORT); ("ValueName", CArr CHAR 0)].
Definition ListValidationFailed : ctype :=
  probe [("Status", ULONG); ("ProcessId", pointer); ("EProcess", pointer)].
Definition ThreadCreate : ctype :=
  probe [("ProcessId", pointer); ("ThreadId", pointer); ("Win32StartAddress", pointer);
    ("StartAddress", pointer); ("IsStartAddressValid", CHAR)].
Definition ThreadDestroy : ctype := probe [("ProcessId", pointer); ("ThreadId", pointer)].
Definition LoadedImage : ctype :=
  probe [("ProcessId", pointer); ("EProcess", pointer); ("ImageBase", pointer);
    ("ImageSize", pointer); ("FullImageNameSz", USHORT); ("FullImageName", CArr CHAR 1)].
Definition ProcessCreate : ctype :=
  probe [("ParentProcessId", pointer); ("ProcessId", pointer); ("EProcess", pointer);
    ("CreatingThreadId", CStruct [("UniqueProcess", pointer); ("UniqueThread", pointer)]);
    ("FileObject", pointer); ("CreationStatus", ULONG); ("CommandLineSz", USHORT);
    ("CommandLine", CArr CHAR 1)].
Definition ProcessDestroy : ctype := probe [("ProcessId", pointer); ("EProcess", pointer)].

End Wvu.

(** * Events *)

(** Which probe saw it and when; the links of the driver's queue travel along. *)
Record origin := Origin { o_id : bytes; o_gmt : Z; o_links : Z * Z }.

Inductive event :=
  | ImageLoaded (pid eproc base size : Z) (name : ustr)
  | ProcessCreated (parent pid eproc uproc uthread file status : Z) (cmdline : ustr)
  | ProcessDestroyed (pid eproc : Z)
  | ThreadCreated (pid tid win32 start valid : Z)
  | ThreadDestroyed (pid tid : Z)
  | ListFailed (status pid eproc : Z)
  | KeyQueried (pid eproc cls object info : Z) (name : ustr)
  | KeyCreated (opened : bool) (pid eproc root options sd sqos desired granted version wow attrs
      mode : Z) (name : ustr)
  | ValueSet (pid eproc object type : Z) (name : ustr)
  | ValueDeleted (pid eproc object : Z) (name : ustr)
  | KeyRenamed (pid eproc object : Z) (name : ustr)
  | PostOperation (pid eproc object status pre ret : Z).

Definition event_kind (e : event) : SensorType.t :=
  match e with
  | ImageLoaded _ _ _ _ _ => SensorType.ImageLoad
  | ProcessCreated _ _ _ _ _ _ _ _ => SensorType.ProcessCreate
  | ProcessDestroyed _ _ => SensorType.ProcessDestroy
  | ThreadCreated _ _ _ _ _ => SensorType.ThreadCreate
  | ThreadDestroyed _ _ => SensorType.ThreadDestroy
  | ListFailed _ _ _ => SensorType.ProcessListValidationFailed
  | KeyQueried _ _ _ _ _ _ => SensorType.RegQueryValueKeyInfo
  | KeyCreated opened _ _ _ _ _ _ _ _ _ _ _ _ _ =>
      if opened then SensorType.RegOpenKeyInfo else SensorType.RegCreateKeyInfo
  | ValueSet _ _ _ _ _ => SensorType.RegSetValueKeyInfo
  | ValueDeleted _ _ _ _ => SensorType.RegDeleteValueKeyInfo
  | KeyRenamed _ _ _ _ => SensorType.RegRenameKeyInfo
  | PostOperation _ _ _ _ _ _ => SensorType.RegPostOperationInfo
  end.

Definition kind_value (k : SensorType.t) : Z :=
  match find (fun m => bool_decide (m.1.1 = k)) SensorType.kinds with
  | Some (_, _, v) => v
  | None => 0
  end.

Definition event_struct (e : event) : ctype :=
  match e with
  | ImageLoaded _ _ _ _ _ => Wvu.LoadedImage
  | ProcessCreated _ _ _ _ _ _ _ _ => Wvu.ProcessCreate
  | ProcessDestroyed _ _ => Wvu.ProcessDestroy
  | ThreadCreated _ _ _ _ _ => Wvu.ThreadCreate
  | ThreadDestroyed _ _ => Wvu.ThreadDestroy
  | ListFailed _ _ _ => Wvu.ListValidationFailed
  | KeyQueried _ _ _ _ _ _ => Wvu.QueryValueKey
  | KeyCreated _ _ _ _ _ _ _ _ _ _ _ _ _ _ => Wvu.CreateKey
  | ValueSet _ _ _ _ _ => Wvu.SetValueKey
  | ValueDeleted _ _ _ _ => Wvu.DeleteValueKey
  | KeyRenamed _ _ _ _ => Wvu.RenameKey
  | PostOperation _ _ _ _ _ _ => Wvu.PostOperation
  end.

(** The text at the end of the structure, where there is one. *)
Definition event_text (e : event) : bytes :=
  match e with
  | ImageLoaded _ _ _ _ s | ProcessCreated _ _ _ _ _ _ _ s | KeyQueried _ _ _ _ _ s
  | KeyCreated _ _ _ _ _ _ _ _ _ _ _ _ _ s | ValueSet _ _ _ _ s | ValueDeleted _ _ _ s
  | KeyRenamed _ _ _ s => utf16_encode s
  | _ => []
  end.

(** The offset of that text, or the size of the structure. *)
Definition text_offset (e : event) : Z :=
  let at_ name := match locate (event_struct e) [name] with Ok (o, _) => o | Raise _ => 0 end in
  match e with
  | ImageLoaded _ _ _ _ _ => at_ "FullImageName"
  | ProcessCreated _ _ _ _ _ _ _ _ => at_ "CommandLine"
  | KeyCreated _ _ _ _ _ _ _ _ _ _ _ _ _ _ => at_ "CompleteName"
  | KeyQueried _ _ _ _ _ _ | ValueSet _ _ _ _ _ | ValueDeleted _ _ _ _ => at_ "ValueName"
  | KeyRenamed _ _ _ _ => at_ "NewName"
  | _ => csize (event_struct e)
  end.

(** [ROUND_TO_SIZE(sizeof(...) + Length, 0x10)] of the process probe; the other
    probes do not round, or nobody reads the size. *)
Definition data_sz (e : event) : Z :=
  let n := csize (event_struct e) + Z.of_nat (length (event_text e)) in
  match e with
  | ImageLoaded _ _ _ _ _ | ProcessCreated _ _ _ _ _ _ _ _ | ProcessDestroyed _ _ => round_up n 16
  | _ => n
  end.

Definition event_fields (e : event) : list (list string * bytes) :=
  let p8 name v := ([name], le_enc 8 v) in
  let d4 name v := ([name], le_enc 4 v) in
  let sz name := ([name], le_enc 2 (Z.of_nat (length (event_text e)))) in
  match e with
  | ImageLoaded pid eproc base size _ =>
      [p8 "ProcessId" pid; p8 "EProcess" eproc; p8 "ImageBase" base; p8 "ImageSize" size;
       sz "FullImageNameSz"]
  | ProcessCreated parent pid eproc uproc uthread file status _ =>
      [p8 "ParentProcessId" parent; p8 "ProcessId" pid; p8 "EProcess" eproc;
       (["CreatingThreadId"; "UniqueProcess"], le_enc 8 uproc);
       (["CreatingThreadId"; "UniqueThread"], le_enc 8 uthread);
       p8 "FileObject" file; d4 "CreationStatus" status; sz "CommandLineSz"]
  | ProcessDestroyed pid eproc => [p8 "ProcessId" pid; p8 "EProcess" eproc]
  | ThreadCreated pid tid win32 start valid =>
      [p8 "ProcessId" pid; p8 "ThreadId" tid; p8 "Win32StartAddress" win32;
       p8 "StartAddress" start; (["IsStartAddressValid"], le_enc 1 valid)]
  | ThreadDestroyed pid tid => [p8 "ProcessId" pid; p8 "ThreadId" tid]
  | ListFailed status pid eproc => [d4 "Status" status; p8 "ProcessId" pid; p8 "EProcess" eproc]
  | KeyQueried pid eproc cls object info _ =>
      [p8 "ProcessId" pid; p8 "EProcess" eproc; d4 "Class" cls; p8 "Object" object;
       d4 "KeyValueInformationClass" info; sz "ValueNameLength"]
  | KeyCreated _ pid eproc root options sd sqos desired granted version wow attrs mode _ =>
      [p8 "ProcessId" pid; p8 "EProcess" eproc; p8 "RootObject" root; d4 "Options" options;
       p8 "SecurityDescriptor" sd; p8 "SecurityQualityOfService" sqos; d4 "DesiredAccess" desired;
       d4 "GrantedAccess" granted; p8 "Version" version; d4 "Wow64Flags" wow;
       d4 "Attributes" attrs; (["CheckAccessMode"], le_enc 1 mode); sz "CompleteNameSz"]
  | ValueSet pid eproc object type _ =>
      [p8 "ProcessId" pid; p8 "EProcess" eproc; p8 "Object" object; d4 "Type" type;
       sz "ValueNameLength"]
  | ValueDeleted pid eproc object _ =>
      [p8 "ProcessId" pid; p8 "EProcess" eproc; p8 "Object" object; sz "ValueNameLength"]
  | KeyRenamed pid eproc object _ =>
      [p8 "ProcessId" pid; p8 "EProcess" eproc; p8 "Object" object; sz "NewNameLength"]
  | PostOperation pid eproc object status pre ret =>
      [p8 "ProcessId" pid; p8 "EProcess" eproc; p8 "Object" object; d4 "Status" status;
       p8 "PreInformation" pre; d4 "ReturnStatus" ret]
  end.

Definition driver_fields (o : origin) (e : event) : list (list string * bytes) :=
  [(["ProbeDataHeader"; "probe_id"], o_id o);
   (["ProbeDataHeader"; "probe_type"], le_enc 2 (kind_value (event_kind e)));
   (["ProbeDataHeader"; "data_sz"], le_enc 2 (data_sz e));
   (["ProbeDataHeader"; "current_gmt"], le_enc 8 (o_gmt o));
   (["ProbeDataHeader"; "ListEntry"; "Flink"], le_enc 8 (o_links o).1);
   (["ProbeDataHeader"; "ListEntry"; "Blink"], le_enc 8 (o_links o).2)] ++ event_fields e.

(** The zeroed rest of the process probe's packet. *)
Definition padding (e : event) : nat :=
  match e with
  | ProcessCreated _ _ _ _ _ _ _ _ =>
      Z.to_nat (data_sz e - text_offset e - Z.of_nat (length (event_text e)))
  | _ => 0
  end.

(** The packet, with whatever follows it in the receiver's buffer. *)
Definition driver_packet (o : origin) (e : event) (more : bytes) : bytes :=
  image_packet (event_struct e) (driver_fields o e) (Z.to_nat (text_offset e))
    (event_text e ++ zeros (padding e) ++ more).

(** * The report *)

Definition enum_text (members : list (string * Z)) (v : Z) : string :=
  match enum_name members v with Ok n => n | Raise _ => "" end.

Definition report_fields (e : event) : ntuple :=
  let int name v := (name, JInt v) in
  let hex name v := (name, JStr (u (LongLongToHex v))) in
  let text name s := (name, JStr s) in
  match e with
  | ImageLoaded pid eproc base size s =>
      [int "ProcessId" pid; hex "EProcess" eproc; hex "ImageBase" base; int "ImageSize" size;
       text "FullImageName" s]
  | ProcessCreated parent pid eproc uproc uthread file status s =>
      [int "ParentProcessId" parent; int "ProcessId" pid; hex "EProcess" eproc;
       hex "UniqueProcess" uproc; hex "UniqueThread" uthread; hex "FileObject" file;
       int "CreationStatus" status; int "CommandLineSz" (Z.of_nat (length (event_text e)));
       text "CommandLine" (s ++ replicate (padding e / 2) 0)]
  | ProcessDestroyed pid eproc => [int "ProcessId" pid; hex "EProcess" eproc]
  | ThreadCreated pid tid win32 start valid =>
      [int "ProcessId" pid; int "ThreadId" tid; hex "Win32StartAddress" win32;
       hex "StartAddress" start; int "IsStartAddressValid" valid]
  | ThreadDestroyed pid tid => [int "ProcessId" pid; int "ThreadId" tid]
  | ListFailed status pid eproc =>
      [int "Status" status; int "ProcessId" pid; hex "EProcess" eproc]
  | KeyQueried pid eproc cls object info s =>
      [int "ProcessId" pid; hex "EProcess" eproc; text "Class" (u (enum_text RegNotifyClass cls));
       hex "Object" object;
       text "KeyValueInformationClass" (u (enum_text KeyValueInformationClass info));
       text "ValueName" s]
  | KeyCreated _ pid eproc root options sd sqos desired granted version wow attrs mode s =>
      [int "ProcessId" pid; hex "EProcess" eproc; hex "RootObject" root; int "Options" options;
       hex "SecurityDescriptor" sd; hex "SecurityQualityOfService" sqos;
       int "DesiredAccess" desired; int "GrantedAccess" granted; hex "Version" version;
       int "Wow64Flags" wow; int "Attributes" attrs;
       text "CheckAccessMode" (u (enum_text KPROCESSOR_MODE mode)); text "CompleteName" s]
  | ValueSet pid eproc object type s =>
      [int "ProcessId" pid; hex "EProcess" eproc; hex "Object" object;
       ("Type", match enum_name RegObjectType type with
                | Ok n => JStr (u n)
                | Raise _ => JInt type
                end);
       text "ValueName" s]
  | ValueDeleted pid eproc object s =>
      [int "ProcessId" pid; hex "EProcess" eproc; hex "Object" object; text "ValueName" s]
  | KeyRenamed pid eproc object s =>
      [int "ProcessId" pid; hex "EProcess" eproc; hex "Object" object; text "NewName" s]
  | PostOperation pid eproc object status pre ret =>
      [int "ProcessId" pid; hex "EProcess" eproc; hex "Object" object;
       text "Status" (u (py_hex status)); hex "PreInformation" pre;
       text "ReturnStatus" (u (py_hex ret))]
  end.

Definition report (o : origin) (e : event) : ntuple :=
  [("sensor_id", JStr (u (uuid_text (o_id o))));
   ("sensor_type", JStr (u (SensorType.name (event_kind e))));
   ("CurrentGMT", JInt (o_gmt o))] ++ report_fields e.

(** * Values that fit *)

Definition origin_ok (o : origin) : Prop :=
  length (o_id o) = 16%nat /\ in_range true 8 (o_gmt o).

Definition text_ok (s : ustr) : Prop := Forall scalar s /\ no_bom s.

Definition i8 := in_range true 8.
Definition u8 := in_range false 8.
Definition u4 := in_range false 4.

Definition event_ok (e : event) : Prop :=
  in_range false 2 (data_sz e) /\
  match e with
  | ImageLoaded pid eproc base size s =>
      i8 pid /\ i8 eproc /\ i8 base /\ i8 size /\ ascii_text s
  | ProcessCreated parent pid eproc uproc uthread file status s =>
      i8 parent /\ i8 pid /\ i8 eproc /\ u8 uproc /\ u8 uthread /\ i8 file /\ u4 status /\ text_ok s
  | ProcessDestroyed pid eproc => i8 pid /\ i8 eproc
  | ThreadCreated pid tid win32 start valid =>
      i8 pid /\ i8 tid /\ i8 win32 /\ i8 start /\ in_range true 1 valid
  | ThreadDestroyed pid tid => i8 pid /\ i8 tid
  | ListFailed status pid eproc => u4 status /\ i8 pid /\ i8 eproc
  | KeyQueried pid eproc cls object info s =>
      i8 pid /\ i8 eproc /\ 0 <= cls <= 49 /\ i8 object /\ 0 <= info <= 6 /\ text_ok s
  | KeyCreated _ pid eproc root options sd sqos desired granted version wow attrs mode s =>
      i8 pid /\ i8 eproc /\ i8 root /\ u4 options /\ i8 sd /\ i8 sqos /\ u4 desired /\
      u4 granted /\ i8 version /\ u4 wow /\ u4 attrs /\ 0 <= mode <= 1 /\ text_ok s
  | ValueSet pid eproc object type s => i8 pid /\ i8 eproc /\ i8 object /\ u4 type /\ text_ok s
  | ValueDeleted pid eproc object s | KeyRenamed pid eproc object s =>
      i8 pid /\ i8 eproc /\ i8 object /\ text_ok s
  | PostOperation pid eproc object status pre ret =>
      i8 pid /\ i8 eproc /\ i8 object /\ u4 status /\ i8 pre /\ u4 ret
  end.

(** * What the decoder reads *)

Lemma fields_apart o e : origin_ok o ->
  all_apart (slots (event_struct e) (driver_fields o e)) = true.
Proof.
  intros [Hid _]. rewrite slots_shape.
  destruct e; unfold driver_fields, event_fields, shape; cbn [map app fst snd];
    rewrite !length_le_enc, Hid; by vm_compute.
Qed.

Lemma driver_attr o e more b cls path off signed k z :
  origin_ok o -> locate cls path = Ok (off, CInt signed k) ->
  read_back (event_struct e) (driver_fields o e) off = Some (le_enc k z) ->
  (0 < k)%nat -> 0 <= off -> off + Z.of_nat k <= text_offset e -> in_range signed k z ->
  get_attr (mem_of (driver_packet o e more) b) cls path = Ok z.
Proof.
  intros Ho Hl Hr Hk H0 Hn Hz. unfold driver_packet.
  eapply image_get_attr; [by apply fields_apart|exact Hl|exact Hr|done|done|lia|done].
Qed.

Lemma driver_id o e more b cls path t :
  origin_ok o -> locate cls path = Ok (0, t) -> csize t = 16 -> 16 <= text_offset e ->
  get_bytes (mem_of (driver_packet o e more) b) cls path = Ok (o_id o).
Proof.
  intros Ho Hl Ht Hn. pose proof Ho as [Hid _]. unfold driver_packet.
  eapply image_get_bytes; [by apply fields_apart|exact Hl| |lia|lia|lia].
  by destruct e.
Qed.

Lemma text_offset_48 e : 48 <= text_offset e.
Proof. destruct e; vm_compute; done. Qed.

Lemma kind_of_value k : SensorType.of_value (kind_value k) = Ok k.
Proof. by destruct k. Qed.

Lemma kind_value_range k : 0 <= kind_value k < 65536.
Proof. destruct k; vm_compute; done. Qed.

(** Attributes of the header, through any structure that starts with it. *)
Lemma driver_header_attr o e more b cls path off signed k z :
  origin_ok o -> locate cls path = Ok (off, CInt signed k) -> off + Z.of_nat k <= 48 ->
  read_back Wvu.PROBE_DATA_HEADER
    [(["probe_type"], le_enc 2 (kind_value (event_kind e))); (["data_sz"], le_enc 2 (data_sz e));
     (["current_gmt"], le_enc 8 (o_gmt o))] off = Some (le_enc k z) ->
  (0 < k)%nat -> 0 <= off -> in_range signed k z ->
  get_attr (mem_of (driver_packet o e more) b) cls path = Ok z.
Proof.
  intros Ho Hl Hoff Hr Hk H0 Hz. pose proof (text_offset_48 e).
  eapply driver_attr; [done|exact Hl| |done|done|lia|done]. rewrite <-Hr.
  assert (off = 16 \/ off = 18 \/ off = 24) as Hd.
  { revert Hr. cbn [read_back].
    change (locate Wvu.PROBE_DATA_HEADER ["probe_type"]) with (Ok (16, USHORT)).
    change (locate Wvu.PROBE_DATA_HEADER ["data_sz"]) with (Ok (18, USHORT)).
    change (locate Wvu.PROBE_DATA_HEADER ["current_gmt"]) with (Ok (24, Wvu.LARGE_INTEGER)).
    cbv iota. destruct (Z.eqb_spec 16 off), (Z.eqb_spec 18 off), (Z.eqb_spec 24 off); lia || done. }
  destruct Hd as [->|[->| ->]]; by destruct e.
Qed.

Lemma driver_header_fields o e more b :
  origin_ok o ->
  header_fields (mem_of (driver_packet o e more) b) (event_class (event_kind e)) =
  [("sensor_id", Ok (JStr (u (uuid_text (o_id o)))));
   ("sensor_type", Ok (JStr (u (SensorType.name (event_kind e)))));
   ("CurrentGMT", Ok (JInt (o_gmt o)))].
Proof.
  intros Ho. pose proof Ho as [_ Hg]. pose proof (text_offset_48 e). unfold header_fields, int_attr.
  rewrite (driver_id o e more b _ _ (CArr BYTE 16)); [|done|by destruct e as [| | | | | | |[]| | | |]|done|lia].
  rewrite (driver_header_attr o e more b _ ["Header"; "sensor_type"] 16 false 2 (kind_value (event_kind e)));
    [|done|by destruct e as [| | | | | | |[]| | | |]|done|done|lia|lia|apply kind_value_range].
  rewrite (driver_header_attr o e more b _ ["Header"; "CurrentGMT"] 24 true 8 (o_gmt o));
    [|done|by destruct e as [| | | | | | |[]| | | |]|done|done|lia|lia|done].
  cbn [res_bind res_map]. by rewrite kind_of_value.
Qed.

Lemma driver_GetSensorDataHeader o e more b :
  origin_ok o -> in_range false 2 (data_sz e) ->
  GetSensorDataHeader b (driver_packet o e more) =
  Ok (Pdh (uuid_text (o_id o)) (event_kind e) (data_sz e) (o_gmt o) (driver_packet o e more)).
Proof.
  intros Ho Hsz. pose proof Ho as [_ Hg]. pose proof (text_offset_48 e). unfold GetSensorDataHeader.
  rewrite (driver_id o e more b _ _ (CArr BYTE 16)); [|done|done|done|lia].
  rewrite (driver_header_attr o e more b _ ["sensor_type"] 16 false 2 (kind_value (event_kind e)));
    [|done|done|done|done|lia|lia|apply kind_value_range].
  rewrite (driver_header_attr o e more b _ ["DataSz"] 18 false 2 (data_sz e));
    [|done|done|done|done|lia|lia|done].
  rewrite (driver_header_attr o e more b _ ["CurrentGMT"] 24 true 8 (o_gmt o));
    [|done|done|done|done|lia|lia|done].
  cbn [res_bind]. by rewrite kind_of_value.
Qed.

(** The text of an event in the buffer made of its packet. *)
Lemma driver_text o e more after :
  slice_buffer (driver_packet o e more ++ after) (text_offset e) (Z.of_nat (length (event_text e)))
  = Ok (event_text e).
Proof.
  unfold driver_packet. pose proof (text_offset_48 e).
  replace (text_offset e) with (Z.of_nat (Z.to_nat (text_offset e))) at 2 by lia.
  by apply image_packet_slice.
Qed.

Lemma round_up_ge n a : 0 < a -> n <= round_up n a < n + a.
Proof.
  intros Ha. split; [by apply round_up_le|]. unfold round_up.
  pose proof (Z.div_mod (n + a - 1) a ltac:(lia)). pose proof (Z.mod_pos_bound (n + a - 1) a Ha). lia.
Qed.

Lemma data_sz_ge e : csize (event_struct e) + Z.of_nat (length (event_text e)) <= data_sz e.
Proof. unfold data_sz. destruct e; try lia; by apply round_up_le. Qed.

Lemma event_struct_size e : text_offset e <= csize (event_struct e).
Proof. destruct e; vm_compute; done. Qed.

Lemma text_length e : in_range false 2 (data_sz e) -> in_range false 2 (Z.of_nat (length (event_text e))).
Proof.
  unfold in_range. intros Hsz. pose proof (data_sz_ge e). pose proof (event_struct_size e).
  pose proof (text_offset_48 e). lia.
Qed.

Lemma driver_field_slice o e more after cls field t :
  locate cls [field] = Ok (text_offset e, t) ->
  field_slice cls (driver_packet o e more ++ after) field (Z.of_nat (length (event_text e))) =
  Ok (event_text e).
Proof. intros Hl. unfold field_slice. rewrite Hl. apply driver_text. Qed.

Lemma driver_field_slice_exact o e more cls field t :
  locate cls [field] = Ok (text_offset e, t) ->
  field_slice cls (driver_packet o e more) field (Z.of_nat (length (event_text e))) =
  Ok (event_text e).
Proof.
  intros Hl. rewrite <-(app_nil_r (driver_packet o e more)). by eapply driver_field_slice.
Qed.

Lemma enum_known members n v :
  forallb (fun z => is_ok (enum_name members z)) (seqZ 0 (n + 1)) = true -> 0 <= v <= n ->
  enum_name members v = Ok (enum_text members v).
Proof.
  rewrite forallb_forall. intros H Hv. specialize (H v).
  assert (In v (seqZ 0 (n + 1))) as Hin by (apply list_elem_of_In, elem_of_seqZ; lia).
  specialize (H Hin). unfold enum_text. by destruct (enum_name members v).
Qed.

(** The command line takes the padding along. *)
Lemma cmdline_slice o e more after :
  (match e with ProcessCreated _ _ _ _ _ _ _ _ => True | _ => False end) ->
  slice_buffer (driver_packet o e more ++ after) 102 (data_sz e - 102) =
  Ok (event_text e ++ zeros (padding e)).
Proof.
  intros He. pose proof (data_sz_ge e). unfold driver_packet. rewrite app_assoc.
  destruct e; try done. change 102 with (Z.of_nat (Z.to_nat (text_offset (ProcessCreated parent pid eproc uproc uthread file status cmdline)))) at 1.
  apply image_packet_slice. rewrite length_app. unfold zeros. rewrite length_replicate. unfold padding.
  change (text_offset _) with 102. change (csize _) with 104 in H. lia.
Qed.

Lemma cmdline_padding parent pid eproc uproc uthread file status s :
  let e := ProcessCreated parent pid eproc uproc uthread file status s in
  zeros (padding e) = utf16_encode (replicate (padding e / 2) 0).
Proof.
  intros e. rewrite utf16_encode_zeros. f_equal.
  assert (2 | Z.of_nat (padding e)) as [k Hk].
  { unfold padding, e. fold e. pose proof (data_sz_ge e).
    change (text_offset e) with 102. change (csize (event_struct e)) with 104 in H.
    rewrite Z2Nat.id by lia. destruct (utf16_encode_even s) as [j Hj].
    change (event_text e) with (utf16_encode s). rewrite Hj.
    destruct (round_up_divide (csize (event_struct e) + Z.of_nat (length (event_text e))) 16) as [i Hi].
    change (data_sz e) with (round_up (csize (event_struct e) + Z.of_nat (length (event_text e))) 16).
    rewrite Hi. exists (8 * i - 51 - j). lia. }
  assert (padding e = 2 * Z.to_nat k)%nat as -> by lia.
  rewrite Nat.mul_comm, Nat.div_mul by lia. lia.
Qed.

Lemma text_ok_padded s n : text_ok s -> text_ok (s ++ replicate n 0).
Proof.
  intros [Hs Hb]. split.
  - apply Forall_app. split; [done|]. apply Forall_replicate. unfold scalar. lia.
  - destruct s as [|c s]; [|done]. destruct n; cbn; [done|lia].
Qed.

(** Names of modules are read by every second byte. *)
Lemma ascii_name s : ascii_text s -> chars_signed (every_second (utf16_encode s)) = Ok s.
Proof.
  induction 1 as [|c s Hc _ IH]; [done|].
  change (utf16_encode (c :: s)) with (flat_map (le_enc 2) (utf16_char c ++ flat_map utf16_char s)).
  unfold utf16_char at 1. rewrite (proj2 (Z.ltb_lt _ _)) by lia. cbn [app flat_map].
  fold (utf16_encode s). rewrite le_enc_2. cbn [app every_second].
  unfold chars_signed in *. cbn [res_mapM]. rewrite IH. unfold chr_signed, to_signed.
  rewrite byte_val_of, Z.mod_small by lia. change (2 ^ (8 * Z.of_nat 1 - 1)) with 128.
  assert (c <? 128 = true) as -> by lia. cbv iota. by assert (c <? 0 = false) as -> by lia.
Qed.

Ltac driver_attrs Ho Hlen :=
  repeat match goal with
  | |- context [get_attr (mem_of (driver_packet ?o ?e ?more) ?b) ?cls ?path] =>
      let l := eval vm_compute in (locate cls path) in
      match l with
      | Ok (?off, CInt ?s ?k) =>
          erewrite (driver_attr o e more b cls path off s k _ Ho);
          [|vm_compute; reflexivity|reflexivity|lia|lia|vm_compute; done
           |first [exact Hlen|done|unfold in_range; lia]]
      end
  end.

(** The slices of the packet a [build] takes. *)
Ltac driver_slices :=
  repeat match goal with
  | |- context [field_slice ?cls (driver_packet ?o ?e ?more ++ ?after) ?f _] =>
      rewrite (driver_field_slice o e more after cls f (CArr BYTE 1)) by (by vm_compute)
  | |- context [field_slice ?cls (driver_packet ?o ?e ?more) ?f _] =>
      rewrite (driver_field_slice_exact o e more cls f (CArr BYTE 1)) by (by vm_compute)
  | |- context [locate ProcessCreateInfo ?p] =>
      change (locate ProcessCreateInfo p) with (@Ok (Z * ctype) (102, CArr BYTE 1));
      cbn [res_bind]; rewrite cmdline_slice, cmdline_padding by done
  end.

(** Their texts, and the names of values. *)
Ltac driver_texts :=
  repeat match goal with
  | H : ascii_text ?s |- context [every_second (utf16_encode ?s)] => rewrite (ascii_name s H)
  | H : text_ok ?s |- context [DecodeString (utf16_encode ?s)] =>
      rewrite (DecodeString_encode s (proj1 H) (proj2 H))
  | H : text_ok ?s |- context [DecodeString (utf16_encode (?s ++ replicate ?n 0))] =>
      rewrite (DecodeString_encode _ (proj1 (text_ok_padded s n H)) (proj2 (text_ok_padded s n H)))
  | |- context [enum_name RegNotifyClass ?v] =>
      rewrite (enum_known RegNotifyClass 49 v) by (by vm_compute || lia)
  | |- context [enum_name KeyValueInformationClass ?v] =>
      rewrite (enum_known KeyValueInformationClass 6 v) by (by vm_compute || lia)
  | |- context [enum_name KPROCESSOR_MODE ?v] =>
      rewrite (enum_known KPROCESSOR_MODE 1 v) by (by vm_compute || lia)
  end.

Lemma driver_build o e more b :
  origin_ok o -> event_ok e ->
  build_event b (Pdh (uuid_text (o_id o)) (event_kind e) (data_sz e) (o_gmt o)
                   (driver_packet o e more)) = Ok (Some (report o e)).
Proof.
  intros Ho [Hsz Hok]. pose proof (text_length e Hsz) as Hlen.
  pose proof (driver_header_fields o e more b Ho) as Hh.
  unfold build_event. cbn [pdh_sensor_type].
  destruct e as [| | | | | | |[] pid eproc root options sd sqos desired granted version wow attrs mode s| | | |];
    cbn [event_kind event_class] in Hh |- *; decompose [and] Hok; clear Hok;
    unfold RegCreateKeyInfo_build, RegQueryValueKeyInfo_build, RegRenameKeyInfo_build,
      RegPostOperationInfo_build, RegDeleteValueKeyInfo_build, RegSetValueKeyInfo_build,
      ProcessListValidationFailed_build, ImageLoadInfo_build, ThreadCreateInfo_build,
      ThreadDestroyInfo_build, ProcessCreateInfo_build, ProcessDestroyInfo_build, create_string_buffer;
    cbn [pdh_Packet pdh_DataSz]; rewrite Hh; unfold int_attr, hex_attr, enum_attr; clear Hh;
    driver_attrs Ho Hlen; cbn [res_bind res_map];
    rewrite ?sized_buffer_exact; cbn [res_bind];
    driver_slices; cbn [res_bind event_text]; rewrite <-?utf16_encode_app; driver_texts; reflexivity.
Qed.

Lemma driver_packet_decoded o e more b :
  origin_ok o -> event_ok e ->
  packet_decode_header b (driver_packet o e more) = Ok (Some (report o e)).
Proof.
  intros Ho He. unfold packet_decode_header.
  rewrite driver_GetSensorDataHeader by (done || apply He). cbn [res_bind].
  by apply driver_build.
Qed.

(** C6: round trip.  What a probe of the driver saw is what the decoder
    reports: for every kind of event, with every value in the range of its
    field and a text the event can carry, decoding the packet that the driver
    lays out by its own declarations gives the event's fields, whatever follows
    the packet in the receiver's buffer and in memory.  Two things are not as
    the driver has them: addresses go through [LongLongToHex], and a command
    line takes along the zeroes up to the packet's rounded size. *)
Theorem driver_event_decoded o e more b :
  origin_ok o -> event_ok e ->
  packet_decode_header b (driver_packet o e more) = Ok (Some (report o e)).
Proof. apply driver_packet_decoded. Qed.

Definition sample_origin : origin :=
  Origin (map byte_of [1; 2; 3; 4; 5; 6; 7; 8; 9; 10; 11; 12; 13; 14; 15; 16]) 131771 (0, 0).
Definition sample_create : event :=
  ProcessCreated 4 1234 (-8796093022208) 4 5678 (-1024) 0 (u "cmd.exe").

Lemma driver_event_decoded_witness :
  packet_decode_header (fun _ => byte_of 255) (driver_packet sample_origin sample_create []) =
  Ok (Some (report sample_origin sample_create)).
Proof.
  apply (driver_event_decoded sample_origin sample_create []).
  - split; [done|unfold in_range; cbn; lia].
  - unfold event_ok, sample_create, i8, u8, u4, in_range. split; [by vm_compute|].
    split_and!; try lia. split; [|cbn; lia].
    unfold scalar. cbn. repeat constructor; lia.
Defined.

(** The command line of the sample, as it is reported. *)
Lemma sample_cmdline :
  dict_get "CommandLine" (report sample_origin sample_create) =
  Some (JStr (u "cmd.exe" ++ replicate 6 0)).
Proof. by vm_compute. Qed.

(** A module whose name is not ASCII makes the decoder fail: the bytes are taken
    for signed numbers, and [chr] refuses negative ones. *)
Lemma image_name_refused :
  packet_decode_header (fun _ => byte_of 0)
    (driver_packet sample_origin (ImageLoaded 4 0 0 4096 (u "caf" ++ [233])) []) = Raise ValueError.
Proof. by vm_compute. Qed.
