(* ===== verification/NtFltMgr.v ===== *)
(** The filter manager's port of [src/sensors/ntfltmgr/ntfltmgr.py]: receiving
    events and answering them, sending commands, listing sensors and filters.

    Windows' [fltlib] is a parameter ([FltLib]): its calls act on a state of
    which nothing is known but what a theorem supposes.  A call gives an
    [HRESULT] or an [OSError] with its code. *)

From S2P Require Import Prelude Json Ctypes NtStructs NtEvents.

(** * Windows *)

Inductive os (A : Type) :=
  | Done (a : A)
  | WinError (winerror : Z).
Arguments Done {A} _.
Arguments WinError {A} _.

Definition S_OK : Z := 0.
Definition ERROR_INSUFFICIENT_BUFFER : Z := 122.
Definition ERROR_NO_MORE_ITEMS : Z := 259.
Definition ERROR_IO_PENDING : Z := 997.

(** [osr.winerror & 0x0000FFFF] *)
Definition lasterror (e : Z) : Z := Z.land e 65535.

(** What the search calls give: the result, the bytes written to the buffer,
    [BytesReturned] and the handle. *)
Record found := Found { fd_res : os Z; fd_out : bytes; fd_returned : Z; fd_handle : Z }.

Class FltLib (W : Type) := {
  (** [_FilterConnectCommunicationPort]: the handle. *)
  flt_connect : string -> W -> os Z * W;
  (** [_FilterGetMessage] with a message buffer of a length.  It does not block:
      the buffer of the call is written now or later. *)
  flt_get : Z -> Z -> W -> os Z * W;
  (** The buffer of the last such call, as it is now, and the passing of the
      0.1 seconds between two looks. *)
  flt_buffer : W -> bytes;
  flt_sleep : W -> W;
  (** [_FilterReplyMessage] *)
  flt_reply : Z -> bytes -> W -> os Z * W;
  (** [_FilterSendMessage]: the result, what is written to the response buffer
      and the number of bytes returned. *)
  flt_send : Z -> bytes -> W -> (os Z * bytes * Z) * W;
  (** [_FilterFindFirst] and its kin, by the size of the buffer. *)
  flt_find_first : Z -> Z -> W -> found * W;
  flt_find_next : Z -> Z -> Z -> W -> found * W;
  flt_instance_first : string -> Z -> Z -> W -> found * W;
  flt_instance_next : Z -> Z -> Z -> W -> found * W;
  flt_close : Z -> W -> W }.

(** A buffer of [n] bytes after [out] was written to it. *)
Definition written (n : Z) (out : bytes) : bytes := take (Z.to_nat n) (out ++ zeros (Z.to_nat n)).

(** [info.contents.<path> = v] on the structure cast over a buffer. *)
Definition set_attr (cls : ctype) (path : list string) (v : Z) (buf : bytes) : bytes :=
  match locate cls path with
  | Ok (o, CInt _ n) => poke buf o (le_enc n v)
  | _ => buf
  end.

Section Port.

Context {W : Type} {Wf : FltLib W} (beyond : memory).

(** * Messages *)

(** [FilterConnectCommunicationPort(PortName)] *)
Definition FilterConnectCommunicationPort (PortName : string) : M W Z := fun w =>
  match flt_connect PortName w with
  | (Done h, w') => (Ok h, w')
  | (WinError _, w') => (Raise OSError, w')
  end.

Definition CloseHandle (handle : Z) : M W unit := modify (flt_close handle).

(** [FilterReplyMessage(hPort, status, msg_id, msg, msg_len)], for a text *)
Definition reply_buffer (status msg_id : Z) (msg : bytes) (msg_len : Z) : res bytes :=
  let? buf := create_string_buffer_sized msg msg_len in
  Ok (set_attr FILTER_REPLY_HEADER ["MessageId"] msg_id
        (set_attr FILTER_REPLY_HEADER ["Status"] status buf)).

Definition FilterReplyMessage (hPort status msg_id : Z) (msg : ustr) (msg_len : Z) : M W Z :=
  if (Z.of_nat (length msg) <=? 0) || (msg_len <? Z.of_nat (length msg))
     || (msg_len <=? csize FILTER_REPLY_HEADER)
  then throw ValueError
  else if negb (forallb (fun c => c <? 256) msg) then throw ValueError
  else
    do buf <- lift (reply_buffer status msg_id (map byte_of msg) msg_len);
    fun w => match flt_reply hPort buf w with
             | (Done r, w') => (Ok r, w')
             | (WinError e, w') => (Ok (lasterror e), w')
             end.

(** [FilterMessageHeader] *)
Record filter_message := FilterMessage {
  fm_ReplyLength : Z;
  fm_MessageId : Z;
  fm_Remainder : bytes }.

(** [not info.contents.ReplyLength] *)
Definition pending (msg_len : Z) (w : W) : bool :=
  match get_attr (mem_of (written msg_len (flt_buffer w)) beyond) FILTER_MESSAGE_HEADER
          ["ReplyLength"] with
  | Ok n => n =? 0
  | Raise _ => false
  end.

(** [while not info.contents.ReplyLength: await curio.sleep(0.1)] *)
Fixpoint poll (fuel : nat) (msg_len : Z) (w : W) : option W :=
  if pending msg_len w then
    match fuel with
    | O => None
    | S fuel => poll fuel msg_len (flt_sleep w)
    end
  else Some w.

(** The message that is in the buffer. *)
Definition message_at (msg_len : Z) (w : W) : res filter_message :=
  let sb := written msg_len (flt_buffer w) in
  let m := mem_of sb beyond in
  let? ReplyLen := get_attr m FILTER_MESSAGE_HEADER ["ReplyLength"] in
  let? MessageId := get_attr m FILTER_MESSAGE_HEADER ["MessageId"] in
  Ok (FilterMessage ReplyLen MessageId (drop (Z.to_nat (csize FILTER_MESSAGE_HEADER)) sb)).

(** [FilterGetMessage(hPort, msg_len)]; [None] when the driver has sent nothing
    after [fuel] looks at the buffer. *)
Definition FilterGetMessage (fuel : nat) (hPort msg_len : Z) (w : W)
    : option (res (Z * filter_message) * W) :=
  if msg_len <=? 0 then Some (Raise ValueError, w)
  else
    match flt_get hPort msg_len w with
    | (Done r, w) => Some (res_map (pair r) (message_at msg_len w), w)
    | (WinError e, w) =>
        if lasterror e =? ERROR_IO_PENDING then
          w ← poll fuel msg_len w;
          Some (res_map (pair 0) (message_at msg_len w), w)
        else Some (Raise OSError, w)
    end.

Definition EventPort : string := "\WVUPort".
Definition CommandPort : string := "\WVUCommand".

Definition response_text (MessageId : Z) : ustr :=
  u ("Response to Message Id " +:+ str_int MessageId) ++ [10].

(** One turn of the loop of [apacket_decode]: [Some] event is yielded. *)
Definition apacket_turn (fuel : nat) (hFltComms : Z) (w : W)
    : option (res (option ntuple) * W) :=
  match FilterGetMessage fuel hFltComms MAXPKTSZ w with
  | None => None
  | Some (Raise e, w) => Some (Raise e, w)
  | Some (Ok (_, msg_pkt), w) =>
      Some ((do_ FilterReplyMessage hFltComms 0 (fm_MessageId msg_pkt)
                   (response_text (fm_MessageId msg_pkt)) (fm_ReplyLength msg_pkt);
             lift (packet_decode_header beyond (fm_Remainder msg_pkt))) w)
  end.

(** [apacket_decode()] for at most [n] messages, each waited for with [fuel]:
    what is yielded, and the exception that ends the generator. *)
Fixpoint apacket_loop (n fuel : nat) (hFltComms : Z) (w : W) : list ntuple * option exn * W :=
  match n with
  | O => ([], None, w)
  | S n =>
      match apacket_turn fuel hFltComms w with
      | None => ([], None, w)
      | Some (Raise e, w) => ([], Some e, w)
      | Some (Ok msg_data, w) =>
          let '(l, e, w) := apacket_loop n fuel hFltComms w in
          (match msg_data with Some d => d :: l | None => l end, e, w)
      end
  end.

Definition apacket_decode (n fuel : nat) (w : W) : list ntuple * option exn * W :=
  match FilterConnectCommunicationPort EventPort w with
  | (Raise e, w) => ([], Some e, w)
  | (Ok hFltComms, w) => apacket_loop n fuel hFltComms w
  end.

(** * Commands *)

(** [FilterSendMessage(hPort, cmd_buf)]: the result and the response. *)
Definition FilterSendMessage (hPort : Z) (cmd_buf : bytes) : M W (Z * bytes) :=
  if Z.of_nat (length cmd_buf) <=? 0 then throw ValueError
  else fun w =>
    let '(r, out, bytes_returned, w') := flt_send hPort cmd_buf w in
    let rsp_buf := written MAXRSPSZ out in
    let res := match r with Done r => r | WinError e => lasterror e end in
    let bufsz := if bytes_returned <? MAXRSPSZ then bytes_returned else MAXRSPSZ in
    (let? response := create_string_buffer_sized (take (Z.to_nat bufsz) rsp_buf) bufsz in
     Ok (res, response), w').

(** A zeroed command with room for [more] bytes of data; [command] is its
    number and [DataSz] the size it gives. *)
Definition command_buffer (more : nat) (command DataSz : Z) : bytes :=
  set_attr COMMAND_MESSAGE ["DataSz"] DataSz
    (set_attr COMMAND_MESSAGE ["Command"] command
       (zeros (Z.to_nat (csize COMMAND_MESSAGE) + more))).

(** [memmove(cmd_msg.contents.sensor_id.Data, sensor_id.bytes, ...)]; without a
    [sensor_id] the parameter is the number 0, which has no [bytes]. *)
Definition put_sensor_id (sensor_id : option bytes) (buf : bytes) : res bytes :=
  match sensor_id with
  | None => Raise AttributeError
  | Some b =>
      let? (o, _) := locate COMMAND_MESSAGE ["sensor_id"; "Data"] in
      Ok (poke buf o (take 16 b))
  end.

(** [memmove(slc, data, fit)] into the [Data] of a command. *)
Definition put_data (data : bytes) (fit : nat) (buf : bytes) : res bytes :=
  let? (offset, _) := locate COMMAND_MESSAGE ["Data"] in
  let? _ := slice_buffer buf offset (Z.of_nat fit) in
  Ok (poke buf offset (take fit data)).

Definition Echo (hFltComms : Z) : M W (Z * bytes) :=
  FilterSendMessage hFltComms (command_buffer 0 0 0).

Definition EnableProbe (hFltComms : Z) (sensor_id : option bytes) : M W (Z * bytes) :=
  do cmd_buf <- lift (put_sensor_id sensor_id (command_buffer 0 1 0));
  FilterSendMessage hFltComms cmd_buf.

Definition DisableProbe (hFltComms : Z) (sensor_id : option bytes) : M W (Z * bytes) :=
  do cmd_buf <- lift (put_sensor_id sensor_id (command_buffer 0 2 0));
  FilterSendMessage hFltComms cmd_buf.

Definition EnableUnload (hFltComms : Z) : M W (Z * bytes) :=
  FilterSendMessage hFltComms (command_buffer 0 3 0).

Definition DisableUnload (hFltComms : Z) : M W (Z * bytes) :=
  FilterSendMessage hFltComms (command_buffer 0 4 0).

Definition OneShotKill (hFltComms pid : Z) : M W (Z * bytes) :=
  let pid_str := utf8_encode (u (str_int pid)) in
  let length := length pid_str in
  do cmd_buf <- lift (put_data pid_str length (command_buffer length 7 (Z.of_nat length)));
  FilterSendMessage hFltComms cmd_buf.

(** [cfgdata.encode('utf-8')]: a lone surrogate raises [UnicodeEncodeError], a
    [ValueError].  The size is the number of characters, not of bytes. *)
Definition ConfigureSensor (hFltComms : Z) (cfgdata : ustr) (sensor_id : option bytes)
    : M W (Z * bytes) :=
  if (length cfgdata =? 0)%nat then throw ValueError
  else
    let length := length cfgdata in
    do cmd_buf <- lift (put_sensor_id sensor_id (command_buffer length 6 (Z.of_nat length)));
    if existsb (fun c => (55296 <=? c) && (c <=? 57343)) cfgdata then throw ValueError
    else
      do cmd_buf <- lift (put_data (utf8_encode cfgdata) length cmd_buf);
      FilterSendMessage hFltComms cmd_buf.

(** The sensors of a response from number [ndx] on: those that are yielded,
    and the exception that ends the generator early. *)
Fixpoint sensors_from (sb : bytes) (ndx : Z) (cnt : nat) : list sensor_status * option exn :=
  match cnt with
  | O => ([], None)
  | S cnt =>
      let length := csize SensorStatus in
      let offset := ndx * csize SensorStatus in
      match (let? slc := slice_buffer sb offset length in SensorStatus_build beyond slc) with
      | Ok sensor =>
          let '(l, e) := sensors_from sb (ndx + 1) cnt in (sensor :: l, e)
      | Raise e => ([], Some e)
      end
  end.

(** [EnumerateSensors(hFltComms)]; what follows the response is read when the
    response is shorter than its header. *)
Definition EnumerateSensors (hFltComms : Z) : M W (list sensor_status * option exn) :=
  do r <- FilterSendMessage hFltComms (command_buffer 0 5 0);
  let rsp_buf := r.2 in
  do cnt <- lift (get_attr (mem_of rsp_buf beyond) SensorStatusHeader ["NumberOfEntries"]);
  let sb := create_string_buffer (drop (Z.to_nat (csize SensorStatusHeader)) rsp_buf) in
  ret (sensors_from sb 0 (Z.to_nat cnt)).

(** * Filters and their instances *)

(** [FilterFullInformation] and [FilterInstanceInformation] *)
Record filter_info := FilterFullInformation {
  fi_FrameID : Z; fi_NumberOfInstances : Z; fi_FilterName : ustr }.
Record instance_info := FilterInstanceInformation {
  ii_InstanceName : ustr; ii_Altitude : ustr; ii_VolumeName : ustr; ii_FilterName : ustr }.

Definition build_filter_info (buf : bytes) : res filter_info :=
  let sb := create_string_buffer buf in
  let m := mem_of sb beyond in
  let? length := get_attr m FILTER_FULL_INFORMATION ["FilterNameLength"] in
  let? slc := field_slice FILTER_FULL_INFORMATION sb "FilterNameBuffer" length in
  let? FilterName := chars_signed (every_second slc) in
  let? frame := get_attr m FILTER_FULL_INFORMATION ["FrameID"] in
  let? instances := get_attr m FILTER_FULL_INFORMATION ["NumberOfInstances"] in
  Ok (FilterFullInformation frame instances FilterName).

(** One text of an instance: its length and offset are attributes. *)
Definition instance_text (sb : bytes) (len off : string) : res ustr :=
  let m := mem_of sb beyond in
  let? length := get_attr m INSTANCE_FULL_INFORMATION [len] in
  let? offset := get_attr m INSTANCE_FULL_INFORMATION [off] in
  let? slc := slice_buffer sb offset length in
  utf16_decode slc.

Definition build_filter_instance_info (buf : bytes) : res instance_info :=
  let sb := create_string_buffer buf in
  let? InstanceName := instance_text sb "InstanceNameLength" "InstanceNameBufferOffset" in
  let? Altitude := instance_text sb "AltitudeLength" "AltitudeBufferOffset" in
  let? VolumeName := instance_text sb "VolumeNameLength" "VolumeNameBufferOffset" in
  let? FilterName := instance_text sb "FilterNameLength" "FilterNameBufferOffset" in
  Ok (FilterInstanceInformation InstanceName Altitude VolumeName FilterName).

(** The protocol of a search call: a first call with a buffer of [size] bytes
    asks for the size, a second one with that size gets the data.  [None] means
    that there is nothing more, with the code to return. *)
Definition two_calls {A} (size : Z) (call : Z -> W -> found * W) (build : bytes -> res A)
    : M W (Z * option (Z * A)) := fun w =>
  let '(f1, w) := call size w in
  let second :=
    let '(f2, w) := call (fd_returned f1) w in
    match fd_res f2 with
    | WinError _ => (Raise OSError, w)
    | Done r =>
        if negb (r =? S_OK) then (Ok (r, None), w)
        else (let? a := build (written (fd_returned f1) (fd_out f2)) in
              Ok (S_OK, Some (fd_handle f2, a)), w)
    end in
  match fd_res f1 with
  | WinError e =>
      if lasterror e =? ERROR_NO_MORE_ITEMS then (Ok (lasterror e, None), w)
      else if negb (lasterror e =? ERROR_INSUFFICIENT_BUFFER) then (Raise OSError, w)
      else second
  | Done _ => second
  end.

(** [FilterFindFirst] and [FilterInstanceFindFirst] return a handle and the
    information, or [(None, None)]. *)
Definition FilterFindFirst (infocls : Z) : M W (option (Z * filter_info)) :=
  do r <- two_calls (csize FILTER_FULL_INFORMATION) (flt_find_first infocls) build_filter_info;
  ret r.2.

Definition FilterFindNext (hFilterFind infocls : Z) : M W (Z * option filter_info) :=
  do r <- two_calls (csize FILTER_FULL_INFORMATION) (flt_find_next hFilterFind infocls)
            build_filter_info;
  ret (r.1, snd <$> r.2).

(** [INSTANCE_INFORMATION_CLASS.InstancePartialInformation] *)
Definition InstancePartialInformation : Z := 2.

Definition FilterInstanceFindFirst (filter_name : string) : M W (option (Z * instance_info)) :=
  do r <- two_calls (csize INSTANCE_FULL_INFORMATION)
            (flt_instance_first filter_name InstancePartialInformation)
            build_filter_instance_info;
  ret r.2.

(** Here the first call gets the size of the other structure. *)
Definition FilterInstanceFindNext (hFilterInstanceFind : Z) : M W (Z * option instance_info) :=
  do r <- two_calls (csize FILTER_FULL_INFORMATION)
            (flt_instance_next hFilterInstanceFind InstancePartialInformation)
            build_filter_instance_info;
  ret (r.1, snd <$> r.2).

End Port.

(** * What the driver receives *)

(** [COMMAND_MESSAGE] of the driver's header. *)
Definition WVU_COMMAND_MESSAGE : ctype :=
  CStruct [("Command", ULONG); ("ProbeId", Wvu.UUID_t); ("DataSz", CInt false 8);
    ("Data", CArr CHAR 1)].

Record driver_command := DriverCommand {
  dc_Command : Z; dc_ProbeId : bytes; dc_DataSz : Z; dc_Data : bytes }.

Definition driver_reads (beyond : memory) (buf : bytes) : res driver_command :=
  let m := mem_of buf beyond in
  let? command := get_attr m WVU_COMMAND_MESSAGE ["Command"] in
  let? id := get_bytes m WVU_COMMAND_MESSAGE ["ProbeId"] in
  let? size := get_attr m WVU_COMMAND_MESSAGE ["DataSz"] in
  let? (o, _) := locate WVU_COMMAND_MESSAGE ["Data"] in
  Ok (DriverCommand command id size (load m o (Z.to_nat size))).

(** A request of a client of the port. *)
Inductive port_request :=
  | REcho
  | REnableProbe (id : bytes)
  | RDisableProbe (id : bytes)
  | REnableUnload
  | RDisableUnload
  | RConfigure (cfg : ustr) (id : bytes)
  | RKill (pid : Z).

Definition request_ok (r : port_request) : Prop :=
  match r with
  | REnableProbe id | RDisableProbe id => length id = 16%nat
  | RConfigure cfg id =>
      length id = 16%nat /\ cfg <> [] /\ Forall scalar cfg /\ Z.of_nat (length cfg) < 2 ^ 64
  | RKill pid => Z.of_nat (length (utf8_encode (u (str_int pid)))) < 2 ^ 64
  | _ => True
  end.

(** The command of a request. *)
Definition request_command (r : port_request) : driver_command :=
  match r with
  | REcho => DriverCommand 0 (zeros 16) 0 []
  | REnableProbe id => DriverCommand 1 id 0 []
  | RDisableProbe id => DriverCommand 2 id 0 []
  | REnableUnload => DriverCommand 3 (zeros 16) 0 []
  | RDisableUnload => DriverCommand 4 (zeros 16) 0 []
  | RConfigure cfg id =>
      DriverCommand 6 id (Z.of_nat (length cfg)) (take (length cfg) (utf8_encode cfg))
  | RKill pid =>
      let text := utf8_encode (u (str_int pid)) in
      DriverCommand 7 (zeros 16) (Z.of_nat (length text)) text
  end.

Section Requests.

Context {W : Type} {Wf : FltLib W}.

Definition issue (hPort : Z) (r : port_request) : M W (Z * bytes) :=
  match r with
  | REcho => Echo hPort
  | REnableProbe id => EnableProbe hPort (Some id)
  | RDisableProbe id => DisableProbe hPort (Some id)
  | REnableUnload => EnableUnload hPort
  | RDisableUnload => DisableUnload hPort
  | RConfigure cfg id => ConfigureSensor hPort cfg (Some id)
  | RKill pid => OneShotKill hPort pid
  end.

End Requests.

Lemma command_buffer_poke more command size :
  command_buffer more command size =
  poke (poke (zeros (40 + more)) 0 (le_enc 4 command)) 24 (le_enc 8 size).
Proof. reflexivity. Qed.

Lemma length_command_buffer more command size :
  length (command_buffer more command size) = (40 + more)%nat.
Proof. rewrite command_buffer_poke, !length_poke. apply length_zeros. Qed.

Lemma command_buffer_ne more command size : command_buffer more command size <> [].
Proof. intros E. apply (f_equal length) in E. by rewrite length_command_buffer in E. Qed.

Lemma driver_reads_loads beyond buf :
  driver_reads beyond buf =
  let m := mem_of buf beyond in
  let size := le_val (load m 24 8) in
  Ok (DriverCommand (le_val (load m 0 4)) (load m 4 16) size (load m 32 (Z.to_nat size))).
Proof. reflexivity. Qed.

Ltac peek :=
  repeat first
    [ rewrite peek_poke_same
        by (rewrite ?length_poke, ?length_zeros, ?length_le_enc; first [lia|done])
    | rewrite peek_poke_other by (rewrite ?length_poke, ?length_zeros, ?length_le_enc; lia)
    | rewrite peek_zeros by lia ].

Lemma le_val_4 v : 0 <= v < 2 ^ 32 -> le_val (le_enc 4 v) = v.
Proof. intros Hv. rewrite le_val_enc. by apply Z.mod_small. Qed.
Lemma le_val_8 v : 0 <= v < 2 ^ 64 -> le_val (le_enc 8 v) = v.
Proof. intros Hv. rewrite le_val_enc. by apply Z.mod_small. Qed.

(** A command with or without an identifier, with or without data. *)
Lemma driver_reads_plain beyond command :
  0 <= command < 2 ^ 32 ->
  driver_reads beyond (command_buffer 0 command 0) = Ok (DriverCommand command (zeros 16) 0 []).
Proof.
  intros Hc. rewrite driver_reads_loads, command_buffer_poke. cbv zeta.
  rewrite (peek_poke_same _ 24) by (rewrite ?length_poke, ?length_zeros, ?length_le_enc; lia || done).
  rewrite le_val_8 by lia. change (Z.to_nat 0) with 0%nat. peek. by rewrite le_val_4 by lia.
Qed.

Lemma driver_reads_id beyond command id :
  0 <= command < 2 ^ 32 -> length id = 16%nat ->
  driver_reads beyond (poke (command_buffer 0 command 0) 4 (take 16 id)) =
  Ok (DriverCommand command id 0 []).
Proof.
  intros Hc Hid. rewrite driver_reads_loads, command_buffer_poke. cbv zeta.
  rewrite take_ge by lia.
  rewrite (peek_poke_other _ 4 id _ 24 8) by (rewrite ?length_poke, ?length_zeros; lia).
  rewrite (peek_poke_same _ 24) by (rewrite ?length_poke, ?length_zeros, ?length_le_enc; lia || done).
  rewrite le_val_8 by lia. change (Z.to_nat 0) with 0%nat. peek. by rewrite le_val_4 by lia.
Qed.

Lemma driver_reads_data beyond command data :
  0 <= command < 2 ^ 32 -> Z.of_nat (length data) < 2 ^ 64 ->
  driver_reads beyond
    (poke (command_buffer (length data) command (Z.of_nat (length data))) 32 data) =
  Ok (DriverCommand command (zeros 16) (Z.of_nat (length data)) data).
Proof.
  intros Hc Hd. rewrite driver_reads_loads, command_buffer_poke. cbv zeta.
  rewrite (peek_poke_other _ 32 data _ 24 8) by (rewrite ?length_poke, ?length_zeros; lia).
  rewrite (peek_poke_same _ 24) by (rewrite ?length_poke, ?length_zeros, ?length_le_enc; lia || done).
  rewrite le_val_8, Nat2Z.id by lia. peek. by rewrite le_val_4 by lia.
Qed.

Lemma driver_reads_both beyond command id data :
  0 <= command < 2 ^ 32 -> length id = 16%nat -> Z.of_nat (length data) < 2 ^ 64 ->
  driver_reads beyond
    (poke (poke (command_buffer (length data) command (Z.of_nat (length data))) 4 (take 16 id))
       32 data) =
  Ok (DriverCommand command id (Z.of_nat (length data)) data).
Proof.
  intros Hc Hid Hd. rewrite driver_reads_loads, command_buffer_poke. cbv zeta.
  rewrite take_ge by lia.
  rewrite (peek_poke_other _ 32 data _ 24 8) by (rewrite ?length_poke, ?length_zeros; lia).
  rewrite (peek_poke_other _ 4 id _ 24 8) by (rewrite ?length_poke, ?length_zeros; lia).
  rewrite (peek_poke_same _ 24) by (rewrite ?length_poke, ?length_zeros, ?length_le_enc; lia || done).
  rewrite le_val_8, Nat2Z.id by lia. peek. by rewrite le_val_4 by lia.
Qed.

Lemma slice_buffer_ok buf o k :
  (Z.to_nat o + Z.to_nat k <= length buf)%nat -> 0 <= k ->
  slice_buffer buf o k = Ok (take (Z.to_nat k) (drop (Z.to_nat o) buf)).
Proof.
  intros Hl Hk. unfold slice_buffer. rewrite (proj2 (Z.ltb_ge k 0)) by done.
  rewrite length_take, length_drop. by rewrite (proj2 (Z.ltb_ge _ _)) by lia.
Qed.

Lemma put_data_ok data fit buf :
  (32 + fit <= length buf)%nat -> put_data data fit buf = Ok (poke buf 32 (take fit data)).
Proof.
  intros Hl. unfold put_data.
  change (locate COMMAND_MESSAGE ["Data"]) with (@Ok (Z * ctype) (32, CArr BYTE 1)).
  cbn [res_bind]. by rewrite slice_buffer_ok by (rewrite ?Nat2Z.id; lia).
Qed.

Lemma utf8_encode_length s : Forall scalar s -> (length s <= length (utf8_encode s))%nat.
Proof.
  unfold utf8_encode. rewrite length_map. induction 1 as [|c s Hc _ IH]; [done|].
  cbn [flat_map length]. rewrite length_app.
  assert (1 <= length (utf8_char c))%nat by (unfold utf8_char; repeat case_match; cbn; lia). lia.
Qed.

Lemma scalar_no_surrogate s :
  Forall scalar s -> existsb (fun c => (55296 <=? c) && (c <=? 57343)) s = false.
Proof.
  induction 1 as [|c s Hc _ IH]; [done|]. cbn [existsb]. rewrite IH. unfold scalar in Hc. lia.
Qed.


Lemma ConfigureSensor_sends {W} `{Wf : !FltLib W} hPort cfg id :
  cfg <> [] -> Forall scalar cfg ->
  ConfigureSensor hPort cfg (Some id) =
  FilterSendMessage hPort
    (poke (poke (command_buffer (length cfg) 6 (Z.of_nat (length cfg))) 4 (take 16 id)) 32
       (take (length cfg) (utf8_encode cfg))).
Proof.
  intros Hne Hs. unfold ConfigureSensor.
  assert ((length cfg =? 0)%nat = false) as -> by (by destruct cfg).
  rewrite scalar_no_surrogate by done. cbv zeta.
  change (put_sensor_id (Some id) ?b) with (@Ok bytes (poke b 4 (take 16 id))).
  unfold bind, lift at 1. rewrite put_data_ok by (rewrite length_poke, length_command_buffer; lia).
  reflexivity.
Qed.

(** C9: refinement.  Every request of a client reaches the driver as the
    command it means: what is sent, read by the driver's own declaration of
    [COMMAND_MESSAGE], has the request's number, the sensor's identifier (zero
    where the request names none), and as many bytes of data as its size says.
    The data of [ConfigureSensor] are as many bytes of the configuration's UTF-8
    text as it has characters. *)
Theorem requests_received {W} `{Wf : !FltLib W} hPort r beyond :
  request_ok r ->
  exists buf, issue hPort r = FilterSendMessage hPort buf /\
    driver_reads beyond buf = Ok (request_command r).
Proof.
  intros Hr. destruct r as [|id|id| | |cfg id|pid]; cbn [request_ok request_command issue] in *.
  - eexists. split; [reflexivity|by apply driver_reads_plain].
  - eexists. split; [reflexivity|by apply driver_reads_id].
  - eexists. split; [reflexivity|by apply driver_reads_id].
  - eexists. split; [reflexivity|by apply driver_reads_plain].
  - eexists. split; [reflexivity|by apply driver_reads_plain].
  - destruct Hr as (Hid & Hne & Hs & Hlen). pose proof (utf8_encode_length cfg Hs) as Hu.
    assert (length (take (length cfg) (utf8_encode cfg)) = length cfg) as Hl
      by (rewrite length_take; lia).
    eexists. split; [by apply ConfigureSensor_sends|].
    rewrite <-Hl at 1 2 4. apply driver_reads_both; [lia|done|lia].
  - eexists. split.
    + unfold OneShotKill. cbv zeta. rewrite put_data_ok by (rewrite length_command_buffer; lia).
      reflexivity.
    + rewrite take_ge by lia. by apply driver_reads_data.
Qed.

Lemma utf8_encode_ascii_length s :
  Forall scalar s -> (length (utf8_encode s) = length s <-> ascii_text s).
Proof.
  intros Hs. split.
  - unfold utf8_encode. rewrite length_map. induction Hs as [|c s Hc Hs IH]; [constructor|].
    cbn [flat_map length]. rewrite length_app. intros Hl.
    pose proof (utf8_encode_length s Hs) as Hle. unfold utf8_encode in Hle. rewrite length_map in Hle.
    assert (length (utf8_char c) = 1%nat /\ length (flat_map utf8_char s) = length s) as [H1 H2].
    { assert (1 <= length (utf8_char c))%nat by (unfold utf8_char; repeat case_match; cbn; lia). lia. }
    constructor; [|by apply IH]. clear -H1 Hc. unfold utf8_char in H1. unfold scalar in Hc.
    destruct (Z.ltb_spec c 128); [lia|]. repeat case_match; cbn in H1; lia.
  - intros Ha. rewrite utf8_encode_ascii by done. unfold ascii_bytes. apply length_map.
Qed.

(** Error.  [ConfigureSensor] gives the driver the start of the
    configuration's UTF-8 text, and all of it exactly when the configuration is
    ASCII: the size is counted in characters, the data in bytes. *)
Theorem ConfigureSensor_data {W} `{Wf : !FltLib W} hPort cfg id beyond :
  request_ok (RConfigure cfg id) ->
  exists buf cmd, ConfigureSensor hPort cfg (Some id) = FilterSendMessage hPort buf /\
    driver_reads beyond buf = Ok cmd /\ dc_DataSz cmd = Z.of_nat (length cfg) /\
    dc_Data cmd `prefix_of` utf8_encode cfg /\
    (dc_Data cmd = utf8_encode cfg <-> ascii_text cfg).
Proof.
  intros (Hid & Hne & Hs & Hlen). pose proof (utf8_encode_length cfg Hs) as Hu.
  assert (length (take (length cfg) (utf8_encode cfg)) = length cfg) as Hl
    by (rewrite length_take; lia).
  eexists _, (DriverCommand 6 id (Z.of_nat (length cfg)) (take (length cfg) (utf8_encode cfg))).
  split_and!; [by apply ConfigureSensor_sends| |done| |].
  - rewrite <-Hl at 1 2 4. apply driver_reads_both; [lia|done|lia].
  - cbn [dc_Data]. exists (drop (length cfg) (utf8_encode cfg)). by rewrite take_drop.
  - cbn [dc_Data]. rewrite <-(utf8_encode_ascii_length cfg Hs). split; intros E.
    + rewrite <-E. done.
    + apply take_ge. lia.
Qed.

(** * Listing the sensors *)

(** [ProbeStatus] of the driver's header. *)
Definition WVU_ProbeStatus : ctype :=
  CStruct [("ProbeId", Wvu.UUID_t); ("LastRunTime", Wvu.LARGE_INTEGER);
    ("RunInterval", Wvu.LARGE_INTEGER); ("OperationCount", LONG); ("Attributes", USHORT);
    ("Enabled", CHAR); ("ProbeName", CArr CHAR 64)].

Record probe_status := ProbeStatus {
  ps_id : bytes; ps_last : Z; ps_interval : Z; ps_count : Z; ps_attributes : Z;
  ps_enabled : bool; ps_name : ustr }.

Definition probe_fields (p : probe_status) : list (list string * bytes) :=
  [(["ProbeId"], ps_id p); (["LastRunTime"], le_enc 8 (ps_last p));
   (["RunInterval"], le_enc 8 (ps_interval p)); (["OperationCount"], le_enc 4 (ps_count p));
   (["Attributes"], le_enc 2 (ps_attributes p));
   (["Enabled"], le_enc 1 (if ps_enabled p then 1 else 0));
   (["ProbeName"], map byte_of (ps_name p) ++ zeros (64 - length (ps_name p)))].

Definition probe_image (p : probe_status) : bytes :=
  image_packet WVU_ProbeStatus (probe_fields p) 104 [].

(** The answer to [EnumerateProbes]. *)
Definition probes_response (l : list probe_status) : bytes :=
  le_enc 4 (Z.of_nat (length l)) ++ flat_map probe_image l.

(** Attributes are combinations of the four flags; a name is ASCII, without
    zeroes, and fits its field. *)
Definition probe_ok (p : probe_status) : Prop :=
  length (ps_id p) = 16%nat /\ in_range true 8 (ps_last p) /\ in_range true 8 (ps_interval p) /\
  in_range true 4 (ps_count p) /\ ps_attributes p ∈ map (Z.mul 2) (seqZ 0 16) /\
  (length (ps_name p) <= 64)%nat /\ Forall (fun c => 0 < c < 128) (ps_name p).

Definition attributes_text (v : Z) : string :=
  match enum_name SensorAttributeFlags v with
  | Ok n => n
  | Raise _ => str_join "|" (map fst (flag_names v))
  end.

Definition probe_report (p : probe_status) : sensor_status :=
  GetSensorStatus (ps_id p) (ps_last p) (ps_interval p) (ps_count p)
    (attributes_text (ps_attributes p)) (if ps_enabled p then "True" else "False") (ps_name p).

Lemma probe_apart p : probe_ok p -> all_apart (slots WVU_ProbeStatus (probe_fields p)) = true.
Proof.
  intros (Hid & _ & _ & _ & _ & Hn & _). rewrite slots_shape. unfold shape, probe_fields.
  cbn [map fst snd]. rewrite !length_le_enc, Hid, length_app, length_map, length_zeros.
  replace (length (ps_name p) + (64 - length (ps_name p)))%nat with 64%nat by lia. by vm_compute.
Qed.

Lemma probe_attr p beyond path off signed k z :
  probe_ok p -> locate SensorStatus path = Ok (off, CInt signed k) ->
  read_back WVU_ProbeStatus (probe_fields p) off = Some (le_enc k z) ->
  (0 < k)%nat -> 0 <= off -> off + Z.of_nat k <= 104 -> in_range signed k z ->
  get_attr (mem_of (probe_image p) beyond) SensorStatus path = Ok z.
Proof.
  intros Hp Hl Hr Hk H0 Hn Hz. unfold probe_image.
  eapply image_get_attr; [by apply probe_apart|exact Hl|exact Hr|done|done|lia|done].
Qed.

Lemma length_probe_image p : length (probe_image p) = 104%nat.
Proof. unfold probe_image, image_packet. rewrite length_app, length_load. done. Qed.

Lemma probe_name_slice p after :
  probe_ok p ->
  field_slice SensorStatus (probe_image p ++ after) "SensorName" MAXSENSORNAMESZ =
  Ok (map byte_of (ps_name p) ++ zeros (64 - length (ps_name p))).
Proof.
  intros Hp. pose proof Hp as (_ & _ & _ & _ & _ & Hn & _). unfold field_slice.
  change (locate SensorStatus ["SensorName"]) with (@Ok (Z * ctype) (39, CArr BYTE 64)).
  cbn [res_bind]. unfold MAXSENSORNAMESZ.
  rewrite slice_buffer_ok by (rewrite ?length_app, ?length_probe_image; lia). f_equal.
  rewrite drop_app_le, take_app_le by (rewrite ?length_drop, length_probe_image; lia).
  rewrite <-(load_mem_of _ (fun _ => byte_of 0) 39 64)
    by (rewrite ?length_probe_image; lia).
  pose proof (image_get_bytes WVU_ProbeStatus (probe_fields p) 104 [] (fun _ => byte_of 0)
    SensorStatus ["SensorName"] 39 (CArr BYTE 64)
    (map byte_of (ps_name p) ++ zeros (64 - length (ps_name p))) (probe_apart p Hp)
    ltac:(reflexivity) ltac:(reflexivity)) as Hg.
  change (csize (CArr BYTE 64)) with 64 in Hg. rewrite length_app, length_map, length_zeros in Hg.
  specialize (Hg ltac:(lia) ltac:(lia) ltac:(lia)).
  unfold get_bytes in Hg.
  change (locate SensorStatus ["SensorName"]) with (@Ok (Z * ctype) (39, CArr BYTE 64)) in Hg.
  cbn [res_bind] in Hg.
  change (Z.to_nat (csize (CArr BYTE 64))) with 64%nat in Hg. by injection Hg.
Qed.

(** The zeroes after a name are left out. *)
Lemma name_chars s n :
  Forall (fun c => 0 < c < 128) s ->
  chars_signed (filter (fun ch => negb (byte_val ch =? 0)) (map byte_of s ++ zeros n)) = Ok s.
Proof.
  intros Hs. rewrite filter_app.
  assert (filter (fun ch => negb (byte_val ch =? 0)) (zeros n) = []) as ->.
  { induction n as [|n IH]; [done|]. done. }
  rewrite app_nil_r. induction Hs as [|c s Hc _ IH]; [done|]. cbn [map].
  assert (byte_val (byte_of c) = c) as Hv by (rewrite byte_val_of; apply Z.mod_small; lia).
  rewrite filter_cons_True by (rewrite Hv; destruct (Z.eqb_spec c 0); [lia|done]).
  unfold chars_signed in *. cbn [res_mapM]. rewrite IH. unfold chr_signed, to_signed. rewrite Hv.
  change (2 ^ (8 * Z.of_nat 1 - 1)) with 128.
  assert (c <? 128 = true) as -> by lia. by assert (c <? 0 = false) as -> by lia.
Qed.

Lemma attributes_str v :
  v ∈ map (Z.mul 2) (seqZ 0 16) ->
  0 <= v < 2 ^ 16 /\ SensorAttributeFlags_str v = Ok (saf_name +:+ attributes_text v).
Proof.
  assert (forallb (fun v => (0 <=? v) && (v <? 2 ^ 16) &&
            match SensorAttributeFlags_str v with
            | Ok s => bool_decide (s = saf_name +:+ attributes_text v)
            | Raise _ => false
            end) (map (Z.mul 2) (seqZ 0 16)) = true) as H by (by vm_compute).
  rewrite forallb_forall in H. intros Hv. specialize (H v (proj1 (list_elem_of_In _ _) Hv)).
  apply andb_prop in H as [H Hs]. split; [lia|].
  destruct (SensorAttributeFlags_str v); [|done]. apply bool_decide_eq_true in Hs. by subst.
Qed.

Lemma startswith_app p s : startswith (p +:+ s) p = true.
Proof. apply startswith_spec. by exists s. Qed.

Lemma probe_built p beyond :
  probe_ok p -> SensorStatus_build beyond (probe_image p) = Ok (probe_report p).
Proof.
  intros Hp. pose proof Hp as (Hid & Hl & Hi & Hc & Ha & Hn & Hs).
  destruct (attributes_str _ Ha) as [Har Hat].
  unfold SensorStatus_build, create_string_buffer. rewrite probe_name_slice by done.
  cbn [res_bind]. rewrite name_chars by done.
  assert (get_bytes (mem_of (probe_image p) beyond) SensorStatus ["sensor_id"; "Data"] = Ok (ps_id p))
    as ->.
  { unfold probe_image. eapply (image_get_bytes _ _ _ _ _ _ _ 0 (CArr BYTE 16));
      [by apply probe_apart|done|done|by rewrite Hid|lia|by vm_compute]. }
  rewrite (probe_attr p beyond ["Attributes"] 36 false 2 (ps_attributes p)) by (done || lia).
  cbn [res_bind]. rewrite Hat. cbn [res_bind]. rewrite startswith_app, str_chars_app.
  rewrite (drop_app_length' (str_chars saf_name)) by done. rewrite str_of_chars.
  rewrite (probe_attr p beyond ["LastRunTime"] 16 true 8 (ps_last p)) by (done || lia).
  rewrite (probe_attr p beyond ["RunInterval"] 24 true 8 (ps_interval p)) by (done || lia).
  rewrite (probe_attr p beyond ["OperationCount"] 32 true 4 (ps_count p)) by (done || lia).
  rewrite (probe_attr p beyond ["Enabled"] 38 true 1 (if ps_enabled p then 1 else 0))
    by (done || lia || (unfold in_range; cbn; destruct (ps_enabled p); lia)).
  cbn [res_bind]. unfold probe_report. by destruct (ps_enabled p).
Qed.

Lemma sensors_from_images l : forall pre post ndx beyond,
  Forall probe_ok l -> Z.of_nat (length pre) = ndx * 104 ->
  sensors_from beyond (pre ++ flat_map probe_image l ++ post) ndx (length l) =
  (map probe_report l, None).
Proof.
  induction l as [|p l IH]; intros pre post ndx beyond Hl Hpre; [done|].
  apply Forall_cons in Hl as [Hp Hl]. cbn [flat_map length sensors_from map].
  change (csize SensorStatus) with 104.
  rewrite slice_buffer_ok
    by (rewrite ?length_app, ?length_probe_image; cbn [length flat_map]; rewrite ?length_app, ?length_probe_image; lia).
  rewrite (drop_app_length' pre) by lia. rewrite <-app_assoc.
  rewrite take_app_length' by (by rewrite length_probe_image).
  cbn [res_bind]. rewrite probe_built by done.
  rewrite (app_assoc pre), IH; [done|done|]. rewrite length_app, length_probe_image. lia.
Qed.

Lemma length_probes_response l : length (probes_response l) = (4 + 104 * length l)%nat.
Proof.
  unfold probes_response. rewrite length_app, length_le_enc. f_equal.
  induction l as [|p l IH]; [done|]. cbn [flat_map length]. rewrite length_app, length_probe_image. lia.
Qed.

Lemma FilterSendMessage_response {W} `{Wf : !FltLib W} hPort cmd w r out w' :
  cmd <> [] -> Z.of_nat (length out) <= MAXRSPSZ ->
  flt_send hPort cmd w = (Done r, out, Z.of_nat (length out), w') ->
  FilterSendMessage hPort cmd w = (Ok (r, out), w').
Proof.
  intros Hc Hn Hs. unfold FilterSendMessage. rewrite (proj2 (Z.leb_gt _ _)) by (destruct cmd; [done|cbn; lia]).
  rewrite Hs. cbv beta zeta iota.
  assert ((if Z.of_nat (length out) <? MAXRSPSZ then Z.of_nat (length out) else MAXRSPSZ) =
          Z.of_nat (length out)) as -> by (destruct (Z.ltb_spec (Z.of_nat (length out)) MAXRSPSZ); lia).
  unfold written, MAXRSPSZ in *. rewrite Nat2Z.id, take_take, Nat.min_l by lia.
  rewrite take_app_length, sized_buffer_exact. done.
Qed.

Lemma probes_enumerated {W} `{Wf : !FltLib W} hPort w w' l r beyond :
  Forall probe_ok l -> (length l <= 39)%nat ->
  flt_send hPort (command_buffer 0 5 0) w =
    (Done r, probes_response l, Z.of_nat (length (probes_response l)), w') ->
  EnumerateSensors beyond hPort w = (Ok (map probe_report l, None), w').
Proof.
  intros Hl Hn Hs. unfold EnumerateSensors.
  assert (Z.of_nat (length (probes_response l)) <= MAXRSPSZ) as Hlen
    by (rewrite length_probes_response; unfold MAXRSPSZ; lia).
  erewrite bind_step by (exact (FilterSendMessage_response hPort _ w r _ w'
                                  (command_buffer_ne 0 5 0) Hlen Hs)).
  cbn [snd].
  unfold get_attr. change (locate SensorStatusHeader ["NumberOfEntries"]) with (@Ok (Z * ctype) (0, DWORD)).
  cbn [res_bind DWORD]. rewrite bind_lift with (a := Z.of_nat (length l)); [|f_equal].
  - unfold ret, create_string_buffer. rewrite Nat2Z.id. change (Z.to_nat (csize SensorStatusHeader)) with 4%nat.
    unfold probes_response. rewrite (drop_app_length' (le_enc 4 _)) by done.
    pose proof (sensors_from_images l [] [byte_of 0] 0 beyond Hl ltac:(done)) as E.
    cbn [app] in E. by rewrite E.
  - unfold read_int. rewrite load_mem_of by (rewrite ?length_probes_response; lia).
    unfold probes_response. change (drop (Z.to_nat 0) ?x) with x.
    rewrite take_app_length' by (by rewrite length_le_enc). rewrite le_val_enc. apply Z.mod_small. lia.
Qed.

(** C24: functional.  [EnumerateSensors] yields the sensors the driver lists,
    each with its state, in their order, as long as the list fits the response
    buffer: up to 39 sensors. *)
Theorem sensors_enumerated {W} `{Wf : !FltLib W} hPort w w' l r beyond :
  Forall probe_ok l -> (length l <= 39)%nat ->
  flt_send hPort (command_buffer 0 5 0) w =
    (Done r, probes_response l, Z.of_nat (length (probes_response l)), w') ->
  EnumerateSensors beyond hPort w = (Ok (map probe_report l, None), w').
Proof. apply probes_enumerated. Qed.

(** * Receiving events *)

Section Receiving.

Context {W : Type} {Wf : FltLib W} (beyond : memory).

Definition after_sleeps (k : nat) (w : W) : W := Nat.iter k flt_sleep w.

(** The driver's message: the header the filter manager puts before it, then
    the packet. *)
Definition message_image (ReplyLength MessageId : Z) (packet : bytes) : bytes :=
  le_enc 4 ReplyLength ++ zeros 4 ++ le_enc 8 MessageId ++ packet.

(** The call on [w] is pending, nothing is in its buffer before [k] sleeps, and
    then it is the message. *)
Definition arrives (hPort msg_len : Z) (w : W) (k : nat) (msg : bytes) : Prop :=
  exists e w0, flt_get hPort msg_len w = (WinError e, w0) /\ lasterror e = ERROR_IO_PENDING /\
    (forall j, (j < k)%nat -> flt_buffer (after_sleeps j w0) = []) /\
    flt_buffer (after_sleeps k w0) = msg.

(** The state in which the message is found. *)
Definition arrival (hPort msg_len : Z) (w : W) (k : nat) : W :=
  after_sleeps k (flt_get hPort msg_len w).2.

Lemma written_exact n out : Z.of_nat (length out) = n -> written n out = out.
Proof.
  intros <-. unfold written. rewrite Nat2Z.id. apply take_app_length.
Qed.

Lemma pending_loads n w :
  pending beyond n w =
  (le_val (load (mem_of (written n (flt_buffer w)) beyond) 0 4) =? 0).
Proof. reflexivity. Qed.

Lemma pending_empty n w : 4 <= n -> flt_buffer w = [] -> pending beyond n w = true.
Proof.
  intros Hn E. rewrite pending_loads, E. unfold written. cbn [app].
  rewrite take_ge by (rewrite length_zeros; lia). by rewrite peek_zeros by lia.
Qed.

Lemma message_image_loads R id packet :
  0 <= R < 2 ^ 32 -> 0 <= id < 2 ^ 64 ->
  let m := mem_of (message_image R id packet) beyond in
  le_val (load m 0 4) = R /\ le_val (load m 8 8) = id.
Proof.
  intros HR Hid. assert (length (message_image R id packet) = (16 + length packet)%nat) as Hl
    by (unfold message_image; rewrite !length_app, !length_le_enc, length_zeros; lia).
  split; rewrite load_mem_of by lia; unfold message_image.
  - change (drop (Z.to_nat 0) ?x) with x. rewrite take_app_length' by (by rewrite length_le_enc).
    by apply le_val_4.
  - rewrite app_assoc, (drop_app_length' (le_enc 4 R ++ zeros 4)) by done.
    rewrite take_app_length' by (by rewrite length_le_enc). by apply le_val_8.
Qed.

Lemma poll_arrives n k msg : forall fuel w,
  4 <= n -> (k <= fuel)%nat -> (forall j, (j < k)%nat -> flt_buffer (after_sleeps j w) = []) ->
  flt_buffer (after_sleeps k w) = msg -> pending beyond n (after_sleeps k w) = false ->
  poll beyond fuel n w = Some (after_sleeps k w).
Proof.
  induction k as [|k IH]; intros fuel w Hn Hf Hb Hm Hp.
  - change (after_sleeps 0 w) with w in *. destruct fuel; cbn [poll]; by rewrite Hp.
  - destruct fuel as [|fuel]; [lia|]. cbn [poll].
    assert (forall j, after_sleeps j (flt_sleep w) = after_sleeps (S j) w) as Hs.
    { intros j. unfold after_sleeps. by rewrite <-Nat.iter_succ_r. }
    rewrite (pending_empty n w) by (done || apply (Hb 0%nat); lia).
    rewrite (IH fuel (flt_sleep w)); rewrite ?Hs; try done; [lia|].
    intros j Hj. rewrite Hs. apply Hb. lia.
Qed.

(** [FilterGetMessage] returns the message once it has arrived, for every
    [fuel] that lasts until then. *)
Lemma FilterGetMessage_arrives fuel hPort msg_len w k R id packet :
  arrives hPort msg_len w k (message_image R id packet) ->
  0 < R < 2 ^ 32 -> 0 <= id < 2 ^ 64 -> (k <= fuel)%nat ->
  Z.of_nat (length (message_image R id packet)) = msg_len ->
  FilterGetMessage beyond fuel hPort msg_len w =
  Some (Ok (0, FilterMessage R id packet), arrival hPort msg_len w k).
Proof.
  intros (e & w0 & Hg & He & Hb & Hm) HR Hid Hk Hlen.
  destruct (message_image_loads R id packet ltac:(lia) Hid) as [HlR Hlid].
  assert (16 <= msg_len) as H16.
  { rewrite <-Hlen. unfold message_image. rewrite !length_app, !length_le_enc, length_zeros. lia. }
  unfold arrival, FilterGetMessage. rewrite Hg, He, Z.eqb_refl. cbn [snd].
  rewrite (proj2 (Z.leb_gt _ _)) by lia.
  rewrite (poll_arrives msg_len k (message_image R id packet)); [|lia|done|done|done|].
  2:{ rewrite pending_loads, Hm, (written_exact _ _ Hlen), HlR. lia. }
  cbn [mbind option_bind]. unfold message_at. rewrite Hm, (written_exact _ _ Hlen).
  change (get_attr ?m FILTER_MESSAGE_HEADER ["ReplyLength"]) with (@Ok Z (le_val (load m 0 4))).
  change (get_attr ?m FILTER_MESSAGE_HEADER ["MessageId"]) with (@Ok Z (le_val (load m 8 8))).
  rewrite HlR, Hlid. cbn [res_bind res_map]. unfold message_image.
  rewrite !app_assoc. change (Z.to_nat (csize FILTER_MESSAGE_HEADER)) with 16%nat.
  by rewrite (drop_app_length' ((le_enc 4 R ++ zeros 4) ++ le_enc 8 id)) by done.
Qed.

End Receiving.

(** ** The answer *)

Lemma u_byte s : forallb (fun c => c <? 256) (u s) = true.
Proof.
  unfold u. apply forallb_forall. intros c Hc. apply in_map_iff in Hc as (a & <- & _).
  pose proof (N_ascii_bounded a). lia.
Qed.

Lemma response_text_bytes id : forallb (fun c => c <? 256) (response_text id) = true.
Proof. unfold response_text. rewrite forallb_app, u_byte. done. Qed.

Lemma response_text_ne id : (0 < length (response_text id))%nat.
Proof. unfold response_text. rewrite length_app. cbn. lia. Qed.

Lemma sized_buffer_ok p n :
  Z.of_nat (length p) <= n ->
  create_string_buffer_sized p n = Ok (p ++ zeros (Z.to_nat n - length p)).
Proof. intros Hn. unfold create_string_buffer_sized. by rewrite (proj2 (Z.ltb_ge _ _)). Qed.

Lemma reply_buffer_poke status id msg n :
  Z.of_nat (length msg) <= n ->
  reply_buffer status id msg n =
  Ok (poke (poke (msg ++ zeros (Z.to_nat n - length msg)) 0 (le_enc 4 status)) 8 (le_enc 8 id)).
Proof. intros Hn. unfold reply_buffer. by rewrite sized_buffer_ok. Qed.

(** The reply that [apacket_decode] sends. *)
Definition reply_of (id R : Z) : bytes :=
  match reply_buffer 0 id (map byte_of (response_text id)) R with Ok b => b | Raise _ => [] end.

(** Functional.  A reply is as long as the driver asked for and starts with
    the status and the message's number, as the filter manager needs them; but
    they are written over the text: of "Response to Message Id" only bytes 4 to
    7 and what follows the first 16 are left. *)
Theorem reply_header_over_text status id msg n buf beyond :
  reply_buffer status id msg n = Ok buf -> 16 <= n ->
  0 <= status < 2 ^ 32 -> 0 <= id < 2 ^ 64 ->
  Z.of_nat (length buf) = n /\
  get_attr (mem_of buf beyond) FILTER_REPLY_HEADER ["Status"] = Ok status /\
  get_attr (mem_of buf beyond) FILTER_REPLY_HEADER ["MessageId"] = Ok id /\
  let text := msg ++ zeros (Z.to_nat n - length msg) in
  take 4 (drop 4 buf) = take 4 (drop 4 text) /\ drop 16 buf = drop 16 text.
Proof.
  intros Hb Hn Hst Hid.
  destruct (Z.ltb_spec n (Z.of_nat (length msg))) as [Hlt|Hle].
  { unfold reply_buffer, create_string_buffer_sized in Hb. by rewrite (proj2 (Z.ltb_lt _ _)) in Hb. }
  rewrite reply_buffer_poke in Hb by done. injection Hb as <-.
  set (text := msg ++ zeros (Z.to_nat n - length msg)).
  assert (length text = Z.to_nat n) as Hlen
    by (unfold text; rewrite length_app, length_zeros; lia).
  change (get_attr ?m FILTER_REPLY_HEADER ["Status"]) with (@Ok Z (le_val (load m 0 4))).
  change (get_attr ?m FILTER_REPLY_HEADER ["MessageId"]) with (@Ok Z (le_val (load m 8 8))).
  assert (forall o k, 0 <= o -> o + Z.of_nat k <= n -> (o = 4 /\ k = 4%nat) \/ 16 <= o ->
    take k (drop (Z.to_nat o) (poke (poke text 0 (le_enc 4 status)) 8 (le_enc 8 id))) =
    take k (drop (Z.to_nat o) text)) as Hkeep.
  { intros o k H0 Hk Hd. rewrite <-!(load_mem_of _ beyond) by (rewrite ?length_poke; lia).
    rewrite !peek_poke_other by (rewrite ?length_poke, ?length_le_enc; lia). done. }
  cbv zeta. split_and!.
  - rewrite !length_poke. lia.
  - rewrite peek_poke_other by (rewrite ?length_poke, ?length_le_enc; lia).
    rewrite peek_poke_same by (rewrite ?length_le_enc; lia || done). by rewrite le_val_4.
  - rewrite peek_poke_same by (rewrite ?length_poke, ?length_le_enc; lia || done). by rewrite le_val_8.
  - apply (Hkeep 4 4%nat); lia.
  - specialize (Hkeep 16 (Z.to_nat n - 16)%nat ltac:(lia) ltac:(lia) ltac:(lia)).
    change (Z.to_nat 16) with 16%nat in Hkeep.
    rewrite !take_ge in Hkeep by (rewrite length_drop, ?length_poke; lia). done.
Qed.

Section Stream.

Context {W : Type} {Wf : FltLib W} (beyond : memory).

(** After the reply was sent. *)
Definition answered (hPort id R : Z) (w : W) : W := (flt_reply hPort (reply_of id R) w).2.

Lemma FilterReplyMessage_sent hPort id R w :
  Z.of_nat (length (response_text id)) <= R -> 16 < R ->
  exists r, FilterReplyMessage hPort 0 id (response_text id) R w = (Ok r, answered hPort id R w).
Proof.
  intros Hl HR. pose proof (response_text_ne id). unfold FilterReplyMessage.
  change (csize FILTER_REPLY_HEADER) with 16.
  rewrite (proj2 (Z.leb_gt (Z.of_nat _) 0)), (proj2 (Z.ltb_ge R _)), (proj2 (Z.leb_gt R 16)) by lia.
  cbn [orb]. rewrite response_text_bytes. cbn [negb].
  unfold answered, reply_of. rewrite reply_buffer_poke by (by rewrite length_map).
  unfold bind, lift. destruct (flt_reply hPort _ w) as [[r|e] w']; by eexists.
Qed.

(** A turn of the generator on a message that arrives. *)
Lemma apacket_turn_arrives fuel hPort w k R id packet :
  arrives hPort MAXPKTSZ w k (message_image R id packet) -> (k <= fuel)%nat ->
  Z.of_nat (length packet) = 65520 -> 0 <= id < 2 ^ 64 -> R < 2 ^ 32 ->
  Z.of_nat (length (response_text id)) <= R -> 16 < R ->
  apacket_turn beyond fuel hPort w =
  Some (packet_decode_header beyond packet, answered hPort id R (arrival hPort MAXPKTSZ w k)).
Proof.
  intros Ha Hk Hp Hid HR Hl H16. unfold apacket_turn.
  erewrite FilterGetMessage_arrives; [|exact Ha|lia|done|done|].
  2:{ unfold message_image, MAXPKTSZ. rewrite !length_app, !length_le_enc, length_zeros. lia. }
  cbn [fm_MessageId fm_ReplyLength fm_Remainder].
  destruct (FilterReplyMessage_sent hPort id R (arrival hPort MAXPKTSZ w k) Hl H16) as [r Hr].
  rewrite (bind_step _ _ _ _ _ Hr). done.
Qed.

End Stream.


(** Error.  An event of a kind that the driver's header declares and
    [SensorType] does not (numbers 13 to 16: [RegQueryMultipleValueKey],
    [RegPreReplaceKey], [RegPostReplaceKey], [RegPreLoadKey]) ends the stream of
    events with a [ValueError], after the driver was told that the message was
    taken.  The branch for unknown kinds, which would skip it, is not
    reached. *)
Theorem unlisted_kind_ends_stream {W} `{Wf : !FltLib W} beyond n fuel hPort w k R id packet v :
  arrives hPort MAXPKTSZ w k (message_image R id packet) -> (k <= fuel)%nat ->
  Z.of_nat (length packet) = 65520 -> 0 <= id < 2 ^ 64 -> R < 2 ^ 32 ->
  Z.of_nat (length (response_text id)) <= R -> 16 < R ->
  13 <= v <= 16 -> take 2 (drop 16 packet) = le_enc 2 v ->
  apacket_loop beyond (S n) fuel hPort w =
  ([], Some ValueError, answered hPort id R (arrival hPort MAXPKTSZ w k)).
Proof.
  intros Ha Hk Hlen Hid HR Hl H16 Hv Hp. cbn [apacket_loop].
  rewrite (apacket_turn_arrives beyond fuel hPort w k R id _ Ha Hk Hlen Hid HR Hl H16).
  rewrite unknown_kind_raises; [done| |].
  - rewrite Hlen. by vm_compute.
  - unfold packet_kind. rewrite Hp, le_val_enc.
    assert (v = 13 \/ v = 14 \/ v = 15 \/ v = 16) as [->|[->|[->| ->]]] by lia; done.
Qed.

(** * A driver to try it on *)

(** It sends one message after a number of looks, answers every command with
    [sim_rsp] and keeps what it was sent. *)
Record sim := Sim { sim_wait : nat; sim_msg : bytes; sim_rsp : bytes; sim_log : list bytes }.

Definition no_more : found := Found (WinError (-2147024637)) [] 0 0.

#[export] Instance sim_lib : FltLib sim := {
  flt_connect _ w := (Done 7, w);
  flt_get _ _ w := (WinError (-2147023899), w);
  flt_buffer w := match sim_wait w with O => sim_msg w | S _ => [] end;
  flt_sleep w := Sim (pred (sim_wait w)) (sim_msg w) (sim_rsp w) (sim_log w);
  flt_reply _ b w := (Done 0, Sim (sim_wait w) (sim_msg w) (sim_rsp w) (sim_log w ++ [b]));
  flt_send _ b w := ((Done 0, sim_rsp w, Z.of_nat (length (sim_rsp w))),
                     Sim (sim_wait w) (sim_msg w) (sim_rsp w) (sim_log w ++ [b]));
  flt_find_first _ _ w := (no_more, w);
  flt_find_next _ _ _ w := (no_more, w);
  flt_instance_first _ _ _ w := (no_more, w);
  flt_instance_next _ _ _ w := (no_more, w);
  flt_close _ w := w }.

Lemma sim_arrives k msg rsp log : msg <> [] ->
  arrives 7 MAXPKTSZ (Sim k msg rsp log) k msg.
Proof.
  intros Hm. eexists _, (Sim k msg rsp log). split; [reflexivity|]. split; [done|].
  assert (forall j, (j <= k)%nat -> after_sleeps j (Sim k msg rsp log) = Sim (k - j) msg rsp log) as Hs.
  { induction j as [|j IH]; intros Hj; [cbn; by rewrite Nat.sub_0_r|].
    unfold after_sleeps in *. rewrite Nat.iter_succ, IH by lia. cbn. f_equal. lia. }
  split.
  - intros j Hj. rewrite Hs by lia. cbn. by replace (k - j)%nat with (S (k - j - 1)) by lia.
  - rewrite Hs, Nat.sub_diag by lia. done.
Qed.

Definition sample_more : bytes := zeros (Z.to_nat 65520 - length (driver_packet sample_origin sample_create [])).
Definition sample_packet : bytes := driver_packet sample_origin sample_create sample_more.

Lemma sample_ok : origin_ok sample_origin /\ event_ok sample_create.
Proof.
  split; [split; [done|unfold in_range; cbn; lia]|].
  unfold event_ok, sample_create, i8, u8, u4, in_range. split; [by vm_compute|].
  split_and!; try lia. split; [|cbn; lia]. unfold scalar. cbn. repeat constructor; lia.
Qed.

Lemma sample_length : Z.of_nat (length sample_packet) = 65520.
Proof.
  assert (forall m, length (driver_packet sample_origin sample_create m) =
    (length (driver_packet sample_origin sample_create []) + length m)%nat) as Hl.
  { intros m. unfold driver_packet, image_packet. rewrite !length_app. cbn [length]. lia. }
  unfold sample_packet. rewrite Hl. unfold sample_more. rewrite length_zeros.
  assert (length (driver_packet sample_origin sample_create []) = 128%nat) as -> by (by vm_compute).
  lia.
Qed.


Lemma unlisted_kind_ends_stream_witness :
  let w := Sim 0 (message_image 64 9 (zeros 16 ++ le_enc 2 13 ++ zeros (Z.to_nat 65502))) [] [] in
  apacket_loop (fun _ => byte_of 0) 1 0 7 w =
  ([], Some ValueError, answered 7 9 64 (arrival 7 MAXPKTSZ w 0)).
Proof.
  apply (unlisted_kind_ends_stream (fun _ => byte_of 0) 0 0 7 _ 0 64 9
    (zeros 16 ++ le_enc 2 13 ++ zeros (Z.to_nat 65502)) 13).
  - by apply sim_arrives.
  - lia.
  - rewrite !length_app, length_le_enc, !length_zeros. lia.
  - lia.
  - lia.
  - by vm_compute.
  - lia.
  - lia.
  - reflexivity.
Defined.

Lemma requests_received_witness :
  exists buf, issue 7 (RKill 1234) = FilterSendMessage 7 buf /\
    driver_reads (fun _ => byte_of 0) buf =
    Ok (DriverCommand 7 (zeros 16) 4 (map byte_of [49; 50; 51; 52])).
Proof.
  exact (requests_received (Wf := sim_lib) 7 (RKill 1234) (fun _ => byte_of 0) ltac:(by vm_compute)).
Defined.

Lemma ConfigureSensor_data_witness :
  exists buf cmd, ConfigureSensor 7 [233] (Some (zeros 16)) = FilterSendMessage 7 buf /\
    driver_reads (fun _ => byte_of 0) buf = Ok cmd /\ dc_DataSz cmd = 1 /\
    dc_Data cmd `prefix_of` utf8_encode [233] /\
    (dc_Data cmd = utf8_encode [233] <-> ascii_text [233]).
Proof.
  apply (ConfigureSensor_data (Wf := sim_lib) 7 [233] (zeros 16) (fun _ => byte_of 0)).
  split_and!; [done|done|repeat constructor; unfold scalar; lia|by vm_compute].
Defined.

Definition sample_probe : probe_status :=
  ProbeStatus (zeros 16) 131771 (-300000000) 12 10 false (u "ImageLoad").

Lemma sensors_enumerated_witness :
  let w := Sim 0 [] (probes_response [sample_probe]) [] in
  EnumerateSensors (fun _ => byte_of 255) 7 w =
  (Ok ([GetSensorStatus (zeros 16) 131771 (-300000000) 12 "EnabledAtStart|RealTime" "False"
          (u "ImageLoad")], None), Sim 0 [] (sim_rsp w) [command_buffer 0 5 0]).
Proof.
  apply (sensors_enumerated 7 _ _ [sample_probe] 0).
  - constructor; [|constructor]. split_and!; try done; try (unfold in_range; cbn; lia).
    + by apply (bool_decide_unpack _).
    + cbn. repeat constructor; lia.
  - cbn. lia.
  - reflexivity.
Defined.

Lemma reply_header_over_text_witness :
  exists buf, reply_buffer 0 9 (map byte_of (response_text 9)) 64 = Ok buf /\
    Z.of_nat (length buf) = 64 /\
    get_attr (mem_of buf (fun _ => byte_of 0)) FILTER_REPLY_HEADER ["Status"] = Ok 0 /\
    get_attr (mem_of buf (fun _ => byte_of 0)) FILTER_REPLY_HEADER ["MessageId"] = Ok 9 /\
    let text := map byte_of (response_text 9) ++ zeros (Z.to_nat 64 - length (map byte_of (response_text 9))) in
    take 4 (drop 4 buf) = take 4 (drop 4 text) /\ drop 16 buf = drop 16 text.
Proof.
  eexists. split; [by apply reply_buffer_poke|].
  apply (reply_header_over_text 0 9 (map byte_of (response_text 9)) 64); [|lia|lia|lia].
  by apply reply_buffer_poke.
Defined.

(** Without a [sensor_id] nothing is sent to "All Probes": the default, the
    number 0, has no [bytes]. *)
Lemma EnableProbe_default {W} `{Wf : !FltLib W} hPort w :
  EnableProbe hPort None w = (Raise AttributeError, w) /\
  DisableProbe hPort None w = (Raise AttributeError, w).
Proof. done. Qed.

(** A driver that refuses the listing (it does when its sensors do not fit)
    returns an empty response, and the number of sensors is then read from the
    memory behind it. *)
Lemma refused_listing_reads_on :
  let w := Sim 0 [] [] [] in
  (EnumerateSensors (fun _ => byte_of 0) 7 w).1 = Ok ([], None) /\
  (EnumerateSensors (fun _ => byte_of 1) 7 w).1 = Ok ([], Some ValueError).
Proof.
  intros w. split; unfold EnumerateSensors.
  - by vm_compute.
  - assert (forall n, (0 < n)%nat ->
      sensors_from (fun _ => byte_of 1) (create_string_buffer []) 0 n = ([], Some ValueError)) as Hs.
    { intros [|n] Hn; [lia|]. done. }
    erewrite bind_step by reflexivity. cbn [snd].
    rewrite bind_lift with (a := 16843009) by done.
    change (create_string_buffer (drop _ [])) with (create_string_buffer []).
    unfold ret. cbn [fst]. rewrite Hs by lia. done.
Qed.
