(* ===== verification/WinVirtue.v ===== *)
(** The Windows sensor, [sensor_winvirtue.py] of
    [src/targets/win-target/sensor_service/WinVirtUE/]: it lists the driver's
    sensors, gives each a wrapper and a queue, pumps the driver's events into
    the queues and sends them on as messages, unless the Sensing API asked for
    less than the sensor's priority.

    The wrappers run in threads of their own; here they are the [start] calls
    that are made and the consumer that each of them runs. *)

From S2P Require Import Prelude Json Ctypes NtStructs NtEvents NtFltMgr.

(** * Priorities *)

Definition PRIORITY_LEVELS : list (string * Z) :=
  [("off", 0); ("low", 1); ("default", 2); ("high", 3); ("adversarial", 4)].

Definition DEFAULT_SENSOR_LEVELS : list (string * string) :=
  [("imageload", "default"); ("processcreate", "default"); ("processlistvalidation", "low");
   ("registrymodification", "adversarial"); ("threadcreate", "default")].

(** [PRIORITY_LEVELS[level]] *)
Definition level_priority (level : ustr) : res Z :=
  opt_res KeyError (dict_get level (map (fun l => (u l.1, l.2)) PRIORITY_LEVELS)).

(** [config2prio(conf)]; the configuration is a document of the Sensing API,
    a level that is not a text is no key of the levels (a list or an object is
    not even hashable). *)
Definition api_level (conf : list (ustr * json)) : json :=
  match dict_get (u "sensor-config-level") conf with Some j => j | None => JStr (u "default") end.

Definition config2prio (conf : list (ustr * json)) : res Z :=
  match api_level conf with
  | JStr level => level_priority level
  | JList _ | JObj _ => Raise TypeError
  | _ => Raise KeyError
  end.

(** * State *)

(** A wrapper: the name it was made with and its [stop_retrying]. *)
Record sensor_wrapper := Wrapper_ { wr_name : ustr; wr_stop_retrying : bool }.

(** The parameters of a configuration file. *)
Definition params : Type := list (string * ustr).

Record winvirtue (W : Type) := WinVirtue {
  wv_world : W;
  wv_running : bool;
  wv_event : bool;
  wv_sensordict : list (ustr * sensor_status);
  wv_wrapperdict : list (string * sensor_wrapper);
  wv_sensorqueues : list (string * list ntuple);
  wv_started : list (string * list (string * json));
  local_sensor_prios : list (string * Z) }.
Arguments WinVirtue {W}.
Arguments wv_world {W}.
Arguments wv_running {W}.
Arguments wv_event {W}.
Arguments wv_sensordict {W}.
Arguments wv_wrapperdict {W}.
Arguments wv_sensorqueues {W}.
Arguments wv_started {W}.
Arguments local_sensor_prios {W}.

Section Sensor.

Context {W : Type} {Wf : FltLib W} (beyond : memory).

Notation state := (winvirtue W).

Definition set_world (s : state) (w : W) : state := WinVirtue w (wv_running s) (wv_event s) (wv_sensordict s)
  (wv_wrapperdict s) (wv_sensorqueues s) (wv_started s) (local_sensor_prios s).
Definition set_running (s : state) (b : bool) : state := WinVirtue (wv_world s) b (wv_event s) (wv_sensordict s)
  (wv_wrapperdict s) (wv_sensorqueues s) (wv_started s) (local_sensor_prios s).
Definition set_event (s : state) (b : bool) : state := WinVirtue (wv_world s) (wv_running s) b (wv_sensordict s)
  (wv_wrapperdict s) (wv_sensorqueues s) (wv_started s) (local_sensor_prios s).
Definition set_sensordict (s : state) (d : list (ustr * sensor_status)) : state := WinVirtue (wv_world s) (wv_running s) (wv_event s) d
  (wv_wrapperdict s) (wv_sensorqueues s) (wv_started s) (local_sensor_prios s).
Definition set_wrapperdict (s : state) (d : list (string * sensor_wrapper)) : state := WinVirtue (wv_world s) (wv_running s) (wv_event s)
  (wv_sensordict s) d (wv_sensorqueues s) (wv_started s) (local_sensor_prios s).
Definition set_sensorqueues (s : state) (d : list (string * list ntuple)) : state := WinVirtue (wv_world s) (wv_running s) (wv_event s)
  (wv_sensordict s) (wv_wrapperdict s) d (wv_started s) (local_sensor_prios s).
Definition set_started (s : state) (d : list (string * list (string * json))) : state := WinVirtue (wv_world s) (wv_running s) (wv_event s)
  (wv_sensordict s) (wv_wrapperdict s) (wv_sensorqueues s) d (local_sensor_prios s).
Definition set_prios (s : state) (d : list (string * Z)) : state := WinVirtue (wv_world s) (wv_running s) (wv_event s)
  (wv_sensordict s) (wv_wrapperdict s) (wv_sensorqueues s) (wv_started s) d.

(** A computation on the driver's state. *)
Definition on_world {A} (m : M W A) : M state A := fun s =>
  let '(r, w) := m (wv_world s) in (r, set_world s w).

(** * Setting up *)

(** [not sensor.Enabled]: the attribute is the text of a boolean, and a text
    is false when it is empty. *)
Definition not_enabled (sensor : sensor_status) : bool := bool_decide (st_Enabled sensor = "").

Definition add_sensor (d : list (ustr * sensor_status)) (sensor : sensor_status) :=
  if not_enabled sensor then d else dict_set (st_SensorName sensor) sensor d.

(** [_update_sensor_info()]; the port is closed whatever happened.  Sensors
    that were yielded before an exception stay. *)
Definition update_sensor_info : M state unit := fun s =>
  match FilterConnectCommunicationPort CommandPort (wv_world s) with
  | (Raise e, w) => (Raise e, set_world s w)
  | (Ok hFltComms, w) =>
      let s := set_world s w in
      let '(r, s) := match on_world (EnumerateSensors beyond hFltComms) s with
                     | (Raise e, s) => (Raise e, s)
                     | (Ok (sensors, ended), s) =>
                         (match ended with None => Ok tt | Some e => Raise e end,
                          set_sensordict s (fold_left add_sensor sensors (wv_sensordict s)))
                     end in
      (r, set_world s (flt_close hFltComms (wv_world s)))
  end.

(** [__init__(cfgparser)]: what it leaves in the object, or the exception. *)
Definition new_sensor (w : W) : res unit * state :=
  update_sensor_info (WinVirtue w false false [] [] [] [] []).

(** [s.lower()] of an ASCII name *)
Definition ascii_lower (s : ustr) : ustr :=
  map (fun c => if (65 <=? c) && (c <=? 90) then c + 32 else c) s.

Definition sensor_key (sensor : sensor_status) : string := uuid_text (st_sensor_id sensor).

Definition build_wrapper (s : state) (e : ustr * sensor_status) : state :=
  let sensor_id := sensor_key e.2 in
  set_sensorqueues
    (set_wrapperdict s (dict_set sensor_id (Wrapper_ (ascii_lower e.1) false) (wv_wrapperdict s)))
    (dict_set sensor_id [] (wv_sensorqueues s)).

(** [_build_sensor_wrappers()] *)
Definition build_sensor_wrappers : M state unit := modify (fun s =>
  fold_left build_wrapper (wv_sensordict s) s).

(** [_load_config_data(wrappername)]: the [parameters] section of the wrapper's
    file with the defaults, [None] when there is none. *)
Definition load_config_data (file : option params) (wrappername : ustr) : res params :=
  match file with
  | None => Raise OSError
  | Some params =>
      let? params :=
        if dict_has "prio" params then Ok params
        else
          let? level := opt_res KeyError
                          (dict_get wrappername (map (fun l => (u l.1, l.2)) DEFAULT_SENSOR_LEVELS)) in
          Ok (dict_set "prio" (u level) params) in
      match dict_get "prio" params with
      | Some level => if is_ok (level_priority level) then Ok params else Raise AssertionError
      | None => Raise KeyError
      end
  end.

(** The parameters that are injected. *)
Definition start_params (sensor_id : string) (paramdict : params) : list (string * json) :=
  dict_set "check_for_long_blocking" (JBool true)
    (dict_set "sensor_hostname" JNull
       (dict_set "virtue_id" JNull
          (dict_set "sensor_id" (JStr (u sensor_id))
             (map (fun p => (p.1, JStr p.2)) paramdict)))).

(** One turn of [_start_sensors]: [files] is what is on the disk, by the
    wrapper's name; reading a file that is not there raises [OSError]. *)
Definition start_sensor (files : ustr -> option params) (e : string * sensor_wrapper) : M state unit :=
  do paramdict <- lift (load_config_data (files (wr_name e.2)) (wr_name e.2));
  do prio <- lift (opt_res KeyError (dict_get "prio" paramdict));
  do prio <- lift (level_priority prio);
  modify (fun s => set_started (set_prios s (dict_set e.1 prio (local_sensor_prios s)))
                     (wv_started s ++ [(e.1, start_params e.1 paramdict)])).

Definition start_sensors (files : ustr -> option params) : M state unit :=
  do ws <- gets wv_wrapperdict;
  for_each (start_sensor files) ws.

(** [start()]; starting the data stream's thread is left to the pump. *)
Definition start (files : ustr -> option params) : M state unit :=
  do_ build_sensor_wrappers;
  do_ modify (fun s => set_running s true);
  start_sensors files.

(** [stop()] *)
Definition stop : M state unit := modify (fun s =>
  set_event
    (set_running
       (set_wrapperdict s (map (fun e => (e.1, Wrapper_ (wr_name e.2) true)) (wv_wrapperdict s)))
       false) true).

(** * Events *)

Definition put_queue (id : string) (evt : ntuple) (s : state) : state :=
  match dict_get id (wv_sensorqueues s) with
  | Some q => set_sensorqueues s (dict_set id (q ++ [evt]) (wv_sensorqueues s))
  | None => s
  end.

(** What [evt["sensor_id"]] is looked up as; the decoder only makes texts, and
    [u] is injective. *)
Definition text_is (j : json) (s : string) : bool :=
  match j with JStr t => bool_decide (t = u s) | _ => false end.

Definition queue_of (j : json) (qs : list (string * list ntuple)) : option string :=
  find (text_is j) (dict_keys qs).

(** One turn of the loop of [_event_stream_pump]: whether it goes on. *)
Definition pump_event (evt : ntuple) (s : state) : bool * state :=
  if negb (wv_running s) then (false, s)
  else
    match dict_get "sensor_id" evt with
    | None => (true, s)
    | Some j =>
        match queue_of j (wv_sensorqueues s) with
        | None => (true, s)
        | Some id => (true, put_queue id evt s)
        end
    end.

(** [_event_stream_pump()] on the events of [apacket_decode()] *)
Fixpoint event_stream_pump (evts : list ntuple) (s : state) : state :=
  match evts with
  | [] => s
  | evt :: evts =>
      let '(go, s) := pump_event evt s in
      if go then event_stream_pump evts s else s
  end.

(** [event_logmsg] with the stub *)
Definition event_logmsg (now : ustr) (msg : ntuple) (message_stub : list (ustr * json)) :=
  dict_update [(u "timestamp", JStr now); (u "level", JStr (u "info"));
               (u "message", JObj (map (fun f => (u f.1, f.2)) msg))] message_stub.

(** The loop of [evtdata_consumer] on the messages of the queue, each with the
    time it is taken at and whether the sensor still runs then: the messages
    put on the output queue. *)
Fixpoint consume (skip : bool) (message_stub : list (ustr * json))
    (queue : list (bool * ustr * ntuple)) : list ustr :=
  match queue with
  | [] => []
  | (running, now, msg) :: queue =>
      if negb running then []
      else if skip then consume skip message_stub queue
      else dumps (JObj (event_logmsg now msg message_stub)) :: consume skip message_stub queue
  end.

(** [evtdata_consumer(message_stub, config, message_queue)] *)
Definition evtdata_consumer (prios : list (string * Z)) (queues : list string)
    (message_stub config : list (ustr * json)) (queue : list (bool * ustr * ntuple))
    : res (list ustr) :=
  let? sensor_id := opt_res KeyError (dict_get (u "sensor_id") message_stub) in
  let? _ := opt_res KeyError (dict_get (u "sensor_name") message_stub) in
  let? api_config_prio := config2prio config in
  let? _ := opt_res KeyError (find (text_is sensor_id) queues) in
  let? id := opt_res KeyError (find (text_is sensor_id) (dict_keys prios)) in
  let? local := opt_res KeyError (dict_get id prios) in
  let skip := api_config_prio <? local in
  Ok (consume skip message_stub queue).

End Sensor.

(** * Theorems *)

Lemma report_not_disabled p : not_enabled (probe_report p) = false.
Proof. unfold not_enabled. by destruct p as [? ? ? ? ? [] ?]. Qed.

Section Sensor_theorems.

Context {W : Type} {Wf : FltLib W} (beyond : memory).

Notation state := (winvirtue W).

Lemma add_sensor_probe d p :
  add_sensor d (probe_report p) = dict_set (ps_name p) (probe_report p) d.
Proof. unfold add_sensor. by rewrite report_not_disabled. Qed.

Lemma fold_add_sensor l : forall d,
  fold_left add_sensor (map probe_report l) d =
  fold_left (fun d p => dict_set (ps_name p) (probe_report p) d) l d.
Proof.
  induction l as [|p l IH]; intros d; [done|]. cbn [map fold_left].
  by rewrite add_sensor_probe, IH.
Qed.

(** ** Routing *)

Definition for_sensor (id : string) (evt : ntuple) : bool :=
  match dict_get "sensor_id" evt with Some j => text_is j id | None => false end.

Lemma text_is_unique j a b : text_is j a = true -> text_is j b = true -> a = b.
Proof.
  destruct j; try done. cbn. intros Ha%bool_decide_eq_true Hb%bool_decide_eq_true.
  subst. by apply (inj u).
Qed.

Lemma find_text j l id : find (text_is j) l = Some id -> id ∈ l /\ text_is j id = true.
Proof. intros H%find_some. by rewrite list_elem_of_In. Qed.

Lemma find_text_none j l id : find (text_is j) l = None -> id ∈ l -> text_is j id = false.
Proof. intros H Hin. eapply find_none; [exact H|]. by apply list_elem_of_In. Qed.

Lemma find_text_in j l id : id ∈ l -> text_is j id = true -> find (text_is j) l = Some id.
Proof.
  intros Hin Ht. destruct (find (text_is j) l) as [id'|] eqn:E.
  - apply find_text in E as [_ E]. by rewrite (text_is_unique _ _ _ Ht E).
  - by rewrite (find_text_none _ _ _ E Hin) in Ht.
Qed.

Lemma pump_event_queue evt (s : state) id :
  wv_running s = true ->
  (pump_event evt s).1 = true /\ wv_running (pump_event evt s).2 = true /\
  dict_get id (wv_sensorqueues (pump_event evt s).2) =
  (fun q => q ++ (if for_sensor id evt then [evt] else [])) <$> dict_get id (wv_sensorqueues s).
Proof.
  intros Hr. unfold pump_event, for_sensor. rewrite Hr. cbn [negb].
  assert (dict_get id (wv_sensorqueues s) =
          (fun q : list ntuple => q ++ []) <$> dict_get id (wv_sensorqueues s)) as Hid.
  { destruct (dict_get id _); [|done]. cbn. by rewrite app_nil_r. }
  destruct (dict_get "sensor_id" evt) as [j|]; [|by split_and!].
  unfold queue_of. destruct (find (text_is j) (dict_keys (wv_sensorqueues s))) as [id'|] eqn:E.
  - apply find_text in E as [Hin Ht]. apply dict_keys_get in Hin as [q Hq].
    unfold put_queue. rewrite Hq. cbn. split_and!; [done|done|].
    destruct (decide (id = id')) as [->|Hne].
    + rewrite dict_get_set_eq, Hq, Ht. done.
    + rewrite dict_get_set_ne by congruence.
      destruct (text_is j id) eqn:Hti; [|exact Hid]. by destruct (Hne (text_is_unique _ _ _ Hti Ht)).
  - cbn. split_and!; [done|done|].
    destruct (text_is j id) eqn:Hti; [|exact Hid].
    destruct (dict_get id (wv_sensorqueues s)) as [q|] eqn:Hq; [|done].
    assert (id ∈ dict_keys (wv_sensorqueues s)) as Hin by (apply dict_keys_get; by eexists).
    by rewrite (find_text_none _ _ _ E Hin) in Hti.
Qed.

Lemma pump_queues evts (s : state) id :
  wv_running s = true ->
  dict_get id (wv_sensorqueues (event_stream_pump evts s)) =
  (fun q => q ++ filter (fun e => for_sensor id e) evts) <$> dict_get id (wv_sensorqueues s).
Proof.
  revert s. induction evts as [|evt evts IH]; intros s Hr; cbn [event_stream_pump].
  - destruct (dict_get id _); [|done]. cbn. by rewrite app_nil_r.
  - destruct (pump_event_queue evt s id Hr) as (Hgo & Hr' & Hq).
    destruct (pump_event evt s) as [go s']. cbn [fst snd] in *. subst go.
    rewrite (IH s' Hr'), Hq. destruct (dict_get id (wv_sensorqueues s)) as [q|]; [|done].
    cbn [fmap option_fmap option_map]. rewrite <-app_assoc. do 2 f_equal.
    destruct (for_sensor id evt) eqn:E.
    + by rewrite filter_cons_True by (by rewrite E).
    + by rewrite filter_cons_False by (rewrite E; cbn; tauto).
Qed.

(** Functional.  The pump sorts the events by sensor: while the sensor
    runs, every queue receives exactly the events that carry its identifier,
    once and in the order of the stream; events of other sensors are
    dropped. *)
Theorem pump_routes evts (s : state) id :
  wv_running s = true ->
  dict_get id (wv_sensorqueues (event_stream_pump evts s)) =
  (fun q => q ++ filter (fun e => for_sensor id e) evts) <$> dict_get id (wv_sensorqueues s).
Proof. apply pump_queues. Qed.

End Sensor_theorems.

(** ** Messages *)

Lemma consume_skip stub queue : consume true stub queue = [].
Proof. induction queue as [|[[[] now] msg] queue IH]; cbn; done. Qed.

Lemma consume_running stub queue :
  Forall (fun m => m.1.1 = true) queue ->
  consume false stub queue = map (fun m => dumps (JObj (event_logmsg m.1.2 m.2 stub))) queue.
Proof.
  induction 1 as [|[[running now] msg] queue Hr _ IH]; [done|]. cbn in Hr. subst. cbn. by rewrite IH.
Qed.

(** The fields of an event before the stub's. *)
Definition event_doc (now : ustr) (msg : ntuple) : list (ustr * json) :=
  [(u "timestamp", JStr now); (u "level", JStr (u "info"));
   (u "message", JObj (map (fun f => (u f.1, f.2)) msg))].

Lemma event_logmsg_wf now msg stub :
  Forall scalar now -> jwf (JObj (map (fun f => (u f.1, f.2)) msg)) -> stub_ok stub ->
  jwf (JObj (event_logmsg now msg stub)).
Proof.
  intros Hnow Hm [Hnd Hf]. apply jwf_obj. unfold event_logmsg. split.
  - apply (dict_update_nodup (event_doc now msg)). by apply (bool_decide_unpack _).
  - apply dict_update_Forall; [|done].
    repeat (apply Forall_cons_2; [split; [apply scalar_u|]|]); [exact Hnow|apply scalar_u|exact Hm|].
    constructor.
Qed.

(** Functional.  What a sensor's events become.  With a level of the
    Sensing API below the sensor's own priority nothing is sent; otherwise every
    event of the queue is sent, in order, as a text that decodes to an object
    with the stub's items and, where the stub does not override them, the time,
    the level and the event.  So a sensor whose own level is "off" is never
    silenced. *)
Theorem consumer_messages prios queues stub config queue id name local api :
  stub_ok stub -> dict_get (u "sensor_id") stub = Some (JStr (u id)) ->
  dict_get (u "sensor_name") stub = Some name -> id ∈ queues -> dict_get id prios = Some local ->
  config2prio config = Ok api ->
  Forall (fun m => m.1.1 = true /\ Forall scalar m.1.2 /\
                   jwf (JObj (map (fun f => (u f.1, f.2)) m.2))) queue ->
  (api < local -> evtdata_consumer prios queues stub config queue = Ok []) /\
  (local <= api -> exists out, evtdata_consumer prios queues stub config queue = Ok out /\
     Forall2 (fun m txt => exists d, loads txt = Ok (JObj d) /\
                forall k, dict_get k d = match dict_get k stub with
                                         | Some v => Some v
                                         | None => dict_get k (event_doc m.1.2 m.2)
                                         end) queue out).
Proof.
  intros Hstub Hid Hname Hq Hlocal Hapi Hall.
  assert (evtdata_consumer prios queues stub config queue =
          Ok (consume (api <? local) stub queue)) as ->.
  { unfold evtdata_consumer. rewrite Hid, Hname, Hapi. cbn [opt_res res_bind].
    assert (text_is (JStr (u id)) id = true) as Ht by (cbn; by rewrite bool_decide_eq_true).
    rewrite (find_text_in _ _ _ Hq Ht). cbn [opt_res res_bind].
    rewrite (find_text_in _ (dict_keys prios) id) by (done || apply dict_keys_get; by eexists).
    cbn [opt_res res_bind]. by rewrite Hlocal. }
  split; intros Hle.
  - rewrite (proj2 (Z.ltb_lt _ _)) by done. by rewrite consume_skip.
  - rewrite (proj2 (Z.ltb_ge _ _)) by done. eexists. split; [done|].
    rewrite consume_running by (eapply Forall_impl; [exact Hall|]; by intros m []).
    apply Forall2_fmap_r, Forall_Forall2_diag. eapply Forall_impl; [exact Hall|].
    intros [[running now] msg] (_ & Hnow & Hm). cbn [fst snd] in *.
    eexists. split; [by apply loads_dumps, event_logmsg_wf|].
    intros k. apply dict_update_get, Hstub.
Qed.

Lemma consumer_messages_witness :
  let stub := [(u "sensor_id", JStr (u "ab")); (u "sensor_name", JStr (u "imageload"))] in
  evtdata_consumer [("ab", 3)] ["ab"] stub [(u "sensor-config-level", JStr (u "low"))]
    [(true, u "now", [("sensor_id", JStr (u "ab"))])] = Ok [] /\
  exists out, evtdata_consumer [("ab", 0)] ["ab"] stub [(u "sensor-config-level", JStr (u "off"))]
    [(true, u "now", [("sensor_id", JStr (u "ab"))])] = Ok out /\ length out = 1%nat.
Proof.
  intros stub. assert (stub_ok stub) as Hs.
  { split; [by apply (bool_decide_unpack _)|].
    repeat (apply Forall_cons_2; [split; apply scalar_u|]). constructor. }
  assert (Forall (fun m => m.1.1 = true /\ Forall scalar m.1.2 /\
      jwf (JObj (map (fun f => (u f.1, f.2)) m.2))) [(true, u "now", [("sensor_id", JStr (u "ab"))])])
    as Hq.
  { apply Forall_cons_2; [|constructor]. split_and!; [done|apply scalar_u|].
    apply jwf_obj. split; [by apply (bool_decide_unpack _)|].
    apply Forall_cons_2; [split; apply scalar_u|constructor]. }
  split.
  - apply (consumer_messages [("ab", 3)] ["ab"] stub [(u "sensor-config-level", JStr (u "low"))]
      [(true, u "now", [("sensor_id", JStr (u "ab"))])] "ab" (JStr (u "imageload")) 3 1);
      [done|done|done|by apply (bool_decide_unpack _)|done|done|done|lia].
  - destruct (consumer_messages [("ab", 0)] ["ab"] stub [(u "sensor-config-level", JStr (u "off"))]
      [(true, u "now", [("sensor_id", JStr (u "ab"))])] "ab" (JStr (u "imageload")) 0 0)
      as [_ Hout]; [done|done|done|by apply (bool_decide_unpack _)|done|done|done|].
    destruct (Hout ltac:(lia)) as (out & -> & Hf). exists out. split; [done|].
    by rewrite <-(Forall2_length _ _ _ Hf).
Defined.

(** ** From the driver to the queues *)

Section Composition.

Context {W : Type} {Wf : FltLib W} (beyond : memory).

Notation state := (winvirtue W).

(** What building the wrappers does to an entry. *)
Lemma build_wrapper_fold l : forall s : state,
  wv_running (fold_left build_wrapper l s) = wv_running s /\
  forall id,
    dict_get id (wv_sensorqueues (fold_left build_wrapper l s)) =
      (if decide (id ∈ map (fun e => sensor_key e.2) l) then Some []
       else dict_get id (wv_sensorqueues s)) /\
    (id ∈ map (fun e => sensor_key e.2) l ->
     exists e, e ∈ l /\ sensor_key e.2 = id /\
       dict_get id (wv_wrapperdict (fold_left build_wrapper l s)) =
         Some (Wrapper_ (ascii_lower e.1) false)) /\
    (id ∉ map (fun e => sensor_key e.2) l ->
     dict_get id (wv_wrapperdict (fold_left build_wrapper l s)) = dict_get id (wv_wrapperdict s)).
Proof.
  induction l as [|e l IH]; intros s.
  { split; [done|]. intros id. split_and!; [done|by intros ?%not_elem_of_nil|done]. }
  cbn [fold_left map]. destruct (IH (build_wrapper s e)) as [Hr Hd].
  split; [by rewrite Hr|]. intros id. destruct (Hd id) as (Hq & Hin & Hout).
  destruct (decide (id ∈ map (fun e => sensor_key e.2) l)) as [Hl|Hl].
  - rewrite decide_True by (by right). split_and!; [done| |].
    + intros _. destruct (Hin Hl) as (e' & He' & Hk & Hw). exists e'. split_and!; [by right|done|done].
    + intros Hn. destruct Hn. by right.
  - specialize (Hout Hl). rewrite Hq, Hout. unfold build_wrapper.
    cbn [set_sensorqueues set_wrapperdict wv_sensorqueues wv_wrapperdict].
    destruct (decide (id = sensor_key e.2)) as [->|Hne].
    + rewrite !dict_get_set_eq, decide_True by (by left).
      split_and!; [done| |intros Hn; destruct Hn; by left].
      intros _. exists e. split_and!; [by left|done|done].
    + rewrite !dict_get_set_ne by congruence.
      rewrite decide_False by (intros [?|?]%elem_of_cons; done).
      split_and!; [done|intros [?|?]%elem_of_cons; done|done].
Qed.

(** [_update_sensor_info] with a driver that lists [l]. *)
Definition lists_probes (w : W) (l : list probe_status) (w1 w2 : W) : Prop :=
  exists h r, flt_connect CommandPort w = (Done h, w1) /\
    flt_send h (command_buffer 0 5 0) w1 =
      (Done r, probes_response l, Z.of_nat (length (probes_response l)), w2).

Lemma update_sensor_info_lists (s : state) l w1 w2 :
  Forall probe_ok l -> (length l <= 39)%nat -> NoDup (map ps_name l) -> wv_sensordict s = [] ->
  lists_probes (wv_world s) l w1 w2 ->
  exists s', update_sensor_info beyond s = (Ok tt, s') /\ wv_sensorqueues s' = wv_sensorqueues s /\
    wv_sensordict s' = map (fun p => (ps_name p, probe_report p)) l.
Proof.
  intros Hl Hn Hnd Hs (h & r & Hc & Hsend). unfold update_sensor_info, FilterConnectCommunicationPort.
  rewrite Hc. unfold on_world. cbn [wv_world set_world].
  rewrite (probes_enumerated h w1 w2 l r beyond Hl Hn Hsend).
  eexists. split; [done|]. split; [done|]. cbn [set_world set_sensordict wv_sensordict].
  rewrite Hs, fold_add_sensor.
  pose proof (dict_update_fresh [] (map (fun p => (ps_name p, probe_report p)) l)) as Hf.
  unfold dict_keys in Hf. cbn [app] in Hf. rewrite map_map in Hf. specialize (Hf Hnd).
  etransitivity; [|exact Hf]. unfold dict_update. clear. generalize (@nil (ustr * sensor_status)).
  induction l as [|p l IH]; intros d; [done|]. cbn [fold_left map]. by rewrite IH.
Qed.

(** Functional.  Every sensor that the driver lists gets its wrapper and
    its queue, also one that the driver says is not enabled: the check for
    disabled sensors never skips any, since the attribute it tests is the text
    "False". *)
Theorem all_sensors_wrapped (s : state) l w1 w2 p :
  Forall probe_ok l -> (length l <= 39)%nat -> NoDup (map ps_name l) ->
  NoDup (map (fun p => uuid_text (ps_id p)) l) -> wv_sensordict s = [] ->
  lists_probes (wv_world s) l w1 w2 -> p ∈ l ->
  exists s', (do_ update_sensor_info beyond; build_sensor_wrappers) s = (Ok tt, s') /\
    dict_get (uuid_text (ps_id p)) (wv_wrapperdict s') =
      Some (Wrapper_ (ascii_lower (ps_name p)) false) /\
    dict_get (uuid_text (ps_id p)) (wv_sensorqueues s') = Some [].
Proof.
  intros Hl Hn Hnd Hids Hs Hd Hp.
  destruct (update_sensor_info_lists s l w1 w2 Hl Hn Hnd Hs Hd) as (s1 & Hu & _ & Hdict).
  eexists. split; [rewrite (bind_step _ _ _ _ _ Hu); reflexivity|]. rewrite Hdict.
  destruct (build_wrapper_fold (map (fun p => (ps_name p, probe_report p)) l) s1) as [_ Hb].
  destruct (Hb (uuid_text (ps_id p))) as (Hq & Hw & _). rewrite map_map in Hq, Hw.
  assert (uuid_text (ps_id p) ∈ map (fun p => sensor_key (probe_report p)) l) as Hin.
  { apply list_elem_of_In, in_map_iff. exists p. split; [done|]. by apply list_elem_of_In. }
  destruct (Hw Hin) as (e & He & Hk & Hwr). split.
  - rewrite Hwr. do 2 f_equal. apply list_elem_of_In, in_map_iff in He as (p' & <- & Hp').
    cbn [snd fst] in *. f_equal. f_equal.
    apply list_elem_of_In in Hp'. apply list_elem_of_lookup in Hp as [i Hi].
    apply list_elem_of_lookup in Hp' as [j Hj].
    assert (i = j) as ->; [|congruence].
    eapply (NoDup_lookup _ i j); [exact Hids| |].
    + rewrite list_lookup_fmap, Hi. reflexivity.
    + rewrite list_lookup_fmap, Hj. cbn. f_equal. exact Hk.
  - rewrite Hq. by rewrite decide_True by exact Hin.
Qed.

Lemma report_for_sensor o e id : for_sensor id (report o e) = bool_decide (uuid_text (o_id o) = id).
Proof.
  unfold for_sensor, report. cbn [app dict_get]. rewrite decide_True by done. cbn [text_is].
  apply bool_decide_ext. split; [intros H; by apply (inj u) in H|by intros ->].
Qed.

(** The turns of the generator, one per message of the driver: what is yielded, and
    the exception of the packet that ends it. *)
Fixpoint decoded (b : memory) (packets : list bytes) : list ntuple * option exn :=
  match packets with
  | [] => ([], None)
  | p :: packets =>
      match packet_decode_header b p with
      | Raise e => ([], Some e)
      | Ok d => let '(l, e) := decoded b packets in (option_list d ++ l, e)
      end
  end.

(** Packets that are not decoded, when there are any, begin with one that raises. *)
Definition stuck (b : memory) (refused : list bytes) : Prop :=
  match refused with
  | [] => True
  | p :: _ => exists x, packet_decode_header b p = Raise x
  end.

Lemma decoded_reports b (evs : list (origin * event * bytes)) refused :
  Forall (fun e => origin_ok e.1.1 /\ event_ok e.1.2) evs -> stuck b refused ->
  let r := decoded b (map (fun e => driver_packet e.1.1 e.1.2 e.2) evs ++ refused) in
  r.1 = map (fun e => report e.1.1 e.1.2) evs /\ (r.2 = None <-> refused = []).
Proof.
  intros Hok Hb. induction Hok as [|[[o e] m] evs [Ho He] _ IH].
  - destruct refused as [|p refused]; [done|]. destruct Hb as [x Hx]. cbn. by rewrite Hx.
  - cbn [map app fst snd decoded] in *. rewrite driver_packet_decoded by done.
    destruct (decoded b _) as [l x]. cbn [fst snd] in *. destruct IH as [-> IH]. by split.
Qed.

(** C20: safety.  From the driver to the sensor.  When the driver sends events of
    any of its probes that can be decoded ([event_ok]), and then nothing more or a
    packet whose decoding raises, the queue of every sensor that was set up holds the
    reports of exactly its own events, in the order the driver sent them, and nothing
    of what follows such a packet, which ends the stream. *)
Theorem driver_events_queued (s : state) (sensors : list (ustr * sensor_status))
    (evs : list (origin * event * bytes)) refused sensor b :
  wv_sensordict s = sensors -> sensor ∈ sensors ->
  Forall (fun e => origin_ok e.1.1 /\ event_ok e.1.2) evs -> stuck b refused ->
  let s1 := set_running (fold_left build_wrapper sensors s) true in
  let stream := decoded b (map (fun e => driver_packet e.1.1 e.1.2 e.2) evs ++ refused) in
  dict_get (sensor_key sensor.2) (wv_sensorqueues (event_stream_pump stream.1 s1)) =
  Some (map (fun e => report e.1.1 e.1.2)
          (filter (fun e => bool_decide (uuid_text (o_id e.1.1) = sensor_key sensor.2)) evs)) /\
  (stream.2 = None <-> refused = []).
Proof.
  intros Hd Hin Hok Hst s1 stream.
  destruct (build_wrapper_fold sensors s) as [_ Hb].
  destruct (Hb (sensor_key sensor.2)) as (Hq & _ & _).
  destruct (decoded_reports b evs refused Hok Hst) as [Hr He]. fold stream in Hr, He.
  split; [|done]. rewrite Hr.
  assert (dict_get (sensor_key sensor.2) (wv_sensorqueues s1) = Some []) as H1.
  { unfold s1. cbn [set_running wv_sensorqueues]. rewrite Hq. apply decide_True.
    apply list_elem_of_In, in_map_iff. exists sensor. split; [done|by apply list_elem_of_In]. }
  rewrite (pump_queues _ s1 _ eq_refl), H1. cbn [fmap option_fmap option_map app]. f_equal.
  clear. induction evs as [|[[o e] m] evs IH]; [done|]. cbn [map fst snd].
  rewrite !filter_cons, IH, report_for_sensor. cbn [fst snd]. by case_decide.
Qed.

End Composition.

(** ** Examples *)

Definition sample_state (w : sim) : winvirtue sim := WinVirtue w false false [] [] [] [] [].

Lemma pump_routes_witness :
  let s := set_running (set_sensorqueues (sample_state (Sim 0 [] [] [])) [("a", []); ("b", [])]) true in
  let evts := [[("sensor_id", JStr (u "b"))]; [("sensor_id", JStr (u "c"))]] in
  dict_get "b" (wv_sensorqueues (event_stream_pump evts s)) = Some [[("sensor_id", JStr (u "b"))]].
Proof. intros s evts. rewrite (pump_routes evts s "b" eq_refl). by vm_compute. Defined.

Lemma sample_probe_ok : probe_ok sample_probe.
Proof.
  split_and!; try done; try (unfold in_range; cbn; lia).
  - by apply (bool_decide_unpack _).
  - cbn. repeat constructor; lia.
Qed.

Lemma all_sensors_wrapped_witness :
  ps_enabled sample_probe = false /\
  exists s', (do_ update_sensor_info (fun _ => byte_of 0); build_sensor_wrappers)
      (sample_state (Sim 0 [] (probes_response [sample_probe]) [])) = (Ok tt, s') /\
    dict_get (uuid_text (zeros 16)) (wv_wrapperdict s') = Some (Wrapper_ (u "imageload") false) /\
    dict_get (uuid_text (zeros 16)) (wv_sensorqueues s') = Some [].
Proof.
  split; [done|].
  apply (all_sensors_wrapped (fun _ => byte_of 0)
    (sample_state (Sim 0 [] (probes_response [sample_probe]) [])) [sample_probe]
    (Sim 0 [] (probes_response [sample_probe]) [])
    (Sim 0 [] (probes_response [sample_probe]) [command_buffer 0 5 0]) sample_probe).
  - constructor; [exact sample_probe_ok|constructor].
  - cbn. lia.
  - by apply (bool_decide_unpack _).
  - by apply (bool_decide_unpack _).
  - done.
  - exists 7, 0. split; reflexivity.
  - by left.
Defined.

(** An event, and a module whose name is not ASCII. *)
Definition sample_refused : bytes :=
  driver_packet sample_origin (ImageLoaded 4 0 0 4096 (u "caf" ++ [233])) [].

Lemma driver_events_queued_witness :
  let sensor := (u "ProcessCreate",
    GetSensorStatus (o_id sample_origin) 0 0 0 "RealTime" "True" (u "ProcessCreate")) in
  let s := set_sensordict (sample_state (Sim 0 [] [] [])) [sensor] in
  let stream := decoded (fun _ => byte_of 0)
    [driver_packet sample_origin sample_create []; sample_refused] in
  dict_get (sensor_key sensor.2)
    (wv_sensorqueues
       (event_stream_pump stream.1 (set_running (fold_left build_wrapper [sensor] s) true))) =
  Some [report sample_origin sample_create] /\ (stream.2 = None <-> [sample_refused] = []).
Proof.
  intros sensor s.
  apply (driver_events_queued s [sensor] [(sample_origin, sample_create, [])] [sample_refused] sensor).
  - done.
  - by left.
  - apply Forall_cons_2; [exact sample_ok|constructor].
  - exists ValueError. exact image_name_refused.
Defined.

(** A sensor starts with a priority of the levels: the one of its file, or its
    default. *)
Lemma start_priority {W} (files : ustr -> option params) e (s s' : winvirtue W) :
  start_sensor files e s = (Ok tt, s') ->
  exists z, dict_get e.1 (local_sensor_prios s') = Some z /\ 0 <= z <= 4.
Proof.
  unfold start_sensor. intros H.
  apply bind_Ok in H as (ps & s1 & H1 & H). apply bind_Ok in H as (l & s2 & H2 & H).
  apply bind_Ok in H as (z & s3 & H3 & H). unfold modify in H. injection H as <-.
  cbn [set_started set_prios local_sensor_prios]. exists z. split; [apply dict_get_set_eq|].
  apply lift_Ok in H3 as [H3 _]. unfold level_priority in H3. apply opt_res_Ok, dict_get_elem in H3.
  repeat (apply elem_of_cons in H3 as [[= _ ->]|H3]; [lia|]). by apply not_elem_of_nil in H3.
Qed.
