(* ===== verification/WinThreads.v ===== *)
(** The threads of the Windows sensor
    ([src/targets/win-target/sensor_service/WinVirtUE/sensor_winvirtue.py]): the
    pump that puts the driver's events on the queues, one consumer for each sensor,
    and whoever calls [stop].  Each turn of a loop is a step, and the steps of all
    threads come in any order.  A wrapper that is told a new configuration cancels
    its consumer, which waits for an event then, and starts it again with the level of
    that configuration; [start] comes before any step and is not repeated. *)

From stdpp Require Import relations.
From S2P Require Import Prelude Json Ctypes NtStructs NtEvents NtFltMgr WinVirtue Tasks.

Section Threads.

Context {W : Type} {Wf : FltLib W}.

Record win_threads := WinThreads {
  wt_sensor : winvirtue W;
  (** what the driver will still send, and whether the pump reads it *)
  wt_events : list ntuple;
  wt_pumping : bool;
  (** the events that the pump handled *)
  wt_pumped : list ntuple;
  (** the level the Sensing API asks of each consumer that was started *)
  wt_levels : list (string * Z);
  (** the consumers that have ended; what they took off their queue while the sensor
      ran, each with the level in force, and when they ended; their messages *)
  wt_exited : list string;
  wt_taken : list (string * (Z * ntuple));
  wt_dropped : list (string * ntuple);
  wt_messages : list (string * ntuple);
}.

(** [async for msg in queue] takes the first event off. *)
Definition pop_queue (id : string) (q : list ntuple) (s : winvirtue W) : winvirtue W :=
  set_sensorqueues s (dict_set id q (wv_sensorqueues s)).

Inductive win_step : relation win_threads :=
  | win_pumps s evt evts pumped lv ex t d m go s' :
      pump_event evt s = (go, s') ->
      win_step (WinThreads s (evt :: evts) true pumped lv ex t d m)
        (WinThreads s' evts go (if go then pumped ++ [evt] else pumped) lv ex t d m)
  | win_configures s evts p pumped lv ex t d m id conf api :
      id ∉ ex -> config2prio conf = Ok api ->
      win_step (WinThreads s evts p pumped lv ex t d m)
        (WinThreads s evts p pumped (dict_set id api lv) ex t d m)
  | win_consumes s evts p pumped lv ex t d m id msg q api local :
      id ∉ ex -> dict_get id (wv_sensorqueues s) = Some (msg :: q) -> wv_running s = true ->
      dict_get id lv = Some api -> dict_get id (local_sensor_prios s) = Some local ->
      let skip := api <? local in
      win_step (WinThreads s evts p pumped lv ex t d m)
        (WinThreads (pop_queue id q s) evts p pumped lv ex (t ++ [(id, (api, msg))]) d
           (if skip then m else m ++ [(id, msg)]))
  | win_exits s evts p pumped lv ex t d m id msg q api :
      id ∉ ex -> dict_get id (wv_sensorqueues s) = Some (msg :: q) -> wv_running s = false ->
      dict_get id lv = Some api ->
      win_step (WinThreads s evts p pumped lv ex t d m)
        (WinThreads (pop_queue id q s) evts p pumped lv (ex ++ [id]) t (d ++ [(id, msg)]) m)
  | win_stops s evts p pumped lv ex t d m :
      win_step (WinThreads s evts p pumped lv ex t d m)
        (WinThreads (stop s).2 evts p pumped lv ex t d m).

(** The threads that [start] leaves, when the driver will send [evts]. *)
Definition threads_started (s : winvirtue W) (evts : list ntuple) : win_threads :=
  WinThreads s evts true [] [] [] [] [] [].

(** * The invariant *)

(** Of one sensor with a queue: every event of its own that was pumped was taken by
    its consumer, or dropped at the end of the consumer, or is queued. *)
Definition accounted (id : string) (s : win_threads) : Prop :=
  (exists q, dict_get id (wv_sensorqueues (wt_sensor s)) = Some q /\
     map snd (of_producer id (wt_taken s)) ++ of_producer id (wt_dropped s) ++ q =
       filter (fun e => for_sensor id e) (wt_pumped s)) /\
  (length (of_producer id (wt_dropped s)) <= 1)%nat /\
  (of_producer id (wt_dropped s) <> [] -> id ∈ wt_exited s /\ wv_running (wt_sensor s) = false).

(** Of the events that were taken, those for whose level the API asked. *)
Definition asked_for (local : Z) (taken : list (Z * ntuple)) : list ntuple :=
  map snd (filter (fun e => local <= e.1) taken).

Definition levels_kept (id : string) (local : Z) (s : win_threads) : Prop :=
  dict_get id (local_sensor_prios (wt_sensor s)) = Some local /\
  of_producer id (wt_messages s) = asked_for local (of_producer id (wt_taken s)).

Lemma pump_stopped evt (s : winvirtue W) : wv_running s = false -> pump_event evt s = (false, s).
Proof. intros Hr. unfold pump_event. by rewrite Hr. Qed.

Lemma pump_prios evt (s : winvirtue W) : local_sensor_prios (pump_event evt s).2 = local_sensor_prios s.
Proof. unfold pump_event, put_queue. by repeat case_match. Qed.

Lemma none_dropped (id : string) (ex : list string) (d : list (string * ntuple)) P :
  id ∉ ex -> (of_producer id d <> [] -> id ∈ ex /\ P) -> of_producer id d = [].
Proof. intros Hex Hd. destruct (of_producer id d); [done|]. by destruct Hd. Qed.

Lemma step_levels id local s s' : win_step s s' -> levels_kept id local s -> levels_kept id local s'.
Proof.
  destruct 1 as [s evt evts pumped lv ex t d m go s' Hp| |
    s evts p pumped lv ex t d m k msg q api l Hex Hk Hr Hlv Hl skip| |]; intros [Hloc Hm]; cbn in *; [|done..| |done|done].
  - split; [|done]. cbn. pose proof (pump_prios evt s) as E. rewrite Hp in E. cbn in E. congruence.
  - split; [done|]. cbn. rewrite of_producer_snoc. cbn [fst snd]. unfold asked_for. rewrite filter_app, map_app.
    fold (asked_for local (of_producer id t)). rewrite <-Hm. unfold skip. case_decide as E.
    + subst k. assert (l = local) as -> by congruence. destruct (Z.ltb_spec api local).
      * rewrite filter_cons_False by (cbn; lia). by rewrite app_nil_r.
      * rewrite filter_cons_True by (cbn; lia). rewrite of_producer_snoc. cbn. by rewrite decide_True.
    + rewrite app_nil_r. destruct (api <? l); [done|]. rewrite of_producer_snoc. cbn.
      by rewrite decide_False, app_nil_r.
Qed.

Lemma step_accounted id s s' : win_step s s' -> accounted id s -> accounted id s'.
Proof.
  destruct 1 as [s evt evts pumped lv ex t d m go s' Hp|s evts p pumped lv ex t d m k conf api Hex _|
    s evts p pumped lv ex t d m k msg q api l Hex Hk Hr Hlv Hl skip|
    s evts p pumped lv ex t d m k msg q api Hex Hk Hr Hlv|s evts p pumped lv ex t d m];
    intros ((q' & Hq & Heq) & Hle & Hd); unfold accounted in *; cbn in *.
  - destruct (wv_running s) eqn:Hr.
    + destruct (pump_event_queue evt s id Hr) as (Hgo & Hr' & Hq'). rewrite Hp in *. cbn in *. subst go.
      rewrite Hq in Hq'. cbn in Hq'. split_and!; [|done|intros Hne; destruct (Hd Hne); congruence].
      eexists. split; [exact Hq'|]. rewrite filter_app, <-Heq, <-!app_assoc.
      do 2 f_equal. destruct (for_sensor id evt) eqn:E.
      * by rewrite filter_cons_True by (by rewrite E).
      * by rewrite filter_cons_False by (rewrite E; cbn; tauto).
    + rewrite pump_stopped in Hp by done. injection Hp as <- <-.
      split_and!; [by exists q'|done|intros Hne; by destruct (Hd Hne)].
  - split_and!; [by exists q'|done..].
  - rewrite of_producer_snoc, map_app. cbn [fst snd]. case_decide as E; [subst k|].
    + pose proof (none_dropped _ _ _ _ Hex Hd) as Hnone. split_and!; [|done|by rewrite Hnone].
      exists q. unfold pop_queue; cbn. rewrite dict_get_set_eq. split; [done|].
      rewrite Hk in Hq. injection Hq as <-. rewrite <-Heq, Hnone. cbn. by rewrite <-app_assoc.
    + split_and!; [|done|done]. exists q'. unfold pop_queue; cbn. rewrite dict_get_set_ne by congruence.
      split; [done|]. by rewrite app_nil_r.
  - rewrite of_producer_snoc. cbn [fst snd]. case_decide as E; [subst k|].
    + pose proof (none_dropped _ _ _ _ Hex Hd) as Hnone. rewrite Hnone in *. cbn.
      split_and!; [|lia|intros _; split; [apply elem_of_app; right; by left|done]].
      exists q. rewrite dict_get_set_eq. split; [done|]. rewrite Hk in Hq. injection Hq as <-. by rewrite <-Heq.
    + rewrite app_nil_r.
      split_and!; [|done|intros Hne'; destruct (Hd Hne'); split; [apply elem_of_app; by left|done]].
      exists q'. rewrite dict_get_set_ne by congruence. done.
  - split_and!; [by exists q'|done|]. intros Hne. by destruct (Hd Hne).
Qed.

Lemma start_accounted s evts id : dict_get id (wv_sensorqueues s) = Some [] ->
  accounted id (threads_started s evts).
Proof. intros Hq. split_and!; [by exists []|apply le_0_n|by intros []]. Qed.

(** The pump handles a first part of what the driver sends; as long as it reads,
    the rest is to come. *)
Definition pump_ok (evts : list ntuple) (s : win_threads) : Prop :=
  wt_pumped s `prefix_of` evts /\ (wt_pumping s = true -> evts = wt_pumped s ++ wt_events s) /\
  (wt_pumping s = false -> wv_running (wt_sensor s) = false).

Lemma step_pump_ok evts s s' : win_step s s' -> pump_ok evts s -> pump_ok evts s'.
Proof.
  destruct 1 as [s evt rest pumped lv ex t d m go s' Hp| | | |]; intros (Hpre & Hgo & Hstop); [|done..|].
  - cbn in *. destruct (wv_running s) eqn:Hr.
    + destruct (pump_event_queue evt s "" Hr) as (Hg & Hr' & _). rewrite Hp in *. cbn in *. subst go.
      specialize (Hgo eq_refl). split_and!; cbn; [|intros _; by rewrite <-app_assoc|done].
      exists rest. by rewrite <-app_assoc.
    + rewrite pump_stopped in Hp by done. injection Hp as <- <-. by split_and!.
  - by split_and!.
Qed.

Lemma threads_ok s evts s' id local :
  dict_get id (wv_sensorqueues s) = Some [] -> dict_get id (local_sensor_prios s) = Some local ->
  rtc win_step (threads_started s evts) s' ->
  accounted id s' /\ levels_kept id local s' /\ pump_ok evts s'.
Proof.
  intros Hq Hl. revert s'. apply (rtc_ind_r (fun s' => accounted id s' /\ levels_kept id local s' /\ pump_ok evts s')).
  - split; [by apply start_accounted|]. split; [by split|]. split_and!; [apply prefix_nil|done|done].
  - intros s1 s2 _ H12 (Ha & Hk & Hp).
    split_and!; [by eapply step_accounted|by eapply step_levels|by eapply step_pump_ok].
Qed.

(** * Theorems *)


End Threads.

(** * Two sensors *)

Definition two_queues : winvirtue sim :=
  set_prios (set_running (set_sensorqueues (sample_state (Sim 0 [] [] [])) [("a", []); ("b", [])]) true)
    [("a", 2); ("b", 4)].
Definition event_for (id : string) (n : Z) : ntuple := [("sensor_id", JStr (u id)); ("n", JInt n)].
Definition asks (level : string) : list (ustr * json) := [(u "sensor-config-level", JStr (u level))].

(** Three events of one sensor: the consumer skips one at a low level, makes a message
    of the next at a high one, and drops the last after the stop. *)
Definition stopped_run : win_threads :=
  WinThreads (stop (pop_queue "a" [] two_queues)).2 [] true
    [event_for "a" 1; event_for "a" 2; event_for "a" 3] [("a", 3)] ["a"]
    [("a", (1, event_for "a" 1)); ("a", (3, event_for "a" 2))] [("a", event_for "a" 3)]
    [("a", event_for "a" 2)].

Lemma stopped_run_reached :
  rtc win_step (threads_started two_queues [event_for "a" 1; event_for "a" 2; event_for "a" 3]) stopped_run.
Proof.
  do 3 (eapply rtc_l; [apply win_pumps; reflexivity|]).
  eapply rtc_l; [apply (win_configures _ _ _ _ _ _ _ _ _ "a" (asks "low") 1); [by apply not_elem_of_nil|reflexivity]|].
  eapply rtc_l; [apply (win_consumes _ _ _ _ _ _ _ _ _ "a" (event_for "a" 1)
    [event_for "a" 2; event_for "a" 3] 1 2); first [by apply not_elem_of_nil|reflexivity]|].
  eapply rtc_l; [apply (win_configures _ _ _ _ _ _ _ _ _ "a" (asks "high") 3); [by apply not_elem_of_nil|reflexivity]|].
  eapply rtc_l; [apply (win_consumes _ _ _ _ _ _ _ _ _ "a" (event_for "a" 2) [event_for "a" 3] 3 2);
    first [by apply not_elem_of_nil|reflexivity]|].
  eapply rtc_l; [apply win_stops|].
  eapply rtc_l; [apply (win_exits _ _ _ _ _ _ _ _ _ "a" (event_for "a" 3) [] 3);
    first [by apply not_elem_of_nil|reflexivity]|].
  reflexivity.
Qed.

