(* ===== verification/Wvucmd.v ===== *)
(** The command line tool for the Windows driver, [sensors/wvucmd/wvucmd.py], on
    the functions of [NtFltMgr].

    The tool was written for a port whose functions return a result beside
    their value.  A command is what the loop of the module [cmd] calls: a handler
    with the rest of the line.  What is printed or logged is left out, except for
    what computing it raises. *)

From S2P Require Import Prelude Json PyText Ctypes NtStructs NtFltMgr.

Section Wvucmd.
Context {W : Type} {Wf : FltLib W} (beyond : memory).

(** ** State *)

(** [self._probes]: what was unpacked from the enumeration is one sensor. *)
Record wvucmd := Wvucmd {
  wc_world : W;
  wc_hFltComms : option Z;
  wc_probes : option sensor_status;
  wc_probedict : list (ustr * sensor_status);
  wc_connected : bool;
  wc_prompt : string;
}.

Abbreviation C := (M wvucmd).

Definition disconnected_prompt : string := "wvucmd [disconnected]: ".
Definition connected_prompt : string := "wvucmd [connected]: ".

(** [WinVirtueCmd()] *)
Definition new_cmd (w : W) : wvucmd := Wvucmd w None None [] false disconnected_prompt.

Definition port {A} (m : M W A) : C A := fun s =>
  let (r, w) := m (wc_world s) in
  (r, Wvucmd w (wc_hFltComms s) (wc_probes s) (wc_probedict s) (wc_connected s) (wc_prompt s)).
Definition set_handle (h : option Z) : C unit := modify (fun s =>
  Wvucmd (wc_world s) h (wc_probes s) (wc_probedict s) (wc_connected s) (wc_prompt s)).
Definition set_probes (p : sensor_status) : C unit := modify (fun s =>
  Wvucmd (wc_world s) (wc_hFltComms s) (Some p) (wc_probedict s) (wc_connected s) (wc_prompt s)).
Definition set_connected (b : bool) (prompt : string) : C unit := modify (fun s =>
  Wvucmd (wc_world s) (wc_hFltComms s) (wc_probes s) (wc_probedict s) b prompt).

(** ** Unpacking *)

(** [(_res, h,) = FilterConnectCommunicationPort(name)]: a handle is not
    iterable. *)
Definition connect_pair (name : string) : C Z :=
  do _ <- port (FilterConnectCommunicationPort name);
  throw TypeError.

(** [(_res, probes,) = EnumerateSensors(h)]: the generator must yield exactly two
    sensors.  [h] may be [None], which is a null handle. *)
Definition enumerate_pair (h : option Z) : C sensor_status :=
  do r <- port (EnumerateSensors beyond (default 0 h));
  match r with
  | ([_; probes], None) => ret probes
  | (_ :: _ :: _ :: _, _) => throw ValueError
  | (_, Some e) => throw e
  | (_, None) => throw ValueError
  end.

(** [for probe in self._probes: ... probe.SensorName]: the first field of a
    sensor is its number, which has no such attribute. *)
Definition fill_probedict : C unit := throw AttributeError.

(** [packet_decode()] of the port, up to its first packet: the message is a
    coroutine, which cannot be unpacked. *)
Definition packet_decode : C unit :=
  do _ <- port (FilterConnectCommunicationPort EventPort);
  throw TypeError.

(** ** Commands *)

Definition guarded (m : C unit) : C unit :=
  do s <- get;
  if wc_connected s then m else ret tt.

Definition do_kill (_pid : ustr) : C unit := guarded (ret tt).
(** The loop passes one argument to a handler of two. *)
Definition do_configure (_line : ustr) : C unit := throw TypeError.
Definition do_disable_unload (_line : ustr) : C unit := guarded (ret tt).
Definition do_enable_unload (_line : ustr) : C unit := guarded (ret tt).

(** [EnableProbe(h, "All")] and [DisableProbe(h, "All")]: a text has no bytes. *)
Definition probe_all (request : Z -> option bytes -> M W (Z * bytes)) : C unit :=
  do s <- get;
  do _ <- port (request (default 0 (wc_hFltComms s)) None);
  ret tt.

(** [do_disable_probe] and [do_enable_probe]: a sensor has no [SensorId]. *)
Definition do_probe (request : Z -> option bytes -> M W (Z * bytes)) (sensor_name : ustr) : C unit :=
  guarded
    (if bool_decide (sensor_name = u "All") then probe_all request
     else
       do s <- get;
       match dict_get sensor_name (wc_probedict s) with
       | Some _ => throw AttributeError
       | None => ret tt
       end).
Definition do_disable_probe : ustr -> C unit := do_probe DisableProbe.
Definition do_enable_probe : ustr -> C unit := do_probe EnableProbe.

(** [complete_disable_probe] and [complete_enable_probe] *)
Definition complete_probe : C (list ustr) :=
  do s <- get;
  match wc_probes s with
  | None => throw TypeError
  | Some _ => throw AttributeError
  end.

Definition do_disconnect (_line : ustr) : C unit :=
  do_ set_connected false disconnected_prompt;
  do s <- get;
  match wc_hFltComms s with
  | Some h => if negb (h =? 0) then do_ port (CloseHandle h); set_handle None else ret tt
  | None => ret tt
  end.

Definition do_list (_line : ustr) : C unit :=
  guarded
    (do s <- get;
     do probes <- enumerate_pair (wc_hFltComms s);
     do_ set_probes probes;
     fill_probedict).

Definition do_connect (_line : ustr) : C unit :=
  do h <- connect_pair CommandPort;
  do_ set_handle (Some h);
  do probes <- enumerate_pair (Some h);
  do_ set_probes probes;
  do_ fill_probedict;
  set_connected true connected_prompt.

(** The file, which is emptied before the first packet is asked for, is left out. *)
Definition do_dump (outfile : ustr) : C unit :=
  do h <- connect_pair EventPort;
  do r <- catch packet_decode (fun e => do_ port (CloseHandle h); throw e);
  port (CloseHandle h).

Definition do_quit (_line : ustr) : C unit :=
  do s <- get;
  do_ (match wc_hFltComms s with
       | Some h => if wc_connected s && negb (h =? 0) then port (CloseHandle h) else ret tt
       | None => ret tt
       end);
  throw SystemExit.

(** ** The loop *)

Inductive command :=
  | Kill | Configure | DisableUnloadCmd | EnableUnloadCmd | DisableProbeCmd | EnableProbeCmd
  | Disconnect | ListCmd | Connect | Dump | Quit | EndOfFile.

(** The handler of a command; [true] ends the loop. *)
Definition onecmd (c : command) (line : ustr) : C bool :=
  match c with
  | Kill => do_ do_kill line; ret false
  | Configure => do_ do_configure line; ret false
  | DisableUnloadCmd => do_ do_disable_unload line; ret false
  | EnableUnloadCmd => do_ do_enable_unload line; ret false
  | DisableProbeCmd => do_ do_disable_probe line; ret false
  | EnableProbeCmd => do_ do_enable_probe line; ret false
  | Disconnect => do_ do_disconnect line; ret false
  | ListCmd => do_ do_list line; ret false
  | Connect => do_ do_connect line; ret false
  | Dump => do_ do_dump line; ret false
  | Quit => do_ do_quit line; ret false
  | EndOfFile => ret true
  end.

(** [cmdloop] on the lines that are entered: [false] when it still waits for
    one.  An exception ends the program. *)
Fixpoint cmdloop (input : list (command * ustr)) : C bool :=
  match input with
  | [] => ret false
  | (c, line) :: input =>
      do stop <- onecmd c line;
      if stop : bool then ret true else cmdloop input
  end.

(** * Theorems *)

(** The tool was never connected, and the driver only saw attempts to connect. *)
Definition untouched (w : W) (s : wvucmd) : Prop :=
  wc_connected s = false /\ wc_hFltComms s = None /\
  exists ports, wc_world s = fold_left (fun w p => (flt_connect p w).2) ports w.

Lemma untouched_guarded w s m : untouched w s -> guarded m s = (Ok tt, s).
Proof. intros (Hc & _). unfold guarded, bind, get. by rewrite Hc. Qed.

Lemma untouched_connect w s name : untouched w s ->
  exists e s', connect_pair name s = (Raise e, s') /\ untouched w s'.
Proof.
  intros (Hc & Hh & ports & Hw).
  unfold connect_pair, port, bind, FilterConnectCommunicationPort.
  destruct (flt_connect name (wc_world s)) as [[h|e] w'] eqn:E; cbn; eexists _, _;
    (split; [reflexivity|]); split_and!; try done;
    (exists (ports ++ [name]); cbn; rewrite fold_left_app, <-Hw; cbn; by rewrite E).
Qed.

Lemma untouched_onecmd w c line s : untouched w s -> untouched w (onecmd c line s).2.
Proof.
  intros Hs. destruct c; cbn [onecmd];
    unfold do_kill, do_disable_unload, do_enable_unload, do_disable_probe, do_enable_probe,
      do_probe, do_list, do_configure; try unfold bind at 1;
    try (rewrite (untouched_guarded _ _ _ Hs)); try exact Hs.
  - destruct Hs as (Hc & Hh & Hw). unfold do_disconnect, set_connected, bind, get, modify. cbn.
    rewrite Hh. by split_and!.
  - unfold do_connect. destruct (untouched_connect w s CommandPort Hs) as (e & s' & E & Hs').
    unfold bind at 1. by rewrite E.
  - unfold do_dump. destruct (untouched_connect w s EventPort Hs) as (e & s' & E & Hs').
    unfold bind at 1. by rewrite E.
  - unfold do_quit, bind, get. destruct Hs as (Hc & Hh & Hw). rewrite Hh. by split_and!.
Qed.

(** Safety: whatever commands are entered, the tool never gets connected, holds
    no handle, and sends the driver nothing: all it does to the driver is to open
    ports, whose handles it loses. *)
Theorem wvucmd_never_connects input w : untouched w (cmdloop input (new_cmd w)).2.
Proof.
  assert (forall s, untouched w s -> untouched w (cmdloop input s).2) as Hloop.
  { induction input as [|[c line] input IH]; intros s Hs; [done|]. cbn [cmdloop].
    pose proof (untouched_onecmd w c line s Hs) as H1. unfold bind.
    destruct (onecmd c line s) as [[[]|e] s']; [done|by apply IH|done]. }
  apply Hloop. split_and!; [done|done|]. by exists [].
Qed.

(** The command that should connect ends the program. *)
Theorem connect_ends_program line input w :
  exists e s, cmdloop ((Connect, line) :: input) (new_cmd w) = (Raise e, s) /\ e ∈ [TypeError; OSError].
Proof.
  cbn [cmdloop onecmd]. unfold do_connect, connect_pair, port, bind, FilterConnectCommunicationPort.
  destruct (flt_connect CommandPort (wc_world (new_cmd w))) as [[h|e] w']; cbn;
    eexists _, _; (split; [reflexivity|]); set_solver.
Qed.
End Wvucmd.
