(* ===== verification/CommandSensors.v ===== *)
(** The sensors that run a command and report its output:
    [sensors/sensor_ps/sensor_ps.py], [sensors/sensor_kernel_ps/sensor_kernel_ps.py],
    [sensors/sensor_netstat/sensor_netstat.py], [sensors/sensor_lsof/sensor_lsof.py],
    [sensors/sensor_tcpdump/sensor_tcpdump.py] and
    [sensors/sensor_tasklist/sensor_tasklist.py], with the report on the command's
    file ([report_on_file] of the wrapper) that each of them sends beside it.

    The output of a command is the list of its lines, each with the time at
    which the sensor handles it; a loop without end is run for a number of
    rounds.  A sensor's effect is what it puts on the message queue. *)

From S2P Require Import Prelude Json PyText.

Abbreviation lines := (list (ustr * bytes)).

(** * Messages *)

Abbreviation Q := (M (list ustr)).

Definition put (msg : ustr) : Q unit := modify (fun q => q ++ [msg]).

(** [logmsg.update(message_stub)] and [message_queue.put(json.dumps(logmsg))] *)
Definition put_log (stub doc : list (ustr * json)) : Q unit := put (dumps (JObj (dict_update doc stub))).

Definition log_doc (now : ustr) (level : string) (message : json) : list (ustr * json) :=
  [(u "timestamp", JStr now); (u "level", JStr (u level)); (u "message", message)].

(** The same items in the order in which [lsof] and [tcpdump] write them. *)
Definition line_doc (now : ustr) (level : string) (message : ustr) : list (ustr * json) :=
  [(u "message", JStr message); (u "timestamp", JStr now); (u "level", JStr (u level))].

(** [config.get("repeat-interval", 15)], which is printed with [%d]; a NaN or an
    infinity is left out. *)
Definition repeat_interval (config : list (ustr * json)) : json :=
  default (JInt 15) (dict_get (u "repeat-interval") config).
Definition print_interval (config : list (ustr * json)) : res unit :=
  match repeat_interval config with
  | JInt _ | JBool _ | JFloat _ => Ok tt
  | _ => Raise TypeError
  end.

(** * The report on a file *)

(** What the file system says of a path that exists. *)
Record file_stat := FileStat {
  st_is_file : bool; st_is_dir : bool; st_is_link : bool; st_real_path : ustr;
  st_size : Z; st_atime : ustr; st_mtime : ustr; st_ctime : ustr; st_content : bytes }.

(** [hashlib.sha512()]: its states, [update] and [hexdigest]. *)
Class Sha512 := { hash_state : Type; hash_init : hash_state;
                  hash_update : hash_state -> bytes -> hash_state; hash_hex : hash_state -> ustr }.

(** Updating twice is updating once with both. *)
Class Sha512Laws `{Sha512} := {
  hash_update_nil : forall h, hash_update h [] = h;
  hash_update_app : forall h a b, hash_update (hash_update h a) b = hash_update h (a ++ b) }.

(** [for chunk in iter(lambda: flo.read(4096), b'')]; there are no more chunks
    than bytes. *)
Fixpoint hash_chunks `{Sha512} (fuel : nat) (h : hash_state) (s : bytes) : hash_state :=
  match fuel with
  | O => h
  | S fuel =>
      match take (Z.to_nat 4096) s with
      | [] => h
      | chunk => hash_chunks fuel (hash_update h chunk) (drop (Z.to_nat 4096) s)
      end
  end.

(** [report_on_file(filename)]: [None] for a path that does not exist.  The
    branch for a file that stopped existing within the function is left out. *)
Definition report_on_file `{Sha512} (st : option file_stat) : json :=
  match st with
  | None => JNull
  | Some f =>
      JObj [(u "is_file", JBool (st_is_file f)); (u "is_dir", JBool (st_is_dir f));
            (u "is_link", JBool (st_is_link f)); (u "real_path", JStr (st_real_path f));
            (u "exists", JBool true); (u "size", JInt (st_size f));
            (u "atime", JFloat (st_atime f)); (u "mtime", JFloat (st_mtime f));
            (u "ctime", JFloat (st_ctime f));
            (u "sha512", JStr (hash_hex (hash_chunks (S (length (st_content f))) hash_init
                                           (st_content f))))]
  end.

(** [assess_ps], [assess_netstat], [assess_lsof], [assess_tcpdump] and
    [assess_tasklist] differ in the file: [None] when [which_file] found none.
    For each round, the time and what the file system says. *)
Definition assess `{Sha512} (path : option string) (stub config : list (ustr * json))
    (rounds : list (ustr * option file_stat)) : Q unit :=
  do_ lift (print_interval config);
  match path with
  | None => throw TypeError
  | Some _ => for_each (fun r => put_log stub (log_doc r.1 "info" (report_on_file r.2))) rounds
  end.

(** * The sensors *)

Section Sensors.

(** The output of the n-th run of a command. *)
Context (exec : list ustr -> nat -> lines).

(** ** ps *)

Definition ps_line (stub : list (ustr * json)) (self_pid : Z) (e : ustr * bytes) : Q unit :=
  do line <- lift (utf8_decode e.2);
  let line_bits := words_on 32 line in
  do proc_user <- lift (item line_bits 0);
  do proc_pid <- lift (item line_bits 1);
  let proc_proc := ustrip (ujoin [32] (drop 10 line_bits)) in
  do pid <- lift (uint proc_pid);
  if pid =? self_pid then ret tt
  else put_log stub (log_doc e.1 "info"
         (JObj [(u "process", JStr proc_proc); (u "pid", JStr proc_pid); (u "user", JStr proc_user)])).

(** One round: the first line of the output is the header. *)
Definition ps_round (stub : list (ustr * json)) (self_pid : Z) (out : lines) : Q unit :=
  for_each (ps_line stub self_pid) (tail out).

Definition ps (ps_path : ustr) (self_pid : Z) (stub config : list (ustr * json)) (rounds : nat) : Q unit :=
  do_ lift (print_interval config);
  for_each (fun n => ps_round stub self_pid (exec [ps_path; u "-auxxx"] n)) (seq 0 rounds).

(** ** netstat *)

(** [address.split(":")], the last part apart. *)
Definition address_port (s : ustr) : ustr * ustr :=
  let bits := usplit 58 s in (ujoin [58] (removelast bits), default [] (last bits)).

Definition netstat_line (stub : list (ustr * json)) (e : ustr * bytes) : Q unit :=
  do line <- lift (utf8_decode e.2);
  let line_bits := words_on 32 (ustrip line) in
  do local <- lift (item line_bits 3);
  let '(l_addr, l_port) := address_port local in
  do remote <- lift (item line_bits 4);
  let '(r_addr, r_port) := address_port remote in
  let owner := default [] (last line_bits) in
  do pid_prog <- (if has_code 47 owner then
                    match usplit 47 owner with
                    | [m_pid; m_prog] => ret (m_pid, m_prog)
                    | _ => throw ValueError
                    end
                  else ret ([], []));
  do proto <- lift (item line_bits 0);
  do recv_q <- lift (item line_bits 1);
  do send_q <- lift (item line_bits 2);
  do state <- lift (item line_bits 5);
  put_log stub (log_doc e.1 "info"
    (JObj [(u "proto", JStr proto); (u "recv-q", JStr recv_q); (u "send-q", JStr send_q);
           (u "state", JStr state);
           (u "local", JObj [(u "address", JStr l_addr); (u "port", JStr l_port)]);
           (u "remote", JObj [(u "address", JStr r_addr); (u "port", JStr r_port)]);
           (u "pid", JStr pid_prog.1); (u "program", JStr pid_prog.2)])).

(** One round: the first two lines are headers. *)
Definition netstat_round (stub : list (ustr * json)) (out : lines) : Q unit :=
  for_each (netstat_line stub) (drop 2 out).

Definition netstat (stub config : list (ustr * json)) (rounds : nat) : Q unit :=
  do_ lift (print_interval config);
  for_each (fun n => netstat_round stub (exec [u "netstat"; u "-natp"] n)) (seq 0 rounds).

(** ** lsof *)

Definition lsof_type_map : list (ustr * string) :=
  [(u "CHR", "debug"); (u "DIR", "debug"); (u "IPv4", "info"); (u "KQUEUE", "info");
   (u "NPOLICY", "debug"); (u "REG", "debug"); (u "systm", "warn"); (u "unix", "info");
   (u "vnode:", "warn")].

Definition lsof_line (stub : list (ustr * json)) (e : ustr * bytes) : Q unit :=
  do line <- lift (utf8_decode e.2);
  let line_bits := usplit 32 (collapse line) in
  if (length line_bits <? 4)%nat then ret tt
  else
    do line_type <- lift (item line_bits 4);
    let log_level := default "debug" (dict_get line_type lsof_type_map) in
    put_log stub (line_doc e.1 log_level line).

(** [lsof(message_stub, config, message_queue)]: the lines are only collected
    until the command closes its output, which [closed] says it does; [false]
    when it is still being read. *)
Definition lsof (closed : bool) (stub config : list (ustr * json)) : Q bool :=
  do_ lift (print_interval config);
  let repeat_delay := match repeat_interval config with JInt z => int_text z | _ => [] end in
  if closed then
    do_ for_each (lsof_line stub) (exec [u "lsof"; u "-r"; repeat_delay] 0); ret true
  else ret false.

(** ** tcpdump *)

Definition tcpdump_line (stub : list (ustr * json)) (e : ustr * bytes) : Q unit :=
  do line <- lift (utf8_decode e.2);
  put_log stub (line_doc e.1 "info" line).

(** [["tcpdump"] + config.get("args", ["-i", "any"])] *)
Definition tcpdump_args (config : list (ustr * json)) : res (list ustr) :=
  match default (JList [JStr (u "-i"); JStr (u "any")]) (dict_get (u "args") config) with
  | JList l => let? args := res_mapM (fun j => match j with JStr s => Ok s | _ => Raise TypeError end) l in
               Ok (u "tcpdump" :: args)
  | _ => Raise TypeError
  end.

Definition tcpdump (stub config : list (ustr * json)) : Q unit :=
  do full_args <- lift (tcpdump_args config);
  for_each (tcpdump_line stub) (exec full_args 0).

(** ** tasklist *)

(** Without the quotation marks at both ends. *)
Fixpoint lstrip_quotes (s : ustr) : ustr :=
  match s with c :: s' => if c =? 34 then lstrip_quotes s' else s | [] => [] end.
Definition strip_quotes (s : ustr) : ustr := reverse (lstrip_quotes (reverse (lstrip_quotes s))).

Definition tasklist_line (stub : list (ustr * json)) (self_pid : Z) (e : ustr * bytes) : Q unit :=
  do line <- lift (utf8_decode e.2);
  let line_bits := words_on 44 line in
  do proc_image_name <- lift (item line_bits 0);
  do pid_bit <- lift (item line_bits 1);
  let proc_pid := strip_quotes pid_bit in
  do proc_session_name <- lift (item line_bits 2);
  do number_bit <- lift (item line_bits 3);
  let proc_session_number := strip_quotes number_bit in
  do proc_memory_usage <- lift (item line_bits 4);
  do pid <- lift (uint proc_pid);
  if pid =? self_pid then ret tt
  else put_log stub (log_doc e.1 "info"
         (JObj [(u "ImageName", JStr proc_image_name); (u "PID", JStr proc_pid);
                (u "SessionName", JStr proc_session_name);
                (u "SessionNumber", JStr proc_session_number);
                (u "MemUsage", JStr proc_memory_usage)])).

(** The rounds for which [_running] holds; [None]: [tasklist.exe] is not found. *)
Definition tasklist (path : option ustr) (self_pid : Z) (stub config : list (ustr * json))
    (rounds : nat) : Q unit :=
  do_ lift (print_interval config);
  for_each (fun n =>
    match path with
    | None => throw TypeError
    | Some path => for_each (tasklist_line stub self_pid)
                     (exec [path; u "/FO"; u "CSV"; u "/NH"] n)
    end) (seq 0 rounds).

End Sensors.

(** * Lemmas *)

(** ** Messages *)

(** The messages that report the documents of a list: each decodes to an object
    with the items of the stub and, where the stub does not override them, those
    of the document. *)
Definition reports (stub : list (ustr * json)) (docs : list (list (ustr * json))) (msgs : list ustr) :=
  Forall2 (fun doc msg => exists d, loads msg = Ok (JObj d) /\
    forall k, dict_get k d = match dict_get k stub with
                             | Some v => Some v
                             | None => dict_get k doc
                             end) docs msgs.

Definition doc_ok (doc : list (ustr * json)) : Prop :=
  NoDup (dict_keys doc) /\ Forall (fun kv => Forall scalar kv.1 /\ jwf kv.2) doc.

Lemma doc_ok_set k v d : Forall scalar k -> jwf v -> doc_ok d -> doc_ok (dict_set k v d).
Proof. intros Hk Hv [Hn Hf]. split; [by apply dict_set_nodup|by apply dict_set_Forall]. Qed.

Lemma doc_ok_nil : doc_ok [].
Proof. split; constructor. Qed.

Lemma jwf_doc d : doc_ok d -> jwf (JObj d).
Proof. intros [Hn Hf]. by apply jwf_obj. Qed.

Definition message_of (stub doc : list (ustr * json)) : ustr := dumps (JObj (dict_update doc stub)).

Lemma put_log_run stub doc q : put_log stub doc q = (Ok tt, q ++ [message_of stub doc]).
Proof. done. Qed.

Lemma message_reports stub docs : stub_ok stub -> Forall doc_ok docs ->
  reports stub docs (map (message_of stub) docs).
Proof.
  intros Hs Hd. apply Forall2_fmap_r, Forall_Forall2_diag. eapply Forall_impl; [exact Hd|].
  intros doc [Hn Hf]. eexists. split.
  - apply loads_dumps, jwf_obj. split; [by apply dict_update_nodup|].
    by apply dict_update_Forall; [|apply Hs].
  - intros k. apply dict_update_get, Hs.
Qed.

(** A loop whose every line reports one document. *)
Lemma for_each_reports {A} (f : A -> Q unit) (doc : A -> option (list (ustr * json))) stub l q :
  (forall a q, a ∈ l -> f a q = (Ok tt, q ++ match doc a with Some d => [message_of stub d] | None => [] end)) ->
  for_each f l q = (Ok tt, q ++ map (message_of stub) (omap doc l)).
Proof.
  revert q. induction l as [|a l IH]; intros q Hf; [by rewrite app_nil_r|].
  cbn [for_each]. erewrite bind_step by (apply Hf; by left).
  rewrite IH by (intros; apply Hf; by right). cbn [omap list_omap].
  destruct (doc a); cbn; by rewrite <-?app_assoc.
Qed.

Lemma log_doc_ok now level message :
  Forall scalar now -> jwf message -> doc_ok (log_doc now level message).
Proof.
  intros Hn Hm. split; [by apply (bool_decide_unpack _)|].
  repeat (apply Forall_cons_2; [split; [apply scalar_u|]|]); [exact Hn|apply scalar_u|exact Hm|constructor].
Qed.

Lemma line_doc_ok now level message :
  Forall scalar now -> Forall scalar message -> doc_ok (line_doc now level message).
Proof.
  intros Hn Hm. split; [by apply (bool_decide_unpack _)|].
  repeat (apply Forall_cons_2; [split; [apply scalar_u|]|]); [exact Hm|exact Hn|apply scalar_u|constructor].
Qed.

(** An object of texts. *)
Lemma jwf_texts (l : list (string * ustr)) :
  NoDup (map fst l) -> Forall (fun e => Forall scalar e.2) l ->
  jwf (JObj (map (fun e => (u e.1, JStr e.2)) l)).
Proof.
  intros Hn Hf. apply jwf_obj. split.
  - unfold dict_keys. rewrite map_map. cbn. rewrite <-(map_map fst u).
    apply (NoDup_fmap_2 u). exact Hn.
  - apply Forall_fmap. eapply Forall_impl; [exact Hf|]. intros e He. split; [apply scalar_u|exact He].
Qed.

(** ** Tokens *)

(** What stands in a column: text without white space. *)
Definition token (w : ustr) : Prop := solid w /\ Forall scalar w.

Lemma tokens_words ws : Forall token ws -> Forall word ws.
Proof. intros H. eapply Forall_impl; [exact H|]. intros w [Hw _]. by apply solid_word. Qed.

Lemma token_int z : 0 <= z -> token (int_text z).
Proof.
  intros Hz. split; [by apply int_text_solid|]. unfold int_text. destruct (z <? 0) eqn:E; [lia|].
  eapply Forall_impl; [apply digits_spec, Hz|]. intros c. unfold is_digit, scalar. lia.
Qed.

Lemma token_around c a b : is_strip c = false -> scalar c -> Forall scalar a -> token b ->
  Forall (fun c => is_strip c = false) a -> token (a ++ c :: b).
Proof.
  intros Hc Hsc Ha [[_ Hb] Hsb] Hsa. split; [split; [by destruct a|]|];
    apply Forall_app; (split; [done|by constructor]).
Qed.

Lemma scalar_columns l : Forall (fun e => Forall scalar e.1) l -> Forall scalar (columns l).
Proof.
  induction 1 as [|[w n] l Hw _ IH]; [constructor|]. cbn [columns flat_map].
  apply Forall_app. split; [|exact IH]. apply Forall_app. split; [done|].
  constructor; [unfold scalar; lia|]. apply Forall_replicate. unfold scalar. lia.
Qed.

Lemma scalar_ujoin ws : Forall token ws -> Forall scalar (ujoin [32] ws).
Proof.
  induction 1 as [|w ws [_ Hw] _ IH]; [constructor|]. rewrite ujoin_cons. destruct ws; [done|].
  apply Forall_app. split; [done|]. apply Forall_app. split; [|exact IH].
  repeat constructor. unfold scalar. lia.
Qed.

Lemma stripped_ujoin ws : ws <> [] -> Forall token ws -> stripped (ujoin [32] ws).
Proof.
  intros Hne Hws. induction Hws as [|w ws [Hw _] Hws IH]; [done|]. rewrite ujoin_cons.
  destruct ws as [|w' ws]; [by apply solid_stripped|].
  apply stripped_between; [by apply solid_stripped|by apply IH].
Qed.

Lemma words_ujoin ws t : ws <> [] -> Forall token ws -> has_code 32 t = false ->
  ujoin [32] (words_on 32 (ujoin [32] ws ++ t)) = ujoin [32] ws ++ t /\
  words_on 32 (ujoin [32] ws ++ t) <> [].
Proof.
  intros Hne Hws Ht. apply tokens_words in Hws.
  induction Hws as [|w ws [Hw Hs] Hws IH]; [done|]. destruct ws as [|w' ws].
  - cbn [ujoin]. assert (has_code 32 (w ++ t) = false) as Hwt.
    { unfold has_code in *. by rewrite existsb_app, Hs, Ht. }
    rewrite words_on_last by (done || by destruct w). done.
  - rewrite ujoin_cons, <-!app_assoc. change ([32] ++ ?x) with (32 :: x).
    rewrite words_on_word by done. destruct IH as [IH Hn]; [done|]. split; [|done].
    rewrite ujoin_cons. destruct (words_on 32 (ujoin [32] (w' :: ws) ++ t)) as [|v vs]; [done|].
    by rewrite IH.
Qed.

(** ** ps *)

(** A row that [ps -auxxx] prints: the user, the process number, eight more
    columns and the words of the command; with the blanks after each column. *)
Record ps_row := PsRow {
  pr_user : ustr; pr_pid : Z; pr_columns : list ustr; pr_pads : list nat; pr_command : list ustr }.

Definition ps_columns (r : ps_row) : list ustr := pr_user r :: int_text (pr_pid r) :: pr_columns r.

Definition ps_text (r : ps_row) : ustr :=
  columns (zip (ps_columns r) (pr_pads r)) ++ ujoin [32] (pr_command r) ++ [newline].

Definition ps_row_ok (r : ps_row) : Prop :=
  token (pr_user r) /\ 0 <= pr_pid r /\ Forall token (pr_columns r) /\ length (pr_columns r) = 8%nat /\
  length (pr_pads r) = 10%nat /\ pr_command r <> [] /\ Forall token (pr_command r).

(** What is to be reported of a row. *)
Definition ps_message (r : ps_row) : json :=
  JObj (map (fun e => (u e.1, JStr e.2))
          [("process", ujoin [32] (pr_command r)); ("pid", int_text (pr_pid r)); ("user", pr_user r)]).

Lemma ps_columns_tokens r : ps_row_ok r -> Forall token (ps_columns r).
Proof.
  intros (Hu & Hp & Hc & _). apply Forall_cons_2; [done|].
  apply Forall_cons_2; [by apply token_int|done].
Qed.

Lemma forall_zip_fst {A B : Type} (P : A -> Prop) (l : list A) (k : list B) :
  Forall P l -> Forall (fun e => P e.1) (zip l k).
Proof.
  intros Hl. revert k. induction Hl as [|a l Ha _ IH]; intros [|b k]; constructor; [done|apply IH].
Qed.

Lemma ps_text_scalar r : ps_row_ok r -> Forall scalar (ps_text r).
Proof.
  intros Hr. pose proof (ps_columns_tokens r Hr) as Hc. destruct Hr as (_ & _ & _ & _ & _ & _ & Hcmd).
  unfold ps_text. apply Forall_app. split; [|apply Forall_app; split].
  - apply scalar_columns, forall_zip_fst. eapply Forall_impl; [exact Hc|]. by intros w [].
  - by apply scalar_ujoin.
  - repeat constructor. unfold scalar, newline. lia.
Qed.

Lemma ps_words r : ps_row_ok r ->
  exists ws, words_on 32 (ps_text r) = ps_columns r ++ ws /\
    ustrip (ujoin [32] ws) = ujoin [32] (pr_command r).
Proof.
  intros Hr. pose proof (ps_columns_tokens r Hr) as Hc.
  destruct Hr as (_ & _ & _ & Hl & Hpads & Hne & Hcmd). unfold ps_text.
  rewrite words_columns by (by apply forall_zip_fst, tokens_words).
  rewrite fst_zip by (cbn [ps_columns length]; lia). eexists. split; [reflexivity|].
  destruct (words_ujoin (pr_command r) [newline]) as [-> _]; [done|done|done|].
  by apply ustrip_line, stripped_ujoin.
Qed.

Lemma ps_line_row stub self now r q : ps_row_ok r ->
  ps_line stub self (now, utf8_encode (ps_text r)) q =
    (Ok tt, q ++ if pr_pid r =? self then [] else [message_of stub (log_doc now "info" (ps_message r))]).
Proof.
  intros Hr. destruct (ps_words r Hr) as (ws & Hw & Hs). unfold ps_line. cbn [fst snd].
  erewrite bind_lift by (by apply utf8_roundtrip, ps_text_scalar).
  destruct Hr as (_ & Hp & _ & Hl & _ & _ & _).
  rewrite Hw. erewrite bind_lift by reflexivity. erewrite bind_lift by reflexivity.
  assert (drop 10 (ps_columns r ++ ws) = ws) as ->
    by (apply drop_app_length'; cbn [ps_columns length]; lia).
  rewrite Hs. erewrite bind_lift by (by apply uint_int_text).
  destruct (pr_pid r =? self); [by rewrite app_nil_r|reflexivity].
Qed.

Definition ps_doc (self : Z) (e : ustr * ps_row) : option (list (ustr * json)) :=
  if pr_pid e.2 =? self then None else Some (log_doc e.1 "info" (ps_message e.2)).

Lemma ps_message_wf r : ps_row_ok r -> jwf (ps_message r).
Proof.
  intros Hr. apply jwf_texts; [by apply (bool_decide_unpack _)|].
  destruct Hr as ([_ Hu] & Hp & _ & _ & _ & _ & Hc).
  repeat apply Forall_cons_2; [by apply scalar_ujoin|by apply token_int|done|constructor].
Qed.

(** The documents of a loop over rows. *)
Lemma docs_ok {A} (ok : A -> Prop) (doc : ustr * A -> option (list (ustr * json))) rows :
  (forall e d, Forall scalar e.1 -> ok e.2 -> doc e = Some d -> doc_ok d) ->
  Forall (fun e => Forall scalar e.1 /\ ok e.2) rows -> Forall doc_ok (omap doc rows).
Proof.
  intros Hd Hrows. apply Forall_forall. intros d Hin.
  apply list_elem_of_omap in Hin as (e & Hin & He). rewrite Forall_forall in Hrows.
  destruct (Hrows _ Hin) as [Hn Hr]. by eapply Hd.
Qed.

Lemma for_each_map {A B} (g : A -> B) (f : B -> Q unit) l :
  for_each f (map g l) = for_each (fun a => f (g a)) l.
Proof. induction l as [|a l IH]; [done|]. cbn. by rewrite IH. Qed.

Lemma ps_round_run stub self header rows q : Forall (fun e => Forall scalar e.1 /\ ps_row_ok e.2) rows ->
  ps_round stub self (header :: map (fun e => (e.1, utf8_encode (ps_text e.2))) rows) q =
    (Ok tt, q ++ map (message_of stub) (omap (ps_doc self) rows)).
Proof.
  intros Hrows. unfold ps_round. cbn [tail]. rewrite for_each_map. apply (for_each_reports _ (ps_doc self) stub).
  intros [now r] q' Hin. rewrite Forall_forall in Hrows. destruct (Hrows _ Hin) as [_ Hr].
  rewrite ps_line_row by done. unfold ps_doc. cbn. by destruct (pr_pid r =? self).
Qed.

Lemma ps_docs_ok self rows : Forall (fun e => Forall scalar e.1 /\ ps_row_ok e.2) rows ->
  Forall doc_ok (omap (ps_doc self) rows).
Proof.
  apply (docs_ok ps_row_ok). intros [now r] d Hn Hr. unfold ps_doc. cbn.
  destruct (pr_pid r =? self); [done|]. intros [= <-]. by apply log_doc_ok, ps_message_wf.
Qed.

(** Functional.  A round of the ps sensor on what [ps] prints, a header and
    rows in any layout of blanks, puts exactly one message for every process but
    the sensor itself, in order, with the process's command, number and user as
    they were printed. *)
Theorem ps_reports stub self header rows q :
  stub_ok stub -> Forall (fun e => Forall scalar e.1 /\ ps_row_ok e.2) rows ->
  exists msgs,
    ps_round stub self (header :: map (fun e => (e.1, utf8_encode (ps_text e.2))) rows) q =
      (Ok tt, q ++ msgs) /\
    reports stub (omap (ps_doc self) rows) msgs.
Proof.
  intros Hs Hrows. eexists. split; [by apply ps_round_run|]. by apply message_reports, ps_docs_ok.
Qed.

(** ** netstat *)

(** A row that [netstat -natp] prints: the columns with the blanks after each,
    addresses with their ports, and the owner, which may be unknown. *)
Record netstat_row := NetstatRow {
  nr_proto : ustr; nr_recvq : ustr; nr_sendq : ustr; nr_local : ustr * ustr; nr_remote : ustr * ustr;
  nr_state : ustr; nr_owner : option (ustr * ustr); nr_pads : list nat; nr_end : nat }.

Definition address_text (a : ustr * ustr) : ustr := a.1 ++ 58 :: a.2.

Definition owner_text (o : option (ustr * ustr)) : ustr :=
  match o with Some (pid, prog) => pid ++ 47 :: prog | None => [45] end.

Definition netstat_columns (r : netstat_row) : list ustr :=
  [nr_proto r; nr_recvq r; nr_sendq r; address_text (nr_local r); address_text (nr_remote r); nr_state r].

Definition netstat_text (r : netstat_row) : ustr :=
  (columns (zip (netstat_columns r) (nr_pads r)) ++ owner_text (nr_owner r)) ++
  replicate (nr_end r) 32 ++ [newline].

(** An address may hold colons, its port may not; and a program's name holds
    neither blanks nor slashes. *)
Definition address_ok (a : ustr * ustr) : Prop :=
  Forall scalar a.1 /\ Forall (fun c => is_strip c = false) a.1 /\ token a.2 /\ has_code 58 a.2 = false.

Definition owner_ok (o : option (ustr * ustr)) : Prop :=
  match o with
  | Some (pid, prog) => token pid /\ token prog /\ has_code 47 pid = false /\ has_code 47 prog = false
  | None => True
  end.

Definition netstat_row_ok (r : netstat_row) : Prop :=
  token (nr_proto r) /\ token (nr_recvq r) /\ token (nr_sendq r) /\ token (nr_state r) /\
  address_ok (nr_local r) /\ address_ok (nr_remote r) /\ owner_ok (nr_owner r) /\
  length (nr_pads r) = 6%nat.

Definition address_json (a : ustr * ustr) : json :=
  JObj (map (fun e => (u e.1, JStr e.2)) [("address", a.1); ("port", a.2)]).

(** What is to be reported of a row. *)
Definition netstat_message (r : netstat_row) : json :=
  let owner := default ([], []) (nr_owner r) in
  JObj [(u "proto", JStr (nr_proto r)); (u "recv-q", JStr (nr_recvq r)); (u "send-q", JStr (nr_sendq r));
        (u "state", JStr (nr_state r)); (u "local", address_json (nr_local r));
        (u "remote", address_json (nr_remote r)); (u "pid", JStr owner.1); (u "program", JStr owner.2)].

Lemma usplit_snoc c a b : has_code c b = false -> usplit c (a ++ c :: b) = usplit c a ++ [b].
Proof.
  intros Hb. induction a as [|d a IH]; cbn [app usplit].
  - rewrite Z.eqb_refl. by rewrite usplit_none.
  - destruct (d =? c); [by rewrite IH|]. rewrite IH. pose proof (usplit_nonempty c a).
    by destruct (usplit c a).
Qed.

Lemma removelast_snoc {A} (l : list A) a : removelast (l ++ [a]) = l.
Proof. rewrite removelast_app by done. by rewrite app_nil_r. Qed.

(** The last colon parts the port from the address, whatever the address is. *)
Lemma address_port_text a : has_code 58 a.2 = false -> address_port (address_text a) = a.
Proof.
  intros Ha. destruct a as [a p]. unfold address_port, address_text. cbn [fst snd].
  rewrite usplit_snoc by done. rewrite removelast_snoc, last_snoc, ujoin_usplit. done.
Qed.

Lemma token_address a : address_ok a -> token (address_text a).
Proof. intros (H1 & H2 & H3 & _). apply token_around; try done. unfold scalar. lia. Qed.

Lemma token_owner o : owner_ok o -> token (owner_text o).
Proof.
  destruct o as [[pid prog]|]; cbn.
  - intros ([[_ H1] H2] & H3 & _). apply token_around; try done. unfold scalar. lia.
  - intros _. split; [split; [done|by repeat constructor]|]. repeat constructor; unfold scalar; lia.
Qed.

Lemma netstat_tokens r : netstat_row_ok r -> Forall token (netstat_columns r).
Proof.
  intros (H1 & H2 & H3 & H4 & H5 & H6 & _). repeat apply Forall_cons_2; try done.
  - by apply token_address.
  - by apply token_address.
Qed.

Lemma netstat_scalar r : netstat_row_ok r -> Forall scalar (netstat_text r).
Proof.
  intros Hr. pose proof (netstat_tokens r Hr) as Hc. destruct Hr as (_ & _ & _ & _ & _ & _ & Ho & _).
  apply Forall_app. split; [apply Forall_app; split|apply Forall_app; split].
  - apply scalar_columns, forall_zip_fst. eapply Forall_impl; [exact Hc|]. by intros w [].
  - by apply token_owner.
  - apply Forall_replicate. unfold scalar. lia.
  - repeat constructor. unfold scalar, newline. lia.
Qed.

Lemma netstat_words r : netstat_row_ok r ->
  words_on 32 (ustrip (netstat_text r)) = netstat_columns r ++ [owner_text (nr_owner r)].
Proof.
  intros Hr. pose proof (netstat_tokens r Hr) as Hc.
  destruct Hr as ([H1 _] & _ & _ & _ & _ & _ & Ho & Hl). unfold netstat_text. rewrite ustrip_pad.
  - rewrite words_columns by (by apply forall_zip_fst, tokens_words).
    rewrite fst_zip by (cbn [netstat_columns length]; lia).
    apply token_owner in Ho as [[Hne Ho] _]. by rewrite words_on_last by (apply solid_word; done).
  - destruct (nr_pads r) as [|n pads]; [done|].
    assert (exists m, columns (zip (netstat_columns r) (n :: pads)) = nr_proto r ++ m) as [m ->]
      by (eexists; apply (eq_sym (app_assoc _ _ _))).
    rewrite <-app_assoc. apply stripped_between; [by apply solid_stripped|].
    by apply solid_stripped, token_owner.
  - apply Forall_app. split; [by apply Forall_replicate|by repeat constructor].
Qed.

Lemma owner_split o : owner_ok o ->
  (if has_code 47 (owner_text o) then
     match usplit 47 (owner_text o) with
     | [m_pid; m_prog] => ret (m_pid, m_prog)
     | _ => throw ValueError
     end
   else ret ([], [])) = ret (S := list ustr) (default ([], []) o).
Proof.
  destruct o as [[pid prog]|]; [|done]. cbn [owner_ok owner_text].
  intros (_ & _ & H1 & H2). rewrite usplit_app by done. rewrite usplit_none by done.
  unfold has_code. rewrite existsb_app. cbn. by rewrite orb_true_r.
Qed.

Lemma netstat_line_row stub now r q : netstat_row_ok r ->
  netstat_line stub (now, utf8_encode (netstat_text r)) q =
    (Ok tt, q ++ [message_of stub (log_doc now "info" (netstat_message r))]).
Proof.
  intros Hr. unfold netstat_line. cbn [fst snd].
  erewrite bind_lift by (by apply utf8_roundtrip, netstat_scalar).
  rewrite netstat_words by done. destruct Hr as (_ & _ & _ & _ & (_ & _ & _ & Hl) & (_ & _ & _ & Hr) & Ho & _).
  erewrite bind_lift by reflexivity. rewrite address_port_text by done.
  destruct (nr_local r) as [la lp] eqn:El. erewrite bind_lift by reflexivity.
  rewrite address_port_text by done. destruct (nr_remote r) as [ra rp] eqn:Er.
  rewrite last_snoc. cbn [default id]. rewrite owner_split by done. rewrite bind_ret.
  do 4 (erewrite bind_lift by reflexivity). unfold netstat_message. rewrite El, Er. done.
Qed.

Definition netstat_doc (e : ustr * netstat_row) : option (list (ustr * json)) :=
  Some (log_doc e.1 "info" (netstat_message e.2)).

Lemma netstat_message_wf r : netstat_row_ok r -> jwf (netstat_message r).
Proof.
  intros ([_ H1] & [_ H2] & [_ H3] & [_ H4] & (H5 & _ & [_ H6] & _) & (H7 & _ & [_ H8] & _) & Ho & _).
  assert (forall a, Forall scalar a.1 -> Forall scalar a.2 -> jwf (address_json a)) as Ha.
  { intros a Ha1 Ha2. apply jwf_texts; [by apply (bool_decide_unpack _)|]. by repeat apply Forall_cons_2. }
  assert (Forall scalar (default ([], []) (nr_owner r)).1 /\ Forall scalar (default ([], []) (nr_owner r)).2)
    as [Ho1 Ho2] by (destruct (nr_owner r) as [[pid prog]|]; [by destruct Ho as ([_ ?] & [_ ?] & _)|done]).
  apply jwf_obj. split; [by apply (bool_decide_unpack _)|].
  repeat (apply Forall_cons_2; [split; [apply scalar_u|]|]); try done; [by apply Ha|by apply Ha].
Qed.

Definition netstat_docs (rows : list (ustr * netstat_row)) : list (list (ustr * json)) :=
  map (fun e => log_doc e.1 "info" (netstat_message e.2)) rows.

Lemma netstat_docs_omap rows : omap netstat_doc rows = netstat_docs rows.
Proof. induction rows as [|e rows IH]; [done|]. cbn. by f_equal. Qed.

Lemma netstat_round_run stub header1 header2 rows q :
  Forall (fun e => Forall scalar e.1 /\ netstat_row_ok e.2) rows ->
  netstat_round stub (header1 :: header2 :: map (fun e => (e.1, utf8_encode (netstat_text e.2))) rows) q =
    (Ok tt, q ++ map (message_of stub) (netstat_docs rows)).
Proof.
  intros Hrows. rewrite <-netstat_docs_omap.
  change (netstat_round stub (header1 :: header2 :: ?l)) with (for_each (netstat_line stub) (drop 0 l)).
  rewrite drop_0, for_each_map. apply (for_each_reports _ netstat_doc stub).
  intros [now r] q' Hin. rewrite Forall_forall in Hrows. destruct (Hrows _ Hin) as [_ Hr].
  by rewrite netstat_line_row.
Qed.

Lemma netstat_docs_ok rows : Forall (fun e => Forall scalar e.1 /\ netstat_row_ok e.2) rows ->
  Forall doc_ok (netstat_docs rows).
Proof.
  rewrite <-netstat_docs_omap. apply (docs_ok netstat_row_ok). intros e d Hn Hr. unfold netstat_doc.
  intros [= <-]. by apply log_doc_ok, netstat_message_wf.
Qed.

(** Functional.  A round of the netstat sensor on what [netstat -natp]
    prints, two header lines and rows in any layout of blanks, puts exactly one
    message for every row, in order, with every column as it was printed: the
    last colon of an address parts the port, also in IPv6, and a connection of
    an unknown owner has empty texts. *)
Theorem netstat_reports stub header1 header2 rows q :
  stub_ok stub -> Forall (fun e => Forall scalar e.1 /\ netstat_row_ok e.2) rows ->
  exists msgs,
    netstat_round stub (header1 :: header2 ::
                        map (fun e => (e.1, utf8_encode (netstat_text e.2))) rows) q =
      (Ok tt, q ++ msgs) /\
    reports stub (map (fun e => log_doc e.1 "info" (netstat_message e.2)) rows) msgs.
Proof.
  intros Hs Hrows. eexists. split; [by apply netstat_round_run|]. by apply message_reports, netstat_docs_ok.
Qed.

(** What [netstat] prints of a program whose name has a blank or a slash is
    misread: of [sshd: root] neither number nor name is found, and a kernel
    worker's [kworker/0:1] ends the sensor with [ValueError]. *)
Definition owned_row (owner : string) : ustr * bytes :=
  (u "now", utf8_encode (u ("tcp 0 0 10.0.0.1:22 10.0.0.2:50000 ESTABLISHED " +:+ owner))).

Theorem netstat_program_misread :
  netstat_line [] (owned_row "812/sshd: root") [] =
    (Ok tt, [message_of [] (log_doc (u "now") "info"
      (netstat_message (NetstatRow (u "tcp") (u "0") (u "0") (u "10.0.0.1", u "22")
                          (u "10.0.0.2", u "50000") (u "ESTABLISHED") None [] 0)))]) /\
  netstat_line [] (owned_row "77/kworker/0:1") [] = (Raise ValueError, []).
Proof. by vm_compute. Qed.

(** ** lsof *)

Definition lsof_bits (line : ustr) : list ustr := usplit 32 (collapse line).

Definition lsof_level (line : ustr) : string :=
  default "debug" (dict_get (default [] (lsof_bits line !! 4%nat)) lsof_type_map).

(** What is to be reported of a line: nothing where the fifth column is missing. *)
Definition lsof_doc (e : ustr * ustr) : option (list (ustr * json)) :=
  if (length (lsof_bits e.2) <? 5)%nat then None else Some (line_doc e.1 (lsof_level e.2) e.2).

Definition encoded (rows : list (ustr * ustr)) : lines := map (fun e => (e.1, utf8_encode e.2)) rows.

Lemma lsof_line_row stub now line q : Forall scalar line -> length (lsof_bits line) <> 4%nat ->
  lsof_line stub (now, utf8_encode line) q =
    (Ok tt, q ++ match lsof_doc (now, line) with Some d => [message_of stub d] | None => [] end).
Proof.
  intros Hl Hb. unfold lsof_line, lsof_doc, lsof_level. cbn [fst snd].
  erewrite bind_lift by (by apply utf8_roundtrip). fold (lsof_bits line).
  destruct (length (lsof_bits line) <? 4)%nat eqn:E.
  - apply Nat.ltb_lt in E. rewrite (proj2 (Nat.ltb_lt _ _)) by lia. by rewrite app_nil_r.
  - apply Nat.ltb_ge in E. rewrite (proj2 (Nat.ltb_ge _ _)) by lia.
    destruct (lookup_lt_is_Some_2 (lsof_bits line) 4) as [t Ht]; [lia|].
    rewrite Ht. erewrite bind_lift by (unfold item; by rewrite Ht). done.
Qed.

Definition lsof_row_ok (e : ustr * ustr) : Prop :=
  Forall scalar e.1 /\ Forall scalar e.2 /\ length (lsof_bits e.2) <> 4%nat.

Lemma lsof_run exec stub config z rows q :
  repeat_interval config = JInt z -> exec [u "lsof"; u "-r"; int_text z] 0%nat = encoded rows ->
  Forall lsof_row_ok rows ->
  lsof exec true stub config q = (Ok true, q ++ map (message_of stub) (omap lsof_doc rows)).
Proof.
  intros Hz He Hrows. unfold lsof, print_interval. rewrite Hz, He.
  erewrite bind_lift by reflexivity. unfold encoded. erewrite bind_step; [reflexivity|].
  rewrite for_each_map. apply (for_each_reports _ lsof_doc stub).
  intros [now line] q' Hin. rewrite Forall_forall in Hrows. destruct (Hrows _ Hin) as (_ & Hl & Hb).
  by apply lsof_line_row.
Qed.

Lemma lsof_docs_ok rows : Forall lsof_row_ok rows -> Forall doc_ok (omap lsof_doc rows).
Proof.
  apply (docs_ok (fun l => Forall scalar l /\ length (lsof_bits l) <> 4%nat)).
  intros [now line] d Hn [Hl _]. unfold lsof_doc. cbn [fst snd] in *.
  destruct (length (lsof_bits line) <? 5)%nat; [done|]. intros [= <-]. by apply line_doc_ok.
Qed.

(** Functional.  When the output of [lsof] has ended, the lsof sensor
    reports every line with at least five columns unchanged, at the level of its
    fifth, and no other; before the end it reports nothing, and [lsof -r], which
    repeats until it is killed, does not end. *)
Theorem lsof_reports exec stub config z rows q :
  stub_ok stub -> repeat_interval config = JInt z ->
  exec [u "lsof"; u "-r"; int_text z] 0%nat = encoded rows ->
  Forall (fun e => Forall scalar e.1 /\ Forall scalar e.2 /\ length (lsof_bits e.2) <> 4%nat) rows ->
  lsof exec false stub config q = (Ok false, q) /\
  exists msgs, lsof exec true stub config q = (Ok true, q ++ msgs) /\
    reports stub (omap lsof_doc rows) msgs.
Proof.
  intros Hs Hz He Hrows. split; [unfold lsof, print_interval; by rewrite Hz|].
  eexists. split; [by eapply lsof_run|]. by apply message_reports, lsof_docs_ok.
Qed.

Lemma for_each_app {T A} (f : A -> M T unit) l1 l2 q :
  for_each f (l1 ++ l2) q = bind (for_each f l1) (fun _ => for_each f l2) q.
Proof.
  revert q. induction l1 as [|a l1 IH]; intros q; [done|]. cbn [for_each app]. unfold bind in *.
  destruct (f a q) as [[[]|e] q']; [apply IH|done].
Qed.

(** A line of exactly four columns, which three words and the end of the line
    are, passes the guard and ends the sensor: the lines after it are lost. *)
Theorem lsof_short_line_ends stub rows now line post q :
  Forall (fun e => Forall scalar e.2 /\ length (lsof_bits e.2) <> 4%nat) rows ->
  Forall scalar line -> length (lsof_bits line) = 4%nat ->
  for_each (lsof_line stub) (encoded rows ++ (now, utf8_encode line) :: post) q =
    (Raise IndexError, q ++ map (message_of stub) (omap lsof_doc rows)).
Proof.
  intros Hrows Hl Hb. rewrite for_each_app. erewrite bind_step.
  2: { unfold encoded. rewrite for_each_map. apply (for_each_reports _ lsof_doc stub).
       intros [n l] q' Hin. rewrite Forall_forall in Hrows. destruct (Hrows _ Hin) as (Hs & Hn).
       by apply lsof_line_row. }
  cbn [for_each]. unfold lsof_line at 1. cbn [fst snd].
  unfold bind at 1. unfold bind at 1. rewrite utf8_roundtrip by done. cbn [lift].
  fold (lsof_bits line). rewrite Hb. cbn.
  assert (lsof_bits line !! 4%nat = None) as Hnone by (apply lookup_ge_None; lia).
  unfold bind, lift, item. by rewrite Hnone.
Qed.

(** ** tcpdump *)

Definition tcpdump_doc (e : ustr * ustr) : option (list (ustr * json)) := Some (line_doc e.1 "info" e.2).

Lemma tcpdump_reports exec stub config args rows q :
  stub_ok stub -> tcpdump_args config = Ok args -> exec args 0%nat = encoded rows ->
  Forall (fun e => Forall scalar e.1 /\ Forall scalar e.2) rows ->
  exists msgs, tcpdump exec stub config q = (Ok tt, q ++ msgs) /\
    reports stub (map (fun e => line_doc e.1 "info" e.2) rows) msgs.
Proof.
  intros Hs Ha He Hrows. unfold tcpdump. eexists. split.
  - erewrite bind_lift by exact Ha. rewrite He. unfold encoded. rewrite for_each_map.
    apply (for_each_reports _ tcpdump_doc stub).
    intros [now line] q' Hin. rewrite Forall_forall in Hrows. destruct (Hrows _ Hin) as [_ Hl].
    unfold tcpdump_line. cbn [fst snd]. erewrite bind_lift by (by apply utf8_roundtrip). done.
  - assert (omap tcpdump_doc rows = map (fun e => line_doc e.1 "info" e.2) rows) as <-
      by (clear; induction rows as [|e rows IH]; [done|]; cbn; by f_equal).
    apply message_reports; [done|]. apply (docs_ok (Forall scalar)); [|done].
    intros e d Hn Hr. unfold tcpdump_doc. intros [= <-]. by apply line_doc_ok.
Qed.

(** ** tasklist *)

Definition quoted (s : ustr) : ustr := 34 :: s ++ [34].

(** A row of [tasklist /FO CSV]. *)
Definition tasklist_text (image : ustr) (pid : Z) (session : ustr) (number : Z) (memory : ustr) : ustr :=
  quoted image ++ 44 :: quoted (int_text pid) ++ 44 :: quoted session ++ 44 ::
  quoted (int_text number) ++ 44 :: quoted memory ++ [13; 10].

Lemma lstrip_quotes_id s t : s <> [] -> Forall (fun c => c <> 34) s -> lstrip_quotes (s ++ t) = s ++ t.
Proof.
  intros Hne Hs. destruct Hs as [|c s Hc Hs]; [done|]. cbn. by rewrite (proj2 (Z.eqb_neq _ _)).
Qed.

Lemma strip_quotes_quoted s : s <> [] -> Forall (fun c => c <> 34) s -> strip_quotes (quoted s) = s.
Proof.
  intros Hne Hs. unfold strip_quotes, quoted. cbn [lstrip_quotes Z.eqb Pos.eqb].
  rewrite lstrip_quotes_id by done. rewrite reverse_snoc. cbn [lstrip_quotes Z.eqb Pos.eqb].
  rewrite <-(app_nil_r (reverse s)), lstrip_quotes_id.
  - by rewrite app_nil_r, reverse_involutive.
  - intros H. apply Hne. apply (f_equal reverse) in H. by rewrite reverse_involutive in H.
  - by apply Forall_reverse.
Qed.

Lemma int_text_codes c z : 0 <= z -> (c < 48 \/ 57 < c) ->
  has_code c (int_text z) = false /\ Forall (fun d => d <> c) (int_text z).
Proof.
  intros Hz Hc. unfold int_text. destruct (z <? 0) eqn:E; [lia|].
  destruct (digits_spec z Hz) as [Hd _].
  assert (Forall (fun d => d <> c) (digits z)) as Hf.
  { eapply Forall_impl; [exact Hd|]. intros d. cbn. unfold is_digit. lia. }
  split; [|done]. unfold has_code. destruct (existsb _ _) eqn:Ex; [|done].
  apply existsb_exists in Ex as (d & Hin & He). apply Z.eqb_eq in He as <-.
  rewrite Forall_forall in Hf. by destruct (Hf c (proj2 (list_elem_of_In _ _) Hin)).
Qed.

Lemma quoted_code c s : c <> 34 -> has_code c (quoted s) = has_code c s.
Proof.
  intros Hc. unfold has_code, quoted. cbn [existsb]. rewrite existsb_app. cbn.
  rewrite (proj2 (Z.eqb_neq c 34)) by done. by rewrite orb_false_r.
Qed.

(** Error.  The tasklist sensor splits the columns at commas, and the
    memory column holds one from a thousand kilobytes on: of such a row only the
    part before it is reported, with the opening quotation mark, as are the image
    and session names with both. *)
Theorem tasklist_memory_cut stub self now image pid session number m1 m2 q :
  has_code 44 image = false -> has_code 44 session = false -> has_code 44 m1 = false ->
  0 <= pid -> 0 <= number -> pid <> self ->
  Forall scalar (tasklist_text image pid session number (m1 ++ 44 :: m2)) ->
  tasklist_line stub self
      (now, utf8_encode (tasklist_text image pid session number (m1 ++ 44 :: m2))) q =
    (Ok tt, q ++ [message_of stub (log_doc now "info"
      (JObj [(u "ImageName", JStr (quoted image)); (u "PID", JStr (int_text pid));
             (u "SessionName", JStr (quoted session)); (u "SessionNumber", JStr (int_text number));
             (u "MemUsage", JStr (34 :: m1))]))]).
Proof.
  intros Hi Hs Hm Hp Hn Hne Hsc. destruct (int_text_codes 44 pid Hp) as [Hp1 _]; [lia|].
  destruct (int_text_codes 44 number Hn) as [Hn1 _]; [lia|].
  destruct (int_text_codes 34 pid Hp) as [_ Hp2]; [lia|].
  destruct (int_text_codes 34 number Hn) as [_ Hn2]; [lia|].
  unfold tasklist_line. cbn [fst snd]. erewrite bind_lift by (by apply utf8_roundtrip).
  assert (exists rest, words_on 44 (tasklist_text image pid session number (m1 ++ 44 :: m2)) =
    [quoted image; quoted (int_text pid); quoted session; quoted (int_text number); 34 :: m1] ++ rest)
    as [rest ->].
  { unfold tasklist_text. do 4 (rewrite words_on_word by (done || by rewrite quoted_code)).
    unfold quoted. cbn [app]. rewrite <-!app_assoc. cbn [app].
    change (34 :: m1 ++ 44 :: ?x) with ((34 :: m1) ++ 44 :: x). rewrite words_on_word by done.
    by eexists. }
  do 5 (erewrite bind_lift by reflexivity).
  rewrite !strip_quotes_quoted by (done || by apply int_text_solid).
  erewrite bind_lift by (by apply uint_int_text).
  rewrite (proj2 (Z.eqb_neq _ _)) by done. done.
Qed.

(** ** The report on a file *)

Lemma hash_chunks_all `{Sha512Laws} fuel : forall h s, (length s < fuel)%nat ->
  hash_chunks fuel h s = hash_update h s.
Proof.
  induction fuel as [|fuel IH]; intros h s Hs; [lia|]. cbn [hash_chunks].
  assert (exists k, Z.to_nat 4096 = S k) as [k Hk]
    by (exists (pred (Z.to_nat 4096)); by rewrite Nat.succ_pred_pos by lia).
  rewrite Hk. destruct s as [|b s]; [cbn; by rewrite hash_update_nil|].
  cbn [take drop]. rewrite IH.
  - rewrite hash_update_app. f_equal. cbn. f_equal. apply take_drop.
  - cbn [length] in Hs. rewrite length_drop. lia.
Qed.

(** The digest of the report is that of the whole content, however it is cut into
    chunks. *)
Theorem report_digest `{Sha512Laws} f :
  exists d, report_on_file (Some f) = JObj d /\
    dict_get (u "sha512") d = Some (JStr (hash_hex (hash_update hash_init (st_content f)))) /\
    dict_get (u "size") d = Some (JInt (st_size f)).
Proof.
  eexists. split; [reflexivity|]. split; [|done].
  rewrite hash_chunks_all by lia. done.
Qed.

(** * On small listings *)

Definition small_stub : list (ustr * json) := [(u "sensor_id", JStr (u "ab"))].

Lemma small_stub_ok : stub_ok small_stub.
Proof.
  split; [by apply (bool_decide_unpack _)|]. constructor; [split; apply scalar_u|constructor].
Qed.

(** Text and tokens are recognised by evaluation. *)
Lemma scalar_check w : forallb (fun c => (0 <=? c) && (c <? 55296)) w = true -> Forall scalar w.
Proof.
  rewrite forallb_forall. intros Hw. apply Forall_forall. intros c Hc.
  apply list_elem_of_In in Hc. specialize (Hw c Hc). unfold scalar. lia.
Qed.

Definition token_b (w : ustr) : bool :=
  negb (is_nil w) && forallb (fun c => negb (is_strip c) && (0 <=? c) && (c <? 55296)) w.

Lemma token_b_sound w : token_b w = true -> token w.
Proof.
  unfold token_b. intros [Hn Hw]%andb_prop. rewrite forallb_forall in Hw.
  assert (forall c, c ∈ w -> is_strip c = false /\ scalar c) as H.
  { intros c Hc. apply list_elem_of_In in Hc. specialize (Hw c Hc).
    unfold scalar. destruct (is_strip c); [done|]. cbn in Hw. split; [done|lia]. }
  split; [split; [by destruct w|]|]; apply Forall_forall; intros c Hc; by apply H.
Qed.

Definition small_ps : ps_row :=
  PsRow (u "root") 1 (map u ["0.0"; "0.0"; "21748"; "1808"; "pts/0"; "Ss+"; "19:54"; "0:00"])
    [9; 2; 2; 2; 2; 2; 4; 2; 3; 0]%nat [u "/bin/bash"; u "run.sh"].

Lemma small_ps_ok : ps_row_ok small_ps.
Proof.
  split_and!; try done.
  - by apply token_b_sound.
  - repeat (apply Forall_cons_2; [by apply token_b_sound|]). constructor.
  - repeat (apply Forall_cons_2; [by apply token_b_sound|]). constructor.
Qed.

Lemma ps_reports_witness :
  exists msgs,
    ps_round small_stub 7 ((u "now", []) :: map (fun e => (e.1, utf8_encode (ps_text e.2)))
                             [(u "now", small_ps)]) [] = (Ok tt, [] ++ msgs) /\
    reports small_stub (omap (ps_doc 7) [(u "now", small_ps)]) msgs.
Proof.
  apply (ps_reports small_stub 7 (u "now", []) [(u "now", small_ps)] []).
  - exact small_stub_ok.
  - constructor; [|constructor]. split; [apply scalar_u|exact small_ps_ok].
Defined.

Definition small_netstat : netstat_row :=
  NetstatRow (u "tcp6") (u "0") (u "0") (u "::", u "22") (u "fe80::1", u "50000") (u "ESTABLISHED")
    (Some (u "12", u "python")) [7; 5; 1; 9; 8; 4]%nat 3.

Lemma small_netstat_ok : netstat_row_ok small_netstat.
Proof.
  split_and!; try done; try by apply token_b_sound.
  - split_and!; [apply scalar_u|by repeat constructor|by apply token_b_sound|done].
  - split_and!; [apply scalar_u|by repeat constructor|by apply token_b_sound|done].
  - split_and!; [by apply token_b_sound|by apply token_b_sound|done|done].
Qed.

Lemma netstat_reports_witness :
  exists msgs,
    netstat_round small_stub ((u "now", []) :: (u "now", []) ::
        map (fun e => (e.1, utf8_encode (netstat_text e.2))) [(u "now", small_netstat)]) [] =
      (Ok tt, [] ++ msgs) /\
    reports small_stub (map (fun e => log_doc e.1 "info" (netstat_message e.2))
                          [(u "now", small_netstat)]) msgs.
Proof.
  apply (netstat_reports small_stub (u "now", []) (u "now", []) [(u "now", small_netstat)] []).
  - exact small_stub_ok.
  - constructor; [|constructor]. split; [apply scalar_u|exact small_netstat_ok].
Defined.

Definition small_lsof : list (ustr * ustr) :=
  [(u "now", u "bash 7 root cwd DIR" ++ [10]); (u "now", u "=======" ++ [10])].

Lemma lsof_reports_witness :
  lsof (fun _ _ => encoded small_lsof) false small_stub [] [] = (Ok false, []) /\
  exists msgs, lsof (fun _ _ => encoded small_lsof) true small_stub [] [] = (Ok true, [] ++ msgs) /\
    reports small_stub (omap lsof_doc small_lsof) msgs.
Proof.
  apply (lsof_reports (fun _ _ => encoded small_lsof) small_stub [] 15 small_lsof []).
  - exact small_stub_ok.
  - reflexivity.
  - reflexivity.
  - repeat (apply Forall_cons_2; [split_and!; [by apply scalar_check..|by vm_compute]|]). constructor.
Defined.

Lemma tasklist_memory_cut_witness :
  tasklist_line small_stub 7
      (u "now", utf8_encode (tasklist_text (u "csrss.exe") 4 (u "Services") 0 (u "4" ++ 44 :: u "096 K"))) [] =
    (Ok tt, [] ++ [message_of small_stub (log_doc (u "now") "info"
      (JObj [(u "ImageName", JStr (quoted (u "csrss.exe"))); (u "PID", JStr (int_text 4));
             (u "SessionName", JStr (quoted (u "Services"))); (u "SessionNumber", JStr (int_text 0));
             (u "MemUsage", JStr (34 :: u "4"))]))]).
Proof.
  apply (tasklist_memory_cut small_stub 7 (u "now") (u "csrss.exe") 4 (u "Services") 0 (u "4") (u "096 K") []);
    [done|done|done|lia|lia|lia|].
  apply scalar_check. by vm_compute.
Defined.
