(* ===== verification/LsofSensor.v ===== *)
(** The stand-alone lsof sensor, [sensors/dummy/lsof_sensor.py]: the sensor from
    which the wrapper was made.  It takes the same way to its registration, but
    trusts whoever answers, ends instead of retrying, and reads its public key
    back from its file to deregister.

    Functions whose text the wrapper took over are the definitions of [Wrapper],
    [WrapperConfig] and [Http]; the others are here.  The options are those of a
    [config], whose other fields are not used.  The process that [lsof] starts
    and the log drain are the tasks of [Wrapper]. *)

From Stdlib Require Import QArith.
From S2P Require Import Prelude Json PyText Http WrapperConfig Wrapper Protocol WrapperRun Deployed CommandSensors.
#[local] Open Scope Z_scope.

Definition __VERSION__ : string := "1.20171117".

(** * Requests *)

Section Lsof.
Context {Wd : World} (self : config).
(** [open(path, 'r').read()], and [RSA.importKey(text).has_private()] *)
Context (read_r : history -> string -> res ustr) (has_private : ustr -> res bool).
(** [hashlib.md5(RSA.importKey(pem).exportKey("DER")).hexdigest()] *)
Context (der_md5 : json -> res string).

Definition get_root_ca_pubkey : W (bool * json) := Wrapper.get_root_ca_pubkey self.
Definition wait_for_sensor_api (fuel : nat) : W bool := Wrapper.wait_for_sensor_api self fuel.
Definition rsa_private_fingerprint (pem_data : json) : res string :=
  Wrapper.rsa_private_fingerprint pem_data.
Definition rsa_public_fingerprint (pem_data : json) : res string :=
  let? md5digest := der_md5 pem_data in
  insert_char_every_n_chars md5digest ":" 2.

Definition get_private_key_and_csr : W (bool * json * json * json) :=
  do uri <- lift (construct_api_uri (opts self) "/ca/register/private_key/new" true);
  do hostname <- lift (opt_json self "sensor_hostname");
  do port <- lift (opt_json self "sensor_port");
  do ca <- lift (ca_path self);
  do pki_priv_res <- exchange
    (Request CuRequests PUT uri (JsonPayload (obj [("hostname", hostname); ("port", port)]))
       (Some ca) None);
  if status_code pki_priv_res =? 200 then
    do pki_priv_json <- response_json pki_priv_res;
    do private_key <- lift (json_item pki_priv_json "private_key");
    do certificate_request <- lift (json_item pki_priv_json "certificate_request");
    do challenge <- lift (json_item pki_priv_json "challenge");
    ret (true, private_key, certificate_request, challenge)
  else
    do_ log_messages_of pki_priv_res;
    ret (false, JStr [], JStr [], JObj []).

Definition get_signed_public_key (csr : json) : W (bool * json) :=
  do uri <- lift (construct_api_uri (opts self) "/ca/register/public_key/signed" true);
  do ca <- lift (ca_path self);
  do pub_key_res <- exchange
    (Request CuRequests PUT uri (JsonPayload (obj [("certificate_request", csr)])) (Some ca) None);
  if status_code pub_key_res =? 200 then
    do pub_key_json <- response_json pub_key_res;
    do certificate <- lift (json_item pub_key_json "certificate");
    ret (true, certificate)
  else
    do_ log_messages_of pub_key_res;
    ret (false, JStr []).

Definition register_sensor (pub_key : json) : W json :=
  do uri <- lift (sensor_uri self "/register");
  do pubkey <- lift (pubkey_b64 pub_key);
  do sensor <- lift (opt_json self "sensor_id");
  do virtue <- lift (opt_json self "virtue_id");
  do user <- lift (opt_json self "username");
  do hostname <- lift (opt_json self "sensor_hostname");
  do port <- lift (opt_json self "sensor_port");
  let payload := obj
    [ ("sensor", sensor); ("virtue", virtue); ("user", user); ("public_key", pubkey);
      ("hostname", hostname); ("port", port);
      ("name", JStr (u ("lsof-sensor-" +:+ __VERSION__))) ] in
  do ca <- lift (ca_path self);
  do public_key_path <- lift (opt_str self "public_key_path");
  do private_key_path <- lift (opt_str self "private_key_path");
  do reg_res <- exchange
    (Request CuRequests PUT uri (JsonPayload payload) (Some ca)
       (Some (PStr (abspath public_key_path), PStr (abspath private_key_path))));
  if status_code reg_res =? 200 then response_json reg_res else throw SystemExit.

(** The subclasses of [ValueError] included. *)
Definition is_value_error (e : exn) : bool :=
  match e with ValueError | UnicodeDecodeError | JSONDecodeError => true | _ => false end.

(** [load_public_key(key_path)] and [load_private_key(key_path)]: the text. *)
Definition load_key (private : bool) (key_path : pyval) : W ustr :=
  catch
    (match key_path with
     | PStr path =>
         do w <- get;
         do key_string <- lift (read_r (trace w) path);
         do p <- lift (has_private key_string);
         if Bool.eqb p private then ret key_string else throw ValueError
     | PNone => throw ValueError
     | _ => throw TypeError
     end)
    (fun e => if is_value_error e then throw SystemExit else throw e).
Definition load_public_key : pyval -> W ustr := load_key false.
Definition load_private_key : pyval -> W ustr := load_key true.

Definition deregister_sensor : W unit :=
  do uri <- lift (sensor_uri self "/deregister");
  do public_key_path <- lift (opt self "public_key_path");
  do key_string <- load_public_key public_key_path;
  do pubkey <- lift (pubkey_b64 (JStr key_string));
  do sensor <- lift (opt_json self "sensor_id");
  do ca <- lift (ca_path self);
  do private_key_path <- lift (opt self "private_key_path");
  do _ <- exchange
    (Request Requests PUT uri (FormPayload [("sensor", sensor); ("public_key", pubkey)]) (Some ca)
       (Some (public_key_path, private_key_path)));
  ret tt.

(** [fuel] rounds of [sync_sensor]; [true] when it was cancelled. *)
Fixpoint sync_loop (fuel : nat) (r : request) : W bool :=
  match fuel with
  | O => ret false
  | S fuel =>
      do reg_res <- exchange r;
      do_ (if status_code reg_res =? 200 then ret tt
           else do _ <- response_json reg_res; ret tt);
      do_ sleep 120;
      do w <- get;
      if check_cancellation (trace w) then ret true else sync_loop fuel r
  end.

Definition sync_sensor (fuel : nat) (pub_key : json) : W bool :=
  do pubkey <- lift (pubkey_b64 pub_key);
  do uri <- lift (sensor_uri self "/sync");
  do sensor <- lift (opt_json self "sensor_id");
  do ca <- lift (ca_path self);
  do public_key_path <- lift (opt self "public_key_path");
  do private_key_path <- lift (opt self "private_key_path");
  sync_loop fuel
    (Request CuRequests PUT uri (JsonPayload (obj [("sensor", sensor); ("public_key", pubkey)]))
       (Some ca) (Some (public_key_path, private_key_path))).

(** * [main] *)

(** [sys.exit] in a task ends the program; any other exception fails the
    [join]. *)
Definition joined_task {A} (m : W A) : W A :=
  catch m (fun e => if decide (e = SystemExit) then throw SystemExit else throw TaskError).

(** The permissions: [0o600], and for the private key [0x600]. *)
Definition public_mode : Z := 384.
Definition private_mode : Z := 1536.

Definition store_key (path_option : string) (key : json) (mode : Z) : W unit :=
  do path <- lift (opt_str self path_option);
  do_ write_file path (Ok key);
  happen (Chmod path mode).

Definition certificate_cycle : W json :=
  do (rc_success, _) <- joined_task get_root_ca_pubkey;
  do_ (if negb rc_success then throw SystemExit else ret tt);
  do (pki_priv_success, priv_key, csr, challenge_data) <- joined_task get_private_key_and_csr;
  do_ (if negb pki_priv_success then throw SystemExit else ret tt);
  do _ <- lift (rsa_private_fingerprint priv_key);
  do _ <- lift (json_item challenge_data "url");
  do _ <- lift (json_item challenge_data "token");
  do path <- lift (challenge_path challenge_data);
  do _ <- lift (opt self "sensor_hostname");
  do _ <- lift (opt self "sensor_port");
  do_ happen (ServerUp false [(path, "http_01_savior_challenge")]);
  do (pub_key_success, pub_key) <- joined_task (get_signed_public_key csr);
  do_ (if negb pub_key_success then throw SystemExit else ret tt);
  do_ happen ServerCancelled;
  do_ store_key "public_key_path" pub_key public_mode;
  do_ store_key "private_key_path" priv_key private_mode;
  ret pub_key.

(** The two routes of the HTTPS server; there is no actuation. *)
Definition https_routes (i : ident) : list route :=
  [ Route "/sensor/{uuid}/registered" "route_registration_ping"
      (always (route_registration_ping i));
    Route "/sensor/status" "route_sensor_status" (always (fun _ => route_sensor_status i)) ].

Definition serve (pub_key : json) : W unit :=
  do w <- get;
  do_ lift (load_cert_chain (trace w));
  do_ happen (ServerUp true
    (map (fun r => (u (route_path r), route_name r)) (https_routes (Ident "" "" "" false))));
  do reg_data <- joined_task (register_sensor pub_key);
  do hosts <- lift (json_item reg_data "kafka_bootstrap_hosts");
  do topic <- lift (json_item reg_data "sensor_topic");
  do_ happen (Spawned (LogDrain hosts topic));
  do default_configuration <- lift (json_item reg_data "default_configuration");
  do configuration <- lift (loads_value default_configuration);
  do_ happen (Spawned (CallSensingMethod configuration));
  happen (Spawned (SyncSensor pub_key)).

Definition main (fuel : nat) : W bool :=
  in_task_group
    (do ready <- joined_task (wait_for_sensor_api fuel);
     if negb ready then ret false
     else
       do pub_key <- certificate_cycle;
       do_ serve pub_key;
       do_ happen Notified;
       do_ happen CancelledAll;
       do_ deregister_sensor;
       ret true).
End Lsof.

(** The handlers, the same as the wrapper's. *)
Definition http_handler `{R : Routes} (i : ident) : nat -> bytes -> list bytes -> H bool :=
  Http.http_handler (https_routes i).
Definition create_challenge_handler (challenge : json) : H unit := challenge_handler challenge.
Definition log_drain (self : config) := Wrapper.log_drain self.

(** * The sensor *)

Definition lsof_doc (sensor_id : string) (now : ustr) (level : string) (message : ustr)
    : list (ustr * json) :=
  [(u "message", JStr message); (u "timestamp", JStr now); (u "sensor", JStr (u sensor_id));
   (u "level", JStr (u level))].

(** One line of the process, which is handled as it comes. *)
Definition lsof_line (sensor_id : string) (e : ustr * bytes) : Q unit :=
  do line <- lift (utf8_decode e.2);
  let line_bits := usplit 32 (collapse line) in
  if (length line_bits <? 4)%nat then ret tt
  else
    do line_type <- lift (item line_bits 4);
    let log_level := default "debug" (dict_get line_type lsof_type_map) in
    put (dumps (JObj (lsof_doc sensor_id e.1 log_level line))).

(** [lsof(sensor_id, default_config)] on the lines that the process [lsof -r]
    has written so far. *)
Definition lsof (exec : list ustr -> lines) (sensor_id : string) (default_config : json) : Q unit :=
  match default_config with
  | JObj config =>
      do_ lift (print_interval config);
      let repeat_delay := match repeat_interval config with JInt z => int_text z | _ => [] end in
      for_each (lsof_line sensor_id) (exec [u "lsof"; u "-r"; repeat_delay])
  | _ => throw AttributeError
  end.

(** * Options and identity *)

Definition options : list opt_spec :=
  [ OptSpec ["--public-key-path"] "public_key_path" PNone TStr;
    OptSpec ["--private-key-path"] "private_key_path" PNone TStr;
    OptSpec ["--ca-key-path"] "ca_key_path" (PStr "./cert") TStr;
    OptSpec ["-a"; "--api-host"] "api_host" (PStr "localhost") TStr;
    OptSpec ["--api-https-port"] "api_https_port" (PInt 17504) TInt;
    OptSpec ["--api-http-port"] "api_http_port" (PInt 17141) TInt;
    OptSpec ["--api-version"] "api_version" (PStr "v1") TStr;
    OptSpec ["--sensor-id"] "sensor_id" PNone TStr;
    OptSpec ["--virtue-id"] "virtue_id" PNone TStr;
    OptSpec ["--username"] "username" PNone TStr;
    OptSpec ["--sensor-hostname"] "sensor_hostname" PNone TStr;
    OptSpec ["--sensor-port"] "sensor_port" (PInt 11000) TInt;
    OptSpec ["--delay-start"] "delay_start" (PInt 0) TInt;
    OptSpec ["--api-connect-retry-max"] "api_retry_max" (PFloat 30) TFloat;
    OptSpec ["--api-connect-retry-wait"] "api_retry_wait" (PFloat (1 # 2)) TFloat ].

Section Identify.
Context (os : host).

(** ["USERNAME" is os.environ] is false as well. *)
Definition check_username : I unit :=
  when_none "username"
    (do_ (do n <- lift (h_pwname os); setattr "username" (PStr n));
     do_ when_none "username" (do n <- lift (h_login os); setattr "username" (PStr n));
     do_ when_none "username" (setattr "username" (PStr ("user@" +:+ h_fqdn os)));
     when_none "username" (throw ValueError)).

Definition check_hostname : I unit :=
  when_none "sensor_hostname"
    (do_ setattr "sensor_hostname" (PStr (h_fqdn os));
     when_none "sensor_hostname" (throw ValueError)).

Definition check_identification : I unit :=
  do_ check_sensor_id;
  do_ Deployed.check_virtue_id;
  do_ check_username;
  do_ check_hostname;
  (* the attributes the report reads *)
  for_each (fun name => do _ <- getattr name; ret tt)
    ["api_host"; "api_http_port"; "api_https_port"; "api_version"; "sensor_port"].
End Identify.

(** The program: identification, delay and [main].  [parsed] is what argparse
    makes of the command line. *)
Definition program {Wd : World} (read_r : history -> string -> res ustr)
    (has_private : ustr -> res bool) (os : host) (uuids : list string) (parsed : namespace)
    (fuel : nat) : W bool :=
  let (r, st) := check_identification os (IdState parsed uuids) in
  do_ lift r;
  let self := Config (is_opts st) "lsof-sensor" "" in
  do delay <- lift (opt_num self "delay_start");
  do_ (if negb (Qle_bool delay 0) then sleep delay else ret tt);
  main self read_r has_private fuel.

(** * The protocol *)

(** The sensor trusts any answer: there is no certificate to pin. *)
Definition anyone (_ : response) : bool := true.
#[local] Instance trusting : Trust := {|
  issued := fun a => if good anyone a then Some [] else None;
  from := fun _ => anyone;
|}.

Section Facts.
Context {Wd : World} (self : config).
Context (read_r : history -> string -> res ustr) (has_private : ustr -> res bool).

Abbreviation at_phase := (at_phase self).
Abbreviation may_fail := (may_fail self).
Abbreviation idle := (idle self).

Lemma joined_phase {A} P (m : W A) Q : triple P m Q may_fail -> triple P (joined_task m) Q may_fail.
Proof.
  intros Hm. eapply triple_catch; [exact Hm|]. intros e. case_decide; by apply triple_throw.
Qed.

Lemma lsof_get_private_key_phase pc :
  triple (at_phase RootKnown pc) (get_private_key_and_csr self)
    (fun r w => at_phase (if r.1.1.1 then KeyIssued [] else Failing) pc w) may_fail.
Proof.
  unfold get_private_key_and_csr. apply t_bind_lift; [done|]. intros uri Huri. lifts.
  eapply (t_bind_exchange self _ _ _ (fun a => if good anyone a then KeyIssued [] else Failing)).
  - intros ans. cbn. unfold asks, api_uri. rewrite Huri, bool_decide_eq_true_2 by done. cbn.
    by destruct (good anyone ans).
  - done.
  - intros resp. unfold good, anyone, response_json.
    destruct (status_code resp =? 200); cbn [andb].
    + lifts. by apply t_ret.
    + eapply triple_bind; [by apply log_messages_stays|]. intros ?. by apply t_ret.
Qed.

Lemma lsof_get_signed_phase pc csr :
  triple (at_phase (ChallengeUp []) pc) (get_signed_public_key self csr)
    (fun r => at_phase (if r.1 then SignatureIn [] else Refused) pc) may_fail.
Proof.
  unfold get_signed_public_key. apply t_bind_lift; [done|]. intros uri Huri. lifts.
  eapply (t_bind_exchange self _ _ _ (fun a => if good (from []) a then SignatureIn [] else Refused)).
  - asked.
  - intros e. done.
  - intros resp. unfold good, response_json. cbn [from trusting]. unfold anyone.
    destruct (status_code resp =? 200); cbn [andb].
    + lifts. by apply t_ret.
    + eapply triple_bind; [by apply log_messages_stays|]. intros ?. by apply t_ret.
Qed.

Lemma lsof_register_phase pc pub_key :
  triple (at_phase (Serving []) pc) (register_sensor self pub_key)
    (fun _ => at_phase (Registered []) pc) may_fail.
Proof.
  unfold register_sensor. apply t_bind_lift; [done|]. intros uri Huri. lifts.
  eapply (t_bind_exchange self _ _ _ (fun a => if good (from []) a then Registered [] else Failing)).
  - asked.
  - done.
  - intros resp. unfold good, response_json. cbn [from trusting]. unfold anyone.
    destruct (status_code resp =? 200); cbn [andb]; [by apply t_lift|by apply t_throw].
Qed.

Lemma load_key_phase ph pc private path :
  ph <> Leaving ->
  triple (at_phase ph pc) (load_key read_r has_private private path) (fun _ => at_phase ph pc) may_fail.
Proof.
  intros Hne. unfold load_key. apply triple_catch with (E' := may_fail).
  - destruct path; try by apply t_throw. apply t_bind_get. intros w _.
    do 2 (apply t_bind_lift; [done|]; intros ? ?). case_match; [by apply t_ret|by apply t_throw].
  - intros e. case_match; by apply triple_throw.
Qed.

Lemma lsof_deregister_phase pc :
  triple (at_phase Left pc) (deregister_sensor self read_r has_private)
    (fun _ => at_phase Idle pc) may_fail.
Proof.
  unfold deregister_sensor. apply t_bind_lift; [done|]. intros uri Huri. lifts.
  eapply triple_bind; [by apply load_key_phase|]. intros key. lifts.
  eapply (t_bind_exchange self _ _ _ (fun _ => Idle)); [asked|done|]. intros resp. by apply t_ret.
Qed.

Lemma lsof_store_key_phase pc name key mode :
  name ∈ ["public_key_path"; "private_key_path"] ->
  triple (at_phase (Storing []) pc) (store_key self name key mode)
    (fun _ => at_phase (Storing []) pc) may_fail.
Proof.
  intros Hname. unfold store_key. apply t_bind_lift; [done|]. intros path Hpath.
  assert (is_key_file self path = true) as Hk by (by eapply option_key_file).
  eapply triple_bind; [apply write_file_stays; cbn; by rewrite ?Hk|].
  intros ?. eapply t_happen; [cbn; by rewrite Hk|done].
Qed.

Lemma lsof_certificate_cycle_phase pc :
  triple (at_phase ApiReady pc) (certificate_cycle self) (fun _ => at_phase (Storing []) pc) may_fail.
Proof.
  unfold certificate_cycle. eapply triple_bind; [apply joined_phase, get_root_phase|].
  intros [[] rc]; cbn [fst negb]; [|by apply t_bind_throw].
  apply t_bind_ret.
  eapply triple_bind; [apply joined_phase, lsof_get_private_key_phase|].
  intros [[[[] priv_key] csr] challenge]; cbn [fst negb]; [|by apply t_bind_throw].
  apply t_bind_ret. lifts.
  eapply t_bind_happen; [done|].
  eapply triple_bind; [apply joined_phase, lsof_get_signed_phase|].
  intros [[] pub_key]; cbn [fst negb]; [|by apply t_bind_throw].
  apply t_bind_ret. eapply t_bind_happen; [done|].
  eapply triple_bind; [by apply lsof_store_key_phase; left|]. intros ?.
  eapply triple_bind; [by apply lsof_store_key_phase; right; left|]. intros ?.
  by apply t_ret.
Qed.

Lemma lsof_serve_phase pc pub_key :
  triple (at_phase (Storing []) pc) (serve self pub_key)
    (fun _ => at_phase (Registered []) pc) may_fail.
Proof.
  unfold serve. apply t_bind_get. intros w _. lifts. eapply t_bind_happen; [done|].
  eapply triple_bind; [apply joined_phase, lsof_register_phase|]. intros reg. lifts.
  eapply t_bind_happen; [done|]. lifts. eapply t_bind_happen; [done|]. by eapply t_happen.
Qed.

Lemma lsof_main_phase fuel :
  triple idle (main self read_r has_private fuel) (fun _ => idle) (fun _ => idle).
Proof.
  unfold main. apply group_idle. intros pc.
  eapply triple_bind; [apply joined_phase, wait_phase|].
  intros []; cbn [negb]; [|apply t_ret; apply at_idle].
  eapply triple_bind; [apply lsof_certificate_cycle_phase|]. intros pub_key.
  eapply triple_bind; [apply lsof_serve_phase|]. intros ?.
  eapply t_bind_happen; [done|]. eapply t_bind_happen; [done|].
  eapply triple_bind; [apply lsof_deregister_phase|].
  intros ?. apply t_ret. apply at_idle.
Qed.
End Facts.

(** * The key that was registered *)

(** The text that a file has after a history. *)
Definition written (path : string) (text : option ustr) (e : sensor_event) : option ustr :=
  match e with
  | OpenedForWriting p => if decide (p = path) then Some [] else text
  | Wrote p s => if decide (p = path) then Some s else text
  | _ => text
  end.
Definition last_written (path : string) (h : history) : option ustr := fold_left (written path) h None.

(** Documented behaviour of reading a file as a text that nobody else writes:
    carriage returns are translated, other ASCII text is not. *)
Class ReadsBack (read_r : history -> string -> res ustr) : Prop :=
  reads_back : forall h path s,
    last_written path h = Some s -> ascii_text s -> 13 ∉ s -> read_r h path = Ok s.

(** The item of a request's payload. *)
Definition payload_item (name : string) (r : request) : option json :=
  match rq_payload r with
  | JsonPayload (JObj l) => dict_get (u name) l
  | FormPayload l => dict_get name l
  | _ => None
  end.

Section Key.
Context {Wd : World} (self : config).
Context (read_r : history -> string -> res ustr) (has_private : ustr -> res bool).

(** [m], when it returns, adds events to the history, all satisfying [P]. *)
Definition adds {A} (m : W A) (P : history -> A -> Prop) : Prop :=
  forall w a w', m w = (Ok a, w') -> exists l, trace w' = trace w ++ l /\ P l a.

Lemma adds_ret {A} (a : A) : adds (ret a) (fun l b => l = [] /\ b = a).
Proof. intros w b w' [= <- <-]. exists []. by rewrite app_nil_r. Qed.

Lemma adds_lift {A} (r : res A) : adds (lift r) (fun l a => l = [] /\ r = Ok a).
Proof. intros w a w' E. apply lift_Ok in E as [-> ->]. exists []. by rewrite app_nil_r. Qed.

Lemma adds_happen e : adds (happen e) (fun l _ => l = [e]).
Proof. intros w a w' [= <- <-]. by exists [e]. Qed.

Lemma adds_bind {A B} (m : W A) (f : A -> W B) P Q R :
  adds m P -> (forall a, adds (f a) (Q a)) ->
  (forall l1 l2 a b, P l1 a -> Q a l2 b -> R (l1 ++ l2) b) -> adds (bind m f) R.
Proof.
  intros Hm Hf HR w b w' E. apply bind_Ok in E as (a & w1 & E1 & E2).
  destruct (Hm _ _ _ E1) as (l1 & Ht1 & H1). destruct (Hf _ _ _ _ E2) as (l2 & Ht2 & H2).
  exists (l1 ++ l2). split; [by rewrite Ht2, Ht1, (assoc_L (++))|by eapply HR].
Qed.

(** After a step that adds nothing. *)
Lemma adds_lift_bind {A B} (r : res A) (f : A -> W B) R :
  (forall a, r = Ok a -> adds (f a) R) -> adds (bind (lift r) f) R.
Proof.
  intros Hf w b w' E. apply bind_Ok in E as (a & w1 & E1 & E2).
  apply lift_Ok in E1 as [Hr ->]. by apply (Hf a Hr) in E2.
Qed.

Lemma adds_happen_bind {B} e (f : unit -> W B) (R : history -> B -> Prop) :
  adds (f tt) (fun l b => R (e :: l) b) -> adds (bind (happen e) f) R.
Proof.
  intros Hf. apply (adds_bind _ _ (fun l _ => l = [e]) (fun _ l b => R (e :: l) b)).
  - apply adds_happen.
  - by intros [].
  - by intros l1 l2 a b ->.
Qed.

Lemma adds_get_bind {B} (f : wrapper -> W B) R : (forall w, adds (f w) R) -> adds (bind get f) R.
Proof. intros Hf w b w' E. by apply (Hf w) in E. Qed.

Lemma adds_exchange r : adds (exchange r) (fun l resp => l = [Exchanged r (Ok resp)]).
Proof.
  intros w resp w' E. unfold exchange in E. apply bind_Ok in E as (w0 & w1 & [= <- <-] & E).
  apply bind_Ok in E as ([] & w2 & [= <-] & E). apply lift_Ok in E as [-> ->]. by eexists.
Qed.

Lemma adds_joined {A} (m : W A) P : adds m P -> adds (joined_task m) P.
Proof.
  intros Hm w a w' E. unfold joined_task, catch in E.
  destruct (m w) as [[b|e] w1] eqn:E1; [injection E as -> ->; by apply Hm|].
  by case_decide.
Qed.

Lemma adds_conseq {A} (m : W A) (P P' : history -> A -> Prop) :
  adds m P -> (forall l a, P l a -> P' l a) -> adds m P'.
Proof. intros Hm HP w a w' E. destruct (Hm _ _ _ E) as (l & Ht & Hl). eauto. Qed.

Lemma adds_write_file path content :
  adds (write_file path content)
    (fun l _ => exists s, content = Ok (JStr s) /\ l = [OpenedForWriting path; Wrote path s]).
Proof.
  unfold write_file. apply adds_get_bind. intros w. apply adds_lift_bind. intros [] _. apply adds_happen_bind. apply adds_lift_bind. intros j Hj.
  destruct j; try by intros w1 a w2 [=].
  eapply adds_conseq; [apply adds_happen|]. intros l [] ->. by eexists.
Qed.

Lemma adds_store_key name key mode :
  adds (store_key self name key mode)
    (fun l _ => exists path s, opt_str self name = Ok path /\ key = JStr s /\
       l = [OpenedForWriting path; Wrote path s; Chmod path mode]).
Proof.
  unfold store_key. apply adds_lift_bind. intros path Hp.
  apply (adds_bind _ _ (fun l _ => exists s, Ok key = Ok (JStr s) /\
           l = [OpenedForWriting path; Wrote path s]) (fun _ l _ => l = [Chmod path mode])).
  - apply adds_write_file.
  - intros []. apply adds_happen.
  - intros l1 l2 [] [] (s & [= ->] & ->) ->. by exists path, s.
Qed.

(** What a computation added last. *)
Definition ends {A} (m : W A) (P : history -> A -> Prop) : Prop :=
  forall w a w', m w = (Ok a, w') -> exists h l, trace w' = h ++ l /\ P l a.

Lemma ends_adds {A} (m : W A) P : adds m P -> ends m P.
Proof. intros Hm w a w' E. destruct (Hm _ _ _ E) as (l & Ht & Hl). by exists (trace w), l. Qed.

Lemma ends_skip {A B} (m : W A) (f : A -> W B) P : (forall a, ends (f a) P) -> ends (bind m f) P.
Proof. intros Hf w b w' E. apply bind_Ok in E as (a & w1 & _ & E). by eapply Hf. Qed.

Lemma ends_bind {A B} (m : W A) (f : A -> W B) P Q R :
  ends m P -> (forall a, adds (f a) (Q a)) ->
  (forall l1 l2 a b, P l1 a -> Q a l2 b -> R (l1 ++ l2) b) -> ends (bind m f) R.
Proof.
  intros Hm Hf HR w b w' E. apply bind_Ok in E as (a & w1 & E1 & E2).
  destruct (Hm _ _ _ E1) as (h & l1 & Ht1 & H1). destruct (Hf _ _ _ _ E2) as (l2 & Ht2 & H2).
  exists h, (l1 ++ l2). split; [by rewrite Ht2, Ht1, (assoc_L (++))|by eapply HR].
Qed.

Definition stored (l : history) (pub_key : json) : Prop :=
  exists pub priv s sp, opt_str self "public_key_path" = Ok pub /\
    opt_str self "private_key_path" = Ok priv /\ pub_key = JStr s /\
    l = [OpenedForWriting pub; Wrote pub s; Chmod pub public_mode;
         OpenedForWriting priv; Wrote priv sp; Chmod priv private_mode].

Lemma ends_certificate_cycle : ends (certificate_cycle self) stored.
Proof.
  unfold certificate_cycle.
  apply ends_skip. intros [rc_success ?]. apply ends_skip. intros _.
  apply ends_skip. intros [[[ok priv_key] csr] challenge].
  do 8 (apply ends_skip; intros ?).
  apply ends_skip. intros [pub_ok pub_key]. do 2 (apply ends_skip; intros ?).
  apply ends_adds.
  eapply (adds_bind _ _ _ (fun _ l pk => exists priv sp, opt_str self "private_key_path" = Ok priv /\
    pk = pub_key /\ l = [OpenedForWriting priv; Wrote priv sp; Chmod priv private_mode])).
  - apply adds_store_key.
  - intros []. eapply (adds_bind _ _ _ (fun _ l b => l = [] /\ b = pub_key)).
    + apply adds_store_key.
    + intros []. apply adds_ret.
    + intros l1 l2 [] b (priv & sp & Hp & Hk & ->) [-> ->]. by exists priv, sp.
  - intros l1 l2 [] b (pub & s & Hp & -> & ->) (priv & sp & Hpriv & -> & ->).
    by exists pub, priv, s, sp.
Qed.

(** A request with this public key. *)
Definition sends_key (what : string) (key : json) (r : request) : Prop :=
  asks (sensor_uri self what) r = true /\ payload_item "public_key" r = Some key.

Lemma adds_register pub_key :
  adds (register_sensor self pub_key)
    (fun l _ => exists r a key, l = [Exchanged r a] /\ pubkey_b64 pub_key = Ok key /\
       sends_key "/register" key r).
Proof.
  unfold register_sensor. apply adds_lift_bind. intros uri Huri.
  apply adds_lift_bind. intros key Hkey. do 8 (apply adds_lift_bind; intros ? _).
  eapply (adds_bind _ _ _ (fun _ l _ => l = [])).
  - apply adds_exchange.
  - intros resp. unfold response_json. case_match; [|by intros w x w' [=]].
    eapply adds_conseq; [apply adds_lift|]. by intros l j [-> _].
  - intros l1 l2 resp j -> ->. eexists _, _, key. split_and!; [done|done|]. split; [|done].
    by rewrite Huri, asks_ok, bool_decide_eq_true_2.
Qed.

Definition no_write (e : sensor_event) : Prop :=
  match e with OpenedForWriting _ | Wrote _ _ => False | _ => True end.

Lemma adds_serve pub_key :
  adds (serve self pub_key)
    (fun l _ => exists l1 r a l2 key, l = l1 ++ Exchanged r a :: l2 /\ Forall no_write l /\
       pubkey_b64 pub_key = Ok key /\ sends_key "/register" key r).
Proof.
  unfold serve. apply adds_get_bind. intros w. apply adds_lift_bind. intros [] _.
  apply adds_happen_bind.
  eapply (adds_bind _ _ _ (fun _ l _ => Forall no_write l)).
  - apply adds_joined, adds_register.
  - intros reg. do 2 (apply adds_lift_bind; intros ? _). apply adds_happen_bind.
    do 2 (apply adds_lift_bind; intros ? _). apply adds_happen_bind.
    eapply adds_conseq; [apply adds_happen|]. intros l [] ->. by repeat constructor.
  - intros l1 l2 reg [] (r & a & key & -> & Hk & Hr) Hl.
    eexists [_], r, a, l2, key. split_and!; [done| |done|done]. by repeat constructor.
Qed.

Lemma load_public_key_text path w s w' :
  load_public_key read_r has_private path w = (Ok s, w') ->
  exists p, path = PStr p /\ read_r (trace w) p = Ok s /\ w' = w.
Proof.
  unfold load_public_key, load_key, catch. destruct path as [| | | |p]; try done.
  unfold bind, get, lift. destruct (read_r (trace w) p) as [t|e] eqn:Hr; cbn; [|by case_match].
  destruct (has_private t) as [[]|e]; cbn; [done| |by case_match].
  intros [= <- <-]. by exists p.
Qed.

Lemma deregister_run w w' :
  deregister_sensor self read_r has_private w = (Ok tt, w') ->
  exists pub s key r a, opt_str self "public_key_path" = Ok pub /\ read_r (trace w) pub = Ok s /\
    pubkey_b64 (JStr s) = Ok key /\ sends_key "/deregister" key r /\
    trace w' = trace w ++ [Exchanged r a].
Proof.
  unfold deregister_sensor. intros E.
  apply bind_Ok in E as (uri & w1 & E1 & E). apply lift_Ok in E1 as [Huri ->].
  apply bind_Ok in E as (path & w1 & E1 & E). apply lift_Ok in E1 as [Hpath ->].
  apply bind_Ok in E as (s & w1 & E1 & E).
  apply load_public_key_text in E1 as (pub & -> & Hr & ->).
  apply bind_Ok in E as (key & w1 & E1 & E). apply lift_Ok in E1 as [Hkey ->].
  do 3 (apply bind_Ok in E as (? & w1 & E1 & E); apply lift_Ok in E1 as [_ ->]).
  apply bind_Ok in E as (resp & w1 & E1 & E). injection E as <-.
  destruct (adds_exchange _ _ _ _ E1) as (l & Ht & ->).
  eexists pub, s, key, _, _. split_and!; [|done|done| |exact Ht].
  - unfold opt_str. by rewrite Hpath.
  - split; [|done]. by rewrite Huri, asks_ok, bool_decide_eq_true_2.
Qed.

Lemma last_written_app path h l : last_written path (h ++ l) = fold_left (written path) l (last_written path h).
Proof. apply fold_left_app. Qed.

Lemma no_write_kept path l text : Forall no_write l -> fold_left (written path) l text = text.
Proof.
  intros Hl. revert text. induction Hl as [|e l He _ IH]; intros text; [done|].
  cbn [fold_left]. rewrite IH. by destruct e.
Qed.

(** From the signed key to the end of the registration. *)
Lemma ends_cycle_serve pub priv :
  opt_str self "public_key_path" = Ok pub -> opt_str self "private_key_path" = Ok priv -> pub <> priv ->
  ends (do pub_key <- certificate_cycle self; do_ serve self pub_key; ret pub_key)
    (fun l pub_key => exists l1 r a l2 key s, l = l1 ++ Exchanged r a :: l2 /\
       pub_key = JStr s /\ pubkey_b64 (JStr s) = Ok key /\ sends_key "/register" key r /\
       forall text, fold_left (written pub) l text = Some s).
Proof.
  intros Hpub Hpriv Hne.
  eapply (ends_bind _ _ _ (fun pub_key l k => k = pub_key /\ exists l1 r a l2 key,
    l = l1 ++ Exchanged r a :: l2 /\ Forall no_write l /\
    pubkey_b64 pub_key = Ok key /\ sends_key "/register" key r)).
  - apply ends_certificate_cycle.
  - intros pub_key. eapply (adds_bind _ _ _ (fun _ l k => l = [] /\ k = pub_key)).
    + apply adds_serve.
    + intros []. apply adds_ret.
    + intros l1 l2 [] k H [-> ->]. rewrite app_nil_r. by split.
  - intros l1 l2 pub_key k (pub' & priv' & s & sp & Hpub' & Hpriv' & -> & ->)
      (-> & l3 & r & a & l4 & key & -> & Hl & Hkey & Hr).
    rewrite Hpub in Hpub'. injection Hpub' as <-. rewrite Hpriv in Hpriv'. injection Hpriv' as <-.
    eexists (_ ++ l3), r, a, l4, key, s. split_and!; [by rewrite <-(assoc_L (++))|done|done|done|].
    intros text. rewrite fold_left_app, no_write_kept by done. cbn.
    repeat (case_decide; try done).
Qed.

(** Functional: a run that ends well deregisters what it registered.  With
    the two keys in files of their own, which nobody else writes, the last
    thing that [main] does is to ask the API to deregister the public key that
    it had registered, in the same form. *)
Theorem deregisters_registered_key (Hread : ReadsBack read_r) fuel w w' pub priv :
  opt_str self "public_key_path" = Ok pub -> opt_str self "private_key_path" = Ok priv -> pub <> priv ->
  main self read_r has_private fuel w = (Ok true, w') ->
  (forall s, last_written pub (trace w') = Some s -> ascii_text s /\ 13 ∉ s) ->
  exists h1 r1 a1 h2 r2 a2 key,
    trace w' = h1 ++ Exchanged r1 a1 :: h2 ++ [Exchanged r2 a2] /\
    sends_key "/register" key r1 /\ sends_key "/deregister" key r2.
Proof.
  intros Hpub Hpriv Hne E Hplain. unfold main, in_task_group, catch in E.
  match type of E with (match ?m with _ => _ end) = _ => destruct m as [[b|e] w0] eqn:E0 end; [|done].
  injection E as -> ->.
  apply bind_Ok in E0 as ([] & w1 & _ & E0); [|done]. cbn [negb] in E0.
  apply bind_Ok in E0 as (pub_key & w2 & E1 & E0). apply bind_Ok in E0 as ([] & w3 & E2 & E0).
  assert ((do pub_key <- certificate_cycle self; do_ serve self pub_key; ret pub_key) w1 = (Ok pub_key, w3))
    as Hcs by (unfold bind; by rewrite E1, E2).
  destruct (ends_cycle_serve pub priv Hpub Hpriv Hne _ _ _ Hcs)
    as (h & l & Ht & l1 & r & a & l2 & key & s & -> & -> & Hkey & Hr & Hw).
  apply bind_Ok in E0 as ([] & w4 & [= <-] & E0). apply bind_Ok in E0 as ([] & w5 & [= <-] & E0).
  apply bind_Ok in E0 as ([] & w6 & E3 & [= <-]).
  apply deregister_run in E3 as (pub' & s' & key' & r2 & a2 & Hpub' & Hs' & Hkey' & Hr2 & Ht').
  rewrite Hpub in Hpub'. injection Hpub' as <-. cbn [trace] in *. rewrite Ht in *.
  assert (last_written pub (((h ++ l1 ++ Exchanged r a :: l2) ++ [Notified]) ++ [CancelledAll]) = Some s)
    as Hlast by (rewrite !last_written_app; cbn; apply Hw).
  destruct (Hplain s) as [Ha Hc].
  { rewrite Ht', last_written_app, Hlast. done. }
  rewrite (Hread _ _ _ Hlast Ha Hc) in Hs'. injection Hs' as <-. rewrite Hkey in Hkey'.
  injection Hkey' as <-.
  exists (h ++ l1), r, a, (l2 ++ [Notified; CancelledAll]), r2, a2, key.
  split_and!; [|done|done]. rewrite Ht'. by rewrite <-!(assoc_L (++)).
Qed.
End Key.

(** * Theorems *)

(** C19: refinement: the program follows the provisioning protocol with the trust in
    anyone, from its start to its end, whatever the Sensing API, the file system
    and the clock do. *)
Theorem lsof_follows_protocol {Wd : World} read_r has_private os uuids parsed fuel :
  let self := Config (is_opts (check_identification os (IdState parsed uuids)).2) "lsof-sensor" "" in
  phase_of self (trace (program read_r has_private os uuids parsed fuel started).2) = Some Idle.
Proof.
  cbv zeta. unfold program. destruct (check_identification os _) as [r st]. cbn [snd].
  apply idle_run. apply triple_bind with (R := fun _ => idle (Config (is_opts st) "lsof-sensor" ""));
    [by apply triple_lift|]. intros _. apply delayed_idle, lsof_main_phase.
Qed.

(** Safety: the log drain, lsof and the synchronisation are spawned after
    answers with status 200 to the three requests: for the private key, for the
    signature and for the registration. *)
Theorem lsof_tasks_need_registration {Wd : World} self read_r has_private fuel h1 t h2 :
  trace (main self read_r has_private fuel started).2 = h1 ++ Spawned t :: h2 ->
  exists c, registration_confirmed self c h1.
Proof.
  intros Ht. eapply run_spawns_registered. rewrite <-Ht. apply idle_run, lsof_main_phase.
Qed.

(** Safety: the challenge server and the HTTPS server are never up together. *)
Theorem lsof_servers_never_overlap {Wd : World} self read_r has_private fuel h1 secure routes h2 :
  trace (main self read_r has_private fuel started).2 = h1 ++ ServerUp secure routes :: h2 ->
  server_up h1 = false.
Proof. intros Ht. eapply run_server_alone. rewrite <-Ht. apply idle_run, lsof_main_phase. Qed.

(** Every request that the sensor's server finishes is answered once, as the
    last action. *)
Theorem lsof_answers_once `{R : Routes} i fuel stream reads t0 t :
  http_handler i fuel stream reads t0 = (Ok true, t) ->
  exists t' b, t = t0 ++ t' ++ [Write b] /\ Forall (fun e => is_write e = false) t'.
Proof.
  intros Ht. eapply (answers_handler (https_routes i)); [|exact Ht|done].
  intros name h params fl rd Hh. apply dict_get_elem in Hh.
  change (mapper_funcs (https_routes i)) with
    [ ("route_registration_ping", always (route_registration_ping i));
      ("route_sensor_status", always (fun _ : list (string * string) => route_sensor_status i)) ] in Hh.
  repeat (apply elem_of_cons in Hh as [[= -> ->]|Hh]); [| |by apply not_elem_of_nil in Hh].
  - apply answers_ret_after. unfold route_registration_ping. apply answers_lift; intros ?.
    case_decide; apply answers_reply.
  - apply answers_ret_after, answers_reply.
Qed.

Lemma lsof_doc_ok sensor_id now level message :
  Forall scalar now -> Forall scalar message -> doc_ok (lsof_doc sensor_id now level message).
Proof.
  intros Hn Hm. split; [by apply (bool_decide_unpack _)|].
  repeat (apply Forall_cons_2; [split; [apply scalar_u|]|]);
    [exact Hm|exact Hn|apply scalar_u|apply scalar_u|constructor].
Qed.

(** What is to be reported of a line. *)
Definition line_report (sensor_id : string) (e : ustr * ustr) : option (list (ustr * json)) :=
  if (length (lsof_bits e.2) <? 5)%nat then None
  else Some (lsof_doc sensor_id e.1 (lsof_level e.2) e.2).

Lemma lsof_line_run sensor_id now line q :
  Forall scalar line -> length (lsof_bits line) <> 4%nat ->
  lsof_line sensor_id (now, utf8_encode line) q =
    (Ok tt, q ++ match line_report sensor_id (now, line) with
                 | Some d => [message_of [] d] | None => [] end).
Proof.
  intros Hl Hb. unfold lsof_line, line_report, lsof_level. cbn [fst snd].
  erewrite bind_lift by (by apply utf8_roundtrip). fold (lsof_bits line).
  destruct (length (lsof_bits line) <? 4)%nat eqn:E.
  - apply Nat.ltb_lt in E. rewrite (proj2 (Nat.ltb_lt _ _)) by lia. by rewrite app_nil_r.
  - apply Nat.ltb_ge in E. rewrite (proj2 (Nat.ltb_ge _ _)) by lia.
    destruct (lookup_lt_is_Some_2 (lsof_bits line) 4) as [t Ht]; [lia|].
    rewrite Ht. erewrite bind_lift by (unfold item; by rewrite Ht). done.
Qed.

(** Functional: whatever part of its output [lsof -r] has written, each of its
    lines with at least five columns is on the queue, unchanged, with the
    sensor's identifier and the level of its fifth column, and no other line is;
    unlike the sensor for the wrapper it does not wait for the end of the output. *)
Theorem lsof_reports_at_once exec sensor_id config z rows q :
  repeat_interval config = JInt z -> exec [u "lsof"; u "-r"; int_text z] = encoded rows ->
  Forall (fun e => Forall scalar e.1 /\ Forall scalar e.2 /\ length (lsof_bits e.2) <> 4%nat) rows ->
  exists msgs, lsof exec sensor_id (JObj config) q = (Ok tt, q ++ msgs) /\
    reports [] (omap (line_report sensor_id) rows) msgs.
Proof.
  intros Hz He Hrows. unfold lsof, print_interval. rewrite Hz, He. eexists. split.
  - erewrite bind_lift by reflexivity. unfold encoded. rewrite for_each_map.
    apply (for_each_reports _ (line_report sensor_id) []).
    intros [now line] q' Hin. rewrite Forall_forall in Hrows. destruct (Hrows _ Hin) as (_ & Hl & Hb).
    by apply lsof_line_run.
  - apply message_reports; [by split; constructor|].
    apply (docs_ok (fun l => Forall scalar l /\ length (lsof_bits l) <> 4%nat)); [|done].
    intros [now line] d Hn [Hl _]. unfold line_report. cbn [fst snd] in *.
    destruct (length (lsof_bits line) <? 5)%nat; [done|]. intros [= <-]. by apply lsof_doc_ok.
Qed.

(** Doing nothing when there is no value. *)
Lemma when_none_nop {B} n m (f : unit -> I B) s :
  (do_ when_none n (ret tt); bind (when_none n m) f) s = bind (when_none n m) f s.
Proof.
  unfold when_none, getattr, bind, get, lift, ns_get.
  destruct (dict_get n (is_opts s)) as [w|] eqn:E; [|done]. cbn.
  by destruct (is_none w) eqn:Ew; cbn; rewrite E; cbn; rewrite Ew.
Qed.

(** Functional: the identity is the one that the wrapper computes on Linux when
    neither [VIRTUE_ID] nor [USERNAME] is in the environment, without the
    advertised address. *)
Theorem lsof_identity os s :
  check_identification os s =
    (let os' := Host false [] (h_pwname os) (h_login os) (h_fqdn os) (h_ip os) (h_ports os) in
     do_ check_sensor_id;
     do_ WrapperConfig.check_virtue_id os';
     do_ WrapperConfig.check_username os';
     do_ WrapperConfig.check_hostname os';
     for_each (fun name => do _ <- getattr name; ret tt)
       ["api_host"; "api_http_port"; "api_https_port"; "api_version"; "sensor_port"]) s.
Proof.
  unfold check_identification. cbv zeta.
  apply bind_ext; [done|]. intros ?. apply bind_ext; [done|]. intros ?. apply bind_ext.
  - intros t. unfold check_username, WrapperConfig.check_username, when_none. cbn [h_windows h_environ].
    apply bind_ext; [done|]. intros v t'. destruct (is_none v); [|done].
    apply bind_ext; [done|]. intros ? t2. cbn [dict_get].
    exact (eq_sym (when_none_nop "username" (do n <- lift (h_login os); setattr "username" (PStr n)) _ t2)).
  - intros ?. apply bind_ext; [|done].
    intros t. unfold check_hostname, WrapperConfig.check_hostname, when_none. cbn [h_windows].
    apply bind_ext; [done|]. intros v t'. rewrite orb_false_r. by destruct (is_none v).
Qed.

(** * Witnesses *)

Module LsofDemo.
Import Demo.

(** Files that keep what is written to them, and a key that RSA accepts. *)
Definition files (h : history) (path : string) : res ustr := opt_res OSError (last_written path h).
Definition public_key (_ : ustr) : res bool := Ok false.

#[local] Instance files_read_back : ReadsBack files.
Proof. intros h path s Hs _ _. unfold files. by rewrite Hs. Qed.

(** The API of [WrapperRun] and its options. *)
Definition ended : res bool * wrapper := main (Wd := world) demo files public_key 1 started.

Lemma deregisters_registered_key_witness :
  exists h1 r1 a1 h2 r2 a2 key,
    trace ended.2 = h1 ++ Exchanged r1 a1 :: h2 ++ [Exchanged r2 a2] /\
    sends_key (Wd := world) demo "/register" key r1 /\ sends_key (Wd := world) demo "/deregister" key r2.
Proof.
  apply (deregisters_registered_key (Wd := world) demo files public_key files_read_back 1 started ended.2
    "./cert/rsa_key.pub" "./cert/rsa_key"); [reflexivity|reflexivity|discriminate| |].
  - vm_compute. reflexivity.
  - intros s Hs. assert (s = u "PUBLIC") as -> by (vm_compute in Hs; by injection Hs as <-).
    split; [|by apply (bool_decide_unpack _)].
    by repeat constructor.
Defined.

(** With the same world the wrapper pins the certificate and the lsof sensor does
    not; both come to their registration. *)
Example lsof_registers : ended.1 = Ok true /\ api_public_certificate ended.2 = None.
Proof. by vm_compute. Qed.

(** An API that answers from another host after the private key: the lsof sensor
    registers with it. *)
Definition moved : World := {|
  api := fun h r =>
    match dict_get (rq_uri r) answers with
    | Some j => Ok (Response 200 (Ok j) (Some (Some (if Nat.leb (length h) 4 then der else []))))
    | None => Raise ConnectionError
    end;
  time := time (World := world); open_w := open_w (World := world);
  load_cert_chain := fun _ => Ok tt; pkcs8_sha1 := pkcs8_sha1 (World := world);
  abspath := fun p => p; is_windows := false; float_text := fun _ => "1.0";
  stop_notification := None; check_cancellation := fun _ => true; stop_retrying := fun _ => false;
|}.

Example lsof_trusts_anyone :
  (main (Wd := moved) demo files public_key 1 started).1 = Ok true /\
  (Wrapper.main (Wd := moved) demo 1 started).1 = Raise TaskError.
Proof. by vm_compute. Qed.

Lemma lsof_reports_at_once_witness :
  exists msgs,
    lsof (fun _ => encoded small_lsof) "s1" (JObj []) [] = (Ok tt, [] ++ msgs) /\
    reports [] (omap (line_report "s1") small_lsof) msgs.
Proof.
  apply (lsof_reports_at_once (fun _ => encoded small_lsof) "s1" [] 15 small_lsof []).
  - reflexivity.
  - reflexivity.
  - repeat (apply Forall_cons_2; [split_and!; [by apply scalar_check..|by vm_compute]|]). constructor.
Defined.
End LsofDemo.
