(* ===== verification/DemoSensors.v ===== *)
(** The sensors that the demonstration target carries,
    [targets/demo-target/sensors/]: older versions of [sensor_ps.py],
    [sensor_netstat.py], [sensor_lsof.py] and [sensor_tcpdump.py], which handle
    each line of a command when it comes instead of collecting them first.

    [sensors/sensor_kernel_ps/sensor_kernel_ps.py] is as old, and reads another
    [ps], one that the installer builds.

    The functions for a line have the same text and are those of
    [CommandSensors]; the loops are here, with what they share with the current
    ones. *)

From S2P Require Import Prelude Json PyText CommandSensors.

Section Demo.

(** What the n-th run of a command has written so far. *)
Context (exec : list ustr -> nat -> lines).

(** [async for line in p.stdout], the first [header] lines skipped. *)
Fixpoint stream (header : nat) (f : ustr * bytes -> Q unit) (out : lines) : Q unit :=
  match out with
  | [] => ret tt
  | line :: out =>
      match header with
      | S header => stream header f out
      | O => do_ f line; stream O f out
      end
  end.

Definition ps (ps_path : ustr) (self_pid : Z) (stub config : list (ustr * json)) (rounds : nat) : Q unit :=
  do_ lift (print_interval config);
  for_each (fun n => stream 1 (ps_line stub self_pid) (exec [ps_path; u "-auxxx"] n)) (seq 0 rounds).

(** [ps] of [sensor_kernel_ps.py] *)
Definition kernel_ps (ps_path : ustr) (self_pid : Z) (stub config : list (ustr * json)) (rounds : nat) : Q unit :=
  do_ lift (print_interval config);
  for_each (fun n =>
      let full_ps_command := [ps_path; u "-auxxx"] in
      stream 1 (ps_line stub self_pid) (exec full_ps_command n))
    (seq 0 rounds).

Definition netstat (stub config : list (ustr * json)) (rounds : nat) : Q unit :=
  do_ lift (print_interval config);
  for_each (fun n => stream 2 (netstat_line stub) (exec [u "netstat"; u "-natp"] n)) (seq 0 rounds).

Definition lsof (stub config : list (ustr * json)) : Q unit :=
  do_ lift (print_interval config);
  let repeat_delay := match repeat_interval config with JInt z => int_text z | _ => [] end in
  stream 0 (lsof_line stub) (exec [u "lsof"; u "-r"; repeat_delay] 0).

Definition tcpdump (stub config : list (ustr * json)) : Q unit :=
  do full_args <- lift (tcpdump_args config);
  stream 0 (tcpdump_line stub) (exec full_args 0).

End Demo.

(** * Theorems *)

Lemma stream_drop k f out q : stream k f out q = for_each f (drop k out) q.
Proof.
  revert k q. induction out as [|line out IH]; intros k q; [by destruct k|].
  destruct k as [|k]; cbn [stream drop]; [|apply IH].
  cbn [for_each]. unfold bind. destruct (f line q) as [[[]|e] q']; [|done].
  rewrite IH. by rewrite drop_0.
Qed.

Lemma for_each_ext {S A} (f g : A -> M S unit) l s :
  (forall a s, f a s = g a s) -> for_each f l s = for_each g l s.
Proof.
  intros Hf. revert s. induction l as [|a l IH]; intros s; [done|]. cbn [for_each].
  unfold bind. rewrite Hf. by destruct (g a s) as [[[]|e] s'].
Qed.

(** Equivalence: on the same output of the command, in the same rounds, the
    sensors of the target put the same messages on the queue as the current ones
    and fail in the same way; only lsof differs, whose current version reports
    nothing before the end of an output that has no end. *)
Theorem demo_sensors_same exec ps_path pid stub config rounds q :
  ps exec ps_path pid stub config rounds q = CommandSensors.ps exec ps_path pid stub config rounds q /\
  kernel_ps exec ps_path pid stub config rounds q = CommandSensors.ps exec ps_path pid stub config rounds q /\
  netstat exec stub config rounds q = CommandSensors.netstat exec stub config rounds q /\
  tcpdump exec stub config q = CommandSensors.tcpdump exec stub config q /\
  CommandSensors.lsof exec true stub config q =
    (do_ lsof exec stub config; ret true) q.
Proof.
  assert (kernel_ps exec ps_path pid stub config rounds q =
    CommandSensors.ps exec ps_path pid stub config rounds q) as Hps.
  { unfold kernel_ps, CommandSensors.ps, bind. case_match; case_match; [|done].
    apply for_each_ext. intros n q'. rewrite stream_drop. unfold ps_round. by destruct (exec _ n). }
  split_and!; [exact Hps|exact Hps|..].
  - unfold netstat, CommandSensors.netstat, bind. case_match; case_match; [|done].
    apply for_each_ext. intros n q'. by rewrite stream_drop.
  - unfold tcpdump, CommandSensors.tcpdump, bind. case_match; case_match; [|done].
    by rewrite stream_drop, drop_0.
  - unfold lsof, CommandSensors.lsof, bind. case_match; case_match; [|done].
    by rewrite stream_drop, drop_0.
Qed.

(** Functional: whatever part of the output of [lsof -r] is there, its lines with
    at least five columns have been reported. *)
Theorem demo_lsof_reports_at_once exec stub config z rows q :
  stub_ok stub -> repeat_interval config = JInt z ->
  exec [u "lsof"; u "-r"; int_text z] 0%nat = encoded rows ->
  Forall (fun e => Forall scalar e.1 /\ Forall scalar e.2 /\ length (lsof_bits e.2) <> 4%nat) rows ->
  exists msgs, lsof exec stub config q = (Ok tt, q ++ msgs) /\
    reports stub (omap lsof_doc rows) msgs.
Proof.
  intros Hs Hz He Hrows. unfold lsof, print_interval. rewrite Hz, He. eexists. split.
  - erewrite bind_lift by reflexivity. rewrite stream_drop, drop_0. unfold encoded.
    rewrite for_each_map. apply (for_each_reports _ lsof_doc stub).
    intros [now line] q' Hin. rewrite Forall_forall in Hrows. destruct (Hrows _ Hin) as (_ & Hl & Hb).
    by apply lsof_line_row.
  - apply message_reports; [done|].
    apply (docs_ok (fun l => Forall scalar l /\ length (lsof_bits l) <> 4%nat)); [|done].
    intros [now line] d Hn [Hl _]. unfold lsof_doc. cbn [fst snd] in *.
    destruct (length (lsof_bits line) <? 5)%nat; [done|]. intros [= <-]. by apply line_doc_ok.
Qed.

Lemma demo_lsof_reports_at_once_witness :
  exists msgs, lsof (fun _ _ => encoded small_lsof) small_stub [] [] = (Ok tt, [] ++ msgs) /\
    reports small_stub (omap lsof_doc small_lsof) msgs.
Proof.
  apply (demo_lsof_reports_at_once (fun _ _ => encoded small_lsof) small_stub [] 15 small_lsof []).
  - exact small_stub_ok.
  - reflexivity.
  - reflexivity.
  - repeat (apply Forall_cons_2; [split_and!; [by apply scalar_check..|by vm_compute]|]). constructor.
Defined.
