(* ===== verification/WinService.v ===== *)
(** The set-up of the sensors that run as Windows services: what the installer
    does on a Windows host ([install_ntfltmgr] and [install_sensor_service] of
    [src/bin/install_sensors.py]), the configuration files that it writes, how a
    sensor starts from one ([start] of [sensors/sensor_processlist/],
    [sensors/sensor_handlelist/] and [sensors/sensor_kernelprobe/], the same
    text), the sensor kernelprobe itself, and the default section of
    [service_winvirtue.py].

    The disk is that of [Installer]; a path is a list of names, and the names of
    definitions have no backslash.  A firewall rule is only asked for. *)

From stdpp Require Import gmap.
From S2P Require Import Prelude Json ConfigLoader WrapperConfig CommandSensors Installer InstallerSpec.
#[local] Open Scope Z_scope.

(** * Configuration files

    [configparser], without values over several lines, interpolation, the section
    [DEFAULT], and the refusal of repeated names. *)

Abbreviation sections := (list (string * list (string * string))).

Definition lower_char (c : ascii) : ascii :=
  let n := nat_of_ascii c in if ((65 <=? n) && (n <=? 90))%nat then ascii_of_nat (n + 32) else c.
Definition optionxform (s : string) : string := str_of (map lower_char (str_chars s)).

(** At the first [=] or colon. *)
Fixpoint split_delimiter (l : list ascii) : option (list ascii * list ascii) :=
  match l with
  | [] => None
  | c :: l =>
      if Ascii.eqb c "=" || Ascii.eqb c ":" then Some ([], l)
      else match split_delimiter l with Some (k, v) => Some (c :: k, v) | None => None end
  end.

Inductive ini_line := Blank | Header (name : string) | Item (kv : string * string).

(** [RuntimeError] stands for the errors of [configparser]. *)
Definition read_ini_line (line : string) : res ini_line :=
  let s := strip line in
  if bool_decide (s = "") || startswith s "#" || startswith s ";" then Ok Blank
  else if startswith s "[" then
    match str_split "]" s with
    | String.String _ (String.String _ _ as name) :: _ :: _ => Ok (Header name)
    | _ => Raise RuntimeError
    end
  else match split_delimiter (str_chars s) with
       | Some (k, v) => Ok (Item (optionxform (strip (str_of k)), strip (str_of v)))
       | None => Raise RuntimeError
       end.

(** The items before the first header, and the sections. *)
Fixpoint read_ini_lines (lines : list string) : res (list (string * string) * sections) :=
  match lines with
  | [] => Ok ([], [])
  | line :: lines =>
      let? l := read_ini_line line in
      let? (items, secs) := read_ini_lines lines in
      Ok (match l with
          | Blank => (items, secs)
          | Header name => ([], (name, items) :: secs)
          | Item kv => (kv :: items, secs)
          end)
  end.

Definition read_ini (text : string) : res sections :=
  let? (items, secs) := read_ini_lines (str_split newline_char text) in
  match items with [] => Ok secs | _ => Raise RuntimeError end.

(** * The installer on a Windows host *)

Definition APIHOST : string := "sensing-api.savior.internal".
Definition BASE_PORT_NO : Z := 11020.
Definition DEFAULT_DEBUG_LEVEL : string := "DEBUG".
Definition port_list : list Z := [9555; 17141; 17504; 11000].

(** [CONFIG_FILE_TEMPLATE], filled in. *)
Definition config_sections (sysdrv sensorname : string) (sensorport : Z) : sections :=
  let certs := sysdrv +:+ "WinVirtUE\certs\" +:+ sensorname +:+ "\" in
  [ ("parameters",
     [ ("public_key_path", certs +:+ "rsa_key.pub"); ("private_key_path", certs +:+ "rsa_key");
       ("ca_key_path", certs); ("api_host", APIHOST); ("sensor_port", str_int sensorport) ]);
    ("runtime", [("dbglvl", DEFAULT_DEBUG_LEVEL)]) ].

Definition section_lines (s : string * list (string * string)) : list string :=
  ("[" +:+ s.1 +:+ "]") :: map property_text s.2.
Definition ini_text (s : sections) : string :=
  str_join (str_of [newline_char]) ("" :: flat_map section_lines s ++ [""]).
Definition config_text (sysdrv sensorname : string) (sensorport : Z) : string :=
  ini_text (config_sections sysdrv sensorname sensorport).

(** The disk, the global [BASE_PORT_NO], and the ports that the firewall was
    asked to open. *)
Record win := Win { wn_disk : disk; wn_base_port : Z; wn_opened : list Z }.

Abbreviation WI := (M win).

Definition on_disk {A} (m : I A) : WI A := fun s =>
  let (r, d) := m (wn_disk s) in (r, Win d (wn_base_port s) (wn_opened s)).
Definition open_port (portno : Z) : WI unit :=
  modify (fun s => Win (wn_disk s) (wn_base_port s) (wn_opened s ++ [portno])).
Definition next_port : WI unit :=
  modify (fun s => Win (wn_disk s) (wn_base_port s + 1) (wn_opened s)).

(** [if not os.path.exists(p): os.makedirs(p)] *)
Definition make_missing (p : path) : I unit :=
  do d <- get; if exists_ d p then ret tt else makedirs p.

(** The body of the loop over the sensors. *)
Definition configure_sensor (sys_drive : string) (svc_dir : path) (sensor : string) : WI unit :=
  do_ on_disk (make_missing (join_path (join_path svc_dir "certs") sensor));
  do s <- get;
  let portno := wn_base_port s in
  do_ on_disk (write_text (join_path (join_path svc_dir "config") (sensor +:+ ".cfg"))
                 (u (config_text sys_drive sensor portno)));
  do_ next_port;
  open_port portno.

(** The body of the loop over the services. *)
Definition configure_service (sys_drive : string) (svc_root : path) (sensors : list string)
    (svc : string) : WI unit :=
  let svc_dir := join_path svc_root svc in
  do_ on_disk (make_missing (join_path svc_dir "config"));
  do_ on_disk (make_missing (join_path svc_dir "logs"));
  do_ for_each open_port port_list;
  for_each (configure_sensor sys_drive svc_dir) sensors.

Definition install_sensor_service (environ : list (string * string)) (target : component) : WI unit :=
  let sys_drive := default "C" (dict_get "SystemDrive" environ) +:+ "\" in
  do sensors <- lift (texts_at (c_def target) "sensors");
  let svc_root := join_path (c_root target) "sensor_service" in
  do svcs <- lift (texts_at (c_def target) "service_directories");
  do svc_dirs <- lift (match svcs with
                       | [] => Ok []
                       | _ => let? os := json_item (c_def target) "os" in
                              Ok (if bool_decide (os = JStr (u "Windows")) then svcs else [])
                       end);
  for_each (configure_service sys_drive svc_root sensors) svc_dirs.

Definition install_ntfltmgr (target : component) (ntfltmgr_dir : path) : I unit :=
  do reqs_dir <- lift (target_dir target "requirements_directory");
  do lib_dir <- lift (target_dir target "library_directory");
  let ntfltmgr_dest_dir := join_path lib_dir "ntfltmgr" in
  do_ makedirs ntfltmgr_dest_dir;
  do_ for_each (fun f => copy (join_path ntfltmgr_dir f) (join_path ntfltmgr_dest_dir f))
        ["ntfltmgr.py"; "setup.py"];
  copy (join_path ntfltmgr_dir "ntfltmgr_requirements.txt")
       (join_path reqs_dir "ntfltmgr_requirements.txt").

(** * A sensor as a service *)

(** [start()] of the sensors, up to the arguments for the wrapper's [start].
    [set_level] is what the logger makes of a level's name. *)
Definition service_start (set_level : string -> res unit) (cfgfile : string) : res (list string) :=
  let? config := read_ini cfgfile in
  match dict_get "parameters" config, dict_get "runtime" config with
  | Some params, Some runtime =>
      let args := map (fun kv => "--" +:+ kv.1 +:+ "=" +:+ kv.2) params in
      let? dbglvl := opt_res KeyError (dict_get "dbglvl" runtime) in
      let? _ := set_level dbglvl in
      Ok args
  | _, _ => Raise SystemExit
  end.

(** ** kernelprobe *)

(** The n-th round of the loop.  The interval is a number. *)
Definition kernelprobe_round (stub : list (ustr * json)) (now : nat -> ustr) (n : nat) : Q unit :=
  put_log stub (log_doc (now n) "info" (JObj [(u "Test", JInt 123)])).

(** The rounds for which [running] holds; [ServiceThreads] says which these are. *)
Definition kernelprobe (stub : list (ustr * json)) (now : nat -> ustr) (rounds : nat) : Q unit :=
  for_each (kernelprobe_round stub now) (seq 0 rounds).

(** A round of [assess_kernelprobe], and of [assess_handlelist]: the time and what
    the file system says; [None] when [which_file] found no file. *)
Definition assess_kernelprobe_round `{Sha512} (path : option string) (stub : list (ustr * json))
    (files : nat -> ustr * option file_stat) (n : nat) : Q unit :=
  match path with
  | None => throw TypeError
  | Some _ => put_log stub (log_doc (files n).1 "info" (report_on_file (files n).2))
  end.

Definition assess_kernelprobe `{Sha512} (path : option string) (stub : list (ustr * json))
    (files : nat -> ustr * option file_stat) (rounds : nat) : Q unit :=
  for_each (assess_kernelprobe_round path stub files) (seq 0 rounds).

(** ** The service of WinVirtUE *)

(** The keys whose absence has the default section written. *)
Definition default_keys : list string :=
  [ "base_dir"; "config_dir"; "log_dir"; "cert_dir"; "delay_start"; "username"; "api_retry_max";
    "api_retry_wait"; "api_version" ].
Definition needs_default_section (defaults : list (string * string)) : bool :=
  existsb (fun k => negb (dict_has k defaults)) default_keys.

(** [build_default_section_string(pkgbasedir)], which ends in a separator: the
    items.  Without [USERNAME] the local variable is unbound. *)
Definition build_default_section (environ : list (string * string)) (pkgbasedir : string)
    : res (list (string * string)) :=
  let? username := opt_res NameError (dict_get "USERNAME" environ) in
  Ok [ ("base_dir", pkgbasedir); ("config_dir", pkgbasedir +:+ "config");
       ("log_dir", pkgbasedir +:+ "logs"); ("cert_dir", pkgbasedir +:+ "certs");
       ("delay_start", "5"); ("username", username); ("api_retry_max", "30.0");
       ("api_retry_wait", "0.5"); ("api_version", "v1"); ("api_https_port", "17504");
       ("api_http_port", "17141"); ("sensor_advertised_hostname", "None");
       ("sensor_advertised_port", "None"); ("check_for_long_blocking", "False");
       ("backoff_delay", "30") ].

(** The start of the service: the defaults it goes on with, the section read
    where it is needed. *)
Definition service_defaults (environ : list (string * string)) (basedir : string)
    (defaults : list (string * string)) : res (list (string * string)) :=
  if needs_default_section defaults then
    let? section := build_default_section environ basedir in
    Ok (dict_update defaults section)
  else Ok defaults.

(** * Lemmas on the installer *)

(** What is at a path stays there. *)
Definition at_path (p : path) (n : node) (d : disk) : Prop := d !! p = Some n.

Lemma kept_add_dirs p n l d : at_path p n d -> at_path p n (fold_left add_dir l d).
Proof.
  revert d. induction l as [|q l IH]; intros d Hd; [done|]. cbn [fold_left]. apply IH.
  unfold add_dir, at_path in *. destruct (decide (q = p)) as [->|Hq]; [by rewrite Hd|].
  destruct (d !! q); [done|]. by rewrite lookup_insert_ne.
Qed.

Lemma kept_make_missing p n q : preserves (at_path p n) (make_missing q).
Proof.
  apply preserves_bind; [apply preserves_get|]. intros d _ _. case_match; [apply preserves_ret|].
  unfold makedirs. apply preserves_bind; [apply preserves_get|]. intros d' _ _.
  apply preserves_bind; [apply preserves_check|]. intros _ _ _.
  apply preserves_modify. intros d2. apply kept_add_dirs.
Qed.

Lemma kept_write p n q content : q <> p -> preserves (at_path p n) (write_text q content).
Proof.
  intros Hq. unfold write_text. apply preserves_bind; [apply preserves_get|]. intros d _ _.
  apply preserves_bind; [apply preserves_check|]. intros _ _ _.
  apply preserves_modify. intros d2 Hd. unfold at_path. by rewrite lookup_insert_ne.
Qed.

Lemma on_disk_Ok {A} (m : I A) s a s' : on_disk m s = (Ok a, s') ->
  m (wn_disk s) = (Ok a, wn_disk s') /\ wn_base_port s' = wn_base_port s /\ wn_opened s' = wn_opened s.
Proof. unfold on_disk. destruct (m (wn_disk s)) as [r d]. by intros [= -> <-]. Qed.

Lemma on_disk_kept {A} (m : I A) s a s' p n : on_disk m s = (Ok a, s') ->
  preserves (at_path p n) m -> at_path p n (wn_disk s) -> at_path p n (wn_disk s').
Proof. intros E Hm Hp. apply on_disk_Ok in E as (E & _). specialize (Hm _ Hp). by rewrite E in Hm. Qed.

Lemma service_write_text_Ok q content d d' : write_text q content d = (Ok tt, d') -> d' = <[q := File content]> d.
Proof.
  unfold write_text, bind, get, check, modify. destruct (_ && _); cbn; [|done]. by intros [= <-].
Qed.

Definition config_path (svc_dir : path) (sensor : string) : path :=
  svc_dir ++ ["config"; sensor +:+ ".cfg"].

Lemma length_cfg a : String.length (a +:+ ".cfg") = (String.length a + 4)%nat.
Proof.
  induction a as [|c a IH]; [done|].
  change (S (String.length (a +:+ ".cfg")) = S (String.length a + 4)). by rewrite IH.
Qed.

Lemma name_ok_cfg name : name_ok name -> name_ok (name +:+ ".cfg").
Proof.
  intros (H1 & _ & _ & H4). assert (String.length (name +:+ ".cfg") > 4)%nat as Hl
    by (rewrite length_cfg; destruct name; [done|cbn; lia]).
  split_and!; try (intros E; rewrite E in Hl; cbn in Hl; lia).
  by rewrite has_char_app, H4.
Qed.

Lemma join_config svc_dir sensor : name_ok sensor ->
  join_path (join_path svc_dir "config") (sensor +:+ ".cfg") = config_path svc_dir sensor.
Proof.
  intros Hs. rewrite (proj2 (name_ok_plain _ (name_ok_cfg _ Hs))).
  assert (name_ok "config") as Hc by done.
  rewrite (proj2 (name_ok_plain _ Hc)), <-app_assoc. done.
Qed.

Lemma configure_sensor_run drive svc_dir sensor s s' :
  name_ok sensor -> configure_sensor drive svc_dir sensor s = (Ok tt, s') ->
  at_path (config_path svc_dir sensor) (File (u (config_text drive sensor (wn_base_port s)))) (wn_disk s') /\
  wn_base_port s' = wn_base_port s + 1 /\ wn_opened s' = wn_opened s ++ [wn_base_port s] /\
  forall p n, p <> config_path svc_dir sensor -> at_path p n (wn_disk s) -> at_path p n (wn_disk s').
Proof.
  intros Hs E. unfold configure_sensor in E. apply bind_Ok in E as ([] & s1 & E1 & E).
  apply bind_Ok in E as (s1' & ? & [= <- <-] & E). apply bind_Ok in E as ([] & s2 & E2 & E).
  apply bind_Ok in E as ([] & s3 & [= <-] & [= <-]). cbn. rewrite join_config in E2 by done.
  pose proof (on_disk_Ok _ _ _ _ E1) as (_ & Hp1 & Ho1).
  pose proof (on_disk_Ok _ _ _ _ E2) as (Hw & Hp2 & Ho2). apply service_write_text_Ok in Hw.
  rewrite Hp2, Ho2, Hp1, Ho1. split_and!; [|done|done|].
  - unfold at_path. by rewrite Hw, lookup_insert_eq, Hp1.
  - intros p n Hp Hd. eapply on_disk_kept; [exact E2|by apply kept_write|].
    eapply on_disk_kept; [exact E1|apply kept_make_missing|done].
Qed.

Lemma config_path_inj svc_dir a b : config_path svc_dir a = config_path svc_dir b -> a = b.
Proof.
  unfold config_path. intros E. apply app_inv_head in E. injection E as E.
  revert b E. induction a as [|c a IH]; intros b E.
  - destruct b as [|d b]; [done|]. exfalso. apply (f_equal String.length) in E.
    rewrite !length_cfg in E. cbn in E. lia.
  - destruct b as [|d b].
    + exfalso. apply (f_equal String.length) in E. rewrite !length_cfg in E. cbn in E. lia.
    + injection E as -> E. f_equal. by apply IH.
Qed.

(** The ports from [z] on. *)
Definition ports_from (z : Z) (n : nat) : list Z := map (fun i => z + Z.of_nat i) (seq 0 n).

Lemma ports_from_S z n : ports_from z (S n) = z :: ports_from (z + 1) n.
Proof.
  unfold ports_from. cbn [seq map]. rewrite Z.add_0_r. f_equal. rewrite <-seq_shift, map_map.
  apply map_ext. intros i. lia.
Qed.

Lemma configure_sensors_run drive svc_dir sensors s s' :
  Forall name_ok sensors -> NoDup sensors ->
  for_each (configure_sensor drive svc_dir) sensors s = (Ok tt, s') ->
  (forall j sensor, sensors !! j = Some sensor ->
     at_path (config_path svc_dir sensor)
       (File (u (config_text drive sensor (wn_base_port s + Z.of_nat j)))) (wn_disk s')) /\
  wn_base_port s' = wn_base_port s + Z.of_nat (length sensors) /\
  wn_opened s' = wn_opened s ++ ports_from (wn_base_port s) (length sensors) /\
  forall p n, (forall sensor, sensor ∈ sensors -> p <> config_path svc_dir sensor) ->
    at_path p n (wn_disk s) -> at_path p n (wn_disk s').
Proof.
  intros Hok Hnd. revert s. induction sensors as [|sensor sensors IH]; intros s E.
  { injection E as <-. split_and!; [done|cbn; lia|by rewrite app_nil_r|done]. }
  apply Forall_cons in Hok as [Hs Hok]. apply NoDup_cons in Hnd as [Hni Hnd].
  cbn [for_each] in E. apply bind_Ok in E as ([] & s1 & E1 & E).
  apply configure_sensor_run in E1 as (Hc & Hp & Ho & Hk); [|done].
  destruct (IH Hok Hnd s1 E) as (IHc & IHp & IHo & IHk). split_and!.
  - intros [|j] name Hj.
    + injection Hj as <-. rewrite Z.add_0_r. apply IHk; [|done].
      intros other Hin E'. apply config_path_inj in E'. by subst.
    + replace (wn_base_port s + Z.of_nat (S j)) with (wn_base_port s1 + Z.of_nat j) by lia.
      by apply IHc.
  - rewrite IHp, Hp. cbn [length]. lia.
  - cbn [length]. by rewrite IHo, Ho, Hp, <-(assoc_L (++)), ports_from_S.
  - intros p n Hne Hd. apply IHk; [intros other Hin; apply Hne; by right|].
    apply Hk; [apply Hne; by left|done].
Qed.

Lemma for_each_open l s : for_each open_port l s =
  (Ok tt, Win (wn_disk s) (wn_base_port s) (wn_opened s ++ l)).
Proof.
  revert s. induction l as [|z l IH]; intros [d b o]; [by rewrite app_nil_r|]. cbn [for_each].
  unfold open_port at 1. rewrite bind_modify, IH. cbn. by rewrite <-(assoc_L (++)).
Qed.

(** What a service got from a port on. *)
Definition configured (drive : string) (svc_dir : path) (sensors : list string) (base : Z) (d : disk) : Prop :=
  forall j sensor, sensors !! j = Some sensor ->
    at_path (config_path svc_dir sensor)
      (File (u (config_text drive sensor (base + Z.of_nat j)))) d.

Definition service_opens (base : Z) (n : nat) : list Z := port_list ++ ports_from base n.

Lemma configure_service_run drive svc_root sensors svc s s' :
  Forall name_ok sensors -> NoDup sensors -> name_ok svc ->
  configure_service drive svc_root sensors svc s = (Ok tt, s') ->
  configured drive (svc_root ++ [svc]) sensors (wn_base_port s) (wn_disk s') /\
  wn_base_port s' = wn_base_port s + Z.of_nat (length sensors) /\
  wn_opened s' = wn_opened s ++ service_opens (wn_base_port s) (length sensors) /\
  forall p n, (forall sensor, sensor ∈ sensors -> p <> config_path (svc_root ++ [svc]) sensor) ->
    at_path p n (wn_disk s) -> at_path p n (wn_disk s').
Proof.
  intros Hok Hnd Hsvc E. unfold configure_service in E. cbv zeta in E.
  rewrite (proj2 (name_ok_plain _ Hsvc)) in E.
  apply bind_Ok in E as ([] & s1 & E1 & E). apply bind_Ok in E as ([] & s2 & E2 & E).
  apply bind_Ok in E as ([] & s3 & E3 & E). rewrite for_each_open in E3. injection E3 as <-.
  pose proof (on_disk_Ok _ _ _ _ E1) as (_ & Hp1 & Ho1).
  pose proof (on_disk_Ok _ _ _ _ E2) as (_ & Hp2 & Ho2).
  apply configure_sensors_run in E as (Hc & Hp & Ho & Hk); [|done|done]. cbn [wn_disk wn_base_port wn_opened] in *.
  rewrite Hp2, Hp1 in *. split_and!; [exact Hc|exact Hp| |].
  - rewrite Ho, Ho2, Ho1. unfold service_opens. by rewrite <-(assoc_L (++)).
  - intros p n Hne Hd. apply Hk; [done|].
    eapply on_disk_kept; [exact E2|apply kept_make_missing|].
    eapply on_disk_kept; [exact E1|apply kept_make_missing|done].
Qed.

Lemma configure_services_run drive svc_root sensors svcs s s' :
  Forall name_ok sensors -> NoDup sensors -> Forall name_ok svcs -> NoDup svcs ->
  for_each (configure_service drive svc_root sensors) svcs s = (Ok tt, s') ->
  (forall i svc, svcs !! i = Some svc ->
     configured drive (svc_root ++ [svc]) sensors
       (wn_base_port s + Z.of_nat (i * length sensors)) (wn_disk s')) /\
  wn_opened s' = wn_opened s ++ concat (map (fun i =>
      service_opens (wn_base_port s + Z.of_nat (i * length sensors)) (length sensors))
    (seq 0 (length svcs))) /\
  wn_base_port s' = wn_base_port s + Z.of_nat (length svcs * length sensors) /\
  forall p n, (forall svc sensor, svc ∈ svcs -> p <> config_path (svc_root ++ [svc]) sensor) ->
    at_path p n (wn_disk s) -> at_path p n (wn_disk s').
Proof.
  intros Hok Hnd Hsok. revert s. induction svcs as [|svc svcs IH]; intros s Hsnd E.
  { injection E as <-. split_and!; [done|by rewrite app_nil_r|cbn; lia|done]. }
  apply Forall_cons in Hsok as [Hs Hsok]. apply NoDup_cons in Hsnd as [Hni Hsnd].
  cbn [for_each] in E. apply bind_Ok in E as ([] & s1 & E1 & E).
  apply configure_service_run in E1 as (Hc & Hp & Ho & Hk); [|done..].
  destruct (IH Hsok s1 Hsnd E) as (IHc & IHo & IHp & IHk).
  assert (forall i, wn_base_port s1 + Z.of_nat (i * length sensors) =
            wn_base_port s + Z.of_nat (S i * length sensors)) as Hb by (intros i; lia).
  split_and!.
  - intros [|i] name Hi.
    + injection Hi as <-. replace (wn_base_port s + Z.of_nat (0 * length sensors))
        with (wn_base_port s) by lia. intros j sensor Hj. apply IHk; [|by apply Hc].
      intros other sensor' Hin E'. unfold config_path in E'. rewrite <-!(assoc_L (++)) in E'.
      apply app_inv_head in E'. injection E' as -> _. done.
    + rewrite <-Hb. by apply IHc.
  - rewrite IHo, Ho, <-(assoc_L (++)). cbn [length seq map concat]. f_equal.
    replace (wn_base_port s + Z.of_nat (0 * length sensors)) with (wn_base_port s) by lia.
    rewrite <-seq_shift, map_map. do 2 f_equal. apply map_ext. intros i. by rewrite Hb.
  - rewrite IHp, Hp. cbn [length]. lia.
  - intros p n Hne Hd. apply IHk; [intros; apply Hne; by right|].
    apply Hk; [|done]. intros sensor _. apply Hne. by left.
Qed.

(** * Theorems *)

(** C32: functional: an installation of the sensor services that ends well leaves in
    every service's directory a configuration for every sensor, each with a port
    of its own, counted from the base port over services and sensors, and the
    firewall was asked to open exactly the ports of the infrastructure, once per
    service, and those of the sensors. *)
Theorem services_configured environ target svcs sensors s s' :
  texts_at (c_def target) "service_directories" = Ok svcs ->
  texts_at (c_def target) "sensors" = Ok sensors ->
  json_item (c_def target) "os" = Ok (JStr (u "Windows")) ->
  Forall name_ok svcs -> NoDup svcs -> Forall name_ok sensors -> NoDup sensors ->
  install_sensor_service environ target s = (Ok tt, s') ->
  let drive := default "C" (dict_get "SystemDrive" environ) +:+ "\" in
  let port i j := wn_base_port s + Z.of_nat (i * length sensors + j) in
  (forall i svc j sensor, svcs !! i = Some svc -> sensors !! j = Some sensor ->
     wn_disk s' !! (c_root target ++ ["sensor_service"; svc; "config"; sensor +:+ ".cfg"]) =
       Some (File (u (config_text drive sensor (port i j))))) /\
  wn_opened s' = wn_opened s ++ concat (map (fun i => port_list ++ map (port i) (seq 0 (length sensors)))
                                          (seq 0 (length svcs))) /\
  wn_base_port s' = wn_base_port s + Z.of_nat (length svcs * length sensors).
Proof.
  intros Hsvcs Hsensors Hos Hok1 Hnd1 Hok2 Hnd2 E drive port. unfold install_sensor_service in E.
  rewrite Hsensors in E. erewrite bind_lift in E by reflexivity. cbv beta zeta in E.
  rewrite Hsvcs in E. erewrite bind_lift in E by reflexivity. cbv beta in E.
  rewrite Hos in E. cbn [res_bind] in E. rewrite bool_decide_eq_true_2 in E by done.
  assert ((match svcs with [] => Ok [] | _ => Ok svcs end) = Ok svcs) as Hm by (by destruct svcs).
  rewrite Hm in E. erewrite bind_lift in E by reflexivity. cbv beta in E. fold drive in E.
  assert (name_ok "sensor_service") as Hss by done.
  rewrite (proj2 (name_ok_plain _ Hss)) in E.
  apply configure_services_run in E as (Hc & Ho & Hp & _); [|done..]. split_and!.
  - intros i svc j sensor Hi Hj. specialize (Hc i svc Hi j sensor Hj).
    unfold at_path, config_path in Hc. rewrite <-!(assoc_L (++)) in Hc. cbn [app] in Hc.
    etransitivity; [exact Hc|]. unfold port. do 4 f_equal. lia.
  - rewrite Ho. do 2 f_equal. apply map_ext. intros i. unfold service_opens, ports_from. f_equal.
    apply map_ext. intros j. unfold port. lia.
  - exact Hp.
Qed.

(** ** Reading a configuration *)

Definition item_ok (kv : string * string) : Prop :=
  strip (property_text kv) = property_text kv /\
  startswith (property_text kv) "#" = false /\ startswith (property_text kv) ";" = false /\
  startswith (property_text kv) "[" = false /\
  has_char "=" kv.1 = false /\ has_char ":" kv.1 = false /\
  optionxform kv.1 = kv.1 /\ strip kv.1 = kv.1 /\ strip kv.2 = kv.2 /\
  has_char newline_char (property_text kv) = false.

Definition name_line_ok (name : string) : Prop :=
  name <> "" /\ strip ("[" +:+ name +:+ "]") = "[" +:+ name +:+ "]" /\
  has_char "]" name = false /\ has_char newline_char ("[" +:+ name +:+ "]") = false.

Definition sections_ok (secs : sections) : Prop :=
  Forall (fun s => name_line_ok s.1 /\ Forall item_ok s.2) secs.

Lemma split_delimiter_item k v :
  existsb (Ascii.eqb "=") k = false -> existsb (Ascii.eqb ":") k = false ->
  split_delimiter (k ++ "="%char :: v) = Some (k, v).
Proof.
  induction k as [|c k IH]; intros H1 H2; [done|]. cbn [existsb] in *.
  apply orb_false_iff in H1 as [Hc1 H1]. apply orb_false_iff in H2 as [Hc2 H2].
  cbn [app split_delimiter]. rewrite IH by done. rewrite !(Ascii.eqb_sym c), Hc1, Hc2. done.
Qed.

Lemma read_item kv : item_ok kv -> read_ini_line (property_text kv) = Ok (Item kv).
Proof.
  intros (Hs & H1 & H2 & H3 & H4 & H5 & Hx & Hk & Hv & _). unfold read_ini_line.
  rewrite Hs, H1, H2, H3. rewrite bool_decide_false by (unfold property_text; by destruct (kv.1)).
  cbn [orb]. unfold property_text. rewrite str_chars_app. cbn [str_chars app].
  rewrite str_chars_app. cbn [str_chars app].
  rewrite split_delimiter_item by done. rewrite !str_of_chars, Hk, Hv, Hx. by destruct kv.
Qed.

Lemma read_header name : name_line_ok name -> read_ini_line ("[" +:+ name +:+ "]") = Ok (Header name).
Proof.
  intros (Hne & Hs & Hb & _). unfold read_ini_line. rewrite Hs.
  assert (str_split "]" ("[" +:+ name +:+ "]") = ["[" +:+ name; ""]) as ->.
  { change ("[" +:+ name +:+ "]") with ("[" +:+ (name +:+ String.String "]"%char "")).
    rewrite str_app_assoc. rewrite str_split_app; [done|].
    by rewrite has_char_app, Hb. }
  destruct name as [|c name]; [done|]. done.
Qed.

Lemma read_section_lines name items rest r :
  name_line_ok name -> Forall item_ok items -> read_ini_lines rest = Ok ([], r) ->
  read_ini_lines (section_lines (name, items) ++ rest) = Ok ([], (name, items) :: r).
Proof.
  intros Hn Hi Hr. unfold section_lines. cbn [fst snd app read_ini_lines].
  rewrite read_header by done. cbn [res_bind].
  assert (read_ini_lines (map property_text items ++ rest) = Ok (items, r)) as ->; [|done].
  induction Hi as [|kv items Hkv _ IH]; [done|]. cbn [map app read_ini_lines].
  rewrite read_item by done. cbn [res_bind]. by rewrite IH.
Qed.

(** Roundtrip: reading a configuration that the installer wrote gives its sections
    and items, in their order. *)
Theorem ini_roundtrip secs : sections_ok secs -> read_ini (ini_text secs) = Ok secs.
Proof.
  intros Hok. unfold read_ini, ini_text.
  assert (read_ini_lines (flat_map section_lines secs ++ [""]) = Ok ([], secs)) as Hr.
  { induction Hok as [|[name items] secs [Hn Hi] _ IH]; [done|]. cbn [flat_map].
    rewrite <-(assoc_L (++)). by apply read_section_lines. }
  rewrite str_split_join.
  - cbn [read_ini_lines]. change (read_ini_line "") with (Ok Blank). cbn [res_bind]. by rewrite Hr.
  - done.
  - apply Forall_cons. split; [done|]. apply Forall_app. split; [|by repeat constructor].
    apply Forall_flat_map. eapply Forall_impl; [exact Hok|]. intros [name items] [Hn Hi].
    apply Forall_cons. split; [apply Hn|]. apply Forall_map.
    eapply Forall_impl; [exact Hi|]. intros kv Hkv. apply Hkv.
Qed.

(** ** The start of a sensor *)

(** The wrapper's option parser knows a long option by its name or by an
    unambiguous beginning of it: no name begins with what is no option. *)
Definition long_option (arg : string) : string := default "" (head (str_split "=" arg)).
Definition known_option (arg : string) : bool :=
  existsb (fun flag => startswith flag (long_option arg)) (flat_map os_flags setup_options).

Lemma long_option_item k v : has_char "=" k = false -> long_option ("--" +:+ k +:+ "=" +:+ v) = "--" +:+ k.
Proof.
  intros Hk. unfold long_option. change ("=" +:+ v) with (String.String "="%char v).
  rewrite str_app_assoc, str_split_app; [done|]. by rewrite has_char_app, Hk.
Qed.

(** Error: composed, the installer, the sensors and the wrapper do not fit.
    A sensor that is started from the configuration that the installer wrote for
    it calls the wrapper with arguments none of which is an option of the wrapper:
    the names of the options have hyphens. *)
Theorem installed_config_refused set_level drive sensor port :
  sections_ok (config_sections drive sensor port) -> set_level DEFAULT_DEBUG_LEVEL = Ok tt ->
  exists args, service_start set_level (config_text drive sensor port) = Ok args /\
    length args = 5%nat /\ Forall (fun a => known_option a = false) args.
Proof.
  intros Hok Hl. unfold service_start, config_text. rewrite ini_roundtrip by done.
  set (params := snd (hd ("", []) (config_sections drive sensor port))).
  exists (map (fun kv => "--" +:+ kv.1 +:+ "=" +:+ kv.2) params). split.
  { change (res_bind (set_level DEFAULT_DEBUG_LEVEL)
      (fun _ => Ok (map (fun kv => "--" +:+ kv.1 +:+ "=" +:+ kv.2) params)) =
      Ok (map (fun kv => "--" +:+ kv.1 +:+ "=" +:+ kv.2) params)). by rewrite Hl. }
  split; [done|]. apply Forall_map.
  repeat (apply Forall_cons_2;
    [unfold known_option; rewrite long_option_item by done; by vm_compute|]). constructor.
Qed.

(** Functional: the default section gives every key that the start of the service
    looks for, so that it is written at most once; without [USERNAME] the start
    fails. *)
Theorem defaults_completed environ basedir defaults :
  match service_defaults environ basedir defaults with
  | Ok d => needs_default_section d = false
  | Raise e => e = NameError /\ dict_get "USERNAME" environ = None
  end.
Proof.
  unfold service_defaults. destruct (needs_default_section defaults) eqn:E; [|done].
  unfold build_default_section. destruct (dict_get "USERNAME" environ) as [user|]; [|done].
  cbn [opt_res res_bind]. unfold needs_default_section.
  apply not_true_iff_false. intros H. apply existsb_exists in H as (k & Hk%list_elem_of_In & Hn).
  apply negb_true_iff in Hn. unfold dict_has in Hn.
  match type of Hn with context [dict_update defaults ?l] =>
    assert (exists v, dict_get k (dict_update defaults l) = Some v) as [v Hv] end; [|by rewrite Hv in Hn].
  unfold default_keys in Hk. rewrite dict_update_get by (by apply (bool_decide_unpack _)).
  repeat (apply elem_of_cons in Hk as [->|Hk]; [by eexists|]). by apply not_elem_of_nil in Hk.
Qed.

(** Functional: of each of its rounds the kernelprobe sensor puts one message,
    with the constant document. *)
Theorem kernelprobe_reports stub now rounds q :
  stub_ok stub -> (forall n, Forall scalar (now n)) ->
  exists msgs, kernelprobe stub now rounds q = (Ok tt, q ++ msgs) /\
    reports stub (map (fun n => log_doc (now n) "info" (JObj [(u "Test", JInt 123)])) (seq 0 rounds)) msgs.
Proof.
  intros Hs Hn. unfold kernelprobe. eexists. split.
  - apply (for_each_reports _ (fun n => Some (log_doc (now n) "info" (JObj [(u "Test", JInt 123)]))) stub).
    intros n q' _. unfold kernelprobe_round. by rewrite put_log_run.
  - assert (omap (fun n => Some (log_doc (now n) "info" (JObj [(u "Test", JInt 123)]))) (seq 0 rounds) =
      map (fun n => log_doc (now n) "info" (JObj [(u "Test", JInt 123)])) (seq 0 rounds)) as <-
      by (generalize (seq 0 rounds); intros l; induction l as [|n l IH]; [done|]; cbn; by f_equal).
    apply message_reports; [done|]. apply Forall_forall. intros d Hd.
    apply list_elem_of_omap in Hd as (n & _ & [= <-]).
    apply log_doc_ok; [done|]. apply jwf_obj. split; [by apply (bool_decide_unpack _)|].
    apply Forall_cons_2; [split; [apply scalar_u|done]|constructor].
Qed.

(** * Witnesses *)

Definition small_windows : component :=
  Component ["t"]
    (obj [("name", str "win"); ("os", str "Windows"); ("sensors", strs ["imageload"; "threadcreate"]);
          ("service_directories", strs ["WinVirtUE"])]) "win".
Definition small_win : win := Win (list_to_map [(["t"], Dir)]) BASE_PORT_NO [].

Lemma services_configured_witness :
  wn_disk (install_sensor_service [] small_windows small_win).2
    !! ["t"; "sensor_service"; "WinVirtUE"; "config"; "threadcreate.cfg"] =
  Some (File (u (config_text "C\" "threadcreate" 11021))).
Proof.
  destruct (services_configured [] small_windows ["WinVirtUE"] ["imageload"; "threadcreate"]
    small_win (install_sensor_service [] small_windows small_win).2) as (H & _ & _).
  - by vm_compute.
  - by vm_compute.
  - by vm_compute.
  - by repeat constructor.
  - by apply (bool_decide_unpack _).
  - by repeat constructor.
  - by apply (bool_decide_unpack _).
  - assert ((install_sensor_service [] small_windows small_win).1 = Ok tt) as <- by (by vm_compute).
    apply surjective_pairing.
  - exact (H 0%nat "WinVirtUE" 1%nat "threadcreate" eq_refl eq_refl).
Defined.

(** The text of [CONFIG_FILE_TEMPLATE]. *)
Example template_text : config_text "C:\" "imageload" 11020 = "
[parameters]
public_key_path=C:\WinVirtUE\certs\imageload\rsa_key.pub
private_key_path=C:\WinVirtUE\certs\imageload\rsa_key
ca_key_path=C:\WinVirtUE\certs\imageload\
api_host=sensing-api.savior.internal
sensor_port=11020
[runtime]
dbglvl=DEBUG
".
Proof. by vm_compute. Qed.

Lemma template_sections_ok : sections_ok (config_sections "C:\" "imageload" 11020).
Proof.
  unfold sections_ok, config_sections.
  repeat (apply Forall_cons_2; [split; [split_and!; [done|by vm_compute..]|];
    repeat (apply Forall_cons_2; [split_and!; by vm_compute|]); constructor|]). constructor.
Qed.

Lemma installed_config_refused_witness :
  exists args,
    service_start (fun _ => Ok tt) (config_text "C:\" "imageload" 11020) = Ok args /\
    length args = 5%nat /\ Forall (fun a => known_option a = false) args.
Proof.
  apply (installed_config_refused (fun _ => Ok tt) "C:\" "imageload" 11020);
    [exact template_sections_ok|reflexivity].
Defined.

Lemma ini_roundtrip_witness :
  read_ini (config_text "C:\" "imageload" 11020) = Ok (config_sections "C:\" "imageload" 11020).
Proof. apply (ini_roundtrip (config_sections "C:\" "imageload" 11020)). exact template_sections_ok. Defined.
