(* ===== verification/Tools.v ===== *)
(** Small tools for the Linux side: the client of the kernel module
    ([control/kernel/KernelSensor-standalone.py]), the process killer
    ([control/kernel/kill_proc.py]) and the clearing of the container network
    ([bin/clear_network.py]).

    What a socket, the shell and docker answer is given; what is printed is left
    out, except for the output file of the client. *)

From S2P Require Import Prelude Json PyText WrapperConfig.
#[local] Open Scope Z_scope.

(** * The client of the kernel module *)

(** What the next calls of [recv] do is the list [ks_recv], the stream having
    ended after it. *)
Record client := Client {
  ks_closed : bool;
  ks_recv : list (res ustr);
  ks_sent : list ustr;
  ks_out : ustr;
  ks_target_sensor : string;
}.

Abbreviation K := (M client).

(** [self.sock.sendall(text)]; a closed socket is refused. *)
Definition sendall (text : ustr) : K unit :=
  do s <- get;
  if ks_closed s then throw OSError
  else modify (fun s => Client (ks_closed s) (ks_recv s) (ks_sent s ++ [text]) (ks_out s) (ks_target_sensor s)).

(** [self.sock.recv(max_amount)] *)
Definition recv : K ustr := fun s =>
  match ks_recv s with
  | [] => (Ok [], s)
  | r :: l => (r, Client (ks_closed s) l (ks_sent s) (ks_out s) (ks_target_sensor s))
  end.
Definition out_write (text : ustr) : K unit :=
  modify (fun s => Client (ks_closed s) (ks_recv s) (ks_sent s) (ks_out s ++ text) (ks_target_sensor s)).
Definition close : K unit :=
  modify (fun s => Client true (ks_recv s) (ks_sent s) (ks_out s) (ks_target_sensor s)).

(** [json.dumps(json_message, sort_keys = True)] *)
Definition message (request : list ustr) : ustr :=
  dumps (JObj [(u "Virtue-protocol-version", JFloat (u "0.1"));
               (u "request", JList (map JStr request))]).

(** [while len(data): write(data); data = recv()], [fuel] the number of looks. *)
Fixpoint drain (fuel : nat) (data : ustr) : K unit :=
  match fuel with
  | O => ret tt
  | S fuel =>
      match data with
      | [] => ret tt
      | _ => do_ out_write data; do data <- recv; drain fuel data
      end
  end.

(** The same loop of [run_input_file], which writes again what it has read. *)
Fixpoint drain_input (fuel : nat) (data : ustr) : K unit :=
  match fuel with
  | O => ret tt
  | S fuel =>
      match data with
      | [] => ret tt
      | _ => do_ out_write data; do data <- recv; do_ out_write data; drain_input fuel data
      end
  end.

(** Every [recv] but the last takes something from the list. *)
Definition looks (s : client) : nat := S (length (ks_recv s)).

(** [try: m; except: self.sock.close()] *)
Definition or_close (m : K unit) : K unit := catch m (fun _ => close).

Definition send_message (nonce command : ustr) : K unit :=
  or_close
    (do s <- get;
     do_ sendall (message [nonce; command; u (ks_target_sensor s)]);
     do s <- get;
     do data <- recv;
     drain (looks s) data).
Definition send_state_message (nonce state : ustr) : K unit := send_message nonce state.
Definition send_records_message (nonce : ustr) : K unit := send_message nonce (u "records").

Definition send_discovery_message (nonce : ustr) : K unit :=
  or_close
    (do_ sendall (message [nonce; u "discovery"; u "*"]);
     do data <- recv;
     out_write (data ++ [10])).

Definition send_echo_test : K unit :=
  or_close (do_ sendall (u "echo" ++ [0]); do _ <- recv; ret tt).

(** One line of the input file; a line that is no JSON text is only reported. *)
Definition input_line (line : ustr) : K unit :=
  match loads line with
  | Raise _ => ret tt
  | Ok request =>
      or_close
        (do_ sendall (dumps request);
         do s <- get;
         do data <- recv;
         drain_input (looks s) data)
  end.
Definition run_input_file (in_file : list ustr) : K unit := for_each input_line in_file.

(** The command line, as argparse reads it. *)
Record client_args := ClientArgs {
  ca_sensor : option string; ca_infile : option (list ustr); ca_state : option ustr;
  ca_records : bool; ca_discover : bool; ca_echo : bool }.

(** [client_main], for the default output file and a socket that is connected;
    [nonces] are the identifiers that [uuid4] gives. *)
Definition client_main (args : client_args) (nonces : nat -> ustr) : K unit :=
  do_ (match ca_sensor args with
       | None | Some ""%string => ret tt
       | Some t => modify (fun s => Client (ks_closed s) (ks_recv s) (ks_sent s) (ks_out s) t)
       end);
  match ca_infile args with
  | Some in_file => run_input_file in_file
  | None =>
      do_ (match ca_state args with
           | Some (_ :: _ as st) => send_state_message (nonces 0%nat) st
           | _ => ret tt
           end);
      do_ (if ca_records args then send_records_message (nonces 1%nat) else ret tt);
      do_ (if ca_discover args then send_discovery_message (nonces 2%nat) else ret tt);
      if ca_echo args then send_echo_test else ret tt
  end.

(** * The process killer *)

Inductive kill := Kill (pid sig : Z).

(** [KillProc(args)]: the branch for a command line reads an attribute that is
    never set, before the branches for a user, a parent and a name.  [killed] is
    what [os.kill] does. *)
Definition kill_proc (killed : kill -> res unit) (pid : option string) (sig : string) : M (list kill) unit :=
  match pid with
  | Some (String.String _ _ as pid) =>
      do p <- lift (py_int pid);
      do s <- lift (py_int sig);
      do_ modify (fun l => l ++ [Kill p s]);
      catch (lift (killed (Kill p s))) (fun e => if decide (e = OSError) then ret tt else throw e)
  | _ => throw AttributeError
  end.

(** * Clearing the network *)

(** [find_containers()] on what docker tells of the network; the order of the
    dictionary is its own. *)
Definition starts_with (s : ustr) (p : string) : bool := bool_decide (take (length (u p)) s = u p).

Definition find_containers (network_raw : ustr) : res (list ustr) :=
  let? network := loads network_raw in
  match network with
  | JList (first :: _) =>
      let? containers := json_item first "Containers" in
      match containers with
      | JObj l =>
          foldr (fun e k => let? name := json_item e.2 "Name" in
                            match name with
                            | JStr s => let? rest := k in
                                        Ok (if starts_with s "savior-api" then rest else s :: rest)
                            | _ => Raise AttributeError
                            end) (Ok []) l
      | _ => Raise AttributeError
      end
  | JList [] => Raise IndexError
  | JObj _ => Raise KeyError
  | _ => Raise TypeError
  end.

(** The commands that the program has docker run; [stopped] is what they do. *)
Definition stop_container (stopped : ustr -> res unit) (name : ustr) : M (list ustr) unit :=
  do_ modify (fun l => l ++ [u "docker stop " ++ name]);
  lift (stopped name).
Definition clear_network (stopped : ustr -> res unit) (network_raw : ustr) : M (list ustr) unit :=
  do containers <- lift (find_containers network_raw);
  for_each (stop_container stopped) containers.

(** * Theorems *)

Definition end_of (r : res ustr) : Prop := match r with Ok data => data = [] | Raise _ => True end.

Lemma drain_run cs r rest fuel c s :
  Forall (fun c => c <> []) (c :: cs) -> end_of r -> (length cs < fuel)%nat ->
  ks_recv s = map Ok cs ++ r :: rest ->
  or_close (drain (S fuel) c) s =
    (Ok tt, Client (ks_closed s || negb (is_ok r)) rest (ks_sent s) (ks_out s ++ c ++ concat cs)
              (ks_target_sensor s)).
Proof.
  intros Hne Hr. revert fuel c Hne s. induction cs as [|c' cs IH]; intros fuel c Hne s Hf Hs;
    apply Forall_cons in Hne as [Hc Hne]; (destruct c as [|z c]; [done|]); destruct s as [cl rc sn out t];
    cbn [ks_recv ks_closed ks_out ks_sent ks_target_sensor] in *; subst rc;
    unfold or_close, catch; cbn [drain]; unfold out_write; rewrite bind_modify;
    unfold bind, recv; cbn [ks_recv ks_closed ks_out ks_sent ks_target_sensor map app].
  - destruct r as [data|e]; cbn in Hr.
    + subst data. destruct fuel; [cbn in Hf; lia|]. cbn. by rewrite orb_false_r, app_nil_r.
    + cbn. by rewrite orb_true_r, app_nil_r.
  - destruct fuel as [|fuel]; [cbn in Hf; lia|].
    specialize (IH fuel c' Hne (Client cl (map Ok cs ++ r :: rest) sn (out ++ z :: c) t)).
    cbn [ks_recv ks_closed ks_out ks_sent ks_target_sensor] in IH. unfold or_close, catch in IH.
    rewrite IH; [|cbn in Hf; lia|done]. cbn [concat]. by rewrite <-!app_assoc.
Qed.

(** Functional: the client writes what the kernel module sends until its end, or
    until nothing comes for half a second, exactly as it came. *)
Theorem records_written nonce cs r s :
  ks_closed s = false -> ks_recv s = map Ok cs ++ [r] -> Forall (fun c => c <> []) cs -> end_of r ->
  send_records_message nonce s =
    (Ok tt, Client (negb (is_ok r)) [] (ks_sent s ++ [message [nonce; u "records"; u (ks_target_sensor s)]])
              (ks_out s ++ concat cs) (ks_target_sensor s)).
Proof.
  destruct s as [cl rc sn out t]. cbn [ks_closed ks_recv ks_sent ks_out ks_target_sensor].
  intros -> -> Hcs Hr. unfold send_records_message, send_message, or_close, sendall, catch, bind, get, modify.
  cbn [ks_closed ks_recv ks_sent ks_out ks_target_sensor]. unfold recv, looks.
  cbn [ks_closed ks_recv ks_sent ks_out ks_target_sensor].
  destruct cs as [|c cs]; cbn [map app].
  - generalize (message [nonce; u "records"; u t]). intros m.
    destruct r as [data|e]; cbn in Hr; [subst data|]; cbn; by rewrite app_nil_r.
  - pose proof (drain_run cs r [] (S (length (map Ok cs ++ [r]))) c
      (Client false (map Ok cs ++ [r]) (sn ++ [message [nonce; u "records"; u t]]) out t) Hcs Hr) as H.
    cbn [ks_closed ks_recv ks_sent ks_out ks_target_sensor orb] in H. unfold or_close, catch in H.
    cbn [length]. rewrite H; [done| |done]. rewrite length_app, length_map. cbn. lia.
Qed.

Lemma drain_input_run cs r rest fuel c s :
  Forall (fun c => c <> []) (c :: cs) -> end_of r -> (length cs < fuel)%nat ->
  ks_recv s = map Ok cs ++ r :: rest ->
  or_close (drain_input (S fuel) c) s =
    (Ok tt, Client (ks_closed s || negb (is_ok r)) rest (ks_sent s)
              (ks_out s ++ c ++ flat_map (fun c => c ++ c) cs) (ks_target_sensor s)).
Proof.
  intros Hne Hr. revert fuel c Hne s. induction cs as [|c' cs IH]; intros fuel c Hne s Hf Hs;
    apply Forall_cons in Hne as [Hc Hne]; (destruct c as [|z c]; [done|]); destruct s as [cl rc sn out t];
    cbn [ks_recv ks_closed ks_out ks_sent ks_target_sensor] in *; subst rc;
    unfold or_close, catch; cbn [drain_input]; unfold out_write; rewrite bind_modify;
    unfold bind, recv; cbn [ks_recv ks_closed ks_out ks_sent ks_target_sensor map app].
  - destruct r as [data|e]; cbn in Hr.
    + subst data. destruct fuel; [cbn in Hf; lia|]. cbn. by rewrite orb_false_r, !app_nil_r.
    + cbn. by rewrite orb_true_r, app_nil_r.
  - destruct fuel as [|fuel]; [cbn in Hf; lia|].
    specialize (IH fuel c' Hne (Client cl (map Ok cs ++ r :: rest) sn ((out ++ z :: c) ++ c') t)).
    cbn [ks_recv ks_closed ks_out ks_sent ks_target_sensor] in IH. unfold or_close, catch in IH.
    unfold modify. cbn [ks_recv ks_closed ks_out ks_sent ks_target_sensor].
    rewrite IH; [|cbn in Hf; lia|done]. cbn [flat_map]. by rewrite <-!app_assoc.
Qed.

(** Error: a request from the input file has every part of its answer but the
    first written twice. *)
Theorem input_answers_doubled line request c cs r s :
  loads line = Ok request -> ks_closed s = false -> ks_recv s = map Ok (c :: cs) ++ [r] ->
  Forall (fun c => c <> []) (c :: cs) -> end_of r ->
  (input_line line s).1 = Ok tt /\
  ks_out (input_line line s).2 = ks_out s ++ c ++ flat_map (fun c => c ++ c) cs.
Proof.
  destruct s as [cl rc sn out t]. cbn [ks_closed ks_recv ks_sent ks_out ks_target_sensor].
  intros Hl -> -> Hcs Hr. unfold input_line. rewrite Hl.
  unfold or_close, sendall, catch, bind, get, modify.
  cbn [ks_closed ks_recv ks_sent ks_out ks_target_sensor]. unfold recv, looks.
  cbn [ks_closed ks_recv ks_sent ks_out ks_target_sensor map app].
  pose proof (drain_input_run cs r [] (S (length (map Ok cs ++ [r]))) c
    (Client false (map Ok cs ++ [r]) (sn ++ [dumps request]) out t) Hcs Hr) as H.
  cbn [ks_closed ks_recv ks_sent ks_out ks_target_sensor orb] in H. unfold or_close, catch in H.
  cbn [length]. rewrite H; [done| |done]. rewrite length_app, length_map. cbn. lia.
Qed.

(** Error: the killer only ever kills a process by its number, and with a signal
    by its number: by name, user, parent or command line it raises
    [AttributeError], and with the default signal [ValueError]. *)
Theorem kill_needs_numbers killed pid sig l :
  match kill_proc killed pid sig [] with
  | (_, [Kill p s]) => exists t, pid = Some t /\ py_int t = Ok p /\ py_int sig = Ok s
  | (r, l) => l = [] /\ is_ok r = false
  end /\ (kill_proc killed None sig l) = (Raise AttributeError, l).
Proof.
  split; [|done]. unfold kill_proc. destruct pid as [[|a t]|]; [done| |done].
  unfold bind, lift. destruct (py_int (String.String a t)) as [p|e] eqn:Ep; [|done].
  destruct (py_int sig) as [s|e] eqn:Es; [|done]. cbn. unfold catch.
  destruct (killed (Kill p s)) as [[]|e]; [by eexists|].
  case_decide; by eexists.
Qed.

(** Functional: the containers that are stopped are those of the network whose
    names do not begin with [savior-api], in the order of the network. *)
Theorem containers_found l :
  Forall (fun e => jwf (JStr e.2) /\ Forall scalar e.1) l -> NoDup (map fst l) ->
  find_containers (dumps (JList [JObj [(u "Containers",
      JObj (map (fun e => (e.1, JObj [(u "Name", JStr e.2)])) l))]])) =
    Ok (filter (fun name => starts_with name "savior-api" = false) (map snd l)).
Proof.
  intros Hl Hnd. unfold find_containers.
  assert (jwf (JObj (map (fun e : ustr * ustr => (e.1, JObj [(u "Name", JStr e.2)])) l))) as Hw.
  { apply jwf_obj. split.
    - unfold dict_keys. by rewrite map_map.
    - apply Forall_map. eapply Forall_impl; [exact Hl|]. intros [k name] [Hj Hk]. split; [done|].
      apply jwf_obj. split; [by apply (bool_decide_unpack _)|]. constructor; [|constructor].
      split; [apply scalar_u|exact Hj]. }
  rewrite loads_dumps.
  - cbn [res_bind]. assert (json_item (JObj [(u "Containers",
      JObj (map (fun e : ustr * ustr => (e.1, JObj [(u "Name", JStr e.2)])) l))]) "Containers" =
      Ok (JObj (map (fun e : ustr * ustr => (e.1, JObj [(u "Name", JStr e.2)])) l))) as ->
      by reflexivity.
    cbn [res_bind]. clear. induction l as [|[k name] l IH]; [done|]. cbn [map foldr fst snd].
    change (json_item (JObj [(u "Name", JStr name)]) "Name") with (Ok (JStr name)). cbn [res_bind].
    rewrite IH. cbn [res_bind]. rewrite filter_cons. by case_match; case_decide; simplify_eq.
  - constructor; [|constructor]. apply jwf_obj. split; [by apply (bool_decide_unpack _)|].
    constructor; [|constructor]. split; [apply scalar_u|exact Hw].
Qed.
