(* ===== verification/KernelRelay.v ===== *)
(** The relay of the Linux kernel sensors, [sensors/sensor_linux_kernel/sensor_kernel.py]:
    it asks the kernel module over a socket which sensors there are, polls each
    for its records and puts them on the wrapper's queue.

    The socket is what arrives on it, line by line, with a silence where the
    relay waits longer than [SOCKET_TIMEOUT], and what was sent; each reading of
    the clock and each new identifier takes the next of a sequence. *)

From S2P Require Import Prelude Json PyText JsonLayout CommandSensors.

(** * State *)

(** What a read meets: a line, or a silence that the timeout ends. *)
Inductive arrival := Line (b : bytes) | Silence.

Record relay := Relay {
  rl_in : list arrival; rl_sent : list bytes; rl_queue : list ustr; rl_tick : nat }.

Abbreviation K := (M relay).

Definition set_in (l : list arrival) (s : relay) : relay := Relay l (rl_sent s) (rl_queue s) (rl_tick s).
Definition send (b : bytes) : K unit :=
  modify (fun s => Relay (rl_in s) (rl_sent s ++ [b]) (rl_queue s) (rl_tick s)).
Definition queue_put (msg : ustr) : K unit :=
  modify (fun s => Relay (rl_in s) (rl_sent s) (rl_queue s ++ [msg]) (rl_tick s)).

Section Relay.

(** [datetime.datetime.now().isoformat()] and [uuid.uuid4().hex], one after another. *)
Context (clock uuid : nat -> ustr).

Definition tick {A} (f : nat -> A) : K A := fun s =>
  (Ok (f (rl_tick s)), Relay (rl_in s) (rl_sent s) (rl_queue s) (S (rl_tick s))).

(** * Parsing *)

(** [parse_json(json_str)]; [JNull] stands for [None] as well. *)
Definition parse_json (json_str : bytes) : json :=
  match utf8_decode json_str with
  | Raise _ => JNull
  | Ok s =>
      match loads (List.filter (fun c => negb (c =? 0)) s) with
      | Ok j => j
      | Raise _ => JNull
      end
  end.

Definition is_text (j : json) (s : string) : bool :=
  match j with JStr t => bool_decide (t = u s) | _ => false end.

(** [convert_sensor_reply(injson)] *)
Definition convert_sensor_reply (injson : json) : res (option json) :=
  match injson with
  | JObj d =>
      let reply := default JNull (dict_get (u "reply") d) in
      if negb (json_truth reply) then Ok None
      else
        let? n := json_len reply in
        if (n <? 4)%nat then Ok None
        else
          let? sensor := json_at reply 2 in
          let? data := if is_text sensor "kernel-lsof" then json_at reply 4
                       else if is_text sensor "kernel-ps" then json_at reply 5
                       else Ok (JStr (u "unhandled")) in
          Ok (Some (JObj [(u "sensor", sensor); (u "data", data)]))
  | _ => Raise AttributeError
  end.

(** * Requests *)

(** [send_json_obj(json_obj)]; the keys of the requests are in order already. *)
Definition send_json_obj (j : json) : K unit := send (utf8_encode (dumps j ++ [newline])).

Definition sensor_request (id : ustr) (command : string) (sensor : json) : json :=
  JObj [(u "Virtue-protocol-version", JFloat (u "0.1"));
        (u "request", JList [JStr id; JStr (u command); sensor])].

(** The loop of [fetch_sensor_records] on what arrives. *)
Fixpoint fetch_loop (arrivals : list arrival) : res (list json) * list arrival :=
  match arrivals with
  | [] => (Ok [], [])
  | Silence :: rest => (Ok [], rest)
  | Line [] :: rest => (Ok [], Line [] :: rest)
  | Line resp :: rest =>
      match convert_sensor_reply (parse_json resp) with
      | Raise e => (Raise e, rest)
      | Ok None => (Ok [], rest)
      | Ok (Some payload) =>
          let '(r, rest) := fetch_loop rest in (res_map (cons payload) r, rest)
      end
  end.

(** [fetch_sensor_records(sensor)] *)
Definition fetch_sensor_records (sensor : json) : K (list json) :=
  do id <- tick uuid;
  do sensor_uuid <- lift (json_item sensor "uuid");
  do_ send_json_obj (sensor_request id "records" sensor_uuid);
  fun s => let '(r, rest) := fetch_loop (rl_in s) in (r, set_in rest s).

(** The message of a record, where there is a stub. *)
Definition relay_record (stub : list (ustr * json)) (r : json) : K unit :=
  do now <- tick clock;
  match stub with
  | [] => ret tt
  | _ => queue_put (dumps (JObj (dict_update (log_doc now "info" r) stub)))
  end.

Definition poll_sensor (stub : list (ustr * json)) (s : json) : K unit :=
  do records <- fetch_sensor_records s;
  for_each (relay_record stub) records.

(** [poll_sensors(message_stub, config, message_queue)] for a number of rounds. *)
Definition poll_sensors (sensors : list json) (stub config : list (ustr * json)) (rounds : nat) : K unit :=
  do_ lift (print_interval config);
  for_each (fun _ => for_each (poll_sensor stub) sensors) (seq 0 rounds).

(** [recv_json_obj()]; [None] when the socket is closed.  It waits without limit:
    a silence is over when something arrives. *)
Fixpoint recv_line (arrivals : list arrival) : json * list arrival :=
  match arrivals with
  | [] => (JNull, [])
  | Silence :: rest => recv_line rest
  | Line [] :: rest => (JNull, Line [] :: rest)
  | Line b :: rest => (parse_json b, rest)
  end.
Definition recv_json_obj : K json := fun s =>
  let '(j, rest) := recv_line (rl_in s) in (Ok j, set_in rest s).

(** The elements of a list a loop goes through. *)
Definition json_elements (j : json) : res (list json) :=
  match j with
  | JList l => Ok l
  | JStr s => Ok (map (fun c => JStr [c]) s)
  | JObj d => Ok (map (fun e => JStr e.1) d)
  | _ => Raise TypeError
  end.

(** [dict(name = s[0], uuid = s[1])] *)
Definition sensor_entry (s : json) : res json :=
  let? name := json_at s 0 in
  let? id := json_at s 1 in
  Ok (JObj [(u "name", name); (u "uuid", id)]).

(** [discover_sensors()] *)
Definition discover_sensors : K (list json) :=
  do id <- tick uuid;
  do_ send_json_obj (sensor_request id "discovery" (JStr (u "*")));
  do response <- recv_json_obj;
  do reply <- lift (json_item response "reply");
  do kind <- lift (json_at reply 1);
  if negb (is_text kind "discovery") then throw AssertionError
  else
    do l <- lift (let? v := json_at reply 2 in json_elements v);
    lift (res_mapM sensor_entry l).

(** [common_init()], then [poll_sensors]: the connection is made. *)
Definition relay_main (stub config : list (ustr * json)) (rounds : nat) : K unit :=
  do sensors <- discover_sensors;
  poll_sensors sensors stub config rounds.

End Relay.

(** * What the kernel module sends *)

(** The texts of [control/kernel/lsof-sensor.c] and [ps-sensor.c]: [scnprintf]
    writes strings as they are. *)
Module Kernel.

Definition q (s : ustr) : ustr := 34 :: s ++ [34].
Definition comma : ustr := u ", ".

Definition r_header : ustr := [123] ++ q (u "Virtue-protocol-version") ++ u ": 0.1" ++ comma ++
  q (u "reply") ++ u ": [".

(** A request that is answered: its nonce, the sensor's name and identifier. *)
Record session := Session { s_nonce : ustr; s_name : ustr; s_uuid : ustr }.

Record lsof_record := LsofRecord {
  l_uid : Z; l_pid : Z; l_flags : Z; l_mode : Z; l_count : Z; l_path : ustr }.

Record ps_record := PsRecord { p_comm : ustr; p_pid : Z; p_uid : Z; p_nonce : ustr }.

Definition field (name : string) (z : Z) : ustr := q (u name) ++ u ": " ++ int_text z.

Definition lsof_object (r : lsof_record) : ustr :=
  [123] ++ field "uid" (l_uid r) ++ comma ++ field "pid" (l_pid r) ++ comma ++
  field "flags" (l_flags r) ++ comma ++ field "mode" (l_mode r) ++ comma ++
  field "count" (l_count r) ++ comma ++ q (u "path") ++ u ": " ++ q (l_path r) ++ [125].

Definition lsof_reply (s : session) (r : lsof_record) : ustr :=
  r_header ++ u " " ++ q (s_nonce s) ++ comma ++ q (s_name s) ++ comma ++ q (u "kernel-lsof") ++ comma ++
  q (s_uuid s) ++ [44] ++ lsof_object r ++ u " ]}" ++ [newline].

Definition ps_object (r : ps_record) : ustr :=
  u "{ " ++ q (u "comm") ++ u ": " ++ q (p_comm r) ++ comma ++ field "pid" (p_pid r) ++ comma ++
  field "uid" (p_uid r) ++ u " }".

Definition ps_reply (s : session) (index : Z) (r : ps_record) : ustr :=
  r_header ++ u " " ++ q (s_nonce s) ++ comma ++ q (s_name s) ++ comma ++ q (u "kernel-ps") ++ comma ++
  q (s_uuid s) ++ comma ++ q (int_text index) ++ [44] ++ ps_object r ++ [44] ++ q (p_nonce r) ++
  u "]}" ++ [newline].

(** The reply after the last record. *)
Definition end_reply (s : session) : ustr :=
  r_header ++ u " " ++ q (s_nonce s) ++ comma ++ q (s_name s) ++ comma ++ q (s_uuid s) ++ u "]}" ++
  [newline].

End Kernel.

(** * Reading the replies *)

(** Text that needs no escape: what the kernel's strings must be, since it
    escapes nothing. *)
Definition plain_code (c : Z) : bool := (32 <=? c) && (c <? 127) && negb (c =? 34) && negb (c =? 92).
Definition plain_text (s : ustr) : Prop := Forall (fun c => plain_code c = true) s.

Lemma escape_plain c : plain_code c = true -> escape c = [c].
Proof.
  unfold plain_code, escape. intros H. rewrite !(proj2 (Z.eqb_neq c _)) by lia.
  by assert ((32 <=? c) && (c <=? 126) = true) as -> by lia.
Qed.

Lemma quote_plain s : plain_text s -> quote s = Kernel.q s.
Proof.
  intros Hs. unfold quote, Kernel.q. cbn [app]. do 2 f_equal.
  induction Hs as [|c s Hc _ IH]; [done|]. cbn [flat_map]. by rewrite escape_plain, IH.
Qed.

Lemma plain_scalar s : plain_text s -> Forall scalar s.
Proof. intros H. eapply Forall_impl; [exact H|]. intros c. unfold plain_code, scalar. lia. Qed.

Lemma reads_text s : plain_text s -> reads_as (JStr s) (Kernel.q s).
Proof.
  intros Hs. rewrite <-quote_plain by done. apply (reads_as_dumps (JStr s)). by apply plain_scalar.
Qed.

Lemma reads_int z : reads_as (JInt z) (int_text z).
Proof. by apply (reads_as_dumps (JInt z)). Qed.

(** A member or element with a blank before it. *)
Definition int_member (w : ustr) (name : string) (z : Z) (after : ustr) : member :=
  Member w (u name) [] [32] (JInt z) (int_text z) after.
Definition text_member (w : ustr) (name : string) (s : ustr) (after : ustr) : member :=
  Member w (u name) [] [32] (JStr s) (Kernel.q s) after.
Definition text_element (w s after : ustr) : element := Element w (JStr s) (Kernel.q s) after.

Ltac blank := by repeat constructor.

Lemma int_member_ok w name z after : blank w -> blank after -> member_ok (int_member w name z after).
Proof. intros Hw Ha. split_and!; [done|apply scalar_u|blank|blank|apply reads_int|done]. Qed.

Lemma text_member_ok w name s after :
  blank w -> blank after -> plain_text s -> member_ok (text_member w name s after).
Proof. intros Hw Ha Hs. split_and!; [done|apply scalar_u|blank|blank|by apply reads_text|done]. Qed.

Lemma text_element_ok w s after :
  blank w -> blank after -> plain_text s -> element_ok (text_element w s after).
Proof. intros Hw Ha Hs. split_and!; [done|by apply reads_text|done]. Qed.

Import Kernel.

Definition lsof_members (r : lsof_record) : list member :=
  [int_member [32] "pid" (l_pid r) []; int_member [32] "flags" (l_flags r) [];
   int_member [32] "mode" (l_mode r) []; int_member [32] "count" (l_count r) [];
   text_member [32] "path" (l_path r) []].

(** Two ways to put the same pieces together. *)
Ltac same_text :=
  unfold object_text, members_text, member_body, array_text, rest_text, element_text, field, r_header;
  cbn [flat_map mb_before mb_key mb_colon1 mb_colon2 mb_text mb_after int_member text_member
       el_before el_text el_after text_element];
  rewrite ?(quote_plain (u _)) by blank; unfold q, comma;
  change (u ": ") with [58; 32]; change (u ", ") with [44; 32]; change (u " ") with [32];
  repeat progress (rewrite <-?app_assoc, ?app_nil_r; cbn [app]); reflexivity.

(** What a record says, as the relay should report it. *)
Definition lsof_data (r : lsof_record) : json :=
  JObj [(u "uid", JInt (l_uid r)); (u "pid", JInt (l_pid r)); (u "flags", JInt (l_flags r));
        (u "mode", JInt (l_mode r)); (u "count", JInt (l_count r)); (u "path", JStr (l_path r))].

Definition ps_data (r : ps_record) : json :=
  JObj [(u "comm", JStr (p_comm r)); (u "pid", JInt (p_pid r)); (u "uid", JInt (p_uid r))].

Lemma lsof_object_reads r : plain_text (l_path r) -> reads_as (lsof_data r) (lsof_object r).
Proof.
  intros Hp.
  assert (lsof_object r = object_text (int_member [] "uid" (l_uid r) []) (lsof_members r)) as ->
    by (unfold lsof_object, lsof_members; same_text).
  apply (reads_as_object (int_member [] "uid" (l_uid r) []) (lsof_members r)).
  - apply int_member_ok; blank.
  - repeat apply Forall_cons_2; try (apply int_member_ok; blank); [|constructor].
    apply text_member_ok; [blank|blank|done].
  - by apply (bool_decide_unpack _).
Qed.

Lemma ps_object_reads r : plain_text (p_comm r) -> reads_as (ps_data r) (ps_object r).
Proof.
  intros Hp.
  assert (ps_object r = object_text (text_member [32] "comm" (p_comm r) [])
            [int_member [32] "pid" (p_pid r) []; int_member [32] "uid" (p_uid r) [32]]) as ->.
  { unfold ps_object. change (u "{ ") with [123; 32]. change (u " }") with [32; 125]. same_text. }
  apply (reads_as_object (text_member [32] "comm" (p_comm r) [])
    [int_member [32] "pid" (p_pid r) []; int_member [32] "uid" (p_uid r) [32]]).
  - apply text_member_ok; [blank|blank|done].
  - repeat apply Forall_cons_2; try (apply int_member_ok; blank). constructor.
  - by apply (bool_decide_unpack _).
Qed.

(** The array of a reply in its document. *)
Definition reply_doc (l : list json) : json :=
  JObj [(u "Virtue-protocol-version", JFloat (u "0.1")); (u "reply", JList l)].

Lemma reply_reads e es : element_ok e -> Forall element_ok es ->
  loads ((r_header ++ drop 1 (array_text e es) ++ [125]) ++ [newline]) =
    Ok (reply_doc (map el_value (e :: es))).
Proof.
  intros He Hes.
  pose (version := Member [] (u "Virtue-protocol-version") [] [32] (JFloat (u "0.1")) (u "0.1") []).
  pose (reply := Member [32] (u "reply") [] [32] (JList (map el_value (e :: es))) (array_text e es) []).
  assert (r_header ++ drop 1 (array_text e es) ++ [125] = object_text version [reply]) as ->.
  { unfold version, reply, array_text. cbn [drop skipn].
    change (drop 0 ?x) with x. generalize (el_before e ++ rest_text e es) as rest. intros rest.
    unfold r_header. change (u ": 0.1") with [58; 32; 48; 46; 49]. change (u "0.1") with [48; 46; 49].
    change (u ": [") with [58; 32; 91]. same_text. }
  apply (loads_reads_as _ [] (object_text version [reply]) [newline]); [constructor| |blank].
  apply (reads_as_object version [reply]).
  - split_and!; [constructor|apply scalar_u|constructor|blank| |constructor].
    by apply (reads_as_dumps (JFloat (u "0.1"))).
  - apply Forall_cons_2; [|constructor].
    split_and!; [blank|apply scalar_u|constructor|blank|by apply reads_as_array|constructor].
  - by apply (bool_decide_unpack _).
Qed.

(** ** Records *)

Inductive kernel_record := LsofRec (r : lsof_record) | PsRec (index : Z) (r : ps_record).

Definition reply_text (s : session) (r : kernel_record) : ustr :=
  match r with LsofRec r => lsof_reply s r | PsRec i r => ps_reply s i r end.

Definition record_ok (r : kernel_record) : Prop :=
  match r with
  | LsofRec r => plain_text (l_path r)
  | PsRec i r => 0 <= i /\ plain_text (p_comm r) /\ plain_text (p_nonce r)
  end.

Definition session_ok (s : session) : Prop :=
  plain_text (s_nonce s) /\ plain_text (s_name s) /\ plain_text (s_uuid s).

(** What the relay is to report of a record. *)
Definition record_payload (r : kernel_record) : json :=
  match r with
  | LsofRec r => JObj [(u "sensor", JStr (u "kernel-lsof")); (u "data", lsof_data r)]
  | PsRec _ r => JObj [(u "sensor", JStr (u "kernel-ps")); (u "data", ps_data r)]
  end.

Lemma int_text_plain z : 0 <= z -> plain_text (int_text z).
Proof.
  intros Hz. unfold int_text. destruct (z <? 0) eqn:E; [lia|].
  eapply Forall_impl; [apply digits_spec, Hz|]. intros c. cbn. unfold is_digit, plain_code. lia.
Qed.

Definition lsof_elements (s : session) (r : lsof_record) : list element :=
  [text_element [32] (s_name s) []; text_element [32] (u "kernel-lsof") [];
   text_element [32] (s_uuid s) []; Element [] (lsof_data r) (lsof_object r) [32]].

Definition ps_elements (s : session) (i : Z) (r : ps_record) : list element :=
  [text_element [32] (s_name s) []; text_element [32] (u "kernel-ps") [];
   text_element [32] (s_uuid s) []; text_element [32] (int_text i) [];
   Element [] (ps_data r) (ps_object r) []; text_element [] (p_nonce r) []].

(** The elements of a reply, one goal for each. *)
Ltac by_elements :=
  repeat (apply Forall_cons_2; [first [apply text_element_ok; [blank|blank|]
                                      |split_and!; [blank| |blank]]|]); [..|constructor].

Ltac same_reply :=
  unfold array_text; cbn [drop skipn]; change (drop 0 ?x) with x;
  change (u " ]}") with [32; 93; 125]; change (u "]}") with [93; 125]; same_text.

Lemma record_reads s r : session_ok s -> record_ok r ->
  exists l, loads (reply_text s r) = Ok (reply_doc l) /\
    convert_sensor_reply (reply_doc l) = Ok (Some (record_payload r)).
Proof.
  intros (Hn & Hname & Hid) Hr. pose (e := text_element [32] (s_nonce s) []).
  assert (element_ok e) as He by (apply text_element_ok; [blank|blank|done]).
  destruct r as [r|i r]; cbn [reply_text record_ok record_payload] in *.
  - exists (map el_value (e :: lsof_elements s r)). split; [|done].
    assert (lsof_reply s r = (r_header ++ drop 1 (array_text e (lsof_elements s r)) ++ [125]) ++ [newline])
      as -> by (unfold lsof_reply, e, lsof_elements; same_reply).
    apply reply_reads; [done|]. unfold lsof_elements.
    by_elements; [done|blank|done|by apply lsof_object_reads].
  - destruct Hr as (Hi & Hc & Hnc). exists (map el_value (e :: ps_elements s i r)). split; [|done].
    assert (ps_reply s i r = (r_header ++ drop 1 (array_text e (ps_elements s i r)) ++ [125]) ++ [newline])
      as -> by (unfold ps_reply, e, ps_elements; same_reply).
    apply reply_reads; [done|]. unfold ps_elements.
    by_elements; [done|blank|done|by apply int_text_plain|by apply ps_object_reads|done].
Qed.

Lemma end_reads s : session_ok s ->
  exists l, loads (end_reply s) = Ok (reply_doc l) /\ convert_sensor_reply (reply_doc l) = Ok None.
Proof.
  intros (Hn & Hname & Hid). pose (e := text_element [32] (s_nonce s) []).
  pose (es := [text_element [32] (s_name s) []; text_element [32] (s_uuid s) []]).
  exists (map el_value (e :: es)). split; [|done].
  assert (end_reply s = (r_header ++ drop 1 (array_text e es) ++ [125]) ++ [newline])
    as -> by (unfold end_reply, e, es; same_reply).
  apply reply_reads; [by apply text_element_ok; [blank|blank|]|]. unfold es. by_elements; done.
Qed.

(** ** What arrives *)

(** A line that carries a text: its UTF-8 form, with NUL characters anywhere. *)
Definition carries (text : ustr) (b : bytes) : Prop :=
  exists t, b = utf8_encode t /\ Forall scalar t /\ List.filter (fun c => negb (c =? 0)) t = text.

Lemma carries_parse text b j : carries text b -> loads text = Ok j -> parse_json b = j.
Proof.
  intros (t & -> & Ht & Hf) Hl. unfold parse_json. rewrite utf8_roundtrip by done. by rewrite Hf, Hl.
Qed.

Lemma carries_nonempty text b : carries text b -> text <> [] -> b <> [].
Proof.
  intros (t & -> & _ & Hf) Hne Hb. apply Hne. rewrite <-Hf. destruct t as [|c t]; [done|].
  exfalso. unfold utf8_encode in Hb. cbn [flat_map] in Hb. rewrite map_app in Hb.
  apply app_eq_nil in Hb as [Hb _]. unfold utf8_char in Hb. by repeat case_match.
Qed.

Lemma reply_nonempty s r : reply_text s r <> [] /\ end_reply s <> [].
Proof. by destruct r. Qed.

(** The answer to a request for records. *)
Record answer := Answer {
  an_name : json; an_uuid : json; an_session : session; an_records : list kernel_record;
  an_lines : list bytes; an_end : bytes }.

Definition answer_ok (a : answer) : Prop :=
  session_ok (an_session a) /\
  Forall2 (fun r b => record_ok r /\ carries (reply_text (an_session a) r) b) (an_records a) (an_lines a) /\
  carries (end_reply (an_session a)) (an_end a).

Definition an_sensor (a : answer) : json := JObj [(u "name", an_name a); (u "uuid", an_uuid a)].

Definition an_arrivals (a : answer) : list arrival := map Line (an_lines a) ++ [Line (an_end a)].

Lemma fetch_answer a rest : answer_ok a ->
  fetch_loop (an_arrivals a ++ rest) = (Ok (map record_payload (an_records a)), rest).
Proof.
  intros (Hs & Hr & He). unfold an_arrivals. rewrite <-app_assoc. cbn [app].
  induction Hr as [|r b rs bs [Hrec Hb] _ IH]; cbn [map app fetch_loop].
  - destruct (end_reads _ Hs) as (l & Hl & Hc). pose proof (carries_parse _ _ _ He Hl) as Hp.
    assert (an_end a <> []) as Hne by (eapply carries_nonempty; [exact He|apply (reply_nonempty _ (LsofRec (LsofRecord 0 0 0 0 0 [])))]).
    destruct (an_end a); [done|]. by rewrite Hp, Hc.
  - destruct (record_reads _ _ Hs Hrec) as (l & Hl & Hc). pose proof (carries_parse _ _ _ Hb Hl) as Hp.
    assert (b <> []) as Hne by (eapply carries_nonempty; [exact Hb|apply reply_nonempty]).
    destruct b; [done|]. by rewrite Hp, Hc, IH.
Qed.

(** ** Polling *)

Section Polling.

Context (clock uuid : nat -> ustr).

(** The messages that report payloads, each at some time. *)
Definition relays (stub : list (ustr * json)) (payloads : list json) (msgs : list ustr) : Prop :=
  exists docs, Forall2 (fun p doc => exists n, doc = log_doc (clock n) "info" p) payloads docs /\
    reports stub docs msgs.

(** The same with the messages as they are written, [docs] the documents. *)
Definition relayed (stub : list (ustr * json)) (payloads : list json) (docs : list (list (ustr * json)))
    (msgs : list ustr) : Prop :=
  Forall2 (fun p doc => doc_ok doc /\ exists n, doc = log_doc (clock n) "info" p) payloads docs /\
  msgs = map (message_of stub) docs.

Lemma relayed_relays stub payloads docs msgs : stub_ok stub -> relayed stub payloads docs msgs ->
  relays stub payloads msgs.
Proof.
  intros Hs [Hd ->]. exists docs. split.
  - eapply Forall2_impl; [exact Hd|]. by intros p d [_ ?].
  - apply message_reports; [done|]. eapply Forall2_Forall_r; [exact Hd|].
    apply Forall_forall. by intros p _ d [? _].
Qed.

Lemma relayed_app stub p1 p2 d1 d2 m1 m2 :
  relayed stub p1 d1 m1 -> relayed stub p2 d2 m2 -> relayed stub (p1 ++ p2) (d1 ++ d2) (m1 ++ m2).
Proof. intros [H1 ->] [H2 ->]. split; [by apply Forall2_app|by rewrite map_app]. Qed.

Lemma relay_records stub : stub <> [] -> (forall n, Forall scalar (clock n)) ->
  forall payloads s, Forall jwf payloads -> exists s' docs msgs,
    for_each (relay_record clock stub) payloads s = (Ok tt, s') /\
    rl_in s' = rl_in s /\ rl_queue s' = rl_queue s ++ msgs /\ relayed stub payloads docs msgs.
Proof.
  intros Hne Hc. induction payloads as [|p payloads IH]; intros s Hp.
  - exists s, [], []. split_and!; [done|done|by rewrite app_nil_r|]. by split.
  - apply Forall_cons in Hp as [Hp Hps]. set (doc := log_doc (clock (rl_tick s)) "info" p).
    pose (s1 := Relay (rl_in s) (rl_sent s) (rl_queue s ++ [message_of stub doc]) (S (rl_tick s))).
    destruct (IH s1 Hps) as (s' & docs & msgs & Hrun & Hin & Hq & Hr).
    exists s', (doc :: docs), (message_of stub doc :: msgs). split_and!.
    + cbn [for_each]. erewrite bind_step; [exact Hrun|]. unfold relay_record. by destruct stub.
    + done.
    + rewrite Hq. unfold s1. cbn [rl_queue]. by rewrite <-app_assoc.
    + apply (relayed_app stub [p] payloads [doc] docs [message_of stub doc] msgs); [|done].
      split; [|done]. constructor; [|constructor]. split; [by apply log_doc_ok|by eexists].
Qed.

Lemma record_payload_wf r : record_ok r -> jwf (record_payload r).
Proof.
  intros Hr. destruct r as [r|i r]; cbn [record_ok record_payload] in *.
  - apply jwf_obj. split; [by apply (bool_decide_unpack _)|].
    repeat (apply Forall_cons_2; [split; [apply scalar_u|]|]); [apply scalar_u| |constructor].
    apply jwf_obj. split; [by apply (bool_decide_unpack _)|].
    repeat (apply Forall_cons_2; [split; [apply scalar_u|]|]); try done. by apply plain_scalar.
  - destruct Hr as (_ & Hc & _). apply jwf_obj. split; [by apply (bool_decide_unpack _)|].
    repeat (apply Forall_cons_2; [split; [apply scalar_u|]|]); [apply scalar_u| |constructor].
    apply jwf_obj. split; [by apply (bool_decide_unpack _)|].
    repeat (apply Forall_cons_2; [split; [apply scalar_u|]|]); try done. by apply plain_scalar.
Qed.

Lemma answer_payloads_wf a : answer_ok a -> Forall jwf (map record_payload (an_records a)).
Proof.
  intros (_ & Hr & _). apply Forall_fmap. induction Hr as [|r b rs bs [Hr _] _ IH]; constructor;
    [by apply record_payload_wf|done].
Qed.

Lemma poll_answers stub answers rest s :
  stub <> [] -> (forall n, Forall scalar (clock n)) -> Forall answer_ok answers ->
  rl_in s = flat_map an_arrivals answers ++ rest ->
  exists s' docs msgs, for_each (poll_sensor clock uuid stub) (map an_sensor answers) s = (Ok tt, s') /\
    rl_in s' = rest /\ rl_queue s' = rl_queue s ++ msgs /\
    relayed stub (flat_map (fun a => map record_payload (an_records a)) answers) docs msgs.
Proof.
  intros Hne Hc Ha. revert s. induction Ha as [|a answers Ha _ IH]; intros s Hin.
  - exists s, [], []. split_and!; [done|done|by rewrite app_nil_r|]. by split.
  - cbn [flat_map] in Hin. rewrite <-app_assoc in Hin.
    pose (s1 := Relay (flat_map an_arrivals answers ++ rest)
      (rl_sent s ++ [utf8_encode (dumps (sensor_request (uuid (rl_tick s)) "records" (an_uuid a)) ++ [newline])])
      (rl_queue s) (S (rl_tick s))).
    destruct (relay_records stub Hne Hc (map record_payload (an_records a)) s1
                (answer_payloads_wf a Ha)) as (s2 & d1 & m1 & Hrun & Hin2 & Hq2 & Hr1).
    destruct (IH s2 Hin2) as (s' & d2 & m2 & Hrun' & Hin' & Hq' & Hr2).
    exists s', (d1 ++ d2), (m1 ++ m2). split_and!.
    + cbn [map for_each]. erewrite bind_step; [exact Hrun'|]. unfold poll_sensor.
      erewrite bind_step; [exact Hrun|].
      unfold fetch_sensor_records, bind, tick, lift, send_json_obj, send, modify. cbn [an_sensor json_item].
      cbn [rl_in rl_sent rl_queue rl_tick]. change (dict_get (u "uuid") _) with (Some (an_uuid a)).
      cbn [opt_res]. rewrite Hin, fetch_answer by done. done.
    + done.
    + rewrite Hq', Hq2. by rewrite <-app_assoc.
    + by apply relayed_app.
Qed.

(** An answer whose records have come and whose closing reply has not. *)
Definition begun_ok (a : answer) : Prop :=
  session_ok (an_session a) /\
  Forall2 (fun r l => record_ok r /\ carries (reply_text (an_session a) r) l) (an_records a) (an_lines a).

(** Error.  The kernel module writes a path as it is.  A line that is no JSON
    text, which a quotation mark in a path makes, ends the relay with
    [AttributeError], and the records that came before it in the answer are not
    reported either. *)
Theorem unparsable_line_ends_relay stub a b rest s :
  begun_ok a -> b <> [] -> parse_json b = JNull ->
  rl_in s = map Line (an_lines a) ++ Line b :: rest ->
  exists s', poll_sensor clock uuid stub (an_sensor a) s = (Raise AttributeError, s') /\
    rl_queue s' = rl_queue s /\ rl_in s' = rest.
Proof.
  intros [Hs Hr] Hb Hp Hin.
  assert (fetch_loop (map Line (an_lines a) ++ Line b :: rest) = (Raise AttributeError, rest)) as Hf.
  { clear Hin. induction Hr as [|r l rs ls [Hrec Hl] _ IH]; cbn [map app fetch_loop].
    - destruct b; [done|]. by rewrite Hp.
    - destruct (record_reads _ _ Hs Hrec) as (docs & Hl' & Hc). pose proof (carries_parse _ _ _ Hl Hl') as Hpl.
      assert (l <> []) as Hne by (eapply carries_nonempty; [exact Hl|apply reply_nonempty]).
      destruct l; [done|]. by rewrite Hpl, Hc, IH. }
  unfold poll_sensor, fetch_sensor_records, bind, tick, lift, send_json_obj, send, modify.
  cbn [an_sensor json_item rl_in rl_sent rl_queue rl_tick].
  change (dict_get (u "uuid") _) with (Some (an_uuid a)). cbn [opt_res].
  rewrite Hin, Hf. eexists. split; [reflexivity|done].
Qed.

(** C22: refinement.  From the kernel module to the queue.  The module answers the
    request of every sensor with its records, as its own code formats them, NUL
    characters between them or not, and the closing reply; and every text in them (a
    path, a command's name, an identifier) is printable ASCII without quotation mark
    or backslash, as the module escapes nothing.  Then a round of polling puts one
    message for every record of every sensor, in order, with the sensor's tag and
    exactly the record's fields, and reads no further.  When in the answer that
    follows a line is no JSON text, which any other character may make it, the relay
    ends with [AttributeError] and reports none of that answer. *)
Theorem kernel_records_relayed stub answers rest s :
  stub <> [] -> stub_ok stub -> (forall n, Forall scalar (clock n)) -> Forall answer_ok answers ->
  rl_in s = flat_map an_arrivals answers ++ rest ->
  exists s' msgs, for_each (poll_sensor clock uuid stub) (map an_sensor answers) s = (Ok tt, s') /\
    rl_in s' = rest /\ rl_queue s' = rl_queue s ++ msgs /\
    relays stub (flat_map (fun a => map record_payload (an_records a)) answers) msgs /\
    forall a b more, begun_ok a -> b <> [] -> parse_json b = JNull ->
      rest = map Line (an_lines a) ++ Line b :: more ->
      exists s2, poll_sensor clock uuid stub (an_sensor a) s' = (Raise AttributeError, s2) /\
        rl_queue s2 = rl_queue s' /\ rl_in s2 = more.
Proof.
  intros Hne Hs Hc Ha Hin. destruct (poll_answers stub answers rest s Hne Hc Ha Hin)
    as (s' & docs & msgs & Hrun & Hrest & Hq & Hr).
  exists s', msgs. split_and!; [done..|by eapply relayed_relays|].
  intros a b more Hb Hne' Hp Hmore. eapply unparsable_line_ends_relay; [exact Hb|exact Hne'|exact Hp|by rewrite Hrest].
Qed.

End Polling.

(** The sensors of a discovery reply. *)
Lemma discover_lists clock (uuid : nat -> ustr) nonce (sensors : list (ustr * ustr)) b rest s :
  b <> [] ->
  parse_json b = reply_doc [JStr nonce; JStr (u "discovery");
                            JList (map (fun e => JList [JStr e.1; JStr e.2]) sensors)] ->
  rl_in s = Line b :: rest ->
  exists s', discover_sensors uuid s =
      (Ok (map (fun e => JObj [(u "name", JStr e.1); (u "uuid", JStr e.2)]) sensors), s') /\
    rl_in s' = rest /\ rl_queue s' = rl_queue s /\
    relay_main clock uuid [] [] 0 s = (Ok tt, s').
Proof.
  intros Hb Hp Hin. destruct b as [|c b]; [done|].
  assert (res_mapM sensor_entry (map (fun e => JList [JStr e.1; JStr e.2]) sensors) =
    Ok (map (fun e => JObj [(u "name", JStr e.1); (u "uuid", JStr e.2)]) sensors)) as Hm.
  { clear Hp. induction sensors as [|e sensors IH]; [done|]. cbn [map res_mapM].
    cbn in IH |- *. by rewrite IH. }
  pose (s' := Relay rest
    (rl_sent s ++ [utf8_encode (dumps (sensor_request (uuid (rl_tick s)) "discovery" (JStr (u "*"))) ++ [newline])])
    (rl_queue s) (S (rl_tick s))).
  assert (discover_sensors uuid s =
      (Ok (map (fun e => JObj [(u "name", JStr e.1); (u "uuid", JStr e.2)]) sensors), s')) as Hd.
  { unfold discover_sensors, bind, tick, send_json_obj, send, modify, recv_json_obj.
    cbn [rl_in rl_sent rl_queue rl_tick]. rewrite Hin. cbn [recv_line]. rewrite Hp.
    unfold lift, reply_doc. cbn [json_item].
    change (dict_get (u "reply") _) with (Some (JList [JStr nonce; JStr (u "discovery");
      JList (map (fun e => JList [JStr e.1; JStr e.2]) sensors)])).
    cbn [opt_res json_at item lookup list_lookup is_text].
    rewrite bool_decide_eq_true_2 by done. cbn [negb res_bind json_elements]. by rewrite Hm. }
  exists s'. split_and!; [done|done|done|]. unfold relay_main, bind. by rewrite Hd.
Qed.

(** * A small run *)

Definition small_session : session := Session (u "5f3a") (u "lsof") (u "11ff").
Definition small_record : kernel_record := LsofRec (LsofRecord 0 7 32768 29 1 (u "/etc/passwd")).

(** The NUL characters that the module sends after a reply precede the next. *)
Definition small_answer : answer :=
  Answer (JStr (u "lsof")) (JStr (u "11ff")) small_session [small_record]
    [utf8_encode (reply_text small_session small_record)]
    (utf8_encode ([0; 0] ++ end_reply small_session)).

Lemma plain_check s : forallb plain_code s = true -> plain_text s.
Proof.
  rewrite forallb_forall. intros H. apply Forall_forall. intros c Hc.
  by apply H, list_elem_of_In.
Qed.

Lemma carries_check text t :
  forallb (fun c => (0 <=? c) && (c <? 55296)) t = true ->
  List.filter (fun c => negb (c =? 0)) t = text -> carries text (utf8_encode t).
Proof. intros Ht Hf. exists t. split; [done|]. split; [by apply scalar_check|done]. Qed.

Lemma small_answer_ok : answer_ok small_answer.
Proof.
  split; [split_and!; by apply plain_check|]. split.
  - constructor; [|constructor]. split; [by apply plain_check|]. by apply carries_check.
  - by apply carries_check.
Qed.

Definition small_relay (l : list arrival) : relay := Relay l [] [] 0.

(** A path with a quotation mark in it. *)
Definition quoted_path : kernel_record := LsofRec (LsofRecord 0 7 32768 29 1 (u "/tmp/" ++ [34] ++ u "b")).
Definition quoted_line : bytes := utf8_encode (reply_text small_session quoted_path).

(** An answer, and one that such a path breaks off. *)
Lemma kernel_records_relayed_witness :
  exists s' msgs,
    for_each (poll_sensor (fun _ => u "now") (fun _ => u "9c") small_stub) [an_sensor small_answer]
      (small_relay (an_arrivals small_answer ++ map Line (an_lines small_answer) ++ [Line quoted_line])) =
      (Ok tt, s') /\
    rl_queue s' = [] ++ msgs /\
    relays (fun _ => u "now") small_stub [record_payload small_record] msgs /\
    exists s2, poll_sensor (fun _ => u "now") (fun _ => u "9c") small_stub (an_sensor small_answer) s' =
      (Raise AttributeError, s2) /\ rl_queue s2 = rl_queue s' /\ rl_in s2 = [].
Proof.
  destruct (kernel_records_relayed (fun _ => u "now") (fun _ => u "9c") small_stub [small_answer]
    (map Line (an_lines small_answer) ++ [Line quoted_line])
    (small_relay (an_arrivals small_answer ++ map Line (an_lines small_answer) ++ [Line quoted_line])))
    as (s' & msgs & Hrun & _ & Hq & Hr & Hbad).
  - done.
  - exact small_stub_ok.
  - intros n. apply scalar_u.
  - constructor; [exact small_answer_ok|constructor].
  - by vm_compute.
  - exists s', msgs. split_and!; [exact Hrun|exact Hq|exact Hr|].
    apply (Hbad small_answer quoted_line []); [split; apply small_answer_ok|by vm_compute..|done].
Defined.
