(* ===== verification/BccSensor.v ===== *)
(** The sensor around the bcc tools, [sensors/sensor_bcc/sensor_bcc.py]: every
    tool's output is cut into records, the records of all tools go through one
    queue, and the consumer relays those that the level of the Sensing API asks
    for.

    The threads and the lock around the queue are left out: a tool's records are
    in the order of its lines, and the consumer takes the queue as it finds it. *)

From S2P Require Import Prelude Json PyText JsonLayout CommandSensors.

Definition VERBOSITY_LEVEL_OFF : Z := 0.
Definition VERBOSITY_LEVEL_LOW : Z := 1.
Definition VERBOSITY_LEVEL_DEFAULT : Z := 2.
Definition VERBOSITY_LEVEL_HIGH : Z := 3.
Definition VERBOSITY_LEVEL_ADVERSARIAL : Z := 4.

Definition TOOLS : list (string * string * Z) :=
  [("bashreadline", "bashreadline", VERBOSITY_LEVEL_DEFAULT);
   ("block-io", "biosnoop", VERBOSITY_LEVEL_DEFAULT);
   ("capability-check", "capable", VERBOSITY_LEVEL_DEFAULT);
   ("dir-cache", "dcsnoop", VERBOSITY_LEVEL_HIGH);
   ("exec", "execsnoop", VERBOSITY_LEVEL_DEFAULT);
   ("kill", "killsnoop", VERBOSITY_LEVEL_DEFAULT);
   ("open", "opensnoop", VERBOSITY_LEVEL_DEFAULT);
   ("shared-mem", "shmsnoop", VERBOSITY_LEVEL_DEFAULT);
   ("tcp-listen", "solisten", VERBOSITY_LEVEL_LOW);
   ("stat", "statsnoop", VERBOSITY_LEVEL_HIGH);
   ("sync", "syncsnoop", VERBOSITY_LEVEL_DEFAULT);
   ("tcp-inbound", "tcpaccept", VERBOSITY_LEVEL_LOW);
   ("tcp-outbound", "tcpconnect", VERBOSITY_LEVEL_LOW)].

Definition TOOLDIR : string := "/usr/share/bcc/tools".

(** * Tools *)

(** A [BccTool]; the header is empty until its line was read. *)
Record bcc_tool := BccTool {
  bt_cmd : string; bt_name : string; bt_prio : Z; bt_header : list ustr }.

Definition new_tool (t : string * string * Z) : bcc_tool :=
  BccTool (path_join TOOLDIR t.1.2) t.1.1 t.2 [].

(** The tools that [monitor_tools] makes. *)
Definition monitored_tools : list bcc_tool := map new_tool TOOLS.

(** [x.lower()] of ASCII letters *)
Definition lower (s : ustr) : ustr := map (fun c => if (65 <=? c) && (c <=? 90) then c + 32 else c) s.

(** Surplus items are merged into the last column. *)
Definition merge_items (n : nat) (items : list ustr) : list ustr :=
  if (n <? length items)%nat then take (n - 1) items ++ [ujoin [32] (drop (n - 1) items)] else items.

(** [parseline(line)]: the record of a line, [None] for the header. *)
Definition parseline (line : bytes) (t : bcc_tool) : res (option (list (ustr * json))) * bcc_tool :=
  match utf8_decode line with
  | Raise e => (Raise e, t)
  | Ok text =>
      let items := usplit_ws text in
      match bt_header t with
      | [] => (Ok None, BccTool (bt_cmd t) (bt_name t) (bt_prio t) (map lower items))
      | header =>
          let items := merge_items (length header) items in
          let d := dict_update [] (zip header (map JStr items)) in
          let d := dict_set (u "toolname") (JStr (u (bt_name t))) d in
          let d := dict_set (u "prio") (JInt (bt_prio t)) d in
          (Ok (Some d), t)
      end
  end.

(** [run()] on the lines of the tool's output: what it puts on the queue. *)
Fixpoint run_tool (lines : list bytes) (t : bcc_tool) : list (list (ustr * json)) * res unit :=
  match lines with
  | [] => ([], Ok tt)
  | line :: lines =>
      match parseline line t with
      | (Raise e, _) => ([], Raise e)
      | (Ok None, t) => run_tool lines t
      | (Ok (Some d), t) => let '(ds, r) := run_tool lines t in (d :: ds, r)
      end
  end.

(** * The consumer *)

Section Consumer.

(** How a float literal compares with a number. *)
Context (float_below : ustr -> Z -> bool).

(** [config and config['prio'] < inmsg['prio']] *)
Definition below_level (config : list (ustr * json)) (inmsg : list (ustr * json)) : res bool :=
  match config with
  | [] => Ok false
  | _ =>
      let? level := opt_res KeyError (dict_get (u "prio") config) in
      let? prio := opt_res KeyError (dict_get (u "prio") inmsg) in
      match level, prio with
      | JInt a, JInt b => Ok (a <? b)
      | JBool a, JInt b => Ok (Z.b2z a <? b)
      | JFloat l, JInt b => Ok (float_below l b)
      | _, _ => Raise TypeError
      end
  end.

(** One message of the queue, at time [now]. *)
Definition consume_one (stub config : list (ustr * json)) (e : ustr * list (ustr * json)) : Q unit :=
  do skip <- lift (below_level config e.2);
  if skip then ret tt
  else put (dumps (JObj (dict_update (log_doc e.1 "info" (JObj e.2)) stub)) ++ [newline]).

(** [msg_consumer(message_stub, config, outqueue)] on what the queue holds, with
    the time at which each message is handled. *)
Definition msg_consumer (stub config : list (ustr * json))
    (msg_queue : list (ustr * list (ustr * json))) : Q unit :=
  do _ <- lift (opt_res KeyError (dict_get (u "sensor_id") stub));
  do _ <- lift (opt_res KeyError (dict_get (u "sensor_name") stub));
  for_each (consume_one stub config) msg_queue.

End Consumer.

(** * Lemmas *)

(** What a row of items says under a header: every column but the last holds its
    item, the last all that follow, joined by blanks. *)
Definition column_value (n i : nat) (items : list ustr) : ustr :=
  if (i =? n - 1)%nat then ujoin [32] (drop i items) else default [] (items !! i).

(** The record a row is to become. *)
Definition row_record (t : bcc_tool) (header items : list ustr) : list (ustr * json) :=
  zip header (map (fun i => JStr (column_value (length header) i items)) (seq 0 (length header))) ++
  [(u "toolname", JStr (u (bt_name t))); (u "prio", JInt (bt_prio t))].

Definition header_ok (header : list ustr) : Prop :=
  header <> [] /\ Forall (Forall scalar) header /\ NoDup (header ++ [u "toolname"; u "prio"]).

Lemma merge_items_values n items : (0 < n <= length items)%nat ->
  merge_items n items = map (fun i => column_value n i items) (seq 0 n).
Proof.
  intros Hn. assert (take (n - 1) items ++ [ujoin [32] (drop (n - 1) items)] =
    map (fun i => column_value n i items) (seq 0 n)) as <-.
  { destruct n as [|n]; [lia|]. rewrite seq_S, map_app. cbn [map plus].
    rewrite Nat.sub_succ, Nat.sub_0_r. unfold column_value at 2.
    rewrite Nat.sub_succ, Nat.sub_0_r, Nat.eqb_refl. f_equal.
    apply list_eq. intros i. rewrite list_lookup_fmap.
    destruct (decide (i < n)%nat) as [Hi|Hi].
    - rewrite lookup_take_lt by done. rewrite lookup_seq_lt by done. cbn. unfold column_value.
      rewrite Nat.sub_succ, Nat.sub_0_r, (proj2 (Nat.eqb_neq i n)) by lia.
      destruct (lookup_lt_is_Some_2 items i) as [x ->]; [lia|done].
    - rewrite lookup_take_ge by lia. by rewrite lookup_seq_ge by lia. }
  unfold merge_items. destruct (n <? length items)%nat eqn:E; [done|]. apply Nat.ltb_ge in E.
  assert (n = length items) as -> by lia. destruct items as [|x items _] using rev_ind; [cbn in Hn; lia|].
  rewrite length_app. cbn [length]. rewrite Nat.add_sub.
  rewrite take_app_length, drop_app_length. done.
Qed.

Lemma parseline_row t header l :
  bt_header t = header -> header_ok header -> Forall spaced_ok l -> Forall scalar (spaced l) ->
  (length header <= length l)%nat ->
  parseline (utf8_encode (spaced l)) t = (Ok (Some (row_record t header (map fst l))), t).
Proof.
  intros Hh (Hne & _ & Hnd) Hl Hs Hlen. unfold parseline. rewrite utf8_roundtrip by done.
  rewrite usplit_ws_spaced by done. rewrite Hh. destruct header as [|c header]; [done|].
  set (h := c :: header) in *.
  rewrite merge_items_values by (rewrite length_map; split; [cbn; lia|done]). rewrite map_map.
  assert (map fst (zip h (map (fun i => JStr (column_value (length h) i (map fst l))) (seq 0 (length h)))) = h)
    as Hk by (apply fst_zip; by rewrite length_map, length_seq).
  apply NoDup_app in Hnd as (Hn1 & Hd & _).
  assert (u "toolname" ∉ h /\ u "prio" ∉ h) as [Ht Hp]
    by (split; intros Hin; apply (Hd _ Hin); set_solver).
  do 3 f_equal. unfold row_record. set (z := zip h _) in *.
  assert (dict_update [] z = z) as ->
    by (apply (dict_update_fresh []); cbn [app]; unfold dict_keys; by rewrite Hk).
  assert (dict_has (u "toolname") z = false) as Hz1.
  { apply not_true_is_false. rewrite dict_has_get. intros Hg. apply dict_keys_get in Hg.
    unfold dict_keys in Hg. by rewrite Hk in Hg. }
  rewrite (dict_set_fresh (u "toolname")) by done.
  rewrite dict_set_fresh; [by rewrite <-app_assoc|].
  apply not_true_is_false. rewrite dict_has_get. intros Hg. apply dict_keys_get in Hg.
  unfold dict_keys in Hg. rewrite map_app, Hk in Hg. apply elem_of_app in Hg as [Hg|Hg]; [done|].
  apply list_elem_of_singleton in Hg. done.
Qed.

Lemma parseline_header t l :
  bt_header t = [] -> Forall spaced_ok l -> Forall scalar (spaced l) ->
  parseline (utf8_encode (spaced l)) t =
    (Ok None, BccTool (bt_cmd t) (bt_name t) (bt_prio t) (map lower (map fst l))).
Proof.
  intros Hh Hl Hs. unfold parseline. rewrite utf8_roundtrip by done.
  rewrite usplit_ws_spaced by done. by rewrite Hh.
Qed.

(** A row as a tool prints it under a header. *)
Definition row_ok (header : list ustr) (l : list (ustr * ustr)) : Prop :=
  Forall spaced_ok l /\ Forall scalar (spaced l) /\ (length header <= length l)%nat.

Lemma run_tool_rows t header rows :
  bt_header t = header -> header_ok header -> Forall (row_ok header) rows ->
  run_tool (map (fun l => utf8_encode (spaced l)) rows) t =
    (map (fun l => row_record t header (map fst l)) rows, Ok tt).
Proof.
  intros Hh Hok. induction 1 as [|l rows (Hl & Hs & Hn) _ IH]; [done|]. cbn [map run_tool].
  by rewrite (parseline_row t header), IH.
Qed.

Lemma scalar_spaced l : Forall scalar (spaced l) -> Forall (Forall scalar) (map fst l).
Proof.
  induction l as [|e l IH]; intros H; [constructor|]. cbn [spaced flat_map map] in *.
  apply Forall_app in H as [H1 H2]. apply Forall_app in H1 as [H1 _]. constructor; [done|by apply IH].
Qed.

Lemma ujoin_scalar l : Forall (Forall scalar) l -> Forall scalar (ujoin [32] l).
Proof.
  induction 1 as [|w l Hw _ IH]; [constructor|]. rewrite ujoin_cons. destruct l; [done|].
  apply Forall_app. split; [done|]. apply Forall_app. split; [|done].
  constructor; [unfold scalar; lia|constructor].
Qed.

Lemma row_record_wf t header items :
  header_ok header -> Forall (Forall scalar) items -> jwf (JObj (row_record t header items)).
Proof.
  intros (_ & Hh & Hnd) Hi. apply jwf_obj. unfold row_record.
  assert (length header = length (map (fun i => JStr (column_value (length header) i items))
    (seq 0 (length header)))) as Hlen by (by rewrite length_map, length_seq).
  split.
  - rewrite map_app, fst_zip by lia. exact Hnd.
  - apply Forall_app. split.
    + apply Forall_forall. intros [k v] Hin. split.
      * apply elem_of_zip_l in Hin. rewrite Forall_forall in Hh. by apply Hh.
      * apply elem_of_zip_r in Hin. apply list_elem_of_fmap_1 in Hin as (i & -> & _).
        unfold column_value. cbn [jwf snd]. destruct (i =? _)%nat.
        -- by apply ujoin_scalar, Forall_drop.
        -- destruct (items !! i) as [w|] eqn:E; [|constructor]. cbn. by eapply Forall_lookup_1 in Hi.
    + repeat (apply Forall_cons_2; [split; [apply scalar_u|]|]); [apply scalar_u|done|constructor].
Qed.

(** ** The consumer *)

Lemma row_record_prio t header items : header_ok header ->
  dict_get (u "prio") (row_record t header items) = Some (JInt (bt_prio t)).
Proof.
  intros (_ & _ & Hnd). apply dict_get_nodup.
  - unfold row_record, dict_keys. rewrite map_app, fst_zip; [exact Hnd|].
    by rewrite length_map, length_seq.
  - unfold row_record. apply elem_of_app. right. right. by left.
Qed.

Lemma loads_line j : jwf j -> loads (dumps j ++ [newline]) = Ok j.
Proof.
  intros Hj. apply (loads_reads_as j [] (dumps j) [newline]); [constructor| |by repeat constructor].
  by apply reads_as_dumps.
Qed.

Definition record_doc (e : ustr * list (ustr * json)) : list (ustr * json) :=
  log_doc e.1 "info" (JObj e.2).

Lemma consume_rows fb stub config e q b :
  below_level fb config e.2 = Ok b ->
  consume_one fb stub config e q =
    (Ok tt, if b then q else q ++ [message_of stub (record_doc e) ++ [newline]]).
Proof. intros Hb. unfold consume_one. erewrite bind_lift by exact Hb. by destruct b. Qed.

(** A consumer whose level is that of none of the records, or that of all. *)
Lemma msg_consumer_run fb stub level records q : 
  dict_has (u "sensor_id") stub = true -> dict_has (u "sensor_name") stub = true ->
  forall b, Forall (fun e => below_level fb [(u "prio", JInt level)] e.2 = Ok b) records ->
  msg_consumer fb stub [(u "prio", JInt level)] records q =
    (Ok tt, q ++ if b then [] else map (fun e => message_of stub (record_doc e) ++ [newline]) records).
Proof.
  intros Hid Hname b Hall. unfold msg_consumer.
  apply dict_has_get in Hid as [v1 ->]. apply dict_has_get in Hname as [v2 ->].
  do 2 (erewrite bind_lift by reflexivity). revert q. induction Hall as [|e l Hb _ IH]; intros q.
  - destruct b; by rewrite app_nil_r.
  - cbn [for_each]. erewrite bind_step by (by apply consume_rows). rewrite IH.
    destruct b; [done|]. cbn [map]. by rewrite <-app_assoc.
Qed.

(** The records of a tool's rows, at the times when they are handled. *)
Definition tool_records (t : bcc_tool) (head : list (ustr * ustr)) (rows : list (list (ustr * ustr)))
    : list (list (ustr * json)) :=
  map (fun l => row_record t (map lower (map fst head)) (map fst l)) rows.

Lemma tool_records_run t head rows :
  bt_header t = [] -> Forall spaced_ok head -> Forall scalar (spaced head) ->
  header_ok (map lower (map fst head)) -> Forall (row_ok (map lower (map fst head))) rows ->
  run_tool (map (fun l => utf8_encode (spaced l)) (head :: rows)) t = (tool_records t head rows, Ok tt).
Proof.
  intros Ht Hhead Hhs Hok Hrows. cbn [map run_tool]. rewrite parseline_header by done.
  change (tool_records t head rows) with (map (fun l => row_record
    (BccTool (bt_cmd t) (bt_name t) (bt_prio t) (map lower (map fst head))) (map lower (map fst head)) (map fst l)) rows).
  by apply run_tool_rows.
Qed.

Lemma tool_records_ok fb t head rows times level :
  header_ok (map lower (map fst head)) -> Forall (row_ok (map lower (map fst head))) rows ->
  Forall (Forall scalar) times ->
  Forall (fun e => doc_ok (record_doc e) /\
    below_level fb [(u "prio", JInt level)] e.2 = Ok (level <? bt_prio t)) (zip times (tool_records t head rows)).
Proof.
  intros Hok Hrows Htimes. apply Forall_forall. intros [now d] Hin.
  pose proof (elem_of_zip_l _ _ _ _ Hin) as H1. pose proof (elem_of_zip_r _ _ _ _ Hin) as H2.
  apply list_elem_of_fmap_1 in H2 as (l & -> & Hl). rewrite Forall_forall in Htimes.
  rewrite Forall_forall in Hrows. destruct (Hrows l Hl) as (_ & Hs & _). split.
  - apply log_doc_ok; [by apply Htimes|]. by apply row_record_wf; [|apply scalar_spaced].
  - unfold below_level. cbn [fst snd]. by rewrite row_record_prio.
Qed.

(** C26: functional.  From a tool's output to the wrapper: of a tool that prints a
    header and rows with at least as many items, in any layout of white space,
    every row becomes one record, whose last column holds all that is left of the
    row.  When the level of the Sensing API is below the tool's, the consumer
    relays none of them; otherwise each, in order, as a line that decodes to an
    object with the items of the stub and, where it does not override them, the
    time, the level and the record.  This is what the check in [msg_consumer] and
    its own comment say; the comment above the levels says the opposite, that
    only tools of the API's level or above are emitted, and that a tool of level
    0, off, never is: its records are relayed at every level. *)
Theorem bcc_output_relayed fb stub level t head rows (times : list ustr) q :
  stub_ok stub -> dict_has (u "sensor_id") stub = true -> dict_has (u "sensor_name") stub = true ->
  bt_header t = [] -> Forall spaced_ok head -> Forall scalar (spaced head) ->
  header_ok (map lower (map fst head)) -> Forall (row_ok (map lower (map fst head))) rows ->
  length times = length rows -> Forall (Forall scalar) times ->
  let header := map lower (map fst head) in
  let records := map (fun l => row_record t header (map fst l)) rows in
  run_tool (map (fun l => utf8_encode (spaced l)) (head :: rows)) t = (records, Ok tt) /\
  (level < bt_prio t ->
     msg_consumer fb stub [(u "prio", JInt level)] (zip times records) q = (Ok tt, q)) /\
  (bt_prio t <= level -> exists msgs,
     msg_consumer fb stub [(u "prio", JInt level)] (zip times records) q = (Ok tt, q ++ msgs) /\
     reports stub (map record_doc (zip times records)) msgs).
Proof.
  intros Hstub Hid Hname Ht Hhead Hhs Hok Hrows Hlen Htimes header records.
  pose proof (tool_records_ok fb t head rows times level Hok Hrows Htimes) as Hall.
  assert (Forall (fun e => below_level fb [(u "prio", JInt level)] e.2 = Ok (level <? bt_prio t))
    (zip times records)) as Hb by (eapply Forall_impl; [exact Hall|by intros e [_ ?]]).
  split; [by apply tool_records_run|split].
  - intros Hlt. rewrite (proj2 (Z.ltb_lt _ _)) in Hb by done.
    rewrite (msg_consumer_run _ _ _ _ _ Hid Hname _ Hb). by rewrite app_nil_r.
  - intros Hle. rewrite (proj2 (Z.ltb_ge _ _)) in Hb by done. eexists.
    split; [exact (msg_consumer_run _ _ _ _ _ Hid Hname _ Hb)|].
    apply Forall2_fmap, Forall_Forall2_diag. eapply Forall_impl; [exact Hall|]. intros e [[Hd1 Hd2] _].
    eexists. split.
    + apply loads_line, jwf_obj. split; [by apply dict_update_nodup|].
      by apply dict_update_Forall; [|apply Hstub].
    + intros k. apply dict_update_get, Hstub.
Qed.

(** * A small run *)

Definition small_tool : bcc_tool := new_tool ("exec", "execsnoop", VERBOSITY_LEVEL_DEFAULT).
Definition line_of (l : list string) : list (ustr * ustr) := map (fun w => (u w, [32; 32])) l.
Definition small_head := line_of ["PCOMM"; "PID"; "ARGS"].
Definition small_row := line_of ["cat"; "26929"; "/bin/cat"; "test"].
Definition bcc_stub : list (ustr * json) :=
  [(u "sensor_id", JStr (u "ab")); (u "sensor_name", JStr (u "bcc"))].

Definition spaced_b (e : ustr * ustr) : bool := token_b e.1 && negb (is_nil e.2) && forallb is_strip e.2.

Lemma spaced_check l : forallb spaced_b l = true -> Forall spaced_ok l.
Proof.
  rewrite forallb_forall. intros H. apply Forall_forall. intros e He. apply list_elem_of_In in He.
  specialize (H e He). unfold spaced_b in H. apply andb_prop in H as [H Hb].
  apply andb_prop in H as [Ht Hn]. split_and!.
  - by apply token_b_sound in Ht as [Ht _].
  - by destruct (e.2).
  - rewrite forallb_forall in Hb. apply Forall_forall. intros c Hc. by apply Hb, list_elem_of_In.
Qed.

(** The record of a row, as the tool's header and arguments give it. *)
Example small_record_fields :
  row_record small_tool (map lower (map fst small_head)) (map fst small_row) =
    [(u "pcomm", JStr (u "cat")); (u "pid", JStr (u "26929")); (u "args", JStr (u "/bin/cat test"));
     (u "toolname", JStr (u "exec")); (u "prio", JInt 2)].
Proof. by vm_compute. Qed.

Lemma bcc_output_relayed_witness :
  run_tool (map (fun l => utf8_encode (spaced l)) [small_head; small_row]) small_tool =
    ([row_record small_tool (map lower (map fst small_head)) (map fst small_row)], Ok tt) /\
  (3 < bt_prio small_tool ->
     msg_consumer (fun _ _ => false) bcc_stub [(u "prio", JInt 3)]
       (zip [u "now"] [row_record small_tool (map lower (map fst small_head)) (map fst small_row)]) [] =
     (Ok tt, [])) /\
  (bt_prio small_tool <= 3 -> exists msgs,
     msg_consumer (fun _ _ => false) bcc_stub [(u "prio", JInt 3)]
       (zip [u "now"] [row_record small_tool (map lower (map fst small_head)) (map fst small_row)]) [] =
     (Ok tt, [] ++ msgs) /\
     reports bcc_stub (map record_doc (zip [u "now"]
       [row_record small_tool (map lower (map fst small_head)) (map fst small_row)])) msgs).
Proof.
  apply (bcc_output_relayed (fun _ _ => false) bcc_stub 3 small_tool small_head [small_row] [u "now"] []).
  - split; [by apply (bool_decide_unpack _)|].
    repeat (apply Forall_cons_2; [split; apply scalar_u|]). constructor.
  - done.
  - done.
  - done.
  - by apply spaced_check.
  - by apply scalar_check.
  - split; [done|]. split; [|by apply (bool_decide_unpack _)].
    repeat (apply Forall_cons_2; [by apply scalar_check|]). constructor.
  - constructor; [|constructor]. split; [by apply spaced_check|]. split; [by apply scalar_check|cbn; lia].
  - done.
  - constructor; [apply scalar_u|constructor].
Defined.
