(* ===== verification/BccThreads.v ===== *)
(** The threads of the bcc sensor, [monitor_tools] of
    [src/sensors/sensor_bcc/sensor_bcc.py]: one thread runs all tools as tasks of
    one [TaskGroup], the other the consumer, and [msg_queue_lock] protects the
    queue between them.  Each access to the lock and to the queue is a step of its
    own.  The queue has no bound, so that its [put] does not suspend the task that
    holds the lock; the consumer's sleep while the queue is empty is not a step. *)

From stdpp Require Import relations.
From S2P Require Import Prelude Json PyText CommandSensors BccSensor Tasks.

(** * The threads *)

Abbreviation record := (list (ustr * json)).

(** A tool's task: the lines that are still to come, or cancelled. *)
Inductive tool_task := Running (t : bcc_tool) (lines : list bytes) | Cancelled.

(** One round of [async for line in p.stdout] in [run]. *)
Definition tool_round (p : tool_task) : outcome tool_task record :=
  match p with
  | Cancelled | Running _ [] => Ended
  | Running t (line :: lines) =>
      match parseline line t with
      | (Raise _, _) => Failed
      | (Ok d, t) => Went d (Running t lines)
      end
  end.

Inductive thread := Producers | Consumer.

(** Where the thread of the tools is: all tasks read; or one of them has a record
    and is at [with msg_queue_lock], at the [put], or at the end of the block. *)
Inductive producer_at := Reading | Waiting (i : nat) (d : record) | Holding (i : nat) (d : record) | Leaving.

(** Where the consumer is: at [msg_queue.empty()], at [with msg_queue_lock], at
    the [get], or at the end of the block with what it got. *)
Inductive consumer_at := Looking | Awaiting | Getting | Got (x : nat * record).

Record threads := Threads {
  th_tools : list tool_task;
  th_lock : option thread;
  th_queue : list (nat * record);
  th_producer : producer_at;
  th_consumer : consumer_at;
  th_taken : list (nat * record);
}.

Inductive thread_step : relation threads :=
  | reads_header ps l q c t i p p' :
      ps !! i = Some p -> tool_round p = Went None p' ->
      thread_step (Threads ps l q Reading c t) (Threads (<[i := p']> ps) l q Reading c t)
  | reads_record ps l q c t i p d p' :
      ps !! i = Some p -> tool_round p = Went (Some d) p' ->
      thread_step (Threads ps l q Reading c t) (Threads (<[i := p']> ps) l q (Waiting i d) c t)
  | tool_fails ps l q c t i p :
      ps !! i = Some p -> tool_round p = Failed ->
      thread_step (Threads ps l q Reading c t) (Threads (map (fun _ => Cancelled) ps) l q Reading c t)
  | producer_locks ps q c t i d :
      thread_step (Threads ps None q (Waiting i d) c t) (Threads ps (Some Producers) q (Holding i d) c t)
  | producer_puts ps l q c t i d :
      thread_step (Threads ps l q (Holding i d) c t) (Threads ps l (q ++ [(i, d)]) Leaving c t)
  | producer_unlocks ps l q c t :
      thread_step (Threads ps l q Leaving c t) (Threads ps None q Reading c t)
  | consumer_looks ps l x q p t :
      thread_step (Threads ps l (x :: q) p Looking t) (Threads ps l (x :: q) p Awaiting t)
  | consumer_locks ps q p t :
      thread_step (Threads ps None q p Awaiting t) (Threads ps (Some Consumer) q p Getting t)
  | consumer_gets ps l x q p t :
      thread_step (Threads ps l (x :: q) p Getting t) (Threads ps l q p (Got x) t)
  | consumer_unlocks ps l q p x t :
      thread_step (Threads ps l q p (Got x) t) (Threads ps None q p Looking (t ++ [x])).

(** [monitor_tools] with the lines that each tool will print. *)
Definition monitor_tools (outputs : list (bcc_tool * list bytes)) : threads :=
  Threads (map (fun o => Running o.1 o.2) outputs) None [] Reading Looking [].

(** * The lock *)

Definition producer_inside (p : producer_at) : bool :=
  match p with Holding _ _ | Leaving => true | _ => false end.
Definition consumer_inside (c : consumer_at) : bool :=
  match c with Getting | Got _ => true | _ => false end.
Definition wants_item (c : consumer_at) : bool :=
  match c with Awaiting | Getting => true | _ => false end.

(** The lock is held by the thread that is inside, which is one at most, and when
    the consumer is about to get an item there is one. *)
Definition locked_well (s : threads) : Prop :=
  th_lock s = (if producer_inside (th_producer s) then Some Producers
               else if consumer_inside (th_consumer s) then Some Consumer else None) /\
  producer_inside (th_producer s) && consumer_inside (th_consumer s) = false /\
  (wants_item (th_consumer s) = true -> th_queue s <> []).

Lemma step_locked s s' : thread_step s s' -> locked_well s -> locked_well s'.
Proof.
  intros Hs (Hl & Hx & Hq). unfold locked_well.
  destruct Hs; cbn in *; try (by split_and!); try (destruct c; by split_and!);
    try (destruct p; by split_and!).
  destruct c; (split_and!; [done..|]); intros _ E; by apply app_eq_nil in E as [_ ?].
Qed.

Lemma steps_locked outputs s : rtc thread_step (monitor_tools outputs) s -> locked_well s.
Proof.
  apply (rtc_ind_r locked_well); [|eauto using step_locked]. by split_and!.
Qed.

(** * Refinement *)

(** The shared queue as the tasks see it: a record counts as queued once it was
    read, and as taken once the consumer has it. *)
Definition pending (p : producer_at) : list (nat * record) :=
  match p with Waiting i d | Holding i d => [(i, d)] | _ => [] end.
Definition got (c : consumer_at) : list (nat * record) := match c with Got x => [x] | _ => [] end.
Definition as_shared (s : threads) : shared :=
  Shared (th_tools s) (th_queue s ++ pending (th_producer s)) (th_taken s ++ got (th_consumer s)).

Abbreviation queue_step := (step tool_round Cancelled).

Lemma thread_step_refines s s' : thread_step s s' -> rtc queue_step (as_shared s) (as_shared s').
Proof.
  unfold as_shared.
  destruct 1; cbn [th_tools th_queue th_producer th_consumer th_taken pending got]; rewrite ?app_nil_r;
    try reflexivity.
  - apply rtc_once. rewrite <-(app_nil_r q) at 2. by eapply (step_round _ _ _ _ _ _ _ None).
  - apply rtc_once. by eapply (step_round _ _ _ _ _ _ _ (Some d)).
  - apply rtc_once. by eapply step_fails.
  - apply rtc_once. apply step_takes.
Qed.

Lemma threads_refine outputs s : rtc thread_step (monitor_tools outputs) s ->
  rtc queue_step (start (map (fun o => Running o.1 o.2) outputs)) (as_shared s).
Proof.
  apply (rtc_ind_r (fun s => rtc queue_step _ (as_shared s))); [reflexivity|].
  intros s1 s2 _ H12 IH. etrans; [exact IH|]. by apply thread_step_refines.
Qed.

(** ** Where the threads stop *)

Lemma threads_stop s : locked_well s -> nf thread_step s ->
  th_producer s = Reading /\ th_consumer s = Looking /\ th_queue s = [] /\ nf queue_step (as_shared s).
Proof.
  destruct s as [ps l q p c t]. intros (Hl & Hx & Hq) Hn. cbn in *.
  assert (c = Looking) as ->.
  { destruct c as [| | |x]; [done|..].
    - destruct p as [|i d|i d|]; cbn in *; subst l.
      + destruct Hn. eexists. apply consumer_locks.
      + destruct Hn. eexists. apply producer_locks.
      + destruct Hn. eexists. apply producer_puts.
      + destruct Hn. eexists. apply producer_unlocks.
    - destruct q as [|x q]; [by destruct (Hq eq_refl)|]. destruct Hn. eexists. apply consumer_gets.
    - destruct Hn. eexists. apply consumer_unlocks. }
  assert (p = Reading) as ->.
  { destruct p as [|i d|i d|]; [done|..]; cbn in *; subst l; destruct Hn; eexists.
    - apply producer_locks.
    - apply producer_puts.
    - apply producer_unlocks. }
  assert (q = []) as ->.
  { destruct q as [|x q]; [done|]. destruct Hn. eexists. apply consumer_looks. }
  split_and!; [done..|]. intros [s' Hs]. unfold as_shared in Hs. cbn in Hs. inversion Hs; subst; destruct Hn.
  - destruct o; eexists; [by eapply reads_record|by eapply reads_header].
  - eexists. by eapply tool_fails.
Qed.

(** ** Termination *)

(** The steps that a thread's place still costs. *)
Definition producer_cost (p : producer_at) : nat :=
  match p with Reading => 0 | Leaving => 1 | Holding _ _ => 6 | Waiting _ _ => 7 end.
Definition consumer_cost (c : consumer_at) : nat :=
  match c with Looking => 3 | Awaiting => 2 | Getting => 1 | Got _ => 4 end.

Definition thread_steps_left (s : threads) (m : nat) : Prop :=
  exists ns, Forall2 (fun p n => exists l ok, yields tool_round p l ok n) (th_tools s) ns /\
    m = (8 * sum_list ns + 4 * length (th_queue s) + producer_cost (th_producer s) +
         consumer_cost (th_consumer s))%nat.

Lemma round_left ps ns i p o p' :
  Forall2 (fun p n => exists l ok, yields tool_round p l ok n) ps ns ->
  ps !! i = Some p -> tool_round p = Went o p' ->
  exists ns', Forall2 (fun p n => exists l ok, yields tool_round p l ok n) (<[i := p']> ps) ns' /\
    (sum_list ns = S (sum_list ns'))%nat.
Proof.
  intros Hns Hi Hr. destruct (Forall2_lookup_l _ _ _ _ _ Hns Hi) as (n & Hn & l & ok & Hy).
  destruct (yields_went _ _ _ _ _ _ _ Hy Hr) as (l' & n' & Hy' & -> & ->).
  exists (<[i := n']> ns). split; [apply Forall2_insert; eauto|].
  pose proof (sum_insert ns i (S n') n' Hn). lia.
Qed.

Lemma thread_step_left s s' m : thread_step s s' -> thread_steps_left s m ->
  exists m', thread_steps_left s' m' /\ (m' < m)%nat.
Proof.
  unfold thread_steps_left. intros Hs (ns & Hns & ->).
  destruct Hs as [ps l q c t i p p' Hi Hr|ps l q c t i p d p' Hi Hr|ps l q c t i p Hi Hr| | | | | | |];
    cbn [th_tools th_queue th_producer th_consumer producer_cost consumer_cost length] in *;
    rewrite ?length_app; cbn [length].
  1,2: destruct (round_left _ _ _ _ _ _ Hns Hi Hr) as (ns' & Hns' & E);
    eexists; (split; [by exists ns'|lia]).
  { destruct (Forall2_lookup_l _ _ _ _ _ Hns Hi) as (n & Hn & k & ok & Hy).
    destruct (yields_failed _ _ _ _ _ Hy Hr) as (_ & _ & Hpos). apply sum_lookup in Hn.
    destruct (cancelled_left tool_round Cancelled eq_refl ps) as [Hc E].
    eexists. split; [eexists; split; [exact Hc|reflexivity]|]. lia. }
  all: eexists; (split; [by exists ns|lia]).
Qed.

Lemma thread_steps_bound k s s' m : nsteps thread_step k s s' -> thread_steps_left s m -> (k <= m)%nat.
Proof.
  intros Hs. revert m. induction Hs as [|k s1 s2 s3 H12 _ IH]; intros m Hm; [lia|].
  destruct (thread_step_left _ _ _ H12 Hm) as (m' & Hm' & Hlt). specialize (IH m' Hm'). lia.
Qed.

(** * The tools *)

Definition is_ok {A} (r : res A) : bool := match r with Ok _ => true | Raise _ => false end.

(** What [run] puts on its own, and whether it ends well. *)
Definition tool_run (o : bcc_tool * list bytes) : list record * bool :=
  let '(ds, r) := run_tool o.2 o.1 in (ds, is_ok r).

Lemma tool_yields lines t : exists n, yields tool_round (Running t lines) (tool_run (t, lines)).1 (tool_run (t, lines)).2 n.
Proof.
  unfold tool_run. cbn [fst snd]. revert t.
  induction lines as [|line lines IH]; intros t; [exists 0%nat; by constructor|]. cbn [run_tool].
  destruct (parseline line t) as [[[d|]|e] t'] eqn:E.
  - destruct (IH t') as [n Hn]. destruct (run_tool lines t') as [ds r]. exists (S n).
    apply (yields_round _ _ (Some d) (Running t' lines)); [|done]. cbn [tool_round]. by rewrite E.
  - destruct (IH t') as [n Hn]. destruct (run_tool lines t') as [ds r]. exists (S n).
    apply (yields_round _ _ None (Running t' lines)); [|done]. cbn [tool_round]. by rewrite E.
  - exists 1%nat. apply yields_fail. cbn [tool_round]. by rewrite E.
Qed.

Lemma tool_run_eq o : tool_run o = ((run_tool o.2 o.1).1, is_ok (run_tool o.2 o.1).2).
Proof. unfold tool_run. by destruct (run_tool o.2 o.1). Qed.

Lemma tools_yield outputs :
  all_yield tool_round (map tool_run outputs) (map (fun o => Running o.1 o.2) outputs).
Proof.
  unfold all_yield. rewrite Forall2_fmap. apply Forall_Forall2_diag, Forall_true.
  intros [t lines]. apply tool_yields.
Qed.

(** ** Running a schedule *)

(** [Some i]: the thread of the tools goes on, with the task of tool [i] if it has
    the choice; [None]: the consumer. *)
Definition run_thread (choice : option nat) (s : threads) : option threads :=
  let '(Threads ps l q p c t) := s in
  match choice with
  | Some i =>
      match p, l with
      | Reading, _ =>
          match ps !! i with
          | None => None
          | Some task =>
              match tool_round task with
              | Ended => None
              | Failed => Some (Threads (map (fun _ => Cancelled) ps) l q Reading c t)
              | Went None task => Some (Threads (<[i := task]> ps) l q Reading c t)
              | Went (Some d) task => Some (Threads (<[i := task]> ps) l q (Waiting i d) c t)
              end
          end
      | Waiting i d, None => Some (Threads ps (Some Producers) q (Holding i d) c t)
      | Waiting _ _, Some _ => None
      | Holding i d, _ => Some (Threads ps l (q ++ [(i, d)]) Leaving c t)
      | Leaving, _ => Some (Threads ps None q Reading c t)
      end
  | None =>
      match c, l, q with
      | Looking, _, _ :: _ => Some (Threads ps l q p Awaiting t)
      | Awaiting, None, _ => Some (Threads ps (Some Consumer) q p Getting t)
      | Getting, _, x :: q => Some (Threads ps l q p (Got x) t)
      | Got x, _, _ => Some (Threads ps None q p Looking (t ++ [x]))
      | _, _, _ => None
      end
  end.

Definition run_threads (choices : list (option nat)) (s : threads) : option threads :=
  foldl (fun s c => match s with Some s => run_thread c s | None => None end) (Some s) choices.

Lemma run_thread_sound choice s s' : run_thread choice s = Some s' -> thread_step s s'.
Proof.
  destruct s as [ps l q p c t]. destruct choice as [i|]; cbn.
  - destruct p as [|j d|j d|].
    + destruct (ps !! i) as [task|] eqn:Hi; [|done].
      destruct (tool_round task) as [| |[d|] p'] eqn:E; [done|..]; intros [= <-].
      * by eapply tool_fails.
      * by eapply reads_record.
      * by eapply reads_header.
    + destruct l; [done|]. intros [= <-]. constructor.
    + intros [= <-]. constructor.
    + intros [= <-]. constructor.
  - destruct c as [| | |x].
    + destruct q; [done|]. intros [= <-]. constructor.
    + destruct l; [done|]. intros [= <-]. constructor.
    + destruct q; [done|]. intros [= <-]. constructor.
    + intros [= <-]. constructor.
Qed.

Lemma run_threads_sound choices s s' : run_threads choices s = Some s' -> rtc thread_step s s'.
Proof.
  revert s. induction choices as [|c choices IH]; intros s; cbn; [by intros [= <-]|].
  unfold run_threads in *. cbn [foldl]. destruct (run_thread c s) as [s1|] eqn:E.
  - intros H. eapply rtc_l; [by eapply run_thread_sound|by apply IH].
  - intros H. exfalso. clear IH E. induction choices; [done|by apply IHchoices].
Qed.

(** * Theorems *)

(** Safety.  The consumer looks whether the queue is empty before it takes the
    lock, and gets an item while it holds it.  In every schedule, when it is at the
    [get] the queue has an item and the other thread is outside its block: it never
    waits for an item while it holds the lock that a tool needs to put one. *)
Theorem get_never_waits outputs s :
  rtc thread_step (monitor_tools outputs) s -> th_consumer s = Getting ->
  th_queue s <> [] /\ th_lock s = Some Consumer /\ producer_inside (th_producer s) = false.
Proof.
  intros Hs Hc. destruct (steps_locked _ _ Hs) as (Hl & Hx & Hq). rewrite Hc in *. cbn in *.
  rewrite andb_true_r in Hx. rewrite Hx in Hl. auto.
Qed.

(** C27: liveness.  No schedule of the two threads goes on forever, and none stops
    early: where it does the lock is free and the queue is empty, and when no
    tool's output is undecodable, the consumer got every record of every tool
    exactly once, those of one tool in the order of its lines. *)
Theorem tools_relayed_in_full outputs :
  (exists m, forall k s, nsteps thread_step k (monitor_tools outputs) s -> (k <= m)%nat) /\
  forall s, rtc thread_step (monitor_tools outputs) s -> nf thread_step s ->
    th_lock s = None /\ th_queue s = [] /\
    (Forall (fun o => is_ok (run_tool o.2 o.1).2 = true) outputs ->
     map snd (th_taken s) ≡ₚ concat (map (fun o => (run_tool o.2 o.1).1) outputs) /\
     forall i o, outputs !! i = Some o -> of_producer i (th_taken s) = (run_tool o.2 o.1).1).
Proof.
  split.
  { destruct (start_left tool_round (map tool_run outputs) _ (tools_yield outputs))
      as (m & ns & Hns & _).
    exists (8 * sum_list ns + 3)%nat. intros k s Hs. eapply thread_steps_bound; [exact Hs|].
    exists ns. split; [exact Hns|]. cbn. lia. }
  intros s Hs Hn. pose proof (steps_locked _ _ Hs) as Hw.
  destruct (threads_stop s Hw Hn) as (Hp & Hc & Hq & Hnf). split_and!; [|done|].
  { destruct Hw as (Hl & _). rewrite Hl, Hp, Hc. done. }
  intros Hok. assert (th_taken s = taken (as_shared s)) as ->.
  { unfold as_shared. rewrite Hc. cbn. by rewrite app_nil_r. }
  assert (forallb snd (map tool_run outputs) = true) as Hb.
  { apply forallb_forall. intros r Hr. apply in_map_iff in Hr as (o & <- & Ho).
    rewrite Forall_forall in Hok. apply list_elem_of_In, Hok in Ho.
    by rewrite tool_run_eq. }
  destruct (shared_merge tool_round Cancelled (map tool_run outputs) eq_refl _ (as_shared s)
    (tools_yield outputs) Hb (threads_refine _ _ Hs) Hnf) as [Hi Hm].
  split.
  - rewrite Hm, map_map. by setoid_rewrite tool_run_eq.
  - intros i o Ho. eapply Hi. rewrite list_lookup_fmap, Ho. cbn. by rewrite tool_run_eq.
Qed.

(** C35: error.  One tool ends all.  When some tool prints a line that is not UTF-8, a
    task fails and the group cancels those of all tools: where the threads stop,
    every task is cancelled, one tool has failed and its records are those before
    the line, and of each of the others a first part has been relayed. *)
Theorem failing_tool_silences outputs s :
  Exists (fun o => is_ok (run_tool o.2 o.1).2 = false) outputs ->
  rtc thread_step (monitor_tools outputs) s -> nf thread_step s ->
  Forall (fun p => p = Cancelled) (th_tools s) /\
  (exists j o, outputs !! j = Some o /\ is_ok (run_tool o.2 o.1).2 = false /\
     of_producer j (th_taken s) = (run_tool o.2 o.1).1) /\
  forall i o, outputs !! i = Some o -> of_producer i (th_taken s) `prefix_of` (run_tool o.2 o.1).1.
Proof.
  intros Hex Hs Hn. destruct (threads_stop s (steps_locked _ _ Hs) Hn) as (_ & Hc & _ & Hnf).
  destruct (shared_complete tool_round Cancelled (map tool_run outputs) eq_refl _ (as_shared s)
    (tools_yield outputs) (threads_refine _ _ Hs) Hnf) as [Hq H].
  assert (forallb snd (map tool_run outputs) = false) as E.
  { apply not_true_is_false. rewrite forallb_forall. intros Hall.
    apply Exists_exists in Hex as (o & Ho & Hf). specialize (Hall (tool_run o)).
    rewrite tool_run_eq in Hall. cbn in Hall. rewrite Hf in Hall. discriminate Hall.
    rewrite <-Hf, <-tool_run_eq. by apply in_map, list_elem_of_In. }
  rewrite E in H. destruct H as (Hcan & (j & l & Hj & Hseen) & Hpre).
  assert (forall i, seen i (as_shared s) = of_producer i (th_taken s)) as Hs'.
  { intros i. unfold seen. rewrite Hq. unfold as_shared. rewrite Hc. cbn. by rewrite !app_nil_r. }
  split_and!; [exact Hcan|..].
  - rewrite Hs' in Hseen. apply list_lookup_fmap_Some_1 in Hj as (o & Ho & Hoj).
    rewrite tool_run_eq in Ho. injection Ho as -> Hf. by exists j, o.
  - intros i o Ho. rewrite <-Hs'. eapply Hpre. rewrite list_lookup_fmap, Ho. cbn. by rewrite tool_run_eq.
Qed.

(** * Small runs *)

Definition text_line (s : string) : bytes := ascii_bytes (u s ++ [newline]).
Definition tool_a : bcc_tool := new_tool ("exec", "execsnoop", 2).
Definition tool_b : bcc_tool := new_tool ("open", "opensnoop", 4).
Definition two_outputs : list (bcc_tool * list bytes) :=
  [(tool_a, [text_line "PCOMM PID"; text_line "cat 7"]); (tool_b, [text_line "PID"; text_line "9"])].

(** The second tool comes first, and the first one waits for the consumer. *)
Definition two_choices : list (option nat) :=
  [Some 0; Some 1; Some 1; Some 1; Some 1; Some 1; None; None; Some 0; None; None; Some 0; Some 0;
   Some 0; None; None; None; None]%nat.
Definition record_of (t : bcc_tool) (l : list (string * string)) : record :=
  map (fun e => (u e.1, JStr (u e.2))) l ++ [(u "toolname", JStr (u (bt_name t))); (u "prio", JInt (bt_prio t))].
Definition two_taken : list (nat * record) :=
  [(1, record_of tool_b [("pid", "9")]); (0, record_of tool_a [("pcomm", "cat"); ("pid", "7")])]%nat.

(** The state after some choices, the start if they cannot be made. *)
Definition after (choices : list (option nat)) (outputs : list (bcc_tool * list bytes)) : threads :=
  default (monitor_tools outputs) (run_threads choices (monitor_tools outputs)).

Lemma after_reached choices outputs : rtc thread_step (monitor_tools outputs) (after choices outputs).
Proof.
  unfold after. destruct (run_threads _ _) as [s|] eqn:E; [by eapply run_threads_sound|reflexivity].
Qed.

(** Nothing can run. *)
Definition at_rest (s : threads) : bool :=
  match th_queue s, th_producer s, th_consumer s with
  | [], Reading, Looking =>
      forallb (fun p => match tool_round p with Ended => true | _ => false end) (th_tools s)
  | _, _, _ => false
  end.

Lemma at_rest_nf s : at_rest s = true -> nf thread_step s.
Proof.
  destruct s as [ps l [|x q] [| | |] [| | |] t]; cbn; try done.
  rewrite forallb_forall. intros H [s' Hs].
  assert (forall i p, ps !! i = Some p -> tool_round p = Ended) as He.
  { intros i p Hi%list_elem_of_lookup_2%list_elem_of_In%H. by destruct (tool_round p). }
  inversion Hs as [? ? ? ? ? ? p ? Hi|? ? ? ? ? ? p ? ? Hi|? ? ? ? ? ? p Hi| | | | | | |]; subst;
    apply He in Hi; congruence.
Qed.

Lemma get_never_waits_witness :
  th_queue (after (take 9 two_choices) two_outputs) <> [] /\
  th_lock (after (take 9 two_choices) two_outputs) = Some Consumer /\
  producer_inside (th_producer (after (take 9 two_choices) two_outputs)) = false.
Proof. apply (get_never_waits two_outputs); [apply after_reached|vm_compute; reflexivity]. Defined.

Lemma tools_relayed_in_full_witness :
  of_producer 0%nat (th_taken (after two_choices two_outputs)) =
    [record_of tool_a [("pcomm", "cat"); ("pid", "7")]].
Proof.
  apply (proj2 (tools_relayed_in_full two_outputs) (after two_choices two_outputs)) with
    (i := 0%nat) (o := (tool_a, [text_line "PCOMM PID"; text_line "cat 7"])).
  - apply after_reached.
  - apply at_rest_nf. vm_compute. reflexivity.
  - repeat constructor.
  - reflexivity.
Defined.

(** The second tool prints a byte that is no UTF-8, and the first one's record is
    never read. *)
Definition bad_outputs : list (bcc_tool * list bytes) :=
  [(tool_a, [text_line "PID"; text_line "7"]); (tool_b, [[byte_of 255]])].

Example bad_run_loses :
  th_taken (after [Some 0; Some 1]%nat bad_outputs) = [] /\
  (run_tool [text_line "PID"; text_line "7"] tool_a).1 = [record_of tool_a [("pid", "7")]].
Proof. vm_compute. split; reflexivity. Qed.

Lemma failing_tool_silences_witness :
  Forall (fun p => p = Cancelled) (th_tools (after [Some 0; Some 1]%nat bad_outputs)) /\
  exists j o, bad_outputs !! j = Some o /\ is_ok (run_tool o.2 o.1).2 = false /\
    of_producer j (th_taken (after [Some 0; Some 1]%nat bad_outputs)) = (run_tool o.2 o.1).1.
Proof.
  destruct (failing_tool_silences bad_outputs (after [Some 0; Some 1]%nat bad_outputs)) as (H1 & H2 & _).
  - apply Exists_cons_tl, Exists_cons_hd. vm_compute. reflexivity.
  - apply after_reached.
  - apply at_rest_nf. vm_compute. reflexivity.
  - by split.
Defined.
