(* ===== verification/CertTool.v ===== *)
(** The certificate tool, [src/tools/certificates/get_certificates.py]: it asks the
    CFSSL service for the root certificate and, unless told not to, for a private
    key and a signature of its public key, and writes the files.

    The service, HMAC-SHA256, the host's name and environment are the class
    [Cfssl]; what the tool does to the outside is a list of actions. *)

From S2P Require Import Prelude Json PyText.

(** * Base 64 *)

Definition b64_char (n : Z) : Z :=
  if n <? 26 then 65 + n
  else if n <? 52 then 71 + n
  else if n <? 62 then n - 4
  else if n =? 62 then 43 else 47.

(** [base64.b64encode(b).decode()] *)
Fixpoint b64encode (b : bytes) : ustr :=
  match b with
  | [] => []
  | [x] =>
      let x := byte_val x in
      [b64_char (x / 4); b64_char (x mod 4 * 16); 61; 61]
  | [x; y] =>
      let x := byte_val x in let y := byte_val y in
      [b64_char (x / 4); b64_char (x mod 4 * 16 + y / 16); b64_char (y mod 16 * 4); 61]
  | x :: y :: z :: b =>
      let x := byte_val x in let y := byte_val y in let z := byte_val z in
      [b64_char (x / 4); b64_char (x mod 4 * 16 + y / 16); b64_char (y mod 16 * 4 + z / 64);
       b64_char (z mod 64)] ++ b64encode b
  end.

(** [bytearray.fromhex(s)]: pairs of digits, white space between them. *)
Definition ascii_space (c : Z) : bool := (9 <=? c) && (c <=? 13) || (c =? 32).
Definition hex_value (c : Z) : option Z :=
  if is_digit c then Some (c - 48)
  else if (97 <=? c) && (c <=? 102) then Some (c - 87)
  else if (65 <=? c) && (c <=? 70) then Some (c - 55)
  else None.
Fixpoint fromhex (fuel : nat) (s : ustr) : res bytes :=
  match fuel, s with
  | O, _ | _, [] => Ok []
  | S fuel, c :: s' =>
      if ascii_space c then fromhex fuel s'
      else
        match hex_value c, s' with
        | Some h, d :: s'' =>
            match hex_value d with
            | Some l => let? b := fromhex fuel s'' in Ok (byte_of (h * 16 + l) :: b)
            | None => Raise ValueError
            end
        | _, _ => Raise ValueError
        end
  end.

(** * The outside *)

(** A response: its status and body.  The first request is repeated by the
    library on errors; [retrying] says so. *)
Class Cfssl (W : Type) := {
  cf_post : bool -> string -> json -> W -> res (Z * ustr) * W;
  cf_hmac : bytes -> bytes -> bytes;
  cf_hostname : option string;
  cf_environ : list (string * string) }.

Inductive action :=
  | Post (uri : string) (doc : json)
  | Makedirs (path : string)
  | OpenWrite (path : string)
  | Write (path : string) (text : ustr)
  | Chmod (path : string) (mode : Z).

Record tool (W : Type) := Tool { ct_world : W; ct_actions : list action }.
Arguments Tool {W}.
Arguments ct_world {W}.
Arguments ct_actions {W}.

Record cert_opts := CertOpts {
  cfssl_host : string; cfssl_port : Z; ca_only : bool; hostname : option string;
  cert_algo : string; cert_size : Z; cfssl_secret : option string }.

Section CertTool.

Context {W : Type} {Wf : Cfssl W}.

Abbreviation C := (M (tool W)).

Definition act (a : action) : C unit := modify (fun s => Tool (ct_world s) (ct_actions s ++ [a])).

Definition cfssl_post (retrying : bool) (uri : string) (doc : json) : C (Z * ustr) :=
  do_ act (Post uri doc);
  fun s => let '(r, w) := cf_post retrying uri doc (ct_world s) in (r, Tool w (ct_actions s)).

Definition cfssl_uri (opts : cert_opts) (call : string) : string :=
  "http://" +:+ cfssl_host opts +:+ ":" +:+ str_int (cfssl_port opts) +:+ "/api/v1/cfssl/" +:+ call.

(** The result of an answer that reports success; otherwise its errors are
    printed. *)
Definition result_of (payload : json) : res (option json) :=
  let? success := json_item payload "success" in
  if json_truth success then res_map Some (json_item payload "result")
  else
    let? result := json_item payload "result" in
    let? errors := json_item result "errors" in
    let? _ := iterate errors in
    Ok None.

(** [get_ca_certificate(opts)]; the size of the key is computed for the log. *)
Definition get_ca_certificate (opts : cert_opts) : C (option json) :=
  do r <- cfssl_post true (cfssl_uri opts "info") (JObj [(u "label", JStr (u "primary"))]);
  let '(status, body) := r in
  if status =? 200 then
    do payload <- lift (loads body);
    do result <- lift (result_of payload);
    match result with
    | None => ret None
    | Some result =>
        do ca_key <- lift (json_item result "certificate");
        do _ <- lift (json_len ca_key);
        ret (Some ca_key)
    end
  else ret None.

Definition private_key_request (opts : cert_opts) (host : string) : json :=
  JObj [(u "key", JObj [(u "algo", JStr (u (cert_algo opts))); (u "size", JInt (cert_size opts))]);
        (u "hosts", JList [JStr (u host)]);
        (u "names", JList [JObj [(u "C", JStr (u "US")); (u "ST", JStr (u "Virginia"));
                                 (u "L", JStr (u "Arlington")); (u "O", JStr (u host))]]);
        (u "CN", JStr (u host))].

Definition signing_request (host : string) (csr : json) : json :=
  JObj [(u "hostname", JStr (u host)); (u "hosts", JList [JStr (u host)]);
        (u "certificate_request", csr); (u "profile", JStr (u "default"));
        (u "label", JStr (u "client auth")); (u "bundle", JBool false)].

Definition signing_payload (secret : bytes) (host : string) (csr : json) : json :=
  let signing_request_string := utf8_encode (dumps (signing_request host csr)) in
  JObj [(u "request", JStr (b64encode signing_request_string));
        (u "token", JStr (b64encode (cf_hmac secret signing_request_string)))].

(** [get_keys(opts)]: [Some (public_key, private_key)], or [None] for a failure
    that was reported. *)
Definition get_keys (opts : cert_opts) (host secret : string) : C (option (json * json)) :=
  do r <- cfssl_post false (cfssl_uri opts "newkey") (private_key_request opts host);
  if negb (r.1 =? 200) then ret None
  else
    do payload <- lift (loads r.2);
    do result <- lift (result_of payload);
    match result with
    | None => ret None
    | Some result =>
        do private_key <- lift (json_item result "private_key");
        do csr <- lift (json_item result "certificate_request");
        do key <- lift (fromhex (length (u secret)) (u secret));
        do r <- cfssl_post false (cfssl_uri opts "authsign") (signing_payload key host csr);
        if negb (r.1 =? 200) then ret None
        else
          do payload <- lift (loads r.2);
          do result <- lift (result_of payload);
          match result with
          | None => ret None
          | Some result =>
              do public_key <- lift (json_item result "certificate");
              ret (Some (public_key, private_key))
          end
    end.

(** [have_shared_secret(opts)] and [have_hostname(opts)]: the value, where there is
    one. *)
Definition have_shared_secret (opts : cert_opts) : option string :=
  match cfssl_secret opts with
  | Some s => Some s
  | None => dict_get "CFSSL_SHARED_SECRET" cf_environ
  end.
Definition have_hostname (opts : cert_opts) : option string :=
  match hostname opts with Some h => Some h | None => cf_hostname end.

(** Writing one file; a key that is no text raises once the file is open. *)
Definition write_key (cert_path : string) (e : string * json) : C unit :=
  let path := path_join cert_path e.1 in
  do_ act (OpenWrite path);
  do_ (match e.2 with JStr s => act (Write path s) | _ => throw TypeError end);
  act (Chmod path 384).

(** [keys_to_write], or [None] where the program exits with status 1. *)
Definition keys_to_write (opts : cert_opts) : C (option (list (string * json))) :=
  do ca_key <- get_ca_certificate opts;
  match ca_key with
  | None => ret None
  | Some ca_key =>
      if ca_only opts then ret (Some [("ca.pem", ca_key)])
      else
        match have_shared_secret opts, have_hostname opts with
        | Some secret, Some host =>
            do keys <- get_keys opts host secret;
            ret (match keys with
                 | None => None
                 | Some (pub_key, priv_key) =>
                     Some [("ca.pem", ca_key); ("cert.pem", pub_key); ("cert-key.pem", priv_key)]
                 end)
        | _, _ => ret None
        end
  end.

(** [__main__]: [cert_path] is the resolved directory and [exists_] whether it is
    there; the exit status. *)
Definition cert_main (opts : cert_opts) (cert_path : string) (exists_ : bool) : C Z :=
  do_ (if exists_ then ret tt else act (Makedirs cert_path));
  do keys <- keys_to_write opts;
  match keys with
  | None => ret 1
  | Some keys =>
      do_ for_each (write_key cert_path) keys;
      ret 0
  end.

End CertTool.

(** * Base 64, read back *)

(** The value of a character, as RFC 4648 defines it. *)
Definition b64_value (c : Z) : option Z :=
  if (65 <=? c) && (c <=? 90) then Some (c - 65)
  else if (97 <=? c) && (c <=? 122) then Some (c - 71)
  else if is_digit c then Some (c + 4)
  else if c =? 43 then Some 62
  else if c =? 47 then Some 63
  else None.

Fixpoint b64decode (s : ustr) : option bytes :=
  match s with
  | [] => Some []
  | a :: b :: c :: d :: s =>
      match b64_value a, b64_value b with
      | Some a, Some b =>
          match b64_value c, b64_value d with
          | Some c, Some d =>
              (fun r => byte_of (a * 4 + b / 16) :: byte_of (b mod 16 * 16 + c / 4) ::
                        byte_of (c mod 4 * 64 + d) :: r) <$> b64decode s
          | Some c, None => Some [byte_of (a * 4 + b / 16); byte_of (b mod 16 * 16 + c / 4)]
          | None, _ => Some [byte_of (a * 4 + b / 16)]
          end
      | _, _ => None
      end
  | _ => None
  end.

Lemma b64_value_char n : 0 <= n < 64 -> b64_value (b64_char n) = Some n.
Proof.
  intros Hn. assert (Forall (fun n => b64_value (b64_char n) = Some n) (map Z.of_nat (seq 0 64))) as H
    by (by apply (bool_decide_unpack _)).
  rewrite Forall_forall in H. apply H. apply list_elem_of_fmap. exists (Z.to_nat n).
  split; [lia|]. apply elem_of_seq. lia.
Qed.

Lemma byte_of_byte z b : z = byte_val b -> byte_of z = b.
Proof. intros ->. by destruct b. Qed.

Lemma b64_roundtrip n : forall b, (length b <= n)%nat -> b64decode (b64encode b) = Some b.
Proof.
  induction n as [|n IH]; intros b Hn; [by destruct b; [|cbn in Hn; lia]|].
  destruct b as [|x [|y [|z b]]]; [done|..]; pose proof (byte_val_range x);
    try pose proof (byte_val_range y); try pose proof (byte_val_range z);
    cbn [b64encode app b64decode];
    rewrite !b64_value_char by (Z.to_euclidean_division_equations; lia).
  - change (b64_value 61) with (@None Z). cbv iota. do 2 f_equal. apply byte_of_byte.
    Z.to_euclidean_division_equations; lia.
  - change (b64_value 61) with (@None Z). cbv iota.
    do 3 f_equal; [|f_equal]; apply byte_of_byte; Z.to_euclidean_division_equations; lia.
  - rewrite IH by (cbn in Hn; lia). cbn. do 4 f_equal; try f_equal;
      apply byte_of_byte; Z.to_euclidean_division_equations; lia.
Qed.

(** * What the tool does *)

(** What the signer does with a request: it decodes it, checks the token against
    the bytes and reads the document. *)
Definition signer_accepts (hmac : bytes -> bytes -> bytes) (secret : bytes) (payload : json) : option json :=
  match json_item payload "request", json_item payload "token" with
  | Ok (JStr request), Ok (JStr token) =>
      match b64decode request, b64decode token with
      | Some r, Some t =>
          if bool_decide (t = hmac secret r) then
            match utf8_decode r with
            | Ok s => match loads s with Ok j => Some j | Raise _ => None end
            | Raise _ => None
            end
          else None
      | _, _ => None
      end
  | _, _ => None
  end.

Section CertTheorems.

Context {W : Type} {Wf : Cfssl W}.

Abbreviation C := (M (tool W)).

(** Roundtrip.  A signer that shares the secret accepts what the tool sends:
    the token is that of the very bytes it decodes, and they are the text of the
    signing request with the host's name and the certificate request. *)
Lemma signer_reads_request secret host csr :
  jwf csr -> signer_accepts cf_hmac secret (signing_payload secret host csr) = Some (signing_request host csr).
Proof.
  intros Hj. unfold signer_accepts, signing_payload.
  set (b := utf8_encode (dumps (signing_request host csr))).
  change (json_item _ "request") with (Ok (A := json) (JStr (b64encode b))).
  change (json_item _ "token") with (Ok (A := json) (JStr (b64encode (cf_hmac secret b)))). cbv beta iota.
  rewrite !(b64_roundtrip _ _ (le_n _)), bool_decide_eq_true_2 by done.
  assert (jwf (signing_request host csr)) as Hwf.
  { apply jwf_obj. split; [by apply (bool_decide_unpack _)|].
    repeat (apply Forall_cons_2; [split; [apply scalar_u|]|]); try apply scalar_u; try done.
    apply jwf_list. constructor; [apply scalar_u|constructor]. }
  unfold b. rewrite utf8_roundtrip.
  - by rewrite loads_dumps.
  - eapply Forall_impl; [by apply dumps_printable|]. intros c. unfold printable, scalar. lia.
Qed.

Definition file_action (a : action) : bool :=
  match a with OpenWrite _ | Write _ _ | Chmod _ _ => true | _ => false end.

(** A computation that touches no file. *)
Definition no_files {A} (m : C A) : Prop := forall s, exists l,
  ct_actions (m s).2 = ct_actions s ++ l /\ Forall (fun a => file_action a = false) l.

Lemma no_files_ret {A} (a : A) : no_files (ret a).
Proof. intros s. exists []. split; [by rewrite app_nil_r|constructor]. Qed.

Lemma no_files_lift {A} (r : res A) : no_files (lift r).
Proof. intros s. exists []. split; [by rewrite app_nil_r|constructor]. Qed.

Lemma no_files_bind {A B} (m : C A) (f : A -> C B) :
  no_files m -> (forall a, no_files (f a)) -> no_files (bind m f).
Proof.
  intros Hm Hf s. destruct (Hm s) as (l & Hl & Hn). unfold bind.
  destruct (m s) as [[a|e] s1] eqn:E; cbn [snd] in *; [|by exists l].
  destruct (Hf a s1) as (l' & Hl' & Hn'). exists (l ++ l'). rewrite Hl', Hl, app_assoc.
  split; [done|by apply Forall_app].
Qed.

Lemma no_files_post retrying uri doc : no_files (cfssl_post retrying uri doc).
Proof.
  intros s. exists [Post uri doc]. unfold cfssl_post, bind, act, modify. cbn.
  destruct (cf_post retrying uri doc (ct_world s)) as [r w]. cbn.
  split; [done|by constructor].
Qed.

#[local] Hint Resolve no_files_ret no_files_lift no_files_post : no_files.

Ltac no_files :=
  repeat first [ solve [auto with no_files] | apply no_files_bind; [|intros ?] | case_match ].

Lemma no_files_ca opts : no_files (get_ca_certificate opts).
Proof. unfold get_ca_certificate. by no_files. Qed.

Lemma no_files_keys opts host secret : no_files (get_keys opts host secret).
Proof. unfold get_keys. by no_files. Qed.

Definition written (cert_path : string) (e : string * ustr) : list action :=
  let path := path_join cert_path e.1 in [OpenWrite path; Write path e.2; Chmod path 384].

Definition file_names (opts : cert_opts) : list string :=
  if ca_only opts then ["ca.pem"] else ["ca.pem"; "cert.pem"; "cert-key.pem"].

(** Writing the files: all of them, or up to the first key that is no text. *)
Lemma write_keys_run cert_path files (s : tool W) : exists l,
  ct_actions (for_each (write_key cert_path) files s).2 = ct_actions s ++ l /\
  Forall (fun a => file_action a = true) l /\
  match (for_each (write_key cert_path) files s).1 with
  | Ok _ => exists texts, map fst texts = map fst files /\ l = flat_map (written cert_path) texts
  | Raise e => e = TypeError
  end.
Proof.
  revert s. induction files as [|[name key] files IH]; intros s.
  - exists []. split; [by rewrite app_nil_r|]. split; [constructor|]. by exists [].
  - cbn [for_each]. unfold write_key at 1 3, act, modify, bind, throw. cbn [fst snd].
    destruct key as [| | | |t| |].
    5: { specialize (IH (Tool (ct_world s) (ct_actions s ++ written cert_path (name, t)))).
         destruct IH as (l & Hl & Hf & Hr). exists (written cert_path (name, t) ++ l).
         unfold written in *. cbn [fst snd ct_world ct_actions] in *. rewrite <-!app_assoc in *.
         cbn [app] in *. split; [exact Hl|]. split; [by repeat constructor|].
         destruct (for_each _ _ _) as [[u0|e] s']; cbn [fst] in *; [|done].
         destruct Hr as (texts & Hn & ->). exists ((name, t) :: texts).
         split; [cbn; by f_equal|]. done. }
    all: exists [OpenWrite (path_join cert_path name)]; cbn; split; [done|split; [by repeat constructor|done]].
Qed.

Lemma no_files_keys_to_write opts : no_files (keys_to_write opts).
Proof.
  unfold keys_to_write. apply no_files_bind; [apply no_files_ca|]. intros [ca|]; [|apply no_files_ret].
  destruct (ca_only opts); [apply no_files_ret|].
  destruct (have_shared_secret opts) as [secret|], (have_hostname opts) as [host|];
    try apply no_files_ret.
  apply no_files_bind; [apply no_files_keys|]. intros keys. apply no_files_ret.
Qed.

Lemma keys_to_write_names opts (s s' : tool W) files :
  keys_to_write opts s = (Ok (Some files), s') -> map fst files = file_names opts.
Proof.
  unfold keys_to_write, file_names. intros H. apply bind_Ok in H as ([ca|] & s1 & _ & H); [|done].
  destruct (ca_only opts); [by injection H as <- _|].
  destruct (have_shared_secret opts) as [secret|], (have_hostname opts) as [host|]; try done.
  apply bind_Ok in H as (keys & s2 & _ & H). destruct keys as [[p k]|]; [|done]. by injection H as <- _.
Qed.


End CertTheorems.

Section Honest.

Context {W : Type} {Wf : Cfssl W}.

(** The body of an answer of CFSSL that reports success, whose result has these
    items; [errors] and [messages], and whatever the result has besides, may be
    there. *)
Definition answers_with (body : ustr) (items : list (string * json)) : Prop :=
  exists d result, loads body = Ok (JObj d) /\ dict_get (u "success") d = Some (JBool true) /\
    dict_get (u "result") d = Some (JObj result) /\
    Forall (fun e => dict_get (u e.1) result = Some e.2) items.

(** A service that keeps its promises to a client that shares the secret [key]: it
    tells its certificate, makes a key and a certificate request, and signs whatever
    request the signer accepts. *)
Record honest_ca (opts : cert_opts) (host : string) (key : bytes) (ca priv pub : ustr) (csr : json) : Prop := {
  hc_info w : exists body w',
    cf_post true (cfssl_uri opts "info") (JObj [(u "label", JStr (u "primary"))]) w = (Ok (200, body), w') /\
    answers_with body [("certificate", JStr ca)];
  hc_newkey w : exists body w',
    cf_post false (cfssl_uri opts "newkey") (private_key_request opts host) w = (Ok (200, body), w') /\
    answers_with body [("private_key", JStr priv); ("certificate_request", csr)];
  hc_authsign w payload : signer_accepts cf_hmac key payload = Some (signing_request host csr) ->
    exists body w', cf_post false (cfssl_uri opts "authsign") payload w = (Ok (200, body), w') /\
      answers_with body [("certificate", JStr pub)] }.

Lemma answer_result body items : answers_with body items ->
  exists payload result, loads body = Ok payload /\ result_of payload = Ok (Some result) /\
    Forall (fun e => json_item result e.1 = Ok e.2) items.
Proof.
  intros (d & result & Hl & Hs & Hr & Hi). exists (JObj d), (JObj result). split; [done|].
  split; [unfold result_of; cbn [json_item]; by rewrite Hs, Hr|].
  eapply Forall_impl; [exact Hi|]. intros e He. cbn [json_item]. by rewrite He.
Qed.

(** One request of the tool that is answered. *)
Lemma posted retrying uri doc body w w' l :
  cf_post retrying uri doc w = (Ok (200, body), w') ->
  cfssl_post retrying uri doc (Tool w l) = (Ok (200, body), Tool w' (l ++ [Post uri doc])).
Proof. intros Hp. unfold cfssl_post, act. rewrite bind_modify. cbn. by rewrite Hp. Qed.

Context (opts : cert_opts) (host secret : string) (key : bytes) (ca priv pub : ustr) (csr : json).
Context (Hca : honest_ca opts host key ca priv pub csr).

Lemma ca_certificate_run w l : exists w',
  get_ca_certificate opts (Tool w l) =
    (Ok (Some (JStr ca)), Tool w' (l ++ [Post (cfssl_uri opts "info") (JObj [(u "label", JStr (u "primary"))])])).
Proof.
  destruct (hc_info _ _ _ _ _ _ _ Hca w) as (body & w' & Hp & (payload & result & Hl & Hr & Hi)%answer_result).
  apply Forall_cons in Hi as [Hc _]. exists w'. unfold get_ca_certificate.
  erewrite bind_step by (by apply posted). cbv beta iota. change (200 =? 200) with true. cbv iota.
  erewrite bind_lift by exact Hl. erewrite bind_lift by exact Hr. cbv beta iota.
  erewrite bind_lift by exact Hc. by erewrite bind_lift by reflexivity.
Qed.

Lemma keys_run w l : jwf csr -> fromhex (length (u secret)) (u secret) = Ok key ->
  exists w', get_keys opts host secret (Tool w l) =
    (Ok (Some (JStr pub, JStr priv)), Tool w' (l ++
      [Post (cfssl_uri opts "newkey") (private_key_request opts host);
       Post (cfssl_uri opts "authsign") (signing_payload key host csr)])).
Proof.
  intros Hcsr Hkey.
  destruct (hc_newkey _ _ _ _ _ _ _ Hca w) as (b1 & w1 & Hp1 & (p1 & r1 & Hl1 & Hr1 & Hi1)%answer_result).
  apply Forall_cons in Hi1 as [Hpriv Hi1]. apply Forall_cons in Hi1 as [Hreq _].
  destruct (hc_authsign _ _ _ _ _ _ _ Hca w1 (signing_payload key host csr) (signer_reads_request key host csr Hcsr))
    as (b2 & w2 & Hp2 & (p2 & r2 & Hl2 & Hr2 & Hi2)%answer_result).
  apply Forall_cons in Hi2 as [Hpub _]. exists w2. unfold get_keys.
  erewrite bind_step by (by apply posted). cbn [fst snd]. change (negb (200 =? 200)) with false. cbv iota.
  erewrite bind_lift by exact Hl1. erewrite bind_lift by exact Hr1. cbv beta iota.
  erewrite bind_lift by exact Hpriv. erewrite bind_lift by exact Hreq. erewrite bind_lift by exact Hkey.
  erewrite bind_step by (by apply posted). cbn [fst snd]. change (negb (200 =? 200)) with false. cbv iota.
  erewrite bind_lift by exact Hl2. erewrite bind_lift by exact Hr2. cbv beta iota.
  erewrite bind_lift by exact Hpub. by rewrite <-app_assoc.
Qed.

Lemma keys_to_write_run w l :
  ca_only opts = false -> have_shared_secret opts = Some secret -> have_hostname opts = Some host ->
  fromhex (length (u secret)) (u secret) = Ok key -> jwf csr ->
  exists w', keys_to_write opts (Tool w l) =
    (Ok (Some [("ca.pem", JStr ca); ("cert.pem", JStr pub); ("cert-key.pem", JStr priv)]), Tool w' (l ++
      [Post (cfssl_uri opts "info") (JObj [(u "label", JStr (u "primary"))]);
       Post (cfssl_uri opts "newkey") (private_key_request opts host);
       Post (cfssl_uri opts "authsign") (signing_payload key host csr)])).
Proof.
  intros Honly Hsecret Hhost Hkey Hcsr. destruct (ca_certificate_run w l) as (w1 & Hc).
  edestruct (keys_run w1) as (w2 & Hk); [done..|]. exists w2. unfold keys_to_write.
  erewrite bind_step by exact Hc. cbv beta iota. rewrite Honly, Hsecret, Hhost.
  erewrite bind_step by exact Hk. cbv beta iota. unfold ret. by rewrite <-app_assoc.
Qed.

Lemma write_keys_texts cert_path files w l :
  for_each (write_key (W := W) cert_path) (map (fun e => (e.1, JStr e.2)) files) (Tool w l) =
    (Ok tt, Tool w (l ++ flat_map (written cert_path) files)).
Proof.
  revert l. induction files as [|[name text] files IH]; intros l; cbn [map for_each flat_map].
  - by rewrite app_nil_r.
  - erewrite bind_step by reflexivity. unfold ret in IH. cbn [fst snd ct_world ct_actions]. rewrite IH.
    by rewrite <-!app_assoc.
Qed.

(** C25: liveness.  With a service that keeps its promises the tool succeeds.  The
    service answers with success and what was asked for, among whatever else its
    answers hold, and signs a request when the token that comes with it is that of the
    bytes it decodes and these say what is to be signed.  Then the tool, which knows
    the shared secret and the host's name, ends with status 0: it sends exactly the
    three requests, the last with the certificate request of the second answer, and
    writes the three texts to their files, in this order and with permissions 0600. *)
Theorem honest_ca_writes cert_path exists_ w :
  ca_only opts = false -> have_shared_secret opts = Some secret -> have_hostname opts = Some host ->
  fromhex (length (u secret)) (u secret) = Ok key -> jwf csr ->
  exists w', cert_main opts cert_path exists_ (Tool w []) =
    (Ok 0, Tool w' ((if exists_ then [] else [Makedirs cert_path]) ++
      [Post (cfssl_uri opts "info") (JObj [(u "label", JStr (u "primary"))]);
       Post (cfssl_uri opts "newkey") (private_key_request opts host);
       Post (cfssl_uri opts "authsign") (signing_payload key host csr)] ++
      flat_map (written cert_path) [("ca.pem", ca); ("cert.pem", pub); ("cert-key.pem", priv)])).
Proof.
  intros Honly Hsecret Hhost Hkey Hcsr. set (made := if exists_ then [] else [Makedirs cert_path]).
  destruct (keys_to_write_run w made) as (w' & Hk); [done..|]. exists w'. unfold cert_main.
  assert ((if exists_ then ret tt else act (Makedirs cert_path)) (Tool w []) = (Ok tt, Tool w made)) as Hm
    by (unfold made; by destruct exists_).
  erewrite bind_step by exact Hm. erewrite bind_step by exact Hk. cbv beta iota.
  erewrite bind_step by exact (write_keys_texts cert_path
    [("ca.pem", ca); ("cert.pem", pub); ("cert-key.pem", priv)] _ _).
  unfold ret. by rewrite <-app_assoc.
Qed.

End Honest.

(** A service that refuses a request says so as CFSSL documents it: no result, and the
    errors beside it.  The tool looks for them in the result, and ends with
    [TypeError]. *)
Lemma refusal_raises errors :
  result_of (JObj [(u "success", JBool false); (u "result", JNull); (u "errors", errors);
                   (u "messages", JList [])]) = Raise TypeError.
Proof. done. Qed.

(** * A small service *)

Definition answer_doc (result : list (string * json)) : ustr :=
  dumps (JObj [(u "success", JBool true); (u "result", JObj (map (fun e => (u e.1, e.2)) result));
               (u "errors", JList []); (u "messages", JList [])]).

Definition small_opts : cert_opts := CertOpts "cfssl" 3030 false None "rsa" 4096 None.
Definition small_hmac (key message : bytes) : bytes := key ++ message.
Definition small_key : bytes := [byte_of 10; byte_of 240].
Definition small_csr : json := JStr (u "CSR").

(** It counts the requests, and signs what its signer accepts. *)
Definition small_post (uri : string) (doc : json) : res (Z * ustr) :=
  if decide (uri = cfssl_uri small_opts "info") then
    Ok (200, answer_doc [("certificate", JStr (u "CA")); ("usages", JList [])])
  else if decide (uri = cfssl_uri small_opts "newkey") then
    Ok (200, answer_doc [("private_key", JStr (u "KEY")); ("certificate_request", small_csr); ("sums", JNull)])
  else if decide (dumps <$> signer_accepts small_hmac small_key doc =
                  Some (dumps (signing_request "sensor-001" small_csr))) then
    Ok (200, answer_doc [("certificate", JStr (u "CERT"))])
  else Ok (401, []).

#[export] Instance small_ca : Cfssl nat := {|
  cf_post := fun _ uri doc n => (small_post uri doc, S n);
  cf_hmac := small_hmac;
  cf_hostname := Some "sensor-001";
  cf_environ := [("CFSSL_SHARED_SECRET", "0aF0")] |}.

Lemma answer_doc_answers items : NoDup (map fst items) -> Forall (fun e => jwf e.2) items ->
  answers_with (answer_doc items) items.
Proof.
  intros Hn Hi. set (result := map (fun e => (u e.1, e.2)) items).
  assert (map fst result = map u (map fst items)) as Hk by (unfold result; by rewrite !map_map).
  assert (NoDup (map fst result)) as Hr by (rewrite Hk; by apply (NoDup_fmap_2 u)).
  eexists _, result. split; [apply loads_dumps|split_and!; [reflexivity..|]].
  - apply jwf_obj. split; [by apply (bool_decide_unpack _)|].
    repeat (apply Forall_cons_2; [split; [apply scalar_u|]|]); try done.
    apply jwf_obj. split; [exact Hr|]. apply Forall_fmap. eapply Forall_impl; [exact Hi|].
    intros e He. split; [apply scalar_u|exact He].
  - apply Forall_forall. intros e He. apply dict_get_nodup; [exact Hr|].
    apply list_elem_of_fmap. by exists e.
Qed.

Lemma answers_with_first body l1 l2 : answers_with body (l1 ++ l2) -> answers_with body l1.
Proof. intros (d & r & H1 & H2 & H3 & Hf). apply Forall_app in Hf as [Hf _]. by exists d, r. Qed.

Lemma small_ca_honest :
  honest_ca small_opts "sensor-001" small_key (u "CA") (u "KEY") (u "CERT") small_csr.
Proof.
  split.
  - intros w. eexists _, _. split; [reflexivity|].
    apply (answers_with_first _ [_] [("usages", JList [])]), answer_doc_answers;
      [by apply (bool_decide_unpack _)|repeat (apply Forall_cons_2; [try apply scalar_u; done|]); constructor].
  - intros w. eexists _, _. split; [reflexivity|].
    apply (answers_with_first _ [_; _] [("sums", JNull)]), answer_doc_answers;
      [by apply (bool_decide_unpack _)|repeat (apply Forall_cons_2; [try apply scalar_u; done|]); constructor].
  - intros w payload Hs. eexists _, _. split.
    + cbn [cf_post small_ca]. unfold small_post. change (cf_hmac (Cfssl := small_ca)) with small_hmac in Hs.
      rewrite Hs. change (_ <$> Some ?x) with (Some (dumps x)).
      rewrite !decide_False by discriminate. by rewrite decide_True by done.
    + apply answer_doc_answers; [by apply (bool_decide_unpack _)|].
      apply Forall_cons_2; [apply scalar_u|constructor].
Qed.

Lemma honest_ca_writes_witness :
  exists w', cert_main small_opts "/certs" false (Tool 0%nat []) =
    (Ok 0, Tool w' ([Makedirs "/certs"] ++
      [Post (cfssl_uri small_opts "info") (JObj [(u "label", JStr (u "primary"))]);
       Post (cfssl_uri small_opts "newkey") (private_key_request small_opts "sensor-001");
       Post (cfssl_uri small_opts "authsign") (signing_payload small_key "sensor-001" small_csr)] ++
      flat_map (written "/certs") [("ca.pem", u "CA"); ("cert.pem", u "CERT"); ("cert-key.pem", u "KEY")])).
Proof.
  apply (honest_ca_writes small_opts "sensor-001" "0aF0" small_key (u "CA") (u "KEY") (u "CERT") small_csr
    small_ca_honest "/certs" false 0%nat); [by vm_compute..|apply scalar_u].
Defined.
