(* ===== verification/NtQuerySys.v ===== *)
(** The system queries of the Windows sensors, [sensors/ntquerysys/ntquerysys.py].

    [NtQuerySystemInformation] fills a buffer: the processes of the system as a
    chain of records, each with the offset of the next, its threads behind it;
    the handles of all processes as a table.  Windows is the class [NtSys], an
    error of [pywintypes] is [OSError].  A [c_wchar_p] attribute is the text
    that [wide] finds at its address.  The objects behind handles
    ([_get_object_info]), the basic information and the privileges are left
    out. *)

From S2P Require Import Prelude Json PyText Ctypes CommandSensors.

(** * Structures *)

(** The types of attributes: integers, [c_void_p], and the structures that
    [to_dict] knows. *)
Inductive ptype :=
  | PInt (signed : bool) (size : nat)
  | PVoid
  | PUnicode
  | PClientId
  | PGeneric.

Definition USHORT := CInt false 2.
Definition UBYTE := CInt false 1.
Definition ULONG := CInt false 4.
Definition void_p := CInt false 8.

Definition UNICODE_STRING : ctype :=
  CStruct [("Length", USHORT); ("MaximumLength", USHORT); ("Buffer", void_p)].
Definition CLIENT_ID : ctype :=
  CStruct [("UniqueProcess", void_p); ("UniqueThread", void_p)].
Definition GENERIC_MAPPING : ctype :=
  CStruct [("GenericRead", ULONG); ("GenericWrite", ULONG); ("GenericExecute", ULONG);
           ("GenericAll", ULONG)].

Definition ctype_of (p : ptype) : ctype :=
  match p with
  | PInt signed n => CInt signed n
  | PVoid => void_p
  | PUnicode => UNICODE_STRING
  | PClientId => CLIENT_ID
  | PGeneric => GENERIC_MAPPING
  end.

Definition struct_of (fields : list (string * ptype)) : ctype :=
  CStruct (map (fun f => (f.1, ctype_of f.2)) fields).

Definition P_ULONG := PInt false 4.
Definition P_LONG := PInt true 4.
Definition P_LARGE_INTEGER := PInt true 8.

Definition SYSTEM_THREAD_INFORMATION : list (string * ptype) :=
  [("KernelTime", P_LARGE_INTEGER); ("UserTime", P_LARGE_INTEGER);
   ("CreateTime", P_LARGE_INTEGER); ("WaitTime", P_ULONG); ("StartAddress", PVoid);
   ("ClientId", PClientId); ("Priority", P_LONG); ("BasePriority", P_LONG);
   ("ContextSwitches", P_ULONG); ("ThreadState", P_ULONG); ("WaitReason", P_ULONG)].

Definition SYSTEM_PROCESS_INFORMATION : list (string * ptype) :=
  [("NextEntryOffset", P_ULONG); ("NumberOfThreads", P_ULONG);
   ("WorkingSetPrivate", P_LARGE_INTEGER); ("HardFaultCount", P_ULONG);
   ("NumberOfThreadsHighWatermark", P_ULONG); ("CycleTime", PInt false 8);
   ("CreateTime", P_LARGE_INTEGER); ("UserTime", P_LARGE_INTEGER);
   ("KernelTime", P_LARGE_INTEGER); ("ImageName", PUnicode); ("BasePriority", P_LONG);
   ("UniqueProcessId", PVoid); ("InheritedFromUniqueProcessId", PVoid);
   ("HandleCount", P_ULONG); ("SessionId", P_ULONG); ("UniqueProcessKey", PVoid);
   ("PeakVirtualSize", PVoid); ("VirtualSize", PVoid); ("PageFaultCount", P_ULONG);
   ("PeakWorkingSetSize", PVoid); ("WorkingSetSize", PVoid);
   ("QuotaPeakPagedPoolUsage", PVoid); ("QuotaPagedPoolUsage", PVoid);
   ("QuotaPeakNonPagedPoolUsage", PVoid); ("QuotaNonPagedPoolUsage", PVoid);
   ("PagefileUsage", PVoid); ("PeakPagefileUsage", PVoid);
   ("PrivatePageCount", PInt false 8); ("ReadOperationCount", P_LARGE_INTEGER);
   ("WriteOperationCount", P_LARGE_INTEGER); ("OtherOperationCount", P_LARGE_INTEGER);
   ("ReadTransferCount", P_LARGE_INTEGER); ("WriteTransferCount", P_LARGE_INTEGER);
   ("OtherTransferCount", P_LARGE_INTEGER)].

Definition BOOLEAN := PInt true 1.

Definition OBJECT_TYPE_INFORMATION : list (string * ptype) :=
  [("Name", PUnicode); ("TotalNumberOfObjects", P_ULONG); ("TotalNumberOfHandles", P_ULONG);
   ("TotalNonPagedPoolUsage", P_ULONG); ("TotalNamePoolUsage", P_ULONG);
   ("TotalHandleTableUsage", P_ULONG); ("HighWaterNumberOfObjects", P_ULONG);
   ("HighWaterNumberOfHandles", P_ULONG); ("HighWaterPagedPoolUsage", P_ULONG);
   ("HighWaterNonPagedPoolUsage", P_ULONG); ("HighWaterNamePoolUsage", P_ULONG);
   ("HighWaterHandleTableUsage", P_ULONG); ("InvalidAttributes", P_ULONG);
   ("GenericMapping", PGeneric); ("ValidAccessMask", P_ULONG); ("SecurityRequired", BOOLEAN);
   ("MaintainHandleCount", BOOLEAN); ("PoolType", P_ULONG); ("DefaultPagedPoolCharge", P_ULONG);
   ("DefaultNonPagedPoolCharge", P_ULONG)].

Definition SPI : ctype := struct_of SYSTEM_PROCESS_INFORMATION.
Definition STI : ctype := struct_of SYSTEM_THREAD_INFORMATION.

Definition SYSTEM_HANDLE_TABLE_ENTRY_INFO : ctype :=
  CStruct [("UniqueProcessId", USHORT); ("CreatorBackTraceIndex", USHORT);
           ("ObjectTypeIndex", UBYTE); ("HandleAttributes", UBYTE); ("HandleValue", USHORT);
           ("Object", void_p); ("GrantedAccess", ULONG)].
Definition SYSTEM_HANDLE_INFORMATION : ctype :=
  CStruct [("NumberOfHandles", ULONG); ("Handles", SYSTEM_HANDLE_TABLE_ENTRY_INFO)].

(** [SYSTEM_INFORMATION_CLASS] and its members that are used. *)
Definition SYSTEM_INFORMATION_CLASS : list (string * Z) :=
  [("SystemBasicInformation", 0); ("SystemProcessorInformation", 1);
   ("SystemPerformanceInformation", 2); ("SystemTimeOfDayInformation", 3);
   ("SystemPathInformation", 4); ("SystemProcessInformation", 5);
   ("SystemCallCountInformation", 6); ("SystemDeviceInformation", 7);
   ("SystemProcessorPerformanceInformation", 8); ("SystemFlagsInformation", 9);
   ("SystemCallTimeInformation", 10); ("SystemModuleInformation", 11);
   ("SystemLocksInformation", 12); ("SystemStackTraceInformation", 13);
   ("SystemPagedPoolInformation", 14); ("SystemNonPagedPoolInformation", 15);
   ("SystemHandleInformation", 16); ("SystemObjectInformation", 17);
   ("SystemPageFileInformation", 18); ("SystemVdmInstemulInformation", 19);
   ("SystemVdmBopInformation", 20); ("SystemFileCacheInformation", 21);
   ("SystemPoolTagInformation", 22); ("SystemInterruptInformation", 23);
   ("SystemDpcBehaviorInformation", 24); ("SystemFullMemoryInformation", 25);
   ("SystemLoadGdiDriverInformation", 26); ("SystemUnloadGdiDriverInformation", 27);
   ("SystemTimeAdjustmentInformation", 28); ("SystemSummaryMemoryInformation", 29);
   ("SystemMirrorMemoryInformation", 30); ("SystemPerformanceTraceInformation", 31);
   ("SystemCrashDumpInformation", 32); ("SystemExceptionInformation", 33);
   ("SystemCrashDumpStateInformation", 34); ("SystemKernelDebuggerInformation", 35);
   ("SystemContextSwitchInformation", 36); ("SystemRegistryQuotaInformation", 37);
   ("SystemExtendServiceTableInformation", 38); ("SystemPrioritySeperation", 39);
   ("SystemVerifierAddDriverInformation", 40); ("SystemVerifierRemoveDriverInformation", 41);
   ("SystemProcessorIdleInformation", 42); ("SystemLegacyDriverInformation", 43);
   ("SystemCurrentTimeZoneInformation", 44); ("SystemLookasideInformation", 45);
   ("SystemTimeSlipNotification", 46); ("SystemSessionCreate", 47); ("SystemSessionDetach", 48);
   ("SystemSessionInformation", 49); ("SystemRangeStartInformation", 50);
   ("SystemVerifierInformation", 51); ("SystemVerifierThunkExtend", 52);
   ("SystemSessionProcessInformation", 53); ("SystemLoadGdiDriverInSystemSpace", 54);
   ("SystemNumaProcessorMap", 55); ("SystemPrefetcherInformation", 56);
   ("SystemExtendedProcessInformation", 57); ("SystemRecommendedSharedDataAlignment", 58);
   ("SystemComPlusPackage", 59); ("SystemNumaAvailableMemory", 60);
   ("SystemProcessorPowerInformation", 61); ("SystemEmulationBasicInformation", 62);
   ("SystemEmulationProcessorInformation", 63); ("SystemExtendedHandleInformation", 64);
   ("SystemLostDelayedWriteInformation", 65); ("SystemBigPoolInformation", 66);
   ("SystemSessionPoolTagInformation", 67); ("SystemSessionMappedViewInformation", 68);
   ("SystemHotpatchInformation", 69); ("SystemObjectSecurityMode", 70);
   ("SystemWatchdogTimerHandler", 71); ("SystemWatchdogTimerInformation", 72);
   ("SystemLogicalProcessorInformation", 73); ("SystemWow64SharedInformationObsolete", 74);
   ("SystemRegisterFirmwareTableInformationHandler", 75); ("SystemFirmwareTableInformation", 76);
   ("SystemModuleInformationEx", 77); ("SystemVerifierTriageInformation", 78);
   ("SystemSuperfetchInformation", 79); ("SystemMemoryListInformation", 80);
   ("SystemFileCacheInformationEx", 81); ("SystemThreadPriorityClientIdInformation", 82);
   ("SystemProcessorIdleCycleTimeInformation", 83); ("SystemVerifierCancellationInformation", 84);
   ("SystemProcessorPowerInformationEx", 85); ("SystemRefTraceInformation", 86);
   ("SystemSpecialPoolInformation", 87); ("SystemProcessIdInformation", 88);
   ("SystemErrorPortInformation", 89); ("SystemBootEnvironmentInformation", 90);
   ("SystemHypervisorInformation", 91); ("SystemVerifierInformationEx", 92);
   ("SystemTimeZoneInformation", 93); ("SystemImageFileExecutionOptionsInformation", 94);
   ("SystemCoverageInformation", 95); ("SystemPrefetchPatchInformation", 96);
   ("SystemVerifierFaultsInformation", 97); ("SystemSystemPartitionInformation", 98);
   ("SystemSystemDiskInformation", 99); ("SystemProcessorPerformanceDistribution", 100);
   ("SystemNumaProximityNodeInformation", 101); ("SystemDynamicTimeZoneInformation", 102);
   ("SystemCodeIntegrityInformation", 103); ("SystemProcessorMicrocodeUpdateInformation", 104);
   ("SystemProcessorBrandString", 105); ("SystemVirtualAddressInformation", 106);
   ("SystemLogicalProcessorAndGroupInformation", 107);
   ("SystemProcessorCycleTimeInformation", 108); ("SystemStoreInformation", 109);
   ("SystemRegistryAppendString", 110); ("SystemAitSamplingValue", 111);
   ("SystemVhdBootInformation", 112); ("SystemCpuQuotaInformation", 113);
   ("SystemNativeBasicInformation", 114); ("SystemErrorPortTimeouts", 115);
   ("SystemLowPriorityIoInformation", 116); ("SystemBootEntropyInformation", 117);
   ("SystemVerifierCountersInformation", 118); ("SystemPagedPoolInformationEx", 119);
   ("SystemSystemPtesInformationEx", 120); ("SystemNodeDistanceInformation", 121);
   ("SystemAcpiAuditInformation", 122); ("SystemBasicPerformanceInformation", 123);
   ("SystemQueryPerformanceCounterInformation", 124); ("SystemSessionBigPoolInformation", 125);
   ("SystemBootGraphicsInformation", 126); ("SystemScrubPhysicalMemoryInformation", 127);
   ("SystemBadPageInformation", 128); ("SystemProcessorProfileControlArea", 129);
   ("SystemCombinePhysicalMemoryInformation", 130);
   ("SystemEntropyInterruptTimingInformation", 131); ("SystemConsoleInformation", 132);
   ("SystemPlatformBinaryInformation", 133); ("SystemThrottleNotificationInformation", 134);
   ("SystemHypervisorProcessorCountInformation", 135); ("SystemDeviceDataInformation", 136);
   ("SystemDeviceDataEnumerationInformation", 137); ("SystemMemoryTopologyInformation", 138);
   ("SystemMemoryChannelInformation", 139); ("SystemBootLogoInformation", 140);
   ("SystemProcessorPerformanceInformationEx", 141); ("SystemSpare0", 142);
   ("SystemSecureBootPolicyInformation", 143); ("SystemPageFileInformationEx", 144);
   ("SystemSecureBootInformation", 145); ("SystemEntropyInterruptTimingRawInformation", 146);
   ("SystemPortableWorkspaceEfiLauncherInformation", 147); ("SystemFullProcessInformation", 148);
   ("MaxSystemInfoClass", 149)].

Definition class_value (name : string) : Z := default 0 (dict_get name SYSTEM_INFORMATION_CLASS).
Definition SystemProcessInformation : Z := class_value "SystemProcessInformation".
Definition SystemHandleInformation : Z := class_value "SystemHandleInformation".
Definition STATUS_SUCCESS : Z := 0.

Definition PROCESS_DUP_HANDLE : Z := 64.
Definition PROCESS_QUERY_LIMITED_INFORMATION : Z := 4096.

(** A process with the bytes of its threads. *)
Abbreviation process := (list (ustr * json) * bytes)%type.

(** * [to_dict] *)

(** The value of a [c_void_p] attribute. *)
Definition void_value (z : Z) : json := if z =? 0 then JNull else JInt z.

(** [s.encode('utf-8', 'ignore').decode('ascii')]: surrogates are ignored, other
    characters that are not ASCII raise. *)
Definition is_surrogate (c : Z) : bool := (55296 <=? c) && (c <=? 57343).
Definition ascii_text (s : ustr) : option ustr :=
  let s := List.filter (fun c => negb (is_surrogate c)) s in
  if forallb (fun c => c <? 128) s then Some s else None.

Section Queries.

(** What lies behind a buffer, and the text at an address. *)
Context (beyond : memory) (wide : Z -> ustr).

(** [None] has no [encode]; every exception gives [None]. *)
Definition unicode_value (address : Z) : json :=
  if address =? 0 then JNull
  else match ascii_text (wide address) with Some s => JStr s | None => JNull end.

(** One round of [to_dict].  A nested structure is in the dictionary until it is
    deleted again, here as [JNull]. *)
Definition add_attribute (m : memory) (t : ctype) (instance : list (ustr * json))
    (f : string * ptype) : res (list (ustr * json)) :=
  let attr path := get_attr m t (f.1 :: path) in
  match f.2 with
  | PInt _ _ => let? z := attr [] in Ok (dict_set (u f.1) (JInt z) instance)
  | PVoid => let? z := attr [] in Ok (dict_set (u f.1) (void_value z) instance)
  | PUnicode => let? a := attr ["Buffer"] in Ok (dict_set (u f.1) (unicode_value a) instance)
  | PClientId =>
      let? p := attr ["UniqueProcess"] in
      let? th := attr ["UniqueThread"] in
      Ok (dict_del (u "ClientId")
            (dict_set (u "UniqueThread") (void_value th)
               (dict_set (u "UniqueProcess") (void_value p) (dict_set (u f.1) JNull instance))))
  | PGeneric =>
      let? r := attr ["GenericRead"] in
      let? w := attr ["GenericWrite"] in
      let? x := attr ["GenericExecute"] in
      let? a := attr ["GenericAll"] in
      Ok (dict_del (u "GenericMapping")
            (dict_update (dict_set (u f.1) JNull instance)
               [(u "GenericRead", JInt r); (u "GenericWrite", JInt w);
                (u "GenericExecute", JInt x); (u "GenericAll", JInt a)]))
  end.

Fixpoint add_attributes (m : memory) (t : ctype) (fields : list (string * ptype))
    (instance : list (ustr * json)) : res (list (ustr * json)) :=
  match fields with
  | [] => Ok instance
  | f :: fields =>
      let? instance := add_attribute m t instance f in add_attributes m t fields instance
  end.

Definition to_dict (fields : list (string * ptype)) (m : memory) : res (list (ustr * json)) :=
  add_attributes m (struct_of fields) fields [].

(** * Threads and processes *)

(** [get_thread_objects(number_of_threads, array_of_sti)]; the list of all that
    it yields, for a consumer that drops them when it raises. *)
Fixpoint threads_from (array_of_sti : bytes) (begin : Z) (cnt : nat) : res (list (list (ustr * json))) :=
  match cnt with
  | O => Ok []
  | S cnt =>
      let? buf := slice_buffer array_of_sti begin (csize STI) in
      let? thd := to_dict SYSTEM_THREAD_INFORMATION (mem_of buf beyond) in
      let? thds := threads_from array_of_sti (begin + csize STI) cnt in
      Ok (thd :: thds)
  end.
Definition get_thread_objects (number_of_threads : Z) (array_of_sti : bytes) :=
  threads_from array_of_sti 0 (Z.to_nat number_of_threads).

(** The loop of [get_process_objects]: what it yields, and the exception that
    ends it.  Every round goes ahead by at least one byte, and where the bytes
    end so do the rounds: a slice from there is too short. *)
Fixpoint processes_from (fuel : nat) (array_of_spi : bytes) (pid : option Z) (begin : Z)
    : list process * option exn :=
  match fuel with
  | O => ([], Some ValueError)
  | S fuel =>
      match
        (let? slc := slice_buffer array_of_spi begin (csize SPI) in
         let m := mem_of slc beyond in
         let? next_entry_offset := get_attr m SPI ["NextEntryOffset"] in
         if next_entry_offset =? 0 then Ok None
         else
           let? proc := to_dict SYSTEM_PROCESS_INFORMATION m in
           let? threads := get_attr m SPI ["NumberOfThreads"] in
           let? unique := get_attr m SPI ["UniqueProcessId"] in
           let end_ := begin + csize SPI in
           let thds := take (Z.to_nat (csize STI * threads)) (drop (Z.to_nat end_) array_of_spi) in
           Ok (Some ((proc, thds), unique, next_entry_offset)))
      with
      | Raise e => ([], Some e)
      | Ok None => ([], None)
      | Ok (Some (y, unique, next_entry_offset)) =>
          if match pid with Some p => negb (p =? 0) && (p =? unique) | None => false end
          then ([y], None)
          else
            let '(ys, e) := processes_from fuel array_of_spi pid (begin + next_entry_offset) in
            (y :: ys, e)
      end
  end.

(** The loop of [get_process_ids]. *)
Fixpoint ids_from (fuel : nat) (array_of_spi : bytes) (begin : Z) : list Z * option exn :=
  match fuel with
  | O => ([], Some ValueError)
  | S fuel =>
      match
        (let? slc := slice_buffer array_of_spi begin (csize SPI) in
         let m := mem_of slc beyond in
         let? unique := get_attr m SPI ["UniqueProcessId"] in
         let? next_entry_offset := get_attr m SPI ["NextEntryOffset"] in
         Ok (unique, next_entry_offset))
      with
      | Raise e => ([], Some e)
      | Ok (pid, next_entry_offset) =>
          if next_entry_offset =? 0 then ([pid], None)
          else
            let '(ys, e) := ids_from fuel array_of_spi (begin + next_entry_offset) in
            (pid :: ys, e)
      end
  end.

(** * Handles *)

(** The loop of [get_system_handle_information]: the entries of the table. *)
Fixpoint handles_from (array_of_shtei : bytes) (pid begin : Z) (cnt : nat)
    : list bytes * option exn :=
  match cnt with
  | O => ([], None)
  | S cnt =>
      match
        (let? slc := slice_buffer array_of_shtei begin (csize SYSTEM_HANDLE_TABLE_ENTRY_INFO) in
         let? unique := get_attr (mem_of slc beyond) SYSTEM_HANDLE_TABLE_ENTRY_INFO ["UniqueProcessId"] in
         Ok (slc, unique))
      with
      | Raise e => ([], Some e)
      | Ok (slc, unique) =>
          if pid =? unique then ([slc], None)
          else
            let '(ys, e) := handles_from array_of_shtei pid
              (begin + csize SYSTEM_HANDLE_TABLE_ENTRY_INFO) cnt in (slc :: ys, e)
      end
  end.

End Queries.

(** * Windows *)

(** The calls, with the state of the system: a query for a class of information
    with a buffer of a size gives a status, what it wrote and the size that is
    needed.  A handle that is 0 is false. *)
Class NtSys (W : Type) := {
  NtQuerySystemInformation : Z -> Z -> W -> (Z * bytes * Z) * W;
  OpenProcess : Z -> Z -> W -> res Z * W;
  DuplicateHandle : Z -> Z -> W -> res Z * W;
  CloseHandle : Z -> W -> W }.

Section System.

Context {W : Type} {Wn : NtSys W} (beyond : memory) (wide : Z -> ustr).

(** The two calls of a query, the first for the size; [None]: it fails. *)
Definition query (class size : Z) : M W (option bytes) := fun w =>
  let '((_, _, return_length), w) := NtQuerySystemInformation class size w in
  let '((res, out, _), w) := NtQuerySystemInformation class return_length w in
  (Ok (if res =? STATUS_SUCCESS then Some (poke (zeros (Z.to_nat return_length)) 0 out) else None), w).

Definition get_process_objects (pid : option Z) : M W (list process * option exn) :=
  do buf <- query SystemProcessInformation (csize SPI);
  match buf with
  | None => ret ([], None)
  | Some buf =>
      let array_of_spi := create_string_buffer buf in
      ret (processes_from beyond wide (S (length array_of_spi)) array_of_spi pid 0)
  end.

Definition get_process_ids : M W (list Z * option exn) :=
  do buf <- query SystemProcessInformation (csize SPI);
  match buf with
  | None => ret ([], None)
  | Some buf =>
      let array_of_spi := create_string_buffer buf in
      ret (ids_from beyond (S (length array_of_spi)) array_of_spi 0)
  end.

(** [not pid or not isinstance(pid, int) or pid % 4 != 0] *)
Definition no_pid (pid : option Z) : bool :=
  match pid with Some p => (p =? 0) || negb (p mod 4 =? 0) | None => true end.

Definition get_system_handle_information (pid : option Z) : M W (list bytes * option exn) :=
  if no_pid pid then ret ([], None)
  else
    do buf <- query SystemHandleInformation (csize SYSTEM_HANDLE_INFORMATION);
    match buf with
    | None => ret ([], None)
    | Some buf =>
        do number <- lift (get_attr (mem_of buf beyond) SYSTEM_HANDLE_INFORMATION ["NumberOfHandles"]);
        do initial_offset <- lift (let? (o, _) := locate SYSTEM_HANDLE_INFORMATION ["Handles"] in Ok o);
        let array_of_shtei := drop (Z.to_nat initial_offset) (create_string_buffer buf) in
        ret (handles_from beyond array_of_shtei (default 0 pid) 0 (Z.to_nat number))
    end.

(** [_get_process_handle(pid)]: the first [OpenProcess] is not guarded. *)
Definition get_process_handle (pid : option Z) : M W (option Z) :=
  if no_pid pid then ret None
  else
    do process_handle <- OpenProcess PROCESS_QUERY_LIMITED_INFORMATION (default 0 pid);
    if process_handle =? 0 then ret None
    else
      do_ modify (CloseHandle process_handle);
      fun w => match OpenProcess PROCESS_DUP_HANDLE (default 0 pid) w with
               | (Ok h, w) => (Ok (Some h), w)
               | (Raise OSError, w) => (Ok None, w)
               | (Raise e, w) => (Raise e, w)
               end.

(** The loop of [get_handle_information]: an error of [pywintypes] skips the
    entry. *)
Fixpoint duplicate_all (process_handle : Z) (entries : list bytes) : M W (list Z) :=
  match entries with
  | [] => ret []
  | slc :: entries =>
      do value <- lift (get_attr (mem_of slc beyond) SYSTEM_HANDLE_TABLE_ENTRY_INFO ["HandleValue"]);
      do duped <- (fun w => match DuplicateHandle process_handle value w with
                            | (Ok h, w) => (Ok [h], w)
                            | (Raise OSError, w) => (Ok [], w)
                            | (Raise e, w) => (Raise e, w)
                            end);
      do rest <- duplicate_all process_handle entries;
      ret (duped ++ rest)
  end.

(** [get_handle_information(pid)], for a consumer that takes everything. *)
Definition get_handle_information (pid : option Z) : M W (list Z) :=
  do process_handle <- get_process_handle pid;
  match process_handle with
  | None | Some 0 => ret []
  | Some h => fun w =>
      let '(r, w) :=
        (do y <- get_system_handle_information pid;
         let '(entries, ended) := y in
         do handles <- duplicate_all h entries;
         match ended with None => ret handles | Some e => throw e end) w in
      (r, CloseHandle h w)
  end.

End System.

(** * Lemmas *)

(** ** Attributes *)

(** The attribute exists and is a number. *)
Definition attr_b (t : ctype) (path : list string) : bool :=
  match locate t path with Ok (_, CInt _ _) => true | _ => false end.

Definition present_b (t : ctype) (f : string * ptype) : bool :=
  match f.2 with
  | PInt _ _ | PVoid => attr_b t [f.1]
  | PUnicode => attr_b t [f.1; "Buffer"]
  | PClientId => attr_b t [f.1; "UniqueProcess"] && attr_b t [f.1; "UniqueThread"]
  | PGeneric => attr_b t [f.1; "GenericRead"] && attr_b t [f.1; "GenericWrite"] &&
                attr_b t [f.1; "GenericExecute"] && attr_b t [f.1; "GenericAll"]
  end.

Lemma get_attr_b m t path : attr_b t path = true -> exists z, get_attr m t path = Ok z.
Proof.
  unfold attr_b, get_attr. destruct (locate t path) as [[o [s n| | |]]|]; try done. intros _.
  cbn [res_bind]. by eexists.
Qed.

Lemma read_int_nonneg m o n : 0 <= read_int m o false n.
Proof.
  unfold read_int, le_val. generalize (reverse (load m o n)). intros l. unfold be_val.
  assert (forall a, 0 <= a -> 0 <= fold_left (fun a b => a * 256 + byte_val b) l a) as H;
    [|by apply H].
  induction l as [|b l IH]; intros a Ha; [done|]. cbn [fold_left]. apply IH.
  pose proof (byte_val_range b). lia.
Qed.

Lemma get_attr_unsigned m t path o n z :
  locate t path = Ok (o, CInt false n) -> get_attr m t path = Ok z -> 0 <= z.
Proof. unfold get_attr. intros ->. cbn [res_bind]. intros [= <-]. apply read_int_nonneg. Qed.

Lemma doc_ok_del k d : doc_ok d -> doc_ok (dict_del k d).
Proof.
  intros [Hn Hf]. induction d as [|[k' v] d IH]; [done|]. cbn [dict_del].
  apply NoDup_cons in Hn as [Hin Hn]. apply Forall_cons in Hf as [Hkv Hf].
  destruct (IH Hn Hf) as [Hn' Hf']. case_decide; [done|]. split; [|by constructor].
  apply NoDup_cons. split; [|done]. contradict Hin. apply dict_keys_get in Hin as [v' Hv'].
  apply dict_keys_get. rewrite dict_get_del in Hv'. case_decide; [done|]. by eexists.
Qed.

Lemma void_value_wf z : jwf (void_value z).
Proof. unfold void_value. by destruct (z =? 0). Qed.

(** ** [to_dict] *)

Section Wide.

Context (beyond : memory) (wide : Z -> ustr).
(** The text at an address consists of code points. *)
Definition code_points : Prop := forall a, Forall (fun c => 0 <= c) (wide a).
Context (Hwide : code_points).

Lemma unicode_value_wf a : jwf (unicode_value wide a).
Proof.
  unfold unicode_value, ascii_text. destruct (a =? 0); [done|].
  destruct (forallb _ _) eqn:E; [|done]. cbn [jwf].
  rewrite forallb_forall in E. apply Forall_forall. intros c Hc.
  apply list_elem_of_In in Hc. pose proof (E c Hc) as Hlt. apply filter_In in Hc as [Hc _].
  pose proof (Hwide a) as Hp. rewrite Forall_forall in Hp.
  apply list_elem_of_In in Hc. specialize (Hp c Hc). cbv beta in Hp. unfold scalar. lia.
Qed.

Lemma add_attribute_ok m t d f : present_b t f = true -> doc_ok d ->
  exists d', add_attribute wide m t d f = Ok d' /\ doc_ok d'.
Proof.
  intros Hp Hd. unfold present_b in Hp. unfold add_attribute. destruct f.2.
  - destruct (get_attr_b m t _ Hp) as [z ->]. cbn [res_bind]. eexists. split; [done|].
    apply doc_ok_set; [apply scalar_u|done|done].
  - destruct (get_attr_b m t _ Hp) as [z ->]. cbn [res_bind]. eexists. split; [done|].
    apply doc_ok_set; [apply scalar_u|apply void_value_wf|done].
  - destruct (get_attr_b m t _ Hp) as [z ->]. cbn [res_bind]. eexists. split; [done|].
    apply doc_ok_set; [apply scalar_u|apply unicode_value_wf|done].
  - apply andb_prop in Hp as [H1 H2].
    destruct (get_attr_b m t _ H1) as [p ->], (get_attr_b m t _ H2) as [th ->]. cbn [res_bind].
    eexists. split; [done|]. apply doc_ok_del.
    repeat (apply doc_ok_set; [apply scalar_u|first [apply void_value_wf|done]|]). done.
  - apply andb_prop in Hp as [Hp H4]. apply andb_prop in Hp as [Hp H3].
    apply andb_prop in Hp as [H1 H2].
    destruct (get_attr_b m t _ H1) as [z1 ->], (get_attr_b m t _ H2) as [z2 ->],
      (get_attr_b m t _ H3) as [z3 ->], (get_attr_b m t _ H4) as [z4 ->]. cbn [res_bind].
    eexists. split; [done|]. apply doc_ok_del.
    repeat (apply doc_ok_set; [apply scalar_u|done|]). done.
Qed.

Lemma add_attributes_ok m t fields : forall d,
  forallb (present_b t) fields = true -> doc_ok d ->
  exists d', add_attributes wide m t fields d = Ok d' /\ doc_ok d'.
Proof.
  induction fields as [|f fields IH]; intros d Hp Hd; [by eexists|].
  cbn [forallb] in Hp. apply andb_prop in Hp as [Hf Hp]. cbn [add_attributes].
  destruct (add_attribute_ok m t d f Hf Hd) as (d1 & -> & H1). cbn [res_bind]. by apply IH.
Qed.

(** The items an attribute writes. *)
Definition touches (f : string * ptype) : list string :=
  f.1 :: match f.2 with
         | PClientId => ["ClientId"; "UniqueProcess"; "UniqueThread"]
         | PGeneric => ["GenericMapping"; "GenericRead"; "GenericWrite"; "GenericExecute"; "GenericAll"]
         | _ => []
         end.

Lemma u_ne (a b : string) : a <> b -> u a <> u b.
Proof. intros H E. by apply (inj u) in E. Qed.

Lemma add_attribute_other m t d f d' k : k ∉ touches f ->
  add_attribute wide m t d f = Ok d' -> dict_get (u k) d' = dict_get (u k) d.
Proof.
  unfold touches, add_attribute. intros Hk. apply not_elem_of_cons in Hk as [Hk Hr]. apply u_ne in Hk.
  destruct f.2.
  - intros Ha. apply res_bind_Ok in Ha as (z & _ & [= <-]). by rewrite dict_get_set_ne.
  - intros Ha. apply res_bind_Ok in Ha as (z & _ & [= <-]). by rewrite dict_get_set_ne.
  - intros Ha. apply res_bind_Ok in Ha as (z & _ & [= <-]). by rewrite dict_get_set_ne.
  - repeat (apply not_elem_of_cons in Hr as [?%u_ne Hr]).
    intros Ha. apply res_bind_Ok in Ha as (z & _ & Ha). apply res_bind_Ok in Ha as (z' & _ & [= <-]).
    by rewrite dict_get_del_ne, !dict_get_set_ne.
  - repeat (apply not_elem_of_cons in Hr as [?%u_ne Hr]).
    intros Ha. do 3 (apply res_bind_Ok in Ha as (? & _ & Ha)).
    apply res_bind_Ok in Ha as (? & _ & [= <-]).
    cbn [dict_update fold_left fst snd]. by rewrite dict_get_del_ne, !dict_get_set_ne.
Qed.

Lemma add_attributes_other m t fields k : forall d d',
  Forall (fun f => k ∉ touches f) fields -> add_attributes wide m t fields d = Ok d' ->
  dict_get (u k) d' = dict_get (u k) d.
Proof.
  induction fields as [|f fields IH]; intros d d' Hk Ha; [by injection Ha as <-|].
  apply Forall_cons in Hk as [Hf Hk]. cbn [add_attributes] in Ha.
  apply res_bind_Ok in Ha as (d1 & H1 & Ha). rewrite (IH _ _ Hk Ha).
  by eapply add_attribute_other.
Qed.

(** What [to_dict] holds under a key that a field writes and no later one
    touches. *)
Lemma to_dict_written m fields i f k v d :
  fields !! i = Some f -> forallb (fun g => negb (bool_decide (k ∈ touches g))) (drop (S i) fields) = true ->
  (forall d d', add_attribute wide m (struct_of fields) d f = Ok d' -> dict_get (u k) d' = Some v) ->
  to_dict wide fields m = Ok d -> dict_get (u k) d = Some v.
Proof.
  unfold to_dict. generalize (struct_of fields) as t. generalize ([] : list (ustr * json)) as d0.
  revert i. induction fields as [|g fields IH]; intros i d0 t Hi Hk Hw Ha; [done|].
  cbn [add_attributes] in Ha. apply res_bind_Ok in Ha as (d1 & H1 & Ha). destruct i as [|i].
  - injection Hi as ->. cbn [drop] in Hk. rewrite <-(Hw _ _ H1). eapply add_attributes_other; [|exact Ha].
    apply Forall_forall. intros h Hh. rewrite forallb_forall in Hk. apply list_elem_of_In in Hh.
    specialize (Hk h Hh). by apply negb_true_iff, bool_decide_eq_false in Hk.
  - eapply IH; [exact Hi|exact Hk|exact Hw|exact Ha].
Qed.

(** The value of an attribute that is not nested. *)
Definition attribute_value (m : memory) (t : ctype) (f : string * ptype) : res json :=
  match f.2 with
  | PInt _ _ => res_map JInt (get_attr m t [f.1])
  | PVoid => res_map void_value (get_attr m t [f.1])
  | PUnicode => res_map (unicode_value wide) (get_attr m t [f.1; "Buffer"])
  | _ => Raise TypeError
  end.

Lemma to_dict_get m fields i f d v :
  fields !! i = Some f -> forallb (fun g => negb (bool_decide (f.1 ∈ touches g))) (drop (S i) fields) = true ->
  to_dict wide fields m = Ok d -> attribute_value m (struct_of fields) f = Ok v ->
  dict_get (u f.1) d = Some v.
Proof.
  intros Hi Hk Ha Hv. eapply to_dict_written; [exact Hi|exact Hk| |exact Ha]. clear d Ha.
  intros d d' Ha. unfold add_attribute in Ha. unfold attribute_value in Hv. destruct f.2; try done;
    apply res_bind_Ok in Ha as (z & Hz & [= <-]); rewrite Hz in Hv; injection Hv as <-;
    apply dict_get_set_eq.
Qed.

End Wide.

(** ** The chain of processes *)

(** A record of the chain: the process, its threads, and the text of its name
    with the room up to the next record. *)
Record entry := Entry { en_info : bytes; en_threads : list bytes; en_rest : bytes }.

Definition entry_bytes (e : entry) : bytes := en_info e ++ concat (en_threads e) ++ en_rest e.
Definition system_bytes (l : list entry) : bytes := concat (map entry_bytes l).

(** The list up to the first element that satisfies [f], with it. *)
Fixpoint upto {A} (f : A -> bool) (l : list A) : list A :=
  match l with [] => [] | a :: l => a :: if f a then [] else upto f l end.

Lemma upto_app {A} (f : A -> bool) pre x post :
  Forall (fun a => f a = false) pre -> f x = true -> upto f (pre ++ x :: post) = pre ++ [x].
Proof.
  intros Hpre Hx. induction Hpre as [|a pre Ha _ IH]; cbn [app upto]; [by rewrite Hx|].
  by rewrite Ha, IH.
Qed.

Lemma upto_none {A} (f : A -> bool) l : Forall (fun a => f a = false) l -> upto f l = l.
Proof. induction 1 as [|a l Ha _ IH]; [done|]. cbn [upto]. by rewrite Ha, IH. Qed.

Lemma slice_at a b c begin size : begin = Z.of_nat (length a) -> size = Z.of_nat (length b) ->
  slice_buffer (a ++ b ++ c) begin size = Ok b.
Proof.
  intros -> ->. unfold slice_buffer. rewrite (proj2 (Z.ltb_ge _ _)) by lia. rewrite !Nat2Z.id.
  rewrite drop_app_length, take_app_length. by rewrite Z.ltb_irrefl.
Qed.

Lemma slice_behind sb begin size : 0 < size -> Z.of_nat (length sb) <= begin ->
  slice_buffer sb begin size = Raise ValueError.
Proof.
  intros Hs Hb. unfold slice_buffer. rewrite (proj2 (Z.ltb_ge _ _)) by lia.
  rewrite drop_ge by lia. rewrite take_nil. cbn [length]. by rewrite (proj2 (Z.ltb_lt _ _)) by lia.
Qed.

Lemma SPI_size : csize SPI = 256.
Proof. by vm_compute. Qed.
Lemma STI_size : csize STI = 80.
Proof. by vm_compute. Qed.

Lemma concat_length_80 (l : list bytes) : Forall (fun t => Z.of_nat (length t) = 80) l ->
  Z.of_nat (length (concat l)) = 80 * Z.of_nat (length l).
Proof.
  induction 1 as [|t l Ht _ IH]; [done|]. cbn [concat length]. rewrite length_app. lia.
Qed.

Section Chain.

Context (beyond : memory) (wide : Z -> ustr) (Hwide : code_points wide).

Definition process_attr (e : entry) (name : string) : res Z :=
  get_attr (mem_of (en_info e) beyond) SPI [name].

(** What [to_dict] gives of a process and of a thread. *)
Definition process_dict (e : entry) : list (ustr * json) :=
  match to_dict wide SYSTEM_PROCESS_INFORMATION (mem_of (en_info e) beyond) with
  | Ok d => d | Raise _ => []
  end.
Definition thread_of (t : bytes) : list (ustr * json) :=
  match to_dict wide SYSTEM_THREAD_INFORMATION (mem_of t beyond) with
  | Ok d => d | Raise _ => []
  end.
Definition pid_of (e : entry) : Z :=
  match process_attr e "UniqueProcessId" with Ok z => z | Raise _ => 0 end.

(** A record with the offset [next]; the offset of the last record is 0. *)
Definition entry_ok (e : entry) (next : Z) : Prop :=
  Z.of_nat (length (en_info e)) = 256 /\ Forall (fun t => Z.of_nat (length t) = 80) (en_threads e) /\
  process_attr e "NextEntryOffset" = Ok next /\
  process_attr e "NumberOfThreads" = Ok (Z.of_nat (length (en_threads e))).

Fixpoint chain (l : list entry) : Prop :=
  match l with
  | [] => False
  | [e] => entry_ok e 0
  | e :: l => entry_ok e (Z.of_nat (length (entry_bytes e))) /\ chain l
  end.

Lemma process_dict_ok e : doc_ok (process_dict e) /\
  to_dict wide SYSTEM_PROCESS_INFORMATION (mem_of (en_info e) beyond) = Ok (process_dict e).
Proof using Hwide.
  unfold process_dict, to_dict.
  destruct (add_attributes_ok wide Hwide (mem_of (en_info e) beyond) SPI SYSTEM_PROCESS_INFORMATION [])
    as (d & H & Hd); [by vm_compute|split; constructor|]. unfold SPI in H. by rewrite H.
Qed.

Lemma thread_of_ok t : doc_ok (thread_of t) /\
  to_dict wide SYSTEM_THREAD_INFORMATION (mem_of t beyond) = Ok (thread_of t).
Proof using Hwide.
  unfold thread_of, to_dict.
  destruct (add_attributes_ok wide Hwide (mem_of t beyond) STI SYSTEM_THREAD_INFORMATION [])
    as (d & H & Hd); [by vm_compute|split; constructor|]. unfold STI in H. by rewrite H.
Qed.

Lemma pid_of_attr e : process_attr e "UniqueProcessId" = Ok (pid_of e) /\ 0 <= pid_of e.
Proof.
  unfold pid_of. destruct (get_attr_b (mem_of (en_info e) beyond) SPI ["UniqueProcessId"]) as [z Hz];
    [by vm_compute|]. unfold process_attr. rewrite Hz. split; [done|].
  eapply (get_attr_unsigned _ SPI ["UniqueProcessId"] 80 8); [by vm_compute|exact Hz].
Qed.

(** What is yielded of a record. *)
Definition process_of (e : entry) : process := (process_dict e, concat (en_threads e)).

Definition is_pid (pid : option Z) (e : entry) : bool :=
  match pid with Some p => negb (p =? 0) && (p =? pid_of e) | None => false end.

Lemma entry_bytes_length e next : entry_ok e next -> 256 <= Z.of_nat (length (entry_bytes e)).
Proof. intros (H & _). unfold entry_bytes. rewrite !length_app. lia. Qed.

Lemma chain_cons e l : chain (e :: l) -> exists next, entry_ok e next /\
  (l = [] /\ next = 0 \/ l <> [] /\ next = Z.of_nat (length (entry_bytes e)) /\ chain l).
Proof.
  destruct l as [|e' l]; [intros He; exists 0; auto|]. intros [He Hl].
  eexists. split; [exact He|]. right. done.
Qed.

Lemma system_bytes_cons e l post :
  system_bytes (e :: l) ++ post =
  en_info e ++ concat (en_threads e) ++ en_rest e ++ system_bytes l ++ post.
Proof. unfold system_bytes, entry_bytes. cbn [map concat]. by rewrite <-!app_assoc. Qed.

Lemma record_behind e l pre post :
  pre ++ en_info e ++ concat (en_threads e) ++ en_rest e ++ system_bytes l ++ post =
  (pre ++ entry_bytes e) ++ system_bytes l ++ post.
Proof. unfold entry_bytes. by rewrite <-!app_assoc. Qed.

Lemma processes_from_chain pid l : forall fuel pre post,
  (length l <= fuel)%nat -> chain l ->
  processes_from beyond wide fuel (pre ++ system_bytes l ++ post) pid (Z.of_nat (length pre)) =
  (map process_of (upto (is_pid pid) (removelast l)), None).
Proof using Hwide.
  induction l as [|e l IH]; intros fuel pre post Hf Hl; [done|].
  destruct fuel as [|fuel]; [cbn in Hf; lia|].
  apply chain_cons in Hl as (next & He & Hl'). pose proof (entry_bytes_length e next He) as Hlen.
  destruct He as (Hi & Ht & Hn & Hth).
  cbn [processes_from]. rewrite system_bytes_cons, slice_at by (rewrite ?SPI_size; done). cbn [res_bind].
  unfold process_attr in Hn, Hth. rewrite Hn. cbn [res_bind].
  destruct Hl' as [[-> ->]|(Hne & -> & Hl)]; [done|].
  rewrite (proj2 (Z.eqb_neq _ _)) by lia.
  rewrite (proj2 (process_dict_ok e)). cbn [res_bind]. rewrite Hth. cbn [res_bind].
  pose proof (proj1 (pid_of_attr e)) as Hp. unfold process_attr in Hp. rewrite Hp. cbn [res_bind].
  rewrite SPI_size, STI_size.
  assert (take (Z.to_nat (80 * Z.of_nat (length (en_threads e))))
            (drop (Z.to_nat (Z.of_nat (length pre) + 256))
               (pre ++ en_info e ++ concat (en_threads e) ++ en_rest e ++ system_bytes l ++ post))
          = concat (en_threads e)) as ->.
  { rewrite app_assoc, drop_app_length' by (rewrite length_app; lia).
    apply take_app_length'. pose proof (concat_length_80 _ Ht). lia. }
  assert (removelast (e :: l) = e :: removelast l) as -> by (by destruct l).
  cbn [upto map]. fold (process_of e). fold (is_pid pid e). destruct (is_pid pid e); [done|].
  specialize (IH fuel (pre ++ entry_bytes e) post). rewrite length_app, Nat2Z.inj_add in IH.
  rewrite record_behind, IH by (cbn in Hf; (done || lia)). done.
Qed.

Lemma ids_from_chain l : forall fuel pre post,
  (length l <= fuel)%nat -> chain l ->
  ids_from beyond fuel (pre ++ system_bytes l ++ post) (Z.of_nat (length pre)) = (map pid_of l, None).
Proof.
  induction l as [|e l IH]; intros fuel pre post Hf Hl; [done|].
  destruct fuel as [|fuel]; [cbn in Hf; lia|].
  apply chain_cons in Hl as (next & He & Hl'). pose proof (entry_bytes_length e next He) as Hlen.
  destruct He as (Hi & Ht & Hn & Hth).
  cbn [ids_from]. rewrite system_bytes_cons, slice_at by (rewrite ?SPI_size; done). cbn [res_bind].
  pose proof (proj1 (pid_of_attr e)) as Hp. unfold process_attr in Hn, Hp. rewrite Hp, Hn. cbn [res_bind].
  destruct Hl' as [[-> ->]|(Hne & -> & Hl)]; [done|].
  rewrite (proj2 (Z.eqb_neq _ _)) by lia.
  specialize (IH fuel (pre ++ entry_bytes e) post). rewrite length_app, Nat2Z.inj_add in IH.
  rewrite record_behind, IH by (cbn in Hf; (done || lia)). done.
Qed.

End Chain.

(** ** The rounds of the loops *)

(** What one step of [processes_from] leads to: an exception, the end, or a
    process with the place of the next one. *)
Lemma next_behind m z : get_attr m SPI ["NextEntryOffset"] = Ok z -> 0 <= z.
Proof. eapply (get_attr_unsigned _ SPI ["NextEntryOffset"] 0 4). by vm_compute. Qed.

Lemma processes_from_fuel beyond wide array pid : forall n m begin,
  0 <= begin -> Z.of_nat (length array) < begin + Z.of_nat n ->
  Z.of_nat (length array) < begin + Z.of_nat m ->
  processes_from beyond wide n array pid begin = processes_from beyond wide m array pid begin.
Proof.
  induction n as [|n IH]; intros m begin H0 Hn Hm.
  - destruct m as [|m]; [done|]. cbn [processes_from].
    by rewrite slice_behind by (rewrite ?SPI_size; lia).
  - destruct m as [|m].
    { cbn [processes_from]. by rewrite slice_behind by (rewrite ?SPI_size; lia). }
    cbn [processes_from]. destruct (slice_buffer array begin (csize SPI)) as [slc|]; [|done]. cbn [res_bind].
    destruct (get_attr (mem_of slc beyond) SPI ["NextEntryOffset"]) as [next|] eqn:Hnext; [|done].
    cbn [res_bind]. apply next_behind in Hnext. destruct (Z.eqb_spec next 0); [done|].
    destruct (to_dict wide SYSTEM_PROCESS_INFORMATION (mem_of slc beyond)) as [proc|]; [|done]. cbn [res_bind].
    destruct (get_attr (mem_of slc beyond) SPI ["NumberOfThreads"]) as [threads|]; [|done]. cbn [res_bind].
    destruct (get_attr (mem_of slc beyond) SPI ["UniqueProcessId"]) as [unique|]; [|done]. cbn [res_bind].
    case_match; [done|]. rewrite (IH m) by lia. done.
Qed.

(** ** The table of handles *)

Definition handle_attr (beyond : memory) (h : bytes) (name : string) : res Z :=
  get_attr (mem_of h beyond) SYSTEM_HANDLE_TABLE_ENTRY_INFO [name].
Definition handle_pid (beyond : memory) (h : bytes) : Z :=
  match handle_attr beyond h "UniqueProcessId" with Ok z => z | Raise _ => 0 end.

Lemma handle_attr_b beyond h name :
  attr_b SYSTEM_HANDLE_TABLE_ENTRY_INFO [name] = true -> exists z, handle_attr beyond h name = Ok z.
Proof. apply get_attr_b. Qed.

Lemma SHTEI_size : csize SYSTEM_HANDLE_TABLE_ENTRY_INFO = 24.
Proof. by vm_compute. Qed.

Lemma handles_from_table beyond pid l : forall pre post,
  Forall (fun h => Z.of_nat (length h) = 24) l ->
  handles_from beyond (pre ++ concat l ++ post) pid (Z.of_nat (length pre)) (length l) =
  (upto (fun h => pid =? handle_pid beyond h) l, None).
Proof.
  induction l as [|h l IH]; intros pre post Hl; [done|]. apply Forall_cons in Hl as [Hh Hl].
  cbn [concat length handles_from]. rewrite <-app_assoc, slice_at by (rewrite ?SHTEI_size; done).
  cbn [res_bind].
  destruct (get_attr_b (mem_of h beyond) SYSTEM_HANDLE_TABLE_ENTRY_INFO ["UniqueProcessId"]) as [z Hz];
    [by vm_compute|]. cbn [upto]. unfold handle_pid at 1, handle_attr. rewrite Hz. cbn [res_bind].
  destruct (pid =? z); [done|].
  specialize (IH (pre ++ h) post Hl). rewrite length_app, Nat2Z.inj_add, <-app_assoc, Hh in IH.
  by rewrite SHTEI_size, IH.
Qed.

(** ** Threads *)

Lemma threads_from_concat beyond wide (Hwide : code_points wide) l : forall pre post,
  Forall (fun t => Z.of_nat (length t) = 80) l ->
  threads_from beyond wide (pre ++ concat l ++ post) (Z.of_nat (length pre)) (length l) =
  Ok (map (thread_of beyond wide) l).
Proof.
  induction l as [|t l IH]; intros pre post Hl; [done|]. apply Forall_cons in Hl as [Ht Hl].
  cbn [concat length threads_from]. rewrite <-app_assoc, slice_at by (rewrite ?STI_size; done).
  cbn [res_bind]. rewrite (proj2 (thread_of_ok beyond wide Hwide t)). cbn [res_bind].
  specialize (IH (pre ++ t) post Hl). rewrite length_app, Nat2Z.inj_add, <-app_assoc, Ht in IH.
  by rewrite STI_size, IH.
Qed.

(** ** Queries *)

(** Windows answers a query with the bytes [b], after a first call that tells
    their number. *)
Definition answers {W} `{NtSys W} (class size : Z) (b : bytes) (w w' : W) : Prop :=
  exists w1 status out more,
    NtQuerySystemInformation class size w = ((status, out, Z.of_nat (length b)), w1) /\
    NtQuerySystemInformation class (Z.of_nat (length b)) w1 = ((STATUS_SUCCESS, b, more), w').

Lemma poke_all b : poke (zeros (length b)) 0 b = b.
Proof.
  unfold poke. rewrite length_zeros. apply load_store_same.
Qed.

Lemma query_answers {W} `{NtSys W} class size b w w' :
  answers class size b w w' -> query class size w = (Ok (Some b), w').
Proof.
  intros (w1 & status & out & more & H1 & H2). unfold query. rewrite H1, H2, Z.eqb_refl, Nat2Z.id.
  by rewrite poke_all.
Qed.

(** The classes of information are numbered without gaps, and no name occurs
    twice. *)
Lemma classes_consecutive :
  map snd SYSTEM_INFORMATION_CLASS = seqZ 0 150 /\ NoDup (map fst SYSTEM_INFORMATION_CLASS).
Proof. split; [by vm_compute|]. apply (bool_decide_unpack _). by vm_compute. Qed.

(** The bytes of the whole system. *)
Lemma length_system l beyond : chain beyond l -> (length l <= length (system_bytes l))%nat.
Proof.
  induction l as [|e l IH]; [done|]. intros Hl. apply chain_cons in Hl as (next & He & Hl).
  pose proof (entry_bytes_length beyond e next He). unfold system_bytes in *. cbn [map concat length].
  rewrite length_app. destruct Hl as [[-> _]|(_ & _ & Hl)]; [cbn [length]; lia|]. specialize (IH Hl). lia.
Qed.

(** ** Structures as Windows lays them out *)

(** The numbers of a structure, with their types. *)
Definition leaves (fields : list (string * ptype)) : list (list string * (bool * nat)) :=
  flat_map (fun f =>
    match f.2 with
    | PInt signed n => [([f.1], (signed, n))]
    | PVoid => [([f.1], (false, 8%nat))]
    | PUnicode => [([f.1; "Length"], (false, 2%nat)); ([f.1; "MaximumLength"], (false, 2%nat));
                   ([f.1; "Buffer"], (false, 8%nat))]
    | PClientId => [([f.1; "UniqueProcess"], (false, 8%nat)); ([f.1; "UniqueThread"], (false, 8%nat))]
    | PGeneric => map (fun n => ([f.1; n], (false, 4%nat)))
                    ["GenericRead"; "GenericWrite"; "GenericExecute"; "GenericAll"]
    end) fields.

(** The structure with the number [val path] at each path. *)
Definition image_vals (fields : list (string * ptype)) (val : list string -> Z) :
    list (list string * bytes) :=
  map (fun leaf => (leaf.1, le_enc leaf.2.2 (val leaf.1))) (leaves fields).
Definition image (fields : list (string * ptype)) (val : list string -> Z) (tail : bytes) : bytes :=
  image_packet (struct_of fields) (image_vals fields val) (Z.to_nat (csize (struct_of fields))) tail.

Definition vals_ok (fields : list (string * ptype)) (val : list string -> Z) : Prop :=
  Forall (fun leaf => in_range leaf.2.1 leaf.2.2 (val leaf.1)) (leaves fields).

(** The items that stay of a field, and that no later field touches them. *)
Definition items_of (f : string * ptype) : list string :=
  match f.2 with
  | PClientId => ["UniqueProcess"; "UniqueThread"]
  | PGeneric => ["GenericRead"; "GenericWrite"; "GenericExecute"; "GenericAll"]
  | _ => [f.1]
  end.
Fixpoint undisturbed_b (fields : list (string * ptype)) : bool :=
  match fields with
  | [] => true
  | f :: fields =>
      forallb (fun k => forallb (fun g => negb (bool_decide (k ∈ touches g))) fields) (items_of f)
      && undisturbed_b fields
  end.

(** Every number is where the others are not. *)
Definition leaf_b (t : ctype) (leaf : list string * (bool * nat)) : bool :=
  match locate t leaf.1 with
  | Ok (o, CInt signed n) =>
      Bool.eqb signed leaf.2.1 && (n =? leaf.2.2)%nat && (0 <? n)%nat && (0 <=? o) &&
      (o + Z.of_nat n <=? csize t)
  | _ => false
  end.
Definition layout_b (fields : list (string * ptype)) : bool :=
  let t := struct_of fields in
  all_apart (slots_of t (map (fun leaf => (leaf.1, leaf.2.2)) (leaves fields))) &&
  forallb (leaf_b t) (leaves fields) && forallb (present_b t) fields && undisturbed_b fields.

Lemma image_shape fields val :
  shape (image_vals fields val) = map (fun leaf => (leaf.1, leaf.2.2)) (leaves fields).
Proof.
  unfold shape, image_vals. rewrite map_map. apply map_ext. intros leaf. cbn [fst snd].
  by rewrite length_le_enc.
Qed.

Lemma image_leaf fields val tail beyond path signed n :
  layout_b fields = true -> vals_ok fields val -> (path, (signed, n)) ∈ leaves fields ->
  get_attr (mem_of (image fields val tail) beyond) (struct_of fields) path = Ok (val path).
Proof.
  unfold layout_b. intros Hb Hv Hin. apply andb_prop in Hb as [Hb _]. apply andb_prop in Hb as [Hb _].
  apply andb_prop in Hb as [Ha Hl]. rewrite forallb_forall in Hl.
  pose proof Hin as Hin'. apply list_elem_of_In in Hin'. specialize (Hl _ Hin').
  unfold leaf_b in Hl. cbn [fst snd] in Hl.
  destruct (locate (struct_of fields) path) as [[o [s k| | |]]|] eqn:E; try done.
  apply andb_prop in Hl as [Hl Hsize]. apply andb_prop in Hl as [Hl Ho].
  apply andb_prop in Hl as [Hl Hk0]. apply andb_prop in Hl as [Hs Hk].
  apply Bool.eqb_prop in Hs as ->. apply Nat.eqb_eq in Hk as ->. apply Nat.ltb_lt in Hk0.
  unfold vals_ok in Hv. rewrite Forall_forall in Hv. specialize (Hv _ Hin). cbn [fst snd] in Hv.
  unfold get_attr. rewrite E. cbn [res_bind]. f_equal. unfold read_int, image.
  rewrite image_packet_load by lia.
  assert (load (c_image (struct_of fields) (image_vals fields val)) o n = le_enc n (val path)) as ->;
    [|by apply int_of_enc].
  pose proof (c_image_load (struct_of fields) (image_vals fields val)) as Hload.
  rewrite slots_shape, image_shape in Hload.
  specialize (Hload Ha path (le_enc n (val path)) o (CInt signed n)).
  rewrite length_le_enc in Hload. apply Hload; [|exact E].
  apply list_elem_of_fmap. by exists (path, (signed, n)).
Qed.

Definition reads_item (wide : Z -> ustr) (val : list string -> Z) (d : list (ustr * json))
    (f : string * ptype) : Prop :=
  let item k v := dict_get (u k) d = Some v in
  match f.2 with
  | PInt _ _ => item f.1 (JInt (val [f.1]))
  | PVoid => item f.1 (void_value (val [f.1]))
  | PUnicode => item f.1 (unicode_value wide (val [f.1; "Buffer"]))
  | PClientId => item "UniqueProcess" (void_value (val [f.1; "UniqueProcess"])) /\
                 item "UniqueThread" (void_value (val [f.1; "UniqueThread"]))
  | PGeneric => Forall (fun k => item k (JInt (val [f.1; k])))
                  ["GenericRead"; "GenericWrite"; "GenericExecute"; "GenericAll"]
  end.

Lemma undisturbed_later fields i f k :
  undisturbed_b fields = true -> fields !! i = Some f -> k ∈ items_of f ->
  forallb (fun g => negb (bool_decide (k ∈ touches g))) (drop (S i) fields) = true.
Proof.
  revert i. induction fields as [|g fields IH]; intros i Hb Hi Hk; [done|].
  cbn [undisturbed_b] in Hb. apply andb_prop in Hb as [Hg Hb]. destruct i as [|i].
  - injection Hi as ->. rewrite forallb_forall in Hg. apply Hg. by apply list_elem_of_In.
  - by apply (IH i).
Qed.

Lemma leaf_in fields i f leaf :
  fields !! i = Some f -> leaf ∈ leaves [f] -> leaf ∈ leaves fields.
Proof.
  intros Hi Hl. unfold leaves in *. apply list_elem_of_In, in_flat_map. exists f. split.
  - apply list_elem_of_In. by eapply list_elem_of_lookup_2.
  - apply list_elem_of_In in Hl. apply in_flat_map in Hl as (g & [->|[]] & Hg). exact Hg.
Qed.


Lemma image_items fields val tail beyond wide i f d :
  layout_b fields = true -> vals_ok fields val -> fields !! i = Some f ->
  to_dict wide fields (mem_of (image fields val tail) beyond) = Ok d ->
  reads_item wide val d f.
Proof.
  intros Hb Hv Hi Hd.
  assert (undisturbed_b fields = true) as Hu by (unfold layout_b in Hb; by apply andb_prop in Hb as [_ ?]).
  assert (forall k v, k ∈ items_of f ->
    (forall d d', add_attribute wide (mem_of (image fields val tail) beyond) (struct_of fields) d f = Ok d' ->
      dict_get (u k) d' = Some v) -> dict_get (u k) d = Some v) as Hitem.
  { intros k v Hk Hw. eapply to_dict_written; [exact Hi| |exact Hw|exact Hd].
    by eapply undisturbed_later. }
  assert (forall path ty, (path, ty) ∈ leaves [f] ->
    get_attr (mem_of (image fields val tail) beyond) (struct_of fields) path = Ok (val path)) as Hleaf.
  { intros path [s n] Hp. eapply image_leaf; [exact Hb|exact Hv|]. by eapply leaf_in. }
  unfold reads_item. destruct f as [name ty]. cbn [fst snd] in *. unfold items_of in Hitem.
  unfold add_attribute in Hitem. destruct ty; cbn [fst snd] in Hitem.
  - apply Hitem; [by left|]. erewrite Hleaf by (by left). intros d0 d' [= <-]. apply dict_get_set_eq.
  - apply Hitem; [by left|]. erewrite Hleaf by (by left). intros d0 d' [= <-]. apply dict_get_set_eq.
  - apply Hitem; [by left|]. erewrite Hleaf by (by right; right; left).
    intros d0 d' [= <-]. apply dict_get_set_eq.
  - rewrite (Hleaf [name; "UniqueProcess"] (false, 8%nat)) in Hitem by (by left).
    rewrite (Hleaf [name; "UniqueThread"] (false, 8%nat)) in Hitem by (by right; left).
    cbn [res_bind] in Hitem.
    split; (apply Hitem; [by (left || right; left)|]; intros d0 d' [= <-];
      rewrite dict_get_del_ne by (by apply u_ne)).
    + rewrite dict_get_set_ne by (by apply u_ne). apply dict_get_set_eq.
    + apply dict_get_set_eq.
  - rewrite (Hleaf [name; "GenericRead"] (false, 4%nat)) in Hitem by (by left).
    rewrite (Hleaf [name; "GenericWrite"] (false, 4%nat)) in Hitem by (by right; left).
    rewrite (Hleaf [name; "GenericExecute"] (false, 4%nat)) in Hitem by (by right; right; left).
    rewrite (Hleaf [name; "GenericAll"] (false, 4%nat)) in Hitem by (by right; right; right; left).
    cbn [res_bind] in Hitem.
    repeat apply Forall_cons_2; [..|constructor].
    all: apply Hitem; [rewrite !elem_of_cons; auto|intros d0 d' [= <-]].
    all: rewrite dict_get_del_ne by (by apply u_ne); cbn [dict_update fold_left fst snd].
    all: rewrite ?dict_get_set_ne by (by apply u_ne); apply dict_get_set_eq.
Qed.

Lemma layouts_ok fields :
  fields ∈ [SYSTEM_PROCESS_INFORMATION; SYSTEM_THREAD_INFORMATION; OBJECT_TYPE_INFORMATION] ->
  layout_b fields = true.
Proof.
  intros Hf. repeat (apply elem_of_cons in Hf as [->|Hf]; [by vm_compute|]).
  by apply not_elem_of_nil in Hf.
Qed.

(** ** Rounds *)

Lemma chain_entries beyond l : chain beyond l -> Forall (fun e => exists next, entry_ok beyond e next) l.
Proof.
  induction l as [|e l IH]; [done|]. intros Hl. apply chain_cons in Hl as (next & He & Hl).
  constructor; [by exists next|]. destruct Hl as [[-> _]|(_ & _ & Hl)]; [constructor|by apply IH].
Qed.

Lemma upto_is_pid_None beyond l : upto (is_pid beyond None) l = l.
Proof. apply upto_none, Forall_forall. done. Qed.

Lemma processes_of_system {W} `{NtSys W} beyond wide pid l w w' :
  code_points wide -> chain beyond l ->
  answers SystemProcessInformation (csize SPI) (system_bytes l) w w' ->
  get_process_objects beyond wide pid w =
  (Ok (map (process_of beyond wide) (upto (is_pid beyond pid) (removelast l)), None), w').
Proof.
  intros Hwide Hl Ha. unfold get_process_objects. erewrite bind_step by (by eapply query_answers).
  pose proof (processes_from_chain beyond wide Hwide pid l
    (S (length (create_string_buffer (system_bytes l)))) [] [byte_of 0]) as Hp.
  cbn [length app] in Hp. change (Z.of_nat 0) with 0 in Hp. cbv zeta. unfold create_string_buffer in *.
  rewrite Hp; [done| |done]. rewrite length_app. pose proof (length_system l beyond Hl). lia.
Qed.

(** * Properties *)

(** A system that answers every query with the same bytes, and opens and
    duplicates whatever it is asked to. *)
Definition fixed_nt (b : bytes) : NtSys unit := {|
  NtQuerySystemInformation _ size w :=
    if size =? Z.of_nat (length b) then ((STATUS_SUCCESS, b, Z.of_nat (length b)), w)
    else ((3221225476, [], Z.of_nat (length b)), w);
  OpenProcess _ pid w := (Ok pid, w);
  DuplicateHandle _ value w := (Ok value, w);
  CloseHandle _ w := w |}.

Definition path_is (path : list string) (l : list (list string * Z)) : Z :=
  match find (fun e => bool_decide (e.1 = path)) l with Some e => e.2 | None => 0 end.

(** The idle process, "System" with a thread, and a last process. *)
Definition small_record (next pid threads : Z) : bytes :=
  image SYSTEM_PROCESS_INFORMATION
    (fun path => path_is path [(["NextEntryOffset"], next); (["UniqueProcessId"], pid);
                               (["NumberOfThreads"], threads); (["ImageName"; "Buffer"], 4096 * pid)]) [].
Definition small_thread : bytes :=
  image SYSTEM_THREAD_INFORMATION
    (fun path => path_is path [(["ClientId"; "UniqueThread"], 12); (["Priority"], -1)]) [].
Definition small_system : list entry :=
  [Entry (small_record 264 0 0) [] (zeros 8); Entry (small_record 340 4 1) [small_thread] (zeros 4);
   Entry (small_record 0 88 0) [] []].

Definition small_wide (a : Z) : ustr := if a =? 16384 then u "System" else [].

Lemma small_wide_ok : code_points small_wide.
Proof.
  intros a. unfold small_wide. destruct (a =? 16384); [|constructor].
  eapply Forall_impl; [apply scalar_u|]. unfold scalar. intros c Hc. lia.
Qed.

Lemma small_chain : chain (fun _ => byte_of 0) small_system.
Proof.
  repeat split; try (by vm_compute); repeat constructor; by vm_compute.
Qed.

Lemma fixed_answers class size b : size <> Z.of_nat (length b) ->
  @answers unit (fixed_nt b) class size b tt tt.
Proof.
  intros Hs. exists tt, 3221225476, [], (Z.of_nat (length b)). cbn.
  by rewrite (proj2 (Z.eqb_neq _ _) Hs), Z.eqb_refl.
Qed.

(** [get_process_ids] yields the number of every process of the chain, the last
    one included. *)
Theorem process_ids_complete {W} `{NtSys W} beyond l w w' :
  chain beyond l -> answers SystemProcessInformation (csize SPI) (system_bytes l) w w' ->
  get_process_ids beyond w = (Ok (map (pid_of beyond) l, None), w').
Proof.
  intros Hl Ha. unfold get_process_ids. erewrite bind_step by (by eapply query_answers).
  pose proof (ids_from_chain beyond l
    (S (length (create_string_buffer (system_bytes l)))) [] [byte_of 0]) as Hp.
  cbn [length app] in Hp. change (Z.of_nat 0) with 0 in Hp. cbv zeta. unfold create_string_buffer in *.
  rewrite Hp; [done| |done]. rewrite length_app. pose proof (length_system l beyond Hl). lia.
Qed.

Lemma process_ids_complete_witness :
  @get_process_ids unit (fixed_nt (system_bytes small_system)) (fun _ => byte_of 0) tt =
  (Ok (map (pid_of (fun _ => byte_of 0)) small_system, None), tt).
Proof.
  apply (@process_ids_complete unit (fixed_nt (system_bytes small_system))).
  - apply small_chain.
  - apply fixed_answers. by vm_compute.
Defined.

(** Round trip of the structures: of the bytes that Windows lays out, [to_dict]
    gives every number under its name, pointers that are null as [None], and
    texts that are not ASCII as [None]. *)
Theorem structures_read fields val tail beyond wide :
  fields ∈ [SYSTEM_PROCESS_INFORMATION; SYSTEM_THREAD_INFORMATION; OBJECT_TYPE_INFORMATION] ->
  code_points wide -> vals_ok fields val ->
  exists d, to_dict wide fields (mem_of (image fields val tail) beyond) = Ok d /\
    Forall (reads_item wide val d) fields.
Proof.
  intros Hf Hwide Hv. apply layouts_ok in Hf.
  destruct (add_attributes_ok wide Hwide (mem_of (image fields val tail) beyond) (struct_of fields) fields [])
    as (d & Hd & _).
  { unfold layout_b in Hf. by apply andb_prop in Hf as [[_ ?]%andb_prop _]. }
  { split; constructor. }
  exists d. split; [exact Hd|]. apply Forall_lookup. intros i f Hi.
  eapply image_items; [exact Hf|exact Hv|exact Hi|exact Hd].
Qed.

Lemma structures_read_witness :
  let val path := path_is path [(["ClientId"; "UniqueThread"], 12); (["Priority"], -1)] in
  exists d, to_dict small_wide SYSTEM_THREAD_INFORMATION
      (mem_of (image SYSTEM_THREAD_INFORMATION val []) (fun _ => byte_of 0)) = Ok d /\
    Forall (reads_item small_wide val d) SYSTEM_THREAD_INFORMATION.
Proof.
  apply structures_read.
  - by right; left.
  - apply small_wide_ok.
  - unfold vals_ok. repeat (apply Forall_cons_2; [by vm_compute|]). constructor.
Defined.

(** Termination.  On any bytes at all the loop of [get_process_objects] ends
    within one more round than there are bytes: more rounds change nothing. *)
Theorem process_loop_ends beyond wide array pid fuel :
  (length array < fuel)%nat ->
  processes_from beyond wide fuel array pid 0 =
  processes_from beyond wide (S (length array)) array pid 0.
Proof. intros Hf. apply processes_from_fuel; lia. Qed.

Lemma process_loop_ends_witness :
  processes_from (fun _ => byte_of 0) small_wide 700 (zeros 600) None 0 =
  processes_from (fun _ => byte_of 0) small_wide 601 (zeros 600) None 0.
Proof. apply (process_loop_ends (fun _ => byte_of 0) small_wide (zeros 600) None 700). cbn. lia. Defined.

(** ** Handles *)

(** The table that Windows lays out. *)
Definition handle_table (entries : list bytes) : bytes :=
  le_enc 4 (Z.of_nat (length entries)) ++ zeros 4 ++ concat entries.

Definition table_ok (entries : list bytes) : Prop :=
  Forall (fun h => Z.of_nat (length h) = 24) entries /\ Z.of_nat (length entries) < 2 ^ 32.

Lemma handles_of_table {W} `{NtSys W} beyond pid entries w w' :
  pid <> 0 -> pid mod 4 = 0 -> table_ok entries ->
  answers SystemHandleInformation (csize SYSTEM_HANDLE_INFORMATION) (handle_table entries) w w' ->
  get_system_handle_information beyond (Some pid) w =
  (Ok (upto (fun h => pid =? handle_pid beyond h) entries, None), w').
Proof.
  intros Hp Hm [He Hn] Ha. unfold get_system_handle_information.
  assert (no_pid (Some pid) = false) as ->.
  { unfold no_pid. by rewrite (proj2 (Z.eqb_neq _ _) Hp), Hm. }
  erewrite bind_step by (by eapply query_answers). cbv beta iota.
  assert (get_attr (mem_of (handle_table entries) beyond) SYSTEM_HANDLE_INFORMATION ["NumberOfHandles"] =
          Ok (Z.of_nat (length entries))) as ->.
  { unfold get_attr.
    assert (locate SYSTEM_HANDLE_INFORMATION ["NumberOfHandles"] = Ok (0, CInt false 4)) as ->
      by (by vm_compute).
    cbn [res_bind]. f_equal. unfold read_int.
    assert (length (le_enc 4 (Z.of_nat (length entries))) = 4%nat) as Hl by apply length_le_enc.
    rewrite load_mem_of by (unfold handle_table; rewrite ?length_app; lia). unfold handle_table.
    rewrite drop_0, take_app_length' by done. rewrite le_val_enc. apply Z.mod_small. lia. }
  erewrite bind_step by done.
  assert (locate SYSTEM_HANDLE_INFORMATION ["Handles"] = Ok (8, SYSTEM_HANDLE_TABLE_ENTRY_INFO)) as ->
    by (by vm_compute).
  erewrite bind_step by done. cbv zeta.
  assert (drop (Z.to_nat 8) (create_string_buffer (handle_table entries)) =
          [] ++ concat entries ++ [byte_of 0]) as ->.
  { unfold create_string_buffer, handle_table. rewrite !app_assoc, <-(app_assoc (_ ++ _)).
    apply drop_app_length'. by rewrite length_app, length_le_enc. }
  pose proof (handles_from_table beyond pid entries [] [byte_of 0] He) as Ht.
  cbn [length] in Ht. change (Z.of_nat 0) with 0 in Ht. rewrite Nat2Z.id.
  change (default 0 (Some pid)) with pid. by rewrite Ht.
Qed.

(** The handles of one process are asked for.  What is yielded is the table of
    the whole system up to the first handle of the process: the handles of the
    processes before it, and of its own only the first. *)
Theorem handles_until_match {W} `{NtSys W} beyond pid pre h post w w' :
  pid <> 0 -> pid mod 4 = 0 -> table_ok (pre ++ h :: post) ->
  Forall (fun g => handle_pid beyond g <> pid) pre -> handle_pid beyond h = pid ->
  answers SystemHandleInformation (csize SYSTEM_HANDLE_INFORMATION) (handle_table (pre ++ h :: post)) w w' ->
  get_system_handle_information beyond (Some pid) w = (Ok (pre ++ [h], None), w').
Proof.
  intros Hp Hm Ht Hpre Hh Ha. rewrite (handles_of_table beyond pid _ w w' Hp Hm Ht Ha).
  rewrite upto_app; [done| |by rewrite Hh, Z.eqb_refl].
  eapply Forall_impl; [exact Hpre|]. intros g Hg. cbv beta in Hg |- *. apply Z.eqb_neq. by intros ->.
Qed.

Definition small_handle (pid value : Z) : bytes :=
  image_packet SYSTEM_HANDLE_TABLE_ENTRY_INFO
    [(["UniqueProcessId"], le_enc 2 pid); (["HandleValue"], le_enc 2 value)] 24 [].

Lemma handles_until_match_witness :
  let table := [small_handle 4 16] ++ small_handle 88 32 :: [small_handle 88 36] in
  @get_system_handle_information unit (fixed_nt (handle_table table)) (fun _ => byte_of 0) (Some 88) tt =
  (Ok ([small_handle 4 16] ++ [small_handle 88 32], None), tt).
Proof.
  cbv zeta.
  apply (@handles_until_match unit (fixed_nt (handle_table
    ([small_handle 4 16] ++ small_handle 88 32 :: [small_handle 88 36]))) _ 88 _ _ [small_handle 88 36]).
  - lia.
  - done.
  - split; [repeat constructor; by vm_compute|by vm_compute].
  - constructor; [by vm_compute|constructor].
  - by vm_compute.
  - apply fixed_answers. by vm_compute.
Defined.

(** Bounds.  The table keeps 16 bits of the number of a process, so for a process
    with a number beyond them every handle of the system is yielded. *)
Theorem large_pid_yields_all {W} `{NtSys W} beyond pid entries w w' :
  2 ^ 16 <= pid -> pid mod 4 = 0 -> table_ok entries ->
  answers SystemHandleInformation (csize SYSTEM_HANDLE_INFORMATION) (handle_table entries) w w' ->
  get_system_handle_information beyond (Some pid) w = (Ok (entries, None), w').
Proof.
  intros Hp Hm Ht Ha. rewrite (handles_of_table beyond pid _ w w') by (done || lia).
  rewrite upto_none; [done|]. apply Forall_forall. intros h _. apply Z.eqb_neq.
  unfold handle_pid, handle_attr, get_attr.
  assert (locate SYSTEM_HANDLE_TABLE_ENTRY_INFO ["UniqueProcessId"] = Ok (0, CInt false 2)) as ->
    by (by vm_compute).
  cbn [res_bind]. unfold read_int. unfold le_val.
  pose proof (be_val_range (reverse (load (mem_of h beyond) 0 2))) as Hb.
  rewrite length_reverse, length_load in Hb. lia.
Qed.

Lemma large_pid_yields_all_witness :
  @get_system_handle_information unit (fixed_nt (handle_table [small_handle 65540 32; small_handle 4 16]))
    (fun _ => byte_of 0) (Some 65540) tt =
  (Ok ([small_handle 65540 32; small_handle 4 16], None), tt).
Proof.
  apply (@large_pid_yields_all unit (fixed_nt (handle_table [small_handle 65540 32; small_handle 4 16]))).
  - done.
  - done.
  - split; [repeat constructor; by vm_compute|by vm_compute].
  - apply fixed_answers. by vm_compute.
Defined.
