(* ===== verification/ProcessList.v ===== *)
(** The Windows sensors that list processes and handles:
    [sensors/sensor_processlist/sensor_processlist.py], on the system queries of
    [NtQuerySys], and [sensors/sensor_handlelist/sensor_handlelist.py], which
    cuts the output of the command [handle.exe].

    Each round of a loop that runs while the service does is one round here; a
    message is what is put on the queue. *)

From S2P Require Import Prelude Json PyText Ctypes CommandSensors NtQuerySys.

(** * The process list sensor *)

Section ProcessList.

Context {W : Type} {Wn : NtSys W} (beyond : memory) (wide : Z -> ustr).

(** The key that [json.dumps] writes for a number or [None]. *)
Definition id_key (j : json) : ustr := match j with JInt z => int_text z | _ => u "null" end.

Definition adversarial (config : list (ustr * json)) : bool :=
  match dict_get (u "sensor-config-level") config with
  | Some (JStr level) => bool_decide (level = u "adversarial")
  | _ => false
  end.

(** [thd_dict[thd["UniqueThread"]] = thd] for all threads. *)
Definition thread_dict (thds : list (list (ustr * json))) : res (list (ustr * json)) :=
  foldr (fun thd k d => let? id := opt_res KeyError (dict_get (u "UniqueThread") thd) in
                        k (dict_set (id_key id) (JObj thd) d)) (fun d => Ok d) thds [].

(** One process of the loop of [process_monitor], reported at [now]. *)
Definition report_process (stub config : list (ustr * json)) (e : ustr * process) : Q unit :=
  let '(now, (proc_obj, thd_obj)) := e in
  do pid <- lift (opt_res KeyError (dict_get (u "UniqueProcessId") proc_obj));
  if negb (json_truth pid) then ret tt
  else
    do proc_obj <- lift
      (if adversarial config then
         let? number := opt_res KeyError (dict_get (u "NumberOfThreads") proc_obj) in
         let? thds := match number with
                      | JInt n => get_thread_objects beyond wide n thd_obj
                      | _ => Raise TypeError
                      end in
         let? thd_dict := thread_dict thds in
         Ok (dict_set (u "Threads") (JObj thd_dict) proc_obj)
       else Ok proc_obj);
    put_log stub (log_doc now "info" (JObj [(id_key pid, JObj proc_obj)])).

(** [str(exc)] *)
Context (exn_text : exn -> ustr).

(** One round: the n-th process is reported at [now n], an exception after them.
    What was put on the queue before an exception stays there. *)
Definition process_round (stub config : list (ustr * json)) (now : nat -> ustr)
    : M (W * list ustr) unit := fun '(w, q) =>
  let '(r, w) := get_process_objects beyond wide None w in
  let last := match r with Ok (ys, _) => length ys | Raise _ => 0%nat end in
  let '(r, q) := (catch
    (do y <- lift r;
     let '(ys, ended) := y in
     do_ for_each (report_process stub config) (zip (map now (seq 0 (length ys))) ys);
     match ended with None => ret tt | Some e => throw e end)
    (fun e => put_log stub (log_doc (now last) "error" (JStr (exn_text e))))) q in
  (r, (w, q)).

(** The rounds for which [running] holds; the interval is a number. *)
Definition process_monitor (stub config : list (ustr * json)) (now : nat -> nat -> ustr)
    (rounds : nat) : M (W * list ustr) unit :=
  for_each (fun n => process_round stub config (now n)) (seq 0 rounds).

End ProcessList.

(** * Lemmas *)

(** ** One round of the sensor *)

Section Round.

Context {W : Type} {Wn : NtSys W} (beyond : memory) (wide : Z -> ustr) (Hwide : code_points wide).

Lemma process_pid e : dict_get (u "UniqueProcessId") (process_dict beyond wide e) =
  Some (void_value (pid_of beyond e)).
Proof using Hwide.
  eapply (to_dict_get wide _ SYSTEM_PROCESS_INFORMATION 11 ("UniqueProcessId", PVoid)); [done|by vm_compute| |].
  - apply (process_dict_ok beyond wide Hwide e).
  - unfold attribute_value. cbn [fst snd]. fold SPI. fold (process_attr beyond e "UniqueProcessId").
    by rewrite (proj1 (pid_of_attr beyond e)).
Qed.

Lemma process_threads e next : entry_ok beyond e next ->
  dict_get (u "NumberOfThreads") (process_dict beyond wide e) =
  Some (JInt (Z.of_nat (length (en_threads e)))).
Proof using Hwide.
  intros (_ & _ & _ & Hn).
  eapply (to_dict_get wide _ SYSTEM_PROCESS_INFORMATION 1 ("NumberOfThreads", P_ULONG)); [done|by vm_compute| |].
  - apply (process_dict_ok beyond wide Hwide e).
  - unfold attribute_value. cbn [fst snd]. fold SPI. fold (process_attr beyond e "NumberOfThreads").
    by rewrite Hn.
Qed.

(** The number of a thread. *)
Definition tid_of (t : bytes) : Z :=
  match get_attr (mem_of t beyond) STI ["ClientId"; "UniqueThread"] with Ok z => z | Raise _ => 0 end.

Lemma tid_attr t : get_attr (mem_of t beyond) STI ["ClientId"; "UniqueThread"] = Ok (tid_of t) /\
  0 <= tid_of t.
Proof.
  unfold tid_of.
  destruct (get_attr_b (mem_of t beyond) STI ["ClientId"; "UniqueThread"]) as [z Hz]; [by vm_compute|].
  rewrite Hz. split; [done|].
  eapply (get_attr_unsigned _ STI ["ClientId"; "UniqueThread"] 48 8); [by vm_compute|exact Hz].
Qed.

Lemma thread_id t : dict_get (u "UniqueThread") (thread_of beyond wide t) = Some (void_value (tid_of t)).
Proof using Hwide.
  eapply (to_dict_written wide _ SYSTEM_THREAD_INFORMATION 5 ("ClientId", PClientId));
    [done|by vm_compute| |apply (thread_of_ok beyond wide Hwide t)].
  intros d d' Ha. unfold add_attribute in Ha. cbn [fst snd] in Ha.
  apply res_bind_Ok in Ha as (p & _ & Ha). fold STI in Ha. rewrite (proj1 (tid_attr t)) in Ha.
  injection Ha as <-. rewrite dict_get_del_ne by (by apply u_ne). apply dict_get_set_eq.
Qed.

(** The item that is reported of a process under "Threads": each thread under
    its number, of threads with the same number the last. *)
Definition thread_items (l : list bytes) : list (ustr * json) :=
  fold_left (fun d t => dict_set (id_key (void_value (tid_of t))) (JObj (thread_of beyond wide t)) d) l [].

Lemma thread_dict_items l : thread_dict (map (thread_of beyond wide) l) = Ok (thread_items l).
Proof using Hwide.
  unfold thread_dict, thread_items. generalize ([] : list (ustr * json)) as d.
  induction l as [|t l IH]; intros d; [done|]. cbn [map foldr fold_left].
  rewrite thread_id. cbn [opt_res res_bind]. apply IH.
Qed.

Lemma id_key_scalar z : 0 <= z -> Forall scalar (id_key (void_value z)).
Proof.
  intros Hz. unfold void_value. destruct (z =? 0); [apply scalar_u|]. by apply token_int.
Qed.

Lemma thread_items_ok l : doc_ok (thread_items l).
Proof using Hwide.
  unfold thread_items. assert (doc_ok ([] : list (ustr * json))) as H by (split; constructor).
  revert H. generalize ([] : list (ustr * json)) as d.
  induction l as [|t l IH]; intros d Hd; [done|]. cbn [fold_left]. apply IH, doc_ok_set; [| |done].
  - apply id_key_scalar, tid_attr.
  - apply jwf_doc, (thread_of_ok beyond wide Hwide).
Qed.

(** What is to be reported of a process, and when. *)
Definition process_report (config : list (ustr * json)) (e : entry) : list (ustr * json) :=
  if adversarial config
  then dict_set (u "Threads") (JObj (thread_items (en_threads e))) (process_dict beyond wide e)
  else process_dict beyond wide e.

Definition process_doc (config : list (ustr * json)) (e : ustr * entry) : option (list (ustr * json)) :=
  let pid := pid_of beyond e.2 in
  if pid =? 0 then None
  else Some (log_doc e.1 "info" (JObj [(int_text pid, JObj (process_report config e.2))])).

Lemma process_doc_ok config e doc : Forall scalar e.1 -> process_doc config e = Some doc -> doc_ok doc.
Proof using Hwide.
  intros Ht. unfold process_doc. destruct (pid_of_attr beyond e.2) as [_ Hp].
  destruct (Z.eqb_spec (pid_of beyond e.2) 0); [done|]. intros [= <-]. apply log_doc_ok; [done|].
  apply jwf_obj. split; [apply NoDup_singleton|]. constructor; [|constructor]. split.
  - cbn [fst]. by apply token_int.
  - cbn [snd]. apply jwf_doc. unfold process_report.
    pose proof (proj1 (process_dict_ok beyond wide Hwide e.2)).
    destruct (adversarial config); [|done].
    apply doc_ok_set; [apply scalar_u|apply jwf_doc, thread_items_ok|done].
Qed.

Lemma report_process_run stub config now e next q : entry_ok beyond e next ->
  report_process beyond wide stub config (now, process_of beyond wide e) q =
  (Ok tt, q ++ match process_doc config (now, e) with Some d => [message_of stub d] | None => [] end).
Proof using Hwide.
  intros He. unfold report_process, process_of, process_doc. rewrite process_pid.
  erewrite bind_step by done. unfold void_value. cbn [fst snd].
  destruct (Z.eqb_spec (pid_of beyond e) 0) as [|Hp]; [cbn; by rewrite app_nil_r|].
  cbn [json_truth]. rewrite (proj2 (Z.eqb_neq _ _) Hp). cbn [negb]. unfold process_report.
  destruct (adversarial config).
  - rewrite (process_threads e next He). cbn [opt_res res_bind].
    assert (get_thread_objects beyond wide (Z.of_nat (length (en_threads e))) (concat (en_threads e)) =
            Ok (map (thread_of beyond wide) (en_threads e))) as ->.
    { unfold get_thread_objects. rewrite Nat2Z.id.
      rewrite <-(threads_from_concat beyond wide Hwide (en_threads e) [] []) by apply He.
      by rewrite app_nil_r. }
    cbn [res_bind]. rewrite thread_dict_items. done.
  - done.
Qed.

End Round.

Lemma removelast_in {A} (l : list A) a : a ∈ removelast l -> a ∈ l.
Proof.
  induction l as [|b l IH]; [done|]. cbn [removelast]. destruct l; [intros H; by apply not_elem_of_nil in H|].
  rewrite !elem_of_cons in *. intuition.
Qed.

Lemma length_removelast {A} (l : list A) : length (removelast l) = (length l - 1)%nat.
Proof.
  induction l as [|b l IH]; [done|]. cbn [removelast]. destruct l; [done|]. cbn [length] in *. lia.
Qed.

(** The documents of a round on the records [l], the n-th at [now n]. *)
Definition process_docs (beyond : memory) (wide : Z -> ustr) (config : list (ustr * json))
    (now : nat -> ustr) (l : list entry) : list (list (ustr * json)) :=
  omap (process_doc beyond wide config) (zip (map now (seq 0 (length l - 1))) (removelast l)).

Lemma process_round_run {W} `{NtSys W} beyond wide exn_text stub config now l w w' q :
  code_points wide -> chain beyond l ->
  answers SystemProcessInformation (csize SPI) (system_bytes l) w w' ->
  process_round beyond wide exn_text stub config now (w, q) =
    (Ok tt, (w', q ++ map (message_of stub) (process_docs beyond wide config now l))).
Proof.
  intros Hwide Hl Ha. unfold process_round, process_docs.
  rewrite (processes_of_system beyond wide None l w w' Hwide Hl Ha), upto_is_pid_None.
  unfold catch. erewrite bind_step by done. cbv beta iota zeta. rewrite length_map, length_removelast.
  set (times := map now (seq 0 (length l - 1))). set (es := zip times (removelast l)).
  assert (zip times (map (process_of beyond wide) (removelast l)) =
          map (fun e => (e.1, process_of beyond wide e.2)) es) as ->.
  { unfold es. generalize (removelast l). generalize times. intros ts. induction ts as [|t ts IH];
      intros [|e es']; [done..|]. cbn. by rewrite IH. }
  assert (for_each (report_process beyond wide stub config)
    (map (fun e => (e.1, process_of beyond wide e.2)) es) q =
    (Ok tt, q ++ map (message_of stub) (omap (process_doc beyond wide config) es))) as Hrun.
  { rewrite for_each_map. apply for_each_reports. intros [t e] q1 Hin.
    apply elem_of_zip_r, removelast_in in Hin. pose proof (chain_entries beyond l Hl) as He.
    rewrite Forall_forall in He. destruct (He e Hin) as [next Hn].
    by apply (report_process_run beyond wide Hwide stub config t e next). }
  by erewrite bind_step by apply Hrun.
Qed.

Lemma process_docs_ok beyond wide config now l : code_points wide -> (forall n, Forall scalar (now n)) ->
  Forall doc_ok (process_docs beyond wide config now l).
Proof.
  intros Hwide Hnow. apply Forall_forall. intros doc Hdoc.
  apply list_elem_of_omap in Hdoc as ([t e] & Hin & Hdoc).
  apply (process_doc_ok beyond wide Hwide config (t, e)); [|done]. cbn [fst].
  apply elem_of_zip_l, list_elem_of_fmap in Hin as (n & -> & _). apply Hnow.
Qed.

(** * Properties *)

(** C28: one round of the process sensor.  Windows tells the processes of the system
    as a chain of records.  Each process that has a number is reported once, in
    their order, in a message of its own that decodes to the stub, the time,
    and the attributes of the process under its number, with those of its
    threads when the configuration asks for them: all but the last one of the
    chain, whose end is taken for the end of the list. *)
Theorem processes_reported {W} `{NtSys W} beyond wide exn_text stub config now l w w' q :
  code_points wide -> stub_ok stub -> (forall n, Forall scalar (now n)) -> chain beyond l ->
  answers SystemProcessInformation (csize SPI) (system_bytes l) w w' ->
  exists msgs,
    process_round beyond wide exn_text stub config now (w, q) = (Ok tt, (w', q ++ msgs)) /\
    reports stub
      (omap (process_doc beyond wide config) (zip (map now (seq 0 (length l - 1))) (removelast l))) msgs.
Proof.
  intros Hwide Hs Hnow Hl Ha. eexists. split; [by apply process_round_run|].
  by apply message_reports, process_docs_ok.
Qed.

Lemma processes_reported_witness :
  exists msgs,
    @process_round unit (fixed_nt (system_bytes small_system)) (fun _ => byte_of 0) small_wide (fun _ => u "")
      small_stub [(u "sensor-config-level", JStr (u "adversarial"))] (fun _ => u "now") (tt, []) =
      (Ok tt, (tt, [] ++ msgs)) /\
    reports small_stub
      (omap (process_doc (fun _ => byte_of 0) small_wide
               [(u "sensor-config-level", JStr (u "adversarial"))])
         (zip (map (fun _ => u "now") (seq 0 (length small_system - 1))) (removelast small_system))) msgs.
Proof.
  eapply (@processes_reported unit (fixed_nt (system_bytes small_system))).
  - apply small_wide_ok.
  - apply small_stub_ok.
  - intros _. apply scalar_u.
  - apply small_chain.
  - apply fixed_answers. by vm_compute.
Defined.

(** When the system has grown between the two calls, the second one fails: the
    round reports nothing, not even an error. *)
Theorem grown_system_unreported {W} `{NtSys W} beyond wide exn_text stub config now w q w1 w2
    status out n status' out' n' :
  NtQuerySystemInformation SystemProcessInformation (csize SPI) w = ((status, out, n), w1) ->
  NtQuerySystemInformation SystemProcessInformation n w1 = ((status', out', n'), w2) ->
  status' <> STATUS_SUCCESS ->
  process_round beyond wide exn_text stub config now (w, q) = (Ok tt, (w2, q)).
Proof.
  intros H1 H2 Hs. unfold process_round, get_process_objects.
  assert (query SystemProcessInformation (csize SPI) w = (Ok None, w2)) as Hq.
  { unfold query. rewrite H1, H2. by rewrite (proj2 (Z.eqb_neq _ _) Hs). }
  erewrite bind_step by exact Hq. done.
Qed.

Lemma grown_system_unreported_witness :
  @process_round unit
    {| NtQuerySystemInformation _ size w := ((3221225476, [], size + 1), w);
       OpenProcess _ pid w := (Ok pid, w); DuplicateHandle _ value w := (Ok value, w);
       CloseHandle _ w := w |}
    (fun _ => byte_of 0) small_wide (fun _ => u "") small_stub [] (fun _ => u "now") (tt, []) =
  (Ok tt, (tt, [])).
Proof. by eapply grown_system_unreported. Defined.
