(* ===== verification/HandleList.v ===== *)
(** The Windows sensor that lists handles,
    [sensors/sensor_handlelist/sensor_handlelist.py]: it cuts the output of the
    command [handle.exe] into one message for each process.

    The output is a list of lines, each with the time at which the sensor
    handles it; a round of the loop that runs while the service does is one run
    of the command. *)

From S2P Require Import Prelude Json PyText CommandSensors.

(** * The sensor *)

(** An entry of [proc_dict]. *)
Record hproc := HProc { hp_pid : ustr; hp_image : ustr; hp_user : ustr; hp_handles : list (ustr * json) }.

Definition hproc_json (p : hproc) : json :=
  JObj [(u "PID", JStr (hp_pid p)); (u "ImageName", JStr (hp_image p)); (u "User", JStr (hp_user p));
        (u "Handles", JObj (hp_handles p))].

(** The local variables of [handlelist] and the message queue; [pid] has no
    value before the first process. *)
Record hl := HL {
  proc_dict : list (ustr * hproc); parse_proc_info_next : bool; first_time_through : bool;
  hl_pid : option ustr; hl_queue : list ustr }.

Definition set_procs (s : hl) (d : list (ustr * hproc)) : hl :=
  HL d (parse_proc_info_next s) (first_time_through s) (hl_pid s) (hl_queue s).

(** [line.strip('\n\r')] *)
Definition is_eol (c : Z) : bool := (c =? 10) || (c =? 13).
Fixpoint lstrip_eol (s : ustr) : ustr :=
  match s with c :: s' => if is_eol c then lstrip_eol s' else s | [] => [] end.
Definition strip_eol (s : ustr) : ustr := reverse (lstrip_eol (reverse (lstrip_eol s))).

Definition dashes : ustr := [45; 45; 45; 45].

(** The line after a separator: image, a label, number and user of a process. *)
Definition process_info (line : ustr) : M hl unit :=
  do_ modify (fun s => HL (proc_dict s) false (first_time_through s) (hl_pid s) (hl_queue s));
  let parsed_line := usplit_ws line in
  do image_name <- lift (item parsed_line 0);
  do pid <- lift (item parsed_line 2);
  let user := flat_map (fun w => w ++ [32]) (drop 3 parsed_line) in
  modify (fun s => HL (dict_set pid (HProc pid image_name user []) (proc_dict s))
                     (parse_proc_info_next s) (first_time_through s) (Some pid) (hl_queue s)).

(** A separator: the process before it is reported. *)
Definition separator (stub : list (ustr * json)) (now : ustr) : M hl unit := fun s =>
  let doc := log_doc now "info" (JObj (map (fun e => (e.1, hproc_json e.2)) (proc_dict s))) in
  let q := if first_time_through s then hl_queue s
           else hl_queue s ++ [dumps (JObj (dict_update doc stub))] in
  let d := if first_time_through s then proc_dict s else [] in
  (Ok tt, HL d true false (hl_pid s) q).

(** [unknown[0][0] == '(' and unknown[0][-1] == ')']; a word is not empty. *)
Definition parenthesised (w : ustr) : bool :=
  bool_decide (head w = Some 40) && bool_decide (last w = Some 41).

Definition access_path (unknown : list ustr) : res (ustr * ustr) :=
  match unknown with
  | [a; p] => if parenthesised a then Ok (a, p) else Ok (u "(---)", a)
  | a :: _ => Ok (u "(---)", a)
  | [] => Raise IndexError
  end.

Definition entry_json (handle handle_type obj_access obj_path : ustr) : json :=
  JObj [(u "Handle", JStr handle); (u "HandleType", JStr handle_type);
        (u "ObjectAccess", JStr obj_access); (u "ObjectPath", JStr obj_path)].

(** A handle of the current process. *)
Definition handle_info (line : ustr) : M hl unit :=
  let obj := usplit_ws line in
  do first <- lift (item obj 0);
  do handle <- lift (item (usplit 58 first) 0);
  do handle_type <- lift (item obj 1);
  do ap <- lift (access_path (drop 2 obj));
  let entry_dict := entry_json handle handle_type ap.1 ap.2 in
  do s <- get;
  do pid <- lift (opt_res NameError (hl_pid s));
  do p <- lift (opt_res KeyError (dict_get pid (proc_dict s)));
  modify (fun s => set_procs s (dict_set pid
    (HProc (hp_pid p) (hp_image p) (hp_user p) (dict_set handle entry_dict (hp_handles p))) (proc_dict s))).

Definition handle_line (stub : list (ustr * json)) (e : ustr * bytes) : M hl unit :=
  do text <- lift (utf8_decode e.2);
  let line := strip_eol text in
  do s <- get;
  if parse_proc_info_next s then process_info line
  else if bool_decide (take 4 line = dashes) then separator stub e.1
  else handle_info line.

(** One round on the output of a run. *)
Definition handle_round (stub : list (ustr * json)) (out : lines) : M hl unit :=
  do_ modify (fun s => HL [] false true (hl_pid s) (hl_queue s));
  for_each (handle_line stub) out.

(** [handlelist(message_stub, config, message_queue)]: the rounds for which
    [running] holds; [None]: [handle.exe] is not found.  [exec] gives the output
    of the n-th run. *)
Definition handlelist (exec : list ustr -> nat -> lines) (path : option ustr)
    (stub : list (ustr * json)) (rounds : nat) : M hl unit :=
  for_each (fun n =>
    match path with
    | None => throw TypeError
    | Some path => handle_round stub (exec [path; u "-nobanner"] n)
    end) (seq 0 rounds).

(** * Lemmas *)

(** ** Lines *)

Lemma strip_eol_line s : s <> [] -> Forall (fun c => is_eol c = false) s ->
  strip_eol (s ++ [13; 10]) = s.
Proof.
  intros Hne Hs. unfold strip_eol.
  assert (forall t r, t <> [] -> Forall (fun c => is_eol c = false) t -> lstrip_eol (t ++ r) = t ++ r) as Hl.
  { intros t r Ht Hf. destruct t as [|c t]; [done|]. apply Forall_cons in Hf as [Hc _].
    cbn [app lstrip_eol]. by rewrite Hc. }
  rewrite Hl by done. rewrite reverse_app. change (reverse [13; 10]) with [10; 13].
  cbn [app lstrip_eol]. change (is_eol 10) with true. change (is_eol 13) with true. cbv iota.
  rewrite <-(app_nil_r (reverse s)), Hl; [by rewrite app_nil_r, reverse_involutive| |by apply Forall_reverse].
  intros E. apply (f_equal reverse) in E. by rewrite reverse_involutive in E.
Qed.

(** A line of [handle.exe]: blanks, words with blanks between them, and the end
    of the line. *)
Record row := Row { row_pad : nat; row_words : list (ustr * nat); row_last : ustr }.

Definition row_blanks (n : nat) : ustr := replicate n 32.
Definition row_text (r : row) : ustr :=
  row_blanks (row_pad r) ++ columns (row_words r) ++ row_last r.
Definition row_line (r : row) : bytes := utf8_encode (row_text r ++ [13; 10]).
Definition row_all (r : row) : list ustr := map fst (row_words r) ++ [row_last r].

Definition row_ok (r : row) : Prop :=
  Forall (fun e => token e.1) (row_words r) /\ token (row_last r).

Lemma collapse_words l w : Forall (fun e => token e.1) l -> solid w -> forall b,
  collapse_go b (columns l ++ w) = columns (map (fun e => (e.1, 0%nat)) l) ++ w.
Proof.
  intros Hl [Hne Hw]. induction Hl as [|[v n] l [[Hvn Hv] _] _ IH]; intros b.
  - destruct w as [|c w]; [done|]. cbn [columns flat_map app map collapse_go].
    apply Forall_cons in Hw as [Hc Hw]. rewrite Hc.
    rewrite <-(app_nil_r w) at 1. rewrite collapse_solid by done. cbn. by rewrite app_nil_r.
  - cbn [columns flat_map map fst snd replicate] in *. rewrite <-!app_assoc. destruct v as [|c v]; [done|].
    apply Forall_cons in Hv as [Hc Hv]. cbn [app collapse_go]. rewrite Hc. rewrite collapse_solid by done.
    cbn [app collapse_go]. change (is_strip 32) with true. cbv iota.
    rewrite collapse_blank by (by apply Forall_replicate). fold (columns l). by rewrite IH.
Qed.

Lemma usplit_row r : row_ok r -> usplit_ws (row_text r) = row_all r.
Proof.
  intros [Hw [Hl _]]. unfold usplit_ws, row_text, row_all, row_blanks.
  assert (words_on 32 (columns (map (fun e => (e.1, 0%nat)) (row_words r)) ++ row_last r) =
          map fst (row_words r) ++ [row_last r]) as E.
  { rewrite words_columns.
    - rewrite map_map. cbn [fst]. f_equal. pose proof (solid_word _ Hl) as [? ?]. by apply words_on_last.
    - apply Forall_fmap. eapply Forall_impl; [exact Hw|]. intros e [He _]. by apply solid_word. }
  unfold collapse. destruct (row_pad r) as [|n]; cbn [replicate app].
  - by rewrite collapse_words.
  - cbn [collapse_go]. change (is_strip 32) with true. cbv iota.
    rewrite collapse_blank by (by apply Forall_replicate). rewrite collapse_words by done.
    cbn [app]. by rewrite words_on_sep.
Qed.

Lemma row_text_chars r : row_ok r ->
  Forall scalar (row_text r) /\ row_text r <> [] /\ Forall (fun c => is_eol c = false) (row_text r).
Proof.
  intros [Hw [[Hne Hl] Hs]].
  assert (forall w, solid w -> Forall (fun c => is_eol c = false) w) as Heol.
  { intros w [_ H]. eapply Forall_impl; [exact H|]. cbn. intros c. unfold is_strip, is_eol. lia. }
  assert (forall n, Forall (fun c => is_eol c = false) (replicate n 32)) as Hb
    by (intros n; by apply Forall_replicate).
  split_and!.
  - unfold row_text, row_blanks. apply Forall_app; split; [|apply Forall_app; split; [|done]].
    + apply Forall_replicate. unfold scalar. lia.
    + apply scalar_columns. eapply Forall_impl; [exact Hw|]. by intros e [].
  - unfold row_text. destruct (row_last r); [done|]. intros E. apply (f_equal length) in E.
    rewrite !length_app in E. cbn in E. lia.
  - unfold row_text, row_blanks. apply Forall_app; split; [done|apply Forall_app; split; [|by apply Heol]].
    induction Hw as [|[w n] l [Hw _] _ IH]; [constructor|]. cbn [columns flat_map].
    apply Forall_app. split; [|exact IH]. apply Forall_app. split; [by apply Heol|].
    by constructor; [|apply Hb].
Qed.

Lemma row_read r : row_ok r -> utf8_decode (row_line r) = Ok (row_text r ++ [13; 10]) /\
  strip_eol (row_text r ++ [13; 10]) = row_text r.
Proof.
  intros Hr. destruct (row_text_chars r Hr) as (Hs & Hne & He). split; [|by apply strip_eol_line].
  apply utf8_roundtrip. apply Forall_app. split; [done|]. repeat constructor; unfold scalar; lia.
Qed.

(** ** Blocks *)

(** What [handle.exe] prints of a handle and of a process. *)
Record hrow := HRow { hr_handle : ustr; hr_type : ustr; hr_access : option ustr; hr_path : ustr }.
Record block := Block { bk_image : ustr; bk_label : ustr; bk_pid : ustr; bk_user : list ustr;
                        bk_rows : list hrow }.

Definition hrow_words (h : hrow) : list ustr :=
  (hr_handle h ++ [58]) :: hr_type h ::
  match hr_access h with Some a => [40 :: a ++ [41]] | None => [] end ++ [hr_path h].
Definition info_words (b : block) : list ustr := bk_image b :: bk_label b :: bk_pid b :: bk_user b.

Definition hrow_ok (h : hrow) : Prop :=
  has_code 58 (hr_handle h) = false /\ take 4 (hr_handle h ++ [58]) <> dashes /\
  Forall scalar (hr_handle h) /\ Forall scalar (hr_type h) /\ Forall scalar (hr_path h) /\
  match hr_access h with Some a => Forall scalar a | None => True end.

(** Lines that print the words of a row; a line of handles does not start with
    the dashes of a separator. *)
Definition prints (ws : list ustr) (line : bytes) : Prop :=
  exists r, row_ok r /\ row_all r = ws /\ line = row_line r.
Definition prints_handle (h : hrow) (line : bytes) : Prop :=
  exists r, row_ok r /\ row_all r = hrow_words h /\ line = row_line r /\ take 4 (row_text r) <> dashes.
Definition is_separator (line : bytes) : Prop :=
  exists n, line = utf8_encode (dashes ++ replicate n 45 ++ [13; 10]).

(** The lines of a block. *)
Definition prints_block (b : block) (ls : lines) : Prop :=
  exists t0 sep t1 info rest, ls = (t0, sep) :: (t1, info) :: rest /\ is_separator sep /\
    prints (info_words b) info /\ Forall2 (fun h e => prints_handle h e.2) (bk_rows b) rest.

Definition block_time (ls : lines) : ustr := match ls with (t, _) :: _ => t | [] => [] end.

(** What is to be reported of a handle and of a process. *)
Definition hrow_json (h : hrow) : json :=
  entry_json (hr_handle h) (hr_type h)
    match hr_access h with Some a => 40 :: a ++ [41] | None => u "(---)" end (hr_path h).
Definition add_rows (hs : list hrow) (d : list (ustr * json)) : list (ustr * json) :=
  fold_left (fun d h => dict_set (hr_handle h) (hrow_json h) d) hs d.
Definition block_proc (b : block) (hs : list hrow) : hproc :=
  HProc (bk_pid b) (bk_image b) (flat_map (fun w => w ++ [32]) (bk_user b)) (add_rows hs []).
Definition block_json (b : block) : json :=
  JObj [(bk_pid b, hproc_json (block_proc b (bk_rows b)))].

Definition block_ok (b : block) : Prop := Forall hrow_ok (bk_rows b).

Lemma access_path_row h : access_path (drop 2 (hrow_words h)) =
  Ok (match hr_access h with Some a => 40 :: a ++ [41] | None => u "(---)" end, hr_path h).
Proof.
  unfold hrow_words. destruct (hr_access h) as [a|]; [|done]. cbn [drop app access_path].
  assert (parenthesised (40 :: a ++ [41]) = true) as ->; [|done].
  unfold parenthesised. cbn [head]. rewrite app_comm_cons, last_snoc. by rewrite !bool_decide_eq_true_2.
Qed.

(** A line of handles within its process. *)
Lemma handle_line_row stub b hs h e s : hrow_ok h -> prints_handle h e.2 ->
  parse_proc_info_next s = false -> hl_pid s = Some (bk_pid b) ->
  proc_dict s = [(bk_pid b, block_proc b hs)] ->
  handle_line stub e s = (Ok tt, set_procs s [(bk_pid b, block_proc b (hs ++ [h]))]).
Proof.
  intros (Hc & _) (r & Hr & Hall & He & Hd) Hp Hpid Hdict. unfold handle_line. rewrite He.
  destruct (row_read r Hr) as [-> Hstrip]. erewrite bind_step by done. rewrite Hstrip. cbv zeta.
  erewrite bind_step by done. rewrite Hp, bool_decide_eq_false_2 by done.
  unfold handle_info. rewrite usplit_row, Hall by done. cbv zeta. cbn [hrow_words item lookup list_lookup opt_res].
  erewrite bind_step by done. rewrite usplit_app by done.
  do 2 (erewrite bind_step by done). fold (hrow_words h).
  rewrite access_path_row.
  do 2 (erewrite bind_step by done). rewrite Hpid. erewrite bind_step by done. rewrite Hdict.
  cbn [dict_get]. rewrite decide_True by done. erewrite bind_step by done.
  unfold modify, set_procs. rewrite Hdict. cbn [dict_set]. rewrite decide_True by done.
  do 4 f_equal. unfold block_proc, add_rows. cbn [hp_pid hp_image hp_user hp_handles].
  by rewrite fold_left_app.
Qed.

Lemma handle_lines_rows stub b hs : forall hs0 rest s,
  Forall hrow_ok hs -> Forall2 (fun h e => prints_handle h e.2) hs rest ->
  parse_proc_info_next s = false -> hl_pid s = Some (bk_pid b) ->
  proc_dict s = [(bk_pid b, block_proc b hs0)] ->
  for_each (handle_line stub) rest s = (Ok tt, set_procs s [(bk_pid b, block_proc b (hs0 ++ hs))]).
Proof.
  induction hs as [|h hs IH]; intros hs0 rest s Hok Hrest Hp Hpid Hd.
  - inversion Hrest. cbn [for_each]. rewrite app_nil_r, <-Hd. by destruct s.
  - inversion Hrest as [|? e ? rest' He Hrest' E1 E2]; subst. apply Forall_cons in Hok as [Hh Hok].
    cbn [for_each]. erewrite bind_step by (by eapply handle_line_row).
    rewrite (IH (hs0 ++ [h])) by done. by rewrite <-app_assoc.
Qed.

(** The state after the lines of a block: its process is in the dictionary. *)
Definition after (b : block) (q : list ustr) : hl :=
  HL [(bk_pid b, block_proc b (bk_rows b))] false false (Some (bk_pid b)) q.

(** The state after a separator at the time [t]. *)
Definition at_block (stub : list (ustr * json)) (t : ustr) (s : hl) : hl := snd (separator stub t s).

Lemma separator_line stub t sep s : is_separator sep -> parse_proc_info_next s = false ->
  handle_line stub (t, sep) s = (Ok tt, at_block stub t s).
Proof.
  intros [n ->] Hp. unfold handle_line. cbn [fst snd].
  assert (Forall (fun c => c = 45) (dashes ++ replicate n 45)) as Hd.
  { apply Forall_app. split; [by repeat constructor|by apply Forall_replicate]. }
  rewrite app_assoc, utf8_roundtrip.
  2: { apply Forall_app. split; [eapply Forall_impl; [exact Hd|]; intros c ->; unfold scalar; lia|].
       repeat constructor; unfold scalar; lia. }
  erewrite bind_step by done. rewrite strip_eol_line.
  2: done.
  2: { eapply Forall_impl; [exact Hd|]. by intros c ->. }
  cbv zeta. erewrite bind_step by done. rewrite Hp, bool_decide_eq_true_2 by done. done.
Qed.

Lemma info_line stub b e s : prints (info_words b) e.2 ->
  parse_proc_info_next s = true -> proc_dict s = [] ->
  handle_line stub e s =
  (Ok tt, HL [(bk_pid b, block_proc b [])] false (first_time_through s) (Some (bk_pid b)) (hl_queue s)).
Proof.
  intros (r & Hr & Hall & He) Hp Hd. unfold handle_line. rewrite He.
  destruct (row_read r Hr) as [-> Hstrip]. erewrite bind_step by done. rewrite Hstrip. cbv zeta.
  erewrite bind_step by done. rewrite Hp. unfold process_info.
  erewrite bind_step by done. rewrite usplit_row, Hall by done. cbv zeta.
  do 2 (erewrite bind_step by done). unfold modify. cbn [proc_dict]. by rewrite Hd.
Qed.

Lemma block_run stub b ls s : block_ok b -> prints_block b ls ->
  parse_proc_info_next s = false -> (first_time_through s = true -> proc_dict s = []) ->
  for_each (handle_line stub) ls s =
  (Ok tt, after b (hl_queue (at_block stub (block_time ls) s))).
Proof.
  intros Hb (t0 & sep & t1 & info & rest & -> & Hsep & Hinfo & Hrows) Hp Hfirst.
  cbn [for_each block_time]. erewrite bind_step by (by apply separator_line).
  erewrite bind_step.
  2: { apply (info_line stub b (t1, info)); [done|done|]. unfold at_block, separator. cbn [snd proc_dict].
       destruct (first_time_through s); [by apply Hfirst|done]. }
  erewrite (handle_lines_rows stub b (bk_rows b) []) by done. done.
Qed.

Lemma blocks_run stub bs : forall b0 lss q,
  Forall block_ok bs -> Forall2 prints_block bs lss ->
  exists b, for_each (handle_line stub) (concat lss) (after b0 q) =
  (Ok tt, after b (q ++ map (message_of stub)
     (zip_with (fun b ls => log_doc (block_time ls) "info" (block_json b)) (removelast (b0 :: bs)) lss))).
Proof.
  induction bs as [|b bs IH]; intros b0 lss q Hok Hl; inversion Hl as [|? ls ? lss' H1 H2]; subst.
  - exists b0. cbn. by rewrite app_nil_r.
  - apply Forall_cons in Hok as [Hb Hok]. cbn [concat].
    assert (removelast (b0 :: b :: bs) = b0 :: removelast (b :: bs)) as -> by done.
    destruct (IH b lss' (q ++ [message_of stub (log_doc (block_time ls) "info" (block_json b0))]) Hok H2)
      as [b' Hrun].
    exists b'. rewrite for_each_app. erewrite bind_step by (by apply (block_run stub b ls (after b0 q))).
    cbn [zip_with map]. rewrite <-app_assoc in Hrun. exact Hrun.
Qed.

(** ** Documents *)

Lemma row_all_tokens r : row_ok r -> Forall token (row_all r).
Proof.
  intros [Hw Hl]. apply Forall_app. split; [|by constructor].
  apply Forall_fmap. eapply Forall_impl; [exact Hw|]. done.
Qed.

Lemma texts_wf (l : list (string * ustr)) :
  NoDup (map fst l) -> Forall (fun e => Forall scalar e.2) l ->
  doc_ok (map (fun e => (u e.1, JStr e.2)) l).
Proof. intros Hn Hf. apply jwf_obj. by apply jwf_texts. Qed.

Lemma hrow_json_wf h : hrow_ok h -> jwf (hrow_json h).
Proof.
  intros (_ & _ & Hh & Ht & Hp & Ha). unfold hrow_json, entry_json. apply jwf_doc.
  apply (texts_wf [("Handle", _); ("HandleType", _); ("ObjectAccess", _); ("ObjectPath", _)]).
  - by apply (bool_decide_unpack _).
  - repeat apply Forall_cons_2; [done|done| |done|constructor]. cbn [snd].
    destruct (hr_access h); [|apply scalar_u].
    constructor; [unfold scalar; lia|]. apply Forall_app. split; [done|]. repeat constructor. unfold scalar. lia.
Qed.

Lemma add_rows_ok hs : forall d, Forall hrow_ok hs -> doc_ok d -> doc_ok (add_rows hs d).
Proof.
  induction hs as [|h hs IH]; intros d Hh Hd; [done|]. apply Forall_cons in Hh as [H Hh].
  apply (IH _ Hh), doc_ok_set; [by destruct H as (_ & _ & ? & _)|by apply hrow_json_wf|done].
Qed.

Lemma scalar_user ws : Forall token ws -> Forall scalar (flat_map (fun w => w ++ [32]) ws).
Proof.
  induction 1 as [|w ws [_ Hw] _ IH]; [constructor|]. cbn [flat_map].
  apply Forall_app. split; [|done]. apply Forall_app. split; [done|]. repeat constructor. unfold scalar. lia.
Qed.

Lemma block_doc_ok b ls now : block_ok b -> prints_block b ls -> Forall scalar now ->
  doc_ok (log_doc now "info" (block_json b)).
Proof.
  intros Hb (t0 & sep & t1 & info & rest & _ & _ & (r & Hr & Hall & _) & _) Hn.
  apply row_all_tokens in Hr. rewrite Hall in Hr. unfold info_words in Hr.
  apply Forall_cons in Hr as [[_ Hi] Hr]. apply Forall_cons in Hr as [_ Hr].
  apply Forall_cons in Hr as [[_ Hp] Hu]. apply log_doc_ok; [done|]. apply jwf_doc.
  split; [apply NoDup_singleton|]. constructor; [|constructor]. split; [done|]. cbn [snd].
  apply jwf_doc. split; [by apply (bool_decide_unpack _)|].
  repeat (apply Forall_cons_2; [split; [apply scalar_u|]|]); [done|done| | |constructor].
  - by apply scalar_user.
  - apply jwf_doc, add_rows_ok; [done|apply doc_ok_nil].
Qed.

(** * Properties *)

(** A round of the handle sensor on what [handle.exe] prints, a block for each
    process in any layout of blanks: each process is reported once, in order,
    with image, number, user and its handles, when the block of the next one
    begins.  The last process is not reported. *)
Theorem handles_reported stub b0 bs ls0 lss s :
  stub_ok stub -> Forall block_ok (b0 :: bs) -> Forall2 prints_block (b0 :: bs) (ls0 :: lss) ->
  Forall (fun ls => Forall scalar (block_time ls)) lss ->
  exists s' msgs, handle_round stub (concat (ls0 :: lss)) s = (Ok tt, s') /\
    hl_queue s' = hl_queue s ++ msgs /\
    reports stub (zip_with (fun b ls => log_doc (block_time ls) "info" (block_json b))
                    (removelast (b0 :: bs)) lss) msgs.
Proof.
  intros Hs Hok Hl Ht. pose proof Hl as Hl'. apply Forall_cons in Hok as [Hb Hok'].
  inversion Hl as [|? ? ? ? H1 H2]; subst. unfold handle_round. erewrite bind_step by done.
  destruct (blocks_run stub bs b0 lss (hl_queue s) Hok' H2) as [b Hrun].
  eexists _, _. split_and!.
  - cbn [concat]. rewrite for_each_app.
    erewrite bind_step by (by apply (block_run stub b0 ls0 (HL [] false true (hl_pid s) (hl_queue s)))).
    exact Hrun.
  - done.
  - apply message_reports; [done|]. apply Forall_lookup. intros i doc Hi.
    apply lookup_zip_with_Some in Hi as (b1 & ls & -> & Hb1 & Hls).
    assert ((b0 :: bs) !! i = Some b1) as Hb1'.
    { rewrite removelast_firstn_len in Hb1. apply lookup_take_Some in Hb1 as [? _]. done. }
    destruct (Forall2_lookup_l _ _ _ _ _ Hl' Hb1') as (ls1 & _ & Hp).
    apply (block_doc_ok b1 ls1); [|done|].
    + rewrite Forall_lookup in Hok'. destruct i as [|i]; [by injection Hb1' as ->|by eapply Hok'].
    + rewrite Forall_lookup in Ht. by eapply Ht.
Qed.

Definition words_row (pad : nat) (ws : list string) (w : string) : row :=
  Row pad (map (fun w => (u w, 1%nat)) ws) (u w).
Definition small_sep : bytes := utf8_encode (dashes ++ replicate 3 45 ++ [13; 10]).

Definition small_block (pid image : string) : block :=
  Block (u image) (u "pid:") (u pid) [u "NT"] [HRow (u "58") (u "File") (Some (u "RWD")) (u "C:\Logs")].
Definition small_lines (t : string) (pid image : string) : lines :=
  [(u t, small_sep); (u t, row_line (words_row 0 [image; "pid:"; pid] "NT"));
   (u t, row_line (words_row 3 ["58:"; "File"; "(RWD)"] "C:\Logs"))].

Lemma words_row_ok pad ws w :
  forallb (fun s => token_b (u s)) (w :: ws) = true -> row_ok (words_row pad ws w).
Proof.
  cbn [forallb]. intros H. apply andb_prop in H as [Hw Hws]. split; [|by apply token_b_sound].
  apply Forall_fmap, Forall_forall. intros s Hs. rewrite forallb_forall in Hws.
  apply token_b_sound, Hws. by apply list_elem_of_In.
Qed.

Lemma small_block_prints t pid image : token_b (u pid) = true -> token_b (u image) = true ->
  prints_block (small_block pid image) (small_lines t pid image).
Proof.
  intros Hp Hi. do 5 eexists. split_and!; [reflexivity| | |].
  - by exists 3%nat.
  - exists (words_row 0 [image; "pid:"; pid] "NT"). split_and!; [|done|done].
    apply words_row_ok. cbn [forallb]. by rewrite Hp, Hi.
  - constructor; [|constructor]. exists (words_row 3 ["58:"; "File"; "(RWD)"] "C:\Logs").
    split_and!; [by apply words_row_ok|by vm_compute|done|by vm_compute].
Qed.

Lemma small_block_ok pid image : block_ok (small_block pid image).
Proof.
  constructor; [|constructor]. split_and!; try apply scalar_u; [by vm_compute|by vm_compute].
Qed.

Lemma handles_reported_witness :
  exists s' msgs,
    handle_round small_stub
      (concat [small_lines "t0" "4" "System"; small_lines "t1" "88" "smss.exe"; small_lines "t2" "96" "csrss.exe"])
      (HL [] false true None []) = (Ok tt, s') /\
    hl_queue s' = hl_queue (HL [] false true None []) ++ msgs /\
    reports small_stub
      (zip_with (fun b ls => log_doc (block_time ls) "info" (block_json b))
         (removelast [small_block "4" "System"; small_block "88" "smss.exe"; small_block "96" "csrss.exe"])
         [small_lines "t1" "88" "smss.exe"; small_lines "t2" "96" "csrss.exe"]) msgs.
Proof.
  apply handles_reported.
  - apply small_stub_ok.
  - repeat (apply Forall_cons_2; [apply small_block_ok|]). constructor.
  - repeat (apply Forall2_cons_2; [by apply small_block_prints|]). constructor.
  - repeat (apply Forall_cons_2; [apply scalar_u|]). constructor.
Defined.

(** A path with blanks is lost: of more than two words after the type the first,
    which is the access, is reported as the path. *)
Theorem path_with_blanks_lost stub t r h type a p1 p2 rest s pid p :
  row_ok r -> row_all r = (h ++ [58]) :: type :: a :: p1 :: p2 :: rest -> has_code 58 h = false ->
  take 4 (row_text r) <> dashes -> parse_proc_info_next s = false ->
  hl_pid s = Some pid -> dict_get pid (proc_dict s) = Some p ->
  handle_line stub (t, row_line r) s =
  (Ok tt, set_procs s (dict_set pid
     (HProc (hp_pid p) (hp_image p) (hp_user p)
        (dict_set h (entry_json h type (u "(---)") a) (hp_handles p))) (proc_dict s))).
Proof.
  intros Hr Hall Hh Hd Hp Hpid Hdict. unfold handle_line. cbn [fst snd].
  destruct (row_read r Hr) as [-> Hstrip]. erewrite bind_step by done. rewrite Hstrip. cbv zeta.
  erewrite bind_step by done. rewrite Hp, bool_decide_eq_false_2 by done.
  unfold handle_info. rewrite usplit_row, Hall by done. cbv zeta. cbn [item lookup list_lookup opt_res].
  erewrite bind_step by done. rewrite usplit_app by done.
  do 4 (erewrite bind_step by done). rewrite Hpid. erewrite bind_step by done. rewrite Hdict.
  erewrite bind_step by done. done.
Qed.

Lemma path_with_blanks_lost_witness :
  handle_line small_stub (u "t", row_line (words_row 3 ["58:"; "File"; "(RWD)"; "C:\Program"] "Files"))
    (HL [(u "4", HProc (u "4") (u "System") [] [])] false false (Some (u "4")) []) =
  (Ok tt, set_procs (HL [(u "4", HProc (u "4") (u "System") [] [])] false false (Some (u "4")) [])
     (dict_set (u "4")
        (HProc (u "4") (u "System") []
           (dict_set (u "58") (entry_json (u "58") (u "File") (u "(---)") (u "(RWD)")) []))
        [(u "4", HProc (u "4") (u "System") [] [])])).
Proof.
  apply (path_with_blanks_lost small_stub (u "t") (words_row 3 ["58:"; "File"; "(RWD)"; "C:\Program"] "Files")
    (u "58") (u "File") (u "(RWD)") (u "C:\Program") (u "Files") []
    (HL [(u "4", HProc (u "4") (u "System") [] [])] false false (Some (u "4")) [])
    (u "4") (HProc (u "4") (u "System") [] [])).
  - by apply words_row_ok.
  - by vm_compute.
  - by vm_compute.
  - by vm_compute.
  - done.
  - done.
  - by vm_compute.
Defined.

(** An empty line, or a handle without a path, ends the sensor. *)
Theorem short_line_ends stub t s :
  parse_proc_info_next s = false ->
  handle_line stub (t, [byte_of 13; byte_of 10]) s = (Raise IndexError, s) /\
  handle_line stub (t, row_line (words_row 3 ["58:"] "Event")) s = (Raise IndexError, s).
Proof.
  intros Hp. unfold handle_line. cbn [fst snd]. split.
  - erewrite bind_step by (by vm_compute). cbv zeta. erewrite bind_step by done. rewrite Hp. by vm_compute.
  - destruct (row_read (words_row 3 ["58:"] "Event")) as [-> Hstrip]; [by apply words_row_ok|].
    erewrite bind_step by done. rewrite Hstrip. cbv zeta. erewrite bind_step by done. rewrite Hp. by vm_compute.
Qed.

Lemma short_line_ends_witness :
  let s := HL [] false false None [] in
  handle_line small_stub (u "t", [byte_of 13; byte_of 10]) s = (Raise IndexError, s) /\
  handle_line small_stub (u "t", row_line (words_row 3 ["58:"] "Event")) s = (Raise IndexError, s).
Proof. by apply short_line_ends. Defined.
