(* ===== verification/ServiceThreads.v ===== *)
(** The sensors that run as Windows services, while they run
    ([src/sensors/sensor_processlist/], [sensor_handlelist/], [sensor_kernelprobe/]
    and [sensor_tasklist/]): [start] in the thread of the service, [stop] in
    another one, and the tasks of the wrapper, whose loops go on while [running]
    is set.  The other files of the library say what a loop puts in a number of
    rounds; here is which rounds there are, for every order of the threads.

    Then the service [WinVirtUE_service] of [service_winvirtue.py] around its
    sensor thread, and the privileges that the process list sensor asks for
    ([_change_privileges] of [ntquerysys.py]).

    A request that replaces the sensing methods is left to [Actuation]. *)

From stdpp Require Import relations.
From S2P Require Import Prelude Json PyText Ctypes ConfigLoader CommandSensors WinService.
From S2P Require Import NtQuerySys ProcessList HandleList Tasks.
#[local] Open Scope Z_scope.

(** * The loops *)

(** What a sensing method puts in its first rounds, and whether they ended well. *)
Abbreviation method := (nat -> bool * list ustr).

(** A round only puts more. *)
Definition loop_law (m : method) : Prop :=
  m 0%nat = (true, []) /\ forall n, (m n).2 `prefix_of` (m (S n)).2.

(** What round [n] puts. *)
Definition added (m : method) (n : nat) : list ustr := drop (length (m n).2) (m (S n)).2.

Definition of_queue {S} (queue : S -> list ustr) (start : S) (rounds : nat -> M S unit) : method :=
  fun n => let '(r, s) := rounds n start in (is_ok r, queue s).

Definition kernelprobe_loop (stub : list (ustr * json)) (now : nat -> ustr) : method :=
  of_queue id [] (kernelprobe stub now).

(** [assess_kernelprobe] and [assess_handlelist]. *)
Definition assess_loop `{Sha512} (path : option string) (stub : list (ustr * json))
    (files : nat -> ustr * option file_stat) : method :=
  of_queue id [] (assess_kernelprobe path stub files).

Definition processlist_loop {W} `{NtSys W} (beyond : memory) (wide : Z -> ustr) (exn_text : exn -> ustr)
    (stub config : list (ustr * json)) (now : nat -> nat -> ustr) (w : W) : method :=
  of_queue snd (w, []) (process_monitor beyond wide exn_text stub config now).

Definition handlelist_loop (exec : list ustr -> nat -> lines) (path : option ustr)
    (stub : list (ustr * json)) : method :=
  of_queue hl_queue (HL [] false true None []) (handlelist exec path stub).

(** * A sensor as a service *)

(** A task: at the head of its loop before round [n]; within round [n], with what
    is still to be put; out of the loop after [n] rounds; ended by an exception of
    round [n]; cancelled. *)
Inductive task :=
  | AtHead (n : nat)
  | Within (pending : list ustr) (n : nat)
  | Ended (n : nat)
  | Raised (n : nat)
  | Cancelled.

(** Constructed; within the wrapper's [start] before the methods run; waiting for
    the stop; returned, from that wait or by an exception. *)
Inductive phase := Made | Starting | Up | Gone (stopped : bool).

Record service := Service {
  sv_running : bool;
  sv_event : bool;
  (** [stop] has cleared [_running] and goes on to the event *)
  sv_stopping : bool;
  sv_phase : phase;
  sv_tasks : list task;
  (** every message put so far, with its method *)
  sv_put : list (nat * ustr);
}.

(** [__init__] *)
Definition made : service := Service false false false Made [] [].

Section Life.

(** [notified]: the wrapper waits for the event of the service, which [stop] sets;
    tasklist has none.  [config] is what [start] makes of the configuration. *)
Context (methods : list method) (notified : bool) (config : res (list string)).

Inductive svc_step : relation service :=
  | svc_starts r e st ts q args :
      config = Ok args ->
      svc_step (Service r e st Made ts q) (Service true e st Starting ts q)
  | svc_refused r e st ts q x :
      config = Raise x ->
      svc_step (Service r e st Made ts q) (Service r e st (Gone false) ts q)
  | svc_spawns r e st ts q :
      svc_step (Service r e st Starting ts q) (Service r e st Up (map (fun _ => AtHead 0) methods) q)
  | svc_wrapper_raises r e st ts q :
      svc_step (Service r e st Starting ts q) (Service r e st (Gone false) ts q)
  | svc_begins e st ts q k n m :
      ts !! k = Some (AtHead n) -> methods !! k = Some m ->
      svc_step (Service true e st Up ts q) (Service true e st Up (<[k := Within (added m n) n]> ts) q)
  | svc_ends e st ts q k n :
      ts !! k = Some (AtHead n) ->
      svc_step (Service false e st Up ts q) (Service false e st Up (<[k := Ended n]> ts) q)
  | svc_puts r e st ts q k msg l n :
      ts !! k = Some (Within (msg :: l) n) ->
      svc_step (Service r e st Up ts q) (Service r e st Up (<[k := Within l n]> ts) (q ++ [(k, msg)]))
  | svc_sleeps r e st ts q k n m :
      ts !! k = Some (Within [] n) -> methods !! k = Some m -> (m (S n)).1 = true ->
      svc_step (Service r e st Up ts q) (Service r e st Up (<[k := AtHead (S n)]> ts) q)
  | svc_raises r e st ts q k n m :
      ts !! k = Some (Within [] n) -> methods !! k = Some m -> (m (S n)).1 = false ->
      svc_step (Service r e st Up ts q) (Service r e st Up (<[k := Raised n]> ts) q)
  | svc_group_ends r e st ts q k n :
      ts !! k = Some (Raised n) ->
      svc_step (Service r e st Up ts q) (Service r e st Up (map (fun _ => Cancelled) ts) q)
  | svc_leaves r st ts q :
      notified = true ->
      svc_step (Service r true st Up ts q)
        (Service r true st (Gone true) (map (fun _ => Cancelled) ts) q).

(** [stop], at any time. *)
Inductive stop_step : relation service :=
  | stop_clears r e st p ts q :
      stop_step (Service r e st p ts q) (Service false e true p ts q)
  | stop_notifies r e p ts q :
      stop_step (Service r e true p ts q) (Service r notified false p ts q).

Definition life_step (s s' : service) : Prop := svc_step s s' \/ stop_step s s'.

(** ** Whole rounds *)

(** What the task of a method has put, [seen]. *)
Definition task_ok (m : method) (seen : list ustr) (t : task) : Prop :=
  match t with
  | AtHead n | Ended n => (m n).1 = true /\ seen = (m n).2
  | Within l n => (m n).1 = true /\ seen ++ l = (m (S n)).2
  | Raised n => (m (S n)).1 = false /\ seen = (m (S n)).2
  | Cancelled => exists n, seen `prefix_of` (m n).2
  end.

Definition life_ok (s : service) : Prop :=
  match sv_phase s with Made | Starting => sv_put s = [] /\ sv_tasks s = [] | _ => True end /\
  (sv_tasks s = [] -> sv_put s = []) /\
  (sv_tasks s <> [] -> length (sv_tasks s) = length methods) /\
  forall k m t, methods !! k = Some m -> sv_tasks s !! k = Some t ->
    task_ok m (of_producer k (sv_put s)) t.

Context (Hloops : Forall loop_law methods).

Lemma added_rest m n : loop_law m -> (m n).2 ++ added m n = (m (S n)).2.
Proof. intros [_ H]. unfold added. destruct (H n) as [l ->]. by rewrite drop_app_length. Qed.

Lemma task_ok_prefix m seen t : task_ok m seen t -> exists n, seen `prefix_of` (m n).2.
Proof.
  destruct t as [n|l n|n|n|]; cbn; [intros [_ ->]; by exists n| |intros [_ ->]; by exists n|
    intros [_ ->]; by exists (S n)|done].
  intros [_ H]. exists (S n). rewrite <-H. by apply prefix_app_r.
Qed.

Lemma of_producer_pairs (j k : nat) (o : list ustr) :
  of_producer j (map (pair k) o) = if decide (k = j) then o else [].
Proof.
  induction o as [|x o IH]; [by destruct (decide (k = j))|].
  cbn [map]. rewrite of_producer_cons, IH. cbn. by destruct (decide (k = j)).
Qed.

(** The tasks after one of them took a step and put [o]. *)
Lemma task_moves (ts : list task) (q : list (nat * ustr)) k t o :
  (forall j m t, methods !! j = Some m -> ts !! j = Some t -> task_ok m (of_producer j q) t) ->
  (forall m, methods !! k = Some m -> task_ok m (of_producer k q ++ o) t) ->
  forall j m t', methods !! j = Some m -> <[k := t]> ts !! j = Some t' ->
    task_ok m (of_producer j (q ++ map (pair k) o)) t'.
Proof.
  intros Hall Hk j m t' Hm Hj.
  assert (of_producer j (q ++ map (pair k) o) = of_producer j q ++ if decide (k = j) then o else []) as ->.
  { rewrite of_producer_app. f_equal. apply of_producer_pairs. }
  destruct (decide (k = j)) as [->|Hne].
  - rewrite list_lookup_insert_eq in Hj by (rewrite <-(length_insert ts j t); by eapply lookup_lt_Some).
    injection Hj as <-. by apply Hk.
  - rewrite list_lookup_insert_ne in Hj by done. rewrite app_nil_r. by eapply Hall.
Qed.

Lemma life_ok_moves r e st r' e' st' ts q k t0 t o :
  ts !! k = Some t0 ->
  (forall m, methods !! k = Some m -> task_ok m (of_producer k q) t0 -> task_ok m (of_producer k q ++ o) t) ->
  life_ok (Service r e st Up ts q) ->
  life_ok (Service r' e' st' Up (<[k := t]> ts) (q ++ map (pair k) o)).
Proof.
  intros Hk Ht (_ & He & Hl & Hall). cbn in *.
  assert (ts <> []) as Hts by (intros ->; by rewrite lookup_nil in Hk).
  unfold life_ok. cbn. rewrite length_insert. split_and!; [done| |by auto|].
  - intros H%(f_equal length). rewrite length_insert in H. by destruct ts.
  - apply task_moves; [done|]. intros m Hm. apply Ht; [done|]. by eapply Hall.
Qed.

Lemma cancelled_ok p s r e st :
  match p with Gone _ | Up => True | _ => False end -> sv_phase s = Up -> life_ok s ->
  life_ok (Service r e st p (map (fun _ => Cancelled) (sv_tasks s)) (sv_put s)).
Proof.
  intros Hp Hs (_ & He & Hl & Hall). unfold life_ok. cbn. rewrite length_map. split_and!.
  - by destruct p.
  - intros H%map_eq_nil. by apply He.
  - intros H. apply Hl. intros E. rewrite E in H. by apply H.
  - intros k m t Hm Ht. rewrite list_lookup_fmap in Ht.
    destruct (sv_tasks s !! k) as [t0|] eqn:E; [|done]. injection Ht as <-.
    eapply task_ok_prefix. by eapply Hall.
Qed.

Lemma none_ok r e st r' e' st' p p' ts q :
  match p with Made | Starting => True | _ => False end -> life_ok (Service r e st p ts q) ->
  life_ok (Service r' e' st' p' ts q).
Proof.
  intros Hp (Hs & _). cbn in Hs. assert (q = [] /\ ts = []) as [-> ->] by (by destruct p).
  unfold life_ok. cbn. split_and!; [by destruct p'|done..|].
  intros k m t _ Ht. by rewrite lookup_nil in Ht.
Qed.

Lemma svc_step_ok s s' : svc_step s s' -> life_ok s -> life_ok s'.
Proof.
  destruct 1 as [r e st ts q args|r e st ts q x|r e st ts q|r e st ts q|e st ts q k n m Hk Hm|
    e st ts q k n Hk|r e st ts q k msg l n Hk|r e st ts q k n m Hk Hm Hok|r e st ts q k n m Hk Hm Hok|
    r e st ts q k n Hk|r st ts q]; intros Hs.
  - by apply (none_ok r e st _ _ _ Made).
  - by apply (none_ok r e st _ _ _ Made).
  - destruct Hs as ([Hq _] & _). cbn in Hq. subst q. unfold life_ok. cbn. split_and!; [done..| |].
    + intros _. apply length_map.
    + intros k m t Hm Ht. rewrite list_lookup_fmap, Hm in Ht. injection Ht as <-.
      rewrite Forall_lookup in Hloops. destruct (Hloops k m Hm) as [H0 _]. cbn. by rewrite H0.
  - by apply (none_ok r e st _ _ _ Starting).
  - rewrite <-(app_nil_r q). apply (life_ok_moves true e st _ _ _ ts q k (AtHead n) _ []); [done| |done].
    intros m' Hm' [Hok Heq]. assert (m' = m) as -> by congruence. rewrite app_nil_r. split; [done|].
    rewrite Heq. apply added_rest. rewrite Forall_lookup in Hloops. by eapply Hloops.
  - rewrite <-(app_nil_r q). apply (life_ok_moves false e st _ _ _ ts q k (AtHead n) _ []); [done| |done].
    intros m' Hm' H. by rewrite app_nil_r.
  - apply (life_ok_moves r e st _ _ _ ts q k (Within (msg :: l) n) _ [msg]); [done| |done].
    intros m' Hm' [Hok Heq]. split; [done|]. by rewrite <-app_assoc.
  - rewrite <-(app_nil_r q). apply (life_ok_moves r e st _ _ _ ts q k (Within [] n) _ []); [done| |done].
    intros m' Hm' [_ Heq]. assert (m' = m) as -> by congruence. by split.
  - rewrite <-(app_nil_r q). apply (life_ok_moves r e st _ _ _ ts q k (Within [] n) _ []); [done| |done].
    intros m' Hm' [_ Heq]. assert (m' = m) as -> by congruence. by split.
  - by apply (cancelled_ok Up (Service r e st Up ts q)).
  - by apply (cancelled_ok (Gone true) (Service r true st Up ts q)).
Qed.

Lemma life_step_ok s s' : life_step s s' -> life_ok s -> life_ok s'.
Proof. intros [H|[]]; [by apply svc_step_ok|done..]. Qed.

Lemma life_reaches_ok s : rtc life_step made s -> life_ok s.
Proof.
  revert s. apply rtc_ind_r; [|eauto using life_step_ok].
  unfold life_ok. cbn. split_and!; [done..|]. intros k m t _ Ht. by rewrite lookup_nil in Ht.
Qed.

(** ** After [stop] *)

(** What the round in which a task is has still to put. *)
Definition pending (k : nat) (s : service) : list ustr :=
  match sv_tasks s !! k with Some (Within l _) => l | _ => [] end.

Definition stopped (s : service) : Prop := sv_running s = false /\ sv_phase s <> Made.

Lemma moves_pending k k' t0 t o r e st p r' e' st' p' ts q :
  ts !! k = Some t0 ->
  (forall l, match t with Within l' _ => l' = l | _ => l = [] end ->
     o ++ l `prefix_of` match t0 with Within l' _ => l' | _ => [] end) ->
  exists o', of_producer k' (q ++ map (pair k) o) = of_producer k' q ++ o' /\
    o' ++ pending k' (Service r' e' st' p' (<[k := t]> ts) (q ++ map (pair k) o))
      `prefix_of` pending k' (Service r e st p ts q).
Proof.
  intros Hk Ht. exists (if decide (k = k') then o else []).
  rewrite of_producer_app, of_producer_pairs. split; [done|]. unfold pending. cbn.
  destruct (decide (k = k')) as [->|Hne].
  - rewrite list_lookup_insert_eq by (by eapply lookup_lt_Some). rewrite Hk.
    specialize (Ht match t with Within l' _ => l' | _ => [] end). destruct t; by apply Ht.
  - by rewrite list_lookup_insert_ne.
Qed.

Lemma moves_quiet k k' t0 t r e st p r' e' st' p' ts q :
  ts !! k = Some t0 ->
  (forall l, match t with Within l' _ => l' = l | _ => l = [] end ->
     l `prefix_of` match t0 with Within l' _ => l' | _ => [] end) ->
  exists o, of_producer k' q = of_producer k' q ++ o /\
    o ++ pending k' (Service r' e' st' p' (<[k := t]> ts) q) `prefix_of` pending k' (Service r e st p ts q).
Proof.
  intros Hk Ht. pose proof (moves_pending k k' t0 t [] r e st p r' e' st' p' ts q Hk Ht) as H.
  cbn [map] in H. by rewrite app_nil_r in H.
Qed.

Lemma nothing_pending k q s' s : sv_put s' = q -> sv_put s = q ->
  (forall l n, sv_tasks s' !! k = Some (Within l n) -> l = []) ->
  exists o, of_producer k (sv_put s') = of_producer k (sv_put s) ++ o /\
    o ++ pending k s' `prefix_of` pending k s.
Proof.
  intros -> -> Hl. exists []. rewrite app_nil_r. split; [done|]. unfold pending at 1.
  destruct (sv_tasks s' !! k) as [[]|] eqn:E; try apply prefix_nil.
  rewrite (Hl _ _ eq_refl). apply prefix_nil.
Qed.

Lemma no_round_begins k s s' : life_step s s' -> stopped s ->
  stopped s' /\ exists o, of_producer k (sv_put s') = of_producer k (sv_put s) ++ o /\
    o ++ pending k s' `prefix_of` pending k s.
Proof.
  assert (forall (ts : list task) l n, map (fun _ => Cancelled) ts !! k = Some (Within l n) -> l = []) as Hc.
  { intros ts l n H. rewrite list_lookup_fmap in H. by destruct (ts !! k). }
  intros [Hs|Hs] [Hr Hp].
  - destruct Hs as [r e st ts q args|r e st ts q x|r e st ts q|r e st ts q|e st ts q j n m Hk Hm|
      e st ts q j n Hk|r e st ts q j msg l n Hk|r e st ts q j n m Hk Hm Hok|r e st ts q j n m Hk Hm Hok|
      r e st ts q j n Hk|r st ts q]; cbn in Hr, Hp; try done; (split; [by split|]).
    + apply (nothing_pending k q); [done..|]. cbn. intros l n H.
      rewrite list_lookup_fmap in H. by destruct (methods !! k).
    + exists []. by rewrite app_nil_r.
    + apply (moves_quiet j k (AtHead n)); [done|]. by intros l ->.
    + apply (moves_pending j k (Within (msg :: l) n) _ [msg]); [done|]. by intros l' ->.
    + apply (moves_quiet j k (Within [] n)); [done|]. by intros l ->.
    + apply (moves_quiet j k (Within [] n)); [done|]. by intros l ->.
    + apply (nothing_pending k q); [done..|]. apply Hc.
    + apply (nothing_pending k q); [done..|]. apply Hc.
  - destruct Hs; (split; [by split|]); exists []; by rewrite app_nil_r.
Qed.

(** ** The end *)

Definition task_left (t : task) : nat :=
  match t with
  | AtHead _ | Raised _ => 1
  | Within l _ => length l + 2
  | Ended _ | Cancelled => 0
  end.

(** A bound on the steps of a service that was stopped. *)
Definition life_left (s : service) : nat :=
  match sv_phase s with
  | Made | Starting => length methods + 2
  | Up => S (sum_list (map task_left (sv_tasks s)))
  | Gone _ => 0
  end.

Lemma left_moves (ts : list task) k t0 t : ts !! k = Some t0 -> (task_left t < task_left t0)%nat ->
  (sum_list (map task_left (<[k := t]> ts)) < sum_list (map task_left ts))%nat.
Proof.
  intros Hk Hlt. change (map task_left (<[k := t]> ts)) with (task_left <$> <[k := t]> ts).
  rewrite list_fmap_insert. change (task_left <$> ts) with (map task_left ts).
  pose proof (sum_insert (map task_left ts) k (task_left t0) (task_left t)) as H.
  rewrite list_lookup_fmap, Hk in H. specialize (H eq_refl). lia.
Qed.

Lemma left_const {A} (ts : list A) t : sum_list (map task_left (map (fun _ => t) ts)) = (length ts * task_left t)%nat.
Proof. induction ts as [|x ts IH]; cbn in *; lia. Qed.

Lemma stopped_left s s' : svc_step s s' -> stopped s -> (life_left s' < life_left s)%nat.
Proof.
  intros Hs [Hr Hp].
  destruct Hs as [r e st ts q args|r e st ts q x|r e st ts q|r e st ts q|e st ts q j n m Hk Hm|
    e st ts q j n Hk|r e st ts q j msg l n Hk|r e st ts q j n m Hk Hm Hok|r e st ts q j n m Hk Hm Hok|
    r e st ts q j n Hk|r st ts q]; cbn in Hr, Hp; try done; unfold life_left; cbn [sv_phase sv_tasks];
    try (apply -> Nat.succ_lt_mono; eapply left_moves; [done|cbn; lia]); try lia.
  - rewrite left_const. cbn. lia.
  - rewrite left_const. cbn. pose proof (sum_lookup (map task_left ts) j 1) as H.
    rewrite list_lookup_fmap, Hk in H. specialize (H eq_refl). lia.
Qed.

Lemma stopped_bound n s s' : nsteps svc_step n s s' -> stopped s -> (n <= life_left s)%nat.
Proof.
  induction 1 as [|n s1 s2 s3 H12 _ IH]; intros Hs; [lia|].
  pose proof (stopped_left _ _ H12 Hs). destruct (no_round_begins 0 s1 s2 (or_introl H12) Hs) as [Hs2 _].
  specialize (IH Hs2). lia.
Qed.

(** A task whose loop is over. *)
Definition over (t : task) : bool := match t with Ended _ | Cancelled => true | _ => false end.

(** Where a service comes to rest after a stop: it has returned, or it has no event
    to wait for, all its loops are over and it waits. *)
Definition at_rest (s : service) : Prop :=
  (exists b, sv_phase s = Gone b) \/
  notified = false /\ sv_phase s = Up /\ Forall (fun t => over t = true) (sv_tasks s).

Lemma nf_tasks_over e st ts q : nf svc_step (Service false e st Up ts q) -> life_ok (Service false e st Up ts q) ->
  Forall (fun t => over t = true) ts.
Proof.
  intros Hn (_ & _ & Hlen & _). cbn in Hlen. apply Forall_lookup. intros k t Hk.
  assert (exists m, methods !! k = Some m) as [m Hm].
  { apply lookup_lt_is_Some. rewrite <-Hlen; [by eapply lookup_lt_Some|].
    intros ->. by rewrite lookup_nil in Hk. }
  destruct t as [n|[|msg l] n|n|n|]; [| | |done| |done]; destruct Hn.
  - eexists. by eapply svc_ends.
  - destruct (m (S n)).1 eqn:Hr; eexists; [by eapply svc_sleeps|by eapply svc_raises].
  - eexists. by eapply svc_puts.
  - eexists. by eapply svc_group_ends.
Qed.

Lemma nf_at_rest s : nf svc_step s -> life_ok s -> stopped s -> sv_event s = notified -> at_rest s.
Proof.
  intros Hn Hok [Hr Hp] He. destruct s as [r e st p ts q]. cbn in Hr, Hp, He. subst r e.
  destruct p as [| | |b]; [done| | |left; by eexists].
  - destruct Hn. eexists. apply svc_wrapper_raises.
  - assert (notified = true \/ notified = false) as [E|E] by (destruct notified; auto).
    + destruct Hn. rewrite E. eexists. by apply svc_leaves.
    + right. split_and!; [done|done|]. by eapply nf_tasks_over.
Qed.

End Life.

(** * The loops of the sensors *)

(** A computation that only puts more on the queue. *)
Definition grows {S A} (queue : S -> list ustr) (m : M S A) : Prop :=
  forall s, queue s `prefix_of` queue (m s).2.

Create HintDb grows.

Section Grows.

Context {S : Type} (queue : S -> list ustr).

Lemma grows_bind {A B} (m : M S A) (f : A -> M S B) :
  grows queue m -> (forall a, grows queue (f a)) -> grows queue (bind m f).
Proof.
  intros Hm Hf s. unfold bind. specialize (Hm s). destruct (m s) as [[a|e] s1]; [|done].
  etrans; [exact Hm|apply Hf].
Qed.

Lemma grows_catch {A} (m : M S A) h : grows queue m -> (forall e, grows queue (h e)) -> grows queue (catch m h).
Proof.
  intros Hm Hh s. unfold catch. specialize (Hm s). destruct (m s) as [[a|e] s1]; [done|].
  etrans; [exact Hm|apply Hh].
Qed.

Lemma grows_read_only {A} (m : M S A) : read_only m -> grows queue m.
Proof. intros H s. by rewrite H. Qed.

Lemma grows_modify f : (forall s, queue s `prefix_of` queue (f s)) -> grows queue (modify f).
Proof. intros H s. apply H. Qed.

Lemma grows_for_each {A} (f : A -> M S unit) l : (forall a, grows queue (f a)) -> grows queue (for_each f l).
Proof.
  intros Hf. induction l as [|a l IH]; [by intros s|]. by apply grows_bind.
Qed.

(** A loop whose rounds put more is a loop of a service. *)
Lemma of_queue_law start (f : nat -> M S unit) :
  queue start = [] -> (forall n, grows queue (f n)) ->
  loop_law (of_queue queue start (fun n => for_each f (seq 0 n))).
Proof.
  intros Hs Hf. split; [unfold of_queue; cbn; by rewrite Hs|]. intros n. unfold of_queue.
  rewrite seq_S, for_each_app. unfold bind. destruct (for_each f (seq 0 n) start) as [[[]|e] s]; [|done].
  cbn [for_each plus]. pose proof (grows_bind (f n) (fun _ => ret tt) (Hf n) (fun _ s => reflexivity _) s) as H.
  by destruct (bind (f n) _ s).
Qed.

End Grows.

#[export] Hint Resolve grows_bind grows_catch grows_for_each : grows.
#[export] Hint Extern 1 (grows _ (lift _)) => apply grows_read_only, read_only_lift : grows.
#[export] Hint Extern 1 (grows _ (ret _)) => apply grows_read_only, read_only_ret : grows.
#[export] Hint Extern 1 (grows _ (throw _)) => apply grows_read_only, read_only_throw : grows.

Lemma put_log_grows stub doc : grows id (put_log stub doc).
Proof. apply grows_modify. intros s. by exists [dumps (JObj (dict_update doc stub))]. Qed.

#[export] Hint Resolve put_log_grows : grows.

Lemma kernelprobe_law stub now : loop_law (kernelprobe_loop stub now).
Proof. apply of_queue_law; [done|]. intros n. apply put_log_grows. Qed.

Lemma assess_law `{Sha512} path stub files : loop_law (assess_loop path stub files).
Proof. apply of_queue_law; [done|]. intros n. destruct path; [apply put_log_grows|by intros s]. Qed.

Lemma report_process_grows beyond wide stub config e : grows id (report_process beyond wide stub config e).
Proof.
  destruct e as [now [proc_obj thd_obj]]. unfold report_process. apply grows_bind; [auto with grows|].
  intros pid. destruct (negb _); auto with grows.
Qed.

Lemma processlist_law {W} `{NtSys W} beyond wide exn_text stub config now w :
  loop_law (processlist_loop beyond wide exn_text stub config now w).
Proof.
  apply of_queue_law; [done|]. intros n [w0 q]. unfold process_round.
  destruct (get_process_objects beyond wide None w0) as [r w1]. cbn zeta.
  match goal with |- context [(catch ?m ?h) q] => assert (grows id (catch m h)) as Hg end.
  { apply grows_catch; [|auto with grows]. apply grows_bind; [auto with grows|]. intros [ys ended].
    apply grows_bind; [apply grows_for_each, report_process_grows|].
    intros _. destruct ended; auto with grows. }
  specialize (Hg q). by destruct (catch _ _ q).
Qed.

Lemma handle_line_grows stub e : grows hl_queue (handle_line stub e).
Proof.
  unfold handle_line. apply grows_bind; [auto with grows|]. intros text.
  apply grows_bind; [by intros s|]. intros s0. destruct (parse_proc_info_next s0); [|case_bool_decide].
  - unfold process_info. repeat (apply grows_bind; [first [by auto with grows|by apply grows_modify]|]; intros ?).
    by apply grows_modify.
  - intros s. cbn. destruct (first_time_through s); [done|by apply prefix_app_r].
  - unfold handle_info. repeat (apply grows_bind; [first [by auto with grows|by intros s]|]; intros ?).
    by apply grows_modify.
Qed.

Lemma handlelist_law exec path stub : loop_law (handlelist_loop exec path stub).
Proof.
  apply of_queue_law; [done|]. intros n. destruct path; [|by intros s].
  apply grows_bind; [by apply grows_modify|]. intros _. apply grows_for_each, handle_line_grows.
Qed.

(** [start] of tasklist, up to the arguments; its configuration is read when it is
    constructed. *)
Definition tasklist_start (config : sections) : res (list string) :=
  match dict_get "parameters" config with
  | Some params => Ok (map (fun kv => "--" +:+ kv.1 +:+ "=" +:+ kv.2) params)
  | None => Raise SystemExit
  end.

(** * Theorems on the life of a sensor *)


(** Safety: after [stop] no method begins a round: of what it puts from then on,
    all belongs to the round it was in, in order. *)
Theorem stop_ends_rounds methods notified config s s' k :
  stopped s -> rtc (life_step methods notified config) s s' ->
  stopped s' /\ exists l, of_producer k (sv_put s') = of_producer k (sv_put s) ++ l /\
    l `prefix_of` pending k s.
Proof.
  intros Hs Hss. enough (stopped s' /\ exists l, of_producer k (sv_put s') = of_producer k (sv_put s) ++ l /\
    l ++ pending k s' `prefix_of` pending k s) as (Hs' & l & E & Hp).
  { split; [done|]. exists l. split; [done|]. etrans; [|exact Hp]. by apply prefix_app_r. }
  revert s' Hss. apply rtc_ind_r.
  - split; [done|]. exists []. by rewrite app_nil_r.
  - intros s1 s2 _ H12 (Hs1 & l & E & Hp).
    destruct (no_round_begins _ _ _ k s1 s2 H12 Hs1) as (Hs2 & o & E2 & Hp2). split; [done|].
    exists (l ++ o). rewrite E2, E, <-!app_assoc. split; [done|].
    etrans; [|exact Hp]. by apply prefix_app.
Qed.


(** Safety: [wait_for_service_stop] returns only when [stop] was called; without the
    event, as in tasklist, it is no way out even then, and the program stays. *)
Theorem stays_until_stopped methods config s :
  (rtc (svc_step methods true config) made s -> sv_phase s <> Gone true) /\
  (rtc (life_step methods false config) made s -> sv_phase s <> Gone true).
Proof.
  split; revert s.
  - enough (forall s, rtc (svc_step methods true config) made s -> sv_event s = false /\ sv_phase s <> Gone true)
      as H by (intros s Hs; by apply H).
    apply rtc_ind_r; [done|]. intros s1 s2 _ H12 [He Hp]. destruct H12; cbn in *; split; congruence.
  - apply rtc_ind_r; [done|]. intros s1 s2 _ H12 Hp.
    destruct H12 as [H12|H12]; destruct H12; cbn in *; congruence.
Qed.

(** * The service WinVirtUE *)

Inductive thread_state := Unstarted | Alive | Finished.
Inductive main_state := NotYet | Waiting | Returned.

(** The constants of [win32service]; the second is an access right, the status
    would be [SERVICE_STOPPED], 1. *)
Definition SERVICE_STOP_PENDING : Z := 3.
Definition SERVICE_STOP : Z := 32.

Record host := Host {
  ho_svcthd : thread_state;
  ho_do_run : main_state;
  (** [hWaitStop]; a wait that returns resets it *)
  ho_wait_stop : bool;
  (** calls of [SvcStop] that wait for the thread, at most 15 seconds *)
  ho_joining : nat;
  ho_status : list Z;
}.

(** [__init__] *)
Definition host_made : host := Host Unstarted NotYet false 0 [].

(** [SvcDoRun], the sensor's thread, and the rest of a [SvcStop] that waits. *)
Inductive host_step : relation host :=
  | host_runs w j st :
      host_step (Host Unstarted NotYet w j st) (Host Alive Waiting w j st)
  | host_thread_ends m w j st :
      host_step (Host Alive m w j st) (Host Finished m w j st)
  | host_joined t m w j st :
      host_step (Host t m w (S j) st) (Host t m true j (st ++ [SERVICE_STOP]))
  | host_returns t j st :
      host_step (Host t Waiting true j st) (Host t Returned false j st).

(** [SvcStop], which [SvcShutdown] calls, up to [join]: of a thread that was not
    started it raises [RuntimeError], and the rest is not done. *)
Inductive svc_stop_step : relation host :=
  | svc_stop_joins t m w j st :
      t <> Unstarted ->
      svc_stop_step (Host t m w j st) (Host t m w (S j) (st ++ [SERVICE_STOP_PENDING]))
  | svc_stop_raises m w j st :
      svc_stop_step (Host Unstarted m w j st) (Host Unstarted m w j (st ++ [SERVICE_STOP_PENDING])).

Definition host_left (s : host) : nat :=
  2 * ho_joining s + match ho_svcthd s with Unstarted => 3 | Alive => 1 | Finished => 0 end +
  match ho_do_run s with NotYet => 1 | Waiting => 1 | Returned => 0 end.

Lemma host_step_left s s' : host_step s s' -> (host_left s' < host_left s)%nat.
Proof. destruct 1; unfold host_left; cbn; destruct_and?; try destruct t; try destruct m; lia. Qed.

Lemma host_bound n s s' : nsteps host_step n s s' -> (n <= host_left s)%nat.
Proof.
  induction 1 as [|n s1 s2 s3 H12 _ IH]; [lia|]. pose proof (host_step_left _ _ H12). lia.
Qed.

(** Liveness: a stop that comes when [SvcDoRun] waits has it return, after a bounded
    number of steps, whatever the sensor's thread does. *)
Theorem svc_stop_returns s s1 :
  ho_do_run s = Waiting -> ho_svcthd s <> Unstarted -> svc_stop_step s s1 ->
  (forall n s', nsteps host_step n s1 s' -> (n <= host_left s1)%nat) /\
  forall s', rtc host_step s1 s' -> nf host_step s' -> ho_do_run s' = Returned.
Proof.
  intros Hw Ht Hs. split; [intros n s'; apply host_bound|].
  assert (ho_do_run s1 = Returned \/ ho_do_run s1 = Waiting /\ (ho_wait_stop s1 = true \/ (0 < ho_joining s1)%nat))
    as H1 by (destruct Hs; cbn in *; [right; split; [done|right; lia]|done]).
  intros s' Hss Hnf.
  enough (ho_do_run s' = Returned \/ ho_do_run s' = Waiting /\ (ho_wait_stop s' = true \/ (0 < ho_joining s')%nat))
    as [|[Hr Hd]]; [done| |].
  - exfalso. apply Hnf. destruct s' as [t m w j st]. cbn in Hr, Hd. subst m.
    destruct Hd as [->|Hj]; [eexists; apply host_returns|].
    destruct j; [lia|]. eexists. apply host_joined.
  - clear Hnf. revert s' Hss. apply rtc_ind_r; [done|]. intros s2 s3 _ H23 H2.
    destruct H23; cbn in *; intuition (try done; try lia); auto.
Qed.

(** Divergence: a stop that comes before [SvcDoRun] has started the thread is lost:
    without another one [SvcDoRun] does not return, in whatever order. *)
Theorem early_stop_lost s s' :
  svc_stop_step host_made s -> rtc host_step s s' -> ho_do_run s' <> Returned.
Proof.
  intros Hs Hss. enough (ho_wait_stop s' = false /\ ho_joining s' = 0%nat /\ ho_do_run s' <> Returned) as H
    by (by destruct H as (_ & _ & H)).
  revert s' Hss. apply rtc_ind_r; [inversion Hs; by subst|].
  intros s1 s2 _ H12 (Hw & Hj & Hr). destruct H12; cbn in *; done.
Qed.

(** * Privileges *)

(** What Windows does; of [AdjustTokenPrivileges] the truth of its result. *)
Class Tokens (W : Type) := {
  OpenProcessToken : W -> res Z * W;
  AdjustTokenPrivileges : Z -> bool -> list (Z * Z) -> W -> res bool * W;
  CloseToken : Z -> W -> W }.

(** Which tokens are open. *)
Class TokensLaws (W : Type) `{Tokens W} (tokens : W -> list Z) := {
  open_token w : match OpenProcessToken w with
    | (Ok h, w') => if h =? 0 then tokens w' = tokens w else tokens w' = h :: tokens w
    | (Raise _, w') => tokens w' = tokens w
    end;
  adjust_token h d privs w : tokens (AdjustTokenPrivileges h d privs w).2 = tokens w;
  close_token h ts w : tokens w = h :: ts -> tokens (CloseToken h w) = ts }.

Section Privileges.

Context {W : Type} `{Tokens W}.

Definition _change_privileges (disable_privilege : bool) (privs : list (Z * Z)) : M W bool :=
  do hProcToken <- OpenProcessToken;
  if hProcToken =? 0 then ret false
  else fun w =>
    let '(success, w) := AdjustTokenPrivileges hProcToken disable_privilege privs w in
    (success, CloseToken hProcToken w).

Definition acquire_privileges (privs : list (Z * Z)) : M W bool := _change_privileges false privs.
Definition release_privileges (privs : list (Z * Z)) : M W bool := _change_privileges true privs.

Definition SE_PRIVILEGE_ENABLED : Z := 2.

(** [new_privs] *)
Definition new_privs (LookupPrivilegeValue : string -> Z) : list (Z * Z) :=
  map (fun name => (LookupPrivilegeValue name, SE_PRIVILEGE_ENABLED))
    ["SeSecurityPrivilege"; "SeCreatePermanentPrivilege"; "SeDebugPrivilege"].

(** [__init__] of the process list sensor. *)
Definition processlist_init (LookupPrivilegeValue : string -> Z) : M W service :=
  do success <- acquire_privileges (new_privs LookupPrivilegeValue);
  if success then ret made else throw SystemExit.

(** Safety: however the request for privileges ends, no token stays open, and the
    sensor is constructed only when it was granted. *)
Theorem tokens_closed (tokens : W -> list Z) `{!TokensLaws W tokens} lookup w :
  tokens (processlist_init lookup w).2 = tokens w /\
  match (processlist_init lookup w).1 with
  | Ok s => (acquire_privileges (new_privs lookup) w).1 = Ok true /\ s = made
  | Raise e => (acquire_privileges (new_privs lookup) w).1 = Raise e \/ e = SystemExit
  end.
Proof.
  assert (tokens (acquire_privileges (new_privs lookup) w).2 = tokens w) as Ht.
  { unfold acquire_privileges, _change_privileges, bind. pose proof (open_token (tokens := tokens) w) as Ho.
    destruct (OpenProcessToken w) as [[h|e] w1]; [|done]. destruct (h =? 0); [done|].
    pose proof (adjust_token (tokens := tokens) h false (new_privs lookup) w1) as Ha.
    destruct (AdjustTokenPrivileges h false (new_privs lookup) w1) as [r w2]. cbn in *.
    apply close_token. congruence. }
  unfold processlist_init, bind. destruct (acquire_privileges _ w) as [[[]|e] w1]; cbn in *; auto.
Qed.

End Privileges.

(** * Witnesses *)

(** kernelprobe, stopped while it sleeps after its first round. *)
Definition small_loops : list method := [kernelprobe_loop [] (fun _ => u "now")].
Definition small_message : ustr :=
  dumps (JObj (log_doc (u "now") "info" (JObj [(u "Test", JInt 123)]))).
Definition small_stopped : service :=
  Service false true false Up [AtHead 1] [(0%nat, small_message)].

Lemma small_loops_ok : Forall loop_law small_loops.
Proof. repeat constructor; apply kernelprobe_law. Qed.

Lemma small_life : rtc (life_step small_loops true (Ok [])) made small_stopped.
Proof.
  eapply rtc_l; [left; by eapply svc_starts|].
  eapply rtc_l; [left; apply svc_spawns|].
  eapply rtc_l; [left; by eapply (svc_begins _ _ _ _ _ _ _ 0)|].
  eapply rtc_l; [left; by eapply (svc_puts _ _ _ _ _ _ _ _ 0)|].
  eapply rtc_l; [left; by eapply (svc_sleeps _ _ _ _ _ _ _ _ 0)|].
  eapply rtc_l; [right; apply stop_clears|].
  eapply rtc_l; [right; apply stop_notifies|].
  apply rtc_refl.
Qed.


Lemma stop_ends_rounds_witness :
  exists l, of_producer 0%nat [(0%nat, small_message)] = of_producer 0%nat [(0%nat, small_message)] ++ l /\
    l `prefix_of` [].
Proof.
  eapply (proj2 (stop_ends_rounds small_loops true (Ok []) small_stopped
    (Service false true false Up [Ended 1] [(0%nat, small_message)]) 0 _ _)).
  Unshelve.
  - by split.
  - apply rtc_once. left. by eapply (svc_ends _ _ _ true false [AtHead 1] _ 0).
Defined.


Definition small_waiting : host := Host Alive Waiting false 0 [].

Lemma svc_stop_returns_witness :
  ho_do_run (Host Finished Returned false 0 [SERVICE_STOP_PENDING; SERVICE_STOP]) = Returned.
Proof.
  eapply (proj2 (svc_stop_returns small_waiting (Host Alive Waiting false 1 [SERVICE_STOP_PENDING])
    eq_refl _ _)).
  - eapply rtc_l; [apply host_thread_ends|]. eapply rtc_l; [apply host_joined|].
    eapply rtc_l; [apply host_returns|]. apply rtc_refl.
  - intros [s Hs]. inversion Hs.
  Unshelve. 1: done. by apply (svc_stop_joins Alive Waiting false 0 []).
Defined.

Lemma early_stop_lost_witness : ho_do_run (Host Alive Waiting false 0 [SERVICE_STOP_PENDING]) <> Returned.
Proof.
  eapply early_stop_lost.
  - apply (svc_stop_raises NotYet false 0 []).
  - apply rtc_once. apply host_runs.
Defined.

(** A system that grants everything. *)
#[local] Instance small_tokens : Tokens (list Z) := {|
  OpenProcessToken ts := (Ok 4, 4 :: ts);
  AdjustTokenPrivileges _ _ _ ts := (Ok true, ts);
  CloseToken _ ts := tail ts |}.

#[local] Instance small_tokens_laws : TokensLaws (list Z) id.
Proof. split; [done..|]. intros h ts w E. unfold id in E. by subst. Qed.

Lemma tokens_closed_witness : (processlist_init (fun _ => 20) []).2 = [].
Proof. exact (proj1 (tokens_closed id (fun _ => 20) [])). Defined.
