(* ===== verification/Pipeline.v ===== *)
(** From an observation to Kafka: the sensing methods of the sensors, the wrapper
    that runs them while the API reconfigures it ([Actuation]), and the values that
    its log drains send.

    What the wrapper needs of a sensing method is the class [Source].  The theorem
    is proved against it, and the instances are the methods of several sensors on
    everything that their commands, tools or the kernel module may print. *)

From stdpp Require Import relations.
From S2P Require Import Prelude Json JsonLayout NfsConst Layers Scapy Rpc NfsState NfsHandler NfsSensor.
From S2P Require Import Ctypes NtStructs Bridge WinVirtue.
From S2P Require Import Http WrapperConfig Wrapper Actuation.
From S2P Require Import PyText Tasks CommandSensors BccSensor KernelRelay NtQuerySys ProcessList.
#[local] Open Scope Z_scope.

(** * The contract of a sensing method *)

(** A message as the methods put it: the document under the stub, in one line. *)
Definition framed (stub doc : list (ustr * json)) (msg : ustr) : Prop :=
  doc_ok doc /\ exists e, blank e /\ Json.ascii_text e /\ msg = message_of stub doc ++ e.

(** [puts stub i]: the messages of a run of the method on the input [i], of which
    [tells i] says what is to be reported. *)
Class Source (In : Type) := {
  puts : list (ustr * json) -> In -> list ustr;
  tells : In -> list (list (ustr * json)) -> Prop;
  source_ok : In -> Prop;
  source_law stub i :
    stub_ok stub -> dict_has (u "sensor_id") stub = true -> dict_has (u "sensor_name") stub = true ->
    source_ok i -> exists docs, tells i docs /\ Forall2 (framed stub) docs (puts stub i) }.

(** A value that reached Kafka: the text of an object with the items of the stub
    and, where it does not override them, those of the document. *)
Definition delivers (stub doc : list (ustr * json)) (value : bytes) : Prop :=
  exists text d, utf8_decode value = Ok text /\ loads text = Ok (JObj d) /\
    forall k, dict_get k d = match dict_get k stub with
                             | Some v => Some v
                             | None => dict_get k doc
                             end.

Lemma framed_message_wf stub doc : stub_ok stub -> doc_ok doc -> jwf (JObj (dict_update doc stub)).
Proof.
  intros Hs [Hn Hf]. apply jwf_obj. split; [by apply dict_update_nodup|].
  by apply dict_update_Forall; [|apply Hs].
Qed.

Lemma framed_delivers stub doc msg : stub_ok stub -> framed stub doc msg ->
  exists value, encode (JStr msg) = Ok value /\ delivers stub doc value.
Proof.
  intros Hs (Hd & e & Hb & He & ->). pose proof (framed_message_wf stub doc Hs Hd) as Hw.
  assert (Json.ascii_text (message_of stub doc ++ e)) as Ha.
  { apply Forall_app. split; [|done]. by apply printable_ascii, dumps_printable. }
  eexists. split; [by apply encode_ascii|]. exists (message_of stub doc ++ e), (dict_update doc stub).
  split_and!.
  - by apply utf8_decode_ascii.
  - apply (loads_reads_as _ [] (message_of stub doc) e); [constructor| |done]. by apply reads_as_dumps.
  - intros k. apply dict_update_get, Hs.
Qed.

Lemma msg_stub_ok self sensor_id : stub_ok (msg_stub self sensor_id).
Proof.
  split; [by apply (bool_decide_unpack _)|].
  repeat (apply Forall_cons_2; [split; [apply scalar_u|apply scalar_u]|]). constructor.
Qed.

(** * The way to Kafka *)

(** A run of some sensing method: the method and its input. *)
Record method := Method { me_in : Type; me_source : Source me_in; me_input : me_in }.
Arguments Method {me_in me_source} me_input.

Definition method_puts (stub : list (ustr * json)) (m : method) : list ustr :=
  puts (Source := me_source m) stub (me_input m).
Definition method_tells (m : method) : list (list (ustr * json)) -> Prop :=
  tells (Source := me_source m) (me_input m).
Definition method_ok (m : method) : Prop := source_ok (Source := me_source m) (me_input m).

(** The documents of a method, of which its messages are the first. *)
Definition recounts (stub : list (ustr * json)) (m : method) (docs told : list (list (ustr * json)))
    (put : list ustr) : Prop :=
  method_tells m docs /\ Forall2 (framed stub) docs (method_puts stub m) /\
  told `prefix_of` docs /\ length told = length put.

Lemma recounts_next stub m docs told put msg :
  recounts stub m docs told put -> put ++ [msg] `prefix_of` method_puts stub m ->
  exists doc, framed stub doc msg /\ recounts stub m docs (told ++ [doc]) (put ++ [msg]).
Proof.
  intros (Ht & Hf & [rest ->] & Hl) [more Hm]. pose proof Hf as Hf'. rewrite Hm, <-app_assoc in Hf'.
  apply Forall2_app_inv in Hf' as [_ Hf']; [|done].
  apply Forall2_cons_inv_r in Hf' as (doc & rest' & Hdoc & _ & ->).
  exists doc. split; [done|]. split_and!; [done..| |by rewrite !length_app, Hl].
  exists rest'. by rewrite <-app_assoc.
Qed.

Lemma recounts_all stub m docs told put :
  recounts stub m docs told put -> put = method_puts stub m -> told = docs.
Proof.
  intros (_ & Hf & [rest ->] & Hl) ->. apply Forall2_length in Hf. rewrite length_app in Hf.
  assert (rest = []) as -> by (apply nil_length_inv; lia). by rewrite app_nil_r.
Qed.

(** Messages of several methods, in any order: for each the document it is of. *)
Lemma messages_told (runs : origin -> method) stub put :
  stub_ok stub -> dict_has (u "sensor_id") stub = true -> dict_has (u "sensor_name") stub = true ->
  (forall o, method_ok (runs o) /\ of_producer o put `prefix_of` method_puts stub (runs o)) ->
  exists told, Forall2 (fun d p => d.1 = p.1 /\ framed stub d.2 p.2) told put /\
    forall o, exists docs, recounts stub (runs o) docs (of_producer o told) (of_producer o put).
Proof.
  intros Hs Hid Hname. induction put as [|[o msg] put IH] using rev_ind; intros Hp.
  - exists []. split; [done|]. intros o. destruct (Hp o) as [Ho _].
    destruct (source_law (Source := me_source (runs o)) stub _ Hs Hid Hname Ho) as (docs & Ht & Hf).
    exists docs. split_and!; [done..|apply prefix_nil|done].
  - destruct IH as (told & Hf & Ht).
    { intros o'. destruct (Hp o') as [Ho Hpre]. split; [done|]. rewrite of_producer_app in Hpre.
      by eapply prefix_app_l. }
    destruct (Ht o) as (docs & Hd). destruct (Hp o) as [_ Hm].
    rewrite of_producer_snoc in Hm. cbn [fst snd] in Hm. rewrite decide_True in Hm by done.
    destruct (recounts_next _ _ _ _ _ _ Hd Hm) as (doc & Hdoc & Hd').
    exists (told ++ [(o, doc)]). split; [by apply Forall2_app; [|constructor]|]. intros o'.
    rewrite !of_producer_snoc. cbn [fst snd]. case_decide as E; [subst o'; by exists docs|].
    rewrite !app_nil_r. apply Ht.
Qed.

(** C3: refinement: from the sensors to Kafka.  However the API reconfigures the
    wrapper, overlapping or not, and however the methods of a group and of groups
    that run at the same time take turns: when what each method of each group has put
    is a first part of what its run puts, then each message has the document of one
    observation, in the order of the method that put it; the values that were sent
    are, in the order of the queue, one for each message, an object with the identity
    of the sensor and that document; and all are sent once the queue is empty.  A
    method that has put all its messages has told all its observations. *)
Theorem observations_reach_kafka opts self sensor_id topic config s (runs : origin -> method) :
  let stub := msg_stub self sensor_id in
  rtc (wrapper_step opts) (registered topic config) s ->
  (forall o, method_ok (runs o) /\ of_producer o (wr_put s) `prefix_of` method_puts stub (runs o)) ->
  exists told, map fst told = map fst (wr_put s) /\
    (forall o, exists docs, method_tells (runs o) docs /\ of_producer o told `prefix_of` docs /\
       (of_producer o (wr_put s) = method_puts stub (runs o) -> of_producer o told = docs)) /\
    Forall2 (fun d e => exists value, encode (JStr e.2) = Ok value /\ delivers stub d.2 value)
      (take (length (wr_sent s)) told) (wr_sent s) /\
    (log_messages s = [] -> length (wr_sent s) = length told).
Proof.
  intros stub Hs Hp. pose proof (msg_stub_ok self sensor_id) as Hstub.
  destruct (messages_told runs stub (wr_put s) Hstub eq_refl eq_refl Hp) as (told & Hf & Ht).
  exists told. pose proof (reached_none_lost opts topic config s Hs) as Hl. unfold none_lost in Hl.
  assert (Forall2 (fun d m => framed stub d.2 m) told (map snd (wr_sent s) ++ log_messages s)) as Hf2.
  { rewrite <-Hl. apply Forall2_fmap_r. eapply Forall2_impl; [exact Hf|]. by intros d p [_ ?]. }
  split_and!.
  - clear -Hf. induction Hf as [|d p told put [E _] _ IH]; [done|]. cbn. by rewrite E, IH.
  - intros o. destruct (Ht o) as [docs Hd]. pose proof (recounts_all _ _ _ _ _ Hd) as Hall.
    destruct Hd as (Hd & _ & Hpre & _). by exists docs.
  - apply Forall2_app_inv_r in Hf2 as (d1 & d2 & Hf1 & _ & ->).
    assert (length (wr_sent s) = length d1) as -> by (rewrite (Forall2_length _ _ _ Hf1); by rewrite length_map).
    rewrite take_app_length. apply (proj1 (Forall2_fmap_r snd (fun d m => framed stub d.2 m) d1 (wr_sent s))) in Hf1.
    eapply Forall2_impl; [exact Hf1|]. intros d e. by apply framed_delivers.
  - intros Hq. rewrite Hq, app_nil_r in Hf2. by rewrite (Forall2_length _ _ _ Hf2), length_map.
Qed.

(** * The sensors *)

(** A list of documents that are put one by one. *)
Lemma frames_messages stub docs end_ : blank end_ -> Json.ascii_text end_ -> Forall doc_ok docs ->
  Forall2 (framed stub) docs (map (fun d => message_of stub d ++ end_) docs).
Proof.
  intros Hb Ha Hd. apply Forall2_fmap_r, Forall_Forall2_diag. eapply Forall_impl; [exact Hd|].
  intros d Hok. split; [done|]. by exists end_.
Qed.

Lemma frames_plain stub docs : Forall doc_ok docs -> Forall2 (framed stub) docs (map (message_of stub) docs).
Proof.
  intros Hd. assert (map (message_of stub) docs = map (fun d => message_of stub d ++ []) docs) as ->
    by (apply map_ext; intros d; by rewrite app_nil_r).
  by apply frames_messages; [constructor|constructor|].
Qed.

(** A loop of which each round puts the messages of a list. *)
Lemma rounds_put stub (f : nat -> Q unit) (docss : list (list (list (ustr * json)))) q :
  (forall n docs q, docss !! n = Some docs -> f n q = (Ok tt, q ++ map (message_of stub) docs)) ->
  for_each f (seq 0 (length docss)) q = (Ok tt, q ++ map (message_of stub) (concat docss)).
Proof.
  revert q. induction docss as [|docs docss IH] using rev_ind; intros q Hf; [by rewrite app_nil_r|].
  rewrite length_app, Nat.add_1_r, seq_S, for_each_app.
  erewrite bind_step.
  2:{ apply IH. intros n ds q' Hn. apply Hf. by apply lookup_app_l_Some. }
  cbn [for_each]. erewrite bind_step.
  2:{ apply Hf. by rewrite Nat.add_0_l, list_lookup_middle. }
  rewrite concat_app, map_app, <-app_assoc. cbn [concat]. by rewrite app_nil_r.
Qed.

Lemma loop_framed {R} stub (run : nat -> Q unit) (docs_of : R -> list (list (ustr * json))) rounds :
  (forall n r q, rounds !! n = Some r -> run n q = (Ok tt, q ++ map (message_of stub) (docs_of r))) ->
  Forall (fun r => Forall doc_ok (docs_of r)) rounds ->
  Forall2 (framed stub) (concat (map docs_of rounds)) (for_each run (seq 0 (length rounds)) []).2.
Proof.
  intros Hrun Hok. rewrite <-(length_map docs_of rounds), (rounds_put stub).
  - by apply frames_plain, Forall_concat, Forall_fmap.
  - intros n docs q Hn. rewrite list_lookup_fmap in Hn.
    destruct (rounds !! n) as [r|] eqn:E; [|done]. injection Hn as <-. by apply Hrun.
Qed.

(** ** ps and netstat: the output of each round is its headers and its rows *)

Record command_run (R : Type) := CommandRun {
  cr_config : list (ustr * json);
  cr_rounds : list (list (ustr * bytes) * list (ustr * R)) }.
Arguments CommandRun {R}.
Arguments cr_config {R}.
Arguments cr_rounds {R}.

(** The output of the n-th round, with [headers] lines before the rows. *)
Definition output {R} (text : R -> ustr) (i : command_run R) (_ : list ustr) (n : nat) : lines :=
  match cr_rounds i !! n with
  | Some (headers, rows) => headers ++ map (fun e => (e.1, utf8_encode (text e.2))) rows
  | None => []
  end.

Definition rows_ok {R} (headers : nat) (ok : R -> Prop) (i : command_run R) : Prop :=
  print_interval (cr_config i) = Ok tt /\
  Forall (fun r => length r.1 = headers /\ Forall (fun e => Forall scalar e.1 /\ ok e.2) r.2) (cr_rounds i).

#[export, program] Instance ps_source (path : ustr) (self : Z) : Source (command_run ps_row) := {|
  puts stub i := (ps (output ps_text i) path self stub (cr_config i) (length (cr_rounds i)) []).2;
  tells i docs := docs = concat (map (fun r => omap (ps_doc self) r.2) (cr_rounds i));
  source_ok := rows_ok 1 ps_row_ok |}.
Next Obligation.
  intros path self stub i _ _ _ [Hp Hr]. eexists. split; [reflexivity|].
  unfold ps. erewrite bind_lift by exact Hp. rewrite Forall_lookup in Hr. apply loop_framed.
  - intros n [headers rows] q Hn. unfold output. rewrite Hn. destruct (Hr _ _ Hn) as [Hh Hrows].
    destruct headers as [|header [|? ?]]; [done| |done]. by apply ps_round_run.
  - apply Forall_lookup. intros n r Hn. apply ps_docs_ok, (Hr _ _ Hn).
Qed.

#[export, program] Instance netstat_source : Source (command_run netstat_row) := {|
  puts stub i := (netstat (output netstat_text i) stub (cr_config i) (length (cr_rounds i)) []).2;
  tells i docs := docs = concat (map (fun r => netstat_docs r.2) (cr_rounds i));
  source_ok := rows_ok 2 netstat_row_ok |}.
Next Obligation.
  intros stub i _ _ _ [Hp Hr]. eexists. split; [reflexivity|].
  unfold netstat. erewrite bind_lift by exact Hp. rewrite Forall_lookup in Hr. apply loop_framed.
  - intros n [headers rows] q Hn. unfold output. rewrite Hn. destruct (Hr _ _ Hn) as [Hh Hrows].
    destruct headers as [|h1 [|h2 [|? ?]]]; [done|done| |done]. by apply netstat_round_run.
  - apply Forall_lookup. intros n r Hn. apply netstat_docs_ok, (Hr _ _ Hn).
Qed.

(** ** The report on the command's file, which ps, netstat and lsof send beside *)

Record assess_input := AssessInput {
  ai_path : string; ai_config : list (ustr * json); ai_rounds : list (ustr * option file_stat) }.

#[export, program] Instance assess_source `{Sha512} : Source assess_input := {|
  puts stub i := (assess (Some (ai_path i)) stub (ai_config i) (ai_rounds i) []).2;
  tells i docs := docs = map (fun r => log_doc r.1 "info" (report_on_file r.2)) (ai_rounds i);
  source_ok i := print_interval (ai_config i) = Ok tt /\
    Forall (fun r => Forall scalar r.1 /\ jwf (report_on_file r.2)) (ai_rounds i) |}.
Next Obligation.
  intros Hsha stub i _ _ _ [Hp Hr]. eexists. split; [reflexivity|].
  unfold assess. erewrite bind_lift by exact Hp.
  assert (forall q, (for_each (fun r => put_log stub (log_doc r.1 "info" (report_on_file r.2))) (ai_rounds i) q).2 =
    q ++ map (message_of stub) (map (fun r => log_doc r.1 "info" (report_on_file r.2)) (ai_rounds i))) as ->.
  { induction (ai_rounds i) as [|r rounds IH]; intros q; [by rewrite app_nil_r|].
    apply Forall_cons in Hr as [_ Hr]. cbn [for_each]. erewrite bind_step by reflexivity. rewrite IH by done.
    cbn [map]. by rewrite <-app_assoc. }
  apply frames_plain, Forall_fmap. eapply Forall_impl; [exact Hr|]. intros r [Hn Hj]. by apply log_doc_ok.
Qed.

(** ** lsof: one output, reported when the command has closed it *)

Record lsof_input := LsofInput {
  li_config : list (ustr * json); li_interval : Z; li_rows : list (ustr * ustr) }.

#[export, program] Instance lsof_source : Source lsof_input := {|
  puts stub i := (lsof (fun _ _ => encoded (li_rows i)) true stub (li_config i) []).2;
  tells i docs := docs = omap lsof_doc (li_rows i);
  source_ok i := repeat_interval (li_config i) = JInt (li_interval i) /\ Forall lsof_row_ok (li_rows i) |}.
Next Obligation.
  intros stub i _ _ _ [Hz Hr]. eexists. split; [reflexivity|].
  rewrite (lsof_run _ stub (li_config i) (li_interval i) (li_rows i) []) by done.
  by apply frames_plain, lsof_docs_ok.
Qed.

(** ** A bcc tool and its consumer *)

Record bcc_input := BccInput {
  bi_tool : bcc_tool; bi_head : list (ustr * ustr); bi_rows : list (list (ustr * ustr));
  bi_times : list ustr; bi_level : Z }.

Definition bi_records (i : bcc_input) : list (ustr * list (ustr * json)) :=
  zip (bi_times i)
    (run_tool (map (fun l => utf8_encode (spaced l)) (bi_head i :: bi_rows i)) (bi_tool i)).1.

#[export, program] Instance bcc_source (fb : ustr -> Z -> bool) : Source bcc_input := {|
  puts stub i := (msg_consumer fb stub [(u "prio", JInt (bi_level i))] (bi_records i) []).2;
  tells i docs := docs =
    if bi_level i <? bt_prio (bi_tool i) then []
    else map record_doc (zip (bi_times i) (tool_records (bi_tool i) (bi_head i) (bi_rows i)));
  source_ok i :=
    let header := map lower (map fst (bi_head i)) in
    bt_header (bi_tool i) = [] /\ Forall spaced_ok (bi_head i) /\ Forall scalar (spaced (bi_head i)) /\
    header_ok header /\ Forall (row_ok header) (bi_rows i) /\ Forall (Forall scalar) (bi_times i) |}.
Next Obligation.
  intros fb stub i _ Hid Hname (Ht & Hh & Hs & Hok & Hrows & Htimes). eexists. split; [reflexivity|].
  unfold bi_records. rewrite tool_records_run by done. cbn [fst].
  pose proof (tool_records_ok fb (bi_tool i) (bi_head i) (bi_rows i) (bi_times i) (bi_level i) Hok Hrows Htimes) as Hall.
  rewrite (msg_consumer_run _ _ _ _ _ Hid Hname (bi_level i <? bt_prio (bi_tool i))).
  2:{ eapply Forall_impl; [exact Hall|]. by intros e [_ ?]. }
  cbn [snd app]. destruct (_ <? _); [constructor|].
  change (map (fun e => message_of stub (record_doc e) ++ [newline]) ?l) with
    (map (fun e => (fun d => message_of stub d ++ [newline]) (record_doc e)) l).
  rewrite <-(map_map record_doc (fun d => message_of stub d ++ [newline])).
  apply frames_messages; [by repeat constructor|by repeat constructor|].
  apply Forall_fmap. eapply Forall_impl; [exact Hall|]. by intros e [? _].
Qed.

(** ** The relay of the kernel module *)

Record kernel_input := KernelInput {
  ki_clock : nat -> ustr; ki_uuid : nat -> ustr; ki_answers : list answer }.

#[export, program] Instance kernel_source : Source kernel_input := {|
  puts stub i := rl_queue (for_each (poll_sensor (ki_clock i) (ki_uuid i) stub) (map an_sensor (ki_answers i))
    (Relay (flat_map an_arrivals (ki_answers i)) [] [] 0)).2;
  tells i docs :=
    Forall2 (fun p doc => exists n, doc = log_doc (ki_clock i n) "info" p)
      (flat_map (fun a => map record_payload (an_records a)) (ki_answers i)) docs;
  source_ok i := (forall n, Forall scalar (ki_clock i n)) /\ Forall answer_ok (ki_answers i) |}.
Next Obligation.
  intros stub i _ Hid _ [Hc Ha].
  destruct (poll_answers (ki_clock i) (ki_uuid i) stub (ki_answers i) []
    (Relay (flat_map an_arrivals (ki_answers i)) [] [] 0)) as (s' & docs & msgs & Hrun & _ & Hq & Hd & ->);
    [by intros ->|done|done|by rewrite app_nil_r|].
  exists docs. split.
  - eapply Forall2_impl; [exact Hd|]. by intros p d [_ ?].
  - rewrite Hrun. cbn [snd]. rewrite Hq. apply frames_plain. eapply Forall2_Forall_r; [exact Hd|].
    apply Forall_forall. by intros p _ d [? _].
Qed.

(** ** The NFS sensor on captured packets *)

Record nfs_input := NfsInput { ni_packets : list (ustr * option rpc_pkt); ni_state : sensor_state }.

(** What the handlers report of the packets, up to an exception, which ends the
    sensor. *)
Fixpoint nfs_documents (other_str : Layers.value -> string) (pkts : list (ustr * option rpc_pkt)) (m : mon_state)
    : list (list (ustr * json)) :=
  match pkts with
  | [] => []
  | (now, pkt) :: pkts =>
      match pkt_handler_standard other_str pkt m with
      | (Ok None, m) => nfs_documents other_str pkts m
      | (Ok (Some (level, data)), m) =>
          match action_json data with
          | Ok act => log_record now level (JObj act) :: nfs_documents other_str pkts m
          | Raise _ => []
          end
      | (Raise _, _) => []
      end
  end.

Lemma recv_pkt_run other_str now stub pkt s r m : pkt_handler_standard other_str pkt (ss_mon s) = (r, m) ->
  let after q := SensorState (ss_rpc s) m q (ss_printed s) in
  recv_pkt other_str now stub pkt s =
    match r with
    | Raise e => (Raise e, after (ss_queue s))
    | Ok None => (Ok tt, after (ss_queue s))
    | Ok (Some (level, data)) =>
        match action_json data with
        | Raise e => (Raise e, after (ss_queue s))
        | Ok act => (Ok tt, after (ss_queue s ++ [message_of stub (log_record now level (JObj act))]))
        end
    end.
Proof.
  intros E after. unfold recv_pkt. unfold bind at 1. rewrite (on_mon_run _ _ _ _ E).
  destruct r as [[[level data]|]|e]; [|done..]. unfold bind, lift. by destruct (action_json data).
Qed.

Lemma nfs_framed other_str stub pkts s : Forall (fun p => Forall scalar p.1) pkts ->
  exists msgs, ss_queue (nfs3_process_pkts other_str stub pkts s).2 = ss_queue s ++ msgs /\
    Forall2 (framed stub) (nfs_documents other_str pkts (ss_mon s)) msgs.
Proof.
  intros Ht. revert s. induction Ht as [|[now pkt] pkts Hn _ IH]; intros s.
  { exists []. by rewrite app_nil_r. }
  unfold nfs3_process_pkts in *. cbn [for_each nfs_documents fst snd]. unfold bind at 1.
  destruct (pkt_handler_standard other_str pkt (ss_mon s)) as [r m] eqn:E.
  rewrite (recv_pkt_run _ _ _ _ _ _ _ E). destruct r as [[[level data]|]|e].
  - destruct (action_json data) as [act|e] eqn:Ea; [|exists []; by rewrite app_nil_r].
    edestruct IH as (msgs & Hq & Hf). eexists (_ :: msgs). split.
    + rewrite Hq. cbn [ss_queue]. by rewrite <-app_assoc.
    + constructor; [|exact Hf]. split; [|exists []; split_and!; [constructor..|by rewrite app_nil_r]].
      apply handler_core_action_ok in E as (_ & Hnd & _).
      apply jwf_obj, log_record_wf; [done|]. by eapply action_json_wf.
  - edestruct IH as (msgs & Hq & Hf). exists msgs. split; [exact Hq|exact Hf].
  - exists []. by rewrite app_nil_r.
Qed.

#[export, program] Instance nfs_source (other_str : Layers.value -> string) : Source nfs_input := {|
  puts stub i := ss_queue (nfs3_process_pkts other_str stub (ni_packets i) (ni_state i)).2;
  tells i docs := docs = nfs_documents other_str (ni_packets i) (ss_mon (ni_state i));
  source_ok i := ss_queue (ni_state i) = [] /\ Forall (fun p => Forall scalar p.1) (ni_packets i) |}.
Next Obligation.
  intros other_str stub i _ _ _ [Hq Ht]. eexists. split; [reflexivity|].
  destruct (nfs_framed other_str stub (ni_packets i) (ni_state i) Ht) as (msgs & -> & Hf). by rewrite Hq.
Qed.

(** ** The desktop bridge on its internal queue *)

Record bridge_input := BridgeInput { di_now : ustr; di_entries : list json }.

Definition bridge_document (now : ustr) (injson : json) : list (ustr * json) :=
  log_doc now "info" (Bridge.entry_message injson).

#[export, program] Instance bridge_source : Source bridge_input := {|
  puts stub i := Bridge.outqueue (Bridge.handle_messages false (Some stub) (di_now i)
                                    (Bridge.BridgeState (di_entries i) [] 0)).2;
  tells i docs := docs = map (bridge_document (di_now i)) (di_entries i);
  source_ok i := Forall scalar (di_now i) /\ Forall jwf (di_entries i) |}.
Next Obligation.
  intros stub [now entries] _ _ _ [Hn Hw]. eexists. split; [reflexivity|]. cbn [di_now di_entries] in *.
  set (frame := fun d => message_of stub d ++ [newline]).
  assert (forall s, Bridge.outqueue (for_each (Bridge.forward false (Some stub) now) entries s).2 =
    Bridge.outqueue s ++ map frame (map (bridge_document now) entries)) as Hrun.
  { clear Hw. induction entries as [|j entries IH]; intros s; [by rewrite app_nil_r|].
    cbn [for_each]. unfold Bridge.forward at 1, Bridge.put_out, Bridge.count_msg. unfold bind, modify at 1 2.
    rewrite IH. cbn [Bridge.outqueue map]. by rewrite <-app_assoc. }
  unfold Bridge.handle_messages. rewrite bind_gets, bind_modify, Hrun. apply frames_messages.
  - by repeat constructor.
  - by repeat constructor.
  - apply Forall_fmap. eapply Forall_impl; [exact Hw|]. intros j Hj. apply log_doc_ok; [done|].
    unfold Bridge.entry_message. destruct (json_truth j); [done|]. apply jwf_obj.
    split; [by apply (bool_decide_unpack _)|]. repeat (apply Forall_cons_2; [split; apply scalar_u|]). constructor.
Qed.

(** ** The consumer of a sensor of the Windows driver, while the sensor runs *)

Record event_input := EventInput { ei_skip : bool; ei_events : list (ustr * NtStructs.ntuple) }.

#[export, program] Instance event_source : Source event_input := {|
  puts stub i := WinVirtue.consume (ei_skip i) stub (map (fun e => (true, e.1, e.2)) (ei_events i));
  tells i docs := docs = if ei_skip i then [] else map (fun e => WinVirtue.event_doc e.1 e.2) (ei_events i);
  source_ok i := Forall (fun e => Forall scalar e.1 /\ jwf (JObj (map (fun f => (u f.1, f.2)) e.2))) (ei_events i) |}.
Next Obligation.
  intros stub [skip events] _ _ _ Hok. eexists. split; [reflexivity|]. cbn [ei_skip ei_events] in *.
  destruct skip.
  - rewrite WinVirtue.consume_skip. constructor.
  - rewrite WinVirtue.consume_running by (by apply Forall_fmap, Forall_true). rewrite map_map.
    replace (map _ events) with (map (message_of stub) (map (fun e => WinVirtue.event_doc e.1 e.2) events))
      by (by rewrite map_map).
    apply frames_plain, Forall_fmap.
    eapply Forall_impl; [exact Hok|]. intros e [Hn Hj]. by apply log_doc_ok.
Qed.

(** ** A round of the process list of Windows *)

Record process_input (W : Type) := ProcessInput {
  pi_config : list (ustr * json); pi_now : nat -> ustr; pi_records : list entry; pi_before : W; pi_after : W }.
Arguments pi_config {W}.
Arguments pi_now {W}.
Arguments pi_records {W}.
Arguments pi_before {W}.
Arguments pi_after {W}.

#[export, program] Instance process_source {W} `{NtSys W} (beyond : memory) (wide : Z -> ustr)
    (exn_text : exn -> ustr) (Hwide : code_points wide) : Source (process_input W) := {|
  puts stub i := (process_round beyond wide exn_text stub (pi_config i) (pi_now i) (pi_before i, [])).2.2;
  tells i docs := docs = process_docs beyond wide (pi_config i) (pi_now i) (pi_records i);
  source_ok i := (forall n, Forall scalar (pi_now i n)) /\ chain beyond (pi_records i) /\
    answers SystemProcessInformation (csize SPI) (system_bytes (pi_records i)) (pi_before i) (pi_after i) |}.
Next Obligation.
  intros W HW beyond wide exn_text Hwide stub i _ _ _ (Hn & Hl & Ha). eexists. split; [reflexivity|].
  rewrite (process_round_run beyond wide exn_text stub _ _ _ _ _ _ Hwide Hl Ha).
  by apply frames_plain, process_docs_ok.
Qed.

(** * Witness *)

(** Two methods, kernel relays on one record each, in turns; the first message is
    sent by the first drain. *)
Definition kernel_sensor : Wrapper.config := Config [] "linux_kernel" "linux".
Definition small_run : method := Method (KernelInput (fun _ => u "now") (fun _ => u "9c") [small_answer]).
Definition small_put : list ustr := method_puts (msg_stub kernel_sensor "9f1a") small_run.
Definition small_value : ustr := default [] (head small_put).
Definition small_sent : wrapper :=
  MkWrapper [Drain (JStr (u "topic")) true] 0 [Group (JObj []) true] (Some 0%nat) [] [] [small_value]
    [((0%nat, 1%nat), small_value); ((0%nat, 0%nat), small_value)] [(0%nat, small_value)].

Lemma small_sent_reached :
  rtc (wrapper_step (Ident "" "" "" false)) (registered (JStr (u "topic")) (JObj [])) small_sent.
Proof.
  eapply rtc_l; [left; apply (step_cancels _ _ _ _ _ [] _ [])|].
  eapply rtc_l; [left; apply (step_spawns _ _ _ _ _ [] _ [])|].
  eapply rtc_l; [left; by apply (step_observes _ _ _ _ _ _ _ _ _ 0%nat (JObj []) 1%nat small_value)|].
  eapply rtc_l; [left; by apply (step_observes _ _ _ _ _ _ _ _ _ 0%nat (JObj []) 0%nat small_value)|].
  eapply rtc_l; [left; by apply (step_sends _ _ _ _ _ _ small_value [small_value] _ _ 0%nat (JStr (u "topic")))|].
  apply rtc_refl.
Qed.

Lemma small_run_ok : method_ok small_run.
Proof. split; [intros n; apply scalar_u|]. constructor; [apply small_answer_ok|constructor]. Qed.

Lemma one_each {A} (o : origin) (v : A) :
  of_producer o [((0%nat, 1%nat), v); ((0%nat, 0%nat), v)] `prefix_of` [v].
Proof.
  rewrite !of_producer_cons. change (of_producer o []) with (@nil A). cbn [fst snd].
  case_decide as E1; [rewrite decide_False by congruence; reflexivity|].
  case_decide; [reflexivity|apply prefix_nil].
Qed.

Lemma small_put_one : method_puts (msg_stub kernel_sensor "9f1a") small_run = [small_value].
Proof. by vm_compute. Qed.

Lemma observations_reach_kafka_witness :
  exists told, map fst told = [(0%nat, 1%nat); (0%nat, 0%nat)] /\
    Forall2 (fun d e => exists value, encode (JStr e.2) = Ok value /\
        delivers (msg_stub kernel_sensor "9f1a") d.2 value)
      (take 1 told) [(0%nat, small_value)].
Proof.
  destruct (observations_reach_kafka (Ident "" "" "" false) kernel_sensor "9f1a" (JStr (u "topic")) (JObj [])
    small_sent (fun _ => small_run)) as (told & Ho & _ & Hf & _).
  - apply small_sent_reached.
  - intros o. split; [apply small_run_ok|]. cbv beta. rewrite small_put_one.
    apply one_each.
  - by exists told.
Defined.
